(* ===== verification/_CoqProject ===== *)
-Q . S2P
Prelude.v
CString.v
Infrastructure.v
EntityName.v
Interaction.v
ServiceData.v
Requests.v
Forward.v
Sessions.v
Resources.v
Dispatch.v
Reads.v
Receive.v
Lifecycle.v
ClientTransport.v
TransportData.v
Udpv4.v
Serial.v
RecvThreads.v
Protocol.v
NddsData.v
AgentDb.v
DbMap.v
DbClients.v
NddsResources.v
NddsSamples.v
NddsReaders.v
NddsWriters.v
NddsReads.v
NddsFrames.v
NddsDelete.v
NddsAttach.v
NddsSessions.v
NddsWrites.v
NddsAgentLife.v
NddsXml.v
NddsVisitors.v
NddsCreate.v
AppLibrary.v
DaemonArgs.v
Daemon.v
