(* ===== verification/Prelude.v ===== *)
(** * A verification library for RTI nano-agent

    nano-agent is the agent of the DDS-XRCE protocol: small clients talk to it
    over a serial line or UDP, and it acts for them on DDS.  Its C code has three
    layers.

    - The transports ([src/src/service/AgentTransportUdpv4.c] and [Serial.c])
      receive messages and hand them to the service.
    - The XRCE service ([src/src/service/]: [Agent.c], [AgentIntf.c],
      [ProxyClient.c], [AgentTransport.c]) keeps a proxy of every client, runs its
      session with the Micro XRCE client library, decodes the submessages into
      requests, and sends replies and samples back.
    - The DDS agent ([src/dds-agent/src/impl_ndds/]) keeps sessions and resources
      and creates the DDS entities.  It calls the service back ("interface")
      when a session opens or closes, a resource is created, a read starts or data
      arrives.

    A daemon ([src/src/daemon/]) parses a command line and puts the three together.

    This library models all of it: every function that is compiled and called, and most of those
    that are not called.  The code of others (the Micro XRCE client library, the core of RTI
    Connext, the operating system) is what the models call.  Line numbers are in the manifest;
    names are those of the source.

    ** Files

    The service:

    - [Prelude]: integers of C and shared lemmas.
    - [CString]: strings of C as lists of bytes without NUL, [strstr], [strcmp].
    - [Infrastructure]: [NddsInfrastructure.c] and [dds_agent_intf.h] -- buffers,
      XCDR samples, representations and identifiers of resources, with their
      initializers, copies and comparators.
    - [EntityName]: [NddsEntityName.c] -- names of the form [a::b::c], split,
      joined and indexed.
    - [Interaction]: the programs the rest is written in.
    - [ServiceData]: the structures of [Agent.h], [ProxyClient.h] and
      [nano_agent_service.h], the calls to other code, the memory of the service.
    - [Requests]: streams, requests and replies (functions of [Agent.c] from
      [register_user_stream] to [reply_to_operation]).
    - [Forward]: samples sent to a client and the requests that track them
      ([on_data_received], [dismiss_client_fwd_data_requests], and
      [dismiss_forward_request], [on_send_complete], [on_msg_lost] of
      [ProxyClient.c]).
    - [Sessions]: CREATE_CLIENT, proxy clients, locator mappings and the session
      callbacks of [AgentIntf.c].
    - [Resources]: the callbacks of [AgentIntf.c] for resources, reads and writes.
    - [Dispatch]: [on_submsg] of [ProxyClient.c] and the handlers it calls in
      [Agent.c]; [Reads] holds the theorems on READ_DATA and GET_INFO.
    - [Receive]: [receive_message] of [Agent.c] and the [on_message_received] of
      [AgentIntf.c].
    - [Lifecycle]: creation, transports, start, stop and deletion of the agent and
      [flush_output] of [AgentTransport.c].
    - [ClientTransport]: the rest of [AgentTransport.c].

    The transports:

    - [TransportData]: what the two share, and [MessageBufferPool.c].
    - [Udpv4], [Serial]: [AgentTransportUdpv4.c] and [AgentTransportSerial.c].
    - [RecvThreads]: the automaton of a receive thread, which the threads of both refine, and
      the step relation of the threads of the UDP transport and the thread that closes it.

    The DDS agent:

    - [Protocol]: programs that follow a protocol on the history of their calls ([triple]).
    - [NddsData]: the structures of the DDS agent, its calls to Connext ([NCall]), its memory.
    - [AgentDb]: [NddsAgentDb.c], two tables behind the cursors of a REDA database; [DbMap]: the
      tables as finite maps; [DbClients]: a typing of the order in which clients use a cursor.
    - [NddsResources]: [NddsResourceNative.c], [NddsResource.c] and [NddsRefResource.c].
    - [NddsSamples]: [NddsClientSession.c], the samples of a read.
    - [NddsReaders], [NddsWriters]: [NddsReader.c] and [NddsWriter.c].
    - [NddsReads], [NddsWrites]: reading and writing, in [NddsAgent.c] and [NddsAgentIntf.c].
    - [NddsFrames]: what the operations of the database leave alone.
    - [NddsDelete], [NddsAttach]: deleting an entity with what it contains; attaching, enabling
      and detaching a resource.
    - [NddsSessions]: sessions, and the functions that clean up behind them.
    - [NddsAgentLife]: the life of the agent, its interfaces, events and the end of its database.
    - [NddsXml], [AppLibrary]: [NddsXmlResource.c] and [ApplicationLibraryXml.c].
    - [NddsVisitors]: [NddsDcpsVisitor.c] and [NddsXmlVisitor.c].
    - [NddsCreate]: [NddsResourceFactory.c] and the functions of [NddsAgent.c] and
      [NddsAgentIntf.c] that create resources and load XML.

    The daemon:

    - [DaemonArgs]: the command line ([parse_args] of [AgentDaemon.c]).
    - [Daemon]: the rest of [AgentDaemon.c], and [AgentDaemonMain.c].

    ** The model of a function

    A function of the service is a [prog] ([Interaction]): from a memory
    ([Service]: the agent and, by address, the clients, requests, write requests,
    reader states and forward requests) it makes calls, each answered by the
    environment, and returns a value and a new memory, or is undefined (C's
    undefined behaviour: a NULL or unknown pointer, an index out of range), or
    runs out of fuel.  A [Call] is a call to code that is not in the repository
    (the client library, the pools and semaphores of the RTI core, the heap) or is
    modelled separately (transports, DDS agent).  The answer of a call that calls
    the service back before it returns is the list of these callbacks; the
    service runs them, reports their results as calls ([CallbackReturn],
    [SubmsgReturn]) and then learns the result ([AgentReturn],
    [SessionReceived]).

    [spec E m s Q] is total correctness: for all answers that satisfy [E], [m]
    from [s] returns, never undefined, and its trace of calls, its value and its
    memory satisfy [Q].  [runs] and [exec] give the single runs.  What the code
    relies on is always the hypothesis [E] on answers, never a definition:
    [agent_contract] (the DDS agent calls back with the request it was given, at
    most once, and a deleted reader comes with its state), [session_contract] (a stream
    in use is found, and dismissing the send queue reports the message dismissed
    as lost), [forward_contract], [reader_contract].  Constants and pure functions
    of the client library are the class [NanoClient] with the few laws
    [NanoClientOk]; [nano_model] is an instance and [quiet_environment] an
    environment, on which the witnesses run.

    Conventions.  [NANO_CHECK_RC] is [check]; what it leaves in [rc] is the
    parameters [rc_failed] and [rc_passed], and [main_failed] for the status of the daemon.
    Buffers keep their bytes when they are returned to a pool, as in the pools of the RTI core, so that a read after
    return is visible in the trace and not hidden as undefined.
    [NANO_XRCE_Session_send] makes no call to its listener.  [NANO_PCOND] checks
    nothing in a release build and is not a test of the model.  Logging is left
    out.

    The DDS agent, the transports and the daemon are programs too, each with its own calls and
    memory: [ndds], [libs], the programs of [TransportData], [daemon].  What is a call of the
    service to the DDS agent is a function of [NddsAgentIntf.c] there, and a callback of the
    service is a call of the DDS agent ([OnSessionOpened], [OnResourceCreated], ...).  Besides
    [spec] there is [triple], where an answer may depend on the history, and [when_ends], which is
    of the runs that return.  [makes] and [preserves] say which calls a program makes and what it
    keeps of its memory; the databases of hints [makes] and [frames] prove them.  The database answers
    by the protocol [cursor_answers], in which [refuses] says which tables may refuse a new record;
    the readers by [requests_answers], which counts the deletions of conditions DDS may refuse.

    Concurrency.  A function runs alone, but for three things: [mappings_mutex] is taken and
    given; a thread of the DDS agent that waits gives its records back, and what other threads do
    to the memory meanwhile is the parameter [others]; and the receive threads and the thread that
    closes their transport are interleaved in [RecvThreads], in a [World] that says what may go
    wrong: a wake-up message is lost, a listener blocks, a permit is not given.  Other locks are
    calls without a state.  A callback does not call back but where its answer says so.

    ** What the theorems show

    - Submessages ([Dispatch], [Reads]): whatever fails, CREATE, DELETE and
      WRITE_DATA return their request once and answer the client at most once;
      READ_DATA hands the request to its reader.  The exceptions are theorems too:
      a refused READ_DATA leaks, the formats not implemented are answered OK, a
      content filter is freed while in use, a DELETE of the client waits for its
      session to close.
    - Requests and replies ([Requests]): a request owns the reply buffer it will
      need; one STATUS per request; stream storage is kept exactly on success.
    - Forwarding ([Forward]): the list of forward requests is the set of buffers
      out of the pool, through every failure; dismissing ends and drains it.
    - Sessions ([Sessions]): the mapping table maps a connecting client and keeps
      the others, under the mutex, while its length can be counted; disposal is idempotent; closing, CREATE_CLIENT
      lengths, heartbeat arithmetic, storage leaks.
    - Reception ([Receive]): messages reach the client of their key or locator.
    - Life cycle ([Lifecycle]): creation is all or an error, transports are
      finalized once, enabling, disabling, flushing.
    - Names and values ([EntityName], [Infrastructure]): parsing and joining are
      inverse, loops end, comparators are orders where they are, copies equal.
    - Transports ([Udpv4], [Serial], [RecvThreads]): initialization is all or nothing for UDP and
      leaks for serial; a receive thread ends or finds its transport active, and keeps count of its
      buffers; closing ends in a world that is [dependable], may block in another one, and may delete a
      running thread.
    - Database ([AgentDb], [DbMap], [DbClients]): its functions refine a finite map; a client that
      is well typed never misuses a cursor, also where a record is refused; keys compare as identifiers.
    - Samples and reads ([NddsSamples], [NddsReaders], [NddsReads], [NddsWrites]): what is taken
      from DDS is fresh, in order and delivered once; buffers are moved, not lost, with the
      exceptions as theorems; the header of a sample is read back.
    - Resources ([NddsAttach], [NddsDelete], [NddsCreate]): the last session deletes a resource;
      what an entity contains is deleted first in every run ([entity_deleted]), and where DDS grants it
      the recursion ends; creating one gives the lock of the table back, but once too often where it
      could not be taken again after a read was cancelled.
    - XML ([NddsXml], [NddsVisitors], [AppLibrary]): a library that is written is read; a walk is
      the list of its visits; the failures that are reported as success.
    - Sessions and the life of the agent ([NddsSessions], [NddsAgentLife]): a reset that is refused
      and a resource that was deleted block a session forever; events are told once; the parts of
      an agent are given back wholly or not at all.
    - Daemon ([DaemonArgs], [Daemon]): the command line means what it says, field by field; a run deletes what it
      made, in order.

    ** Fuel

    Loops over a list of records are structural.  The loops that follow answers
    of the environment take fuel: [dismiss_loop] needs more than [n * (n + 1)]
    for [n] pending requests, [forward_loop] more than the length of the message
    chain, [count_loop] more than the length of the name, all proved enough in the
    theorems of their files; [close_loop] and [flush_output] need as many rounds as
    the environment makes them do, and their theorems say what happens when it
    never stops.

    The receive loop of a transport has one unit for each test of [active].  Loops over a table
    take more than its rows; [dismiss_samples_loop]
    more than the samples in DDS; [delete_target] the levels of a kind of entity; the walk over the
    resources of a session more than these; the loops of XML more than the elements ahead, which are
    shorter at every step ([element_shorter]), or the siblings.  Two loops of the code jump back to
    their own label and never end while DDS refuses ([delete_condition_loop], [trigger_loop]).

    ** Not modelled

    - [NddsClient.c] is not compiled.  [Log.c] and the text the program prints are output only.
    - Tests and examples ([src/nano-tests]) are not part of the program, and neither is the code
      under [#if 0].
    - The Windows variants of the daemon and of the transports.
    - Calls to Connext, the client library, sockets, threads and the heap are parameters: what a
      theorem relies on of their answers is its hypothesis. *)

From Stdlib Require Import ZArith Lia.
From stdpp Require Import base tactics list gmap.

(** ** Machine integers

    C's fixed width unsigned integers are integers of [Z] kept in range by
    these reductions. *)

Definition u8 (x : Z) : Z := x mod 256.
Definition u16 (x : Z) : Z := x mod 65536.
Definition u32 (x : Z) : Z := x mod 4294967296.
Definition u64 (x : Z) : Z := x mod 18446744073709551616.

Lemma u32_small (x : Z) : (0 <= x < 4294967296)%Z -> u32 x = x.
Proof. apply Z.mod_small. Qed.

Lemma u32_bound (x : Z) : (0 <= u32 x < 4294967296)%Z.
Proof. apply Z.mod_pos_bound. lia. Qed.

Lemma u16_small (x : Z) : (0 <= x < 65536)%Z -> u16 x = x.
Proof. apply Z.mod_small. Qed.

(** ** Comparison functions

    A C comparator returns a negative, zero or positive [int]. *)

Definition sign_flip (a b : Z) : Prop := Z.sgn a = (- Z.sgn b)%Z.

Create HintDb nano discriminated.
#[export] Hint Constants Transparent : nano.

(** ** Lists *)

Lemma sublist_same_length {A} (l k : list A) : l `sublist_of` k -> length l = length k -> l = k.
Proof.
  induction 1 as [| x l k H IH | x l k H IH]; cbn; intros Hl; [done | |].
  - f_equal. apply IH. lia.
  - apply sublist_length in H. lia.
Qed.
