(* ===== verification/CString.v ===== *)
(** * C strings

    A NUL terminated [char*] is the list of the characters before its
    terminator.  [strlen] and [strstr] are the functions of the C standard
    library that the sources call; a pointer into a string is the suffix it
    points at. *)

From Stdlib Require Import Ascii String ZArith Lia.
From stdpp Require Import base tactics list.

Abbreviation cstr := (list ascii).

Definition of_string (s : string) : cstr := String.list_ascii_of_string s.

(** [strlen], before it is stored in an integer variable. *)
Definition strlen (s : cstr) : nat := length s.

Fixpoint is_prefix (needle hay : cstr) : bool :=
  match needle, hay with
  | [], _ => true
  | _ :: _, [] => false
  | n :: ns, h :: hs => Ascii.eqb n h && is_prefix ns hs
  end.

(** [strstr hay needle]: the offset of the first occurrence of [needle], or
    [None] for a NULL result. *)
Fixpoint strstr (hay needle : cstr) : option nat :=
  if is_prefix needle hay then Some 0%nat
  else match hay with
       | [] => None
       | _ :: hs => match strstr hs needle with
                    | Some k => Some (S k)
                    | None => None
                    end
       end.

Lemma is_prefix_spec (needle hay : cstr) :
  is_prefix needle hay = true <-> exists tl, hay = needle ++ tl.
Proof.
  revert hay; induction needle as [|n ns IH]; intros hay; simpl.
  - split; [eauto | done].
  - destruct hay as [|h hs].
    + split; [done | intros [tl Htl]; done].
    + rewrite andb_true_iff, IH, Ascii.eqb_eq.
      split; [intros [-> [tl ->]]; eauto | intros [tl Htl]].
      simplify_eq; eauto.
Qed.

Lemma is_prefix_app (needle tl : cstr) : is_prefix needle (needle ++ tl) = true.
Proof. apply is_prefix_spec; eauto. Qed.

(** What a non NULL result of [strstr] tells: the text before the hit, the
    needle and the rest make up the string. *)
Lemma strstr_split (needle hay : cstr) (k : nat) :
  strstr hay needle = Some k ->
  hay = take k hay ++ needle ++ drop (k + length needle) hay
  /\ (k + length needle <= length hay)%nat.
Proof.
  revert k; induction hay as [|h hs IH]; intros k; simpl.
  - destruct needle; simpl; [|done]. intros [= <-]. simpl. auto.
  - destruct (is_prefix needle (h :: hs)) eqn:Hp.
    + intros [= <-]. apply is_prefix_spec in Hp as [tl Htl].
      pose proof (f_equal length Htl) as Hlen. rewrite length_app in Hlen. simpl in Hlen.
      split; [| lia]. rewrite Htl. change (0 + length needle)%nat with (length needle).
      by rewrite drop_app_length.
    + destruct (strstr hs needle) as [j|] eqn:Hj; [|done].
      intros [= <-]. destruct (IH j eq_refl) as [Heq Hle].
      simpl. split; [f_equal; exact Heq | lia].
Qed.

(** A hit is the first one: the needle is no prefix of an earlier suffix. *)
Lemma strstr_first (needle hay : cstr) (k j : nat) :
  strstr hay needle = Some k -> (j < k)%nat -> is_prefix needle (drop j hay) = false.
Proof.
  revert k j; induction hay as [|h hs IH]; intros k j; simpl.
  - destruct needle; simpl; [|done]. intros [= <-]; lia.
  - destruct (is_prefix needle (h :: hs)) eqn:Hp; [intros [= <-]; lia |].
    destruct (strstr hs needle) as [i|] eqn:Hi; [|done].
    intros [= <-] Hlt. destruct j as [|j]; [done |]. simpl. apply (IH i j); auto; lia.
Qed.

Lemma strstr_none (needle hay : cstr) :
  strstr hay needle = None -> forall j, (j <= length hay)%nat -> is_prefix needle (drop j hay) = false.
Proof.
  induction hay as [|h hs IH]; intros Hs j Hj; simpl in *.
  - destruct needle; [done |]. replace j with 0%nat by lia. done.
  - destruct (is_prefix needle (h :: hs)) eqn:Hp; [done |].
    destruct (strstr hs needle) eqn:Hi; [done |].
    destruct j as [|j]; [done |]. simpl. apply IH; [done | lia].
Qed.

Lemma strstr_intro (needle hay : cstr) (k : nat) :
  is_prefix needle (drop k hay) = true ->
  (forall j, (j < k)%nat -> is_prefix needle (drop j hay) = false) ->
  strstr hay needle = Some k.
Proof.
  revert k; induction hay as [|h hs IH]; intros k Hk Hlt; simpl.
  - rewrite drop_nil in Hk. rewrite Hk. destruct k as [|k]; [done |].
    specialize (Hlt 0%nat ltac:(lia)). simpl in *. congruence.
  - destruct k as [|k]; [simpl in Hk; by rewrite Hk |].
    pose proof (Hlt 0%nat ltac:(lia)) as H0. simpl in H0. rewrite H0.
    rewrite (IH k); [done | done |].
    intros j Hj. apply (Hlt (S j)). lia.
Qed.

(** A search that succeeds in a string succeeds at the same place in any
    extension of it. *)
Lemma is_prefix_app_long (needle a b : cstr) :
  (length needle <= length a)%nat -> is_prefix needle (a ++ b) = is_prefix needle a.
Proof.
  revert a; induction needle as [|n ns IH]; intros [|h hs] Hle; simpl in *; try done; try lia.
  rewrite IH; [done | lia].
Qed.

Lemma strstr_app (needle a b : cstr) (k : nat) :
  strstr a needle = Some k -> strstr (a ++ b) needle = Some k.
Proof.
  intros Hk. pose proof (strstr_split _ _ _ Hk) as [Hsplit Hle].
  apply strstr_intro.
  - rewrite drop_app_le by lia. rewrite is_prefix_app_long by (rewrite length_drop; lia).
    rewrite Hsplit, drop_app_ge; rewrite length_take; [| lia].
    replace (k - k `min` length a)%nat with 0%nat by lia. apply is_prefix_app.
  - intros j Hj. rewrite drop_app_le by lia.
    rewrite is_prefix_app_long by (rewrite length_drop; lia). eapply strstr_first; eauto.
Qed.

Lemma strstr_zero (needle hay : cstr) :
  strstr hay needle = Some 0%nat <-> is_prefix needle hay = true.
Proof.
  split; [intros H | intros H; apply strstr_intro; [done | lia]].
  pose proof (strstr_split _ _ _ H) as [Hs _]. rewrite take_0, app_nil_l in Hs.
  rewrite Hs. apply is_prefix_app.
Qed.
