(* ===== verification/Infrastructure.v ===== *)
(** * DDS agent data types: buffers, representations, resource identifiers

    Models [dds-agent/src/impl_ndds/NddsInfrastructure.c] on the types of
    [dds-agent/include/dds_agent/dds_agent_intf.h].

    - A [D2S2_Buffer] carries the address of its bytes (0 for NULL), the bytes
      found there and its [data_len] field.
    - The unions [D2S2_ResourceIdValue] and [D2S2_ResourceRepresentationValue]
      are inductive types whose constructor is the member written last;
      reading another member is a type confusion, made visible by the
      accessors that return [None].
    - The functions of RTI Connext (string duplication, heap allocation and the
      primitive comparators) are the fields of [ConnextCore]; [ConnextCoreOk]
      states what their documentation promises. *)

From Stdlib Require Import ZArith Lia Ascii String.
From stdpp Require Import base tactics list.
From S2P Require Import Prelude.
From S2P Require Import CString.

(** ** The RTI Connext functions in use *)

Abbreviation guid := (list Z).

Class ConnextCore := {
  (** [DDS_String_dup]: a fresh copy, or NULL when allocation fails *)
  DDS_String_dup : option cstr -> option cstr;
  (** [DDS_String_replace(&old, src)]: the value left in the variable *)
  DDS_String_replace : option cstr -> option cstr -> option cstr;
  (** [RTIOsapiHeap_allocateArray] of [n] bytes: an address, 0 on failure *)
  heap_allocateArray : Z -> Z;
  REDAString_compare : option cstr -> option cstr -> Z;
  RTIOsapiMemory_compare : list Z -> list Z -> Z;
  REDAOrderedDataType_compareUInt : Z -> Z -> Z;
  DDS_GUID_compare : guid -> guid -> Z
}.

(** A comparator that decides equality and is antisymmetric in sign. *)
Record comparator {A : Type} (P : A -> Prop) (cmp : A -> A -> Z) : Prop := {
  cmp_zero : forall x y, P x -> P y -> cmp x y = 0%Z <-> x = y;
  cmp_flip : forall x y, P x -> P y -> sign_flip (cmp x y) (cmp y x)
}.
Arguments cmp_zero {A P cmp} _ _ _ _ _.
Arguments cmp_flip {A P cmp} _ _ _ _ _.

Class ConnextCoreOk (C : ConnextCore) : Prop := {
  dup_ok : forall s r, DDS_String_dup (Some s) = Some r -> r = s;
  dup_null : DDS_String_dup None = None;
  replace_ok : forall old s r, DDS_String_replace old (Some s) = Some r -> r = s;
  string_cmp : comparator is_Some REDAString_compare;
  memory_cmp : forall n, comparator (fun b => length b = n) RTIOsapiMemory_compare;
  uint_cmp : comparator (fun _ => True) REDAOrderedDataType_compareUInt;
  guid_cmp : comparator (fun _ => True) DDS_GUID_compare
}.

(** ** Data types *)

Inductive D2S2_ResourceIdKind :=
  | RESOURCEIDKIND_NONE | RESOURCEIDKIND_GUID | RESOURCEIDKIND_REF.

Inductive D2S2_ResourceIdValue :=
  | IdValue_ref (ref : option cstr)
  | IdValue_guid (g : guid).

Record D2S2_ResourceId := {
  id_kind : D2S2_ResourceIdKind;
  id_value : D2S2_ResourceIdValue
}.

Definition D2S2_RESOURCEID_INITIALIZER : D2S2_ResourceId :=
  {| id_kind := RESOURCEIDKIND_NONE; id_value := IdValue_ref None |}.

Record D2S2_Buffer := {
  data_addr : Z;
  data_bytes : list Z;
  data_len : Z
}.

Definition D2S2_BUFFER_INITIALIZER : D2S2_Buffer :=
  {| data_addr := 0; data_bytes := []; data_len := 0 |}.

Inductive D2S2_XcdrEncodingKind :=
  | XCDRENCODINGKIND_UNKNOWN | XCDRENCODINGKIND_1 | XCDRENCODINGKIND_1_PL
  | XCDRENCODINGKIND_2 | XCDRENCODINGKIND_2_PL.

Record D2S2_XcdrData := {
  encoding : D2S2_XcdrEncodingKind;
  little_endian : bool;
  buffer : D2S2_Buffer
}.

Definition D2S2_XCDRDATA_INITIALIZER : D2S2_XcdrData :=
  {| encoding := XCDRENCODINGKIND_UNKNOWN; little_endian := false;
     buffer := D2S2_BUFFER_INITIALIZER |}.

Inductive D2S2_ResourceRepresentationFormat :=
  | FORMAT_UNKNOWN | FORMAT_XML | FORMAT_JSON | FORMAT_REF | FORMAT_BIN.

(** The three string members of the union share one [char*]. *)
Inductive D2S2_ResourceRepresentationValue :=
  | ReprValue_str (s : option cstr)
  | ReprValue_bin (b : D2S2_XcdrData).

Record D2S2_ResourceRepresentation := {
  fmt : D2S2_ResourceRepresentationFormat;
  repr_value : D2S2_ResourceRepresentationValue
}.

Definition D2S2_RESOURCEREPRESENTATION_INITIALIZER : D2S2_ResourceRepresentation :=
  {| fmt := FORMAT_UNKNOWN; repr_value := ReprValue_bin D2S2_XCDRDATA_INITIALIZER |}.

Inductive D2S2_ResourceKind :=
  | RESOURCEKIND_UNKNOWN | RESOURCEKIND_DOMAINPARTICIPANT | RESOURCEKIND_TOPIC
  | RESOURCEKIND_PUBLISHER | RESOURCEKIND_SUBSCRIBER | RESOURCEKIND_DATAWRITER
  | RESOURCEKIND_DATAREADER | RESOURCEKIND_DOMAIN | RESOURCEKIND_TYPE
  | RESOURCEKIND_QOSPROFILE | RESOURCEKIND_APPLICATION.

Record D2S2_Resource := {
  res_kind : D2S2_ResourceKind;
  res_id : D2S2_ResourceId
}.

#[export] Instance D2S2_ResourceIdKind_eq_dec : EqDecision D2S2_ResourceIdKind.
Proof. solve_decision. Defined.
#[export] Instance D2S2_ResourceIdValue_eq_dec : EqDecision D2S2_ResourceIdValue.
Proof. solve_decision. Defined.
#[export] Instance D2S2_ResourceId_eq_dec : EqDecision D2S2_ResourceId.
Proof. solve_decision. Defined.
#[export] Instance D2S2_XcdrEncodingKind_eq_dec : EqDecision D2S2_XcdrEncodingKind.
Proof. solve_decision. Defined.
#[export] Instance D2S2_ResourceRepresentationFormat_eq_dec :
  EqDecision D2S2_ResourceRepresentationFormat.
Proof. solve_decision. Defined.
#[export] Instance D2S2_ResourceKind_eq_dec : EqDecision D2S2_ResourceKind.
Proof. solve_decision. Defined.

(** Reading the [ref] member of the identifier union: [None] is a type
    confusion, [Some None] the NULL pointer. *)
Definition id_ref (id : D2S2_ResourceId) : option (option cstr) :=
  match id_value id with IdValue_ref r => Some r | IdValue_guid _ => None end.

Definition id_guid (id : D2S2_ResourceId) : option guid :=
  match id_value id with IdValue_guid g => Some g | IdValue_ref _ => None end.

Definition repr_str (r : D2S2_ResourceRepresentation) : option cstr :=
  match repr_value r with ReprValue_str s => s | ReprValue_bin _ => None end.

Definition repr_bin (r : D2S2_ResourceRepresentation) : D2S2_XcdrData :=
  match repr_value r with
  | ReprValue_bin b => b
  | ReprValue_str _ => D2S2_XCDRDATA_INITIALIZER
  end.

Definition set_encoding (e : D2S2_XcdrEncodingKind) (x : D2S2_XcdrData) : D2S2_XcdrData :=
  {| encoding := e; little_endian := little_endian x; buffer := buffer x |}.

Definition set_buffer (b : D2S2_Buffer) (x : D2S2_XcdrData) : D2S2_XcdrData :=
  {| encoding := encoding x; little_endian := little_endian x; buffer := b |}.

(** What a finalizer hands to [DDS_String_free] (or to the buffer's
    finalizer): a pointer read from the union member written last, or the bytes
    of another member taken for a pointer. *)
Inductive freed :=
  | FreedNothing
  | FreedString (s : option cstr)
  | FreedXcdr (x : D2S2_XcdrData)
  | FreedConfused.

(** ** Operations *)

Section operations.
Context {C : ConnextCore}.

(** *** NDDSA_StringUtil *)

(** [alloc] tells whether the string of the joined length is allocated; the
    three copies fill it from its start and the last write ends it. *)
Definition NDDSA_StringUtil_append (alloc : nat -> bool) (s1 sep s2 : cstr) : option cstr :=
  let s1_len := strlen s1 in
  let sep_len := strlen sep in
  let s2_len := strlen s2 in
  let str_len := (s1_len + sep_len + s2_len)%nat in
  if alloc str_len
  then Some (take str_len (take s1_len s1 ++ take sep_len sep ++ take s2_len s2))
  else None.

(** *** D2S2_Buffer *)

Definition D2S2_Buffer_is_valid (b : D2S2_Buffer) : bool :=
  negb (data_addr b =? 0)%Z && (0 <? data_len b)%Z.

(** [data] is the argument's address with the bytes behind it.  [self] is
    left alone when the arguments are refused, zeroed when allocation
    fails. *)
Definition D2S2_Buffer_initialize
    (self : D2S2_Buffer) (addr : Z) (data : list Z) (len : Z) : bool * D2S2_Buffer :=
  if (addr =? 0)%Z || (len =? 0)%Z then (false, self)
  else
    let a := heap_allocateArray len in
    if (a =? 0)%Z then (false, D2S2_BUFFER_INITIALIZER)
    else (true, {| data_addr := a; data_bytes := take (Z.to_nat len) data; data_len := len |}).

Definition D2S2_Buffer_finalize (self : D2S2_Buffer) : D2S2_Buffer :=
  if negb (data_addr self =? 0)%Z
  then {| data_addr := 0; data_bytes := []; data_len := 0 |}
  else {| data_addr := data_addr self; data_bytes := data_bytes self; data_len := 0 |}.

(** The bytes are copied in place when the lengths agree; otherwise the old
    array is freed and a new one allocated.  A failed allocation leaves the
    old [data_len] next to a NULL pointer. *)
Definition D2S2_Buffer_copy (dst src : D2S2_Buffer) : bool * D2S2_Buffer :=
  let copied a n := {| data_addr := a;
                       data_bytes := take (Z.to_nat n) (data_bytes src);
                       data_len := n |} in
  if negb (data_len dst =? data_len src)%Z then
    let a := heap_allocateArray (data_len src) in
    if (a =? 0)%Z
    then (false, {| data_addr := 0; data_bytes := []; data_len := data_len dst |})
    else (true, copied a (data_len src))
  else (true, copied (data_addr dst) (data_len src)).

Definition D2S2_Buffer_compare (left right : D2S2_Buffer) : Z :=
  if (data_addr left =? 0)%Z then
    if (data_addr right =? 0)%Z then 0%Z else 1%Z
  else if (data_addr right =? 0)%Z then (-1)%Z
  else if (data_addr left =? data_addr right)%Z && (data_len left =? data_len right)%Z
  then 0%Z
  else if negb (data_len left =? data_len right)%Z
  then REDAOrderedDataType_compareUInt (data_len left) (data_len right)
  else RTIOsapiMemory_compare
         (take (Z.to_nat (data_len left)) (data_bytes left))
         (take (Z.to_nat (data_len left)) (data_bytes right)).

(** *** D2S2_XcdrData *)

Definition D2S2_XcdrEncodingKind_is_valid (e : D2S2_XcdrEncodingKind) : bool :=
  match e with
  | XCDRENCODINGKIND_1 | XCDRENCODINGKIND_1_PL
  | XCDRENCODINGKIND_2 | XCDRENCODINGKIND_2_PL => true
  | XCDRENCODINGKIND_UNKNOWN => false
  end.

Definition D2S2_XcdrData_initialize
    (enc : D2S2_XcdrEncodingKind) (b : D2S2_Buffer) : bool * D2S2_XcdrData :=
  let self := D2S2_XCDRDATA_INITIALIZER in
  if negb (D2S2_XcdrEncodingKind_is_valid enc) || negb (D2S2_Buffer_is_valid b)
  then (false, self)
  else
    let self := set_encoding enc self in
    let '(ok, b') := D2S2_Buffer_copy (buffer self) b in
    (ok, set_buffer b' self).

Definition D2S2_XcdrData_finalize (self : D2S2_XcdrData) : D2S2_XcdrData :=
  set_encoding XCDRENCODINGKIND_UNKNOWN
    (set_buffer (D2S2_Buffer_finalize (buffer self)) self).

(** [little_endian] is not among the fields that are copied. *)
Definition D2S2_XcdrData_copy (dst src : D2S2_XcdrData) : bool * D2S2_XcdrData :=
  let '(ok, b) := D2S2_Buffer_copy (buffer dst) (buffer src) in
  if ok then (true, set_encoding (encoding src) (set_buffer b dst))
  else (false, set_buffer b dst).

Definition D2S2_XcdrData_compare (left right : D2S2_XcdrData) : Z :=
  if negb (bool_decide (encoding left = encoding right)) then
    match encoding left with
    | XCDRENCODINGKIND_1 => -1
    | XCDRENCODINGKIND_1_PL =>
        match encoding right with XCDRENCODINGKIND_1 => 1 | _ => -1 end
    | XCDRENCODINGKIND_2 =>
        match encoding right with
        | XCDRENCODINGKIND_1 | XCDRENCODINGKIND_1_PL => 1 | _ => -1 end
    | XCDRENCODINGKIND_2_PL =>
        match encoding right with
        | XCDRENCODINGKIND_1 | XCDRENCODINGKIND_1_PL | XCDRENCODINGKIND_2 => 1
        | _ => -1 end
    | XCDRENCODINGKIND_UNKNOWN =>
        match encoding right with
        | XCDRENCODINGKIND_1 | XCDRENCODINGKIND_1_PL
        | XCDRENCODINGKIND_2 | XCDRENCODINGKIND_2_PL => 1
        | XCDRENCODINGKIND_UNKNOWN => -1 end
    end%Z
  else
    if little_endian left then
      if little_endian right then D2S2_Buffer_compare (buffer left) (buffer right) else (-1)%Z
    else
      if little_endian right then 1%Z else D2S2_Buffer_compare (buffer left) (buffer right).

(** *** D2S2_ResourceRepresentation *)

(** The string initializers overwrite the union whatever it held. *)
Definition D2S2_ResourceRepresentation_initialize_xml (xml : option cstr)
    : bool * D2S2_ResourceRepresentation :=
  let v := DDS_String_dup xml in
  (if v is Some _ then true else false, {| fmt := FORMAT_XML; repr_value := ReprValue_str v |}).

Definition D2S2_ResourceRepresentation_initialize_json (json : option cstr)
    : bool * D2S2_ResourceRepresentation :=
  let v := DDS_String_dup json in
  (if v is Some _ then true else false, {| fmt := FORMAT_JSON; repr_value := ReprValue_str v |}).

Definition D2S2_ResourceRepresentation_initialize_ref (ref : option cstr)
    : bool * D2S2_ResourceRepresentation :=
  let v := DDS_String_dup ref in
  (if v is Some _ then true else false, {| fmt := FORMAT_REF; repr_value := ReprValue_str v |}).

Definition D2S2_ResourceRepresentation_initialize_bin
    (self : D2S2_ResourceRepresentation) (bin : D2S2_XcdrData)
    : bool * D2S2_ResourceRepresentation :=
  let '(ok, b) := D2S2_XcdrData_copy (repr_bin self) bin in
  (ok, {| fmt := FORMAT_BIN; repr_value := ReprValue_bin b |}).

(** What is freed depends on the format; the structure is zeroed after. *)
Definition D2S2_ResourceRepresentation_finalize
    (self : D2S2_ResourceRepresentation) : freed * D2S2_ResourceRepresentation :=
  (match fmt self with
   | FORMAT_XML | FORMAT_JSON | FORMAT_REF =>
       match repr_value self with ReprValue_str s => FreedString s | _ => FreedConfused end
   | FORMAT_BIN =>
       match repr_value self with ReprValue_bin x => FreedXcdr x | _ => FreedConfused end
   | FORMAT_UNKNOWN => FreedNothing
   end,
   D2S2_RESOURCEREPRESENTATION_INITIALIZER).

Definition D2S2_ResourceRepresentation_copy (dst src : D2S2_ResourceRepresentation)
    : bool * D2S2_ResourceRepresentation :=
  let dst := if bool_decide (fmt dst = fmt src) then dst
             else snd (D2S2_ResourceRepresentation_finalize dst) in
  match fmt src with
  | FORMAT_XML | FORMAT_JSON | FORMAT_REF =>
      let v := DDS_String_replace (repr_str dst) (repr_str src) in
      match v with
      | None => (false, {| fmt := fmt dst; repr_value := ReprValue_str None |})
      | Some _ => (true, {| fmt := fmt src; repr_value := ReprValue_str v |})
      end
  | FORMAT_BIN =>
      let '(ok, b) := D2S2_XcdrData_copy (repr_bin dst) (repr_bin src) in
      (ok, {| fmt := if ok then fmt src else fmt dst; repr_value := ReprValue_bin b |})
  | FORMAT_UNKNOWN => (false, dst)
  end.

Definition D2S2_ResourceRepresentation_compare
    (left right : D2S2_ResourceRepresentation) : Z :=
  if negb (bool_decide (fmt left = fmt right)) then
    match fmt left with
    | FORMAT_XML => match fmt right with FORMAT_JSON | FORMAT_BIN => -1 | _ => 1 end
    | FORMAT_JSON => match fmt right with FORMAT_XML | FORMAT_REF => 1 | _ => -1 end
    | FORMAT_REF => -1
    | FORMAT_BIN => match fmt right with
                    | FORMAT_XML | FORMAT_JSON | FORMAT_REF => -1 | _ => -1 end
    | FORMAT_UNKNOWN => 1
    end%Z
  else
    match fmt left with
    | FORMAT_XML | FORMAT_JSON | FORMAT_REF =>
        REDAString_compare (repr_str left) (repr_str right)
    | FORMAT_BIN => D2S2_XcdrData_compare (repr_bin left) (repr_bin right)
    | FORMAT_UNKNOWN => 1%Z
    end.

(** *** D2S2_ResourceId *)

(** The result is decided by the argument, not by the replaced string.  The
    union is read as a string whatever it holds: the identifier is expected
    to be a reference or freshly initialized. *)
Definition D2S2_ResourceId_initialize_ref (self : D2S2_ResourceId) (ref : option cstr)
    : bool * D2S2_ResourceId :=
  (if ref is Some _ then true else false,
   {| id_kind := RESOURCEIDKIND_REF;
      id_value := IdValue_ref (DDS_String_replace (default None (id_ref self)) ref) |}).

Definition D2S2_ResourceId_initialize_guid (self : D2S2_ResourceId) (g : guid)
    : bool * D2S2_ResourceId :=
  (true, {| id_kind := RESOURCEIDKIND_REF; id_value := IdValue_guid g |}).

Definition D2S2_ResourceId_finalize (self : D2S2_ResourceId) : freed * D2S2_ResourceId :=
  (match id_kind self with
   | RESOURCEIDKIND_REF =>
       match id_ref self with Some s => FreedString s | None => FreedConfused end
   | _ => FreedNothing
   end,
   D2S2_RESOURCEID_INITIALIZER).

Definition D2S2_ResourceId_copy (dst src : D2S2_ResourceId) : bool * D2S2_ResourceId :=
  let dst := if bool_decide (id_kind dst = id_kind src) then dst
             else snd (D2S2_ResourceId_finalize dst) in
  match id_kind src with
  | RESOURCEIDKIND_REF =>
      let v := DDS_String_replace (default None (id_ref dst)) (default None (id_ref src)) in
      match v with
      | None => (false, {| id_kind := id_kind dst; id_value := IdValue_ref None |})
      | Some _ => (true, {| id_kind := id_kind src; id_value := IdValue_ref v |})
      end
  | RESOURCEIDKIND_GUID =>
      (true, {| id_kind := id_kind src;
                id_value := IdValue_guid (default [] (id_guid src)) |})
  | RESOURCEIDKIND_NONE => (false, dst)
  end.

Definition D2S2_ResourceId_compare (left right : D2S2_ResourceId) : Z :=
  if negb (bool_decide (id_kind left = id_kind right)) then
    match id_kind left with
    | RESOURCEIDKIND_GUID => -1
    | RESOURCEIDKIND_REF => 1
    | RESOURCEIDKIND_NONE => 1
    end%Z
  else
    match id_kind left with
    | RESOURCEIDKIND_GUID =>
        DDS_GUID_compare (default [] (id_guid left)) (default [] (id_guid right))
    | RESOURCEIDKIND_REF =>
        REDAString_compare (default None (id_ref left)) (default None (id_ref right))
    | RESOURCEIDKIND_NONE => 1%Z
    end.

(** [None] when a union member other than the one written is read. *)
Definition D2S2_ResourceId_as_ref (id : D2S2_ResourceId) : option (bool * option cstr) :=
  match id_kind id with
  | RESOURCEIDKIND_REF =>
      match id_ref id with Some r => Some (true, r) | None => None end
  | _ => Some (false, None)
  end.

(** *** D2S2_Resource *)

Definition D2S2_Resource_initialize
    (self : D2S2_Resource) (kind : D2S2_ResourceKind) (id : D2S2_ResourceId)
    : bool * D2S2_Resource :=
  let '(ok, id') := D2S2_ResourceId_copy (res_id self) id in
  (ok, {| res_kind := kind; res_id := id' |}).

Definition D2S2_Resource_finalize (self : D2S2_Resource) : freed * D2S2_Resource :=
  let '(f, id) := D2S2_ResourceId_finalize (res_id self) in
  (f, {| res_kind := RESOURCEKIND_UNKNOWN; res_id := id |}).

(** The kind of the resource is not copied. *)
Definition D2S2_Resource_copy (dst src : D2S2_Resource) : bool * D2S2_Resource :=
  let '(ok, id') := D2S2_ResourceId_copy (res_id dst) (res_id src) in
  (ok, {| res_kind := res_kind dst; res_id := id' |}).

Definition D2S2_Resource_compare (left right : D2S2_Resource) : Z :=
  D2S2_ResourceId_compare (res_id left) (res_id right).

(** *** D2S2_ResourceIdSeq: the element operations of the generated sequence *)

Definition D2S2_ResourceId_initialize_w_params : bool * D2S2_ResourceId :=
  (true, D2S2_RESOURCEID_INITIALIZER).

Definition D2S2_ResourceId_finalize_w_params (self : D2S2_ResourceId) : bool * D2S2_ResourceId :=
  (true, snd (D2S2_ResourceId_finalize self)).

End operations.

(** ** Well-formed values *)

(** The union holds the member its tag names, and a reference is not NULL. *)
Definition id_initialized (id : D2S2_ResourceId) : Prop :=
  match id_kind id with
  | RESOURCEIDKIND_REF => exists s, id_value id = IdValue_ref (Some s)
  | RESOURCEIDKIND_GUID => exists g, id_value id = IdValue_guid g
  | RESOURCEIDKIND_NONE => False
  end.

(** A non NULL buffer points at [data_len] bytes. *)
Definition buffer_wf (b : D2S2_Buffer) : Prop :=
  data_addr b <> 0%Z -> Z.of_nat (length (data_bytes b)) = data_len b.

(** Two buffers at one address of one length show the same bytes. *)
Definition coherent (l r : D2S2_Buffer) : Prop :=
  data_addr l = data_addr r -> data_len l = data_len r -> data_bytes l = data_bytes r.

(** What the comparison of two buffers is meant to decide. *)
Definition same_contents (l r : D2S2_Buffer) : Prop :=
  (data_addr l = 0%Z <-> data_addr r = 0%Z)
  /\ (data_addr l <> 0%Z -> data_bytes l = data_bytes r).

(** The pairs of different formats the comparator orders the same way in both
    directions. *)
Definition format_conflict (l r : D2S2_ResourceRepresentationFormat) : bool :=
  match l, r with
  | FORMAT_BIN, (FORMAT_XML | FORMAT_JSON | FORMAT_REF)
  | (FORMAT_XML | FORMAT_JSON | FORMAT_REF), FORMAT_BIN
  | FORMAT_XML, FORMAT_UNKNOWN | FORMAT_UNKNOWN, FORMAT_XML => true
  | _, _ => false
  end.

(** ** Lemmas *)

Lemma sign_flip_sym (a b : Z) : sign_flip a b -> sign_flip b a.
Proof. unfold sign_flip. lia. Qed.

Lemma sign_flip_zero : sign_flip 0 0.
Proof. done. Qed.

Lemma sign_flip_lt_gt : sign_flip (-1) 1.
Proof. done. Qed.

Lemma sign_flip_gt_lt : sign_flip 1 (-1).
Proof. done. Qed.

#[export] Hint Resolve sign_flip_zero sign_flip_lt_gt sign_flip_gt_lt : nano.

(** Splits on every [=?] of the goal and of the hypotheses. *)
Ltac split_eqb :=
  repeat match goal with
         | |- context [Z.eqb ?a ?b] => destruct (Z.eqb_spec a b)
         | H : context [Z.eqb ?a ?b] |- _ => destruct (Z.eqb_spec a b)
         end; cbn [andb orb negb] in *.

Section lemmas.
Context {C : ConnextCore} {COk : ConnextCoreOk C}.

Lemma buffer_take_all (b : D2S2_Buffer) :
  buffer_wf b -> data_addr b <> 0%Z -> take (Z.to_nat (data_len b)) (data_bytes b) = data_bytes b.
Proof. intros Hwf Hne. apply take_ge. specialize (Hwf Hne). lia. Qed.

Lemma Buffer_compare_zero (l r : D2S2_Buffer) :
  buffer_wf l -> buffer_wf r -> coherent l r ->
  D2S2_Buffer_compare l r = 0%Z <-> same_contents l r.
Proof.
  intros Hl Hr Hc. unfold D2S2_Buffer_compare, same_contents.
  destruct (Z.eqb_spec (data_addr l) 0) as [El|El];
    destruct (Z.eqb_spec (data_addr r) 0) as [Er|Er]; try (split; [intros; discriminate | intros [? _]; lia]).
  - split; [| done]. intros _; split; [split; done | done].
  - specialize (Hl El). specialize (Hr Er).
    assert (Hlen : data_len l <> data_len r -> data_bytes l <> data_bytes r)
      by (intros Hne Heq; rewrite Heq in Hl; lia).
    destruct (Z.eqb_spec (data_len l) (data_len r)) as [Ed|Ed].
    + destruct (Z.eqb_spec (data_addr l) (data_addr r)) as [Ea|Ea]; cbn [andb negb].
      * split; [intros _; split; [lia | auto] | done].
      * rewrite !take_ge by lia.
        rewrite (cmp_zero (memory_cmp (length (data_bytes l)))) by lia.
        split; [intros ->; split; [lia | done] | intros [_ Hb]; auto].
    + rewrite andb_false_r; cbn [negb].
      rewrite (cmp_zero uint_cmp) by done.
      split; [lia | intros [_ Hb]; destruct (Hlen Ed); auto].
Qed.

Lemma Buffer_compare_flip (l r : D2S2_Buffer) :
  buffer_wf l -> buffer_wf r ->
  sign_flip (D2S2_Buffer_compare l r) (D2S2_Buffer_compare r l).
Proof.
  intros Hl Hr. unfold D2S2_Buffer_compare.
  destruct (Z.eqb_spec (data_addr l) 0) as [El|El];
    destruct (Z.eqb_spec (data_addr r) 0) as [Er|Er]; auto with nano.
  specialize (Hl El). specialize (Hr Er).
  rewrite (Z.eqb_sym (data_addr r)), (Z.eqb_sym (data_len r)).
  destruct (Z.eqb_spec (data_len l) (data_len r)) as [Ed|Ed]; cbn [negb].
  - destruct (data_addr l =? data_addr r)%Z; cbn [andb]; [auto with nano |].
    rewrite Ed. apply (cmp_flip (memory_cmp (Z.to_nat (data_len r)))); apply length_take_le; lia.
  - rewrite andb_false_r. by apply (cmp_flip uint_cmp).
Qed.

Lemma replace_some (old : option cstr) (s r : cstr) :
  DDS_String_replace old (Some s) = Some r -> r = s.
Proof. apply replace_ok. Qed.

Lemma Buffer_copy_ok (dst src d : D2S2_Buffer) :
  D2S2_Buffer_copy dst src = (true, d) -> buffer_wf src -> data_addr src <> 0%Z ->
  data_bytes d = data_bytes src /\ data_len d = data_len src.
Proof.
  intros Hc Hwf Hne. unfold D2S2_Buffer_copy in Hc.
  repeat case_match; simplify_eq; simpl; by rewrite buffer_take_all.
Qed.
End lemmas.

(** ** Properties *)

(** [D2S2_XcdrData_compare] orders serialized samples: exchanging its
    arguments flips the sign of its result, and it is zero exactly when
    encoding, endianness and buffer contents agree.  The encodings are ordered
    1 < 1_PL < 2 < 2_PL < UNKNOWN by the nested switches. *)
Theorem XcdrData_compare_order {C : ConnextCore} {COk : ConnextCoreOk C}
    (l r : D2S2_XcdrData)
    (Hl : buffer_wf (buffer l)) (Hr : buffer_wf (buffer r))
    (Hc : coherent (buffer l) (buffer r)) :
  sign_flip (D2S2_XcdrData_compare l r) (D2S2_XcdrData_compare r l)
  /\ (D2S2_XcdrData_compare l r = 0%Z <->
      encoding l = encoding r /\ little_endian l = little_endian r
      /\ same_contents (buffer l) (buffer r)).
Proof.
  pose proof (Buffer_compare_flip _ _ Hl Hr) as Hf.
  pose proof (Buffer_compare_zero _ _ Hl Hr Hc) as Hz.
  unfold D2S2_XcdrData_compare.
  destruct l as [[] [] bl], r as [[] [] br]; cbn in *;
    (split; [auto with nano | (rewrite Hz; tauto) || (split; [discriminate | intros (? & ? & ?); discriminate])]).
Qed.

(** [D2S2_ResourceRepresentation_compare] on two different formats is
    antisymmetric except on the pairs of [format_conflict]: BIN against XML,
    JSON or REF is smaller whichever side it is on, and XML against UNKNOWN is
    greater on both sides. *)
Theorem ResourceRepresentation_compare_conflicts {C : ConnextCore}
    (l r : D2S2_ResourceRepresentation) (Hne : fmt l <> fmt r) :
  sign_flip (D2S2_ResourceRepresentation_compare l r) (D2S2_ResourceRepresentation_compare r l)
  <-> format_conflict (fmt l) (fmt r) = false.
Proof.
  unfold D2S2_ResourceRepresentation_compare.
  destruct l as [[] vl], r as [[] vr]; cbn in *; try congruence;
    (split; [done || (intros H; cbv in H; discriminate) | auto with nano || discriminate]).
Qed.

(** copying an initialized resource identifier over any other identifier
    either gives an identifier equal to the source, or fails because the
    string could not be duplicated; a GUID copy never fails. *)
Theorem ResourceId_copy_correct {C : ConnextCore} {COk : ConnextCoreOk C}
    (dst src d : D2S2_ResourceId) (ok : bool)
    (Hsrc : id_initialized src) (Hcopy : D2S2_ResourceId_copy dst src = (ok, d)) :
  (ok = true -> d = src /\ D2S2_ResourceId_compare d src = 0%Z)
  /\ (ok = false -> id_kind src = RESOURCEIDKIND_REF
                    /\ exists old, DDS_String_replace old (default None (id_ref src)) = None).
Proof.
  destruct src as [[] v]; cbn in Hsrc; [done | |];
    destruct Hsrc as [x Hx]; cbn in Hx; subst v; unfold D2S2_ResourceId_copy in Hcopy; cbn in Hcopy.
  - simplify_eq. split; [intros _ | done]. split; [done |].
    unfold D2S2_ResourceId_compare; cbn. by apply (cmp_zero guid_cmp).
  - case_match eqn:Hrep; simplify_eq.
    + apply replace_some in Hrep as ->. split; [intros _ | done]. split; [done |].
      unfold D2S2_ResourceId_compare; cbn. by apply (cmp_zero string_cmp).
    + split; [done | intros _]. split; [done | eauto].
Qed.

(** [D2S2_XcdrData_copy] of a sample with a non NULL buffer duplicates the
    encoding and the bytes but keeps the endianness flag of the destination, so
    that the copy compares equal to the source only if the flags agreed
    before. *)
Theorem XcdrData_copy_endianness {C : ConnextCore} {COk : ConnextCoreOk C}
    (dst src d : D2S2_XcdrData)
    (Hwf : buffer_wf (buffer src)) (Hnn : data_addr (buffer src) <> 0%Z)
    (Hcopy : D2S2_XcdrData_copy dst src = (true, d)) :
  encoding d = encoding src
  /\ data_bytes (buffer d) = data_bytes (buffer src)
  /\ little_endian d = little_endian dst
  /\ (little_endian dst <> little_endian src -> D2S2_XcdrData_compare d src <> 0%Z).
Proof.
  unfold D2S2_XcdrData_copy in Hcopy.
  destruct (D2S2_Buffer_copy _ _) as [[] b] eqn:Hb; simplify_eq; cbn.
  destruct (Buffer_copy_ok _ _ _ Hb Hwf Hnn) as [Hbytes _].
  split_and!; [done | done | done |].
  intros Hne. unfold D2S2_XcdrData_compare; cbn.
  rewrite bool_decide_eq_true_2 by done; cbn.
  destruct (little_endian dst), (little_endian src); done.
Qed.

(** an identifier made by [D2S2_ResourceId_initialize_guid] is tagged as a
    reference: reading it as a reference, or finalizing it, takes the bytes of
    the GUID for a string pointer, and it differs from the GUID identifier the
    callers compare it with. *)
Theorem ResourceId_initialize_guid_confused {C : ConnextCore}
    (self : D2S2_ResourceId) (g : guid) :
  let '(ok, id) := D2S2_ResourceId_initialize_guid self g in
  ok = true
  /\ D2S2_ResourceId_as_ref id = None
  /\ fst (D2S2_ResourceId_finalize id) = FreedConfused
  /\ D2S2_ResourceId_compare
       {| id_kind := RESOURCEIDKIND_GUID; id_value := IdValue_guid g |} id = (-1)%Z.
Proof. done. Qed.

(** ** Witnesses *)

(** A concrete instance of the Connext functions: allocation succeeds at an
    address derived from the length, comparison is lexicographic. *)
Fixpoint lex {A} (cmp : A -> A -> Z) (l r : list A) : Z :=
  match l, r with
  | [], [] => 0
  | [], _ => -1
  | _, [] => 1
  | a :: l', b :: r' => if (cmp a b =? 0)%Z then lex cmp l' r' else cmp a b
  end%Z.

Definition zcmp (a b : Z) : Z := (Z.sgn (a - b))%Z.

Definition ascii_cmp (a b : Ascii.ascii) : Z :=
  zcmp (Z.of_nat (Ascii.nat_of_ascii a)) (Z.of_nat (Ascii.nat_of_ascii b)).

#[export] Instance core_model : ConnextCore := {|
  DDS_String_dup := fun s => s;
  DDS_String_replace := fun _ s => s;
  heap_allocateArray := fun n => (4096 + n)%Z;
  REDAString_compare := fun a b =>
    match a, b with
    | Some a, Some b => lex ascii_cmp a b
    | None, None => 0 | None, _ => -1 | _, None => 1
    end%Z;
  RTIOsapiMemory_compare := lex zcmp;
  REDAOrderedDataType_compareUInt := zcmp;
  DDS_GUID_compare := lex zcmp
|}.

Lemma lex_zero {A} (cmp : A -> A -> Z) (H : forall a b, cmp a b = 0%Z <-> a = b) (l r : list A) :
  lex cmp l r = 0%Z <-> l = r.
Proof.
  revert r; induction l as [|a l IH]; intros [|b r]; cbn; try done.
  destruct (Z.eqb_spec (cmp a b) 0) as [E|E].
  - rewrite IH. apply H in E as ->. naive_solver.
  - split; [lia |]. intros [= -> ->]. destruct E. by apply H.
Qed.

Lemma lex_flip {A} (cmp : A -> A -> Z) (Hz : forall a b, cmp a b = 0%Z <-> a = b)
    (H : forall a b, sign_flip (cmp a b) (cmp b a)) (l r : list A) :
  sign_flip (lex cmp l r) (lex cmp r l).
Proof.
  revert r; induction l as [|a l IH]; intros [|b r]; cbn; try done.
  destruct (Z.eqb_spec (cmp a b) 0) as [E|E]; destruct (Z.eqb_spec (cmp b a) 0) as [E'|E']; auto.
  - apply Hz in E as ->. destruct E'. by apply Hz.
  - apply Hz in E' as ->. destruct E. by apply Hz.
Qed.

Lemma zcmp_zero (a b : Z) : zcmp a b = 0%Z <-> a = b.
Proof. unfold zcmp. lia. Qed.

Lemma zcmp_flip (a b : Z) : sign_flip (zcmp a b) (zcmp b a).
Proof. unfold zcmp, sign_flip. lia. Qed.

Lemma ascii_cmp_zero (a b : Ascii.ascii) : ascii_cmp a b = 0%Z <-> a = b.
Proof.
  unfold ascii_cmp. rewrite zcmp_zero. split; [| by intros ->].
  intros H. rewrite <- (Ascii.ascii_nat_embedding a), <- (Ascii.ascii_nat_embedding b).
  f_equal. lia.
Qed.

Lemma ascii_cmp_flip (a b : Ascii.ascii) : sign_flip (ascii_cmp a b) (ascii_cmp b a).
Proof. apply zcmp_flip. Qed.

#[export] Instance core_model_ok : ConnextCoreOk core_model.
Proof.
  split; cbn; try (intros; congruence).
  - split; intros [x|] [y|]; try (intros [? [=]] || intros ? [? [=]]; done).
    + intros _ _. rewrite (lex_zero _ ascii_cmp_zero). naive_solver.
    + intros _ _. apply (lex_flip _ ascii_cmp_zero ascii_cmp_flip).
  - split; intros x y _ _; [apply (lex_zero _ zcmp_zero) | apply (lex_flip _ zcmp_zero zcmp_flip)].
  - split; intros x y _ _; [apply zcmp_zero | apply zcmp_flip].
  - split; intros x y _ _; [apply (lex_zero _ zcmp_zero) | apply (lex_flip _ zcmp_zero zcmp_flip)].
Defined.

Definition sample_a : D2S2_XcdrData :=
  {| encoding := XCDRENCODINGKIND_1; little_endian := true;
     buffer := {| data_addr := 16; data_bytes := [0; 1]%Z; data_len := 2 |} |}.
Definition sample_b : D2S2_XcdrData :=
  {| encoding := XCDRENCODINGKIND_2; little_endian := true;
     buffer := {| data_addr := 32; data_bytes := [7; 1]%Z; data_len := 2 |} |}.

Lemma XcdrData_compare_order_witness :
  sign_flip (D2S2_XcdrData_compare sample_a sample_b) (D2S2_XcdrData_compare sample_b sample_a).
Proof. apply (XcdrData_compare_order sample_a sample_b); [done | done | intros [=]]. Defined.

Lemma ResourceRepresentation_compare_conflicts_witness :
  let bin := {| fmt := FORMAT_BIN; repr_value := ReprValue_bin sample_a |} in
  let xml := {| fmt := FORMAT_XML; repr_value := ReprValue_str (Some []) |} in
  ~ sign_flip (D2S2_ResourceRepresentation_compare bin xml)
              (D2S2_ResourceRepresentation_compare xml bin).
Proof.
  intros bin xml H.
  apply (ResourceRepresentation_compare_conflicts bin xml) in H; [| discriminate].
  discriminate H.
Defined.

Definition id_foo : D2S2_ResourceId :=
  {| id_kind := RESOURCEIDKIND_REF; id_value := IdValue_ref (Some (of_string "Foo")) |}.

Lemma ResourceId_copy_correct_witness :
  fst (D2S2_ResourceId_copy D2S2_RESOURCEID_INITIALIZER id_foo) = true
  /\ snd (D2S2_ResourceId_copy D2S2_RESOURCEID_INITIALIZER id_foo) = id_foo.
Proof.
  split; [reflexivity |].
  apply (ResourceId_copy_correct D2S2_RESOURCEID_INITIALIZER id_foo _ true); [| reflexivity | reflexivity].
  eexists; reflexivity.
Defined.

Lemma XcdrData_copy_endianness_witness :
  D2S2_XcdrData_compare (snd (D2S2_XcdrData_copy D2S2_XCDRDATA_INITIALIZER sample_a)) sample_a <> 0%Z.
Proof.
  apply (XcdrData_copy_endianness D2S2_XCDRDATA_INITIALIZER sample_a);
    [intros _; reflexivity | discriminate | reflexivity | discriminate].
Defined.
