(* ===== verification/EntityName.v ===== *)
(** * Entity names: references split at "::"

    Models [dds-agent/src/impl_ndds/NddsEntityName.c].  A reference such as
    "Lib::App::Pub" names a resource; [D2S2_EntityName] holds its components.

    The [DDS_UnsignedLong] variables are integers of [Z] reduced by [u32]; the
    pointers into the reference are offsets.  The [do]/[while] loop of
    [D2S2_EntityName_count_ref_components] does not always end, so it runs on
    fuel and [None] is an unfinished loop.  The array of components is a list
    whose unwritten entries are [None]. *)

From Stdlib Require Import ZArith Lia Ascii String.
From stdpp Require Import base tactics list.
From S2P Require Import Prelude.
From S2P Require Import CString.
From S2P Require Import Infrastructure.

Definition REF_SEP : cstr := of_string "::".
Definition REF_SEP_LEN : Z := 2.

(** ** Counting the components *)

Record count_state := {
  components_count : Z;
  ch_i : Z;
  ref_head : nat;
  ref_start : Z
}.

Record count_result := {
  valid_ref : bool;
  count_out : Z;
  len_out : Z;
  start_out : Z
}.

Definition count_invalid : count_result :=
  {| valid_ref := false; count_out := 0; len_out := 0; start_out := 0 |}.

Inductive count_control :=
  | CountInvalid
  | CountNext (st : count_state) (again : bool).

(** One iteration of the loop body, with the value of its condition. *)
Definition count_step (ref : cstr) (ref_len : Z) (st : count_state) : count_control :=
  let advance consumed sep_found :=
    let head' := (ref_head st + Z.to_nat consumed)%nat in
    let ch' := u32 (Z.of_nat head') in
    CountNext {| components_count := u32 (components_count st + 1);
                 ch_i := ch'; ref_head := head'; ref_start := ref_start st |}
              (sep_found && (ch' <? ref_len)%Z) in
  match strstr (drop (ref_head st) ref) REF_SEP with
  | Some 0%nat =>
      if (ch_i st =? 0)%Z
      then CountNext {| components_count := components_count st;
                        ch_i := ch_i st; ref_head := ref_head st;
                        ref_start := u32 (ref_start st + REF_SEP_LEN) |}
                     (ch_i st <? ref_len)%Z
      else CountInvalid
  | Some sep => advance (u32 (Z.of_nat sep + REF_SEP_LEN)) true
  | None => advance (u32 (ref_len - Z.of_nat (ref_head st))) false
  end.

Fixpoint count_loop (fuel : nat) (ref : cstr) (ref_len : Z) (st : count_state)
    : option count_result :=
  match fuel with
  | O => None
  | S fuel =>
      match count_step ref ref_len st with
      | CountInvalid => Some count_invalid
      | CountNext st' true => count_loop fuel ref ref_len st'
      | CountNext st' false =>
          Some {| valid_ref := true; count_out := components_count st';
                  len_out := ref_len; start_out := ref_start st' |}
      end
  end.

Definition count_init : count_state :=
  {| components_count := 0; ch_i := 0; ref_head := 0; ref_start := 0 |}.

Definition D2S2_EntityName_count_ref_components (fuel : nat) (ref : cstr)
    : option count_result :=
  let ref_len := u32 (Z.of_nat (strlen ref)) in
  if (ref_len =? 0)%Z then Some count_invalid
  else count_loop fuel ref ref_len count_init.

(** ** Parsing the components *)

(** Freeing sets each entry to NULL. *)
Definition D2S2_EntityName_free_ref_components (components : list (option cstr)) (size : Z)
    : list (option cstr) :=
  replicate (Nat.min (Z.to_nat size) (length components)) None
  ++ drop (Z.to_nat size) components.

(** The [for] loop: at most [n] more iterations are possible before [i]
    reaches [size].  [string_ok i] tells whether the string of entry [i] is
    allocated. *)
Fixpoint parse_loop (string_ok : Z -> bool) (n : nat) (ref : cstr) (size i remaining : Z)
    (head : nat) (components : list (option cstr)) : option (list (option cstr)) :=
  match n with
  | O => Some components
  | S n =>
      if (i <? size)%Z && (0 <? remaining)%Z then
        let '(nxt_len, head', remaining') :=
          match strstr (drop head ref) REF_SEP with
          | Some nxt_end =>
              let nxt_len := u32 (Z.of_nat nxt_end) in
              (nxt_len, (head + nxt_end + 2)%nat, u32 (remaining - (nxt_len + REF_SEP_LEN)))
          | None => (remaining, head, 0%Z)
          end in
        if string_ok i then
          let component := take (Z.to_nat nxt_len) (drop head ref) in
          parse_loop string_ok n ref size (u32 (i + 1)) remaining' head'
            (<[Z.to_nat i := Some component]> components)
        else None
      else Some components
  end.

(** [None]: the counting loop did not end.  [Some None]: the function returns
    false. *)
Definition D2S2_EntityName_parse_ref_components (fuel : nat)
    (array_ok : bool) (string_ok : Z -> bool) (ref : cstr)
    : option (option (list (option cstr) * Z)) :=
  match D2S2_EntityName_count_ref_components fuel ref with
  | None => None
  | Some r =>
      if negb (valid_ref r) then Some None
      else if negb array_ok then Some None
      else
        let size := count_out r in
        match parse_loop string_ok (Z.to_nat size) ref size (start_out r) (len_out r) 0
                (replicate (Z.to_nat size) None) with
        | Some components => Some (Some (components, size))
        | None => Some None
        end
  end.

(** ** The entity name *)

Record D2S2_EntityName := {
  components : list (option cstr);
  depth : Z
}.

Definition D2S2_ENTITYNAME_INITIALIZER : D2S2_EntityName :=
  {| components := []; depth := 0 |}.

(** [None] when a loop does not end or the identifier's union is read through
    the wrong member. *)
Definition D2S2_EntityName_from_id (fuel : nat) (array_ok : bool) (string_ok : Z -> bool)
    (self : D2S2_EntityName) (id : D2S2_ResourceId) : option (bool * D2S2_EntityName) :=
  match D2S2_ResourceId_as_ref id with
  | None => None
  | Some (false, _) => Some (false, self)
  | Some (true, None) => None
  | Some (true, Some ref) =>
      match D2S2_EntityName_parse_ref_components fuel array_ok string_ok ref with
      | None => None
      | Some None => Some (false, {| components := []; depth := 0 |})
      | Some (Some (cs, size)) => Some (true, {| components := cs; depth := size |})
      end
  end.

(** [self->components[i]]: [None] past the array or for an unwritten entry. *)
Definition component_at (self : D2S2_EntityName) (i : Z) : option cstr :=
  match components self !! Z.to_nat i with Some (Some c) => Some c | _ => None end.

(** First loop of [to_ref]: the length of the result, [n] iterations left. *)
Fixpoint ref_len_loop (self : D2S2_EntityName) (n : nat) (i : Z) (ref_len : Z) : option Z :=
  match n with
  | O => Some ref_len
  | S n =>
      match component_at self i with
      | None => None
      | Some c =>
          let ref_len := if (0 <? i)%Z then u32 (ref_len + REF_SEP_LEN) else ref_len in
          ref_len_loop self n (i + 1) (u32 (ref_len + Z.of_nat (strlen c)))
      end
  end.

(** Second loop: the bytes written to the buffer so far are [out]. *)
Fixpoint ref_copy_loop (self : D2S2_EntityName) (n : nat) (i : Z) (ref_len : Z) (out : cstr)
    : option cstr :=
  match n with
  | O => Some out
  | S n =>
      if (Z.of_nat (length out) <? ref_len)%Z then
        match component_at self i with
        | None => None
        | Some c =>
            let out := if (0 <? i)%Z then out ++ REF_SEP else out in
            ref_copy_loop self n (i + 1) ref_len (out ++ c)
        end
      else Some out
  end.

(** [None] is undefined behaviour (a component is read that was never
    written); [Some None] is the result false. *)
Definition D2S2_EntityName_to_ref (alloc_ok : bool) (self : D2S2_EntityName) (max_depth : Z)
    : option (option cstr) :=
  if (depth self <? max_depth)%Z then Some None
  else
    match ref_len_loop self (Z.to_nat max_depth) 0 0 with
    | None => None
    | Some ref_len =>
        if negb alloc_ok then Some None
        else
          match ref_copy_loop self (Z.to_nat max_depth) 0 ref_len [] with
          | None => None
          | Some out => Some (Some (take (Z.to_nat ref_len) out))
          end
    end.

(** [None] is an access outside the array of components. *)
Definition D2S2_EntityName_component (self : D2S2_EntityName) (d : Z) : option (option cstr) :=
  if (depth self <? d)%Z then Some None
  else match component_at self (u32 (d - 1)) with
       | Some c => Some (Some c)
       | None => None
       end.

Definition D2S2_EntityName_leaf (self : D2S2_EntityName) : option cstr :=
  if (0 <? depth self)%Z then component_at self (depth self - 1) else None.

Definition D2S2_EntityName_root (self : D2S2_EntityName) : option cstr :=
  if (0 <? depth self)%Z then component_at self 0 else None.

Definition D2S2_EntityName_finalize (self : D2S2_EntityName) : D2S2_EntityName :=
  {| components := []; depth := 0 |}.

(** ** Specification

    [join] is the reference built from a list of components; a component is
    well formed when it is not empty and the first separator found after it is
    the one that ends it.  A last component is only required not to hold a
    separator. *)

Fixpoint join (cs : list cstr) : cstr :=
  match cs with
  | [] => []
  | [c] => c
  | c :: cs' => c ++ REF_SEP ++ join cs'
  end.

Definition wf_inner (c : cstr) : Prop :=
  c <> [] /\ strstr (c ++ REF_SEP) REF_SEP = Some (length c).

Definition wf_last (c : cstr) : Prop := c <> [] /\ strstr c REF_SEP = None.

Fixpoint wf_components (cs : list cstr) : Prop :=
  match cs with
  | [] => False
  | [c] => wf_last c
  | c :: cs' => wf_inner c /\ wf_components cs'
  end.

(** [split_ref] is the reference definition of the splitting: fuel bounds the
    number of components, [Some None] is a reference with an empty inner
    component. *)
Fixpoint split_ref (fuel : nat) (s : cstr) : option (option (list cstr)) :=
  match fuel with
  | O => None
  | S fuel =>
      match strstr s REF_SEP with
      | None => Some (Some [s])
      | Some 0%nat => Some None
      | Some k =>
          match drop (k + 2) s with
          | [] => Some (Some [take k s])
          | rest => match split_ref fuel rest with
                    | Some (Some cs) => Some (Some (take k s :: cs))
                    | r => r
                    end
          end
      end
  end.

(** ** Lemmas *)

Section split.

Lemma split_ref_fuel (fuel : nat) (s : cstr) :
  (length s < fuel)%nat -> exists r, split_ref fuel s = Some r.
Proof.
  revert s; induction fuel as [|fuel IH]; intros s Hlt; simpl; [lia |].
  destruct (strstr s REF_SEP) as [[|k]|] eqn:Hs; [eauto | | eauto].
  apply strstr_split in Hs as [_ Hle]. simpl in Hle.
  destruct (drop (S k + 2) s) as [|h t] eqn:Hd; [eauto |].
  destruct (IH (h :: t)) as [r Hr]; [rewrite <- Hd, length_drop; lia |].
  rewrite Hr. destruct r; eauto.
Qed.

Lemma split_ref_mono (f1 f2 : nat) (s : cstr) r :
  split_ref f1 s = Some r -> (f1 <= f2)%nat -> split_ref f2 s = Some r.
Proof.
  revert f2 s r; induction f1 as [|f1 IH]; intros [|f2] s r H Hle; simpl in *; try done; try lia.
  destruct (strstr s REF_SEP) as [[|k]|]; try done.
  destruct (drop (S k + 2) s) as [|h t]; [done |].
  destruct (split_ref f1 (h :: t)) as [r1|] eqn:H1; [| done].
  rewrite (IH f2 _ _ H1) by lia. done.
Qed.

Lemma split_ref_cons_shape (fuel : nat) (s : cstr) cs :
  split_ref fuel s = Some (Some cs) -> cs <> [].
Proof.
  destruct fuel as [|fuel]; simpl; [done |]. intros H. repeat case_match; simplify_eq; done.
Qed.

(** The split parts make up the reference, but for a final separator, and
    none of them is empty. *)
Lemma split_ref_join (fuel : nat) (s : cstr) cs :
  s <> [] -> split_ref fuel s = Some (Some cs) ->
  (s = join cs \/ s = join cs ++ REF_SEP) /\ Forall (fun c => c <> []) cs.
Proof.
  revert s cs; induction fuel as [|fuel IH]; intros s cs Hne; simpl; [done |].
  destruct (strstr s REF_SEP) as [[|k]|] eqn:Hs; [done | | intros [= <-]; auto].
  pose proof (strstr_split _ _ _ Hs) as [Heq Hle].
  change (length REF_SEP) with 2%nat in *.
  assert (Htk : take (S k) s <> []).
  { intros Hn. apply (f_equal length) in Hn. rewrite length_take in Hn. cbn [length] in Hn. lia. }
  destruct (drop (S k + 2) s) as [|h t] eqn:Hd.
  - intros [= <-]. rewrite app_nil_r in Heq. simpl. auto.
  - destruct (split_ref fuel (h :: t)) as [[cs'|]|] eqn:Hr; [| done | done].
    intros [= <-]. destruct (IH (h :: t) cs' ltac:(done) Hr) as [Hj Hf].
    pose proof (split_ref_cons_shape _ _ _ Hr) as Hcs.
    split; [| by constructor].
    destruct cs' as [|c' cs'']; [done |].
    remember (take (S k) s) as c0 eqn:E. clear E. rewrite Heq. clear Heq.
    change (join (c0 :: c' :: cs'')) with (c0 ++ REF_SEP ++ join (c' :: cs'')).
    destruct Hj as [Hj | Hj]; rewrite Hj; [left; done | right; by rewrite <- !app_assoc].
Qed.

Lemma split_ref_last (fuel : nat) (c : cstr) :
  wf_last c -> (1 <= fuel)%nat -> split_ref fuel c = Some (Some [c]).
Proof. intros [_ Hn] Hle. destruct fuel; [lia |]. cbn [split_ref]. by rewrite Hn. Qed.

Lemma strstr_inner (c tl : cstr) :
  wf_inner c -> strstr (c ++ REF_SEP ++ tl) REF_SEP = Some (length c).
Proof. intros [_ H]. rewrite app_assoc. by apply strstr_app. Qed.

Lemma split_ref_inner (fuel : nat) (c tl : cstr) cs :
  wf_inner c -> tl <> [] -> split_ref fuel tl = Some (Some cs) ->
  split_ref (S fuel) (c ++ REF_SEP ++ tl) = Some (Some (c :: cs)).
Proof.
  intros Hc Htl Hr. cbn [split_ref]. rewrite strstr_inner by done.
  destruct Hc as [Hne _]. destruct (length c) as [|k] eqn:Hk; [by apply nil_length_inv in Hk |].
  rewrite <- Hk. rewrite take_app_length, <- drop_drop, drop_app_length.
  change (drop 2 (REF_SEP ++ tl)) with tl. destruct tl; [done |]. by rewrite Hr.
Qed.

Lemma join_nonempty cs : wf_components cs -> join cs <> [].
Proof.
  destruct cs as [|c [|c' cs]]; [done | |].
  - by intros [H _].
  - cbn. intros [[H _] _] Hn. apply app_eq_nil in Hn as [? _]. done.
Qed.

Lemma split_ref_wf (cs : list cstr) (fuel : nat) :
  wf_components cs -> (length cs <= fuel)%nat -> split_ref fuel (join cs) = Some (Some cs).
Proof.
  revert fuel; induction cs as [|c cs IH]; intros fuel Hwf Hle; [done |].
  destruct cs as [|c' cs].
  - by apply split_ref_last.
  - destruct Hwf as [Hc Hcs]. destruct fuel as [|fuel]; [cbn in Hle; lia |].
    change (join (c :: c' :: cs)) with (c ++ REF_SEP ++ join (c' :: cs)).
    apply split_ref_inner; [done | by apply join_nonempty | apply IH; [done | cbn in *; lia]].
Qed.
End split.

Section loops.
Context (ref : cstr) (Hlen : (Z.of_nat (length ref) < 4294967296)%Z).

Let ref_len := Z.of_nat (length ref).

(** The counting loop, started after a separator or at the start of a
    reference that has none there, follows [split_ref]. *)
Lemma count_loop_split (fuel head : nat) (c : Z) :
  (head < length ref)%nat ->
  (head = 0%nat -> is_prefix REF_SEP ref = false) ->
  (0 <= c)%Z -> (c + Z.of_nat (length ref) < 4294967296 + Z.of_nat head)%Z ->
  count_loop fuel ref ref_len
    {| components_count := c; ch_i := Z.of_nat head; ref_head := head; ref_start := 0 |}
  = match split_ref fuel (drop head ref) with
    | None => None
    | Some None => Some count_invalid
    | Some (Some cs) =>
        Some {| valid_ref := true; count_out := u32 (c + Z.of_nat (length cs));
                len_out := ref_len; start_out := 0 |}
    end.
Proof.
  revert head c; induction fuel as [|fuel IH]; intros head c Hlt H0 Hc Hcl; simpl; [done |].
  unfold count_step; cbn [ref_head ch_i components_count ref_start].
  assert (Hdl : length (drop head ref) = (length ref - head)%nat) by apply length_drop.
  destruct (strstr (drop head ref) REF_SEP) as [[|k]|] eqn:Hs.
  - apply strstr_zero in Hs. destruct (Z.eqb_spec (Z.of_nat head) 0) as [E|E]; [| done].
    assert (head = 0%nat) as -> by lia. rewrite drop_0 in Hs. rewrite H0 in Hs; done.
  - apply strstr_split in Hs as [_ Hle]. change (length REF_SEP) with 2%nat in Hle.
    unfold REF_SEP_LEN. rewrite (u32_small (Z.of_nat (S k) + 2)) by lia.
    replace (head + Z.to_nat (Z.of_nat (S k) + 2))%nat with (head + (S k + 2))%nat by lia.
    rewrite (u32_small (Z.of_nat (head + (S k + 2)))) by lia.
    rewrite (u32_small (c + 1)) by lia.
    rewrite drop_drop. cbn [andb].
    destruct (Z.ltb_spec (Z.of_nat (head + (S k + 2))) ref_len) as [L|L].
    + rewrite IH by (unfold ref_len in *; lia).
      destruct (drop (head + (S k + 2)) ref) as [|h t] eqn:Hd.
      * apply (f_equal length) in Hd. rewrite length_drop in Hd. cbn [length] in Hd. unfold ref_len in *. lia.
      * destruct (split_ref fuel (h :: t)) as [[cs|]|]; try done.
        simpl length. do 2 f_equal. f_equal. lia.
    + rewrite (drop_ge ref) by (unfold ref_len in *; lia).
      simpl length. rewrite u32_small by lia. done.
  - rewrite (u32_small (ref_len - Z.of_nat head)) by (unfold ref_len; lia).
    cbn [andb components_count ref_start length].
    rewrite !u32_small by lia. done.
Qed.

(** The parsing loop copies out the parts [split_ref] finds. *)
Lemma parse_loop_split (string_ok : Z -> bool) (fuel head : nat) (pre : list (option cstr))
    (cs : list cstr) (size : Z) :
  (forall i, string_ok i = true) -> (head < length ref)%nat ->
  split_ref fuel (drop head ref) = Some (Some cs) ->
  size = Z.of_nat (length pre + length cs) -> (size < 4294967296)%Z ->
  parse_loop string_ok (length cs) ref size (Z.of_nat (length pre))
    (Z.of_nat (length ref - head)) head (pre ++ replicate (length cs) None)
  = Some (pre ++ map Some cs).
Proof.
  intros Hok. revert head pre cs; induction fuel as [|fuel IH]; intros head pre cs Hlt Hs Hsz Hsm;
    simpl in Hs; [done |].
  assert (Hcs : cs <> []) by (eapply (split_ref_cons_shape (S fuel)); exact Hs).
  destruct cs as [|c cs]; [done |]. clear Hcs. simpl length.
  assert (Hins : forall x : option cstr, <[length pre := x]>
            (pre ++ replicate (S (length cs)) None) = (pre ++ [x]) ++ replicate (length cs) None).
  { intros x. rewrite insert_app_r_alt, Nat.sub_diag by done. by rewrite <- app_assoc. }
  simpl. simpl length in Hsz.
  destruct (Z.ltb_spec (Z.of_nat (length pre)) size) as [_|]; [| lia].
  destruct (Z.ltb_spec 0 (Z.of_nat (length ref - head))) as [_|]; [| lia]. cbn [andb].
  rewrite Hok, (u32_small (Z.of_nat (length pre) + 1)) by lia.
  destruct (strstr (drop head ref) REF_SEP) as [[|k]|] eqn:Hst; [done | |].
  - apply strstr_split in Hst as [_ Hle]. change (length REF_SEP) with 2%nat in Hle.
    rewrite length_drop in Hle. rewrite drop_drop in Hs.
    rewrite (u32_small (Z.of_nat (S k))) by lia. rewrite !Nat2Z.id.
    unfold REF_SEP_LEN. rewrite u32_small by lia.
    change (replicate (S (length cs)) None) with (@None cstr :: replicate (length cs) None) in Hins.
    rewrite Hins.
    destruct (drop (head + (S k + 2)) ref) as [|h t] eqn:Hd.
    + simplify_eq. simpl. by rewrite app_nil_r.
    + destruct (split_ref fuel (h :: t)) as [[cs'|]|] eqn:Hr; simplify_eq.
      assert (head + (S k + 2) < length ref)%nat.
      { apply (f_equal length) in Hd. rewrite length_drop in Hd. cbn [length] in Hd. lia. }
      specialize (IH (head + (S k + 2))%nat (pre ++ [Some (take (S k) (drop head ref))]) cs).
      rewrite length_app in IH. simpl length in IH.
      replace (Z.of_nat (length pre) + 1)%Z with (Z.of_nat (length pre + 1)) by lia.
      replace (Z.of_nat (length ref - head) - (Z.of_nat (S k) + 2))%Z
        with (Z.of_nat (length ref - (head + (S k + 2)))) by lia.
      replace (head + S k + 2)%nat with (head + (S k + 2))%nat by lia.
      rewrite IH; [by rewrite <- app_assoc | done | by rewrite Hd | lia | done].
  - simplify_eq. rewrite !Nat2Z.id.
    change (replicate (S (length (@nil cstr))) None) with ([@None cstr]) in Hins.
    simpl. simpl in Hins. rewrite Hins.
    rewrite take_ge by (rewrite length_drop; lia). by rewrite app_nil_r.
Qed.
End loops.

Section parse.
Context (string_ok : Z -> bool) (Hok : forall i, string_ok i = true).

Lemma split_ref_length (fuel : nat) (s : cstr) cs :
  s <> [] -> split_ref fuel s = Some (Some cs) -> (length cs <= length s)%nat.
Proof.
  revert s cs; induction fuel as [|fuel IH]; intros s cs Hne; simpl; [done |].
  destruct (strstr s REF_SEP) as [[|k]|] eqn:Hs; [done | |].
  - apply strstr_split in Hs as [_ Hle]. change (length REF_SEP) with 2%nat in Hle.
    destruct (drop (S k + 2) s) as [|h t] eqn:Hd; [intros [= <-]; cbn; lia |].
    destruct (split_ref fuel (h :: t)) as [[cs'|]|] eqn:Hr; [| done | done].
    intros [= <-]. apply IH in Hr; [| done].
    apply (f_equal length) in Hd. rewrite length_drop in Hd. cbn [length] in *. lia.
  - intros [= <-]. destruct s; [done | cbn; lia].
Qed.

Lemma count_diverges (fuel : nat) (ref : cstr) (ref_len start : Z) :
  is_prefix REF_SEP ref = true -> (0 < ref_len)%Z ->
  count_loop fuel ref ref_len
    {| components_count := 0; ch_i := 0; ref_head := 0; ref_start := start |} = None.
Proof.
  intros Hp Hl. revert start; induction fuel as [|fuel IH]; intros start; simpl; [done |].
  unfold count_step; cbn [ref_head ch_i components_count ref_start].
  rewrite drop_0. rewrite (proj2 (strstr_zero _ _) Hp). cbn.
  destruct (Z.ltb_spec 0 ref_len) as [_|]; [apply IH | lia].
Qed.

Lemma count_prefix_diverges (fuel : nat) (ref : cstr) :
  ref <> [] -> (Z.of_nat (length ref) < 4294967296)%Z -> is_prefix REF_SEP ref = true ->
  D2S2_EntityName_count_ref_components fuel ref = None.
Proof.
  intros Hne Hlen Hp. unfold D2S2_EntityName_count_ref_components, strlen.
  assert (0 < length ref)%nat by (destruct ref; [done | cbn; lia]). rewrite u32_small by lia.
  destruct (Z.eqb_spec (Z.of_nat (length ref)) 0) as [|_]; [lia |].
  apply count_diverges; [done | lia].
Qed.

Lemma count_split (fuel : nat) (ref : cstr) :
  ref <> [] -> (Z.of_nat (length ref) < 4294967296)%Z -> is_prefix REF_SEP ref = false ->
  D2S2_EntityName_count_ref_components fuel ref
  = match split_ref fuel ref with
    | None => None
    | Some None => Some count_invalid
    | Some (Some cs) =>
        Some {| valid_ref := true; count_out := Z.of_nat (length cs);
                len_out := Z.of_nat (length ref); start_out := 0 |}
    end.
Proof.
  intros Hne Hlen Hp. unfold D2S2_EntityName_count_ref_components, strlen.
  assert (0 < length ref)%nat by (destruct ref; [done | cbn; lia]).
  rewrite u32_small by lia. destruct (Z.eqb_spec (Z.of_nat (length ref)) 0) as [|_]; [lia |].
  unfold count_init. change 0%Z with (Z.of_nat 0) at 2.
  rewrite (count_loop_split ref Hlen fuel 0 0) by (done || lia).
  rewrite drop_0. destruct (split_ref fuel ref) as [[cs|]|] eqn:Hs; try done.
  apply split_ref_length in Hs; [| done]. by rewrite Z.add_0_l, u32_small by lia.
Qed.

Lemma parse_split (fuel : nat) (ref : cstr) :
  ref <> [] -> (Z.of_nat (length ref) < 4294967296)%Z -> is_prefix REF_SEP ref = false ->
  D2S2_EntityName_parse_ref_components fuel true string_ok ref
  = match split_ref fuel ref with
    | None => None
    | Some None => Some None
    | Some (Some cs) => Some (Some (map Some cs, Z.of_nat (length cs)))
    end.
Proof.
  intros Hne Hlen Hp. unfold D2S2_EntityName_parse_ref_components.
  rewrite count_split by done.
  destruct (split_ref fuel ref) as [[cs|]|] eqn:Hs; try done. cbn [valid_ref count_out len_out start_out negb].
  assert (0 < length ref)%nat by (destruct ref; [done | cbn; lia]).
  pose proof (parse_loop_split ref Hlen string_ok fuel 0 [] cs (Z.of_nat (length cs)) Hok
    ltac:(lia) Hs ltac:(cbn; lia)) as Hl.
  rewrite Nat.sub_0_r in Hl. cbn [app length] in Hl. change (Z.of_nat 0) with 0%Z in Hl.
  rewrite Nat2Z.id. rewrite Hl; [done |].
  apply split_ref_length in Hs; [lia | done].
Qed.

Lemma wf_not_prefix (cs : list cstr) : wf_components cs -> is_prefix REF_SEP (join cs) = false.
Proof.
  intros Hwf. destruct (is_prefix REF_SEP (join cs)) eqn:Hp; [| done].
  apply strstr_zero in Hp.
  pose proof (split_ref_wf cs (S (length cs)) Hwf ltac:(lia)) as Hs.
  cbn [split_ref] in Hs. rewrite Hp in Hs. done.
Qed.
End parse.

(** Fuel of one more than its length splits a joined reference into its components. *)
Lemma split_ref_joined (cs : list cstr) :
  wf_components cs -> split_ref (S (length (join cs))) (join cs) = Some (Some cs).
Proof.
  intros Hwf. destruct (split_ref_fuel (S (length (join cs))) (join cs)) as [r Hr]; [lia |].
  pose proof (split_ref_mono _ (length cs + S (length (join cs))) _ _ Hr ltac:(lia)) as Hr'.
  rewrite (split_ref_wf cs) in Hr' by (done || lia). simplify_eq. by rewrite Hr.
Qed.

(** The first components of a name are a name. *)
Lemma wf_inner_last (c : cstr) : wf_inner c -> wf_last c.
Proof.
  intros [Hne Hs]. split; [done |]. destruct (strstr c REF_SEP) as [k|] eqn:Hk; [| done].
  pose proof (strstr_split _ _ _ Hk) as [_ Hle]. change (length REF_SEP) with 2%nat in Hle.
  rewrite (strstr_app _ _ REF_SEP _ Hk) in Hs. injection Hs as ->. lia.
Qed.

Lemma wf_components_take (cs : list cstr) (k : nat) :
  wf_components cs -> (0 < k)%nat -> wf_components (take k cs).
Proof.
  revert k; induction cs as [|c cs IH]; intros [|k] Hwf Hk; try done; [lia |].
  destruct cs as [|c' cs]; [by destruct k |]. destruct Hwf as [Hc Hwf].
  destruct k as [|k]; [by apply wf_inner_last |].
  change (take (S (S k)) (c :: c' :: cs)) with (c :: take (S k) (c' :: cs)).
  specialize (IH (S k) Hwf ltac:(lia)). cbn [take] in *. by split.
Qed.

(** Joining with the separator before every component but a first one. *)
Fixpoint joined (first : bool) (cs : list cstr) : cstr :=
  match cs with
  | [] => []
  | c :: cs' => (if first then c else REF_SEP ++ c) ++ joined false cs'
  end.

Lemma join_joined (cs : list cstr) : join cs = joined true cs.
Proof.
  assert (H : forall c cs', join (c :: cs') = c ++ joined false cs').
  { intros c cs'; revert c; induction cs' as [|c' cs' IH]; intros c.
    - cbn. by rewrite app_nil_r.
    - change (join (c :: c' :: cs')) with (c ++ REF_SEP ++ join (c' :: cs')).
      rewrite IH. cbn [joined]. by rewrite !app_assoc. }
  destruct cs as [|c cs']; [done | apply H].
Qed.

Section to_ref.
Context (cs : list cstr).
Let self : D2S2_EntityName := {| components := map Some cs; depth := Z.of_nat (length cs) |}.

Lemma component_at_lookup (i : nat) (c : cstr) :
  cs !! i = Some c -> component_at self (Z.of_nat i) = Some c.
Proof.
  intros H. unfold component_at, self; cbn. rewrite Nat2Z.id.
  rewrite list_lookup_fmap, H. done.
Qed.

Lemma drop_lookup (i : nat) c (tl : list cstr) :
  drop i cs = c :: tl -> cs !! i = Some c /\ drop (S i) cs = tl.
Proof.
  intros H. split.
  - rewrite <- (Nat.add_0_r i), <- lookup_drop, H. done.
  - change (S i) with (1 + i)%nat. rewrite Nat.add_comm, <- drop_drop, H. done.
Qed.

Lemma ref_len_loop_joined (n i : nat) (acc : Z) :
  (i + n <= length cs)%nat -> (0 <= acc)%Z ->
  (acc + Z.of_nat (length (joined (i =? 0)%nat (take n (drop i cs)))) < 4294967296)%Z ->
  ref_len_loop self n (Z.of_nat i) acc
  = Some (acc + Z.of_nat (length (joined (i =? 0)%nat (take n (drop i cs)))))%Z.
Proof.
  revert i acc; induction n as [|n IH]; intros i acc Hle Hacc Hlt; cbn [ref_len_loop].
  - cbn. by rewrite Z.add_0_r.
  - destruct (drop i cs) as [|c tl] eqn:Hd.
    { apply (f_equal length) in Hd. rewrite length_drop in Hd. cbn in Hd. lia. }
    destruct (drop_lookup _ _ _ Hd) as [Hc Htl]. rewrite (component_at_lookup _ _ Hc).
    cbn [take joined] in Hlt |- *. rewrite length_app in Hlt |- *.
    replace (Z.of_nat i + 1)%Z with (Z.of_nat (S i)) by lia.
    assert (E : (if (0 <? Z.of_nat i)%Z then u32 (acc + REF_SEP_LEN) else acc)
                = (acc + Z.of_nat (length (if (i =? 0)%nat then c else REF_SEP ++ c)) - Z.of_nat (length c))%Z).
    { destruct i as [|i]; [change (0 <? Z.of_nat 0)%Z with false; cbn [Nat.eqb]; lia |]. cbn [Nat.eqb] in *. rewrite length_app in *.
      change (length REF_SEP) with 2%nat in *. unfold REF_SEP_LEN.
      destruct (Z.ltb_spec 0 (Z.of_nat (S i))); [| lia]. rewrite u32_small by lia. lia. }
    assert (Hlc : (length c <= length (if (i =? 0)%nat then c else REF_SEP ++ c))%nat).
    { destruct (i =? 0)%nat; rewrite ?length_app; lia. }
    rewrite E, u32_small by (unfold strlen; lia).
    rewrite (IH (S i)); [| lia | unfold strlen; lia |]; rewrite Htl; cbn [Nat.eqb]; unfold strlen.
    + f_equal. lia.
    + lia.
Qed.

Lemma ref_copy_loop_joined (n i : nat) (ref_len : Z) (out : cstr) :
  (i + n <= length cs)%nat ->
  ref_len = Z.of_nat (length out + length (joined (i =? 0)%nat (take n (drop i cs)))) ->
  ref_copy_loop self n (Z.of_nat i) ref_len out
  = Some (out ++ joined (i =? 0)%nat (take n (drop i cs))).
Proof.
  revert i out; induction n as [|n IH]; intros i out Hle Hlen; cbn [ref_copy_loop].
  - cbn. by rewrite app_nil_r.
  - destruct (Z.ltb_spec (Z.of_nat (length out)) ref_len) as [L|L].
    + destruct (drop i cs) as [|c tl] eqn:Hd.
      { apply (f_equal length) in Hd. rewrite length_drop in Hd. cbn in Hd. lia. }
      destruct (drop_lookup _ _ _ Hd) as [Hc Htl]. rewrite (component_at_lookup _ _ Hc).
      cbn [take joined] in Hlen |- *.
      replace (Z.of_nat i + 1)%Z with (Z.of_nat (S i)) by lia.
      assert (E : (if (0 <? Z.of_nat i)%Z then out ++ REF_SEP else out) ++ c
                  = out ++ (if (i =? 0)%nat then c else REF_SEP ++ c)).
      { destruct i as [|i]; [done |]. destruct (Z.ltb_spec 0 (Z.of_nat (S i))); [| lia].
        cbn [Nat.eqb]. by rewrite <- app_assoc. }
      rewrite E, (IH (S i)); [| lia |]; rewrite Htl; cbn [Nat.eqb].
      * by rewrite <- app_assoc.
      * rewrite !length_app in *. lia.
    + assert (Hj : joined (i =? 0)%nat (take (S n) (drop i cs)) = [])
        by (apply nil_length_inv; lia).
      by rewrite Hj, app_nil_r.
Qed.
End to_ref.

(** ** Properties *)

(** the loop that counts the components of a non empty reference ends
    within one iteration per character unless the reference starts with the
    separator, in which case it never ends. *)
Theorem count_ref_components_terminates (ref : cstr)
    (Hne : ref <> []) (Hlen : (Z.of_nat (length ref) < 4294967296)%Z) :
  (is_prefix REF_SEP ref = false ->
   exists r, D2S2_EntityName_count_ref_components (S (length ref)) ref = Some r)
  /\ (is_prefix REF_SEP ref = true ->
      forall fuel, D2S2_EntityName_count_ref_components fuel ref = None).
Proof.
  split; intros Hp.
  - rewrite count_split by done.
    destruct (split_ref_fuel (S (length ref)) ref) as [r Hr]; [lia |].
    rewrite Hr. destruct r; eauto.
  - intros fuel. by apply count_prefix_diverges.
Qed.

(** C11: parsing inverts joining.  A reference built from well formed
    components is split into exactly these components, whose number is the
    reported size. *)
Theorem parse_join_roundtrip (string_ok : Z -> bool) (cs : list cstr)
    (Hok : forall i, string_ok i = true)
    (Hwf : wf_components cs) (Hlen : (Z.of_nat (length (join cs)) < 4294967296)%Z) :
  D2S2_EntityName_parse_ref_components (S (length (join cs))) true string_ok (join cs)
  = Some (Some (map Some cs, Z.of_nat (length cs))).
Proof.
  pose proof (join_nonempty _ Hwf) as Hne. pose proof (wf_not_prefix _ Hwf) as Hp.
  by rewrite parse_split, split_ref_joined.
Qed.

(** whatever [D2S2_EntityName_parse_ref_components] returns for a
    reference is complete and reassembles it: every entry of the array is
    written and not empty, the size is their number, and joining them gives the
    reference up to one final separator. *)
Theorem parse_sound (fuel : nat) (string_ok : Z -> bool) (ref : cstr)
    (a : list (option cstr)) (n : Z)
    (Hok : forall i, string_ok i = true)
    (Hlen : (Z.of_nat (length ref) < 4294967296)%Z)
    (Hparse : D2S2_EntityName_parse_ref_components fuel true string_ok ref = Some (Some (a, n))) :
  exists cs, a = map Some cs /\ n = Z.of_nat (length cs)
    /\ (ref = join cs \/ ref = join cs ++ REF_SEP)
    /\ Forall (fun c => c <> []) cs.
Proof.
  destruct (decide (ref = [])) as [->|Hne]; [done |].
  destruct (is_prefix REF_SEP ref) eqn:Hp.
  - unfold D2S2_EntityName_parse_ref_components in Hparse.
    by rewrite count_prefix_diverges in Hparse.
  - rewrite parse_split in Hparse by done.
    destruct (split_ref fuel ref) as [[cs|]|] eqn:Hs; simplify_eq.
    destruct (split_ref_join _ _ _ Hne Hs) as [Hj Hf]. eauto.
Qed.

(** [D2S2_EntityName_to_ref] joins the first [k] components of a complete
    name that has at least as many; with more it returns false. *)
Theorem to_ref_joins (cs : list cstr) (k : nat)
    (Hlen : (Z.of_nat (length (join (take k cs))) < 4294967296)%Z) :
  D2S2_EntityName_to_ref true
    {| components := map Some cs; depth := Z.of_nat (length cs) |} (Z.of_nat k)
  = Some (if (k <=? length cs)%nat then Some (join (take k cs)) else None).
Proof.
  unfold D2S2_EntityName_to_ref. cbn [depth negb].
  destruct (Nat.leb_spec k (length cs)) as [L|L];
    destruct (Z.ltb_spec (Z.of_nat (length cs)) (Z.of_nat k)) as [L'|L']; try lia; [| done].
  rewrite Nat2Z.id. rewrite join_joined in *.
  pose proof (ref_len_loop_joined cs k 0 0) as H1. rewrite drop_0 in H1; cbn [Nat.eqb] in H1.
  change (Z.of_nat 0) with 0%Z in H1. rewrite H1 by lia. rewrite Z.add_0_l.
  pose proof (ref_copy_loop_joined cs k 0 (Z.of_nat (length (joined true (take k cs)))) []) as H2.
  rewrite drop_0 in H2; cbn [Nat.eqb length Nat.add app] in H2. change (Z.of_nat 0) with 0%Z in H2.
  rewrite H2 by (lia || done). by rewrite Nat2Z.id, take_ge.
Qed.

(** [D2S2_EntityName_component] counts from one: depth [d] of a complete
    name gives component [d - 1], a depth past the name is refused, and depth
    zero reads outside the array of components. *)
Theorem component_from_one (cs : list cstr) (d : nat)
    (Hd : (Z.of_nat (length cs) < 4294967295)%Z) :
  D2S2_EntityName_component
    {| components := map Some cs; depth := Z.of_nat (length cs) |} (Z.of_nat d)
  = if (length cs <? d)%nat then Some None
    else match d with
         | O => None
         | S i => match cs !! i with Some c => Some (Some c) | None => None end
         end.
Proof.
  unfold D2S2_EntityName_component. cbn [depth].
  destruct (Nat.ltb_spec (length cs) d) as [L|L];
    destruct (Z.ltb_spec (Z.of_nat (length cs)) (Z.of_nat d)) as [L'|L']; try lia; [done |].
  unfold component_at. cbn [components]. destruct d as [|i].
  - change (u32 (Z.of_nat 0 - 1)) with 4294967295%Z.
    rewrite lookup_ge_None_2; [done |]. rewrite length_map. lia.
  - rewrite u32_small by lia. replace (Z.to_nat (Z.of_nat (S i) - 1)) with i by lia.
    rewrite list_lookup_fmap. by destruct (cs !! i).
Qed.

(** ** Witnesses *)

Definition sample_components : list cstr := [of_string "Lib"; of_string "Dp"; of_string "Pub"].

Lemma sample_components_wf : wf_components sample_components.
Proof. repeat split; vm_compute; discriminate || reflexivity. Qed.

Lemma count_ref_components_terminates_witness :
  (exists r, D2S2_EntityName_count_ref_components 5 (of_string "A::B") = Some r)
  /\ D2S2_EntityName_count_ref_components 1000 (of_string "::A") = None.
Proof.
  split.
  - destruct (count_ref_components_terminates (of_string "A::B")) as [H _];
      [discriminate | vm_compute; reflexivity |].
    exact (H eq_refl).
  - apply (count_ref_components_terminates (of_string "::A"));
      [discriminate | vm_compute; reflexivity | reflexivity].
Defined.

Lemma parse_join_roundtrip_witness :
  D2S2_EntityName_parse_ref_components 13 true (fun _ => true) (of_string "Lib::Dp::Pub")
  = Some (Some (map Some sample_components, 3%Z)).
Proof.
  exact (parse_join_roundtrip (fun _ => true) sample_components (fun _ => eq_refl)
           sample_components_wf ltac:(vm_compute; reflexivity)).
Defined.

Lemma parse_sound_witness :
  exists cs, [Some (of_string "A"); Some (of_string "B")] = map Some cs /\ 2%Z = Z.of_nat (length cs)
    /\ (of_string "A::B::" = join cs \/ of_string "A::B::" = join cs ++ REF_SEP)
    /\ Forall (fun c => c <> []) cs.
Proof.
  apply (parse_sound 9 (fun _ => true) (of_string "A::B::"));
    [reflexivity | vm_compute; reflexivity | vm_compute; reflexivity].
Defined.

Lemma to_ref_joins_witness :
  D2S2_EntityName_to_ref true
    {| components := map Some sample_components; depth := 3 |} 2 = Some (Some (of_string "Lib::Dp")).
Proof. exact (to_ref_joins sample_components 2 ltac:(vm_compute; reflexivity)). Defined.

Lemma component_from_one_witness :
  D2S2_EntityName_component
    {| components := map Some sample_components; depth := 3 |} 2 = Some (Some (of_string "Dp")).
Proof. exact (component_from_one sample_components 2 ltac:(vm_compute; reflexivity)). Defined.
