(* ===== verification/Interaction.v ===== *)
(** * Programs that call code outside the repository

    The XRCE service calls the Micro XRCE client library, the memory pools of
    the RTI core libraries, the operating system and the DDS agent.  A function
    of the service is a [prog]: from a state of type [St] it makes calls
    ([Vis]), each with a response chosen by the environment, until it returns a
    value and a new state.  [Ub] is undefined behaviour of C (a NULL or unknown
    pointer is read) and [Fuel] a loop that did not end within its fuel.

    [runs p t o] holds when [p], given the responses recorded in the trace [t]
    (the calls in the order they are made), ends with the outcome [o].  The
    theorems quantify over every trace, so over every behaviour of the
    environment; what the code relies on is a hypothesis on the trace.  [exec]
    runs a program against an environment and [exec_runs] relates the two: each
    environment gives one run. *)

From Stdlib Require Import ZArith Lia.
From stdpp Require Import base tactics list.
From S2P Require Import Prelude.

Inductive tree {C : Type} (R : C -> Type) (A : Type) : Type :=
  | Ret (a : A)
  | Vis (c : C) (k : R c -> tree R A)
  | Ub
  | Fuel.
Arguments Ret {C R A} a.
Arguments Vis {C R A} c k.
Arguments Ub {C R A}.
Arguments Fuel {C R A}.

Inductive outcome (A : Type) : Type :=
  | Returned (a : A)
  | Undefined
  | Unfinished.
Arguments Returned {A} a.
Arguments Undefined {A}.
Arguments Unfinished {A}.

Section programs.
Context {C : Type} {R : C -> Type}.

Definition event : Type := { c : C & R c }.

Fixpoint tbind {A B} (p : tree R A) (f : A -> tree R B) : tree R B :=
  match p with
  | Ret a => f a
  | Vis c k => Vis c (fun r => tbind (k r) f)
  | Ub => Ub
  | Fuel => Fuel
  end.

Fixpoint runs {A} (p : tree R A) (t : list event) (o : outcome A) : Prop :=
  match p with
  | Ret a => t = [] /\ o = Returned a
  | Vis c k => exists r t', t = existT c r :: t' /\ runs (k r) t' o
  | Ub => t = [] /\ o = Undefined
  | Fuel => t = [] /\ o = Unfinished
  end.

(** ** Running a program *)

Definition environment : Type := list event -> forall c, R c.

Fixpoint exec {A} (env : environment) (past : list event) (p : tree R A)
    : list event * outcome A :=
  match p with
  | Ret a => ([], Returned a)
  | Vis c k =>
      let r := env past c in
      let '(t, o) := exec env (past ++ [existT c r]) (k r) in
      (existT c r :: t, o)
  | Ub => ([], Undefined)
  | Fuel => ([], Unfinished)
  end.

Lemma exec_runs {A} (env : environment) (p : tree R A) (past : list event) :
  runs p (fst (exec env past p)) (snd (exec env past p)).
Proof.
  revert past; induction p as [a | c k IH | |]; intros past; cbn; try done.
  specialize (IH (env past c) (past ++ [existT c (env past c)])).
  destruct (exec env _ _) as [t o]; cbn in *. eauto.
Qed.

Lemma exec_eq_runs {A} (env : environment) (p : tree R A) t o :
  exec env [] p = (t, o) -> runs p t o.
Proof. intros H. pose proof (exec_runs env p []) as Hr. by rewrite H in Hr. Qed.

Lemma exec_contract {A} (E : event -> Prop) (env : environment) (p : tree R A) :
  (forall past c, E (existT c (env past c))) ->
  forall past, Forall E (fst (exec env past p)).
Proof.
  intros HE. induction p as [a | c k IH | |]; intros past; cbn; try apply List.Forall_nil.
  specialize (IH (env past c) (past ++ [existT c (env past c)])).
  destruct (exec env _ _) as [t o]; cbn in *. apply Forall_cons. auto.
Qed.

(** ** Total correctness

    [wp E p Q]: whatever the environment answers, as long as each answer
    satisfies [E], [p] ends without undefined behaviour, and its trace and result
    satisfy [Q]. *)

Fixpoint wp {A} (E : event -> Prop) (p : tree R A) (Q : list event -> A -> Prop) : Prop :=
  match p with
  | Ret a => Q [] a
  | Vis c k => forall r, E (existT c r) -> wp E (k r) (fun t a => Q (existT c r :: t) a)
  | Ub => False
  | Fuel => False
  end.

Lemma wp_mono {A} (E E' : event -> Prop) (p : tree R A) (Q Q' : list event -> A -> Prop) :
  (forall e, E' e -> E e) -> (forall t a, Q t a -> Q' t a) -> wp E p Q -> wp E' p Q'.
Proof.
  intros HE. revert Q Q'; induction p as [a | c k IH | |]; intros Q Q' HQ H; cbn in *; auto.
  intros r Hr. eapply (IH r (fun t a => Q (existT c r :: t) a)); eauto.
Qed.

Lemma wp_tbind {A B} (E : event -> Prop) (p : tree R A) (f : A -> tree R B)
    (Q : list event -> B -> Prop) :
  wp E p (fun t a => wp E (f a) (fun t' b => Q (t ++ t') b)) -> wp E (tbind p f) Q.
Proof.
  revert Q; induction p as [a | c k IH | |]; intros Q H; cbn in *; auto.
Qed.

(** The meaning of [wp] in terms of runs. *)
Lemma wp_runs {A} (E : event -> Prop) (p : tree R A) (Q : list event -> A -> Prop) t o :
  wp E p Q -> runs p t o -> Forall E t -> exists a, o = Returned a /\ Q t a.
Proof.
  revert Q t; induction p as [a | c k IH | |]; intros Q t H Hr HE; cbn in *; [| | done | done].
  - destruct Hr as [-> ->]. eauto.
  - destruct Hr as (r & t' & -> & Hr). apply Forall_cons in HE as [He HE].
    destruct (IH r _ _ (H r He) Hr HE) as (a & -> & HQ). eauto.
Qed.
End programs.

Arguments event {C} R.
Arguments environment {C} R.

(** ** Programs over a state *)

Section stateful.
Context {C : Type} {R : C -> Type} {St : Type}.

Definition prog (A : Type) : Type := St -> tree R (A * St).

Definition ret {A} (a : A) : prog A := fun s => Ret (a, s).
Definition bind {A B} (m : prog A) (f : A -> prog B) : prog B :=
  fun s => tbind (m s) (fun '(a, s') => f a s').
Definition call (c : C) : prog (R c) := fun s => Vis c (fun r => Ret (r, s)).
Definition undefined {A} : prog A := fun _ => Ub.
Definition unfinished {A} : prog A := fun _ => Fuel.
Definition gets {A} (f : St -> A) : prog A := fun s => Ret (f s, s).
Definition modify (f : St -> St) : prog unit := fun s => Ret (tt, f s).
(** A read that is undefined where [f] has no value. *)
Definition reads {A} (f : St -> option A) : prog A :=
  fun s => match f s with Some a => Ret (a, s) | None => Ub end.

(** A program run for its effects on a list of inputs. *)
Fixpoint each {A} (f : A -> prog unit) (l : list A) : prog unit :=
  match l with
  | [] => ret tt
  | a :: l => bind (f a) (fun _ => each f l)
  end.

(** A total correctness triple: from state [s], in every environment whose
    answers satisfy [E], [m] returns, and its trace, result and final state
    satisfy [Q]. *)
Definition spec {A} (E : event R -> Prop) (m : prog A) (s : St)
    (Q : list (event R) -> A -> St -> Prop) : Prop :=
  wp E (m s) (fun t r => Q t (fst r) (snd r)).

Lemma spec_runs {A} E (m : prog A) s Q t o :
  spec E m s Q -> runs (m s) t o -> Forall E t ->
  exists a s', o = Returned (a, s') /\ Q t a s'.
Proof.
  intros H Hr HE. destruct (wp_runs _ _ _ _ _ H Hr HE) as ([a s'] & -> & HQ). eauto.
Qed.

Lemma spec_mono {A} E (m : prog A) s (Q Q' : list (event R) -> A -> St -> Prop) :
  spec E m s Q -> (forall t a s', Q t a s' -> Q' t a s') -> spec E m s Q'.
Proof. intros H HQ. eapply wp_mono; [done | | exact H]. cbn; auto. Qed.

(** A triple also holds for environments that promise more. *)
Lemma spec_strengthen {A} (E E' : event R -> Prop) (m : prog A) s Q :
  (forall e, E' e -> E e) -> spec E m s Q -> spec E' m s Q.
Proof. intros HE H. eapply wp_mono; [exact HE | | exact H]. done. Qed.

Lemma spec_bind {A B} E (m : prog A) (f : A -> prog B) s Q :
  spec E m s (fun t a s1 => spec E (f a) s1 (fun t' b s2 => Q (t ++ t') b s2)) ->
  spec E (bind m f) s Q.
Proof.
  intros H. apply wp_tbind. eapply wp_mono; [done | | exact H].
  intros t [a s1]; cbn. done.
Qed.

(** A run of a program that starts with [m] starts with a run of [m]. *)
Lemma tbind_runs {A B} (Q : list (event R) -> A -> Prop) (p : tree R A) (f : A -> tree R B) t o :
  wp (fun _ => True) p Q -> runs (tbind p f) t o ->
  exists t1 t2 a, t = t1 ++ t2 /\ Q t1 a /\ runs (f a) t2 o.
Proof.
  revert t Q; induction p as [a | c k IH | |]; intros t Q Hwp Hr; cbn in *; [| | done | done].
  - by exists [], t, a.
  - destruct Hr as (r & t' & -> & Hr).
    destruct (IH r t' (fun t a => Q (existT c r :: t) a) (Hwp r I) Hr) as (t1 & t2 & a & -> & HQ & Hf).
    by exists (existT c r :: t1), t2, a.
Qed.

(** A run of a sequence either runs both parts or stops in the first. *)
Lemma tbind_split {A B} (p : tree R A) (f : A -> tree R B) t o :
  runs (tbind p f) t o ->
  (exists t1 t2 a, t = t1 ++ t2 /\ runs p t1 (Returned a) /\ runs (f a) t2 o)
  \/ exists o', (forall a, o' <> Returned a) /\ runs p t o'
       /\ match o' with Undefined => o = Undefined | _ => o = Unfinished end.
Proof.
  revert t; induction p as [a | c k IH | |]; intros t H; cbn in *.
  - left. by exists [], t, a.
  - destruct H as (r & t' & -> & H).
    destruct (IH r t' H) as [(t1 & t2 & a & -> & H1 & H2) | (o' & Hno & H1 & Ho)].
    + left. exists (existT c r :: t1), t2, a. split_and!; [done | by eauto | done].
    + right. exists o'. split_and!; [done | by eauto | done].
  - destruct H as [-> ->]. right. by exists Undefined.
  - destruct H as [-> ->]. right. by exists Unfinished.
Qed.

Lemma bind_runs {A B} (m : prog A) (f : A -> prog B) s Q t o :
  spec (fun _ => True) m s Q -> runs (bind m f s) t o ->
  exists t1 t2 a s1, t = t1 ++ t2 /\ Q t1 a s1 /\ runs (f a s1) t2 o.
Proof.
  intros Hs Hr. destruct (tbind_runs _ _ _ _ _ Hs Hr) as (t1 & t2 & [a s1] & -> & HQ & Hf).
  by exists t1, t2, a, s1.
Qed.

Lemma bind_call_runs {B} (c : C) (f : R c -> prog B) s t o :
  runs (bind (call c) f s) t o -> exists r t', t = existT c r :: t' /\ runs (f r s) t' o.
Proof. done. Qed.

Lemma spec_ret {A} E (a : A) s (Q : list (event R) -> A -> St -> Prop) :
  Q [] a s -> spec E (ret a) s Q.
Proof. done. Qed.

Lemma spec_call E (c : C) s (Q : list (event R) -> R c -> St -> Prop) :
  (forall r, E (existT c r) -> Q [existT c r] r s) -> spec E (call c) s Q.
Proof. done. Qed.

Lemma spec_gets {A} E (f : St -> A) s (Q : list (event R) -> A -> St -> Prop) :
  Q [] (f s) s -> spec E (gets f) s Q.
Proof. done. Qed.

Lemma spec_modify E (f : St -> St) s (Q : list (event R) -> unit -> St -> Prop) :
  Q [] tt (f s) -> spec E (modify f) s Q.
Proof. done. Qed.

Lemma spec_reads {A} E (f : St -> option A) s a (Q : list (event R) -> A -> St -> Prop) :
  f s = Some a -> Q [] a s -> spec E (reads f) s Q.
Proof. unfold spec, reads. by intros ->. Qed.

Lemma each_nil {A} (f : A -> prog unit) : each f [] = ret tt.
Proof. done. Qed.

Lemma each_cons {A} (f : A -> prog unit) a l : each f (a :: l) = bind (f a) (fun _ => each f l).
Proof. done. Qed.

(** Two properties of the same program, over all its runs. *)
Lemma spec_and {A} E (m : prog A) s (Q Q' : list (event R) -> A -> St -> Prop) :
  spec E m s Q -> spec E m s Q' -> spec E m s (fun t a s' => Q t a s' /\ Q' t a s').
Proof.
  unfold spec. generalize (m s) as p; intros p.
  set (P := fun t r => Q t (fst r) (snd r)). set (P' := fun t r => Q' t (fst r) (snd r)).
  change (wp E p P -> wp E p P' -> wp E p (fun t r => P t r /\ P' t r)).
  clearbody P P'. revert P P'; induction p as [r | c k IH | |]; intros P P' H H'; cbn in *; auto.
Qed.

(** A triple may add that its trace and value are those of a run. *)
Lemma spec_run {A} E (m : prog A) s (Q : list (event R) -> A -> St -> Prop) :
  spec E m s Q -> spec E m s (fun t a s' => Q t a s' /\ runs (m s) t (Returned (a, s'))).
Proof.
  unfold spec. generalize (m s) as p; intros p. set (P := fun t r => Q t (fst r) (snd r)).
  intros H. assert (Hp : wp E p (fun t r => P t r /\ runs p t (Returned r))).
  { clearbody P. revert P H; induction p as [r | c k IH | |]; intros P H; cbn in *; auto.
    intros r Hr. eapply wp_mono; [done | | exact (IH r _ (H r Hr))].
    cbn. intros t a [H1 H2]. eauto. }
  eapply wp_mono; [done | | exact Hp]. intros t [a s'] [H1 H2]. done.
Qed.

Lemma spec_each {A} E (f : A -> prog unit) (I : list A -> list (event R) -> St -> Prop) l :
  forall s,
  I l [] s ->
  (forall a l' t s1, I (a :: l') t s1 ->
     spec E (f a) s1 (fun t' _ s2 => I l' (t ++ t') s2)) ->
  spec E (each f l) s (fun t _ s' => I [] t s').
Proof.
  revert I; induction l as [|a l IH]; intros I s H0 Hf; [done |].
  cbn [each]. apply spec_bind. eapply spec_mono; [exact (Hf a l [] s H0) |].
  intros t [] s1 H1; cbn in *.
  apply (IH (fun l' t' s' => I l' (t ++ t') s')).
  - by rewrite app_nil_r.
  - intros a' l' t' s2 H2. eapply spec_mono; [apply (Hf a' l' _ s2 H2) |].
    intros t3 [] s3. by rewrite app_assoc.
Qed.
End stateful.

Arguments prog {C} R St A.
#[global] Arguments spec : simpl never.
#[global] Arguments bind : simpl never.
#[global] Arguments ret : simpl never.
#[global] Arguments call : simpl never.
#[global] Arguments each : simpl never.
#[global] Arguments reads : simpl never.

Declare Scope nano_scope.
Delimit Scope nano_scope with nano.
Notation "'let*' x ':=' m 'in' k" := (bind m (fun x => k))
  (at level 10, x binder, m at level 100, k at level 200) : nano_scope.
Notation "m ';;' k" := (bind m (fun _ => k))
  (at level 100, k at level 200, right associativity) : nano_scope.

(** Symbolic execution: one primitive step of a triple. *)
Ltac step1 :=
  lazymatch goal with
  | |- spec _ (bind _ _) _ _ => apply spec_bind
  | |- spec _ (ret _) _ _ => apply spec_ret
  | |- spec ?E (call ?c) ?s ?Q => refine (spec_call E c s Q _); intros ? ?
  | |- spec _ (gets _) _ _ => apply spec_gets
  | |- spec _ (modify _) _ _ => apply spec_modify
  | |- spec _ (reads _) _ _ => eapply spec_reads
  end; cbn beta iota.

(** ** Traces *)

Section traces.
Context {C : Type} {R : C -> Type}.

(** The calls of a trace, and how many of them satisfy a predicate. *)
Definition calls (t : list (event R)) : list C := map (@projT1 C R) t.

Definition count (P : C -> bool) (t : list (event R)) : nat :=
  length (List.filter P (calls t)).

Lemma count_app (P : C -> bool) t1 t2 : count P (t1 ++ t2) = (count P t1 + count P t2)%nat.
Proof. unfold count, calls. by rewrite map_app, List.filter_app, length_app. Qed.

Lemma count_nil (P : C -> bool) : count P [] = 0%nat.
Proof. done. Qed.

Lemma count_cons (P : C -> bool) c r t :
  count P (existT c r :: t) = ((if P c then 1 else 0) + count P t)%nat.
Proof. unfold count, calls; cbn. by destruct (P c). Qed.

Lemma calls_app (t1 t2 : list (event R)) : calls (t1 ++ t2) = calls t1 ++ calls t2.
Proof. apply map_app. Qed.

Lemma calls_length (t : list (event R)) : length (calls t) = length t.
Proof. apply length_map. Qed.

(** A trace whose calls all satisfy [P]. *)
Definition only (P : C -> bool) (t : list (event R)) : Prop :=
  Forall (fun c => P c = true) (calls t).

Lemma only_app P t1 t2 : only P t1 -> only P t2 -> only P (t1 ++ t2).
Proof. unfold only. rewrite calls_app. apply Forall_app_2. Qed.

Lemma only_nil P : only P [].
Proof. apply List.Forall_nil. Qed.

Lemma only_cons P c r t : P c = true -> only P t -> only P (existT c r :: t).
Proof. intros Hc Ht. by apply Forall_cons. Qed.

Lemma only_weaken (P Q : C -> bool) t :
  (forall c, P c = true -> Q c = true) -> only P t -> only Q t.
Proof. intros H Ht. eapply Forall_impl; [exact Ht |]. auto. Qed.

(** A trace without calls of a kind counts none of them. *)
Lemma only_count (P Q : C -> bool) t :
  (forall c, P c = true -> Q c = false) -> only P t -> count Q t = 0%nat.
Proof.
  intros H Ht. unfold count, only in *. induction Ht as [|c l Hc Hl IH]; [done |].
  cbn. rewrite (H _ Hc). done.
Qed.

(** ** The calls a program may make

    [makes P m]: every call of [m], whatever the answers, satisfies [P].  It says
    nothing of how [m] ends, so loops need no fuel for it. *)

Fixpoint tree_makes {A} (P : C -> bool) (p : tree R A) : Prop :=
  match p with
  | Ret _ | Ub | Fuel => True
  | Vis c k => P c = true /\ forall r, tree_makes P (k r)
  end.

Definition makes {St A} (P : C -> bool) (m : prog R St A) : Prop := forall s, tree_makes P (m s).

Lemma tree_makes_bind {A B} (P : C -> bool) (p : tree R A) (f : A -> tree R B) :
  tree_makes P p -> (forall a, tree_makes P (f a)) -> tree_makes P (tbind p f).
Proof. induction p; cbn; naive_solver. Qed.

Lemma makes_bind {St A B} P (m : prog R St A) (f : A -> prog R St B) :
  makes P m -> (forall a, makes P (f a)) -> makes P (bind m f).
Proof. intros Hm Hf s. apply tree_makes_bind; [apply Hm |]. intros [a s']. apply Hf. Qed.

Lemma makes_ret {St A} P (a : A) : makes P (ret a : prog R St A).
Proof. done. Qed.

Lemma makes_call {St} P c : P c = true -> makes P (call c : prog R St (R c)).
Proof. done. Qed.

Lemma makes_gets {St A} P (f : St -> A) : makes P (gets f : prog R St A).
Proof. done. Qed.

Lemma makes_modify {St} P (f : St -> St) : makes P (modify f : prog R St unit).
Proof. done. Qed.

Lemma makes_reads {St A} P (f : St -> option A) : makes P (reads f : prog R St A).
Proof. intros s. unfold reads. by destruct (f s). Qed.

Lemma makes_undefined {St A} P : makes P (undefined : prog R St A).
Proof. done. Qed.

Lemma makes_unfinished {St A} P : makes P (unfinished : prog R St A).
Proof. done. Qed.

Lemma makes_each {St A} P (f : A -> prog R St unit) l :
  (forall a, makes P (f a)) -> makes P (each f l).
Proof. intros H. induction l; [done |]. rewrite each_cons. by apply makes_bind. Qed.

Lemma makes_weaken {St A} (P Q : C -> bool) (m : prog R St A) :
  (forall c, P c = true -> Q c = true) -> makes P m -> makes Q m.
Proof.
  intros HPQ H s. specialize (H s). revert H. induction (m s); cbn; naive_solver.
Qed.

(** A triple may add that the trace has only such calls. *)
Lemma spec_makes {St A} E (P : C -> bool) (m : prog R St A) s Q :
  spec E m s Q -> makes P m ->
  spec E m s (fun t a s' => Q t a s' /\ Forall (fun c => P c = true) (calls t)).
Proof.
  unfold spec, makes. intros HQ Hm. specialize (Hm s).
  set (Q1 := fun t r => Q t (fst r) (snd r)) in *.
  change (wp E (m s) (fun t r => Q1 t r /\ Forall (fun c => P c = true) (calls t))).
  clearbody Q1. revert Q1 HQ. induction (m s) as [a | c k IH | |]; intros Q1 HQ; cbn in *; try done.
  destruct Hm as [Hc Hk]. intros r Hr. specialize (IH r (Hk r) _ (HQ r Hr)).
  eapply wp_mono; [done | | exact IH]. cbn. intros t a [H1 H2]. auto.
Qed.
End traces.

(** Proves [makes P m] for [m] built from primitives and programs whose lemmas
    are in the database [makes]. *)
Create HintDb makes.
Ltac makes_step :=
  lazymatch goal with
  | |- makes _ (bind _ _) => apply makes_bind; [| intros ?]
  | |- makes _ (ret _) => apply makes_ret
  | |- makes _ (call _) => apply makes_call; reflexivity
  | |- makes _ (gets _) => apply makes_gets
  | |- makes _ (modify _) => apply makes_modify
  | |- makes _ (reads _) => apply makes_reads
  | |- makes _ undefined => apply makes_undefined
  | |- makes _ unfinished => apply makes_unfinished
  | |- makes _ (each _ _) => apply makes_each; intros ?
  | |- makes _ (if ?b then _ else _) => destruct b
  | |- makes _ (match ?r with _ => _ end) => destruct r
  | |- _ => solve [auto with makes]
  end; cbn beta iota.
Ltac makes_auto := repeat makes_step.

(** ** What a program does to its state

    [preserves Rl m]: however [m] ends by returning, its first and last states are
    related.  Like [makes] it composes without fuel and without knowing the state. *)

Section frames.
Context {C : Type} {R : C -> Type} {St : Type}.

Fixpoint tree_ends {A} (p : tree R A) (Q : A -> Prop) : Prop :=
  match p with
  | Ret a => Q a
  | Vis c k => forall r, tree_ends (k r) Q
  | Ub | Fuel => True
  end.

Definition preserves {A} (Rl : St -> St -> Prop) (m : prog R St A) : Prop :=
  forall s, tree_ends (m s) (fun r => Rl s (snd r)).

Lemma tree_ends_mono {A} (p : tree R A) (Q Q' : A -> Prop) :
  (forall a, Q a -> Q' a) -> tree_ends p Q -> tree_ends p Q'.
Proof. intros H. induction p; cbn; auto. Qed.

Lemma tree_ends_bind {A B} (p : tree R A) (f : A -> tree R B) Q :
  tree_ends p (fun a => tree_ends (f a) Q) -> tree_ends (tbind p f) Q.
Proof. induction p; cbn; auto. Qed.

Lemma tree_ends_runs {A} (p : tree R A) Q t a : tree_ends p Q -> runs p t (Returned a) -> Q a.
Proof.
  revert t; induction p; intros t; cbn; [by intros ? [_ [= ->]] | | by intros _ [] ..].
  intros Hp (r & t' & _ & Hr). by eapply H.
Qed.

Context (Rl : St -> St -> Prop) `{!PreOrder Rl}.

Lemma preserves_ret {A} (a : A) : preserves Rl (ret a : prog R St A).
Proof. intros s. change (Rl s s). reflexivity. Qed.
Lemma preserves_call c : preserves Rl (call c : prog R St (R c)).
Proof. intros s r. change (Rl s s). reflexivity. Qed.
Lemma preserves_gets {A} (f : St -> A) : preserves Rl (gets f : prog R St A).
Proof. intros s. change (Rl s s). reflexivity. Qed.
Lemma preserves_reads {A} (f : St -> option A) : preserves Rl (reads f : prog R St A).
Proof. intros s. unfold reads. destruct (f s); cbn; [reflexivity | done]. Qed.
Lemma preserves_undefined {A} : preserves Rl (undefined : prog R St A).
Proof. done. Qed.
Lemma preserves_unfinished {A} : preserves Rl (unfinished : prog R St A).
Proof. done. Qed.
Lemma preserves_modify f : (forall s, Rl s (f s)) -> preserves Rl (modify f : prog R St unit).
Proof. intros H s. apply H. Qed.
Lemma preserves_bind {A B} (m : prog R St A) (f : A -> prog R St B) :
  preserves Rl m -> (forall a, preserves Rl (f a)) -> preserves Rl (bind m f).
Proof.
  intros Hm Hf s. apply tree_ends_bind. eapply tree_ends_mono; [| apply Hm].
  intros [a s1] H1. eapply tree_ends_mono; [| apply Hf]. intros [b s2] H2; cbn in *.
  by transitivity s1.
Qed.

(** An update whose new value is read from the state: it may use what was read. *)
Lemma preserves_reads_bind {A B} (g : St -> option A) (f : A -> prog R St B) :
  (forall a s, g s = Some a -> tree_ends (f a s) (fun r => Rl s (snd r))) ->
  preserves Rl (bind (reads g) f).
Proof.
  intros H s. unfold bind, reads. destruct (g s) as [a|] eqn:Hg; cbn; [by apply H | done].
Qed.

(** A triple may add how the states are related. *)
Lemma spec_preserves {A} E (m : prog R St A) s Q :
  spec E m s Q -> preserves Rl m -> spec E m s (fun t a s' => Q t a s' /\ Rl s s').
Proof.
  unfold spec, preserves. intros HQ Hm. specialize (Hm s). revert HQ Hm.
  set (Q1 := fun t r => Q t (fst r) (snd r)).
  change (wp E (m s) Q1 -> tree_ends (m s) (fun r => Rl s (snd r)) ->
          wp E (m s) (fun t r => Q1 t r /\ Rl s (snd r))).
  clearbody Q1. revert Q1. induction (m s) as [a | c k IH | |]; intros Q1 HQ Hm; cbn in *; try done.
  intros r Hr. by apply (IH r (fun t a => Q1 (existT c r :: t) a)); [apply HQ | apply Hm].
Qed.
End frames.

(** Proves [preserves Rl m] for [m] built from primitives and programs whose lemmas are
    in the database [frames]; what an update does to the state is left. *)
Create HintDb frames.
Ltac frame_step :=
  lazymatch goal with
  | |- preserves _ (bind _ _) => apply preserves_bind; [exact _ | | intros ?]
  | |- preserves _ (ret _) => apply preserves_ret; exact _
  | |- preserves _ (call _) => apply preserves_call; exact _
  | |- preserves _ (gets _) => apply preserves_gets; exact _
  | |- preserves _ (reads _) => apply preserves_reads; exact _
  | |- preserves _ undefined => apply preserves_undefined
  | |- preserves _ unfinished => apply preserves_unfinished
  | |- preserves _ (modify _) => apply preserves_modify; intros ?
  | |- preserves _ (if ?b then _ else _) => destruct b
  | |- preserves _ (match ?r with _ => _ end) => destruct r
  | |- _ => solve [auto with frames]
  end; cbn beta iota.
Ltac frame_auto := repeat frame_step.

(** ** What a program does when it returns

    [when_ends m s Q]: every run of [m] from [s] that returns satisfies [Q], whatever the
    environment answers. *)

Section partial.
Context {C : Type} {R : C -> Type} {St : Type}.

Definition when_ends {A} (m : prog R St A) (s : St) (Q : list (event R) -> A -> St -> Prop)
    : Prop :=
  forall t a s', runs (m s) t (Returned (a, s')) -> Q t a s'.

Lemma when_ends_mono {A} (m : prog R St A) s (Q Q' : list (event R) -> A -> St -> Prop) :
  when_ends m s Q -> (forall t a s', Q t a s' -> Q' t a s') -> when_ends m s Q'.
Proof. unfold when_ends. auto. Qed.

Lemma when_ends_bind {A B} (m : prog R St A) (f : A -> prog R St B) s
    (Q : list (event R) -> B -> St -> Prop) :
  when_ends m s (fun t a s1 => when_ends (f a) s1 (fun t' b s2 => Q (t ++ t') b s2)) ->
  when_ends (bind m f) s Q.
Proof.
  intros H t b s2 Hr.
  destruct (tbind_split _ _ _ _ Hr) as [(t1 & t2 & [a s1] & -> & H1 & H2) | (o & Hno & _ & Ho)].
  - by apply (H t1 a s1 H1).
  - destruct o as [[a s1] | |]; [by destruct (Hno (a, s1)) | done ..].
Qed.

Lemma when_ends_ret {A} (a : A) s (Q : list (event R) -> A -> St -> Prop) :
  Q [] a s -> when_ends (ret a) s Q.
Proof. by intros HQ t b s' [-> [= -> ->]]. Qed.

Lemma when_ends_call c s (Q : list (event R) -> R c -> St -> Prop) :
  (forall r, Q [existT c r] r s) -> when_ends (call c) s Q.
Proof. intros HQ t b s' (r & t' & -> & -> & [= -> ->]). apply HQ. Qed.

Lemma when_ends_gets {A} (f : St -> A) s (Q : list (event R) -> A -> St -> Prop) :
  Q [] (f s) s -> when_ends (gets f) s Q.
Proof. by intros HQ t b s' [-> [= -> ->]]. Qed.

Lemma when_ends_reads {A} (f : St -> option A) s (Q : list (event R) -> A -> St -> Prop) :
  (forall a, f s = Some a -> Q [] a s) -> when_ends (reads f) s Q.
Proof.
  intros HQ t a s' Hr. unfold reads in Hr. destruct (f s) eqn:Hf; cbn in Hr; [| by destruct Hr].
  destruct Hr as [-> [= -> ->]]. by apply HQ.
Qed.

Lemma when_ends_modify (f : St -> St) s (Q : list (event R) -> unit -> St -> Prop) :
  Q [] tt (f s) -> when_ends (modify f) s Q.
Proof. by intros HQ t [] s' [-> [= ->]]. Qed.

(** The calls it may make and what it does to its state are known of such a run. *)
Lemma when_ends_frame {A} (P : C -> bool) (Rl : St -> St -> Prop) (m : prog R St A) s :
  makes P m -> preserves Rl m -> when_ends m s (fun t _ s' => only P t /\ Rl s s').
Proof.
  intros Hm Hp t a s' Hr. split.
  - specialize (Hm s). clear Hp. revert t Hr Hm.
    induction (m s) as [r | c k IH | |]; intros t Hr Hm; cbn in *; [| | by destruct Hr ..].
    + destruct Hr as [-> _]. apply only_nil.
    + destruct Hr as (r & t' & -> & Hr). destruct Hm as [Hc Hk]. apply only_cons; eauto.
  - exact (tree_ends_runs (m s) (fun r => Rl s (snd r)) t (a, s') (Hp s) Hr).
Qed.
End partial.

(** One primitive step. *)
Ltac ends_step :=
  lazymatch goal with
  | |- when_ends (bind _ _) _ _ => apply when_ends_bind
  | |- when_ends (ret _) _ _ => apply when_ends_ret
  | |- when_ends (call ?c) ?s ?Q => refine (when_ends_call c s Q _); intros ?
  | |- when_ends (gets _) _ _ => apply when_ends_gets
  | |- when_ends (modify _) _ _ => apply when_ends_modify
  end; cbn beta iota.

Create Rewrite HintDb trace.
#[export] Hint Rewrite @count_app @count_nil @count_cons @calls_app : trace.
