(* ===== verification/ServiceData.v ===== *)
(** * The XRCE service: data, external interfaces and state

    The types of [src/service/Agent.h], [src/service/ProxyClient.h] and
    [src/service/StreamStorage.h], the part of the Micro XRCE client library
    the service reads without calling (class [NanoClient]), the calls it makes
    to code that is modelled elsewhere or is not in the repository ([Call] and
    their responses [Resp]), and the memory of the service ([Service]).

    A pointer is an integer of [Z] and NULL is [None].  The objects the service
    takes from its pools live in the maps of [Service]; returning a buffer to a
    pool is a call, and leaves the bytes of the object where they are.  A
    [Stream] is the handle the session hands out, with the identifier and the
    reliability that [NANO_XRCE_Stream_id] and [NANO_XRCE_Stream_is_reliable]
    read from it. *)

From Stdlib Require Import ZArith Lia Ascii String.
From stdpp Require Import base tactics list gmap.
From S2P Require Import Prelude.
From S2P Require Import CString.
From S2P Require Import Infrastructure.
From S2P Require Import Interaction.

(** ** Codes and identifiers *)

Inductive NANO_RetCode :=
  | NANO_RETCODE_OK | NANO_RETCODE_ERROR | NANO_RETCODE_TRY_AGAIN
  | NANO_RETCODE_OUT_OF_RESOURCES | NANO_RETCODE_INVALID_ARGS
  | NANO_RETCODE_OTHER (code : Z).

Inductive DDS_ReturnCode_t := DDS_RETCODE_OK | DDS_RETCODE_ERROR | DDS_RETCODE_OTHER (code : Z).

Inductive NANO_XRCE_ObjectKind :=
  | OBJK_INVALID | OBJK_PARTICIPANT | OBJK_TOPIC | OBJK_PUBLISHER | OBJK_SUBSCRIBER
  | OBJK_DATAWRITER | OBJK_DATAREADER | OBJK_TYPE | OBJK_QOSPROFILE | OBJK_APPLICATION
  | OBJK_DOMAIN | OBJK_AGENT | OBJK_CLIENT | OBJK_OTHER (kind : Z).

Inductive NANO_XRCE_SubmessageId :=
  | SUBMSG_CREATE_CLIENT | SUBMSG_CREATE | SUBMSG_DELETE | SUBMSG_WRITE_DATA
  | SUBMSG_READ_DATA | SUBMSG_GET_INFO | SUBMSG_STATUS_AGENT | SUBMSG_STATUS
  | SUBMSG_DATA | SUBMSG_FRAGMENT | SUBMSG_OTHER (id : Z).

Inductive NANO_XRCE_RepresentationFormat :=
  | REPRESENTATION_AS_XML_STRING | REPRESENTATION_BY_REFERENCE
  | REPRESENTATION_IN_BINARY | REPRESENTATION_OTHER (fmt : Z).

Inductive NANO_XRCE_DataFormat :=
  | FORMAT_INVALID | FORMAT_DATA | FORMAT_SAMPLE | FORMAT_DATA_SEQ
  | FORMAT_SAMPLE_SEQ | FORMAT_PACKED_SAMPLES | FORMAT_OTHER (fmt : Z).

Inductive NANO_XRCE_ReliableMessageLostReason :=
  | LOST_BY_REMOTE_WRITER | LOST_BY_LOCAL_WRITER | LOST_OTHER (reason : Z).

#[export] Instance NANO_RetCode_eq_dec : EqDecision NANO_RetCode.
Proof. solve_decision. Defined.
#[export] Instance DDS_ReturnCode_t_eq_dec : EqDecision DDS_ReturnCode_t.
Proof. solve_decision. Defined.
#[export] Instance NANO_XRCE_ObjectKind_eq_dec : EqDecision NANO_XRCE_ObjectKind.
Proof. solve_decision. Defined.
#[export] Instance NANO_XRCE_SubmessageId_eq_dec : EqDecision NANO_XRCE_SubmessageId.
Proof. solve_decision. Defined.
#[export] Instance NANO_XRCE_RepresentationFormat_eq_dec :
  EqDecision NANO_XRCE_RepresentationFormat.
Proof. solve_decision. Defined.
#[export] Instance NANO_XRCE_DataFormat_eq_dec : EqDecision NANO_XRCE_DataFormat.
Proof. solve_decision. Defined.

Definition is_ok (rc : NANO_RetCode) : bool :=
  match rc with NANO_RETCODE_OK => true | _ => false end.

Definition dds_ok (rc : DDS_ReturnCode_t) : bool :=
  match rc with DDS_RETCODE_OK => true | _ => false end.

Definition to_dds (rc : NANO_RetCode) : DDS_ReturnCode_t :=
  if is_ok rc then DDS_RETCODE_OK else DDS_RETCODE_ERROR.

(** The [value] arrays of the library's keys and identifiers. *)
Record NANO_XRCE_ClientKey := { key0 : Z; key1 : Z; key2 : Z; key3 : Z }.
Record NANO_XRCE_ObjectId := { obj0 : Z; obj1 : Z }.
Record NANO_XRCE_RequestId := { req0 : Z; req1 : Z }.
Record NANO_Time := { time_sec : Z; time_nanosec : Z }.

#[export] Instance NANO_XRCE_ClientKey_eq_dec : EqDecision NANO_XRCE_ClientKey.
Proof. solve_decision. Defined.
#[export] Instance NANO_XRCE_ObjectId_eq_dec : EqDecision NANO_XRCE_ObjectId.
Proof. solve_decision. Defined.
#[export] Instance NANO_XRCE_RequestId_eq_dec : EqDecision NANO_XRCE_RequestId.
Proof. solve_decision. Defined.

Record NANO_XRCE_MessageHeader := {
  mh_session_id : Z; mh_stream_id : Z; mh_sn : Z
}.

Record NANO_XRCE_SubmessageHeader := {
  sh_id : NANO_XRCE_SubmessageId; sh_flags : Z; sh_length : Z
}.

Record NANO_XRCE_ClientRepresentation := {
  cr_client_key : NANO_XRCE_ClientKey;
  cr_session_id : Z;
  cr_cookie : Z;
  cr_version : Z;
  cr_mtu : Z
}.

(** ** The library's macros and constants

    [rc_failed] and [rc_passed] are the value [NANO_CHECK_RC] leaves in the
    variable [rc] of the calling function when the checked code is a failure and
    when it is not. *)

Class NanoClient := {
  rc_failed : NANO_RetCode -> NANO_RetCode;
  rc_passed : NANO_RetCode;
  NANO_FEAT_ALL_BY_REF : bool;
  (** the value of [a - b] on [NANO_usize] operands *)
  usize_sub : Z -> Z -> Z;
  (** the value of [a + b] on [NANO_usize] operands *)
  usize_add : Z -> Z -> Z;
  (** conversion to [NANO_usize] *)
  to_usize : Z -> Z;
  SESSIONID_NONE_WITH_CLIENT : Z;
  SESSIONID_NONE_WITHOUT_CLIENT : Z;
  SessionId_header_size : Z -> Z;
  SessionId_has_client_key : Z -> bool;
  INLINEHEADERBUFFER_SUBMSG_OFFSET : Z -> Z;
  CREATECLIENTPAYLOAD_HEADER_SERIALIZED_SIZE_MIN : Z;
  AGENTREPRESENTATION_SERIALIZED_SIZE_MAX : Z;
  STATUSPAYLOAD_SERIALIZED_SIZE_MAX : Z;
  RELATEDOBJECTREQUEST_SERIALIZED_SIZE_MAX : Z;
  InlineHeaderBuffer_session_id : list Z -> Z;
  InlineHeaderBuffer_clientkey : list Z -> NANO_XRCE_ClientKey;
  STREAMID_NONE : Z;
  STREAMID_BUILTIN_BEST_EFFORTS : Z;
  STREAMID_BUILTIN_RELIABLE : Z;
  StreamId_is_reliable : Z -> bool;
  CLIENTKEY_INVALID : NANO_XRCE_ClientKey;
  ClientKey_compare : NANO_XRCE_ClientKey -> NANO_XRCE_ClientKey -> Z;
  ClientKey_to_u32 : NANO_XRCE_ClientKey -> Z;
  CLIENTREPRESENTATION_INITIALIZER : NANO_XRCE_ClientRepresentation;
  ClientRepresentation_is_valid : NANO_XRCE_ClientRepresentation -> bool;
  Cookie_is_valid : Z -> bool;
  Version_is_compatible : Z -> bool;
  ObjectId_kind : NANO_XRCE_ObjectId -> NANO_XRCE_ObjectKind;
  ObjectId_to_u16 : NANO_XRCE_ObjectId -> Z;
  ObjectId_from_u16 : Z -> NANO_XRCE_ObjectId;
  ObjectId_combine : NANO_XRCE_ObjectId -> NANO_XRCE_ObjectKind -> NANO_XRCE_ObjectId;
  SeqNum_compare : Z -> Z -> Z;
  SubmessageId_of_byte : Z -> NANO_XRCE_SubmessageId;
  SUBMESSAGEFLAGS_DEFAULT : Z;
  Flags_is_little_endian : Z -> bool;
  Flags_DATA_format : Z -> NANO_XRCE_DataFormat;
  Flags_DATA_set_format : NANO_XRCE_DataFormat -> bool -> Z;
  Flags_WRITEDATA_confirm : Z -> bool;
  Flags_READDATA_confirm : Z -> bool;
  Flags_CREATE_replace : Z -> bool;
  Flags_CREATE_reuse : Z -> bool;
  StatusValue_from_rc : NANO_RetCode -> Z;
  NANO_TIME_INITIALIZER_INFINITE : NANO_Time;
  Time_is_infinite : NANO_Time -> bool;
  Time_is_zero : NANO_Time -> bool;
  Time_to_millis : NANO_Time -> Z;
  TransportLocator : Type;
  TransportLocator_default : TransportLocator;
  TransportLocator_compare : TransportLocator -> TransportLocator -> Z;
  MESSAGEBUFFER_DATA_LEN_MAX : Z;
  MESSAGEBUFFER_INLINE_SIZE_BYTES : Z -> Z
}.

(** What the service relies on.  [NANO_CHECK_RC] leaves a failure in [rc] when
    the check fails, and a [goto done] after a check that passed still reports an
    error, since the functions set [rc] to OK only as their last step. *)
Class NanoClientOk (N : NanoClient) : Prop := {
  rc_failed_failure : forall rc, rc <> NANO_RETCODE_OK -> rc_failed rc <> NANO_RETCODE_OK;
  rc_passed_failure : rc_passed <> NANO_RETCODE_OK;
  ClientKey_compare_zero : forall a b, ClientKey_compare a b = 0%Z <-> a = b;
  SeqNum_compare_zero : forall a b, SeqNum_compare a b = 0%Z <-> a = b;
  TransportLocator_compare_zero : forall a b, TransportLocator_compare a b = 0%Z <-> a = b;
  usize_sub_exact : forall a b, (0 <= b <= a)%Z -> (a < 65536)%Z -> usize_sub a b = (a - b)%Z;
  usize_add_exact : forall a b, (0 <= a)%Z -> (0 <= b)%Z -> (a + b < 65536)%Z -> usize_add a b = (a + b)%Z;
  to_usize_small : forall a, (0 <= a < 65536)%Z -> to_usize a = a
}.

(** ** Payloads *)

Record ObjectRepresentation := {
  repr_format : NANO_XRCE_RepresentationFormat;
  repr_value_ref : option cstr;
  repr_value_xml : option cstr;
  repr_parent : NANO_XRCE_ObjectId;
  repr_domain_id : Z
}.

Record NANO_XRCE_CreatePayload := {
  cp_request_id : NANO_XRCE_RequestId;
  cp_object_id : NANO_XRCE_ObjectId;
  cp_kind : NANO_XRCE_ObjectKind;
  cp_repr : ObjectRepresentation
}.

(** The base request of DELETE and GET_INFO. *)
Record NANO_XRCE_BaseObjectRequest := {
  br_request_id : NANO_XRCE_RequestId;
  br_object_id : NANO_XRCE_ObjectId
}.

Record NANO_XRCE_WriteDataPayload := {
  wp_request_id : NANO_XRCE_RequestId;
  wp_object_id : NANO_XRCE_ObjectId;
  wp_format : NANO_XRCE_DataFormat;
  wp_data : D2S2_Buffer
}.

Record D2S2_ReadSpecification := {
  max_samples : Z; max_elapsed_time : Z; max_bytes_per_second : Z; min_pace_period : Z;
  content_filter_expr : option cstr
}.

Definition D2S2_READSPECIFICATION_INITIALIZER : D2S2_ReadSpecification :=
  {| max_samples := 0; max_elapsed_time := 0; max_bytes_per_second := 0;
     min_pace_period := 0; content_filter_expr := None |}.

Record NANO_XRCE_ReadDataPayload := {
  rp_request_id : NANO_XRCE_RequestId;
  rp_object_id : NANO_XRCE_ObjectId;
  rp_preferred_stream_id : Z;
  rp_data_format : NANO_XRCE_DataFormat;
  rp_has_delivery_ctrl : bool;
  rp_delivery_ctrl : D2S2_ReadSpecification;
  rp_has_content_filter_expr : bool;
  rp_content_filter_expr : option cstr
}.

Inductive D2S2_DataRepresentationFormat :=
  | DATAREPRESENTATIONFORMAT_UNKNOWN | DATAREPRESENTATIONFORMAT_XCDR
  | DATAREPRESENTATIONFORMAT_XML | DATAREPRESENTATIONFORMAT_JSON.

Record D2S2_DataRepresentation := {
  dr_fmt : D2S2_DataRepresentationFormat;
  dr_xcdr : D2S2_XcdrData
}.

Definition D2S2_DATAREPRESENTATION_INITIALIZER : D2S2_DataRepresentation :=
  {| dr_fmt := DATAREPRESENTATIONFORMAT_UNKNOWN; dr_xcdr := D2S2_XCDRDATA_INITIALIZER |}.

(** Samples on loan from the DDS agent, with their address. *)
Record D2S2_ReceivedData := {
  rd_addr : Z;
  rd_reader_id : Z;
  rd_data : D2S2_DataRepresentation
}.

Record D2S2_ResourceProperties := { replace : bool; reuse : bool; domain_id : Z }.

Definition D2S2_RESOURCEPROPERTIES_INITIALIZER : D2S2_ResourceProperties :=
  {| replace := false; reuse := false; domain_id := 0 |}.

Definition ATTACHEDRESOURCEID_INVALID : Z := 0.

(** ** The objects of the service *)

Record Stream := { st_id : Z; st_reliable : bool }.

Record NANO_XRCE_ProxyClientRequest := {
  rq_client : Z;
  rq_msg_hdr : NANO_XRCE_MessageHeader;
  rq_submsg_hdr : NANO_XRCE_SubmessageHeader;
  rq_request : NANO_XRCE_RequestId;
  rq_object_id : NANO_XRCE_ObjectId;
  rq_complete : bool;
  rq_reply : bool;
  rq_rc : NANO_RetCode;
  rq_reply_mbuf : option Z
}.

Record NANO_XRCE_WriteRequest := {
  wr_req : option Z;
  wr_payload : NANO_XRCE_WriteDataPayload;
  wr_data_repr : D2S2_DataRepresentation
}.

Record NANO_XRCE_ReaderState := {
  rs_req : option Z;
  rs_read_fmt : NANO_XRCE_DataFormat;
  rs_read_spec_dds : D2S2_ReadSpecification;
  rs_stream_id : Z;
  rs_forward : bool
}.

Record NANO_XRCE_ForwardDataRequest := {
  fw_rcvd_data : D2S2_ReceivedData;
  fw_reader_id : NANO_XRCE_ObjectId;
  fw_stream_id : Z;
  fw_sn : Z
}.

Record NANO_XRCE_ClientLocatorMapping {N : NanoClient} := {
  cm_client_key : NANO_XRCE_ClientKey;
  cm_locator : TransportLocator
}.

Record NANO_XRCE_AgentTransportRecord := { tr_node : Z; tr_transport : Z; tr_ea : Z }.

Record NANO_XRCE_AgentProperties {N : NanoClient} := {
  client_session_timeout : NANO_Time;
  auto_client_mapping : bool;
  client_mappings : option (list NANO_XRCE_ClientLocatorMapping);
  client_mappings_len : Z;
  heartbeat_period : NANO_Time;
  confirm_all_requests : bool;
  auto_delete_resources : bool;
  max_messages_per_acknack : Z;
  max_messages_per_heartbeat : Z
}.

Definition AGENTFLAGS_ENABLED : Z := Z.shiftl 1 0.

Record NANO_XRCE_Agent {N : NanoClient} := {
  transports : list NANO_XRCE_AgentTransportRecord;
  transports_pool : bool; clients_pool : bool; reads_pool : bool;
  pool_storage_stream : bool; pool_storage_session : bool;
  flags : Z;
  props : NANO_XRCE_AgentProperties;
  mappings_mutex : bool
}.

(** A proxy client: [cl_session_*] are the fields of its session the service
    reads, [cl_locator] and [cl_transport] the entry its transport is bound to.
    The flags of the last line tell which of its pools exist. *)
Record NANO_XRCE_ProxyClient {N : NanoClient} := {
  cl_session_key : NANO_XRCE_ClientKey;
  cl_session_id : Z;
  cl_transport : Z;
  cl_locator : TransportLocator;
  cl_dds_session : option Z;
  cl_storage : option Z;
  cl_stream_storage : list Z;
  cl_forwards : list Z;
  cl_disposed : bool;
  cl_dispose_request : option Z;
  cl_event_hb : option Z;
  cl_cache_mapping : bool;
  cl_requests_pool : bool; cl_forwards_pool : bool; cl_writes_pool : bool
}.

Definition PROXYCLIENT_INITIALIZER {N : NanoClient} : NANO_XRCE_ProxyClient :=
  {| cl_session_key := CLIENTKEY_INVALID; cl_session_id := 0; cl_transport := 0;
     cl_locator := TransportLocator_default; cl_dds_session := None; cl_storage := None;
     cl_stream_storage := []; cl_forwards := []; cl_disposed := false;
     cl_dispose_request := None; cl_event_hb := None; cl_cache_mapping := false;
     cl_requests_pool := false; cl_forwards_pool := false; cl_writes_pool := false |}.

(** ** Calls to the code outside the service *)

Inductive Pool :=
  | Pool_transports | Pool_clients | Pool_reads
  | Pool_storage_stream | Pool_storage_session
  | Pool_requests (client : Z) | Pool_forwards (client : Z) | Pool_writes (client : Z)
  | Pool_messages (pool : Z).

#[export] Instance Pool_eq_dec : EqDecision Pool.
Proof. solve_decision. Defined.

(** Bytes written to a message buffer before it is sent. *)
Inductive MessageContent :=
  | AgentRepresentationContent
  | StatusContent (request : NANO_XRCE_RequestId) (object : NANO_XRCE_ObjectId)
      (status : Z) (implementation_status : NANO_RetCode)
  | DataHeaderContent (request : NANO_XRCE_RequestId) (object : NANO_XRCE_ObjectId).

(** Payload buffers the application hands to the session by address. *)
Record UserPayload := { up_addr : Z; up_size : Z }.

(** Calls the session makes to its listener while it runs. *)
Inductive SendCallback :=
  | SendComplete (client : Z) (stream : Stream) (msg_hdr : NANO_XRCE_MessageHeader)
      (submsg_hdr : NANO_XRCE_SubmessageHeader)
  | MsgLost (client : Z) (stream : Stream) (lost : Z)
      (reason : NANO_XRCE_ReliableMessageLostReason).

Inductive SessionCallback :=
  | OnSubmsg (client : Z) (msg_hdr : NANO_XRCE_MessageHeader)
      (submsg_hdr : NANO_XRCE_SubmessageHeader) (payload : list Z)
  | OnSend (cb : SendCallback).

(** Calls the DDS agent makes to its interface before an operation returns. *)
Inductive OpenCallback :=
  | SessionOpened (session : Z) (session_data : Z)
  | SessionReset (session : Z) (old_session_data : Z).

Record ResourceCreated := {
  ct_session_data : Z; ct_kind : D2S2_ResourceKind; ct_attach_id : Z;
  ct_request_data : option Z
}.

Record ResourceDeleted := {
  dt_session_data : Z; dt_kind : D2S2_ResourceKind; dt_attach_id : Z;
  dt_resource_data : option Z; dt_request_data : option Z
}.

Record ReadCreated := { rt_session_data : Z; rt_reader_data : Z }.
Record DataWritten := { wt_session_data : Z; wt_request_data : Z }.
Record MessageReceived := { mt_session_data : Z; mt_message : list Z }.

Inductive Call {N : NanoClient} :=
  (* REDA pools, heap, semaphores *)
  | PoolNew (p : Pool) (size : Z)
  | PoolDelete (p : Pool)
  | PoolGet (p : Pool)
  | PoolReturn (p : Pool) (buffer : Z)
  | HeapAllocate (n : Z)
  | HeapReallocate (n : Z)
  | HeapFree
  | HeapFreeString (s : option cstr)
  | StringFree (s : option cstr)
  | SemaphoreNew
  | SemaphoreDelete
  | SemaphoreTake
  | SemaphoreGive
  (* agent transports *)
  | TransportInitialize (transport : Z)
  | TransportFinalize (transport : Z)
  | TransportListen (transport : Z)
  | TransportClose (transport : Z)
  | TransportSendTo (transport : Z) (locator : TransportLocator) (msg : Z)
  | TransportLocatorCopy (locator : TransportLocator)
  | ClientTransportNextSend
  | ClientTransportSendComplete (msg : Z)
  (* message buffers *)
  | MessageWrite (msg : Z) (content : MessageContent)
  | MessageAppend (msg : Z) (tail : Z)
  | MessageNext (msg : Z)
  | MessageUnlink (msg : Z)
  (* sessions *)
  | SessionInitialize (client : Z) (key : NANO_XRCE_ClientKey) (id : Z) (mtu : Z)
  | SessionFinalize (client : Z)
  | SessionFinalizeStorage (client : Z)
  | SessionConnected (client : Z)
  | SessionResetState (client : Z)
  | SessionRegisterStream (client : Z) (id : Z) (storage : Z)
  | SessionLookupStream (client : Z) (id : Z)
  | SessionAllocateMessage (client : Z) (stream : Stream) (size : Z) (payload : option UserPayload)
  | SessionReleaseMessage (client : Z) (stream : Stream) (msg : Z)
  | SessionSend (client : Z) (stream : Stream) (id : NANO_XRCE_SubmessageId) (flags : Z) (msg : Z)
  | SessionDismissSendQueue (client : Z) (stream : Stream) (sn : Z)
  | SessionSendHeartbeats (client : Z) (first last : Z)
  | SessionParseHeader (client : Z) (message : list Z)
  | SessionReceive (client : Z) (stream : Stream) (message : list Z)
  | SessionReceived
  (* deserialization *)
  | CdrInitialize (length : Z) (little_endian : bool)
  | DeserializeClientRepresentation (data : list Z) (length : Z) (little_endian : bool)
  | DeserializeCreate (payload : list Z)
  | DeserializeDelete (payload : list Z)
  | DeserializeWriteData (payload : list Z) (format : NANO_XRCE_DataFormat)
  | DeserializeReadData (payload : list Z)
  | DeserializeGetInfo (payload : list Z)
  | FinalizeClientRepresentation (r : option NANO_XRCE_ClientRepresentation)
  (* the DDS agent *)
  | AgentOpenSession (key : Z) (id : Z) (timeout : option NANO_Time) (session_data : Z)
  | AgentReceiveMessage (key : Z) (id : Z) (message : list Z)
  | AgentCreateResource (session : option Z) (id : Z) (kind : D2S2_ResourceKind)
      (repr : D2S2_ResourceRepresentation) (parent : Z) (p : D2S2_ResourceProperties)
      (request_data : Z)
  | AgentDeleteResource (session : option Z) (id : Z) (request_data : Z)
  | AgentLookupResource (session : option Z) (id : Z)
  | AgentWrite (session : option Z) (id : Z) (data : D2S2_DataRepresentation) (request_data : Z)
  | AgentRead (session : option Z) (id : Z) (read_spec : D2S2_ReadSpecification)
  | AgentReturnLoan (session : option Z) (data : D2S2_ReceivedData)
  | AgentCreateSessionEvent (session : Z) (client : Z)
  | AgentFireSessionEvent (ev : option Z) (delay_s delay_ms : Z)
  | AgentDeleteSessionEvent (ev : Z)
  | AgentReturn
  (* the result of a callback, as its caller sees it *)
  | CallbackReturn (rc : DDS_ReturnCode_t) (data : option Z)
  | SubmsgReturn (rc : NANO_RetCode).

Definition Resp {N : NanoClient} (c : Call) : Type :=
  match c with
  | PoolNew _ _ | SemaphoreNew | HeapAllocate _ | HeapReallocate _ => bool
  | PoolGet _ => option Z
  | TransportInitialize _ => NANO_RetCode * Z
  | TransportListen _ | TransportClose _ | TransportSendTo _ _ _ => NANO_RetCode
  | TransportLocatorCopy _ => NANO_RetCode
  | ClientTransportNextSend => option Z
  | MessageNext _ => option Z
  | SessionInitialize _ _ _ _ | SessionRegisterStream _ _ _ => NANO_RetCode
  | SessionLookupStream _ _ => option Stream
  | SessionAllocateMessage _ _ _ _ => option Z
  | SessionSend _ _ _ _ _ => NANO_RetCode * Z
  | SessionDismissSendQueue _ _ _ => list SendCallback * Z
  | SessionSendHeartbeats _ _ _ => NANO_RetCode
  | SessionParseHeader _ _ => option (Z * Z)
  | SessionReceive _ _ _ => list SessionCallback
  | SessionReceived => NANO_RetCode
  | CdrInitialize _ _ => NANO_RetCode
  | DeserializeClientRepresentation _ _ _ => NANO_RetCode * NANO_XRCE_ClientRepresentation
  | DeserializeCreate _ => NANO_RetCode * NANO_XRCE_CreatePayload
  | DeserializeDelete _ | DeserializeGetInfo _ => NANO_RetCode * NANO_XRCE_BaseObjectRequest
  | DeserializeWriteData _ _ => NANO_RetCode * NANO_XRCE_WriteDataPayload
  | DeserializeReadData _ => NANO_RetCode * NANO_XRCE_ReadDataPayload
  | AgentOpenSession _ _ _ _ => list OpenCallback
  | AgentReceiveMessage _ _ _ => list MessageReceived
  | AgentCreateResource _ _ _ _ _ _ _ => list ResourceCreated
  | AgentDeleteResource _ _ _ => list ResourceDeleted
  | AgentWrite _ _ _ _ => list DataWritten
  | AgentRead _ _ _ => list ReadCreated
  | AgentLookupResource _ _ => DDS_ReturnCode_t * bool * option Z
  | AgentReturnLoan _ _ => DDS_ReturnCode_t
  | AgentCreateSessionEvent _ _ => DDS_ReturnCode_t * option Z
  | AgentFireSessionEvent _ _ _ | AgentDeleteSessionEvent _ => DDS_ReturnCode_t
  | AgentReturn => DDS_ReturnCode_t
  | _ => unit
  end.

(** ** The memory of the service *)

Record Service {N : NanoClient} := {
  agent : NANO_XRCE_Agent;
  client_at : gmap Z NANO_XRCE_ProxyClient;
  request_at : gmap Z NANO_XRCE_ProxyClientRequest;
  write_at : gmap Z NANO_XRCE_WriteRequest;
  reader_at : gmap Z NANO_XRCE_ReaderState;
  forward_at : gmap Z NANO_XRCE_ForwardDataRequest
}.

Abbreviation service A := (prog (@Resp _) (@Service _) A).
Abbreviation cevent := (event (@Resp _)).

Section memory.
Context {N : NanoClient}.
Local Open Scope nano_scope.

Definition the_agent : service NANO_XRCE_Agent := gets agent.
Definition client_of (p : Z) : service NANO_XRCE_ProxyClient := reads (fun s => client_at s !! p).
Definition request_of (p : Z) : service NANO_XRCE_ProxyClientRequest :=
  reads (fun s => request_at s !! p).
Definition write_of (p : Z) : service NANO_XRCE_WriteRequest := reads (fun s => write_at s !! p).
Definition reader_of (p : Z) : service NANO_XRCE_ReaderState := reads (fun s => reader_at s !! p).
Definition forward_of (p : Z) : service NANO_XRCE_ForwardDataRequest :=
  reads (fun s => forward_at s !! p).

Definition set_agent (a : NANO_XRCE_Agent) (s : Service) : Service :=
  {| agent := a; client_at := client_at s; request_at := request_at s;
     write_at := write_at s; reader_at := reader_at s; forward_at := forward_at s |}.
Definition put_client (p : Z) (c : NANO_XRCE_ProxyClient) (s : Service) : Service :=
  {| agent := agent s; client_at := <[p := c]> (client_at s); request_at := request_at s;
     write_at := write_at s; reader_at := reader_at s; forward_at := forward_at s |}.
Definition put_request (p : Z) (r : NANO_XRCE_ProxyClientRequest) (s : Service) : Service :=
  {| agent := agent s; client_at := client_at s; request_at := <[p := r]> (request_at s);
     write_at := write_at s; reader_at := reader_at s; forward_at := forward_at s |}.
Definition put_write (p : Z) (w : NANO_XRCE_WriteRequest) (s : Service) : Service :=
  {| agent := agent s; client_at := client_at s; request_at := request_at s;
     write_at := <[p := w]> (write_at s); reader_at := reader_at s; forward_at := forward_at s |}.
Definition put_reader (p : Z) (r : NANO_XRCE_ReaderState) (s : Service) : Service :=
  {| agent := agent s; client_at := client_at s; request_at := request_at s;
     write_at := write_at s; reader_at := <[p := r]> (reader_at s); forward_at := forward_at s |}.
Definition put_forward (p : Z) (f : NANO_XRCE_ForwardDataRequest) (s : Service) : Service :=
  {| agent := agent s; client_at := client_at s; request_at := request_at s;
     write_at := write_at s; reader_at := reader_at s; forward_at := <[p := f]> (forward_at s) |}.

Lemma put_client_same (p : Z) (c : NANO_XRCE_ProxyClient) (s : Service) :
  client_at s !! p = Some c -> put_client p c s = s.
Proof. intros H. destruct s; unfold put_client; cbn in *. f_equal. by apply insert_id. Qed.

Lemma put_client_twice (p : Z) (c c' : NANO_XRCE_ProxyClient) (s : Service) :
  put_client p c (put_client p c' s) = put_client p c s.
Proof. destruct s; unfold put_client; cbn. by rewrite insert_insert_eq. Qed.

Lemma put_request_twice (p : Z) (r r' : NANO_XRCE_ProxyClientRequest) (s : Service) :
  put_request p r (put_request p r' s) = put_request p r s.
Proof. destruct s; unfold put_request; cbn. by rewrite insert_insert_eq. Qed.

Lemma put_request_client (p q : Z) r (c : NANO_XRCE_ProxyClient) (s : Service) :
  put_request p r (put_client q c s) = put_client q c (put_request p r s).
Proof. done. Qed.
End memory.

(** The result of a call whose response is a code, checked by [NANO_CHECK_RC]:
    [body] runs when it is OK, otherwise [fail] does with the value left in
    [rc]. *)
Definition check {N : NanoClient} {C} {R : C -> Type} {St A} (rc : NANO_RetCode)
    (fail : NANO_RetCode -> prog R St A) (body : prog R St A) : prog R St A :=
  if is_ok rc then body else fail (rc_failed rc).

(** ** Reading traces *)

Section readings.
Context {N : NanoClient}.

(** The buffers an event takes from, or returns to, a pool. *)
Definition taken_by (p : Pool) (e : cevent) : list Z :=
  match e with
  | existT c r =>
      match c return Resp c -> list Z with
      | PoolGet q => fun b => if decide (q = p) then match b with Some x => [x] | None => [] end else []
      | _ => fun _ => []
      end r
  end.

Definition returned_by (p : Pool) (e : cevent) : list Z :=
  match e with
  | existT (PoolReturn q b) _ => if decide (q = p) then [b] else []
  | _ => []
  end.

Definition taken (p : Pool) (t : list cevent) : list Z := concat (map (taken_by p) t).
Definition returned (p : Pool) (t : list cevent) : list Z := concat (map (returned_by p) t).

(** Every buffer taken from the pool during the trace is returned in it. *)
Definition balanced (p : Pool) (t : list cevent) : Prop := Permutation (returned p t) (taken p t).

Lemma taken_app p t1 t2 : taken p (t1 ++ t2) = taken p t1 ++ taken p t2.
Proof. unfold taken. by rewrite map_app, concat_app. Qed.

Lemma returned_app p t1 t2 : returned p (t1 ++ t2) = returned p t1 ++ returned p t2.
Proof. unfold returned. by rewrite map_app, concat_app. Qed.

Lemma taken_cons p e t : taken p (e :: t) = taken_by p e ++ taken p t.
Proof. done. Qed.

Lemma returned_cons p e t : returned p (e :: t) = returned_by p e ++ returned p t.
Proof. done. Qed.

Lemma taken_nil p : taken p [] = [].
Proof. done. Qed.

Lemma returned_nil p : returned p [] = [].
Proof. done. Qed.

Lemma returned_map (p : Pool) (l : list Z) (t : list cevent) :
  calls t = map (PoolReturn p) l -> returned p t = l.
Proof.
  revert l; induction t as [|[c r] t IH]; intros [|b l]; cbn; intros H; try done.
  injection H as -> H. specialize (IH l H). unfold returned in *. cbn.
  by rewrite decide_True, IH.
Qed.

(** [REDAInlineList_removeNodeEA]: a node is at most once in a list. *)
Definition remove_node (p : Z) (l : list Z) : list Z := filter (fun q => q <> p) l.

(** The buffers of a pool that are out, given those that were out before, in the
    order they were taken. *)
Definition outstanding_step (p : Pool) (out : list Z) (e : cevent) : list Z :=
  fold_right remove_node (out ++ taken_by p e) (returned_by p e).

Definition outstanding (p : Pool) (out : list Z) (t : list cevent) : list Z :=
  fold_left (outstanding_step p) t out.

(** The contract of a pool: it never hands out a buffer that is out. *)
Fixpoint pool_contract (p : Pool) (out : list Z) (t : list cevent) : Prop :=
  match t with
  | [] => True
  | e :: t => Forall (fun b => b ∉ out) (taken_by p e) /\ pool_contract p (outstanding_step p out e) t
  end.

Lemma remove_node_fresh (p : Z) (l : list Z) : p ∉ l -> remove_node p (l ++ [p]) = l.
Proof.
  unfold remove_node. induction l as [|a l IH]; cbn [app]; intros H.
  - by rewrite filter_cons_False by tauto.
  - rewrite not_elem_of_cons in H. destruct H as [Ha Hl].
    rewrite filter_cons_True by done. by rewrite IH.
Qed.

Lemma remove_node_sublist (p : Z) (l : list Z) : remove_node p l `sublist_of` l.
Proof. apply sublist_filter. Qed.

Lemma remove_node_length (p : Z) (l : list Z) : p ∈ l -> (length (remove_node p l) < length l)%nat.
Proof.
  unfold remove_node. induction l as [|a l IH]; [by rewrite elem_of_nil |].
  intros H. destruct (decide (a = p)) as [-> | Hne].
  - rewrite filter_cons_False by tauto. cbn. pose proof (length_filter (fun q => q <> p) l). lia.
  - rewrite filter_cons_True by done. apply elem_of_cons in H as [-> | H]; [done |].
    specialize (IH H). cbn. lia.
Qed.

Lemma outstanding_app p out t1 t2 :
  outstanding p out (t1 ++ t2) = outstanding p (outstanding p out t1) t2.
Proof. apply fold_left_app. Qed.

Lemma outstanding_cons p out e t :
  outstanding p out (e :: t) = outstanding p (outstanding_step p out e) t.
Proof. done. Qed.

Lemma outstanding_nil p out : outstanding p out [] = out.
Proof. done. Qed.

Lemma pool_contract_app p out t1 t2 :
  pool_contract p out (t1 ++ t2) <->
  pool_contract p out t1 /\ pool_contract p (outstanding p out t1) t2.
Proof.
  revert out; induction t1 as [|e t1 IH]; intros out; cbn; [tauto |].
  rewrite IH. tauto.
Qed.

Lemma outstanding_get p out b t :
  outstanding p out (existT (PoolGet p) (Some b) :: t) = outstanding p (out ++ [b]) t.
Proof. rewrite outstanding_cons. unfold outstanding_step; cbn. by rewrite decide_True. Qed.

Lemma outstanding_return p out b r t :
  outstanding p out (existT (PoolReturn p b) r :: t) = outstanding p (remove_node b out) t.
Proof.
  rewrite outstanding_cons. unfold outstanding_step. cbn [taken_by returned_by].
  rewrite decide_True by done. cbn [fold_right]. by rewrite app_nil_r.
Qed.

Lemma outstanding_skip p out e t :
  taken_by p e = [] -> returned_by p e = [] -> outstanding p out (e :: t) = outstanding p out t.
Proof.
  intros Ht Hr. rewrite outstanding_cons. unfold outstanding_step. rewrite Ht, Hr. cbn.
  by rewrite app_nil_r.
Qed.

Lemma pool_contract_get p out b t :
  pool_contract p out (existT (PoolGet p) (Some b) :: t) -> b ∉ out.
Proof.
  intros [H _]. unfold taken_by in H. rewrite decide_True in H by done.
  by rewrite Forall_singleton in H.
Qed.

(** A trace without calls to the pool leaves its outstanding buffers alone. *)
Lemma outstanding_quiet p out t : taken p t = [] -> returned p t = [] -> outstanding p out t = out.
Proof.
  revert out; induction t as [|e t IH]; intros out; [done |].
  rewrite taken_cons, returned_cons, outstanding_cons.
  intros [Ht Ht']%app_eq_nil [Hr Hr']%app_eq_nil. unfold outstanding_step.
  rewrite Ht, Hr. cbn. rewrite app_nil_r. auto.
Qed.

(** A hypothesis on the answers of one pool: the buffers it hands out satisfy
    [P]. *)
Definition pool_gives (p : Pool) (P : Z -> Prop) (e : cevent) : Prop :=
  Forall P (taken_by p e).

(** The calls made to find the stream of a client, which may register it. *)
Definition stream_call (c : Call) : bool :=
  match c with
  | SessionLookupStream _ _ | SessionRegisterStream _ _ _ => true
  | PoolGet p | PoolReturn p _ => bool_decide (p = Pool_storage_stream)
  | _ => false
  end.

Lemma only_taken (P : Call -> bool) p t : P (PoolGet p) = false -> only P t -> taken p t = [].
Proof.
  intros H Ht. unfold only in Ht. induction t as [|[c r] t IH]; [done |].
  apply Forall_cons in Ht as [Hc Ht]. cbn in Hc. unfold taken; cbn [map concat].
  change (concat (map (taken_by p) t)) with (taken p t). rewrite (IH Ht), app_nil_r.
  destruct c; try done. cbn. destruct (decide (p0 = p)) as [-> |]; [congruence | done].
Qed.

Lemma only_returned (P : Call -> bool) p t :
  (forall b, P (PoolReturn p b) = false) -> only P t -> returned p t = [].
Proof.
  intros H Ht. unfold only in Ht. induction t as [|[c r] t IH]; [done |].
  apply Forall_cons in Ht as [Hc Ht]. cbn in Hc. unfold returned; cbn [map concat].
  change (concat (map (returned_by p) t)) with (returned p t). rewrite (IH Ht), app_nil_r.
  destruct c; try done. cbn. destruct (decide (p0 = p)) as [-> |]; [| done].
  specialize (H buffer). congruence.
Qed.
End readings.

#[export] Hint Rewrite @taken_app @returned_app @taken_cons @returned_cons
  @taken_nil @returned_nil @outstanding_app @outstanding_cons @outstanding_nil : trace.
#[export] Hint Resolve only_app : nano.

(** ** Reasoning about checked calls *)

Section checks.
Context {N : NanoClient}.

Lemma is_ok_true (rc : NANO_RetCode) : rc = NANO_RETCODE_OK -> is_ok rc = true.
Proof. by intros ->. Qed.

Lemma is_ok_false (rc : NANO_RetCode) : rc <> NANO_RETCODE_OK -> is_ok rc = false.
Proof. by destruct rc. Qed.

Lemma spec_check {NOk : NanoClientOk N} {C} {R : C -> Type} {St A} (E : event R -> Prop)
    (rc : NANO_RetCode) (fail : NANO_RetCode -> prog R St A) (body : prog R St A) s Q :
  (rc = NANO_RETCODE_OK -> spec E body s Q) ->
  (rc <> NANO_RETCODE_OK -> rc_failed rc <> NANO_RETCODE_OK -> spec E (fail (rc_failed rc)) s Q) ->
  spec E (check rc fail body) s Q.
Proof.
  intros Hok Hfail. unfold check. destruct (is_ok rc) eqn:Hrc.
  - apply Hok. by destruct rc.
  - assert (rc <> NANO_RETCODE_OK) by (by intros ->). auto using rc_failed_failure.
Qed.

Lemma spec_if_ok {C} {R : C -> Type} {St A} (E : event R -> Prop) (rc : NANO_RetCode)
    (m1 m2 : prog R St A) s Q :
  (rc = NANO_RETCODE_OK -> spec E m1 s Q) -> (rc <> NANO_RETCODE_OK -> spec E m2 s Q) ->
  spec E (if is_ok rc then m1 else m2) s Q.
Proof. intros H1 H2. destruct rc; cbn; (apply H1; done) || (apply H2; done). Qed.
End checks.

#[global] Arguments check : simpl never.

(** ** Calls of checked programs *)

Section made_calls.
Context {N : NanoClient}.

Lemma makes_check {C} {R : C -> Type} {St A} (P : C -> bool) (rc : NANO_RetCode)
    (fail : NANO_RetCode -> prog R St A) (body : prog R St A) :
  (forall rc, makes P (fail rc)) -> makes P body -> makes P (check rc fail body).
Proof. intros H1 H2. unfold check. by destruct (is_ok rc). Qed.

Lemma makes_agent P : makes P the_agent.
Proof. apply makes_gets. Qed.
Lemma makes_client_of P p : makes P (client_of p).
Proof. apply makes_reads. Qed.
Lemma makes_request_of P p : makes P (request_of p).
Proof. apply makes_reads. Qed.
Lemma makes_write_of P p : makes P (write_of p).
Proof. apply makes_reads. Qed.
Lemma makes_reader_of P p : makes P (reader_of p).
Proof. apply makes_reads. Qed.
Lemma makes_forward_of P p : makes P (forward_of p).
Proof. apply makes_reads. Qed.
End made_calls.

#[export] Hint Resolve makes_agent makes_client_of makes_request_of makes_write_of
  makes_reader_of makes_forward_of : makes.

(** [makes_auto] with the case of a checked call. *)
Ltac service_makes := repeat first [ apply makes_check; [intros ? |] | makes_step ].

(** Finds the object a pointer refers to. *)
Ltac find_object :=
  first [ eassumption
        | cbn [put_client put_request put_write put_reader put_forward set_agent
               client_at request_at write_at reader_at forward_at];
          first [ eassumption
                | rewrite lookup_insert_eq; reflexivity
                | rewrite lookup_insert_ne by congruence; eassumption ] ].

(** One step of symbolic execution of a service function: primitive steps, the
    two cases of a check, the cases of a response. *)
Ltac vstep :=
  lazymatch goal with
  | |- spec _ (check _ _ _) _ _ => apply spec_check; intros
  | |- spec _ (if is_ok _ then _ else _) _ _ => apply spec_if_ok; intros
  | |- spec _ (if ?b then _ else _) _ _ => destruct b eqn:?
  | |- spec _ (match ?r with _ => _ end) _ _ => destruct r eqn:?
  | |- spec _ (client_of _) _ _ => eapply spec_reads; [find_object |]
  | |- spec _ (request_of _) _ _ => eapply spec_reads; [find_object |]
  | |- spec _ (write_of _) _ _ => eapply spec_reads; [find_object |]
  | |- spec _ (reader_of _) _ _ => eapply spec_reads; [find_object |]
  | |- spec _ (forward_of _) _ _ => eapply spec_reads; [find_object |]
  | |- spec _ the_agent _ _ => apply spec_gets
  | |- _ => step1
  end; cbn beta iota; try congruence; try discriminate.

(** Computes what a trace takes from and returns to a pool. *)
Ltac pool_count :=
  cbn [app fst snd]; autorewrite with trace; cbn [taken_by returned_by];
  rewrite ?decide_True by done; rewrite ?decide_False by done;
  repeat match goal with
         | H : taken _ _ = _ |- _ => rewrite H
         | H : returned _ _ = _ |- _ => rewrite H
         end; cbn [app]; rewrite ?app_nil_r; try done.

(** Computes the buffers that are out after a trace. *)
Ltac pool_out :=
  cbn [app];
  repeat first [ rewrite outstanding_get | rewrite outstanding_return
               | rewrite outstanding_skip by done | rewrite outstanding_nil ].

Ltac pool_balance := unfold balanced; pool_count; try reflexivity.

Ltac vgo := repeat vstep; cbn [app fst snd].

(** Solves [only P t] for a trace of known calls and of traces known to be of
    that kind. *)
Ltac only_calls :=
  repeat first [ assumption
               | apply only_nil
               | apply only_cons; [reflexivity |]
               | apply only_app
               | progress cbn [app] ].

(** ** A concrete library and environment

    The witnesses run the service with [nano_model] for the client library and
    environments built on [quiet_environment], where every call succeeds, pools
    hand out fresh addresses (the length of the past) and there are no callbacks. *)

Definition object_kind_of_nibble (n : Z) : NANO_XRCE_ObjectKind :=
  match n with
  | 1 => OBJK_PARTICIPANT | 2 => OBJK_TOPIC | 3 => OBJK_PUBLISHER | 4 => OBJK_SUBSCRIBER
  | 5 => OBJK_DATAWRITER | 6 => OBJK_DATAREADER | 10 => OBJK_TYPE | 11 => OBJK_QOSPROFILE
  | 12 => OBJK_APPLICATION | 13 => OBJK_AGENT | 14 => OBJK_CLIENT | 15 => OBJK_DOMAIN
  | 0 => OBJK_INVALID | k => OBJK_OTHER k
  end%Z.

(** The data formats as the XRCE specification numbers them. *)
Definition format_of_bits (n : Z) : NANO_XRCE_DataFormat :=
  match n with
  | 0 => FORMAT_DATA | 1 => FORMAT_SAMPLE | 4 => FORMAT_DATA_SEQ | 5 => FORMAT_SAMPLE_SEQ
  | 7 => FORMAT_PACKED_SAMPLES | n => FORMAT_OTHER n
  end%Z.

#[export] Instance nano_model : NanoClient := {|
  rc_failed rc := rc;
  rc_passed := NANO_RETCODE_ERROR;
  NANO_FEAT_ALL_BY_REF := true;
  usize_sub a b := u32 (a - b);
  usize_add a b := u32 (a + b);
  to_usize := u32;
  SESSIONID_NONE_WITH_CLIENT := 0;
  SESSIONID_NONE_WITHOUT_CLIENT := 128;
  SessionId_header_size sid := if (sid <? 128)%Z then 8%Z else 4%Z;
  SessionId_has_client_key sid := (sid <? 128)%Z;
  INLINEHEADERBUFFER_SUBMSG_OFFSET sid := if (sid <? 128)%Z then 8%Z else 4%Z;
  CREATECLIENTPAYLOAD_HEADER_SERIALIZED_SIZE_MIN := 4;
  AGENTREPRESENTATION_SERIALIZED_SIZE_MAX := 16;
  STATUSPAYLOAD_SERIALIZED_SIZE_MAX := 8;
  RELATEDOBJECTREQUEST_SERIALIZED_SIZE_MAX := 4;
  InlineHeaderBuffer_session_id msg := default 0%Z (msg !! 0%nat);
  InlineHeaderBuffer_clientkey msg :=
    {| key0 := default 0%Z (msg !! 4%nat); key1 := default 0%Z (msg !! 5%nat);
       key2 := default 0%Z (msg !! 6%nat); key3 := default 0%Z (msg !! 7%nat) |};
  STREAMID_NONE := 0;
  STREAMID_BUILTIN_BEST_EFFORTS := 1;
  STREAMID_BUILTIN_RELIABLE := 128;
  StreamId_is_reliable id := (128 <=? id)%Z;
  CLIENTKEY_INVALID := {| key0 := 0; key1 := 0; key2 := 0; key3 := 0 |};
  ClientKey_compare a b := if decide (a = b) then 0%Z else 1%Z;
  ClientKey_to_u32 k := (((key0 k * 256 + key1 k) * 256 + key2 k) * 256 + key3 k)%Z;
  CLIENTREPRESENTATION_INITIALIZER :=
    {| cr_client_key := {| key0 := 0; key1 := 0; key2 := 0; key3 := 0 |}; cr_session_id := 0;
       cr_cookie := 0; cr_version := 0; cr_mtu := 0 |};
  ClientRepresentation_is_valid _ := true;
  Cookie_is_valid c := (c =? 1)%Z;
  Version_is_compatible v := (v =? 1)%Z;
  ObjectId_kind o := object_kind_of_nibble (obj1 o mod 16);
  ObjectId_to_u16 o := (obj0 o * 256 + obj1 o)%Z;
  ObjectId_from_u16 n := {| obj0 := n / 256; obj1 := n mod 256 |};
  ObjectId_combine o _ := {| obj0 := obj0 o; obj1 := (obj1 o / 16 * 16 + 14)%Z |};
  SeqNum_compare a b := (a - b)%Z;
  SubmessageId_of_byte b :=
    match b with
    | 0 => SUBMSG_CREATE_CLIENT | 1 => SUBMSG_CREATE | 3 => SUBMSG_DELETE
    | 4 => SUBMSG_STATUS_AGENT | 5 => SUBMSG_STATUS | 7 => SUBMSG_WRITE_DATA
    | 8 => SUBMSG_READ_DATA | 9 => SUBMSG_DATA | _ => SUBMSG_OTHER b
    end%Z;
  SUBMESSAGEFLAGS_DEFAULT := 1;
  Flags_is_little_endian f := Z.testbit f 0;
  Flags_DATA_format f := format_of_bits ((f / 2) mod 8);
  Flags_DATA_set_format _ le := if le then 1%Z else 0%Z;
  Flags_WRITEDATA_confirm f := Z.testbit f 4;
  Flags_READDATA_confirm f := Z.testbit f 4;
  Flags_CREATE_replace f := Z.testbit f 2;
  Flags_CREATE_reuse f := Z.testbit f 1;
  StatusValue_from_rc rc := if is_ok rc then 0%Z else 128%Z;
  NANO_TIME_INITIALIZER_INFINITE := {| time_sec := -1; time_nanosec := 0 |};
  Time_is_infinite t := (time_sec t =? -1)%Z;
  Time_is_zero t := (time_sec t =? 0)%Z && (time_nanosec t =? 0)%Z;
  Time_to_millis t := (time_sec t * 1000 + time_nanosec t / 1000000)%Z;
  TransportLocator := Z;
  TransportLocator_default := 0%Z;
  TransportLocator_compare a b := (a - b)%Z;
  MESSAGEBUFFER_DATA_LEN_MAX := 65535;
  MESSAGEBUFFER_INLINE_SIZE_BYTES n := (n + 64)%Z
|}.

#[export] Instance nano_model_ok : NanoClientOk nano_model.
Proof.
  split; cbn; try done; intros a b || intros a.
  - destruct (decide (a = b)); split; done.
  - lia.
  - lia.
  - intros. apply u32_small. lia.
  - intros. apply u32_small. lia.
  - intros. apply u32_small. lia.
Qed.

(** Everything succeeds and nothing calls back. *)
Definition quiet_response (fresh : Z) (c : Call) : Resp c :=
  match c return Resp c with
  | PoolNew _ _ | SemaphoreNew | HeapAllocate _ | HeapReallocate _ => true
  | PoolGet _ => Some fresh
  | TransportInitialize _ => (NANO_RETCODE_OK, fresh)
  | TransportListen _ | TransportClose _ | TransportSendTo _ _ _ => NANO_RETCODE_OK
  | TransportLocatorCopy _ => NANO_RETCODE_OK
  | ClientTransportNextSend => None
  | MessageNext _ => None
  | SessionInitialize _ _ _ _ | SessionRegisterStream _ _ _ => NANO_RETCODE_OK
  | SessionLookupStream _ id => Some {| st_id := id; st_reliable := (128 <=? id)%Z |}
  | SessionAllocateMessage _ _ _ _ => Some fresh
  | SessionSend _ _ _ _ _ => (NANO_RETCODE_OK, fresh)
  | SessionDismissSendQueue _ _ _ => ([], 0%Z)
  | SessionSendHeartbeats _ _ _ => NANO_RETCODE_OK
  | SessionParseHeader _ _ => Some (1%Z, 128%Z)
  | SessionReceive _ _ _ => []
  | SessionReceived => NANO_RETCODE_OK
  | CdrInitialize _ _ => NANO_RETCODE_OK
  | DeserializeClientRepresentation _ _ _ =>
      (NANO_RETCODE_OK, {| cr_client_key := {| key0 := 1; key1 := 2; key2 := 3; key3 := 4 |};
         cr_session_id := 129; cr_cookie := 1; cr_version := 1; cr_mtu := 512 |})
  | DeserializeCreate _ =>
      (NANO_RETCODE_ERROR,
       {| cp_request_id := {| req0 := 0; req1 := 1 |}; cp_object_id := {| obj0 := 0; obj1 := 0 |};
          cp_kind := OBJK_INVALID;
          cp_repr := {| repr_format := REPRESENTATION_BY_REFERENCE; repr_value_ref := None;
                        repr_value_xml := None; repr_parent := {| obj0 := 0; obj1 := 0 |};
                        repr_domain_id := 0 |} |})
  | DeserializeDelete _ | DeserializeGetInfo _ =>
      (NANO_RETCODE_ERROR, {| br_request_id := {| req0 := 0; req1 := 1 |};
                              br_object_id := {| obj0 := 0; obj1 := 0 |} |})
  | DeserializeWriteData _ f =>
      (NANO_RETCODE_ERROR, {| wp_request_id := {| req0 := 0; req1 := 1 |};
         wp_object_id := {| obj0 := 0; obj1 := 0 |}; wp_format := f;
         wp_data := D2S2_BUFFER_INITIALIZER |})
  | DeserializeReadData _ =>
      (NANO_RETCODE_ERROR, {| rp_request_id := {| req0 := 0; req1 := 1 |};
         rp_object_id := {| obj0 := 0; obj1 := 0 |}; rp_preferred_stream_id := 0;
         rp_data_format := FORMAT_INVALID; rp_has_delivery_ctrl := false;
         rp_delivery_ctrl := D2S2_READSPECIFICATION_INITIALIZER;
         rp_has_content_filter_expr := false; rp_content_filter_expr := None |})
  | AgentOpenSession _ _ _ _ => []
  | AgentReceiveMessage _ _ _ => []
  | AgentCreateResource _ _ _ _ _ _ _ => []
  | AgentDeleteResource _ _ _ => []
  | AgentWrite _ _ _ _ => []
  | AgentRead _ _ _ => []
  | AgentLookupResource _ _ => (DDS_RETCODE_OK, false, None)
  | AgentReturnLoan _ _ => DDS_RETCODE_OK
  | AgentCreateSessionEvent _ _ => (DDS_RETCODE_OK, Some fresh)
  | AgentFireSessionEvent _ _ _ | AgentDeleteSessionEvent _ => DDS_RETCODE_OK
  | AgentReturn => DDS_RETCODE_OK
  | _ => tt
  end.

Definition quiet_environment : environment Resp :=
  fun past c => quiet_response (1000 + Z.of_nat (length past)) c.

(** A client 7 with one pending forward request (20) on its reliable stream,
    a reader 30 of it and a request 10. *)
Definition sample_client : NANO_XRCE_ProxyClient :=
  {| cl_session_key := {| key0 := 1; key1 := 2; key2 := 3; key3 := 4 |}; cl_session_id := 129;
     cl_transport := 5; cl_locator := 99%Z : TransportLocator; cl_dds_session := Some 8%Z;
     cl_storage := Some 9%Z; cl_stream_storage := [11%Z; 12%Z]; cl_forwards := [20%Z];
     cl_disposed := false; cl_dispose_request := None; cl_event_hb := None;
     cl_cache_mapping := false; cl_requests_pool := true; cl_forwards_pool := true;
     cl_writes_pool := true |}.

Definition sample_data : D2S2_ReceivedData :=
  {| rd_addr := 500; rd_reader_id := 6;
     rd_data := {| dr_fmt := DATAREPRESENTATIONFORMAT_XCDR;
                   dr_xcdr := {| encoding := XCDRENCODINGKIND_1; little_endian := true;
                                 buffer := {| data_addr := 600; data_bytes := [0; 1; 0; 0; 42]%Z;
                                              data_len := 5 |} |} |} |}.

Definition sample_request : NANO_XRCE_ProxyClientRequest :=
  {| rq_client := 7; rq_msg_hdr := {| mh_session_id := 129; mh_stream_id := 128; mh_sn := 1 |};
     rq_submsg_hdr := {| sh_id := SUBMSG_READ_DATA; sh_flags := 1; sh_length := 8 |};
     rq_request := {| req0 := 0; req1 := 9 |}; rq_object_id := {| obj0 := 0; obj1 := 6 |};
     rq_complete := false; rq_reply := true; rq_rc := NANO_RETCODE_ERROR;
     rq_reply_mbuf := Some 77%Z |}.

Definition sample_forward : NANO_XRCE_ForwardDataRequest :=
  {| fw_rcvd_data := sample_data; fw_reader_id := {| obj0 := 0; obj1 := 6 |};
     fw_stream_id := 128; fw_sn := 3 |}.

Definition sample_reader : NANO_XRCE_ReaderState :=
  {| rs_req := Some 10%Z; rs_read_fmt := FORMAT_DATA;
     rs_read_spec_dds := D2S2_READSPECIFICATION_INITIALIZER; rs_stream_id := 128;
     rs_forward := true |}.

Definition sample_agent : NANO_XRCE_Agent :=
  {| transports := [{| tr_node := 1; tr_transport := 5; tr_ea := 0 |}];
     transports_pool := true; clients_pool := true; reads_pool := true;
     pool_storage_stream := true; pool_storage_session := true; flags := 1;
     props := {| client_session_timeout := {| time_sec := -1; time_nanosec := 0 |};
                 auto_client_mapping := true; client_mappings := None; client_mappings_len := 0;
                 heartbeat_period := {| time_sec := 0; time_nanosec := 0 |};
                 confirm_all_requests := false; auto_delete_resources := false;
                 max_messages_per_acknack := 0; max_messages_per_heartbeat := 0 |};
     mappings_mutex := true |}.

Definition sample_service : Service :=
  {| agent := sample_agent; client_at := {[ 7%Z := sample_client ]};
     request_at := {[ 10%Z := sample_request ]}; write_at := ∅;
     reader_at := {[ 30%Z := sample_reader ]}; forward_at := {[ 20%Z := sample_forward ]} |}.

(** The calls and the result of a run. *)
Definition run_calls {A} (env : environment Resp) (m : service A) (s : Service) : list Call :=
  calls (fst (exec env [] (m s))).

(** An environment that keeps the contract of a triple gives a run with the
    triple's conclusion. *)
Lemma spec_exec {A} (E : cevent -> Prop) (m : service A) (s : Service) Q
    (env : environment Resp) :
  spec E m s Q -> (forall past c, E (existT c (env past c))) ->
  exists a s', snd (exec env [] (m s)) = Returned (a, s') /\ Q (fst (exec env [] (m s))) a s'.
Proof.
  intros H HE. exact (spec_runs _ _ _ _ _ _ H (exec_runs env (m s) []) (exec_contract E env _ HE [])).
Qed.
