(* ===== verification/Requests.v ===== *)
(** * Streams, requests and replies

    Models the part of [src/service/Agent.c] and [src/service/ProxyClient.c]
    that finds the stream of a client, takes a request and its reply buffer from
    the pools, and answers the client:
    [allocate_stream_storage], [register_user_stream], [lookup_stream],
    [allocate_reply_message], [release_reply_message], [new_client_request],
    [return_client_request], [reply_to_connection], [reply_to_operation].

    The [NANO_PCOND] conditions are not checks: where the code goes on and reads
    a NULL pointer, the model is [undefined]. *)

From Stdlib Require Import ZArith Lia.
From stdpp Require Import base tactics list gmap.
From S2P Require Import Prelude.
From S2P Require Import CString.
From S2P Require Import Infrastructure.
From S2P Require Import Interaction.
From S2P Require Import ServiceData.

Section requests.
Context {N : NanoClient}.
Local Open Scope nano_scope.

Definition set_stream_storage (l : list Z) (c : NANO_XRCE_ProxyClient) : NANO_XRCE_ProxyClient :=
  {| cl_session_key := cl_session_key c; cl_session_id := cl_session_id c;
     cl_transport := cl_transport c; cl_locator := cl_locator c;
     cl_dds_session := cl_dds_session c; cl_storage := cl_storage c;
     cl_stream_storage := l; cl_forwards := cl_forwards c; cl_disposed := cl_disposed c;
     cl_dispose_request := cl_dispose_request c; cl_event_hb := cl_event_hb c;
     cl_cache_mapping := cl_cache_mapping c; cl_requests_pool := cl_requests_pool c;
     cl_forwards_pool := cl_forwards_pool c; cl_writes_pool := cl_writes_pool c |}.

Definition set_reply_mbuf (m : option Z) (r : NANO_XRCE_ProxyClientRequest)
    : NANO_XRCE_ProxyClientRequest :=
  {| rq_client := rq_client r; rq_msg_hdr := rq_msg_hdr r; rq_submsg_hdr := rq_submsg_hdr r;
     rq_request := rq_request r; rq_object_id := rq_object_id r; rq_complete := rq_complete r;
     rq_reply := rq_reply r; rq_rc := rq_rc r; rq_reply_mbuf := m |}.

Definition set_reply (b : bool) (r : NANO_XRCE_ProxyClientRequest)
    : NANO_XRCE_ProxyClientRequest :=
  {| rq_client := rq_client r; rq_msg_hdr := rq_msg_hdr r; rq_submsg_hdr := rq_submsg_hdr r;
     rq_request := rq_request r; rq_object_id := rq_object_id r; rq_complete := rq_complete r;
     rq_reply := b; rq_rc := rq_rc r; rq_reply_mbuf := rq_reply_mbuf r |}.

(** ** Stream storage *)

Definition NANO_XRCE_ProxyClient_allocate_stream_storage (self : Z)
    : service (NANO_RetCode * option Z) :=
  let* record := call (PoolGet Pool_storage_stream) in
  match record with
  | None => ret (NANO_RETCODE_ERROR, None)
  | Some r =>
      let* c := client_of self in
      modify (put_client self (set_stream_storage (cl_stream_storage c ++ [r]) c)) ;;
      ret (NANO_RETCODE_OK, Some r)
  end.

Definition NANO_XRCE_ProxyClient_release_stream_storage (self record : Z) : service unit :=
  let* c := client_of self in
  modify (put_client self (set_stream_storage (remove_node record (cl_stream_storage c)) c)) ;;
  call (PoolReturn Pool_storage_stream record).

(** ** Streams *)

Definition NANO_XRCE_Agent_register_user_stream (client stream_id : Z)
    : service (NANO_RetCode * option Stream) :=
  let* '(rc, record) := NANO_XRCE_ProxyClient_allocate_stream_storage client in
  let* '(rc, stream) :=
    check rc (fun rc => ret (rc, None))
      match record with
      | None => undefined
      | Some r =>
          let* rc := call (SessionRegisterStream client stream_id r) in
          check rc (fun rc => ret (rc, None))
            (let* stream := call (SessionLookupStream client stream_id) in
             ret (NANO_RETCODE_OK, stream))
      end in
  (if is_ok rc then ret tt
   else match record with
        | Some r => NANO_XRCE_ProxyClient_release_stream_storage client r
        | None => ret tt
        end) ;;
  ret (rc, stream).

Definition NANO_XRCE_Agent_lookup_stream (client stream_id : Z) : service (option Stream) :=
  let* res := call (SessionLookupStream client stream_id) in
  match res with
  | Some stream => ret (Some stream)
  | None =>
      if negb (stream_id =? STREAMID_NONE)%Z
         && negb (stream_id =? STREAMID_BUILTIN_BEST_EFFORTS)%Z
         && negb (stream_id =? STREAMID_BUILTIN_RELIABLE)%Z
      then
        let* '(rc, res) := NANO_XRCE_Agent_register_user_stream client stream_id in
        check rc (fun _ => ret res) (ret res)
      else ret None
  end.

(** ** Reply messages *)

(** The code, the payload and the stream the message was allocated on. *)
Definition NANO_XRCE_Agent_allocate_reply_message (client : Z) (reply_stream_in : option Stream)
    (reply_stream_id payload_size : Z) (user_payload : option UserPayload)
    : service (NANO_RetCode * option Z * option Stream) :=
  let* reply_stream :=
    match reply_stream_in with
    | Some st => ret (Some st)
    | None => NANO_XRCE_Agent_lookup_stream client reply_stream_id
    end in
  match reply_stream with
  | None => ret (NANO_RETCODE_ERROR, None, None)
  | Some st =>
      let* payload_msg := call (SessionAllocateMessage client st payload_size user_payload) in
      match payload_msg with
      | None => ret (NANO_RETCODE_OUT_OF_RESOURCES, None, None)
      | Some m => ret (NANO_RETCODE_OK, Some m, Some st)
      end
  end.

Definition NANO_XRCE_Agent_release_reply_message (client reply_stream_id payload : Z)
    : service unit :=
  let* reply_stream := NANO_XRCE_Agent_lookup_stream client reply_stream_id in
  match reply_stream with
  | None => undefined
  | Some st => call (SessionReleaseMessage client st payload)
  end.

(** ** Requests *)

Definition NANO_XRCE_Agent_new_client_request (client : Z)
    (msg_hdr : NANO_XRCE_MessageHeader) (submsg_hdr : NANO_XRCE_SubmessageHeader)
    (req_id : NANO_XRCE_RequestId) (obj_id : NANO_XRCE_ObjectId) (reply : bool)
    : service (option Z) :=
  let* buffer := call (PoolGet (Pool_requests client)) in
  match buffer with
  | None => ret None
  | Some p =>
      let request :=
        {| rq_client := client; rq_msg_hdr := msg_hdr; rq_submsg_hdr := submsg_hdr;
           rq_request := req_id; rq_object_id := obj_id; rq_complete := false;
           rq_reply := reply; rq_rc := NANO_RETCODE_ERROR; rq_reply_mbuf := None |} in
      modify (put_request p request) ;;
      let* rc :=
        if StreamId_is_reliable (mh_stream_id msg_hdr) && reply then
          let* '(rc, mbuf, _) :=
            NANO_XRCE_Agent_allocate_reply_message client None (mh_stream_id msg_hdr)
              STATUSPAYLOAD_SERIALIZED_SIZE_MAX None in
          modify (put_request p (set_reply_mbuf mbuf request)) ;;
          check rc ret (ret NANO_RETCODE_OK)
        else ret NANO_RETCODE_OK in
      if is_ok rc then ret (Some p)
      else call (PoolReturn (Pool_requests client) p) ;; ret None
  end.

Definition NANO_XRCE_Agent_return_client_request (request : Z) : service unit :=
  let* rq := request_of request in
  call (PoolReturn (Pool_requests (rq_client rq)) request).

(** ** Replies *)

Definition NANO_XRCE_Agent_reply_to_connection (client : Z) : service NANO_RetCode :=
  let* '(rc, payload_msg, reply_stream) :=
    NANO_XRCE_Agent_allocate_reply_message client None STREAMID_NONE
      AGENTREPRESENTATION_SERIALIZED_SIZE_MAX None in
  check rc ret
    match payload_msg, reply_stream with
    | None, _ => ret rc_passed
    | Some _, None => undefined
    | Some m, Some st =>
        call (MessageWrite m AgentRepresentationContent) ;;
        let* '(rc, _) := call (SessionSend client st SUBMSG_STATUS_AGENT SUBMESSAGEFLAGS_DEFAULT m) in
        check rc ret (ret NANO_RETCODE_OK)
    end.

(** The part of [reply_to_operation] that finds the stream and, for a
    best-effort one, the buffer of the reply. *)
Definition reply_stream_of (req : Z) (rq : NANO_XRCE_ProxyClientRequest)
    : service (NANO_RetCode + Stream) :=
  let stream_id := mh_stream_id (rq_msg_hdr rq) in
  if negb (StreamId_is_reliable stream_id) then
    let* '(rc, mbuf, stream) :=
      NANO_XRCE_Agent_allocate_reply_message (rq_client rq) None stream_id
        STATUSPAYLOAD_SERIALIZED_SIZE_MAX None in
    modify (put_request req (set_reply_mbuf mbuf rq)) ;;
    check rc (fun rc => ret (inl rc))
      match stream with Some st => ret (inr st) | None => undefined end
  else
    let* stream := NANO_XRCE_Agent_lookup_stream (rq_client rq) stream_id in
    match stream with
    | None => ret (inl NANO_RETCODE_ERROR)
    | Some st => ret (inr st)
    end.

Definition NANO_XRCE_Agent_reply_to_operation (req : Z) (op_rc : NANO_RetCode)
    : service NANO_RetCode :=
  let* rq := request_of req in
  let* found := reply_stream_of req rq in
  let* rc :=
    match found with
    | inl rc => ret rc
    | inr st =>
        let* rq := request_of req in
        match rq_reply_mbuf rq with
        | None => undefined
        | Some m =>
            call (MessageWrite m (StatusContent (rq_request rq) (rq_object_id rq)
                                    (StatusValue_from_rc op_rc) op_rc)) ;;
            let* '(rc, _) :=
              call (SessionSend (rq_client rq) st SUBMSG_STATUS SUBMESSAGEFLAGS_DEFAULT m) in
            modify (put_request req (set_reply false (set_reply_mbuf None rq))) ;;
            check rc ret (ret NANO_RETCODE_OK)
        end
    end in
  (if is_ok rc then ret tt
   else
     let* rq := request_of req in
     match rq_reply_mbuf rq with
     | Some m =>
         if StreamId_is_reliable (mh_stream_id (rq_msg_hdr rq)) then ret tt
         else
           NANO_XRCE_Agent_release_reply_message (rq_client rq) (mh_stream_id (rq_msg_hdr rq)) m ;;
           modify (put_request req (set_reply_mbuf None rq))
     | None => ret tt
     end) ;;
  ret rc.

(** ** Lemmas *)

Lemma set_stream_storage_same c : set_stream_storage (cl_stream_storage c) c = c.
Proof. by destruct c. Qed.

Lemma set_stream_storage_twice l l' c :
  set_stream_storage l (set_stream_storage l' c) = set_stream_storage l c.
Proof. done. Qed.

(** What finding a stream may change: the stream storage of the client. *)
Definition stream_effect (p : Z) (s s' : Service) : Prop :=
  exists c l, client_at s !! p = Some c /\ s' = put_client p (set_stream_storage l c) s.

Lemma stream_effect_refl p c s : client_at s !! p = Some c -> stream_effect p s s.
Proof.
  intros H. exists c, (cl_stream_storage c).
  by rewrite set_stream_storage_same, put_client_same.
Qed.

Lemma stream_effect_requests p s s' : stream_effect p s s' -> request_at s' = request_at s.
Proof. intros (c & l & _ & ->). done. Qed.

(** The same on a service whose requests may have changed. *)
Definition only_storage (p : Z) (s s' : Service) : Prop :=
  agent s' = agent s /\ forward_at s' = forward_at s /\ reader_at s' = reader_at s
  /\ write_at s' = write_at s
  /\ exists c l, client_at s !! p = Some c
     /\ client_at s' = <[p := set_stream_storage l c]> (client_at s).

Lemma stream_effect_only_storage p s s' : stream_effect p s s' -> only_storage p s s'.
Proof. intros (c & l & Hc & ->). split_and!; try done. by exists c, l. Qed.

Lemma only_storage_put_request p q r s s' :
  only_storage p s s' -> only_storage p s (put_request q r s').
Proof. done. Qed.

Lemma stream_effect_put_request p q r s s' :
  stream_effect p s s' -> stream_effect p (put_request q r s) (put_request q r s').
Proof. intros (c & l & H & ->). exists c, l. done. Qed.

(** The storage taken for a stream is kept exactly when the stream is
    registered. *)
Lemma register_user_stream_spec {NOk : NanoClientOk N} (E : cevent -> Prop) p id c s
    (Hc : client_at s !! p = Some c)
    (HE : forall r, E (existT (PoolGet Pool_storage_stream) (Some r)) -> r ∉ cl_stream_storage c) :
  spec E (NANO_XRCE_Agent_register_user_stream p id) s (fun t r s' =>
    only stream_call t /\
    ((fst r = NANO_RETCODE_OK /\ exists b,
         s' = put_client p (set_stream_storage (cl_stream_storage c ++ [b]) c) s
         /\ taken Pool_storage_stream t = [b] /\ returned Pool_storage_stream t = [])
     \/ (fst r <> NANO_RETCODE_OK /\ s' = s /\ snd r = None /\ balanced Pool_storage_stream t))).
Proof.
  unfold NANO_XRCE_Agent_register_user_stream, NANO_XRCE_ProxyClient_allocate_stream_storage,
    NANO_XRCE_ProxyClient_release_stream_storage.
  vgo; (split; [only_calls |]).
  - left. eauto.
  - right. cbn [cl_stream_storage set_stream_storage].
    rewrite remove_node_fresh by (apply HE; done).
    rewrite put_client_twice, set_stream_storage_twice, set_stream_storage_same,
      put_client_same by done.
    split_and!; try done. unfold balanced; cbn; done.
  - right. split_and!; try done. unfold balanced; cbn; done.
Qed.

Lemma lookup_stream_spec {NOk : NanoClientOk N} (E : cevent -> Prop) p id c s
    (Hc : client_at s !! p = Some c) :
  spec E (NANO_XRCE_Agent_lookup_stream p id) s (fun t _ s' =>
    only stream_call t /\ stream_effect p s s').
Proof.
  unfold NANO_XRCE_Agent_lookup_stream, NANO_XRCE_Agent_register_user_stream,
    NANO_XRCE_ProxyClient_allocate_stream_storage,
    NANO_XRCE_ProxyClient_release_stream_storage.
  pose proof (stream_effect_refl p c s Hc).
  vgo; (split; [only_calls |]); rewrite ?put_client_twice, ?set_stream_storage_twice;
    try done; exists c; eexists; done.
Qed.

Definition allocation_call (c : Call) : bool :=
  match c with SessionAllocateMessage _ _ _ _ => true | _ => stream_call c end.

Lemma allocate_reply_message_spec {NOk : NanoClientOk N} (E : cevent -> Prop) p st id size up c s
    (Hc : client_at s !! p = Some c) :
  spec E (NANO_XRCE_Agent_allocate_reply_message p st id size up) s (fun t r s' =>
    only allocation_call t /\ stream_effect p s s'
    /\ match r with
       | (rc, m, st') => (rc = NANO_RETCODE_OK /\ is_Some m /\ is_Some st'
                          /\ forall x, st = Some x -> st' = Some x)
                         \/ (rc <> NANO_RETCODE_OK /\ m = None /\ st' = None)
       end
    /\ (is_Some st -> s' = s)).
Proof.
  unfold NANO_XRCE_Agent_allocate_reply_message. pose proof (stream_effect_refl p c s Hc).
  apply spec_bind. destruct st as [x|].
  - vgo; (split; [only_calls |]); split_and!; try done; [left | right].
    all: split_and!; eauto; congruence.
  - eapply spec_mono; [by eapply lookup_stream_spec |]. intros t st' s' [Ht He]. cbn beta.
    apply (only_weaken _ allocation_call) in Ht; [| by intros []].
    vgo; (split; [only_calls |]); split_and!; try done;
      try (by intros [? ?]); [left | right | right]; split_and!; eauto; done.
Qed.

Lemma set_reply_mbuf_twice m m' rq : set_reply_mbuf m (set_reply_mbuf m' rq) = set_reply_mbuf m rq.
Proof. done. Qed.

(** The request as [reply_to_operation] leaves it once it handed a message to
    the session. *)
Definition replied (rq : NANO_XRCE_ProxyClientRequest) : NANO_XRCE_ProxyClientRequest :=
  set_reply false (set_reply_mbuf None rq).

Definition status_of (rq : NANO_XRCE_ProxyClientRequest) (op_rc : NANO_RetCode) : MessageContent :=
  StatusContent (rq_request rq) (rq_object_id rq) (StatusValue_from_rc op_rc) op_rc.

Definition reliable_request (rq : NANO_XRCE_ProxyClientRequest) : bool :=
  StreamId_is_reliable (mh_stream_id (rq_msg_hdr rq)).

(** [reply_stream_of] only looks for the stream and the buffer; when it
    succeeds the request has a buffer, for a reliable stream the one it had. *)
Lemma reply_stream_of_spec {NOk : NanoClientOk N} (E : cevent -> Prop) q rq c s
    (Hq : request_at s !! q = Some rq) (Hc : client_at s !! rq_client rq = Some c)
    (Hm : reliable_request rq = true -> is_Some (rq_reply_mbuf rq)) :
  spec E (reply_stream_of q rq) s (fun t r s' =>
    only allocation_call t /\ only_storage (rq_client rq) s s' /\ exists m,
      request_at s' !! q = Some (set_reply_mbuf m rq)
      /\ (reliable_request rq = true -> m = rq_reply_mbuf rq)
      /\ match r with
         | inl rc => rc <> NANO_RETCODE_OK /\ (reliable_request rq = false -> m = None)
         | inr st => is_Some m
         end).
Proof.
  unfold reply_stream_of, reliable_request in *.
  destruct (StreamId_is_reliable _) eqn:Hr; cbn [negb]; apply spec_bind.
  - eapply spec_mono; [by eapply lookup_stream_spec |]. intros t st s' [Ht He]. cbn beta.
    apply (only_weaken _ allocation_call) in Ht; [| by intros []].
    pose proof (stream_effect_requests _ _ _ He) as Hrq.
    vgo; (split; [only_calls |]); (split; [by apply stream_effect_only_storage |]);
      exists (rq_reply_mbuf rq); rewrite Hrq, Hq;
      (split; [by destruct rq |]); split_and!; auto; done.
  - eapply spec_mono; [by eapply allocate_reply_message_spec |].
    intros t [[rc m] st] s' (Ht & He & Hres & _). cbn beta iota.
    destruct Hres as [(-> & [x ->] & [y ->] & _) | (Hrc & -> & ->)]; vgo;
      (split; [only_calls |]); (split; [by apply (stream_effect_only_storage _ s s') |]);
      eexists; cbn [put_request request_at];
      rewrite lookup_insert_eq; split_and!; eauto; done.
Qed.
End requests.

(** ** Requests and replies *)

(** What [new_client_request] promises: the request it returns is complete, and
    without one its pool is left as it was. *)
Definition request_made {N : NanoClient} (client : Z) (msg_hdr : NANO_XRCE_MessageHeader)
    (submsg_hdr : NANO_XRCE_SubmessageHeader) (req_id : NANO_XRCE_RequestId)
    (obj_id : NANO_XRCE_ObjectId) (reply : bool)
    (t : list cevent) (res : option Z) (s' : Service) : Prop :=
  match res with
  | None => balanced (Pool_requests client) t
  | Some q =>
      taken (Pool_requests client) t = [q] /\ returned (Pool_requests client) t = []
      /\ exists m, request_at s' !! q =
           Some {| rq_client := client; rq_msg_hdr := msg_hdr; rq_submsg_hdr := submsg_hdr;
                   rq_request := req_id; rq_object_id := obj_id; rq_complete := false;
                   rq_reply := reply; rq_rc := NANO_RETCODE_ERROR; rq_reply_mbuf := m |}
         /\ (is_Some m <-> StreamId_is_reliable (mh_stream_id msg_hdr) = true /\ reply = true)
  end.

Lemma new_client_request_spec {N : NanoClient} {NOk : NanoClientOk N} (E : cevent -> Prop)
    (client : Z) (msg_hdr : NANO_XRCE_MessageHeader) (submsg_hdr : NANO_XRCE_SubmessageHeader)
    (req_id : NANO_XRCE_RequestId) (obj_id : NANO_XRCE_ObjectId) (reply : bool)
    (s : Service) (c : NANO_XRCE_ProxyClient) (Hc : client_at s !! client = Some c) :
  spec E
    (NANO_XRCE_Agent_new_client_request client msg_hdr submsg_hdr req_id obj_id reply) s
    (request_made client msg_hdr submsg_hdr req_id obj_id reply).
Proof.
  unfold NANO_XRCE_Agent_new_client_request, request_made. vstep. vstep. vstep; [| vgo; pool_balance].
  vstep. vstep. vstep. vstep; [apply spec_bind |].
  - eapply spec_mono; [eapply allocate_reply_message_spec; exact Hc |].
    intros t [[rc m] st] s' (Ht & _ & Hres & _). cbn beta iota.
    apply andb_true_iff in Heqb as [Hrel ->].
    pose proof (only_taken allocation_call (Pool_requests client) t eq_refl Ht) as Hp1.
    pose proof (only_returned allocation_call (Pool_requests client) t (fun _ => eq_refl) Ht) as Hp2.
    destruct Hres as [(-> & [x ->] & _) | (Hrc & -> & _)]; vgo.
    + split_and!; [pool_count | pool_count |]. exists (Some x).
      cbn [put_request request_at]. rewrite lookup_insert_eq. naive_solver.
    + pool_balance.
  - vgo. split_and!; [pool_count | pool_count |]. exists None.
    cbn [put_request request_at]. rewrite lookup_insert_eq. split; [done |].
    apply andb_false_iff in Heqb. split; [by intros [? ?] | intros [? ?]; destruct Heqb; congruence].
Qed.

(** Either nothing was sent, or the trace ends with the reply. *)
Definition reply_outcome {N : NanoClient} (q : Z) (rq : NANO_XRCE_ProxyClientRequest)
    (op_rc : NANO_RetCode) (s : Service)
    (t : list cevent) (rc : NANO_RetCode) (s' : Service) : Prop :=
  only_storage (rq_client rq) s s' /\
  ((rc <> NANO_RETCODE_OK /\ only allocation_call t /\ exists m,
     request_at s' !! q = Some (set_reply_mbuf m rq)
     /\ m = if reliable_request rq then rq_reply_mbuf rq else None)
  \/ exists t0 m st sent sn,
       t = t0 ++ [existT (MessageWrite m (status_of rq op_rc)) tt;
                  existT (SessionSend (rq_client rq) st SUBMSG_STATUS SUBMESSAGEFLAGS_DEFAULT m)
                    (sent, sn)]
       /\ only allocation_call t0
       /\ (reliable_request rq = true -> rq_reply_mbuf rq = Some m)
       /\ request_at s' !! q = Some (replied rq)
       /\ (rc = NANO_RETCODE_OK <-> sent = NANO_RETCODE_OK)).

Lemma reply_to_operation_spec {N : NanoClient} {NOk : NanoClientOk N} (E : cevent -> Prop)
    (q : Z) (rq : NANO_XRCE_ProxyClientRequest) (c : NANO_XRCE_ProxyClient)
    (op_rc : NANO_RetCode) (s : Service)
    (Hq : request_at s !! q = Some rq) (Hc : client_at s !! rq_client rq = Some c)
    (Hm : reliable_request rq = true -> is_Some (rq_reply_mbuf rq)) :
  spec E (NANO_XRCE_Agent_reply_to_operation q op_rc) s (reply_outcome q rq op_rc s).
Proof.
  unfold NANO_XRCE_Agent_reply_to_operation, reply_outcome. vstep. vstep. apply spec_bind.
  eapply spec_mono; [by eapply reply_stream_of_spec |].
  intros t [rc | st] s' (Ht & Hst & m & Hq' & Hrel & Hres); cbn beta iota.
  - destruct Hres as [Hrc Hbe].
    assert (Hm' : m = if reliable_request rq then rq_reply_mbuf rq else None)
      by (destruct (reliable_request rq); auto).
    vstep. vstep. vstep. vstep.
    vstep. vstep. cbn [set_reply_mbuf rq_reply_mbuf rq_msg_hdr rq_client].
    fold (reliable_request rq).
    destruct (reliable_request rq) eqn:Hr; [| rewrite (Hbe eq_refl) in *];
      vgo; rewrite ?app_nil_r in *; (split; [done |]); left; eauto.
  - destruct Hres as [x ->]. vstep. vstep. cbn [set_reply_mbuf rq_reply_mbuf].
    vgo; injection Heqo as <-; (split; [done |]); right; exists t, x, st, n, z0;
      cbn [put_request request_at]; rewrite lookup_insert_eq;
      rewrite ?app_nil_r, <- ?app_assoc in *; destruct r;
      split_and!; auto; naive_solver.
Qed.

(** ** The calls requests and replies may make *)

Definition reply_call {N : NanoClient} (c : Call) : bool :=
  match c with
  | MessageWrite _ _ | SessionSend _ _ _ _ _ | SessionReleaseMessage _ _ _ => true
  | _ => allocation_call c
  end.

Section reply_calls.
Context {N : NanoClient}.

Lemma makes_lookup_stream p id : makes stream_call (NANO_XRCE_Agent_lookup_stream p id).
Proof.
  unfold NANO_XRCE_Agent_lookup_stream, NANO_XRCE_Agent_register_user_stream,
    NANO_XRCE_ProxyClient_allocate_stream_storage, NANO_XRCE_ProxyClient_release_stream_storage.
  service_makes.
Qed.

Lemma makes_allocate_reply_message p st id size up :
  makes allocation_call (NANO_XRCE_Agent_allocate_reply_message p st id size up).
Proof.
  unfold NANO_XRCE_Agent_allocate_reply_message.
  assert (H : forall p id, makes allocation_call (NANO_XRCE_Agent_lookup_stream p id))
    by (intros; apply (makes_weaken stream_call); [by intros [] | apply makes_lookup_stream]).
  service_makes.
Qed.

Lemma makes_reply_to_operation q op : makes reply_call (NANO_XRCE_Agent_reply_to_operation q op).
Proof.
  unfold NANO_XRCE_Agent_reply_to_operation, reply_stream_of, NANO_XRCE_Agent_release_reply_message.
  assert (H1 : forall p id, makes reply_call (NANO_XRCE_Agent_lookup_stream p id))
    by (intros; apply (makes_weaken stream_call); [by intros [] | apply makes_lookup_stream]).
  assert (H2 : forall p st id size up,
      makes reply_call (NANO_XRCE_Agent_allocate_reply_message p st id size up))
    by (intros; apply (makes_weaken allocation_call); [by intros [] | apply makes_allocate_reply_message]).
  service_makes.
Qed.
End reply_calls.

(** ** Consequences for the callers of [reply_to_operation] *)

Section replies.
Context {N : NanoClient} {NOk : NanoClientOk N}.

(** A STATUS message the session accepted. *)
Definition status_sent (e : cevent) : Prop :=
  match e with
  | existT c r =>
      match c return Resp c -> Prop with
      | SessionSend _ _ SUBMSG_STATUS _ _ => fun res => fst res = NANO_RETCODE_OK
      | _ => fun _ => False
      end r
  end.

Lemma allocation_not_sent t : only allocation_call t -> ~ Exists status_sent t.
Proof.
  unfold only. induction t as [|[c r] t IH]; intros H Hs; [by inversion Hs |].
  apply Forall_cons in H as [Hc H]. apply Exists_cons in Hs as [Hs | Hs]; [| by apply IH].
  destruct c; done.
Qed.

Lemma allocation_pools p t :
  p <> Pool_storage_stream -> only allocation_call t -> taken p t = [] /\ returned p t = [].
Proof.
  intros Hp Ht. split.
  - apply (only_taken allocation_call); [| done]. by apply bool_decide_eq_false_2.
  - apply (only_returned allocation_call); [| done]. intros b. by apply bool_decide_eq_false_2.
Qed.

Lemma reply_outcome_sent q rq op s t rc s' :
  reply_outcome q rq op s t rc s' -> rc = NANO_RETCODE_OK <-> Exists status_sent t.
Proof.
  intros (_ & [(Hrc & Ht & _) | (t0 & m & st & sent & sn & -> & Ht & _ & _ & Hiff)]).
  - split; [done |]. intros H. by destruct (allocation_not_sent t Ht).
  - rewrite Hiff, Exists_app, !Exists_cons. cbn. split; [tauto |].
    intros [H | [[] | [H | H]]]; [by destruct (allocation_not_sent t0 Ht) | done | by inversion H].
Qed.

Lemma reply_outcome_pools p q rq op s t rc s' :
  p <> Pool_storage_stream -> reply_outcome q rq op s t rc s' -> taken p t = [] /\ returned p t = [].
Proof.
  intros Hp (_ & [(_ & Ht & _) | (t0 & m & st & sent & sn & -> & Ht & _)]).
  - by apply allocation_pools.
  - destruct (allocation_pools p t0 Hp Ht) as [H1 H2]. autorewrite with trace. by rewrite H1, H2.
Qed.

Lemma reply_outcome_client q rq op s t rc s' :
  reply_outcome q rq op s t rc s' -> is_Some (client_at s' !! rq_client rq).
Proof.
  intros ((_ & _ & _ & _ & c & l & _ & ->) & _). rewrite lookup_insert_eq. by eexists.
Qed.

(** The request still refers to its client afterwards. *)
Lemma reply_outcome_request q rq op s t rc s' :
  reply_outcome q rq op s t rc s' -> exists rq', request_at s' !! q = Some rq'
    /\ rq_client rq' = rq_client rq /\ rq_object_id rq' = rq_object_id rq
    /\ (rc = NANO_RETCODE_OK -> rq_reply rq' = false).
Proof.
  intros (_ & [(Hrc & _ & m & -> & _) | (t0 & m & st & sent & sn & _ & _ & _ & -> & _)]);
    eexists; split_and!; done.
Qed.
End replies.

(** Taking a request changes nothing of the service but the stream storage of
    its client and the request itself. *)
Lemma new_client_request_storage {N : NanoClient} {NOk : NanoClientOk N} (E : cevent -> Prop)
    (client : Z) (msg_hdr : NANO_XRCE_MessageHeader) (submsg_hdr : NANO_XRCE_SubmessageHeader)
    (req_id : NANO_XRCE_RequestId) (obj_id : NANO_XRCE_ObjectId) (reply : bool)
    (s : Service) (c : NANO_XRCE_ProxyClient) (Hc : client_at s !! client = Some c) :
  spec E
    (NANO_XRCE_Agent_new_client_request client msg_hdr submsg_hdr req_id obj_id reply) s
    (fun _ _ s' => only_storage client s s').
Proof.
  assert (Hrefl : only_storage client s s) by (by eapply stream_effect_only_storage, stream_effect_refl).
  unfold NANO_XRCE_Agent_new_client_request. vstep. vstep. vstep; [| by vgo].
  vstep. vstep. vstep. vstep; [apply spec_bind | by vgo].
  eapply spec_mono; [eapply allocate_reply_message_spec; exact Hc |].
  intros t [[rc m] st] s' (_ & He & _); cbn beta iota.
  assert (Hst : only_storage client s s')
    by (apply (stream_effect_only_storage _ (put_request z _ s)) in He; exact He).
  vgo; exact Hst.
Qed.

Definition request_call {N : NanoClient} (c : Call) : bool :=
  match c with
  | PoolGet (Pool_requests _) | PoolReturn (Pool_requests _) _ => true
  | _ => allocation_call c
  end.

Lemma makes_new_client_request {N : NanoClient} client msg_hdr submsg_hdr req_id obj_id reply :
  makes request_call
    (NANO_XRCE_Agent_new_client_request client msg_hdr submsg_hdr req_id obj_id reply).
Proof.
  unfold NANO_XRCE_Agent_new_client_request.
  assert (H : forall p st id size up,
      makes request_call (NANO_XRCE_Agent_allocate_reply_message p st id size up)).
  { intros. apply (makes_weaken allocation_call); [| apply makes_allocate_reply_message].
    intros c; destruct c; try done; by destruct p0. }
  service_makes.
Qed.

(** STATUS messages handed to the session, whether it accepts them or not. *)
Definition status_call {N : NanoClient} (c : Call) : bool :=
  match c with SessionSend _ _ SUBMSG_STATUS _ _ => true | _ => false end.

(** ** A request on its way to its reply *)

Section stages.
Context {N : NanoClient} {NOk : NanoClientOk N}.
Context (r : Z) (rq0 : NANO_XRCE_ProxyClientRequest).
Context (Hmbuf : reliable_request rq0 = true -> rq_reply rq0 = true -> is_Some (rq_reply_mbuf rq0)).

(** The request [r], which started as [rq0], before and after its reply is
    handed to the session. *)
Definition unanswered (s : Service) : Prop :=
  exists m, request_at s !! r = Some (set_reply_mbuf m rq0)
    /\ (reliable_request rq0 = true -> m = rq_reply_mbuf rq0).

Definition answered (s : Service) : Prop := request_at s !! r = Some (replied rq0).

(** The stage of [r] when [n] replies were handed over. *)
Definition stage (n : nat) (s : Service) : Prop :=
  is_Some (client_at s !! rq_client rq0) /\ ((n = 0%nat /\ unanswered s) \/ (n = 1%nat /\ answered s)).

Lemma stage_start s :
  request_at s !! r = Some rq0 -> is_Some (client_at s !! rq_client rq0) ->
  stage 0 s /\ unanswered s.
Proof.
  clear Hmbuf. intros H Hc. assert (Hu : unanswered s).
  { exists (rq_reply_mbuf rq0). split; [| done]. rewrite H. by destruct rq0. }
  split; [| done]. split; [done |]. by left.
Qed.

(** Steps that leave the request alone. *)
Lemma stage_quiet n s s' :
  stage n s -> request_at s' = request_at s ->
  (is_Some (client_at s !! rq_client rq0) -> is_Some (client_at s' !! rq_client rq0)) ->
  stage n s' /\ (unanswered s -> unanswered s').
Proof. intros [Hc H] Hr Hcl. unfold stage, unanswered, answered in *. rewrite Hr. auto. Qed.

Lemma stage_request n s : stage n s ->
  exists rq, request_at s !! r = Some rq /\ rq_client rq = rq_client rq0
    /\ rq_object_id rq = rq_object_id rq0
    /\ (rq_reply rq = true -> rq_reply rq0 = true /\ n = 0%nat /\ unanswered s).
Proof.
  intros [_ [[Ht (m & Hr & Hm)] | [Ht Hr]]]; eexists; (split; [exact Hr |]); split_and!; try done.
  intros H. split_and!; [done | done |]. by exists m.
Qed.

Lemma stage_most n s : stage n s -> (n <= 1)%nat.
Proof. intros [_ [[-> _] | [-> _]]]; lia. Qed.

(** Replying to a request that is not answered yet. *)
Lemma reply_stage (E : cevent -> Prop) (op : NANO_RetCode) s :
  stage 0 s -> unanswered s -> rq_reply rq0 = true ->
  spec E (NANO_XRCE_Agent_reply_to_operation r op) s (fun t _ s' =>
    stage (count status_call t) s' /\ only_storage (rq_client rq0) s s').
Proof.
  intros [[c Hc] _] (m & Hr & Hm) Hrep.
  eapply spec_mono; [eapply (reply_to_operation_spec _ r (set_reply_mbuf m rq0) c); [done | done |] |].
  { intros Hrel. cbn. rewrite (Hm Hrel). auto. }
  intros t rc s' Hout; cbn beta.
  pose proof (reply_outcome_client _ _ _ _ _ _ _ Hout) as Hc'.
  destruct Hout as (Hst & Hout). split; [| exact Hst]. split; [done |].
  destruct Hout as [(_ & Hal & m' & Hr' & ->) | H].
  - left. split; [by apply (only_count allocation_call); [intros [] |] |].
    eexists. split; [exact Hr' |]. intros Hrel. change (reliable_request (set_reply_mbuf m rq0))
      with (reliable_request rq0). rewrite Hrel. auto.
  - right. destruct H as (t0 & m' & st & sent & sn & -> & Hal & _ & Hr' & _).
    rewrite count_app, (only_count allocation_call status_call t0) by (by intros [] || done).
    done.
Qed.
End stages.

(** ** Properties *)

(** C9: a request taken for a client is complete: it records the headers and
    identifiers it was made from, and it holds a reply buffer exactly when it came
    on a reliable stream and wants a reply.  When none can be allocated the
    request goes back to its pool and NULL is returned. *)
Theorem new_client_request_complete {N : NanoClient} {NOk : NanoClientOk N}
    (client : Z) (msg_hdr : NANO_XRCE_MessageHeader) (submsg_hdr : NANO_XRCE_SubmessageHeader)
    (req_id : NANO_XRCE_RequestId) (obj_id : NANO_XRCE_ObjectId) (reply : bool)
    (s : Service) (c : NANO_XRCE_ProxyClient) (Hc : client_at s !! client = Some c) :
  spec (fun _ => True)
    (NANO_XRCE_Agent_new_client_request client msg_hdr submsg_hdr req_id obj_id reply) s
    (request_made client msg_hdr submsg_hdr req_id obj_id reply).
Proof. by eapply new_client_request_spec. Qed.

(** C8: [reply_to_operation] sends at most one STATUS, with the request's
    identifiers and the operation's code, as its last two calls: the payload is
    written to the request's buffer, the pre-allocated one on a reliable stream,
    and that buffer is sent.  Once the buffer is handed to the session, even if
    sending fails, the request no longer owns it and wants no reply; before
    that nothing was sent and a best-effort request owns no buffer. *)
Theorem reply_to_operation_sends_once {N : NanoClient} {NOk : NanoClientOk N}
    (q : Z) (rq : NANO_XRCE_ProxyClientRequest) (c : NANO_XRCE_ProxyClient)
    (op_rc : NANO_RetCode) (s : Service)
    (Hq : request_at s !! q = Some rq) (Hc : client_at s !! rq_client rq = Some c)
    (Hm : reliable_request rq = true -> is_Some (rq_reply_mbuf rq)) :
  spec (fun _ => True) (NANO_XRCE_Agent_reply_to_operation q op_rc) s (reply_outcome q rq op_rc s).
Proof. by eapply reply_to_operation_spec. Qed.

(** registering a stream keeps its storage exactly when it succeeds.  On
    success the one record taken from the storage pool is appended to the
    client's list; on failure the list and the pool are as before. *)
Theorem register_user_stream_balanced {N : NanoClient} {NOk : NanoClientOk N}
    (p id : Z) (c : NANO_XRCE_ProxyClient) (s : Service)
    (Hc : client_at s !! p = Some c) :
  spec (pool_gives Pool_storage_stream (fun b => b ∉ cl_stream_storage c))
    (NANO_XRCE_Agent_register_user_stream p id) s (fun t r s' =>
      (fst r = NANO_RETCODE_OK /\ exists b,
         s' = put_client p (set_stream_storage (cl_stream_storage c ++ [b]) c) s
         /\ taken Pool_storage_stream t = [b] /\ returned Pool_storage_stream t = [])
      \/ (fst r <> NANO_RETCODE_OK /\ s' = s /\ snd r = None /\ balanced Pool_storage_stream t)).
Proof.
  eapply spec_mono; [apply register_user_stream_spec; [exact Hc |] | by intros t r s' [_ H]].
  intros r Hr. unfold pool_gives, taken_by in Hr. rewrite decide_True in Hr by done.
  by rewrite Forall_singleton in Hr.
Qed.

(** ** Witnesses *)

Lemma new_client_request_complete_witness :
  spec (fun _ => True)
    (NANO_XRCE_Agent_new_client_request 7 (rq_msg_hdr sample_request) (rq_submsg_hdr sample_request)
       (rq_request sample_request) (rq_object_id sample_request) true) sample_service
    (request_made 7 (rq_msg_hdr sample_request) (rq_submsg_hdr sample_request)
       (rq_request sample_request) (rq_object_id sample_request) true).
Proof. exact (new_client_request_complete 7 _ _ _ _ true sample_service sample_client eq_refl). Defined.

Lemma reply_to_operation_sends_once_witness :
  spec (fun _ => True) (NANO_XRCE_Agent_reply_to_operation 10 NANO_RETCODE_OK) sample_service
    (reply_outcome 10 sample_request NANO_RETCODE_OK sample_service)
  /\ count (fun c => match c with SessionSend _ _ SUBMSG_STATUS _ _ => true | _ => false end)
       (fst (exec quiet_environment [] (NANO_XRCE_Agent_reply_to_operation 10 NANO_RETCODE_OK sample_service)))
     = 1%nat.
Proof.
  split; [| vm_compute; reflexivity].
  exact (reply_to_operation_sends_once 10 sample_request sample_client NANO_RETCODE_OK sample_service
           eq_refl eq_refl (fun _ => ex_intro _ 77%Z eq_refl)).
Defined.

(** The library refuses the stream: its storage goes back. *)
Definition refusing_environment : environment Resp :=
  fun past c =>
    match c return Resp c with
    | SessionRegisterStream _ _ _ => NANO_RETCODE_OUT_OF_RESOURCES
    | c => quiet_environment past c
    end.

Lemma register_user_stream_balanced_witness :
  exists r s', snd (exec refusing_environment [] (NANO_XRCE_Agent_register_user_stream 7 130 sample_service))
               = Returned (r, s')
  /\ (fst r = NANO_RETCODE_OK \/ s' = sample_service).
Proof.
  destruct (spec_exec _ _ _ _ refusing_environment
              (register_user_stream_balanced 7 130 sample_client sample_service eq_refl))
    as (r & s' & Hr & H).
  - intros past c. unfold pool_gives. destruct c; try apply List.Forall_nil. cbn.
    destruct (decide _); [apply Forall_singleton | apply List.Forall_nil].
    intros H. repeat (apply elem_of_cons in H as [H | H]; [lia |]). by apply elem_of_nil in H.
  - exists r, s'. split; [exact Hr |]. destruct H as [[H _] | (_ & H & _)]; [left | right]; exact H.
Defined.
