(* ===== verification/Forward.v ===== *)
(** * Forwarding DDS samples to a client

    Models, from [src/service/Agent.c] and [src/service/ProxyClient.c], the
    forwarding of received samples ([on_data_received]) and the dismissal of the
    forward requests kept for reliable streams
    ([dismiss_forward_request], [on_send_complete], [on_msg_lost],
    [dismiss_client_fwd_data_requests]).

    A forward request lives in [forward_at]; the list of a client holds the
    pointers of those not completed.  Dismissing the messages of a stream makes
    the session call back [on_send_complete] and [on_msg_lost]: the response of
    [SessionDismissSendQueue] is the list of these callbacks, run in order, with
    the number it returns.

    The loops over the list and over the chain of messages run on fuel. *)

From Stdlib Require Import ZArith Lia.
From stdpp Require Import base tactics list gmap.
From S2P Require Import Prelude.
From S2P Require Import CString.
From S2P Require Import Infrastructure.
From S2P Require Import Interaction.
From S2P Require Import ServiceData.
From S2P Require Import Requests.

Section forward.
Context {N : NanoClient}.
Local Open Scope nano_scope.

Definition set_forwards (l : list Z) (c : NANO_XRCE_ProxyClient) : NANO_XRCE_ProxyClient :=
  {| cl_session_key := cl_session_key c; cl_session_id := cl_session_id c;
     cl_transport := cl_transport c; cl_locator := cl_locator c;
     cl_dds_session := cl_dds_session c; cl_storage := cl_storage c;
     cl_stream_storage := cl_stream_storage c; cl_forwards := l; cl_disposed := cl_disposed c;
     cl_dispose_request := cl_dispose_request c; cl_event_hb := cl_event_hb c;
     cl_cache_mapping := cl_cache_mapping c; cl_requests_pool := cl_requests_pool c;
     cl_forwards_pool := cl_forwards_pool c; cl_writes_pool := cl_writes_pool c |}.

Definition set_sn (sn : Z) (f : NANO_XRCE_ForwardDataRequest) : NANO_XRCE_ForwardDataRequest :=
  {| fw_rcvd_data := fw_rcvd_data f; fw_reader_id := fw_reader_id f;
     fw_stream_id := fw_stream_id f; fw_sn := sn |}.

(** ** Dismissing a request *)

Definition forward_matches (stream_id data_sn : Z) (f : NANO_XRCE_ForwardDataRequest) : bool :=
  (fw_stream_id f =? stream_id)%Z && (SeqNum_compare (fw_sn f) data_sn =? 0)%Z.

(** The loop over [self->forwards]. *)
Fixpoint find_forward (stream_id data_sn : Z) (nodes : list Z) : service (option Z) :=
  match nodes with
  | [] => ret None
  | p :: nodes =>
      let* f := forward_of p in
      if forward_matches stream_id data_sn f then ret (Some p)
      else find_forward stream_id data_sn nodes
  end.

Definition NANO_XRCE_ProxyClient_dismiss_forward_request (self stream_id data_sn : Z)
    : service NANO_RetCode :=
  let* c := client_of self in
  let* found := find_forward stream_id data_sn (cl_forwards c) in
  match found with
  | None => ret NANO_RETCODE_OK
  | Some p =>
      let* f := forward_of p in
      let rcvd_data := fw_rcvd_data f in
      modify (put_client self (set_forwards (remove_node p (cl_forwards c)) c)) ;;
      call (PoolReturn (Pool_forwards self) p) ;;
      if (rd_addr rcvd_data =? 0)%Z then ret NANO_RETCODE_OK
      else
        let* rc := call (AgentReturnLoan (cl_dds_session c) rcvd_data) in
        ret (if dds_ok rc then NANO_RETCODE_OK else NANO_RETCODE_ERROR)
  end.

(** ** Session callbacks *)

Definition NANO_XRCE_ProxyClient_on_send_complete (self : Z) (stream : Stream)
    (msg_hdr : NANO_XRCE_MessageHeader) (submsg_hdr : NANO_XRCE_SubmessageHeader) : service unit :=
  if bool_decide (sh_id submsg_hdr = SUBMSG_DATA) || bool_decide (sh_id submsg_hdr = SUBMSG_FRAGMENT)
  then
    let* _ := NANO_XRCE_ProxyClient_dismiss_forward_request self (st_id stream) (mh_sn msg_hdr) in
    ret tt
  else ret tt.

Definition NANO_XRCE_ProxyClient_on_msg_lost (self : Z) (stream : Stream) (lost : Z)
    (reason : NANO_XRCE_ReliableMessageLostReason) : service unit :=
  match reason with
  | LOST_BY_REMOTE_WRITER => ret tt
  | LOST_BY_LOCAL_WRITER =>
      let* _ := NANO_XRCE_ProxyClient_dismiss_forward_request self (st_id stream) lost in
      ret tt
  | LOST_OTHER _ => ret tt
  end.

Definition send_callback (cb : SendCallback) : service unit :=
  match cb with
  | SendComplete client stream msg_hdr submsg_hdr =>
      NANO_XRCE_ProxyClient_on_send_complete client stream msg_hdr submsg_hdr
  | MsgLost client stream lost reason =>
      NANO_XRCE_ProxyClient_on_msg_lost client stream lost reason
  end.

(** ** Dismissing the requests of a reader or a stream *)

(** The condition under which the loop skips a request. *)
Definition forward_skipped (req_stream : option Stream) (reader_id : Z)
    (f : NANO_XRCE_ForwardDataRequest) : bool :=
  match req_stream with
  | Some st => negb (st_id st =? fw_stream_id f)%Z
  | None => false
  end
  || (negb (reader_id =? ATTACHEDRESOURCEID_INVALID)%Z
      && negb (rd_reader_id (fw_rcvd_data f) =? reader_id)%Z).

(** The loop, at the node that heads [nodes]. *)
Fixpoint dismiss_loop (fuel : nat) (client : Z) (req_stream : option Stream) (reader_id : Z)
    (nodes : list Z) : service unit :=
  match fuel with
  | O => unfinished
  | S fuel =>
      match nodes with
      | [] => ret tt
      | node :: rest =>
          let* f := forward_of node in
          if forward_skipped req_stream reader_id f
          then dismiss_loop fuel client req_stream reader_id rest
          else
            let* stream := NANO_XRCE_Agent_lookup_stream client (fw_stream_id f) in
            match stream with
            | None => undefined
            | Some st =>
                let* '(cbs, dismissed) := call (SessionDismissSendQueue client st (fw_sn f)) in
                each send_callback cbs ;;
                if (dismissed =? 0)%Z then ret tt
                else
                  let* c := client_of client in
                  dismiss_loop fuel client req_stream reader_id (cl_forwards c)
            end
      end
  end.

Definition NANO_XRCE_Agent_dismiss_client_fwd_data_requests (fuel : nat) (client : Z)
    (req_stream : option Stream) (reader_id : Z) : service unit :=
  let* c := client_of client in
  dismiss_loop fuel client req_stream reader_id (cl_forwards c).

(** ** Forwarding a sample *)

(** [sizeof(DDS_Long)]: the XCDR header that is not forwarded. *)
Definition XCDR_HEADER : Z := 4.

(** What the loop of [on_data_received] leaves for the code after [done]. *)
Record forward_end := {
  fe_rc : NANO_RetCode;
  fe_fwd_req : option Z;
  fe_fwd_req_added : bool;
  fe_mbuf : option Z;
  fe_retained : bool
}.

Fixpoint forward_loop (fuel : nat) (client : Z) (st : Stream) (stream_id : Z) (obj_id : NANO_XRCE_ObjectId)
    (data : D2S2_ReceivedData) (msg_flags : Z) (mbuf : option Z) (retained : bool)
    : service forward_end :=
  match fuel with
  | O => unfinished
  | S fuel =>
      match mbuf with
      | None => ret {| fe_rc := NANO_RETCODE_OK; fe_fwd_req := None; fe_fwd_req_added := false;
                       fe_mbuf := None; fe_retained := retained |}
      | Some m =>
          let* fwd_req := call (PoolGet (Pool_forwards client)) in
          match fwd_req with
          | None => ret {| fe_rc := rc_passed; fe_fwd_req := None; fe_fwd_req_added := false;
                           fe_mbuf := Some m; fe_retained := retained |}
          | Some p =>
              let f := {| fw_rcvd_data := data; fw_reader_id := obj_id;
                          fw_stream_id := stream_id; fw_sn := 0 |} in
              modify (put_forward p f) ;;
              let* c := client_of client in
              modify (put_client client (set_forwards (cl_forwards c ++ [p]) c)) ;;
              let* nxt_send := call (MessageNext m) in
              call (MessageUnlink m) ;;
              let* '(rc, sn) := call (SessionSend client st SUBMSG_DATA msg_flags m) in
              modify (put_forward p (set_sn sn f)) ;;
              check rc
                (fun rc => ret {| fe_rc := rc; fe_fwd_req := Some p; fe_fwd_req_added := true;
                                  fe_mbuf := None; fe_retained := retained |})
                (if negb (StreamId_is_reliable stream_id) then
                   let* c := client_of client in
                   modify (put_client client (set_forwards (remove_node p (cl_forwards c)) c)) ;;
                   call (PoolReturn (Pool_forwards client) p) ;;
                   forward_loop fuel client st stream_id obj_id data msg_flags nxt_send retained
                 else
                   forward_loop fuel client st stream_id obj_id data msg_flags nxt_send true)
          end
      end
  end.

(** The code after [done]. *)
Definition forward_done (client stream_id : Z) (e : forward_end) : service unit :=
  if is_ok (fe_rc e) then ret tt
  else
    match fe_fwd_req e with
    | Some p =>
        (if fe_fwd_req_added e then
           let* c := client_of client in
           modify (put_client client (set_forwards (remove_node p (cl_forwards c)) c))
         else ret tt) ;;
        call (PoolReturn (Pool_forwards client) p)
    | None => ret tt
    end ;;
    match fe_mbuf e with
    | Some m => NANO_XRCE_Agent_release_reply_message client stream_id m
    | None => ret tt
    end.

(** The messages of a sample: a header followed by the payload.  [inl] is an
    exit through [done] with the code and the [try_again] flag. *)
Definition forward_messages (client : Z) (st : Stream) (rs : NANO_XRCE_ReaderState)
    (xcdr : D2S2_XcdrData) : service (NANO_RetCode * bool + Z) :=
  match rs_read_fmt rs with
  | FORMAT_DATA =>
      let* '(rc, mbuf_header, _) :=
        NANO_XRCE_Agent_allocate_reply_message client (Some st) (rs_stream_id rs)
          RELATEDOBJECTREQUEST_SERIALIZED_SIZE_MAX None in
      check rc (fun _ => ret (inl (NANO_RETCODE_OK, true)))
        match mbuf_header, rs_req rs with
        | Some header, Some req =>
            let* rq := request_of req in
            call (MessageWrite header (DataHeaderContent (rq_request rq) (rq_object_id rq))) ;;
            let size := to_usize (u64 (data_len (buffer xcdr) - XCDR_HEADER)) in
            let* '(rc, mbuf_payload, _) :=
              NANO_XRCE_Agent_allocate_reply_message client (Some st) (rs_stream_id rs) size
                (Some {| up_addr := data_addr (buffer xcdr) + XCDR_HEADER; up_size := size |}) in
            check rc
              (fun _ =>
                 NANO_XRCE_Agent_release_reply_message client (rs_stream_id rs) header ;;
                 ret (inl (NANO_RETCODE_OK, true)))
              match mbuf_payload with
              | Some payload => call (MessageAppend header payload) ;; ret (inr header)
              | None => undefined
              end
        | _, _ => undefined
        end
  | _ => ret (inl (NANO_RETCODE_ERROR, false))
  end.

(** The code returned, [*retained_out] and [*try_again_out]. *)
Definition NANO_XRCE_Agent_on_data_received (fuel : nat) (client reader_id reader : Z)
    (data : D2S2_ReceivedData) : service (DDS_ReturnCode_t * bool * bool) :=
  let obj_id := ObjectId_from_u16 reader_id in
  let* rs := reader_of reader in
  let* c := client_of client in
  let ignored := ret (DDS_RETCODE_OK, false, false) in
  if negb (rs_forward rs) then ignored
  else if cl_disposed c then ignored
  else match dr_fmt (rd_data data) with
  | DATAREPRESENTATIONFORMAT_XCDR =>
      let xcdr := dr_xcdr (rd_data data) in
      if (data_len (buffer xcdr) =? 0)%Z then ignored
      else
        let* reply_stream := NANO_XRCE_Agent_lookup_stream client (rs_stream_id rs) in
        match reply_stream with
        | None => ret (DDS_RETCODE_ERROR, false, false)
        | Some st =>
            let* messages := forward_messages client st rs xcdr in
            match messages with
            | inl (rc, try_again) => ret (to_dds rc, false, try_again)
            | inr header =>
                let msg_flags := Flags_DATA_set_format (rs_read_fmt rs) (little_endian xcdr) in
                let* e := forward_loop fuel client st (rs_stream_id rs) obj_id data msg_flags
                            (Some header) false in
                forward_done client (rs_stream_id rs) e ;;
                ret (to_dds (fe_rc e), fe_retained e, false)
            end
        end
  | _ => ignored
  end.

Definition NANO_XRCE_AgentInterface_on_data_available := NANO_XRCE_Agent_on_data_received.

(** ** Lemmas *)

(** The forward requests of a client are all in memory. *)
Definition forwards_known (s : Service) (l : list Z) : Prop :=
  Forall (fun p => is_Some (forward_at s !! p)) l.

Definition none_matches (s : Service) (stream_id sn : Z) (l : list Z) : Prop :=
  Forall (fun p => forall f, forward_at s !! p = Some f -> forward_matches stream_id sn f = false) l.

Lemma find_forward_spec (E : cevent -> Prop) (id sn : Z) (nodes : list Z) (s : Service) :
  forwards_known s nodes ->
  spec E (find_forward id sn nodes) s (fun t r s' =>
    t = [] /\ s' = s /\
    match r with
    | None => none_matches s id sn nodes
    | Some p => exists l1 l2 f, nodes = l1 ++ p :: l2 /\ forward_at s !! p = Some f
                /\ forward_matches id sn f = true /\ none_matches s id sn l1
    end).
Proof.
  induction nodes as [|p nodes IH]; intros Hk; cbn [find_forward].
  - vstep. split_and!; done || apply List.Forall_nil.
  - apply Forall_cons in Hk as [[f Hf] Hk]. vstep. vstep. vstep.
    + vstep. split_and!; try done. exists [], nodes, f. split_and!; done || apply List.Forall_nil.
    + eapply spec_mono; [by apply IH |]. intros t r s' (-> & -> & Hr); cbn beta.
      split_and!; try done. destruct r as [q|].
      * destruct Hr as (l1 & l2 & g & -> & Hg & Hm & Hn). exists (p :: l1), l2, g.
        split_and!; try done. apply Forall_cons. split; [| done].
        intros f' Hf'. congruence.
      * apply Forall_cons. split; [| done]. intros f' Hf'. congruence.
Qed.

(** The calls [dismiss_forward_request] makes for a request it found. *)
Definition dismissal (client : Z) (c : NANO_XRCE_ProxyClient) (p : Z)
    (f : NANO_XRCE_ForwardDataRequest) : list Call :=
  PoolReturn (Pool_forwards client) p ::
  if (rd_addr (fw_rcvd_data f) =? 0)%Z then []
  else [AgentReturnLoan (cl_dds_session c) (fw_rcvd_data f)].

Lemma dismiss_forward_request_spec (E : cevent -> Prop) (client id sn : Z)
    (c : NANO_XRCE_ProxyClient) (s : Service)
    (Hc : client_at s !! client = Some c) (Hk : forwards_known s (cl_forwards c)) :
  spec E (NANO_XRCE_ProxyClient_dismiss_forward_request client id sn) s (fun t rc s' =>
    (t = [] /\ s' = s /\ rc = NANO_RETCODE_OK /\ none_matches s id sn (cl_forwards c))
    \/ exists l1 p l2 f,
         cl_forwards c = l1 ++ p :: l2 /\ forward_at s !! p = Some f
         /\ forward_matches id sn f = true /\ none_matches s id sn l1
         /\ calls t = dismissal client c p f
         /\ s' = put_client client (set_forwards (remove_node p (cl_forwards c)) c) s).
Proof.
  unfold NANO_XRCE_ProxyClient_dismiss_forward_request, dismissal.
  vstep. vstep. vstep. eapply spec_mono; [by apply find_forward_spec |].
  intros t r s' (-> & -> & Hr); cbn beta.
  destruct r as [p|]; [| vgo; by left].
  destruct Hr as (l1 & l2 & f & Hl & Hf & Hm & Hn).
  vgo; right; exists l1, p, l2, f; rewrite ?Heqb; split_and!; done.
Qed.

(** ** Callbacks only shrink the list of forwards *)

(** [client] keeps everything but some of its forward requests (and may have
    more stream storage). *)
Definition shrinks (client : Z) (s s' : Service) : Prop :=
  forward_at s' = forward_at s /\ request_at s' = request_at s /\ reader_at s' = reader_at s
  /\ exists c l m, client_at s !! client = Some c
     /\ client_at s' !! client = Some (set_stream_storage m (set_forwards l c))
     /\ l `sublist_of` cl_forwards c.

Lemma set_forwards_same c : set_stream_storage (cl_stream_storage c) (set_forwards (cl_forwards c) c) = c.
Proof. by destruct c. Qed.

Lemma shrinks_refl client c s : client_at s !! client = Some c -> shrinks client s s.
Proof.
  intros H. split_and!; try done. exists c, (cl_forwards c), (cl_stream_storage c).
  by rewrite set_forwards_same.
Qed.

Lemma shrinks_trans client s1 s2 s3 : shrinks client s1 s2 -> shrinks client s2 s3 -> shrinks client s1 s3.
Proof.
  intros (Hf1 & Hr1 & Hd1 & c1 & l1 & m1 & Hc1 & Hc1' & Hl1)
         (Hf2 & Hr2 & Hd2 & c2 & l2 & m2 & Hc2 & Hc2' & Hl2).
  split_and!; try congruence. exists c1, l2, m2. split_and!; [done | |].
  - assert (c2 = set_stream_storage m1 (set_forwards l1 c1)) as -> by congruence. done.
  - assert (c2 = set_stream_storage m1 (set_forwards l1 c1)) as -> by congruence.
    cbn in Hl2. by etrans.
Qed.

Lemma stream_effect_shrinks client s s' : stream_effect client s s' -> shrinks client s s'.
Proof.
  intros (c & l & Hc & ->). split_and!; try done.
  exists c, (cl_forwards c), l. cbn. rewrite lookup_insert_eq. split_and!; done.
Qed.

Lemma forwards_known_shrinks client s s' c c' :
  shrinks client s s' -> client_at s !! client = Some c -> client_at s' !! client = Some c' ->
  forwards_known s (cl_forwards c) -> forwards_known s' (cl_forwards c').
Proof.
  intros (Hf & _ & _ & c1 & l & m & Hc1 & Hc1' & Hl) Hc Hc' Hk.
  simplify_eq. unfold forwards_known. rewrite Hf. cbn.
  apply Forall_forall. intros p Hp. eapply Forall_forall in Hk; [exact Hk |].
  by eapply elem_of_sublist.
Qed.

(** ** The dismissal loop *)

Definition callback_client (cb : SendCallback) : Z :=
  match cb with SendComplete client _ _ _ => client | MsgLost client _ _ _ => client end.

(** The callback that drops the request of message [sn] of a stream. *)
Definition drops (client id sn : Z) (cb : SendCallback) : Prop :=
  exists st, cb = MsgLost client st sn LOST_BY_LOCAL_WRITER /\ st_id st = id.

Definition in_forwards (s : Service) (c : NANO_XRCE_ProxyClient) (id sn : Z) : Prop :=
  exists p f, p ∈ cl_forwards c /\ forward_at s !! p = Some f /\ forward_matches id sn f = true.

Lemma in_forwards_dec s c id sn : in_forwards s c id sn \/ ~ in_forwards s c id sn.
Proof.
  unfold in_forwards. induction (cl_forwards c) as [|p l IH].
  - right. intros (p & f & Hp & _). by apply elem_of_nil in Hp.
  - destruct IH as [(q & f & Hq & H) | IH]; [left; exists q, f; set_solver |].
    destruct (forward_at s !! p) as [f|] eqn:Hf; [destruct (forward_matches id sn f) eqn:Hm |].
    1: left; exists p, f; set_solver.
    all: right; intros (q & g & [-> | Hq]%elem_of_cons & Hg & Hm');
      [congruence | destruct IH; eauto].
Qed.

Lemma dismiss_shrinks (E : cevent -> Prop) (client id sn : Z) (c : NANO_XRCE_ProxyClient) (s : Service)
    (Hc : client_at s !! client = Some c) (Hk : forwards_known s (cl_forwards c)) :
  spec E (NANO_XRCE_ProxyClient_dismiss_forward_request client id sn) s (fun _ _ s' =>
    shrinks client s s' /\ exists c', client_at s' !! client = Some c' /\
      (in_forwards s c id sn -> (length (cl_forwards c') < length (cl_forwards c))%nat)).
Proof.
  eapply spec_mono; [by apply dismiss_forward_request_spec |].
  intros t rc s' [(_ & -> & _ & Hn) | (l1 & p & l2 & f & Hl & _ & _ & _ & _ & ->)].
  - split; [by eapply shrinks_refl |]. exists c. split; [done |].
    intros (p & f & Hp & Hf & Hm). unfold none_matches in Hn. rewrite Forall_forall in Hn.
    rewrite (Hn p Hp f Hf) in Hm. done.
  - assert (Hp : p ∈ cl_forwards c) by (rewrite Hl; set_solver).
    split.
    + split_and!; try done. exists c, (remove_node p (cl_forwards c)), (cl_stream_storage c).
      cbn. rewrite lookup_insert_eq. split_and!; [done | by destruct c | apply remove_node_sublist].
    + eexists. cbn. rewrite lookup_insert_eq. split; [done |]. intros _. by apply remove_node_length.
Qed.

Lemma send_callback_shrinks (E : cevent -> Prop) (client : Z) (cb : SendCallback)
    (c : NANO_XRCE_ProxyClient) (s : Service)
    (Hcb : callback_client cb = client)
    (Hc : client_at s !! client = Some c) (Hk : forwards_known s (cl_forwards c)) :
  spec E (send_callback cb) s (fun _ _ s' =>
    shrinks client s s' /\ exists c', client_at s' !! client = Some c' /\
      forall id sn, drops client id sn cb -> in_forwards s c id sn ->
      (length (cl_forwards c') < length (cl_forwards c))%nat).
Proof.
  assert (Hsame : (forall id sn, ~ drops client id sn cb) ->
     shrinks client s s /\ exists c', client_at s !! client = Some c' /\
      forall id sn, drops client id sn cb -> in_forwards s c id sn ->
      (length (cl_forwards c') < length (cl_forwards c))%nat).
  { intros Hno. split; [by eapply shrinks_refl |]. exists c. split; [done |].
    intros id sn Hd. by destruct (Hno id sn). }
  destruct cb as [cl st mh sh | cl st sn reason]; cbn in Hcb; subst cl; cbn [send_callback].
  - unfold NANO_XRCE_ProxyClient_on_send_complete. vstep.
    + vstep. eapply spec_mono; [by apply dismiss_shrinks |].
      intros t rc s' (Hs & c' & Hc' & _); cbn beta. vstep. split; [done |]. exists c'.
      split; [done |]. intros id' sn' (st' & Heq & _). discriminate.
    + vstep. apply Hsame. intros id' sn' (st' & Heq & _). discriminate.
  - destruct reason; cbn [NANO_XRCE_ProxyClient_on_msg_lost].
    + vstep. apply Hsame. intros id' sn' (st' & Heq & _). discriminate.
    + vstep. eapply spec_mono; [by apply dismiss_shrinks |].
      intros t rc s' (Hs & c' & Hc' & Hd); cbn beta. vstep. split; [done |]. exists c'.
      split; [done |]. intros id' sn' (st' & Heq & <-). injection Heq as <- <-. done.
    + vstep. apply Hsame. intros id' sn' (st' & Heq & _). discriminate.
Qed.

Lemma shrinks_length client s s' c c' :
  shrinks client s s' -> client_at s !! client = Some c -> client_at s' !! client = Some c' ->
  (length (cl_forwards c') <= length (cl_forwards c))%nat.
Proof.
  intros (_ & _ & _ & c1 & l & m & Hc1 & Hc1' & Hl) Hc Hc'. simplify_eq. cbn.
  by apply sublist_length.
Qed.

(** A request that is gone makes the list shorter. *)
Lemma shrinks_gone client s s' c c' id sn :
  shrinks client s s' -> client_at s !! client = Some c -> client_at s' !! client = Some c' ->
  in_forwards s c id sn -> ~ in_forwards s' c' id sn ->
  (length (cl_forwards c') < length (cl_forwards c))%nat.
Proof.
  intros Hs Hc Hc' Hin Hout. pose proof (shrinks_length _ _ _ _ _ Hs Hc Hc') as Hle.
  destruct Hs as (Hf & _ & _ & c1 & l & m & Hc1 & Hc1' & Hl).
  assert (c1 = c) as -> by congruence.
  assert (c' = set_stream_storage m (set_forwards l c)) as -> by congruence. cbn in *.
  destruct (decide (length l = length (cl_forwards c))) as [Heq | Hne]; [| lia].
  apply sublist_same_length in Hl; [| done]. subst l. destruct Hout.
  destruct Hin as (p & f & Hp & Hfp & Hm). exists p, f. cbn. by rewrite Hf.
Qed.

Lemma callbacks_shrink (E : cevent -> Prop) (client : Z) (cbs : list SendCallback) :
  forall c s, Forall (fun cb => callback_client cb = client) cbs ->
  client_at s !! client = Some c -> forwards_known s (cl_forwards c) ->
  spec E (each send_callback cbs) s (fun _ _ s' =>
    shrinks client s s' /\ exists c', client_at s' !! client = Some c' /\
      forall id sn, Exists (drops client id sn) cbs -> in_forwards s c id sn ->
      (length (cl_forwards c') < length (cl_forwards c))%nat).
Proof.
  induction cbs as [|cb cbs IH]; intros c s Hcbs Hc Hk.
  - rewrite each_nil. vstep. split; [by eapply shrinks_refl |]. exists c. split; [done |].
    intros id sn H. inversion H.
  - rewrite each_cons. apply Forall_cons in Hcbs as [Hcb Hcbs]. apply spec_bind.
    eapply spec_mono; [by apply send_callback_shrinks |].
    intros t1 [] s1 (Hs1 & c1 & Hc1 & Hd1); cbn beta.
    pose proof (forwards_known_shrinks _ _ _ _ _ Hs1 Hc Hc1 Hk) as Hk1.
    eapply spec_mono; [by apply IH |].
    intros t2 [] s2 (Hs2 & c2 & Hc2 & Hd2); cbn beta.
    split; [by eapply shrinks_trans |]. exists c2. split; [done |].
    pose proof (shrinks_length _ _ _ _ _ Hs1 Hc Hc1). pose proof (shrinks_length _ _ _ _ _ Hs2 Hc1 Hc2).
    intros id sn [Hd | Hd]%Exists_cons Hin.
    + specialize (Hd1 id sn Hd Hin). lia.
    + destruct (decide (length (cl_forwards c1) < length (cl_forwards c))%nat) as [? | Hge]; [lia |].
      specialize (Hd2 id sn Hd). enough (in_forwards s1 c1 id sn) by (specialize (Hd2 ltac:(done)); lia).
      destruct (in_forwards_dec s1 c1 id sn) as [Hi | Hn]; [done |].
      pose proof (shrinks_gone _ _ _ _ _ _ _ Hs1 Hc Hc1 Hin Hn). lia.
Qed.
End forward.

Section dismissal.
Context {N : NanoClient} {NOk : NanoClientOk N}.
Context (client : Z) (req_stream : option Stream) (reader_id : Z).

(** What the loop needs of the session: the streams of the requests exist, and
    dismissing the messages up to [sn], when it reports some, called back for
    [sn], all callbacks being for this client. *)
Definition session_contract (e : cevent) : Prop :=
  match e with
  | existT c r =>
      match c return Resp c -> Prop with
      | SessionLookupStream cl id => fun st =>
          cl = client -> exists st', st = Some st' /\ st_id st' = id
      | SessionDismissSendQueue cl st sn => fun res =>
          cl = client ->
          Forall (fun cb => callback_client cb = client) (fst res)
          /\ (snd res <> 0%Z -> Exists (drops client (st_id st) sn) (fst res))
      | _ => fun _ => True
      end r
  end.

(** A dismissal that reported no message, after which the loop gives up. *)
Definition gave_up (e : cevent) : Prop :=
  match e with
  | existT c r =>
      match c return Resp c -> Prop with
      | SessionDismissSendQueue cl _ _ => fun res => cl = client /\ snd res = 0%Z
      | _ => fun _ => False
      end r
  end.

Definition all_skipped (s : Service) (l : list Z) : Prop :=
  Forall (fun p => forall f, forward_at s !! p = Some f -> forward_skipped req_stream reader_id f = true) l.

Lemma lookup_stream_found (id : Z) (s : Service) (c : NANO_XRCE_ProxyClient)
    (Hc : client_at s !! client = Some c) :
  spec session_contract (NANO_XRCE_Agent_lookup_stream client id) s (fun t r s' =>
    s' = s /\ exists st, r = Some st /\ st_id st = id).
Proof.
  unfold NANO_XRCE_Agent_lookup_stream. vstep. vstep. cbn in H. destruct (H eq_refl) as (st & -> & Hst).
  vstep. eauto.
Qed.

Lemma forward_matches_self (f : NANO_XRCE_ForwardDataRequest) :
  forward_matches (fw_stream_id f) (fw_sn f) f = true.
Proof.
  unfold forward_matches. rewrite Z.eqb_refl; cbn. apply Z.eqb_eq. by apply SeqNum_compare_zero.
Qed.

Lemma dismiss_loop_spec (fuel : nat) : forall (nodes pre : list Z) (c : NANO_XRCE_ProxyClient) (s : Service),
  client_at s !! client = Some c -> cl_forwards c = pre ++ nodes ->
  forwards_known s (cl_forwards c) -> all_skipped s pre ->
  (length nodes + length (cl_forwards c) * length (cl_forwards c) < fuel)%nat ->
  spec session_contract (dismiss_loop fuel client req_stream reader_id nodes) s (fun t _ s' =>
    shrinks client s s' /\ exists c', client_at s' !! client = Some c' /\
      (Exists gave_up t \/ all_skipped s' (cl_forwards c'))).
Proof.
  induction fuel as [|fuel IH]; intros nodes pre c s Hc Hl Hk Hpre Hfuel; [lia |].
  cbn [dismiss_loop]. destruct nodes as [|node rest].
  - vstep. split; [by eapply shrinks_refl |]. exists c. split; [done |]. right.
    by rewrite Hl, app_nil_r.
  - assert (Hnode : node ∈ cl_forwards c) by (rewrite Hl; set_solver).
    destruct (proj1 (Forall_forall _ _) Hk node Hnode) as [f Hf].
    vstep. vstep. vstep.
    + eapply spec_mono; [apply (IH rest (pre ++ [node]) c s) |]; try done.
      * by rewrite Hl, <- app_assoc.
      * apply Forall_app; split; [done |]. apply Forall_singleton. intros f' Hf'. congruence.
      * cbn [length] in Hfuel. lia.
    + vstep. eapply spec_mono; [by eapply lookup_stream_found |].
      intros t0 r s1 (-> & st & -> & Hst); cbn beta. cbn iota.
      vstep. vstep. destruct r as [cbs n]. vstep. destruct (H eq_refl) as [Hcbs Hdrop]. cbn in Hcbs, Hdrop.
      eapply spec_mono; [by apply (callbacks_shrink _ client cbs c s) |].
      intros t1 [] s1 (Hs1 & c1 & Hc1 & Hd); cbn beta.
      destruct (Z.eqb_spec n 0) as [-> | Hn].
      * vstep. split; [done |]. exists c1. split; [done |]. left.
        repeat first [rewrite Exists_app | rewrite Exists_cons]. cbn. tauto.
      * vstep. vstep.
        assert (Hlt : (length (cl_forwards c1) < length (cl_forwards c))%nat).
        { apply (Hd (st_id st) (fw_sn f)); [by apply Hdrop |].
          exists node, f. rewrite Hst. split_and!; [done | done | apply forward_matches_self]. }
        eapply spec_mono; [apply (IH (cl_forwards c1) [] c1 s1); try done |].
        -- by eapply forwards_known_shrinks.
        -- apply List.Forall_nil.
        -- cbn [length] in Hfuel. nia.
        -- intros t2 [] s2 (Hs2 & c2 & Hc2 & Hres); cbn beta.
           split; [by eapply shrinks_trans |]. exists c2. split; [done |].
           destruct Hres as [Hg | Hskip]; [left | by right].
           repeat first [rewrite Exists_app | rewrite Exists_cons]. tauto.
Qed.
End dismissal.

Section accounting.
Context {N : NanoClient} {NOk : NanoClientOk N}.
Context (client stream_id : Z) (next : Z -> option Z).

(** What forwarding needs of the session and of the message buffers: the stream
    stays registered once found, and the chain of messages is [next]. *)
Definition forward_contract (e : cevent) : Prop :=
  match e with
  | existT c r =>
      match c return Resp c -> Prop with
      | SessionLookupStream cl id => fun st => cl = client -> id = stream_id -> is_Some st
      | MessageNext m => fun n => n = next m
      | _ => fun _ => True
      end r
  end.

(** The chain that starts at a message has at most [n] messages. *)
Fixpoint chain (n : nat) (m : option Z) : Prop :=
  match m with
  | None => True
  | Some m => match n with O => False | S n => chain n (next m) end
  end.

(** Its messages. *)
Fixpoint messages_of (n : nat) (m : option Z) : list Z :=
  match n, m with
  | S n, Some m => m :: messages_of n (next m)
  | _, _ => []
  end.

(** ** Reading what was sent in a trace *)

(** The messages given to the session. *)
Definition sent_messages (t : list cevent) : list Z :=
  omap (fun c => match c with SessionSend _ _ _ _ m => Some m | _ => None end) (calls t).

(** The message a header was written to. *)
Definition header_written (t : list cevent) : option Z :=
  head (omap (fun c => match c with MessageWrite m (DataHeaderContent _ _) => Some m | _ => None end)
          (calls t)).

(** The forward requests of the messages that were sent, with the sequence numbers the
    session gave these: a request is taken from the pool, and the send that follows is its. *)
Fixpoint requests_sent (pending : option Z) (t : list cevent) : list (Z * Z) :=
  match t with
  | [] => []
  | existT c r :: t =>
      match c return Resp c -> list (Z * Z) with
      | PoolGet p => fun b =>
          requests_sent (if decide (p = Pool_forwards client) then b else pending) t
      | SessionSend _ _ _ _ _ => fun '(rc, sn) =>
          match pending with
          | Some p => if is_ok rc then (p, sn) :: requests_sent None t else requests_sent None t
          | None => requests_sent None t
          end
      | _ => fun _ => requests_sent pending t
      end r
  end.

(** The pool is empty or the session refuses a message. *)
Definition send_refused (e : cevent) : Prop :=
  match e with
  | existT c r =>
      match c return Resp c -> Prop with
      | PoolGet p => fun b => p = Pool_forwards client /\ b = None
      | SessionSend _ _ _ _ _ => fun '(rc, _) => rc <> NANO_RETCODE_OK
      | _ => fun _ => False
      end r
  end.

(** The messages are sent in order, all of them unless one is refused. *)
Definition sent_in_order (messages : list Z) (t : list cevent) : Prop :=
  sent_messages t `prefix_of` messages
  /\ (sent_messages t = messages \/ Exists send_refused t).

(** The requests a trace keeps: those of the messages sent on a reliable stream. *)
Definition requests_kept (t : list cevent) : list (Z * Z) :=
  if StreamId_is_reliable stream_id then requests_sent None t else [].

(** Calls that neither touch the pool of forward requests nor send. *)
Definition no_forward (c : Call) : bool :=
  match c with
  | PoolGet p | PoolReturn p _ => negb (bool_decide (p = Pool_forwards client))
  | SessionSend _ _ _ _ _ => false
  | _ => true
  end.

Lemma no_forward_pool t :
  only no_forward t -> taken (Pool_forwards client) t = [] /\ returned (Pool_forwards client) t = [].
Proof.
  intros Ht. split; [apply (only_taken no_forward) | apply (only_returned no_forward)];
    try done; intros; cbn; by rewrite bool_decide_eq_true_2.
Qed.

Lemma no_forward_sent t : only no_forward t -> sent_messages t = [].
Proof.
  unfold only, sent_messages. induction (calls t) as [|c l IH]; [done |].
  intros [Hc Hl]%Forall_cons. destruct c; cbn; auto. done.
Qed.

Lemma no_forward_requests pending t t' :
  only no_forward t -> requests_sent pending (t ++ t') = requests_sent pending t'.
Proof.
  unfold only. induction t as [|[c r] t IH]; [done |].
  intros [Hc Hl]%Forall_cons. specialize (IH Hl). destruct c; cbn in *; auto; [| done].
  rewrite decide_False; [done |]. intros ->. by rewrite bool_decide_eq_true_2 in Hc.
Qed.

Lemma requests_quiet_after pending t t' :
  only no_forward t' -> requests_sent pending (t ++ t') = requests_sent pending t.
Proof.
  intros Ht'. revert pending; induction t as [|[c r] t IH]; intros pending; cbn [app].
  - rewrite <- (app_nil_r t'). by rewrite no_forward_requests.
  - destruct c; cbn; auto. destruct r as [rc sn]. destruct pending; [destruct (is_ok rc) |];
      by rewrite IH.
Qed.

Lemma sent_messages_app t t' : sent_messages (t ++ t') = sent_messages t ++ sent_messages t'.
Proof. unfold sent_messages. by rewrite calls_app, omap_app. Qed.

Lemma sent_in_order_nil messages t :
  sent_messages t = [] -> Exists send_refused t -> sent_in_order messages t.
Proof. intros Hs H. split; [rewrite Hs; apply prefix_nil | by right]. Qed.

Lemma sent_in_order_app messages t t' :
  only no_forward t' -> sent_in_order messages t -> sent_in_order messages (t ++ t').
Proof.
  intros Ht' [Hp He]. unfold sent_in_order.
  rewrite sent_messages_app, (no_forward_sent t'), app_nil_r, Exists_app by done. tauto.
Qed.

Lemma sent_in_order_later messages t t' :
  only no_forward t -> sent_in_order messages t' -> sent_in_order messages (t ++ t').
Proof.
  intros Ht [Hp He]. unfold sent_in_order.
  rewrite sent_messages_app, (no_forward_sent t), Exists_app by done. cbn. tauto.
Qed.

Lemma sent_in_order_cons m messages t1 t2 :
  sent_messages t1 = [m] -> sent_in_order messages t2 -> sent_in_order (m :: messages) (t1 ++ t2).
Proof.
  intros H1 [Hp He]. unfold sent_in_order. rewrite sent_messages_app, H1, Exists_app. cbn.
  split; [by apply prefix_cons |]. destruct He as [-> | He]; tauto.
Qed.

Lemma no_forward_allocation c : allocation_call c = true -> no_forward c = true.
Proof. destruct c; cbn; try done; by rewrite bool_decide_eq_true; intros ->. Qed.

Lemma lookup_stream_known (s : Service) (c : NANO_XRCE_ProxyClient)
    (Hc : client_at s !! client = Some c) :
  spec forward_contract (NANO_XRCE_Agent_lookup_stream client stream_id) s (fun t r s' =>
    t = [existT (SessionLookupStream client stream_id) r] /\ s' = s /\ is_Some r).
Proof.
  unfold NANO_XRCE_Agent_lookup_stream. vstep. vstep.
  destruct (H eq_refl eq_refl) as [st ->]. vstep. eauto.
Qed.

Lemma release_reply_message_spec (m : Z) (s : Service) (c : NANO_XRCE_ProxyClient)
    (Hc : client_at s !! client = Some c) :
  spec forward_contract (NANO_XRCE_Agent_release_reply_message client stream_id m) s (fun t r s' =>
    s' = s /\ only no_forward t).
Proof.
  unfold NANO_XRCE_Agent_release_reply_message. vstep.
  eapply spec_mono; [by eapply lookup_stream_known |].
  intros t r s' (-> & -> & [st ->]); cbn beta. vgo. split; [done |]. only_calls.
Qed.

(** What a request that is kept holds. *)
Definition kept_for (obj_id : NANO_XRCE_ObjectId) (data : D2S2_ReceivedData) (s : Service)
    (l : list (Z * Z)) : Prop :=
  Forall (fun '(p, sn) =>
    forward_at s !! p = Some {| fw_rcvd_data := data; fw_reader_id := obj_id;
                                fw_stream_id := stream_id; fw_sn := sn |}) l.

(** The request of a message that was not sent is still in the list. *)
Definition unsent (e : forward_end) : list Z :=
  match fe_fwd_req e with Some p => [p] | None => [] end.

Definition loop_post (obj_id : NANO_XRCE_ObjectId) (data : D2S2_ReceivedData) (s : Service)
    (before : list Z) (retained : bool) (messages : list Z)
    (t : list cevent) (e : forward_end) (s' : Service) : Prop :=
  exists c', client_at s' !! client = Some c'
  /\ cl_forwards c' = outstanding (Pool_forwards client) before t
  /\ fe_fwd_req_added e = bool_decide (is_Some (fe_fwd_req e))
  /\ (pool_contract (Pool_forwards client) before t ->
      cl_forwards c' = before ++ (requests_kept t).*1 ++ unsent e
        /\ NoDup ((requests_kept t).*1 ++ unsent e)
        /\ (forall p, p ∈ (requests_kept t).*1 ++ unsent e -> p ∉ before)
        /\ (fe_retained e = true <-> retained = true \/ requests_kept t <> [])
        /\ kept_for obj_id data s' (requests_kept t)
        /\ forall q, q ∈ before -> forward_at s' !! q = forward_at s !! q)
  /\ (fe_rc e = NANO_RETCODE_OK -> fe_fwd_req e = None)
  /\ sent_in_order messages t.

Lemma loop_post_exit obj_id data (s s' : Service) (c c' : NANO_XRCE_ProxyClient) (retained : bool)
    messages t e :
  client_at s' !! client = Some c' ->
  fe_fwd_req_added e = bool_decide (is_Some (fe_fwd_req e)) -> fe_retained e = retained ->
  (fe_rc e = NANO_RETCODE_OK -> fe_fwd_req e = None) ->
  outstanding (Pool_forwards client) (cl_forwards c) t = cl_forwards c ++ unsent e ->
  cl_forwards c' = cl_forwards c ++ unsent e ->
  (pool_contract (Pool_forwards client) (cl_forwards c) t ->
     (forall p, p ∈ unsent e -> p ∉ cl_forwards c)
     /\ forall q, q ∈ cl_forwards c -> forward_at s' !! q = forward_at s !! q) ->
  requests_sent None t = [] -> sent_in_order messages t ->
  loop_post obj_id data s (cl_forwards c) retained messages t e s'.
Proof.
  intros Hc' Hadd Hret Hrc Ho Hf Hk Hnone Hsent. exists c'. split_and!; try done; [congruence |].
  assert (requests_kept t = []) as ->
    by (unfold requests_kept; rewrite Hnone; by destruct (StreamId_is_reliable _)).
  intros Hct. destruct (Hk Hct) as [Hfresh Hsame]. cbn [app fmap list_fmap]. split_and!; try done.
  - unfold unsent. destruct (fe_fwd_req e); [apply NoDup_singleton | apply NoDup_nil_2].
  - rewrite Hret. split; [by left | by intros [?|?]].
  - apply List.Forall_nil.
Qed.

(** A message sent on a reliable stream: its request stays in the list. *)
Lemma loop_post_keep obj_id data (s s1 s' : Service) (l : list Z) (p sn m : Z) (retained : bool)
    messages t1 t2 e :
  StreamId_is_reliable stream_id = true ->
  forward_at s1 = <[p := {| fw_rcvd_data := data; fw_reader_id := obj_id;
                            fw_stream_id := stream_id; fw_sn := sn |}]> (forward_at s) ->
  outstanding (Pool_forwards client) l t1 = l ++ [p] ->
  (pool_contract (Pool_forwards client) l t1 -> p ∉ l) ->
  requests_sent None (t1 ++ t2) = (p, sn) :: requests_sent None t2 -> sent_messages t1 = [m] ->
  loop_post obj_id data s1 (l ++ [p]) true messages t2 e s' ->
  loop_post obj_id data s l retained (m :: messages) (t1 ++ t2) e s'.
Proof.
  intros Hr Hs1 Ho Hp Hrs Hm (c' & Hc' & Hl & Hadd & Hk & Hrc & Hsent).
  exists c'. rewrite outstanding_app, Ho. split_and!; try done; [| by apply sent_in_order_cons].
  assert (requests_kept (t1 ++ t2) = (p, sn) :: requests_kept t2) as ->
    by (unfold requests_kept; by rewrite Hr, Hrs).
  rewrite pool_contract_app, Ho. intros [Hct1 Hct2]. specialize (Hp Hct1).
  destruct (Hk Hct2) as (Hl' & Hnd & Hfresh & Hret & Hkept & Hsame). cbn [fmap list_fmap app fst].
  split_and!.
  - rewrite Hl'. by rewrite <- app_assoc.
  - apply NoDup_cons. split; [| done]. intros Hin. apply (Hfresh p Hin). set_solver.
  - intros q Hq. apply elem_of_cons in Hq as [-> | Hq]; [done |].
    specialize (Hfresh q Hq). set_solver.
  - split; [by right | intros _; apply Hret; by left].
  - apply Forall_cons. split; [| done].
    rewrite Hsame, Hs1 by set_solver. by rewrite lookup_insert_eq.
  - intros q Hq. rewrite Hsame, Hs1 by set_solver. apply lookup_insert_ne. by intros ->.
Qed.

(** A message sent on a best-effort stream: its request goes back at once. *)
Lemma loop_post_drop obj_id data (s s1 s' : Service) (l : list Z) (p m : Z) f (retained : bool)
    messages t1 t2 e :
  StreamId_is_reliable stream_id = false ->
  forward_at s1 = <[p := f]> (forward_at s) ->
  outstanding (Pool_forwards client) l t1 = remove_node p (l ++ [p]) ->
  (pool_contract (Pool_forwards client) l t1 -> p ∉ l) ->
  sent_messages t1 = [m] ->
  loop_post obj_id data s1 (remove_node p (l ++ [p])) retained messages t2 e s' ->
  loop_post obj_id data s l retained (m :: messages) (t1 ++ t2) e s'.
Proof.
  intros Hbe Hs1 Ho Hp Hm (c' & Hc' & Hl & Hadd & Hk & Hrc & Hsent).
  exists c'. rewrite outstanding_app, Ho. split_and!; try done; [| by apply sent_in_order_cons].
  rewrite pool_contract_app, Ho. intros [Hct1 Hct2]. specialize (Hp Hct1).
  specialize (Hk Hct2). rewrite remove_node_fresh in Hk by done.
  unfold requests_kept in *. rewrite Hbe in *.
  destruct Hk as (Hl' & Hnd & Hfresh & Hret & Hkept & Hsame). split_and!; try done.
  intros q Hq. rewrite Hsame, Hs1 by done. apply lookup_insert_ne. by intros ->.
Qed.

Lemma forward_loop_spec (st : Stream) (obj_id : NANO_XRCE_ObjectId) (data : D2S2_ReceivedData)
    (msg_flags : Z) (fuel : nat) : forall (n : nat) (m : option Z) (retained : bool)
    (s : Service) (c : NANO_XRCE_ProxyClient),
  client_at s !! client = Some c -> chain n m -> (n < fuel)%nat ->
  spec forward_contract
    (forward_loop fuel client st stream_id obj_id data msg_flags m retained) s
    (loop_post obj_id data s (cl_forwards c) retained (messages_of n m)).
Proof.
  induction fuel as [|fuel IH]; intros n m retained s c Hc Hch Hlt; [lia |].
  cbn [forward_loop]. destruct m as [m|].
  2: { vstep. apply (loop_post_exit _ _ _ _ c c); cbn; try done; [by rewrite app_nil_r.. | |].
       - intros _. split; [set_solver | done].
       - destruct n; (split; [done | by left]). }
  destruct n as [|n]; [done |]. cbn [chain] in Hch. cbn [messages_of].
  vstep. vstep. destruct r as [p|].
  2: { vstep. apply (loop_post_exit _ _ _ _ c c); cbn; try done; [| by rewrite app_nil_r | |].
       - unfold outstanding_step; cbn. by rewrite decide_True, !app_nil_r by done.
       - intros _. split; [set_solver | done].
       - apply sent_in_order_nil; [done |]. by apply Exists_cons; left. }
  do 14 vstep. destruct r1 as [rc sn]. cbn in H0. subst r.
  do 2 vstep. vstep.
  - do 6 vstep. cbn [cl_forwards set_forwards]. set (l' := remove_node p (cl_forwards c ++ [p])).
    eapply spec_mono; [by eapply (IH n (next m) retained _ (set_forwards l' (set_forwards _ c)));
      [find_object | done | lia] |].
    cbn [cl_forwards set_forwards app]. intros t e s' Hpost.
    eapply (loop_post_drop _ _ _ _ _ _ p m _ _ _ [_; _; _; _; _]); [| | | | | exact Hpost].
    + by apply negb_true_iff.
    + by cbn; rewrite insert_insert_eq.
    + by pool_out.
    + apply pool_contract_get.
    + done.
  - eapply spec_mono; [by eapply (IH n (next m) true _ (set_forwards (cl_forwards c ++ [p]) c));
      [find_object | done | lia] |].
    cbn [cl_forwards set_forwards app]. intros t e s' Hpost.
    eapply (loop_post_keep _ _ _ _ _ _ p _ m _ _ [_; _; _; _]); [| | | | | | exact Hpost].
    + by apply negb_false_iff.
    + by cbn; rewrite insert_insert_eq.
    + by pool_out.
    + apply pool_contract_get.
    + cbn. rewrite decide_True by done. by rewrite is_ok_true.
    + done.
  - vstep. eapply (loop_post_exit _ _ _ _ c (set_forwards (cl_forwards c ++ [p]) c)); try done.
    + find_object.
    + by pool_out.
    + intros Hp%pool_contract_get. cbn. split; [set_solver |].
      intros q Hq. rewrite !lookup_insert_ne by (intros ->; done). done.
    + cbn. rewrite decide_True by done. by rewrite is_ok_false.
    + split; [by eexists |]. right. do 3 (apply Exists_cons; right). by apply Exists_cons; left.
Qed.

(** The client's list and the buffers out of its pool of forward requests, with
    the requests the sample keeps. *)
Definition forwarded (obj_id : NANO_XRCE_ObjectId) (data : D2S2_ReceivedData) (before : list Z)
    (retained : bool) (t : list cevent) (s' : Service) : Prop :=
  exists c', client_at s' !! client = Some c'
  /\ cl_forwards c' = outstanding (Pool_forwards client) before t
  /\ (pool_contract (Pool_forwards client) before t ->
      cl_forwards c' = before ++ (requests_kept t).*1
        /\ (retained = true <-> requests_kept t <> [])
        /\ kept_for obj_id data s' (requests_kept t)).

Lemma requests_kept_after t t' : only no_forward t' -> requests_kept (t ++ t') = requests_kept t.
Proof. intros H. unfold requests_kept. by rewrite requests_quiet_after. Qed.

Lemma requests_kept_later t t' : only no_forward t -> requests_kept (t ++ t') = requests_kept t'.
Proof. intros H. unfold requests_kept. by rewrite no_forward_requests. Qed.

Lemma requests_kept_none t : only no_forward t -> requests_kept t = [].
Proof.
  intros H. rewrite <- (app_nil_r t), requests_kept_later by done. unfold requests_kept.
  by destruct (StreamId_is_reliable _).
Qed.

Lemma forwarded_none obj_id data (s : Service) (c : NANO_XRCE_ProxyClient) t :
  client_at s !! client = Some c -> only no_forward t ->
  forwarded obj_id data (cl_forwards c) false t s.
Proof.
  intros Hc Ht. destruct (no_forward_pool t Ht). exists c. rewrite outstanding_quiet by done.
  split_and!; try done. rewrite requests_kept_none by done. intros _. cbn. rewrite app_nil_r.
  split_and!; try done. apply List.Forall_nil.
Qed.

Lemma forwarded_quiet obj_id data before retained t1 t2 s :
  only no_forward t2 ->
  forwarded obj_id data before retained t1 s -> forwarded obj_id data before retained (t1 ++ t2) s.
Proof.
  intros Ht (c & Hc & Hl & Hk). destruct (no_forward_pool t2 Ht). exists c.
  rewrite outstanding_app, (outstanding_quiet _ _ t2), requests_kept_after by done.
  split_and!; try done. intros [Hct _]%pool_contract_app. auto.
Qed.

Lemma forwarded_later obj_id data before retained t1 t2 s :
  only no_forward t1 ->
  forwarded obj_id data before retained t2 s -> forwarded obj_id data before retained (t1 ++ t2) s.
Proof.
  intros Ht (c & Hc & Hl & Hk). destruct (no_forward_pool t1 Ht). exists c.
  rewrite outstanding_app, (outstanding_quiet _ _ t1), requests_kept_later by done.
  split_and!; try done.
  intros [_ Hct]%pool_contract_app. rewrite outstanding_quiet in Hct by done. auto.
Qed.

Lemma release_opt_spec (m : option Z) (s : Service) (c : NANO_XRCE_ProxyClient)
    (Hc : client_at s !! client = Some c) :
  spec forward_contract
    match m with
    | Some m => NANO_XRCE_Agent_release_reply_message client stream_id m
    | None => ret tt
    end s (fun t _ s' => s' = s /\ only no_forward t).
Proof. destruct m; [by eapply release_reply_message_spec | vstep; split; [done | apply only_nil]]. Qed.

(** A return to the pool is not a send. *)
Lemma requests_kept_return t p r :
  requests_kept (t ++ [existT (PoolReturn (Pool_forwards client) p) r]) = requests_kept t.
Proof.
  unfold requests_kept. destruct (StreamId_is_reliable _); [| done].
  generalize (None : option Z). induction t as [|[c r'] t IH]; intros pending; [done |].
  destruct c; cbn; auto. destruct r' as [rc sn]. destruct pending; [destruct (is_ok rc) |];
    by rewrite IH.
Qed.

(** The part of the clean-up that takes the request of the unsent message off
    the list and returns it. *)
Lemma forwarded_unsent obj_id data (s0 s : Service) (before : list Z) messages (t : list cevent)
    (e : forward_end) (c : NANO_XRCE_ProxyClient) (p : Z) r :
  loop_post obj_id data s0 before false messages t e s -> fe_fwd_req e = Some p ->
  client_at s !! client = Some c ->
  forwarded obj_id data before (fe_retained e)
    (t ++ [existT (PoolReturn (Pool_forwards client) p) r])
    (put_client client (set_forwards (remove_node p (cl_forwards c)) c) s).
Proof.
  intros (c' & Hc' & Hl & _ & Hk & _) Hp Hc. assert (c' = c) as -> by congruence.
  eexists. split; [cbn; by rewrite lookup_insert_eq |]. cbn [cl_forwards set_forwards].
  rewrite outstanding_app, <- Hl. split; [by pool_out |].
  intros [Hct _]%pool_contract_app. destruct (Hk Hct) as (Hlk & Hnd & Hfresh & Hr & Hkf & _).
  rewrite requests_kept_return. unfold unsent in *. rewrite Hp in *.
  apply NoDup_app in Hnd as (_ & Hnin & _). rewrite Hlk, app_assoc, remove_node_fresh.
  - split_and!; try done. rewrite Hr. naive_solver.
  - intros [Hin | Hin]%elem_of_app.
    + apply (Hfresh p); [set_solver | done].
    + apply (Hnin p Hin). set_solver.
Qed.

(** After the loop nothing is sent. *)
Lemma sent_in_order_return messages t p r t' :
  only no_forward t' -> sent_in_order messages t ->
  sent_in_order messages (t ++ existT (PoolReturn (Pool_forwards client) p) r :: t').
Proof.
  intros Ht' [Hp He]. unfold sent_in_order. rewrite sent_messages_app, Exists_app, Exists_cons.
  change (sent_messages (existT (PoolReturn (Pool_forwards client) p) r :: t')) with (sent_messages t').
  rewrite (no_forward_sent t'), app_nil_r by done. tauto.
Qed.

Lemma forward_done_spec obj_id data (s0 s : Service) (before : list Z) messages (t : list cevent)
    (e : forward_end) :
  loop_post obj_id data s0 before false messages t e s ->
  spec forward_contract (forward_done client stream_id e) s (fun t' _ s' =>
    forwarded obj_id data before (fe_retained e) (t ++ t') s' /\ sent_in_order messages (t ++ t')).
Proof.
  intros Hpost. pose proof Hpost as (c & Hc & Hl & Hadd & Hk & Hrc & Hsent).
  assert (Hnone : fe_fwd_req e = None -> forwarded obj_id data before (fe_retained e) t s).
  { intros Hn. unfold unsent in Hk. rewrite Hn in Hk. exists c. split_and!; try done.
    intros Hct. destruct (Hk Hct) as (Hlk & _ & _ & Hr & Hkf & _).
    rewrite Hlk, app_nil_r. split_and!; try done. rewrite Hr. naive_solver. }
  unfold forward_done. vstep.
  - vstep. rewrite app_nil_r. auto.
  - apply spec_bind. destruct (fe_fwd_req e) as [p|] eqn:Hp; [rewrite Hadd |].
    + do 6 vstep. eapply spec_mono; [eapply release_opt_spec; find_object |].
      intros t' [] s' (-> & Ht). cbn [app]. split; [| by apply sent_in_order_return].
      rewrite cons_middle, app_assoc. apply forwarded_quiet; [done |]. by eapply forwarded_unsent.
    + vstep. eapply spec_mono; [by eapply release_opt_spec |].
      intros t' [] s' (-> & Ht). cbn [app].
      split; [apply forwarded_quiet; auto | by apply sent_in_order_app].
Qed.

Lemma forward_messages_spec (st : Stream) (rs : NANO_XRCE_ReaderState) (xcdr : D2S2_XcdrData)
    (q : Z) rq (s : Service) (c : NANO_XRCE_ProxyClient)
    (Hid : rs_stream_id rs = stream_id)
    (Hc : client_at s !! client = Some c) (Hrq : rs_req rs = Some q)
    (Hq : request_at s !! q = Some rq) :
  spec forward_contract (forward_messages client st rs xcdr) s (fun t r s' =>
    s' = s /\ only no_forward t
    /\ match r with
       | inl (rc, again) => again = true \/ rc <> NANO_RETCODE_OK /\ header_written t = None
       | inr header => header_written t = Some header
       end).
Proof.
  assert (Hw : forall t, only allocation_call t -> forall t',
    header_written (t ++ t') = header_written t').
  { unfold only, header_written. intros t Ht t'. rewrite calls_app, omap_app.
    f_equal. rewrite <- (app_nil_l (omap _ (calls t'))). f_equal.
    induction Ht as [|x l Hx Hl IH]; [done |]. destruct x; by cbn. }
  unfold forward_messages. rewrite Hid.
  destruct (rs_read_fmt rs); try (vstep; split_and!; [done | apply only_nil | by right]).
  apply spec_bind. eapply spec_mono; [by eapply allocate_reply_message_spec |].
  intros t1 [[rc1 m1] st1] s1 (Ht1 & _ & Hres1 & Hs1); cbn beta iota.
  rewrite (Hs1 ltac:(eauto)).
  pose proof (only_weaken _ _ _ no_forward_allocation Ht1) as Hq1. vstep.
  2: { vstep. rewrite app_nil_r. split_and!; try done. by left. }
  destruct m1 as [h|]; [| naive_solver]. rewrite Hrq. do 4 vstep.
  apply spec_bind. eapply spec_mono; [by eapply allocate_reply_message_spec |].
  intros t2 [[rc2 m2] st2] s2 (Ht2 & _ & Hres2 & Hs2); cbn beta iota.
  rewrite (Hs2 ltac:(eauto)).
  pose proof (only_weaken _ _ _ no_forward_allocation Ht2) as Hq2. vstep.
  - destruct m2 as [m2|]; [| naive_solver]. vgo. split_and!; [done | by only_calls |].
    by rewrite Hw.
  - vstep. eapply spec_mono; [by eapply release_reply_message_spec |].
    intros t3 [] s3 (-> & Hq3). vstep. split_and!; [done | by only_calls | by left].
Qed.
End accounting.
(** ** Properties *)

(** Either there is no request for the message, or the first one is dismissed. *)
Definition first_dismissed {N : NanoClient} (client id sn : Z) (c : NANO_XRCE_ProxyClient)
    (s : Service) (t : list cevent) (rc : NANO_RetCode) (s' : Service) : Prop :=
  (t = [] /\ s' = s /\ rc = NANO_RETCODE_OK /\ none_matches s id sn (cl_forwards c))
  \/ exists l1 p l2 f,
       cl_forwards c = l1 ++ p :: l2 /\ forward_at s !! p = Some f
       /\ forward_matches id sn f = true /\ none_matches s id sn l1
       /\ calls t = dismissal client c p f
       /\ s' = put_client client (set_forwards (remove_node p (cl_forwards c)) c) s.

(** [dismiss_forward_request] completes the first request of the client's
    list for the stream and sequence number, and no other: it leaves the list,
    its buffer goes back to the pool and its loan, if it holds one, to the DDS
    agent, once; without such a request nothing happens. *)
Theorem dismiss_forward_request_first {N : NanoClient} {NOk : NanoClientOk N}
    (client id sn : Z) (c : NANO_XRCE_ProxyClient) (s : Service)
    (Hc : client_at s !! client = Some c) (Hk : forwards_known s (cl_forwards c)) :
  spec (fun _ => True) (NANO_XRCE_ProxyClient_dismiss_forward_request client id sn) s
    (first_dismissed client id sn c s).
Proof. by apply dismiss_forward_request_spec. Qed.

Definition drained {N : NanoClient} (client : Z) (req_stream : option Stream) (reader_id : Z)
    (s : Service) (t : list cevent) (_ : unit) (s' : Service) : Prop :=
  shrinks client s s' /\ exists c', client_at s' !! client = Some c' /\
    (Exists (gave_up client) t \/ all_skipped req_stream reader_id s' (cl_forwards c')).

Lemma dismiss_client_spec {N : NanoClient} {NOk : NanoClientOk N}
    (client reader_id : Z) (req_stream : option Stream) (c : NANO_XRCE_ProxyClient)
    (s : Service) (fuel : nat)
    (Hc : client_at s !! client = Some c) (Hk : forwards_known s (cl_forwards c))
    (Hfuel : (length (cl_forwards c) * S (length (cl_forwards c)) < fuel)%nat) :
  spec (session_contract client)
    (NANO_XRCE_Agent_dismiss_client_fwd_data_requests fuel client req_stream reader_id) s
    (drained client req_stream reader_id s).
Proof.
  unfold NANO_XRCE_Agent_dismiss_client_fwd_data_requests, drained. vstep. vstep.
  apply (dismiss_loop_spec client req_stream reader_id fuel (cl_forwards c) [] c s); try done.
  - apply List.Forall_nil.
  - lia.
Qed.

(** C6: [dismiss_client_fwd_data_requests] ends: for [n] pending requests the
    loop makes at most [n * (n + 1)] iterations.  Afterwards no request selected
    by the stream and the reader is left in the client's list, unless the session
    reported that it had no message to dismiss; nothing else of the client
    changes. *)
Theorem dismiss_client_fwd_data_requests_drains {N : NanoClient} {NOk : NanoClientOk N}
    (client reader_id : Z) (req_stream : option Stream) (c : NANO_XRCE_ProxyClient)
    (s : Service) (fuel : nat)
    (Hc : client_at s !! client = Some c) (Hk : forwards_known s (cl_forwards c))
    (Hfuel : (length (cl_forwards c) * S (length (cl_forwards c)) < fuel)%nat) :
  spec (session_contract client)
    (NANO_XRCE_Agent_dismiss_client_fwd_data_requests fuel client req_stream reader_id) s
    (drained client req_stream reader_id s).
Proof. by eapply dismiss_client_spec. Qed.

(** C5: forwarding a sample keeps the books of the client.  Its list of
    forward requests is at the end the list of buffers out of its pool.  As long
    as the pool never hands out a buffer that is out, the requests added are those of
    the messages the session accepted, in order, when the stream is reliable, and none when it is
    best-effort; each holds the sample, its reader, its stream and the sequence number the session
    gave the message; the sample is reported as retained exactly when there is one; every other
    buffer went back, whichever step failed.  The messages of the sample are sent in order from its
    header on, all of them unless the pool is empty or the session refuses one; when the
    caller is to try again none was sent. *)
Theorem on_data_received_accounts {N : NanoClient} {NOk : NanoClientOk N}
    (client reader_id reader q : Z) (data : D2S2_ReceivedData) (next : Z -> option Z)
    (fuel n : nat) (s : Service) (c : NANO_XRCE_ProxyClient) (rs : NANO_XRCE_ReaderState)
    (rq : NANO_XRCE_ProxyClientRequest)
    (Hc : client_at s !! client = Some c) (Hr : reader_at s !! reader = Some rs)
    (Hreq : rs_req rs = Some q) (Hq : request_at s !! q = Some rq)
    (Hchain : forall m, chain next n m) (Hfuel : (n < fuel)%nat) :
  spec (forward_contract client (rs_stream_id rs) next)
    (NANO_XRCE_Agent_on_data_received fuel client reader_id reader data) s
    (fun t '(rc, retained, try_again) s' =>
       forwarded client (rs_stream_id rs) (ObjectId_from_u16 reader_id) data (cl_forwards c)
         retained t s'
       /\ if try_again : bool then sent_messages t = []
          else sent_in_order client (messages_of next n (header_written t)) t).
Proof.
  unfold NANO_XRCE_Agent_on_data_received.
  pose proof (forwarded_none client (rs_stream_id rs) (ObjectId_from_u16 reader_id) data s c []
                Hc (only_nil _)) as Hnone.
  assert (Hsent : sent_in_order client (messages_of next n (header_written [])) [])
    by (destruct n; (split; [done | by left])).
  do 4 vstep. vstep; [by vstep |]. vstep; [by vstep |]. vstep; try (by vstep).
  vstep; [by vstep |]. vstep.
  eapply spec_mono; [by eapply lookup_stream_known |].
  intros t1 r s1 (-> & -> & [st ->]); cbn beta iota. apply spec_bind.
  eapply spec_mono; [by eapply forward_messages_spec |].
  intros t2 res s1 (-> & Ht2 & Hres); cbn beta. destruct res as [[rc again] | h].
  { vstep. rewrite app_nil_r. split; [apply forwarded_none; [done | by only_calls] |].
    destruct again; [exact (no_forward_sent _ _ Ht2) |]. destruct Hres as [? | [_ Hres]]; [done |].
    cbn [app]. match goal with |- context [header_written (?e :: t2)] =>
      change (header_written (e :: t2)) with (header_written t2) end. rewrite Hres. destruct n;
      (split; [by rewrite (no_forward_sent client) by only_calls | left];
       by apply (no_forward_sent client); only_calls). }
  vstep. eapply spec_mono; [by eapply (forward_loop_spec _ _ _ _ _ _ _ _ n) |].
  intros t3 e s3 Hpost; cbn beta. vstep.
  eapply spec_mono; [by eapply forward_done_spec |]. intros t4 [] s4 [Hfin Hord]; cbn beta. vstep.
  assert (Hh : header_written ([existT (SessionLookupStream client (rs_stream_id rs)) (Some st)]
                          ++ t2 ++ t3 ++ t4) = Some h).
  { change (header_written (t2 ++ t3 ++ t4) = Some h). revert Hres. unfold header_written.
    rewrite !calls_app, !omap_app. by destruct (omap _ (calls t2)). }
  rewrite app_nil_r. split.
  - apply (forwarded_later _ _ _ _ _ _ ([_] ++ t2)); [by only_calls | done].
  - replace (header_written _) with (Some h) by (symmetry; exact Hh).
    apply (sent_in_order_later _ next _ (_ :: t2)); [by only_calls | done].
Qed.

(** ** Witnesses *)

Lemma sample_forwards_known : forwards_known sample_service (cl_forwards sample_client).
Proof. apply Forall_singleton. by eexists. Qed.

Lemma dismiss_forward_request_first_witness :
  spec (fun _ => True) (NANO_XRCE_ProxyClient_dismiss_forward_request 7 128 3) sample_service
    (first_dismissed 7 128 3 sample_client sample_service)
  /\ count (fun c => match c with AgentReturnLoan _ _ => true | _ => false end)
       (fst (exec quiet_environment [] (NANO_XRCE_ProxyClient_dismiss_forward_request 7 128 3 sample_service)))
     = 1%nat.
Proof.
  split; [| vm_compute; reflexivity].
  exact (dismiss_forward_request_first 7 128 3 sample_client sample_service eq_refl
           sample_forwards_known).
Defined.

(** A session that reports each dismissed message as lost. *)
Definition dismissing_environment : environment Resp :=
  fun past c =>
    match c return Resp c with
    | SessionDismissSendQueue cl st sn => ([MsgLost cl st sn LOST_BY_LOCAL_WRITER], 1%Z)
    | c => quiet_environment past c
    end.

Lemma dismissing_contract past (c : Call) :
  session_contract 7 (existT c (dismissing_environment past c)).
Proof.
  destruct c; cbn; try done.
  - intros _. by eexists.
  - intros ->. split; [apply Forall_singleton; done |]. intros _. apply Exists_cons. left. by exists stream.
Qed.

Lemma dismiss_client_fwd_data_requests_drains_witness :
  exists u s', snd (exec dismissing_environment []
                      (NANO_XRCE_Agent_dismiss_client_fwd_data_requests 3 7 None 6 sample_service))
               = Returned (u, s')
  /\ drained 7 None 6 sample_service
       (fst (exec dismissing_environment []
               (NANO_XRCE_Agent_dismiss_client_fwd_data_requests 3 7 None 6 sample_service))) u s'.
Proof.
  apply (spec_exec (session_contract 7)).
  - apply (dismiss_client_fwd_data_requests_drains 7 6 None sample_client sample_service 3 eq_refl
             sample_forwards_known). cbn. lia.
  - exact dismissing_contract.
Defined.

Lemma on_data_received_accounts_witness :
  let run := exec quiet_environment []
               (NANO_XRCE_Agent_on_data_received 2 7 6 30 sample_data sample_service) in
  (exists rc retained again s', snd run = Returned (rc, retained, again, s')
     /\ forwarded 7 128 (ObjectId_from_u16 6) sample_data [20%Z] retained (fst run) s'
     /\ if again : bool then sent_messages (fst run) = []
        else sent_in_order 7 (messages_of (fun _ => None) 1 (header_written (fst run))) (fst run))
  /\ requests_kept 7 128 (fst run) = [(1005, 1008)]%Z /\ sent_messages (fst run) = [1001%Z].
Proof.
  split; [| split; vm_compute; reflexivity].
  destruct (spec_exec (forward_contract 7 128 (fun _ => None)) _ _ _ quiet_environment
           (on_data_received_accounts 7 6 30 10 sample_data (fun _ => None) 2 1 sample_service
             sample_client sample_reader sample_request eq_refl eq_refl eq_refl eq_refl
             ltac:(by intros [m|]) ltac:(lia)) ltac:(intros past []; cbn; done))
    as ([[rc retained] again] & s' & Hrun & H).
  by exists rc, retained, again, s'.
Defined.
