(* ===== verification/Sessions.v ===== *)
(** * Client sessions

    Models the life of a client session in [src/service/Agent.c],
    [src/service/AgentIntf.c], [src/service/ProxyClient.c] and
    [src/service/AgentTransport.c]: the table that maps locators to client keys,
    the CREATE_CLIENT message, the proxy client, and the callbacks the DDS agent
    makes when a session is opened, reset, closed or times out.

    The response of [AgentOpenSession] lists the callbacks the DDS agent makes
    before [D2S2_Agent_open_session] returns; [AgentReturn] is its code.  The
    function [dismiss_client_fwd_data_requests] takes fuel (see [Forward]). *)

From Stdlib Require Import ZArith Lia.
From stdpp Require Import base tactics list gmap.
From S2P Require Import Prelude.
From S2P Require Import CString.
From S2P Require Import Infrastructure.
From S2P Require Import Interaction.
From S2P Require Import ServiceData.
From S2P Require Import Requests.
From S2P Require Import Forward.

Section sessions.
Context {N : NanoClient}.
Local Open Scope nano_scope.

(** ** Locator mappings *)

(** The loop of [find_client_locator_mapping] from index [i], with [n]
    iterations left. *)
Fixpoint find_mapping (mappings : option (list NANO_XRCE_ClientLocatorMapping))
    (locator : TransportLocator) (n i : nat) : service (option nat) :=
  match n with
  | O => ret None
  | S n =>
      match mappings ≫= (fun l => l !! i) with
      | None => undefined
      | Some m =>
          if (TransportLocator_compare (cm_locator m) locator =? 0)%Z then ret (Some i)
          else find_mapping mappings locator n (S i)
      end
  end.

Definition NANO_XRCE_Agent_find_client_locator_mapping (locator : TransportLocator)
    : service (NANO_RetCode * option nat) :=
  let* a := the_agent in
  let* m := find_mapping (client_mappings (props a)) locator
              (Z.to_nat (client_mappings_len (props a))) 0 in
  ret (NANO_RETCODE_OK, m).

Definition set_mappings (l : option (list NANO_XRCE_ClientLocatorMapping)) (n : Z)
    (a : NANO_XRCE_Agent) : NANO_XRCE_Agent :=
  {| transports := transports a; transports_pool := transports_pool a;
     clients_pool := clients_pool a; reads_pool := reads_pool a;
     pool_storage_stream := pool_storage_stream a; pool_storage_session := pool_storage_session a;
     flags := flags a;
     props := {| client_session_timeout := client_session_timeout (props a);
                 auto_client_mapping := auto_client_mapping (props a);
                 client_mappings := l; client_mappings_len := n;
                 heartbeat_period := heartbeat_period (props a);
                 confirm_all_requests := confirm_all_requests (props a);
                 auto_delete_resources := auto_delete_resources (props a);
                 max_messages_per_acknack := max_messages_per_acknack (props a);
                 max_messages_per_heartbeat := max_messages_per_heartbeat (props a) |};
     mappings_mutex := mappings_mutex a |}.

(** ** The proxy client *)

Definition with_storage (st : option Z) (c : NANO_XRCE_ProxyClient) : NANO_XRCE_ProxyClient :=
  {| cl_session_key := cl_session_key c; cl_session_id := cl_session_id c;
     cl_transport := cl_transport c; cl_locator := cl_locator c;
     cl_dds_session := cl_dds_session c; cl_storage := st;
     cl_stream_storage := cl_stream_storage c; cl_forwards := cl_forwards c;
     cl_disposed := cl_disposed c; cl_dispose_request := cl_dispose_request c;
     cl_event_hb := cl_event_hb c; cl_cache_mapping := cl_cache_mapping c;
     cl_requests_pool := cl_requests_pool c; cl_forwards_pool := cl_forwards_pool c;
     cl_writes_pool := cl_writes_pool c |}.

Definition with_pools (requests forwards writes : bool) (c : NANO_XRCE_ProxyClient)
    : NANO_XRCE_ProxyClient :=
  {| cl_session_key := cl_session_key c; cl_session_id := cl_session_id c;
     cl_transport := cl_transport c; cl_locator := cl_locator c;
     cl_dds_session := cl_dds_session c; cl_storage := cl_storage c;
     cl_stream_storage := cl_stream_storage c; cl_forwards := cl_forwards c;
     cl_disposed := cl_disposed c; cl_dispose_request := cl_dispose_request c;
     cl_event_hb := cl_event_hb c; cl_cache_mapping := cl_cache_mapping c;
     cl_requests_pool := requests; cl_forwards_pool := forwards; cl_writes_pool := writes |}.

Definition with_session (key : NANO_XRCE_ClientKey) (id : Z) (c : NANO_XRCE_ProxyClient)
    : NANO_XRCE_ProxyClient :=
  {| cl_session_key := key; cl_session_id := id;
     cl_transport := cl_transport c; cl_locator := cl_locator c;
     cl_dds_session := cl_dds_session c; cl_storage := cl_storage c;
     cl_stream_storage := cl_stream_storage c; cl_forwards := cl_forwards c;
     cl_disposed := cl_disposed c; cl_dispose_request := cl_dispose_request c;
     cl_event_hb := cl_event_hb c; cl_cache_mapping := cl_cache_mapping c;
     cl_requests_pool := cl_requests_pool c; cl_forwards_pool := cl_forwards_pool c;
     cl_writes_pool := cl_writes_pool c |}.

Definition with_binding (transport : Z) (locator : TransportLocator) (c : NANO_XRCE_ProxyClient)
    : NANO_XRCE_ProxyClient :=
  {| cl_session_key := cl_session_key c; cl_session_id := cl_session_id c;
     cl_transport := transport; cl_locator := locator;
     cl_dds_session := cl_dds_session c; cl_storage := cl_storage c;
     cl_stream_storage := cl_stream_storage c; cl_forwards := cl_forwards c;
     cl_disposed := cl_disposed c; cl_dispose_request := cl_dispose_request c;
     cl_event_hb := cl_event_hb c; cl_cache_mapping := cl_cache_mapping c;
     cl_requests_pool := cl_requests_pool c; cl_forwards_pool := cl_forwards_pool c;
     cl_writes_pool := cl_writes_pool c |}.

(** The fields the session callbacks write. *)
Definition with_state (dds_session : option Z) (disposed : bool) (dispose_request event_hb : option Z)
    (cache_mapping : bool) (c : NANO_XRCE_ProxyClient) : NANO_XRCE_ProxyClient :=
  {| cl_session_key := cl_session_key c; cl_session_id := cl_session_id c;
     cl_transport := cl_transport c; cl_locator := cl_locator c;
     cl_dds_session := dds_session; cl_storage := cl_storage c;
     cl_stream_storage := cl_stream_storage c; cl_forwards := cl_forwards c;
     cl_disposed := disposed; cl_dispose_request := dispose_request;
     cl_event_hb := event_hb; cl_cache_mapping := cache_mapping;
     cl_requests_pool := cl_requests_pool c; cl_forwards_pool := cl_forwards_pool c;
     cl_writes_pool := cl_writes_pool c |}.

Definition set_dds_session (d : Z) (c : NANO_XRCE_ProxyClient) : NANO_XRCE_ProxyClient :=
  with_state (Some d) (cl_disposed c) (cl_dispose_request c) (cl_event_hb c) (cl_cache_mapping c) c.
Definition set_dispose_request (r : option Z) (c : NANO_XRCE_ProxyClient) : NANO_XRCE_ProxyClient :=
  with_state (cl_dds_session c) (cl_disposed c) r (cl_event_hb c) (cl_cache_mapping c) c.
Definition set_event_hb (e : option Z) (c : NANO_XRCE_ProxyClient) : NANO_XRCE_ProxyClient :=
  with_state (cl_dds_session c) (cl_disposed c) (cl_dispose_request c) e (cl_cache_mapping c) c.
Definition set_cache_mapping (b : bool) (c : NANO_XRCE_ProxyClient) : NANO_XRCE_ProxyClient :=
  with_state (cl_dds_session c) (cl_disposed c) (cl_dispose_request c) (cl_event_hb c) b c.

Definition update_client (p : Z) (f : NANO_XRCE_ProxyClient -> NANO_XRCE_ProxyClient) : service unit :=
  let* c := client_of p in modify (put_client p (f c)).

Definition NANO_XRCE_ProxyClient_initialize (self : Z) (client_repr : NANO_XRCE_ClientRepresentation)
    : service NANO_RetCode :=
  modify (put_client self PROXYCLIENT_INITIALIZER) ;;
  let* storage := call (PoolGet Pool_storage_session) in
  match storage with
  | None => ret NANO_RETCODE_ERROR
  | Some st =>
      update_client self (with_storage (Some st)) ;;
      let* '(rc, _) := NANO_XRCE_ProxyClient_allocate_stream_storage self in
      check rc ret
      (let* '(rc, _) := NANO_XRCE_ProxyClient_allocate_stream_storage self in
       check rc ret
       (let* requests := call (PoolNew (Pool_requests self) 0) in
        update_client self (with_pools requests false false) ;;
        if negb requests then ret rc_passed
        else
        let* forwards := call (PoolNew (Pool_forwards self) 0) in
        update_client self (with_pools true forwards false) ;;
        if negb forwards then ret rc_passed
        else
        let* writes := call (PoolNew (Pool_writes self) 0) in
        update_client self (with_pools true true writes) ;;
        if negb writes then ret rc_passed
        else
        let* rc := call (SessionInitialize self (cr_client_key client_repr)
                           (cr_session_id client_repr) (cr_mtu client_repr)) in
        update_client self (with_session (cr_client_key client_repr) (cr_session_id client_repr)) ;;
        check rc ret (ret NANO_RETCODE_OK)))
  end.

Definition NANO_XRCE_ProxyClient_finalize (self : Z) : service unit :=
  call (SessionFinalize self) ;;
  call (SessionFinalizeStorage self) ;;
  let* c := client_of self in
  each (NANO_XRCE_ProxyClient_release_stream_storage self) (cl_stream_storage c) ;;
  call (PoolDelete (Pool_requests self)) ;;
  call (PoolDelete (Pool_writes self)) ;;
  call (PoolDelete (Pool_forwards self)) ;;
  update_client self (with_pools false false false).

Definition NANO_XRCE_ProxyClientTransport_set_bind_entry (self src_transport : Z)
    (src_locator : TransportLocator) : service NANO_RetCode :=
  let* c := client_of self in
  modify (put_client self (with_binding src_transport (cl_locator c) c)) ;;
  let* rc := call (TransportLocatorCopy src_locator) in
  check rc ret
    (modify (put_client self (with_binding src_transport src_locator c)) ;;
     ret NANO_RETCODE_OK).

(** ** CREATE_CLIENT *)

(** Bytes read at [i] past the end of the message are undefined. *)
Definition u16_from_le (data : list Z) (i : nat) : option Z :=
  match data !! i, data !! S i with
  | Some lo, Some hi => Some (u16 (lo + 256 * hi))
  | _, _ => None
  end.

(** The size of the submessage header: id, flags and length. *)
Definition SUBMSG_HEADER : Z := 4.

(** The code, the client representation and [*key_changed]. *)
Definition NANO_XRCE_Agent_deserialize_client_repr (client_key : NANO_XRCE_ClientKey)
    (session_id : Z) (msg : list Z) (msg_len : Z)
    : service (NANO_RetCode * NANO_XRCE_ClientRepresentation * bool) :=
  let init := CLIENTREPRESENTATION_INITIALIZER in
  let min_msg_size :=
    (SessionId_header_size session_id + CREATECLIENTPAYLOAD_HEADER_SERIALIZED_SIZE_MIN)%Z in
  if (msg_len <? min_msg_size)%Z then ret (NANO_RETCODE_ERROR, init, false)
  else
    let offset := INLINEHEADERBUFFER_SUBMSG_OFFSET session_id in
    let data := drop (Z.to_nat offset) msg in
    let data_len := usize_sub msg_len offset in
    match data !! 0%nat, data !! 1%nat, u16_from_le data 2 with
    | Some id, Some sflags, Some length =>
        if (SUBMSG_HEADER <? usize_sub data_len length)%Z then ret (NANO_RETCODE_ERROR, init, false)
        else
          let little := Flags_is_little_endian sflags in
          let* '(rc, client_repr) :=
            match SubmessageId_of_byte id with
            | SUBMSG_CREATE_CLIENT =>
                let* rc := call (CdrInitialize length little) in
                check rc (fun rc => ret (inl rc, init))
                  (let* '(rc, r) :=
                     call (DeserializeClientRepresentation (drop 4 data) length little) in
                   check rc (fun rc => ret (inl rc, r)) (ret (inr rc_passed, r)))
            | _ => ret (inr NANO_RETCODE_ERROR, init)
            end in
          match rc with
          | inl rc => ret (rc, client_repr, false)
          | inr rc =>
              let key_changed :=
                negb (ClientKey_compare client_key CLIENTKEY_INVALID =? 0)%Z
                && negb (ClientKey_compare client_key (cr_client_key client_repr) =? 0)%Z in
              if negb (Cookie_is_valid (cr_cookie client_repr)) then ret (rc, client_repr, key_changed)
              else if negb (Version_is_compatible (cr_version client_repr))
              then ret (rc, client_repr, key_changed)
              else ret (NANO_RETCODE_OK, client_repr, key_changed)
          end
    | _, _, _ => undefined
    end.

(** ** Callbacks of the session *)

Definition heartbeat_delay (hb_period_ms : Z) : Z * Z :=
  let delay_s := u32 (hb_period_ms / 1000) in
  (delay_s, u32 (u64 (hb_period_ms - u32 (1000 * delay_s)))).

(** Writing the key and the locator of a client to entry [i], and giving the
    mutex back. *)
Definition store_client_mapping (c : NANO_XRCE_ProxyClient) (i : nat) : service NANO_RetCode :=
  let* a := the_agent in
  match client_mappings (props a) with
  | None => undefined
  | Some l =>
      match l !! i with
      | None => undefined
      | Some m =>
          let store locator :=
            modify (set_agent (set_mappings
              (Some (<[i := {| cm_client_key := cl_session_key c; cm_locator := locator |}]> l))
              (client_mappings_len (props a)) a)) in
          store (cm_locator m) ;;
          let* rc := call (TransportLocatorCopy (cl_locator c)) in
          check rc (fun rc => call SemaphoreGive ;; ret rc)
            (store (cl_locator c) ;;
             call SemaphoreGive ;;
             ret NANO_RETCODE_OK)
      end
  end.

(** A new entry at the end of the array; [None] when it cannot grow, which
    leaves NULL in its place.  The new length is computed in [NANO_usize]: where it wraps the array
    shrinks and the new entry is out of it. *)
Definition new_client_mapping : service (option nat) :=
  let* a := the_agent in
  let len := client_mappings_len (props a) in
  let new_len := usize_add len 1 in
  let* ok := call (HeapReallocate new_len) in
  if negb ok then
    modify (set_agent (set_mappings None len a)) ;; ret None
  else if (new_len <=? len)%Z then undefined
  else
    let def_mapping := {| cm_client_key := CLIENTKEY_INVALID;
                          cm_locator := TransportLocator_default |} in
    let kept := take (Z.to_nat len) (default [] (client_mappings (props a))) in
    modify (set_agent (set_mappings (Some (kept ++ [def_mapping])) (to_usize new_len) a)) ;;
    ret (Some (Z.to_nat len)).

(** Storing the client's locator, under [mappings_mutex]. *)
Definition cache_client_mapping (client : Z) : service NANO_RetCode :=
  call SemaphoreTake ;;
  let* c := client_of client in
  let* '(rc, mapping) := NANO_XRCE_Agent_find_client_locator_mapping (cl_locator c) in
  check rc (fun rc => call SemaphoreGive ;; ret rc)
    (let* index :=
       match mapping with
       | Some i => ret (Some i)
       | None => new_client_mapping
       end in
     match index with
     | None => call SemaphoreGive ;; ret rc_passed
     | Some i => store_client_mapping c i
     end).

Definition NANO_XRCE_AgentInterface_on_session_opened (session client : Z)
    : service DDS_ReturnCode_t :=
  update_client client (set_dds_session session) ;;
  let* c := client_of client in
  let* rc :=
    if cl_cache_mapping c then
      update_client client (set_cache_mapping false) ;; cache_client_mapping client
    else ret NANO_RETCODE_OK in
  if negb (is_ok rc) then ret DDS_RETCODE_ERROR
  else
    call (SessionConnected client) ;;
    let* rc := NANO_XRCE_Agent_reply_to_connection client in
    if negb (is_ok rc) then ret DDS_RETCODE_ERROR
    else
      let* a := the_agent in
      let period := heartbeat_period (props a) in
      if negb (Time_is_infinite period) && negb (Time_is_zero period) then
        let* '(drc, ev) := call (AgentCreateSessionEvent session client) in
        update_client client (set_event_hb ev) ;;
        if negb (dds_ok drc) then ret DDS_RETCODE_ERROR
        else
          let '(delay_s, delay_ms) := heartbeat_delay (Time_to_millis period) in
          let* drc := call (AgentFireSessionEvent ev delay_s delay_ms) in
          if negb (dds_ok drc) then ret DDS_RETCODE_ERROR else ret DDS_RETCODE_OK
      else ret DDS_RETCODE_OK.

(** The code and [*session_data_out]. *)
Definition NANO_XRCE_AgentInterface_on_session_reset (fuel : nat) (session client : Z)
    : service (DDS_ReturnCode_t * option Z) :=
  update_client client (set_dds_session session) ;;
  NANO_XRCE_Agent_dismiss_client_fwd_data_requests fuel client None ATTACHEDRESOURCEID_INVALID ;;
  call (SessionResetState client) ;;
  let* rc := NANO_XRCE_Agent_reply_to_connection client in
  check rc (fun _ => ret (DDS_RETCODE_ERROR, None))
    (call (SessionConnected client) ;; ret (DDS_RETCODE_OK, Some client)).

Definition NANO_XRCE_Agent_dispose_client_session (fuel : nat) (client : Z) (request : option Z)
    : service NANO_RetCode :=
  let* c := client_of client in
  if cl_disposed c then ret NANO_RETCODE_OK
  else
    modify (put_client client
      (with_state (cl_dds_session c) true request (cl_event_hb c) (cl_cache_mapping c) c)) ;;
    match request with
    | Some r => let* rq := request_of r in modify (put_request r (set_reply false rq))
    | None => ret tt
    end ;;
    NANO_XRCE_Agent_dismiss_client_fwd_data_requests fuel client None ATTACHEDRESOURCEID_INVALID ;;
    ret NANO_RETCODE_OK.

Definition NANO_XRCE_Agent_delete_client_session (client : Z) : service NANO_RetCode :=
  NANO_XRCE_ProxyClient_finalize client ;;
  call (PoolReturn Pool_clients client) ;;
  ret NANO_RETCODE_OK.

Definition NANO_XRCE_AgentInterface_on_session_closed (client : Z) : service unit :=
  let* c := client_of client in
  let request := cl_dispose_request c in
  update_client client (set_dispose_request None) ;;
  let* rc :=
    match request with
    | None => ret NANO_RETCODE_OK
    | Some r =>
        let* rq := request_of r in
        modify (put_request r (set_reply true rq)) ;;
        let* rc := NANO_XRCE_Agent_reply_to_operation r NANO_RETCODE_OK in
        check rc (fun rc => NANO_XRCE_Agent_return_client_request r ;; ret rc)
          (NANO_XRCE_Agent_return_client_request r ;; ret NANO_RETCODE_OK)
    end in
  if is_ok rc then
    let* rc := NANO_XRCE_Agent_delete_client_session client in
    check rc (fun _ => ret tt) (ret tt)
  else ret tt.

Definition NANO_XRCE_AgentInterface_on_session_timed_out (fuel : nat) (client : Z) : service unit :=
  let* c := client_of client in
  let* deleted :=
    match cl_event_hb c with
    | Some ev => let* drc := call (AgentDeleteSessionEvent ev) in ret (dds_ok drc)
    | None => ret true
    end in
  if deleted then
    let* rc := NANO_XRCE_Agent_dispose_client_session fuel client None in
    check rc (fun _ => ret tt) (ret tt)
  else ret tt.

(** [*reschedule_out], [None] when it is not written. *)
Definition NANO_XRCE_Agent_on_periodic_heartbeat (client : Z) : service (option bool) :=
  let* c := client_of client in
  if cl_disposed c then ret None
  else
    let* rc := call (SessionSendHeartbeats client 0 1) in
    check rc (fun _ => ret None) (ret (Some true)).

(** ** Opening a session *)

Definition open_callback (fuel : nat) (cb : OpenCallback) : service unit :=
  match cb with
  | SessionOpened session client =>
      let* rc := NANO_XRCE_AgentInterface_on_session_opened session client in
      call (CallbackReturn rc None)
  | SessionReset session client =>
      let* '(rc, data) := NANO_XRCE_AgentInterface_on_session_reset fuel session client in
      call (CallbackReturn rc data)
  end.

Definition NANO_XRCE_Agent_process_create_client (fuel : nat) (client_key : NANO_XRCE_ClientKey)
    (session_id : Z) (msg : list Z) (msg_len : Z) (src_transport : Z)
    (src_locator : TransportLocator) (key_in_header missing_mapping : bool) : service NANO_RetCode :=
  let* '(rc, client_repr, key_changed) :=
    NANO_XRCE_Agent_deserialize_client_repr client_key session_id msg msg_len in
  let* '(rc, client) :=
    check rc (fun rc => ret (rc, None))
      (if negb (ClientRepresentation_is_valid client_repr) then ret (rc_passed, None)
       else if key_changed && key_in_header then ret (rc_passed, None)
       else
         let* a := the_agent in
         let timeout :=
           if Time_is_infinite (client_session_timeout (props a)) then None
           else Some (client_session_timeout (props a)) in
         let* buffer := call (PoolGet Pool_clients) in
         match buffer with
         | None => ret (rc_passed, None)
         | Some p =>
             let* rc := NANO_XRCE_ProxyClient_initialize p client_repr in
             if negb (is_ok rc) then ret (rc_passed, Some p)
             else
               update_client p (set_cache_mapping (missing_mapping || key_changed)) ;;
               let* rc := NANO_XRCE_ProxyClientTransport_set_bind_entry p src_transport src_locator in
               check rc (fun rc => ret (rc, Some p))
                 (let* cbs := call (AgentOpenSession (ClientKey_to_u32 (cr_client_key client_repr))
                                      (cr_session_id client_repr) timeout p) in
                  each (open_callback fuel) cbs ;;
                  let* drc := call AgentReturn in
                  if negb (dds_ok drc) then ret (rc_passed, Some p)
                  else ret (NANO_RETCODE_OK, Some p))
         end) in
  call (FinalizeClientRepresentation (Some client_repr)) ;;
  (if is_ok rc then ret tt
   else match client with
        | Some p =>
            NANO_XRCE_ProxyClient_finalize p ;; call (PoolReturn Pool_clients p)
        | None => ret tt
        end) ;;
  ret rc.
End sessions.

(** ** The mapping table *)

Section table.
Context {N : NanoClient} {NOk : NanoClientOk N}.

(** The key the table gives for a locator: that of the first entry. *)
Fixpoint mapping_index (l : list NANO_XRCE_ClientLocatorMapping) (locator : TransportLocator)
    : option nat :=
  match l with
  | [] => None
  | m :: l =>
      if (TransportLocator_compare (cm_locator m) locator =? 0)%Z then Some 0%nat
      else S <$> mapping_index l locator
  end.

Definition mapping_key (l : list NANO_XRCE_ClientLocatorMapping) (locator : TransportLocator)
    : option NANO_XRCE_ClientKey :=
  mapping_index l locator ≫= fun i => cm_client_key <$> l !! i.

Lemma mapping_key_cons m l locator :
  mapping_key (m :: l) locator =
  if (TransportLocator_compare (cm_locator m) locator =? 0)%Z then Some (cm_client_key m)
  else mapping_key l locator.
Proof.
  unfold mapping_key; cbn. destruct (_ =? 0)%Z; [done |].
  by destruct (mapping_index l locator).
Qed.

Lemma locator_eqb (a b : TransportLocator) : (TransportLocator_compare a b =? 0)%Z = true <-> a = b.
Proof. rewrite Z.eqb_eq. apply TransportLocator_compare_zero. Qed.

Lemma locator_eqb_refl (a : TransportLocator) : (TransportLocator_compare a a =? 0)%Z = true.
Proof. by apply locator_eqb. Qed.

Lemma locator_neqb (a b : TransportLocator) : a <> b -> (TransportLocator_compare a b =? 0)%Z = false.
Proof. intros H. apply not_true_iff_false. by rewrite locator_eqb. Qed.

(** Two tables that differ at most on one locator. *)
Definition maps_to (l l' : list NANO_XRCE_ClientLocatorMapping) (locator : TransportLocator)
    (key : NANO_XRCE_ClientKey) : Prop :=
  mapping_key l' locator = Some key
  /\ forall other, other <> locator -> mapping_key l' other = mapping_key l other.

Lemma maps_to_insert l i locator key :
  mapping_index l locator = Some i ->
  maps_to l (<[i := {| cm_client_key := key; cm_locator := locator |}]> l) locator key.
Proof.
  revert i; induction l as [|m l IH]; intros i; cbn [mapping_index]; [done |].
  destruct (_ =? 0)%Z eqn:Heq.
  - intros [= <-]. apply locator_eqb in Heq. cbn. split.
    + by rewrite mapping_key_cons, locator_eqb_refl.
    + intros other Hne. rewrite !mapping_key_cons; cbn. rewrite Heq.
      by rewrite locator_neqb by congruence.
  - destruct (mapping_index l locator) as [j|]; [| done]. intros [= <-].
    destruct (IH j eq_refl) as [Hk Ho]. cbn. split.
    + by rewrite mapping_key_cons, Heq.
    + intros other Hne. rewrite !mapping_key_cons, Ho by done. done.
Qed.

Lemma maps_to_app l locator key :
  mapping_index l locator = None ->
  maps_to l (l ++ [{| cm_client_key := key; cm_locator := locator |}]) locator key.
Proof.
  induction l as [|m l IH]; cbn [mapping_index app].
  - intros _. split; [by rewrite mapping_key_cons, locator_eqb_refl |].
    intros other Hne. rewrite mapping_key_cons; cbn. by rewrite locator_neqb by congruence.
  - destruct (_ =? 0)%Z eqn:Heq; [done |].
    destruct (mapping_index l locator); [done |]. intros _. destruct (IH eq_refl) as [Hk Ho].
    split; [by rewrite mapping_key_cons, Heq |].
    intros other Hne. rewrite !mapping_key_cons, Ho by done. done.
Qed.

Lemma mapping_index_lookup l locator i :
  mapping_index l locator = Some i -> is_Some (l !! i).
Proof.
  revert i; induction l as [|m l IH]; intros i; cbn; [done |].
  destruct (_ =? 0)%Z; [intros [= <-]; eauto |].
  destruct (mapping_index l locator) as [j|]; [| done]. intros [= <-]. cbn. auto.
Qed.

Lemma find_mapping_spec (E : cevent -> Prop) l locator n i s :
  n = (length l - i)%nat ->
  spec E (find_mapping (Some l) locator n i) s (fun t r s' =>
    t = [] /\ s' = s /\ r = Nat.add i <$> mapping_index (drop i l) locator).
Proof.
  revert i; induction n as [|n IH]; intros i Hn; cbn [find_mapping].
  - vstep. by rewrite drop_ge by lia.
  - destruct (l !! i) as [m|] eqn:Hm; [| apply lookup_ge_None in Hm; lia].
    cbn [mbind option_bind]. rewrite Hm. rewrite (drop_S _ _ _ Hm). cbn [mapping_index].
    vstep.
    + vstep. cbn. by rewrite Nat.add_0_r.
    + eapply spec_mono; [apply IH; lia |]. intros t r s' (-> & -> & ->). split_and!; try done.
      destruct (mapping_index _ _); cbn; f_equal. lia.
Qed.

(** The array and its length agree. *)
Definition mappings_wf (a : NANO_XRCE_Agent) : Prop :=
  client_mappings_len (props a) = Z.of_nat (length (default [] (client_mappings (props a)))).

Lemma find_client_locator_mapping_spec (E : cevent -> Prop) locator s :
  mappings_wf (agent s) ->
  spec E (NANO_XRCE_Agent_find_client_locator_mapping locator) s (fun t r s' =>
    t = [] /\ s' = s /\ fst r = NANO_RETCODE_OK
    /\ snd r = mapping_index (default [] (client_mappings (props (agent s)))) locator).
Proof.
  intros Hwf. unfold NANO_XRCE_Agent_find_client_locator_mapping. vstep. vstep. apply spec_bind.
  unfold mappings_wf in Hwf. rewrite Hwf, Nat2Z.id.
  destruct (client_mappings (props (agent s))) as [l|].
  - eapply spec_mono; [apply find_mapping_spec; cbn; lia |]. intros t r s' (-> & -> & ->).
    vstep. split_and!; try done. cbn. rewrite drop_0.
    by destruct (mapping_index l locator).
  - cbn. vgo. done.
Qed.

(** The two codes of [store_client_mapping] and the table each leaves. *)
Lemma store_client_mapping_spec (E : cevent -> Prop) c i l m s :
  client_mappings (props (agent s)) = Some l -> l !! i = Some m ->
  spec E (store_client_mapping c i) s (fun t rc s' =>
    calls t = [TransportLocatorCopy (cl_locator c); SemaphoreGive]
    /\ client_at s' = client_at s
    /\ client_mappings_len (props (agent s')) = client_mappings_len (props (agent s))
    /\ exists locator, client_mappings (props (agent s'))
         = Some (<[i := {| cm_client_key := cl_session_key c; cm_locator := locator |}]> l)
       /\ (rc = NANO_RETCODE_OK -> locator = cl_locator c)).
Proof.
  intros Hl Hm. unfold store_client_mapping. vstep. vstep. rewrite Hl, Hm.
  vgo; cbn [calls map projT1]; split_and!; try done; eexists; (split; [done |]); done.
Qed.

Lemma mappings_wf_insert a l i m :
  mappings_wf a -> client_mappings (props a) = Some l ->
  forall a', client_mappings_len (props a') = client_mappings_len (props a) ->
  client_mappings (props a') = Some (<[i := m]> l) -> mappings_wf a'.
Proof.
  unfold mappings_wf. intros Hwf Hl a' Hn Hl'. rewrite Hn, Hl', Hwf, Hl. cbn.
  by rewrite length_insert.
Qed.
End table.

(** What caching a client's locator does to the agent, besides taking the mutex
    and giving it back. *)
Definition mapping_cached {N : NanoClient} (c : NANO_XRCE_ProxyClient) (s : Service)
    (t : list cevent) (rc : NANO_RetCode) (s' : Service) : Prop :=
  let before := props (agent s) in
  let after := props (agent s') in
  (exists t', calls t = SemaphoreTake :: t' ++ [SemaphoreGive]
              /\ ~ In SemaphoreTake t' /\ ~ In SemaphoreGive t')
  /\ client_at s' = client_at s
  /\ (rc = NANO_RETCODE_OK ->
      mappings_wf (agent s')
      /\ maps_to (default [] (client_mappings before)) (default [] (client_mappings after))
           (cl_locator c) (cl_session_key c))
  /\ (rc <> NANO_RETCODE_OK ->
      mappings_wf (agent s')
      \/ (client_mappings after = None /\ client_mappings_len after = client_mappings_len before)).

(** C10: caching the locator of a client that connects takes [mappings_mutex]
    once and gives it back as its last call on every path, for a table that has room in the least
    width of its length, 16 bits.  When it succeeds the table maps the client's locator to its key and every other locator as before.
    When it fails the table is still well formed, unless growing the array
    failed: then the array is gone and its length is not reset. *)
Theorem cache_client_mapping_maps {N : NanoClient} {NOk : NanoClientOk N}
    (client : Z) (c : NANO_XRCE_ProxyClient) (s : Service)
    (Hc : client_at s !! client = Some c) (Hwf : mappings_wf (agent s))
    (Hlen : (client_mappings_len (props (agent s)) < 65535)%Z) :
  spec (fun _ => True) (cache_client_mapping client) s (mapping_cached c s).
Proof.
  unfold cache_client_mapping. do 4 vstep. vstep.
  eapply spec_mono; [by apply find_client_locator_mapping_spec |].
  intros t [rc m] s' (-> & -> & Hrc & Hm); cbn in Hrc, Hm. subst rc. cbn beta iota.
  vstep. vstep. destruct m as [i|].
  - vstep. destruct (client_mappings (props (agent s))) as [l|] eqn:Hl; [| done]. cbn in Hm.
    destruct (mapping_index_lookup l (cl_locator c) i (eq_sym Hm)) as [m Hli].
    eapply spec_mono; [by eapply store_client_mapping_spec |].
    intros t rc s' (Ht & Hcl & Hn & loc & Hl' & Hloc); cbn beta.
    assert (Hwf' : mappings_wf (agent s')) by (by eapply mappings_wf_insert).
    unfold mapping_cached. rewrite Hl, Hl'. split_and!; [| done | | by left].
    + exists [TransportLocatorCopy (cl_locator c)]. rewrite !calls_app, Ht. cbn. split_and!; [done | |]; intros [? | []]; done.
    + intros Hok. split; [done |]. rewrite (Hloc Hok). cbn. by apply maps_to_insert.
  - assert (Hn0 : (0 <= client_mappings_len (props (agent s)))%Z) by (rewrite Hwf; lia).
    unfold new_client_mapping. do 4 vstep. rewrite !usize_add_exact in * by lia.
    rewrite to_usize_small by lia. destruct r0; cbn [negb].
    + rewrite (proj2 (Z.leb_gt _ _)) by lia. vstep. vstep. vstep.
      set (l := default [] (client_mappings (props (agent s)))) in *.
      rewrite Hwf, Nat2Z.id. fold l. rewrite firstn_all.
      set (x := {| cm_client_key := CLIENTKEY_INVALID; cm_locator := TransportLocator_default |}).
      eapply spec_mono;
        [apply (store_client_mapping_spec _ c (length l) (l ++ [x]) x); [done |];
         by rewrite lookup_app_r, Nat.sub_diag by lia |].
      intros t rc s' (Ht & Hcl & Hn & loc & Hl' & Hloc); cbn beta.
      rewrite (insert_app_r_alt l [x]), Nat.sub_diag in Hl' by lia. cbn in Hl', Hn.
      assert (Hwf' : mappings_wf (agent s')).
      { unfold mappings_wf. rewrite Hn, Hl'. cbn. rewrite length_app. cbn. lia. }
      unfold mapping_cached. fold l. rewrite Hl'. split_and!; [| done | | by left].
      * eexists [_; TransportLocatorCopy (cl_locator c)].
        rewrite !calls_app, Ht. cbn. split_and!; [done | |]; intros [? | [? | []]]; done.
      * intros Hok. split; [done |]. rewrite (Hloc Hok). cbn. by apply maps_to_app.
    + vgo. unfold mapping_cached. cbn. split_and!; try done.
      * eexists [_]. cbn. split_and!; [done | |]; intros [? | []]; done.
      * intros Hok. by destruct rc_passed_failure.
      * by right.
Qed.

(** the delay of the heartbeat event splits a period of at most
    [2^32 * 1000] milliseconds, less one, into seconds and milliseconds without
    loss, although [1000 * delay_s] is computed on 32 bits and may wrap. *)
Theorem heartbeat_delay_exact (hb_period_ms : Z)
    (H : (0 <= hb_period_ms < 4294967296000)%Z) :
  let '(delay_s, delay_ms) := heartbeat_delay hb_period_ms in
  (1000 * delay_s + delay_ms = hb_period_ms)%Z
  /\ (0 <= delay_ms < 1000)%Z /\ (0 <= delay_s < 4294967296)%Z.
Proof.
  unfold heartbeat_delay.
  pose proof (Z.div_mod hb_period_ms 1000 ltac:(lia)) as Hdm.
  pose proof (Z.mod_pos_bound hb_period_ms 1000 ltac:(lia)) as Hb.
  set (q := (hb_period_ms / 1000)%Z) in *. set (r := (hb_period_ms mod 1000)%Z) in *.
  assert (Hq : (0 <= q < 4294967296)%Z) by lia. rewrite (u32_small q) by done.
  assert (E : u32 (u64 (hb_period_ms - u32 (1000 * q))) = r); [| rewrite E; lia].
  assert (Hle : (0 <= u32 (1000 * q) <= 1000 * q)%Z).
  { unfold u32. pose proof (Z.mod_pos_bound (1000 * q) 4294967296 ltac:(lia)).
    pose proof (Z.mod_le (1000 * q) 4294967296 ltac:(lia) ltac:(lia)). lia. }
  unfold u64. rewrite Z.mod_small by lia. unfold u32 in *.
  rewrite Zminus_mod_idemp_r. replace (hb_period_ms - 1000 * q)%Z with r by lia.
  apply Z.mod_small. lia.
Qed.

(** ** Closing a session *)

Section closing.
Context {N : NanoClient} {NOk : NanoClientOk N}.

(** Deleting a client returns its stream storage and then the client. *)
Definition finalize_call (c : Call) : bool :=
  match c with
  | SessionFinalize _ | SessionFinalizeStorage _ | PoolDelete _ => true
  | PoolReturn p _ => bool_decide (p = Pool_storage_stream)
  | _ => false
  end.

Lemma release_each_spec (E : cevent -> Prop) (p : Z) (l : list Z) : forall (c : NANO_XRCE_ProxyClient) (s : Service),
  client_at s !! p = Some c ->
  spec E (each (NANO_XRCE_ProxyClient_release_stream_storage p) l) s (fun t _ s' =>
    calls t = map (PoolReturn Pool_storage_stream) l
    /\ s' = put_client p (set_stream_storage (fold_left (fun l b => remove_node b l) l (cl_stream_storage c)) c) s).
Proof.
  induction l as [|b l IH]; intros c s Hc.
  - rewrite each_nil. vstep. split; [done |].
    cbn. by rewrite set_stream_storage_same, put_client_same.
  - rewrite each_cons. unfold NANO_XRCE_ProxyClient_release_stream_storage at 1. do 6 vstep.
    eapply spec_mono; [eapply IH; find_object |]. intros t [] s' [Ht ->].
    cbn [app calls map projT1 fold_left]. rewrite put_client_twice. split; [| done].
    cbn. f_equal. exact Ht.
Qed.

Lemma finalize_pools p t :
  p <> Pool_storage_stream -> only finalize_call t -> returned p t = [].
Proof.
  intros Hp. apply only_returned. intros b. cbn. by apply bool_decide_eq_false_2.
Qed.

Lemma finalize_spec (E : cevent -> Prop) (p : Z) (c : NANO_XRCE_ProxyClient) (s : Service)
    (Hc : client_at s !! p = Some c) :
  spec E (NANO_XRCE_ProxyClient_finalize p) s (fun t _ s' =>
    only finalize_call t
    /\ returned Pool_storage_stream t = cl_stream_storage c
    /\ request_at s' = request_at s /\ agent s' = agent s
    /\ exists c', client_at s' !! p = Some c').
Proof.
  unfold NANO_XRCE_ProxyClient_finalize, update_client. do 7 vstep.
  eapply spec_mono; [by apply (release_each_spec _ _ _ c) |]. intros t [] s' [Ht ->]; cbn beta.
  assert (Hq : only finalize_call t).
  { unfold only. rewrite Ht. apply Forall_forall. intros x Hx.
    by apply list_elem_of_fmap in Hx as (b & -> & _). }
  repeat vstep. split_and!; try done.
  - only_calls.
  - autorewrite with trace. cbn. by rewrite (returned_map _ _ _ Ht), app_nil_r.
  - eexists. cbn. by rewrite lookup_insert_eq.
Qed.
End closing.

(** What closing the session of a client that asked for it does. *)
Definition session_closed {N : NanoClient} (client r : Z)
    (t : list cevent) (_ : unit) (_ : Service) : Prop :=
  returned (Pool_requests client) t = [r]
  /\ (Exists status_sent t -> returned Pool_clients t = [client])
  /\ (~ Exists status_sent t -> returned Pool_clients t = []).

(** when a session is closed upon a client's request, the request goes back
    to its pool exactly once.  The client is deleted exactly when the session
    accepts the STATUS reply: if it does not, the handler stops before
    [delete_client_session] and the client never returns to its pool. *)
Theorem on_session_closed_leaks_on_failure {N : NanoClient} {NOk : NanoClientOk N}
    (client r : Z) (c : NANO_XRCE_ProxyClient) (rq : NANO_XRCE_ProxyClientRequest) (s : Service)
    (Hc : client_at s !! client = Some c) (Hr : cl_dispose_request c = Some r)
    (Hq : request_at s !! r = Some rq) (Hcl : rq_client rq = client)
    (Hm : reliable_request rq = true -> is_Some (rq_reply_mbuf rq)) :
  spec (fun _ => True) (NANO_XRCE_AgentInterface_on_session_closed client) s
    (session_closed client r).
Proof.
  unfold NANO_XRCE_AgentInterface_on_session_closed, update_client, session_closed.
  do 5 vstep. rewrite Hr. repeat vstep.
  eapply spec_mono;
    [eapply (reply_to_operation_spec _ r (set_reply true rq) (set_dispose_request None c));
     [find_object | cbn; rewrite Hcl; find_object | done] |].
  intros t1 rc s1 Hout; cbn beta.
  destruct (reply_outcome_pools (Pool_requests client) _ _ _ _ _ _ _ ltac:(done) Hout) as [_ Hp1].
  destruct (reply_outcome_pools Pool_clients _ _ _ _ _ _ _ ltac:(done) Hout) as [_ Hp2].
  destruct (reply_outcome_client _ _ _ _ _ _ _ Hout) as [c1 Hc1]. cbn in Hc1. rewrite Hcl in Hc1.
  destruct (reply_outcome_request _ _ _ _ _ _ _ Hout) as (rq1 & Hq1 & Hcl1 & _ & _).
  pose proof (reply_outcome_sent _ _ _ _ _ _ _ Hout) as Hsent. cbn in Hcl1.
  assert (Hclient : rq_client rq1 = client) by congruence.
  unfold NANO_XRCE_Agent_return_client_request, NANO_XRCE_Agent_delete_client_session.
  repeat vstep.
  - eapply spec_mono; [by eapply finalize_spec |]. intros t2 [] s2 (Ht2 & _); cbn beta.
    pose proof (finalize_pools (Pool_requests client) t2 ltac:(done) Ht2) as Hp3.
    pose proof (finalize_pools Pool_clients t2 ltac:(done) Ht2) as Hp4.
    repeat vstep. rewrite Hclient. cbn [app]. autorewrite with trace. cbn [returned_by].
    rewrite !decide_True, !decide_False, Hp1, Hp2, Hp3, Hp4 by done. split_and!; try done.
    intros Hn. destruct Hn. rewrite !Exists_app. pose proof (proj1 Hsent H). tauto.
  - rewrite Hclient. cbn [app]. rewrite ?app_nil_r. autorewrite with trace. cbn [returned_by].
    rewrite decide_True, decide_False, Hp1, Hp2 by done. split_and!; try done.
    rewrite Exists_app, Exists_cons. intros [Hs | [[] | Hs]]; [| by inversion Hs].
    by destruct (proj2 Hsent Hs).
Qed.

(** ** CREATE_CLIENT messages *)

(** What the code checks of a client representation before it answers OK, and
    the flag it computes for the caller. *)
Definition repr_accepted {N : NanoClient} (client_key : NANO_XRCE_ClientKey)
    (client_repr : NANO_XRCE_ClientRepresentation) (key_changed : bool) : Prop :=
  Cookie_is_valid (cr_cookie client_repr) = true
  /\ Version_is_compatible (cr_version client_repr) = true
  /\ (key_changed = true <-> client_key <> CLIENTKEY_INVALID /\ client_key <> cr_client_key client_repr).

(** the length of a CREATE_CLIENT submessage is checked the wrong way
    round.  A message with bytes left after the submessage is refused before
    anything is deserialized.  A message that ends up to four bytes before its
    declared length is passed on to the deserializer with that length.  A message
    is accepted only with a valid cookie and a compatible version, and then the
    flag tells whether it changes a valid key. *)
Theorem deserialize_client_repr_length {N : NanoClient} {NOk : NanoClientOk N}
    (client_key : NANO_XRCE_ClientKey) (session_id : Z) (msg : list Z) (length sflags id : Z)
    (s : Service)
    (offset := INLINEHEADERBUFFER_SUBMSG_OFFSET session_id) (data := drop (Z.to_nat offset) msg)
    (msg_len := Z.of_nat (List.length msg))
    (Hoff : (0 <= offset <= msg_len)%Z) (Hlen : (msg_len < 65536)%Z)
    (Hmin : (SessionId_header_size session_id + CREATECLIENTPAYLOAD_HEADER_SERIALIZED_SIZE_MIN
             <= msg_len)%Z)
    (Hid : data !! 0%nat = Some id) (Hflags : data !! 1%nat = Some sflags)
    (Hlength : u16_from_le data 2 = Some length) (Hdecl : (0 <= length <= msg_len - offset)%Z) :
  spec (fun _ => True)
    (NANO_XRCE_Agent_deserialize_client_repr client_key session_id msg msg_len) s
    (fun t '(rc, client_repr, key_changed) s' =>
       s' = s
       /\ ((length < msg_len - offset - SUBMSG_HEADER)%Z -> t = [] /\ rc = NANO_RETCODE_ERROR)
       /\ ((msg_len - offset - SUBMSG_HEADER <= length)%Z ->
           SubmessageId_of_byte id = SUBMSG_CREATE_CLIENT ->
           head (calls t) = Some (CdrInitialize length (Flags_is_little_endian sflags)))
       /\ (rc = NANO_RETCODE_OK -> repr_accepted client_key client_repr key_changed)).
Proof.
  unfold NANO_XRCE_Agent_deserialize_client_repr. fold offset data.
  assert (E : (msg_len <? SessionId_header_size session_id
               + CREATECLIENTPAYLOAD_HEADER_SERIALIZED_SIZE_MIN)%Z = false)
    by (apply Z.ltb_ge; lia).
  rewrite E, Hid, Hflags, Hlength, (usize_sub_exact msg_len offset) by lia.
  rewrite (usize_sub_exact _ length) by lia.
  assert (Hkey : forall k, negb (ClientKey_compare client_key CLIENTKEY_INVALID =? 0)%Z
      && negb (ClientKey_compare client_key k =? 0)%Z = true
      <-> client_key <> CLIENTKEY_INVALID /\ client_key <> k).
  { intros k. by rewrite andb_true_iff, !negb_true_iff, !Z.eqb_neq, !ClientKey_compare_zero. }
  unfold SUBMSG_HEADER, repr_accepted in *. pose proof rc_passed_failure.
  destruct (4 <? _)%Z eqn:Hl; [apply Z.ltb_lt in Hl; vstep; split_and!; try done; intros; first [by split | exfalso; lia] |].
  apply Z.ltb_ge in Hl. apply spec_bind.
  destruct (SubmessageId_of_byte id) eqn:Hs; vgo; split_and!; try done; try (intros; first [by split | exfalso; lia]);
    intros _; split_and!; try done; by apply negb_false_iff.
Qed.

(** a client that is initialized, successfully or not, and then finalized
    gives back every stream storage record it took, but never the session storage
    record, which [finalize] does not return to its pool. *)
Theorem ProxyClient_session_storage_leaks {N : NanoClient} {NOk : NanoClientOk N}
    (self : Z) (client_repr : NANO_XRCE_ClientRepresentation) (s : Service) :
  spec (fun _ => True)
    (let* rc := NANO_XRCE_ProxyClient_initialize self client_repr in
     NANO_XRCE_ProxyClient_finalize self ;; ret rc)%nano s
    (fun t rc s' =>
       returned Pool_storage_stream t = taken Pool_storage_stream t
       /\ returned Pool_storage_session t = []
       /\ (rc = NANO_RETCODE_OK -> exists st, taken Pool_storage_session t = [st])).
Proof.
  unfold NANO_XRCE_ProxyClient_initialize, NANO_XRCE_ProxyClient_allocate_stream_storage, update_client.
  pose proof rc_passed_failure.
  repeat vstep.
  all: eapply spec_mono; [eapply finalize_spec; find_object |];
    intros t2 [] s2 (Ht & Hst & _); cbn beta; vstep;
    pose proof (finalize_pools Pool_storage_session t2 ltac:(done) Ht) as Hses;
    pose proof (only_taken finalize_call Pool_storage_session t2 ltac:(done) Ht) as Hses';
    pose proof (only_taken finalize_call Pool_storage_stream t2 ltac:(done) Ht) as Hstr.
  all: split_and!; [pool_count | pool_count |]; intros ?; try congruence; eexists; pool_count.
Qed.

(** ** Disposing of a session *)

Lemma delay_reply_spec {N : NanoClient} (E : cevent -> Prop) (request : option Z) (s : Service)
    (Hr : forall r, request = Some r -> is_Some (request_at s !! r)) :
  spec E (match request with
          | Some r => bind (request_of r) (fun rq => modify (put_request r (set_reply false rq)))
          | None => ret tt
          end) s (fun t _ s' =>
    t = [] /\ client_at s' = client_at s /\ forward_at s' = forward_at s
    /\ request_at s' = match request with
                       | Some r => alter (set_reply false) r (request_at s)
                       | None => request_at s
                       end).
Proof.
  destruct request as [r|]; [| by vstep]. destruct (Hr r eq_refl) as [rq Hq]. repeat vstep.
  split_and!; try done. cbn. apply map_eq. intros k. destruct (decide (k = r)) as [-> |].
  - by rewrite lookup_insert_eq, lookup_alter_eq, Hq.
  - by rewrite lookup_insert_ne, lookup_alter_ne.
Qed.

(** What disposing of a session leaves: the client is disposed of and remembers
    the request, whose reply is delayed. *)
Definition disposed_with {N : NanoClient} (client : Z) (request : option Z)
    (s : Service) (t : list cevent) (rc : NANO_RetCode) (s' : Service) : Prop :=
  rc = NANO_RETCODE_OK
  /\ (exists c', client_at s' !! client = Some c' /\ cl_disposed c' = true
        /\ cl_dispose_request c' = request
        /\ (Exists (gave_up client) t
            \/ all_skipped None ATTACHEDRESOURCEID_INVALID s' (cl_forwards c')))
  /\ request_at s' = match request with
                     | Some r => alter (set_reply false) r (request_at s)
                     | None => request_at s
                     end.

Lemma dispose_client_spec {N : NanoClient} {NOk : NanoClientOk N}
    (client : Z) (request : option Z) (c : NANO_XRCE_ProxyClient) (s : Service) (fuel : nat)
    (Hc : client_at s !! client = Some c) (Hk : forwards_known s (cl_forwards c))
    (Hr : forall r, request = Some r -> is_Some (request_at s !! r))
    (Hfuel : (length (cl_forwards c) * S (length (cl_forwards c)) < fuel)%nat) :
  spec (session_contract client) (NANO_XRCE_Agent_dispose_client_session fuel client request) s
    (fun t rc s' =>
       (cl_disposed c = true -> t = [] /\ s' = s /\ rc = NANO_RETCODE_OK)
       /\ (cl_disposed c = false ->
           disposed_with client request s t rc s'
           /\ forall fuel' request', spec (fun _ => True)
                (NANO_XRCE_Agent_dispose_client_session fuel' client request') s'
                (fun t' rc' s'' => t' = [] /\ s'' = s' /\ rc' = NANO_RETCODE_OK))).
Proof.
  unfold NANO_XRCE_Agent_dispose_client_session at 1. vstep. vstep.
  destruct (cl_disposed c) eqn:Hd; [by vstep |]. vstep. vstep. vstep.
  set (c1 := with_state _ true request _ _ c). set (s1 := put_client client c1 s).
  eapply spec_mono; [by apply delay_reply_spec |]. intros t0 [] s2 (-> & Hc2 & Hf2 & Hq2); cbn beta.
  unfold NANO_XRCE_Agent_dismiss_client_fwd_data_requests.
  assert (Hc1 : client_at s2 !! client = Some c1) by (rewrite Hc2; unfold s1; find_object).
  vstep. vstep. vstep.
  eapply spec_mono;
    [apply (dismiss_loop_spec client None ATTACHEDRESOURCEID_INVALID fuel (cl_forwards c1) [] c1 s2) |];
    try done.
  - unfold forwards_known in *. by rewrite Hf2.
  - apply List.Forall_nil.
  - cbn. lia.
  - intros t [] s3 (Hsh & c3 & Hc3 & Hres); cbn beta. vstep. split; [done |]. intros _.
    cbn [app]. rewrite app_nil_r. destruct Hsh as (_ & Hq3 & _ & c2 & l & m & Hc2' & Hc3' & _).
    assert (c2 = c1) as -> by congruence. assert (c3 = set_stream_storage m (set_forwards l c1)) as E by congruence.
    split.
    + split; [done |]. split; [| by rewrite Hq3, Hq2].
      exists c3. split; [done |]. rewrite E at 1 2. by split_and!.
    + intros fuel' request'. unfold NANO_XRCE_Agent_dispose_client_session. vstep. vstep.
      rewrite E. cbn [cl_disposed set_stream_storage set_forwards c1 with_state]. by vstep.
Qed.

(** disposing of a session ends, marks the client, remembers the request,
    whose reply waits for the session to close, and dismisses every pending
    forward request unless the session reports that it has none.  Disposing of it
    again does nothing. *)
Theorem dispose_client_session_once {N : NanoClient} {NOk : NanoClientOk N}
    (client : Z) (request : option Z) (c : NANO_XRCE_ProxyClient) (s : Service) (fuel : nat)
    (Hc : client_at s !! client = Some c) (Hk : forwards_known s (cl_forwards c))
    (Hr : forall r, request = Some r -> is_Some (request_at s !! r))
    (Hfuel : (length (cl_forwards c) * S (length (cl_forwards c)) < fuel)%nat) :
  spec (session_contract client) (NANO_XRCE_Agent_dispose_client_session fuel client request) s
    (fun t rc s' =>
       (cl_disposed c = true -> t = [] /\ s' = s /\ rc = NANO_RETCODE_OK)
       /\ (cl_disposed c = false ->
           disposed_with client request s t rc s'
           /\ forall fuel' request', spec (fun _ => True)
                (NANO_XRCE_Agent_dispose_client_session fuel' client request') s'
                (fun t' rc' s'' => t' = [] /\ s'' = s' /\ rc' = NANO_RETCODE_OK))).
Proof. by eapply dispose_client_spec. Qed.

(** ** Witnesses *)

Lemma cache_client_mapping_maps_witness :
  spec (fun _ => True) (cache_client_mapping 7) sample_service (mapping_cached sample_client sample_service)
  /\ match snd (exec quiet_environment [] (cache_client_mapping 7 sample_service)) with
     | Returned (rc, s') => is_ok rc = true /\ client_mappings_len (props (agent s')) = 1%Z
     | _ => False
     end.
Proof.
  split; [| vm_compute; done].
  exact (cache_client_mapping_maps 7 sample_client sample_service eq_refl eq_refl eq_refl).
Defined.

Lemma heartbeat_delay_exact_witness :
  let '(delay_s, delay_ms) := heartbeat_delay 4294967295999 in
  (1000 * delay_s + delay_ms = 4294967295999)%Z
  /\ (0 <= delay_ms < 1000)%Z /\ (0 <= delay_s < 4294967296)%Z.
Proof. apply (heartbeat_delay_exact 4294967295999). lia. Defined.

(** The sample client, closing upon the request 10. *)
Definition closing_service : Service :=
  put_client 7 (set_dispose_request (Some 10%Z) sample_client) sample_service.

(** The session accepts no message. *)
Definition sending_fails : environment Resp :=
  fun past c =>
    match c return Resp c with
    | SessionSend _ _ _ _ _ => (NANO_RETCODE_OUT_OF_RESOURCES, 0%Z)
    | c => quiet_environment past c
    end.

Lemma on_session_closed_leaks_on_failure_witness :
  spec (fun _ => True) (NANO_XRCE_AgentInterface_on_session_closed 7) closing_service (session_closed 7 10)
  /\ returned Pool_clients
       (fst (exec quiet_environment [] (NANO_XRCE_AgentInterface_on_session_closed 7 closing_service))) = [7%Z]
  /\ returned Pool_clients
       (fst (exec sending_fails [] (NANO_XRCE_AgentInterface_on_session_closed 7 closing_service))) = [].
Proof.
  split; [| split; vm_compute; reflexivity].
  exact (on_session_closed_leaks_on_failure 7 10 (set_dispose_request (Some 10%Z) sample_client)
           sample_request closing_service eq_refl eq_refl eq_refl eq_refl
           (fun _ => ex_intro _ 77%Z eq_refl)).
Defined.

(** A CREATE_CLIENT submessage that declares ten bytes and has eight. *)
Definition truncated_create_client : list Z :=
  [128; 0; 0; 0;  0; 1; 10; 0;  1; 1; 0; 0; 0; 0; 0; 0]%Z.

Lemma deserialize_client_repr_length_witness :
  spec (fun _ => True)
    (NANO_XRCE_Agent_deserialize_client_repr CLIENTKEY_INVALID 128 truncated_create_client 16)
    sample_service (fun t '(rc, client_repr, key_changed) s' =>
      s' = sample_service
      /\ ((10 < 16 - 4 - SUBMSG_HEADER)%Z -> t = [] /\ rc = NANO_RETCODE_ERROR)
      /\ ((16 - 4 - SUBMSG_HEADER <= 10)%Z ->
          SubmessageId_of_byte 0 = SUBMSG_CREATE_CLIENT ->
          head (calls t) = Some (CdrInitialize 10 (Flags_is_little_endian 1)))
      /\ (rc = NANO_RETCODE_OK -> repr_accepted CLIENTKEY_INVALID client_repr key_changed))
  /\ count (fun c => match c with DeserializeClientRepresentation d 10 true => (Z.of_nat (length d) =? 8)%Z | _ => false end)
       (fst (exec quiet_environment []
          (NANO_XRCE_Agent_deserialize_client_repr CLIENTKEY_INVALID 128 truncated_create_client 16 sample_service)))
     = 1%nat.
Proof.
  split; [| vm_compute; reflexivity].
  apply (deserialize_client_repr_length CLIENTKEY_INVALID 128 truncated_create_client 10 1 0 sample_service);
    cbn; try reflexivity; lia.
Defined.

Lemma dispose_client_session_once_witness :
  exists rc s', snd (exec dismissing_environment []
                       (NANO_XRCE_Agent_dispose_client_session 3 7 (Some 10%Z) sample_service))
                = Returned (rc, s')
  /\ disposed_with 7 (Some 10%Z) sample_service
       (fst (exec dismissing_environment []
               (NANO_XRCE_Agent_dispose_client_session 3 7 (Some 10%Z) sample_service))) rc s'.
Proof.
  apply (spec_exec (session_contract 7) (NANO_XRCE_Agent_dispose_client_session 3 7 (Some 10%Z))
           sample_service (disposed_with 7 (Some 10%Z) sample_service)).
  - eapply spec_mono; [apply (dispose_client_session_once 7 (Some 10%Z) sample_client sample_service 3) |].
    + reflexivity.
    + exact sample_forwards_known.
    + intros r [= <-]. by eexists.
    + cbn. lia.
    + intros t rc s' [_ H]. exact (proj1 (H eq_refl)).
  - exact dismissing_contract.
Defined.

Lemma ProxyClient_session_storage_leaks_witness :
  exists rc s', snd (exec quiet_environment []
      ((let* rc := NANO_XRCE_ProxyClient_initialize 7 CLIENTREPRESENTATION_INITIALIZER in
        NANO_XRCE_ProxyClient_finalize 7 ;; ret rc)%nano sample_service)) = Returned (rc, s')
  /\ returned Pool_storage_session (fst (exec quiet_environment []
      ((let* rc := NANO_XRCE_ProxyClient_initialize 7 CLIENTREPRESENTATION_INITIALIZER in
        NANO_XRCE_ProxyClient_finalize 7 ;; ret rc)%nano sample_service))) = [].
Proof.
  destruct (spec_exec _ _ _ _ quiet_environment
              (ProxyClient_session_storage_leaks 7 CLIENTREPRESENTATION_INITIALIZER sample_service)
              (fun _ _ => I)) as (rc & s' & Hrun & _ & Hret & _).
  exists rc, s'. split; [exact Hrun | exact Hret].
Defined.
