(* ===== verification/Resources.v ===== *)
(** * Callbacks of the DDS agent about resources and data

    Models the callbacks of [src/service/AgentIntf.c] that the DDS agent makes
    while it serves a request: [on_resource_created], [on_resource_deleted],
    [on_resource_updated], [on_read_created], [on_read_complete],
    [on_release_read_samples] and [on_data_written].

    A request passed to the DDS agent comes back in [request_data]; the callback
    answers it.  The state of a reader lives in [reader_at]. *)

From Stdlib Require Import ZArith Lia.
From stdpp Require Import base tactics list gmap.
From S2P Require Import Prelude.
From S2P Require Import CString.
From S2P Require Import Infrastructure.
From S2P Require Import Interaction.
From S2P Require Import ServiceData.
From S2P Require Import Requests.
From S2P Require Import Forward.

Section resources.
Context {N : NanoClient}.
Local Open Scope nano_scope.

Definition READREQUEST_INITIALIZER : NANO_XRCE_ReaderState :=
  {| rs_req := None; rs_read_fmt := FORMAT_INVALID;
     rs_read_spec_dds := D2S2_READSPECIFICATION_INITIALIZER;
     rs_stream_id := STREAMID_NONE; rs_forward := false |}.

Definition return_reader (p : Z) : service unit := call (PoolReturn Pool_reads p).

(** The switch of [on_resource_created]: a new state for a reader. *)
Definition allocate_reader_state (kind : D2S2_ResourceKind) : service (NANO_RetCode * option Z) :=
  match kind with
  | RESOURCEKIND_DATAREADER =>
      let* buffer := call (PoolGet Pool_reads) in
      match buffer with
      | None => ret (NANO_RETCODE_ERROR, None)
      | Some p => modify (put_reader p READREQUEST_INITIALIZER) ;; ret (NANO_RETCODE_OK, Some p)
      end
  | _ => ret (NANO_RETCODE_OK, None)
  end.

(** The code and [*resource_data_out], [None] when it is not written or NULL. *)
Definition NANO_XRCE_AgentInterface_on_resource_created (cb : ResourceCreated)
    : service (DDS_ReturnCode_t * option Z) :=
  let* '(rc, reader_state) := allocate_reader_state (ct_kind cb) in
  let* rc :=
    if is_ok rc then
      match ct_request_data cb with
      | Some request =>
          let* rc := NANO_XRCE_Agent_reply_to_operation request NANO_RETCODE_OK in
          check rc ret (ret NANO_RETCODE_OK)
      | None => ret NANO_RETCODE_OK
      end
    else ret rc in
  if is_ok rc then ret (DDS_RETCODE_OK, reader_state)
  else
    match reader_state with
    | Some p => return_reader p
    | None => ret tt
    end ;;
    ret (DDS_RETCODE_ERROR, None).

Definition resource_created (cb : ResourceCreated) : service unit :=
  let* '(rc, data) := NANO_XRCE_AgentInterface_on_resource_created cb in
  call (CallbackReturn rc data).

Definition NANO_XRCE_AgentInterface_on_resource_deleted (cb : ResourceDeleted) : service unit :=
  match dt_kind cb with
  | RESOURCEKIND_DATAREADER =>
      match dt_resource_data cb with
      | Some reader_state => return_reader reader_state
      | None => undefined
      end
  | _ => ret tt
  end ;;
  match dt_request_data cb with
  | Some request =>
      let* rc := NANO_XRCE_Agent_reply_to_operation request NANO_RETCODE_OK in
      check rc (fun _ => ret tt) (ret tt)
  | None => ret tt
  end.

Definition NANO_XRCE_AgentInterface_on_resource_updated : service unit := ret tt.

Definition set_reader_req (req : option Z) (r : NANO_XRCE_ReaderState) : NANO_XRCE_ReaderState :=
  {| rs_req := req; rs_read_fmt := rs_read_fmt r; rs_read_spec_dds := rs_read_spec_dds r;
     rs_stream_id := rs_stream_id r; rs_forward := rs_forward r |}.

Definition set_reader_forward (b : bool) (r : NANO_XRCE_ReaderState) : NANO_XRCE_ReaderState :=
  {| rs_req := rs_req r; rs_read_fmt := rs_read_fmt r; rs_read_spec_dds := rs_read_spec_dds r;
     rs_stream_id := rs_stream_id r; rs_forward := b |}.

Definition NANO_XRCE_AgentInterface_on_read_created (cb : ReadCreated) : service DDS_ReturnCode_t :=
  let reader := rt_reader_data cb in
  let* rs := reader_of reader in
  modify (put_reader reader (set_reader_forward true rs)) ;;
  match rs_req rs with
  | None => undefined
  | Some req =>
      let* rq := request_of req in
      let* rc :=
        if rq_reply rq then
          let* rc := NANO_XRCE_Agent_reply_to_operation req NANO_RETCODE_OK in
          check rc ret (ret NANO_RETCODE_OK)
        else ret NANO_RETCODE_OK in
      if is_ok rc then ret DDS_RETCODE_OK
      else
        let* rs := reader_of reader in
        modify (put_reader reader (set_reader_req None rs)) ;;
        ret DDS_RETCODE_ERROR
  end.

Definition read_created (cb : ReadCreated) : service unit :=
  let* rc := NANO_XRCE_AgentInterface_on_read_created cb in
  call (CallbackReturn rc None).

Definition NANO_XRCE_AgentInterface_on_read_complete : service unit := ret tt.

Definition NANO_XRCE_AgentInterface_on_release_read_samples (fuel : nat) (client reader_id reader : Z)
    : service DDS_ReturnCode_t :=
  let* rs := reader_of reader in
  let* stream := NANO_XRCE_Agent_lookup_stream client (rs_stream_id rs) in
  NANO_XRCE_Agent_dismiss_client_fwd_data_requests fuel client stream reader_id ;;
  ret DDS_RETCODE_OK.

Definition set_write_req (req : option Z) (w : NANO_XRCE_WriteRequest) : NANO_XRCE_WriteRequest :=
  {| wr_req := req; wr_payload := wr_payload w; wr_data_repr := wr_data_repr w |}.

Definition NANO_XRCE_AgentInterface_on_data_written (cb : DataWritten) : service unit :=
  let write_req := wt_request_data cb in
  let* w := write_of write_req in
  match wr_req w with
  | None => undefined
  | Some req =>
      let* rq := request_of req in
      let* rc :=
        if rq_reply rq then
          let* rc := NANO_XRCE_Agent_reply_to_operation req NANO_RETCODE_OK in
          check rc ret (ret NANO_RETCODE_OK)
        else ret NANO_RETCODE_OK in
      if is_ok rc then ret tt
      else
        let* w := write_of write_req in
        modify (put_write write_req (set_write_req None w))
  end.
End resources.

(** ** The reply of a request that the DDS agent serves *)

(** Every call but those to the pools of requests. *)
Definition body_call {N : NanoClient} (c : Call) : bool :=
  match c with
  | PoolGet (Pool_requests _) | PoolReturn (Pool_requests _) _ => false
  | _ => true
  end.

Section body_calls.
Context {N : NanoClient}.

Lemma reply_call_body c : reply_call c = true -> body_call c = true.
Proof.
  intros H. destruct c; try done; match goal with p : Pool |- _ => by destruct p end.
Qed.

Lemma makes_body_reply q op : makes body_call (NANO_XRCE_Agent_reply_to_operation q op).
Proof. eapply makes_weaken; [exact reply_call_body | apply makes_reply_to_operation]. Qed.

Lemma makes_body_lookup p id : makes body_call (NANO_XRCE_Agent_lookup_stream p id).
Proof.
  eapply makes_weaken; [| apply makes_lookup_stream].
  intros c H. apply reply_call_body. by destruct c.
Qed.
End body_calls.

#[export] Hint Resolve makes_body_reply makes_body_lookup : makes.

Section callback_calls.
Context {N : NanoClient}.

Lemma makes_body_created cb : makes body_call (resource_created cb).
Proof.
  unfold resource_created, NANO_XRCE_AgentInterface_on_resource_created, allocate_reader_state,
    return_reader. service_makes.
Qed.

Lemma makes_body_deleted cb : makes body_call (NANO_XRCE_AgentInterface_on_resource_deleted cb).
Proof. unfold NANO_XRCE_AgentInterface_on_resource_deleted, return_reader. service_makes. Qed.

Lemma makes_body_written cb : makes body_call (NANO_XRCE_AgentInterface_on_data_written cb).
Proof. unfold NANO_XRCE_AgentInterface_on_data_written. service_makes. Qed.

Lemma makes_body_read cb : makes body_call (read_created cb).
Proof. unfold read_created, NANO_XRCE_AgentInterface_on_read_created. service_makes. Qed.
End callback_calls.

#[export] Hint Resolve makes_body_created makes_body_deleted makes_body_written makes_body_read : makes.

(** Steps that send no STATUS and leave the requests and the clients alone. *)
Definition quiet {N : NanoClient} (s : Service) (t : list cevent) (s' : Service) : Prop :=
  count status_call t = 0%nat /\ request_at s' = request_at s /\ client_at s' = client_at s.

(** Closes a goal about the stage once the calls that follow are run. *)
Ltac stage_done :=
  cbn [app]; autorewrite with trace; cbn [status_call];
  repeat match goal with H : quiet _ _ _ |- _ => destruct H as (? & ? & ?) end;
  repeat match goal with H : count _ _ = _ |- _ => rewrite H end;
  rewrite ?Nat.add_0_r, ?Nat.add_0_l; cbn [Nat.add]; try first [assumption | done].

Section answering.
Context {N : NanoClient} {NOk : NanoClientOk N}.
Context (r : Z) (rq0 : NANO_XRCE_ProxyClientRequest).
Context (Hmbuf : reliable_request rq0 = true -> rq_reply rq0 = true -> is_Some (rq_reply_mbuf rq0)).
Context (Hreply : rq_reply rq0 = true).

(** The request data of the callbacks of one operation: the request, at most
    once. *)
Definition request_once (l : list (option Z)) : Prop := omap id l = [] \/ omap id l = [r].

Lemma quiet_stage n s t s' :
  stage r rq0 n s -> quiet s t s' ->
  stage r rq0 n s' /\ (unanswered r rq0 s -> unanswered r rq0 s').
Proof. intros Hst (_ & Hr & Hc). apply (stage_quiet _ _ n s); auto. by rewrite Hc. Qed.

(** A callback that runs with no request, or with [r] while it is unanswered,
    keeps to the stages of [r]. *)
Definition keeps_stage {A} (E : cevent -> Prop) (data : A -> option Z) (run : A -> service unit)
    (cb : A) : Prop :=
  forall s,
  (data cb = None -> spec E (run cb) s (fun t _ s' => quiet s t s'))
  /\ (data cb = Some r -> stage r rq0 0 s -> unanswered r rq0 s ->
      spec E (run cb) s (fun t _ s' => stage r rq0 (count status_call t) s')).

Lemma callbacks_stage {A} (E : cevent -> Prop) (data : A -> option Z) (run : A -> service unit)
    (cbs : list A) (Hrun : Forall (keeps_stage E data run) cbs) : forall n s,
  stage r rq0 n s ->
  (omap id (map data cbs) = []
   \/ (omap id (map data cbs) = [r] /\ n = 0%nat /\ unanswered r rq0 s)) ->
  spec E (each run cbs) s (fun t _ s' => stage r rq0 (n + count status_call t) s').
Proof.
  induction Hrun as [|cb cbs Hcb Hrun IH]; intros n s Hst Hcbs.
  { rewrite each_nil. vstep. by rewrite Nat.add_0_r. }
  rewrite each_cons. vstep. destruct (Hcb s) as [Hnone Hsome].
  cbn [map omap list_omap] in Hcbs. destruct (data cb) as [q|] eqn:Hd; cbn [id] in Hcbs.
  - destruct Hcbs as [? | (Heq & -> & Hu)]; [done |].
    assert (q = r /\ omap id (map data cbs) = []) as [-> Hrest] by (split; congruence).
    eapply spec_mono; [by apply Hsome |]. intros t1 [] s1 Hst1; cbn beta.
    eapply spec_mono; [apply (IH (count status_call t1)); auto |]. intros t2 [] s2; cbn beta.
    by rewrite count_app.
  - eapply spec_mono; [by apply Hnone |]. intros t1 [] s1 Hq; cbn beta.
    destruct (quiet_stage n s t1 s1 Hst Hq) as [Hst1 Hu1].
    eapply spec_mono; [apply (IH n); [done |] |].
    + destruct Hcbs as [? | (Heq & Ht & Hu)]; [by left | right; auto].
    + intros t2 [] s2; cbn beta. rewrite count_app. by destruct Hq as [-> _].
Qed.

Lemma allocate_reader_state_spec (E : cevent -> Prop) kind s :
  spec E (allocate_reader_state kind) s (fun t _ s' => quiet s t s').
Proof. unfold allocate_reader_state, quiet. repeat vstep; done. Qed.

Lemma resource_created_stage (E : cevent -> Prop) cb : keeps_stage E ct_request_data resource_created cb.
Proof.
  intros s. unfold resource_created, NANO_XRCE_AgentInterface_on_resource_created, return_reader.
  split; intros Hd; [| intros Hst Hu]; rewrite Hd; vstep; vstep;
    (eapply spec_mono; [apply allocate_reader_state_spec |]); intros t1 [rc rs] s1 Hq; cbn beta iota.
  - repeat vstep; destruct Hq as (Hq1 & Hq2 & Hq3); split_and!; try done; stage_done.
  - destruct (quiet_stage 0 s t1 s1 Hst Hq) as [Hst1 Hu1]. specialize (Hu1 Hu). vstep. vstep.
    + vstep. eapply spec_mono; [by apply (reply_stage r rq0 Hmbuf E NANO_RETCODE_OK) |].
      intros t2 rc2 s2 [Hst2 _]; cbn beta. repeat vstep; stage_done.
    + repeat vstep; stage_done.
Qed.

Lemma resource_deleted_stage (E : cevent -> Prop) (cb : ResourceDeleted)
    (Hdata : dt_kind cb = RESOURCEKIND_DATAREADER -> is_Some (dt_resource_data cb)) :
  keeps_stage E dt_request_data NANO_XRCE_AgentInterface_on_resource_deleted cb.
Proof.
  intros s. unfold NANO_XRCE_AgentInterface_on_resource_deleted, return_reader.
  assert (Hfirst : spec E match dt_kind cb with
      | RESOURCEKIND_DATAREADER =>
          match dt_resource_data cb with
          | Some reader_state => call (PoolReturn Pool_reads reader_state)
          | None => undefined
          end
      | _ => ret tt
      end s (fun t _ s' => quiet s t s' /\ s' = s)).
  { unfold quiet. destruct (dt_kind cb); try (vstep; done). destruct (Hdata eq_refl) as [d ->]. by vstep. }
  split; intros Hd; [| intros Hst Hu]; rewrite Hd; vstep;
    (eapply spec_mono; [exact Hfirst |]); intros t1 [] s1 [Hq ->]; cbn beta iota.
  - vstep. destruct Hq as (Hq1 & _ & _). split_and!; try done. stage_done.
  - vstep. eapply spec_mono; [by apply (reply_stage r rq0 Hmbuf E NANO_RETCODE_OK) |].
    intros t2 rc2 s2 [Hst2 _]; cbn beta. repeat vstep; stage_done.
Qed.
(** The reply a callback sends only if the request still wants one. *)
Lemma reply_if_wanted_stage (E : cevent -> Prop) n s rq :
  stage r rq0 n s -> request_at s !! r = Some rq ->
  spec E (if rq_reply rq
          then bind (NANO_XRCE_Agent_reply_to_operation r NANO_RETCODE_OK)
                 (fun rc => check rc ret (ret NANO_RETCODE_OK))
          else ret NANO_RETCODE_OK) s (fun t _ s' =>
    stage r rq0 (n + count status_call t) s' /\ write_at s' = write_at s
    /\ reader_at s' = reader_at s).
Proof.
  intros Hst Hr. destruct (stage_request r rq0 n s Hst) as (rq' & Hr' & _ & _ & Hrep).
  assert (rq' = rq) as -> by congruence. destruct (rq_reply rq) eqn:Hrq.
  - destruct (Hrep eq_refl) as (Hrq0 & -> & Hu). vstep.
    eapply spec_mono; [by apply (reply_stage r rq0 Hmbuf E NANO_RETCODE_OK) |].
    intros t rc s' (Hst' & _ & _ & Hrd & Hw & _); cbn beta.
    vstep; vstep; split_and!; try done; stage_done.
  - vstep. by rewrite Nat.add_0_r.
Qed.

Lemma data_written_stage (E : cevent -> Prop) (w d : Z) (w0 : NANO_XRCE_WriteRequest) n s :
  stage r rq0 n s -> write_at s !! w = Some w0 -> wr_req w0 = Some r ->
  spec E (NANO_XRCE_AgentInterface_on_data_written {| wt_session_data := d; wt_request_data := w |}) s
    (fun t _ s' => stage r rq0 (n + count status_call t) s').
Proof.
  intros Hst Hw Hreq. destruct (stage_request r rq0 n s Hst) as (rq & Hr & _).
  unfold NANO_XRCE_AgentInterface_on_data_written. cbn [wt_request_data]. vstep. vstep. rewrite Hreq.
  vstep. vstep. vstep. eapply spec_mono; [by apply reply_if_wanted_stage |].
  intros t rc s' (Hst' & Hw' & _); cbn beta. vstep.
  - vstep. stage_done.
  - rewrite <- Hw' in Hw. repeat vstep. stage_done.
Qed.
End answering.
