(* ===== verification/Dispatch.v ===== *)
(** * Dispatch of submessages

    Models [NANO_XRCE_ProxyClient_on_submsg] of [src/service/ProxyClient.c] and
    the handlers of [src/service/Agent.c] it calls: CREATE
    ([on_submsg_create], [create_entity]), DELETE ([on_submsg_delete],
    [delete_entity]), WRITE_DATA ([on_submsg_write], [write_data] and the four
    handlers that are still empty), READ_DATA ([on_submsg_read]) and GET_INFO
    ([on_submsg_getinfo]).

    A call to the DDS agent that serves a request answers with the list of the
    callbacks it makes (see [Resources]); they run in order, then [AgentReturn]
    gives the code of the call. *)

From Stdlib Require Import ZArith Lia Ascii String.
From stdpp Require Import base tactics list gmap.
From S2P Require Import Prelude.
From S2P Require Import CString.
From S2P Require Import Infrastructure.
From S2P Require Import Interaction.
From S2P Require Import ServiceData.
From S2P Require Import Requests.
From S2P Require Import Forward.
From S2P Require Import Sessions.
From S2P Require Import Resources.

Section dispatch.
Context {N : NanoClient} {K : ConnextCore}.
Local Open Scope nano_scope.

(** ** CREATE *)

Definition create_repr (repr_fmt : NANO_XRCE_RepresentationFormat) (repr_ref repr_xml : option cstr)
    : bool * D2S2_ResourceRepresentation :=
  match repr_fmt with
  | REPRESENTATION_BY_REFERENCE => D2S2_ResourceRepresentation_initialize_ref repr_ref
  | REPRESENTATION_AS_XML_STRING => D2S2_ResourceRepresentation_initialize_xml repr_xml
  | _ => (false, D2S2_RESOURCEREPRESENTATION_INITIALIZER)
  end.

Definition free_repr (f : freed) : service unit :=
  match f with
  | FreedString s => call (StringFree s)
  | _ => ret tt
  end.

Definition NANO_XRCE_Agent_create_entity (request : Z) (parent_obj_id : option NANO_XRCE_ObjectId)
    (obj_kind : NANO_XRCE_ObjectKind) (obj_kind_dds : D2S2_ResourceKind)
    (parent_kind : NANO_XRCE_ObjectKind) (parent_kind_dds : D2S2_ResourceKind)
    (repr_fmt : NANO_XRCE_RepresentationFormat) (repr_ref repr_xml : option cstr)
    (domain : option Z) : service NANO_RetCode :=
  let* rq := request_of request in
  let ares_id := ObjectId_to_u16 (rq_object_id rq) in
  let* '(rc, res_repr) :=
    if negb (bool_decide (ObjectId_kind (rq_object_id rq) = obj_kind))
    then ret (NANO_RETCODE_ERROR, D2S2_RESOURCEREPRESENTATION_INITIALIZER)
    else
      let parent_id :=
        match parent_obj_id with
        | Some p => if bool_decide (ObjectId_kind p = parent_kind) then ObjectId_to_u16 p else 0%Z
        | None => 0%Z
        end in
      let '(ok, res_repr) := create_repr repr_fmt repr_ref repr_xml in
      if negb ok then ret (NANO_RETCODE_ERROR, res_repr)
      else
        let flags := sh_flags (rq_submsg_hdr rq) in
        let properties :=
          {| replace := Flags_CREATE_replace flags; reuse := Flags_CREATE_reuse flags;
             domain_id := default (domain_id D2S2_RESOURCEPROPERTIES_INITIALIZER) domain |} in
        let* c := client_of (rq_client rq) in
        let* cbs := call (AgentCreateResource (cl_dds_session c) ares_id obj_kind_dds res_repr
                            parent_id properties request) in
        each resource_created cbs ;;
        let* drc := call AgentReturn in
        ret (if dds_ok drc then NANO_RETCODE_OK else NANO_RETCODE_ERROR, res_repr) in
  free_repr (fst (D2S2_ResourceRepresentation_finalize res_repr)) ;;
  ret rc.

Definition NANO_XRCE_Agent_create_participant (r : Z) (o : ObjectRepresentation) :=
  NANO_XRCE_Agent_create_entity r None OBJK_PARTICIPANT RESOURCEKIND_DOMAINPARTICIPANT
    OBJK_INVALID RESOURCEKIND_UNKNOWN (repr_format o) (repr_value_ref o) (repr_value_xml o)
    (Some (repr_domain_id o)).

Definition NANO_XRCE_Agent_create_topic (r : Z) (o : ObjectRepresentation) :=
  NANO_XRCE_Agent_create_entity r (Some (repr_parent o)) OBJK_TOPIC RESOURCEKIND_TOPIC
    OBJK_PARTICIPANT RESOURCEKIND_DOMAINPARTICIPANT (repr_format o) (repr_value_ref o)
    (repr_value_xml o) None.

(** The reference given to the four macros that depend on
    [NANO_FEAT_ALL_BY_REF]. *)
Definition ref_if_enabled (o : ObjectRepresentation) : option cstr :=
  if NANO_FEAT_ALL_BY_REF then repr_value_ref o else None.

Definition NANO_XRCE_Agent_create_publisher (r : Z) (o : ObjectRepresentation) :=
  NANO_XRCE_Agent_create_entity r (Some (repr_parent o)) OBJK_PUBLISHER RESOURCEKIND_PUBLISHER
    OBJK_PARTICIPANT RESOURCEKIND_DOMAINPARTICIPANT (repr_format o) (ref_if_enabled o)
    (repr_value_xml o) None.

Definition NANO_XRCE_Agent_create_subscriber (r : Z) (o : ObjectRepresentation) :=
  NANO_XRCE_Agent_create_entity r (Some (repr_parent o)) OBJK_SUBSCRIBER RESOURCEKIND_SUBSCRIBER
    OBJK_PARTICIPANT RESOURCEKIND_DOMAINPARTICIPANT (repr_format o) (ref_if_enabled o)
    (repr_value_xml o) None.

Definition NANO_XRCE_Agent_create_datawriter (r : Z) (o : ObjectRepresentation) :=
  NANO_XRCE_Agent_create_entity r (Some (repr_parent o)) OBJK_DATAWRITER RESOURCEKIND_DATAWRITER
    OBJK_PUBLISHER RESOURCEKIND_PUBLISHER (repr_format o) (ref_if_enabled o)
    (repr_value_xml o) None.

Definition NANO_XRCE_Agent_create_datareader (r : Z) (o : ObjectRepresentation) :=
  NANO_XRCE_Agent_create_entity r (Some (repr_parent o)) OBJK_DATAREADER RESOURCEKIND_DATAREADER
    OBJK_SUBSCRIBER RESOURCEKIND_SUBSCRIBER (repr_format o) (ref_if_enabled o)
    (repr_value_xml o) None.

Definition NANO_XRCE_Agent_create_type (r : Z) (o : ObjectRepresentation) :=
  NANO_XRCE_Agent_create_entity r None OBJK_TYPE RESOURCEKIND_TYPE
    OBJK_INVALID RESOURCEKIND_UNKNOWN (repr_format o) (repr_value_ref o) (repr_value_xml o) None.

Definition NANO_XRCE_Agent_create_domain (r : Z) (o : ObjectRepresentation) :=
  NANO_XRCE_Agent_create_entity r None OBJK_DOMAIN RESOURCEKIND_DOMAIN
    OBJK_INVALID RESOURCEKIND_UNKNOWN (repr_format o) (repr_value_ref o) (repr_value_xml o) None.

Definition NANO_XRCE_Agent_create_qosprofile (r : Z) (o : ObjectRepresentation) :=
  NANO_XRCE_Agent_create_entity r None OBJK_QOSPROFILE RESOURCEKIND_QOSPROFILE
    OBJK_INVALID RESOURCEKIND_UNKNOWN (repr_format o) (repr_value_ref o) (repr_value_xml o) None.

Definition NANO_XRCE_Agent_create_application (r : Z) (o : ObjectRepresentation) :=
  NANO_XRCE_Agent_create_entity r None OBJK_APPLICATION RESOURCEKIND_APPLICATION
    OBJK_INVALID RESOURCEKIND_UNKNOWN (repr_format o) (repr_value_ref o) (repr_value_xml o) None.

Definition NANO_XRCE_Agent_on_submsg_create (request : Z) (submsg : NANO_XRCE_CreatePayload)
    : service NANO_RetCode :=
  let created m := let* rc := m in check rc ret (ret NANO_RETCODE_OK) in
  match cp_kind submsg with
  | OBJK_PARTICIPANT => created (NANO_XRCE_Agent_create_participant request (cp_repr submsg))
  | OBJK_TOPIC => created (NANO_XRCE_Agent_create_topic request (cp_repr submsg))
  | OBJK_PUBLISHER => created (NANO_XRCE_Agent_create_publisher request (cp_repr submsg))
  | OBJK_SUBSCRIBER => created (NANO_XRCE_Agent_create_subscriber request (cp_repr submsg))
  | OBJK_DATAWRITER => created (NANO_XRCE_Agent_create_datawriter request (cp_repr submsg))
  | OBJK_DATAREADER => created (NANO_XRCE_Agent_create_datareader request (cp_repr submsg))
  | OBJK_APPLICATION => created (NANO_XRCE_Agent_create_application request (cp_repr submsg))
  | OBJK_DOMAIN => created (NANO_XRCE_Agent_create_domain request (cp_repr submsg))
  | OBJK_QOSPROFILE => created (NANO_XRCE_Agent_create_qosprofile request (cp_repr submsg))
  | OBJK_TYPE => created (NANO_XRCE_Agent_create_type request (cp_repr submsg))
  | _ => ret NANO_RETCODE_ERROR
  end.

(** ** DELETE *)

(** The call of [D2S2_Agent_delete_resource]. *)
Definition delete_resource (request client att_resource_id : Z) : service NANO_RetCode :=
  let* c := client_of client in
  let* cbs := call (AgentDeleteResource (cl_dds_session c) att_resource_id request) in
  each NANO_XRCE_AgentInterface_on_resource_deleted cbs ;;
  let* drc := call AgentReturn in
  ret (if dds_ok drc then NANO_RETCODE_OK else NANO_RETCODE_ERROR).

Definition NANO_XRCE_Agent_delete_entity (fuel : nat) (request : Z)
    (obj_kind : NANO_XRCE_ObjectKind) : service NANO_RetCode :=
  let* rq := request_of request in
  let id_kind := ObjectId_kind (rq_object_id rq) in
  if negb (bool_decide (id_kind = obj_kind)) then ret NANO_RETCODE_ERROR
  else
    let att_resource_id := ObjectId_to_u16 (rq_object_id rq) in
    (if bool_decide (id_kind = OBJK_DATAREADER) then
       NANO_XRCE_Agent_dismiss_client_fwd_data_requests fuel (rq_client rq) None att_resource_id
     else ret tt) ;;
    delete_resource request (rq_client rq) att_resource_id.

Definition NANO_XRCE_Agent_on_submsg_delete (fuel : nat) (request : Z)
    (submsg : NANO_XRCE_BaseObjectRequest) : service NANO_RetCode :=
  let deleted kind :=
    let* rc := NANO_XRCE_Agent_delete_entity fuel request kind in
    check rc ret (ret NANO_RETCODE_OK) in
  match ObjectId_kind (br_object_id submsg) with
  | OBJK_PARTICIPANT => deleted OBJK_PARTICIPANT
  | OBJK_TOPIC => deleted OBJK_TOPIC
  | OBJK_PUBLISHER => deleted OBJK_PUBLISHER
  | OBJK_SUBSCRIBER => deleted OBJK_SUBSCRIBER
  | OBJK_DATAWRITER => deleted OBJK_DATAWRITER
  | OBJK_DATAREADER => deleted OBJK_DATAREADER
  | OBJK_APPLICATION => deleted OBJK_APPLICATION
  | OBJK_DOMAIN => deleted OBJK_DOMAIN
  | OBJK_QOSPROFILE => deleted OBJK_QOSPROFILE
  | OBJK_TYPE => deleted OBJK_TYPE
  | OBJK_CLIENT =>
      let* rq := request_of request in
      let* rc := NANO_XRCE_Agent_dispose_client_session fuel (rq_client rq) (Some request) in
      check rc ret (ret NANO_RETCODE_OK)
  | _ => ret NANO_RETCODE_ERROR
  end.

(** ** WRITE_DATA *)

Definition NANO_XRCE_Agent_write_data (write_req : Z) (data : D2S2_Buffer) : service NANO_RetCode :=
  let* w := write_of write_req in
  match wr_req w with
  | None => undefined
  | Some req =>
      let* rq := request_of req in
      let data_repr :=
        {| dr_fmt := DATAREPRESENTATIONFORMAT_XCDR;
           dr_xcdr := {| encoding := XCDRENCODINGKIND_1;
                         little_endian := Flags_is_little_endian (sh_flags (rq_submsg_hdr rq));
                         buffer := data |} |} in
      modify (put_write write_req
        {| wr_req := Some req; wr_payload := wr_payload w; wr_data_repr := data_repr |}) ;;
      let writer_id := ObjectId_to_u16 (rq_object_id rq) in
      let* c := client_of (rq_client rq) in
      let* cbs := call (AgentWrite (cl_dds_session c) writer_id data_repr write_req) in
      each NANO_XRCE_AgentInterface_on_data_written cbs ;;
      let* drc := call AgentReturn in
      ret (if dds_ok drc then NANO_RETCODE_OK else NANO_RETCODE_ERROR)
  end.

Definition NANO_XRCE_Agent_write_data_seq (write_req : Z) : service NANO_RetCode := ret NANO_RETCODE_OK.
Definition NANO_XRCE_Agent_write_sample (write_req : Z) : service NANO_RetCode := ret NANO_RETCODE_OK.
Definition NANO_XRCE_Agent_write_sample_seq (write_req : Z) : service NANO_RetCode := ret NANO_RETCODE_OK.
Definition NANO_XRCE_Agent_write_packed_samples (write_req : Z) : service NANO_RetCode :=
  ret NANO_RETCODE_OK.

(** After a handler that succeeds the request goes back. *)
Definition written (request : Z) (m : service NANO_RetCode) : service NANO_RetCode :=
  let* rc := m in
  check rc ret (NANO_XRCE_Agent_return_client_request request ;; ret NANO_RETCODE_OK).

(** The switch on the format. *)
Definition write_in_format (request write_req : Z) (submsg : NANO_XRCE_WriteDataPayload)
    : service NANO_RetCode :=
  match wp_format submsg with
  | FORMAT_DATA => written request (NANO_XRCE_Agent_write_data write_req (wp_data submsg))
  | FORMAT_SAMPLE => written request (NANO_XRCE_Agent_write_sample write_req)
  | FORMAT_DATA_SEQ => written request (NANO_XRCE_Agent_write_data_seq write_req)
  | FORMAT_SAMPLE_SEQ => written request (NANO_XRCE_Agent_write_sample_seq write_req)
  | FORMAT_PACKED_SAMPLES => written request (NANO_XRCE_Agent_write_packed_samples write_req)
  | _ => ret NANO_RETCODE_ERROR
  end.

Definition NANO_XRCE_Agent_on_submsg_write (request : Z) (submsg : NANO_XRCE_WriteDataPayload)
    : service NANO_RetCode :=
  if negb (bool_decide (ObjectId_kind (wp_object_id submsg) = OBJK_DATAWRITER))
  then ret NANO_RETCODE_ERROR
  else
    let* rq := request_of request in
    let* buffer := call (PoolGet (Pool_writes (rq_client rq))) in
    match buffer with
    | None => ret NANO_RETCODE_ERROR
    | Some w =>
        let* repr := gets (fun s => default D2S2_DATAREPRESENTATION_INITIALIZER
                                      (wr_data_repr <$> write_at s !! w)) in
        modify (put_write w {| wr_req := Some request; wr_payload := submsg; wr_data_repr := repr |}) ;;
        let* rc := write_in_format request w submsg in
        let* rq := request_of request in
        call (PoolReturn (Pool_writes (rq_client rq)) w) ;;
        ret rc
    end.

(** ** READ_DATA *)

(** The reader takes the request and the format and stream of the payload. *)
Definition start_read (request : Z) (submsg : NANO_XRCE_ReadDataPayload)
    (r : NANO_XRCE_ReaderState) : NANO_XRCE_ReaderState :=
  {| rs_req := Some request; rs_read_fmt := rp_data_format submsg;
     rs_read_spec_dds := rs_read_spec_dds r;
     rs_stream_id := rp_preferred_stream_id submsg; rs_forward := false |}.

(** The parts of the read specification the payload has; the others are kept. *)
Definition read_spec_of (submsg : NANO_XRCE_ReadDataPayload) (spec : D2S2_ReadSpecification)
    : D2S2_ReadSpecification :=
  let filter := if rp_has_content_filter_expr submsg then rp_content_filter_expr submsg
                else content_filter_expr spec in
  if rp_has_delivery_ctrl submsg then
    let ctrl := rp_delivery_ctrl submsg in
    {| max_samples := max_samples ctrl; max_elapsed_time := max_elapsed_time ctrl;
       max_bytes_per_second := max_bytes_per_second ctrl; min_pace_period := min_pace_period ctrl;
       content_filter_expr := filter |}
  else
    {| max_samples := max_samples spec; max_elapsed_time := max_elapsed_time spec;
       max_bytes_per_second := max_bytes_per_second spec; min_pace_period := min_pace_period spec;
       content_filter_expr := filter |}.

Definition set_read_spec (spec : D2S2_ReadSpecification) (r : NANO_XRCE_ReaderState)
    : NANO_XRCE_ReaderState :=
  {| rs_req := rs_req r; rs_read_fmt := rs_read_fmt r; rs_read_spec_dds := spec;
     rs_stream_id := rs_stream_id r; rs_forward := rs_forward r |}.

(** From the assignment of the reader's stream to the end. *)
Definition activate_read (fuel : nat) (client reader ares_id : Z)
    (submsg : NANO_XRCE_ReadDataPayload) : service NANO_RetCode :=
  let* stream := NANO_XRCE_Agent_lookup_stream client (rp_preferred_stream_id submsg) in
  match stream with
  | None => ret NANO_RETCODE_ERROR
  | Some st =>
      (if st_reliable st then
         NANO_XRCE_Agent_dismiss_client_fwd_data_requests fuel client (Some st) ares_id
       else ret tt) ;;
      let* rs := reader_of reader in
      let spec := read_spec_of submsg (rs_read_spec_dds rs) in
      modify (put_reader reader (set_read_spec spec rs)) ;;
      let* c := client_of client in
      let* cbs := call (AgentRead (cl_dds_session c) ares_id spec) in
      each read_created cbs ;;
      let* drc := call AgentReturn in
      ret (if dds_ok drc then NANO_RETCODE_OK else NANO_RETCODE_ERROR)
  end.

Definition NANO_XRCE_Agent_on_submsg_read (fuel : nat) (request : Z)
    (submsg : NANO_XRCE_ReadDataPayload) : service NANO_RetCode :=
  let* rq := request_of request in
  let client := rq_client rq in
  if negb (bool_decide (ObjectId_kind (rp_object_id submsg) = OBJK_DATAREADER))
  then ret NANO_RETCODE_ERROR
  else if negb (bool_decide (rp_data_format submsg = FORMAT_DATA)) then ret NANO_RETCODE_ERROR
  else
    let ares_id := ObjectId_to_u16 (rp_object_id submsg) in
    let* c := client_of client in
    let* '(drc, resource_exists, resource_data) :=
      call (AgentLookupResource (cl_dds_session c) ares_id) in
    if negb (dds_ok drc) then ret NANO_RETCODE_ERROR
    else
      match resource_exists, resource_data with
      | true, Some reader =>
          let* rs := reader_of reader in
          match rs_req rs with
          | Some old => NANO_XRCE_Agent_return_client_request old
          | None => ret tt
          end ;;
          modify (put_reader reader (start_read request submsg rs)) ;;
          activate_read fuel client reader ares_id submsg
      | _, _ => ret NANO_RETCODE_ERROR
      end.

(** ** GET_INFO *)

(** Whether the check of a liveliness assertion reports it as malformed. *)
Definition liveliness_malformed (key : NANO_XRCE_ClientKey) (submsg : NANO_XRCE_BaseObjectRequest)
    : bool :=
  let liveliness_id := ObjectId_combine {| obj0 := key2 key; obj1 := key3 key |} OBJK_CLIENT in
  negb (bool_decide (br_request_id submsg = {| req0 := key0 key; req1 := key1 key |}))
  && negb (bool_decide (br_object_id submsg = liveliness_id)).

(** The code, and for a GET_INFO of the client whether its liveliness was
    asserted; the code only logs it. *)
Definition NANO_XRCE_Agent_on_submsg_getinfo (client : Z) (submsg : NANO_XRCE_BaseObjectRequest)
    : service (NANO_RetCode * option bool) :=
  let* c := client_of client in
  match ObjectId_kind (br_object_id submsg) with
  | OBJK_CLIENT =>
      ret (NANO_RETCODE_OK, Some (negb (liveliness_malformed (cl_session_key c) submsg)))
  | _ => ret (NANO_RETCODE_OK, None)
  end.

(** ** Payloads *)

Definition NANO_XRCE_CreatePayload_finalize (self : NANO_XRCE_CreatePayload) : service unit :=
  match cp_kind self with
  | OBJK_PARTICIPANT | OBJK_TOPIC | OBJK_PUBLISHER | OBJK_SUBSCRIBER | OBJK_DATAREADER
  | OBJK_DATAWRITER | OBJK_TYPE | OBJK_DOMAIN | OBJK_QOSPROFILE | OBJK_APPLICATION =>
      match repr_format (cp_repr self) with
      | REPRESENTATION_IN_BINARY | REPRESENTATION_OTHER _ => ret tt
      | REPRESENTATION_AS_XML_STRING => call (HeapFreeString (repr_value_xml (cp_repr self)))
      | REPRESENTATION_BY_REFERENCE => call (HeapFreeString (repr_value_ref (cp_repr self)))
      end
  | _ => ret tt
  end.

Definition NANO_XRCE_ReadDataPayload_finalize (self : NANO_XRCE_ReadDataPayload) : service unit :=
  match rp_content_filter_expr self with
  | None => ret tt
  | Some e => call (HeapFreeString (Some e))
  end.

(** ** Submessages *)

(** The switch of [on_submsg]: the code and the request [done] finds. *)
Definition handle_submsg (fuel : nat) (self : Z) (msg_hdr : NANO_XRCE_MessageHeader)
    (submsg_hdr : NANO_XRCE_SubmessageHeader) (payload : list Z)
    : service (NANO_RetCode * option Z) :=
  let new := NANO_XRCE_Agent_new_client_request self msg_hdr submsg_hdr in
  let flags := sh_flags submsg_hdr in
  let failed rc := ret (rc, None) in
  match sh_id submsg_hdr with
  | SUBMSG_CREATE =>
      let* '(rc, p) := call (DeserializeCreate payload) in
      check rc failed
        (let* req := new (cp_request_id p) (cp_object_id p) true in
         match req with
         | None => NANO_XRCE_CreatePayload_finalize p ;; ret (NANO_RETCODE_TRY_AGAIN, None)
         | Some r =>
             let* rc := NANO_XRCE_Agent_on_submsg_create r p in
             check rc (fun rc => NANO_XRCE_CreatePayload_finalize p ;; ret (rc, Some r))
               (NANO_XRCE_CreatePayload_finalize p ;; ret (NANO_RETCODE_OK, Some r))
         end)
  | SUBMSG_DELETE =>
      let* '(rc, p) := call (DeserializeDelete payload) in
      check rc failed
        (let* req := new (br_request_id p) (br_object_id p) true in
         match req with
         | None => ret (NANO_RETCODE_TRY_AGAIN, None)
         | Some r =>
             let* rc := NANO_XRCE_Agent_on_submsg_delete fuel r p in
             check rc (fun rc => ret (rc, Some r)) (ret (NANO_RETCODE_OK, Some r))
         end)
  | SUBMSG_WRITE_DATA =>
      let* '(rc, p) := call (DeserializeWriteData payload (Flags_DATA_format flags)) in
      check rc failed
        (let* a := the_agent in
         let* req := new (wp_request_id p) (wp_object_id p)
                       (Flags_WRITEDATA_confirm flags || confirm_all_requests (props a)) in
         match req with
         | None => ret (NANO_RETCODE_TRY_AGAIN, None)
         | Some r =>
             let* rc := NANO_XRCE_Agent_on_submsg_write r p in
             check rc (fun rc => ret (rc, Some r)) (ret (NANO_RETCODE_OK, Some r))
         end)
  | SUBMSG_READ_DATA =>
      let* '(rc, p) := call (DeserializeReadData payload) in
      check rc failed
        (let* a := the_agent in
         let* req := new (rp_request_id p) (rp_object_id p)
                       (Flags_READDATA_confirm flags || confirm_all_requests (props a)) in
         match req with
         | None => NANO_XRCE_ReadDataPayload_finalize p ;; ret (NANO_RETCODE_TRY_AGAIN, None)
         | Some r =>
             let* rc := NANO_XRCE_Agent_on_submsg_read fuel r p in
             check rc (fun rc => NANO_XRCE_ReadDataPayload_finalize p ;; ret (rc, None))
               (NANO_XRCE_ReadDataPayload_finalize p ;; ret (NANO_RETCODE_OK, Some r))
         end)
  | SUBMSG_GET_INFO =>
      let* '(rc, p) := call (DeserializeGetInfo payload) in
      check rc failed
        (let* '(rc, _) := NANO_XRCE_Agent_on_submsg_getinfo self p in
         check rc failed (ret (NANO_RETCODE_OK, None)))
  | _ => ret (NANO_RETCODE_OK, None)
  end.

(** The condition under which [done] returns the request. *)
Definition returned_by_done (id : NANO_XRCE_SubmessageId) (rc : NANO_RetCode)
    (rq : NANO_XRCE_ProxyClientRequest) : bool :=
  (negb (is_ok rc)
   || (negb (bool_decide (id = SUBMSG_READ_DATA)) && negb (bool_decide (id = SUBMSG_WRITE_DATA))))
  && negb (bool_decide (id = SUBMSG_DELETE)
           && bool_decide (ObjectId_kind (rq_object_id rq) = OBJK_CLIENT)).

(** The code after [done]. *)
Definition settle_request (id : NANO_XRCE_SubmessageId) (rc : NANO_RetCode) (req : option Z)
    : service unit :=
  match req with
  | None => ret tt
  | Some r =>
      let* rq := request_of r in
      (if rq_reply rq then let* _ := NANO_XRCE_Agent_reply_to_operation r rc in ret tt else ret tt) ;;
      let* rq := request_of r in
      if returned_by_done id rc rq then NANO_XRCE_Agent_return_client_request r else ret tt
  end.

Definition NANO_XRCE_ProxyClient_on_submsg (fuel : nat) (self : Z)
    (msg_hdr : NANO_XRCE_MessageHeader) (submsg_hdr : NANO_XRCE_SubmessageHeader)
    (payload : list Z) : service NANO_RetCode :=
  let* rc := call (CdrInitialize (sh_length submsg_hdr)
                     (Flags_is_little_endian (sh_flags submsg_hdr))) in
  let* '(rc, req) :=
    check rc (fun rc => ret (rc, None)) (handle_submsg fuel self msg_hdr submsg_hdr payload) in
  settle_request (sh_id submsg_hdr) rc req ;;
  ret rc.
End dispatch.

(** ** What the service relies on of the DDS agent *)

(** The callbacks of an operation that serves a request hand the request back
    at most once; a deleted reader comes with its state. *)
Definition agent_contract {N : NanoClient} (e : cevent) : Prop :=
  match e with
  | existT c res =>
      match c return Resp c -> Prop with
      | AgentCreateResource _ _ _ _ _ _ r => fun cbs => request_once r (map ct_request_data cbs)
      | AgentDeleteResource _ _ r => fun cbs =>
          request_once r (map dt_request_data cbs)
          /\ Forall (fun cb => dt_kind cb = RESOURCEKIND_DATAREADER -> is_Some (dt_resource_data cb)) cbs
      | AgentWrite _ _ _ w => fun cbs =>
          cbs = [] \/ exists d, cbs = [{| wt_session_data := d; wt_request_data := w |}]
      | AgentRead _ _ _ => fun cbs => (length cbs <= 1)%nat
      | _ => fun _ => True
      end res
  end.

(** The requests of the client taken during the trace were returned in it, once
    each, and at most one STATUS was handed to the session. *)
Definition settled {N : NanoClient} (client : Z) (t : list cevent) : Prop :=
  balanced (Pool_requests client) t /\ (count status_call t <= 1)%nat.

Section calls_of_handlers.
Context {N : NanoClient} {K : ConnextCore}.

Lemma makes_body_free_repr f : makes body_call (free_repr f).
Proof. unfold free_repr. service_makes. Qed.

Lemma makes_body_create r p a b c d f e g h : makes body_call (NANO_XRCE_Agent_create_entity r p a b c d f e g h).
Proof.
  unfold NANO_XRCE_Agent_create_entity. pose proof makes_body_free_repr. destruct (create_repr _ _ _).
  service_makes.
Qed.

Lemma makes_body_submsg_create r p : makes body_call (NANO_XRCE_Agent_on_submsg_create r p).
Proof.
  unfold NANO_XRCE_Agent_on_submsg_create. destruct (cp_kind p); try apply makes_ret;
    apply makes_bind; try apply makes_body_create; intros; service_makes.
Qed.

Lemma makes_body_create_finalize p : makes body_call (NANO_XRCE_CreatePayload_finalize p).
Proof. unfold NANO_XRCE_CreatePayload_finalize. service_makes. Qed.

Lemma makes_body_write_data w d : makes body_call (NANO_XRCE_Agent_write_data w d).
Proof. unfold NANO_XRCE_Agent_write_data. service_makes. Qed.

End calls_of_handlers.

(** Calls that send nothing and touch no pool of requests. *)
Definition silent_call {N : NanoClient} (c : Call) : bool := body_call c && negb (status_call c).

Section silent.
Context {N : NanoClient}.

Lemma silent_body c : silent_call c = true -> body_call c = true.
Proof. unfold silent_call. by intros [? _]%andb_true_iff. Qed.

Lemma silent_status (t : list cevent) : only silent_call t -> count status_call t = 0%nat.
Proof.
  apply only_count. unfold silent_call. intros c [_ H]%andb_true_iff. by apply negb_true_iff.
Qed.

Lemma body_pools client t :
  only body_call t -> taken (Pool_requests client) t = [] /\ returned (Pool_requests client) t = [].
Proof.
  intros Ht. split; [by apply (only_taken body_call) | by apply (only_returned body_call)].
Qed.

Lemma stream_call_silent c : stream_call c = true -> silent_call c = true.
Proof.
  intros H. destruct c; try done; match goal with p : Pool |- _ => by destruct p end.
Qed.

Lemma makes_silent_lookup p id : makes silent_call (NANO_XRCE_Agent_lookup_stream p id).
Proof. eapply makes_weaken; [exact stream_call_silent | apply makes_lookup_stream]. Qed.
#[local] Hint Resolve makes_silent_lookup : makes.

Lemma makes_silent_callback cb : makes silent_call (send_callback cb).
Proof.
  assert (H : forall self id sn, makes silent_call (NANO_XRCE_ProxyClient_dismiss_forward_request self id sn)).
  { intros. unfold NANO_XRCE_ProxyClient_dismiss_forward_request.
    assert (forall l, makes silent_call (find_forward id sn l)) by (induction l; cbn; service_makes).
    service_makes. }
  unfold send_callback, NANO_XRCE_ProxyClient_on_send_complete, NANO_XRCE_ProxyClient_on_msg_lost.
  service_makes.
Qed.
#[local] Hint Resolve makes_silent_callback : makes.

Lemma makes_silent_dismiss fuel client st reader :
  makes silent_call (NANO_XRCE_Agent_dismiss_client_fwd_data_requests fuel client st reader).
Proof.
  unfold NANO_XRCE_Agent_dismiss_client_fwd_data_requests.
  assert (forall l, makes silent_call (dismiss_loop fuel client st reader l))
    by (induction fuel; intros; cbn [dismiss_loop]; service_makes).
  service_makes.
Qed.

Lemma makes_body_delete fuel r k : makes body_call (NANO_XRCE_Agent_delete_entity fuel r k).
Proof.
  unfold NANO_XRCE_Agent_delete_entity, delete_resource.
  assert (forall p st a, makes body_call (NANO_XRCE_Agent_dismiss_client_fwd_data_requests fuel p st a))
    by (intros; eapply makes_weaken; [exact silent_body | apply makes_silent_dismiss]).
  service_makes.
Qed.
End silent.

(** ** Requests from submessage to reply *)

Section settling.
Context {N : NanoClient} {NOk : NanoClientOk N} {K : ConnextCore}.

(** A new request starts unanswered. *)
Definition request_ready (self q : Z) (obj_id : NANO_XRCE_ObjectId) (reply : bool)
    (rq0 : NANO_XRCE_ProxyClientRequest) (s : Service) : Prop :=
  rq_client rq0 = self /\ rq_object_id rq0 = obj_id /\ rq_reply rq0 = reply
  /\ (reliable_request rq0 = true -> rq_reply rq0 = true -> is_Some (rq_reply_mbuf rq0))
  /\ stage q rq0 0 s /\ unanswered q rq0 s.

Definition request_taken (self : Z) (obj_id : NANO_XRCE_ObjectId) (reply : bool) (s : Service)
    (t : list cevent) (res : option Z) (s' : Service) : Prop :=
  count status_call t = 0%nat /\ only_storage self s s'
  /\ match res with
     | None => balanced (Pool_requests self) t
     | Some q =>
         taken (Pool_requests self) t = [q] /\ returned (Pool_requests self) t = []
         /\ exists rq0, request_ready self q obj_id reply rq0 s'
     end.

Lemma new_request_stage (E : cevent -> Prop) (self : Z) msg_hdr submsg_hdr req_id obj_id reply
    (s : Service) (c : NANO_XRCE_ProxyClient) (Hc : client_at s !! self = Some c) :
  spec E (NANO_XRCE_Agent_new_client_request self msg_hdr submsg_hdr req_id obj_id reply) s
    (request_taken self obj_id reply s).
Proof.
  eapply spec_mono;
    [apply (spec_makes E request_call); [apply spec_and |]|].
  - by eapply new_client_request_spec.
  - by eapply new_client_request_storage.
  - apply makes_new_client_request.
  - intros t res s' [[Hmade Hst] Ht]; cbn beta. split_and!; [| done |].
    + apply (only_count request_call); [| done]. by intros [].
    + destruct res as [q|]; [| done]. destruct Hmade as (H1 & H2 & m & Hq & Hm).
      split_and!; [done | done |]. destruct Hst as (_ & _ & _ & _ & c' & l & _ & Hcl).
      destruct (stage_start q _ s' Hq) as [Hst Hu];
        [cbn; rewrite Hcl, lookup_insert_eq; by eexists |].
      eexists. split_and!; [.. | exact Hst | exact Hu]; try done.
      intros Hr Hrep. apply Hm. by split.
Qed.

(** After [done] the request is back in its pool exactly when the code returns
    it there, and at most one reply was handed over. *)
Lemma settle_request_spec (E : cevent -> Prop) id rc r rq0 n s
    (Hm : reliable_request rq0 = true -> rq_reply rq0 = true -> is_Some (rq_reply_mbuf rq0)) :
  stage r rq0 n s ->
  spec E (settle_request id rc (Some r)) s (fun t _ s' =>
    (n + count status_call t <= 1)%nat
    /\ taken (Pool_requests (rq_client rq0)) t = []
    /\ returned (Pool_requests (rq_client rq0)) t = if returned_by_done id rc rq0 then [r] else []).
Proof.
  intros Hst. destruct (stage_request r rq0 n s Hst) as (rq & Hr & _ & _ & Hrep).
  unfold settle_request. vstep. vstep. vstep.
  assert (Hreply : spec E (if rq_reply rq
      then bind (NANO_XRCE_Agent_reply_to_operation r rc) (fun _ => ret tt) else ret tt) s
      (fun t _ s' => stage r rq0 (n + count status_call t) s' /\ only body_call t)).
  { destruct (rq_reply rq) eqn:Hrq.
    - destruct (Hrep eq_refl) as (Hrq0 & -> & Hu). vstep.
      eapply spec_mono;
        [by apply (spec_makes E body_call); [apply (reply_stage r rq0 Hm E rc) | apply makes_body_reply] |].
      intros t rc' s' [[Hst' _] Ht]; cbn beta. vstep. by rewrite app_nil_r.
    - vstep. rewrite Nat.add_0_r. split; [done | apply List.Forall_nil]. }
  eapply spec_mono; [exact Hreply |]. intros t [] s1 [Hst1 Ht]; cbn beta.
  destruct (stage_request r rq0 _ s1 Hst1) as (rq1 & Hr1 & Hc1 & Ho1 & _).
  destruct (body_pools (rq_client rq0) t Ht) as [Hp1 Hp2].
  assert (Hret : returned_by_done id rc rq1 = returned_by_done id rc rq0)
    by (unfold returned_by_done; by rewrite Ho1).
  pose proof (stage_most _ _ _ _ Hst1) as Hmost.
  vstep. vstep. rewrite Hret. destruct (returned_by_done id rc rq0).
  - unfold NANO_XRCE_Agent_return_client_request. repeat vstep. rewrite Hc1.
    split_and!; [autorewrite with trace; cbn [status_call]; lia | pool_count | pool_count].
  - vstep. rewrite app_nil_r. auto.
Qed.

(** The common frame of the handlers: a new request, a body that keeps to the
    stages of the request, and the code after [done]. *)
Lemma on_submsg_settles (E : cevent -> Prop) (id : NANO_XRCE_SubmessageId) (r : Z)
    (rq0 : NANO_XRCE_ProxyClientRequest) (t0 : list cevent) (rc : NANO_RetCode) (s : Service)
    (Hm : reliable_request rq0 = true -> rq_reply rq0 = true -> is_Some (rq_reply_mbuf rq0))
    (Ht : taken (Pool_requests (rq_client rq0)) t0 = [r])
    (Hr : returned (Pool_requests (rq_client rq0)) t0 = if returned_by_done id rc rq0 then [] else [r]) :
  stage r rq0 (count status_call t0) s ->
  spec E (settle_request id rc (Some r)) s (fun t _ _ => settled (rq_client rq0) (t0 ++ t)).
Proof.
  intros Hst. eapply spec_mono; [by apply settle_request_spec |].
  intros t [] s' (Hn & Htk & Hrt); cbn beta. split; [| by rewrite count_app].
  unfold balanced. rewrite taken_app, returned_app, Ht, Hr, Htk, Hrt. cbn.
  by destruct (returned_by_done id rc rq0).
Qed.

Lemma settled_quiet self t : count status_call t = 0%nat -> balanced (Pool_requests self) t -> settled self t.
Proof. intros H1 H2. split; [done | lia]. Qed.

(** Creating an entity answers the request at most once. *)
Lemma create_entity_stage (E : cevent -> Prop) (HE : forall e, E e -> agent_contract e)
    r rq0 p k kd pk pkd fm ref xml dom s
    (Hm : reliable_request rq0 = true -> rq_reply rq0 = true -> is_Some (rq_reply_mbuf rq0)) :
  rq_reply rq0 = true -> stage r rq0 0 s -> unanswered r rq0 s ->
  spec E (NANO_XRCE_Agent_create_entity r p k kd pk pkd fm ref xml dom) s
    (fun t _ s' => stage r rq0 (count status_call t) s').
Proof.
  intros Hrep Hst Hu. destruct (stage_request r rq0 0 s Hst) as (rq & Hr & Hcl & _).
  destruct Hst as [[c Hc] Hst']. rewrite <- Hcl in Hc.
  unfold NANO_XRCE_Agent_create_entity, free_repr. vstep. vstep. vstep.
  assert (Hst : stage r rq0 0 s) by (split; [rewrite <- Hcl; eauto | done]).
  destruct (negb _); [repeat vstep; stage_done |].
  destruct (create_repr fm ref xml) as [ok repr]. destruct (negb ok); [repeat vstep; stage_done |].
  do 5 vstep. apply HE in H. cbn in H.
  eapply spec_mono;
    [apply (callbacks_stage r rq0 E ct_request_data resource_created _
              ltac:(apply Forall_forall; intros; by apply (resource_created_stage r rq0 Hm Hrep)) 0 s Hst) |].
  - destruct H as [H | H]; [by left | right; auto].
  - intros t [] s' Hst1; cbn beta. repeat vstep; stage_done.
Qed.

Lemma on_submsg_create_stage (E : cevent -> Prop) (HE : forall e, E e -> agent_contract e)
    r rq0 p s
    (Hm : reliable_request rq0 = true -> rq_reply rq0 = true -> is_Some (rq_reply_mbuf rq0)) :
  rq_reply rq0 = true -> stage r rq0 0 s -> unanswered r rq0 s ->
  spec E (NANO_XRCE_Agent_on_submsg_create r p) s
    (fun t _ s' => stage r rq0 (count status_call t) s').
Proof.
  intros Hrep Hst Hu. unfold NANO_XRCE_Agent_on_submsg_create.
  destruct (cp_kind p); try (by vstep); vstep;
    (eapply spec_mono; [by apply create_entity_stage |]); intros t rc s' Hst'; cbn beta;
    vstep; vstep; stage_done.
Qed.
End settling.

Section deleting.
Context {N : NanoClient} {NOk : NanoClientOk N} {K : ConnextCore}.
Context (E : cevent -> Prop) (client : Z).
Context (HE : forall e, E e -> agent_contract e) (HS : forall e, E e -> session_contract client e).
Context (r : Z) (rq0 : NANO_XRCE_ProxyClientRequest).
Context (Hm : reliable_request rq0 = true -> rq_reply rq0 = true -> is_Some (rq_reply_mbuf rq0)).
Context (Hclient : rq_client rq0 = client) (Hrep : rq_reply rq0 = true).

Lemma dismiss_stage fuel st reader n s c :
  stage r rq0 n s -> client_at s !! client = Some c -> forwards_known s (cl_forwards c) ->
  (length (cl_forwards c) * S (length (cl_forwards c)) < fuel)%nat ->
  spec E (NANO_XRCE_Agent_dismiss_client_fwd_data_requests fuel client st reader) s
    (fun t _ s' => only silent_call t /\ stage r rq0 n s'
       /\ (unanswered r rq0 s -> unanswered r rq0 s') /\ reader_at s' = reader_at s).
Proof.
  intros Hst Hc Hk Hfuel.
  eapply spec_mono; [apply (spec_makes E silent_call); [| apply makes_silent_dismiss]|].
  - eapply spec_strengthen; [exact HS | by eapply dismiss_client_spec].
  - intros t [] s' [(Hsh & c' & Hc' & _) Ht]; cbn beta. split; [done |].
    destruct Hsh as (_ & Hr & Hrd & _). 
    destruct (stage_quiet r rq0 n s s' Hst Hr) as [Hst' Hu'];
      [intros _; rewrite Hclient, Hc'; by eexists | by split_and!].
Qed.

Lemma delete_resource_stage a s :
  stage r rq0 0 s -> unanswered r rq0 s ->
  spec E (delete_resource r client a) s (fun t _ s' => stage r rq0 (count status_call t) s').
Proof.
  intros Hst Hu. pose proof Hst as [[c Hc] _]. rewrite Hclient in Hc.
  unfold delete_resource. do 5 vstep. apply HE in H. cbn in H. destruct H as [Honce Hdata].
  eapply spec_mono; [apply (callbacks_stage r rq0 E dt_request_data) with (n := 0%nat); [| done |] |].
  - eapply Forall_impl; [exact Hdata |]. intros cb Hcb. by apply resource_deleted_stage.
  - destruct Honce as [H | H]; [by left | right; auto].
  - intros t [] s2 Hst2; cbn beta. repeat vstep; stage_done.
Qed.

Lemma delete_entity_stage fuel k s c :
  stage r rq0 0 s -> unanswered r rq0 s ->
  client_at s !! client = Some c -> forwards_known s (cl_forwards c) ->
  (length (cl_forwards c) * S (length (cl_forwards c)) < fuel)%nat ->
  spec E (NANO_XRCE_Agent_delete_entity fuel r k) s (fun t _ s' => stage r rq0 (count status_call t) s').
Proof.
  intros Hst Hu Hc Hk Hfuel. destruct (stage_request r rq0 0 s Hst) as (rq & Hr & Hcl & _).
  unfold NANO_XRCE_Agent_delete_entity. vstep. vstep. rewrite Hcl, Hclient.
  destruct (negb _); [by vstep |]. vstep. destruct (bool_decide _).
  - eapply spec_mono; [by eapply (dismiss_stage _ _ _ 0) |].
    intros t [] s1 (Ht & Hst1 & Hu1 & _); cbn beta.
    eapply spec_mono; [apply delete_resource_stage; auto |]. intros t2 rc s2 Hst2; cbn beta.
    cbn [app]. by rewrite count_app, (silent_status t Ht).
  - vstep. by apply delete_resource_stage.
Qed.

Lemma on_submsg_delete_stage fuel p s c :
  ObjectId_kind (br_object_id p) <> OBJK_CLIENT ->
  stage r rq0 0 s -> unanswered r rq0 s ->
  client_at s !! client = Some c -> forwards_known s (cl_forwards c) ->
  (length (cl_forwards c) * S (length (cl_forwards c)) < fuel)%nat ->
  spec E (NANO_XRCE_Agent_on_submsg_delete fuel r p) s
    (fun t _ s' => stage r rq0 (count status_call t) s').
Proof.
  intros Hkind Hst Hu Hc Hk Hfuel. unfold NANO_XRCE_Agent_on_submsg_delete.
  destruct (ObjectId_kind (br_object_id p)); try done; try (by vstep); vstep;
    (eapply spec_mono; [by eapply delete_entity_stage |]); intros t rc s' Hst'; cbn beta;
    vstep; vstep; stage_done.
Qed.

Lemma makes_body_submsg_delete fuel p :
  ObjectId_kind (br_object_id p) <> OBJK_CLIENT ->
  makes body_call (NANO_XRCE_Agent_on_submsg_delete fuel r p).
Proof.
  intros Hkind. unfold NANO_XRCE_Agent_on_submsg_delete.
  destruct (ObjectId_kind (br_object_id p)); try done; try apply makes_ret;
    apply makes_bind; try apply makes_body_delete; intros; service_makes.
Qed.
End deleting.

Section writing.
Context {N : NanoClient} {NOk : NanoClientOk N} {K : ConnextCore}.
Context (E : cevent -> Prop) (HE : forall e, E e -> agent_contract e).
Context (r : Z) (rq0 : NANO_XRCE_ProxyClientRequest).
Context (Hm : reliable_request rq0 = true -> rq_reply rq0 = true -> is_Some (rq_reply_mbuf rq0)).

Lemma write_data_stage w w0 d s :
  stage r rq0 0 s -> write_at s !! w = Some w0 -> wr_req w0 = Some r ->
  spec E (NANO_XRCE_Agent_write_data w d) s (fun t _ s' => stage r rq0 (count status_call t) s').
Proof.
  intros Hst Hw Hreq. destruct (stage_request r rq0 0 s Hst) as (rq & Hr & Hcl & _).
  pose proof Hst as [[c Hc] _]. rewrite <- Hcl in Hc.
  unfold NANO_XRCE_Agent_write_data. vstep. vstep. rewrite Hreq. do 8 vstep. apply HE in H. cbn in H.
  set (s1 := put_write w _ s). assert (Hst1 : stage r rq0 0 s1) by exact Hst.
  assert (Hcbs : spec E (each NANO_XRCE_AgentInterface_on_data_written r0) s1
            (fun t _ s' => stage r rq0 (count status_call t) s')).
  { destruct H as [-> | [y ->]]; [rewrite each_nil; by vstep |]. rewrite each_cons, each_nil. vstep.
    eapply spec_mono; [eapply (data_written_stage r rq0 Hm E w y _ 0 s1);
        [done | unfold s1; cbn; by rewrite lookup_insert_eq | done] |].
    intros t [] s2 Hst2; cbn beta. vstep. by rewrite app_nil_r. }
  vstep. eapply spec_mono; [exact Hcbs |]. intros t [] s2 Hst2; cbn beta. repeat vstep; stage_done.
Qed.

(** The request of a WRITE_DATA goes back to its pool in the handler exactly
    when it reports success. *)
Definition write_handled (t : list cevent) (rc : NANO_RetCode) (s' : Service) : Prop :=
  stage r rq0 (count status_call t) s'
  /\ taken (Pool_requests (rq_client rq0)) t = []
  /\ returned (Pool_requests (rq_client rq0)) t = if is_ok rc then [r] else [].

Lemma written_spec (m : service NANO_RetCode) s :
  makes body_call m -> spec E m s (fun t _ s' => stage r rq0 (count status_call t) s') ->
  spec E (written r m) s write_handled.
Proof.
  intros Hmake Hspec. unfold written. vstep.
  eapply spec_mono; [by apply (spec_makes E body_call) |]. intros t rc s' [Hst' Ht]; cbn beta.
  destruct (body_pools (rq_client rq0) t Ht) as [H1 H2]. unfold write_handled.
  destruct (stage_request r rq0 _ s' Hst') as (rq & Hr & Hcl & _).
  unfold NANO_XRCE_Agent_return_client_request.
  repeat vstep; rewrite ?Hcl, ?is_ok_false by done; split_and!; try (by stage_done); pool_count.
Qed.

Lemma write_in_format_spec w w0 p s :
  stage r rq0 0 s -> write_at s !! w = Some w0 -> wr_req w0 = Some r ->
  spec E (write_in_format r w p) s write_handled.
Proof.
  intros Hst Hw Hreq. unfold write_in_format, NANO_XRCE_Agent_write_sample,
    NANO_XRCE_Agent_write_data_seq, NANO_XRCE_Agent_write_sample_seq,
    NANO_XRCE_Agent_write_packed_samples.
  destruct (wp_format p);
    try (apply written_spec; [apply makes_ret || apply makes_body_write_data |]);
    try (by vstep); by eapply write_data_stage.
Qed.

Lemma on_submsg_write_spec p s :
  stage r rq0 0 s -> spec E (NANO_XRCE_Agent_on_submsg_write r p) s write_handled.
Proof.
  intros Hst. destruct (stage_request r rq0 0 s Hst) as (rq & Hr & Hcl & _).
  unfold NANO_XRCE_Agent_on_submsg_write. destruct (negb _); [by vstep |]. do 5 vstep; [| by vstep].
  vstep. vstep. vstep. vstep. vstep.
  eapply spec_mono; [eapply (write_in_format_spec z); [exact Hst | cbn; by rewrite lookup_insert_eq | done] |].
  intros t rc s' (Hst' & Ht & Hrt); cbn beta.
  destruct (stage_request r rq0 _ s' Hst') as (rq' & Hr' & _).
  repeat vstep. unfold write_handled. split_and!; [stage_done | pool_count | pool_count].
Qed.
End writing.

Section frames.
Context {N : NanoClient} {NOk : NanoClientOk N} {K : ConnextCore}.

(** What a handler leaves for the code after [done]: no request, its own having
    gone back, or one that [done] settles. *)
Definition handled (self : Z) (id : NANO_XRCE_SubmessageId) (t : list cevent)
    (res : NANO_RetCode * option Z) (s' : Service) : Prop :=
  match snd res with
  | None => count status_call t = 0%nat /\ balanced (Pool_requests self) t
  | Some r => exists rq0,
      rq_client rq0 = self
      /\ (reliable_request rq0 = true -> rq_reply rq0 = true -> is_Some (rq_reply_mbuf rq0))
      /\ stage r rq0 (count status_call t) s'
      /\ taken (Pool_requests self) t = [r]
      /\ returned (Pool_requests self) t
         = if returned_by_done id (fst res) rq0 then [] else [r]
  end.

Lemma on_submsg_frame (E : cevent -> Prop) fuel self msg_hdr submsg_hdr payload s :
  spec E (handle_submsg fuel self msg_hdr submsg_hdr payload) s (handled self (sh_id submsg_hdr)) ->
  spec E (NANO_XRCE_ProxyClient_on_submsg fuel self msg_hdr submsg_hdr payload) s
    (fun t _ _ => settled self t).
Proof.
  intros Hh. unfold NANO_XRCE_ProxyClient_on_submsg. vstep. vstep. vstep. vstep.
  - eapply spec_mono; [exact Hh |]. intros t1 [rc [q|]] s1 H1; cbn beta iota; vstep.
    + destruct H1 as (rq0 & <- & Hm & Hst & Ht & Hr).
      eapply spec_mono; [by apply (on_submsg_settles E (sh_id submsg_hdr) q rq0 t1 rc) |].
      intros t2 [] s2 [Hb Hn]; cbn beta. vstep. rewrite app_nil_r. split.
      * unfold balanced in *. autorewrite with trace. cbn [taken_by returned_by app].
        by autorewrite with trace in Hb.
      * autorewrite with trace in *. exact Hn.
    + destruct H1 as [Hn Hb]. unfold settle_request. repeat vstep. rewrite !app_nil_r.
      apply settled_quiet; [by stage_done |]. exact Hb.
  - unfold settle_request. repeat vstep. apply settled_quiet; [done |]. by pool_balance.
Qed.

(** The books of a trace of silent calls. *)
Lemma silent_books self t : only silent_call t ->
  count status_call t = 0%nat /\ taken (Pool_requests self) t = []
  /\ returned (Pool_requests self) t = [].
Proof.
  intros Ht. split; [by apply silent_status |]. apply body_pools.
  eapply only_weaken; [apply silent_body | done].
Qed.

Lemma returned_by_done_always id rc rq0 :
  id <> SUBMSG_READ_DATA -> id <> SUBMSG_WRITE_DATA ->
  (id = SUBMSG_DELETE -> ObjectId_kind (rq_object_id rq0) <> OBJK_CLIENT) ->
  returned_by_done id rc rq0 = true.
Proof.
  intros H1 H2 H3. unfold returned_by_done. rewrite (bool_decide_eq_false_2 (id = SUBMSG_READ_DATA)) by done.
  rewrite (bool_decide_eq_false_2 (id = SUBMSG_WRITE_DATA)) by done. cbn. rewrite orb_true_r. cbn.
  apply negb_true_iff, andb_false_iff. destruct (decide (id = SUBMSG_DELETE)) as [-> |].
  - right. apply bool_decide_eq_false_2. auto.
  - left. by apply bool_decide_eq_false_2.
Qed.

Lemma makes_silent_create_finalize p : makes silent_call (NANO_XRCE_CreatePayload_finalize p).
Proof. unfold NANO_XRCE_CreatePayload_finalize. service_makes. Qed.

Lemma create_finalize_spec (E : cevent -> Prop) p s :
  spec E (NANO_XRCE_CreatePayload_finalize p) s (fun t _ s' => s' = s /\ only silent_call t).
Proof.
  apply spec_makes; [| apply makes_silent_create_finalize].
  unfold NANO_XRCE_CreatePayload_finalize. repeat vstep.
Qed.

(** Closes [handled] for a request that was taken, from what is known of the
    parts of the trace. *)
Ltac settle_books rq0 :=
  exists rq0; split_and!; [done | done | by stage_done | by pool_count |];
  cbn [fst]; try (rewrite returned_by_done_always by done); by pool_count.

Lemma handle_create (E : cevent -> Prop) (HE : forall e, E e -> agent_contract e)
    fuel self msg_hdr submsg_hdr payload s c (Hid : sh_id submsg_hdr = SUBMSG_CREATE)
    (Hc : client_at s !! self = Some c) :
  spec E (handle_submsg fuel self msg_hdr submsg_hdr payload) s (handled self (sh_id submsg_hdr)).
Proof.
  unfold handle_submsg. rewrite Hid. vstep. vstep. destruct r as [rc p]. vstep.
  2: { vstep. split; [done |]. by pool_balance. }
  vstep. eapply spec_mono; [by apply (new_request_stage E self) with (c := c) |].
  intros t0 [q|] s0 (Hn0 & Hst0 & Hres); cbn beta iota.
  - destruct Hres as (Ht0 & Hr0 & rq0 & Hcl & _ & Hrep & Hm & Hst & Hu).
    vstep. eapply spec_mono;
      [apply (spec_makes E body_call); [by apply on_submsg_create_stage | apply makes_body_submsg_create] |].
    intros t1 rc1 s1 [Hst1 Ht1]; cbn beta.
    destruct (body_pools self t1 Ht1) as [Htk1 Hrt1].
    vstep; vstep; (eapply spec_mono; [apply create_finalize_spec |]); intros t2 [] s2 [-> Ht2];
      cbn beta; vstep; destruct (silent_books self t2 Ht2) as (Hn2 & Htk2 & Hrt2); settle_books rq0.
  - vstep. eapply spec_mono; [apply create_finalize_spec |]. intros t2 [] s2 [-> Ht2]; cbn beta. vstep.
    destruct (silent_books self t2 Ht2) as (Hn2 & Htk2 & Hrt2).
    split; [by stage_done |]. unfold balanced in *. pool_count.
Qed.

Lemma handle_delete (E : cevent -> Prop) (HE : forall e, E e -> agent_contract e)
    fuel self msg_hdr submsg_hdr payload s c (HS : forall e, E e -> session_contract self e)
    (Hid : sh_id submsg_hdr = SUBMSG_DELETE)
    (Hp : forall p rc, E (existT (DeserializeDelete payload) (rc, p)) ->
          ObjectId_kind (br_object_id p) <> OBJK_CLIENT)
    (Hc : client_at s !! self = Some c) (Hk : forwards_known s (cl_forwards c))
    (Hfuel : (length (cl_forwards c) * S (length (cl_forwards c)) < fuel)%nat) :
  spec E (handle_submsg fuel self msg_hdr submsg_hdr payload) s (handled self (sh_id submsg_hdr)).
Proof.
  unfold handle_submsg. rewrite Hid. vstep. vstep. destruct r as [rc p].
  match goal with He : E _ |- _ => specialize (Hp _ _ He) end. vstep.
  2: { vstep. split; [done |]. by pool_balance. }
  vstep. eapply spec_mono; [by apply (new_request_stage E self) with (c := c) |].
  intros t0 [q|] s0 (Hn0 & Hst0 & Hres); cbn beta iota.
  - destruct Hres as (Ht0 & Hr0 & rq0 & Hcl & Hobj & Hrep & Hm & Hst & Hu).
    destruct Hst0 as (_ & Hf & _ & _ & c' & l & Hc' & Hcs). replace c' with c in * by congruence.
    vstep. eapply spec_mono;
      [apply (spec_makes E body_call);
         [eapply (on_submsg_delete_stage E self HE HS q rq0 Hm Hcl Hrep fuel p s0 (set_stream_storage l c)) |
          by apply makes_body_submsg_delete] |]; try done.
    { by rewrite Hcs, lookup_insert_eq. }
    { unfold forwards_known in *. by rewrite Hf. }
    intros t1 rc1 s1 [Hst1 Ht1]; cbn beta.
    destruct (body_pools self t1 Ht1) as [Htk1 Hrt1].
    assert (Hkind : ObjectId_kind (rq_object_id rq0) <> OBJK_CLIENT) by (by rewrite Hobj).
    vstep; vstep; settle_books rq0.
  - vstep. split; [by stage_done |]. unfold balanced in *. pool_count.
Qed.

Lemma handle_write (E : cevent -> Prop) (HE : forall e, E e -> agent_contract e)
    fuel self msg_hdr submsg_hdr payload s c (Hid : sh_id submsg_hdr = SUBMSG_WRITE_DATA)
    (Hc : client_at s !! self = Some c) :
  spec E (handle_submsg fuel self msg_hdr submsg_hdr payload) s (handled self (sh_id submsg_hdr)).
Proof.
  unfold handle_submsg. rewrite Hid. vstep. vstep. destruct r as [rc p]. vstep.
  2: { vstep. split; [done |]. by pool_balance. }
  vstep. vstep. vstep. eapply spec_mono; [by apply (new_request_stage E self) with (c := c) |].
  intros t0 [q|] s0 (Hn0 & Hst0 & Hres); cbn beta iota.
  - destruct Hres as (Ht0 & Hr0 & rq0 & Hcl & _ & Hrep & Hm & Hst & Hu).
    vstep. eapply spec_mono; [by apply (on_submsg_write_spec E HE q rq0 Hm) |].
    intros t1 rc1 s1 (Hst1 & Htk1 & Hrt1); cbn beta. rewrite Hcl in Htk1, Hrt1.
    vstep; vstep.
    + rewrite is_ok_true in Hrt1 by done. settle_books rq0.
    + rewrite is_ok_false in Hrt1 by done. exists rq0. unfold returned_by_done.
      cbn [fst]. rewrite is_ok_false by done. split_and!; [done | done | by stage_done | by pool_count |].
      rewrite bool_decide_eq_false_2 with (P := SUBMSG_WRITE_DATA = SUBMSG_DELETE) by done. by pool_count.
  - vstep. split; [by stage_done |]. unfold balanced in *. pool_count.
Qed.
End frames.

(** ** Properties *)

(** C1: a CREATE submessage settles its request.  Whatever fails, every request
    taken for it is back in its pool at the end, returned once, and the client
    gets at most one STATUS: when the resource is created the callback of the DDS
    agent answers and [on_submsg] does not answer again. *)
Theorem on_submsg_create_settles {N : NanoClient} {NOk : NanoClientOk N} {K : ConnextCore}
    (fuel : nat) (self : Z) (msg_hdr : NANO_XRCE_MessageHeader)
    (submsg_hdr : NANO_XRCE_SubmessageHeader) (payload : list Z) (s : Service)
    (c : NANO_XRCE_ProxyClient) (Hid : sh_id submsg_hdr = SUBMSG_CREATE)
    (Hc : client_at s !! self = Some c) :
  spec agent_contract
    (NANO_XRCE_ProxyClient_on_submsg fuel self msg_hdr submsg_hdr payload) s
    (fun t _ _ => settled self t).
Proof. apply on_submsg_frame. by eapply handle_create. Qed.

(** The DELETE submessages received are for objects whose kind satisfies [P]. *)
Definition deletes {N : NanoClient} (P : NANO_XRCE_ObjectKind -> Prop) (e : cevent) : Prop :=
  match e with
  | existT c res =>
      match c return Resp c -> Prop with
      | DeserializeDelete _ => fun res => P (ObjectId_kind (br_object_id (snd res)))
      | _ => fun _ => True
      end res
  end.

(** C2: a DELETE of anything but the client settles its request as a CREATE
    does, including that of a DataReader, whose pending forward requests are
    dismissed first. *)
Theorem on_submsg_delete_settles {N : NanoClient} {NOk : NanoClientOk N} {K : ConnextCore}
    (fuel : nat) (self : Z) (msg_hdr : NANO_XRCE_MessageHeader)
    (submsg_hdr : NANO_XRCE_SubmessageHeader) (payload : list Z) (s : Service)
    (c : NANO_XRCE_ProxyClient) (Hid : sh_id submsg_hdr = SUBMSG_DELETE)
    (Hc : client_at s !! self = Some c) (Hk : forwards_known s (cl_forwards c))
    (Hfuel : (length (cl_forwards c) * S (length (cl_forwards c)) < fuel)%nat) :
  spec (fun e => agent_contract e /\ session_contract self e /\ deletes (fun k => k <> OBJK_CLIENT) e)
    (NANO_XRCE_ProxyClient_on_submsg fuel self msg_hdr submsg_hdr payload) s
    (fun t _ _ => settled self t).
Proof.
  apply on_submsg_frame. eapply handle_delete; try done; [tauto | tauto |].
  by intros p rc (_ & _ & H).
Qed.

(** C3: a WRITE_DATA settles its request as a CREATE does: the request goes back
    in [on_submsg_write] when the write succeeds and in [on_submsg] when it does
    not. *)
Theorem on_submsg_write_settles {N : NanoClient} {NOk : NanoClientOk N} {K : ConnextCore}
    (fuel : nat) (self : Z) (msg_hdr : NANO_XRCE_MessageHeader)
    (submsg_hdr : NANO_XRCE_SubmessageHeader) (payload : list Z) (s : Service)
    (c : NANO_XRCE_ProxyClient) (Hid : sh_id submsg_hdr = SUBMSG_WRITE_DATA)
    (Hc : client_at s !! self = Some c) :
  spec agent_contract
    (NANO_XRCE_ProxyClient_on_submsg fuel self msg_hdr submsg_hdr payload) s
    (fun t _ _ => settled self t).
Proof. apply on_submsg_frame. by eapply handle_write. Qed.

(** ** Creating an entity *)

(** What the DDS agent is asked for. *)
Definition create_args {N : NanoClient} (c : Call)
    : option (Z * D2S2_ResourceKind * D2S2_ResourceRepresentation * Z * D2S2_ResourceProperties) :=
  match c with
  | AgentCreateResource _ id kind repr parent p _ => Some (id, kind, repr, parent, p)
  | _ => None
  end.

Definition not_create {N : NanoClient} (c : Call) : bool :=
  match c with AgentCreateResource _ _ _ _ _ _ _ => false | _ => true end.

Lemma only_not_create {N : NanoClient} (t : list cevent) :
  only not_create t -> omap create_args (calls t) = [].
Proof.
  unfold only. intros H. induction H as [|c l Hc Hl IH]; [done |]. cbn [omap list_omap].
  by destruct c.
Qed.

Lemma makes_not_create_created {N : NanoClient} cb : makes not_create (resource_created cb).
Proof.
  unfold resource_created, NANO_XRCE_AgentInterface_on_resource_created, allocate_reader_state, return_reader.
  assert (forall q op, makes not_create (NANO_XRCE_Agent_reply_to_operation q op)).
  { intros. apply (makes_weaken reply_call); [by intros [] | apply makes_reply_to_operation]. }
  service_makes.
Qed.

(** The arguments of the one request made to the DDS agent, if any. *)
Definition create_request {N : NanoClient} {K : ConnextCore} (rq : NANO_XRCE_ProxyClientRequest)
    (parent : option NANO_XRCE_ObjectId) (kind : NANO_XRCE_ObjectKind) (kind_dds : D2S2_ResourceKind)
    (parent_kind : NANO_XRCE_ObjectKind) (fm : NANO_XRCE_RepresentationFormat)
    (ref xml : option cstr) (dom : option Z)
    : list (Z * D2S2_ResourceKind * D2S2_ResourceRepresentation * Z * D2S2_ResourceProperties) :=
  if decide (ObjectId_kind (rq_object_id rq) = kind /\ fst (create_repr fm ref xml) = true) then
    [(ObjectId_to_u16 (rq_object_id rq), kind_dds, snd (create_repr fm ref xml),
      match parent with
      | Some p => if decide (ObjectId_kind p = parent_kind) then ObjectId_to_u16 p else 0%Z
      | None => 0%Z
      end,
      {| replace := Flags_CREATE_replace (sh_flags (rq_submsg_hdr rq));
         reuse := Flags_CREATE_reuse (sh_flags (rq_submsg_hdr rq));
         domain_id := default 0%Z dom |})]
  else [].

(** [create_entity] asks the DDS agent for one resource exactly when the
    kind of the object id is the expected one and the representation, by reference
    or in XML, could be copied.  The identifier, the flags and the domain are those
    of the request.  A parent of an unexpected kind is not refused: the resource is
    created without a parent. *)
Theorem create_entity_request {N : NanoClient} {NOk : NanoClientOk N} {K : ConnextCore}
    (r : Z) (rq : NANO_XRCE_ProxyClientRequest) (c : NANO_XRCE_ProxyClient) (s : Service)
    (parent : option NANO_XRCE_ObjectId) (kind : NANO_XRCE_ObjectKind)
    (kind_dds : D2S2_ResourceKind) (parent_kind : NANO_XRCE_ObjectKind)
    (parent_kind_dds : D2S2_ResourceKind) (fm : NANO_XRCE_RepresentationFormat)
    (ref xml : option cstr) (dom : option Z)
    (Hr : request_at s !! r = Some rq) (Hc : client_at s !! rq_client rq = Some c)
    (Hrep : rq_reply rq = true) (Hm : reliable_request rq = true -> is_Some (rq_reply_mbuf rq)) :
  spec agent_contract
    (NANO_XRCE_Agent_create_entity r parent kind kind_dds parent_kind parent_kind_dds fm ref xml dom) s
    (fun t rc s' =>
       omap create_args (calls t) = create_request rq parent kind kind_dds parent_kind fm ref xml dom
       /\ (create_request rq parent kind kind_dds parent_kind fm ref xml dom = [] ->
           rc = NANO_RETCODE_ERROR)).
Proof.
  destruct (stage_start r rq s Hr) as [Hst Hu]; [by eexists |].
  unfold NANO_XRCE_Agent_create_entity, create_request, free_repr. vstep. vstep. vstep.
  destruct (decide (ObjectId_kind (rq_object_id rq) = kind)) as [Hk | Hk].
  2: { rewrite bool_decide_eq_false_2 by done. rewrite decide_False by tauto. repeat vstep; done. }
  rewrite bool_decide_eq_true_2 by done. cbn [negb].
  destruct (create_repr fm ref xml) as [ok repr]. cbn [fst snd]. destruct ok; cbn [negb].
  2: { rewrite decide_False by (intros [_ ?]; done). repeat vstep; done. }
  rewrite decide_True by done. do 5 vstep. cbn in H.
  eapply spec_mono;
    [apply (spec_makes _ not_create);
      [apply (callbacks_stage r rq agent_contract ct_request_data resource_created _
              ltac:(apply Forall_forall; intros; exact (resource_created_stage r rq (fun H _ => Hm H) Hrep _ _)) 0 s Hst) |
       apply makes_each; apply makes_not_create_created] |].
  { destruct H as [H | H]; [by left | right; auto]. }
  intros t [] s' [_ Ht]; cbn beta. apply only_not_create in Ht.
  repeat vstep; (split; [| done]); rewrite !calls_app, !omap_app, Ht; cbn;
    repeat (destruct parent as [o|]; cbn); try (destruct (decide (ObjectId_kind o = parent_kind)));
    rewrite ?bool_decide_eq_true_2, ?bool_decide_eq_false_2 by done; reflexivity.
Qed.

(** ** Deleting the client *)

Lemma makes_silent_dispose {N : NanoClient} fuel client request :
  makes silent_call (NANO_XRCE_Agent_dispose_client_session fuel client request).
Proof.
  unfold NANO_XRCE_Agent_dispose_client_session. pose proof (makes_silent_dismiss fuel client).
  service_makes.
Qed.

(** The request of a DELETE of the client: kept by the client until its session
    is closed, or gone back when there is none. *)
Definition delete_deferred {N : NanoClient} (self : Z) (t : list cevent) (rc : NANO_RetCode)
    (s' : Service) : Prop :=
  count status_call t = 0%nat
  /\ (rc = NANO_RETCODE_OK -> exists q c',
        taken (Pool_requests self) t = [q] /\ returned (Pool_requests self) t = []
        /\ client_at s' !! self = Some c' /\ cl_disposed c' = true /\ cl_dispose_request c' = Some q)
  /\ (rc <> NANO_RETCODE_OK -> balanced (Pool_requests self) t).

(** the DELETE of the client is answered only when its session is closed.
    When it is accepted no STATUS is sent and its request stays out of the pool,
    owned by the client, which is disposed of. *)
Theorem on_submsg_delete_client_deferred {N : NanoClient} {NOk : NanoClientOk N} {K : ConnextCore}
    (fuel : nat) (self : Z) (msg_hdr : NANO_XRCE_MessageHeader)
    (submsg_hdr : NANO_XRCE_SubmessageHeader) (payload : list Z) (s : Service)
    (c : NANO_XRCE_ProxyClient) (Hid : sh_id submsg_hdr = SUBMSG_DELETE)
    (Hc : client_at s !! self = Some c) (Hd : cl_disposed c = false)
    (Hk : forwards_known s (cl_forwards c))
    (Hfuel : (length (cl_forwards c) * S (length (cl_forwards c)) < fuel)%nat) :
  spec (fun e => session_contract self e /\ deletes (fun k => k = OBJK_CLIENT) e)
    (NANO_XRCE_ProxyClient_on_submsg fuel self msg_hdr submsg_hdr payload) s
    (delete_deferred self).
Proof.
  unfold NANO_XRCE_ProxyClient_on_submsg, handle_submsg, settle_request, delete_deferred. rewrite Hid.
  vstep. vstep. vstep. vstep; [| repeat vstep; split_and!; [done | done | intros; by pool_balance]].
  vstep. vstep. destruct r0 as [rc p]. match goal with H : _ /\ deletes _ _ |- _ => destruct H as [_ Hp] end.
  cbn in Hp. vstep; [| repeat vstep; split_and!; [done | done | intros; by pool_balance]].
  vstep. eapply spec_mono; [by eapply (new_request_stage _ self) |].
  intros t0 [q|] s0 (Hn0 & Hst0 & Hres); cbn beta iota.
  2: { repeat vstep. split_and!; [by stage_done | done |]. intros _. unfold balanced in *. pool_count. }
  destruct Hres as (Ht0 & Hr0 & rq0 & Hcl & Hobj & _ & _ & Hst & _).
  destruct (stage_request q rq0 0 s0 Hst) as (rq & Hr & Hrcl & Hro & _).
  destruct Hst0 as (_ & Hf & _ & _ & c' & l & Hc' & Hcs). replace c' with c in * by congruence.
  unfold NANO_XRCE_Agent_on_submsg_delete. rewrite Hp. vstep. vstep. vstep. vstep. rewrite Hrcl, Hcl.
  eapply spec_mono; [apply (spec_makes _ silent_call);
    [eapply spec_strengthen; [intros e He; exact (proj1 He) |];
     eapply (dispose_client_spec self (Some q) (set_stream_storage l c)) |
     apply makes_silent_dispose] |]; try done.
  { by rewrite Hcs, lookup_insert_eq. }
  { unfold forwards_known in *. by rewrite Hf. }
  { intros x [= <-]. by exists rq. }
  intros t1 rc1 s1 [[_ Hdisp] Ht1]; cbn beta. destruct (Hdisp Hd) as [(-> & (c1 & Hc1 & Hd1 & Hq1 & _) & Hrq1) _].
  destruct (silent_books self t1 Ht1) as (Hn1 & Htk1 & Hrt1).
  assert (Hr1 : request_at s1 !! q = Some (set_reply false rq))
    by (by rewrite Hrq1, lookup_alter_eq, Hr).
  assert (Hnot : returned_by_done SUBMSG_DELETE NANO_RETCODE_OK (set_reply false rq) = false).
  { unfold returned_by_done. cbn [rq_object_id set_reply]. rewrite Hro, Hobj, Hp. reflexivity. }
  repeat vstep. split_and!; [by stage_done | | done]. intros _. exists q, c1.
  split_and!; [pool_count | pool_count | done | done | done].
Qed.

(** ** Formats that are not implemented *)

(** Neither a write on the DDS agent nor a STATUS that reports a failure. *)
Definition fine_call {N : NanoClient} (c : Call) : bool :=
  match c with
  | AgentWrite _ _ _ _ => false
  | MessageWrite _ (StatusContent _ _ _ op) => is_ok op
  | _ => true
  end.

Definition not_write {N : NanoClient} (c : Call) : bool :=
  match c with AgentWrite _ _ _ _ => false | _ => true end.

(** The formats for which the handler is empty. *)
Definition unimplemented_format (f : NANO_XRCE_DataFormat) : bool :=
  match f with
  | FORMAT_SAMPLE | FORMAT_DATA_SEQ | FORMAT_SAMPLE_SEQ | FORMAT_PACKED_SAMPLES => true
  | _ => false
  end.

(** The deserializer keeps the format the caller set. *)
Definition keeps_format {N : NanoClient} (e : cevent) : Prop :=
  match e with
  | existT c res =>
      match c return Resp c -> Prop with
      | DeserializeWriteData _ f => fun res => wp_format (snd res) = f
      | _ => fun _ => True
      end res
  end.

Section unimplemented.
Context {N : NanoClient} {NOk : NanoClientOk N} {K : ConnextCore}.

Lemma makes_fine_settle id req : makes fine_call (settle_request id NANO_RETCODE_OK req).
Proof.
  assert (H1 : forall p id, makes fine_call (NANO_XRCE_Agent_lookup_stream p id))
    by (intros; apply (makes_weaken stream_call); [by intros [] | apply makes_lookup_stream]).
  assert (H2 : forall p st id size up,
      makes fine_call (NANO_XRCE_Agent_allocate_reply_message p st id size up))
    by (intros; apply (makes_weaken allocation_call); [by intros [] | apply makes_allocate_reply_message]).
  assert (H3 : forall q, makes fine_call (NANO_XRCE_Agent_reply_to_operation q NANO_RETCODE_OK)).
  { intros q. unfold NANO_XRCE_Agent_reply_to_operation, reply_stream_of,
      NANO_XRCE_Agent_release_reply_message. service_makes. }
  unfold settle_request, NANO_XRCE_Agent_return_client_request. service_makes.
Qed.

Lemma makes_not_write_settle id rc req : makes not_write (settle_request id rc req).
Proof.
  assert (H3 : forall q op, makes not_write (NANO_XRCE_Agent_reply_to_operation q op))
    by (intros; apply (makes_weaken reply_call); [by intros [] | apply makes_reply_to_operation]).
  unfold settle_request, NANO_XRCE_Agent_return_client_request. service_makes.
Qed.

Lemma write_unimplemented r w p :
  unimplemented_format (wp_format p) = true ->
  write_in_format r w p = written r (ret NANO_RETCODE_OK).
Proof. unfold write_in_format. by destruct (wp_format p). Qed.

(** Nothing is written; when the code is OK the request goes back before any
    reply, and the reply that follows reports success. *)
Definition dropped (self : Z) (t : list cevent) (rc : NANO_RetCode) : Prop :=
  only not_write t
  /\ (rc = NANO_RETCODE_OK -> exists q t1 t2,
        t = t1 ++ existT (PoolReturn (Pool_requests self) q) tt :: t2
        /\ taken (Pool_requests self) t1 = [q] /\ count status_call t1 = 0%nat
        /\ Forall (fun c => fine_call c = true) (calls t2)).

Lemma not_write_request (t : list cevent) : only request_call t -> only not_write t.
Proof. apply only_weaken. by intros []. Qed.
End unimplemented.

(** a WRITE_DATA in a format other than FORMAT_DATA that the library
    deserializes is answered with success although nothing is written on the DDS
    agent.  Its request is returned to the pool before [on_submsg] reads it again
    to send that reply. *)
Theorem on_submsg_write_dropped {N : NanoClient} {NOk : NanoClientOk N} {K : ConnextCore}
    (fuel : nat) (self : Z) (msg_hdr : NANO_XRCE_MessageHeader)
    (submsg_hdr : NANO_XRCE_SubmessageHeader) (payload : list Z) (s : Service)
    (c : NANO_XRCE_ProxyClient) (Hid : sh_id submsg_hdr = SUBMSG_WRITE_DATA)
    (Hfmt : unimplemented_format (Flags_DATA_format (sh_flags submsg_hdr)) = true)
    (Hc : client_at s !! self = Some c) :
  spec keeps_format
    (NANO_XRCE_ProxyClient_on_submsg fuel self msg_hdr submsg_hdr payload) s
    (fun t rc _ => dropped self t rc).
Proof.
  assert (Hset : forall q rc rq0 n s1, stage q rq0 n s1 ->
    (reliable_request rq0 = true -> rq_reply rq0 = true -> is_Some (rq_reply_mbuf rq0)) ->
    spec keeps_format (settle_request SUBMSG_WRITE_DATA rc (Some q)) s1
      (fun t _ _ => only not_write t /\ (rc = NANO_RETCODE_OK -> only fine_call t))).
  { intros q rc rq0 n s1 Hst Hm. destruct rc; (eapply spec_mono;
      [apply spec_makes; [apply spec_makes; [by apply (settle_request_spec _ _ _ _ rq0 n) |] |] |];
      [apply makes_not_write_settle | (apply makes_fine_settle || apply makes_not_write_settle) | ];
      intros t [] s' [[_ H1] H2]; split; done). }
  unfold NANO_XRCE_ProxyClient_on_submsg, handle_submsg, dropped. rewrite Hid.
  vstep. vstep. vstep. vstep; [| unfold settle_request; repeat vstep; split; [only_calls | done]].
  vstep. vstep. destruct r0 as [rc p]. match goal with H : keeps_format (existT (DeserializeWriteData _ _) _) |- _ => cbn in H end.
  vstep; [| unfold settle_request; repeat vstep; split; [only_calls | done]].
  vstep. vstep. vstep.
  eapply spec_mono; [apply spec_makes; [by eapply (new_request_stage _ self) | apply makes_new_client_request] |].
  intros t0 [q|] s0 [(Hn0 & _ & Hres) Ht0]; cbn beta iota; apply not_write_request in Ht0.
  2: { unfold settle_request. repeat vstep. split; [only_calls | done]. }
  destruct Hres as (Htk & _ & rq0 & Hcl & _ & _ & Hm & Hst & _).
  destruct (stage_request q rq0 0 s0 Hst) as (rq & Hr & Hrcl & _).
  unfold NANO_XRCE_Agent_on_submsg_write. vstep.
  assert (Hfail : forall rc1 s1, rc1 <> NANO_RETCODE_OK -> stage q rq0 0 s1 ->
    spec keeps_format (settle_request SUBMSG_WRITE_DATA rc1 (Some q) ;; ret rc1)%nano s1
      (fun t2 rc2 _ => only not_write t2 /\ rc2 <> NANO_RETCODE_OK)).
  { intros rc1 s1 Hrc1 Hst1. vstep. eapply spec_mono; [by eapply Hset |].
    intros t2 [] s2 [Ht2 _]; cbn beta. vstep. rewrite app_nil_r. by split. }
  destruct (negb _).
  { vstep. vstep. vstep. eapply spec_mono; [by apply Hfail |].
    intros t2 rc2 s2 [Ht2 Hrc2]; cbn beta. split; [| done]. cbn [app]. only_calls. }
  vstep. vstep. vstep. vstep. vstep.
  2: { vstep. vstep. vstep. eapply spec_mono; [by apply Hfail |].
    intros t2 rc2 s2 [Ht2 Hrc2]; cbn beta. split; [| done]. cbn [app]. only_calls. }
  rewrite (write_unimplemented q z p) by congruence. unfold written, NANO_XRCE_Agent_return_client_request.
  repeat vstep.
  eapply spec_mono; [apply (Hset q NANO_RETCODE_OK rq0 0); [exact Hst | exact Hm] |].
  intros t2 [] s2 [Ht2 Hfine]; cbn beta. vstep. destruct r1, r2. rewrite Hrcl, Hcl, !app_nil_r.
  split; [only_calls |].
  intros _. eexists q, (_ :: _ :: t0 ++ [_]), (_ :: t2). split_and!.
  - cbn [app]. rewrite <- !app_assoc. cbn [app]. reflexivity.
  - by pool_count.
  - by stage_done.
  - apply Forall_cons. split; [done | by apply Hfine].
Qed.

(** ** Witnesses *)

(** A DDS agent that serves the requests for the object [obj] and calls back
    with the request, on top of a session that reports dismissed messages. *)
Definition serving_environment (obj : NANO_XRCE_ObjectId) : environment Resp :=
  fun past c =>
    match c return Resp c with
    | DeserializeCreate _ =>
        (NANO_RETCODE_OK,
         {| cp_request_id := {| req0 := 0; req1 := 1 |}; cp_object_id := obj;
            cp_kind := ObjectId_kind obj;
            cp_repr := {| repr_format := REPRESENTATION_BY_REFERENCE;
                          repr_value_ref := Some (of_string "lib::entity"%string); repr_value_xml := None;
                          repr_parent := {| obj0 := 0; obj1 := 1 |}; repr_domain_id := 0 |} |})
    | DeserializeDelete _ =>
        (NANO_RETCODE_OK, {| br_request_id := {| req0 := 0; req1 := 2 |}; br_object_id := obj |})
    | DeserializeWriteData _ f =>
        (NANO_RETCODE_OK,
         {| wp_request_id := {| req0 := 0; req1 := 3 |}; wp_object_id := obj; wp_format := f;
            wp_data := D2S2_BUFFER_INITIALIZER |})
    | DeserializeReadData _ =>
        (NANO_RETCODE_OK,
         {| rp_request_id := {| req0 := 0; req1 := 4 |}; rp_object_id := obj;
            rp_preferred_stream_id := 128; rp_data_format := FORMAT_DATA;
            rp_has_delivery_ctrl := false; rp_delivery_ctrl := D2S2_READSPECIFICATION_INITIALIZER;
            rp_has_content_filter_expr := true;
            rp_content_filter_expr := Some (of_string "x > 0"%string) |})
    | AgentCreateResource _ _ kind _ _ _ q =>
        [{| ct_session_data := 7; ct_kind := kind; ct_attach_id := 6; ct_request_data := Some q |}]
    | AgentDeleteResource _ _ q =>
        [{| dt_session_data := 7; dt_kind := RESOURCEKIND_DATAREADER; dt_attach_id := 6;
            dt_resource_data := Some 30%Z; dt_request_data := Some q |}]
    | AgentWrite _ _ _ w => [{| wt_session_data := 7; wt_request_data := w |}]
    | AgentLookupResource _ _ => (DDS_RETCODE_OK, true, Some 30%Z)
    | AgentRead _ _ _ => [{| rt_session_data := 7; rt_reader_data := 30 |}]
    | c => dismissing_environment past c
    end.

Lemma serving_contract obj past (c : Call) :
  agent_contract (existT c (serving_environment obj past c)).
Proof.
  destruct c; cbn; try done.
  - by right.
  - split; [by right |]. by apply Forall_singleton.
  - right. by eexists.
Qed.

Definition reliable_message : NANO_XRCE_MessageHeader :=
  {| mh_session_id := 129; mh_stream_id := 128; mh_sn := 5 |}.

Definition sample_submsg (id : NANO_XRCE_SubmessageId) (flags : Z) : NANO_XRCE_SubmessageHeader :=
  {| sh_id := id; sh_flags := flags; sh_length := 12 |}.

(** The trace of a submessage for the object [obj]. *)
Definition serve (obj : NANO_XRCE_ObjectId) (id : NANO_XRCE_SubmessageId) (flags : Z) : list cevent :=
  fst (exec (serving_environment obj) []
         (NANO_XRCE_ProxyClient_on_submsg 3 7 reliable_message (sample_submsg id flags) [] sample_service)).

Definition a_reader : NANO_XRCE_ObjectId := {| obj0 := 0; obj1 := 6 |}.
Definition a_writer : NANO_XRCE_ObjectId := {| obj0 := 0; obj1 := 5 |}.
Definition a_client : NANO_XRCE_ObjectId := {| obj0 := 0; obj1 := 14 |}.

Lemma on_submsg_create_settles_witness :
  spec agent_contract
    (NANO_XRCE_ProxyClient_on_submsg 3 7 reliable_message (sample_submsg SUBMSG_CREATE 1) []) sample_service
    (fun t _ _ => settled 7 t)
  /\ count status_call (serve a_reader SUBMSG_CREATE 1) = 1%nat
  /\ length (taken (Pool_requests 7) (serve a_reader SUBMSG_CREATE 1)) = 1%nat.
Proof.
  split; [| split; vm_compute; reflexivity].
  exact (on_submsg_create_settles 3 7 _ (sample_submsg SUBMSG_CREATE 1) [] sample_service sample_client
           eq_refl eq_refl).
Defined.

Lemma on_submsg_delete_settles_witness :
  exists rc s', snd (exec (serving_environment a_reader) []
                       (NANO_XRCE_ProxyClient_on_submsg 3 7 reliable_message
                          (sample_submsg SUBMSG_DELETE 1) [] sample_service)) = Returned (rc, s')
  /\ settled 7 (serve a_reader SUBMSG_DELETE 1).
Proof.
  apply (spec_exec _ (NANO_XRCE_ProxyClient_on_submsg 3 7 reliable_message (sample_submsg SUBMSG_DELETE 1) [])
           sample_service (fun t _ _ => settled 7 t) (serving_environment a_reader)
           (on_submsg_delete_settles 3 7 reliable_message (sample_submsg SUBMSG_DELETE 1) []
              sample_service sample_client eq_refl eq_refl sample_forwards_known
              ltac:(cbn; lia))).
  intros past c. split; [apply serving_contract |]. split.
  - destruct c; try done; apply dismissing_contract.
  - by destruct c.
Defined.

Lemma on_submsg_write_settles_witness :
  spec agent_contract
    (NANO_XRCE_ProxyClient_on_submsg 3 7 reliable_message (sample_submsg SUBMSG_WRITE_DATA 16) [])
    sample_service (fun t _ _ => settled 7 t)
  /\ count (fun c => match c with AgentWrite _ _ _ _ => true | _ => false end)
       (serve a_writer SUBMSG_WRITE_DATA 0) = 1%nat.
Proof.
  split; [| vm_compute; reflexivity].
  exact (on_submsg_write_settles 3 7 _ (sample_submsg SUBMSG_WRITE_DATA 16) [] sample_service
           sample_client eq_refl eq_refl).
Defined.

Lemma create_entity_request_witness :
  spec agent_contract
    (NANO_XRCE_Agent_create_entity 10 (Some a_writer) OBJK_DATAREADER RESOURCEKIND_DATAREADER
       OBJK_SUBSCRIBER RESOURCEKIND_SUBSCRIBER REPRESENTATION_BY_REFERENCE
       (Some (of_string "lib::reader"%string)) None None) sample_service
    (fun t rc s' =>
       omap create_args (calls t)
       = create_request sample_request (Some a_writer) OBJK_DATAREADER RESOURCEKIND_DATAREADER
           OBJK_SUBSCRIBER REPRESENTATION_BY_REFERENCE (Some (of_string "lib::reader"%string)) None None
       /\ (create_request sample_request (Some a_writer) OBJK_DATAREADER RESOURCEKIND_DATAREADER
             OBJK_SUBSCRIBER REPRESENTATION_BY_REFERENCE (Some (of_string "lib::reader"%string)) None None = [] ->
           rc = NANO_RETCODE_ERROR)).
Proof.
  exact (create_entity_request 10 sample_request sample_client sample_service (Some a_writer)
           OBJK_DATAREADER RESOURCEKIND_DATAREADER OBJK_SUBSCRIBER RESOURCEKIND_SUBSCRIBER
           REPRESENTATION_BY_REFERENCE (Some (of_string "lib::reader"%string)) None None
           eq_refl eq_refl eq_refl (fun _ => ex_intro _ 77%Z eq_refl)).
Defined.

Lemma on_submsg_delete_client_deferred_witness :
  exists rc s', snd (exec (serving_environment a_client) []
                       (NANO_XRCE_ProxyClient_on_submsg 3 7 reliable_message
                          (sample_submsg SUBMSG_DELETE 1) [] sample_service)) = Returned (rc, s')
  /\ delete_deferred 7 (serve a_client SUBMSG_DELETE 1) rc s'.
Proof.
  apply (spec_exec _ (NANO_XRCE_ProxyClient_on_submsg 3 7 reliable_message (sample_submsg SUBMSG_DELETE 1) [])
           sample_service (delete_deferred 7) (serving_environment a_client)
           (on_submsg_delete_client_deferred 3 7 reliable_message (sample_submsg SUBMSG_DELETE 1) []
              sample_service sample_client eq_refl eq_refl eq_refl sample_forwards_known
              ltac:(cbn; lia))).
  intros past c. split.
  - destruct c; try done; apply dismissing_contract.
  - by destruct c.
Defined.

Lemma on_submsg_write_dropped_witness :
  exists rc s', snd (exec (serving_environment a_writer) []
                       (NANO_XRCE_ProxyClient_on_submsg 3 7 reliable_message
                          (sample_submsg SUBMSG_WRITE_DATA 19) [] sample_service)) = Returned (rc, s')
  /\ dropped 7 (serve a_writer SUBMSG_WRITE_DATA 19) rc
  /\ rc = NANO_RETCODE_OK /\ count status_call (serve a_writer SUBMSG_WRITE_DATA 19) = 1%nat.
Proof.
  destruct (spec_exec _ (NANO_XRCE_ProxyClient_on_submsg 3 7 reliable_message (sample_submsg SUBMSG_WRITE_DATA 19) [])
           sample_service (fun t rc _ => dropped 7 t rc) (serving_environment a_writer)
           (on_submsg_write_dropped 3 7 reliable_message (sample_submsg SUBMSG_WRITE_DATA 19) []
              sample_service sample_client eq_refl eq_refl eq_refl)) as (rc & s' & Hr & Hd).
  - intros past c. by destruct c.
  - exists rc, s'. split; [exact Hr |]. split; [exact Hd |]. split; [| vm_compute; reflexivity].
    assert (Ho : match snd (exec (serving_environment a_writer) []
                       (NANO_XRCE_ProxyClient_on_submsg 3 7 reliable_message
                          (sample_submsg SUBMSG_WRITE_DATA 19) [] sample_service))
                 with Returned (rc, _) => rc = NANO_RETCODE_OK | _ => False end)
      by (vm_compute; reflexivity).
    rewrite Hr in Ho. exact Ho.
Defined.
