(* ===== verification/Reads.v ===== *)
(** * READ_DATA and GET_INFO

    Theorems about [on_submsg_read], [on_submsg_getinfo] and the callback
    [on_read_created], which are defined in [Dispatch] and [Resources]: the state
    a READ_DATA leaves in its reader, what happens to the request it replaces,
    and what is lost when it is refused. *)

From Stdlib Require Import ZArith Lia Ascii String.
From stdpp Require Import base tactics list gmap.
From S2P Require Import Prelude.
From S2P Require Import CString.
From S2P Require Import Infrastructure.
From S2P Require Import Interaction.
From S2P Require Import ServiceData.
From S2P Require Import Requests.
From S2P Require Import Forward.
From S2P Require Import Resources.
From S2P Require Import Dispatch.

(** A callback that failed. *)
Definition callback_failed {N : NanoClient} (e : cevent) : Prop :=
  match e with
  | existT (CallbackReturn DDS_RETCODE_ERROR _) _ => True
  | _ => False
  end.

(** The DDS agent knows the one reader [reader]. *)
Definition reader_contract {N : NanoClient} (reader : Z) (e : cevent) : Prop :=
  match e with
  | existT c res =>
      match c return Resp c -> Prop with
      | AgentLookupResource _ _ => fun res => snd res = None \/ snd res = Some reader
      | AgentRead _ _ _ => fun cbs =>
          cbs = [] \/ exists d, cbs = [{| rt_session_data := d; rt_reader_data := reader |}]
      | _ => fun _ => True
      end res
  end.

Section read_calls.
Context {N : NanoClient} {NOk : NanoClientOk N} {K : ConnextCore}.

Lemma makes_body_activate fuel client reader ares_id p :
  makes body_call (activate_read fuel client reader ares_id p).
Proof.
  unfold activate_read.
  assert (forall st a, makes body_call (NANO_XRCE_Agent_dismiss_client_fwd_data_requests fuel client st a))
    by (intros; eapply makes_weaken; [exact silent_body | apply makes_silent_dismiss]).
  service_makes.
Qed.
End read_calls.

Section reads.
Context {N : NanoClient} {NOk : NanoClientOk N} {K : ConnextCore}.
Context (E : cevent -> Prop) (self reader : Z).
Context (HS : forall e, E e -> session_contract self e) (HR : forall e, E e -> reader_contract reader e).
Context (q : Z) (rq0 : NANO_XRCE_ProxyClientRequest).
Context (Hm : reliable_request rq0 = true -> rq_reply rq0 = true -> is_Some (rq_reply_mbuf rq0)).
Context (Hclient : rq_client rq0 = self).

(** The reader that serves the request [q] of payload [p]. *)
Definition reads_for (p : NANO_XRCE_ReadDataPayload) (spec : D2S2_ReadSpecification)
    (rs : NANO_XRCE_ReaderState) : Prop :=
  rs_read_fmt rs = rp_data_format p /\ rs_stream_id rs = rp_preferred_stream_id p
  /\ rs_read_spec_dds rs = spec.

Lemma read_created_spec d n s rs :
  stage q rq0 n s -> reader_at s !! reader = Some rs -> rs_req rs = Some q ->
  spec E (read_created {| rt_session_data := d; rt_reader_data := reader |}) s (fun t _ s' =>
    only body_call t
    /\ exists rs', reader_at s' !! reader = Some rs' /\ rs_forward rs' = true
       /\ rs_read_fmt rs' = rs_read_fmt rs /\ rs_stream_id rs' = rs_stream_id rs
       /\ rs_read_spec_dds rs' = rs_read_spec_dds rs
       /\ (rs_req rs' = Some q \/ (rs_req rs' = None /\ Exists callback_failed t))
       /\ exists n', stage q rq0 n' s').
Proof.
  intros Hst Hrd Hreq. destruct (stage_request q rq0 n s Hst) as (rq & Hr & _).
  apply (spec_mono _ _ _ (fun t a s' =>
    (exists rs', reader_at s' !! reader = Some rs' /\ rs_forward rs' = true
       /\ rs_read_fmt rs' = rs_read_fmt rs /\ rs_stream_id rs' = rs_stream_id rs
       /\ rs_read_spec_dds rs' = rs_read_spec_dds rs
       /\ (rs_req rs' = Some q \/ (rs_req rs' = None /\ Exists callback_failed t))
       /\ exists n', stage q rq0 n' s')
    /\ only body_call t)); [| tauto].
  apply spec_makes; [| apply makes_body_read].
  unfold read_created, NANO_XRCE_AgentInterface_on_read_created. cbn [rt_reader_data].
  vstep. vstep. vstep. vstep. vstep. rewrite Hreq. vstep. vstep. vstep.
  eapply spec_mono; [apply (reply_if_wanted_stage q rq0 Hm E n (put_reader reader (set_reader_forward true rs) s) rq); done |].
  intros t rc s' (Hst' & _ & Hrd'); cbn beta.
  assert (Hs' : reader_at s' !! reader = Some (set_reader_forward true rs))
    by (rewrite Hrd'; cbn; by rewrite lookup_insert_eq).
  repeat vstep.
  - exists (set_reader_forward true rs). split_and!; try done; [by left | by eexists].
  - exists (set_reader_req None (set_reader_forward true rs)). cbn.
    rewrite lookup_insert_eq. split_and!; try done; [| by eexists]. right. split; [done |].
    repeat first [rewrite Exists_app | rewrite Exists_cons]. cbn. tauto.
Qed.

Lemma activate_read_spec fuel ares_id p n s rs c :
  stage q rq0 n s -> reader_at s !! reader = Some rs -> rs_req rs = Some q ->
  rs_read_fmt rs = rp_data_format p -> rs_stream_id rs = rp_preferred_stream_id p ->
  client_at s !! self = Some c -> forwards_known s (cl_forwards c) ->
  (List.length (cl_forwards c) * S (List.length (cl_forwards c)) < fuel)%nat ->
  spec E (activate_read fuel self reader ares_id p) s (fun t rc s' =>
    only body_call t
    /\ exists rs', reader_at s' !! reader = Some rs'
       /\ reads_for p (read_spec_of p (rs_read_spec_dds rs)) rs'
       /\ (rs_req rs' = Some q \/ (rs_req rs' = None /\ Exists callback_failed t))
       /\ exists n', stage q rq0 n' s').
Proof.
  intros Hst Hrd Hreq Hfmt Hid Hc Hk Hfuel.
  apply (spec_mono _ _ _ (fun t a s' =>
    (exists rs', reader_at s' !! reader = Some rs'
       /\ reads_for p (read_spec_of p (rs_read_spec_dds rs)) rs'
       /\ (rs_req rs' = Some q \/ (rs_req rs' = None /\ Exists callback_failed t))
       /\ exists n', stage q rq0 n' s')
    /\ only body_call t)); [| tauto].
  apply spec_makes; [| apply makes_body_activate].
  unfold activate_read. vstep.
  eapply spec_mono; [eapply spec_strengthen; [exact HS | by eapply lookup_stream_found] |].
  intros t0 r s0 (-> & st & -> & Hst0); cbn beta iota. vstep.
  eapply (spec_mono _ _ _ (fun _ _ s' => stage q rq0 n s' /\ reader_at s' = reader_at s)).
  { destruct (st_reliable st); [| by vstep].
    eapply spec_mono; [by apply (dismiss_stage E self HS q rq0 Hclient) with (n := n) (c := c) |].
    intros t [] s' (_ & H1 & _ & H2). by split. }
  intros t1 [] s1 (Hst1 & Hrd1); cbn beta. rewrite <- Hrd1 in Hrd. pose proof Hst1 as [[c1 Hc1] _].
  rewrite Hclient in Hc1. set (rs1 := set_read_spec (read_spec_of p (rs_read_spec_dds rs)) rs).
  do 8 vstep. match goal with H : E _ |- _ => apply HR in H; cbn in H; rename H into Hcbs end.
  fold rs1. set (s2 := put_reader reader rs1 s1).
  assert (Hrd2 : reader_at s2 !! reader = Some rs1) by (cbn; by rewrite lookup_insert_eq).
  vstep. destruct Hcbs as [-> | [d ->]]; [rewrite each_nil | rewrite each_cons, each_nil].
  - repeat vstep. exists rs1. split_and!; try done; [by left | by exists n].
  - vstep. eapply spec_mono; [by apply (read_created_spec d n s2 rs1) |].
    intros t2 [] s3 (_ & rs' & Hrs' & _ & Hf & Hi & Hs & Hq & Hn); cbn beta. repeat vstep.
    exists rs'. split; [done |]. split; [unfold reads_for; rewrite Hf, Hi, Hs; by split_and! |].
    split; [| exact Hn]. destruct Hq as [Hq | [Hq He]]; [by left | right]. split; [done |].
    repeat first [rewrite Exists_app | rewrite Exists_cons]. tauto.
Qed.

(** What [on_submsg_read] does to the reader and to the request it replaces. *)
Definition read_taken_over (p : NANO_XRCE_ReadDataPayload) (rs : NANO_XRCE_ReaderState)
    (s : Service) (t : list cevent) (rc : NANO_RetCode) (s' : Service) : Prop :=
  (rc = NANO_RETCODE_OK ->
     (exists rs', reader_at s' !! reader = Some rs'
        /\ reads_for p (read_spec_of p (rs_read_spec_dds rs)) rs'
        /\ (rs_req rs' = Some q \/ (rs_req rs' = None /\ Exists callback_failed t))
        /\ exists n', stage q rq0 n' s')
     /\ forall pool, returned (Pool_requests pool) t =
          match rs_req rs ≫= fun old => (fun orq => (old, orq)) <$> request_at s !! old with
          | Some (old, orq) => if decide (rq_client orq = pool) then [old] else []
          | None => []
          end)
  /\ ((ObjectId_kind (rp_object_id p) <> OBJK_DATAREADER \/ rp_data_format p <> FORMAT_DATA) ->
      t = [] /\ s' = s /\ rc = NANO_RETCODE_ERROR).

Lemma on_submsg_read_spec fuel p n s rs c :
  stage q rq0 n s -> reader_at s !! reader = Some rs ->
  (forall old, rs_req rs = Some old -> is_Some (request_at s !! old)) ->
  client_at s !! self = Some c -> forwards_known s (cl_forwards c) ->
  (List.length (cl_forwards c) * S (List.length (cl_forwards c)) < fuel)%nat ->
  spec E (NANO_XRCE_Agent_on_submsg_read fuel q p) s (read_taken_over p rs s).
Proof.
  intros Hst Hrd Hold Hc Hk Hfuel. destruct (stage_request q rq0 n s Hst) as (rq & Hr & Hrcl & _).
  unfold NANO_XRCE_Agent_on_submsg_read, read_taken_over. rewrite Hclient in Hrcl. vstep. vstep. rewrite Hrcl.
  destruct (decide (ObjectId_kind (rp_object_id p) = OBJK_DATAREADER)) as [Hkd | Hkd];
    [rewrite bool_decide_eq_true_2 by done | rewrite bool_decide_eq_false_2 by done; by vstep].
  destruct (decide (rp_data_format p = FORMAT_DATA)) as [Hf | Hf];
    [rewrite bool_decide_eq_true_2 by done | rewrite bool_decide_eq_false_2 by done; by vstep].
  cbn [negb]. do 4 vstep. destruct r as [[drc ex] d]. apply HR in H. cbn in H.
  destruct (negb (dds_ok drc)); [vstep; split; [done | tauto] |].
  destruct ex; [| vstep; split; [done | tauto]].
  destruct d as [d|]; [| vstep; split; [done | tauto]].
  destruct H as [? | [= ->]]; [done |]. vstep. vstep. vstep.
  set (s1 := put_reader reader (start_read q p rs) s).
  assert (Hact : spec E (activate_read fuel self reader (ObjectId_to_u16 (rp_object_id p)) p) s1
    (fun t rc s' => (forall pool, returned (Pool_requests pool) t = [])
      /\ exists rs', reader_at s' !! reader = Some rs'
         /\ reads_for p (read_spec_of p (rs_read_spec_dds rs)) rs'
         /\ (rs_req rs' = Some q \/ (rs_req rs' = None /\ Exists callback_failed t))
         /\ exists n', stage q rq0 n' s')).
  { eapply spec_mono; [eapply (activate_read_spec fuel _ p n s1 (start_read q p rs) c); try done |].
    - cbn. by rewrite lookup_insert_eq.
    - intros t rc s' [Ht Hrs]; cbn beta. split; [| exact Hrs]. intros pool. by apply body_pools. }
  destruct (rs_req rs) as [old|] eqn:Hreq.
  - destruct (Hold old eq_refl) as [orq Ho]. unfold NANO_XRCE_Agent_return_client_request. repeat vstep.
    fold s1. eapply spec_mono; [exact Hact |]. intros t rc s' (Hret & Hrs); cbn beta.
    split; [| tauto]. intros Hok. cbn [mbind option_bind]. rewrite Ho. cbn [fmap option_fmap option_map].
    split.
    + destruct Hrs as (rs' & ? & ? & [? | [? ?]] & ?); exists rs'; split_and!; auto;
      (right; split; [done |]; repeat first [rewrite Exists_app | rewrite Exists_cons]; tauto).
    + intros pool. autorewrite with trace. cbn [returned_by app]. rewrite Hret, app_nil_r.
      destruct (decide (rq_client orq = pool)) as [-> |]; [by rewrite decide_True |].
      by rewrite decide_False by congruence.
  - vstep. vstep. vstep. fold s1. eapply spec_mono; [exact Hact |].
    intros t rc s' (Hret & Hrs); cbn beta. split; [| tauto]. intros Hok. cbn [mbind option_bind]. split.
    + destruct Hrs as (rs' & ? & ? & [? | [? ?]] & ?); exists rs'; split_and!; auto;
      (right; split; [done |]; repeat first [rewrite Exists_app | rewrite Exists_cons]; tauto).
    + intros pool. autorewrite with trace. cbn [returned_by app]. by rewrite Hret.
Qed.
End reads.

(** ** Properties *)

(** C4: an accepted READ_DATA gives its reader the format, the stream and the
    parts of the read specification of the payload, the other parts being those
    of the READ_DATA before it, and the request, unless the callback of the DDS
    agent failed.  The request of the previous READ_DATA goes back to its pool,
    once.  A target that is not a reader and a format that is not FORMAT_DATA are
    refused without effect. *)
Theorem on_submsg_read_takes_over {N : NanoClient} {NOk : NanoClientOk N}
    (fuel : nat) (self reader q : Z) (rq : NANO_XRCE_ProxyClientRequest)
    (p : NANO_XRCE_ReadDataPayload) (rs : NANO_XRCE_ReaderState)
    (c : NANO_XRCE_ProxyClient) (s : Service)
    (Hq : request_at s !! q = Some rq) (Hself : rq_client rq = self)
    (Hm : reliable_request rq = true -> rq_reply rq = true -> is_Some (rq_reply_mbuf rq))
    (Hrd : reader_at s !! reader = Some rs)
    (Hold : forall old, rs_req rs = Some old -> is_Some (request_at s !! old))
    (Hc : client_at s !! self = Some c) (Hk : forwards_known s (cl_forwards c))
    (Hfuel : (List.length (cl_forwards c) * S (List.length (cl_forwards c)) < fuel)%nat) :
  spec (fun e => session_contract self e /\ reader_contract reader e)
    (NANO_XRCE_Agent_on_submsg_read fuel q p) s (read_taken_over reader q rq p rs s).
Proof.
  destruct (stage_start q rq s Hq) as [Hst _]; [rewrite Hself; by eexists |].
  eapply (on_submsg_read_spec _ self reader); try done; tauto.
Qed.

(** The payload that is deserialized satisfies [P]. *)
Definition read_payload {N : NanoClient} (P : NANO_XRCE_ReadDataPayload -> Prop) (e : cevent) : Prop :=
  match e with
  | existT c res =>
      match c return Resp c -> Prop with
      | DeserializeReadData _ => fun res => P (snd res)
      | _ => fun _ => True
      end res
  end.

(** Nothing fails before the handler runs. *)
Definition resources_available {N : NanoClient} (e : cevent) : Prop :=
  match e with
  | existT c res =>
      match c return Resp c -> Prop with
      | CdrInitialize _ _ => fun rc => rc = NANO_RETCODE_OK
      | DeserializeReadData _ => fun res => fst res = NANO_RETCODE_OK
      | PoolGet _ => fun b => is_Some b
      | SessionLookupStream _ _ => fun st => is_Some st
      | SessionAllocateMessage _ _ _ _ => fun m => is_Some m
      | _ => fun _ => True
      end res
  end.

Definition read_refused {N : NanoClient} (p : NANO_XRCE_ReadDataPayload) : Prop :=
  ObjectId_kind (rp_object_id p) <> OBJK_DATAREADER \/ rp_data_format p <> FORMAT_DATA.

Lemma new_request_available {N : NanoClient} {NOk : NanoClientOk N} self msg_hdr submsg_hdr
    req_id obj_id reply (s : Service) c (Hc : client_at s !! self = Some c) :
  spec resources_available
    (NANO_XRCE_Agent_new_client_request self msg_hdr submsg_hdr req_id obj_id reply) s
    (fun _ res s' => is_Some res /\ reader_at s' = reader_at s).
Proof.
  unfold NANO_XRCE_Agent_new_client_request, NANO_XRCE_Agent_allocate_reply_message,
    NANO_XRCE_Agent_lookup_stream.
  repeat (vstep; try match goal with
    | H : resources_available (existT _ None) |- _ =>
        let x := fresh in let Hx := fresh in destruct H as [x Hx]; discriminate Hx
    end); split; try done; by eexists.
Qed.

Lemma makes_silent_read_finalize {N : NanoClient} p : makes silent_call (NANO_XRCE_ReadDataPayload_finalize p).
Proof. unfold NANO_XRCE_ReadDataPayload_finalize. service_makes. Qed.

(** Finalizing a payload frees its filter. *)
Lemma read_finalize_spec {N : NanoClient} (E : cevent -> Prop) p s :
  spec E (NANO_XRCE_ReadDataPayload_finalize p) s (fun t _ s' =>
    s' = s /\ only silent_call t
    /\ forall e, rp_content_filter_expr p = Some e -> In (HeapFreeString (Some e)) (calls t)).
Proof.
  unfold NANO_XRCE_ReadDataPayload_finalize. destruct (rp_content_filter_expr p) as [e|]; vstep.
  - split_and!; [done | only_calls |]. intros e' [= ->]. by left.
  - split_and!; [done | only_calls | done].
Qed.

Lemma on_submsg_read_refusal {N : NanoClient} (E : cevent -> Prop) fuel q p rq (s : Service) :
  request_at s !! q = Some rq -> read_refused p ->
  spec E (NANO_XRCE_Agent_on_submsg_read fuel q p) s (fun t rc s' =>
    t = [] /\ s' = s /\ rc = NANO_RETCODE_ERROR).
Proof.
  intros Hq Hp. unfold NANO_XRCE_Agent_on_submsg_read. vstep. vstep.
  destruct (decide (ObjectId_kind (rp_object_id p) = OBJK_DATAREADER)) as [Hkd | Hkd];
    [rewrite bool_decide_eq_true_2 by done | rewrite bool_decide_eq_false_2 by done; by vstep].
  destruct Hp as [? | Hf]; [done |]. rewrite bool_decide_eq_false_2 by done. by vstep.
Qed.

(** a READ_DATA that is refused is never answered and leaks its request.
    Although the request could be taken with its reply buffer, no STATUS is sent,
    the request does not go back to its pool and no reader refers to it. *)
Theorem on_submsg_read_refused_leaks {N : NanoClient} {NOk : NanoClientOk N} {K : ConnextCore}
    (fuel : nat) (self : Z) (msg_hdr : NANO_XRCE_MessageHeader)
    (submsg_hdr : NANO_XRCE_SubmessageHeader) (payload : list Z) (s : Service)
    (c : NANO_XRCE_ProxyClient) (Hid : sh_id submsg_hdr = SUBMSG_READ_DATA)
    (Hc : client_at s !! self = Some c) :
  spec (fun e => resources_available e /\ read_payload read_refused e)
    (NANO_XRCE_ProxyClient_on_submsg fuel self msg_hdr submsg_hdr payload) s
    (fun t rc s' => rc <> NANO_RETCODE_OK /\ reader_at s' = reader_at s
       /\ count status_call t = 0%nat
       /\ exists q, taken (Pool_requests self) t = [q] /\ returned (Pool_requests self) t = []).
Proof.
  unfold NANO_XRCE_ProxyClient_on_submsg, handle_submsg, settle_request.
  rewrite Hid. vstep. vstep. destruct H as [Hcdr _]. cbn in Hcdr. subst r. vstep. vstep.
  vstep. vstep. destruct r as [rc p]. destruct H0 as [Hrc Hp]. cbn in Hrc, Hp. subst rc.
  vstep. vstep. vstep. vstep.
  eapply spec_mono; [apply spec_and; [by eapply (new_request_stage _ self) |
    eapply spec_strengthen; [intros e He; exact (proj1 He) | by eapply new_request_available]] |].
  intros t0 res s0 [(Hn0 & _ & Hres) [[q ->] Hrd]]; cbn beta iota.
  destruct Hres as (Ht0 & Hr0 & rq0 & _ & _ & _ & _ & Hst & _).
  destruct (stage_request q rq0 0 s0 Hst) as (rq & Hr & _).
  vstep. eapply spec_mono; [by apply (on_submsg_read_refusal _ fuel q p rq) |].
  intros t1 rc1 s1 (-> & -> & ->); cbn beta. vstep. vstep.
  eapply spec_mono; [apply read_finalize_spec |]. intros t2 [] s2 (-> & Ht2 & _); cbn beta.
  destruct (silent_books self t2 Ht2) as (Hn2 & Htk2 & Hrt2).
  repeat vstep. split_and!; [done | done | by stage_done |]. exists q. split; pool_count.
Qed.

(** The payload asks for a filter and is for a reader, in FORMAT_DATA. *)
Definition filters_with {N : NanoClient} (e : cstr) (p : NANO_XRCE_ReadDataPayload) : Prop :=
  rp_has_content_filter_expr p = true /\ rp_content_filter_expr p = Some e.

Lemma read_spec_filter {N : NanoClient} e p spec :
  filters_with e p -> content_filter_expr (read_spec_of p spec) = Some e.
Proof. intros [Hh He]. unfold read_spec_of. rewrite Hh. by destruct (rp_has_delivery_ctrl p). Qed.

(** The code after [done] leaves the readers alone. *)
Lemma settle_readers {N : NanoClient} {NOk : NanoClientOk N} (E : cevent -> Prop) id rc q rq0 n s
    (Hm : reliable_request rq0 = true -> rq_reply rq0 = true -> is_Some (rq_reply_mbuf rq0)) :
  stage q rq0 n s ->
  spec E (settle_request id rc (Some q)) s (fun _ _ s' => reader_at s' = reader_at s).
Proof.
  intros Hst. destruct (stage_request q rq0 n s Hst) as (rq & Hr & _ & _ & Hrep).
  unfold settle_request, NANO_XRCE_Agent_return_client_request. vstep. vstep. vstep.
  destruct (rq_reply rq) eqn:Hrq.
  - destruct (Hrep eq_refl) as (Hrq0 & -> & Hu). vstep.
    eapply spec_mono; [by apply (reply_stage q rq0 Hm E rc) |].
    intros t rc' s' [Hst' Hs]; cbn beta. destruct Hs as (_ & _ & Hrd & _).
    destruct (stage_request q rq0 _ s' Hst') as (rq' & Hr' & _). repeat vstep; done.
  - repeat vstep; done.
Qed.

(** the filter of an accepted READ_DATA is freed while its reader still
    points at it: [on_submsg_read] stores the string of the payload in the state of
    the reader, and [on_submsg] then finalizes the payload.  The next READ_DATA
    without a filter passes that string on to the DDS agent. *)
Theorem on_submsg_read_filter_freed {N : NanoClient} {NOk : NanoClientOk N} {K : ConnextCore}
    (fuel : nat) (self reader : Z) (msg_hdr : NANO_XRCE_MessageHeader)
    (submsg_hdr : NANO_XRCE_SubmessageHeader) (payload : list Z) (filter : cstr) (s : Service)
    (c : NANO_XRCE_ProxyClient) (rs : NANO_XRCE_ReaderState)
    (Hid : sh_id submsg_hdr = SUBMSG_READ_DATA)
    (Hrd : reader_at s !! reader = Some rs) (Hfirst : rs_req rs = None)
    (Hc : client_at s !! self = Some c) (Hk : forwards_known s (cl_forwards c))
    (Hfuel : (List.length (cl_forwards c) * S (List.length (cl_forwards c)) < fuel)%nat) :
  spec (fun e => session_contract self e /\ reader_contract reader e
                 /\ read_payload (filters_with filter) e)
    (NANO_XRCE_ProxyClient_on_submsg fuel self msg_hdr submsg_hdr payload) s
    (fun t rc s' => rc = NANO_RETCODE_OK ->
       In (HeapFreeString (Some filter)) (calls t)
       /\ exists rs', reader_at s' !! reader = Some rs'
          /\ content_filter_expr (rs_read_spec_dds rs') = Some filter).
Proof.
  unfold NANO_XRCE_ProxyClient_on_submsg, handle_submsg. rewrite Hid.
  vstep. vstep. vstep. vstep; [| unfold settle_request; by repeat vstep].
  vstep. vstep. destruct r0 as [rc p].
  match goal with H : _ /\ _ /\ read_payload _ _ |- _ => destruct H as (_ & _ & Hp) end. cbn in Hp.
  vstep; [| unfold settle_request; by repeat vstep]. vstep. vstep. vstep.
  eapply spec_mono; [by eapply (new_request_stage _ self) |].
  intros t0 [q|] s0 (Hn0 & Hst0 & Hres); cbn beta iota.
  2: { vstep. eapply spec_mono; [apply read_finalize_spec |]. intros t2 [] s2 (-> & _); cbn beta.
       unfold settle_request. by repeat vstep. }
  destruct Hres as (_ & _ & rq0 & Hcl & _ & _ & Hm & Hst & _).
  destruct Hst0 as (_ & Hf & Hrd0 & _ & c' & l & Hc' & Hcs). replace c' with c in * by congruence.
  vstep. eapply spec_mono;
    [eapply (on_submsg_read_spec _ self reader) with (rq0 := rq0) (n := 0%nat)
       (rs := rs) (c := set_stream_storage l c); try done; try tauto |].
  { by rewrite Hrd0. }
  { intros old Hold. congruence. }
  { by rewrite Hcs, lookup_insert_eq. }
  { unfold forwards_known in *. by rewrite Hf. }
  intros t1 rc1 s1 [Hok _]; cbn beta. vstep.
  - destruct (Hok ltac:(done)) as [(rs' & Hrs' & (_ & _ & Hspec) & _ & n' & Hst') _].
    vstep. eapply spec_mono; [apply read_finalize_spec |].
    intros t2 [] s2 (-> & _ & Hfree); cbn beta. vstep. vstep.
    eapply spec_mono; [by apply (settle_readers _ _ _ q rq0 n' s1 Hm) |].
    intros t3 [] s3 Hrd3; cbn beta. vstep. intros _. split.
    + destruct Hp as [_ Hp]. specialize (Hfree _ Hp). rewrite !calls_app, !in_app_iff. tauto.
    + exists rs'. split; [by rewrite Hrd3 |]. rewrite Hspec. by apply read_spec_filter.
  - vstep. eapply spec_mono; [apply read_finalize_spec |]. intros t2 [] s2 (-> & _); cbn beta.
    unfold settle_request. by repeat vstep.
Qed.

(** ** GET_INFO *)

(** GET_INFO always succeeds without a call.  For the client it counts as
    an assertion of liveliness as soon as one of the two identifiers matches the
    client's key: a message is reported malformed only when the request identifier
    and the object identifier are both wrong. *)
Theorem on_submsg_getinfo_liveliness {N : NanoClient} (client : Z)
    (submsg : NANO_XRCE_BaseObjectRequest) (c : NANO_XRCE_ProxyClient) (s : Service)
    (E : cevent -> Prop) (Hc : client_at s !! client = Some c) :
  spec E (NANO_XRCE_Agent_on_submsg_getinfo client submsg) s (fun t r s' =>
    t = [] /\ s' = s /\ fst r = NANO_RETCODE_OK
    /\ (snd r = Some true <->
        ObjectId_kind (br_object_id submsg) = OBJK_CLIENT
        /\ (br_request_id submsg = {| req0 := key0 (cl_session_key c); req1 := key1 (cl_session_key c) |}
            \/ br_object_id submsg
               = ObjectId_combine {| obj0 := key2 (cl_session_key c); obj1 := key3 (cl_session_key c) |}
                   OBJK_CLIENT))).
Proof.
  unfold NANO_XRCE_Agent_on_submsg_getinfo. vstep. vstep.
  destruct (ObjectId_kind (br_object_id submsg)); vstep; split_and!; try done;
    try (split; [done | by intros [? _]]).
  cbn [snd]. unfold liveliness_malformed. cbv zeta.
  rewrite negb_andb, !negb_involutive. split.
  - intros [= H]. split; [done |]. apply orb_true_iff in H as [H | H];
      apply bool_decide_eq_true in H; auto.
  - intros [_ H]. do 2 f_equal. apply orb_true_iff. destruct H; [left | right]; by apply bool_decide_eq_true.
Qed.

(** ** Witnesses *)

Lemma on_submsg_read_takes_over_witness :
  exists rc s', snd (exec (serving_environment a_reader) []
                       (NANO_XRCE_Agent_on_submsg_read 3 10 
                          (snd (serving_environment a_reader [] (DeserializeReadData []))) sample_service))
                = Returned (rc, s')
  /\ read_taken_over 30 10 sample_request
       (snd (serving_environment a_reader [] (DeserializeReadData []))) sample_reader sample_service
       (fst (exec (serving_environment a_reader) []
               (NANO_XRCE_Agent_on_submsg_read 3 10
                  (snd (serving_environment a_reader [] (DeserializeReadData []))) sample_service))) rc s'.
Proof.
  set (p := snd (serving_environment a_reader [] (DeserializeReadData []))).
  apply (spec_exec _ (NANO_XRCE_Agent_on_submsg_read 3 10 p) sample_service
           (read_taken_over 30 10 sample_request p sample_reader sample_service)
           (serving_environment a_reader)
           (on_submsg_read_takes_over 3 7 30 10 sample_request p sample_reader sample_client sample_service
              eq_refl eq_refl (fun _ _ => ex_intro _ 77%Z eq_refl) eq_refl
              ltac:(intros old [= <-]; by eexists) eq_refl sample_forwards_known ltac:(cbn; lia))).
  intros past c. split.
  - destruct c; try done; apply dismissing_contract.
  - destruct c; cbn; try done; [by right | right; by eexists].
Defined.

Lemma on_submsg_read_refused_leaks_witness :
  exists rc s', snd (exec (serving_environment a_writer) []
                       (NANO_XRCE_ProxyClient_on_submsg 3 7 reliable_message
                          (sample_submsg SUBMSG_READ_DATA 17) [] sample_service)) = Returned (rc, s')
  /\ rc <> NANO_RETCODE_OK /\ reader_at s' = reader_at sample_service
  /\ count status_call (serve a_writer SUBMSG_READ_DATA 17) = 0%nat
  /\ exists q, taken (Pool_requests 7) (serve a_writer SUBMSG_READ_DATA 17) = [q]
       /\ returned (Pool_requests 7) (serve a_writer SUBMSG_READ_DATA 17) = [].
Proof.
  apply (spec_exec _ (NANO_XRCE_ProxyClient_on_submsg 3 7 reliable_message (sample_submsg SUBMSG_READ_DATA 17) [])
           sample_service
           (fun t rc s' => rc <> NANO_RETCODE_OK /\ reader_at s' = reader_at sample_service
              /\ count status_call t = 0%nat
              /\ exists q, taken (Pool_requests 7) t = [q] /\ returned (Pool_requests 7) t = [])
           (serving_environment a_writer)
           (on_submsg_read_refused_leaks 3 7 reliable_message (sample_submsg SUBMSG_READ_DATA 17) []
              sample_service sample_client eq_refl eq_refl)).
  intros past c. split.
  - destruct c; cbn; try done; by eexists.
  - destruct c; cbn; try done. by left.
Defined.

(** The sample reader before its first READ_DATA. *)
Definition fresh_service : Service := put_reader 30 READREQUEST_INITIALIZER sample_service.

Lemma on_submsg_read_filter_freed_witness :
  exists rc s', snd (exec (serving_environment a_reader) []
                       (NANO_XRCE_ProxyClient_on_submsg 3 7 reliable_message
                          (sample_submsg SUBMSG_READ_DATA 17) [] fresh_service)) = Returned (rc, s')
  /\ (rc = NANO_RETCODE_OK ->
      In (HeapFreeString (Some (of_string "x > 0"%string)))
        (run_calls (serving_environment a_reader)
           (NANO_XRCE_ProxyClient_on_submsg 3 7 reliable_message (sample_submsg SUBMSG_READ_DATA 17) [])
           fresh_service)
      /\ exists rs', reader_at s' !! 30%Z = Some rs'
         /\ content_filter_expr (rs_read_spec_dds rs') = Some (of_string "x > 0"%string)).
Proof.
  apply (spec_exec _ (NANO_XRCE_ProxyClient_on_submsg 3 7 reliable_message (sample_submsg SUBMSG_READ_DATA 17) [])
           fresh_service
           (fun t rc s' => rc = NANO_RETCODE_OK ->
              In (HeapFreeString (Some (of_string "x > 0"%string))) (calls t)
              /\ exists rs', reader_at s' !! 30%Z = Some rs'
                 /\ content_filter_expr (rs_read_spec_dds rs') = Some (of_string "x > 0"%string))
           (serving_environment a_reader)
           (on_submsg_read_filter_freed 3 7 30 reliable_message (sample_submsg SUBMSG_READ_DATA 17) []
              (of_string "x > 0"%string) fresh_service sample_client READREQUEST_INITIALIZER
              eq_refl eq_refl eq_refl eq_refl sample_forwards_known ltac:(cbn; lia))).
  intros past c. split; [| split].
  - destruct c; try done; apply dismissing_contract.
  - destruct c; cbn; try done; [by right | right; by eexists].
  - destruct c; cbn; try done.
Defined.

Lemma on_submsg_getinfo_liveliness_witness :
  spec (fun _ => True)
    (NANO_XRCE_Agent_on_submsg_getinfo 7
       {| br_request_id := {| req0 := 1; req1 := 2 |}; br_object_id := {| obj0 := 9; obj1 := 14 |} |})
    sample_service (fun t r s' => snd r = Some true).
Proof.
  eapply spec_mono; [apply (on_submsg_getinfo_liveliness 7 _ sample_client sample_service); reflexivity |].
  intros t r s' (_ & _ & _ & H). apply H. split; [reflexivity | left; reflexivity].
Defined.
