(* ===== verification/Receive.v ===== *)
(** * Receiving a message

    Models the path of a message from a transport to the handlers of
    submessages: [NANO_XRCE_Agent_receive_message] and
    [NANO_XRCE_Agent_on_message_received] of [src/service/Agent.c], which find the
    client of the message and either open a session or hand the message to the
    DDS agent, and [NANO_XRCE_AgentInterface_on_message_received] of
    [src/service/AgentIntf.c], which the DDS agent calls back and which runs the
    XRCE session; the session calls [on_submsg] and the send callbacks of the
    proxy client.

    The response of [AgentReceiveMessage] and of [SessionReceive] is the list of
    these callbacks; [AgentReturn] and [SessionReceived] give the codes. *)

From Stdlib Require Import ZArith Lia.
From stdpp Require Import base tactics list gmap.
From S2P Require Import Prelude.
From S2P Require Import CString.
From S2P Require Import Infrastructure.
From S2P Require Import Interaction.
From S2P Require Import ServiceData.
From S2P Require Import Requests.
From S2P Require Import Forward.
From S2P Require Import Sessions.
From S2P Require Import Resources.
From S2P Require Import Dispatch.

Section receive.
Context {N : NanoClient} {K : ConnextCore}.
Local Open Scope nano_scope.

(** ** The session of a client *)

Definition session_callback (fuel : nat) (cb : SessionCallback) : service unit :=
  match cb with
  | OnSubmsg client msg_hdr submsg_hdr payload =>
      let* rc := NANO_XRCE_ProxyClient_on_submsg fuel client msg_hdr submsg_hdr payload in
      call (SubmsgReturn rc)
  | OnSend cb => send_callback cb
  end.

(** [*dispose_out], [None] when it is not written. *)
Definition NANO_XRCE_AgentInterface_on_message_received (fuel : nat) (client : Z) (msg : list Z)
    : service (option bool) :=
  let* c := client_of client in
  if cl_disposed c then ret None
  else
    let* header := call (SessionParseHeader client msg) in
    match header with
    | None => ret None
    | Some (_, stream_id) =>
        let* stream := NANO_XRCE_Agent_lookup_stream client stream_id in
        match stream with
        | None => ret None
        | Some st =>
            let* cbs := call (SessionReceive client st msg) in
            each (session_callback fuel) cbs ;;
            let* rc := call SessionReceived in
            check rc (fun _ => ret None)
              (let* c := client_of client in ret (Some (cl_disposed c)))
        end
    end.

Definition message_received (fuel : nat) (cb : MessageReceived) : service unit :=
  let* _ := NANO_XRCE_AgentInterface_on_message_received fuel (mt_session_data cb) (mt_message cb) in
  ret tt.

(** ** The client of a message *)

(** The key of the message and the entry of the mapping table; [inl] is an exit
    through [done]. *)
Definition resolve_client (sid : Z) (src : TransportLocator) (msg : list Z)
    : service (NANO_RetCode + NANO_XRCE_ClientKey * option nat) :=
  if SessionId_has_client_key sid then
    let client_key := InlineHeaderBuffer_clientkey msg in
    if (ClientKey_compare client_key CLIENTKEY_INVALID =? 0)%Z then ret (inl NANO_RETCODE_ERROR)
    else ret (inr (client_key, None))
  else
    call SemaphoreTake ;;
    let* '(rc, mapping) := NANO_XRCE_Agent_find_client_locator_mapping src in
    check rc (fun rc => call SemaphoreGive ;; ret (inl rc))
      (let* a := the_agent in
       match mapping with
       | None =>
           if negb (auto_client_mapping (props a)) then ret (inl rc_passed)
           else call SemaphoreGive ;; ret (inr (CLIENTKEY_INVALID, None))
       | Some i =>
           match client_mappings (props a) ≫= (fun l => l !! i) with
           | None => undefined
           | Some m => call SemaphoreGive ;; ret (inr (cm_client_key m, Some i))
           end
       end).

Definition msg_has_session (sid : Z) : bool :=
  negb ((sid =? SESSIONID_NONE_WITH_CLIENT)%Z || (sid =? SESSIONID_NONE_WITHOUT_CLIENT)%Z).

(** The code after the client is known.  [rc] is the value of the variable. *)
Definition deliver_message (fuel : nat) (rc : NANO_RetCode) (transport : Z) (src : TransportLocator)
    (msg : list Z) (msg_len sid : Z) (client_key : NANO_XRCE_ClientKey) (mapping : option nat)
    : service NANO_RetCode :=
  let msg_has_key := SessionId_has_client_key sid in
  let no_mapping := match mapping with None => true | Some _ => false end in
  if negb (msg_has_session sid) then
    let* rc := NANO_XRCE_Agent_process_create_client fuel client_key sid msg msg_len transport src
                 msg_has_key no_mapping in
    check rc ret (ret NANO_RETCODE_OK)
  else if negb msg_has_key && no_mapping then ret rc
  else
    let* cbs := call (AgentReceiveMessage (ClientKey_to_u32 client_key) sid msg) in
    each (message_received fuel) cbs ;;
    let* drc := call AgentReturn in
    if negb (dds_ok drc) then ret rc else ret NANO_RETCODE_OK.

Definition NANO_XRCE_Agent_receive_message (fuel : nat) (transport : Z) (src : TransportLocator)
    (msg : list Z) (msg_len : Z) : service NANO_RetCode :=
  let sid := InlineHeaderBuffer_session_id msg in
  if (msg_len <? SessionId_header_size sid)%Z then ret NANO_RETCODE_ERROR
  else
    let* client := resolve_client sid src msg in
    match client with
    | inl rc => ret rc
    | inr (client_key, mapping) =>
        let rc := if SessionId_has_client_key sid then NANO_RETCODE_ERROR else rc_passed in
        deliver_message fuel rc transport src msg msg_len sid client_key mapping
    end.

(** [*retained], which [receive_message] sets to FALSE and never changes. *)
Definition NANO_XRCE_Agent_on_message_received (fuel : nat) (transport : Z) (src : TransportLocator)
    (msg : list Z) (msg_len : Z) : service bool :=
  let* _ := NANO_XRCE_Agent_receive_message fuel transport src msg msg_len in ret false.
End receive.

(** ** Finding the client *)

Section resolving.
Context {N : NanoClient} {NOk : NanoClientOk N} {K : ConnextCore}.

(** The client of a message: the key of its header, or the one the table maps
    its source to; [None] when it has no client. *)
Definition client_of_message (a : NANO_XRCE_Agent) (src : TransportLocator) (msg : list Z)
    : option NANO_XRCE_ClientKey :=
  let sid := InlineHeaderBuffer_session_id msg in
  if SessionId_has_client_key sid then
    if decide (InlineHeaderBuffer_clientkey msg = CLIENTKEY_INVALID) then None
    else Some (InlineHeaderBuffer_clientkey msg)
  else mapping_key (default [] (client_mappings (props a))) src.

(** What [resolve_client] does, case by case. *)
Definition resolved (src : TransportLocator) (msg : list Z) (s : Service)
    (t : list cevent) (res : NANO_RetCode + NANO_XRCE_ClientKey * option nat) (s' : Service) : Prop :=
  s' = s
  /\ if SessionId_has_client_key (InlineHeaderBuffer_session_id msg) then
       t = []
       /\ match client_of_message (agent s) src msg with
          | Some k => res = inr (k, None)
          | None => res = inl NANO_RETCODE_ERROR
          end
     else
       match client_of_message (agent s) src msg with
       | Some k => calls t = [SemaphoreTake; SemaphoreGive] /\ exists i, res = inr (k, Some i)
       | None =>
           if auto_client_mapping (props (agent s))
           then calls t = [SemaphoreTake; SemaphoreGive] /\ res = inr (CLIENTKEY_INVALID, None)
           else calls t = [SemaphoreTake] /\ res = inl rc_passed
       end.

Lemma key_eqb (a b : NANO_XRCE_ClientKey) : (ClientKey_compare a b =? 0)%Z = bool_decide (a = b).
Proof.
  destruct (bool_decide (a = b)) eqn:H.
  - apply bool_decide_eq_true in H. by apply Z.eqb_eq, ClientKey_compare_zero.
  - apply bool_decide_eq_false in H. apply Z.eqb_neq. by rewrite ClientKey_compare_zero.
Qed.

Lemma resolve_client_spec (E : cevent -> Prop) src msg s :
  mappings_wf (agent s) ->
  spec E (resolve_client (InlineHeaderBuffer_session_id msg) src msg) s (resolved src msg s).
Proof.
  intros Hwf. unfold resolve_client, resolved, client_of_message.
  destruct (SessionId_has_client_key _).
  { rewrite key_eqb. destruct (decide _) as [H | H].
    - rewrite bool_decide_eq_true_2 by done. by vstep.
    - rewrite bool_decide_eq_false_2 by done. by vstep. }
  vstep. vstep. vstep. eapply spec_mono; [by apply find_client_locator_mapping_spec |].
  intros t [rc m] s' (-> & -> & Hrc & Hm); cbn in Hrc, Hm; cbn beta iota. subst rc. vstep. vstep. vstep.
  unfold mapping_key. rewrite <- Hm. destruct m as [i|].
  - destruct (mapping_index_lookup _ src i (eq_sym Hm)) as [m Hi].
    destruct (client_mappings (props (agent s))) as [l|] eqn:Hl; cbn in Hi; [| done].
    cbn [mbind option_bind default]. rewrite Hi. vstep. vstep. vstep. cbn. rewrite Hi. cbn.
    split_and!; try done. by eexists.
  - cbn [mbind option_bind]. destruct (auto_client_mapping (props (agent s))); cbn [negb]; repeat vstep; done.
Qed.
End resolving.

(** ** Properties *)

(** a message without a key from an unknown locator, when the agent does
    not map clients automatically, is refused with [mappings_mutex] still taken:
    the only call [receive_message] makes is the one that takes it, so the next
    message without a key blocks forever. *)
Theorem receive_message_keeps_mutex {N : NanoClient} {NOk : NanoClientOk N} {K : ConnextCore}
    (fuel : nat) (transport : Z) (src : TransportLocator) (msg : list Z) (msg_len : Z) (s : Service)
    (Hwf : mappings_wf (agent s))
    (Hsize : (SessionId_header_size (InlineHeaderBuffer_session_id msg) <= msg_len)%Z)
    (Hkey : SessionId_has_client_key (InlineHeaderBuffer_session_id msg) = false)
    (Hnone : client_of_message (agent s) src msg = None)
    (Hauto : auto_client_mapping (props (agent s)) = false) :
  spec (fun _ => True) (NANO_XRCE_Agent_receive_message fuel transport src msg msg_len) s
    (fun t rc s' => calls t = [SemaphoreTake] /\ rc <> NANO_RETCODE_OK /\ s' = s).
Proof.
  unfold NANO_XRCE_Agent_receive_message.
  assert (Hs : (msg_len <? SessionId_header_size (InlineHeaderBuffer_session_id msg))%Z = false)
    by (apply Z.ltb_ge; lia). rewrite Hs. vstep.
  eapply spec_mono; [by apply resolve_client_spec |]. intros t res s' [-> H]; cbn beta.
  rewrite Hkey, Hnone, Hauto in H. destruct H as [Ht ->]. vstep. rewrite app_nil_r.
  split_and!; [done | apply rc_passed_failure | done].
Qed.

(** The calls that find the client of a message. *)
Definition lookup_calls {N : NanoClient} (msg : list Z) : list Call :=
  if SessionId_has_client_key (InlineHeaderBuffer_session_id msg) then []
  else [SemaphoreTake; SemaphoreGive].

(** C7: a message of a session whose client is known, by the key of its header
    or by the locator it comes from, is handed to the DDS agent for the session of
    that client.  Without a client, unless a new one can be mapped, nothing
    reaches the DDS agent, and a message shorter than its header is ignored. *)
Theorem receive_message_routes {N : NanoClient} {NOk : NanoClientOk N} {K : ConnextCore}
    (fuel : nat) (transport : Z) (src : TransportLocator) (msg : list Z) (msg_len : Z) (s : Service)
    (t : list cevent) (o : outcome (NANO_RetCode * Service))
    (Hwf : mappings_wf (agent s))
    (Hsession : msg_has_session (InlineHeaderBuffer_session_id msg) = true)
    (Hrun : runs (NANO_XRCE_Agent_receive_message fuel transport src msg msg_len s) t o) :
  let sid := InlineHeaderBuffer_session_id msg in
  if decide (msg_len < SessionId_header_size sid)%Z then t = []
  else match client_of_message (agent s) src msg with
  | Some k => exists rest,
      calls t = lookup_calls msg ++ AgentReceiveMessage (ClientKey_to_u32 k) sid msg :: rest
  | None => forall k id m, ~ In (AgentReceiveMessage k id m) (calls t)
  end.
Proof.
  cbv zeta. set (sid := InlineHeaderBuffer_session_id msg) in *.
  unfold NANO_XRCE_Agent_receive_message in Hrun. fold sid in Hrun.
  destruct (decide _) as [Hs | Hs].
  { apply Z.ltb_lt in Hs. rewrite Hs in Hrun. by destruct Hrun. }
  assert (Hs' : (msg_len <? SessionId_header_size sid)%Z = false) by (apply Z.ltb_ge; lia).
  rewrite Hs' in Hrun.
  destruct (bind_runs _ _ _ _ _ _ (resolve_client_spec (fun _ => True) src msg s Hwf) Hrun)
    as (t1 & t2 & res & s1 & -> & [-> Hres] & Hrun2). fold sid in Hres.
  rewrite calls_app. unfold lookup_calls. fold sid.
  destruct (SessionId_has_client_key sid) eqn:Hk; destruct (client_of_message _ _ _) as [k|] eqn:Hcl.
  - destruct Hres as [-> ->]. unfold deliver_message in Hrun2. rewrite Hsession, Hk in Hrun2. cbn [negb andb] in Hrun2.
    apply bind_call_runs in Hrun2 as (r & t' & -> & _). by eexists.
  - destruct Hres as [-> ->]. destruct Hrun2 as [-> _]. intros k id m []; done.
  - destruct Hres as [Ht1 [i ->]]. unfold deliver_message in Hrun2. rewrite Hsession, Hk in Hrun2.
    cbn [negb andb] in Hrun2. apply bind_call_runs in Hrun2 as (r & t' & -> & _). rewrite Ht1. by eexists.
  - destruct (auto_client_mapping _); destruct Hres as [Ht1 ->]; rewrite Ht1.
    + unfold deliver_message in Hrun2. rewrite Hsession, Hk in Hrun2. cbn [negb andb] in Hrun2.
      destruct Hrun2 as [-> _]. intros k id m [? | [? | []]]; done.
    + destruct Hrun2 as [-> _]. intros k id m [? | []]; done.
Qed.

(** ** Witnesses *)

(** The sample service with automatic mapping turned off. *)
Definition unmapped_service : Service :=
  set_agent {| transports := transports sample_agent; transports_pool := true; clients_pool := true;
               reads_pool := true; pool_storage_stream := true; pool_storage_session := true;
               flags := 1;
               props := {| client_session_timeout := client_session_timeout (props sample_agent);
                           auto_client_mapping := false; client_mappings := None;
                           client_mappings_len := 0;
                           heartbeat_period := heartbeat_period (props sample_agent);
                           confirm_all_requests := false; auto_delete_resources := false;
                           max_messages_per_acknack := 0; max_messages_per_heartbeat := 0 |};
               mappings_mutex := true |} sample_service.

(** A message of session 129, which has no key, and one of session 1 with the
    key 1.2.3.4. *)
Definition message_without_key : list Z := [129; 1; 0; 0; 9; 1; 0; 0]%Z.
Definition message_with_key : list Z := [1; 1; 0; 0; 1; 2; 3; 4; 9; 1; 0; 0]%Z.

Lemma receive_message_keeps_mutex_witness :
  spec (fun _ => True) (NANO_XRCE_Agent_receive_message 1 5 (42%Z : TransportLocator) message_without_key 8)
    unmapped_service
    (fun t rc s' => calls t = [SemaphoreTake] /\ rc <> NANO_RETCODE_OK /\ s' = unmapped_service).
Proof.
  apply receive_message_keeps_mutex; [reflexivity | cbn; lia | reflexivity | reflexivity | reflexivity].
Defined.

Lemma receive_message_routes_witness :
  exists rest,
    run_calls quiet_environment
      (NANO_XRCE_Agent_receive_message 1 5 (42%Z : TransportLocator) message_with_key 12) sample_service
    = AgentReceiveMessage 16909060 1 message_with_key :: rest.
Proof.
  exact (receive_message_routes 1 5 (42%Z : TransportLocator) message_with_key 12 sample_service _ _
           eq_refl eq_refl
           (exec_runs quiet_environment
              (NANO_XRCE_Agent_receive_message 1 5 (42%Z : TransportLocator) message_with_key 12 sample_service) [])).
Defined.
