(* ===== verification/Lifecycle.v ===== *)
(** * The life of the agent

    Models the functions of [src/service/Agent.c] that create, start, stop and
    delete the agent ([NANO_XRCE_Agent_new] to [NANO_XRCE_Agent_finalize],
    [register_transport], [enable], [disable]) with the copy of its properties, the
    callbacks of [src/service/AgentIntf.c] the DDS agent makes when it starts and
    stops, and [NANO_XRCE_ProxyClientTransport_flush_output] of
    [src/service/AgentTransport.c], which sends what the session of a client has
    queued.

    [PoolNew] with size 0 stands for [REDAFastBufferPool_newForStructure].  The
    loops of [disable] and [flush_output] end when the transport says so, so they
    take fuel. *)

From Stdlib Require Import ZArith Lia.
From stdpp Require Import base tactics list gmap.
From S2P Require Import Prelude.
From S2P Require Import Interaction.
From S2P Require Import ServiceData.
From S2P Require Import Sessions.

Section lifecycle.
Context {N : NanoClient}.
Local Open Scope nano_scope.

(** ** Properties and flags *)

Definition NANO_XRCE_AGENTPROPERTIES_INITIALIZER : NANO_XRCE_AgentProperties :=
  {| client_session_timeout := NANO_TIME_INITIALIZER_INFINITE;
     auto_client_mapping := true; client_mappings := None; client_mappings_len := 0;
     heartbeat_period := {| time_sec := 0; time_nanosec := 100000000 |};
     confirm_all_requests := false; auto_delete_resources := true;
     max_messages_per_acknack := 0; max_messages_per_heartbeat := 0 |}.

Definition NANO_XRCE_AGENT_INITIALIZER : NANO_XRCE_Agent :=
  {| transports := []; transports_pool := false; clients_pool := false; reads_pool := false;
     pool_storage_stream := false; pool_storage_session := false; flags := 0;
     props := NANO_XRCE_AGENTPROPERTIES_INITIALIZER; mappings_mutex := false |}.

Definition set_props (p : NANO_XRCE_AgentProperties) (a : NANO_XRCE_Agent) : NANO_XRCE_Agent :=
  {| transports := transports a; transports_pool := transports_pool a;
     clients_pool := clients_pool a; reads_pool := reads_pool a;
     pool_storage_stream := pool_storage_stream a; pool_storage_session := pool_storage_session a;
     flags := flags a; props := p; mappings_mutex := mappings_mutex a |}.

Definition set_flags (f : Z) (a : NANO_XRCE_Agent) : NANO_XRCE_Agent :=
  {| transports := transports a; transports_pool := transports_pool a;
     clients_pool := clients_pool a; reads_pool := reads_pool a;
     pool_storage_stream := pool_storage_stream a; pool_storage_session := pool_storage_session a;
     flags := f; props := props a; mappings_mutex := mappings_mutex a |}.

Definition set_transports (l : list NANO_XRCE_AgentTransportRecord) (a : NANO_XRCE_Agent)
    : NANO_XRCE_Agent :=
  {| transports := l; transports_pool := transports_pool a;
     clients_pool := clients_pool a; reads_pool := reads_pool a;
     pool_storage_stream := pool_storage_stream a; pool_storage_session := pool_storage_session a;
     flags := flags a; props := props a; mappings_mutex := mappings_mutex a |}.

(** The pools and the mutex of the agent, in the order they are created. *)
Definition with_resources (tp cp ss sn rp mx : bool) (a : NANO_XRCE_Agent) : NANO_XRCE_Agent :=
  {| transports := transports a; transports_pool := tp; clients_pool := cp; reads_pool := rp;
     pool_storage_stream := ss; pool_storage_session := sn; flags := flags a;
     props := props a; mappings_mutex := mx |}.

Definition update_agent (f : NANO_XRCE_Agent -> NANO_XRCE_Agent) : service unit :=
  let* a := the_agent in modify (set_agent (f a)).

Definition NANO_XRCE_Agent_flags (a : NANO_XRCE_Agent) (f : Z) : bool :=
  negb (Z.land (flags a) (u16 f) =? 0)%Z.

Definition NANO_XRCE_Agent_flags_set (f : Z) (a : NANO_XRCE_Agent) : NANO_XRCE_Agent :=
  set_flags (u16 (Z.lor (flags a) (u16 f))) a.

Definition NANO_XRCE_Agent_flags_unset (f : Z) (a : NANO_XRCE_Agent) : NANO_XRCE_Agent :=
  set_flags (u16 (Z.land (flags a) (Z.lnot (u16 f)))) a.

(** The fields copied before and after the mappings. *)
Definition copy_head (from p : NANO_XRCE_AgentProperties) : NANO_XRCE_AgentProperties :=
  {| client_session_timeout := client_session_timeout from;
     auto_client_mapping := auto_client_mapping from;
     client_mappings := client_mappings p; client_mappings_len := client_mappings_len from;
     heartbeat_period := heartbeat_period p; confirm_all_requests := confirm_all_requests p;
     auto_delete_resources := auto_delete_resources p;
     max_messages_per_acknack := max_messages_per_acknack p;
     max_messages_per_heartbeat := max_messages_per_heartbeat p |}.

Definition copy_tail (from p : NANO_XRCE_AgentProperties) : NANO_XRCE_AgentProperties :=
  {| client_session_timeout := client_session_timeout p;
     auto_client_mapping := auto_client_mapping p;
     client_mappings := client_mappings p; client_mappings_len := client_mappings_len p;
     heartbeat_period := heartbeat_period from; confirm_all_requests := confirm_all_requests from;
     auto_delete_resources := auto_delete_resources from;
     max_messages_per_acknack := max_messages_per_acknack p;
     max_messages_per_heartbeat := max_messages_per_heartbeat p |}.

(** Copies to the properties of the agent.  [memcpy] from NULL, or past the end
    of the array, is undefined. *)
Definition NANO_XRCE_AgentProperties_copy (from : NANO_XRCE_AgentProperties) : service NANO_RetCode :=
  update_agent (fun a => set_props (copy_head from (props a)) a) ;;
  let len := client_mappings_len from in
  let* copied :=
    if (len =? 0)%Z then
      let* a := the_agent in
      (match client_mappings (props a) with Some _ => call HeapFree | None => ret tt end) ;;
      update_agent (set_mappings None len) ;; ret true
    else
      let* ok := call (HeapAllocate len) in
      if negb ok then update_agent (set_mappings None len) ;; ret false
      else
        match client_mappings from with
        | Some l =>
            if (Z.to_nat len <=? length l)%nat then
              update_agent (set_mappings (Some (take (Z.to_nat len) l)) len) ;; ret true
            else undefined
        | None => undefined
        end in
  if negb copied then ret NANO_RETCODE_ERROR
  else
    update_agent (fun a => set_props (copy_tail from (props a)) a) ;;
    ret NANO_RETCODE_OK.

(** ** Creation and deletion *)

(** The pools and the mutex; what was created stays when a later one fails. *)
Definition create_resources : service NANO_RetCode :=
  let* tp := call (PoolNew Pool_transports 0) in
  update_agent (with_resources tp false false false false false) ;;
  if negb tp then ret rc_passed
  else
  let* cp := call (PoolNew Pool_clients 0) in
  update_agent (with_resources true cp false false false false) ;;
  if negb cp then ret rc_passed
  else
  let* ss := call (PoolNew Pool_storage_stream 0) in
  update_agent (with_resources true true ss false false false) ;;
  if negb ss then ret rc_passed
  else
  let* sn := call (PoolNew Pool_storage_session 0) in
  update_agent (with_resources true true true sn false false) ;;
  if negb sn then ret rc_passed
  else
  let* rp := call (PoolNew Pool_reads 0) in
  update_agent (with_resources true true true true rp false) ;;
  if negb rp then ret rc_passed
  else
  let* mx := call SemaphoreNew in
  update_agent (with_resources true true true true true mx) ;;
  if negb mx then ret rc_passed else ret NANO_RETCODE_OK.

Definition NANO_XRCE_Agent_initialize (properties : NANO_XRCE_AgentProperties)
    : service NANO_RetCode :=
  update_agent (fun _ => NANO_XRCE_AGENT_INITIALIZER) ;;
  let* rc := NANO_XRCE_AgentProperties_copy properties in
  check rc ret (update_agent (set_transports []) ;; create_resources).

(** Whether an agent is returned. *)
Definition NANO_XRCE_Agent_new (properties : NANO_XRCE_AgentProperties) : service bool :=
  let* ok := call (HeapAllocate 1) in
  if negb ok then ret false
  else
    update_agent (fun _ => NANO_XRCE_AGENT_INITIALIZER) ;;
    let* rc := NANO_XRCE_Agent_initialize properties in
    check rc (fun _ => call HeapFree ;; ret false) (ret true).

Definition finalize_transport (r : NANO_XRCE_AgentTransportRecord) : service unit :=
  call (TransportFinalize (tr_transport r)) ;; call (PoolReturn Pool_transports (tr_node r)).

(** Frees the mappings but keeps the pointer. *)
Definition NANO_XRCE_Agent_finalize : service unit :=
  let* a := the_agent in
  each finalize_transport (transports a) ;;
  update_agent (set_transports []) ;;
  (match client_mappings (props a) with Some _ => call HeapFree | None => ret tt end) ;;
  call (PoolDelete Pool_transports) ;;
  call (PoolDelete Pool_clients) ;;
  call (PoolDelete Pool_storage_stream) ;;
  call (PoolDelete Pool_storage_session) ;;
  call (PoolDelete Pool_reads) ;;
  call SemaphoreDelete ;;
  update_agent (with_resources false false false false false false).

Definition NANO_XRCE_Agent_delete : service unit :=
  NANO_XRCE_Agent_finalize ;; call HeapFree.

(** ** Transports *)

Definition NANO_XRCE_Agent_register_transport (transport : Z) : service NANO_RetCode :=
  let* '(rc, ea) := call (TransportInitialize transport) in
  check rc ret
    (let* rec := call (PoolGet Pool_transports) in
     match rec with
     | None => call (TransportFinalize transport) ;; ret rc_passed
     | Some node =>
         update_agent (fun a =>
           set_transports (transports a ++ [{| tr_node := node; tr_transport := transport; tr_ea := ea |}]) a) ;;
         ret NANO_RETCODE_OK
     end).

(** The loop of [enable]; the code it leaves in [rc] when a transport fails. *)
Fixpoint listen_all (l : list NANO_XRCE_AgentTransportRecord) : service (option NANO_RetCode) :=
  match l with
  | [] => ret None
  | r :: l =>
      let* rc := call (TransportListen (tr_transport r)) in
      check rc (fun rc => ret (Some rc)) (listen_all l)
  end.

Definition close_transport (r : NANO_XRCE_AgentTransportRecord) : service unit :=
  let* _ := call (TransportClose (tr_transport r)) in ret tt.

Definition NANO_XRCE_Agent_enable : service NANO_RetCode :=
  let* a := the_agent in
  let* failure :=
    if NANO_XRCE_Agent_flags a AGENTFLAGS_ENABLED then ret (Some NANO_RETCODE_ERROR)
    else
      match transports a with
      | [] => ret (Some NANO_RETCODE_ERROR)
      | l => listen_all l
      end in
  match failure with
  | None => update_agent (NANO_XRCE_Agent_flags_set AGENTFLAGS_ENABLED) ;; ret NANO_RETCODE_OK
  | Some rc => each close_transport (transports a) ;; ret rc
  end.

(** The loop of [disable]: after a failure [continue] tries the same transport
    again. *)
Fixpoint close_loop (fuel : nat) (l : list NANO_XRCE_AgentTransportRecord) : service unit :=
  match l with
  | [] => ret tt
  | r :: rest =>
      match fuel with
      | O => unfinished
      | S fuel =>
          let* rc := call (TransportClose (tr_transport r)) in
          if negb (is_ok rc) then close_loop fuel l else close_loop fuel rest
      end
  end.

Definition NANO_XRCE_Agent_disable (fuel : nat) : service NANO_RetCode :=
  let* a := the_agent in
  if negb (NANO_XRCE_Agent_flags a AGENTFLAGS_ENABLED) then ret NANO_RETCODE_ERROR
  else
    update_agent (NANO_XRCE_Agent_flags_unset AGENTFLAGS_ENABLED) ;;
    close_loop fuel (transports a) ;;
    ret NANO_RETCODE_OK.

(** ** Callbacks of the DDS agent *)

Definition NANO_XRCE_AgentInterface_on_interface_registered : service unit := ret tt.
Definition NANO_XRCE_AgentInterface_on_interface_disposed : service unit := ret tt.
Definition NANO_XRCE_AgentInterface_on_before_interface_disposed : service unit := ret tt.

Definition NANO_XRCE_AgentInterface_on_agent_started : service DDS_ReturnCode_t :=
  let* rc := NANO_XRCE_Agent_enable in
  check rc (fun rc => ret (to_dds rc)) (ret (to_dds NANO_RETCODE_OK)).

Definition NANO_XRCE_AgentInterface_on_agent_stopped (fuel : nat) : service DDS_ReturnCode_t :=
  let* rc := NANO_XRCE_Agent_disable fuel in
  check rc (fun rc => ret (to_dds rc)) (ret (to_dds NANO_RETCODE_OK)).

(** ** Output of a client *)

Fixpoint NANO_XRCE_ProxyClientTransport_flush_output (fuel : nat) (client : Z) : service unit :=
  match fuel with
  | O => unfinished
  | S fuel =>
      let* nxt := call ClientTransportNextSend in
      match nxt with
      | None => ret tt
      | Some msg =>
          let* c := client_of client in
          let* rc := call (TransportSendTo (cl_transport c) (cl_locator c) msg) in
          check rc (fun _ => ret tt)
            (call (ClientTransportSendComplete msg) ;;
             NANO_XRCE_ProxyClientTransport_flush_output fuel client)
      end
  end.
End lifecycle.

(** ** Lemmas *)

Section lemmas.
Context {N : NanoClient} {NOk : NanoClientOk N}.
Local Open Scope nano_scope.

Lemma spec_update_agent (E : cevent -> Prop) (f : NANO_XRCE_Agent -> NANO_XRCE_Agent) s
    (Q : list cevent -> unit -> Service -> Prop) :
  Q [] tt (set_agent (f (agent s)) s) -> spec E (update_agent f) s Q.
Proof. intros H. unfold update_agent. by repeat vstep. Qed.

Lemma set_agent_twice a a' (s : Service) : set_agent a (set_agent a' s) = set_agent a s.
Proof. done. Qed.

(** *** Flags *)

Lemma enabled_bit (n : Z) : negb (Z.land n (u16 AGENTFLAGS_ENABLED) =? 0)%Z = Z.testbit n 0.
Proof.
  change (u16 AGENTFLAGS_ENABLED) with (Z.ones 1). rewrite Z.land_ones by lia. change (2 ^ 1)%Z with 2%Z.
  rewrite Z.bit0_odd, Zmod_odd. by destruct (Z.odd n).
Qed.

Lemma testbit0_u16 (n : Z) : Z.testbit (u16 n) 0 = Z.testbit n 0.
Proof. unfold u16. change 65536%Z with (2 ^ 16)%Z. by rewrite Z.mod_pow2_bits_low by lia. Qed.

Lemma flags_set_enabled a :
  NANO_XRCE_Agent_flags (NANO_XRCE_Agent_flags_set AGENTFLAGS_ENABLED a) AGENTFLAGS_ENABLED = true.
Proof.
  unfold NANO_XRCE_Agent_flags, NANO_XRCE_Agent_flags_set. cbn [flags set_flags].
  rewrite enabled_bit, testbit0_u16, Z.lor_spec. by rewrite orb_true_r.
Qed.

Lemma flags_unset_enabled a :
  NANO_XRCE_Agent_flags (NANO_XRCE_Agent_flags_unset AGENTFLAGS_ENABLED a) AGENTFLAGS_ENABLED = false.
Proof.
  unfold NANO_XRCE_Agent_flags, NANO_XRCE_Agent_flags_unset. cbn [flags set_flags].
  rewrite enabled_bit, testbit0_u16, Z.land_spec. by rewrite andb_false_r.
Qed.

(** *** Creation *)

(** The calls that create an agent with properties [from], in order. *)
Definition resource_calls : list Call :=
  [PoolNew Pool_transports 0; PoolNew Pool_clients 0; PoolNew Pool_storage_stream 0;
   PoolNew Pool_storage_session 0; PoolNew Pool_reads 0; SemaphoreNew].

Definition creation_calls (from : NANO_XRCE_AgentProperties) : list Call :=
  (if decide (client_mappings_len from = 0%Z) then [] else [HeapAllocate (client_mappings_len from)])
  ++ resource_calls.

(** The request for a resource was granted. *)
Definition granted (e : cevent) : Prop :=
  match e with
  | existT c r =>
      match c return Resp c -> Prop with
      | HeapAllocate _ | PoolNew _ _ | SemaphoreNew => fun ok => ok = true
      | _ => fun _ => True
      end r
  end.

(** The properties of the new agent: the limits of messages are not copied. *)
Definition copied (from : NANO_XRCE_AgentProperties) : NANO_XRCE_AgentProperties :=
  {| client_session_timeout := client_session_timeout from;
     auto_client_mapping := auto_client_mapping from;
     client_mappings := if decide (client_mappings_len from = 0%Z) then None else client_mappings from;
     client_mappings_len := client_mappings_len from;
     heartbeat_period := heartbeat_period from;
     confirm_all_requests := confirm_all_requests from;
     auto_delete_resources := auto_delete_resources from;
     max_messages_per_acknack := 0; max_messages_per_heartbeat := 0 |}.

Definition new_agent (from : NANO_XRCE_AgentProperties) : NANO_XRCE_Agent :=
  {| transports := []; transports_pool := true; clients_pool := true; reads_pool := true;
     pool_storage_stream := true; pool_storage_session := true; flags := 0;
     props := copied from; mappings_mutex := true |}.

(** The array of mappings has the length the properties give. *)
Definition properties_wf (from : NANO_XRCE_AgentProperties) : Prop :=
  client_mappings_len from = Z.of_nat (length (default [] (client_mappings from))).

(** The first [k] calls of [todo] were made; all were granted exactly when the
    code is OK, and then all of [todo] was. *)
Definition created_upto (todo : list Call) (t : list cevent) (rc : NANO_RetCode) : Prop :=
  calls t `prefix_of` todo
  /\ (rc = NANO_RETCODE_OK <-> Forall granted t)
  /\ (rc = NANO_RETCODE_OK -> calls t = todo).

Lemma created_cons c ok t todo rc :
  (granted (existT c ok)) -> created_upto todo t rc -> created_upto (c :: todo) (existT c ok :: t) rc.
Proof.
  intros Hg (Hp & Hrc & Hall). split_and!.
  - by apply prefix_cons.
  - rewrite Forall_cons, Hrc. tauto.
  - intros H. change (c :: calls t = c :: todo). by rewrite (Hall H).
Qed.

Lemma created_refused c ok todo rc :
  ~ granted (existT c ok) -> rc <> NANO_RETCODE_OK -> created_upto (c :: todo) [existT c ok] rc.
Proof.
  intros Hg Hrc. split_and!; [apply prefix_cons, prefix_nil | | done].
  rewrite Forall_singleton. tauto.
Qed.

Lemma create_resources_spec (E : cevent -> Prop) s :
  spec E create_resources s (fun t rc s' =>
    created_upto resource_calls t rc
    /\ (rc = NANO_RETCODE_OK ->
        s' = set_agent (with_resources true true true true true true (agent s)) s)).
Proof.
  pose proof rc_passed_failure as Hf. unfold create_resources.
  repeat (vstep; vstep; vstep; apply spec_update_agent;
          match goal with |- context [negb ?b] => destruct b end; cbn [negb app];
          [| apply spec_ret; split;
             [unfold resource_calls; repeat (first [apply created_refused; [cbn; congruence | done]
                              | apply created_cons; [reflexivity |]])
             | done]]).
  apply spec_ret. split; [| done].
  unfold resource_calls. repeat (apply created_cons; [reflexivity |]). split_and!; [done | | done].
  split; [intros _; apply List.Forall_nil | done].
Qed.

Lemma copy_spec (E : cevent -> Prop) (from : NANO_XRCE_AgentProperties) s :
  properties_wf from -> client_mappings (props (agent s)) = None ->
  spec E (NANO_XRCE_AgentProperties_copy from) s (fun t rc s' =>
    (client_mappings_len from = 0%Z -> t = [] /\ rc = NANO_RETCODE_OK)
    /\ (client_mappings_len from <> 0%Z -> exists ok,
          t = [existT (HeapAllocate (client_mappings_len from)) ok]
          /\ (rc = NANO_RETCODE_OK <-> ok = true))
    /\ exists p, s' = set_agent (set_props p (agent s)) s
       /\ (rc = NANO_RETCODE_OK -> max_messages_per_acknack (props (agent s)) = 0%Z ->
           max_messages_per_heartbeat (props (agent s)) = 0%Z -> p = copied from)).
Proof.
  intros Hwf Hn. unfold NANO_XRCE_AgentProperties_copy. vstep. apply spec_update_agent; cbn beta.
  cbn [agent set_agent]. vstep. destruct (Z.eqb_spec (client_mappings_len from) 0) as [H0 | H0].
  - vstep. vstep. cbn [agent set_agent props set_props copy_head client_mappings]. rewrite Hn. vstep. vstep. vstep.
    apply spec_update_agent. repeat vstep. apply spec_update_agent. repeat vstep. cbn.
    split_and!; [done | congruence |]. eexists. split; [reflexivity |]. intros _ Ha Hh.
    unfold copy_tail, copied. cbn. rewrite H0, Ha, Hh. by rewrite decide_True.
  - destruct (client_mappings from) as [l|] eqn:Hl; unfold properties_wf in Hwf; rewrite Hl in Hwf; cbn in Hwf; [| done].
    assert (Hle : (Z.to_nat (client_mappings_len from) <=? length l)%nat = true) by (apply Nat.leb_le; lia).
    rewrite Hle. vstep. vstep. destruct r; cbn [negb].
    + vstep. apply spec_update_agent. repeat vstep. apply spec_update_agent. repeat vstep. split_and!; [done | |].
      * intros _. by eexists.
      * eexists. split; [reflexivity |]. intros _ Ha Hh. unfold copy_tail, copied. cbn.
        rewrite Ha, Hh, Hl, decide_False by done. rewrite take_ge by lia. done.
    + vstep. apply spec_update_agent. repeat vstep. split_and!; [done | |].
      * intros _. by eexists.
      * eexists. by split; [reflexivity |].
Qed.

Lemma initialize_spec (E : cevent -> Prop) (from : NANO_XRCE_AgentProperties) s :
  properties_wf from ->
  spec E (NANO_XRCE_Agent_initialize from) s (fun t rc s' =>
    created_upto (creation_calls from) t rc
    /\ (rc = NANO_RETCODE_OK -> s' = set_agent (new_agent from) s)).
Proof.
  intros Hwf. unfold NANO_XRCE_Agent_initialize, creation_calls. vstep. apply spec_update_agent. vstep.
  eapply spec_mono; [by apply copy_spec |]. intros t rc s' (H0 & H1 & p & -> & Hp). cbn in Hp.
  destruct (decide (client_mappings_len from = 0%Z)) as [Hl | Hl]; cbn [app].
  - destruct (H0 Hl) as [-> ->]. vstep. vstep. apply spec_update_agent. 
    eapply spec_mono; [apply create_resources_spec |]. intros t rc s' [Ht Hs]. cbn [app]. split; [done |].
    intros Hrc. by rewrite (Hs Hrc), (Hp eq_refl eq_refl eq_refl).
  - destruct (H1 Hl) as (ok & -> & Hok). vstep.
    + vstep. apply spec_update_agent.
      eapply spec_mono; [apply create_resources_spec |]. intros t rc' s' [Ht Hs]. cbn [app]. split.
      * apply created_cons; [by apply Hok | done].
      * intros Hrc. by rewrite (Hs Hrc), (Hp H eq_refl eq_refl).
    + vstep. split; [| done]. apply created_refused; [| done]. cbn. by rewrite <- Hok.
Qed.
End lemmas.

(** ** Registering and finalizing transports *)

Section transports_life.
Context {N : NanoClient} {NOk : NanoClientOk N}.
Local Open Scope nano_scope.

(** The transports whose initialization succeeded, and those finalized. *)
Definition initialized_by (e : cevent) : list Z :=
  match e with
  | existT c r =>
      match c return Resp c -> list Z with
      | TransportInitialize tr => fun r => if is_ok (fst r) then [tr] else []
      | _ => fun _ => []
      end r
  end.

Definition finalized_by (c : Call) : list Z :=
  match c with TransportFinalize tr => [tr] | _ => [] end.

Definition initialized (t : list cevent) : list Z := concat (map initialized_by t).
Definition finalized (t : list cevent) : list Z := concat (map finalized_by (calls t)).

Lemma initialized_app t1 t2 : initialized (t1 ++ t2) = initialized t1 ++ initialized t2.
Proof. unfold initialized. by rewrite map_app, concat_app. Qed.

Lemma finalized_app t1 t2 : finalized (t1 ++ t2) = finalized t1 ++ finalized t2.
Proof. unfold finalized. by rewrite calls_app, map_app, concat_app. Qed.

(** The three ends of [register_transport]. *)
Definition registered (transport : Z) (s : Service) (t : list cevent) (rc : NANO_RetCode)
    (s' : Service) : Prop :=
  (exists irc ea, irc <> NANO_RETCODE_OK /\ rc <> NANO_RETCODE_OK /\ s' = s
     /\ t = [existT (TransportInitialize transport) (irc, ea)])
  \/ (exists ea, rc <> NANO_RETCODE_OK /\ s' = s
     /\ t = [existT (TransportInitialize transport) (NANO_RETCODE_OK, ea);
             existT (PoolGet Pool_transports) None; existT (TransportFinalize transport) tt])
  \/ (exists ea node, rc = NANO_RETCODE_OK
     /\ t = [existT (TransportInitialize transport) (NANO_RETCODE_OK, ea);
             existT (PoolGet Pool_transports) (Some node)]
     /\ s' = set_agent (set_transports
               (transports (agent s) ++ [{| tr_node := node; tr_transport := transport; tr_ea := ea |}])
               (agent s)) s).

Lemma register_transport_spec (E : cevent -> Prop) transport s :
  spec E (NANO_XRCE_Agent_register_transport transport) s (registered transport s).
Proof.
  pose proof rc_passed_failure as Hf. unfold NANO_XRCE_Agent_register_transport, registered.
  vstep. vstep. destruct r as [rc ea]. vstep; [subst rc | vstep; left; by exists rc, ea].
  vstep. vstep. destruct r as [node|].
  - vstep. apply spec_update_agent. vstep. do 2 right. by exists ea, node.
  - vstep. vstep. destruct r. vstep. right; left. by exists ea.
Qed.

(** The transports registered during [t], for an agent that had none. *)
Definition life_invariant (t : list cevent) (s : Service) : Prop :=
  returned Pool_transports t = []
  /\ taken Pool_transports t = map tr_node (transports (agent s))
  /\ Permutation (finalized t ++ map tr_transport (transports (agent s))) (initialized t).

Lemma register_life transport t s t' rc s' :
  life_invariant t s -> registered transport s t' rc s' -> life_invariant (t ++ t') s'.
Proof.
  intros (Hr & Ht & Hp) H. unfold life_invariant.
  rewrite initialized_app, finalized_app, returned_app, taken_app, Hr.
  destruct H as [(irc & ea & Hirc & _ & -> & ->) | [(ea & _ & -> & ->) | (ea & node & _ & -> & ->)]].
  - cbn. rewrite (is_ok_false _ Hirc). rewrite !app_nil_r. done.
  - cbn. rewrite decide_True by done. cbn. rewrite app_nil_r. split_and!; [done.. |].
    rewrite <- Hp, <- !app_assoc. apply Permutation_app_head, Permutation_app_comm.
  - cbn. rewrite decide_True by done. cbn. rewrite !map_app, app_nil_r. cbn.
    split_and!; [done | by rewrite Ht |]. by rewrite app_assoc, Hp.
Qed.

Lemma finalize_each_spec (E : cevent -> Prop) l : forall s,
  spec E (each finalize_transport l) s (fun t _ s' =>
    s' = s /\ returned Pool_transports t = map tr_node l /\ taken Pool_transports t = []
    /\ finalized t = map tr_transport l /\ initialized t = []).
Proof.
  induction l as [|r l IH]; intros s; [by rewrite each_nil; vstep |].
  rewrite each_cons. vstep. unfold finalize_transport. vstep. vstep. vstep.
  eapply spec_mono; [apply IH |]. intros t [] s' (-> & Hr & Ht & Hf & Hi). cbn [app map].
  split_and!; [done | | | |].
  - rewrite !returned_cons, Hr. cbn. by rewrite decide_True.
  - rewrite !taken_cons, Ht. done.
  - change (tr_transport r :: finalized t = tr_transport r :: map tr_transport l). by rewrite Hf.
  - done.
Qed.

Lemma finalize_agent_spec (E : cevent -> Prop) s :
  spec E NANO_XRCE_Agent_finalize s (fun t _ s' =>
    transports (agent s') = []
    /\ returned Pool_transports t = map tr_node (transports (agent s))
    /\ taken Pool_transports t = []
    /\ finalized t = map tr_transport (transports (agent s)) /\ initialized t = []).
Proof.
  unfold NANO_XRCE_Agent_finalize. vstep. vstep. vstep. eapply spec_mono; [apply finalize_each_spec |].
  intros t [] s' (-> & Hr & Ht & Hf & Hi). vstep. apply spec_update_agent.
  assert (Hq : forall tq, returned Pool_transports tq = [] -> taken Pool_transports tq = [] ->
                 finalized tq = [] -> initialized tq = [] ->
     returned Pool_transports (t ++ tq) = map tr_node (transports (agent s))
     /\ taken Pool_transports (t ++ tq) = []
     /\ finalized (t ++ tq) = map tr_transport (transports (agent s)) /\ initialized (t ++ tq) = []).
  { intros tq H1 H2 H3 H4. rewrite returned_app, taken_app, finalized_app, initialized_app.
    rewrite H1, H2, H3, H4, Hr, Ht, Hf, Hi, !app_nil_r. done. }
  vstep. destruct (client_mappings _); repeat vstep; apply spec_update_agent; cbn [app];
    (split; [done |]); by apply Hq.
Qed.
End transports_life.

(** ** Starting and stopping *)

Section starting.
Context {N : NanoClient} {NOk : NanoClientOk N}.
Local Open Scope nano_scope.

Definition listen (r : NANO_XRCE_AgentTransportRecord) : Call := TransportListen (tr_transport r).
Definition close (r : NANO_XRCE_AgentTransportRecord) : Call := TransportClose (tr_transport r).

(** The transport that was told to listen does. *)
Definition listening (e : cevent) : Prop :=
  match e with
  | existT c r =>
      match c return Resp c -> Prop with
      | TransportListen _ => fun rc => rc = NANO_RETCODE_OK
      | _ => fun _ => True
      end r
  end.

Lemma listen_all_spec (E : cevent -> Prop) l : forall s,
  spec E (listen_all l) s (fun t failure s' =>
    s' = s /\ match failure with
              | None => calls t = map listen l /\ Forall listening t
              | Some rc => rc <> NANO_RETCODE_OK /\ ~ Forall listening t
                           /\ exists n, (n < length l)%nat /\ calls t = map listen (take (S n) l)
              end).
Proof.
  induction l as [|r l IH]; intros s; cbn [listen_all].
  { vstep. split; [done |]. split; [done | apply List.Forall_nil]. }
  vstep. vstep. vstep.
  - eapply spec_mono; [apply IH |]. intros t [rc|] s' [-> Ht]; (split; [done |]); cbn [app].
    + destruct Ht as (Hrc & Hf & n & Hn & Ht). split_and!; [done | by rewrite Forall_cons; tauto |].
      exists (S n). split; [cbn; lia |]. cbn. f_equal. exact Ht.
    + destruct Ht as [Ht Hf]. split; [cbn; by f_equal | by apply Forall_cons].
  - vstep. split; [done |]. split_and!; [done | cbn [app]; rewrite Forall_singleton; cbn; congruence |].
    exists 0%nat. split; [cbn; lia |]. done.
Qed.

Lemma close_all_spec (E : cevent -> Prop) l : forall s,
  spec E (each close_transport l) s (fun t _ s' => s' = s /\ calls t = map close l).
Proof.
  induction l as [|r l IH]; intros s; [by rewrite each_nil; vstep |].
  rewrite each_cons. vstep. unfold close_transport. vstep. vstep. vstep.
  eapply spec_mono; [apply IH |]. intros t [] s' [-> Ht]. cbn. by rewrite <- Ht.
Qed.

(** The steps of [close_loop]: a transport that refuses to close is tried again,
    one that closes leaves the list. *)
Inductive closes : list NANO_XRCE_AgentTransportRecord -> list cevent ->
    list NANO_XRCE_AgentTransportRecord -> Prop :=
  | closes_done l : closes l [] l
  | closes_again r l rc t l' :
      rc <> NANO_RETCODE_OK -> closes (r :: l) t l' ->
      closes (r :: l) (existT (close r) rc :: t) l'
  | closes_next r l t l' :
      closes l t l' -> closes (r :: l) (existT (close r) NANO_RETCODE_OK :: t) l'.

(** The loop ends exactly when every transport has closed. *)
Lemma close_loop_runs fuel : forall l s t o,
  runs (close_loop fuel l s) t o ->
  exists rest, closes l t rest
    /\ (rest = [] -> o = Returned (tt, s))
    /\ (rest <> [] -> o = Unfinished /\ length t = fuel).
Proof.
  induction fuel as [|fuel IH]; intros [|r l] s t o; cbn [close_loop]; intros H.
  - destruct H as [-> ->]. exists []. split_and!; [constructor | done | done].
  - destruct H as [-> ->]. exists (r :: l). split_and!; [constructor | done | done].
  - destruct H as [-> ->]. exists []. split_and!; [constructor | done | done].
  - apply bind_call_runs in H as (rc & t' & -> & H). destruct (decide (rc = NANO_RETCODE_OK)) as [-> | Hrc].
    + destruct (IH l s t' o H) as (rest & Hc & Hd & Hu). exists rest.
      split_and!; [by constructor | done |]. intros Hr. destruct (Hu Hr) as [-> Hl]. cbn. by rewrite Hl.
    + rewrite (is_ok_false _ Hrc) in H. destruct (IH (r :: l) s t' o H) as (rest & Hc & Hd & Hu). exists rest.
      split_and!; [by constructor | done |]. intros Hr. destruct (Hu Hr) as [-> Hl]. cbn. by rewrite Hl.
Qed.

(** The transport [tr] refuses to close, or every transport closes. *)
Definition close_answer (P : Z -> NANO_RetCode -> Prop) (e : cevent) : Prop :=
  match e with
  | existT c r =>
      match c return Resp c -> Prop with
      | TransportClose tr => P tr
      | _ => fun _ => True
      end r
  end.
Definition refuses_close (tr : Z) : cevent -> Prop :=
  close_answer (fun x rc => x = tr -> rc <> NANO_RETCODE_OK).
Definition closes_at_once : cevent -> Prop := close_answer (fun _ rc => rc = NANO_RETCODE_OK).

Lemma closes_stuck l t rest tr :
  closes l t rest -> Forall (refuses_close tr) t -> tr ∈ map tr_transport l -> rest <> [].
Proof.
  induction 1 as [l | r l rc t l' Hrc Hc IH | r l t l' Hc IH]; intros Hf Hin.
  - intros ->. by apply elem_of_nil in Hin.
  - apply Forall_cons in Hf as [_ Hf]. auto.
  - apply Forall_cons in Hf as [Hr Hf]. cbn in Hin. apply elem_of_cons in Hin as [-> | Hin].
    + by destruct (Hr eq_refl).
    + auto.
Qed.

Lemma closes_all l t rest :
  closes l t rest -> Forall closes_at_once t ->
  calls t ++ map close rest = map close l.
Proof.
  induction 1 as [l | r l rc t l' Hrc Hc IH | r l t l' Hc IH]; intros Hf; [done | |].
  - apply Forall_cons in Hf as [Hr _]. by cbn in Hr.
  - apply Forall_cons in Hf as [_ Hf]. change (close r :: (calls t ++ map close l') = close r :: map close l).
    by rewrite IH.
Qed.

(** A run of the loop followed by a return. *)
Lemma disable_runs (fuel : nat) (f : NANO_XRCE_Agent -> NANO_XRCE_Agent) l s t o :
  runs (bind (update_agent f) (fun _ => bind (close_loop fuel l) (fun _ => ret NANO_RETCODE_OK)) s) t o ->
  exists rest, closes l t rest
    /\ (rest = [] -> o = Returned (NANO_RETCODE_OK, set_agent (f (agent s)) s))
    /\ (rest <> [] -> o = Unfinished /\ length t = fuel).
Proof.
  intros H. change (runs (bind (close_loop fuel l) (fun _ => ret NANO_RETCODE_OK) (set_agent (f (agent s)) s)) t o) in H.
  set (s' := set_agent (f (agent s)) s) in *. clearbody s'. clear s.
  unfold bind in H. apply tbind_split in H as [(t1 & t2 & [[] s1] & -> & H1 & H2) | (o' & Hno & H1 & Ho)].
  - destruct H2 as [-> ->]. rewrite app_nil_r. destruct (close_loop_runs _ _ _ _ _ H1) as (rest & Hc & Hd & Hu).
    exists rest. split_and!; [done | |].
    + intros Hr. specialize (Hd Hr). by injection Hd as <-.
    + intros Hr. by destruct (Hu Hr).
  - destruct (close_loop_runs _ _ _ _ _ H1) as (rest & Hc & Hd & Hu). exists rest. split_and!; [done | |].
    + intros Hr. specialize (Hd Hr). subst o'. by destruct (Hno (tt, s')).
    + intros Hr. destruct (Hu Hr) as [-> Hl]. by split.
Qed.

(** The messages of [msgs] are sent to the locator of the client and completed. *)
Definition send_calls (c : NANO_XRCE_ProxyClient) (msgs : list Z) : list Call :=
  flat_map (fun m => [ClientTransportNextSend; TransportSendTo (cl_transport c) (cl_locator c) m;
                      ClientTransportSendComplete m]) msgs.
End starting.

(** ** Properties *)

(** an agent is created by its calls in order: all granted, it has the
    properties given (but for the two message limits, which are not copied), its
    pools and its mutex and no transport.  When one is refused no agent is
    returned and its structure is freed, but nothing else that was created. *)
Theorem Agent_new_creates {N : NanoClient} {NOk : NanoClientOk N}
    (from : NANO_XRCE_AgentProperties) (s : Service) (Hwf : properties_wf from) :
  spec (fun _ => True) (NANO_XRCE_Agent_new from) s (fun t ok s' =>
    (ok = true <-> Forall granted t)
    /\ (ok = true -> calls t = HeapAllocate 1 :: creation_calls from
                     /\ s' = set_agent (new_agent from) s)
    /\ (ok = false ->
          calls t = [HeapAllocate 1]
          \/ exists made, made `prefix_of` creation_calls from
               /\ calls t = HeapAllocate 1 :: made ++ [HeapFree])).
Proof.
  unfold NANO_XRCE_Agent_new. vstep. vstep. destruct r; cbn [negb].
  2: { vstep. split; [| split; [done | by left]]. cbn [app]. rewrite Forall_singleton. done. }
  vstep. apply spec_update_agent. vstep. eapply spec_mono; [by apply initialize_spec |].
  intros t rc s' [(Hp & Hg & Hall) Hs]. vstep.
  - vstep. cbn [app]. rewrite app_nil_r. split; [| split; [| done]].
    + rewrite Forall_cons. split; [| done]. intros _. split; [done | by apply Hg].
    + intros _. split; [| by apply Hs]. change (HeapAllocate 1 :: calls t = HeapAllocate 1 :: creation_calls from).
      by rewrite Hall.
  - repeat vstep. cbn [app]. split; [| split; [done |]].
    + split; [done |]. rewrite Forall_cons, Forall_app. intros (_ & Hf & _). by apply Hg in Hf.
    + intros _. right. exists (calls t). split; [done |].
      change (HeapAllocate 1 :: calls (t ++ [existT HeapFree r]) = HeapAllocate 1 :: calls t ++ [HeapFree]).
      by rewrite calls_app.
Qed.

(** C12: in the life of an agent, every transport whose initialization succeeds
    is finalized exactly once, be it at once, because it could not be recorded, or
    with the agent, and every record is returned to its pool. *)
Theorem agent_life_balanced {N : NanoClient} {NOk : NanoClientOk N} (trs : list Z) (s : Service)
    (Hempty : transports (agent s) = []) :
  spec (fun _ => True)
    (bind (each (fun tr => bind (NANO_XRCE_Agent_register_transport tr) (fun _ => ret tt)) trs)
       (fun _ => NANO_XRCE_Agent_finalize)) s
    (fun t _ s' => Permutation (finalized t) (initialized t)
                   /\ balanced Pool_transports t /\ transports (agent s') = []).
Proof.
  vstep. eapply spec_mono.
  - apply (spec_each _ _ (fun _ t s' => life_invariant t s')).
    + unfold life_invariant. by rewrite Hempty.
    + intros tr l t s1 Hinv. vstep. eapply spec_mono; [apply register_transport_spec |].
      intros t' rc s2 Hreg. vstep. rewrite app_nil_r. by eapply register_life.
  - intros t [] s1 (Hr & Ht & Hp). eapply spec_mono; [apply finalize_agent_spec |].
    intros t' [] s' (Htr & Hr' & Ht' & Hf' & Hi'). unfold balanced.
    rewrite finalized_app, initialized_app, returned_app, taken_app, Hr, Hr', Ht, Ht', Hf', Hi', !app_nil_r.
    done.
Qed.

(** C13: [enable] tells the transports to listen in the order of registration,
    and enables the agent when all do.  Otherwise, and when the agent is enabled
    already or has no transport, the agent is unchanged but all its transports are
    closed, those of a running agent included. *)
Theorem Agent_enable_or_closes {N : NanoClient} {NOk : NanoClientOk N} (s : Service) :
  let l := transports (agent s) in
  let enabled := NANO_XRCE_Agent_flags (agent s) AGENTFLAGS_ENABLED in
  spec (fun _ => True) NANO_XRCE_Agent_enable s (fun t rc s' =>
    (rc = NANO_RETCODE_OK <-> enabled = false /\ l <> [] /\ Forall listening t)
    /\ (rc = NANO_RETCODE_OK ->
          calls t = map listen l
          /\ NANO_XRCE_Agent_flags (agent s') AGENTFLAGS_ENABLED = true
          /\ s' = set_agent (set_flags (flags (agent s')) (agent s)) s)
    /\ (rc <> NANO_RETCODE_OK ->
          s' = s /\ exists n, (n <= length l)%nat /\ (enabled = true -> n = 0%nat)
                              /\ calls t = map listen (take n l) ++ map close l)).
Proof.
  cbv zeta. unfold NANO_XRCE_Agent_enable. vstep. vstep. vstep.
  destruct (NANO_XRCE_Agent_flags (agent s) AGENTFLAGS_ENABLED).
  { vstep. cbn [app]. vstep. eapply spec_mono; [apply close_all_spec |]. intros t [] s' [-> Ht]. vstep.
    rewrite app_nil_r. split; [split; [done | by intros []] | split; [done |]].
    intros _. split; [done |]. exists 0%nat. split_and!; [lia | done | exact Ht]. }
  destruct (transports (agent s)) as [|r l] eqn:Hl.
  { vstep. vstep. rewrite each_nil. vstep. vstep. split; [split; [done | by intros (_ & [] & _)] | split; [done |]].
    intros _. split; [done |]. by exists 0%nat. }
  eapply spec_mono; [apply listen_all_spec |]. intros t [rc|] s' [-> Ht].
  - destruct Ht as (Hrc & Hf & n & Hn & Ht). vstep.
    eapply spec_mono; [apply close_all_spec |]. intros t' [] s' [-> Ht']. vstep. rewrite app_nil_r.
    split; [| split; [done |]].
    + split; [done |]. by intros (_ & _ & [Hx _]%(Forall_app _ t)).
    + intros _. split; [done |]. exists (S n). split_and!; [lia | done |].
      cbn [app]. by rewrite calls_app, Ht, Ht'.
  - destruct Ht as [Ht Hf]. vstep. apply spec_update_agent. vstep. rewrite app_nil_r.
    split; [| split; [| done]].
    + done.
    + intros _. split_and!; [done | apply flags_set_enabled | done].
Qed.

(** [disable] clears the flag and closes the transports in order, trying
    again the one that fails: it ends exactly when every transport has closed.
    When all close at once, one round per transport is enough; when one always
    refuses, no fuel is: the code never returns. *)
Theorem Agent_disable_retries {N : NanoClient} {NOk : NanoClientOk N} (fuel : nat) (s : Service)
    (t : list cevent) (o : outcome (NANO_RetCode * Service))
    (Henabled : NANO_XRCE_Agent_flags (agent s) AGENTFLAGS_ENABLED = true)
    (Hrun : runs (NANO_XRCE_Agent_disable fuel s) t o) :
  let l := transports (agent s) in
  let s' := set_agent (NANO_XRCE_Agent_flags_unset AGENTFLAGS_ENABLED (agent s)) s in
  (exists rest, closes l t rest
     /\ (rest = [] -> o = Returned (NANO_RETCODE_OK, s'))
     /\ (rest <> [] -> o = Unfinished /\ length t = fuel))
  /\ NANO_XRCE_Agent_flags (agent s') AGENTFLAGS_ENABLED = false
  /\ (Forall closes_at_once t -> (length l <= fuel)%nat ->
      o = Returned (NANO_RETCODE_OK, s') /\ calls t = map close l)
  /\ (forall tr, tr ∈ map tr_transport l -> Forall (refuses_close tr) t -> o = Unfinished).
Proof.
  cbv zeta. unfold NANO_XRCE_Agent_disable in Hrun.
  change (runs ((if negb (NANO_XRCE_Agent_flags (agent s) AGENTFLAGS_ENABLED) then ret NANO_RETCODE_ERROR
    else bind (update_agent (NANO_XRCE_Agent_flags_unset AGENTFLAGS_ENABLED))
           (fun _ => bind (close_loop fuel (transports (agent s))) (fun _ => ret NANO_RETCODE_OK))) s) t o) in Hrun.
  rewrite Henabled in Hrun; cbn [negb] in Hrun.
  assert (Hloop : exists rest, closes (transports (agent s)) t rest
     /\ (rest = [] -> o = Returned (NANO_RETCODE_OK,
                        set_agent (NANO_XRCE_Agent_flags_unset AGENTFLAGS_ENABLED (agent s)) s))
     /\ (rest <> [] -> o = Unfinished /\ length t = fuel)) by by apply disable_runs in Hrun.
  split; [exact Hloop |]. split; [apply flags_unset_enabled |].
  destruct Hloop as (rest & Hc & Hd & Hu). split.
  - intros Hf Hfuel. pose proof (closes_all _ _ _ Hc Hf) as Hall. destruct rest as [|r rest].
    + split; [by apply Hd |]. by rewrite app_nil_r in Hall.
    + exfalso. destruct (Hu ltac:(done)) as [_ Hlen]. apply (f_equal length) in Hall.
      rewrite length_app, calls_length, !length_map in Hall. cbn [length] in Hall. lia.
  - intros tr Hin Hf. by apply Hu, (closes_stuck _ _ _ tr Hc Hf).
Qed.

(** [flush_output] sends what the session of the client has queued, in
    order, each message once, to the locator the client is bound to, and
    completes it when it is sent; it stops at the first message the transport
    refuses, which is neither completed nor released. *)
Theorem flush_output_sends {N : NanoClient} {NOk : NanoClientOk N} (fuel : nat) (client : Z)
    (c : NANO_XRCE_ProxyClient) (s : Service) (t : list cevent) (o : outcome (unit * Service))
    (Hclient : client_at s !! client = Some c)
    (Hrun : runs (NANO_XRCE_ProxyClientTransport_flush_output fuel client s) t o) :
  exists msgs : list Z,
    (o = Returned (tt, s) /\ calls t = send_calls c msgs ++ [ClientTransportNextSend])
    \/ (o = Returned (tt, s) /\ exists m rc t0, rc <> NANO_RETCODE_OK
          /\ t = t0 ++ [existT ClientTransportNextSend (Some m);
                        existT (TransportSendTo (cl_transport c) (cl_locator c) m) rc]
          /\ calls t0 = send_calls c msgs)
    \/ (o = Unfinished /\ length msgs = fuel /\ calls t = send_calls c msgs).
Proof.
  revert t o Hrun. induction fuel as [|fuel IH]; cbn [NANO_XRCE_ProxyClientTransport_flush_output]; intros t o Hrun.
  { destruct Hrun as [-> ->]. exists []. by do 2 right. }
  apply bind_call_runs in Hrun as ([m|] & t1 & -> & Hrun).
  2: { destruct Hrun as [-> ->]. exists []. by left. }
  unfold client_of, reads, bind at 1 in Hrun. rewrite Hclient in Hrun. cbn [tbind] in Hrun.
  apply bind_call_runs in Hrun as (rc & t2 & -> & Hrun). unfold check in Hrun.
  destruct (decide (rc = NANO_RETCODE_OK)) as [-> | Hrc]; cbn [is_ok] in Hrun.
  - apply bind_call_runs in Hrun as ([] & t3 & -> & Hrun). destruct (IH t3 o Hrun) as (msgs & Hmsgs).
    exists (m :: msgs). destruct Hmsgs as [[Ho Ht] | [(Ho & m' & rc' & t0 & Hrc' & -> & Ht0) | (Ho & Hl & Ht)]].
    + left. split; [done |]. cbn. by do 3 f_equal.
    + right; left. split; [done |].
      exists m', rc', (existT ClientTransportNextSend (Some m)
        :: existT (TransportSendTo (cl_transport c) (cl_locator c) m) NANO_RETCODE_OK
        :: existT (ClientTransportSendComplete m) tt :: t0).
      split_and!; [done | done |]. cbn. by do 3 f_equal.
    + do 2 right. split_and!; [done | cbn; lia |]. cbn. by do 3 f_equal.
  - rewrite (is_ok_false _ Hrc) in Hrun. destruct Hrun as [-> ->]. exists []. right; left.
    split; [done |]. by exists m, rc, [].
Qed.

(** ** Witnesses *)

(** Properties with one mapping. *)
Definition mapped_properties : NANO_XRCE_AgentProperties :=
  {| client_session_timeout := {| time_sec := 30; time_nanosec := 0 |};
     auto_client_mapping := false;
     client_mappings := Some [{| cm_client_key := {| key0 := 1; key1 := 2; key2 := 3; key3 := 4 |};
                                 cm_locator := 42%Z : TransportLocator |}];
     client_mappings_len := 1;
     heartbeat_period := {| time_sec := 1; time_nanosec := 0 |};
     confirm_all_requests := true; auto_delete_resources := false;
     max_messages_per_acknack := 4; max_messages_per_heartbeat := 4 |}.

(** The session storage pool cannot be created. *)
Definition exhausted_environment : environment Resp :=
  fun past c =>
    match c return Resp c with
    | PoolNew Pool_storage_session _ => false
    | c => quiet_environment past c
    end.

Lemma Agent_new_creates_witness :
  properties_wf mapped_properties
  /\ exists made, made `prefix_of` creation_calls mapped_properties
       /\ run_calls exhausted_environment (NANO_XRCE_Agent_new mapped_properties) sample_service
          = HeapAllocate 1 :: made ++ [HeapFree].
Proof.
  split; [reflexivity |].
  destruct (spec_exec _ _ _ _ exhausted_environment
              (Agent_new_creates mapped_properties sample_service eq_refl) (fun _ _ => I))
    as (ok & s' & Hrun & _ & _ & Hfail).
  assert (Hok : match snd (exec exhausted_environment [] (NANO_XRCE_Agent_new mapped_properties sample_service)) with
                | Returned (ok, _) => ok | _ => true end = false) by (vm_compute; reflexivity).
  rewrite Hrun in Hok. destruct (Hfail Hok) as [H | H]; [| exact H].
  assert (Hlen : length (run_calls exhausted_environment (NANO_XRCE_Agent_new mapped_properties) sample_service)
                 = 7%nat) by (vm_compute; reflexivity).
  unfold run_calls in Hlen. rewrite H in Hlen. discriminate Hlen.
Defined.

(** The sample service before any transport is registered. *)
Definition bare_service : Service := set_agent (set_transports [] sample_agent) sample_service.

Lemma agent_life_balanced_witness :
  transports (agent bare_service) = []
  /\ spec (fun _ => True)
       (bind (each (fun tr => bind (NANO_XRCE_Agent_register_transport tr) (fun _ => ret tt)) [5; 6]%Z)
          (fun _ => NANO_XRCE_Agent_finalize)) bare_service
       (fun t _ s' => Permutation (finalized t) (initialized t)
                      /\ balanced Pool_transports t /\ transports (agent s') = []).
Proof. split; [reflexivity |]. exact (agent_life_balanced [5; 6]%Z bare_service eq_refl). Defined.

(** The transport 5 never closes. *)
Definition stuck_environment : environment Resp :=
  fun past c =>
    match c return Resp c with
    | TransportClose _ => NANO_RETCODE_ERROR
    | c => quiet_environment past c
    end.

Lemma stuck_refuses past (c : Call) : refuses_close 5 (existT c (stuck_environment past c)).
Proof. by destruct c. Qed.

Lemma Agent_disable_retries_witness :
  NANO_XRCE_Agent_flags sample_agent AGENTFLAGS_ENABLED = true
  /\ forall fuel, snd (exec stuck_environment [] (NANO_XRCE_Agent_disable fuel sample_service)) = Unfinished.
Proof.
  split; [reflexivity |]. intros fuel.
  destruct (Agent_disable_retries fuel sample_service _ _ eq_refl
              (exec_runs stuck_environment (NANO_XRCE_Agent_disable fuel sample_service) []))
    as (_ & _ & _ & Hstuck).
  apply (Hstuck 5%Z).
  - change (5%Z ∈ [5%Z]). apply elem_of_cons. by left.
  - apply exec_contract, stuck_refuses.
Defined.

(** Two messages are queued. *)
Definition queued_environment : environment Resp :=
  fun past c =>
    match c return Resp c with
    | ClientTransportNextSend =>
        match length past with O => Some 101%Z | 3%nat => Some 102%Z | _ => None end
    | c => quiet_environment past c
    end.

Lemma flush_output_sends_witness :
  client_at sample_service !! 7%Z = Some sample_client
  /\ run_calls queued_environment (NANO_XRCE_ProxyClientTransport_flush_output 5 7) sample_service
     = send_calls sample_client [101; 102]%Z ++ [ClientTransportNextSend]
  /\ exists msgs,
       run_calls queued_environment (NANO_XRCE_ProxyClientTransport_flush_output 5 7) sample_service
       = send_calls sample_client msgs ++ [ClientTransportNextSend].
Proof.
  split; [reflexivity |]. split; [reflexivity |].
  destruct (flush_output_sends 5 7 sample_client sample_service _ _ eq_refl
              (exec_runs queued_environment (NANO_XRCE_ProxyClientTransport_flush_output 5 7 sample_service) []))
    as (msgs & [[_ H] | [(_ & m & rc & t0 & Hrc & Ht & _) | (H & _)]]).
  - by exists msgs.
  - by exists [101; 102]%Z.
  - assert (Hr : match snd (exec queued_environment []
                              (NANO_XRCE_ProxyClientTransport_flush_output 5 7 sample_service)) with
                 | Returned _ => true | _ => false end = true) by (vm_compute; reflexivity).
    rewrite H in Hr. discriminate Hr.
Defined.

(** Enabling the sample agent again closes its transport. *)
Lemma Agent_enable_or_closes_witness :
  exists n, (n <= 1)%nat
    /\ run_calls quiet_environment NANO_XRCE_Agent_enable sample_service
       = map listen (take n (transports sample_agent)) ++ [TransportClose 5].
Proof.
  destruct (spec_exec _ _ _ _ quiet_environment (Agent_enable_or_closes sample_service) (fun _ _ => I))
    as (rc & s' & Hrun & Hok & _ & Hfail).
  assert (Hrc : rc <> NANO_RETCODE_OK) by (intros H; apply Hok in H; destruct H as [H _]; discriminate H).
  destruct (Hfail Hrc) as (_ & n & Hn & _ & Hcalls). exists n. split; [exact Hn | exact Hcalls].
Defined.
