(* ===== verification/ClientTransport.v ===== *)
(** * The transport of a proxy client

    The functions of [AgentTransport.c] that the session of a client calls on its transport, but
    for [flush_output], in [Lifecycle], and [set_bind_entry], in [Sessions], which use the memory
    of the service.  A session of the client library gets this transport when it is initialized
    ([NANO_XRCE_ProxyClient_initialize]).  [finalize] only logs.  The functions that are
    unreachable on the agent are undefined here. *)

From Stdlib Require Import ZArith Lia.
From stdpp Require Import base tactics list.
From S2P Require Import Prelude.
From S2P Require Import Interaction.
From S2P Require Import ServiceData.

Local Open Scope nano_scope.

Section transport.
Context {N : NanoClient}.

Record NANO_XRCE_AgentTransportBindEntry := {
  be_transport : option Z;
  be_key : NANO_XRCE_ClientKey;
  be_locator : TransportLocator
}.

(** [listener] is that of [base]. *)
Record NANO_XRCE_ProxyClientTransport := {
  pt_listener : option Z;
  pt_key : NANO_XRCE_ClientKey;
  pt_id : Z;
  pt_bind_entry : NANO_XRCE_AgentTransportBindEntry
}.

Record NANO_XRCE_ProxyClientTransportProperties := {
  pp_key : NANO_XRCE_ClientKey;
  pp_id : Z
}.

(** The one call: the message goes to the listener, which is the session, and it may retain the
    message. *)
Inductive PCall := ListenerReceived (listener : option Z) (message : Z) (len : Z).
Definition PResp (_ : PCall) : Type := bool.
Definition client_transport (A : Type) : Type := prog PResp NANO_XRCE_ProxyClientTransport A.

Definition NANO_XRCE_ProxyClientTransport_initialize (listener : option Z)
    (props : NANO_XRCE_ProxyClientTransportProperties) : client_transport NANO_RetCode :=
  modify (fun self =>
    {| pt_listener := listener; pt_key := pp_key props; pt_id := pp_id props;
       pt_bind_entry := {| be_transport := be_transport (pt_bind_entry self);
                           be_key := pp_key props;
                           be_locator := be_locator (pt_bind_entry self) |} |});;
  ret NANO_RETCODE_OK.

Definition NANO_XRCE_ProxyClientTransport_process_input (max_messages timeout_ms : Z)
    : client_transport NANO_RetCode :=
  ret NANO_RETCODE_ERROR.

Definition NANO_XRCE_ProxyClientTransport_return_message (msg : Z) : client_transport unit :=
  undefined.

Definition NANO_XRCE_ProxyClientTransport_update_locator (locator : TransportLocator)
    : client_transport NANO_RetCode :=
  undefined.

(** Whether the message is retained.  Nothing calls it: messages go to the session directly. *)
Definition NANO_XRCE_ProxyClientTransport_on_message_received (msg msg_len : Z)
    : client_transport bool :=
  let* self := gets pt_listener in
  call (R := PResp) (ListenerReceived self msg msg_len).
End transport.
