(* ===== verification/TransportData.v ===== *)
(** * The transports of the agent: shared data and calls

    What [AgentTransportUdpv4.c] and [AgentTransportSerial.c] have in common: the
    properties of [nano_agent_transport.h], the part of the client library and
    of the operating system they use (class [NanoTransports] for constants and
    pure functions, [TCall] for calls), the resources a trace acquires and
    releases, and [MessageBufferPool.c].

    [active] is written by the thread that closes a transport and read by its
    receive threads, so its accesses are calls ([ReadActive], [WriteActive]); the
    other fields belong to the thread that runs the function. *)

From Stdlib Require Import ZArith Lia.
From stdpp Require Import base tactics list gmap.
From S2P Require Import Prelude.
From S2P Require Import Interaction.
From S2P Require Import ServiceData.

Local Open Scope nano_scope.

Definition NANO_U16_MAX : Z := 65535.
Definition MAX_ADDRS : Z := 16.

Record NANO_XRCE_TransportLocatorMedium := { lm_address : Z; lm_port : Z }.

(** The header of a message buffer: its flags and the length of its data. *)
Record NANO_MessageBuffer := { mb_inline : bool; mb_discovery : bool; mb_data_len : Z }.

Class NanoTransports {N : NanoClient} := {
  MESSAGE_SERIALIZED_SIZE_MIN : Z;
  MESSAGEBUFFER_MAX_INLINE_PAYLOAD : Z -> Z;
  MESSAGEBUFFER_INITIALIZER : NANO_MessageBuffer;
  TRANSPORT_UDP_AGENT_PORT_DEFAULT : Z;
  TRANSPORT_UDP_METADATA_PORT_DEFAULT : Z;
  LOCATORMEDIUM_INITIALIZER : NANO_XRCE_TransportLocatorMedium;
  METADATA_LOCATOR_INITIALIZER : NANO_XRCE_TransportLocatorMedium;
  LocatorMedium_narrow : TransportLocator -> option NANO_XRCE_TransportLocatorMedium;
  LocatorMedium_to_locator : NANO_XRCE_TransportLocatorMedium -> TransportLocator;
  LocatorMedium_to_ipv4addr : NANO_XRCE_TransportLocatorMedium -> Z;
  LocatorMedium_from_ipv4addr : Z -> Z -> NANO_XRCE_TransportLocatorMedium;
  Ipv4Addr_is_multicast : Z -> bool;
  Udpv4Socket : Type;
  UDPV4SOCKET_INITIALIZER : Udpv4Socket;
  Udpv4Socket_is_valid : Udpv4Socket -> bool;
  Udpv4SocketProperties : Type;
  Udpv4SocketProperties_set_multicast : Udpv4SocketProperties -> Udpv4SocketProperties;
  LocatorSmall : Type;
  LOCATORSMALL_INITIALIZER : LocatorSmall;
  LocatorSmall_narrow : TransportLocator -> option LocatorSmall;
  LocatorSmall_to_locator : LocatorSmall -> TransportLocator;
  TransportLocator_small : TransportLocator -> LocatorSmall;
  SerialConnectionProperties : Type
}.

Record NANO_XRCE_AgentTransportProperties {N : NanoClient} := {
  tp_bind_address : TransportLocator;
  tp_metadata_address : TransportLocator;
  tp_enable_discovery : bool;
  tp_mtu_max : Z
}.

(** ** Calls *)

Inductive UdpSocket := ClientSocket | MetadataSocket.
Inductive SemaphoreKind := SemCounting | SemMutex.
Inductive ThreadKind := ThreadRecv | ThreadRecvMetadata | ThreadSerialRecv (record : Z).
(** What a socket sends: a buffer of the agent or the message of zeros that wakes
    a receive thread. *)
Inductive Datagram := MessageAt (msg : Z) | ExitMessage (len : Z).

#[export] Instance UdpSocket_eq_dec : EqDecision UdpSocket.
Proof. solve_decision. Defined.
#[export] Instance ThreadKind_eq_dec : EqDecision ThreadKind.
Proof. solve_decision. Defined.

Section calls.
Context {N : NanoClient} {T : NanoTransports}.

(** A pointer the code does not test is passed on as it is, NULL included. *)
Inductive TCall :=
  | BufferPoolNew (buffer_size : Z)
  | BufferPoolNewForRecvThread
  | BufferPoolDelete (pool : option Z)
  | BufferPoolGet (pool : option Z)
  | BufferPoolReturn (pool : option Z) (buffer : Z)
  | BufferPoolSize (pool : option Z)
  | Ipv4AddrList (max : Z)
  | SocketOpen (socket : UdpSocket) (address port : Z) (properties : Udpv4SocketProperties)
  | SocketClose (socket : UdpSocket) (value : Udpv4Socket)
  | SocketSend (value : Udpv4Socket) (address port : Z) (msg : Datagram)
  | SocketRecv (value : Udpv4Socket) (msg : Z) (header : NANO_MessageBuffer)
  | SemaphoreNew (kind : SemaphoreKind)
  | SemaphoreDelete (semaphore : option Z)
  | SemaphoreTake (semaphore : option Z)
  | SemaphoreGive (semaphore : option Z)
  | ThreadNew (kind : ThreadKind)
  | ThreadDelete (thread : option Z)
  | ReadActive
  | WriteActive (active : bool)
  | OnMessageReceived (src : TransportLocator) (msg : Z) (msg_len : Z)
  | HeapAllocateAligned (size : Z)
  | HeapFreeBuffer (buffer : option Z)
  | SerialInitialize (record : Z) (mtu : Z) (connection : SerialConnectionProperties)
      (bind_address : LocatorSmall) (recv_buffer : Z)
  | SerialRecvMsgData (record : Z)
  | SerialFinalize (record : Z)
  | SerialReceiveFrame (record : Z) (msg : Z) (header : NANO_MessageBuffer) (timeout : Z)
  | SerialSend (record : Z) (bind_address address : LocatorSmall) (msg : Z).

(** A reception answers the source, the length and the header the buffer has
    afterwards; the listener whether it keeps the buffer, and its header. *)
Definition TResp (c : TCall) : Type :=
  match c with
  | BufferPoolNew _ | BufferPoolNewForRecvThread | BufferPoolGet _ => option Z
  | BufferPoolDelete _ | BufferPoolReturn _ _ => unit
  | BufferPoolSize _ => Z
  | Ipv4AddrList _ => NANO_RetCode * list Z
  | SocketOpen _ _ _ _ => NANO_RetCode * Udpv4Socket
  | SocketClose _ _ => Udpv4Socket
  | SocketSend _ _ _ _ => NANO_RetCode
  | SocketRecv _ _ _ =>
      NANO_RetCode * NANO_XRCE_TransportLocatorMedium * Z * NANO_MessageBuffer
  | SemaphoreNew _ => option Z
  | SemaphoreDelete _ | SemaphoreTake _ => unit
  | SemaphoreGive _ => bool
  | ThreadNew _ => option Z
  | ThreadDelete _ => unit
  | ReadActive => bool
  | WriteActive _ => unit
  | OnMessageReceived _ _ _ => bool * NANO_MessageBuffer
  | HeapAllocateAligned _ => option Z
  | HeapFreeBuffer _ => unit
  | SerialInitialize _ _ _ _ _ => NANO_RetCode
  | SerialRecvMsgData _ => option Z
  | SerialFinalize _ => unit
  | SerialReceiveFrame _ _ _ _ => NANO_RetCode * Z * LocatorSmall * NANO_MessageBuffer
  | SerialSend _ _ _ _ => NANO_RetCode
  end.

Definition tevent : Type := event TResp.

(** ** Resources

    What an event acquires and what it releases.  A socket is held from an open
    that succeeds to its close, a serial port from the initialization of its
    client transport to its finalization. *)

Inductive Handle :=
  | HPool (pool : Z) | HSemaphore (semaphore : Z) | HSocket (socket : UdpSocket)
  | HThread (thread : Z) | HBuffer (buffer : Z) | HHeap (buffer : Z) | HSerial (record : Z).

Definition handles {A} (f : A -> Handle) (o : option A) : list Handle :=
  match o with Some a => [f a] | None => [] end.

Definition acquires (e : tevent) : list Handle :=
  match e with
  | existT c r =>
      match c return TResp c -> list Handle with
      | BufferPoolNew _ | BufferPoolNewForRecvThread => handles HPool
      | BufferPoolGet _ => handles HBuffer
      | SocketOpen w _ _ _ => fun r => if is_ok (fst r) then [HSocket w] else []
      | SemaphoreNew _ => handles HSemaphore
      | ThreadNew _ => handles HThread
      | HeapAllocateAligned _ => handles HHeap
      | SerialInitialize p _ _ _ _ => fun rc => if is_ok rc then [HSerial p] else []
      | _ => fun _ => []
      end r
  end.

Definition releases (e : tevent) : list Handle :=
  match projT1 e with
  | BufferPoolDelete p => handles HPool p
  | BufferPoolReturn _ b => [HBuffer b]
  | SocketClose w _ => [HSocket w]
  | SemaphoreDelete s => handles HSemaphore s
  | ThreadDelete t => handles HThread t
  | HeapFreeBuffer b => handles HHeap b
  | SerialFinalize p => [HSerial p]
  | _ => []
  end.

Definition acquired (t : list tevent) : list Handle := flat_map acquires t.
Definition released (t : list tevent) : list Handle := flat_map releases t.

Lemma acquired_app t1 t2 : acquired (t1 ++ t2) = acquired t1 ++ acquired t2.
Proof. apply flat_map_app. Qed.
Lemma released_app t1 t2 : released (t1 ++ t2) = released t1 ++ released t2.
Proof. apply flat_map_app. Qed.
Lemma acquired_cons e t : acquired (e :: t) = acquires e ++ acquired t.
Proof. done. Qed.
Lemma released_cons e t : released (e :: t) = releases e ++ released t.
Proof. done. Qed.
Lemma acquired_nil : acquired [] = [].
Proof. done. Qed.
Lemma released_nil : released [] = [].
Proof. done. Qed.

(** A socket that opens is valid; one that does not open, or that was closed, is
    not. *)
Definition socket_contract (e : tevent) : Prop :=
  match e with
  | existT c r =>
      match c return TResp c -> Prop with
      | SocketOpen _ _ _ _ => fun r => Udpv4Socket_is_valid (snd r) = is_ok (fst r)
      | SocketClose _ _ => fun s => Udpv4Socket_is_valid s = false
      | _ => fun _ => True
      end r
  end.
End calls.

Arguments TCall {N T}.
Arguments TResp {N T} c.
Arguments tevent {N T}.
#[global] Arguments acquired : simpl never.
#[global] Arguments released : simpl never.

Abbreviation tcall := (call (R := TResp)).

#[export] Hint Rewrite @acquired_app @released_app @acquired_cons @released_cons
  @acquired_nil @released_nil : trace.

(** Computes what a trace of known calls acquires and releases. *)
Ltac resources :=
  cbn [app fst snd]; autorewrite with trace;
  cbn [acquires releases handles projT1 app fst snd is_ok];
  repeat match goal with
         | H : acquired _ = _ |- _ => rewrite H
         | H : released _ = _ |- _ => rewrite H
         end; cbn [app]; rewrite ?app_nil_r.

(** ** The pool of message buffers

    [MessagePool S] says where a transport of type [S] keeps its pool and the
    headers of its buffers, which both transports offer to
    [MessageBufferPool.c]. *)

Class MessagePool (S : Type) := {
  mp_pool : S -> option Z;
  mp_set_pool : option Z -> S -> S;
  mp_buffers : S -> gmap Z NANO_MessageBuffer;
  mp_set_buffers : gmap Z NANO_MessageBuffer -> S -> S
}.

Class MessagePoolOk (S : Type) `{MessagePool S} : Prop := {
  mp_pool_set_pool : forall p s, mp_pool (mp_set_pool p s) = p;
  mp_pool_set_buffers : forall b s, mp_pool (mp_set_buffers b s) = mp_pool s;
  mp_buffers_set_buffers : forall b s, mp_buffers (mp_set_buffers b s) = b;
  mp_buffers_set_pool : forall p s, mp_buffers (mp_set_pool p s) = mp_buffers s;
  mp_set_buffers_twice : forall b b' s, mp_set_buffers b (mp_set_buffers b' s) = mp_set_buffers b s
}.

Module MessageBufferPool.
Section pool.
Context {N : NanoClient} {T : NanoTransports} {S : Type} {MP : MessagePool S}.

Definition transport (A : Type) : Type := prog TResp S A.

Definition put_header (msg : Z) (h : NANO_MessageBuffer) (s : S) : S :=
  mp_set_buffers (<[msg := h]> (mp_buffers s)) s.

(** Reading or writing the header of a buffer that is not known is undefined. *)
Definition header_of (msg : Z) : transport NANO_MessageBuffer :=
  reads (fun s => mp_buffers s !! msg).

Definition set_data_len (msg : Z) (len : Z) : transport unit :=
  let* h := header_of msg in
  modify (put_header msg {| mb_inline := mb_inline h; mb_discovery := mb_discovery h;
                            mb_data_len := len |}).

Definition NANO_MessageBufferPool_initialize (data_size : Z) : transport NANO_RetCode :=
  if (MESSAGEBUFFER_DATA_LEN_MAX <? data_size)%Z then ret NANO_RETCODE_INVALID_ARGS
  else
    let* p := tcall (BufferPoolNew (MESSAGEBUFFER_INLINE_SIZE_BYTES data_size)) in
    modify (mp_set_pool p) ;;
    match p with
    | None => ret NANO_RETCODE_ERROR
    | Some _ => ret NANO_RETCODE_OK
    end.

Definition NANO_MessageBufferPool_finalize : transport unit :=
  let* p := gets mp_pool in
  tcall (BufferPoolDelete p) ;; modify (mp_set_pool None).

Definition NANO_MessageBufferPool_data_size : transport Z :=
  let* p := gets mp_pool in
  let* size := tcall (BufferPoolSize p) in
  ret (MESSAGEBUFFER_MAX_INLINE_PAYLOAD size).

(** The buffer is the value of [*msg_out]; the header is the initializer with
    the flag [inline] and the length set. *)
Definition NANO_MessageBufferPool_allocate : transport (NANO_RetCode * option Z) :=
  let* p := gets mp_pool in
  let* msg := tcall (BufferPoolGet p) in
  match msg with
  | None => ret (NANO_RETCODE_OUT_OF_RESOURCES, None)
  | Some msg =>
      let* size := NANO_MessageBufferPool_data_size in
      modify (put_header msg {| mb_inline := true;
                                mb_discovery := mb_discovery MESSAGEBUFFER_INITIALIZER;
                                mb_data_len := size |}) ;;
      ret (NANO_RETCODE_OK, Some msg)
  end.

Definition NANO_MessageBufferPool_release (msg : Z) : transport unit :=
  let* p := gets mp_pool in
  tcall (BufferPoolReturn p msg).

(** ** Its specification *)

Context {NOk : NanoClientOk N} {MOk : MessagePoolOk S}.

(** A pool is created exactly when a size that fits is granted; a refused size
    leaves the transport alone and a refused pool leaves NULL. *)
Lemma pool_initialize_spec E data_size s :
  spec E (NANO_MessageBufferPool_initialize data_size) s (fun t rc s' =>
    released t = []
    /\ (rc = NANO_RETCODE_OK /\ (exists p, acquired t = [HPool p] /\ s' = mp_set_pool (Some p) s)
        \/ rc <> NANO_RETCODE_OK /\ acquired t = [] /\ (s' = s \/ s' = mp_set_pool None s))).
Proof.
  unfold NANO_MessageBufferPool_initialize. repeat vstep; (split; [done |]); [by right; auto | |].
  - left. eauto.
  - right. auto.
Qed.

Lemma pool_finalize_spec E s :
  spec E NANO_MessageBufferPool_finalize s (fun t _ s' =>
    acquired t = [] /\ released t = handles HPool (mp_pool s) /\ s' = mp_set_pool None s).
Proof. unfold NANO_MessageBufferPool_finalize. repeat vstep. resources. done. Qed.

(** An allocated buffer is marked inline and offers the whole payload of the
    pool's buffers. *)
Lemma pool_allocate_spec E s :
  spec E NANO_MessageBufferPool_allocate s (fun t '(rc, msg) s' =>
    match msg with
    | None => t = [existT (BufferPoolGet (mp_pool s)) None] /\ s' = s
              /\ rc = NANO_RETCODE_OUT_OF_RESOURCES
    | Some msg => exists size,
        t = [existT (BufferPoolGet (mp_pool s)) (Some msg);
             existT (BufferPoolSize (mp_pool s)) size]
        /\ s' = put_header msg
             {| mb_inline := true; mb_discovery := mb_discovery MESSAGEBUFFER_INITIALIZER;
                mb_data_len := MESSAGEBUFFER_MAX_INLINE_PAYLOAD size |} s
        /\ rc = NANO_RETCODE_OK
    end).
Proof.
  unfold NANO_MessageBufferPool_allocate, NANO_MessageBufferPool_data_size.
  repeat vstep; [eauto | done].
Qed.

Lemma pool_release_spec E s msg :
  spec E (NANO_MessageBufferPool_release msg) s (fun t _ s' =>
    t = [existT (BufferPoolReturn (mp_pool s) msg) tt] /\ s' = s).
Proof. unfold NANO_MessageBufferPool_release. repeat vstep. by destruct r. Qed.

(** ** The loop of a receive thread

    Both transports run the same loop with their own [allocate] and [receive],
    which tells whether the listener retained the buffer.  [msg] is the buffer of
    the next reception, if there is one, and [msg_len_max] its length. *)
Fixpoint receive_loop (allocate : transport (option Z)) (receive : Z -> transport bool)
    (fuel : nat) (msg : option Z) (msg_len_max : Z) : transport unit :=
  match fuel with
  | O => unfinished
  | Datatypes.S fuel =>
      let* active := tcall ReadActive in
      if active then
        let* '(msg, msg_len_max) :=
          (match msg with
           | Some p => ret (Some p, msg_len_max)
           | None =>
               let* msg := allocate in
               match msg with
               | None => ret (None, msg_len_max)
               | Some p =>
                   let* h := header_of p in
                   ret (Some p, mb_data_len h)
               end
           end) in
        match msg with
        | None => ret tt
        | Some p =>
            let* retained := receive p in
            if retained then receive_loop allocate receive fuel None msg_len_max
            else
              set_data_len p msg_len_max ;;
              receive_loop allocate receive fuel (Some p) msg_len_max
        end
      else ret tt
  end.
End pool.
End MessageBufferPool.

(** ** A concrete platform

    The witnesses run the transports with [transports_model]: an address is a
    number, a locator is its port, and a socket is valid when it has a number. *)

#[export] Instance transports_model : NanoTransports (N := nano_model) := {|
  MESSAGE_SERIALIZED_SIZE_MIN := 8;
  MESSAGEBUFFER_MAX_INLINE_PAYLOAD n := (n - 64)%Z;
  MESSAGEBUFFER_INITIALIZER := {| mb_inline := false; mb_discovery := false; mb_data_len := 0 |};
  TRANSPORT_UDP_AGENT_PORT_DEFAULT := 7400;
  TRANSPORT_UDP_METADATA_PORT_DEFAULT := 7401;
  LOCATORMEDIUM_INITIALIZER := {| lm_address := 0; lm_port := 0 |};
  METADATA_LOCATOR_INITIALIZER := {| lm_address := 239; lm_port := 0 |};
  LocatorMedium_narrow l := Some {| lm_address := 0; lm_port := l |};
  LocatorMedium_to_locator m := lm_port m;
  LocatorMedium_to_ipv4addr m := lm_address m;
  LocatorMedium_from_ipv4addr a p := {| lm_address := a; lm_port := p |};
  Ipv4Addr_is_multicast a := (224 <=? a)%Z;
  Udpv4Socket := option Z;
  UDPV4SOCKET_INITIALIZER := None;
  Udpv4Socket_is_valid k := bool_decide (is_Some k);
  Udpv4SocketProperties := bool;
  Udpv4SocketProperties_set_multicast _ := true;
  LocatorSmall := Z;
  LOCATORSMALL_INITIALIZER := 0%Z;
  LocatorSmall_narrow l := Some l;
  LocatorSmall_to_locator l := l;
  TransportLocator_small l := l;
  SerialConnectionProperties := Z
|}.

(** Every call succeeds, and [active] stays TRUE for the first eight calls. *)
Definition transports_answer (past : list tevent) (c : TCall) : TResp c :=
  let fresh := Z.of_nat (length past) in
  match c return TResp c with
  | BufferPoolNew _ | BufferPoolNewForRecvThread | BufferPoolGet _ => Some fresh
  | BufferPoolDelete _ | BufferPoolReturn _ _ => tt
  | BufferPoolSize _ => 128%Z
  | Ipv4AddrList _ => (NANO_RETCODE_OK, [127%Z])
  | SocketOpen _ _ _ _ => (NANO_RETCODE_OK, Some fresh)
  | SocketClose _ _ => None
  | SocketSend _ _ _ _ => NANO_RETCODE_OK
  | SocketRecv _ _ h => (NANO_RETCODE_OK, {| lm_address := 1; lm_port := 5 |}, 12%Z, h)
  | SemaphoreNew _ => Some fresh
  | SemaphoreDelete _ | SemaphoreTake _ => tt
  | SemaphoreGive _ => true
  | ThreadNew _ => Some fresh
  | ThreadDelete _ => tt
  | ReadActive => (length past <? 8)%nat
  | WriteActive _ => tt
  | OnMessageReceived _ _ _ => (false, {| mb_inline := true; mb_discovery := false; mb_data_len := 12 |})
  | HeapAllocateAligned _ => Some fresh
  | HeapFreeBuffer _ => tt
  | SerialInitialize _ _ _ _ _ => NANO_RETCODE_OK
  | SerialRecvMsgData _ => Some 1%Z
  | SerialFinalize _ => tt
  | SerialReceiveFrame _ _ h _ => (NANO_RETCODE_OK, 12%Z, 5%Z, h)
  | SerialSend _ _ _ _ => NANO_RETCODE_OK
  end.
