(* ===== verification/Udpv4.v ===== *)
(** * The UDPv4 transport

    [AgentTransportUdpv4.c]: initialization, receive threads, sending and closing
    of [NANO_XRCE_Udpv4AgentTransport].  The receive thread runs on its own; how
    it interleaves with the thread that closes the transport is in
    [RecvThreads]. *)

From Stdlib Require Import ZArith Lia.
From stdpp Require Import base tactics list gmap.
From S2P Require Import Prelude.
From S2P Require Import Interaction.
From S2P Require Import ServiceData.
From S2P Require Import TransportData.

Local Open Scope nano_scope.

Record NANO_XRCE_Udpv4AgentTransportProperties {N : NanoClient} {T : NanoTransports} := {
  up_base : NANO_XRCE_AgentTransportProperties;
  up_socket : Udpv4SocketProperties;
  up_metadata_socket : Udpv4SocketProperties
}.

(** [ut_buffers] holds the headers of the message buffers of the pool. *)
Record NANO_XRCE_Udpv4AgentTransport {N : NanoClient} {T : NanoTransports} := {
  ut_agent : option Z;
  ut_listener : option Z;
  ut_recv_thread : option Z;
  ut_metadata_thread : option Z;
  ut_sem_thread_exit : option Z;
  ut_client_socket : Udpv4Socket;
  ut_metadata_socket : Udpv4Socket;
  ut_recv_pool : option Z;
  ut_wakeup_address : NANO_XRCE_TransportLocatorMedium;
  ut_bind_address : NANO_XRCE_TransportLocatorMedium;
  ut_metadata_address : NANO_XRCE_TransportLocatorMedium;
  ut_buffers : gmap Z NANO_MessageBuffer
}.

Definition NANO_XRCE_UDPV4AGENTTRANSPORT_INITIALIZER {N : NanoClient} {T : NanoTransports}
    : NANO_XRCE_Udpv4AgentTransport :=
  {| ut_agent := None; ut_listener := None; ut_recv_thread := None; ut_metadata_thread := None;
     ut_sem_thread_exit := None; ut_client_socket := UDPV4SOCKET_INITIALIZER;
     ut_metadata_socket := UDPV4SOCKET_INITIALIZER; ut_recv_pool := None;
     ut_wakeup_address := LOCATORMEDIUM_INITIALIZER; ut_bind_address := LOCATORMEDIUM_INITIALIZER;
     ut_metadata_address := METADATA_LOCATOR_INITIALIZER; ut_buffers := ∅ |}.

Module Udpv4.
Section setters.
Context {N : NanoClient} {T : NanoTransports}.
Abbreviation Transport := NANO_XRCE_Udpv4AgentTransport.

Definition set_base (agent listener : option Z) (s : Transport) : Transport :=
  {| ut_agent := agent; ut_listener := listener; ut_recv_thread := ut_recv_thread s;
     ut_metadata_thread := ut_metadata_thread s; ut_sem_thread_exit := ut_sem_thread_exit s;
     ut_client_socket := ut_client_socket s; ut_metadata_socket := ut_metadata_socket s;
     ut_recv_pool := ut_recv_pool s; ut_wakeup_address := ut_wakeup_address s;
     ut_bind_address := ut_bind_address s; ut_metadata_address := ut_metadata_address s;
     ut_buffers := ut_buffers s |}.

Definition set_threads (recv metadata : option Z) (s : Transport) : Transport :=
  {| ut_agent := ut_agent s; ut_listener := ut_listener s; ut_recv_thread := recv;
     ut_metadata_thread := metadata; ut_sem_thread_exit := ut_sem_thread_exit s;
     ut_client_socket := ut_client_socket s; ut_metadata_socket := ut_metadata_socket s;
     ut_recv_pool := ut_recv_pool s; ut_wakeup_address := ut_wakeup_address s;
     ut_bind_address := ut_bind_address s; ut_metadata_address := ut_metadata_address s;
     ut_buffers := ut_buffers s |}.

Definition set_sem (sem : option Z) (s : Transport) : Transport :=
  {| ut_agent := ut_agent s; ut_listener := ut_listener s; ut_recv_thread := ut_recv_thread s;
     ut_metadata_thread := ut_metadata_thread s; ut_sem_thread_exit := sem;
     ut_client_socket := ut_client_socket s; ut_metadata_socket := ut_metadata_socket s;
     ut_recv_pool := ut_recv_pool s; ut_wakeup_address := ut_wakeup_address s;
     ut_bind_address := ut_bind_address s; ut_metadata_address := ut_metadata_address s;
     ut_buffers := ut_buffers s |}.

Definition set_sockets (client metadata : Udpv4Socket) (s : Transport) : Transport :=
  {| ut_agent := ut_agent s; ut_listener := ut_listener s; ut_recv_thread := ut_recv_thread s;
     ut_metadata_thread := ut_metadata_thread s; ut_sem_thread_exit := ut_sem_thread_exit s;
     ut_client_socket := client; ut_metadata_socket := metadata;
     ut_recv_pool := ut_recv_pool s; ut_wakeup_address := ut_wakeup_address s;
     ut_bind_address := ut_bind_address s; ut_metadata_address := ut_metadata_address s;
     ut_buffers := ut_buffers s |}.

Definition set_addresses (wakeup bind metadata : NANO_XRCE_TransportLocatorMedium)
    (s : Transport) : Transport :=
  {| ut_agent := ut_agent s; ut_listener := ut_listener s; ut_recv_thread := ut_recv_thread s;
     ut_metadata_thread := ut_metadata_thread s; ut_sem_thread_exit := ut_sem_thread_exit s;
     ut_client_socket := ut_client_socket s; ut_metadata_socket := ut_metadata_socket s;
     ut_recv_pool := ut_recv_pool s; ut_wakeup_address := wakeup;
     ut_bind_address := bind; ut_metadata_address := metadata;
     ut_buffers := ut_buffers s |}.

Definition set_pool (pool : option Z) (buffers : gmap Z NANO_MessageBuffer) (s : Transport)
    : Transport :=
  {| ut_agent := ut_agent s; ut_listener := ut_listener s; ut_recv_thread := ut_recv_thread s;
     ut_metadata_thread := ut_metadata_thread s; ut_sem_thread_exit := ut_sem_thread_exit s;
     ut_client_socket := ut_client_socket s; ut_metadata_socket := ut_metadata_socket s;
     ut_recv_pool := pool; ut_wakeup_address := ut_wakeup_address s;
     ut_bind_address := ut_bind_address s; ut_metadata_address := ut_metadata_address s;
     ut_buffers := buffers |}.

#[global] Instance udpv4_pool : MessagePool Transport := {|
  mp_pool := ut_recv_pool;
  mp_set_pool p s := set_pool p (ut_buffers s) s;
  mp_buffers := ut_buffers;
  mp_set_buffers b s := set_pool (ut_recv_pool s) b s
|}.

#[global] Instance udpv4_pool_ok : MessagePoolOk Transport.
Proof. by split. Qed.

Definition set_client_socket (k : Udpv4Socket) (s : Transport) : Transport :=
  set_sockets k (ut_metadata_socket s) s.
Definition set_metadata_socket (k : Udpv4Socket) (s : Transport) : Transport :=
  set_sockets (ut_client_socket s) k s.
Definition set_wakeup_address (a : NANO_XRCE_TransportLocatorMedium) (s : Transport) : Transport :=
  set_addresses a (ut_bind_address s) (ut_metadata_address s) s.
Definition set_bind_address (a : NANO_XRCE_TransportLocatorMedium) (s : Transport) : Transport :=
  set_addresses (ut_wakeup_address s) a (ut_metadata_address s) s.
Definition set_metadata_address (a : NANO_XRCE_TransportLocatorMedium) (s : Transport) : Transport :=
  set_addresses (ut_wakeup_address s) (ut_bind_address s) a s.
End setters.

Section udpv4.
Context {N : NanoClient} {T : NanoTransports}.

Definition transport (A : Type) : Type := prog TResp NANO_XRCE_Udpv4AgentTransport A.

Definition self : transport NANO_XRCE_Udpv4AgentTransport := gets (fun s => s).

(** ** Messages *)

Definition NANO_XRCE_Udpv4AgentTransport_allocate_message (metadata : bool)
    : transport (option Z) :=
  let* '(rc, res) := MessageBufferPool.NANO_MessageBufferPool_allocate in
  check rc (fun _ => ret res)
    (match res with
     | Some msg =>
         (if metadata then
            let* h := MessageBufferPool.header_of msg in
            modify (MessageBufferPool.put_header msg
                      {| mb_inline := mb_inline h; mb_discovery := true;
                         mb_data_len := mb_data_len h |})
          else ret tt) ;;
         ret (Some msg)
     | None => if metadata then undefined else ret None
     end).

Definition NANO_XRCE_Udpv4AgentTransport_release_message (msg : Z) : transport unit :=
  MessageBufferPool.NANO_MessageBufferPool_release msg.

(** ** The receive threads *)

(** One reception into [msg]: whether the listener retained it. *)
Definition receive_one (socket : Udpv4Socket) (msg : Z) : transport bool :=
  let* h := MessageBufferPool.header_of msg in
  let* '(rc, src_ip, msg_len, h) := tcall (SocketRecv socket msg h) in
  modify (MessageBufferPool.put_header msg h) ;;
  if is_ok rc then
    if (MESSAGE_SERIALIZED_SIZE_MIN <=? msg_len)%Z then
      let* '(retained, h) :=
        tcall (OnMessageReceived (LocatorMedium_to_locator src_ip) msg msg_len) in
      modify (MessageBufferPool.put_header msg h) ;;
      ret retained
    else ret false
  else ret false.

Definition recv_loop (fuel : nat) (socket : Udpv4Socket) (metadata : bool) : transport unit :=
  MessageBufferPool.receive_loop (NANO_XRCE_Udpv4AgentTransport_allocate_message metadata)
    (receive_one socket) fuel None 0.

Definition NANO_XRCE_Udpv4AgentTransport_recv_thread_impl (fuel : nat) (socket : Udpv4Socket)
    (metadata : bool) : transport unit :=
  recv_loop fuel socket metadata ;;
  let* s := self in
  let* _ := tcall (SemaphoreGive (ut_sem_thread_exit s)) in
  ret tt.

Definition NANO_XRCE_Udpv4AgentTransport_recv_thread (fuel : nat) : transport unit :=
  let* s := self in
  NANO_XRCE_Udpv4AgentTransport_recv_thread_impl fuel (ut_client_socket s) false.

Definition NANO_XRCE_Udpv4AgentTransport_recv_thread_metadata (fuel : nat) : transport unit :=
  let* s := self in
  NANO_XRCE_Udpv4AgentTransport_recv_thread_impl fuel (ut_metadata_socket s) true.

(** ** Initialization *)

(** What [done] does when initialization failed. *)
Definition initialize_undo (recv_pool_initd : bool) : transport unit :=
  let* s := self in
  (match ut_sem_thread_exit s with
   | Some x => tcall (SemaphoreDelete (Some x)) ;; modify (set_sem None)
   | None => ret tt
   end) ;;
  let* s := self in
  (if Udpv4Socket_is_valid (ut_metadata_socket s) then
     let* k := tcall (SocketClose MetadataSocket (ut_metadata_socket s)) in
     modify (set_metadata_socket k)
   else ret tt) ;;
  (if Udpv4Socket_is_valid (ut_client_socket s) then
     let* k := tcall (SocketClose ClientSocket (ut_client_socket s)) in
     modify (set_client_socket k)
   else ret tt) ;;
  (if recv_pool_initd then MessageBufferPool.NANO_MessageBufferPool_finalize else ret tt).

Definition initialize_failed (recv_pool_initd : bool) (rc : NANO_RetCode)
    : transport NANO_RetCode :=
  (if is_ok rc then ret tt else initialize_undo recv_pool_initd) ;; ret rc.

(** The address the socket is bound to, with the default port. *)
Definition initialize_bind (address : TransportLocator) : transport unit :=
  (match LocatorMedium_narrow address with
   | Some a => modify (set_bind_address a)
   | None => ret tt
   end) ;;
  let* s := self in
  let a := ut_bind_address s in
  modify (set_bind_address
    {| lm_address := lm_address a;
       lm_port := if (0 <? lm_port a)%Z then lm_port a else TRANSPORT_UDP_AGENT_PORT_DEFAULT |}).

(** The address [close] sends to: that of the socket or, when it is bound to any
    address, the first of the host.  [Some rc] is a [goto done] with this code. *)
Definition initialize_wakeup : transport (option NANO_RetCode) :=
  let* s := self in
  if (LocatorMedium_to_ipv4addr (ut_bind_address s) =? 0)%Z then
    let* '(rc, addrs) := tcall (Ipv4AddrList MAX_ADDRS) in
    check rc (fun rc => ret (Some rc))
      (match addrs with
       | [] => ret (Some rc_passed)
       | a :: _ =>
           modify (set_wakeup_address
             (LocatorMedium_from_ipv4addr a (lm_port (ut_bind_address s)))) ;;
           ret None
       end)
  else modify (set_wakeup_address (ut_bind_address s)) ;; ret None.

Definition open_client_socket (props : Udpv4SocketProperties) : transport NANO_RetCode :=
  let* s := self in
  let a := ut_bind_address s in
  let* '(rc, k) := tcall (SocketOpen ClientSocket (lm_address a) (lm_port a) props) in
  modify (set_client_socket k) ;;
  ret rc.

Definition open_metadata_socket (props : NANO_XRCE_Udpv4AgentTransportProperties)
    : transport NANO_RetCode :=
  (match LocatorMedium_narrow (tp_metadata_address (up_base props)) with
   | Some a => modify (set_metadata_address a)
   | None => ret tt
   end) ;;
  let* s := self in
  let a := ut_metadata_address s in
  let a := {| lm_address := lm_address a;
              lm_port := if (0 <? lm_port a)%Z then lm_port a
                         else TRANSPORT_UDP_METADATA_PORT_DEFAULT |} in
  modify (set_metadata_address a) ;;
  let socket_props :=
    if Ipv4Addr_is_multicast (LocatorMedium_to_ipv4addr a)
    then Udpv4SocketProperties_set_multicast (up_metadata_socket props)
    else up_metadata_socket props in
  let* '(rc, k) := tcall (SocketOpen MetadataSocket (lm_address a) (lm_port a) socket_props) in
  modify (set_metadata_socket k) ;;
  ret rc.

(** The sockets and the semaphore, once the pool is there and the addresses are
    chosen. *)
Definition initialize_sockets (props : NANO_XRCE_Udpv4AgentTransportProperties)
    : transport NANO_RetCode :=
  let* rc := open_client_socket (up_socket props) in
  check rc (initialize_failed true)
  (let* rc :=
     (if tp_enable_discovery (up_base props) then open_metadata_socket props
      else ret NANO_RETCODE_OK) in
   check rc (initialize_failed true)
   (let* sem := tcall (SemaphoreNew SemCounting) in
    modify (set_sem sem) ;;
    match sem with
    | None => initialize_failed true rc_passed
    | Some _ => ret NANO_RETCODE_OK
    end)).

Definition NANO_XRCE_Udpv4AgentTransport_initialize (listener : option Z)
    (props : NANO_XRCE_Udpv4AgentTransportProperties) (agent : Z) : transport NANO_RetCode :=
  let* s := self in
  modify (set_base (Some agent) (match listener with Some l => Some l | None => ut_listener s end)) ;;
  let mtu_max := tp_mtu_max (up_base props) in
  if (mtu_max =? 0)%Z || (NANO_U16_MAX <? mtu_max)%Z
  then initialize_failed false NANO_RETCODE_ERROR
  else
  let* rc := MessageBufferPool.NANO_MessageBufferPool_initialize mtu_max in
  check rc (initialize_failed false)
  (initialize_bind (tp_bind_address (up_base props)) ;;
   let* goto := initialize_wakeup in
   match goto with
   | Some rc => initialize_failed true rc
   | None => initialize_sockets props
   end).

Definition NANO_XRCE_Udpv4AgentTransport_finalize : transport unit :=
  let* s := self in
  tcall (SemaphoreDelete (ut_sem_thread_exit s)) ;;
  modify (set_sem None) ;;
  (if Udpv4Socket_is_valid (ut_metadata_socket s) then
     let* k := tcall (SocketClose MetadataSocket (ut_metadata_socket s)) in
     modify (set_metadata_socket k)
   else ret tt) ;;
  let* k := tcall (SocketClose ClientSocket (ut_client_socket s)) in
  modify (set_client_socket k) ;;
  MessageBufferPool.NANO_MessageBufferPool_finalize.

(** ** Starting and closing *)

Definition listen_failed (rc : NANO_RetCode) : transport NANO_RetCode :=
  (if is_ok rc then ret tt
   else
     let* s := self in
     (match ut_recv_thread s with
      | Some t => tcall (ThreadDelete (Some t)) ;;
                  modify (fun s => set_threads None (ut_metadata_thread s) s)
      | None => ret tt
      end) ;;
     (match ut_metadata_thread s with
      | Some t => tcall (ThreadDelete (Some t)) ;;
                  modify (fun s => set_threads (ut_recv_thread s) None s)
      | None => ret tt
      end)) ;;
  ret rc.

Definition NANO_XRCE_Udpv4AgentTransport_listen : transport NANO_RetCode :=
  tcall (WriteActive true) ;;
  let* t := tcall (ThreadNew ThreadRecv) in
  modify (fun s => set_threads t (ut_metadata_thread s) s) ;;
  match t with
  | None => listen_failed NANO_RETCODE_ERROR
  | Some _ =>
      let* s := self in
      if Udpv4Socket_is_valid (ut_metadata_socket s) then
        let* m := tcall (ThreadNew ThreadRecvMetadata) in
        modify (fun s => set_threads (ut_recv_thread s) m s) ;;
        match m with
        | None => listen_failed NANO_RETCODE_ERROR
        | Some _ => ret NANO_RETCODE_OK
        end
      else ret NANO_RETCODE_OK
  end.

(** The length of the message that wakes the threads is the smallest one. *)
Definition send_exit (a : NANO_XRCE_TransportLocatorMedium) : transport NANO_RetCode :=
  let* s := self in
  tcall (SocketSend (ut_client_socket s) (lm_address a) (lm_port a)
           (ExitMessage MESSAGE_SERIALIZED_SIZE_MIN)).

Definition NANO_XRCE_Udpv4AgentTransport_close : transport NANO_RetCode :=
  tcall (WriteActive false) ;;
  let* s := self in
  let* rc := send_exit (ut_wakeup_address s) in
  check rc ret
  (tcall (SemaphoreTake (ut_sem_thread_exit s)) ;;
   tcall (ThreadDelete (ut_recv_thread s)) ;;
   modify (fun s => set_threads None (ut_metadata_thread s) s) ;;
   match ut_metadata_thread s with
   | None => ret NANO_RETCODE_OK
   | Some m =>
       let* rc := send_exit (ut_metadata_address s) in
       check rc ret
       (tcall (SemaphoreTake (ut_sem_thread_exit s)) ;;
        tcall (ThreadDelete (Some m)) ;;
        modify (fun s => set_threads (ut_recv_thread s) None s) ;;
        ret NANO_RETCODE_OK)
   end).

(** ** Sending *)

Definition send_medium (a : NANO_XRCE_TransportLocatorMedium) (msg : Z)
    : transport NANO_RetCode :=
  let* s := self in
  let* rc := tcall (SocketSend (ut_client_socket s) (lm_address a) (lm_port a) (MessageAt msg)) in
  check rc ret (ret NANO_RETCODE_OK).

(** [client_locator] is the locator of the entry of the client. *)
Definition NANO_XRCE_Udpv4AgentTransport_send_to (client_locator : TransportLocator) (msg : Z)
    : transport NANO_RetCode :=
  match LocatorMedium_narrow client_locator with
  | None => undefined
  | Some a => send_medium a msg
  end.

Definition NANO_XRCE_Udpv4AgentTransport_send_direct (locator : TransportLocator) (msg : Z)
    : transport NANO_RetCode :=
  match LocatorMedium_narrow locator with
  | None => ret NANO_RETCODE_ERROR
  | Some a => send_medium a msg
  end.

Definition NANO_XRCE_Udpv4AgentTransport_return (msg : Z) : transport unit :=
  NANO_XRCE_Udpv4AgentTransport_release_message msg.
End udpv4.

(** * Theorems *)

Section initialization.
Context {N : NanoClient} {NOk : NanoClientOk N} {T : NanoTransports}.

(** What a transport holds: the resources it must give back. *)
Definition held (s : NANO_XRCE_Udpv4AgentTransport) : list Handle :=
  handles HPool (ut_recv_pool s)
  ++ (if Udpv4Socket_is_valid (ut_client_socket s) then [HSocket ClientSocket] else [])
  ++ (if Udpv4Socket_is_valid (ut_metadata_socket s) then [HSocket MetadataSocket] else [])
  ++ handles HSemaphore (ut_sem_thread_exit s).

Lemma initialize_undo_spec (initd : bool) s :
  (ut_recv_pool s <> None -> initd = true) ->
  spec socket_contract (initialize_undo initd) s (fun t _ s' =>
    acquired t = [] /\ released t ≡ₚ held s /\ held s' = []).
Proof.
  intros Hp. unfold initialize_undo, self.
  assert (Hfin : forall s1, ut_recv_pool s1 = ut_recv_pool s ->
    Udpv4Socket_is_valid (ut_client_socket s1) = false ->
    Udpv4Socket_is_valid (ut_metadata_socket s1) = false ->
    ut_sem_thread_exit s1 = None ->
    spec socket_contract
      (if initd then MessageBufferPool.NANO_MessageBufferPool_finalize else ret tt) s1
      (fun t _ s' => acquired t = [] /\ released t = handles HPool (ut_recv_pool s)
                     /\ held s' = [])).
  { intros s1 Hs1 Hc Hm Hsem. destruct initd.
    - eapply spec_mono; [by eapply MessageBufferPool.pool_finalize_spec |].
      cbn. intros t [] s' (-> & -> & ->). rewrite Hs1. unfold held; cbn. rewrite Hc, Hm, Hsem. done.
    - apply spec_ret. unfold held. rewrite Hc, Hm, Hsem, Hs1.
      destruct (ut_recv_pool s); [by discriminate Hp|done]. }
  unfold held at 1.
  repeat first [ eapply spec_mono; [apply Hfin; cbn; first [done | eassumption] |];
                 intros t [] s' (Ha & Hr & Hh); cbn beta
               | progress vstep ];
  (split; [resources; done | split; [| done]]); resources;
  cbn in *; repeat match goal with H : Udpv4Socket_is_valid _ = _ |- _ => rewrite H end; cbn;
  solve_Permutation.
Qed.

Lemma initialize_failed_spec (initd : bool) rc s :
  rc <> NANO_RETCODE_OK -> (ut_recv_pool s <> None -> initd = true) ->
  spec socket_contract (initialize_failed initd rc) s (fun t r s' =>
    r = rc /\ acquired t = [] /\ released t ≡ₚ held s /\ held s' = []).
Proof.
  intros Hrc Hp. unfold initialize_failed. rewrite is_ok_false by done.
  apply spec_bind. eapply spec_mono; [by apply initialize_undo_spec |].
  cbn. intros t [] s' (Ha & Hr & Hh). apply spec_ret. by rewrite app_nil_r.
Qed.

(** A step that acquires nothing and changes addresses only. *)
Definition only_addresses (s s' : NANO_XRCE_Udpv4AgentTransport) : Prop :=
  exists w b m, s' = set_addresses w b m s.

Lemma only_addresses_held s s' : only_addresses s s' -> held s' = held s.
Proof. by intros (w & b & m & ->). Qed.

Lemma initialize_bind_spec address s :
  spec socket_contract (initialize_bind address) s (fun t _ s' =>
    t = [] /\ only_addresses s s').
Proof.
  unfold initialize_bind, self, only_addresses. repeat vstep; (split; [done | eauto]).
Qed.

Lemma initialize_wakeup_spec s :
  spec socket_contract initialize_wakeup s (fun t goto s' =>
    acquired t = [] /\ released t = [] /\ only_addresses s s'
    /\ match goto with Some rc => rc <> NANO_RETCODE_OK | None => True end).
Proof.
  unfold initialize_wakeup, self.
  assert (Hid : only_addresses s s) by (exists (ut_wakeup_address s), (ut_bind_address s),
    (ut_metadata_address s); by destruct s).
  repeat vstep; split_and!; try done; unfold only_addresses; eauto using rc_passed_failure.
Qed.

Lemma open_client_socket_spec props s :
  spec socket_contract (open_client_socket props) s (fun t rc s' =>
    acquired t = (if is_ok rc then [HSocket ClientSocket] else []) /\ released t = []
    /\ exists k, s' = set_client_socket k s /\ Udpv4Socket_is_valid k = is_ok rc).
Proof.
  unfold open_client_socket, self. repeat vstep. resources. split; [done | split; [done |]].
  eauto.
Qed.

Lemma open_metadata_socket_spec props s :
  spec socket_contract (open_metadata_socket props) s (fun t rc s' =>
    acquired t = (if is_ok rc then [HSocket MetadataSocket] else []) /\ released t = []
    /\ exists s1 k, only_addresses s s1 /\ s' = set_metadata_socket k s1
                    /\ Udpv4Socket_is_valid k = is_ok rc).
Proof.
  unfold open_metadata_socket, self. repeat vstep; resources; (split; [done | split; [done |]]).
  all: eexists (set_addresses _ _ _ s), _; split_and!; [by eexists _, _, _ | | eassumption]; done.
Qed.

Lemma held_nil s :
  held s = [] -> ut_recv_pool s = None /\ ut_sem_thread_exit s = None
  /\ Udpv4Socket_is_valid (ut_client_socket s) = false
  /\ Udpv4Socket_is_valid (ut_metadata_socket s) = false.
Proof.
  unfold held. destruct (ut_recv_pool s), (ut_sem_thread_exit s), (Udpv4Socket_is_valid _),
    (Udpv4Socket_is_valid _); by cbn.
Qed.

(** The outcome of initialization: a complete transport or nothing at all. *)
Definition initialized (props : NANO_XRCE_Udpv4AgentTransportProperties) (t : list tevent)
    (rc : NANO_RetCode) (s' : NANO_XRCE_Udpv4AgentTransport) : Prop :=
  if is_ok rc then
    released t = [] /\ acquired t = held s'
    /\ ut_recv_pool s' <> None /\ ut_sem_thread_exit s' <> None
    /\ Udpv4Socket_is_valid (ut_client_socket s') = true
    /\ Udpv4Socket_is_valid (ut_metadata_socket s') = tp_enable_discovery (up_base props)
  else acquired t ≡ₚ released t /\ held s' = [].

(** A failure after the calls [t], which acquired what [s] holds. *)
Lemma failed_after props t (initd : bool) rc s :
  rc <> NANO_RETCODE_OK -> (ut_recv_pool s <> None -> initd = true) ->
  released t = [] -> acquired t = held s ->
  spec socket_contract (initialize_failed initd rc) s (fun t' r s' =>
    initialized props (t ++ t') r s').
Proof.
  intros Hrc Hp Hr Ha. eapply spec_mono; [by apply initialize_failed_spec |].
  cbn. intros t' r s' (-> & Ha' & Hr' & Hh). unfold initialized. rewrite is_ok_false by done.
  split; [| done]. autorewrite with trace. rewrite Ha, Ha', Hr, app_nil_r. by rewrite Hr'.
Qed.

Lemma initialize_sockets_spec props p t0 s :
  ut_recv_pool s = Some p -> ut_sem_thread_exit s = None ->
  Udpv4Socket_is_valid (ut_client_socket s) = false ->
  Udpv4Socket_is_valid (ut_metadata_socket s) = false ->
  released t0 = [] -> acquired t0 = [HPool p] ->
  spec socket_contract (initialize_sockets props) s (fun t rc s' =>
    initialized props (t0 ++ t) rc s').
Proof.
  intros Hp Hx Hc Hm Hr0 Ha0. unfold initialize_sockets.
  apply spec_bind. eapply spec_mono; [apply open_client_socket_spec |].
  cbn beta. intros t1 rc1 s1 (Ha1 & Hr1 & k & -> & Hk).
  vstep; rewrite ?is_ok_true, ?is_ok_false in Ha1, Hk by done.
  2: { eapply spec_mono; [apply (failed_after props (t0 ++ t1)); try done |].
       - by resources.
       - resources. unfold held; cbn. by rewrite Hp, Hk, Hm, Hx.
       - cbn beta. intros. by rewrite app_assoc. }
  vstep. set (s1 := set_client_socket k s).
  assert (Hmeta : spec socket_contract
    (if tp_enable_discovery (up_base props) then open_metadata_socket props
     else ret NANO_RETCODE_OK) s1 (fun t rc s' =>
       exists w b m k', s' = set_metadata_socket k' (set_addresses w b m s1)
       /\ released t = []
       /\ Udpv4Socket_is_valid k' = is_ok rc && tp_enable_discovery (up_base props)
       /\ acquired t = if is_ok rc && tp_enable_discovery (up_base props)
                       then [HSocket MetadataSocket] else [])).
  { destruct (tp_enable_discovery _) eqn:Hd.
    - eapply spec_mono; [apply open_metadata_socket_spec |].
      intros t rc s' (Ha & Hr & ? & k' & (w & b & m & ->) & -> & Hk').
      exists w, b, m, k'. by rewrite andb_true_r.
    - apply spec_ret. exists (ut_wakeup_address s), (ut_bind_address s), (ut_metadata_address s).
      exists (ut_metadata_socket s). by destruct s. }
  eapply spec_mono; [exact Hmeta |]. cbn beta.
  intros t2 rc2 s2 (w & b & m & k' & -> & Hr2 & Hk' & Ha2).
  vstep; rewrite ?is_ok_true, ?is_ok_false in Ha2, Hk' by done; cbn in Ha2, Hk'.
  2: { eapply spec_mono; [apply (failed_after props (t0 ++ t1 ++ t2)); try done |].
       - by resources.
       - resources. unfold held; cbn. by rewrite Hp, Hk, Hk', Hx.
       - cbn beta. intros ? ? ? Hi. by rewrite <- !app_assoc in Hi. }
  repeat vstep.
  - unfold initialized; cbn. unfold held; cbn. rewrite Hp, Hk, Hk'.
    by resources.
  - eapply spec_mono; [apply (failed_after props (t0 ++ t1 ++ t2 ++ [existT (SemaphoreNew SemCounting) None])); try done |].
    + apply rc_passed_failure.
    + by resources.
    + resources. unfold held; cbn. rewrite Hp, Hk, Hk'. by rewrite app_nil_r.
    + cbn beta. intros ? ? ? Hi. by rewrite <- !app_assoc in Hi.
Qed.

Lemma udpv4_initialize_spec listener props agent s :
  held s = [] ->
  spec socket_contract (NANO_XRCE_Udpv4AgentTransport_initialize listener props agent) s
    (initialized props).
Proof.
  intros Hs0. pose proof (held_nil _ Hs0) as (Hp & Hx & Hc & Hm).
  unfold NANO_XRCE_Udpv4AgentTransport_initialize, self.
  do 5 vstep; [by apply (failed_after props []); [| cbn; rewrite Hp | |] |].
  apply spec_bind. eapply spec_mono; [by eapply MessageBufferPool.pool_initialize_spec |].
  cbn beta. intros t1 rc1 s1 (Hr1 & Hs1).
  vstep; destruct Hs1 as [(? & p & Ha1 & ->) | (? & Ha1 & Hs1)]; try done.
  2: { apply failed_after; try done.
       - destruct Hs1 as [-> | ->]; cbn; by rewrite ?Hp.
       - rewrite Ha1. destruct Hs1 as [-> | ->]; unfold held; cbn; by rewrite ?Hp, Hx, Hc, Hm. }
  apply spec_bind. eapply spec_mono; [apply initialize_bind_spec |].
  cbn beta. intros t2 _ s2 [-> (? & ? & ? & ->)].
  apply spec_bind. eapply spec_mono; [apply initialize_wakeup_spec |].
  cbn beta. intros t3 goto s3 (Ha3 & Hr3 & (w & b & m & ->) & Hgoto).
  destruct goto as [rc |].
  - eapply spec_mono; [apply (failed_after props (t1 ++ t3)); try done |].
    + by resources.
    + resources. unfold held; cbn. by rewrite Hx, Hc, Hm.
    + cbn beta. intros t rc' s'. by rewrite app_nil_l, <- app_assoc.
  - eapply spec_mono; [apply (initialize_sockets_spec props p (t1 ++ t3)); try done |].
    + by resources.
    + by resources.
    + cbn beta. intros t rc' s'. by rewrite app_nil_l, <- app_assoc.
Qed.

Lemma finalize_transport_spec s :
  Udpv4Socket_is_valid (ut_client_socket s) = true ->
  spec socket_contract NANO_XRCE_Udpv4AgentTransport_finalize s (fun t _ s' =>
    acquired t = [] /\ released t ≡ₚ held s /\ held s' = []).
Proof.
  intros Hc. unfold NANO_XRCE_Udpv4AgentTransport_finalize, self, held at 1.
  repeat first [ eapply spec_mono; [by eapply MessageBufferPool.pool_finalize_spec |];
                 cbn beta; intros ? ? ? (? & ? & ->)
               | progress vstep ]; cbn in *;
  (split; [by resources | split]).
  all: try (resources; cbn; rewrite Hc;
            repeat match goal with H : Udpv4Socket_is_valid _ = _ |- _ => rewrite H end; cbn;
            solve_Permutation).
  all: unfold held; cbn;
       repeat match goal with H : Udpv4Socket_is_valid _ = _ |- _ => rewrite H end; done.
Qed.

(** C30: Initializing the transport, whatever fails, either succeeds and leaves a
    transport that holds exactly what was acquired -- a pool, the client socket,
    the metadata socket if discovery is enabled, the exit semaphore -- or gives
    everything back and leaves a transport that holds nothing. *)
Theorem udpv4_initialize_all_or_nothing listener props agent s :
  held s = [] ->
  spec socket_contract (NANO_XRCE_Udpv4AgentTransport_initialize listener props agent) s
    (fun t rc s' =>
       if is_ok rc then
         released t = [] /\ acquired t = held s'
         /\ ut_recv_pool s' <> None /\ ut_sem_thread_exit s' <> None
         /\ Udpv4Socket_is_valid (ut_client_socket s') = true
         /\ Udpv4Socket_is_valid (ut_metadata_socket s') = tp_enable_discovery (up_base props)
       else acquired t ≡ₚ released t /\ held s' = []).
Proof. intros Hs. by apply udpv4_initialize_spec. Qed.

(** A transport that is initialized and then, if that succeeded, finalized
    gives back every resource it acquired, once. *)
Theorem udpv4_life_balanced listener props agent s :
  held s = [] ->
  spec socket_contract
    (let* rc := NANO_XRCE_Udpv4AgentTransport_initialize listener props agent in
     if is_ok rc then NANO_XRCE_Udpv4AgentTransport_finalize else ret tt) s
    (fun t _ s' => acquired t ≡ₚ released t /\ held s' = []).
Proof.
  intros Hs. apply spec_bind. eapply spec_mono; [by apply udpv4_initialize_spec |].
  intros t rc s'. unfold initialized. destruct (is_ok rc).
  - intros (Hr & Ha & _ & _ & Hc & _). eapply spec_mono; [by apply finalize_transport_spec |].
    cbn. intros t' [] s2 (Ha' & Hr' & Hh). split; [| done]. resources. by rewrite Hr'.
  - intros [Ha Hh]. apply spec_ret. by rewrite app_nil_r.
Qed.
End initialization.

(** ** Witnesses *)

Definition sample_props : NANO_XRCE_Udpv4AgentTransportProperties :=
  {| up_base := {| tp_bind_address := 5%Z; tp_metadata_address := 6%Z;
                   tp_enable_discovery := true; tp_mtu_max := 1024 |};
     up_socket := false; up_metadata_socket := false |}.

(** Initialization with discovery succeeds in an environment that grants
    everything. *)
Lemma udpv4_initialize_all_or_nothing_witness :
  held NANO_XRCE_UDPV4AGENTTRANSPORT_INITIALIZER = []
  /\ length (acquired (fst (exec transports_answer []
       (NANO_XRCE_Udpv4AgentTransport_initialize None sample_props 1
          NANO_XRCE_UDPV4AGENTTRANSPORT_INITIALIZER)))) = 4%nat
  /\ spec socket_contract (NANO_XRCE_Udpv4AgentTransport_initialize None sample_props 1)
       NANO_XRCE_UDPV4AGENTTRANSPORT_INITIALIZER (initialized sample_props).
Proof.
  split; [reflexivity |]. split; [reflexivity |].
  exact (udpv4_initialize_all_or_nothing None sample_props 1
           NANO_XRCE_UDPV4AGENTTRANSPORT_INITIALIZER eq_refl).
Defined.

(** ... and finalization releases all of it. *)
Lemma udpv4_life_balanced_witness :
  let life :=
    (let* rc := NANO_XRCE_Udpv4AgentTransport_initialize None sample_props 1 in
     if is_ok rc then NANO_XRCE_Udpv4AgentTransport_finalize else ret tt) in
  length (released (fst (exec transports_answer []
    (life NANO_XRCE_UDPV4AGENTTRANSPORT_INITIALIZER)))) = 4%nat
  /\ spec socket_contract life NANO_XRCE_UDPV4AGENTTRANSPORT_INITIALIZER
       (fun t _ s' => acquired t ≡ₚ released t /\ held s' = []).
Proof.
  split; [reflexivity |].
  exact (udpv4_life_balanced None sample_props 1 NANO_XRCE_UDPV4AGENTTRANSPORT_INITIALIZER eq_refl).
Defined.
End Udpv4.
