(* ===== verification/Serial.v ===== *)
(** * The serial transport

    [AgentTransportSerial.c]: a transport with a list of receive threads, each
    with a serial port of its own.  [listen] adds one, [close] waits for all of
    them; messages go out through the first. *)

From Stdlib Require Import ZArith Lia.
From stdpp Require Import base tactics list gmap.
From S2P Require Import Prelude.
From S2P Require Import Interaction.
From S2P Require Import ServiceData.
From S2P Require Import TransportData.

Local Open Scope nano_scope.

Record NANO_XRCE_SerialAgentTransportProperties {N : NanoClient} {T : NanoTransports} := {
  sp_base : NANO_XRCE_AgentTransportProperties;
  sp_connection : SerialConnectionProperties;
  sp_recv_timeout : Z
}.

(** A record of a receive thread: its thread, whether [agent_transport] points to
    its transport, and the address its client transport sends to. *)
Record NANO_XRCE_SerialAgentTransport_RecvThread {N : NanoClient} {T : NanoTransports} := {
  rt_recv_thread : option Z;
  rt_agent_transport : bool;
  rt_agent_address : LocatorSmall
}.

Definition NANO_XRCE_SERIALAGENTTRANSPORT_RECVTHREAD_INITIALIZER {N : NanoClient}
    {T : NanoTransports} : NANO_XRCE_SerialAgentTransport_RecvThread :=
  {| rt_recv_thread := None; rt_agent_transport := false;
     rt_agent_address := LOCATORSMALL_INITIALIZER |}.

(** [st_records] are the records in the threads pool, [st_recv_threads] the list
    of those that listen. *)
Record NANO_XRCE_SerialAgentTransport {N : NanoClient} {T : NanoTransports} := {
  st_agent : option Z;
  st_listener : option Z;
  st_recv_threads : list Z;
  st_mutex : option Z;
  st_sem_thread_exit : option Z;
  st_recv_threads_pool : option Z;
  st_msg_pool : option Z;
  st_props : option NANO_XRCE_SerialAgentTransportProperties;
  st_records : gmap Z NANO_XRCE_SerialAgentTransport_RecvThread;
  st_buffers : gmap Z NANO_MessageBuffer
}.

Definition NANO_XRCE_SERIALAGENTTRANSPORT_INITIALIZER {N : NanoClient} {T : NanoTransports}
    : NANO_XRCE_SerialAgentTransport :=
  {| st_agent := None; st_listener := None; st_recv_threads := []; st_mutex := None;
     st_sem_thread_exit := None; st_recv_threads_pool := None; st_msg_pool := None;
     st_props := None; st_records := ∅; st_buffers := ∅ |}.

Module Serial.
Section setters.
Context {N : NanoClient} {T : NanoTransports}.
Abbreviation Transport := NANO_XRCE_SerialAgentTransport.

Definition set_base (agent listener : option Z) (s : Transport) : Transport :=
  {| st_agent := agent; st_listener := listener; st_recv_threads := st_recv_threads s;
     st_mutex := st_mutex s; st_sem_thread_exit := st_sem_thread_exit s;
     st_recv_threads_pool := st_recv_threads_pool s; st_msg_pool := st_msg_pool s;
     st_props := st_props s; st_records := st_records s; st_buffers := st_buffers s |}.

Definition set_pool (pool : option Z) (buffers : gmap Z NANO_MessageBuffer) (s : Transport)
    : Transport :=
  {| st_agent := st_agent s; st_listener := st_listener s; st_recv_threads := st_recv_threads s;
     st_mutex := st_mutex s; st_sem_thread_exit := st_sem_thread_exit s;
     st_recv_threads_pool := st_recv_threads_pool s; st_msg_pool := pool;
     st_props := st_props s; st_records := st_records s; st_buffers := buffers |}.

Definition set_threads_pool (pool : option Z) (s : Transport) : Transport :=
  {| st_agent := st_agent s; st_listener := st_listener s; st_recv_threads := st_recv_threads s;
     st_mutex := st_mutex s; st_sem_thread_exit := st_sem_thread_exit s;
     st_recv_threads_pool := pool; st_msg_pool := st_msg_pool s;
     st_props := st_props s; st_records := st_records s; st_buffers := st_buffers s |}.

Definition set_props (p : NANO_XRCE_SerialAgentTransportProperties) (s : Transport) : Transport :=
  {| st_agent := st_agent s; st_listener := st_listener s; st_recv_threads := st_recv_threads s;
     st_mutex := st_mutex s; st_sem_thread_exit := st_sem_thread_exit s;
     st_recv_threads_pool := st_recv_threads_pool s; st_msg_pool := st_msg_pool s;
     st_props := Some p; st_records := st_records s; st_buffers := st_buffers s |}.

Definition set_semaphores (mutex sem : option Z) (s : Transport) : Transport :=
  {| st_agent := st_agent s; st_listener := st_listener s; st_recv_threads := st_recv_threads s;
     st_mutex := mutex; st_sem_thread_exit := sem;
     st_recv_threads_pool := st_recv_threads_pool s; st_msg_pool := st_msg_pool s;
     st_props := st_props s; st_records := st_records s; st_buffers := st_buffers s |}.

Definition set_recv_threads (l : list Z) (s : Transport) : Transport :=
  {| st_agent := st_agent s; st_listener := st_listener s; st_recv_threads := l;
     st_mutex := st_mutex s; st_sem_thread_exit := st_sem_thread_exit s;
     st_recv_threads_pool := st_recv_threads_pool s; st_msg_pool := st_msg_pool s;
     st_props := st_props s; st_records := st_records s; st_buffers := st_buffers s |}.

Definition put_record (p : Z) (r : NANO_XRCE_SerialAgentTransport_RecvThread) (s : Transport)
    : Transport :=
  {| st_agent := st_agent s; st_listener := st_listener s; st_recv_threads := st_recv_threads s;
     st_mutex := st_mutex s; st_sem_thread_exit := st_sem_thread_exit s;
     st_recv_threads_pool := st_recv_threads_pool s; st_msg_pool := st_msg_pool s;
     st_props := st_props s; st_records := <[p := r]> (st_records s);
     st_buffers := st_buffers s |}.

#[global] Instance serial_pool : MessagePool Transport := {|
  mp_pool := st_msg_pool;
  mp_set_pool p s := set_pool p (st_buffers s) s;
  mp_buffers := st_buffers;
  mp_set_buffers b s := set_pool (st_msg_pool s) b s
|}.

#[global] Instance serial_pool_ok : MessagePoolOk Transport.
Proof. by split. Qed.
End setters.

Section serial.
Context {N : NanoClient} {T : NanoTransports}.

Definition transport (A : Type) : Type := prog TResp NANO_XRCE_SerialAgentTransport A.

Definition self : transport NANO_XRCE_SerialAgentTransport := gets (fun s => s).

(** The properties are read only after [initialize] has stored them. *)
Definition the_props : transport NANO_XRCE_SerialAgentTransportProperties := reads st_props.

Definition record_of (p : Z) : transport NANO_XRCE_SerialAgentTransport_RecvThread :=
  reads (fun s => st_records s !! p).

(** ** Messages *)

Definition NANO_XRCE_SerialAgentTransport_allocate_message : transport (option Z) :=
  let* '(rc, res) := MessageBufferPool.NANO_MessageBufferPool_allocate in
  check rc (fun _ => ret res) (ret res).

Definition NANO_XRCE_SerialAgentTransport_release_message (msg : Z) : transport unit :=
  MessageBufferPool.NANO_MessageBufferPool_release msg.

(** ** The receive thread *)

(** One reception into [msg]: whether the listener retained it. *)
Definition receive_one (record msg : Z) : transport bool :=
  let* h := MessageBufferPool.header_of msg in
  let* props := the_props in
  let* '(rc, msg_len, src_addr, h) :=
    tcall (SerialReceiveFrame record msg h (sp_recv_timeout props)) in
  modify (MessageBufferPool.put_header msg h) ;;
  if is_ok rc then
    if (MESSAGE_SERIALIZED_SIZE_MIN <=? msg_len)%Z then
      let* '(retained, h) :=
        tcall (OnMessageReceived (LocatorSmall_to_locator src_addr) msg msg_len) in
      modify (MessageBufferPool.put_header msg h) ;;
      ret retained
    else ret false
  else ret false.

Definition recv_loop (fuel : nat) (record : Z) : transport unit :=
  MessageBufferPool.receive_loop NANO_XRCE_SerialAgentTransport_allocate_message
    (receive_one record) fuel None 0.

Definition NANO_XRCE_SerialAgentTransport_RecvThread_impl (fuel : nat) (record : Z)
    : transport unit :=
  recv_loop fuel record ;;
  let* s := self in
  let* _ := tcall (SemaphoreGive (st_sem_thread_exit s)) in
  ret tt.

Definition NANO_XRCE_SerialAgentTransport_recv_thread (fuel : nat) (record : Z) : transport unit :=
  NANO_XRCE_SerialAgentTransport_RecvThread_impl fuel record.

(** ** Initialization *)

(** A failure gives nothing back. *)
Definition NANO_XRCE_SerialAgentTransport_initialize (listener : option Z)
    (props : NANO_XRCE_SerialAgentTransportProperties) (agent : Z) : transport NANO_RetCode :=
  let* s := self in
  modify (set_base (Some agent) (match listener with Some l => Some l | None => st_listener s end)) ;;
  let mtu_max := tp_mtu_max (sp_base props) in
  if (mtu_max =? 0)%Z || (NANO_U16_MAX <? mtu_max)%Z then ret NANO_RETCODE_ERROR
  else
  let* rc := MessageBufferPool.NANO_MessageBufferPool_initialize mtu_max in
  check rc ret
  (let* pool := tcall BufferPoolNewForRecvThread in
   modify (set_threads_pool pool) ;;
   match pool with
   | None => ret rc_passed
   | Some _ =>
       match LocatorSmall_narrow (tp_bind_address (sp_base props)) with
       | None => ret rc_passed
       | Some _ =>
           modify (set_props props) ;;
           let* mutex := tcall (SemaphoreNew SemMutex) in
           modify (fun s => set_semaphores mutex (st_sem_thread_exit s) s) ;;
           match mutex with
           | None => ret rc_passed
           | Some _ =>
               let* sem := tcall (SemaphoreNew SemCounting) in
               modify (fun s => set_semaphores (st_mutex s) sem s) ;;
               match sem with
               | None => ret rc_passed
               | Some _ => ret NANO_RETCODE_OK
               end
           end
       end
   end).

Definition NANO_XRCE_SerialAgentTransport_finalize : transport unit :=
  let* s := self in
  tcall (SemaphoreDelete (st_mutex s)) ;;
  tcall (SemaphoreDelete (st_sem_thread_exit s)) ;;
  modify (fun s => set_semaphores (st_mutex s) None s) ;;
  MessageBufferPool.NANO_MessageBufferPool_finalize ;;
  tcall (BufferPoolDelete (st_recv_threads_pool s)).

(** ** The listener of the client transport of a thread *)

(** Messages and notices of the client transport are dropped: the receive thread
    reads the frames itself. *)
Definition NANO_XRCE_SerialAgentTransport_on_message_received (msg msg_len : Z) : transport bool :=
  ret false.

Definition NANO_XRCE_SerialAgentTransport_on_message_sent (msg : Z) (rc_send : NANO_RetCode)
    : transport unit := ret tt.

Definition NANO_XRCE_SerialAgentTransport_reclaim_message : transport (option Z) := ret None.

(** ** Starting and closing *)

(** On failure the record is returned all the same, unless there is none. *)
Definition NANO_XRCE_SerialAgentTransport_create_recv_thread : transport (option Z) :=
  let* s := self in
  let* res := tcall (BufferPoolGet (st_recv_threads_pool s)) in
  match res with
  | None => ret None
  | Some res =>
      modify (put_record res NANO_XRCE_SERIALAGENTTRANSPORT_RECVTHREAD_INITIALIZER) ;;
      let* props := the_props in
      let mtu := tp_mtu_max (sp_base props) in
      let* buffer := tcall (HeapAllocateAligned mtu) in
      match buffer with
      | None => ret (Some res)
      | Some buffer =>
          let* rc := tcall (SerialInitialize res mtu (sp_connection props)
                              (TransportLocator_small (tp_bind_address (sp_base props))) buffer) in
          check rc (fun _ => ret (Some res))
          (let* r := record_of res in
           modify (put_record res {| rt_recv_thread := rt_recv_thread r;
                                     rt_agent_transport := true;
                                     rt_agent_address := rt_agent_address r |}) ;;
           let* thread := tcall (ThreadNew (ThreadSerialRecv res)) in
           let* r := record_of res in
           modify (put_record res {| rt_recv_thread := thread;
                                     rt_agent_transport := rt_agent_transport r;
                                     rt_agent_address := rt_agent_address r |}) ;;
           ret (Some res))
      end
  end.

Definition NANO_XRCE_SerialAgentTransport_listen : transport NANO_RetCode :=
  tcall (WriteActive true) ;;
  let* recv_thread := NANO_XRCE_SerialAgentTransport_create_recv_thread in
  match recv_thread with
  | None => ret NANO_RETCODE_ERROR
  | Some p =>
      modify (fun s => set_recv_threads (st_recv_threads s ++ [p]) s) ;;
      ret NANO_RETCODE_OK
  end.

(** The loop takes the records of the list from its front. *)
Definition close_thread (recv_thread : Z) : transport unit :=
  let* s := self in
  tcall (SemaphoreTake (st_sem_thread_exit s)) ;;
  modify (fun s => set_recv_threads (remove_node recv_thread (st_recv_threads s)) s) ;;
  let* recv_buffer := tcall (SerialRecvMsgData recv_thread) in
  tcall (SerialFinalize recv_thread) ;;
  tcall (HeapFreeBuffer recv_buffer) ;;
  let* r := record_of recv_thread in
  tcall (ThreadDelete (rt_recv_thread r)) ;;
  tcall (BufferPoolReturn (st_recv_threads_pool s) recv_thread).

Fixpoint close_loop (fuel : nat) : transport unit :=
  let* s := self in
  match st_recv_threads s with
  | [] => ret tt
  | p :: _ =>
      match fuel with
      | O => unfinished
      | S fuel => close_thread p ;; close_loop fuel
      end
  end.

Definition NANO_XRCE_SerialAgentTransport_close : transport NANO_RetCode :=
  tcall (WriteActive false) ;;
  let* s := self in
  close_loop (length (st_recv_threads s)) ;;
  ret NANO_RETCODE_OK.

(** ** Sending *)

Definition send_small (recv_thread : Z) (address : LocatorSmall) (locator : TransportLocator)
    (msg : Z) : transport NANO_RetCode :=
  let* r := record_of recv_thread in
  modify (put_record recv_thread {| rt_recv_thread := rt_recv_thread r;
                                    rt_agent_transport := rt_agent_transport r;
                                    rt_agent_address := address |}) ;;
  let* props := the_props in
  let* rc := tcall (SerialSend recv_thread
                      (TransportLocator_small (tp_bind_address (sp_base props)))
                      (TransportLocator_small locator) msg) in
  check rc ret (ret NANO_RETCODE_OK).

(** Without a receive thread the message is dropped and the result is OK. *)
Definition NANO_XRCE_SerialAgentTransport_send_to (client_locator : TransportLocator) (msg : Z)
    : transport NANO_RetCode :=
  let* s := self in
  match st_recv_threads s with
  | [] => ret NANO_RETCODE_OK
  | p :: _ =>
      match LocatorSmall_narrow client_locator with
      | None => undefined
      | Some a => send_small p a client_locator msg
      end
  end.

Definition NANO_XRCE_SerialAgentTransport_send_direct (locator : TransportLocator) (msg : Z)
    : transport NANO_RetCode :=
  match LocatorSmall_narrow locator with
  | None => ret NANO_RETCODE_ERROR
  | Some a =>
      let* s := self in
      match st_recv_threads s with
      | [] => undefined
      | p :: _ => send_small p a locator msg
      end
  end.

Definition NANO_XRCE_SerialAgentTransport_return (msg : Z) : transport unit :=
  NANO_XRCE_SerialAgentTransport_release_message msg.
End serial.

(** * Theorems *)

Section theorems.
Context {N : NanoClient} {NOk : NanoClientOk N} {T : NanoTransports}.

(** What a transport holds of its own, without its threads. *)
Definition held (s : NANO_XRCE_SerialAgentTransport) : list Handle :=
  handles HPool (st_msg_pool s) ++ handles HPool (st_recv_threads_pool s)
  ++ handles HSemaphore (st_mutex s) ++ handles HSemaphore (st_sem_thread_exit s).

(** Initialization gives nothing back: whatever step fails, the transport
    holds all that was acquired until then.  It succeeds exactly when it holds
    the two pools and the two semaphores, and then has its properties. *)
Theorem serial_initialize_keeps listener props agent s :
  held s = [] ->
  spec (fun _ => True) (NANO_XRCE_SerialAgentTransport_initialize listener props agent) s
    (fun t rc s' =>
       released t = [] /\ acquired t = held s'
       /\ (rc = NANO_RETCODE_OK <-> length (acquired t) = 4%nat)
       /\ (rc = NANO_RETCODE_OK -> st_props s' = Some props)).
Proof.
  unfold held at 1. intros Hs.
  destruct (st_msg_pool s) eqn:Hp, (st_recv_threads_pool s) eqn:Htp, (st_mutex s) eqn:Hm,
    (st_sem_thread_exit s) eqn:Hx; try discriminate Hs.
  unfold NANO_XRCE_SerialAgentTransport_initialize, self.
  repeat first [ eapply spec_mono; [by eapply MessageBufferPool.pool_initialize_spec |]; cbn beta;
                 intros ? ? ? (? & [(? & ? & ? & ->) | (? & ? & [-> | ->])])
               | progress vstep ];
  pose proof rc_passed_failure;
  unfold held; cbn; rewrite ?Hp, ?Htp, ?Hm, ?Hx; resources;
  (split; [done | split; [done | split; [split; cbn; (done || congruence) | (done || congruence)]]]).
Qed.

Lemma remove_first p l : NoDup (p :: l) -> remove_node p (p :: l) = l.
Proof.
  intros [Hp Hl]%NoDup_cons. unfold remove_node. rewrite filter_cons_False by tauto.
  clear Hl. induction l as [| a l IH]; [done |].
  apply not_elem_of_cons in Hp as [Ha Hp]. rewrite filter_cons_True by done. by rewrite IH.
Qed.

(** The receive buffer a client transport was initialized with. *)
Definition serial_buffers (buffer_of : Z -> option Z) (e : tevent) : Prop :=
  match e with
  | existT c r =>
      match c return TResp c -> Prop with
      | SerialRecvMsgData p => fun b => b = buffer_of p
      | _ => fun _ => True
      end r
  end.

(** What closing a thread does, given its record and its receive buffer. *)
Definition close_calls (buffer_of : Z -> option Z) (s : NANO_XRCE_SerialAgentTransport) (p : Z)
    : list TCall :=
  [SemaphoreTake (st_sem_thread_exit s); SerialRecvMsgData p; SerialFinalize p;
   HeapFreeBuffer (buffer_of p); ThreadDelete (st_records s !! p ≫= rt_recv_thread);
   BufferPoolReturn (st_recv_threads_pool s) p].

Lemma close_loop_spec buffer_of l s :
  st_recv_threads s = l -> NoDup l -> (forall p, p ∈ l -> is_Some (st_records s !! p)) ->
  spec (serial_buffers buffer_of) (close_loop (length l)) s (fun t _ s' =>
    calls t = flat_map (close_calls buffer_of s) l /\ s' = set_recv_threads [] s).
Proof.
  revert s; induction l as [| p l IH]; intros s Hl Hnd Hrec; cbn [length close_loop].
  - unfold self. vstep. vstep. rewrite Hl. apply spec_ret. split; [done |].
    rewrite <- Hl. by destruct s.
  - unfold self. vstep. vstep. rewrite Hl. destruct (Hrec p) as [r Hr]; [by left |].
    unfold close_thread, self, record_of.
    repeat (vstep; try (cbn; exact Hr)).
    rewrite Hl, remove_first by done.
    eapply spec_mono; [apply (IH (set_recv_threads l s)); [done | by apply NoDup_cons in Hnd as [_ ?] |] |].
    + intros q Hq. apply Hrec. by right.
    + cbn beta. intros t [] s' [Hc ->]. autorewrite with trace. cbn. rewrite Hc.
      unfold serial_buffers in *. split; [| done].
      cbn. unfold close_calls at 1. cbn. rewrite Hr. cbn. by subst.
Qed.

(** Closing stops every receive thread of the list, from the first to the
    last: it takes one permit of the exit semaphore for each record, whether or
    not the record has a thread, and then finalizes its port, frees its receive
    buffer, deletes its thread and returns its record. *)
Theorem serial_close_each buffer_of s :
  NoDup (st_recv_threads s) ->
  (forall p, p ∈ st_recv_threads s -> is_Some (st_records s !! p)) ->
  spec (serial_buffers buffer_of) NANO_XRCE_SerialAgentTransport_close s (fun t rc s' =>
    rc = NANO_RETCODE_OK /\ st_recv_threads s' = []
    /\ calls t = WriteActive false :: flat_map (close_calls buffer_of s) (st_recv_threads s)).
Proof.
  intros Hnd Hrec. unfold NANO_XRCE_SerialAgentTransport_close, self.
  do 4 vstep. vstep. eapply spec_mono; [by apply close_loop_spec |].
  cbn beta. intros t [] s' [Hc ->]. apply spec_ret. autorewrite with trace. cbn.
  rewrite app_nil_r. by rewrite Hc.
Qed.

(** Listening answers OK as soon as a record is granted.  The record has a
    thread only if the buffer, the port and the thread are all granted; when one
    of them is refused, the record is listed without a thread. *)
Theorem serial_listen_without_thread props s :
  st_props s = Some props ->
  spec (fun _ => True) NANO_XRCE_SerialAgentTransport_listen s (fun t rc s' =>
    match rc with
    | NANO_RETCODE_OK => exists p r,
        HBuffer p ∈ acquired t /\ released t = []
        /\ st_recv_threads s' = st_recv_threads s ++ [p] /\ st_records s' !! p = Some r
        /\ (rt_recv_thread r = None <-> forall th, HThread th ∉ acquired t)
    | _ => calls t = [WriteActive true; BufferPoolGet (st_recv_threads_pool s)]
           /\ acquired t = [] /\ s' = s
    end).
Proof.
  intros Hp. unfold NANO_XRCE_SerialAgentTransport_listen,
    NANO_XRCE_SerialAgentTransport_create_recv_thread, self, the_props, record_of.
  repeat (vstep; try (cbn; rewrite ?lookup_insert_eq; first [exact Hp | done])); try done.
  all: eexists _, _; resources; rewrite ?is_ok_true, ?is_ok_false by done;
    (split; [by left | split; [done | split; [done |]]]); cbn; rewrite ?lookup_insert_eq;
    (split; [done |]); cbn; try set_solver.
  destruct r3; cbn; set_solver.
Qed.
End theorems.

(** ** Witnesses *)

Definition sample_props : NANO_XRCE_SerialAgentTransportProperties :=
  {| sp_base := {| tp_bind_address := 5%Z; tp_metadata_address := 6%Z;
                   tp_enable_discovery := false; tp_mtu_max := 1024 |};
     sp_connection := 0%Z; sp_recv_timeout := 100 |}.

(** An environment without exit semaphores, threads and serial ports. *)
Definition poor_answer (past : list tevent) (c : TCall) : TResp c :=
  match c return TResp c with
  | SemaphoreNew SemCounting => None
  | ThreadNew _ => None
  | SerialInitialize _ _ _ _ _ => NANO_RETCODE_ERROR
  | c => transports_answer past c
  end.

(** Without the exit semaphore initialization fails and keeps two pools and a
    mutex. *)
Lemma serial_initialize_keeps_witness :
  held NANO_XRCE_SERIALAGENTTRANSPORT_INITIALIZER = []
  /\ length (acquired (fst (exec poor_answer []
       (NANO_XRCE_SerialAgentTransport_initialize None sample_props 1
          NANO_XRCE_SERIALAGENTTRANSPORT_INITIALIZER)))) = 3%nat
  /\ spec (fun _ => True) (NANO_XRCE_SerialAgentTransport_initialize None sample_props 1)
       NANO_XRCE_SERIALAGENTTRANSPORT_INITIALIZER
       (fun t rc s' => released t = [] /\ acquired t = held s').
Proof.
  split; [reflexivity |]. split; [reflexivity |].
  eapply spec_mono; [exact (serial_initialize_keeps None sample_props 1
    NANO_XRCE_SERIALAGENTTRANSPORT_INITIALIZER eq_refl) |].
  cbn beta. intros t rc s' (Hr & Ha & _). exact (conj Hr Ha).
Defined.

(** A transport with its properties, which listens with two records, the first of
    which has no thread. *)
Definition sample_transport : NANO_XRCE_SerialAgentTransport :=
  {| st_agent := Some 1; st_listener := None; st_recv_threads := [10; 11]; st_mutex := Some 3;
     st_sem_thread_exit := Some 4; st_recv_threads_pool := Some 5; st_msg_pool := Some 6;
     st_props := Some sample_props;
     st_records := {[ 10 := {| rt_recv_thread := None; rt_agent_transport := true;
                               rt_agent_address := 0 |};
                      11 := {| rt_recv_thread := Some 12; rt_agent_transport := true;
                               rt_agent_address := 0 |} ]};
     st_buffers := ∅ |}%Z.

Lemma serial_close_each_witness :
  NoDup (st_recv_threads sample_transport)
  /\ spec (serial_buffers (fun _ => Some 1%Z)) NANO_XRCE_SerialAgentTransport_close
       sample_transport (fun t rc s' =>
         rc = NANO_RETCODE_OK
         /\ List.filter (fun c => match c with SemaphoreTake _ => true | _ => false end) (calls t)
            = [SemaphoreTake (Some 4%Z); SemaphoreTake (Some 4%Z)]).
Proof.
  assert (Hnd : NoDup (st_recv_threads sample_transport)).
  { apply NoDup_cons; split; [| apply NoDup_singleton].
    cbn. intros H. apply list_elem_of_singleton in H. discriminate H. }
  split; [exact Hnd |]. eapply spec_mono.
  - apply (serial_close_each (fun _ => Some 1%Z) sample_transport Hnd).
    intros p Hp. apply elem_of_cons in Hp as [-> | Hp%list_elem_of_singleton].
    + eexists. reflexivity.
    + subst. eexists. reflexivity.
  - cbn beta. intros t rc s' (Hrc & _ & Hc). split; [exact Hrc |]. rewrite Hc. reflexivity.
Defined.

(** Listening without serial ports answers OK all the same. *)
Lemma serial_listen_without_thread_witness :
  match snd (exec poor_answer [] (NANO_XRCE_SerialAgentTransport_listen sample_transport)) with
  | Returned (rc, s') => is_ok rc && bool_decide (st_recv_threads s' = [10; 11; 1]%Z)
  | _ => false
  end = true
  /\ spec (fun _ => True) NANO_XRCE_SerialAgentTransport_listen sample_transport
       (fun t rc s' => rc = NANO_RETCODE_OK -> released t = []).
Proof.
  split; [vm_compute; reflexivity |].
  eapply spec_mono; [exact (serial_listen_without_thread sample_props sample_transport eq_refl) |].
  cbn beta. intros t rc s' H ->. destruct H as (p & r & _ & Hr & _). exact Hr.
Defined.
End Serial.
