(* ===== verification/RecvThreads.v ===== *)
(** * Receive threads and the thread that closes them

    The receive threads of the UDPv4 and of the serial transport run the same
    protocol, the automaton [thread_next]: [udpv4_thread_refines] and
    [serial_thread_refines] prove that every run of each thread's code is one of
    its paths, so what is proved of the automaton holds of both.  The second half
    composes the automata of the two UDP threads with
    [NANO_XRCE_Udpv4AgentTransport_close] in a step relation ([step]), where
    [active], the exit semaphore and the sockets are shared.  A [World] says what may go wrong
    around them: wake-up messages that are lost, listeners that block, permits that are not given. *)

From Stdlib Require Import ZArith Lia.
From stdpp Require Import functions relations base tactics list gmap.
From S2P Require Import Prelude.
From S2P Require Import Interaction.
From S2P Require Import ServiceData.
From S2P Require Import TransportData.
From S2P Require Import Udpv4.
From S2P Require Import Serial.

Local Open Scope nano_scope.

(** ** The protocol of a receive thread *)

(** What a thread does, as seen from outside.  [LReceive] has the buffer, the
    length offered, and whether a message is there to deliver. *)
Inductive label :=
  | LActive (active : bool)
  | LAllocate (msg : option Z)
  | LSize (size : Z)
  | LReceive (msg : Z) (offered : Z) (message : bool)
  | LDeliver (msg : Z) (retained : bool)
  | LGive
  | LOther.

(** Where a thread is: about to test [active], with a buffer and its length or
    without, to allocate, to ask for the size of the buffer, to receive, to
    deliver, to give the exit semaphore, or gone. *)
Inductive pc :=
  | Testing (held : option (Z * Z))
  | Allocating
  | Sizing (msg : Z)
  | Receiving (msg len : Z)
  | Delivering (msg len : Z)
  | Exiting
  | Exited.

#[export] Instance pc_eq_dec : EqDecision pc.
Proof. solve_decision. Defined.

Definition thread_next (p : pc) (l : label) : option pc :=
  match p, l with
  | Testing None, LActive true => Some Allocating
  | Testing (Some (m, n)), LActive true => Some (Receiving m n)
  | Testing _, LActive false => Some Exiting
  | Allocating, LAllocate None => Some Exiting
  | Allocating, LAllocate (Some m) => Some (Sizing m)
  | Sizing m, LSize n => Some (Receiving m n)
  | Receiving m n, LReceive m' n' message =>
      if decide (m' = m /\ n' = n)
      then Some (if message then Delivering m n else Testing (Some (m, n)))
      else None
  | Delivering m n, LDeliver m' retained =>
      if decide (m' = m)
      then Some (Testing (if retained then None else Some (m, n)))
      else None
  | Exiting, LGive => Some Exited
  | _, _ => None
  end.

(** The state after a sequence of labels, if the thread may do them. *)
Fixpoint thread_path (p : pc) (ls : list label) : option pc :=
  match ls with
  | [] => Some p
  | l :: ls => p' ← thread_next p l; thread_path p' ls
  end.

Lemma thread_path_app p ls1 ls2 :
  thread_path p (ls1 ++ ls2) = p' ← thread_path p ls1; thread_path p' ls2.
Proof.
  revert p; induction ls1 as [| l ls1 IH]; intros p; [done |].
  cbn. destruct (thread_next p l); cbn; [apply IH | done].
Qed.

Section observation.
Context {N : NanoClient} {T : NanoTransports}.

Definition observe (e : tevent) : label :=
  match e with
  | existT c r =>
      match c return TResp c -> label with
      | ReadActive => fun b => LActive b
      | BufferPoolGet _ => fun o => LAllocate o
      | BufferPoolSize _ => fun n => LSize (MESSAGEBUFFER_MAX_INLINE_PAYLOAD n)
      | SocketRecv _ m h => fun '(rc, _, len, _) =>
          LReceive m (mb_data_len h) (is_ok rc && (MESSAGE_SERIALIZED_SIZE_MIN <=? len)%Z)
      | SerialReceiveFrame _ m h _ => fun '(rc, len, _, _) =>
          LReceive m (mb_data_len h) (is_ok rc && (MESSAGE_SERIALIZED_SIZE_MIN <=? len)%Z)
      | OnMessageReceived _ m _ => fun '(retained, _) => LDeliver m retained
      | SemaphoreGive _ => fun _ => LGive
      | _ => fun _ => LOther
      end r
  end.

Definition path (p : pc) (t : list tevent) : option pc := thread_path p (map observe t).

Lemma path_app p t1 t2 : path p (t1 ++ t2) = p' ← path p t1; path p' t2.
Proof. unfold path. rewrite map_app. apply thread_path_app. Qed.

Definition is_active_test (c : TCall) : bool := match c with ReadActive => true | _ => false end.

(** A program that ends, and takes the automaton from [p] along its trace with
    [k] tests of [active]. *)
Definition goes {St A} (m : prog TResp St A) (s : St) (p : pc) (k : nat)
    (Q : A -> St -> pc -> Prop) : Prop :=
  spec (fun _ => True) m s (fun t a s' =>
    exists p', path p t = Some p' /\ count is_active_test t = k /\ Q a s' p').

(** A program that, started at [p], follows the automaton: if it returns, [Q]
    holds of where it stopped; if it runs out of fuel it was about to test
    [active] after [k] tests; and it is never undefined. *)
Definition follows {St A} (m : prog TResp St A) (s : St) (p : pc) (k : nat)
    (Q : A -> St -> pc -> Prop) : Prop :=
  forall t o, runs (m s) t o -> exists p', path p t = Some p' /\
    match o with
    | Returned (a, s') => Q a s' p'
    | Undefined => False
    | Unfinished => (exists held, p' = Testing held) /\ count is_active_test t = k
    end.

Lemma goes_runs {St A} (m : prog TResp St A) s p k (Q : A -> St -> pc -> Prop) t o :
  goes m s p k Q -> runs (m s) t o ->
  exists a s' p', o = Returned (a, s') /\ path p t = Some p' /\ count is_active_test t = k
                  /\ Q a s' p'.
Proof.
  intros H Hr. destruct (spec_runs _ _ _ _ _ _ H Hr) as (a & s' & -> & p' & Hp).
  { by apply List.Forall_forall. }
  naive_solver.
Qed.

Lemma goes_bind {St A B} (m : prog TResp St A) (f : A -> prog TResp St B) s p k k' Q Q' :
  goes m s p k Q -> (forall a s' p', Q a s' p' -> goes (f a) s' p' k' Q') ->
  goes (bind m f) s p (k + k') Q'.
Proof.
  intros Hm Hf. apply spec_bind. eapply spec_mono; [exact Hm |]. cbn beta.
  intros t a s1 (p1 & Hp1 & Hk & HQ). eapply spec_mono; [exact (Hf _ _ _ HQ) |]. cbn beta.
  intros t' b s2 (p2 & Hp2 & Hk' & HQ'). exists p2. rewrite path_app, Hp1, count_app, Hk, Hk'. done.
Qed.

Lemma goes_follows {St A B} (m : prog TResp St A) (f : A -> prog TResp St B) s p k k' Q Q' :
  goes m s p k Q -> (forall a s' p', Q a s' p' -> follows (f a) s' p' k' Q') ->
  follows (bind m f) s p (k + k') Q'.
Proof.
  intros Hm Hf t o Hr. unfold bind in Hr.
  destruct (tbind_split _ _ _ _ Hr) as [(t1 & t2 & [a s1] & -> & H1 & H2) | (o' & Hno & H1 & Ho)];
    destruct (goes_runs _ _ _ _ _ _ _ Hm H1) as (a1 & s' & p' & Heq & Hp' & Hk & HQ).
  - injection Heq as <- <-. destruct (Hf _ _ _ HQ _ _ H2) as (p2 & Hp2 & H).
    exists p2. rewrite path_app, Hp', count_app, Hk. split; [done |].
    destruct o as [[] | |]; [done | done |]. by destruct H as [? ->].
  - by destruct (Hno (a1, s')).
Qed.

Lemma follows_goes {St A B} (m : prog TResp St A) (f : A -> prog TResp St B) s p k k' Q Q' :
  follows m s p k Q -> (forall a s' p', Q a s' p' -> goes (f a) s' p' k' Q') ->
  follows (bind m f) s p k Q'.
Proof.
  intros Hm Hf t o Hr. unfold bind in Hr.
  destruct (tbind_split _ _ _ _ Hr) as [(t1 & t2 & [a s1] & -> & H1 & H2) | (o' & Hno & H1 & Ho)].
  - destruct (Hm _ _ H1) as (p1 & Hp1 & HQ).
    destruct (goes_runs _ _ _ _ _ _ _ (Hf _ _ _ HQ) H2) as (b & s' & p' & -> & Hp' & _ & HQ').
    exists p'. rewrite path_app, Hp1. done.
  - destruct (Hm _ _ H1) as (p1 & Hp1 & HQ). exists p1. split; [done |].
    destruct o' as [[a s1] | |]; [by destruct (Hno (a, s1)) | done |]. by subst.
Qed.

Lemma follows_unfinished {St A} s held (Q : A -> St -> pc -> Prop) :
  follows unfinished s (Testing held) 0 Q.
Proof. intros t o [-> ->]. eauto. Qed.

Lemma follows_ret {St A} (a : A) s p k (Q : A -> St -> pc -> Prop) :
  Q a s p -> follows (ret a) s p k Q.
Proof. intros H t o [-> ->]. eauto. Qed.

Lemma goes_ret {St A} (a : A) s p (Q : A -> St -> pc -> Prop) :
  Q a s p -> goes (ret a) s p 0 Q.
Proof. intros H. apply spec_ret. eauto. Qed.
End observation.

(** Proves [goes] for a program of known calls that ends in one state. *)
Ltac goes_solve :=
  (eexists; split; [reflexivity | split; [reflexivity |]]).

(** ** Both threads refine the protocol

    A transport whose allocation and reception follow the protocol has a receive
    loop that follows it; [Inv] is what they need of its state. *)

Section refinement.
Context {N : NanoClient} {NOk : NanoClientOk N} {T : NanoTransports}.

Section loop.
Context {St : Type} `{MPOk : MessagePoolOk St} (Inv : St -> Prop).
Context (allocate : prog TResp St (option Z)) (receive : Z -> prog TResp St bool).

(** Buffer [p] offers [n] bytes. *)
Definition offers (p n : Z) (s : St) : Prop :=
  exists h, mp_buffers s !! p = Some h /\ mb_data_len h = n.

Definition known (p : Z) (s : St) : Prop := is_Some (mp_buffers s !! p).

Context (allocate_goes : forall s, Inv s ->
  goes allocate s Allocating 0 (fun msg s' p' =>
    Inv s' /\ match msg with
              | None => p' = Exiting
              | Some m => exists n, p' = Receiving m n /\ offers m n s'
              end)).
Context (receive_goes : forall s m n, Inv s -> offers m n s ->
  goes (receive m) s (Receiving m n) 0 (fun retained s' p' =>
    Inv s' /\ known m s' /\ p' = Testing (if retained then None else Some (m, n)))).
Context (Inv_set_buffers : forall b s, Inv s -> Inv (mp_set_buffers b s)).

Lemma set_data_len_goes m n s p :
  Inv s -> known m s ->
  goes (MessageBufferPool.set_data_len m n) s p 0 (fun _ s' p' =>
    Inv s' /\ offers m n s' /\ p' = p).
Proof.
  intros Hi [h Hh]. unfold goes, MessageBufferPool.set_data_len, MessageBufferPool.header_of.
  repeat (vstep; try exact Hh). goes_solve. split; [by apply Inv_set_buffers |].
  split; [| done]. eexists. unfold MessageBufferPool.put_header.
  by rewrite mp_buffers_set_buffers, lookup_insert_eq.
Qed.

(** What the loop knows when it tests [active]. *)
Definition loop_inv (msg : option Z) (len : Z) (s : St) (p : pc) : Prop :=
  match msg with
  | None => p = Testing None
  | Some m => p = Testing (Some (m, len)) /\ offers m len s
  end.

(** Where the loop is once [active] was found TRUE. *)
Definition active_pc (msg : option Z) (len : Z) : pc :=
  match msg with None => Allocating | Some m => Receiving m len end.

Lemma receive_loop_follows fuel msg len s p :
  Inv s -> loop_inv msg len s p ->
  follows (MessageBufferPool.receive_loop allocate receive fuel msg len) s p fuel
    (fun _ s' p' => Inv s' /\ p' = Exiting).
Proof.
  revert msg len s p; induction fuel as [| fuel IH]; intros msg len s p Hi Hp.
  { destruct msg; [destruct Hp as [-> _] | rewrite Hp]; apply follows_unfinished. }
  cbn [MessageBufferPool.receive_loop].
  apply (goes_follows _ _ _ _ 1 fuel (fun (active : bool) s' p' => s' = s /\
    p' = if active then active_pc msg len else Exiting)).
  { unfold goes. vstep.
    destruct msg; [destruct Hp as [-> _] | rewrite Hp]; destruct r; goes_solve; done. }
  intros active s' p1 [-> ->]. destruct active; [| by apply follows_ret].
  apply (goes_follows _ _ _ _ 0 fuel (fun '(msg, len) s' p' => Inv s' /\
    match msg with
    | None => p' = Exiting
    | Some m => p' = Receiving m len /\ offers m len s'
    end)).
  { destruct msg as [m |]; [destruct Hp as [-> Ho]; by apply goes_ret |].
    apply (goes_bind _ _ _ _ 0 0 _ _ (allocate_goes s Hi)). cbn beta.
    intros [m |] s1 p2 [Hi1 Hm]; [| by apply goes_ret].
    destruct Hm as (n & -> & h & Hh & Hn). unfold goes, MessageBufferPool.header_of.
    repeat (vstep; try exact Hh). goes_solve. rewrite Hn. split; [done |]. split; [done | by eexists]. }
  intros [[m |] len'] s1 p2 [Hi1 Hm]; [| by apply follows_ret].
  destruct Hm as [-> Ho].
  apply (goes_follows _ _ _ _ 0 fuel _ _ (receive_goes _ _ _ Hi1 Ho)). cbn beta.
  intros retained s2 p3 (Hi2 & Hk & ->). destruct retained; [by apply IH |].
  apply (goes_follows _ _ _ _ 0 fuel _ _ (set_data_len_goes m len' _ _ Hi2 Hk)). cbn beta.
  intros [] s3 p4 (Hi3 & Ho3 & ->). by apply IH.
Qed.
End loop.
End refinement.

(** ** The two threads *)

Section threads.
Context {N : NanoClient} {NOk : NanoClientOk N} {T : NanoTransports}.

(** What a run of a thread with [fuel] tests of [active] says: it follows the
    automaton, to its end if it returns. *)
Definition refined {A} (fuel : nat) (t : list tevent) (o : outcome A) : Prop :=
  exists p, path (Testing None) t = Some p /\
    match o with
    | Returned _ => p = Exited
    | Undefined => False
    | Unfinished => (exists held, p = Testing held) /\ count is_active_test t = fuel
    end.

(** The buffer of an allocation that follows the protocol. *)
Lemma pool_allocate_goes {St} `{MPOk : MessagePoolOk St} (Inv : St -> Prop) s :
  (forall b s, Inv s -> Inv (mp_set_buffers b s)) -> Inv s ->
  goes MessageBufferPool.NANO_MessageBufferPool_allocate s Allocating 0
    (fun '(rc, msg) s' p' => Inv s' /\
      match msg with
      | None => rc = NANO_RETCODE_OUT_OF_RESOURCES /\ p' = Exiting
      | Some m => rc = NANO_RETCODE_OK /\ exists n, p' = Receiving m n /\ offers m n s'
      end).
Proof.
  intros Hinv Hi. eapply spec_mono; [by eapply MessageBufferPool.pool_allocate_spec |].
  cbn beta. intros t [rc [m |]] s'.
  - intros (n & -> & -> & ->). goes_solve. split; [by apply Hinv |]. split; [done |].
    eexists. split; [done |]. eexists. unfold MessageBufferPool.put_header.
    rewrite mp_buffers_set_buffers, lookup_insert_eq. split; [done |]. done.
  - intros (-> & -> & ->). by goes_solve.
Qed.

(** *** UDPv4 *)

Lemma udpv4_allocate_goes metadata s :
  goes (Udpv4.NANO_XRCE_Udpv4AgentTransport_allocate_message metadata) s Allocating 0
    (fun msg s' p' => True /\ match msg with
     | None => p' = Exiting
     | Some m => exists n, p' = Receiving m n /\ offers m n s'
     end).
Proof.
  unfold Udpv4.NANO_XRCE_Udpv4AgentTransport_allocate_message.
  apply (goes_bind _ _ _ _ 0 0 _ _ (pool_allocate_goes (fun _ => True) s (fun _ _ _ => I) I)). cbn beta.
  intros [rc [m |]] s1 p1 [_ H].
  - destruct H as [-> (n & -> & h & Hh & Hn)]. unfold check; cbn [is_ok].
    unfold goes; destruct metadata; unfold MessageBufferPool.header_of.
    + repeat (vstep; try exact Hh). goes_solve. split; [done |].
      eexists. split; [done |]. eexists. cbn. rewrite lookup_insert_eq. by split.
    + repeat vstep. goes_solve. split; [done |]. eexists. split; [done |]. by eexists.
  - destruct H as [-> ->]. unfold check; cbn [is_ok]. by apply goes_ret.
Qed.

Lemma udpv4_receive_goes socket s m n :
  offers m n s ->
  goes (Udpv4.receive_one socket m) s (Receiving m n) 0 (fun retained s' p' =>
    True /\ known m s' /\ p' = Testing (if retained then None else Some (m, n))).
Proof.
  intros (h & Hh & Hn). unfold goes, Udpv4.receive_one, MessageBufferPool.header_of.
  repeat (vstep; try exact Hh); subst n; cbn;
  rewrite ?decide_True by done; cbn; rewrite ?is_ok_true, ?is_ok_false by done; cbn;
  repeat match goal with H : (MESSAGE_SERIALIZED_SIZE_MIN <=? _)%Z = _ |- _ => rewrite H end; cbn;
  rewrite ?decide_True by done; cbn;
  goes_solve; (split; [done | split; [| done]]);
  unfold known; cbn; rewrite lookup_insert_eq; eauto.
Qed.

Lemma udpv4_thread_follows fuel socket metadata s t o :
  runs (Udpv4.NANO_XRCE_Udpv4AgentTransport_recv_thread_impl fuel socket metadata s) t o ->
  refined fuel t o.
Proof.
  intros Hr.
  assert (H : follows (Udpv4.NANO_XRCE_Udpv4AgentTransport_recv_thread_impl fuel socket metadata)
    s (Testing None) fuel (fun _ _ p => p = Exited)).
  { unfold Udpv4.NANO_XRCE_Udpv4AgentTransport_recv_thread_impl.
    eapply (follows_goes _ _ _ _ _ 0).
    - apply (receive_loop_follows (fun _ => True)); try done.
      + intros; apply udpv4_allocate_goes.
      + intros; by apply udpv4_receive_goes.
    - cbn beta. intros [] s1 p1 [_ ->]. unfold goes, Udpv4.self. repeat vstep. by goes_solve. }
  destruct (H t o Hr) as (p & Hp & Ho). exists p. split; [done |].
  by destruct o as [[[] s'] | |].
Qed.

(** *** Serial *)

Lemma serial_receive_goes record s m n :
  st_props s <> None -> offers m n s ->
  goes (Serial.receive_one record m) s (Receiving m n) 0 (fun retained s' p' =>
    st_props s' <> None /\ known m s' /\ p' = Testing (if retained then None else Some (m, n))).
Proof.
  intros Hp (h & Hh & Hn). destruct (st_props s) as [props |] eqn:Hprops; [| done].
  unfold goes, Serial.receive_one, MessageBufferPool.header_of, Serial.the_props.
  repeat (vstep; try first [exact Hh | exact Hprops]); subst n; cbn;
  rewrite ?decide_True by done; cbn; rewrite ?is_ok_true, ?is_ok_false by done; cbn;
  repeat match goal with H : (MESSAGE_SERIALIZED_SIZE_MIN <=? _)%Z = _ |- _ => rewrite H end; cbn;
  rewrite ?decide_True by done; cbn;
  goes_solve; (split; [cbn; congruence | split; [| done]]);
  unfold known; cbn; rewrite lookup_insert_eq; eauto.
Qed.

Lemma serial_allocate_goes s :
  st_props s <> None ->
  goes Serial.NANO_XRCE_SerialAgentTransport_allocate_message s Allocating 0
    (fun msg s' p' => st_props s' <> None /\ match msg with
     | None => p' = Exiting
     | Some m => exists n, p' = Receiving m n /\ offers m n s'
     end).
Proof.
  intros Hp. unfold Serial.NANO_XRCE_SerialAgentTransport_allocate_message.
  eapply (goes_bind _ _ _ _ 0 0); [by apply (pool_allocate_goes (fun s => st_props s <> None)) |].
  cbn beta.
  intros [rc [m |]] s1 p1 [Hi H]; unfold check; destruct H as [-> H]; cbn [is_ok];
    by apply goes_ret.
Qed.

Lemma serial_thread_follows fuel record s t o :
  st_props s <> None ->
  runs (Serial.NANO_XRCE_SerialAgentTransport_recv_thread fuel record s) t o ->
  refined fuel t o.
Proof.
  intros Hs Hr.
  assert (H : follows (Serial.NANO_XRCE_SerialAgentTransport_recv_thread fuel record)
    s (Testing None) fuel (fun _ _ p => p = Exited)).
  { unfold Serial.NANO_XRCE_SerialAgentTransport_recv_thread,
      Serial.NANO_XRCE_SerialAgentTransport_RecvThread_impl.
    eapply (follows_goes _ _ _ _ _ 0).
    - apply (receive_loop_follows (fun s => st_props s <> None)); try done.
      + intros; by apply serial_allocate_goes.
      + intros; by apply serial_receive_goes.
    - cbn beta. intros [] s1 p1 [_ ->]. unfold goes, Serial.self. repeat vstep. by goes_solve. }
  destruct (H t o Hr) as (p & Hp & Ho). exists p. split; [done |].
  by destruct o as [[[] s'] | |].
Qed.
End threads.

(** ** The buffers of a thread *)

Definition allocated_of (l : label) : list Z :=
  match l with LAllocate (Some m) => [m] | _ => [] end.
Definition retained_of (l : label) : list Z :=
  match l with LDeliver m true => [m] | _ => [] end.

(** The buffer a thread may hold. *)
Definition holds (p : pc) (m : option Z) : Prop :=
  match p with
  | Testing held => m = fst <$> held
  | Allocating => m = None
  | Sizing a | Receiving a _ | Delivering a _ => m = Some a
  | Exiting | Exited => True
  end.

Lemma thread_next_buffers p l p' m :
  thread_next p l = Some p' -> holds p m ->
  exists m', holds p' m' /\ option_list m ++ allocated_of l = retained_of l ++ option_list m'.
Proof.
  intros Hn Hm. destruct p as [[[a n] |] | | a | a n | a n | |], l as [[] | [b |] | k | b k [] | b [] | |];
    cbn in Hn; try destruct (decide _); simplify_eq; cbn in Hm |- *; subst;
    try (destruct_and!; subst); cbn; eauto.
  - by exists (Some a).
  - by exists None.
  - by exists None.
  - exists m. by rewrite app_nil_r.
Qed.

(** The buffers a thread has allocated are those its listener retained, in order,
    and at most one more. *)
Lemma thread_path_buffers p ls p' m :
  thread_path p ls = Some p' -> holds p m ->
  exists m', holds p' m'
    /\ option_list m ++ flat_map allocated_of ls = flat_map retained_of ls ++ option_list m'.
Proof.
  revert p m; induction ls as [| l ls IH]; intros p m Hp Hm.
  - cbn in *. simplify_eq. exists m. by rewrite app_nil_r.
  - cbn in Hp. destruct (thread_next p l) as [p1 |] eqn:Hn; [| done]. cbn in Hp.
    destruct (thread_next_buffers _ _ _ _ Hn Hm) as (m1 & Hm1 & H1).
    destruct (IH _ _ Hp Hm1) as (m2 & Hm2 & H2). exists m2. split; [done |].
    cbn. by rewrite app_assoc, H1, <- app_assoc, H2, app_assoc.
Qed.

Section theorems.
Context {N : NanoClient} {NOk : NanoClientOk N} {T : NanoTransports}.

(** C27: The receive threads of the UDPv4 transport and of the serial transport
    refine the same protocol: each test of [active], allocation, reception and
    delivery of their code is a transition of [thread_next], which offers the
    whole length of the buffer at each reception and delivers the messages long
    enough only.  A run that returns has given the exit semaphore last, one that
    does not return has found [active] TRUE at each of its tests, and none is
    undefined. *)
Theorem recv_threads_refine fuel t :
  (forall socket metadata s o,
     runs (Udpv4.NANO_XRCE_Udpv4AgentTransport_recv_thread_impl fuel socket metadata s) t o ->
     refined fuel t o)
  /\ (forall record s o,
     st_props s <> None ->
     runs (Serial.NANO_XRCE_SerialAgentTransport_recv_thread fuel record s) t o ->
     refined fuel t o).
Proof. split; intros; [by eapply udpv4_thread_follows | by eapply serial_thread_follows]. Qed.

(** Whatever its listener does, a receive thread of either transport has
    allocated the buffers the listener retained, in the order they were delivered,
    and at most one more; with a listener that never retains, like the agent's, a
    thread uses a single buffer. *)
Theorem recv_thread_buffers fuel t :
  (exists socket metadata s o,
     runs (Udpv4.NANO_XRCE_Udpv4AgentTransport_recv_thread_impl fuel socket metadata s) t o)
  \/ (exists record s o, st_props s <> None
        /\ runs (Serial.NANO_XRCE_SerialAgentTransport_recv_thread fuel record s) t o) ->
  exists last, (length last <= 1)%nat
    /\ flat_map allocated_of (map observe t) = flat_map retained_of (map observe t) ++ last.
Proof.
  intros H. assert (Hp : exists p, path (Testing None) t = Some p).
  { destruct H as [(k & b & s & o & H) | (r & s & o & Hs & H)].
    - destruct (udpv4_thread_follows _ _ _ _ _ _ H) as (p & Hp & _). eauto.
    - destruct (serial_thread_follows _ _ _ _ _ Hs H) as (p & Hp & _). eauto. }
  destruct Hp as [p Hp]. destruct (thread_path_buffers _ _ _ None Hp) as (m & _ & Hm); [done |].
  exists (option_list m). split; [by destruct m as [? |]; cbn; lia | exact Hm].
Qed.
End theorems.

(** ** Closing the UDPv4 transport *)

Inductive close_action :=
  | Deactivate
  | Wake (socket : UdpSocket)
  | Await
  | DeleteThread (socket : UdpSocket).

#[export] Instance close_action_eq_dec : EqDecision close_action.
Proof. solve_decision. Defined.

(** What [close] does, with or without a metadata thread. *)
Definition close_script (metadata : bool) : list close_action :=
  [Deactivate; Wake ClientSocket; Await; DeleteThread ClientSocket]
  ++ (if metadata then [Wake MetadataSocket; Await; DeleteThread MetadataSocket] else []).

Section closing.
Context {N : NanoClient} {NOk : NanoClientOk N} {T : NanoTransports}.

(** Its actions as calls of the code. *)
Definition close_call (s : NANO_XRCE_Udpv4AgentTransport) (a : close_action) : TCall :=
  let send addr := SocketSend (ut_client_socket s) (lm_address addr) (lm_port addr)
                     (ExitMessage MESSAGE_SERIALIZED_SIZE_MIN) in
  match a with
  | Deactivate => WriteActive false
  | Wake ClientSocket => send (ut_wakeup_address s)
  | Wake MetadataSocket => send (ut_metadata_address s)
  | Await => SemaphoreTake (ut_sem_thread_exit s)
  | DeleteThread ClientSocket => ThreadDelete (ut_recv_thread s)
  | DeleteThread MetadataSocket => ThreadDelete (ut_metadata_thread s)
  end.

Definition has_metadata (s : NANO_XRCE_Udpv4AgentTransport) : bool :=
  match ut_metadata_thread s with Some _ => true | None => false end.

Ltac close_cases :=
  split; [done |]; split; [cbn; split; intros; first [done | congruence | lia] |];
  split; [intros; congruence || (cbn; eauto) |];
  split; destruct (decide _) as [Hd | Hd]; try done; exfalso; cbn in Hd; set_solver.

(** Closing the UDPv4 transport follows its script: it clears [active], wakes
    the receive thread, waits for a thread to exit and deletes it, then does the
    same for the metadata thread if there is one.  It answers OK exactly when
    it gets to the end; otherwise a wake-up message was refused, and the threads
    not deleted stay, with [active] FALSE. *)
Theorem udpv4_close_follows_script s :
  spec (fun _ => True) Udpv4.NANO_XRCE_Udpv4AgentTransport_close s (fun t rc s' =>
    let script := close_script (has_metadata s) in
    exists k,
      calls t = map (close_call s) (take k script)
      /\ (rc = NANO_RETCODE_OK <-> (length script <= k)%nat)
      /\ (rc <> NANO_RETCODE_OK -> exists w, last (take k script) = Some (Wake w))
      /\ (ut_recv_thread s' = if decide (DeleteThread ClientSocket ∈ take k script)
                              then None else ut_recv_thread s)
      /\ (ut_metadata_thread s' = if decide (DeleteThread MetadataSocket ∈ take k script)
                                  then None else ut_metadata_thread s)).
Proof.
  unfold Udpv4.NANO_XRCE_Udpv4AgentTransport_close, Udpv4.send_exit, Udpv4.self, has_metadata.
  repeat vstep; cbn zeta.
  - exists 7%nat. unfold close_call; rewrite Heqo; cbn [map take close_script app]. close_cases.
  - exists 5%nat. close_cases.
  - exists 4%nat. close_cases.
  - exists 2%nat. destruct (ut_metadata_thread s); close_cases.
Qed.
End closing.

(** ** The threads together

    A state of the UDPv4 transport while [close] runs: the value of [active], the
    permits of the exit semaphore, the datagrams that wait in each socket (those
    of [close]; others may come at any time), where each thread is, the actions
    [close] has still to do, and the threads it has deleted.  Deleting a thread
    frees its handle; it does not stop a thread that still runs. *)

Record system := {
  sys_active : bool;
  sys_permits : nat;
  sys_inbox : UdpSocket -> nat;
  sys_thread : UdpSocket -> option pc;
  sys_closing : list close_action;
  sys_deleted : UdpSocket -> bool
}.

Definition set_thread (w : UdpSocket) (p : pc) (s : system) : system :=
  {| sys_active := sys_active s; sys_permits := sys_permits s; sys_inbox := sys_inbox s;
     sys_thread := <[w := Some p]> (sys_thread s); sys_closing := sys_closing s;
     sys_deleted := sys_deleted s |}.

Definition set_inbox (w : UdpSocket) (n : nat) (s : system) : system :=
  {| sys_active := sys_active s; sys_permits := sys_permits s;
     sys_inbox := <[w := n]> (sys_inbox s); sys_thread := sys_thread s;
     sys_closing := sys_closing s; sys_deleted := sys_deleted s |}.

Definition set_permits (n : nat) (s : system) : system :=
  {| sys_active := sys_active s; sys_permits := n; sys_inbox := sys_inbox s;
     sys_thread := sys_thread s; sys_closing := sys_closing s; sys_deleted := sys_deleted s |}.

(** What may go wrong around the threads: a wake-up message is lost, a call of the
    listener does not return (that of the agent waits for the mutex of its mappings), and
    giving the semaphore fails, which the code only logs. *)
Record World := { loses_wakeups : bool; listener_blocks : bool; gives_fail : bool }.

(** The one in which nothing of this happens. *)
Definition dependable : World :=
  {| loses_wakeups := false; listener_blocks := false; gives_fail := false |}.

Section worlds.
Context (W : World).

(** What the shared state says of a label: [active] is read as it is. *)
Definition label_ok (s : system) (l : label) : Prop :=
  match l with LActive b => b = sys_active s | _ => True end.

(** Giving the semaphore adds a permit, unless it fails. *)
Inductive label_effect : label -> system -> system -> Prop :=
  | effect_give s : label_effect LGive s (set_permits (S (sys_permits s)) s)
  | effect_give_failed s : gives_fail W = true -> label_effect LGive s s
  | effect_none l s : l <> LGive -> label_effect l s s.

(** The effect of an action of [close] that can be done; [Await] needs a permit.
    A wake-up message is accepted, and delivered unless it may be lost. *)
Inductive closes : close_action -> system -> system -> Prop :=
  | closes_deactivate s :
      closes Deactivate s
        {| sys_active := false; sys_permits := sys_permits s; sys_inbox := sys_inbox s;
           sys_thread := sys_thread s; sys_closing := tail (sys_closing s);
           sys_deleted := sys_deleted s |}
  | closes_wake w s :
      closes (Wake w) s
        {| sys_active := sys_active s; sys_permits := sys_permits s;
           sys_inbox := <[w := S (sys_inbox s w)]> (sys_inbox s);
           sys_thread := sys_thread s; sys_closing := tail (sys_closing s);
           sys_deleted := sys_deleted s |}
  | closes_wake_lost w s :
      loses_wakeups W = true ->
      closes (Wake w) s
        {| sys_active := sys_active s; sys_permits := sys_permits s; sys_inbox := sys_inbox s;
           sys_thread := sys_thread s; sys_closing := tail (sys_closing s);
           sys_deleted := sys_deleted s |}
  | closes_await s n :
      sys_permits s = S n ->
      closes Await s
        {| sys_active := sys_active s; sys_permits := n; sys_inbox := sys_inbox s;
           sys_thread := sys_thread s; sys_closing := tail (sys_closing s);
           sys_deleted := sys_deleted s |}
  | closes_delete w s :
      closes (DeleteThread w) s
        {| sys_active := sys_active s; sys_permits := sys_permits s; sys_inbox := sys_inbox s;
           sys_thread := sys_thread s; sys_closing := tail (sys_closing s);
           sys_deleted := <[w := true]> (sys_deleted s) |}.

(** The steps that happen without outside help: a thread that does not wait for a
    datagram moves, nor for a listener that may block; a waiting thread takes a datagram of
    its socket, [close] does its next action. *)
Inductive moves : system -> system -> Prop :=
  | moves_thread w p l p' s s1 :
      sys_thread s w = Some p -> thread_next p l = Some p' ->
      (forall m n, p <> Receiving m n) ->
      (listener_blocks W = true -> forall m n, p <> Delivering m n) ->
      label_ok s l -> label_effect l s s1 ->
      moves s (set_thread w p' s1)
  | moves_receive w p m n b p' k s :
      sys_thread s w = Some p -> thread_next p (LReceive m n b) = Some p' ->
      sys_inbox s w = S k ->
      moves s (set_thread w p' (set_inbox w k s))
  | moves_close a rest s s' :
      sys_closing s = a :: rest -> closes a s s' ->
      moves s s'.

(** All steps: a waiting thread may also receive from a client, or time out, and a listener that
    blocks may return. *)
Inductive step : system -> system -> Prop :=
  | step_moves s s' : moves s s' -> step s s'
  | step_client w p m n b p' s :
      sys_thread s w = Some p -> thread_next p (LReceive m n b) = Some p' ->
      step s (set_thread w p' s)
  | step_listener w p m b p' s :
      sys_thread s w = Some p -> thread_next p (LDeliver m b) = Some p' ->
      step s (set_thread w p' s).

(** Every execution gets to [P]: it is there, or it can move and after whatever
    step comes next every execution gets there. *)
Inductive eventually (P : system -> Prop) (s : system) : Prop :=
  | eventually_now : P s -> eventually P s
  | eventually_step :
      (exists s', moves s s') ->
      (forall s', step s s' -> eventually P s') ->
      eventually P s.

(** How many of the two threads have exited. *)
Definition has_exited (s : system) (w : UdpSocket) : nat :=
  if decide (sys_thread s w = Some Exited) then 1%nat else 0%nat.
Definition exited (s : system) : nat := has_exited s ClientSocket + has_exited s MetadataSocket.

(** When [close] begins: each thread that has exited, having failed to allocate a
    buffer, has given the semaphore, or failed to. *)
Record starts (metadata : bool) (s : system) : Prop := {
  starts_permits : (sys_permits s <= exited s)%nat;
  starts_given : gives_fail W = false -> sys_permits s = exited s;
  starts_recv : sys_thread s ClientSocket <> None;
  starts_metadata : sys_thread s MetadataSocket <> None <-> metadata = true;
  starts_closing : sys_closing s = close_script metadata;
  starts_deleted : forall w, sys_deleted s w = false
}.

(** *** The invariant of the system

    [k] counts the actions [close] has done. *)

Definition is_await (a : close_action) : bool := match a with Await => true | _ => false end.
Definition awaited (l : list close_action) : nat := length (List.filter is_await l).

(** Where a thread still has a reception before it. *)
Definition needs_wake (p : pc) : Prop :=
  match p with Allocating | Sizing _ | Receiving _ _ => True | _ => False end.

Record system_inv (metadata : bool) (k : nat) (s : system) : Prop := {
  inv_closing : sys_closing s = drop k (close_script metadata);
  inv_length : (k <= length (close_script metadata))%nat;
  inv_permits : (sys_permits s + awaited (take k (close_script metadata)) <= exited s)%nat;
  inv_given : gives_fail W = false ->
    (sys_permits s + awaited (take k (close_script metadata)))%nat = exited s;
  inv_deleted : forall w, sys_deleted s w = true -> DeleteThread w ∈ take k (close_script metadata);
  inv_active : (0 < k)%nat -> sys_active s = false;
  inv_recv : sys_thread s ClientSocket <> None;
  inv_metadata : sys_thread s MetadataSocket <> None <-> metadata = true;
  inv_woken : forall w p, loses_wakeups W = false -> Wake w ∈ take k (close_script metadata) ->
    sys_thread s w = Some p -> needs_wake p -> (0 < sys_inbox s w)%nat
}.

Lemma starts_inv metadata s : starts metadata s -> system_inv metadata 0 s.
Proof.
  intros [H1 Hg H2 H3 H4 H5]. split; try done.
  - lia.
  - by rewrite Nat.add_0_r.
  - intros Hf. by rewrite (Hg Hf), Nat.add_0_r.
  - intros w. by rewrite H5.
  - lia.
  - intros w p _ H. by apply elem_of_nil in H.
Qed.

Lemma has_exited_thread w p s w' :
  has_exited (set_thread w p s) w'
  = if decide (w = w') then (if decide (p = Exited) then 1 else 0)%nat else has_exited s w'.
Proof.
  unfold has_exited, set_thread; cbn. destruct (decide (w = w')) as [-> | Hne].
  - rewrite fn_lookup_insert. repeat case_decide; congruence.
  - by rewrite fn_lookup_insert_ne.
Qed.

Lemma next_exit p l p' :
  thread_next p l = Some p' -> p <> Exited /\ (p' = Exited <-> l = LGive).
Proof.
  destruct p as [[[a n] |] | | a | a n | a n | |], l as [[] | [b |] | k | b k [] | b [] | |]; cbn;
    try destruct (decide _); intros; simplify_eq; split; done.
Qed.

Lemma next_wake p l p' :
  thread_next p l = Some p' -> needs_wake p' ->
  (forall m n b, l <> LReceive m n b) /\ (l = LActive true \/ needs_wake p).
Proof.
  destruct p as [[[a n] |] | | a | a n | a n | |], l as [[] | [b |] | k | b k [] | b [] | |]; cbn;
    try destruct (decide _); intros; simplify_eq; cbn in *; try done; split; auto; done.
Qed.

Definition gives (l : label) : nat := match l with LGive => 1 | _ => 0 end.

Lemma exited_thread w p l p' s :
  sys_thread s w = Some p -> thread_next p l = Some p' ->
  exited (set_thread w p' s) = (exited s + gives l)%nat.
Proof.
  intros Hw Hn. destruct (next_exit _ _ _ Hn) as [Hp Hp'].
  assert (H0 : has_exited s w = 0%nat) by (unfold has_exited; rewrite decide_False; congruence).
  assert (Hg : (if decide (p' = Exited) then 1 else 0)%nat = gives l).
  { case_decide as H.
    - by rewrite (proj1 Hp' H).
    - destruct l; try done. destruct H. by apply Hp'. }
  unfold exited. rewrite !has_exited_thread, Hg.
  destruct w; repeat (case_decide; try done); lia.
Qed.

(** A step of a thread keeps the invariant, if it leaves a woken thread that
    still has to receive with its datagram. *)
Lemma thread_step_inv metadata k w p l p' permits inbox s :
  system_inv metadata k s ->
  sys_thread s w = Some p -> thread_next p l = Some p' -> label_ok s l ->
  (permits = (sys_permits s + gives l)%nat \/ gives_fail W = true /\ permits = sys_permits s) ->
  (forall w', needs_wake p' \/ w' <> w -> inbox w' = sys_inbox s w') ->
  system_inv metadata k
    {| sys_active := sys_active s; sys_permits := permits;
       sys_inbox := inbox; sys_thread := <[w := Some p']> (sys_thread s);
       sys_closing := sys_closing s; sys_deleted := sys_deleted s |}.
Proof.
  intros [H1 H2 H3 Hg H4 H5 H6 H7 H8] Hw Hn Hl Hper Hi.
  pose proof (exited_thread _ _ _ _ _ Hw Hn) as He.
  split; cbn [sys_active sys_permits sys_inbox sys_thread sys_closing sys_deleted]; try done.
  - change (exited _) with (exited (set_thread w p' s)). lia.
  - intros Hf. specialize (Hg Hf). change (exited _) with (exited (set_thread w p' s)).
    destruct Hper as [-> | [? _]]; [lia | congruence].
  - destruct w; [by rewrite fn_lookup_insert | by rewrite fn_lookup_insert_ne].
  - destruct w; [by rewrite fn_lookup_insert_ne |]. rewrite fn_lookup_insert.
    rewrite Hw in H7. split; [intros _; by apply H7 | done].
  - intros w' q Hlossy Hk Hq Hneed. destruct (decide (w = w')) as [<- | Hne].
    + rewrite fn_lookup_insert in Hq. injection Hq as <-.
      destruct (next_wake _ _ _ Hn Hneed) as [_ [-> | Hp]].
      * cbn in Hl. rewrite H5 in Hl; [done |]. destruct k; [| lia]. by apply elem_of_nil in Hk.
      * rewrite Hi by auto. eauto.
    + rewrite fn_lookup_insert_ne in Hq by done. rewrite Hi by auto. eauto.
Qed.

Lemma take_drop_close {A} (l : list A) k a rest :
  drop k l = a :: rest -> take (S k) l = take k l ++ [a] /\ rest = drop (S k) l /\ (k < length l)%nat.
Proof.
  intros H. assert (Hk : l !! k = Some a) by (rewrite <- (take_drop k l), H; rewrite lookup_app_r;
    rewrite length_take; [| lia];
    pose proof (f_equal length H) as Hlen; rewrite length_drop in Hlen; cbn in Hlen;
    by replace (k - k `min` length l)%nat with 0%nat by lia).
  split; [by apply take_S_r | split; [| by eapply lookup_lt_Some]].
  pose proof (drop_S _ _ _ Hk) as H'. congruence.
Qed.

Lemma awaited_app l1 l2 : awaited (l1 ++ l2) = (awaited l1 + awaited l2)%nat.
Proof. unfold awaited. by rewrite List.filter_app, length_app. Qed.

Lemma awaited_one a : awaited [a] = if is_await a then 1%nat else 0%nat.
Proof. by destruct a. Qed.

(** An action of [close] keeps the invariant and is counted. *)
Lemma closes_inv metadata k a rest s s' :
  system_inv metadata k s -> sys_closing s = a :: rest -> closes a s s' ->
  system_inv metadata (S k) s'.
Proof.
  intros [H1 H2 H3 Hg H4 H5 H6 H7 H8] Ha Hc. rewrite H1 in Ha.
  destruct (take_drop_close _ _ _ _ Ha) as (Htake & Hrest & Hlt).
  assert (Hact : (0 < S k)%nat -> a = Deactivate \/ sys_active s = false).
  { intros _. destruct k; [left; cbn in Ha; congruence | right; apply H5; lia]. }
  destruct Hc; (split; cbn [sys_active sys_permits sys_inbox sys_thread sys_closing sys_deleted];
    [by rewrite H1, Ha, Hrest | lia | | | | | done | done |]); rewrite ?Htake, ?awaited_app;
    try (rewrite awaited_one; cbn [is_await]; change (exited _) with (exited s) at 1; lia);
    try (intros Hf; specialize (Hg Hf); rewrite awaited_one; cbn [is_await];
         change (exited _) with (exited s) at 1; lia).
  all: try (intros w' Hw'; apply elem_of_app; left; by apply H4).
  all: try (intros Hk; destruct (Hact Hk); done).
  all: try (intros w' p Hlossy Hw' Hp Hneed; apply elem_of_app in Hw' as [Hw' | Hw'];
            [by eauto | set_solver + Hw']).
  all: try (intros w' p Hlossy; congruence).
  - intros w' p Hlossy Hw' Hp Hneed. destruct (decide (w = w')) as [<- | Hne].
    + rewrite fn_lookup_insert. lia.
    + rewrite fn_lookup_insert_ne by done. apply elem_of_app in Hw' as [Hw' | Hw'];
        [by eauto | set_solver + Hw' Hne].
  - intros w' Hw'. apply elem_of_app. destruct (decide (w = w')) as [<- | Hne]; [right; set_solver |].
    rewrite fn_lookup_insert_ne in Hw' by done. left. by apply H4.
Qed.

Lemma effect_permits l s s1 :
  label_effect l s s1 ->
  s1 = set_permits (sys_permits s1) s
  /\ (sys_permits s1 = (sys_permits s + gives l)%nat
      \/ gives_fail W = true /\ sys_permits s1 = sys_permits s).
Proof.
  destruct 1 as [s | s Hf | l s Hl]; (split; [by destruct s |]).
  - left. cbn. lia.
  - by right.
  - left. destruct l; try done; cbn; lia.
Qed.

Lemma step_inv metadata k s s' :
  system_inv metadata k s -> step s s' ->
  exists k', (k <= k')%nat /\ system_inv metadata k' s'.
Proof.
  intros Hinv Hstep.
  assert (Hsame : forall w p l p', sys_thread s w = Some p -> thread_next p l = Some p' ->
            label_ok s l -> gives l = 0%nat -> system_inv metadata k (set_thread w p' s)).
  { intros w p l p' Hw Hn Hl Hg. unfold set_thread.
    apply (thread_step_inv _ _ w p l); try done. left. lia. }
  destruct Hstep as [s s' Hm | w p m n b p' s Hw Hn | w p m b p' s Hw Hn];
    [destruct Hm as [w p l p' s s1 Hw Hn Hne Hd Hl He | w p m n b p' j s Hw Hn Hi | a rest s s' Ha Hc] | |].
  - exists k. split; [done |]. destruct (effect_permits _ _ _ He) as [-> Hp]. unfold set_thread.
    apply (thread_step_inv _ _ w p l _ _ _ s); done.
  - exists k. split; [done |]. unfold set_thread, set_inbox; cbn.
    apply (thread_step_inv _ _ w p (LReceive m n b) _ _ _ s); try done; [left; cbn; lia |].
    intros w' [Hneed | Hne].
    + destruct (next_wake _ _ _ Hn Hneed) as [Hno _]. by destruct (Hno m n b).
    + by rewrite fn_lookup_insert_ne.
  - exists (S k). split; [lia |]. by eapply closes_inv.
  - exists k. split; [done |]. by apply (Hsame _ _ (LReceive m n b) _ Hw Hn).
  - exists k. split; [done |]. by apply (Hsame _ _ (LDeliver m b) _ Hw Hn).
Qed.

Lemma reachable_inv metadata s0 s :
  starts metadata s0 -> rtc step s0 s -> exists k, system_inv metadata k s.
Proof.
  intros H0 Hr. apply starts_inv in H0. revert H0. generalize 0%nat.
  induction Hr as [s | s1 s2 s3 Hs Hr IH]; intros k Hk; [eauto |].
  destruct (step_inv _ _ _ _ Hk Hs) as (k' & _ & Hk'). eauto.
Qed.

(** *** What closing achieves *)

Lemma close_done metadata k :
  (k <= length (close_script metadata))%nat -> drop k (close_script metadata) = [] ->
  awaited (take k (close_script metadata)) = if metadata then 2%nat else 1%nat.
Proof.
  intros Hk Hd. assert (Hl : length (drop k (close_script metadata)) = 0%nat) by (by rewrite Hd).
  rewrite length_drop in Hl.
  assert (k = length (close_script metadata)) as -> by lia.
  rewrite firstn_all. by destruct metadata.
Qed.

Lemma has_exited_max s w : (has_exited s w <= 1)%nat.
Proof. unfold has_exited. case_decide; lia. Qed.

Lemma has_exited_none s w : sys_thread s w = None -> has_exited s w = 0%nat.
Proof. unfold has_exited. intros ->. by rewrite decide_False. Qed.

Lemma has_exited_one s w : has_exited s w = 1%nat -> sys_thread s w = Some Exited.
Proof. unfold has_exited. by case_decide. Qed.

(** The first thread is deleted only after a permit was taken. *)
Lemma delete_after_await k w :
  DeleteThread w ∈ take k (close_script false) ->
  w = ClientSocket /\ awaited (take k (close_script false)) = 1%nat.
Proof. do 5 (destruct k as [| k]; [cbn; set_solver |]). cbn. set_solver. Qed.

Lemma inv_no_metadata k s : system_inv false k s -> sys_thread s MetadataSocket = None.
Proof.
  intros Hinv. pose proof (inv_metadata _ _ _ Hinv) as [H _].
  destruct (sys_thread s MetadataSocket); [by discriminate H | done].
Qed.

(** C29: Whatever the interleaving and the traffic, and whatever goes wrong around the threads, when
    [close] has done all its actions every thread of the transport has exited; and when the
    transport has no metadata thread, its receive thread is never deleted before
    it has exited. *)
Theorem udpv4_close_waits metadata s0 s :
  starts metadata s0 -> rtc step s0 s ->
  (sys_closing s = [] ->
     forall w, sys_thread s w <> None -> sys_thread s w = Some Exited)
  /\ (metadata = false ->
     forall w, sys_deleted s w = true -> sys_thread s w = Some Exited).
Proof.
  intros H0 Hr. destruct (reachable_inv _ _ _ H0 Hr) as (k & Hinv).
  pose proof Hinv as [H1 H2 H3 Hg H4 H5 H6 H7 H8].
  pose proof (has_exited_max s ClientSocket). pose proof (has_exited_max s MetadataSocket).
  split.
  - intros Hc w Hw. rewrite H1 in Hc. apply close_done in Hc; [| done]. apply has_exited_one.
    destruct metadata.
    + unfold exited in H3. destruct w; lia.
    + assert (Hm : sys_thread s MetadataSocket = None).
      { by eapply inv_no_metadata. }
      unfold exited in H3. rewrite (has_exited_none _ _ Hm) in H3. destruct w; [lia | done].
  - intros -> w Hd. apply H4 in Hd. apply delete_after_await in Hd as [-> Ha].
    assert (Hm : sys_thread s MetadataSocket = None).
    { by eapply inv_no_metadata. }
    apply has_exited_one. unfold exited in H3. rewrite (has_exited_none _ _ Hm) in H3. lia.
Qed.

End worlds.

(** With a metadata thread the exit semaphore does not tell whose exit it
    counts: from a state where both threads wait for a message, a message of a
    client to the metadata thread makes [close] delete the receive thread while it
    still waits in its socket, even though no wake-up message is lost. *)
Theorem udpv4_close_deletes_running_thread s0 m n m' n' :
  starts dependable true s0 ->
  sys_thread s0 ClientSocket = Some (Receiving m n) ->
  sys_thread s0 MetadataSocket = Some (Receiving m' n') ->
  exists s, rtc (step dependable) s0 s
    /\ sys_deleted s ClientSocket = true
    /\ sys_thread s ClientSocket = Some (Receiving m n).
Proof.
  intros [_ Hp _ _ Hc Hd] Hr Hm. specialize (Hp eq_refl).
  assert (Hp0 : sys_permits s0 = 0%nat).
  { rewrite Hp. unfold exited, has_exited. rewrite Hr, Hm. done. }
  eexists. split; [| split].
  - eapply rtc_l. { apply step_moves. eapply moves_close; [exact Hc |]. apply closes_deactivate. }
    eapply rtc_l. { eapply (step_client _ MetadataSocket _ m' n' false); [exact Hm |].
      cbn. by rewrite decide_True. }
    eapply rtc_l. { apply step_moves. eapply (moves_thread _ MetadataSocket _ (LActive false)).
      - cbn. by rewrite fn_lookup_insert.
      - done.
      - done.
      - done.
      - done.
      - by apply effect_none. }
    eapply rtc_l. { apply step_moves. eapply (moves_thread _ MetadataSocket _ LGive).
      - cbn. by rewrite fn_lookup_insert.
      - done.
      - done.
      - done.
      - done.
      - apply effect_give. }
    eapply rtc_l. { apply step_moves. eapply moves_close; [cbn; rewrite Hc; reflexivity |].
      apply closes_wake. }
    eapply rtc_l. { apply step_moves. eapply moves_close; [cbn; rewrite Hc; reflexivity |].
      eapply closes_await. reflexivity. }
    eapply rtc_l. { apply step_moves. eapply moves_close; [cbn; rewrite Hc; reflexivity |].
      apply closes_delete. }
    apply rtc_refl.
  - cbn. by rewrite fn_lookup_insert.
  - cbn. rewrite !fn_lookup_insert_ne by done. done.
Qed.

(** *** Closing ends

    Once [active] is FALSE a thread has at most six steps left, so every step
    makes [measure] smaller. *)

Definition rank (p : pc) : nat :=
  match p with
  | Allocating => 6 | Sizing _ => 5 | Receiving _ _ => 4 | Delivering _ _ => 3
  | Testing _ => 2 | Exiting => 1 | Exited => 0
  end.

Definition rank_of (s : system) (w : UdpSocket) : nat :=
  match sys_thread s w with Some p => rank p | None => 0 end.

Definition measure (s : system) : nat :=
  length (sys_closing s) + rank_of s ClientSocket + rank_of s MetadataSocket.

Lemma next_rank p l p' :
  thread_next p l = Some p' -> l <> LActive true -> (rank p' < rank p)%nat.
Proof.
  destruct p as [[[a n] |] | | a | a n | a n | |], l as [[] | [b |] | k | b k [] | b [] | |]; cbn;
    try destruct (decide _); intros; simplify_eq; cbn; done || lia.
Qed.

Lemma thread_measure w p l p' s s' :
  sys_thread s w = Some p -> thread_next p l = Some p' -> l <> LActive true ->
  sys_thread s' = <[w := Some p']> (sys_thread s) -> sys_closing s' = sys_closing s ->
  (measure s' < measure s)%nat.
Proof.
  intros Hw Hn Hl Ht Hc. pose proof (next_rank _ _ _ Hn Hl).
  unfold measure, rank_of. rewrite Hc, Ht. destruct w; rewrite Hw, fn_lookup_insert;
    rewrite fn_lookup_insert_ne by done; lia.
Qed.

Lemma step_measure W s s' :
  sys_active s = false -> step W s s' -> (measure s' < measure s)%nat.
Proof.
  intros Hact Hstep.
  destruct Hstep as [s s' Hm | w p m n b p' s Hw Hn | w p m b p' s Hw Hn];
    [destruct Hm as [w p l p' s s1 Hw Hn Hne Hb Hl He | w p m n b p' j s Hw Hn Hi | a rest s s' Ha Hc] | |].
  - destruct (effect_permits _ _ _ _ He) as [-> _]. eapply (thread_measure w p l p'); try done.
    intros ->. cbn in Hl. congruence.
  - by eapply (thread_measure w p).
  - unfold measure, rank_of. destruct Hc; cbn; rewrite Ha; cbn; lia.
  - by eapply (thread_measure w p).
  - by eapply (thread_measure w p).
Qed.

(** A thread that was woken and has not exited can move. *)
Lemma woken_moves metadata k w p s :
  system_inv dependable metadata k s -> Wake w ∈ take k (close_script metadata) ->
  sys_thread s w = Some p -> p <> Exited -> exists s', moves dependable s s'.
Proof.
  intros Hinv Hk Hw Hp. pose proof (inv_woken _ _ _ _ Hinv w p eq_refl Hk Hw) as Hbox.
  destruct p as [held | | m | m n | m n | |]; try done.
  - eexists. eapply (moves_thread _ w _ (LActive false)); [done | by destruct held as [[]|] | done | done | | by apply effect_none].
    cbn. symmetry. apply (inv_active _ _ _ _ Hinv). destruct k; [| lia]. by apply elem_of_nil in Hk.
  - eexists. by eapply (moves_thread _ w _ (LAllocate None)); try apply effect_none.
  - eexists. by eapply (moves_thread _ w _ (LSize 0)); try apply effect_none.
  - destruct (sys_inbox s w) as [| j] eqn:Hj; [exfalso; pose proof (Hbox I); lia |].
    eexists. eapply (moves_receive _ w _ m n false); [done | | done]. cbn. by rewrite decide_True.
  - eexists. eapply (moves_thread _ w _ (LDeliver m false)); try done; [cbn; by rewrite decide_True |].
    by apply effect_none.
  - eexists. by eapply (moves_thread _ w _ LGive); try apply effect_give.
Qed.

(** What [close] has done when it waits. *)
Lemma await_points metadata k :
  drop k (close_script metadata) !! 0%nat = Some Await ->
  (k = 2%nat /\ awaited (take k (close_script metadata)) = 0%nat
   /\ Wake ClientSocket ∈ take k (close_script metadata))
  \/ (metadata = true /\ k = 5%nat /\ awaited (take k (close_script metadata)) = 1%nat
      /\ Wake ClientSocket ∈ take k (close_script metadata)
      /\ Wake MetadataSocket ∈ take k (close_script metadata)).
Proof.
  destruct metadata; destruct k as [|[|[|[|[|[|[|k]]]]]]]; cbn; intros H; simplify_eq;
    try (by destruct k).
  - left. split_and!; [done | done | set_solver].
  - right. split_and!; [done | done | done | set_solver | set_solver].
  - left. split_and!; [done | done | set_solver].
Qed.

Lemma progress metadata k s :
  system_inv dependable metadata k s -> sys_closing s <> [] -> exists s', moves dependable s s'.
Proof.
  intros Hinv Hne. destruct (sys_closing s) as [| a rest] eqn:Hc; [done |].
  destruct a as [| w | | w].
  1,2,4: eexists; eapply moves_close; [exact Hc | by constructor].
  destruct (sys_permits s) as [| n] eqn:Hn.
  2: { eexists. eapply moves_close; [exact Hc | by eapply closes_await]. }
  pose proof (inv_closing _ _ _ _ Hinv) as H1. pose proof (inv_given _ _ _ _ Hinv eq_refl) as H3.
  rewrite Hc in H1. rewrite Hn in H3.
  destruct (await_points metadata k) as [(_ & Ha & Hw) | (-> & _ & Ha & Hw & Hw')];
    [by rewrite <- H1 | |]; (rewrite Ha in H3); unfold exited in H3.
  - destruct (sys_thread s ClientSocket) as [p |] eqn:Hp; [| by destruct (inv_recv _ _ _ _ Hinv)].
    eapply woken_moves; [done | exact Hw | exact Hp |]. intros ->.
    unfold has_exited in H3. rewrite Hp, decide_True in H3 by done. lia.
  - destruct (sys_thread s ClientSocket) as [p |] eqn:Hp; [| by destruct (inv_recv _ _ _ _ Hinv)].
    destruct (sys_thread s MetadataSocket) as [q |] eqn:Hq;
      [| by destruct (proj2 (inv_metadata _ _ _ _ Hinv) eq_refl)].
    destruct (decide (p = Exited)) as [-> | Hpe].
    + eapply woken_moves; [done | exact Hw' | exact Hq |]. intros ->.
      unfold has_exited in H3. rewrite Hp, Hq, !decide_True in H3 by done. lia.
    + eapply woken_moves; [done | exact Hw | exact Hp | done].
Qed.

(** C28: If no wake-up message is refused or lost, every call of the listener returns and every
    exit of a thread gives its permit ([dependable]), then from the moment [close] has cleared
    [active], every execution ends with [close] done, whatever the threads were
    doing and whatever messages still come in. *)
Theorem udpv4_close_ends metadata s0 s :
  starts dependable metadata s0 -> rtc (step dependable) s0 s -> sys_closing s <> close_script metadata ->
  eventually dependable (fun s => sys_closing s = []) s.
Proof.
  intros H0 Hr Hne. destruct (reachable_inv _ _ _ _ H0 Hr) as (k & Hinv).
  assert (Hk : (0 < k)%nat).
  { destruct k; [| lia]. by destruct Hne; rewrite (inv_closing _ _ _ _ Hinv). }
  clear H0 Hr Hne s0. remember (measure s) as n eqn:Hn. revert k s Hn Hinv Hk.
  induction (lt_wf n) as [n _ IH]; intros k s -> Hinv Hk.
  destruct (decide (sys_closing s = [])) as [Hd | Hd]; [by apply eventually_now |].
  apply eventually_step; [by eapply progress |].
  intros s' Hs. destruct (step_inv _ _ _ _ _ Hinv Hs) as (k' & Hkk & Hinv').
  eapply IH; [| reflexivity | exact Hinv' | lia].
  eapply step_measure; [| exact Hs]. by apply (inv_active _ _ _ _ Hinv).
Qed.

(** Nothing moves while [close] waits, and its thread waits in its socket or for its listener,
    or has exited. *)
Lemma waits_forever W rest p s :
  sys_closing s = Await :: rest -> sys_permits s = 0%nat -> sys_thread s MetadataSocket = None ->
  sys_thread s ClientSocket = Some p ->
  (exists m n, p = Receiving m n) /\ sys_inbox s ClientSocket = 0%nat
  \/ listener_blocks W = true /\ (exists m n, p = Delivering m n) \/ p = Exited ->
  forall s', ~ moves W s s'.
Proof.
  intros Hc Hp Hm Hr Hw s' Hs.
  destruct Hs as [w q l p' s s1 Hq Hn Hne Hb _ _ | w q x y b p' j s Hq Hn Hj | a l s s' Ha Hcl].
  - destruct w; [| congruence]. rewrite Hr in Hq. injection Hq as <-.
    destruct Hw as [[(m & n & ->) _] | [(Hl & m & n & ->) | ->]].
    + by destruct (Hne m n).
    + by destruct (Hb Hl m n).
    + by destruct l.
  - destruct w; [| congruence]. rewrite Hr in Hq. injection Hq as <-.
    destruct Hw as [[_ Hi] | [(_ & m & n & ->) | ->]]; [congruence | done | done].
  - rewrite Hc in Ha. injection Ha as <- <-. inversion Hcl; congruence.
Qed.

(** Each of the three can block [close]: a lost wake-up message while the receive thread waits for a
    message, a listener that does not return, a permit that is not given.  There is an
    execution after which nothing moves until a client sends a message or the listener
    returns, and [close] is not done. *)
Theorem udpv4_close_may_block W s0 p :
  starts W false s0 -> sys_thread s0 ClientSocket = Some p ->
  (loses_wakeups W = true /\ (exists m n, p = Receiving m n) /\ sys_inbox s0 ClientSocket = 0%nat)
  \/ (listener_blocks W = true /\ exists m n, p = Delivering m n)
  \/ (gives_fail W = true /\ p = Exiting) ->
  exists s, rtc (step W) s0 s /\ sys_closing s <> []
            /\ sys_deleted s ClientSocket = false /\ forall s', ~ moves W s s'.
Proof.
  intros H0 Hr Hw. pose proof H0 as [Hp _ _ _ Hc Hd].
  pose proof (inv_no_metadata _ _ _ (starts_inv W _ _ H0)) as Hm.
  assert (Hp0 : sys_permits s0 = 0%nat).
  { assert (p <> Exited) by (intros ->; naive_solver).
    revert Hp. unfold exited, has_exited. rewrite Hr, Hm, !decide_False by congruence. lia. }
  assert (Hstart : forall s1, step W s0 s1 \/ s1 = s0 -> sys_closing s1 = close_script false ->
    exists s2, rtc (step W) s0 s2 /\ sys_closing s2 = tail (close_script false)
      /\ sys_permits s2 = sys_permits s1 /\ sys_thread s2 = sys_thread s1
      /\ sys_inbox s2 = sys_inbox s1 /\ sys_deleted s2 = sys_deleted s1).
  { intros s1 Hs1 Hc1. eexists. split.
    - etrans; [destruct Hs1 as [Hs1 | ->]; [by apply rtc_once | apply rtc_refl] |].
      apply rtc_once, step_moves. eapply moves_close; [exact Hc1 | apply closes_deactivate].
    - cbn. by rewrite Hc1. }
  destruct Hw as [(Hl & (m & n & ->) & Hi) | [(Hl & m & n & ->) | (Hl & ->)]].
  - destruct (Hstart s0 ltac:(by right) Hc) as (s2 & Hs & C1 & C2 & C3 & C4 & C5).
    eexists. split; [eapply rtc_r; [exact Hs |]; apply step_moves; eapply moves_close;
      [exact C1 | by apply closes_wake_lost] |].
    split; [cbn; by rewrite C1 | split; [cbn; by rewrite C5 |]].
    eapply (waits_forever W _ (Receiving m n)); cbn; rewrite ?C1, ?C2, ?C3, ?C4; try done. left. eauto.
  - destruct (Hstart s0 ltac:(by right) Hc) as (s2 & Hs & C1 & C2 & C3 & C4 & C5).
    eexists. split; [eapply rtc_r; [exact Hs |]; apply step_moves; eapply moves_close;
      [exact C1 | by apply closes_wake] |].
    split; [cbn; by rewrite C1 | split; [cbn; by rewrite C5 |]].
    eapply (waits_forever W _ (Delivering m n)); cbn; rewrite ?C1, ?C2, ?C3; try done. right. left. eauto.
  - assert (Hg : step W s0 (set_thread ClientSocket Exited s0)).
    { apply step_moves. by eapply (moves_thread _ ClientSocket _ LGive); try apply effect_give_failed. }
    destruct (Hstart _ (or_introl Hg) Hc) as (s2 & Hs & C1 & C2 & C3 & C4 & C5).
    eexists. split; [eapply rtc_r; [exact Hs |]; apply step_moves; eapply moves_close;
      [exact C1 | by apply closes_wake] |].
    split; [cbn; by rewrite C1 | split; [cbn; rewrite C5; apply Hd |]].
    eapply (waits_forever W _ Exited); cbn; rewrite ?C1, ?C2, ?C3; try done; cbn;
      rewrite ?fn_lookup_insert_ne, ?fn_lookup_insert by done; try done. by right; right.
Qed.

(** ** Witnesses *)

Definition sample_transport : NANO_XRCE_Udpv4AgentTransport :=
  {| ut_agent := Some 1; ut_listener := None; ut_recv_thread := Some 7; ut_metadata_thread := Some 8;
     ut_sem_thread_exit := Some 4; ut_client_socket := Some 2; ut_metadata_socket := Some 3;
     ut_recv_pool := Some 6; ut_wakeup_address := {| lm_address := 1; lm_port := 2 |};
     ut_bind_address := {| lm_address := 1; lm_port := 2 |};
     ut_metadata_address := {| lm_address := 1; lm_port := 3 |}; ut_buffers := ∅ |}%Z.

Definition sample_run : list tevent :=
  fst (exec transports_answer []
    (Udpv4.NANO_XRCE_Udpv4AgentTransport_recv_thread_impl 5 (Some 2%Z) false sample_transport)).

(** The sample thread receives messages until [active] is cleared. *)
Lemma recv_threads_refine_witness :
  length sample_run = 10%nat /\ path (Testing None) sample_run = Some Exited
  /\ exists p, path (Testing None) sample_run = Some p.
Proof.
  split; [reflexivity |]. split; [reflexivity |].
  destruct (proj1 (recv_threads_refine 5 sample_run) (Some 2%Z) false sample_transport _
              (exec_runs transports_answer _ [])) as (p & Hp & _).
  exists p. exact Hp.
Defined.

(** It allocates one buffer. *)
Lemma recv_thread_buffers_witness :
  flat_map allocated_of (map observe sample_run) = [1%Z]
  /\ exists last, (length last <= 1)%nat
     /\ flat_map allocated_of (map observe sample_run)
        = flat_map retained_of (map observe sample_run) ++ last.
Proof.
  split; [reflexivity |].
  apply (recv_thread_buffers 5 sample_run). left.
  exists (Some 2%Z), false, sample_transport. eexists. exact (exec_runs transports_answer _ []).
Defined.

Lemma udpv4_close_follows_script_witness :
  spec (fun _ => True) Udpv4.NANO_XRCE_Udpv4AgentTransport_close sample_transport
    (fun t rc s' => exists k, calls t = map (close_call sample_transport) (take k (close_script true))).
Proof.
  eapply spec_mono; [exact (udpv4_close_follows_script sample_transport) |].
  cbn beta. intros t rc s' (k & Hk & _). exists k. exact Hk.
Defined.

(** Both threads wait for a message when [close] begins. *)
Definition sample_system (metadata : bool) : system :=
  {| sys_active := true; sys_permits := 0; sys_inbox := fun _ => 0%nat;
     sys_thread := fun w => match w with
                            | ClientSocket => Some (Receiving 1 64)
                            | MetadataSocket => if metadata then Some (Receiving 2 64) else None
                            end;
     sys_closing := close_script metadata; sys_deleted := fun _ => false |}.

Lemma sample_starts W metadata : starts W metadata (sample_system metadata).
Proof. destruct metadata; by split. Defined.

(** The receive thread takes the wake-up message, finds [active] FALSE and exits; [close] takes the
    permit and deletes the thread. *)
Definition sample_closed : system :=
  {| sys_active := false; sys_permits := 0;
     sys_inbox := <[ClientSocket := 0%nat]> (<[ClientSocket := 1%nat]> (fun _ => 0%nat));
     sys_thread := <[ClientSocket := Some Exited]> (<[ClientSocket := Some Exiting]>
       (<[ClientSocket := Some (Testing (Some (1, 64)%Z))]> (sys_thread (sample_system false))));
     sys_closing := []; sys_deleted := <[ClientSocket := true]> (fun _ => false) |}.

Lemma sample_closes : rtc (step dependable) (sample_system false) sample_closed.
Proof.
  eapply rtc_l. { apply step_moves. eapply moves_close; [reflexivity | apply closes_deactivate]. }
  eapply rtc_l. { apply step_moves. eapply moves_close; [reflexivity | apply closes_wake]. }
  eapply rtc_l. { apply step_moves.
    by eapply (moves_receive _ ClientSocket (Receiving 1 64) 1 64 false _ 0). }
  eapply rtc_l. { apply step_moves.
    eapply (moves_thread _ ClientSocket _ (LActive false)); [reflexivity.. | done | done | done |].
    by apply effect_none. }
  eapply rtc_l. { apply step_moves.
    eapply (moves_thread _ ClientSocket _ LGive); [reflexivity.. | done | done | done |].
    apply effect_give. }
  eapply rtc_l. { apply step_moves. eapply moves_close; [reflexivity | by eapply closes_await]. }
  eapply rtc_l. { apply step_moves. eapply moves_close; [reflexivity | apply closes_delete]. }
  apply rtc_refl.
Defined.

Lemma udpv4_close_waits_witness :
  sys_closing sample_closed = [] /\ sys_deleted sample_closed ClientSocket = true
  /\ (forall w, sys_thread sample_closed w <> None -> sys_thread sample_closed w = Some Exited)
  /\ (forall w, sys_deleted sample_closed w = true -> sys_thread sample_closed w = Some Exited).
Proof.
  split; [reflexivity |]. split; [reflexivity |].
  destruct (udpv4_close_waits dependable false _ _ (sample_starts dependable false) sample_closes)
    as [H1 H2].
  split; [exact (H1 eq_refl) | exact (H2 eq_refl)].
Defined.

Lemma udpv4_close_deletes_running_thread_witness :
  exists s, rtc (step dependable) (sample_system true) s
    /\ sys_deleted s ClientSocket = true
    /\ sys_thread s ClientSocket = Some (Receiving 1 64).
Proof.
  exact (udpv4_close_deletes_running_thread _ 1 64 2 64 (sample_starts dependable true) eq_refl eq_refl).
Defined.

(** [close] ends after its first action from the sample state. *)
Lemma udpv4_close_ends_witness :
  exists s, rtc (step dependable) (sample_system true) s
    /\ sys_closing s = tail (close_script true)
    /\ eventually dependable (fun s => sys_closing s = []) s.
Proof.
  eexists. split; [| split].
  - eapply rtc_l; [| apply rtc_refl]. apply step_moves.
    eapply moves_close; [reflexivity | apply closes_deactivate].
  - reflexivity.
  - apply (udpv4_close_ends true (sample_system true)).
    + exact (sample_starts dependable true).
    + eapply rtc_l; [| apply rtc_refl]. apply step_moves.
      eapply moves_close; [reflexivity | apply closes_deactivate].
    + discriminate.
Defined.

(** Where wake-up messages may be lost. *)
Definition lossy : World := {| loses_wakeups := true; listener_blocks := false; gives_fail := false |}.

Lemma udpv4_close_may_block_witness :
  exists s, rtc (step lossy) (sample_system false) s /\ sys_closing s <> []
            /\ sys_deleted s ClientSocket = false /\ forall s', ~ moves lossy s s'.
Proof.
  apply (udpv4_close_may_block lossy _ (Receiving 1 64) (sample_starts lossy false) eq_refl).
  left. split; [reflexivity |]. split; [by exists 1%Z, 64%Z | reflexivity].
Defined.
