(* ===== verification/Protocol.v ===== *)
(** * Programs that follow a protocol

    [spec] of [Interaction] states what a program does when each answer satisfies
    a condition of its own.  A database cursor, a thread or a DDS entity is used
    in an order, and what it answers depends on what was done before: this is
    stated on the history.  A protocol is an abstract state of type [H] with

    - [allowed h c]: the program may make the call [c] in state [h];
    - [answers h e h']: in state [h] the environment may answer the call of [e]
      with its response, and the state becomes [h'].

    [triple h m s Q]: whatever the environment answers by the protocol, [m] from
    [s] returns, never undefined, makes only allowed calls, and its value and
    memory and the last abstract state satisfy [Q].  [triple_runs] is the meaning
    of a triple in terms of runs. *)

From stdpp Require Import base tactics list.
From S2P Require Import Prelude.
From S2P Require Import Interaction.

Section protocol.
Context {C : Type} {R : C -> Type} {H : Type}.
Context (allowed : H -> C -> Prop) (answers : H -> event R -> H -> Prop).

Fixpoint follows {A} (h : H) (p : tree R A) (Q : H -> A -> Prop) : Prop :=
  match p with
  | Ret a => Q h a
  | Vis c k =>
      allowed h c /\ forall r h', answers h (existT c r) h' -> follows h' (k r) Q
  | Ub => False
  | Fuel => False
  end.

Definition triple {St A} (h : H) (m : prog R St A) (s : St) (Q : H -> A -> St -> Prop) : Prop :=
  follows h (m s) (fun h' r => Q h' (fst r) (snd r)).

(** The states a protocol goes through along a trace. *)
Inductive history : H -> list (event R) -> H -> Prop :=
  | history_nil h : history h [] h
  | history_cons h e h1 t h2 :
      answers h e h1 -> history h1 t h2 -> history h (e :: t) h2.

Lemma follows_mono {A} (p : tree R A) h (Q Q' : H -> A -> Prop) :
  (forall h' a, Q h' a -> Q' h' a) -> follows h p Q -> follows h p Q'.
Proof. intros HQ. revert h; induction p; cbn; naive_solver. Qed.

Lemma follows_tbind {A B} (p : tree R A) (f : A -> tree R B) h (Q : H -> B -> Prop) :
  follows h p (fun h' a => follows h' (f a) Q) -> follows h (tbind p f) Q.
Proof. revert h; induction p; cbn; naive_solver. Qed.

(** A run of a program that follows the protocol, in an environment that does:
    every call is allowed where it is made, the program returns and the result
    is as promised. *)
Lemma follows_runs {A} (p : tree R A) h (Q : H -> A -> Prop) t o h' :
  follows h p Q -> runs p t o -> history h t h' ->
  (exists a, o = Returned a /\ Q h' a)
  /\ forall t1 c r t2 h1, t = t1 ++ existT c r :: t2 -> history h t1 h1 ->
       history h1 (existT c r :: t2) h' -> allowed h1 c.
Proof.
  revert h t; induction p as [a | c k IH | |]; intros h t Hf Hr Hh; cbn in *; [| | done | done].
  - destruct Hr as [-> ->]. inversion Hh; subst. split; [by eauto |].
    intros t1 c r t2 h1 Ht. by destruct t1.
  - destruct Hf as [Hc Hk]. destruct Hr as (r & t' & -> & Hr).
    split.
    + inversion Hh; subst. by eapply (IH r); eauto.
    + intros [|e t1] c1 r1 t2 h1 Ht H1 H2; cbn in Ht.
      * injection Ht as <- Ht. inversion H1; subst. done.
      * injection Ht as <- ->. inversion H1 as [|? ? hm ? ? Hs H1']; subst.
        assert (Hm : history hm (t1 ++ existT c1 r1 :: t2) h').
        { clear -H1' H2. induction H1'; cbn; [done |]. econstructor; eauto. }
        by eapply (proj2 (IH r hm _ (Hk _ _ Hs) Hr Hm)).
Qed.

Context {St : Type}.

Lemma triple_runs {A} (m : prog R St A) h s Q t o h' :
  triple h m s Q -> runs (m s) t o -> history h t h' ->
  (exists a s', o = Returned (a, s') /\ Q h' a s')
  /\ forall t1 c r t2 h1, t = t1 ++ existT c r :: t2 -> history h t1 h1 ->
       history h1 (existT c r :: t2) h' -> allowed h1 c.
Proof.
  intros Ht Hr Hh. destruct (follows_runs _ _ _ _ _ _ Ht Hr Hh) as [([a s'] & -> & HQ) Hc].
  split; [by eauto | done].
Qed.

Lemma triple_mono {A} (m : prog R St A) h s (Q Q' : H -> A -> St -> Prop) :
  triple h m s Q -> (forall h' a s', Q h' a s' -> Q' h' a s') -> triple h m s Q'.
Proof. intros Ht HQ. eapply follows_mono; [| exact Ht]. cbn; auto. Qed.

Lemma triple_bind {A B} (m : prog R St A) (f : A -> prog R St B) h s Q :
  triple h m s (fun h1 a s1 => triple h1 (f a) s1 Q) -> triple h (bind m f) s Q.
Proof.
  intros Ht. apply follows_tbind. eapply follows_mono; [| exact Ht]. by intros h' [a s'].
Qed.

Lemma triple_ret {A} (a : A) h s (Q : H -> A -> St -> Prop) : Q h a s -> triple h (ret a) s Q.
Proof. done. Qed.

Lemma triple_call (c : C) h s (Q : H -> R c -> St -> Prop) :
  allowed h c -> (forall r h', answers h (existT c r) h' -> Q h' r s) -> triple h (call c) s Q.
Proof. done. Qed.

Lemma triple_gets {A} (f : St -> A) h s (Q : H -> A -> St -> Prop) :
  Q h (f s) s -> triple h (gets f) s Q.
Proof. done. Qed.

Lemma triple_modify (f : St -> St) h s (Q : H -> unit -> St -> Prop) :
  Q h tt (f s) -> triple h (modify f) s Q.
Proof. done. Qed.

Lemma triple_reads {A} (f : St -> option A) a h s (Q : H -> A -> St -> Prop) :
  f s = Some a -> Q h a s -> triple h (reads f) s Q.
Proof. unfold triple, reads. by intros ->. Qed.
End protocol.

#[global] Arguments triple : simpl never.

(** A call leaves two goals: that it is allowed, and what follows each answer. *)
Ltac pcall :=
  lazymatch goal with
  | |- triple ?al ?an ?h (call ?c) ?s ?Q => refine (triple_call al an c h s Q _ _)
  end.

(** One primitive step of a triple. *)
Ltac pstep :=
  lazymatch goal with
  | |- triple _ _ _ (bind _ _) _ _ => apply triple_bind
  | |- triple _ _ _ (ret _) _ _ => apply triple_ret
  | |- triple _ _ _ (call _) _ _ => pcall; [| intros ? ? ?]
  | |- triple _ _ _ (gets _) _ _ => apply triple_gets
  | |- triple _ _ _ (modify _) _ _ => apply triple_modify
  | |- triple _ _ _ (reads _) _ _ => eapply triple_reads
  end; cbn beta iota.
