(* ===== verification/NddsData.v ===== *)
(** * The DDS agent: structures, calls and memory

    The structures of [NddsClientSession.h], [NddsResource.h],
    [NddsResourceNative.h], [NddsReader.h], [NddsWriter.h] and [NddsAgentDb.h],
    the calls the DDS agent makes to RTI Connext ([NCall]) and its memory
    ([Ndds]): every object by its address.

    - [NddsApi] has the types of Connext the agent only passes on, and its pure
      functions: sequence numbers and times.
    - An inline list is the list of the addresses of its elements; the [node]
      that links an element is not a field.  A session and the record it is in
      have one address, and so have an attached resource and its record.
    - A union of pointers is one pointer.  [NULL] is [None]. *)

From Stdlib Require Import ZArith Lia.
From stdpp Require Import base tactics list gmap.
From S2P Require Import Prelude.
From S2P Require Import CString.
From S2P Require Import Infrastructure.
From S2P Require Import Interaction.
From S2P Require Import ServiceData.

Local Open Scope nano_scope.

Class NddsApi := {
  SequenceNumber : Type;
  SEQUENCENUMBER_DEFAULT : SequenceNumber;
  SequenceNumber_compare : SequenceNumber -> SequenceNumber -> Z;
  NtpTime : Type;
  NTP_TIME_ZERO : NtpTime;
  NtpTime_add : NtpTime -> NtpTime -> NtpTime;
  NtpTime_subtract : NtpTime -> NtpTime -> NtpTime;
  NtpTime_compare : NtpTime -> NtpTime -> Z;
  NtpTime_compareToZero : NtpTime -> Z;
  NtpTime_packFromMillisec : Z -> Z -> NtpTime;
  Duration : Type;
  DURATION_INFINITE : Duration;
  Duration_is_infinite : Duration -> bool;
  Duration_is_zero : Duration -> bool;
  Duration_to_ntp_time : Duration -> NtpTime;
  MD5 : cstr -> list Z;
  DDS_RETCODE_NO_DATA : DDS_ReturnCode_t
}.

(** Sequence numbers are compared in a total order; a digest is 16 bytes. *)
Class NddsApiOk (N : NddsApi) : Prop := {
  sn_order : comparator (fun _ => True) SequenceNumber_compare;
  sn_trans : forall a b c, (SequenceNumber_compare a b <= 0)%Z ->
    (SequenceNumber_compare b c <= 0)%Z -> (SequenceNumber_compare a c <= 0)%Z;
  no_data_not_ok : DDS_RETCODE_NO_DATA <> DDS_RETCODE_OK;
  md5_digest : forall s, length (MD5 s) = 16%nat /\ Forall (fun b => 0 <= b < 256)%Z (MD5 s)
}.

(** ** Resources *)

Inductive NDDSA_ResourceNativeKind :=
  | RESOURCENATIVEKIND_UNKNOWN | RESOURCENATIVEKIND_ENTITY | RESOURCENATIVEKIND_GENERIC.

Record NDDSA_GenericResource := { generic_id : D2S2_ResourceId }.

Definition NDDSA_GENERICRESOURCE_INITIALIZER : NDDSA_GenericResource :=
  {| generic_id := D2S2_RESOURCEID_INITIALIZER |}.

(** The union of the two, by the member written last; an entity resource is a
    union of pointers. *)
Inductive NDDSA_ResourceNativeValue :=
  | NativeGeneric (generic : NDDSA_GenericResource)
  | NativeEntity (entity : option Z).

Record NDDSA_ResourceNative := {
  native_kind : NDDSA_ResourceNativeKind;
  native_value : NDDSA_ResourceNativeValue;
  create_repr : D2S2_ResourceRepresentation
}.

Definition NDDSA_RESOURCENATIVE_INITIALIZER : NDDSA_ResourceNative :=
  {| native_kind := RESOURCENATIVEKIND_UNKNOWN;
     native_value := NativeGeneric NDDSA_GENERICRESOURCE_INITIALIZER;
     create_repr := D2S2_RESOURCEREPRESENTATION_INITIALIZER |}.

Definition D2S2_RESOURCE_INITIALIZER : D2S2_Resource :=
  {| res_kind := RESOURCEKIND_UNKNOWN; res_id := D2S2_RESOURCEID_INITIALIZER |}.

Record NDDSA_Resource := {
  resource_base : D2S2_Resource;
  native : NDDSA_ResourceNative;
  attached_count : Z;
  resource_agent : option Z;
  resource_user_data : option Z;
  loaded : bool;
  native_deleted : bool;
  pending_delete : bool
}.

Definition NDDSA_RESOURCE_INITIALIZER : NDDSA_Resource :=
  {| resource_base := D2S2_RESOURCE_INITIALIZER;
     native := NDDSA_RESOURCENATIVE_INITIALIZER;
     attached_count := 0; resource_agent := None; resource_user_data := None;
     loaded := false; native_deleted := false; pending_delete := false |}.

Record NDDSA_ResourceRecord := { rr_ea : option Z; rr_resource : NDDSA_Resource }.

Definition NDDSA_RESOURCERECORD_INITIALIZER : NDDSA_ResourceRecord :=
  {| rr_ea := None; rr_resource := NDDSA_RESOURCE_INITIALIZER |}.

(** ** Client sessions and what they have *)

Record D2S2_ClientSessionKey := { csk_client : Z; csk_id : Z }.

Definition D2S2_CLIENTSESSIONKEY_INITIALIZER : D2S2_ClientSessionKey :=
  {| csk_client := 0; csk_id := 0 |}.

#[export] Instance D2S2_ClientSessionKey_eq_dec : EqDecision D2S2_ClientSessionKey.
Proof. solve_decision. Defined.

Record D2S2_AttachedResource := {
  att_kind : D2S2_ResourceKind;
  att_resource : D2S2_ResourceId;
  att_client : Z;
  att_session : Z;
  att_id : Z
}.

Definition D2S2_ATTACHEDRESOURCE_INITIALIZER : D2S2_AttachedResource :=
  {| att_kind := RESOURCEKIND_UNKNOWN; att_resource := D2S2_RESOURCEID_INITIALIZER;
     att_client := 0; att_session := 0; att_id := 0 |}.

Section objects.
Context {N : NddsApi}.

Record NDDSA_AttachedResource := {
  at_base : D2S2_AttachedResource;
  at_resource : option Z;
  at_session : option Z;
  at_user_data : option Z;
  read_req : option Z;
  last_sample_forwarded : SequenceNumber;
  last_sample_returned : SequenceNumber
}.

Definition NDDSA_ATTACHEDRESOURCE_INITIALIZER : NDDSA_AttachedResource :=
  {| at_base := D2S2_ATTACHEDRESOURCE_INITIALIZER; at_resource := None; at_session := None;
     at_user_data := None; read_req := None;
     last_sample_forwarded := SEQUENCENUMBER_DEFAULT;
     last_sample_returned := SEQUENCENUMBER_DEFAULT |}.

(** The listener of a timeout is known by the session; of its storage, which starts with
    the session, [ts_live] is whether the second field is set. *)
Record NDDSA_ClientSession := {
  cs_key : D2S2_ClientSessionKey;
  cs_agent : option Z;
  cs_intf : option Z;
  cs_resources : list Z;
  cs_timeout : Duration;
  cs_user_data : option Z;
  deleted : bool;
  timedout : bool;
  resetting : bool;
  rcvd_data_pool : list Z;
  sem_timeout : option Z;
  sem_cleanup : option Z;
  ts_live : bool
}.

Definition NDDSA_CLIENTSESSION_INITIALIZER : NDDSA_ClientSession :=
  {| cs_key := D2S2_CLIENTSESSIONKEY_INITIALIZER; cs_agent := None; cs_intf := None;
     cs_resources := []; cs_timeout := DURATION_INFINITE; cs_user_data := None;
     deleted := false; timedout := false; resetting := false; rcvd_data_pool := [];
     sem_timeout := None; sem_cleanup := None; ts_live := false |}.

Definition NDDSA_ClientSession_active (s : NDDSA_ClientSession) : bool :=
  negb (deleted s || timedout s || resetting s).

Record NDDSA_ClientSessionRecord := { sr_session : NDDSA_ClientSession; sr_ea : option Z }.

Definition NDDSA_CLIENTSESSIONRECORD_INITIALIZER : NDDSA_ClientSessionRecord :=
  {| sr_session := NDDSA_CLIENTSESSION_INITIALIZER; sr_ea := None |}.

Record NDDSA_ReceivedData := {
  rcv_session_key : D2S2_ClientSessionKey;
  rcv_reader_id : Z;
  rcv_data : D2S2_DataRepresentation;
  rcv_read : option Z;
  rcv_session : option Z;
  rcv_dds_sn : SequenceNumber
}.

Definition READSTATUS_DATA_AVAILABLE : Z := Z.shiftl 1 0.
Definition READSTATUS_COMPLETE : Z := Z.shiftl 1 1.
Definition READSTATUS_DEFAULT : Z := 0.

(** The listener of a read's events is known by the read; of its storage, which starts
    with the read, [ev_live] is whether the second field is set. *)
Record NDDSA_Read := {
  rq_agent : option Z;
  rq_session_key : D2S2_ClientSessionKey;
  rq_reader_id : Z;
  samples_rcvd : Z;
  samples_max : Z;
  rq_max_bytes : Z;
  rq_samples : list Z;
  last_sample : SequenceNumber;
  start_ts : NtpTime;
  last_sample_ts : NtpTime;
  sample_pace : NtpTime;
  max_elapsed_ts : NtpTime;
  rq_content_filter_expr : option cstr;
  delayed : bool;
  rq_status : Z;
  sem_event : option Z;
  ev_live : bool
}.

Definition NDDSA_READ_INITIALIZER : NDDSA_Read :=
  {| rq_agent := None; rq_session_key := D2S2_CLIENTSESSIONKEY_INITIALIZER;
     rq_reader_id := 0; samples_rcvd := 0; samples_max := 0; rq_max_bytes := 0;
     rq_samples := []; last_sample := SEQUENCENUMBER_DEFAULT; start_ts := NTP_TIME_ZERO;
     last_sample_ts := NTP_TIME_ZERO; sample_pace := NTP_TIME_ZERO;
     max_elapsed_ts := NTP_TIME_ZERO; rq_content_filter_expr := None; delayed := false;
     rq_status := READSTATUS_DEFAULT; sem_event := None; ev_live := false |}.

Definition set_status (st : Z) (r : NDDSA_Read) : NDDSA_Read :=
  {| rq_agent := rq_agent r; rq_session_key := rq_session_key r;
     rq_reader_id := rq_reader_id r; samples_rcvd := samples_rcvd r;
     samples_max := samples_max r; rq_max_bytes := rq_max_bytes r; rq_samples := rq_samples r;
     last_sample := last_sample r; start_ts := start_ts r; last_sample_ts := last_sample_ts r;
     sample_pace := sample_pace r; max_elapsed_ts := max_elapsed_ts r;
     rq_content_filter_expr := rq_content_filter_expr r; delayed := delayed r;
     rq_status := st; sem_event := sem_event r; ev_live := ev_live r |}.

Definition NDDSA_Read_set_status (f : Z) (r : NDDSA_Read) : NDDSA_Read :=
  set_status (Z.lor (rq_status r) f) r.
Definition NDDSA_Read_clear_status (f : Z) (r : NDDSA_Read) : NDDSA_Read :=
  set_status (Z.land (rq_status r) (Z.lnot f)) r.
Definition NDDSA_Read_check_status (f : Z) (r : NDDSA_Read) : bool :=
  negb (Z.land (rq_status r) f =? 0)%Z.
Definition NDDSA_Read_has_pending_samples (r : NDDSA_Read) : bool :=
  match rq_samples r with [] => false | _ => true end.

Record NDDSA_ReaderRequest := { rrq_read : option Z; query_condition : option Z }.

Definition NDDSA_READERREQUEST_INITIALIZER : NDDSA_ReaderRequest :=
  {| rrq_read := None; query_condition := None |}.

(** The status condition of a reader, its handler and [dismiss_samples] are
    never used. *)
Record NDDSA_Reader := {
  rd_resource_id : D2S2_ResourceId;
  rd_agent : option Z;
  dyn_reader : option Z;
  sem_requests : option Z;
  rd_requests : list Z;
  pool_requests : option Z;
  dismiss_sn : SequenceNumber;
  rd_deleted : bool
}.

Definition NDDSA_READER_INITIALIZER : NDDSA_Reader :=
  {| rd_resource_id := D2S2_RESOURCEID_INITIALIZER; rd_agent := None; dyn_reader := None;
     sem_requests := None; rd_requests := []; pool_requests := None;
     dismiss_sn := SEQUENCENUMBER_DEFAULT; rd_deleted := false |}.

(** [cond_handler] has the writer itself and a function that does nothing. *)
Record NDDSA_Writer := {
  wr_res : option Z;
  wr_agent : option Z;
  dyn_writer : option Z;
  dyn_sample : option Z;
  dyn_support : option Z;
  wr_pool_samples : option Z;
  wr_cond_status : option Z;
  wr_handler_set : bool;
  data_buffer : option Z;
  data_buffer_len : Z;
  data_buffer_max : Z
}.

(** An event of the service for a session.  Of its storage, the first fields are the
    agent, the interface and the event, and [se_live] is whether the last is set. *)
Record NDDSA_ClientSessionEvent := {
  se_intf : option Z;
  se_session_key : D2S2_ClientSessionKey;
  se_listener : option Z;
  se_on_event : option Z;
  delay_ts : NtpTime;
  se_storage : option Z * option Z * option Z;
  se_live : bool;
  sem_cancelled : option Z
}.

Inductive NDDSA_ReadStartPoint :=
  | READSTARTPOINT_FIRST_CACHED | READSTARTPOINT_LAST_RETURNED | READSTARTPOINT_LAST_FORWARDED
  | READSTARTPOINT_OTHER (v : Z).
End objects.

(** ** The database of the agent *)

Inductive DbTable := TableResources | TableSessions.

Record NDDSA_AgentDb := {
  db_agent : option Z;
  worker_factory : option Z;
  ea_db : option Z;
  db_handle : option Z;
  cursor_p_worker_resources : option Z;
  cursor_p_worker_sessions : option Z;
  ea_table_resources : option Z;
  ea_table_sessions : option Z;
  db_factory : option Z
}.

Definition NDDSA_AGENTDB_INITIALIZER : NDDSA_AgentDb :=
  {| db_agent := None; worker_factory := None; ea_db := None; db_handle := None;
     cursor_p_worker_resources := None; cursor_p_worker_sessions := None;
     ea_table_resources := None; ea_table_sessions := None; db_factory := None |}.

Definition REF_MAX_LENGTH : nat := 512.

Record NDDSA_ResourceFactory := { xml_parser : option Z; factory_mutex : option Z }.

Definition NDDSA_RESOURCEFACTORY_INITIALIZER : NDDSA_ResourceFactory :=
  {| xml_parser := None; factory_mutex := None |}.

(** The agent without the database, which is apart.  The listeners of its generator and of
    the events of sessions are constants, and so is the period of snoozing; of its
    properties the two last ones are read. *)
Record NDDSA_Agent := {
  res_factory : NDDSA_ResourceFactory;
  pool_readers : option Z;
  pool_writers : option Z;
  pool_resources : option Z;
  pool_reads : option Z;
  pool_samples : option Z;
  pool_events_session : option Z;
  clock : option Z;
  interfaces : list Z;
  timer : option Z;
  generator : option Z;
  sem_start : option Z;
  sem_stop : option Z;
  cond_cleanup_sessions : option Z;
  cond_cleanup_resources : option Z;
  cond_cleanup_reads : option Z;
  waitset : option Z;
  started : bool;
  disposed : bool;
  auto_attach_resources : bool;
  read_start_point : NDDSA_ReadStartPoint
}.

(** An identifier whose string, if it is one, is in [ref_buffer]. *)
Record NDDSA_StaticResourceId := { sid_base : D2S2_ResourceId; ref_buffer : cstr }.

Inductive DbKey :=
  | SessionKey (key : D2S2_ClientSessionKey)
  | ResourceKey (sid : NDDSA_StaticResourceId).

(** ** Calls *)

Section calls.
Context {N : NddsApi}.

(** The listener of an event posted to the generator, with the field of its storage
    that says whether it was cancelled: such an event only tells that it came. *)
Inductive EventListener :=
  | ReadEvent (read : Z) (live : bool)
  | SessionTimeout (session : Z) (live : bool)
  | SessionEvent (event : Z) (live : bool).

(** What a data reader tells its listener, which is the agent's reader. *)
Inductive ListenerMask := ListenNothing | ListenDataAvailable (reader : Z).

Inductive EntityLookup :=
  | LookupParticipant (factory : Z) (name : cstr)
  | LookupTopicDescription (participant : Z) (name : cstr)
  | LookupPublisher (participant : Z) (name : cstr)
  | LookupSubscriber (participant : Z) (name : cstr)
  | LookupDataWriter (publisher : Z) (name : cstr)
  | LookupDataReader (subscriber : Z) (name : cstr)
  | LookupXmlObject (root : Z) (name : cstr).

(** What the agent and its factory of resources are made of. *)
Inductive AgentPart :=
  | PartPoolReaders | PartPoolWriters | PartPoolResources | PartPoolReads | PartPoolSamples
  | PartPoolEvents | PartClock | PartTimer | PartSemStop | PartSemStart
  | PartCondSessions | PartCondReads | PartCondResources | PartWaitSet | PartGenerator
  | PartFactoryMutex.

(** A pointer the code does not test is passed on as it is, NULL included. *)
Inductive NCall :=
  (* workers, exclusive areas, the database *)
  | FactoryGetInstance
  | FactoryGetQos (factory : Z)
  | FactorySetQosManualEnable (factory : Z)
  | FactoryGetWorkerFactory (factory : Z)
  | FactoryQosFinalize
  | FactoryLock (factory : Z)
  | FactoryUnlock (factory : Z)
  | FactoryXmlRoot (factory : Z)
  | GetWorker (factory : option Z)
  | ExclusiveAreaNew (worker_factory : option Z) (level : Z)
  | ExclusiveAreaDelete (worker_factory : option Z) (ea : option Z)
  | DatabaseNew (worker_factory : option Z) (ea : option Z) (worker : Z)
  | DatabaseCreateTable (db : option Z) (table : DbTable) (ea : option Z) (worker : Z)
  | DatabaseCreateCursorPerWorker (db : option Z) (table : DbTable)
  | DatabaseDestroyCursorPerWorker (db : option Z) (cursor_p_worker : option Z) (worker : Z)
  | DatabaseCleanup (db : option Z) (worker : option Z)
  | DatabaseDelete (db : option Z) (worker : option Z)
  (* cursors *)
  | CursorAssert (cursor_p_worker : option Z) (worker : Z)
  | CursorAssertAndStart (cursor_p_worker : option Z) (worker : Z)
  | CursorStart (cursor : Z)
  | CursorFinish (cursor : Z)
  | CursorFinishSafe (stack : list Z)
  | CursorLockTable (cursor : Z)
  | CursorUnlockTable (cursor : Z)
  | CursorGotoKeyEqual (cursor : Z) (key : DbKey)
  | CursorGotoTop (cursor : Z)
  | CursorGotoNext (cursor : Z)
  | CursorModify (cursor : Z)
  | CursorAssertAndModify (cursor : Z) (key : DbKey) (ea : Z)
  | CursorFinishReadWriteArea (cursor : Z)
  | CursorRemoveRecord (cursor : Z)
  | CursorRemoveTable (cursor : Z)
  (* pools, the heap, semaphores, events *)
  | SamplePoolGet (pool : option Z)
  | RequestPoolNew
  | RequestPoolDelete (pool : option Z)
  | RequestPoolGet (pool : option Z)
  | RequestPoolReturn (pool : option Z) (request : Z)
  | WriterPoolNew
  | WriterPoolDelete (pool : option Z)
  | BufferAllocate (size : Z)
  | BufferFree (addr : Z)
  | MutexNew
  | MutexDelete (semaphore : option Z)
  | MutexTake (semaphore : option Z)
  | MutexGive (semaphore : option Z)
  | ClockGetTime
  | PostEvent (at_time : NtpTime) (listener : EventListener)
  | EventSemaphoreNew
  | EventSemaphoreDelete (semaphore : option Z)
  | EventSemaphoreTake (semaphore : option Z)
  | EventSemaphoreGive (semaphore : option Z)
  | GuardTrigger (condition : option Z) (value : bool)
  | SamplePoolReturn (pool : option Z) (sample : Z)
  | ReadPoolGet (pool : option Z)
  | ReadPoolReturn (pool : option Z) (read : Z)
  | AttachedPoolGet (pool : option Z)
  | AttachedPoolReturn (pool : option Z) (attached : Z)
  | EventPoolGet (pool : option Z)
  | EventPoolReturn (pool : option Z) (event : Z)
  (* DDS entities *)
  | ReaderNarrow (entity : Z)
  | ReaderAsDataReader (dyn_reader : option Z)
  | ReaderSetListener (reader : option Z) (mask : ListenerMask)
  | ReaderRead (dyn_reader : option Z)
  | ReaderTake (dyn_reader : option Z)
  | ReaderReadAll (dyn_reader : option Z) (condition : option Z)
  | ReaderReturnLoan (dyn_reader : option Z)
  | QueryConditionNew (reader : Z) (expression : cstr)
  | QueryConditionDelete (reader : Z) (condition : Z)
  | EntityStatusCondition (entity : Z)
  | ConditionSetHandler (condition : option Z) (writer : Z)
  | WriterGetTopic (entity : Z)
  | TopicTypeName (topic : Z)
  | TopicParticipant (topic : Z)
  | ParticipantTypecode (participant : Z) (type_name : cstr)
  | WriterNarrow (entity : Z)
  | TypeSupportNew (typecode : Z)
  | TypeSupportDelete (support : option Z)
  | TypeSupportCreateData (support : Z)
  | TypeSupportDeleteData (support : option Z) (sample : option Z)
  | SampleCdrSize (sample : Z)
  | SampleToCdr (sample : Z) (addr : Z) (size : Z)
  | Lookup (what : EntityLookup)
  | TopicNarrow (description : Z)
  | NameAllocations
  | StringAllocation
  | StringFree (s : cstr)
  (* entities by their kind: those inside one, the one it is in, its topic *)
  | EntitiesRoom (kind : D2S2_ResourceKind)
  | EntitiesOf (kind : D2S2_ResourceKind) (parent : option Z)
  | EntityParent (kind : D2S2_ResourceKind) (entity : option Z)
  | EntityTopic (kind : D2S2_ResourceKind) (entity : option Z)
  | EntityEnable (kind : D2S2_ResourceKind) (entity : option Z)
  | EntityDelete (kind : D2S2_ResourceKind) (parent entity : option Z)
  | UnloadXmlElement (factory : Z) (ref : option cstr)
  | ReaderQos (reader : option Z)
  | SampleFromCdr (sample : option Z) (bytes : list Z)
  | WriterWrite (dyn_writer sample : option Z)
  | BufferReallocate (addr : option Z) (size : Z)
  | ReaderStatePoolGet (pool : option Z)
  | ReaderStatePoolReturn (pool : option Z) (reader : Z)
  | WriterStatePoolGet (pool : option Z)
  | WriterStatePoolReturn (pool : option Z) (writer : Z)
  (* the agent itself *)
  | PartNew (part : AgentPart)
  | PartDelete (part : AgentPart) (p : option Z)
  | CondSetHandler (part : AgentPart) (condition : option Z)
  | WaitSetAttach (waitset condition : option Z)
  | WaitSetDetach (waitset condition : option Z)
  | WaitSetStart (waitset : option Z)
  | WaitSetStop (waitset : option Z)
  | WaitSetDelete (waitset : option Z)
  | GeneratorShutdown (generator : option Z)
  | FactorySetQosDtd (factory : Z)
  | FactoryQosProvider (factory : Z)
  | QosProviderXmlParser (provider : Z)
  | XmlRegisterExtension (parser : Z)
  | XmlUnregisterExtension (parser : option Z)
  | FactoryFinalizeInstance
  (* the creation of resources *)
  | LoadXmlElement (factory : Z) (parent text : cstr)
  | CreateParticipant (factory : Z) (name : cstr)
  | DeleteParticipant (factory participant : Z)
  | EntityDeleteContained (kind : D2S2_ResourceKind) (entity : option Z)
  | CreateTopic (participant : Z) (name : cstr)
  | CreateEntities (kind : D2S2_ResourceKind) (parent : Z) (name : cstr)
  | SequenceRoom (length : nat)
  | XmlFirstChild (parent : Z) (tag : cstr)
  | XmlNextSibling (object : Z) (tag : cstr)
  | XmlObjectName (object : Z)
  | FactoryProfileRoom (factory : Z) (is_file : bool)
  | FactorySetQosProfile (factory : Z) (is_file : bool) (url : option cstr)
  (* the XRCE service *)
  | OnDataAvailable (intf : option Z) (session : Z) (user_data : option Z)
      (reader_id : Z) (reader_data : option Z) (data : Z)
  | OnSessionReset (intf : option Z) (session : Z) (user_data session_data : option Z)
  | OnSessionOpened (intf : option Z) (session : Z) (user_data : option Z)
  | OnSessionClosed (intf : option Z) (key : D2S2_ClientSessionKey) (user_data : option Z)
  | OnSessionTimedOut (intf : option Z) (session : Z) (user_data : option Z)
  | OnReadCreated (intf : option Z) (session : Z) (user_data : option Z) (reader_id : Z)
      (reader_data : option Z) (read_spec : option D2S2_ReadSpecification) (request : option Z)
  | OnReadComplete (intf : option Z) (session : Z) (user_data : option Z) (reader_id : Z)
      (reader_data : option Z)
  | OnResourceDeleted (intf : option Z) (session : Z) (user_data : option Z)
      (kind : D2S2_ResourceKind) (id : D2S2_ResourceId) (resource_id : Z)
      (resource_data request : option Z)
  | OnResourceCreated (intf : option Z) (session : Z) (user_data : option Z)
      (kind : D2S2_ResourceKind) (id : D2S2_ResourceId) (resource_id : Z) (request : option Z)
  | OnReleaseReadSamples (intf : option Z) (session : Z) (user_data : option Z) (reader_id : Z)
      (reader_data : option Z)
  | OnDataWritten (intf : option Z) (session : Z) (user_data : option Z) (writer_id : Z)
      (writer_data : option Z) (data : D2S2_DataRepresentation) (request : option Z)
  | OnSessionEvent (on_event : option Z) (session event : Z)
  | OnBeforeInterfaceDisposed (intf : Z)
  | OnInterfaceDisposed (intf : Z)
  | OnInterfaceRegistered (intf : Z)
  | OnAgentStarted (intf : Z)
  | OnAgentStopped (intf : Z).

(** [NameAllocations]: whether the array of the components of a name is allocated, and
    which of its strings.  A started cursor comes with the stack it was pushed on.  A record that is
    removed is handed to the finalizer of its table: the answer of a removal
    lists the records handed to it.  What a buffer of a pool holds is chosen by
    the environment. *)
Definition NResp (c : NCall) : Type :=
  match c with
  | FactoryGetInstance | FactoryGetWorkerFactory _ | FactoryXmlRoot _ => option Z
  | FactoryGetQos _ | FactorySetQosManualEnable _ => DDS_ReturnCode_t
  | GetWorker _ | ExclusiveAreaNew _ _ | DatabaseNew _ _ _
  | DatabaseCreateCursorPerWorker _ _ => option Z
  | DatabaseCreateTable _ _ _ _ => bool
  | DatabaseCleanup _ _ => bool * bool
  | DatabaseDelete _ _ => bool
  | CursorAssert _ _ => option Z
  | CursorAssertAndStart _ _ => bool * option Z * list Z
  | CursorStart _ | CursorLockTable _ | CursorGotoKeyEqual _ _ | CursorGotoNext _ => bool
  | CursorModify _ | CursorAssertAndModify _ _ _ => option Z
  | CursorRemoveRecord _ | CursorRemoveTable _ => bool * list Z
  | SamplePoolGet _ => option (Z * NDDSA_ReceivedData)
  | RequestPoolNew | RequestPoolGet _ | WriterPoolNew | MutexNew => option Z
  | BufferAllocate _ => Z
  | ClockGetTime => bool * NtpTime
  | PostEvent _ _ => bool
  | EventSemaphoreNew | ReadPoolGet _ | AttachedPoolGet _ => option Z
  | EventPoolGet _ => option (Z * NDDSA_ClientSessionEvent)
  | EntitiesRoom _ => bool
  | EntitiesOf _ _ => DDS_ReturnCode_t * list (option Z)
  | EntityParent _ _ | EntityTopic _ _ => option Z
  | EntityEnable _ _ | EntityDelete _ _ _ | UnloadXmlElement _ _ => DDS_ReturnCode_t
  | ReaderQos _ => DDS_ReturnCode_t * bool
  | SampleFromCdr _ _ | WriterWrite _ _ => DDS_ReturnCode_t
  | BufferReallocate _ _ | ReaderStatePoolGet _ => option Z
  | WriterStatePoolGet _ => option (Z * NDDSA_Writer)
  | PartNew _ | FactoryQosProvider _ | QosProviderXmlParser _ => option Z
  | CondSetHandler _ _ | WaitSetAttach _ _ | WaitSetDetach _ _ | WaitSetStart _
  | WaitSetStop _ | WaitSetDelete _ | FactorySetQosDtd _ => DDS_ReturnCode_t
  | XmlRegisterExtension _ => bool
  | LoadXmlElement _ _ _ => DDS_ReturnCode_t * cstr
  | CreateParticipant _ _ | CreateTopic _ _ | XmlFirstChild _ _ | XmlNextSibling _ _ => option Z
  | CreateEntities _ _ _ | FactorySetQosProfile _ _ _ | EntityDeleteContained _ _ => DDS_ReturnCode_t
  | SequenceRoom _ | FactoryProfileRoom _ _ => bool
  | XmlObjectName _ => option cstr
  | OnResourceCreated _ _ _ _ _ _ _ => DDS_ReturnCode_t * option Z
  | OnReleaseReadSamples _ _ _ _ _ => DDS_ReturnCode_t
  | OnSessionEvent _ _ _ => bool
  | GuardTrigger _ _ | OnSessionOpened _ _ _ | OnReadCreated _ _ _ _ _ _ _
  | OnAgentStarted _ | OnAgentStopped _ => DDS_ReturnCode_t
  | ReaderReadAll _ _ => DDS_ReturnCode_t * list (Z * SequenceNumber * bool)
  | OnSessionReset _ _ _ _ => DDS_ReturnCode_t * option Z
  | ReaderNarrow _ | ReaderAsDataReader _ | QueryConditionNew _ _
  | EntityStatusCondition _ | WriterGetTopic _ | TopicParticipant _
  | ParticipantTypecode _ _ | WriterNarrow _ | TypeSupportNew _
  | TypeSupportCreateData _ | Lookup _ | TopicNarrow _ => option Z
  | TopicTypeName _ => option cstr
  | ReaderSetListener _ _ | ReaderReturnLoan _ | QueryConditionDelete _ _
  | ConditionSetHandler _ _ => DDS_ReturnCode_t
  | ReaderRead _ | ReaderTake _ => DDS_ReturnCode_t * SequenceNumber * bool
  | SampleCdrSize _ => DDS_ReturnCode_t * Z
  | SampleToCdr _ _ _ => DDS_ReturnCode_t * list Z * Z
  | NameAllocations => bool * (Z -> bool)
  | StringAllocation => bool
  | OnDataAvailable _ _ _ _ _ _ => DDS_ReturnCode_t * bool * bool
  | _ => unit
  end.

Definition nevent : Type := event NResp.

(** ** Memory *)

Record Ndds := {
  db : NDDSA_AgentDb;
  nd_agent : NDDSA_Agent;
  session_at : gmap Z NDDSA_ClientSessionRecord;
  resource_at : gmap Z NDDSA_ResourceRecord;
  attached_at : gmap Z NDDSA_AttachedResource;
  read_at : gmap Z NDDSA_Read;
  rcvd_at : gmap Z NDDSA_ReceivedData;
  areader_at : gmap Z NDDSA_Reader;
  rrequest_at : gmap Z NDDSA_ReaderRequest;
  awriter_at : gmap Z NDDSA_Writer;
  event_at : gmap Z NDDSA_ClientSessionEvent
}.

Definition ndds (A : Type) : Type := prog NResp Ndds A.

Definition session_rec_of (p : Z) : ndds NDDSA_ClientSessionRecord :=
  reads (fun s => session_at s !! p).
Definition resource_rec_of (p : Z) : ndds NDDSA_ResourceRecord :=
  reads (fun s => resource_at s !! p).
Definition attached_of (p : Z) : ndds NDDSA_AttachedResource := reads (fun s => attached_at s !! p).
Definition read_of (p : Z) : ndds NDDSA_Read := reads (fun s => read_at s !! p).
Definition rcvd_of (p : Z) : ndds NDDSA_ReceivedData := reads (fun s => rcvd_at s !! p).
Definition areader_of (p : Z) : ndds NDDSA_Reader := reads (fun s => areader_at s !! p).
Definition rrequest_of (p : Z) : ndds NDDSA_ReaderRequest := reads (fun s => rrequest_at s !! p).
Definition awriter_of (p : Z) : ndds NDDSA_Writer := reads (fun s => awriter_at s !! p).
Definition event_of (p : Z) : ndds NDDSA_ClientSessionEvent := reads (fun s => event_at s !! p).
Definition the_db : ndds NDDSA_AgentDb := gets db.
Definition the_nd_agent : ndds NDDSA_Agent := gets nd_agent.

Definition set_db (d : NDDSA_AgentDb) (s : Ndds) : Ndds :=
  {| db := d; nd_agent := nd_agent s; session_at := session_at s;
     resource_at := resource_at s; attached_at := attached_at s; read_at := read_at s;
     rcvd_at := rcvd_at s; areader_at := areader_at s; rrequest_at := rrequest_at s;
     awriter_at := awriter_at s; event_at := event_at s |}.
Definition put_session (p : Z) (r : NDDSA_ClientSessionRecord) (s : Ndds) : Ndds :=
  {| db := db s; nd_agent := nd_agent s; session_at := <[p := r]> (session_at s);
     resource_at := resource_at s; attached_at := attached_at s; read_at := read_at s;
     rcvd_at := rcvd_at s; areader_at := areader_at s; rrequest_at := rrequest_at s;
     awriter_at := awriter_at s; event_at := event_at s |}.
Definition put_resource (p : Z) (r : NDDSA_ResourceRecord) (s : Ndds) : Ndds :=
  {| db := db s; nd_agent := nd_agent s; session_at := session_at s;
     resource_at := <[p := r]> (resource_at s); attached_at := attached_at s;
     read_at := read_at s; rcvd_at := rcvd_at s; areader_at := areader_at s;
     rrequest_at := rrequest_at s; awriter_at := awriter_at s; event_at := event_at s |}.
Definition put_attached (p : Z) (a : NDDSA_AttachedResource) (s : Ndds) : Ndds :=
  {| db := db s; nd_agent := nd_agent s; session_at := session_at s;
     resource_at := resource_at s; attached_at := <[p := a]> (attached_at s);
     read_at := read_at s; rcvd_at := rcvd_at s; areader_at := areader_at s;
     rrequest_at := rrequest_at s; awriter_at := awriter_at s; event_at := event_at s |}.
Definition put_read (p : Z) (r : NDDSA_Read) (s : Ndds) : Ndds :=
  {| db := db s; nd_agent := nd_agent s; session_at := session_at s;
     resource_at := resource_at s; attached_at := attached_at s;
     read_at := <[p := r]> (read_at s); rcvd_at := rcvd_at s; areader_at := areader_at s;
     rrequest_at := rrequest_at s; awriter_at := awriter_at s; event_at := event_at s |}.
Definition put_rcvd (p : Z) (r : NDDSA_ReceivedData) (s : Ndds) : Ndds :=
  {| db := db s; nd_agent := nd_agent s; session_at := session_at s;
     resource_at := resource_at s; attached_at := attached_at s; read_at := read_at s;
     rcvd_at := <[p := r]> (rcvd_at s); areader_at := areader_at s;
     rrequest_at := rrequest_at s; awriter_at := awriter_at s; event_at := event_at s |}.
Definition put_areader (p : Z) (r : NDDSA_Reader) (s : Ndds) : Ndds :=
  {| db := db s; nd_agent := nd_agent s; session_at := session_at s;
     resource_at := resource_at s; attached_at := attached_at s; read_at := read_at s;
     rcvd_at := rcvd_at s; areader_at := <[p := r]> (areader_at s);
     rrequest_at := rrequest_at s; awriter_at := awriter_at s; event_at := event_at s |}.
Definition put_rrequest (p : Z) (r : NDDSA_ReaderRequest) (s : Ndds) : Ndds :=
  {| db := db s; nd_agent := nd_agent s; session_at := session_at s;
     resource_at := resource_at s; attached_at := attached_at s; read_at := read_at s;
     rcvd_at := rcvd_at s; areader_at := areader_at s;
     rrequest_at := <[p := r]> (rrequest_at s); awriter_at := awriter_at s; event_at := event_at s |}.
Definition set_nd_agent (a : NDDSA_Agent) (s : Ndds) : Ndds :=
  {| db := db s; nd_agent := a; session_at := session_at s;
     resource_at := resource_at s; attached_at := attached_at s; read_at := read_at s;
     rcvd_at := rcvd_at s; areader_at := areader_at s; rrequest_at := rrequest_at s;
     awriter_at := awriter_at s; event_at := event_at s |}.
Definition put_event (p : Z) (e : NDDSA_ClientSessionEvent) (s : Ndds) : Ndds :=
  {| db := db s; nd_agent := nd_agent s; session_at := session_at s;
     resource_at := resource_at s; attached_at := attached_at s; read_at := read_at s;
     rcvd_at := rcvd_at s; areader_at := areader_at s; rrequest_at := rrequest_at s;
     awriter_at := awriter_at s; event_at := <[p := e]> (event_at s) |}.
Definition put_awriter (p : Z) (w : NDDSA_Writer) (s : Ndds) : Ndds :=
  {| db := db s; nd_agent := nd_agent s; session_at := session_at s;
     resource_at := resource_at s; attached_at := attached_at s; read_at := read_at s;
     rcvd_at := rcvd_at s; areader_at := areader_at s; rrequest_at := rrequest_at s;
     awriter_at := <[p := w]> (awriter_at s); event_at := event_at s |}.
End calls.

Arguments NCall {N}.
Arguments NResp {N} c.
Arguments nevent {N}.
Arguments ndds {N} A.

Abbreviation ncall := (call (R := NResp)).

(** A pointer that is dereferenced, or handed to code that does, is not NULL. *)
Definition not_null {N : NddsApi} (p : option Z) : ndds Z := reads (fun _ => p).

(** The two tests after which the code goes to [done]. *)
Notation "'let?' x ':=' m 'else' d 'in' k" :=
  (bind m (fun o => match o with Some x => k | None => d end))
  (at level 10, x name, m at level 100, d at level 100, k at level 200) : nano_scope.
Notation "'unless' m 'then' d 'else' k" := (bind m (fun b : bool => if b then k else d))
  (at level 10, m at level 100, d at level 100, k at level 200) : nano_scope.

(** ** A model of the Connext types, and a memory, for the witnesses *)

#[export] Instance ndds_model : NddsApi := {|
  SequenceNumber := Z;
  SEQUENCENUMBER_DEFAULT := 0%Z;
  SequenceNumber_compare := zcmp;
  NtpTime := Z;
  NTP_TIME_ZERO := 0%Z;
  NtpTime_add := Z.add;
  NtpTime_subtract := Z.sub;
  NtpTime_compare := zcmp;
  NtpTime_compareToZero := zcmp 0%Z;
  NtpTime_packFromMillisec := fun s ms => (1000 * s + ms)%Z;
  Duration := Z;
  DURATION_INFINITE := (-1)%Z;
  Duration_is_infinite := fun d => (d =? -1)%Z;
  Duration_is_zero := fun d => (d =? 0)%Z;
  Duration_to_ntp_time := fun d => d;
  MD5 := fun s => (Z.of_nat (length s) mod 256)%Z :: repeat 0%Z 15;
  DDS_RETCODE_NO_DATA := DDS_RETCODE_OTHER 11%Z
|}.

#[export] Instance ndds_model_ok : NddsApiOk ndds_model.
Proof.
  split; cbn; [split; intros; [apply zcmp_zero | apply zcmp_flip] | | discriminate |].
  - unfold zcmp. intros. lia.
  - intros s. split; [done |]. constructor; [by apply Z.mod_pos_bound | by repeat constructor].
Defined.

Definition sample_db : NDDSA_AgentDb :=
  {| db_agent := Some 1; worker_factory := Some 2; ea_db := Some 3; db_handle := Some 4;
     cursor_p_worker_resources := Some 10; cursor_p_worker_sessions := Some 20;
     ea_table_resources := Some 5; ea_table_sessions := Some 6; db_factory := Some 7 |}%Z.

Definition sample_agent : NDDSA_Agent :=
  {| res_factory := {| xml_parser := Some 43; factory_mutex := Some 44 |};
     pool_readers := Some 28; pool_writers := Some 29; pool_resources := Some 31;
     pool_reads := Some 32; pool_samples := Some 30; pool_events_session := Some 33;
     clock := Some 37; interfaces := []; timer := Some 38; generator := Some 39;
     sem_start := Some 40; sem_stop := Some 41; cond_cleanup_sessions := Some 34;
     cond_cleanup_resources := Some 35; cond_cleanup_reads := Some 36; waitset := Some 42;
     started := true; disposed := false;
     auto_attach_resources := false; read_start_point := READSTARTPOINT_FIRST_CACHED |}%Z.

Definition sample_session : NDDSA_ClientSessionRecord :=
  {| sr_session := NDDSA_CLIENTSESSION_INITIALIZER; sr_ea := Some 900%Z |}.

Definition sample_ndds : Ndds :=
  {| db := sample_db; nd_agent := sample_agent; session_at := {[100%Z := sample_session]};
     resource_at := ∅; attached_at := ∅; read_at := ∅; rcvd_at := ∅; areader_at := ∅;
     rrequest_at := ∅; awriter_at := ∅; event_at := ∅ |}.

(** An environment that refuses everything that can be refused and answers OK. *)
Definition quiet_ndds (c : NCall) : NResp c.
Proof.
  destruct c; cbn;
    first [ exact tt | exact false | exact 0%Z | exact DDS_RETCODE_OK | exact (@None _)
          | exact (false, false) | exact (false, @nil Z) | exact (false, 0%Z)
          | exact (false, None, @nil Z) | exact (DDS_RETCODE_NO_DATA, 0%Z, false)
          | exact (DDS_RETCODE_OK, @None Z) | exact (DDS_RETCODE_NO_DATA, @nil (Z * Z * bool))
          | exact (DDS_RETCODE_OK, 0%Z) | exact (DDS_RETCODE_OK, @nil Z, 0%Z)
          | exact (true, fun _ => true) | exact (DDS_RETCODE_OK, false, false)
          | exact (DDS_RETCODE_OK, @nil (option Z)) | exact (DDS_RETCODE_OK, false)
          | exact (DDS_RETCODE_OK, @nil Ascii.ascii) ].
Defined.

(** Symbolic execution of the DDS agent: [vstep] with the objects of [Ndds]. *)
Ltac nstep :=
  lazymatch goal with
  | |- spec _ the_db _ _ => apply spec_gets
  | |- spec _ the_nd_agent _ _ => apply spec_gets
  | |- _ => vstep
  end; cbn beta iota; try congruence; try discriminate.
