(* ===== verification/AgentDb.v ===== *)
(** * The database of the DDS agent

    Models [NddsAgentDb.c]: two tables of a REDA database, of client sessions and
    of resources, searched and iterated through a cursor per table.  A function
    that only writes its [record_out] when it succeeds returns [None] when it
    fails and [Some record_out] otherwise; one that writes it first returns its
    return code and the record.

    [triple]s over the protocol of a cursor ([cursor_allowed],
    [cursor_answers]) state what each function does to the cursor and to the rows
    of its table. *)

From Stdlib Require Import ZArith Lia.
From stdpp Require Import base tactics list gmap.
From S2P Require Import Prelude.
From S2P Require Import CString.
From S2P Require Import Infrastructure.
From S2P Require Import Interaction.
From S2P Require Import Protocol.
From S2P Require Import ServiceData.
From S2P Require Import NddsData.

Local Open Scope nano_scope.

Definition EA_LVL_DB : Z := 9.
Definition EA_LVL_RECORD_RESOURCES : Z := 8.
Definition EA_LVL_TABLE_RESOURCES : Z := 7.
Definition EA_LVL_RECORD_SESSIONS : Z := 6.
Definition EA_LVL_TABLE_SESSIONS : Z := 5.

(** ** Keys *)

(** [None]: the string read is NULL or no string.  A string that is too long
    leaves the identifier of the caller in the base. *)
Definition NDDSA_StaticResourceId_from_id (id : D2S2_ResourceId)
    : option (bool * NDDSA_StaticResourceId) :=
  match id_kind id with
  | RESOURCEIDKIND_REF =>
      match id_ref id with
      | Some (Some s) =>
          if (REF_MAX_LENGTH <? strlen s)%nat
          then Some (false, {| sid_base := id; ref_buffer := [] |})
          else Some (true, {| sid_base := {| id_kind := RESOURCEIDKIND_REF;
                                             id_value := IdValue_ref (Some s) |};
                              ref_buffer := s |})
      | _ => None
      end
  | _ => Some (true, {| sid_base := id; ref_buffer := [] |})
  end.

Section comparators.
Context {C : ConnextCore}.

Definition D2S2_ResourceId_compare_record (l r : D2S2_ResourceId) : Z :=
  match id_kind l with
  | RESOURCEIDKIND_GUID =>
      match id_kind r with
      | RESOURCEIDKIND_GUID =>
          RTIOsapiMemory_compare (default [] (id_guid l)) (default [] (id_guid r))
      | _ => -1
      end
  | RESOURCEIDKIND_REF =>
      match id_kind r with
      | RESOURCEIDKIND_REF =>
          REDAString_compare (default None (id_ref l)) (default None (id_ref r))
      | _ => 1
      end
  | RESOURCEIDKIND_NONE => 1
  end%Z.

(** The string of each side is first made to point to its own buffer, since a
    key is copied into the table as it is. *)
Definition sid_id (k : NDDSA_StaticResourceId) : D2S2_ResourceId :=
  match id_kind (sid_base k) with
  | RESOURCEIDKIND_REF =>
      {| id_kind := RESOURCEIDKIND_REF; id_value := IdValue_ref (Some (ref_buffer k)) |}
  | _ => sid_base k
  end.

Definition NDDSA_StaticResourceId_compare_record (l r : NDDSA_StaticResourceId) : Z :=
  D2S2_ResourceId_compare_record (sid_id l) (sid_id r).

Definition NDDSA_ResourceRecord_compare_record (l r : NDDSA_ResourceRecord) : Z :=
  D2S2_ResourceId_compare_record
    (res_id (resource_base (rr_resource l))) (res_id (resource_base (rr_resource r))).

Definition D2S2_ClientKey_compare_record (l r : Z) : Z := REDAOrderedDataType_compareUInt l r.

Definition D2S2_ClientSessionKey_compare_record (l r : D2S2_ClientSessionKey) : Z :=
  let res := D2S2_ClientKey_compare_record (csk_client l) (csk_client r) in
  if negb (res =? 0)%Z then res
  else REDAOrderedDataType_compareUInt (csk_id l) (csk_id r).

Definition NDDSA_ClientSessionRecord_compare_record {N : NddsApi}
    (l r : NDDSA_ClientSessionRecord) : Z :=
  D2S2_ClientSessionKey_compare_record (cs_key (sr_session l)) (cs_key (sr_session r)).
End comparators.

(** ** Tables *)

Section database.
Context {N : NddsApi}.

Definition upd_db (f : NDDSA_AgentDb -> NDDSA_AgentDb) : ndds unit :=
  modify (fun s => set_db (f (db s)) s).

Definition set_cursors (t : DbTable) (c : option Z) (d : NDDSA_AgentDb) : NDDSA_AgentDb :=
  {| db_agent := db_agent d; worker_factory := worker_factory d; ea_db := ea_db d;
     db_handle := db_handle d;
     cursor_p_worker_resources :=
       match t with TableResources => c | TableSessions => cursor_p_worker_resources d end;
     cursor_p_worker_sessions :=
       match t with TableSessions => c | TableResources => cursor_p_worker_sessions d end;
     ea_table_resources := ea_table_resources d; ea_table_sessions := ea_table_sessions d;
     db_factory := db_factory d |}.

Definition set_table_ea (t : DbTable) (ea : option Z) (d : NDDSA_AgentDb) : NDDSA_AgentDb :=
  {| db_agent := db_agent d; worker_factory := worker_factory d; ea_db := ea_db d;
     db_handle := db_handle d;
     cursor_p_worker_resources := cursor_p_worker_resources d;
     cursor_p_worker_sessions := cursor_p_worker_sessions d;
     ea_table_resources :=
       match t with TableResources => ea | TableSessions => ea_table_resources d end;
     ea_table_sessions :=
       match t with TableSessions => ea | TableResources => ea_table_sessions d end;
     db_factory := db_factory d |}.

Definition set_ea_db (ea : option Z) (d : NDDSA_AgentDb) : NDDSA_AgentDb :=
  {| db_agent := db_agent d; worker_factory := worker_factory d; ea_db := ea;
     db_handle := db_handle d; cursor_p_worker_resources := cursor_p_worker_resources d;
     cursor_p_worker_sessions := cursor_p_worker_sessions d;
     ea_table_resources := ea_table_resources d; ea_table_sessions := ea_table_sessions d;
     db_factory := db_factory d |}.

Definition set_db_handle (h : option Z) (d : NDDSA_AgentDb) : NDDSA_AgentDb :=
  {| db_agent := db_agent d; worker_factory := worker_factory d; ea_db := ea_db d;
     db_handle := h; cursor_p_worker_resources := cursor_p_worker_resources d;
     cursor_p_worker_sessions := cursor_p_worker_sessions d;
     ea_table_resources := ea_table_resources d; ea_table_sessions := ea_table_sessions d;
     db_factory := db_factory d |}.

Definition set_agent_factory (agent factory : option Z) (d : NDDSA_AgentDb) : NDDSA_AgentDb :=
  {| db_agent := agent; worker_factory := worker_factory d; ea_db := ea_db d;
     db_handle := db_handle d; cursor_p_worker_resources := cursor_p_worker_resources d;
     cursor_p_worker_sessions := cursor_p_worker_sessions d;
     ea_table_resources := ea_table_resources d; ea_table_sessions := ea_table_sessions d;
     db_factory := factory |}.

Definition set_worker_factory (w : option Z) (d : NDDSA_AgentDb) : NDDSA_AgentDb :=
  {| db_agent := db_agent d; worker_factory := w; ea_db := ea_db d;
     db_handle := db_handle d; cursor_p_worker_resources := cursor_p_worker_resources d;
     cursor_p_worker_sessions := cursor_p_worker_sessions d;
     ea_table_resources := ea_table_resources d; ea_table_sessions := ea_table_sessions d;
     db_factory := db_factory d |}.

Definition cursors (t : DbTable) (d : NDDSA_AgentDb) : option Z :=
  match t with
  | TableResources => cursor_p_worker_resources d
  | TableSessions => cursor_p_worker_sessions d
  end.

Definition NDDSA_AgentDb_get_worker : ndds (option Z) :=
  let* d := the_db in
  ncall (GetWorker (db_factory d)).

(** The cursor of the worker for a table, not NULL. *)
Definition worker_cursor (t : DbTable) : ndds (option Z) :=
  let? worker := NDDSA_AgentDb_get_worker else ret None in
  let* d := the_db in
  ncall (CursorAssert (cursors t d) worker).

Definition NDDSA_AgentDb_finalize_session_record (record : Z) : ndds unit :=
  let* r := session_rec_of record in
  let* d := the_db in
  ncall (ExclusiveAreaDelete (worker_factory d) (sr_ea r)).

Definition NDDSA_AgentDb_finalize_resource_record (record : Z) : ndds unit :=
  let* r := resource_rec_of record in
  let* d := the_db in
  ncall (ExclusiveAreaDelete (worker_factory d) (rr_ea r)).

Definition finalize_record (t : DbTable) : Z -> ndds unit :=
  match t with
  | TableResources => NDDSA_AgentDb_finalize_resource_record
  | TableSessions => NDDSA_AgentDb_finalize_session_record
  end.

(** Removals, with the finalizer of the table run on the records they remove. *)
Definition remove_record (t : DbTable) (cursor : Z) : ndds bool :=
  let* r := ncall (CursorRemoveRecord cursor) in
  each (finalize_record t) (snd r);;
  ret (fst r).

Definition remove_table (t : DbTable) (cursor : Z) : ndds bool :=
  let* r := ncall (CursorRemoveTable cursor) in
  each (finalize_record t) (snd r);;
  ret (fst r).

Definition NDDSA_AgentDb_create_table (t : DbTable) (table_ea : option Z) : ndds bool :=
  let? worker := NDDSA_AgentDb_get_worker else ret false in
  let* d := the_db in
  unless ncall (DatabaseCreateTable (db_handle d) t table_ea worker) then ret false else
  let* c := ncall (DatabaseCreateCursorPerWorker (db_handle d) t) in
  upd_db (set_cursors t c);;
  ret (bool_decide (is_Some c)).

Definition NDDSA_AgentDb_delete_table (t : DbTable) : ndds bool :=
  let* d := the_db in
  let cursor_p_worker := cursors t d in
  let? worker := NDDSA_AgentDb_get_worker else ret false in
  let? cursor := ncall (CursorAssert cursor_p_worker worker) else ret false in
  unless ncall (CursorStart cursor) then ret false else
  unless ncall (CursorLockTable cursor) then ncall (CursorFinish cursor);; ret false else
  unless remove_table t cursor
  then ncall (CursorUnlockTable cursor);; ncall (CursorFinish cursor);; ret false else
  ncall (CursorUnlockTable cursor);;
  ncall (CursorFinish cursor);;
  ncall (DatabaseDestroyCursorPerWorker (db_handle d) cursor_p_worker worker);;
  upd_db (set_cursors t None);;
  ret true.

(** ** Creation and deletion of the database *)

(** The worker and which tables were created, for the code at [done]. *)
Record DbProgress := {
  initd_worker : option Z;
  initd_table_resources : bool;
  initd_table_sessions : bool
}.

Definition progress0 : DbProgress :=
  {| initd_worker := None; initd_table_resources := false; initd_table_sessions := false |}.

Definition initialize_tables (worker : Z) : ndds (bool * DbProgress) :=
  let at_done r ss :=
    {| initd_worker := Some worker; initd_table_resources := r; initd_table_sessions := ss |} in
  let* d := the_db in
  let* ea := ncall (ExclusiveAreaNew (worker_factory d) EA_LVL_DB) in
  upd_db (set_ea_db ea);;
  if negb (bool_decide (is_Some ea)) then ret (false, at_done false false) else
  let* h := ncall (DatabaseNew (worker_factory d) ea worker) in
  upd_db (set_db_handle h);;
  if negb (bool_decide (is_Some h)) then ret (false, at_done false false) else
  let* ea_r := ncall (ExclusiveAreaNew (worker_factory d) EA_LVL_TABLE_RESOURCES) in
  upd_db (set_table_ea TableResources ea_r);;
  if negb (bool_decide (is_Some ea_r)) then ret (false, at_done false false) else
  unless NDDSA_AgentDb_create_table TableResources ea_r
  then ret (false, at_done false false) else
  let* ea_s := ncall (ExclusiveAreaNew (worker_factory d) EA_LVL_TABLE_SESSIONS) in
  upd_db (set_table_ea TableSessions ea_s);;
  if negb (bool_decide (is_Some ea_s)) then ret (false, at_done true false) else
  unless NDDSA_AgentDb_create_table TableSessions ea_s
  then ret (false, at_done true false) else
  ret (true, at_done true true).

Definition initialize_body (agent : Z) : ndds (bool * DbProgress) :=
  let* f := ncall FactoryGetInstance in
  upd_db (set_agent_factory (Some agent) f);;
  match f with
  | None => ret (false, progress0)
  | Some factory =>
      let* rc := ncall (FactoryGetQos factory) in
      if negb (dds_ok rc) then ret (false, progress0) else
      let* rc := ncall (FactorySetQosManualEnable factory) in
      if negb (dds_ok rc) then ret (false, progress0) else
      let* w := ncall (FactoryGetWorkerFactory factory) in
      upd_db (set_worker_factory w);;
      if negb (bool_decide (is_Some w)) then ret (false, progress0) else
      let? worker := NDDSA_AgentDb_get_worker else ret (false, progress0) in
      initialize_tables worker
  end.

Definition undo_table (t : DbTable) (initd : bool) : ndds unit :=
  if initd then
    let* d := the_db in
    if bool_decide (is_Some (cursors t d)) then NDDSA_AgentDb_delete_table t;; ret tt
    else ret tt
  else ret tt.

Definition initialize_undo (p : DbProgress) : ndds unit :=
  undo_table TableSessions (initd_table_sessions p);;
  undo_table TableResources (initd_table_resources p);;
  let* d := the_db in
  (if bool_decide (is_Some (db_handle d)) then
     let* c := ncall (DatabaseCleanup (db_handle d) (initd_worker p)) in
     (if fst c && snd c then ncall (DatabaseDelete (db_handle d) (initd_worker p));; ret tt
      else ret tt);;
     upd_db (set_db_handle None)
   else ret tt);;
  if bool_decide (is_Some (ea_db d)) then
    ncall (ExclusiveAreaDelete (worker_factory d) (ea_db d));;
    upd_db (set_ea_db None)
  else ret tt.

Definition NDDSA_AgentDb_initialize (agent : Z) : ndds bool :=
  let* r := initialize_body agent in
  (if fst r then ret tt else initialize_undo (snd r));;
  ncall FactoryQosFinalize;;
  ret (fst r).

Definition NDDSA_AgentDb_finalize : ndds bool :=
  unless NDDSA_AgentDb_delete_table TableResources then ret false else
  unless NDDSA_AgentDb_delete_table TableSessions then ret false else
  let? worker := NDDSA_AgentDb_get_worker else ret false in
  let* d := the_db in
  let* c := ncall (DatabaseCleanup (db_handle d) (Some worker)) in
  if negb (fst c) then ret false else
  unless (if snd c then ncall (DatabaseDelete (db_handle d) (Some worker)) else ret false)
  then ret false else
  upd_db (set_db_handle None);;
  ncall (ExclusiveAreaDelete (worker_factory d) (ea_table_resources d));;
  upd_db (set_table_ea TableResources None);;
  ncall (ExclusiveAreaDelete (worker_factory d) (ea_table_sessions d));;
  upd_db (set_table_ea TableSessions None);;
  ncall (ExclusiveAreaDelete (worker_factory d) (ea_db d));;
  upd_db (set_ea_db None);;
  ret true.

(** ** Records of any table *)

Definition finish_safe (stack : list Z) : ndds unit :=
  match stack with [] => ret tt | _ => ncall (CursorFinishSafe stack) end.

(** The cursor of the worker, started; [f] gets the cursor and its stack.  If it
    does not start it is finished when it is on the stack. *)
Definition started_cursor {A} (cursor_p_worker : option Z) (fail : A)
    (f : Z -> list Z -> ndds A) : ndds A :=
  let? worker := NDDSA_AgentDb_get_worker else ret fail in
  let* r := ncall (CursorAssertAndStart cursor_p_worker worker) in
  match r with
  | (true, Some cursor, stack) => f cursor stack
  | (_, _, stack) => finish_safe stack;; ret fail
  end.

(** The answer of [assert_record]: the record, unless it failed, and what it
    wrote to [new_record_out] and to [ea_out]. *)
Record Asserted := { asserted : option (option Z); new_record : bool; asserted_ea : option Z }.

Definition assert_failed (new : bool) (ea_out : option Z) (cursor_stack : list Z)
    (rec_ea : option Z) : ndds Asserted :=
  finish_safe cursor_stack;;
  (if bool_decide (is_Some rec_ea) then
     let* d := the_db in
     ncall (ExclusiveAreaDelete (worker_factory d) rec_ea)
   else ret tt);;
  ret {| asserted := None; new_record := new; asserted_ea := ea_out |}.

(** What follows once a record for the key is in the table. *)
Definition assert_return (cursor : Z) (stack : list Z) (lock_and_return new : bool)
    (record rec_ea : option Z) : ndds Asserted :=
  ncall (CursorUnlockTable cursor);;
  if lock_and_return then
    let* r := ncall (CursorModify cursor) in
    match r with
    | None => assert_failed new rec_ea stack rec_ea
    | Some _ => ret {| asserted := Some r; new_record := new; asserted_ea := rec_ea |}
    end
  else
    finish_safe stack;;
    ret {| asserted := Some record; new_record := new; asserted_ea := rec_ea |}.

(** [assertAndModifyReadWriteArea] may answer NULL: the area is finished all the
    same. *)
Definition NDDSA_AgentDb_assert_record (cursor_p_worker : option Z) (key : DbKey)
    (ea_lvl : Z) (lock_and_return : bool) : ndds Asserted :=
  started_cursor cursor_p_worker {| asserted := None; new_record := false; asserted_ea := None |}
    (fun cursor stack =>
  unless ncall (CursorLockTable cursor) then assert_failed false None stack None else
  let* found := ncall (CursorGotoKeyEqual cursor key) in
  if found then assert_return cursor stack lock_and_return false None None
  else
    let* d := the_db in
    let* ea := ncall (ExclusiveAreaNew (worker_factory d) ea_lvl) in
    match ea with
    | None => ncall (CursorUnlockTable cursor);; assert_failed true None stack None
    | Some rec_ea =>
        let* record := ncall (CursorAssertAndModify cursor key rec_ea) in
        ncall (CursorFinishReadWriteArea cursor);;
        assert_return cursor stack lock_and_return true record (Some rec_ea)
    end).

Definition NDDSA_AgentDb_lookup_record (cursor_p_worker : option Z) (key : DbKey)
    : ndds (option (option Z)) :=
  started_cursor cursor_p_worker None (fun cursor stack =>
  let* found := ncall (CursorGotoKeyEqual cursor key) in
  if found then
    let* record := ncall (CursorModify cursor) in
    match record with
    | None => finish_safe stack;; ret None
    | Some _ => ret (Some record)
    end
  else ret (Some None)).

Definition NDDSA_AgentDb_release_record (t : DbTable) : ndds bool :=
  let? cursor := worker_cursor t else ret false in
  ncall (CursorFinishReadWriteArea cursor);;
  ncall (CursorFinishSafe [cursor]);;
  ret true.

Definition NDDSA_AgentDb_delete_record (t : DbTable) (cursor_p_worker : option Z) (key : DbKey)
    : ndds bool :=
  started_cursor cursor_p_worker false (fun cursor stack =>
  unless ncall (CursorLockTable cursor) then finish_safe stack;; ret false else
  let* ok := (unless ncall (CursorGotoKeyEqual cursor key) then ret false else
              remove_record t cursor) in
  ncall (CursorUnlockTable cursor);;
  finish_safe stack;;
  ret ok).

(** ** Locking a table *)

(** On failure the stack is finished, also when it has a cursor that the
    caller started. *)
Definition lock_at (cursor : Z) (stack : list Z) (goto_top : bool) : ndds bool :=
  unless ncall (CursorLockTable cursor) then finish_safe stack;; ret false else
  (if goto_top then ncall (CursorGotoTop cursor) else ret tt);;
  ret true.

Definition lock_table (t : DbTable) (start_cursor goto_top : bool) : ndds bool :=
  let* d := the_db in
  if start_cursor then
    started_cursor (cursors t d) false (fun cursor stack => lock_at cursor stack goto_top)
  else
    let? cursor := worker_cursor t else ret false in
    lock_at cursor [cursor] goto_top.

Definition unlock_table (t : DbTable) (finish_cursor : bool) : ndds bool :=
  let? cursor := worker_cursor t else ret false in
  ncall (CursorUnlockTable cursor);;
  (if finish_cursor then ncall (CursorFinishSafe [cursor]) else ret tt);;
  ret true.

Definition NDDSA_AgentDb_lock_resources : bool -> bool -> ndds bool := lock_table TableResources.
Definition NDDSA_AgentDb_unlock_resources : bool -> ndds bool := unlock_table TableResources.
Definition NDDSA_AgentDb_lock_sessions : bool -> bool -> ndds bool := lock_table TableSessions.
Definition NDDSA_AgentDb_unlock_sessions : bool -> ndds bool := unlock_table TableSessions.

(** ** Resources *)

(** A function on the key of a resource, refused when it is too long. *)
Definition with_static_id {A} (id : D2S2_ResourceId) (refused : A)
    (f : NDDSA_StaticResourceId -> ndds A) : ndds A :=
  let* r := reads (fun _ => NDDSA_StaticResourceId_from_id id) in
  if fst r then f (snd r) else ret refused.

(** The record at the key, by a cursor that is started. *)
Definition lookup_at (t : DbTable) (key : DbKey) : ndds (bool * option Z) :=
  let? cursor := worker_cursor t else ret (false, None) in
  let* found := ncall (CursorGotoKeyEqual cursor key) in
  if found then
    let* record := ncall (CursorModify cursor) in
    ret (bool_decide (is_Some record), record : option Z)
  else ret (true, None).

Definition release_at (t : DbTable) : ndds bool :=
  let? cursor := worker_cursor t else ret false in
  ncall (CursorFinishReadWriteArea cursor);;
  ret true.

Definition delete_at (t : DbTable) (key : DbKey) : ndds bool :=
  let? cursor := worker_cursor t else ret false in
  unless ncall (CursorGotoKeyEqual cursor key) then ret false else
  remove_record t cursor.

Definition NDDSA_AgentDb_lookup_resourceEA (id : D2S2_ResourceId) : ndds (bool * option Z) :=
  with_static_id id (false, None) (fun sid => lookup_at TableResources (ResourceKey sid)).

(** [filter] answers whether it succeeded and whether the record is returned. *)
Fixpoint find_next_resource_loop (fuel : nat) (cursor : Z)
    (filter_resource_fn : option (Z -> ndds (bool * bool))) : ndds (bool * option Z) :=
  match fuel with
  | O => unfinished
  | S fuel =>
      let* next := ncall (CursorGotoNext cursor) in
      if next then
        let? record := ncall (CursorModify cursor) else ret (false, None) in
        let* f := match filter_resource_fn with
                  | Some filter => filter record
                  | None => ret (true, true)
                  end in
        if negb (fst f) then ncall (CursorFinishReadWriteArea cursor);; ret (false, None)
        else if snd f then ret (true, Some record)
        else
          ncall (CursorFinishReadWriteArea cursor);;
          find_next_resource_loop fuel cursor filter_resource_fn
      else ret (true, None)
  end.

Definition NDDSA_AgentDb_find_next_resourceEA (fuel : nat)
    (filter_resource_fn : option (Z -> ndds (bool * bool))) : ndds (bool * option Z) :=
  let? cursor := worker_cursor TableResources else ret (false, None) in
  find_next_resource_loop fuel cursor filter_resource_fn.

Definition NDDSA_AgentDb_release_resourceEA : ndds bool := release_at TableResources.

(** The new record of a resource: the default one with its exclusive area and
    the agent. *)
Definition new_resource_record (ea agent : option Z) : NDDSA_ResourceRecord :=
  {| rr_ea := ea;
     rr_resource :=
       {| resource_base := D2S2_RESOURCE_INITIALIZER; native := NDDSA_RESOURCENATIVE_INITIALIZER;
          attached_count := 0; resource_agent := agent; resource_user_data := None;
          loaded := false; native_deleted := false; pending_delete := false |} |}.

(** Answers the record ([None]: FALSE) and [already_exists_out]. *)
Definition NDDSA_AgentDb_insert_resourceEA (id : D2S2_ResourceId) : ndds (option Z * bool) :=
  with_static_id id (None, false) (fun sid =>
  let? cursor := worker_cursor TableResources else ret (None, false) in
  let* found := ncall (CursorGotoKeyEqual cursor (ResourceKey sid)) in
  if found then
    let* record := ncall (CursorModify cursor) in
    ret (record : option Z, true)
  else
    let* d := the_db in
    let? ea := ncall (ExclusiveAreaNew (worker_factory d) EA_LVL_RECORD_RESOURCES)
    else ret (None, false) in
    let? record := ncall (CursorAssertAndModify cursor (ResourceKey sid) ea)
    else ret (None, false) in
    modify (put_resource record (new_resource_record (Some ea) (db_agent d)));;
    ret (Some record, false)).

Definition NDDSA_AgentDb_delete_resourceEA (id : D2S2_ResourceId) : ndds bool :=
  with_static_id id false (fun sid => delete_at TableResources (ResourceKey sid)).

(** The return code is TRUE since the identifier was accepted, and stays so when
    the lookup fails: the second component is what is written to [record_out], if
    anything is. *)
Definition NDDSA_AgentDb_lookup_resource (id : D2S2_ResourceId)
    : ndds (bool * option (option Z)) :=
  with_static_id id (false, None) (fun sid =>
  let* d := the_db in
  let* record := NDDSA_AgentDb_lookup_record (cursor_p_worker_resources d) (ResourceKey sid) in
  ret (true, record)).

Definition NDDSA_AgentDb_release_resource : ndds bool :=
  NDDSA_AgentDb_release_record TableResources.

Definition NDDSA_AgentDb_iterate_resourcesEA : ndds bool :=
  let? cursor := worker_cursor TableResources else ret false in
  ncall (CursorGotoTop cursor);;
  ret true.

Definition finish_iterate (t : DbTable) : ndds bool :=
  let? cursor := worker_cursor t else ret false in
  ncall (CursorFinishSafe [cursor]);;
  ret true.

Definition NDDSA_AgentDb_finish_iterate_resourcesEA : ndds bool := finish_iterate TableResources.

(** ** Sessions *)

(** A new record is initialized here, when the table is unlocked again. *)
Definition NDDSA_AgentDb_insert_session (key : D2S2_ClientSessionKey)
    : ndds (option (option Z) * bool) :=
  let* d := the_db in
  let* a := NDDSA_AgentDb_assert_record (cursor_p_worker_sessions d) (SessionKey key)
              EA_LVL_RECORD_SESSIONS true in
  match asserted a with
  | None => ret (None, new_record a)
  | Some record =>
      (if new_record a then
         let* p := not_null record in
         modify (put_session p {| sr_session := NDDSA_CLIENTSESSION_INITIALIZER;
                                  sr_ea := asserted_ea a |})
       else ret tt);;
      ret (Some record, new_record a)
  end.

Definition NDDSA_AgentDb_lookup_session (key : D2S2_ClientSessionKey)
    : ndds (option (option Z)) :=
  let* d := the_db in
  NDDSA_AgentDb_lookup_record (cursor_p_worker_sessions d) (SessionKey key).

Definition NDDSA_AgentDb_release_session : ndds bool := NDDSA_AgentDb_release_record TableSessions.

(** The cursor is finished whether the record is removed or not. *)
Definition NDDSA_AgentDb_delete_session : ndds bool :=
  let? cursor := worker_cursor TableSessions else ret false in
  ncall (CursorFinishReadWriteArea cursor);;
  unless ncall (CursorLockTable cursor) then ncall (CursorFinishSafe [cursor]);; ret false else
  let* ok := remove_record TableSessions cursor in
  ncall (CursorUnlockTable cursor);;
  ncall (CursorFinishSafe [cursor]);;
  ret ok.

Fixpoint find_next_loop (fuel : nat) (cursor : Z) (filter_record_fn : option (Z -> ndds bool))
    : ndds (option (option Z)) :=
  match fuel with
  | O => unfinished
  | S fuel =>
      let* has_next := ncall (CursorGotoNext cursor) in
      if has_next then
        let? record := ncall (CursorModify cursor) else ret None in
        let* keep := match filter_record_fn with
                     | Some filter => filter record
                     | None => ret true
                     end in
        if keep then ret (Some (Some record))
        else
          ncall (CursorFinishReadWriteArea cursor);;
          find_next_loop fuel cursor filter_record_fn
      else ret (Some None)
  end.

Definition NDDSA_AgentDb_find_next_record (fuel : nat) (t : DbTable)
    (filter_record_fn : option (Z -> ndds bool)) (prev : option Z) : ndds (option (option Z)) :=
  let? cursor := worker_cursor t else ret None in
  (if bool_decide (is_Some prev) then ncall (CursorFinishReadWriteArea cursor) else ret tt);;
  find_next_loop fuel cursor filter_record_fn.

Definition NDDSA_AgentDb_iterate_sessions : ndds bool :=
  let* d := the_db in
  started_cursor (cursor_p_worker_sessions d) false (fun cursor _ =>
  ncall (CursorGotoTop cursor);;
  ret true).

Definition NDDSA_AgentDb_finish_iterate_sessions : ndds bool := finish_iterate TableSessions.

Definition NDDSA_AgentDb_find_next_session (fuel : nat)
    (filter_record_fn : option (Z -> ndds bool)) (prev_session : option Z)
    : ndds (option (option Z)) :=
  NDDSA_AgentDb_find_next_record fuel TableSessions filter_record_fn prev_session.

Definition NDDSA_AgentDb_find_next_session_and_delete_previous (fuel : nat)
    (filter_record_fn : option (Z -> ndds bool)) (prev_session : option Z)
    : ndds (bool * option Z) :=
  let? cursor := worker_cursor TableSessions else ret (false, None) in
  unless (if bool_decide (is_Some prev_session) then
            ncall (CursorFinishReadWriteArea cursor);;
            remove_record TableSessions cursor
          else ret true)
  then ret (false, None) else
  let* r := find_next_loop fuel cursor filter_record_fn in
  match r with
  | Some record => ret (true, record)
  | None => ret (false, None)
  end.

Definition NDDSA_AgentDb_lookup_sessionEA (key : D2S2_ClientSessionKey)
    : ndds (bool * option Z) := lookup_at TableSessions (SessionKey key).
Definition NDDSA_AgentDb_release_sessionEA : ndds bool := release_at TableSessions.
Definition NDDSA_AgentDb_delete_sessionEA (key : D2S2_ClientSessionKey) : ndds bool :=
  delete_at TableSessions (SessionKey key).
End database.

(** ** What a cursor does

    The protocol of the two tables, as the code uses the cursors of the RTI core:
    each table has one cursor per worker, and here one worker.  A row is a key and
    the address of its record; a cursor is started or not, locks the table or not,
    is at a row or not, and holds the read-write area of that row or not.
    [ahead] are the rows [gotoNext] still has to visit. *)

Definition Row : Type := DbKey * Z.

Record Cursor := {
  started : bool;
  locked : bool;
  at_row : option Row;
  area : bool;
  ahead : list Row
}.

Record Table := { rows : list Row; cursor : Cursor }.

Record Tables := { resources_table : Table; sessions_table : Table }.

Definition table (t : DbTable) (h : Tables) : Table :=
  match t with TableResources => resources_table h | TableSessions => sessions_table h end.

Definition set_table (t : DbTable) (T : Table) (h : Tables) : Tables :=
  match t with
  | TableResources => {| resources_table := T; sessions_table := sessions_table h |}
  | TableSessions => {| resources_table := resources_table h; sessions_table := T |}
  end.

(** The rows without that of a record. *)
Definition drop_row (p : Z) (l : list Row) : list Row :=
  List.filter (fun x => negb (snd x =? p)%Z) l.

Definition closed : Cursor :=
  {| started := false; locked := false; at_row := None; area := false; ahead := [] |}.
Definition opened : Cursor :=
  {| started := true; locked := false; at_row := None; area := false; ahead := [] |}.

Definition key_compare {C : ConnextCore} (k k' : DbKey) : Z :=
  match k, k' with
  | SessionKey a, SessionKey b => D2S2_ClientSessionKey_compare_record a b
  | ResourceKey a, ResourceKey b => NDDSA_StaticResourceId_compare_record a b
  | _, _ => 1
  end.

(** The row of a key, by the comparator the table was created with. *)
Definition row_of {C : ConnextCore} (k : DbKey) (l : list Row) : option Row :=
  List.find (fun r => key_compare k (fst r) =? 0)%Z l.

#[global] Arguments key_compare : simpl never.
#[global] Arguments row_of : simpl never.
#[global] Arguments drop_row : simpl never.

Section cursor_protocol.
Context {C : ConnextCore} {N : NddsApi}.
(** The address of the handle of a table and of the worker's cursor for it, and the tables that
    may refuse a new record. *)
Context (handle cursor_at : DbTable -> Z) (refuses : DbTable -> bool).

Definition with_cursor (c : Z) (P : DbTable -> Prop) : Prop := exists t, c = cursor_at t /\ P t.

Definition cursor_allowed (h : Tables) (c : NCall) : Prop :=
  match c with
  | CursorAssert cpw _ => exists t, cpw = Some (handle t)
  | CursorAssertAndStart cpw _ =>
      exists t, cpw = Some (handle t) /\ started (cursor (table t h)) = false
  | CursorFinishSafe st =>
      exists t, st = [cursor_at t] /\ started (cursor (table t h)) = true
             /\ locked (cursor (table t h)) = false /\ area (cursor (table t h)) = false
  | CursorLockTable c =>
      with_cursor c (fun t => started (cursor (table t h)) = true
                           /\ locked (cursor (table t h)) = false
                           /\ area (cursor (table t h)) = false)
  | CursorUnlockTable c => with_cursor c (fun t => locked (cursor (table t h)) = true)
  | CursorGotoKeyEqual c _ | CursorGotoTop c | CursorGotoNext c =>
      with_cursor c (fun t => started (cursor (table t h)) = true
                           /\ area (cursor (table t h)) = false)
  | CursorModify c =>
      with_cursor c (fun t => is_Some (at_row (cursor (table t h)))
                           /\ area (cursor (table t h)) = false)
  | CursorAssertAndModify c _ _ =>
      with_cursor c (fun t => locked (cursor (table t h)) = true
                           /\ area (cursor (table t h)) = false)
  | CursorFinishReadWriteArea c => with_cursor c (fun t => area (cursor (table t h)) = true)
  | CursorRemoveRecord c =>
      with_cursor c (fun t => is_Some (at_row (cursor (table t h)))
                           /\ locked (cursor (table t h)) = true
                           /\ area (cursor (table t h)) = false)
  | CursorStart c => with_cursor c (fun t => started (cursor (table t h)) = false)
  | CursorFinish c =>
      with_cursor c (fun t => started (cursor (table t h)) = true
                           /\ locked (cursor (table t h)) = false
                           /\ area (cursor (table t h)) = false)
  | CursorRemoveTable c =>
      with_cursor c (fun t => locked (cursor (table t h)) = true
                           /\ area (cursor (table t h)) = false)
  | _ => True
  end.

(** The tables with the rows [l] and the cursor [c] in table [t]. *)
Definition st (t : DbTable) (l : list Row) (c : Cursor) (h : Tables) : Tables :=
  set_table t {| rows := l; cursor := c |} h.

Definition set_locked (b : bool) (c : Cursor) : Cursor :=
  {| started := started c; locked := b; at_row := at_row c; area := area c; ahead := ahead c |}.
Definition set_area (b : bool) (c : Cursor) : Cursor :=
  {| started := started c; locked := locked c; at_row := at_row c; area := b; ahead := ahead c |}.
Definition set_row (r : option Row) (l : list Row) (c : Cursor) : Cursor :=
  {| started := started c; locked := locked c; at_row := r; area := area c; ahead := l |}.

(** The answers, for the table [t] of the cursor.  A key is found when a row has
    it, by the comparator of the table; a record that is asserted is not that of
    another row, and where its row goes is up to the database, which may also refuse it;
    [gotoNext] visits the rows [gotoTop] found. *)
Definition cursor_answers (h : Tables) (e : nevent) (h' : Tables) : Prop :=
  match e with
  | existT c r =>
      match c return NResp c -> Prop with
      | CursorAssert cpw _ => fun r =>
          h' = h /\ forall t, cpw = Some (handle t) -> r = None \/ r = Some (cursor_at t)
      | CursorAssertAndStart cpw _ => fun r =>
          forall t, cpw = Some (handle t) ->
            match r with
            | (true, Some c, stack) =>
                c = cursor_at t /\ stack = [c] /\ h' = st t (rows (table t h)) opened h
            | (_, _, []) => h' = h
            | (_, _, stack) =>
                stack = [cursor_at t] /\ h' = st t (rows (table t h)) opened h
            end
      | CursorStart c => fun r =>
          forall t, c = cursor_at t ->
            h' = if r then st t (rows (table t h)) opened h else h
      | CursorFinish c => fun _ =>
          forall t, c = cursor_at t -> h' = st t (rows (table t h)) closed h
      | CursorFinishSafe stack => fun _ =>
          forall t, stack = [cursor_at t] -> h' = st t (rows (table t h)) closed h
      | CursorLockTable c => fun r =>
          forall t, c = cursor_at t ->
            h' = if r then st t (rows (table t h)) (set_locked true (cursor (table t h))) h
                 else h
      | CursorUnlockTable c => fun _ =>
          forall t, c = cursor_at t ->
            h' = st t (rows (table t h)) (set_locked false (cursor (table t h))) h
      | CursorGotoKeyEqual c k => fun r =>
          forall t, c = cursor_at t ->
            r = bool_decide (is_Some (row_of k (rows (table t h))))
            /\ h' = st t (rows (table t h))
                      (set_row (row_of k (rows (table t h))) [] (cursor (table t h))) h
      | CursorGotoTop c => fun _ =>
          forall t, c = cursor_at t ->
            h' = st t (rows (table t h))
                   (set_row None (rows (table t h)) (cursor (table t h))) h
      | CursorGotoNext c => fun r =>
          forall t, c = cursor_at t ->
            r = negb (bool_decide (ahead (cursor (table t h)) = []))
            /\ h' = st t (rows (table t h))
                      (set_row (hd_error (ahead (cursor (table t h))))
                         (tl (ahead (cursor (table t h)))) (cursor (table t h))) h
      | CursorModify c => fun r =>
          forall t, c = cursor_at t ->
            match r with
            | Some p => option_map snd (at_row (cursor (table t h))) = Some p
                        /\ h' = st t (rows (table t h)) (set_area true (cursor (table t h))) h
            | None => h' = h
            end
      | CursorAssertAndModify c k _ => fun r =>
          forall t, c = cursor_at t ->
            match row_of k (rows (table t h)) with
            | Some row => r = Some (snd row)
                /\ h' = st t (rows (table t h))
                          (set_area true (set_row (Some row) [] (cursor (table t h)))) h
            | None =>
                (refuses t = true /\ r = None /\ h' = h)
                \/ exists p l, r = Some p /\ ~ In p (map snd (rows (table t h)))
                   /\ Permutation l ((k, p) :: rows (table t h))
                   /\ h' = st t l (set_area true (set_row (Some (k, p)) [] (cursor (table t h)))) h
            end
      | CursorFinishReadWriteArea c => fun _ =>
          forall t, c = cursor_at t ->
            h' = st t (rows (table t h)) (set_area false (cursor (table t h))) h
      | CursorRemoveRecord c => fun r =>
          forall t row, c = cursor_at t -> at_row (cursor (table t h)) = Some row ->
            if fst r then
              (snd r = [] \/ snd r = [snd row])
              /\ h' = st t (drop_row (snd row) (rows (table t h)))
                        (set_row None (ahead (cursor (table t h))) (cursor (table t h))) h
            else snd r = [] /\ h' = h
      | CursorRemoveTable c => fun r =>
          forall t, c = cursor_at t ->
            if fst r then
              (forall p, In p (snd r) -> In p (map snd (rows (table t h))))
              /\ h' = st t [] (set_row None [] (cursor (table t h))) h
            else snd r = [] /\ h' = h
      | _ => fun _ => h' = h
      end r
  end.
End cursor_protocol.

(** *** Rules for the calls *)

Lemma table_st t l c h : table t (st t l c h) = {| rows := l; cursor := c |}.
Proof. by destruct t. Qed.

Lemma st_st t l c l' c' h : st t l c (st t l' c' h) = st t l c h.
Proof. by destruct t. Qed.

Lemma st_same t h : st t (rows (table t h)) (cursor (table t h)) h = h.
Proof. by destruct t, h as [[] []]. Qed.

Lemma table_other t t' l c h : t <> t' -> table t' (st t l c h) = table t' h.
Proof. by destruct t, t'. Qed.

#[global] Arguments st : simpl never.

Section rules.
Context {C : ConnextCore} {N : NddsApi} (handle cursor_at : DbTable -> Z).
Context (refuses : DbTable -> bool).

Abbreviation db_triple := (triple (cursor_allowed handle cursor_at)
                                  (cursor_answers handle cursor_at refuses)).

(** The memory has the handles of the tables. *)
Definition ready (s : Ndds) : Prop := forall t, cursors t (db s) = Some (handle t).

(** A call of the protocol that is allowed in [t], and its answer there. *)
Ltac db_call t :=
  pcall;
  [ cbn; exists t; rewrite ?table_st; cbn; solve [eauto]
  | let r := fresh "r" in let h' := fresh "h'" in let Ha := fresh "Ha" in
    intros r h' Ha; cbn in Ha; specialize (Ha t eq_refl); rewrite ?table_st in Ha;
    cbn in Ha; rewrite ?st_st in Ha ].

Lemma db_get_worker h s (Q : Tables -> option Z -> Ndds -> Prop) :
  (forall w, Q h w s) -> db_triple h NDDSA_AgentDb_get_worker s Q.
Proof.
  intros HQ. apply triple_bind, triple_gets. pcall; [done |].
  intros r h' Ha. cbn in Ha. subst. exact (HQ r).
Qed.

Lemma db_worker_cursor t h s (Q : Tables -> option Z -> Ndds -> Prop) :
  ready s -> Q h None s -> Q h (Some (cursor_at t)) s -> db_triple h (worker_cursor t) s Q.
Proof.
  intros Hs Hnone Hsome. apply triple_bind, db_get_worker. intros [w|]; [| by apply triple_ret].
  apply triple_bind, triple_gets. rewrite (Hs t). pcall; [cbn; eauto |].
  intros r h' [-> Ha]. by destruct (Ha t eq_refl) as [-> | ->].
Qed.

Lemma db_finish_safe t l c h s (Q : Tables -> unit -> Ndds -> Prop) :
  started c = true -> locked c = false -> area c = false ->
  Q (st t l closed h) tt s ->
  db_triple (st t l c h) (ncall (CursorFinishSafe [cursor_at t])) s Q.
Proof. intros. db_call t. subst. by destruct r. Qed.

Lemma db_lock t l c h s (Q : Tables -> bool -> Ndds -> Prop) :
  started c = true -> locked c = false -> area c = false ->
  Q (st t l (set_locked true c) h) true s -> Q (st t l c h) false s ->
  db_triple (st t l c h) (ncall (CursorLockTable (cursor_at t))) s Q.
Proof. intros. db_call t. subst. by destruct r. Qed.

Lemma db_unlock t l c h s (Q : Tables -> unit -> Ndds -> Prop) :
  locked c = true -> Q (st t l (set_locked false c) h) tt s ->
  db_triple (st t l c h) (ncall (CursorUnlockTable (cursor_at t))) s Q.
Proof. intros. db_call t. subst. by destruct r. Qed.

Lemma db_goto_key t k l c h s (Q : Tables -> bool -> Ndds -> Prop) :
  started c = true -> area c = false ->
  Q (st t l (set_row (row_of k l) [] c) h) (bool_decide (is_Some (row_of k l))) s ->
  db_triple (st t l c h) (ncall (CursorGotoKeyEqual (cursor_at t) k)) s Q.
Proof. intros. db_call t. by destruct Ha as [-> ->]. Qed.

Lemma db_goto_top t l c h s (Q : Tables -> unit -> Ndds -> Prop) :
  started c = true -> area c = false -> Q (st t l (set_row None l c) h) tt s ->
  db_triple (st t l c h) (ncall (CursorGotoTop (cursor_at t))) s Q.
Proof. intros. db_call t. subst. by destruct r. Qed.

Lemma db_goto_next t l c h s (Q : Tables -> bool -> Ndds -> Prop) :
  started c = true -> area c = false ->
  Q (st t l (set_row (hd_error (ahead c)) (tl (ahead c)) c) h)
    (negb (bool_decide (ahead c = []))) s ->
  db_triple (st t l c h) (ncall (CursorGotoNext (cursor_at t))) s Q.
Proof. intros. db_call t. by destruct Ha as [-> ->]. Qed.

Lemma db_modify t l c row h s (Q : Tables -> option Z -> Ndds -> Prop) :
  at_row c = Some row -> area c = false ->
  Q (st t l (set_area true c) h) (Some (snd row)) s -> Q (st t l c h) None s ->
  db_triple (st t l c h) (ncall (CursorModify (cursor_at t))) s Q.
Proof.
  intros Hrow Hc HS HN. db_call t. rewrite Hrow in Ha.
  destruct r as [p|]; [destruct Ha as [[= <-] ->] | subst]; done.
Qed.

Lemma db_finish_area t l c h s (Q : Tables -> unit -> Ndds -> Prop) :
  area c = true -> Q (st t l (set_area false c) h) tt s ->
  db_triple (st t l c h) (ncall (CursorFinishReadWriteArea (cursor_at t))) s Q.
Proof. intros. db_call t. subst. by destruct r. Qed.

Lemma db_start {A} t l c h s (fail : A) f (Q : Tables -> A -> Ndds -> Prop) :
  ready s -> started c = false ->
  Q (st t l c h) fail s -> Q (st t l closed h) fail s ->
  db_triple (st t l opened h) (f (cursor_at t) [cursor_at t]) s Q ->
  db_triple (st t l c h) (started_cursor (Some (handle t)) fail f) s Q.
Proof.
  intros Hs Hc HQ HQ' Hf. apply triple_bind, db_get_worker.
  intros [w|]; [| by apply triple_ret]. apply triple_bind. db_call t.
  destruct r as [[b o] stack].
  assert (Hfin : (match stack with
                  | [] => h' = st t l c h
                  | _ => stack = [cursor_at t] /\ h' = st t l opened h
                  end) -> db_triple h' (finish_safe stack;; ret fail) s Q).
  { intros Hst. apply triple_bind. destruct stack; cbn; [| destruct Hst as [[= -> ->] ->]].
    - subst. by repeat apply triple_ret.
    - by apply db_finish_safe. }
  destruct b; [destruct o as [cur|] |]; [| by apply Hfin | by apply Hfin].
  by destruct Ha as (-> & -> & ->).
Qed.
(** The record of a row of [t] is in memory. *)
Definition has_record (t : DbTable) (p : Z) (s : Ndds) : Prop :=
  match t with
  | TableResources => is_Some (resource_at s !! p)
  | TableSessions => is_Some (session_at s !! p)
  end.

Lemma db_finalize t p h s (Q : Tables -> unit -> Ndds -> Prop) :
  has_record t p s -> Q h tt s -> db_triple h (finalize_record t p) s Q.
Proof.
  intros Hp HQ. assert (Hea : forall w ea, db_triple h (ncall (ExclusiveAreaDelete w ea)) s Q).
  { intros w ea. pcall; [done |]. intros r h' Ha. cbn in Ha. subst. by destruct r. }
  destruct t, Hp as [r Hr]; apply triple_bind; apply (triple_reads _ _ _ r); try done;
    apply triple_bind, triple_gets; apply Hea.
Qed.

Lemma db_remove t l c row h s (Q : Tables -> bool -> Ndds -> Prop) :
  at_row c = Some row -> locked c = true -> area c = false -> has_record t (snd row) s ->
  Q (st t (drop_row (snd row) l) (set_row None (ahead c) c) h) true s ->
  Q (st t l c h) false s ->
  db_triple (st t l c h) (remove_record t (cursor_at t)) s Q.
Proof.
  intros Hrow Hl Ha Hp HT HF. apply triple_bind. pcall.
  { cbn. exists t. rewrite table_st; cbn. rewrite Hrow. eauto. }
  intros [b fin] h' Hans. cbn in Hans. specialize (Hans t row eq_refl).
  rewrite table_st, st_st in Hans. cbn in Hans. specialize (Hans Hrow).
  apply triple_bind. destruct b, Hans as [Hfin ->].
  - destruct Hfin as [-> | ->]; [by apply triple_ret, triple_ret |].
    cbn [snd]. rewrite each_cons. apply triple_bind, db_finalize; [done |].
    by apply triple_ret, triple_ret.
  - subst. by apply triple_ret, triple_ret.
Qed.

Lemma db_assert_modify t k ea l c h s (Q : Tables -> option Z -> Ndds -> Prop) :
  locked c = true -> area c = false -> row_of k l = None ->
  (forall p l', ~ In p (map snd l) -> Permutation l' ((k, p) :: l) ->
     Q (st t l' (set_area true (set_row (Some (k, p)) [] c)) h) (Some p) s) ->
  (refuses t = true -> Q (st t l c h) None s) ->
  db_triple (st t l c h) (ncall (CursorAssertAndModify (cursor_at t) k ea)) s Q.
Proof.
  intros Hl Ha Hno HQ HN. db_call t. rewrite Hno in Ha0.
  destruct Ha0 as [(Hr & -> & ->) | (p & l' & -> & Hp & Hl' & ->)]; [by apply HN |].
  rewrite st_st. by apply HQ.
Qed.

(** A call that is not of the protocol. *)
Lemma db_other c h s (Q : Tables -> NResp c -> Ndds -> Prop) :
  (forall h1, cursor_allowed handle cursor_at h1 c) ->
  (forall r h', cursor_answers handle cursor_at refuses h (existT c r) h' -> h' = h) ->
  (forall r, Q h r s) -> db_triple h (ncall c) s Q.
Proof. intros Hc Ha HQ. pcall; [done |]. intros r h' Hr. rewrite (Ha _ _ Hr). apply HQ. Qed.

(** ** What the functions do *)

Definition holding (row : Row) : Cursor :=
  {| started := true; locked := false; at_row := Some row; area := true; ahead := [] |}.

Lemma db_lookup_record t k l h s :
  ready s ->
  db_triple (st t l closed h) (NDDSA_AgentDb_lookup_record (Some (handle t)) k) s
    (fun h' r s' => s' = s /\
      match r with
      | None => h' = st t l closed h
      | Some None => row_of k l = None /\ h' = st t l opened h
      | Some (Some p) =>
          exists row, row_of k l = Some row /\ p = snd row /\ h' = st t l (holding row) h
      end).
Proof.
  intros Hs. apply db_start; try done.
  apply triple_bind, db_goto_key; [done | done |].
  destruct (row_of k l) as [row|] eqn:Hrow; cbn; [| by apply triple_ret].
  apply triple_bind, (db_modify _ _ _ row); [done | done | apply triple_ret; cbn; eauto 6 |].
  apply triple_bind, db_finish_safe; try done.
Qed.

Lemma db_release_record t l c h s :
  ready s -> started c = true -> locked c = false -> area c = true ->
  db_triple (st t l c h) (NDDSA_AgentDb_release_record t) s
    (fun h' r s' => s' = s /\ h' = if r then st t l closed h else st t l c h).
Proof.
  intros Hs Hc Hl Ha. apply triple_bind, db_worker_cursor; [done | by apply triple_ret |].
  apply triple_bind, db_finish_area; [done |].
  apply triple_bind, db_finish_safe; try done.
Qed.

Lemma db_lookup_at t k l c h s :
  ready s -> started c = true -> area c = false ->
  db_triple (st t l c h) (lookup_at t k) s
    (fun h' r s' => s' = s /\
      match r with
      | (false, o) => o = None /\ (h' = st t l c h \/ h' = st t l (set_row (row_of k l) [] c) h)
      | (true, None) => row_of k l = None /\ h' = st t l (set_row None [] c) h
      | (true, Some p) =>
          exists row, row_of k l = Some row /\ p = snd row
            /\ h' = st t l (set_area true (set_row (Some row) [] c)) h
      end).
Proof.
  intros Hs Hc Ha. apply triple_bind, db_worker_cursor; [done | by apply triple_ret; auto |].
  apply triple_bind, db_goto_key; [done | done |].
  destruct (row_of k l) as [row|] eqn:Hrow; cbn; [| by apply triple_ret].
  apply triple_bind, (db_modify _ _ _ row); try done; apply triple_ret; cbn; eauto 6.
Qed.

Lemma db_release_at t l c h s :
  ready s -> area c = true ->
  db_triple (st t l c h) (release_at t) s
    (fun h' r s' => s' = s /\ h' = if r then st t l (set_area false c) h else st t l c h).
Proof.
  intros Hs Ha. apply triple_bind, db_worker_cursor; [done | by apply triple_ret |].
  by apply triple_bind, db_finish_area.
Qed.

(** The records of the rows of a table are in memory. *)
Definition stored_rows (t : DbTable) (l : list Row) (s : Ndds) : Prop :=
  forall p, In p (map snd l) -> has_record t p s.

Lemma row_of_in k l row : row_of k l = Some row -> In row l /\ key_compare k (fst row) = 0%Z.
Proof. intros H. apply List.find_some in H as [H1 H2]. split; [done | by apply Z.eqb_eq]. Qed.

Lemma row_of_stored t k l s row :
  stored_rows t l s -> row_of k l = Some row -> has_record t (snd row) s.
Proof. intros Hl Hr. apply Hl, in_map. by apply row_of_in in Hr as [H _]. Qed.

Lemma db_delete_at t k l c h s :
  ready s -> started c = true -> locked c = true -> area c = false -> stored_rows t l s ->
  db_triple (st t l c h) (delete_at t k) s
    (fun h' r s' => s' = s /\
      if r then exists row, row_of k l = Some row
                  /\ h' = st t (drop_row (snd row) l) (set_row None [] c) h
      else h' = st t l c h \/ h' = st t l (set_row (row_of k l) [] c) h).
Proof.
  intros Hs Hc Hl Ha Hst. apply triple_bind, db_worker_cursor; [done | by apply triple_ret; auto |].
  apply triple_bind, db_goto_key; [done | done |].
  destruct (row_of k l) as [row|] eqn:Hrow; cbn; [| by apply triple_ret; auto].
  apply (db_remove _ _ _ row); try done; [by eapply row_of_stored | by eauto | by auto].
Qed.
(** A record that is asserted: the one at the key, or a new one.  A new row stays
    in the table when its record cannot be locked again. *)
Definition asserts (t : DbTable) (k : DbKey) (l : list Row) (h h' : Tables) (a : Asserted)
    : Prop :=
  match asserted a with
  | None => h' = st t l closed h
            \/ exists p l', row_of k l = None /\ ~ In p (map snd l)
                 /\ Permutation l' ((k, p) :: l) /\ h' = st t l' closed h
  | Some o =>
      exists row, o = Some (snd row) /\
        if new_record a then
          row_of k l = None /\ fst row = k /\ ~ In (snd row) (map snd l)
          /\ is_Some (asserted_ea a)
          /\ exists l', Permutation l' (row :: l) /\ h' = st t l' (holding row) h
        else row_of k l = Some row /\ h' = st t l (holding row) h
  end.

Lemma db_assert_failed t l c h new ea stack_ea s (Q : Tables -> Asserted -> Ndds -> Prop) :
  started c = true -> locked c = false -> area c = false ->
  Q (st t l closed h) {| asserted := None; new_record := new; asserted_ea := ea |} s ->
  db_triple (st t l c h) (assert_failed new ea [cursor_at t] stack_ea) s Q.
Proof.
  intros Hc Hl Ha HQ. apply triple_bind, db_finish_safe; try done.
  apply triple_bind. destruct (bool_decide _); [| by apply triple_ret, triple_ret].
  apply triple_bind, triple_gets, db_other; [done | by cbn | intros []; by apply triple_ret].
Qed.

Lemma db_assert_return t l c h new record ea row s (Q : Tables -> Asserted -> Ndds -> Prop) :
  started c = true -> locked c = true -> area c = false -> at_row c = Some row ->
  Q (st t l closed h) {| asserted := None; new_record := new; asserted_ea := ea |} s ->
  Q (st t l (set_area true (set_locked false c)) h)
    {| asserted := Some (Some (snd row)); new_record := new; asserted_ea := ea |} s ->
  db_triple (st t l c h) (assert_return (cursor_at t) [cursor_at t] true new record ea) s Q.
Proof.
  intros Hc Hl Ha Hrow HN HS. apply triple_bind, db_unlock; [done |].
  apply triple_bind, (db_modify _ _ _ row); [done | done | by apply triple_ret |].
  by apply db_assert_failed.
Qed.

(** A refusal is excluded: the function goes on as if it had the area
    ([insert_session_refused]). *)
Lemma db_assert_record t k lvl l h s :
  ready s -> refuses t = false ->
  db_triple (st t l closed h) (NDDSA_AgentDb_assert_record (Some (handle t)) k lvl true) s
    (fun h' a s' => s' = s /\ asserts t k l h h' a).
Proof.
  intros Hs Hrf. unfold asserts. apply db_start; try done; cbn; [by auto | by auto |].
  apply triple_bind, db_lock; try done; [| by apply db_assert_failed; cbn; auto].
  apply triple_bind, db_goto_key; [done | done |].
  destruct (row_of k l) as [row|] eqn:Hrow; cbn.
  - eapply db_assert_return; try done; cbn; eauto 6.
  - apply triple_bind, triple_gets, triple_bind, db_other; [done | by cbn |].
    intros [ea|]; cbn.
    + apply triple_bind, db_assert_modify; try done; [| congruence]. intros p l' Hp Hl'.
      apply triple_bind, db_finish_area; [done |].
      eapply db_assert_return; try done; cbn; [by eauto 10 |].
      split; [done |]. exists (k, p). split_and!; eauto.
    + apply triple_bind, db_unlock; [done |]. apply db_assert_failed; cbn; auto.
Qed.

Lemma ready_sessions s : ready s -> cursor_p_worker_sessions (db s) = Some (handle TableSessions).
Proof. intros Hs. exact (Hs TableSessions). Qed.
Lemma ready_resources s :
  ready s -> cursor_p_worker_resources (db s) = Some (handle TableResources).
Proof. intros Hs. exact (Hs TableResources). Qed.

Definition initial_session (ea : option Z) : NDDSA_ClientSessionRecord :=
  {| sr_session := NDDSA_CLIENTSESSION_INITIALIZER; sr_ea := ea |}.

Lemma db_insert_session k l h s :
  ready s -> refuses TableSessions = false ->
  db_triple (st TableSessions l closed h) (NDDSA_AgentDb_insert_session k) s
    (fun h' r s' =>
      match r with
      | (None, _) =>
          s' = s /\ (h' = st TableSessions l closed h
            \/ exists p l', row_of (SessionKey k) l = None /\ ~ In p (map snd l)
                 /\ Permutation l' ((SessionKey k, p) :: l)
                 /\ h' = st TableSessions l' closed h)
      | (Some None, _) => False
      | (Some (Some p), false) =>
          s' = s /\ exists row, row_of (SessionKey k) l = Some row /\ p = snd row
            /\ h' = st TableSessions l (holding row) h
      | (Some (Some p), true) =>
          exists ea l', s' = put_session p (initial_session (Some ea)) s
            /\ row_of (SessionKey k) l = None /\ ~ In p (map snd l)
            /\ Permutation l' ((SessionKey k, p) :: l)
            /\ h' = st TableSessions l' (holding (SessionKey k, p)) h
      end).
Proof.
  intros Hs Hrf. apply triple_bind, triple_gets. rewrite (ready_sessions _ Hs).
  apply triple_bind. eapply triple_mono; [by apply db_assert_record |].
  intros h' a s' [-> Ha]. unfold asserts in Ha. destruct (asserted a) as [o|]; [| by apply triple_ret].
  destruct Ha as ([k' p] & -> & Ha). apply triple_bind.
  destruct (new_record a) eqn:Hnew.
  - destruct Ha as (Hrow & Hk & Hp & [ea Hea] & l' & Hl' & ->). cbn in *. subst k'.
    apply triple_bind, (triple_reads _ _ _ p); [done |].
    apply triple_modify, triple_ret. rewrite Hea. by exists ea, l'.
  - destruct Ha as [Hrow ->]. apply triple_ret, triple_ret. cbn. by eauto.
Qed.

Lemma db_delete_session l c row h s :
  ready s -> started c = true -> locked c = false -> area c = true -> at_row c = Some row ->
  has_record TableSessions (snd row) s ->
  db_triple (st TableSessions l c h) NDDSA_AgentDb_delete_session s
    (fun h' r s' => s' = s /\
      if r then h' = st TableSessions (drop_row (snd row) l) closed h
      else h' = st TableSessions l c h \/ h' = st TableSessions l closed h).
Proof.
  intros Hs Hc Hl Ha Hrow Hp.
  apply triple_bind, db_worker_cursor; [done | by apply triple_ret; auto |].
  apply triple_bind, db_finish_area; [done |].
  apply triple_bind, db_lock; try done.
  - apply triple_bind, (db_remove _ _ _ row); try done;
      apply triple_bind, db_unlock; try done; apply triple_bind, db_finish_safe; try done;
      apply triple_ret; auto.
  - apply triple_bind, db_finish_safe; try done. apply triple_ret; auto.
Qed.
Lemma db_with_static_id {A} id (refused : A) f h s ok sid (Q : Tables -> A -> Ndds -> Prop) :
  NDDSA_StaticResourceId_from_id id = Some (ok, sid) ->
  (if ok then db_triple h (f sid) s Q else Q h refused s) ->
  db_triple h (with_static_id id refused f) s Q.
Proof.
  intros Hid HQ. apply triple_bind, (triple_reads _ _ _ (ok, sid)); [done |]. by destruct ok.
Qed.

Lemma db_insert_resourceEA id sid l c h s :
  ready s -> started c = true -> locked c = true -> area c = false ->
  NDDSA_StaticResourceId_from_id id = Some (true, sid) ->
  db_triple (st TableResources l c h) (NDDSA_AgentDb_insert_resourceEA id) s
    (fun h' r s' =>
      match r with
      | (None, _) =>
          s' = s /\ (h' = st TableResources l c h
                     \/ h' = st TableResources l (set_row (row_of (ResourceKey sid) l) [] c) h)
      | (Some p, true) =>
          s' = s /\ exists row, row_of (ResourceKey sid) l = Some row /\ p = snd row
            /\ h' = st TableResources l (set_area true (set_row (Some row) [] c)) h
      | (Some p, false) =>
          exists ea l', s' = put_resource p (new_resource_record (Some ea) (db_agent (db s))) s
            /\ row_of (ResourceKey sid) l = None /\ ~ In p (map snd l)
            /\ Permutation l' ((ResourceKey sid, p) :: l)
            /\ h' = st TableResources l'
                      (set_area true (set_row (Some (ResourceKey sid, p)) [] c)) h
      end).
Proof.
  intros Hs Hc Hl Ha Hid. eapply db_with_static_id; [exact Hid |]. cbn.
  apply triple_bind, db_worker_cursor; [done | by apply triple_ret; auto |].
  apply triple_bind, db_goto_key; [done | done |].
  destruct (row_of (ResourceKey sid) l) as [row|] eqn:Hrow; cbn.
  - apply triple_bind, (db_modify _ _ _ row); try done; apply triple_ret; cbn; [by eauto |]. auto.
  - apply triple_bind, triple_gets, triple_bind, db_other; [done | by cbn |].
    intros [ea|]; cbn; [| by apply triple_ret; auto].
    apply triple_bind, db_assert_modify; try done; [| intros _; apply triple_ret; auto].
    intros p l' Hp Hl'. apply triple_bind, triple_modify, triple_ret. by exists ea, l'.
Qed.

(** ** Locks and iterations *)

Definition at_top (b : bool) (l : list Row) (c : Cursor) : Cursor :=
  if b then set_row None l c else c.

Lemma db_lock_at t l c h goto_top s :
  started c = true -> locked c = false -> area c = false ->
  db_triple (st t l c h) (lock_at (cursor_at t) [cursor_at t] goto_top) s
    (fun h' r s' => s' = s /\
      if r then h' = st t l (at_top goto_top l (set_locked true c)) h else h' = st t l closed h).
Proof.
  intros Hc Hl Ha. apply triple_bind, db_lock; try done.
  - apply triple_bind. destruct goto_top; [apply db_goto_top; try done |]; by apply triple_ret.
  - by apply triple_bind, db_finish_safe.
Qed.

Lemma db_lock_table_start t goto_top l h s :
  ready s ->
  db_triple (st t l closed h) (lock_table t true goto_top) s
    (fun h' r s' => s' = s /\
      if r then h' = st t l (at_top goto_top l (set_locked true opened)) h
      else h' = st t l closed h).
Proof.
  intros Hs. apply triple_bind, triple_gets. cbn. rewrite (Hs t).
  apply db_start; try done. by apply db_lock_at.
Qed.

Lemma db_lock_table_again t goto_top l c h s :
  ready s -> started c = true -> locked c = false -> area c = false ->
  db_triple (st t l c h) (lock_table t false goto_top) s
    (fun h' r s' => s' = s /\
      if r then h' = st t l (at_top goto_top l (set_locked true c)) h
      else h' = st t l c h \/ h' = st t l closed h).
Proof.
  intros Hs Hc Hl Ha. apply triple_bind, triple_gets. cbn.
  apply triple_bind, db_worker_cursor; [done | by apply triple_ret; auto |].
  eapply triple_mono; [by apply db_lock_at |]. intros h' [] s' [-> ->]; auto.
Qed.

Lemma db_unlock_table t finish l c h s :
  ready s -> started c = true -> locked c = true -> (finish = true -> area c = false) ->
  db_triple (st t l c h) (unlock_table t finish) s
    (fun h' r s' => s' = s /\
      if r then h' = st t l (if finish then closed else set_locked false c) h
      else h' = st t l c h).
Proof.
  intros Hs Hc Hl Ha. apply triple_bind, db_worker_cursor; [done | by apply triple_ret |].
  apply triple_bind, db_unlock; [done |]. apply triple_bind.
  destruct finish; [apply db_finish_safe; auto |]; by apply triple_ret.
Qed.

Lemma db_finish_iterate t l c h s :
  ready s -> started c = true -> locked c = false -> area c = false ->
  db_triple (st t l c h) (finish_iterate t) s
    (fun h' r s' => s' = s /\ h' = if r then st t l closed h else st t l c h).
Proof.
  intros Hs Hc Hl Ha. apply triple_bind, db_worker_cursor; [done | by apply triple_ret |].
  by apply triple_bind, db_finish_safe.
Qed.

Lemma db_iterate_sessions l h s :
  ready s ->
  db_triple (st TableSessions l closed h) NDDSA_AgentDb_iterate_sessions s
    (fun h' r s' => s' = s /\
      h' = if r then st TableSessions l (set_row None l opened) h
           else st TableSessions l closed h).
Proof.
  intros Hs. apply triple_bind, triple_gets. rewrite (ready_sessions _ Hs).
  apply db_start; try done. by apply triple_bind, db_goto_top.
Qed.

Lemma db_iterate_resourcesEA l c h s :
  ready s -> started c = true -> area c = false ->
  db_triple (st TableResources l c h) NDDSA_AgentDb_iterate_resourcesEA s
    (fun h' r s' => s' = s /\
      h' = st TableResources l (if r then set_row None l c else c) h).
Proof.
  intros Hs Hc Ha. apply triple_bind, db_worker_cursor; [done | by apply triple_ret |].
  by apply triple_bind, db_goto_top.
Qed.

Lemma area_again c : area c = false -> set_area false (set_area true c) = c.
Proof. destruct c; cbn. by intros ->. Qed.

Lemma set_row_twice r l r' l' c : set_row r l (set_row r' l' c) = set_row r l c.
Proof. done. Qed.

(** A filter decides by [keep] and leaves everything as it is. *)
Definition filters (l : list Row) (s : Ndds) (f : option (Z -> ndds bool)) (keep : Z -> bool)
    : Prop :=
  match f with
  | None => forall p, keep p = true
  | Some f => forall p h, In p (map snd l) ->
      db_triple h (f p) s (fun h' b s' => h' = h /\ s' = s /\ b = keep p)
  end.

(** The first row ahead the filter keeps, with those behind it. *)
Fixpoint first_kept (keep : Z -> bool) (l : list Row) : option (Row * list Row) :=
  match l with
  | [] => None
  | row :: l => if keep (snd row) then Some (row, l) else first_kept keep l
  end.

(** What a search leaves: [c] is the cursor without the area of the last record. *)
Definition found_next (t : DbTable) (keep : Z -> bool) (l l0 : list Row) (c : Cursor)
    (h h' : Tables) (r : option (option Z)) : Prop :=
  match r with
  | None => exists row rest, In row l0 /\ incl rest l0
          /\ (length rest <= length (ahead c))%nat /\ h' = st t l (set_row (Some row) rest c) h
  | Some None => first_kept keep (ahead c) = None /\ h' = st t l (set_row None [] c) h
  | Some (Some p) =>
      exists row rest, first_kept keep (ahead c) = Some (row, rest) /\ p = snd row
        /\ In row l0 /\ incl rest l0
        /\ h' = st t l (set_area true (set_row (Some row) rest c)) h
  end.

(** A search that passed over one row more. *)
Lemma found_longer t keep l l0 c h h' row rest r :
  keep (snd row) = false -> ahead c = row :: rest ->
  found_next t keep l l0 (set_row (Some row) rest c) h h' r -> found_next t keep l l0 c h h' r.
Proof.
  intros Hk Hah. destruct r as [[p|] |]; cbn; rewrite Hah; cbn; rewrite ?Hk; try done.
  intros (r & l1 & H1 & H2 & H3 & ->). exists r, l1. split_and!; try done. cbn in *. lia.
Qed.

Lemma db_find_next_loop t keep f l0 fuel l c h s :
  filters l0 s f keep -> started c = true -> area c = false ->
  incl (ahead c) l0 -> (length (ahead c) < fuel)%nat ->
  db_triple (st t l c h) (find_next_loop fuel (cursor_at t) f) s
    (fun h' r s' => s' = s /\ found_next t keep l l0 c h h' r).
Proof.
  intros Hf Hc Ha. revert c Hc Ha. induction fuel as [|fuel IH]; intros c Hc Ha Hin Hn; [lia |].
  cbn [find_next_loop]. apply triple_bind, db_goto_next; [done | done |].
  destruct (ahead c) as [|row rest] eqn:Hah; cbn [hd_error tl].
  - rewrite bool_decide_true by done. apply triple_ret. split; [done |]. cbn. by rewrite Hah.
  - rewrite bool_decide_false by done. cbn [negb].
    assert (Hrow : In row l0) by (apply Hin; by left).
    assert (Hrest : incl rest l0) by (intros x Hx; apply Hin; by right).
    apply triple_bind, (db_modify _ _ _ row);
      [done | done | | apply triple_ret; (split; [done |]); cbn; rewrite ?Hah;
         exists row, rest; cbn; split_and!; try done; lia].
    apply triple_bind.
    assert (Hk : db_triple (st t l (set_area true (set_row (Some row) rest c)) h)
              (match f with Some filter => filter (snd row) | None => ret true end) s
              (fun h' b s' => h' = st t l (set_area true (set_row (Some row) rest c)) h
                              /\ s' = s /\ b = keep (snd row))).
    { destruct f as [f|]; cbn in Hf; [by apply Hf, in_map | by apply triple_ret]. }
    eapply triple_mono; [exact Hk |]. intros h' b s' (-> & -> & ->).
    destruct (keep (snd row)) eqn:Hkeep.
    + apply triple_ret. split; [done |]. exists row, rest. rewrite Hah. cbn. by rewrite Hkeep.
    + apply triple_bind, db_finish_area; [done |]. rewrite area_again by done.
      eapply triple_mono; [apply (IH (set_row (Some row) rest c)); cbn in *; try done; lia |].
      cbn beta. intros h' r s' [-> Hr]. split; [done |]. by eapply found_longer.
Qed.

Lemma db_find_next_session keep f prev l0 fuel l c h s :
  ready s -> filters l0 s f keep -> started c = true ->
  area c = bool_decide (is_Some prev) -> incl (ahead c) l0 -> (length (ahead c) < fuel)%nat ->
  db_triple (st TableSessions l c h) (NDDSA_AgentDb_find_next_session fuel f prev) s
    (fun h' r s' => s' = s /\
      ((r = None /\ h' = st TableSessions l c h)
       \/ found_next TableSessions keep l l0 (set_area false c) h h' r)).
Proof.
  intros Hs Hf Hc Ha Hin Hn.
  apply triple_bind, db_worker_cursor; [done | by apply triple_ret; auto |].
  assert (Hloop : db_triple (st TableSessions l (set_area false c) h)
            (find_next_loop fuel (cursor_at TableSessions) f) s
            (fun h' r s' => s' = s /\
              ((r = None /\ h' = st TableSessions l c h)
               \/ found_next TableSessions keep l l0 (set_area false c) h h' r))).
  { eapply triple_mono; [by apply (db_find_next_loop _ keep _ l0) |].
    intros h' r s' [-> Hr]. auto. }
  apply triple_bind. destruct (bool_decide _) eqn:Hp.
  - by apply db_finish_area.
  - apply triple_ret. replace c with (set_area false c) at 1; [exact Hloop |].
    destruct c; cbn in *. by subst.
Qed.

Lemma db_find_next_and_delete keep f prev row0 l0 fuel l c h s :
  ready s -> filters l0 s f keep -> started c = true -> locked c = true ->
  area c = bool_decide (is_Some prev) ->
  (is_Some prev -> at_row c = Some row0 /\ has_record TableSessions (snd row0) s) ->
  incl (ahead c) l0 -> (length (ahead c) < fuel)%nat ->
  db_triple (st TableSessions l c h)
    (NDDSA_AgentDb_find_next_session_and_delete_previous fuel f prev) s
    (fun h' r s' => s' = s /\
      ((r = (false, None)
        /\ (h' = st TableSessions l c h \/ h' = st TableSessions l (set_area false c) h))
       \/ exists o, r = match o with Some record => (true, record) | None => (false, None) end
          /\ found_next TableSessions keep
               (match prev with Some _ => drop_row (snd row0) l | None => l end) l0
               (match prev with Some _ => set_row None (ahead c) (set_area false c) | None => c end)
               h h' o)).
Proof.
  intros Hs Hf Hc Hl Ha Hprev Hin Hn.
  apply triple_bind, db_worker_cursor; [done | by apply triple_ret; auto |].
  assert (Hloop : forall l1 c1 h1, started c1 = true -> area c1 = false -> ahead c1 = ahead c ->
    db_triple (st TableSessions l1 c1 h1)
      (let* r := find_next_loop fuel (cursor_at TableSessions) f in
       match r with Some record => ret (true, record) | None => ret (false, None) end) s
      (fun h' r s' => s' = s /\ exists o,
         r = match o with Some record => (true, record) | None => (false, None) end
         /\ found_next TableSessions keep l1 l0 c1 h1 h' o)).
  { intros l1 c1 h1 H1 H2 H3. apply triple_bind.
    eapply triple_mono; [by apply (db_find_next_loop _ keep _ l0); rewrite ?H3 |].
    intros h' r s' [-> Hr].
    destruct r as [o|]; apply triple_ret; (split; [done |]); [by exists (Some o) | by exists None]. }
  apply triple_bind. destruct prev as [p|]; cbn [bool_decide] in *.
  - rewrite bool_decide_true in Ha |- * by eauto. destruct (Hprev ltac:(eauto)) as [Hrow Hrec].
    apply triple_bind, db_finish_area; [done |].
    apply (db_remove _ _ _ row0); try done; [| apply triple_ret; auto].
    eapply triple_mono; [by apply Hloop |]. intros h' r s' [-> Hr]. auto.
  - rewrite bool_decide_false in Ha |- * by (by intros [? [=]]). apply triple_ret.
    eapply triple_mono; [by apply Hloop |]. intros h' r s' [-> Hr]. auto.
Qed.

(** A filter of resources decides by [keep], and fails where that is [None]. *)
Definition resource_filters (l : list Row) (s : Ndds) (f : option (Z -> ndds (bool * bool)))
    (keep : Z -> option bool) : Prop :=
  match f with
  | None => forall p, keep p = Some true
  | Some f => forall p h, In p (map snd l) ->
      db_triple h (f p) s (fun h' b s' => h' = h /\ s' = s
        /\ keep p = (if fst b then Some (snd b) else None))
  end.

(** The first row ahead that is not passed over. *)
Fixpoint first_resource (keep : Z -> option bool) (l : list Row) : option (Row * list Row) :=
  match l with
  | [] => None
  | row :: l => match keep (snd row) with
                | Some false => first_resource keep l
                | _ => Some (row, l)
                end
  end.

Definition found_resource (keep : Z -> option bool) (l l0 : list Row) (c : Cursor)
    (h h' : Tables) (r : bool * option Z) : Prop :=
  match r with
  | (false, o) => o = None /\ exists row rest, In row l0 /\ incl rest l0
      /\ (length rest <= length (ahead c))%nat /\ h' = st TableResources l (set_row (Some row) rest c) h
  | (true, None) => first_resource keep (ahead c) = None
                    /\ h' = st TableResources l (set_row None [] c) h
  | (true, Some p) =>
      exists row rest, first_resource keep (ahead c) = Some (row, rest) /\ p = snd row
        /\ keep p = Some true /\ In row l0 /\ incl rest l0
        /\ h' = st TableResources l (set_area true (set_row (Some row) rest c)) h
  end.

Lemma resource_longer keep l l0 c h h' row rest r :
  keep (snd row) = Some false -> ahead c = row :: rest ->
  found_resource keep l l0 (set_row (Some row) rest c) h h' r ->
  found_resource keep l l0 c h h' r.
Proof.
  intros Hk Hah. destruct r as [[] [p|]]; cbn; rewrite Hah; cbn; rewrite ?Hk; try done.
  all: intros (Ho & r & l1 & H1 & H2 & H3 & ->); split; [exact Ho |]; exists r, l1;
    split_and!; try done; cbn in *; lia.
Qed.

Lemma db_find_next_resource_loop keep f l0 fuel l c h s :
  resource_filters l0 s f keep -> started c = true -> area c = false ->
  incl (ahead c) l0 -> (length (ahead c) < fuel)%nat ->
  db_triple (st TableResources l c h)
    (find_next_resource_loop fuel (cursor_at TableResources) f) s
    (fun h' r s' => s' = s /\ found_resource keep l l0 c h h' r).
Proof.
  intros Hf Hc Ha. revert c Hc Ha. induction fuel as [|fuel IH]; intros c Hc Ha Hin Hn; [lia |].
  cbn [find_next_resource_loop]. apply triple_bind, db_goto_next; [done | done |].
  destruct (ahead c) as [|row rest] eqn:Hah; cbn [hd_error tl].
  - rewrite bool_decide_true by done. apply triple_ret. split; [done |]. cbn. by rewrite Hah.
  - rewrite bool_decide_false by done. cbn [negb].
    assert (Hrow : In row l0) by (apply Hin; by left).
    assert (Hrest : incl rest l0) by (intros x Hx; apply Hin; by right).
    apply triple_bind, (db_modify _ _ _ row);
      [done | done | | apply triple_ret; (split; [done |]); cbn; rewrite ?Hah;
         split; [done |]; exists row, rest; cbn; split_and!; try done; lia].
    apply triple_bind.
    assert (Hk : db_triple (st TableResources l (set_area true (set_row (Some row) rest c)) h)
              (match f with Some filter => filter (snd row) | None => ret (true, true) end) s
              (fun h' b s' => h' = st TableResources l (set_area true (set_row (Some row) rest c)) h
                 /\ s' = s /\ keep (snd row) = (if fst b then Some (snd b) else None))).
    { destruct f as [f|]; cbn in Hf; [by apply Hf, in_map | by apply triple_ret]. }
    eapply triple_mono; [exact Hk |]. intros h' [ok b] s' (-> & -> & Hb). cbn [fst snd] in *.
    destruct ok; [destruct b |]; cbn [negb].
    + apply triple_ret. split; [done |]. exists row, rest. rewrite Hah. cbn. by rewrite Hb.
    + apply triple_bind, db_finish_area; [done |]. rewrite area_again by done.
      eapply triple_mono; [apply (IH (set_row (Some row) rest c)); cbn in *; try done; lia |].
      cbn beta. intros h' r s' [-> Hr]. split; [done |]. by eapply resource_longer.
    + apply triple_bind, db_finish_area; [done |]. rewrite area_again by done.
      apply triple_ret. split; [done |]. cbn. split; [done |]. exists row, rest. rewrite Hah. cbn.
      split_and!; try done; lia.
Qed.
End rules.
