(* ===== verification/DbMap.v ===== *)
(** * The tables of the DDS agent as finite maps

    The comparators of [NddsAgentDb.c] decide equality, so that the rows of the
    table of sessions are a finite map from session keys to records, which the
    functions of the database look up, extend and reduce; and the errors of
    these functions. *)

From Stdlib Require Import ZArith Lia Ascii String.
From stdpp Require Import base tactics list gmap.
From S2P Require Import Prelude.
From S2P Require Import CString.
From S2P Require Import Infrastructure.
From S2P Require Import Interaction.
From S2P Require Import Protocol.
From S2P Require Import ServiceData.
From S2P Require Import NddsData.
From S2P Require Import AgentDb.

Local Open Scope nano_scope.

(** The key of a session as the index of a map. *)
Definition session_index (k : D2S2_ClientSessionKey) : Z * Z := (csk_client k, csk_id k).

Lemma session_index_inj k k' : session_index k = session_index k' -> k = k'.
Proof. destruct k, k'. by intros [= -> ->]. Qed.

(** The records of a table of sessions by the keys of their rows. *)
Fixpoint session_map (l : list Row) : gmap (Z * Z) Z :=
  match l with
  | [] => ∅
  | (SessionKey k, p) :: l => <[session_index k := p]> (session_map l)
  | _ :: l => session_map l
  end.

(** Rows of sessions, each key once and each record once. *)
Definition session_rows (l : list Row) : Prop :=
  Forall (fun r => exists k, fst r = SessionKey k) l
  /\ List.NoDup (map fst l) /\ List.NoDup (map snd l).

Section comparators.
Context {C : ConnextCore} {COk : ConnextCoreOk C}.

Lemma session_key_compare_zero a b :
  D2S2_ClientSessionKey_compare_record a b = 0%Z <-> a = b.
Proof.
  unfold D2S2_ClientSessionKey_compare_record, D2S2_ClientKey_compare_record.
  pose proof (cmp_zero uint_cmp (csk_client a) (csk_client b) I I) as H1.
  pose proof (cmp_zero uint_cmp (csk_id a) (csk_id b) I I) as H2.
  destruct (Z.eqb_spec (REDAOrderedDataType_compareUInt (csk_client a) (csk_client b)) 0) as [H|H];
    cbn [negb].
  - rewrite H2. destruct a, b; cbn in *. naive_solver.
  - split; [naive_solver |]. intros ->. naive_solver.
Qed.

Lemma row_of_session k l :
  session_rows l ->
  match row_of (SessionKey k) l with
  | Some row => session_map l !! session_index k = Some (snd row) /\ fst row = SessionKey k
                /\ In row l
  | None => session_map l !! session_index k = None
  end.
Proof.
  intros (Hk & Hd & _). unfold row_of.
  induction l as [|[k' p] l IH]; cbn; [done |].
  inversion Hk as [|? ? [a Ha] Hk']; subst; cbn in Ha; subst k'. cbn in Hd.
  apply List.NoDup_cons_iff in Hd as [Hn Hd]. specialize (IH Hk' Hd).
  destruct (Z.eqb_spec (key_compare (SessionKey k) (SessionKey a)) 0) as [H|H].
  - unfold key_compare in H. apply session_key_compare_zero in H as <-. rewrite lookup_insert_eq. auto.
  - rewrite lookup_insert_ne.
    + destruct (List.find (fun r => (key_compare (SessionKey k) (fst r) =? 0)%Z) l); naive_solver.
    + intros He. apply session_index_inj in He as ->. apply H. by apply session_key_compare_zero.
Qed.
End comparators.

(** ** Rows and maps *)

Lemma session_rows_perm l l' : Permutation l l' -> session_rows l -> session_rows l'.
Proof.
  intros Hp (Hk & H1 & H2). split_and!.
  - by rewrite <- Hp.
  - by rewrite <- (Permutation_map fst Hp).
  - by rewrite <- (Permutation_map snd Hp).
Qed.

Lemma session_map_perm l l' :
  Permutation l l' -> session_rows l -> session_map l = session_map l'.
Proof.
  intros Hp (Hk & Hd & _). induction Hp as [|[k p] l l' Hp IH |[k p] [k' p'] l |l1 l2 l3 H1 IH1 H2 IH2].
  - done.
  - inversion Hk; inversion Hd; subst. destruct k; cbn; by rewrite IH.
  - inversion Hk as [|? ? [a Ha] Hk']; subst. inversion Hk' as [|? ? [b Hb] _]; subst.
    cbn in *. subst. cbn. apply insert_insert_ne.
    intros He. apply session_index_inj in He as ->. inversion Hd as [|? ? Hn _]. apply Hn. by left.
  - rewrite IH1 by done. apply IH2; [by rewrite <- H1 |]. by rewrite <- (Permutation_map fst H1).
Qed.

Lemma session_map_in l k p :
  session_rows l -> session_map l !! session_index k = Some p -> In (SessionKey k, p) l.
Proof.
  intros (Hk & _ & _) Hm. induction l as [|[k' q] l IH]; cbn in *; [done |].
  inversion Hk as [|? ? [a Ha] Hk']; subst. cbn in Ha. subst k'.
  destruct (decide (session_index a = session_index k)) as [He|He].
  - apply session_index_inj in He as ->. rewrite lookup_insert_eq in Hm. left. congruence.
  - rewrite lookup_insert_ne in Hm by done. right. auto.
Qed.

Lemma in_session_map l k p :
  session_rows l -> In (SessionKey k, p) l -> session_map l !! session_index k = Some p.
Proof.
  intros (Hk & Hd & _) Hin. induction l as [|[k' q] l IH]; cbn in *; [done |].
  inversion Hk as [|? ? [a Ha] Hk']; subst. cbn in Ha. subst k'.
  inversion Hd as [|? ? Hn Hd']; subst. destruct Hin as [[= -> ->] | Hin].
  - by rewrite lookup_insert_eq.
  - rewrite lookup_insert_ne; [by apply IH |]. intros He. apply session_index_inj in He as ->.
    apply Hn. by apply (in_map fst) in Hin.
Qed.

Lemma session_rows_cons k p l :
  session_rows l -> session_map l !! session_index k = None -> ~ In p (map snd l) ->
  session_rows ((SessionKey k, p) :: l).
Proof.
  intros Hl Hm Hp. pose proof Hl as (Hk & H1 & H2). split_and!.
  - constructor; [by exists k | done].
  - constructor; [| done]. intros Hin. apply in_map_iff in Hin as ([k' q] & Heq & Hin).
    cbn in Heq. subst k'. by rewrite (in_session_map _ _ _ Hl Hin) in Hm.
  - by constructor.
Qed.

Lemma drop_row_in p l r : In r (drop_row p l) <-> In r l /\ snd r <> p.
Proof.
  unfold drop_row. rewrite List.filter_In. destruct (Z.eqb_spec (snd r) p); cbn; naive_solver.
Qed.

Lemma nodup_drop_row {B} (f : Row -> B) p l :
  List.NoDup (map f l) -> List.NoDup (map f (drop_row p l)).
Proof.
  unfold drop_row. induction l as [|r l IH]; cbn; [done |]. intros H. inversion H as [|? ? Hn Hd]; subst.
  destruct (negb _); cbn; [| by apply IH]. constructor; [| by apply IH].
  intros Hin. apply Hn. apply in_map_iff in Hin as (x & <- & Hx).
  apply List.filter_In in Hx as [Hx _]. by apply in_map.
Qed.

Lemma session_rows_drop p l : session_rows l -> session_rows (drop_row p l).
Proof.
  intros (Hk & H1 & H2). split_and!; [| by apply nodup_drop_row | by apply nodup_drop_row].
  apply List.Forall_forall. intros r Hr. apply drop_row_in in Hr as [Hr _].
  by apply (proj1 (List.Forall_forall _ _) Hk).
Qed.

Lemma session_map_drop l k p :
  session_rows l -> In (SessionKey k, p) l ->
  session_map (drop_row p l) = delete (session_index k) (session_map l).
Proof.
  intros Hl Hin. pose proof Hl as (_ & _ & Hs). apply map_eq. intros [c i].
  set (k' := {| csk_client := c; csk_id := i |}). change (c, i) with (session_index k').
  apply option_eq. intros q. split; intros Hq.
  - apply session_map_in in Hq; [| by apply session_rows_drop].
    apply drop_row_in in Hq as [Hq Hne]. cbn in Hne.
    rewrite lookup_delete_ne; [by apply in_session_map |].
    intros He. apply session_index_inj in He as <-.
    apply Hne.
    pose proof (in_session_map _ _ _ Hl Hq). pose proof (in_session_map _ _ _ Hl Hin). congruence.
  - apply lookup_delete_Some in Hq as [Hne Hq].
    apply in_session_map; [by apply session_rows_drop |]. apply drop_row_in.
    apply session_map_in in Hq; [| done]. split; [done |]. cbn. intros ->.
    apply Hne. f_equal.
    assert (Heq : (SessionKey k, p) = (SessionKey k', p)); [| congruence].
    clear -Hs Hin Hq. induction l as [|r l IH]; [done |]. cbn in *. inversion Hs as [|? ? Hn Hd]; subst.
    destruct Hin as [-> | Hin], Hq as [Hq | Hq]; [by rewrite Hq | | |]; subst; cbn in *.
    + exfalso. apply Hn. by apply (in_map snd) in Hq.
    + exfalso. apply Hn. by apply (in_map snd) in Hin.
    + by apply IH.
Qed.

(** ** The table of sessions refines a map *)

Inductive SessionOp :=
  | GetSession (k : D2S2_ClientSessionKey)
  | OpenSession (k : D2S2_ClientSessionKey)
  | CloseSession (k : D2S2_ClientSessionKey) (p : Z).

Inductive SessionAnswer :=
  | Failed
  | Got (p : option Z)
  | Opened (p : Z) (is_new : bool)
  | Closed.

(** What each operation promises on a map from keys to records.  An operation may
    fail; opening a session that fails may leave its key in the map. *)
Inductive session_spec (m : gmap (Z * Z) Z) : SessionOp -> SessionAnswer -> gmap (Z * Z) Z -> Prop :=
  | spec_failed op : session_spec m op Failed m
  | spec_get k : session_spec m (GetSession k) (Got (m !! session_index k)) m
  | spec_open_old k p :
      m !! session_index k = Some p -> session_spec m (OpenSession k) (Opened p false) m
  | spec_open_new k p :
      m !! session_index k = None -> (forall i, m !! i <> Some p) ->
      session_spec m (OpenSession k) (Opened p true) (<[session_index k := p]> m)
  | spec_open_half k p :
      m !! session_index k = None ->
      session_spec m (OpenSession k) Failed (<[session_index k := p]> m)
  | spec_close k p :
      m !! session_index k = Some p ->
      session_spec m (CloseSession k p) Closed (delete (session_index k) m).

Section refinement.
Context {C : ConnextCore} {COk : ConnextCoreOk C} {N : NddsApi}.
Context (handle cursor_at : DbTable -> Z) (refuses : DbTable -> bool).

Definition run_session_op (op : SessionOp) : ndds SessionAnswer :=
  match op with
  | GetSession k =>
      let* r := NDDSA_AgentDb_lookup_session k in
      ret (match r with Some o => Got o | None => Failed end)
  | OpenSession k =>
      let* r := NDDSA_AgentDb_insert_session k in
      match r with
      | (Some record, is_new) => let* p := not_null record in ret (Opened p is_new)
      | (None, _) => ret Failed
      end
  | CloseSession _ _ =>
      let* b := NDDSA_AgentDb_delete_session in
      ret (if b then Closed else Failed)
  end.

(** The cursor each operation starts from: a session is closed by the code that
    holds its record. *)
Definition cursor_before (op : SessionOp) : Cursor :=
  match op with
  | GetSession _ | OpenSession _ => closed
  | CloseSession k p => holding (SessionKey k, p)
  end.

Definition may_start (m : gmap (Z * Z) Z) (op : SessionOp) : Prop :=
  match op with CloseSession k p => m !! session_index k = Some p | _ => True end.

(** The table of sessions is the map [m]. *)
Definition represents (m : gmap (Z * Z) Z) (h : Tables) : Prop :=
  session_rows (rows (sessions_table h)) /\ session_map (rows (sessions_table h)) = m.

Lemma represents_st m l c h :
  represents m (st TableSessions l c h) <-> session_rows l /\ session_map l = m.
Proof. done. Qed.

Lemma represents_new k p l l' :
  session_rows l -> Permutation l' ((SessionKey k, p) :: l) ->
  session_map l !! session_index k = None -> ~ In p (map snd l) ->
  session_rows l' /\ session_map l' = <[session_index k := p]> (session_map l).
Proof.
  intros Hl Hp Hk Hin. pose proof (session_rows_cons _ _ _ Hl Hk Hin) as Hc.
  split; [by apply (session_rows_perm _ _ (Permutation_sym Hp)) |].
  by rewrite <- (session_map_perm _ _ (Permutation_sym Hp) Hc).
Qed.

Lemma no_record_index l k p : ~ In p (map snd l) -> session_rows l -> session_map l !! k <> Some p.
Proof.
  intros Hn Hl Hm. destruct k as [c i].
  pose proof (session_map_in l {| csk_client := c; csk_id := i |} p Hl Hm) as Hin.
  apply Hn. by apply (in_map snd) in Hin.
Qed.
(** C14: the table of sessions is a finite map from session keys to records.
    Looking a session up, opening one and closing one do to the rows of the table
    what the abstract specification [session_spec] says of the map: a lookup
    answers the record of exactly that key, opening finds the record of the key or
    adds one that no other session has, and closing removes that key and no other.
    The records of all rows stay in memory, unless opening a session failed.  The table of sessions
    gives a record when it is asked for one ([refuses]): the code goes on as if it had it. *)
Theorem session_table_refines_map op m h s :
  refuses TableSessions = false -> ready handle s -> cursor (sessions_table h) = cursor_before op -> may_start m op ->
  represents m h -> stored_rows TableSessions (rows (sessions_table h)) s ->
  triple (cursor_allowed handle cursor_at) (cursor_answers handle cursor_at refuses) h
    (run_session_op op) s
    (fun h' r s' => exists m', session_spec m op r m' /\ represents m' h'
       /\ resources_table h' = resources_table h
       /\ (r <> Failed -> stored_rows TableSessions (rows (sessions_table h')) s')).
Proof.
  intros Hrf Hs Hc Hm [Hl <-] Hst. rewrite <- (st_same TableSessions h).
  change (cursor (table TableSessions h)) with (cursor (sessions_table h)). rewrite Hc.
  change (rows (table TableSessions h)) with (rows (sessions_table h)) in *.
  generalize dependent (rows (sessions_table h)). intros l Hm Hl Hst.
  destruct op as [k | k | k p]; apply triple_bind.
  - apply triple_bind, triple_gets. rewrite (ready_sessions _ _ Hs).
    eapply triple_mono; [by apply db_lookup_record |].
    intros h' r s' [-> Hr]. apply triple_ret. pose proof (row_of_session k l Hl) as Hk.
    destruct r as [[p|] |].
    + destruct Hr as (row & Hrow & -> & ->). rewrite Hrow in Hk. destruct Hk as [Hk _].
      exists (session_map l). rewrite <- Hk. split; [apply spec_get | done].
    + destruct Hr as [Hrow ->]. rewrite Hrow in Hk.
      exists (session_map l). rewrite <- Hk. split; [apply spec_get | done].
    + subst. exists (session_map l). split; [apply spec_failed | done].
  - eapply triple_mono; [by apply db_insert_session |].
    intros h' [r is_new] s' Hr. pose proof (row_of_session k l Hl) as Hk.
    destruct r as [[p|] |]; [| done |].
    + apply triple_bind, (triple_reads _ _ _ p); [done |]. apply triple_ret. destruct is_new.
      * destruct Hr as (ea & l' & -> & Hrow & Hp & Hl' & ->). rewrite Hrow in Hk.
        destruct (represents_new k p l l') as [H1 H2]; try done.
        exists (<[session_index k := p]> (session_map l)). split_and!; try done.
        -- apply spec_open_new; [done |]. intros i. by apply no_record_index.
        -- intros _ q Hq. change (In q (map snd l')) in Hq.
           apply (Permutation_in _ (Permutation_map snd Hl')) in Hq. cbn in *.
           destruct (decide (p = q)) as [->|Hne]; [by rewrite lookup_insert_eq |].
           rewrite lookup_insert_ne by done. apply Hst. naive_solver.
      * destruct Hr as (-> & row & Hrow & -> & ->). rewrite Hrow in Hk. destruct Hk as [Hk _].
        exists (session_map l). split; [by apply spec_open_old | done].
    + apply triple_ret. destruct Hr as (-> & [-> | (p & l' & Hrow & Hp & Hl' & ->)]).
      * exists (session_map l). split; [apply spec_failed | done].
      * rewrite Hrow in Hk. exists (<[session_index k := p]> (session_map l)).
        split; [by apply spec_open_half | by split; [apply represents_st, (represents_new k p l) |]].
  - cbn in Hm. pose proof (session_map_in _ _ _ Hl Hm) as Hin.
    eapply triple_mono; [apply (db_delete_session _ _ _ _ _ (SessionKey k, p)); try done |].
    { apply Hst. by apply (in_map snd) in Hin. }
    intros h' r s' [-> Hr]. apply triple_ret. destruct r.
    + subst. exists (delete (session_index k) (session_map l)). split_and!; try done.
      * by apply spec_close.
      * apply represents_st. split; [by apply session_rows_drop | by apply session_map_drop].
      * intros _ q Hq. apply Hst. apply in_map_iff in Hq as (x & <- & Hx).
        apply drop_row_in in Hx as [Hx _]. by apply in_map.
    + exists (session_map l). destruct Hr as [-> | ->]; (split; [apply spec_failed | done]).
Qed.
End refinement.

Definition sample_handle (t : DbTable) : Z :=
  match t with TableResources => 10 | TableSessions => 20 end%Z.
Definition sample_cursor (t : DbTable) : Z :=
  match t with TableResources => 11 | TableSessions => 21 end%Z.
Definition sample_key : D2S2_ClientSessionKey := {| csk_client := 7; csk_id := 129 |}.
Definition sample_rows : list Row := [(SessionKey sample_key, 100%Z)].
Definition sample_tables (c : Cursor) : Tables :=
  {| resources_table := {| rows := []; cursor := closed |};
     sessions_table := {| rows := sample_rows; cursor := c |} |}.

(** The table of resources may refuse a record, that of sessions does not. *)
Definition refuses_resources (t : DbTable) : bool :=
  match t with TableResources => true | TableSessions => false end.

Lemma session_table_refines_map_witness :
  triple (cursor_allowed sample_handle sample_cursor)
    (cursor_answers sample_handle sample_cursor refuses_resources)
    (sample_tables (holding (SessionKey sample_key, 100%Z)))
    (run_session_op (CloseSession sample_key 100%Z)) sample_ndds
    (fun h' r s' => r = Closed -> represents ∅ h').
Proof.
  eapply triple_mono.
  - apply (session_table_refines_map sample_handle sample_cursor refuses_resources _
             {[session_index sample_key := 100%Z]}); try reflexivity.
    + by intros [].
    + split; [| reflexivity]. split; [repeat constructor; by exists sample_key |].
      cbn. split; repeat constructor; intros [].
    + intros p [<- | []]. by exists sample_session.
  - cbn beta. intros h' r s' (m' & Hspec & Hm & _) ->. inversion Hspec; subst. exact Hm.
Defined.

(** ** Keys of resources *)

Definition guid_ok (id : D2S2_ResourceId) : Prop :=
  id_kind id = RESOURCEIDKIND_GUID -> length (default [] (id_guid id)) = 16%nat.

(** C26: the order of the keys of the table of resources finds an identifier equal
    to another exactly when the comparator of identifiers that the rest of the agent
    uses does, whatever is left in the buffers of the keys.  An identifier
    of no kind equals none, not even itself. *)
Theorem static_id_compare_equivalent {C : ConnextCore} {COk : ConnextCoreOk C} a b sa sb :
  guid_ok a -> guid_ok b ->
  NDDSA_StaticResourceId_from_id a = Some (true, sa) ->
  NDDSA_StaticResourceId_from_id b = Some (true, sb) ->
  (NDDSA_StaticResourceId_compare_record sa sb = 0%Z <-> D2S2_ResourceId_compare a b = 0%Z)
  /\ (D2S2_ResourceId_compare a b = 0%Z -> id_kind a <> RESOURCEIDKIND_NONE /\ sid_id sa = sid_id sb).
Proof.
  intros Ha Hb Hsa Hsb.
  destruct a as [[] [[r|]|g]], b as [[] [[r'|]|g']]; cbn in Hsa, Hsb; try discriminate;
    repeat match goal with
           | H : (if ?x then _ else _) = _ |- _ => destruct x; [discriminate H |]
           end; injection Hsa as <-; injection Hsb as <-;
    unfold NDDSA_StaticResourceId_compare_record, D2S2_ResourceId_compare, sid_id,
      D2S2_ResourceId_compare_record, guid_ok in *; cbn in *;
    repeat match goal with H : ?k = ?k -> _ |- _ => specialize (H eq_refl) end;
    try discriminate;
    repeat match goal with
           | |- context [bool_decide (?x = ?y)] =>
               first [ rewrite (bool_decide_true (x = y)) by done
                     | rewrite (bool_decide_false (x = y)) by done ]
           end; cbn [negb]; try (split; [lia | intros H; split; [done |]; lia]).
  - rewrite (cmp_zero (memory_cmp 16) g g') by done.
    rewrite (cmp_zero guid_cmp g g') by done. split; [done |]. by intros ->.
  - split; [done |]. intros H. split; [done |].
    apply (cmp_zero string_cmp) in H; [| by eauto | by eauto]. congruence.
Qed.

Definition sid_foo : NDDSA_StaticResourceId := {| sid_base := id_foo; ref_buffer := of_string "Foo"%string |}.

Lemma static_id_compare_equivalent_witness :
  NDDSA_StaticResourceId_compare_record sid_foo sid_foo = 0%Z
  <-> D2S2_ResourceId_compare id_foo id_foo = 0%Z.
Proof.
  apply (static_id_compare_equivalent (C := core_model) id_foo id_foo sid_foo sid_foo);
    try reflexivity; intros [=].
Defined.

(** ** Errors *)

(** A step of a lookup that fails: there is no worker, its cursor does not start, the
    record cannot be locked. *)
Definition refused {N : NddsApi} (e : nevent) : bool :=
  match e with
  | existT c r =>
      match c return NResp c -> bool with
      | GetWorker _ => fun r => match r with None => true | Some _ => false end
      | CursorAssertAndStart _ _ => fun r => negb (fst (fst r))
      | CursorModify _ => fun r => match r with None => true | Some _ => false end
      | _ => fun _ => false
      end r
  end.

(** looking a resource up answers TRUE for every identifier that is short
    enough, also when a step of the lookup failed; then nothing was written to the
    record of the caller.  An identifier of more than 512 characters is refused
    without a call. *)
Theorem lookup_resource_hides_failure {N : NddsApi} id ok sid s :
  NDDSA_StaticResourceId_from_id id = Some (ok, sid) ->
  spec (fun _ => True) (NDDSA_AgentDb_lookup_resource id) s
    (fun t r s' => s' = s /\ fst r = ok
       /\ (ok = false -> t = [] /\ snd r = None)
       /\ (existsb refused t = true -> r = (true, None))).
Proof.
  intros Hid. apply spec_bind, (spec_reads _ _ _ (ok, sid)); [done |]. destruct ok; cbn.
  - apply spec_bind, spec_gets. apply spec_bind. unfold NDDSA_AgentDb_lookup_record, started_cursor.
    unfold NDDSA_AgentDb_get_worker, finish_safe.
    repeat nstep; subst; cbn; repeat split; intros; done.
  - repeat nstep. done.
Qed.

Definition long_id (n : nat) : D2S2_ResourceId :=
  {| id_kind := RESOURCEIDKIND_REF; id_value := IdValue_ref (Some (repeat "a"%char n)) |}.

Lemma lookup_resource_hides_failure_witness :
  spec (fun e => refused e = true) (NDDSA_AgentDb_lookup_resource id_foo) sample_ndds
    (fun t r _ => fst r = true /\ (existsb refused t = true -> snd r = None))
  /\ spec (fun _ => True) (NDDSA_AgentDb_lookup_resource (long_id 513)) sample_ndds
       (fun t r _ => t = [] /\ fst r = false).
Proof.
  split.
  - eapply spec_strengthen; [| eapply spec_mono].
    2: apply (lookup_resource_hides_failure id_foo true sid_foo); reflexivity.
    { done. }
    cbn. intros t r s' (_ & Hr & _ & Hn). split; [done |]. intros H. by rewrite (Hn H).
  - eapply spec_mono;
      [apply (lookup_resource_hides_failure (long_id 513) false
                {| sid_base := long_id 513; ref_buffer := [] |}); vm_compute; reflexivity |].
    cbn. intros t r s' (_ & Hr & Ht & _). split; [by apply Ht | done].
Defined.

(** ** The life of the database *)

Section life.
Context {N : NddsApi}.

(** The exclusive areas a trace creates and destroys. *)
Definition areas_of (e : nevent) : list Z :=
  match e with
  | existT c r =>
      match c return NResp c -> list Z with
      | ExclusiveAreaNew _ _ => fun r => match r with Some ea => [ea] | None => [] end
      | _ => fun _ => []
      end r
  end.

Definition freed_areas_of (e : nevent) : list (option Z) :=
  match projT1 e with ExclusiveAreaDelete _ ea => [ea] | _ => [] end.

Definition areas (t : list nevent) : list Z := flat_map areas_of t.
Definition freed_areas (t : list nevent) : list (option Z) := flat_map freed_areas_of t.

(** Tables have no records to finalize when they are removed. *)
Definition empty_tables (e : nevent) : Prop :=
  match e with
  | existT c r =>
      match c return NResp c -> Prop with
      | CursorRemoveTable _ => fun r => snd r = []
      | _ => fun _ => True
      end r
  end.

Lemma areas_app t1 t2 : areas (t1 ++ t2) = areas t1 ++ areas t2.
Proof. apply flat_map_app. Qed.
Lemma freed_areas_app t1 t2 : freed_areas (t1 ++ t2) = freed_areas t1 ++ freed_areas t2.
Proof. apply flat_map_app. Qed.

(** What the body leaves for the code at [done]. *)
Definition body_done (t : list nevent) (r : bool * DbProgress) (s : Ndds) : Prop :=
  freed_areas t = [] /\ (length (areas t) <= 3)%nat
  /\ ea_db (db s) = hd_error (areas t)
  /\ (initd_worker (snd r) = None -> db_handle (db s) = None)
  /\ (fst r = false -> initd_table_sessions (snd r) = false)
  /\ (fst r = true ->
      exists e1 e2 e3, areas t = [e1; e2; e3]
        /\ ea_table_resources (db s) = Some e2
        /\ ea_table_sessions (db s) = Some e3 /\ is_Some (db_handle (db s))
        /\ is_Some (cursor_p_worker_resources (db s))
        /\ is_Some (cursor_p_worker_sessions (db s))).

Lemma initialize_body_spec agent s :
  db s = NDDSA_AGENTDB_INITIALIZER ->
  spec (fun _ => True) (initialize_body agent) s body_done.
Proof.
  intros Hdb. unfold body_done, initialize_body, initialize_tables,
    NDDSA_AgentDb_create_table, NDDSA_AgentDb_get_worker, upd_db.
  repeat nstep.
  all: repeat match goal with
              | H : negb (bool_decide (is_Some ?r)) = _ |- _ =>
                  destruct r; cbn in H; try discriminate H; clear H
              end.
  all: unfold areas, freed_areas; cbn; rewrite ?Hdb; cbn; split_and!; try done; try lia.
  intros _. repeat match goal with
                   | H : bool_decide (is_Some _) = true |- _ => apply bool_decide_eq_true in H
                   end. by exists z6, z4, z3.
Qed.

(** Deleting a table without records creates and destroys no area. *)
Lemma delete_table_areas t s :
  spec empty_tables (NDDSA_AgentDb_delete_table t) s
    (fun tr r s' => areas tr = [] /\ freed_areas tr = []
       /\ db_handle (db s') = db_handle (db s) /\ ea_db (db s') = ea_db (db s)).
Proof.
  unfold NDDSA_AgentDb_delete_table, NDDSA_AgentDb_get_worker, remove_table, upd_db.
  repeat first [ nstep
    | match goal with
      | H : empty_tables (existT (CursorRemoveTable _) ?r) |- spec _ (each _ (snd ?r)) _ _ =>
          cbn in H; rewrite H; apply spec_ret
      end ]; cbn; done.
Qed.

Lemma initialize_undo_areas p s :
  initd_table_sessions p = false -> (initd_worker p = None -> db_handle (db s) = None) ->
  spec empty_tables (initialize_undo p) s
    (fun t _ s' => areas t = [] /\ db_handle (db s') = None /\ ea_db (db s') = None
       /\ freed_areas t = match ea_db (db s) with Some ea => [Some ea] | None => [] end).
Proof.
  intros Hp Hw. unfold initialize_undo. rewrite Hp. apply spec_bind, spec_ret.
  apply spec_bind.
  assert (Hu : spec empty_tables (undo_table TableResources (initd_table_resources p)) s
    (fun tr r s' => areas tr = [] /\ freed_areas tr = []
       /\ db_handle (db s') = db_handle (db s) /\ ea_db (db s') = ea_db (db s))).
  { unfold undo_table. destruct (initd_table_resources p); [| by apply spec_ret].
    apply spec_bind, spec_gets. destruct (bool_decide _); [| by apply spec_ret].
    apply spec_bind. eapply spec_mono; [apply delete_table_areas |].
    intros tr r s' (H1 & H2 & H3 & H4). apply spec_ret.
    by rewrite !areas_app, !freed_areas_app, H1, H2. }
  eapply spec_mono; [exact Hu |]. intros t [] s1 (H1 & H2 & H3 & H4). unfold upd_db.
  rewrite <- H4. rewrite <- H3 in Hw.
  repeat nstep.
  all: repeat match goal with
       | H : bool_decide (is_Some ?r) = _ |- _ => destruct r eqn:?; cbn in H; try discriminate H
       end.
  all: rewrite ?areas_app, ?freed_areas_app, ?H1, ?H2; cbn; done.
Qed.

(** the database is initialized completely, with three exclusive areas that it
    keeps, or not at all: then it has no database and no area of its own, but the areas
    of the tables created before the failure, up to two of three, are never
    destroyed. *)
Theorem agentdb_initialize_leaks agent s :
  db s = NDDSA_AGENTDB_INITIALIZER ->
  spec empty_tables (NDDSA_AgentDb_initialize agent) s
    (fun t r s' =>
      if r then
        exists e1 e2 e3, areas t = [e1; e2; e3] /\ freed_areas t = []
          /\ ea_db (db s') = Some e1 /\ ea_table_resources (db s') = Some e2
          /\ ea_table_sessions (db s') = Some e3 /\ is_Some (db_handle (db s'))
          /\ is_Some (cursor_p_worker_resources (db s'))
          /\ is_Some (cursor_p_worker_sessions (db s'))
      else
        db_handle (db s') = None /\ ea_db (db s') = None
        /\ freed_areas t = map Some (firstn 1 (areas t)) /\ (length (areas t) <= 3)%nat).
Proof.
  intros Hdb. apply spec_bind.
  eapply spec_strengthen; [| eapply spec_mono; [by apply initialize_body_spec |]]; [done |].
  intros t [ok p] s1 (Hf & Hn & Hea & Hw & Hp & Hok); cbn [fst snd] in *.
  apply spec_bind. destruct ok.
  - destruct (Hok eq_refl) as (e1 & e2 & e3 & Ha & H2). repeat nstep.
    rewrite !areas_app, !freed_areas_app, Ha, Hf. cbn. exists e1, e2, e3.
    rewrite Hea, Ha. split_and!; try done; apply H2.
  - eapply spec_mono; [by apply initialize_undo_areas; [apply Hp |] |].
    intros t' [] s2 (H1 & H2 & H3 & H4). repeat nstep.
    rewrite !areas_app, !freed_areas_app, H1, Hf, H4, Hea. cbn. rewrite !app_nil_r.
    split_and!; try done. by destruct (areas t).
Qed.
End life.

Definition fresh_ndds : Ndds := set_db NDDSA_AGENTDB_INITIALIZER sample_ndds.

Lemma agentdb_initialize_leaks_witness :
  spec empty_tables (NDDSA_AgentDb_initialize 1%Z) fresh_ndds
    (fun t r s' => r = false -> db_handle (db s') = None /\ ea_db (db s') = None).
Proof.
  eapply spec_mono; [apply (agentdb_initialize_leaks 1%Z fresh_ndds); reflexivity |].
  cbn. intros t r s' H ->. split; apply H.
Defined.
