(* ===== verification/DbClients.v ===== *)
(** * Typed clients of the database

    The functions of [NddsAgentDb.c] share one cursor per table with their callers,
    who call them in an order the code leaves implicit: a record that is found is
    released or deleted, a table that is locked is unlocked, a cursor is started
    once.  [cursor_type] makes the order explicit: each function needs a type of its
    cursor and its answer tells the type it leaves ([op_post]).  A client that
    keeps to the types ([well_typed]) never misuses a cursor. *)

From Stdlib Require Import ZArith Lia.
From stdpp Require Import base tactics list gmap.
From S2P Require Import Prelude.
From S2P Require Import CString.
From S2P Require Import Infrastructure.
From S2P Require Import Interaction.
From S2P Require Import Protocol.
From S2P Require Import ServiceData.
From S2P Require Import NddsData.
From S2P Require Import AgentDb.

Local Open Scope nano_scope.

(** [Idle]: not started.  [Open], [Locked]: started, the table locked or not.
    [Held], [LockedHeld]: with the area of a record.  [Broken]: the table may
    have a record that was never initialized. *)
Inductive cursor_type := Idle | Open | Held | Locked | LockedHeld | Broken.

#[export] Instance cursor_type_eq_dec : EqDecision cursor_type.
Proof. solve_decision. Defined.

Definition has_type (c : Cursor) (ty : cursor_type) : Prop :=
  match ty with
  | Idle => c = closed
  | Open => started c = true /\ locked c = false /\ area c = false
  | Held => started c = true /\ locked c = false /\ area c = true /\ is_Some (at_row c)
  | Locked => started c = true /\ locked c = true /\ area c = false
  | LockedHeld => started c = true /\ locked c = true /\ area c = true /\ is_Some (at_row c)
  | Broken => True
  end.

(** The types with and without the area of a record. *)
Definition hold (ty : cursor_type) : cursor_type :=
  match ty with Open => Held | Locked => LockedHeld | _ => ty end.
Definition release (ty : cursor_type) : cursor_type :=
  match ty with Held => Open | LockedHeld => Locked | _ => ty end.

Section ops.
Context {N : NddsApi} (refuses : DbTable -> bool).

(** The operations of the database, with the fuel and the filter of searches. *)
Inductive DbOp :=
  | LookupSession (k : D2S2_ClientSessionKey)
  | InsertSession (k : D2S2_ClientSessionKey)
  | ReleaseSession
  | DeleteSession
  | LockSessions (start_cursor goto_top : bool)
  | UnlockSessions (finish_cursor : bool)
  | LookupSessionEA (k : D2S2_ClientSessionKey)
  | ReleaseSessionEA
  | DeleteSessionEA (k : D2S2_ClientSessionKey)
  | IterateSessions
  | FinishIterateSessions
  | FindNextSession (fuel : nat) (filter : option (Z -> ndds bool)) (prev : option Z)
  | FindNextSessionDelete (fuel : nat) (filter : option (Z -> ndds bool)) (prev : option Z)
  | LookupResource (id : D2S2_ResourceId)
  | ReleaseResource
  | LockResources (start_cursor goto_top : bool)
  | UnlockResources (finish_cursor : bool)
  | LookupResourceEA (id : D2S2_ResourceId)
  | ReleaseResourceEA
  | InsertResourceEA (id : D2S2_ResourceId)
  | DeleteResourceEA (id : D2S2_ResourceId)
  | IterateResourcesEA
  | FinishIterateResourcesEA
  | FindNextResourceEA (fuel : nat) (filter : option (Z -> ndds (bool * bool))).

Definition op_table (op : DbOp) : DbTable :=
  match op with
  | LookupResource _ | ReleaseResource | LockResources _ _ | UnlockResources _
  | LookupResourceEA _ | ReleaseResourceEA | InsertResourceEA _ | DeleteResourceEA _
  | IterateResourcesEA | FinishIterateResourcesEA | FindNextResourceEA _ _ => TableResources
  | _ => TableSessions
  end.

(** What the caller learns: the return code and the record, if any. *)
Inductive DbResult := RFailed | RDone | RMissing | RFound (p : Z).

Definition of_bool (b : bool) : DbResult := if b then RDone else RFailed.
Definition of_record (o : option Z) : DbResult :=
  match o with Some p => RFound p | None => RMissing end.
Definition of_written (o : option (option Z)) : DbResult :=
  match o with Some r => of_record r | None => RFailed end.
Definition of_returned (r : bool * option Z) : DbResult :=
  if fst r then of_record (snd r) else RFailed.

Definition run_op (op : DbOp) : ndds DbResult :=
  match op with
  | LookupSession k => let* r := NDDSA_AgentDb_lookup_session k in ret (of_written r)
  | InsertSession k => let* r := NDDSA_AgentDb_insert_session k in ret (of_written (fst r))
  | ReleaseSession => let* b := NDDSA_AgentDb_release_session in ret (of_bool b)
  | DeleteSession => let* b := NDDSA_AgentDb_delete_session in ret (of_bool b)
  | LockSessions start top => let* b := NDDSA_AgentDb_lock_sessions start top in ret (of_bool b)
  | UnlockSessions finish => let* b := NDDSA_AgentDb_unlock_sessions finish in ret (of_bool b)
  | LookupSessionEA k => let* r := NDDSA_AgentDb_lookup_sessionEA k in ret (of_returned r)
  | ReleaseSessionEA => let* b := NDDSA_AgentDb_release_sessionEA in ret (of_bool b)
  | DeleteSessionEA k => let* b := NDDSA_AgentDb_delete_sessionEA k in ret (of_bool b)
  | IterateSessions => let* b := NDDSA_AgentDb_iterate_sessions in ret (of_bool b)
  | FinishIterateSessions => let* b := NDDSA_AgentDb_finish_iterate_sessions in ret (of_bool b)
  | FindNextSession fuel f prev =>
      let* r := NDDSA_AgentDb_find_next_session fuel f prev in ret (of_written r)
  | FindNextSessionDelete fuel f prev =>
      let* r := NDDSA_AgentDb_find_next_session_and_delete_previous fuel f prev in
      ret (of_returned r)
  | LookupResource id =>
      let* r := NDDSA_AgentDb_lookup_resource id in
      ret (if fst r then of_record (default None (snd r)) else RFailed)
  | ReleaseResource => let* b := NDDSA_AgentDb_release_resource in ret (of_bool b)
  | LockResources start top => let* b := NDDSA_AgentDb_lock_resources start top in ret (of_bool b)
  | UnlockResources finish => let* b := NDDSA_AgentDb_unlock_resources finish in ret (of_bool b)
  | LookupResourceEA id => let* r := NDDSA_AgentDb_lookup_resourceEA id in ret (of_returned r)
  | ReleaseResourceEA => let* b := NDDSA_AgentDb_release_resourceEA in ret (of_bool b)
  | InsertResourceEA id =>
      let* r := NDDSA_AgentDb_insert_resourceEA id in
      ret (match fst r with Some p => RFound p | None => RFailed end)
  | DeleteResourceEA id => let* b := NDDSA_AgentDb_delete_resourceEA id in ret (of_bool b)
  | IterateResourcesEA => let* b := NDDSA_AgentDb_iterate_resourcesEA in ret (of_bool b)
  | FinishIterateResourcesEA =>
      let* b := NDDSA_AgentDb_finish_iterate_resourcesEA in ret (of_bool b)
  | FindNextResourceEA fuel f =>
      let* r := NDDSA_AgentDb_find_next_resourceEA fuel f in ret (of_returned r)
  end.

(** The types an operation may be called with.  A session is inserted only where the table of
    sessions does not refuse a record: the code goes on as if it had it. *)
Definition op_pre (op : DbOp) (ty : cursor_type) : bool :=
  match op, ty with
  | InsertSession _, Idle => negb (refuses TableSessions)
  | (LookupSession _ | IterateSessions | LookupResource _), Idle => true
  | (ReleaseSession | ReleaseResource | DeleteSession), Held => true
  | (LockSessions true _ | LockResources true _), Idle => true
  | (LockSessions false _ | LockResources false _), Open => true
  | (UnlockSessions true | UnlockResources true), Locked => true
  | (UnlockSessions false | UnlockResources false), (Locked | LockedHeld) => true
  | (LookupSessionEA _ | LookupResourceEA _ | IterateResourcesEA | FindNextResourceEA _ _),
    (Open | Locked) => true
  | (ReleaseSessionEA | ReleaseResourceEA), (Held | LockedHeld) => true
  | (DeleteSessionEA _ | DeleteResourceEA _ | InsertResourceEA _), Locked => true
  | (FinishIterateSessions | FinishIterateResourcesEA), Open => true
  | FindNextSession _ _ None, (Open | Locked) => true
  | FindNextSession _ _ (Some _), (Held | LockedHeld) => true
  | FindNextSessionDelete _ _ None, Locked => true
  | FindNextSessionDelete _ _ (Some _), LockedHeld => true
  | _, _ => false
  end.

(** The types an operation called with [ty] may leave, by its answer. *)
Definition op_post (op : DbOp) (ty : cursor_type) (r : DbResult) : list cursor_type :=
  match op with
  | LookupSession _ =>
      match r with RFailed => [Idle] | RMissing => [Open] | RFound _ => [Held] | RDone => [] end
  | InsertSession _ =>
      match r with RFailed => [Broken] | RFound _ => [Held] | _ => [] end
  | LookupResource _ =>
      match r with
      | RFailed => [Idle] | RMissing => [Open; Idle] | RFound _ => [Held] | RDone => []
      end
  | ReleaseSession | ReleaseResource =>
      match r with RDone => [Idle] | RFailed => [Held] | _ => [] end
  | DeleteSession => match r with RDone => [Idle] | RFailed => [Held; Idle] | _ => [] end
  | LockSessions true _ | LockResources true _ =>
      match r with RDone => [Locked] | RFailed => [Idle] | _ => [] end
  | LockSessions false _ | LockResources false _ =>
      match r with RDone => [Locked] | RFailed => [Open; Idle] | _ => [] end
  | UnlockSessions finish | UnlockResources finish =>
      match r with
      | RDone => [if finish then Idle
                  else match ty with LockedHeld => Held | _ => Open end]
      | RFailed => [ty]
      | _ => []
      end
  | LookupSessionEA _ | LookupResourceEA _ =>
      match r with RFailed | RMissing => [ty] | RFound _ => [hold ty] | RDone => [] end
  | ReleaseSessionEA | ReleaseResourceEA =>
      match r with RDone => [release ty] | RFailed => [ty] | _ => [] end
  | InsertResourceEA _ => match r with RFound _ => [LockedHeld] | RFailed => [Locked] | _ => [] end
  | DeleteSessionEA _ | DeleteResourceEA _ =>
      match r with RDone | RFailed => [Locked] | _ => [] end
  | IterateSessions => match r with RDone => [Open] | RFailed => [Idle] | _ => [] end
  | IterateResourcesEA => match r with RDone | RFailed => [ty] | _ => [] end
  | FinishIterateSessions | FinishIterateResourcesEA =>
      match r with RDone => [Idle] | RFailed => [Open] | _ => [] end
  | FindNextSession _ _ _ | FindNextSessionDelete _ _ _ =>
      match r with
      | RFound _ => [hold (release ty)]
      | RMissing => [release ty]
      | RFailed => [ty; release ty]
      | RDone => []
      end
  | FindNextResourceEA _ _ =>
      match r with RFound _ => [hold ty] | RMissing | RFailed => [ty] | RDone => [] end
  end.
End ops.

Section soundness.
Context {C : ConnextCore} {N : NddsApi} (handle cursor_at : DbTable -> Z).
Context (refuses : DbTable -> bool).

Abbreviation db_triple := (triple (cursor_allowed handle cursor_at)
                                  (cursor_answers handle cursor_at refuses)).

(** The records of the rows, of those a search has ahead and of the row the cursor is
    at are in memory. *)
Definition live (t : DbTable) (l : list Row) (c : Cursor) (s : Ndds) : Prop :=
  forall row, In row l \/ In row (ahead c) \/ at_row c = Some row -> has_record t (snd row) s.

(** A table of at most [n] rows with a cursor of type [ty]. *)
Definition table_ok (n : nat) (t : DbTable) (l : list Row) (c : Cursor) (ty : cursor_type)
    (s : Ndds) : Prop :=
  has_type c ty /\ (ty <> Broken -> live t l c s /\ (length l <= n)%nat /\ (length (ahead c) <= n)%nat).

(** Records stay in memory and the handles of the database stay. *)
Definition keeps (s s' : Ndds) : Prop :=
  db s' = db s /\ forall t p, has_record t p s -> has_record t p s'.

Lemma keeps_refl s : keeps s s.
Proof. done. Qed.

Lemma keeps_session p r s : keeps s (put_session p r s).
Proof.
  split; [done |]. intros [] q [x Hx]; cbn; [by exists x |].
  destruct (decide (p = q)) as [->|]; [by rewrite lookup_insert_eq |].
  rewrite lookup_insert_ne by done. by exists x.
Qed.

Lemma keeps_resource p r s : keeps s (put_resource p r s).
Proof.
  split; [done |]. intros [] q [x Hx]; cbn; [| by exists x].
  destruct (decide (p = q)) as [->|]; [by rewrite lookup_insert_eq |].
  rewrite lookup_insert_ne by done. by exists x.
Qed.

Lemma live_stored t l c s : live t l c s -> stored_rows t l s.
Proof. intros Hl p Hp. apply in_map_iff in Hp as (row & <- & Hrow). apply Hl. auto. Qed.

(** Where the functions leave the cursor. *)
Lemma live_closed t l c s : live t l c s -> live t l closed s.
Proof. intros Hl row [H|[[]|[=]]]. apply Hl. auto. Qed.

Lemma live_set_locked b t l c s : live t l c s -> live t l (set_locked b c) s.
Proof. done. Qed.

Lemma live_set_area b t l c s : live t l c s -> live t l (set_area b c) s.
Proof. done. Qed.

Lemma live_no_row t l c rest s : live t l c s -> incl rest l \/ incl rest (ahead c) ->
  live t l (set_row None rest c) s.
Proof. intros Hl Hr row [H|[H|[=]]]; apply Hl; destruct Hr; auto. Qed.

Lemma live_row t l c row rest s :
  live t l c s -> In row l \/ In row (ahead c) -> incl rest (ahead c) ->
  live t l (set_row (Some row) rest c) s.
Proof. intros Hl Hr Hi r [H|[H|[= ->]]]; apply Hl; intuition. Qed.

Lemma live_goto k t l c s : live t l c s -> live t l (set_row (row_of k l) [] c) s.
Proof.
  intros Hl. destruct (row_of k l) as [row|] eqn:Hr.
  - apply live_row; [done | | by intros x []]. left. by apply row_of_in in Hr as [Hr _].
  - apply live_no_row; [done | left; by intros x []].
Qed.

Lemma live_drop p t l c s : live t l c s -> live t (drop_row p l) c s.
Proof.
  intros Hl row [H|H]; apply Hl; auto. unfold drop_row in H. apply List.filter_In in H as [H _]. auto.
Qed.

Lemma length_drop_row p l : (length (drop_row p l) <= length l)%nat.
Proof. apply List.filter_length_le. Qed.

(** [m] from the table [l], [c] leaves a cursor of one of the types [post] gives for
    its answer. *)
Definition typed (n : nat) (t : DbTable) (l : list Row) (c : Cursor) (h : Tables) (s : Ndds)
    (m : ndds DbResult) (post : DbResult -> list cursor_type) : Prop :=
  db_triple (st t l c h) m s (fun h' r s' =>
    exists ty l' c', In ty (post r) /\ h' = st t l' c' h /\ table_ok (S n) t l' c' ty s'
      /\ keeps s s').

(** The end of a typed run, with the memory as it was. *)
Lemma typed_end n t l c h s ty (r : DbResult) (post : DbResult -> list cursor_type) :
  In ty (post r) -> has_type c ty -> live t l c s -> (length l <= S n)%nat ->
  (length (ahead c) <= S n)%nat ->
  exists ty l' c', In ty (post r) /\ st t l c h = st t l' c' h /\ table_ok (S n) t l' c' ty s
    /\ keeps s s.
Proof. intros. exists ty, l, c. split_and!; try done. Qed.
Lemma live_opened t l c s : live t l c s -> live t l opened s.
Proof. apply live_closed. Qed.

Lemma live_holding t l c row s : live t l c s -> In row l -> live t l (holding row) s.
Proof. intros Hl Hr r [H|[[]|[= ->]]]; apply Hl; auto. Qed.

Lemma incl_none (l : list Row) : incl [] l.
Proof. by intros x []. Qed.

Lemma tail_length_le (row : Row) rest l n : l = row :: rest -> (length l <= n)%nat -> (length rest <= n)%nat.
Proof. intros ->. cbn. lia. Qed.

Create HintDb live.
Hint Resolve live_closed live_opened live_holding live_set_locked live_set_area live_no_row live_row
  live_goto live_drop incl_none incl_refl : live.
Hint Extern 1 (_ \/ _) => (left; solve [auto with live]) || (right; solve [auto with live]) : live.
Hint Extern 1 (_ <= _)%nat => cbn in *; lia : live.
Hint Extern 1 (In _ _) =>
  match goal with H : row_of _ _ = Some _ |- _ => exact (proj1 (row_of_in _ _ _ H)) end : live.

(** Ends a typed run: picks the type among those of the answer. *)
Ltac type_is tac :=
  eapply typed_end; [ tac | solve [cbn in *; intuition (eauto; try congruence)] | ..];
  solve [eauto 8 with live].
Ltac types :=
  first [ type_is ltac:(left; reflexivity) | type_is ltac:(right; left; reflexivity) ].

Lemma typed_lookup_record n t k l h s post :
  ready handle s -> live t l closed s -> (length l <= n)%nat ->
  In Idle (post RFailed) -> In Open (post RMissing) -> (forall p, In Held (post (RFound p))) ->
  typed n t l closed h s
    (let* r := NDDSA_AgentDb_lookup_record (Some (handle t)) k in ret (of_written r)) post.
Proof.
  intros Hs Hl Hn HF HM HP. apply triple_bind.
  eapply triple_mono; [by apply db_lookup_record |].
  intros h' r s' [-> Hr]. apply triple_ret. destruct r as [[p|] |]; cbn.
  - destruct Hr as (row & Hrow & -> & ->). type_is ltac:(apply HP).
  - destruct Hr as [_ ->]. type_is ltac:(apply HM).
  - subst. type_is ltac:(apply HF).
Qed.
(** A cursor that is started, by what it holds. *)
Lemma typed_release_record n t l c h s post :
  ready handle s -> has_type c Held -> live t l c s -> (length l <= n)%nat ->
  (length (ahead c) <= n)%nat -> In Idle (post RDone) -> In Held (post RFailed) ->
  typed n t l c h s (let* b := NDDSA_AgentDb_release_record t in ret (of_bool b)) post.
Proof.
  intros Hs (H1 & H2 & H3 & H4) Hl Hn Ha HD HF. apply triple_bind.
  eapply triple_mono; [by apply db_release_record |].
  intros h' r s' [-> ->]. apply triple_ret.
  destruct r; [type_is ltac:(exact HD) | type_is ltac:(exact HF)].
Qed.

Lemma typed_lookup_at n t k l c ty h s post :
  ready handle s -> ty = Open \/ ty = Locked -> has_type c ty -> live t l c s ->
  (length l <= n)%nat -> (length (ahead c) <= n)%nat ->
  In ty (post RFailed) -> In ty (post RMissing) -> (forall p, In (hold ty) (post (RFound p))) ->
  typed n t l c h s (let* r := lookup_at t k in ret (of_returned r)) post.
Proof.
  intros Hs Hty Hc Hl Hn Ha HF HM HP. apply triple_bind.
  eapply triple_mono; [apply db_lookup_at; [done | |]; destruct Hty; subst; apply Hc |].
  intros h' [b o] s' [-> Hr]. apply triple_ret. unfold of_returned; cbn.
  destruct b; [destruct o as [p|]; cbn |].
  - destruct Hr as (row & Hrow & -> & ->).
    destruct Hty; subst; cbn in HP; type_is ltac:(apply HP).
  - destruct Hr as [_ ->]. destruct Hty; subst; type_is ltac:(exact HM).
  - destruct Hr as [_ [-> | ->]]; destruct Hty; subst; type_is ltac:(exact HF).
Qed.

Lemma typed_release_at n t l c ty h s post :
  ready handle s -> ty = Held \/ ty = LockedHeld -> has_type c ty -> live t l c s ->
  (length l <= n)%nat -> (length (ahead c) <= n)%nat ->
  In ty (post RFailed) -> In (release ty) (post RDone) ->
  typed n t l c h s (let* b := release_at t in ret (of_bool b)) post.
Proof.
  intros Hs Hty Hc Hl Hn Ha HF HD. apply triple_bind.
  eapply triple_mono; [apply db_release_at; [done |]; destruct Hty; subst; apply Hc |].
  intros h' r s' [-> ->]. apply triple_ret.
  destruct r; destruct Hty; subst; first [type_is ltac:(exact HD) | type_is ltac:(exact HF)].
Qed.

Lemma typed_delete_at n t k l c h s post :
  ready handle s -> has_type c Locked -> live t l c s ->
  (length l <= n)%nat -> (length (ahead c) <= n)%nat ->
  In Locked (post RFailed) -> In Locked (post RDone) ->
  typed n t l c h s (let* b := delete_at t k in ret (of_bool b)) post.
Proof.
  intros Hs (H1 & H2 & H3) Hl Hn Ha HF HD. apply triple_bind.
  eapply triple_mono; [apply db_delete_at; try done; by eapply live_stored |].
  intros h' r s' [-> Hr]. apply triple_ret. destruct r.
  - destruct Hr as (row & Hrow & ->). pose proof (length_drop_row (snd row) l).
    type_is ltac:(exact HD).
  - destruct Hr as [-> | ->]; type_is ltac:(exact HF).
Qed.

Lemma typed_lock n t (start top : bool) l c h s post :
  ready handle s -> has_type c (if start then Idle else Open) -> live t l c s ->
  (length l <= n)%nat -> (length (ahead c) <= n)%nat ->
  In Locked (post RDone) -> In Idle (post RFailed) -> (start = false -> In Open (post RFailed)) ->
  typed n t l c h s (let* b := lock_table t start top in ret (of_bool b)) post.
Proof.
  intros Hs Hc Hl Hn Ha HD HI HO. apply triple_bind. destruct start.
  - cbn in Hc. subst. eapply triple_mono; [by apply db_lock_table_start |].
    intros h' r s' [-> Hr]. apply triple_ret.
    destruct r; subst; [| type_is ltac:(exact HI)]. destruct top; type_is ltac:(exact HD).
  - destruct Hc as (H1 & H2 & H3). eapply triple_mono; [by apply db_lock_table_again |].
    intros h' r s' [-> Hr]. apply triple_ret. destruct r; subst.
    + destruct top; type_is ltac:(exact HD).
    + destruct Hr as [-> | ->]; [type_is ltac:(by apply HO) | type_is ltac:(exact HI)].
Qed.

Lemma typed_unlock n t (finish : bool) l c ty h s post :
  ready handle s -> ty = Locked \/ (ty = LockedHeld /\ finish = false) -> has_type c ty ->
  live t l c s -> (length l <= n)%nat -> (length (ahead c) <= n)%nat ->
  In ty (post RFailed) ->
  In (if finish then Idle else match ty with LockedHeld => Held | _ => Open end) (post RDone) ->
  typed n t l c h s (let* b := unlock_table t finish in ret (of_bool b)) post.
Proof.
  intros Hs Hty Hc Hl Hn Ha HF HD. apply triple_bind.
  eapply triple_mono.
  { apply db_unlock_table; [done | | |]; destruct Hty as [-> | [-> ->]];
      first [apply Hc | done | intros _; apply Hc]. }
  intros h' r s' [-> Hr]. apply triple_ret.
  destruct r; subst; destruct Hty as [-> | [-> ->]];
    try destruct finish; first [type_is ltac:(exact HF) | type_is ltac:(exact HD)].
Qed.

Lemma typed_finish_iterate n t l c h s post :
  ready handle s -> has_type c Open -> live t l c s -> (length l <= n)%nat ->
  (length (ahead c) <= n)%nat -> In Idle (post RDone) -> In Open (post RFailed) ->
  typed n t l c h s (let* b := finish_iterate t in ret (of_bool b)) post.
Proof.
  intros Hs (H1 & H2 & H3) Hl Hn Ha HD HF. apply triple_bind.
  eapply triple_mono; [by apply db_finish_iterate |].
  intros h' r s' [-> ->]. apply triple_ret.
  destruct r; [type_is ltac:(exact HD) | type_is ltac:(exact HF)].
Qed.
(** A new row whose record was just put in memory. *)
Lemma live_new k p t l l' c s s' :
  live t l c s -> Permutation l' ((k, p) :: l) -> keeps s s' -> has_record t p s' ->
  live t l' (holding (k, p)) s'.
Proof.
  intros Hl Hp [_ Hk] Hr row [H|[[]|[= <-]]]; [| done].
  apply (Permutation_in _ Hp) in H as [<-|H]; [done |]. apply Hk, Hl. auto.
Qed.

Lemma has_session_put p r s : has_record TableSessions p (put_session p r s).
Proof. cbn. rewrite lookup_insert_eq. by eexists. Qed.

Lemma has_resource_put p r s : has_record TableResources p (put_resource p r s).
Proof. cbn. rewrite lookup_insert_eq. by eexists. Qed.

Lemma typed_insert_session n k l h s post :
  ready handle s -> refuses TableSessions = false -> live TableSessions l closed s -> (length l <= n)%nat ->
  In Broken (post RFailed) -> (forall p, In Held (post (RFound p))) ->
  typed n TableSessions l closed h s
    (let* r := NDDSA_AgentDb_insert_session k in ret (of_written (fst r))) post.
Proof.
  intros Hs Hrf Hl Hn HF HP. apply triple_bind.
  eapply triple_mono; [by apply db_insert_session |].
  intros h' [r new] s' Hr. apply triple_ret. destruct r as [[p|] |]; cbn in *; [| done |].
  - destruct new.
    + destruct Hr as (ea & l' & -> & Hrow & Hp & Hl' & ->).
      exists Held, l', (holding (SessionKey k, p)). split_and!; [apply HP | done | | apply keeps_session].
      split; [cbn; eauto |]. intros _. split_and!.
      * eapply live_new; [exact Hl | exact Hl' | apply keeps_session | apply has_session_put].
      * rewrite Hl'. cbn. lia.
      * cbn. lia.
    + destruct Hr as (-> & row & Hrow & -> & ->). type_is ltac:(apply HP).
  - destruct Hr as (-> & [-> | (p & l' & _ & _ & _ & ->)]);
      [exists Broken, l, closed | exists Broken, l', closed]; by split_and!.
Qed.

Lemma typed_delete_session n l c h s post :
  ready handle s -> has_type c Held -> live TableSessions l c s -> (length l <= n)%nat ->
  (length (ahead c) <= n)%nat ->
  In Idle (post RDone) -> In Held (post RFailed) -> In Idle (post RFailed) ->
  typed n TableSessions l c h s (let* b := NDDSA_AgentDb_delete_session in ret (of_bool b)) post.
Proof.
  intros Hs (H1 & H2 & H3 & [row Hrow]) Hl Hn Ha HD HF HI. apply triple_bind.
  eapply triple_mono; [apply (db_delete_session _ _ _ _ _ row); auto |].
  intros h' r s' [-> Hr]. apply triple_ret. pose proof (length_drop_row (snd row) l). destruct r.
  - subst. type_is ltac:(exact HD).
  - destruct Hr as [-> | ->]; [type_is ltac:(exact HF) | type_is ltac:(exact HI)].
Qed.

Lemma typed_insert_resource n id sid l c h s post :
  ready handle s -> NDDSA_StaticResourceId_from_id id = Some (true, sid) ->
  has_type c Locked -> live TableResources l c s -> (length l <= n)%nat ->
  (length (ahead c) <= n)%nat ->
  In Locked (post RFailed) -> (forall p, In LockedHeld (post (RFound p))) ->
  typed n TableResources l c h s
    (let* r := NDDSA_AgentDb_insert_resourceEA id in
     ret (match fst r with Some p => RFound p | None => RFailed end)) post.
Proof.
  intros Hs Hid (H1 & H2 & H3) Hl Hn Ha HF HP. apply triple_bind.
  eapply triple_mono; [by apply db_insert_resourceEA |].
  intros h' [[p|] b] s' Hr; apply triple_ret; cbn [fst]; [destruct b |].
  - destruct Hr as (-> & row & Hrow & -> & ->). type_is ltac:(apply HP).
  - destruct Hr as (ea & l' & -> & Hrow & Hp & Hl' & ->).
    exists LockedHeld, l', (set_area true (set_row (Some (ResourceKey sid, p)) [] c)).
    split_and!; [apply HP | done | | apply keeps_resource].
    split; [cbn; eauto |]. intros _. split_and!.
    + intros row Hr. apply (live_new (ResourceKey sid) p _ l l' c s); try done;
        [apply keeps_resource | apply has_resource_put].
    + rewrite Hl'. cbn. lia.
    + cbn. lia.
  - destruct Hr as (-> & [-> | ->]); type_is ltac:(exact HF).
Qed.

Lemma typed_iterate_sessions n l h s post :
  ready handle s -> live TableSessions l closed s -> (length l <= n)%nat ->
  In Open (post RDone) -> In Idle (post RFailed) ->
  typed n TableSessions l closed h s (let* b := NDDSA_AgentDb_iterate_sessions in ret (of_bool b)) post.
Proof.
  intros Hs Hl Hn HD HF. apply triple_bind.
  eapply triple_mono; [by apply db_iterate_sessions |].
  intros h' r s' [-> ->]. apply triple_ret.
  destruct r; [type_is ltac:(exact HD) | type_is ltac:(exact HF)].
Qed.

Lemma typed_iterate_resources n l c ty h s post :
  ready handle s -> ty = Open \/ ty = Locked -> has_type c ty -> live TableResources l c s ->
  (length l <= n)%nat -> (length (ahead c) <= n)%nat ->
  In ty (post RDone) -> In ty (post RFailed) ->
  typed n TableResources l c h s
    (let* b := NDDSA_AgentDb_iterate_resourcesEA in ret (of_bool b)) post.
Proof.
  intros Hs Hty Hc Hl Hn Ha HD HF. apply triple_bind.
  eapply triple_mono; [apply db_iterate_resourcesEA; [done | |]; destruct Hty; subst; apply Hc |].
  intros h' r s' [-> ->]. apply triple_ret.
  destruct r, Hty; subst; first [type_is ltac:(exact HF) | type_is ltac:(exact HD)].
Qed.
(** A filter that only reads records of the table, and decides by them. *)
Definition pure_filter (f : option (Z -> ndds bool)) : Prop :=
  match f with
  | None => True
  | Some f => forall s, exists keep, forall p h, has_record TableSessions p s ->
      db_triple h (f p) s (fun h' b s' => h' = h /\ s' = s /\ b = keep p)
  end.

Definition pure_resource_filter (f : option (Z -> ndds (bool * bool))) : Prop :=
  match f with
  | None => True
  | Some f => forall s, exists keep, forall p h, has_record TableResources p s ->
      db_triple h (f p) s (fun h' b s' => h' = h /\ s' = s
        /\ keep p = (if fst b then Some (snd b) else None))
  end.

Lemma pure_filters f l c s :
  pure_filter f -> live TableSessions l c s ->
  exists keep, filters handle cursor_at refuses (ahead c) s f keep.
Proof.
  intros Hf Hl. destruct f as [f|]; [| by exists (fun _ => true)].
  destruct (Hf s) as [keep Hk]. exists keep. intros p h Hp. apply Hk.
  apply in_map_iff in Hp as (row & <- & Hrow). apply Hl. auto.
Qed.

Lemma pure_resource_filters f l c s :
  pure_resource_filter f -> live TableResources l c s ->
  exists keep, resource_filters handle cursor_at refuses (ahead c) s f keep.
Proof.
  intros Hf Hl. destruct f as [f|]; [| by exists (fun _ => Some true)].
  destruct (Hf s) as [keep Hk]. exists keep. intros p h Hp. apply Hk.
  apply in_map_iff in Hp as (row & <- & Hrow). apply Hl. auto.
Qed.

Lemma first_kept_shorter keep l row rest :
  first_kept keep l = Some (row, rest) -> (length rest <= length l)%nat.
Proof.
  induction l as [|r l IH]; cbn; [done |]. destruct (keep _); [intros [= <- <-]; lia |].
  intros H. apply IH in H. lia.
Qed.

Lemma first_resource_shorter keep l row rest :
  first_resource keep l = Some (row, rest) -> (length rest <= length l)%nat.
Proof.
  induction l as [|r l IH]; cbn; [done |].
  destruct (keep _) as [[]|]; try (intros [= <- <-]; lia). intros H. apply IH in H. lia.
Qed.

(** What a search finds is in memory, and it goes on from there. *)
Lemma live_found keep l c h h' o s :
  live TableSessions l c s -> found_next TableSessions keep l (ahead c) c h h' o ->
  exists c', h' = st TableSessions l c' h /\ live TableSessions l c' s
    /\ started c' = started c /\ locked c' = locked c /\ (length (ahead c') <= length (ahead c))%nat
    /\ match o with
       | Some (Some p) => area c' = true /\ is_Some (at_row c')
       | _ => area c' = area c
       end.
Proof.
  intros Hl. destruct o as [[p|] |]; cbn.
  - intros (row & rest & Hk & -> & Hrow & Hrest & ->). apply first_kept_shorter in Hk.
    eexists. split_and!; try done; auto with live.
  - intros [_ ->]. eexists. split_and!; try done; auto with live.
  - intros (row & rest & Hrow & Hrest & Hlen & ->).
    eexists. split_and!; try done; auto with live.
Qed.

Lemma typed_find_next n fuel f prev l c ty h s post :
  ready handle s -> pure_filter f -> (n < fuel)%nat ->
  (match prev with None => ty = Open \/ ty = Locked | Some _ => ty = Held \/ ty = LockedHeld end) ->
  has_type c ty -> live TableSessions l c s -> (length l <= n)%nat -> (length (ahead c) <= n)%nat ->
  In ty (post RFailed) -> In (release ty) (post RFailed) -> In (release ty) (post RMissing) ->
  (forall p, In (hold (release ty)) (post (RFound p))) ->
  typed n TableSessions l c h s
    (let* r := NDDSA_AgentDb_find_next_session fuel f prev in ret (of_written r)) post.
Proof.
  intros Hs Hf Hfuel Hty Hc Hl Hn Ha HF HF' HM HP. apply triple_bind.
  destruct (pure_filters f l c s Hf Hl) as [keep Hk].
  eapply triple_mono.
  { apply (db_find_next_session _ _ _ keep f prev (ahead c)); try done; [| | apply incl_refl | lia];
      destruct prev, Hty; subst; apply Hc. }
  intros h' r s' [-> Hr]. apply triple_ret.
  destruct Hr as [[-> ->] | Hr]; [type_is ltac:(exact HF) |].
  apply (live_found keep l (set_area false c) _ _ _ s) in Hr; [| done].
  destruct Hr as (c' & -> & Hl' & H1 & H2 & H3 & H4).
  destruct r as [[p|] |]; destruct prev, Hty; subst; cbn in *;
    first [type_is ltac:(apply HP) | type_is ltac:(exact HM) | type_is ltac:(exact HF')].
Qed.

Lemma typed_find_delete n fuel f prev l c ty h s post :
  ready handle s -> pure_filter f -> (n < fuel)%nat ->
  ty = (match prev with None => Locked | Some _ => LockedHeld end) ->
  has_type c ty -> live TableSessions l c s -> (length l <= n)%nat -> (length (ahead c) <= n)%nat ->
  In ty (post RFailed) -> In Locked (post RFailed) -> In Locked (post RMissing) ->
  (forall p, In LockedHeld (post (RFound p))) ->
  typed n TableSessions l c h s
    (let* r := NDDSA_AgentDb_find_next_session_and_delete_previous fuel f prev in
     ret (of_returned r)) post.
Proof.
  intros Hs Hf Hfuel -> Hc Hl Hn Ha HF HF' HM HP. apply triple_bind.
  destruct (pure_filters f l c s Hf Hl) as [keep Hk].
  set (row0 := default (SessionKey D2S2_CLIENTSESSIONKEY_INITIALIZER, 0%Z) (at_row c)).
  assert (Hrow0 : is_Some prev -> at_row c = Some row0 /\ has_record TableSessions (snd row0) s).
  { intros [p ->]. destruct Hc as (_ & _ & _ & [row Hrow]). unfold row0. rewrite Hrow.
    split; [done |]. apply Hl. auto. }
  eapply triple_mono.
  { apply (db_find_next_and_delete _ _ _ keep f prev row0 (ahead c)); try done;
      [| | | apply incl_refl | lia]; destruct prev; apply Hc. }
  intros h' r s' [-> Hr]. apply triple_ret. pose proof (length_drop_row (snd row0) l).
  destruct Hr as [[-> [-> | ->]] | (o & -> & Hr)]; [type_is ltac:(exact HF) | |].
  - destruct prev; type_is ltac:(exact HF').
  - destruct prev as [q|].
    + apply (live_found keep _ (set_row None (ahead c) (set_area false c)) _ _ _ s) in Hr;
        [| by apply live_no_row; [apply live_drop | right; apply incl_refl]].
      destruct Hr as (c' & -> & Hl' & H1 & H2 & H3 & H4).
      destruct o as [[p|] |]; cbn in *;
        first [type_is ltac:(apply HP) | type_is ltac:(exact HM) | type_is ltac:(exact HF')].
    + apply (live_found keep l c _ _ _ s) in Hr; [| done].
      destruct Hr as (c' & -> & Hl' & H1 & H2 & H3 & H4).
      destruct o as [[p|] |]; cbn in *;
        first [type_is ltac:(apply HP) | type_is ltac:(exact HM) | type_is ltac:(exact HF')].
Qed.

Lemma typed_find_resource n fuel f l c ty h s post :
  ready handle s -> pure_resource_filter f -> (n < fuel)%nat -> ty = Open \/ ty = Locked ->
  has_type c ty -> live TableResources l c s -> (length l <= n)%nat -> (length (ahead c) <= n)%nat ->
  In ty (post RFailed) -> In ty (post RMissing) -> (forall p, In (hold ty) (post (RFound p))) ->
  typed n TableResources l c h s
    (let* r := NDDSA_AgentDb_find_next_resourceEA fuel f in ret (of_returned r)) post.
Proof.
  intros Hs Hf Hfuel Hty Hc Hl Hn Ha HF HM HP. apply triple_bind.
  destruct (pure_resource_filters f l c s Hf Hl) as [keep Hk].
  apply triple_bind, db_worker_cursor; [done | |].
  { apply triple_ret, triple_ret. destruct Hty; subst; type_is ltac:(exact HF). }
  eapply triple_mono.
  { apply (db_find_next_resource_loop _ _ _ keep f (ahead c)); try done; [| | apply incl_refl | lia];
      destruct Hty; subst; apply Hc. }
  intros h' [b o] s' [-> Hr]. apply triple_ret. unfold of_returned; cbn [fst snd].
  destruct b; [destruct o as [p|] |]; cbn in Hr.
  - destruct Hr as (row & rest & Hk' & -> & _ & Hrow & Hrest & ->).
    apply first_resource_shorter in Hk'.
    destruct Hty; subst; cbn in HP; type_is ltac:(apply HP).
  - destruct Hr as [_ ->]. destruct Hty; subst; type_is ltac:(exact HM).
  - destruct Hr as (_ & row & rest & Hrow & Hrest & Hlen & ->).
    destruct Hty; subst; type_is ltac:(exact HF).
Qed.
(** What an operation needs beside its type, when its table has at most [n] rows: the
    fuel and the filter of a search, and an identifier that can be read. *)
Definition op_ok (n : nat) (op : DbOp) : Prop :=
  match op with
  | FindNextSession fuel f _ | FindNextSessionDelete fuel f _ => pure_filter f /\ (n < fuel)%nat
  | FindNextResourceEA fuel f => pure_resource_filter f /\ (n < fuel)%nat
  | LookupResource id | LookupResourceEA id | InsertResourceEA id | DeleteResourceEA id =>
      is_Some (NDDSA_StaticResourceId_from_id id)
  | _ => True
  end.

(** An identifier that is too long is refused and nothing happens. *)
Lemma typed_refused n t l c ty h s id sid {A} (refused : A) f (g : A -> DbResult) post :
  NDDSA_StaticResourceId_from_id id = Some (false, sid) ->
  has_type c ty -> live t l c s -> (length l <= n)%nat -> (length (ahead c) <= n)%nat ->
  In ty (post (g refused)) ->
  typed n t l c h s (let* r := with_static_id id refused f in ret (g r)) post.
Proof.
  intros Hid Hc Hl Hn Ha Hp. apply triple_bind. eapply db_with_static_id; [exact Hid |].
  cbn. apply triple_ret. type_is ltac:(exact Hp).
Qed.

Lemma typed_accepted n t l c h s id sid {A} (refused : A) f (g : A -> DbResult) post :
  NDDSA_StaticResourceId_from_id id = Some (true, sid) ->
  typed n t l c h s (let* r := f sid in ret (g r)) post ->
  typed n t l c h s (let* r := with_static_id id refused f in ret (g r)) post.
Proof.
  intros Hid Hp. unfold typed, triple, bind in *. unfold with_static_id, bind, reads.
  rewrite Hid. exact Hp.
Qed.

Lemma typed_lookup_resource n id l h s :
  ready handle s -> is_Some (NDDSA_StaticResourceId_from_id id) ->
  live TableResources l closed s -> (length l <= n)%nat ->
  typed n TableResources l closed h s (run_op (LookupResource id)) (op_post (LookupResource id) Idle).
Proof.
  intros Hs [[ok sid] Hid] Hl Hn. cbn [run_op]. unfold NDDSA_AgentDb_lookup_resource.
  destruct ok; [eapply typed_accepted; [exact Hid |] | eapply (typed_refused _ _ _ _ Idle); try done; cbn; try lia; auto].
  apply triple_bind, triple_bind, triple_gets. rewrite (ready_resources _ _ Hs).
  apply triple_bind. eapply triple_mono; [by apply db_lookup_record |].
  intros h' r s' [-> Hr]. do 2 apply triple_ret. destruct r as [[p|] |]; cbn in Hr.
  - destruct Hr as (row & Hrow & -> & ->). types.
  - destruct Hr as [_ ->]. types.
  - subst. types.
Qed.

Lemma sessions_sound n op l c ty h s :
  ready handle s -> op_table op = TableSessions -> op_pre refuses op ty = true -> op_ok n op ->
  table_ok n TableSessions l c ty s ->
  typed n TableSessions l c h s (run_op op) (op_post op ty).
Proof.
  intros Hs Ht Hpre Hok [Hc Hrest].
  assert (Hne : ty <> Broken) by (intros ->; destruct op; try destruct prev; try destruct start_cursor;
    try destruct finish_cursor; discriminate).
  destruct (Hrest Hne) as (Hl & Hn & Ha). clear Hrest.
  destruct op; cbn [op_table] in Ht; try discriminate Ht; cbn [op_ok] in Hok; cbn [run_op].
  - destruct ty; try discriminate Hpre. cbn in Hc; subst.
    unfold NDDSA_AgentDb_lookup_session.
    apply triple_bind, triple_bind, triple_gets. rewrite (ready_sessions _ _ Hs).
    eapply triple_mono; [by apply db_lookup_record |].
    intros h' r s' [-> Hr]. apply triple_ret. destruct r as [[p|] |]; cbn in Hr.
    + destruct Hr as (row & Hrow & -> & ->). types.
    + destruct Hr as [_ ->]. types.
    + subst. types.
  - destruct ty; try discriminate Hpre. apply negb_true_iff in Hpre. cbn in Hc; subst.
    apply typed_insert_session; try done; cbn; auto.
  - destruct ty; try discriminate Hpre. apply typed_release_record; try done; cbn; auto.
  - destruct ty; try discriminate Hpre. apply typed_delete_session; try done; cbn; auto.
  - destruct start_cursor, ty; try discriminate Hpre; apply typed_lock; try done; cbn; auto; discriminate.
  - destruct finish_cursor, ty; try discriminate Hpre; eapply typed_unlock; try done; cbn; eauto.
  - destruct ty; try discriminate Hpre; eapply typed_lookup_at; try done; cbn; eauto.
  - destruct ty; try discriminate Hpre; eapply typed_release_at; try done; cbn; eauto.
  - destruct ty; try discriminate Hpre; eapply typed_delete_at; try done; cbn; eauto.
  - destruct ty; try discriminate Hpre. cbn in Hc; subst. apply typed_iterate_sessions; try done; cbn; auto.
  - destruct ty; try discriminate Hpre. eapply typed_finish_iterate; try done; cbn; auto.
  - destruct Hok as [Hf Hfuel]. destruct prev, ty; try discriminate Hpre;
      eapply typed_find_next; try done; cbn; eauto.
  - destruct Hok as [Hf Hfuel]. destruct prev, ty; try discriminate Hpre;
      eapply typed_find_delete; try done; cbn; eauto.
Qed.

Lemma resources_sound n op l c ty h s :
  ready handle s -> op_table op = TableResources -> op_pre refuses op ty = true -> op_ok n op ->
  table_ok n TableResources l c ty s ->
  typed n TableResources l c h s (run_op op) (op_post op ty).
Proof.
  intros Hs Ht Hpre Hok [Hc Hrest].
  assert (Hne : ty <> Broken) by (intros ->; destruct op; try destruct prev; try destruct start_cursor;
    try destruct finish_cursor; discriminate).
  destruct (Hrest Hne) as (Hl & Hn & Ha). clear Hrest.
  destruct op; cbn [op_table] in Ht; try discriminate Ht; cbn [op_ok] in Hok;
    try destruct Hok as [[[] sid] Hid]; try (cbn [run_op]).
  - destruct ty; try discriminate Hpre. cbn in Hc; subst. apply typed_lookup_resource; try done; cbn; eauto.
  - destruct ty; try discriminate Hpre. cbn in Hc; subst. apply typed_lookup_resource; try done; cbn; eauto.
  - destruct ty; try discriminate Hpre. apply typed_release_record; try done; cbn; auto.
  - destruct start_cursor, ty; try discriminate Hpre; apply typed_lock; try done; cbn; auto; discriminate.
  - destruct finish_cursor, ty; try discriminate Hpre; eapply typed_unlock; try done; cbn; eauto.
  - eapply typed_accepted; [exact Hid |].
    destruct ty; try discriminate Hpre; eapply typed_lookup_at; try done; cbn; eauto.
  - eapply typed_refused; try done. destruct ty; try discriminate Hpre; try done; cbn; auto.
  - destruct ty; try discriminate Hpre; eapply typed_release_at; try done; cbn; eauto.
  - destruct ty; try discriminate Hpre; eapply typed_insert_resource; try done; cbn; eauto.
  - destruct ty; try discriminate Hpre.
    eapply (typed_refused _ _ _ _ Locked _ _ _ _ (None, false) _
              (fun r => match fst r with Some p => RFound p | None => RFailed end)); try done.
    cbn; auto.
  - eapply typed_accepted; [exact Hid |].
    destruct ty; try discriminate Hpre; eapply typed_delete_at; try done; cbn; eauto.
  - eapply typed_refused; try done. destruct ty; try discriminate Hpre; try done; cbn; auto.
  - destruct ty; try discriminate Hpre; eapply typed_iterate_resources; try done; cbn; eauto.
  - destruct ty; try discriminate Hpre. eapply typed_finish_iterate; try done; cbn; auto.
  - destruct Hok as [Hf Hfuel]. destruct ty; try discriminate Hpre;
      eapply typed_find_resource; try done; cbn; eauto.
Qed.
(** ** Clients *)

(** A client of the database: operations in an order that depends on the answers. *)
Inductive client :=
  | Stop
  | Then (op : DbOp) (k : DbResult -> client).

Fixpoint run_client (c : client) : ndds unit :=
  match c with
  | Stop => ret tt
  | Then op k => let* r := run_op op in run_client (k r)
  end.

Definition upd (t : DbTable) (ty : cursor_type) (tys : DbTable -> cursor_type)
    (t' : DbTable) : cursor_type :=
  match t, t' with
  | TableResources, TableResources | TableSessions, TableSessions => ty
  | _, _ => tys t'
  end.

(** [tys]: the types of the two cursors; [n]: a bound on the rows of the tables. *)
Fixpoint well_typed (n : nat) (tys : DbTable -> cursor_type) (c : client) : Prop :=
  match c with
  | Stop => True
  | Then op k =>
      op_pre refuses op (tys (op_table op)) = true /\ op_ok n op
      /\ forall r ty, In ty (op_post op (tys (op_table op)) r) ->
           well_typed (S n) (upd (op_table op) ty tys) (k r)
  end.

Definition db_ok (n : nat) (tys : DbTable -> cursor_type) (h : Tables) (s : Ndds) : Prop :=
  ready handle s
  /\ forall t, table_ok n t (rows (table t h)) (cursor (table t h)) (tys t) s.

Lemma table_ok_keeps n t l c ty s s' :
  table_ok n t l c ty s -> keeps s s' -> table_ok (S n) t l c ty s'.
Proof.
  intros [Hc H] [_ Hk]. split; [done |]. intros Hty. destruct (H Hty) as (Hl & H1 & H2).
  split_and!; [| lia | lia]. intros row Hr. by apply Hk, Hl.
Qed.

Lemma op_sound n tys op h s :
  db_ok n tys h s -> op_pre refuses op (tys (op_table op)) = true -> op_ok n op ->
  db_triple h (run_op op) s (fun h' r s' =>
    exists ty, In ty (op_post op (tys (op_table op)) r)
      /\ db_ok (S n) (upd (op_table op) ty tys) h' s').
Proof.
  intros [Hs Ht] Hpre Hok. rewrite <- (st_same (op_table op) h) at 1.
  assert (Hty : typed n (op_table op) (rows (table (op_table op) h))
                  (cursor (table (op_table op) h)) h s (run_op op)
                  (op_post op (tys (op_table op)))).
  { pose proof (Ht (op_table op)) as Hop. destruct (op_table op) eqn:Heq;
      [by apply resources_sound | by apply sessions_sound]. }
  eapply triple_mono; [exact Hty |].
  intros h' r s' (ty & l' & c' & Hin & -> & Hok' & Hk). exists ty. split; [done |].
  split; [intros t; rewrite (proj1 Hk); apply Hs |]. intros t.
  destruct (op_table op), t; cbn [upd]; rewrite ?table_st; try exact Hok';
    rewrite table_other by done; by eapply table_ok_keeps.
Qed.

(** C15: a client that keeps to the cursor types never misuses the database.
    Whatever the database answers by [cursor_answers], a refusal of a new record included, each of
    its calls is one the cursor allows -- it starts a cursor once, locks a table once, takes a record only
    where the cursor is at one and only once, removes records under the lock of the
    table --, no function of the database runs into undefined behaviour, every search
    ends, and both cursors end with the types of the last answers.  A session is inserted only where
    the table of sessions refuses no record: the code does not survive that
    ([insert_session_refused]). *)
Theorem well_typed_clients_sound n tys c h s :
  db_ok n tys h s -> well_typed n tys c ->
  db_triple h (run_client c) s (fun h' _ s' => exists n' tys', db_ok n' tys' h' s').
Proof.
  revert n tys h s. induction c as [|op k IH]; intros n tys h s Hdb Hc; cbn.
  - apply triple_ret. by exists n, tys.
  - destruct Hc as (Hpre & Hok & Hk). apply triple_bind.
    eapply triple_mono; [by apply op_sound |].
    intros h' r s' (ty & Hty & Hdb'). by eapply IH; [exact Hdb' | apply Hk].
Qed.
End soundness.

(** ** A record that is refused *)

Section refusal.
Context {C : ConnextCore} {N : NddsApi} (handle cursor_at : DbTable -> Z).
Context (refuses : DbTable -> bool).
Abbreviation db_triple := (triple (cursor_allowed handle cursor_at)
                                  (cursor_answers handle cursor_at refuses)).

(** Shows the next call in [H], and answers it. *)
Ltac expose H :=
  repeat (unfold NDDSA_AgentDb_assert_record, started_cursor, NDDSA_AgentDb_get_worker, assert_return,
            the_db, bind, ncall, call, gets, ret in H; cbn in H).

Ltac answer H r tac :=
  let H1 := fresh in
  pose proof (proj2 H r) as H1; clear H;
  eassert (H : _); [eapply H1; clear H1; tac | clear H1; expose H].

(** Where the table of sessions may refuse a record, inserting a session misuses the cursor:
    [assert_record] finishes the area of the record it did not get. *)
Lemma insert_session_refused k l h s :
  refuses TableSessions = true -> ready handle s -> handle TableSessions <> handle TableResources ->
  cursor_at TableSessions <> cursor_at TableResources ->
  row_of (SessionKey k) l = None ->
  ~ db_triple (st TableSessions l closed h) (NDDSA_AgentDb_insert_session k) s (fun _ _ _ => True).
Proof.
  intros Hrf Hs Hh Hcur Hk H.
  assert (Ht : forall t, cursor_at TableSessions = cursor_at t -> t = TableSessions) by (by intros []).
  unfold triple, NDDSA_AgentDb_insert_session in H. expose H. rewrite (ready_sessions _ _ Hs) in H.
  expose H.
  answer H (Some 1%Z) ltac:(reflexivity).
  answer H (true, Some (cursor_at TableSessions), [cursor_at TableSessions])
    ltac:(intros t Heq; assert (t = TableSessions) as -> by (destruct t; [congruence | done]); eauto).
  answer H true ltac:(intros t ->%Ht; reflexivity).
  answer H false ltac:(intros t ->%Ht; split; [| reflexivity]; unfold st; cbn; by rewrite Hk).
  answer H (Some 2%Z) ltac:(reflexivity).
  answer H (@None Z) ltac:(intros t ->%Ht; unfold st; cbn; rewrite Hk; by left).
  destruct H as [(t & ->%Ht & Ha) _]. unfold st in Ha; cbn in Ha; done.
Qed.
End refusal.

(** A lookup that deletes the session it finds and otherwise finishes the cursor. *)
Definition delete_client {N : NddsApi} (k : D2S2_ClientSessionKey) : client :=
  Then (LookupSession k) (fun r =>
    match r with
    | RFound _ => Then DeleteSession (fun _ => Stop)
    | RMissing => Then FinishIterateSessions (fun _ => Stop)
    | _ => Stop
    end).

Definition sample_types (t : DbTable) : cursor_type := Idle.

Lemma well_typed_clients_sound_witness :
  let handle t := match t with TableResources => 10 | TableSessions => 20 end%Z in
  let key := {| csk_client := 7; csk_id := 129 |} in
  let h := {| resources_table := {| rows := []; cursor := closed |};
              sessions_table := {| rows := [(SessionKey key, 100%Z)]; cursor := closed |} |} in
  triple (cursor_allowed handle handle) (cursor_answers handle handle (fun _ => true)) h
    (run_client (delete_client key)) sample_ndds (fun _ _ _ => True).
Proof.
  intros handle key h. eapply triple_mono; [| done].
  apply (well_typed_clients_sound handle handle (fun _ => true) 1 sample_types).
  - split; [by intros [] |].
    intros []; (split; [done |]); intros _; (split_and!; [| cbn; lia | cbn; lia]);
      intros row [H|[H|H]]; cbn in H; try done; try destruct H as [<- | []]; try done.
    by exists sample_session.
  - cbn. split_and!; try done. intros [] ty H; cbn in *; try done.
    + destruct H as [<- | []]; cbn. split_and!; done.
    + destruct H as [<- | []]; cbn. split_and!; done.
Defined.

(** A second lookup after one that found nothing is not typed: the first left the
    cursor started. *)
Lemma lookup_twice_not_typed {C : ConnextCore} {N : NddsApi} handle cursor_at refuses n k :
  ~ well_typed handle cursor_at refuses n sample_types
      (Then (LookupSession k) (fun _ => Then (LookupSession k) (fun _ => Stop))).
Proof.
  intros (_ & _ & H). destruct (H RMissing Open (or_introl eq_refl)) as [H' _]. discriminate H'.
Qed.
