(* ===== verification/NddsResources.v ===== *)
(** * Resources of the DDS agent

    Models [NddsResourceNative.c] and [NddsResource.c] (the values of a resource,
    copied and finalized) and [NddsRefResource.c] (finding a DDS entity by a name of
    the form [library::participant::publisher::writer]). *)

From Stdlib Require Import ZArith Lia Ascii String.
From stdpp Require Import base tactics list gmap.
From S2P Require Import Prelude.
From S2P Require Import CString.
From S2P Require Import Infrastructure.
From S2P Require Import EntityName.
From S2P Require Import Interaction.
From S2P Require Import ServiceData.
From S2P Require Import NddsData.

Local Open Scope nano_scope.

(** ** The values of a resource *)

Section values.
Context {C : ConnextCore}.

Definition NDDSA_GenericResource_initialize (id : D2S2_ResourceId)
    : bool * NDDSA_GenericResource :=
  let def_self := NDDSA_GENERICRESOURCE_INITIALIZER in
  let '(ok, i) := D2S2_ResourceId_copy (generic_id def_self) id in
  (ok, {| generic_id := i |}).

Definition NDDSA_GenericResource_finalize (self : NDDSA_GenericResource)
    : freed * NDDSA_GenericResource :=
  let '(f, i) := D2S2_ResourceId_finalize (generic_id self) in (f, {| generic_id := i |}).

Definition NDDSA_GenericResource_copy (dst src : NDDSA_GenericResource)
    : bool * NDDSA_GenericResource :=
  let '(ok, i) := D2S2_ResourceId_copy (generic_id dst) (generic_id src) in
  (ok, {| generic_id := i |}).

Definition NDDSA_ResourceNative_initialize_entity (self : NDDSA_ResourceNative)
    (entity : option Z) (repr : D2S2_ResourceRepresentation) : bool * NDDSA_ResourceNative :=
  let '(ok, r) := D2S2_ResourceRepresentation_copy (create_repr self) repr in
  (ok, {| native_kind := RESOURCENATIVEKIND_ENTITY; native_value := NativeEntity entity;
          create_repr := r |}).

(** The union is copied into as a generic resource whatever it holds: [None] when
    it holds an entity. *)
Definition NDDSA_ResourceNative_initialize_generic (self : NDDSA_ResourceNative)
    (generic : NDDSA_GenericResource) (repr : D2S2_ResourceRepresentation)
    : option (bool * NDDSA_ResourceNative) :=
  match native_value self with
  | NativeEntity _ => None
  | NativeGeneric old =>
      let '(ok, g) := NDDSA_GenericResource_copy old generic in
      if ok then
        let '(ok', r) := D2S2_ResourceRepresentation_copy (create_repr self) repr in
        Some (ok', {| native_kind := RESOURCENATIVEKIND_GENERIC;
                      native_value := NativeGeneric g; create_repr := r |})
      else
        Some (false, {| native_kind := RESOURCENATIVEKIND_GENERIC;
                        native_value := NativeGeneric g; create_repr := create_repr self |})
  end.

(** What is freed for the value and for the representation. *)
Definition NDDSA_ResourceNative_finalize (self : NDDSA_ResourceNative)
    : freed * freed * NDDSA_ResourceNative :=
  let '(f, v) :=
    match native_kind self with
    | RESOURCENATIVEKIND_GENERIC =>
        match native_value self with
        | NativeGeneric g =>
            let '(f, g') := NDDSA_GenericResource_finalize g in (f, NativeGeneric g')
        | NativeEntity _ => (FreedConfused, native_value self)
        end
    | _ => (FreedNothing, native_value self)
    end in
  let '(f', r) := D2S2_ResourceRepresentation_finalize (create_repr self) in
  (f, f', {| native_kind := native_kind self; native_value := v; create_repr := r |}).

Definition set_base_native (base : D2S2_Resource) (n : NDDSA_ResourceNative)
    (self : NDDSA_Resource) : NDDSA_Resource :=
  {| resource_base := base; native := n; attached_count := attached_count self;
     resource_agent := resource_agent self; resource_user_data := resource_user_data self;
     loaded := loaded self; native_deleted := native_deleted self;
     pending_delete := pending_delete self |}.

(** The native resource is taken over, not copied. *)
Definition NDDSA_Resource_initialize (id : D2S2_ResourceId) (kind : D2S2_ResourceKind)
    (n : NDDSA_ResourceNative) : bool * NDDSA_Resource :=
  let self := NDDSA_RESOURCE_INITIALIZER in
  let '(ok, base) := D2S2_Resource_initialize (resource_base self) kind id in
  (ok, set_base_native base (if ok then n else native self) self).

Definition NDDSA_Resource_can_delete (self : NDDSA_Resource) : bool := (attached_count self =? 0)%Z.

Definition NDDSA_Resource_finalize (self : NDDSA_Resource) : list freed * NDDSA_Resource :=
  let '(f1, base) := D2S2_Resource_finalize (resource_base self) in
  let '(f2, f3, n) := NDDSA_ResourceNative_finalize (native self) in
  ([f1; f2; f3], set_base_native base n self).

(** The native resource is given out once it was deleted, and only then. *)
Definition NDDSA_Resource_get_native (self : NDDSA_Resource) : option NDDSA_ResourceNative :=
  if native_deleted self then Some (native self) else None.

Definition NDDSA_Resource_convert_representation_xml_to_ref (from_xml : option cstr)
    : bool * option cstr := (false, None).

(** A conversion succeeds from XML to XML and from REF to REF; [to] is written with
    the format also when the string is not duplicated. *)
Definition NDDSA_Resource_convert_representation (from to : D2S2_ResourceRepresentation)
    (out_fmt : D2S2_ResourceRepresentationFormat) : bool * D2S2_ResourceRepresentation :=
  let dup fmt' :=
    let v := DDS_String_dup (repr_str from) in
    (if v is Some _ then true else false, {| fmt := fmt'; repr_value := ReprValue_str v |}) in
  match fmt from, out_fmt with
  | FORMAT_XML, FORMAT_XML => dup FORMAT_XML
  | FORMAT_XML, FORMAT_REF =>
      if fst (NDDSA_Resource_convert_representation_xml_to_ref (repr_str from))
      then (true, {| fmt := FORMAT_REF;
                     repr_value := ReprValue_str
                       (snd (NDDSA_Resource_convert_representation_xml_to_ref (repr_str from))) |})
      else (false, to)
  | FORMAT_REF, FORMAT_REF => dup FORMAT_REF
  | _, _ => (false, to)
  end.
End values.

(** ** Entities by name *)

Definition DEPTH_PARTICIPANT : Z := 2.
Definition DEPTH_PUBLISHER : Z := 3.
Definition DEPTH_SUBSCRIBER : Z := 3.
Definition DEPTH_TOPIC : Z := 3.
Definition DEPTH_DATAWRITER : Z := 4.
Definition DEPTH_DATAREADER : Z := 4.

Section names.
Context {N : NddsApi}.

(** One iteration per character of the reference and one more. *)
Definition name_fuel (id : D2S2_ResourceId) : nat :=
  match id_ref id with Some (Some s) => S (strlen s) | _ => 1%nat end.

(** The name of an identifier.  A reference that starts with a separator is never
    parsed to its end, and is undefined here. *)
Definition entity_name (id : D2S2_ResourceId) : ndds (bool * D2S2_EntityName) :=
  let* a := ncall NameAllocations in
  reads (fun _ =>
    D2S2_EntityName_from_id (name_fuel id) (fst a) (snd a) D2S2_ENTITYNAME_INITIALIZER id).

Definition name_ref (name : D2S2_EntityName) (depth : Z) : ndds (option cstr) :=
  let* a := ncall StringAllocation in
  reads (fun _ => D2S2_EntityName_to_ref a name depth).

Definition name_component (name : D2S2_EntityName) (depth : Z) : ndds (option cstr) :=
  reads (fun _ => D2S2_EntityName_component name depth).

Definition ref_id (s : cstr) : D2S2_ResourceId :=
  {| id_kind := RESOURCEIDKIND_REF; id_value := IdValue_ref (Some s) |}.

(** [None]: FALSE; [Some e]: TRUE and what is written to [exists_out]. *)
Definition NDDSA_RefResource_lookup_application (id : D2S2_ResourceId) : ndds (option bool) :=
  if negb (bool_decide (id_kind id = RESOURCEIDKIND_REF)) then ret None else
  let? factory := ncall FactoryGetInstance else ret None in
  ncall (FactoryLock factory);;
  let* xml_root := ncall (FactoryXmlRoot factory) in
  match xml_root with
  | None => ncall (FactoryUnlock factory);; ret None
  | Some root =>
      let* name := reads (fun _ => default None (id_ref id)) in
      let* xml_app := ncall (Lookup (LookupXmlObject root name)) in
      ncall (FactoryUnlock factory);;
      ret (Some (bool_decide (is_Some xml_app)))
  end.

(** [None]: FALSE, and nothing is written to [participant_out]. *)
Definition NDDSA_RefResource_lookup_participant (id : D2S2_ResourceId)
    : ndds (option (option Z)) :=
  if negb (bool_decide (id_kind id = RESOURCEIDKIND_REF)) then ret None else
  let? factory := ncall FactoryGetInstance else ret None in
  let* n := entity_name id in
  if negb (fst n) then ret None else
  let? dp_ref := name_component (snd n) DEPTH_PARTICIPANT else ret None in
  let* participant := ncall (Lookup (LookupParticipant factory dp_ref)) in
  ret (Some (participant : option Z)).

(** What the functions for the entities inside a participant share: the name of the
    parent is the first [parent_depth] components, the parent is looked up, and the
    entity is looked up in it by its component. *)
Definition lookup_inside (id : D2S2_ResourceId) (parent_depth child_depth : Z)
    (lookup_parent : D2S2_ResourceId -> ndds (option (option Z)))
    (lookup_child : Z -> cstr -> ndds (option Z)) : ndds (bool * option Z) :=
  let* n := entity_name id in
  if negb (fst n) then ret (false, None) else
  let? parent_ref := name_ref (snd n) parent_depth else ret (false, None) in
  let* p := lookup_parent (ref_id parent_ref) in
  let* r :=
    match p with
    | None => ret (false, None)
    | Some None => ret (true, None)
    | Some (Some parent) =>
        let? child_ref := name_component (snd n) child_depth else ret (false, None) in
        let* e := lookup_child parent child_ref in
        ret (true, e)
    end in
  ncall (StringFree parent_ref);;
  ret r.

Definition NDDSA_RefResource_lookup_topic (id : D2S2_ResourceId) : ndds (bool * option Z) :=
  lookup_inside id DEPTH_PARTICIPANT DEPTH_TOPIC NDDSA_RefResource_lookup_participant
    (fun dp topic_ref =>
       let? topic_desc := ncall (Lookup (LookupTopicDescription dp topic_ref)) else ret None in
       ncall (TopicNarrow topic_desc)).

Definition NDDSA_RefResource_lookup_publisher (id : D2S2_ResourceId) : ndds (bool * option Z) :=
  lookup_inside id DEPTH_PARTICIPANT DEPTH_PUBLISHER NDDSA_RefResource_lookup_participant
    (fun dp pub_ref => ncall (Lookup (LookupPublisher dp pub_ref))).

(** The component of a subscriber is taken at the depth of publishers, which is the
    same. *)
Definition NDDSA_RefResource_lookup_subscriber (id : D2S2_ResourceId) : ndds (bool * option Z) :=
  lookup_inside id DEPTH_PARTICIPANT DEPTH_PUBLISHER NDDSA_RefResource_lookup_participant
    (fun dp sub_ref => ncall (Lookup (LookupSubscriber dp sub_ref))).

(** A lookup that writes its result first, as one that does not. *)
Definition lookup_written (m : ndds (bool * option Z)) : ndds (option (option Z)) :=
  let* r := m in ret (if fst r then Some (snd r) else None).

Definition NDDSA_RefResource_lookup_datawriter (id : D2S2_ResourceId) : ndds (bool * option Z) :=
  lookup_inside id DEPTH_PUBLISHER DEPTH_DATAWRITER
    (fun i => lookup_written (NDDSA_RefResource_lookup_publisher i))
    (fun pub dw_ref => ncall (Lookup (LookupDataWriter pub dw_ref))).

Definition NDDSA_RefResource_lookup_datareader (id : D2S2_ResourceId) : ndds (bool * option Z) :=
  lookup_inside id DEPTH_SUBSCRIBER DEPTH_DATAREADER
    (fun i => lookup_written (NDDSA_RefResource_lookup_subscriber i))
    (fun sub dr_ref => ncall (Lookup (LookupDataReader sub dr_ref))).

(** These answer TRUE and write nothing to [exists_out]: the second component is
    what it held. *)
Definition NDDSA_RefResource_lookup_domain (id : D2S2_ResourceId) (exists_out : bool) : bool * bool :=
  (true, exists_out).
Definition NDDSA_RefResource_lookup_qosprofile (id : D2S2_ResourceId) (exists_out : bool)
    : bool * bool := (true, exists_out).
Definition NDDSA_RefResource_lookup_type (id : D2S2_ResourceId) (exists_out : bool) : bool * bool :=
  (true, exists_out).
End names.

(** ** Lookups descend the name *)

Section descent.
Context {N : NddsApi}.

(** The entities a trace looks for, with what was found. *)
Definition lookup_of (e : nevent) : list (EntityLookup * option Z) :=
  match e with
  | existT c r =>
      match c return NResp c -> list (EntityLookup * option Z) with
      | Lookup w => fun r => [(w, r)]
      | _ => fun _ => []
      end r
  end.

Definition lookups (t : list nevent) : list (EntityLookup * option Z) := flat_map lookup_of t.

Lemma lookups_app (t1 t2 : list (event NResp)) : lookups (t1 ++ t2) = lookups t1 ++ lookups t2.
Proof. apply flat_map_app. Qed.

(** Memory is not short. *)
Definition memory_granted (e : nevent) : Prop :=
  match e with
  | existT c r =>
      match c return NResp c -> Prop with
      | NameAllocations => fun r => fst r = true /\ forall i, snd r i = true
      | StringAllocation => fun r => r = true
      | _ => fun _ => True
      end r
  end.

(** From the entity [start], each entity of the path is looked up in the one before,
    until one is not found or the last is. *)
Fixpoint descends (start : Z) (path : list (Z -> EntityLookup))
    (found : list (EntityLookup * option Z)) (result : option Z) : Prop :=
  match path with
  | [] => found = [] /\ result = Some start
  | q :: path =>
      exists answer rest, found = (q start, answer) :: rest /\
        match answer with
        | None => rest = [] /\ result = None
        | Some e => descends e path rest result
        end
  end.

Lemma descends_snoc start path q found result e answer :
  descends start path found result -> result = Some e ->
  descends start (path ++ [q]) (found ++ [(q e, answer)]) answer.
Proof.
  revert start found; induction path as [|p path IH]; intros start found; cbn.
  - intros [-> ->] [= ->]. exists answer, []. split; [done |]. by destruct answer.
  - intros (a & rest & -> & H) He. exists a, (rest ++ [(q e, answer)]). split; [done |].
    destruct a as [x|]; [by apply IH | destruct H; congruence].
Qed.

Lemma descends_none start path q found :
  descends start path found None -> descends start (path ++ [q]) found None.
Proof.
  revert start found; induction path as [|p path IH]; intros start found; cbn; [naive_solver |].
  intros (a & rest & -> & H). exists a, rest. split; [done |]. destruct a as [x|]; [by apply IH | done].
Qed.

(** What a lookup of the parts [path] of a name promises. *)
Definition looks_up (path : list (Z -> EntityLookup)) (s : Ndds) (t : list nevent)
    (r : option (option Z)) (s' : Ndds) : Prop :=
  s' = s /\ match r with
            | Some o => exists factory, descends factory path (lookups t) o
            | None => lookups t = []
            end.

Definition name_of (cs : list cstr) : D2S2_EntityName :=
  {| components := map Some cs; depth := Z.of_nat (length cs) |}.

Definition short (cs : list cstr) : Prop :=
  wf_components cs /\ (Z.of_nat (length (join cs)) < 4294967295)%Z.

Lemma join_length_ge cs : wf_components cs -> (length cs <= length (join cs))%nat.
Proof.
  induction cs as [|c [|c' cs] IH]; [done | intros [H _]; cbn; destruct c; [done | cbn; lia] |].
  intros [[H _] Hw]. specialize (IH Hw). change (join (c :: c' :: cs)) with (c ++ REF_SEP ++ join (c' :: cs)).
  rewrite !length_app. destruct c; [done |]. cbn [length] in *. lia.
Qed.

Lemma joined_length first cs k :
  (length (joined first (take k cs)) <= length (joined first cs))%nat.
Proof.
  revert first k; induction cs as [|c cs IH]; intros first [|k]; cbn; try lia.
  rewrite !length_app. specialize (IH false k). lia.
Qed.

Lemma short_take cs k : short cs -> (0 < k)%nat -> short (take k cs).
Proof.
  intros [Hw Hl] Hk. split; [by apply wf_components_take |].
  rewrite join_joined in *. pose proof (joined_length true cs k). lia.
Qed.

Lemma entity_name_spec cs s (Q : list nevent -> bool * D2S2_EntityName -> Ndds -> Prop) :
  short cs -> (forall t, lookups t = [] -> Q t (true, name_of cs) s) ->
  spec memory_granted (entity_name (ref_id (join cs))) s Q.
Proof.
  intros [Hw Hl] HQ. apply spec_bind. refine (spec_call _ _ _ _ _). intros r Hr. cbn in Hr.
  destruct Hr as [Ha Hs]. eapply spec_reads; [| by apply HQ].
  rewrite Ha. unfold name_fuel, ref_id, D2S2_EntityName_from_id; cbn.
  rewrite parse_split; [| done | by apply join_nonempty | lia | by apply wf_not_prefix].
  unfold strlen. by rewrite split_ref_joined.
Qed.

Lemma name_ref_spec cs k s (Q : list nevent -> option cstr -> Ndds -> Prop) :
  short cs -> (0 < k <= length cs)%nat ->
  (forall t, lookups t = [] -> Q t (Some (join (take k cs))) s) ->
  spec memory_granted (name_ref (name_of cs) (Z.of_nat k)) s Q.
Proof.
  intros Hc Hk HQ. apply spec_bind. refine (spec_call _ _ _ _ _). intros r Hr. cbn in Hr. subst.
  eapply spec_reads; [| by apply HQ].
  pose proof (short_take cs k Hc ltac:(lia)) as [_ Hl].
  unfold name_of. rewrite to_ref_joins by lia.
  destruct (Nat.leb_spec k (length cs)); [done | lia].
Qed.

Lemma name_component_spec cs i c s (Q : list nevent -> option cstr -> Ndds -> Prop) :
  short cs -> cs !! i = Some c -> Q [] (Some c) s ->
  spec memory_granted (name_component (name_of cs) (Z.of_nat (S i))) s Q.
Proof.
  intros [Hw Hl] Hi HQ. eapply spec_reads; [| exact HQ].
  pose proof (join_length_ge _ Hw). unfold name_of. rewrite component_from_one by lia.
  pose proof (lookup_lt_Some _ _ _ Hi).
  destruct (Nat.ltb_spec (length cs) (S i)); [lia |]. by rewrite Hi.
Qed.

Lemma participant_spec cs dp s :
  short cs -> cs !! 1%nat = Some dp ->
  spec memory_granted (NDDSA_RefResource_lookup_participant (ref_id (join cs))) s
    (looks_up [fun f => LookupParticipant f dp] s).
Proof.
  intros Hc Hdp. unfold NDDSA_RefResource_lookup_participant. cbn [id_kind ref_id].
  rewrite bool_decide_true by done. cbn [negb].
  nstep. nstep. nstep; [| by apply spec_ret].
  apply spec_bind, (entity_name_spec cs); [done |]. intros t Ht. cbn [fst snd negb].
  apply spec_bind, (name_component_spec cs 1 dp); [done | done |].
  nstep. nstep. nstep. split; [done |]. exists z. rewrite !lookups_app, Ht. cbn.
  eexists _, []. split; [done |]. by destruct r0.
Qed.

End descent.

(** ** Properties *)

Section properties.
Context {N : NddsApi}.

(** A lookup whose answer is the last entity of its path. *)
Lemma lookup_written_spec m path s :
  spec memory_granted m s (fun t r s' => s' = s /\
    match r with
    | (true, o) => exists factory, descends factory path (lookups t) o
    | (false, _) => lookups t = []
    end) ->
  spec memory_granted (lookup_written m) s (looks_up path s).
Proof.
  intros Hm. apply spec_bind. eapply spec_mono; [exact Hm |].
  intros t [b o] s' [-> Hr]. apply spec_ret. rewrite app_nil_r. by destruct b.
Qed.

(** A lookup inside the entity another lookup finds goes one step further down. *)
Lemma inside_exact cs k i c lookup_parent path (q : cstr -> Z -> EntityLookup) s :
  short cs -> (0 < k <= length cs)%nat -> cs !! i = Some c ->
  (forall s, spec memory_granted (lookup_parent (ref_id (join (take k cs)))) s (looks_up path s)) ->
  spec memory_granted (lookup_inside (ref_id (join cs)) (Z.of_nat k) (Z.of_nat (S i)) lookup_parent
                  (fun p n => ncall (Lookup (q n p)))) s
    (fun t r s' => s' = s /\
       match r with
       | (true, o) => exists factory, descends factory (path ++ [q c]) (lookups t) o
       | (false, _) => lookups t = []
       end).
Proof.
  intros Hc Hk Hi Hp. apply spec_bind, (entity_name_spec cs); [done |].
  intros t Ht. cbn [fst snd negb]. apply spec_bind, (name_ref_spec cs k); [done | done |].
  intros t1 Ht1. apply spec_bind. eapply spec_mono; [apply Hp |].
  intros t2 p s2 [-> Hpath]. apply spec_bind. destruct p as [[p|] |].
  - apply spec_bind, (name_component_spec cs i c); [done | done |]. destruct Hpath as [factory Hd].
    repeat nstep. split; [done |]. exists factory. rewrite !lookups_app, Ht, Ht1. cbn.
    by eapply descends_snoc.
  - destruct Hpath as [factory Hd]. repeat nstep. split; [done |].
    exists factory. rewrite !lookups_app, Ht, Ht1. cbn. rewrite ?app_nil_r. by apply descends_none.
  - repeat nstep. by rewrite !lookups_app, Ht, Ht1, Hpath.
Qed.

Lemma publisher_spec cs dp pub s :
  short cs -> cs !! 1%nat = Some dp -> cs !! 2%nat = Some pub ->
  spec memory_granted (lookup_written (NDDSA_RefResource_lookup_publisher (ref_id (join cs)))) s
    (looks_up [fun f => LookupParticipant f dp; fun p => LookupPublisher p pub] s).
Proof.
  intros Hc Hdp Hpub. apply lookup_written_spec. pose proof (lookup_lt_Some _ _ _ Hpub).
  apply (inside_exact cs 2 2 pub _ [fun f => LookupParticipant f dp]
           (fun n p => LookupPublisher p n)); [done | lia | done |].
  intros s1. apply participant_spec; [apply short_take; [done | lia] |].
  by rewrite lookup_take_lt by lia.
Qed.

Lemma subscriber_spec cs dp sub s :
  short cs -> cs !! 1%nat = Some dp -> cs !! 2%nat = Some sub ->
  spec memory_granted (lookup_written (NDDSA_RefResource_lookup_subscriber (ref_id (join cs)))) s
    (looks_up [fun f => LookupParticipant f dp; fun p => LookupSubscriber p sub] s).
Proof.
  intros Hc Hdp Hsub. apply lookup_written_spec. pose proof (lookup_lt_Some _ _ _ Hsub).
  apply (inside_exact cs 2 2 sub _ [fun f => LookupParticipant f dp]
           (fun n p => LookupSubscriber p n)); [done | lia | done |].
  intros s1. apply participant_spec; [apply short_take; [done | lia] |].
  by rewrite lookup_take_lt by lia.
Qed.

(** an endpoint named [library::participant::publisher::writer] (or
    [library::participant::subscriber::reader]) is looked up in the entity named by
    the component before its own, down from the participant, and what is answered is
    what the last lookup found.  The library is not used, a name may have further
    components, which are not used either, and the lookup only fails without a
    participant factory. *)
Theorem lookup_endpoint_descends lib dp group endpoint rest s :
  let cs := lib :: dp :: group :: endpoint :: rest in
  short cs ->
  spec memory_granted (NDDSA_RefResource_lookup_datawriter (ref_id (join cs))) s
    (fun t r s' => s' = s /\
       match r with
       | (true, o) => exists factory,
           descends factory [fun f => LookupParticipant f dp; fun p => LookupPublisher p group;
                             fun b => LookupDataWriter b endpoint] (lookups t) o
       | (false, _) => lookups t = []
       end)
  /\ spec memory_granted (NDDSA_RefResource_lookup_datareader (ref_id (join cs))) s
    (fun t r s' => s' = s /\
       match r with
       | (true, o) => exists factory,
           descends factory [fun f => LookupParticipant f dp; fun p => LookupSubscriber p group;
                             fun b => LookupDataReader b endpoint] (lookups t) o
       | (false, _) => lookups t = []
       end).
Proof.
  intros cs Hc. pose proof (short_take cs 3 Hc ltac:(lia)) as H3. split.
  - apply (inside_exact cs 3 3 endpoint _
             [fun f => LookupParticipant f dp; fun p => LookupPublisher p group]
             (fun n p => LookupDataWriter p n)); [done | cbn; lia | done |].
    intros s1. by apply publisher_spec.
  - apply (inside_exact cs 3 3 endpoint _
             [fun f => LookupParticipant f dp; fun p => LookupSubscriber p group]
             (fun n p => LookupDataReader p n)); [done | cbn; lia | done |].
    intros s1. by apply subscriber_spec.
Qed.
End properties.

Definition sample_endpoint : list cstr :=
  [of_string "Lib"; of_string "Dp"; of_string "Pub"; of_string "Dw"].

Lemma lookup_endpoint_descends_witness :
  spec memory_granted (NDDSA_RefResource_lookup_datawriter (ref_id (join sample_endpoint)))
    sample_ndds (fun t r s' => s' = sample_ndds /\ (fst r = false -> lookups t = [])).
Proof.
  eapply spec_mono.
  - refine (proj1 (lookup_endpoint_descends (of_string "Lib") (of_string "Dp")
                     (of_string "Pub") (of_string "Dw") [] sample_ndds _)).
    split; [repeat split; vm_compute; discriminate || reflexivity | vm_compute; reflexivity].
  - cbn. intros t [[] o] s' [-> H]; (split; [reflexivity |]); [discriminate | intros _; exact H].
Defined.
