(* ===== verification/NddsSamples.v ===== *)
(** * DDS agent: the samples of a session

    [NddsClientSession.c].  A read of a client has the reader it is attached to
    ([NDDSA_AttachedResource]) deliver samples to the XRCE service, one at a time
    ([NDDSA_Read_process_sampleEA]).  A sample is serialized into a received data,
    which is taken from the session ([rcvd_data_pool]) or from the pool of the agent,
    and is handed to the service, which may keep it.

    The memory of a received data is in [rcvd_at]; the session has the addresses of
    those it may use again, and a read the addresses of those the service keeps.  A
    buffer that was allocated and not written holds no byte that may be read. *)

From Stdlib Require Import ZArith Lia Ascii String.
From stdpp Require Import base tactics list gmap.
From S2P Require Import Prelude.
From S2P Require Import CString.
From S2P Require Import Infrastructure.
From S2P Require Import Interaction.
From S2P Require Import ServiceData.
From S2P Require Import NddsData.

Local Open Scope nano_scope.

Section samples.
Context {N : NddsApi}.

(** ** Updates *)

Definition set_rcvd_pool (pool : list Z) (rec : NDDSA_ClientSessionRecord)
    : NDDSA_ClientSessionRecord :=
  let s := sr_session rec in
  {| sr_session :=
       {| cs_key := cs_key s; cs_agent := cs_agent s; cs_intf := cs_intf s;
          cs_resources := cs_resources s; cs_timeout := cs_timeout s;
          cs_user_data := cs_user_data s; deleted := deleted s; timedout := timedout s;
          resetting := resetting s; rcvd_data_pool := pool; sem_timeout := sem_timeout s;
          sem_cleanup := sem_cleanup s; ts_live := ts_live s |};
     sr_ea := sr_ea rec |}.

Definition set_rcvd_buffer (b : D2S2_Buffer) (d : NDDSA_ReceivedData) : NDDSA_ReceivedData :=
  {| rcv_session_key := rcv_session_key d; rcv_reader_id := rcv_reader_id d;
     rcv_data := {| dr_fmt := dr_fmt (rcv_data d);
                    dr_xcdr := Infrastructure.set_buffer b (dr_xcdr (rcv_data d)) |};
     rcv_read := rcv_read d; rcv_session := rcv_session d; rcv_dds_sn := rcv_dds_sn d |}.

Definition rcvd_buffer (d : NDDSA_ReceivedData) : D2S2_Buffer := buffer (dr_xcdr (rcv_data d)).

Definition set_samples (l : list Z) (r : NDDSA_Read) : NDDSA_Read :=
  {| rq_agent := rq_agent r; rq_session_key := rq_session_key r;
     rq_reader_id := rq_reader_id r; samples_rcvd := samples_rcvd r;
     samples_max := samples_max r; rq_max_bytes := rq_max_bytes r; rq_samples := l;
     last_sample := last_sample r; start_ts := start_ts r; last_sample_ts := last_sample_ts r;
     sample_pace := sample_pace r; max_elapsed_ts := max_elapsed_ts r;
     rq_content_filter_expr := rq_content_filter_expr r; delayed := delayed r;
     rq_status := rq_status r; sem_event := sem_event r; ev_live := ev_live r |}.

Definition set_samples_rcvd (n : Z) (r : NDDSA_Read) : NDDSA_Read :=
  {| rq_agent := rq_agent r; rq_session_key := rq_session_key r;
     rq_reader_id := rq_reader_id r; samples_rcvd := n;
     samples_max := samples_max r; rq_max_bytes := rq_max_bytes r; rq_samples := rq_samples r;
     last_sample := last_sample r; start_ts := start_ts r; last_sample_ts := last_sample_ts r;
     sample_pace := sample_pace r; max_elapsed_ts := max_elapsed_ts r;
     rq_content_filter_expr := rq_content_filter_expr r; delayed := delayed r;
     rq_status := rq_status r; sem_event := sem_event r; ev_live := ev_live r |}.

Definition set_last (sn : SequenceNumber) (ts : NtpTime) (r : NDDSA_Read) : NDDSA_Read :=
  {| rq_agent := rq_agent r; rq_session_key := rq_session_key r;
     rq_reader_id := rq_reader_id r; samples_rcvd := samples_rcvd r;
     samples_max := samples_max r; rq_max_bytes := rq_max_bytes r; rq_samples := rq_samples r;
     last_sample := sn; start_ts := start_ts r; last_sample_ts := ts;
     sample_pace := sample_pace r; max_elapsed_ts := max_elapsed_ts r;
     rq_content_filter_expr := rq_content_filter_expr r; delayed := delayed r;
     rq_status := rq_status r; sem_event := sem_event r; ev_live := ev_live r |}.

Definition set_forwarded (sn : SequenceNumber) (a : NDDSA_AttachedResource)
    : NDDSA_AttachedResource :=
  {| at_base := at_base a; at_resource := at_resource a; at_session := at_session a;
     at_user_data := at_user_data a; read_req := read_req a; last_sample_forwarded := sn;
     last_sample_returned := last_sample_returned a |}.

Definition set_returned (sn : SequenceNumber) (a : NDDSA_AttachedResource)
    : NDDSA_AttachedResource :=
  {| at_base := at_base a; at_resource := at_resource a; at_session := at_session a;
     at_user_data := at_user_data a; read_req := read_req a;
     last_sample_forwarded := last_sample_forwarded a; last_sample_returned := sn |}.

(** ** Received data *)

(** The first received data of the session, without its buffer when that is too
    small, or a new one, without a buffer. *)
Definition take_rcvd_data (session_rec size : Z) : ndds (option Z) :=
  let* rec := session_rec_of session_rec in
  match rcvd_data_pool (sr_session rec) with
  | rcvd_data :: pool =>
      modify (put_session session_rec (set_rcvd_pool pool rec));;
      let* d := rcvd_of rcvd_data in
      (if negb (data_addr (rcvd_buffer d) =? 0)%Z && (data_len (rcvd_buffer d) <? size)%Z then
         ncall (BufferFree (data_addr (rcvd_buffer d)));;
         modify (put_rcvd rcvd_data (set_rcvd_buffer D2S2_BUFFER_INITIALIZER d))
       else ret tt);;
      ret (Some rcvd_data)
  | [] =>
      let* ag := the_nd_agent in
      let? b := ncall (SamplePoolGet (pool_samples ag)) else ret None in
      modify (put_rcvd (fst b)
        (set_rcvd_buffer {| data_addr := 0; data_bytes := [];
                            data_len := data_len (rcvd_buffer (snd b)) |} (snd b)));;
      ret (Some (fst b))
  end.

Definition pool_rcvd_data (session_rec rcvd_data : Z) : ndds unit :=
  let* rec := session_rec_of session_rec in
  modify (put_session session_rec
            (set_rcvd_pool (rcvd_data_pool (sr_session rec) ++ [rcvd_data]) rec)).

(** The encoding and the byte order announced by the first two bytes of a sample:
    the parameter list bit is read from the first one. *)
Definition cdr_header (b0 b1 : Z) : option (D2S2_XcdrEncodingKind * bool) :=
  let kind e1 e2 :=
    if (b1 =? 0)%Z then Some (e1, false)
    else if (b1 =? 1)%Z then Some (e1, true)
    else if (b1 =? 16)%Z then Some (e2, false)
    else if (b1 =? 17)%Z then Some (e2, true)
    else None in
  if Z.testbit b0 0 then kind XCDRENCODINGKIND_1_PL XCDRENCODINGKIND_2_PL
  else kind XCDRENCODINGKIND_1 XCDRENCODINGKIND_2.

(** The bytes of [data] at 0 and 1. *)
Definition header_bytes (b : D2S2_Buffer) : option (Z * Z) :=
  match data_bytes b with b0 :: b1 :: _ => Some (b0, b1) | _ => None end.

(** The received data is given its session and read, room for the sample, the
    sample, its encoding, and what the service is told with it. *)
Definition start_rcvd_data (session_rec size : Z) (a : NDDSA_AttachedResource)
    (d : NDDSA_ReceivedData) : NDDSA_ReceivedData :=
  {| rcv_session_key := rcv_session_key d; rcv_reader_id := rcv_reader_id d;
     rcv_data := {| dr_fmt := DATAREPRESENTATIONFORMAT_XCDR;
                    dr_xcdr := Infrastructure.set_buffer
                      {| data_addr := data_addr (rcvd_buffer d);
                         data_bytes := data_bytes (rcvd_buffer d); data_len := size |}
                      (dr_xcdr (rcv_data d)) |};
     rcv_read := read_req a; rcv_session := Some session_rec; rcv_dds_sn := rcv_dds_sn d |}.

Definition end_rcvd_data (rec : NDDSA_ClientSessionRecord) (a : NDDSA_AttachedResource)
    (e : D2S2_XcdrEncodingKind) (le : bool) (d : NDDSA_ReceivedData) : NDDSA_ReceivedData :=
  {| rcv_session_key := cs_key (sr_session rec); rcv_reader_id := att_id (at_base a);
     rcv_data := {| dr_fmt := dr_fmt (rcv_data d);
                    dr_xcdr := {| encoding := e; little_endian := le;
                                  buffer := rcvd_buffer d |} |};
     rcv_read := rcv_read d; rcv_session := rcv_session d; rcv_dds_sn := rcv_dds_sn d |}.

Definition allocate_rcvd_data (rcvd_data : Z) (d : NDDSA_ReceivedData) : ndds D2S2_Buffer :=
  if (data_addr (rcvd_buffer d) =? 0)%Z then
    let* addr := ncall (BufferAllocate (data_len (rcvd_buffer d))) in
    let b := {| data_addr := addr; data_bytes := []; data_len := data_len (rcvd_buffer d) |} in
    modify (put_rcvd rcvd_data (set_rcvd_buffer b d));;
    ret b
  else ret (rcvd_buffer d).

Definition fill_rcvd_data (session_rec attached sample size rcvd_data : Z) : ndds bool :=
  let* a := attached_of attached in
  let* d := rcvd_of rcvd_data in
  let d := start_rcvd_data session_rec size a d in
  modify (put_rcvd rcvd_data d);;
  let* b := allocate_rcvd_data rcvd_data d in
  if (data_addr b =? 0)%Z then ret false else
  let* w := ncall (SampleToCdr sample (data_addr b) (data_len b)) in
  let b := {| data_addr := data_addr b; data_bytes := snd (fst w); data_len := snd w |} in
  modify (put_rcvd rcvd_data (set_rcvd_buffer b d));;
  if negb (dds_ok (fst (fst w))) then ret false else
  let* h := reads (fun _ => header_bytes b) in
  match cdr_header (fst h) (snd h) with
  | None => ret false
  | Some (e, le) =>
      let* rec := session_rec_of session_rec in
      modify (put_rcvd rcvd_data (end_rcvd_data rec a e le (set_rcvd_buffer b d)));;
      ret true
  end.

(** [None]: FALSE. *)
Definition NDDSA_Read_convert_sampleEA (session_rec attached sample size : Z) : ndds (option Z) :=
  let? rcvd_data := take_rcvd_data session_rec size else ret None in
  unless fill_rcvd_data session_rec attached sample size rcvd_data
  then pool_rcvd_data session_rec rcvd_data;; ret None else
  ret (Some rcvd_data).
(** ** Delivery *)

(** What is returned and written: the return code, [old_sample], [try_again] and,
    when it is written, [min_delay]. *)
Record Processed := {
  processed : bool;
  old_sample : bool;
  try_again : bool;
  min_delay : option NtpTime
}.

Definition process_failed : Processed :=
  {| processed := false; old_sample := false; try_again := false; min_delay := None |}.
Definition processed_old : Processed :=
  {| processed := true; old_sample := true; try_again := false; min_delay := None |}.
Definition processed_new : Processed :=
  {| processed := true; old_sample := false; try_again := false; min_delay := None |}.
Definition processed_later (delay : NtpTime) : Processed :=
  {| processed := true; old_sample := false; try_again := true; min_delay := Some delay |}.

(** How long the pace of a read makes a sample wait. *)
Definition pace_delay (r : NDDSA_Read) (ts_now : NtpTime) : option NtpTime :=
  let has_min_pace := negb (NtpTime_compareToZero (sample_pace r) =? 0)%Z in
  let ts_diff := NtpTime_subtract ts_now (last_sample_ts r) in
  if has_min_pace && (NtpTime_compare ts_diff (sample_pace r) <? 0)%Z
  then Some (NtpTime_subtract (sample_pace r) ts_diff) else None.

(** A sample the service has taken: a received data it keeps is listed, one it does
    not keep is counted. *)
Definition sample_delivered (attached read_req rcvd_data : Z) (sn : SequenceNumber)
    (ts_now : NtpTime) (retained : bool) : ndds unit :=
  let* r := read_of read_req in
  (if retained then
     modify (put_read read_req (set_samples (rq_samples r ++ [rcvd_data]) r))
   else
     let* a := attached_of attached in
     modify (put_attached attached (set_returned sn a));;
     modify (put_read read_req (set_samples_rcvd ((samples_rcvd r + 1) mod 2 ^ 32)%Z r)));;
  let* r := read_of read_req in
  modify (put_read read_req (set_last sn (last_sample_ts r) r));;
  let* a := attached_of attached in
  modify (put_attached attached (set_forwarded sn a));;
  let* r := read_of read_req in
  modify (put_read read_req (set_last (last_sample r) ts_now r)).

(** The part of the function after the received data is made.  [max_bytes] of the
    read is looked at and nothing is done with it. *)
Definition deliver_sample (session_rec attached read_req rcvd_data : Z) (sn : SequenceNumber)
    (ts_now : NtpTime) : ndds Processed :=
  let* rec := session_rec_of session_rec in
  let* a := attached_of attached in
  let s := sr_session rec in
  let* c := ncall (OnDataAvailable (cs_intf s) session_rec (cs_user_data s)
                     (att_id (at_base a)) (at_user_data a) rcvd_data) in
  let '(rc, retained, deliver_again) := c in
  if negb (dds_ok rc) then pool_rcvd_data session_rec rcvd_data;; ret process_failed
  else if deliver_again then
    pool_rcvd_data session_rec rcvd_data;;
    ret (processed_later (NtpTime_packFromMillisec 0 1))
  else
    sample_delivered attached read_req rcvd_data sn ts_now retained;;
    ret processed_new.

Definition NDDSA_Read_process_sampleEA (session_rec attached : Z) (sn : SequenceNumber)
    (sample : Z) (ts_now : NtpTime) : ndds Processed :=
  let* a := attached_of attached in
  let* read_req := not_null (read_req a) in
  let* r := read_of read_req in
  if (0 <=? SequenceNumber_compare (last_sample r) sn)%Z then ret processed_old else
  match pace_delay r ts_now with
  | Some delay => ret (processed_later delay)
  | None =>
      let* z := ncall (SampleCdrSize sample) in
      if negb (dds_ok (fst z)) then ret process_failed else
      let? rcvd_data := NDDSA_Read_convert_sampleEA session_rec attached sample (snd z)
      else ret process_failed in
      deliver_sample session_rec attached read_req rcvd_data sn ts_now
  end.

(** ** What a session and its reads are asked *)

Fixpoint find_attached_loop (resources : list Z) (resource_id : Z) : ndds (option Z) :=
  match resources with
  | [] => ret None
  | res :: resources =>
      let* a := attached_of res in
      if (att_id (at_base a) =? resource_id)%Z then ret (Some res)
      else find_attached_loop resources resource_id
  end.

Definition NDDSA_ClientSession_find_attached_resource (session : Z) (resource_id : Z)
    : ndds (option Z) :=
  let* rec := session_rec_of session in
  find_attached_loop (cs_resources (sr_session rec)) resource_id.

(** [finite_request] and [complete]. *)
Definition NDDSA_Read_is_complete (self : NDDSA_Read) (ts_now : NtpTime) : bool * bool :=
  let has_max_time := negb (NtpTime_compareToZero (max_elapsed_ts self) =? 0)%Z in
  let has_max_samples := (0 <? samples_max self)%Z in
  if negb has_max_time && negb has_max_samples then (false, false)
  else if has_max_time &&
      (NtpTime_compare (NtpTime_subtract ts_now (start_ts self)) (max_elapsed_ts self) <? 0)%Z
  then (true, false)
  else if has_max_samples && (samples_rcvd self <? samples_max self)%Z then (true, false)
  else (true, true).
End samples.

(** ** Traces *)

Section properties.
Context {N : NddsApi}.

Definition delivery_of (e : nevent) : list (Z * (DDS_ReturnCode_t * bool * bool)) :=
  match e with
  | existT c r =>
      match c return NResp c -> list (Z * (DDS_ReturnCode_t * bool * bool)) with
      | OnDataAvailable _ _ _ _ _ data => fun r => [(data, r)]
      | _ => fun _ => []
      end r
  end.

(** The received data handed to the service, with its answers. *)
Definition deliveries (t : list nevent) : list (Z * (DDS_ReturnCode_t * bool * bool)) :=
  flat_map delivery_of t.

Definition got_of (e : nevent) : list Z :=
  match e with
  | existT c r =>
      match c return NResp c -> list Z with
      | SamplePoolGet _ => fun r => match r with Some b => [fst b] | None => [] end
      | _ => fun _ => []
      end r
  end.

(** The received data taken from the pool of the agent. *)
Definition got (t : list nevent) : list Z := flat_map got_of t.

Definition serialized_of (e : nevent) : list (list Z * Z) :=
  match e with
  | existT c r =>
      match c return NResp c -> list (list Z * Z) with
      | SampleToCdr _ _ _ => fun r => [(snd (fst r), snd r)]
      | _ => fun _ => []
      end r
  end.

(** What the samples were serialized to. *)
Definition serialized (t : list nevent) : list (list Z * Z) := flat_map serialized_of t.

Lemma deliveries_app (t1 t2 : list (event NResp)) :
  deliveries (t1 ++ t2) = deliveries t1 ++ deliveries t2.
Proof. apply flat_map_app. Qed.
Lemma got_app (t1 t2 : list (event NResp)) : got (t1 ++ t2) = got t1 ++ got t2.
Proof. apply flat_map_app. Qed.
Lemma serialized_app (t1 t2 : list (event NResp)) :
  serialized (t1 ++ t2) = serialized t1 ++ serialized t2.
Proof. apply flat_map_app. Qed.

(** A sample that is serialized has its header written. *)
Definition header_written (e : nevent) : Prop :=
  match e with
  | existT c r =>
      match c return NResp c -> Prop with
      | SampleToCdr _ _ _ =>
          fun r => fst (fst r) = DDS_RETCODE_OK -> (2 <= length (snd (fst r)))%nat
      | _ => fun _ => True
      end r
  end.

(** ** The state around one sample *)

Context (sess att rq : Z) (rec : NDDSA_ClientSessionRecord).

(** The session has the received data [pool] to use again, the attached reader is
    [a] and its read is [r]. *)
Definition view (s : Ndds) (pool : list Z) (a : NDDSA_AttachedResource) (r : NDDSA_Read) : Prop :=
  session_at s !! sess = Some (set_rcvd_pool pool rec)
  /\ attached_at s !! att = Some a
  /\ read_at s !! rq = Some r.

(** Received data the memory has. *)
Definition known (s : Ndds) (l : list Z) : Prop := Forall (fun p => is_Some (rcvd_at s !! p)) l.

(** What handling samples leaves alone: of the received data, none is lost. *)
Definition around_samples (s s' : Ndds) : Prop :=
  db s' = db s /\ nd_agent s' = nd_agent s /\ resource_at s' = resource_at s
  /\ areader_at s' = areader_at s /\ rrequest_at s' = rrequest_at s
  /\ (forall p, is_Some (rcvd_at s !! p) -> is_Some (rcvd_at s' !! p)).

#[export] Instance around_samples_preorder : PreOrder around_samples.
Proof. unfold around_samples. split; [done | intros ???; naive_solver congruence]. Qed.

Lemma known_after s s' l : around_samples s s' -> known s l -> known s' l.
Proof. intros (_ & _ & _ & _ & _ & H) Hl. eapply Forall_impl; [exact Hl | done]. Qed.

Lemma around_rcvd p d s : around_samples s (put_rcvd p d s).
Proof.
  unfold around_samples; cbn. split_and!; try done. intros q Hq.
  destruct (decide (p = q)) as [->|]; [by rewrite lookup_insert_eq | by rewrite lookup_insert_ne].
Qed.

Ltac around := frame_auto; first [apply around_rcvd | done].

Lemma take_around size : preserves around_samples (take_rcvd_data sess size).
Proof. unfold take_rcvd_data, session_rec_of, rcvd_of. around. Qed.
Lemma pool_around p : preserves around_samples (pool_rcvd_data sess p).
Proof. unfold pool_rcvd_data, session_rec_of. around. Qed.
Lemma fill_around sample size p :
  preserves around_samples (fill_rcvd_data sess att sample size p).
Proof.
  unfold fill_rcvd_data, allocate_rcvd_data, attached_of, rcvd_of, session_rec_of. around.
Qed.
#[local] Hint Resolve take_around pool_around fill_around : frames.
Lemma process_around sn sample ts_now :
  preserves around_samples (NDDSA_Read_process_sampleEA sess att sn sample ts_now).
Proof.
  unfold NDDSA_Read_process_sampleEA, NDDSA_Read_convert_sampleEA, deliver_sample,
    sample_delivered, attached_of, not_null, read_of, session_rec_of. around.
Qed.

(** A received data made from the sample that was serialized to [bytes]. *)
Definition made_from (a : NDDSA_AttachedResource) (w : list Z * Z) (d : NDDSA_ReceivedData)
    : Prop :=
  rcv_session_key d = cs_key (sr_session rec)
  /\ rcv_reader_id d = att_id (at_base a)
  /\ rcv_read d = read_req a
  /\ rcv_session d = Some sess
  /\ dr_fmt (rcv_data d) = DATAREPRESENTATIONFORMAT_XCDR
  /\ data_bytes (rcvd_buffer d) = fst w
  /\ data_len (rcvd_buffer d) = snd w
  /\ exists b0 b1 rest, fst w = b0 :: b1 :: rest /\
       cdr_header b0 b1 =
         Some (encoding (dr_xcdr (rcv_data d)), little_endian (dr_xcdr (rcv_data d))).

Lemma set_pool_twice p q : set_rcvd_pool p (set_rcvd_pool q rec) = set_rcvd_pool p rec.
Proof. done. Qed.

Lemma take_spec s pool a r size :
  view s pool a r -> Forall (fun p => is_Some (rcvd_at s !! p)) pool ->
  spec header_written (take_rcvd_data sess size) s (fun t o s' =>
    deliveries t = [] /\ serialized t = [] /\
    known s' (pool ++ got t) /\
    match o with
    | None => view s' pool a r /\ got t = []
    | Some p => exists pool', view s' pool' a r /\ is_Some (rcvd_at s' !! p)
                  /\ pool ++ got t = p :: pool'
    end).
Proof.
  intros (Hs & Ha & Hr) Hp. apply spec_bind. eapply spec_reads; [exact Hs |].
  destruct pool as [|p pool]; cbn.
  - nstep. nstep. nstep. nstep. nstep.
    + nstep. nstep. nstep. split_and!; try done.
      { apply Forall_singleton. cbn. by rewrite lookup_insert_eq. }
      exists []. unfold view; cbn. rewrite lookup_insert_eq. split_and!; try done.
    + nstep. split_and!; try done.
  - pose proof Hp as Hk. apply Forall_cons in Hp as [[d Hd] Hp]. nstep. nstep. nstep.
    eapply spec_reads; [exact Hd |]. nstep. destruct (_ && _).
    + repeat nstep. split_and!; try done.
      { cbn. rewrite app_nil_r. eapply known_after; [| exact Hk].
        transitivity (put_session sess (set_rcvd_pool pool rec) s); [done | apply around_rcvd]. }
      exists pool. unfold view; cbn.
      rewrite !lookup_insert_eq. split_and!; by rewrite ?app_nil_r.
    + repeat nstep. split_and!; try done; [cbn; by rewrite app_nil_r |]. exists pool. unfold view; cbn.
      rewrite lookup_insert_eq. split_and!; by rewrite ?app_nil_r.
Qed.

Lemma pool_spec s pool a r p E :
  view s pool a r ->
  spec E (pool_rcvd_data sess p) s (fun t _ s' => t = [] /\ view s' (pool ++ [p]) a r).
Proof.
  intros (Hs & Ha & Hr). apply spec_bind. eapply spec_reads; [exact Hs |]. nstep.
  split; [done |]. unfold view; cbn. by rewrite lookup_insert_eq, set_pool_twice.
Qed.
Lemma allocate_spec s pool a r p d E :
  view s pool a r ->
  spec E (allocate_rcvd_data p d) s (fun t b s' =>
    view s' pool a r /\ (is_Some (rcvd_at s !! p) -> is_Some (rcvd_at s' !! p))
    /\ deliveries t = [] /\ got t = [] /\ serialized t = []
    /\ data_len b = data_len (rcvd_buffer d)).
Proof.
  intros Hv. unfold allocate_rcvd_data. nstep.
  - repeat nstep. cbn. split_and!; try done. intros _. by rewrite lookup_insert_eq.
  - nstep. done.
Qed.

Lemma fill_spec s pool a r sample size p :
  view s pool a r -> is_Some (rcvd_at s !! p) ->
  spec header_written (fill_rcvd_data sess att sample size p) s (fun t b s' =>
    view s' pool a r /\ got t = [] /\ deliveries t = [] /\
    exists d, rcvd_at s' !! p = Some d /\
      (b = true -> exists w, serialized t = [w] /\ made_from a w d)).
Proof.
  intros Hv [d Hd]. pose proof Hv as (Hs & Ha & Hr).
  apply spec_bind. eapply spec_reads; [exact Ha |]. nstep. eapply spec_reads; [exact Hd |].
  cbv zeta. nstep. nstep. nstep. eapply spec_mono; [apply (allocate_spec _ pool a r) |]; [done |].
  intros t b s1 (Hv1 & Hp & Hdel & Hgot & Hser & Hlen).
  destruct Hp as [d1 Hd1]; [by cbn; rewrite lookup_insert_eq |].
  assert (Hrest : forall t' : list (event NResp), got t' = [] -> deliveries t' = [] ->
            got ([] ++ [] ++ [] ++ t ++ t') = [] /\ deliveries ([] ++ [] ++ [] ++ t ++ t') = []).
  { intros t' Hg Hd'. cbn [app]. by rewrite got_app, deliveries_app, Hgot, Hdel, Hg, Hd'. }
  nstep; [nstep; destruct (Hrest [] eq_refl eq_refl); split_and!; try done; by exists d1 |].
  nstep. nstep. cbv zeta. nstep. nstep. nstep.
  { nstep. match goal with |- context [[] ++ [] ++ [] ++ t ++ ?t'] =>
      destruct (Hrest t' eq_refl eq_refl) end.
    split_and!; try done. eexists. split; [by cbn; rewrite lookup_insert_eq | done]. }
  destruct r0 as [[rc bytes] len]. cbn [fst snd] in *.
  assert (Hok : rc = DDS_RETCODE_OK) by (by destruct rc).
  destruct bytes as [|b0 [|b1 rest]]; [cbn in *; specialize (H Hok); lia .. |].
  nstep. eapply spec_reads; [done |]. cbn [fst snd].
  destruct (cdr_header b0 b1) as [[e le]|] eqn:Hh.
  - nstep. eapply spec_reads; [exact (proj1 Hv1) |]. nstep. nstep. nstep.
    match goal with |- context [[] ++ [] ++ [] ++ t ++ ?t'] =>
      destruct (Hrest t' eq_refl eq_refl) end.
    split_and!; try done. eexists. split; [by cbn; rewrite lookup_insert_eq |].
    intros _. exists (b0 :: b1 :: rest, len). split; [by cbn [app]; rewrite serialized_app, Hser |].
    unfold made_from; cbn. split_and!; try done. eauto.
  - nstep. match goal with |- context [[] ++ [] ++ [] ++ t ++ ?t'] =>
      destruct (Hrest t' eq_refl eq_refl) end.
    split_and!; try done. eexists. split; [by cbn; rewrite lookup_insert_eq | done].
Qed.

(** Converting a sample: a received data made from it, no longer in the session, or
    every received data in the session. *)
Lemma convert_spec s pool a r sample size :
  view s pool a r -> Forall (fun p => is_Some (rcvd_at s !! p)) pool ->
  spec header_written (NDDSA_Read_convert_sampleEA sess att sample size) s (fun t o s' =>
    deliveries t = [] /\ known s' (pool ++ got t) /\
    match o with
    | None => exists pool', view s' pool' a r /\ pool ++ got t ≡ₚ pool'
    | Some p => exists pool' d w, view s' pool' a r /\ pool ++ got t = p :: pool'
                  /\ rcvd_at s' !! p = Some d /\ serialized t = [w] /\ made_from a w d
    end).
Proof.
  intros Hv Hp. apply spec_bind. eapply spec_mono; [by apply (take_spec _ pool a r) |].
  intros t o s1 (Hd & Hser & Hk & H). destruct o as [p|].
  - destruct H as (pool' & Hv1 & Hp1 & Heq). nstep.
    eapply spec_mono; [apply spec_preserves; [by apply (fill_spec _ pool' a r) | apply fill_around] |].
    intros t2 b s2 [(Hv2 & Hg & Hd2 & d & Hrcv & Hmade) H12]. destruct b.
    + nstep. destruct Hmade as (w & Hw & Hm); [done |].
      rewrite !deliveries_app, !got_app, !serialized_app, Hd, Hd2, Hg, Hser, Hw. cbn.
      rewrite !app_nil_r. split; [done |]. split; [by eapply known_after |]. exists pool', d, w. done.
    + nstep. eapply spec_mono; [apply spec_preserves; [by apply (pool_spec _ pool' a r) |
        apply pool_around] |]. intros t3 [] s3 [[-> Hv3] H23].
      nstep. rewrite !deliveries_app, !got_app, Hd, Hd2, Hg. cbn. rewrite !app_nil_r.
      split; [done |]. split; [eapply known_after; [exact H23 |]; by eapply known_after |].
      exists (pool' ++ [p]). split; [done |]. rewrite Heq.
      by rewrite (Permutation_app_comm pool' [p]).
  - nstep. destruct H as [Hv1 Hg]. rewrite !deliveries_app, !got_app, Hd, Hg. cbn.
    split; [done |]. rewrite Hg in Hk. split; [done |]. exists pool. by rewrite app_nil_r.
Qed.
(** ** One sample *)

Definition delivered_read (r : NDDSA_Read) (p : Z) (sn : SequenceNumber) (ts_now : NtpTime)
    (retained : bool) : NDDSA_Read :=
  set_last sn ts_now
    (if retained then set_samples (rq_samples r ++ [p]) r
     else set_samples_rcvd ((samples_rcvd r + 1) mod 2 ^ 32)%Z r).

Definition delivered_attached (a : NDDSA_AttachedResource) (sn : SequenceNumber)
    (retained : bool) : NDDSA_AttachedResource :=
  set_forwarded sn (if retained then a else set_returned sn a).

Lemma delivered_spec s pool a r p sn ts_now retained E :
  view s pool a r ->
  spec E (sample_delivered att rq p sn ts_now retained) s (fun t _ s' =>
    t = [] /\ rcvd_at s' = rcvd_at s
    /\ view s' pool (delivered_attached a sn retained) (delivered_read r p sn ts_now retained)).
Proof.
  intros (Hs & Ha & Hr). apply spec_bind. eapply spec_reads; [exact Hr |]. apply spec_bind.
  assert (Hrest : forall s1 r1 a1, view s1 pool a1 r1 ->
    spec E (let* r := read_of rq in modify (put_read rq (set_last sn (last_sample_ts r) r));;
            let* a := attached_of att in modify (put_attached att (set_forwarded sn a));;
            let* r := read_of rq in modify (put_read rq (set_last (last_sample r) ts_now r)))
      s1 (fun t _ s' => t = [] /\ rcvd_at s' = rcvd_at s1
            /\ view s' pool (set_forwarded sn a1) (set_last sn ts_now r1))).
  { intros s1 r1 a1 (Hs1 & Ha1 & Hr1). nstep. eapply spec_reads; [exact Hr1 |]. nstep. nstep.
    nstep. eapply spec_reads; [exact Ha1 |]. nstep. nstep. nstep.
    eapply spec_reads; [cbn; by rewrite lookup_insert_eq |]. nstep.
    split_and!; try done. unfold view; cbn. by rewrite !lookup_insert_eq. }
  destruct retained.
  - nstep. eapply spec_mono; [eapply (Hrest _ _ a); unfold view; cbn; by rewrite lookup_insert_eq |].
    intros t [] s' (-> & Hrc & Hv). done.
  - nstep. eapply spec_reads; [exact Ha |]. nstep. nstep. nstep.
    eapply spec_mono; [eapply Hrest; unfold view; cbn; by rewrite !lookup_insert_eq |].
    intros t [] s' (-> & Hrc & Hv). done.
Qed.

Lemma deliver_spec s pool a r p sn ts_now E :
  view s pool a r ->
  spec E (deliver_sample sess att rq p sn ts_now) s (fun t res s' =>
    got t = [] /\ serialized t = [] /\ rcvd_at s' = rcvd_at s /\
    exists rc retained again, deliveries t = [(p, (rc, retained, again))] /\
      if dds_ok rc && negb again then
        res = processed_new
        /\ view s' pool (delivered_attached a sn retained) (delivered_read r p sn ts_now retained)
      else
        res = (if dds_ok rc then processed_later (NtpTime_packFromMillisec 0 1) else process_failed)
        /\ view s' (pool ++ [p]) a r).
Proof.
  intros Hv. pose proof Hv as (Hs & Ha & Hr). apply spec_bind.
  eapply spec_reads; [exact Hs |]. nstep. eapply spec_reads; [exact Ha |]. cbv zeta.
  apply spec_bind. refine (spec_call _ _ _ _ _). intros [[rc retained] again] _.
  assert (Hpool : forall res : Processed, spec E (pool_rcvd_data sess p;; ret res) s (fun t (res' : Processed) s' =>
    t = [] /\ res' = res /\ rcvd_at s' = rcvd_at s /\ view s' (pool ++ [p]) a r)).
  { intros res. nstep. eapply spec_bind, spec_reads; [exact Hs |]. nstep. nstep.
    split_and!; try done. unfold view; cbn. by rewrite lookup_insert_eq, set_pool_twice. }
  destruct (dds_ok rc) eqn:Hrc; cbn [negb andb].
  - destruct again.
    + eapply spec_mono; [apply Hpool |]. intros t res s' (-> & -> & Hm & Hv').
      split_and!; try done. exists rc, retained, true. split; [done |]. by rewrite Hrc.
    + nstep. eapply spec_mono; [by apply (delivered_spec s pool a r) |]. intros t [] s' (-> & Hm & Hv').
      nstep. split_and!; try done. exists rc, retained, false. split; [done |]. by rewrite Hrc.
  - eapply spec_mono; [apply Hpool |]. intros t res s' (-> & -> & Hm & Hv').
    split_and!; try done. exists rc, retained, again. split; [done |]. by rewrite Hrc.
Qed.
(** What one sample does, to the state and to its trace. *)
Definition sample_post (s : Ndds) (pool : list Z) (a : NDDSA_AttachedResource) (r : NDDSA_Read)
    (sn : SequenceNumber) (ts_now : NtpTime) (t : list nevent) (res : Processed) (s' : Ndds)
    : Prop :=
  let old := (0 <=? SequenceNumber_compare (last_sample r) sn)%Z in
  match deliveries t with
  | [] =>
      (if old then res = processed_old
       else match pace_delay r ts_now with
            | Some delay => res = processed_later delay
            | None => res = process_failed
            end)
      /\ (res <> process_failed -> t = [] /\ s' = s)
      /\ exists pool', view s' pool' a r /\ pool ++ got t ≡ₚ pool'
  | [(p, (rc, retained, again))] =>
      old = false /\ pace_delay r ts_now = None
      /\ exists pool' d w,
           pool ++ got t = p :: pool' /\ serialized t = [w]
           /\ rcvd_at s' !! p = Some d /\ made_from a w d
           /\ if dds_ok rc && negb again then
                res = processed_new
                /\ view s' pool' (delivered_attached a sn retained)
                                 (delivered_read r p sn ts_now retained)
              else
                res = (if dds_ok rc then processed_later (NtpTime_packFromMillisec 0 1)
                       else process_failed)
                /\ view s' (pool' ++ [p]) a r
  | _ => False
  end.

Lemma process_spec s pool a r sn sample ts_now :
  view s pool a r -> read_req a = Some rq -> Forall (fun p => is_Some (rcvd_at s !! p)) pool ->
  spec header_written (NDDSA_Read_process_sampleEA sess att sn sample ts_now) s
    (fun t res s' => sample_post s pool a r sn ts_now t res s' /\ known s' (pool ++ got t)).
Proof.
  intros Hv Hreq Hp. unfold sample_post. assert (Hk : known s (pool ++ [])) by (by rewrite app_nil_r).
  set (old := (0 <=? SequenceNumber_compare (last_sample r) sn)%Z). pose proof Hv as (Hs & Ha & Hr).
  apply spec_bind. eapply spec_reads; [exact Ha |]. nstep. eapply spec_reads; [exact Hreq |].
  nstep. eapply spec_reads; [exact Hr |]. fold old.
  assert (Hself : exists pool', view s pool' a r /\ pool ++ [] ≡ₚ pool')
    by (exists pool; by rewrite app_nil_r).
  destruct old; [nstep; split_and!; done |].
  destruct (pace_delay r ts_now) as [delay|] eqn:Hpace; [nstep; split_and!; done |].
  nstep. nstep. nstep; [nstep; split_and!; try done; by intros [] |].
  apply spec_bind. eapply spec_mono; [by apply (convert_spec s pool a r) |].
  intros t o s1 (Hd & Hk1 & Ho). destruct o as [p|].
  - destruct Ho as (pool' & d & w & Hv1 & Heq & Hrcv & Hw & Hm).
    eapply spec_mono; [by apply (deliver_spec s1 pool' a r) |].
    intros t2 res s2 (Hg2 & Hs2 & Hmem & rc & retained & again & Hd2 & Hres).
    rewrite <- Hmem in Hrcv. rewrite !deliveries_app, !got_app, !serialized_app.
    rewrite Hd, Hd2, Hg2, Hs2, Hw. cbn [deliveries got serialized flat_map delivery_of got_of serialized_of app].
    rewrite !app_nil_r. split_and!; try done; [by exists pool', d, w | by unfold known; rewrite Hmem].
  - nstep. rewrite !deliveries_app, !got_app, Hd.
    cbn [deliveries got serialized flat_map delivery_of got_of serialized_of app]. rewrite app_nil_r.
    split; [| by rewrite app_nil_r]. split; [done |]. split; [done |]. by rewrite app_nil_r.
Qed.

(** C17: a sample goes one of three ways.  An old one is dropped and one that comes too
    early for the pace of its read is put off, without a call.  One that is not handed
    to the service fails, and every received data is with the session.  One that is
    handed to the service is made from what was serialized, with the key of the
    session, the identifier of the reader and the encoding of its header; it leaves the
    session only when the service takes it, and then the read and its reader have the
    sequence number as their last and the sample is listed or counted, as the service
    keeps it or not. *)
Theorem process_sample_delivers s pool a r sn sample ts_now :
  view s pool a r -> read_req a = Some rq -> Forall (fun p => is_Some (rcvd_at s !! p)) pool ->
  let old := (0 <=? SequenceNumber_compare (last_sample r) sn)%Z in
  spec header_written (NDDSA_Read_process_sampleEA sess att sn sample ts_now) s
    (fun t res s' =>
       match deliveries t with
       | [] =>
           (if old then res = processed_old
            else match pace_delay r ts_now with
                 | Some delay => res = processed_later delay
                 | None => res = process_failed
                 end)
           /\ (res <> process_failed -> t = [] /\ s' = s)
           /\ exists pool', view s' pool' a r /\ pool ++ got t ≡ₚ pool'
       | [(p, (rc, retained, again))] =>
           old = false /\ pace_delay r ts_now = None
           /\ exists pool' d w,
                pool ++ got t = p :: pool' /\ serialized t = [w]
                /\ rcvd_at s' !! p = Some d /\ made_from a w d
                /\ if dds_ok rc && negb again then
                     res = processed_new
                     /\ view s' pool' (delivered_attached a sn retained)
                                      (delivered_read r p sn ts_now retained)
                   else
                     res = (if dds_ok rc then processed_later (NtpTime_packFromMillisec 0 1)
                            else process_failed)
                     /\ view s' (pool' ++ [p]) a r
       | _ => False
       end).
Proof.
  intros Hv Hreq Hp old. eapply spec_mono; [by apply (process_spec s pool a r) |].
  by intros t res s' [Hpost _].
Qed.

(** ** Limits of a read *)

(** a read is finite when it has a limit of time or of samples, and complete when
    it has reached every limit it has: a read with both goes on after the first. *)
Theorem is_complete_reaches_all (r : NDDSA_Read) (now : NtpTime) :
  let limited_time := NtpTime_compareToZero (max_elapsed_ts r) <> 0%Z in
  let limited_samples := (0 < samples_max r)%Z in
  let time_up :=
    (0 <= NtpTime_compare (NtpTime_subtract now (start_ts r)) (max_elapsed_ts r))%Z in
  let enough := (samples_max r <= samples_rcvd r)%Z in
  (fst (NDDSA_Read_is_complete r now) = true <-> limited_time \/ limited_samples)
  /\ (snd (NDDSA_Read_is_complete r now) = true <->
        (limited_time \/ limited_samples)
        /\ (limited_time -> time_up) /\ (limited_samples -> enough)).
Proof.
  cbv zeta. unfold NDDSA_Read_is_complete.
  destruct (Z.eqb_spec (NtpTime_compareToZero (max_elapsed_ts r)) 0);
    destruct (Z.ltb_spec 0 (samples_max r));
    destruct (Z.ltb_spec (NtpTime_compare (NtpTime_subtract now (start_ts r)) (max_elapsed_ts r)) 0);
    destruct (Z.ltb_spec (samples_rcvd r) (samples_max r)); cbn; intuition (lia || done).
Qed.
End properties.

(** ** An example: a client session with one reader, whose sample is retained or not *)

Definition example_read : NDDSA_Read := set_last 4%Z 0%Z NDDSA_READ_INITIALIZER.
Definition example_attached : NDDSA_AttachedResource :=
  {| at_base := {| att_kind := RESOURCEKIND_DATAREADER; att_resource := D2S2_RESOURCEID_INITIALIZER;
                   att_client := 7; att_session := 129; att_id := 22 |}%Z;
     at_resource := None; at_session := Some 100%Z; at_user_data := None; read_req := Some 300%Z;
     last_sample_forwarded := 0%Z; last_sample_returned := 0%Z |}.
Definition example_state : Ndds := put_attached 200 example_attached (put_read 300 example_read sample_ndds).

Definition example_rcvd : NDDSA_ReceivedData :=
  {| rcv_session_key := D2S2_CLIENTSESSIONKEY_INITIALIZER; rcv_reader_id := 0%Z;
     rcv_data := D2S2_DATAREPRESENTATION_INITIALIZER; rcv_read := None; rcv_session := None;
     rcv_dds_sn := 0%Z |}.

(** A sample of eight bytes in the first encoding, little endian. *)
Definition example_service (retained : bool) : environment NResp := fun _ c =>
  match c return NResp c -> NResp c with
  | SamplePoolGet _ => fun _ => Some (500%Z, example_rcvd)
  | BufferAllocate _ => fun _ => 600%Z
  | SampleCdrSize _ => fun _ => (DDS_RETCODE_OK, 8%Z)
  | SampleToCdr _ _ _ => fun _ => (DDS_RETCODE_OK, [0; 1; 0; 0; 1; 2; 3; 4]%Z, 8%Z)
  | OnDataAvailable _ _ _ _ _ _ => fun _ => (DDS_RETCODE_OK, retained, false)
  | _ => fun d => d
  end (quiet_ndds c).

Definition example_run (retained : bool) :=
  exec (example_service retained) [] (NDDSA_Read_process_sampleEA 100 200 5%Z 9 2%Z example_state).

(** The read and the session after the run. *)
Definition example_lists (retained : bool) : option (bool * option Z * list Z * list Z) :=
  match snd (example_run retained) with
  | Returned (res, s) =>
      match read_at s !! 300%Z, session_at s !! 100%Z with
      | Some r, Some rec =>
          Some (processed res, Some (last_sample r), rq_samples r, rcvd_data_pool (sr_session rec))
      | _, _ => None
      end
  | _ => None
  end.

(** A received data that the service does not keep is in neither list. *)
Example sample_retained : example_lists true = Some (true, Some 5%Z, [500%Z], []).
Proof. vm_compute. reflexivity. Qed.
Example sample_not_retained : example_lists false = Some (true, Some 5%Z, [], []).
Proof. vm_compute. reflexivity. Qed.

Lemma process_sample_delivers_witness :
  spec header_written (NDDSA_Read_process_sampleEA 100 200 5%Z 9 2%Z) example_state
    (fun t res s' => (length (deliveries t) <= 1)%nat).
Proof.
  eapply spec_mono;
    [apply (process_sample_delivers 100 200 300 sample_session example_state [] example_attached
              example_read 5%Z 9 2%Z)|].
  - unfold view. split_and!; vm_compute; reflexivity.
  - reflexivity.
  - by apply List.Forall_nil.
  - cbn beta zeta. intros t res s' H.
    destruct (deliveries t) as [|[p [[rc retained] again]] [|]]; [cbn; lia .. | destruct H].
Defined.
