(* ===== verification/NddsReaders.v ===== *)
(** * DDS agent: readers and their requests

    [NddsReader.c] and [NDDSA_Agent_post_event] of [NddsAgent.c].  A reader of the
    agent ([NDDSA_Reader]) has a DDS data reader and the requests of the reads it
    serves.  It listens for data while it has requests, posts an event to every read
    when data arrives, and takes from DDS the samples that no read wants any more.

    The list of requests is walked as it is in memory when the walk starts: nothing
    changes it during a walk. *)

From Stdlib Require Import ZArith Lia Ascii String.
From stdpp Require Import base tactics list gmap.
From S2P Require Import Prelude.
From S2P Require Import CString.
From S2P Require Import Infrastructure.
From S2P Require Import Interaction.
From S2P Require Import Protocol.
From S2P Require Import ServiceData.
From S2P Require Import NddsData.
From S2P Require Import NddsResources.

Local Open Scope nano_scope.

Section readers.
Context {N : NddsApi} {C : ConnextCore}.

Definition NDDSA_Agent_post_event (listener : EventListener) (delay : NtpTime) : ndds bool :=
  let* now := ncall ClockGetTime in
  if negb (fst now) then ret false else
  let ts_event := NtpTime_add (snd now) delay in
  unless ncall (PostEvent ts_event listener) then ret false else
  ret true.

(** ** Updates *)

Definition set_reader_id (id : D2S2_ResourceId) (r : NDDSA_Reader) : NDDSA_Reader :=
  {| rd_resource_id := id; rd_agent := rd_agent r; dyn_reader := dyn_reader r;
     sem_requests := sem_requests r; rd_requests := rd_requests r;
     pool_requests := pool_requests r; dismiss_sn := dismiss_sn r; rd_deleted := rd_deleted r |}.
Definition set_dyn_reader (d : option Z) (r : NDDSA_Reader) : NDDSA_Reader :=
  {| rd_resource_id := rd_resource_id r; rd_agent := rd_agent r; dyn_reader := d;
     sem_requests := sem_requests r; rd_requests := rd_requests r;
     pool_requests := pool_requests r; dismiss_sn := dismiss_sn r; rd_deleted := rd_deleted r |}.
Definition set_sem_requests (d : option Z) (r : NDDSA_Reader) : NDDSA_Reader :=
  {| rd_resource_id := rd_resource_id r; rd_agent := rd_agent r; dyn_reader := dyn_reader r;
     sem_requests := d; rd_requests := rd_requests r;
     pool_requests := pool_requests r; dismiss_sn := dismiss_sn r; rd_deleted := rd_deleted r |}.
Definition set_requests (l : list Z) (r : NDDSA_Reader) : NDDSA_Reader :=
  {| rd_resource_id := rd_resource_id r; rd_agent := rd_agent r; dyn_reader := dyn_reader r;
     sem_requests := sem_requests r; rd_requests := l;
     pool_requests := pool_requests r; dismiss_sn := dismiss_sn r; rd_deleted := rd_deleted r |}.
Definition set_pool_requests (d : option Z) (r : NDDSA_Reader) : NDDSA_Reader :=
  {| rd_resource_id := rd_resource_id r; rd_agent := rd_agent r; dyn_reader := dyn_reader r;
     sem_requests := sem_requests r; rd_requests := rd_requests r;
     pool_requests := d; dismiss_sn := dismiss_sn r; rd_deleted := rd_deleted r |}.
Definition set_dismiss_sn (sn : SequenceNumber) (r : NDDSA_Reader) : NDDSA_Reader :=
  {| rd_resource_id := rd_resource_id r; rd_agent := rd_agent r; dyn_reader := dyn_reader r;
     sem_requests := sem_requests r; rd_requests := rd_requests r;
     pool_requests := pool_requests r; dismiss_sn := sn; rd_deleted := rd_deleted r |}.

Definition upd_reader (self : Z) (f : NDDSA_Reader -> NDDSA_Reader) : ndds unit :=
  let* r := areader_of self in modify (put_areader self (f r)).

(** ** Data *)

(** The delay is zero: a read is told at once. *)
Fixpoint notify_loop (requests : list Z) : ndds bool :=
  match requests with
  | [] => ret true
  | req :: requests =>
      let* q := rrequest_of req in
      let* read := not_null (rrq_read q) in
      let* rd := read_of read in
      unless NDDSA_Agent_post_event (ReadEvent read (ev_live rd)) NTP_TIME_ZERO then ret false else
      notify_loop requests
  end.

(** Reading a sample clears the status of DDS. *)
Definition clear_data_available (self : Z) : ndds bool :=
  let* r := areader_of self in
  let* d := ncall (ReaderRead (dyn_reader r)) in
  let rc := fst (fst d) in
  if dds_ok rc then
    let* rc := ncall (ReaderReturnLoan (dyn_reader r)) in
    ret (dds_ok rc)
  else ret (bool_decide (rc = DDS_RETCODE_NO_DATA)).

Definition NDDSA_Reader_notify_data_available (self : Z) : ndds bool :=
  let* r := areader_of self in
  ncall (MutexTake (sem_requests r));;
  let* ok := clear_data_available self in
  let* r := areader_of self in
  let* res := (if ok then notify_loop (rd_requests r) else ret false) in
  ncall (MutexGive (sem_requests r));;
  ret res.

Definition NDDSA_Reader_on_data_available (handler : Z) : ndds unit :=
  let* r := areader_of handler in
  if bool_decide (rd_agent r = None) then ret tt else
  NDDSA_Reader_notify_data_available handler;; ret tt.

(** ** Life of a reader *)

(** The reader of DDS a resource has.  The union is read only where the kind says
    that it holds an entity. *)
Definition native_entity (kind : D2S2_ResourceKind) (res : NDDSA_Resource) : ndds (option Z) :=
  if negb (bool_decide (res_kind (resource_base res) = kind)) then ret None else
  match native_kind (native res) with
  | RESOURCENATIVEKIND_ENTITY =>
      match native_value (native res) with
      | NativeEntity e => ret e
      | NativeGeneric _ => undefined
      end
  | _ => ret None
  end.

Definition NDDSA_Reader_initialize (self resource : Z) : ndds bool :=
  let* rr := resource_rec_of resource in
  let res := rr_resource rr in
  let? reader := native_entity RESOURCEKIND_DATAREADER res else ret false in
  let '(ok, id) := D2S2_ResourceId_copy (rd_resource_id NDDSA_READER_INITIALIZER)
                     (res_id (resource_base res)) in
  modify (put_areader self (set_reader_id id NDDSA_READER_INITIALIZER));;
  if negb ok then ret false else
  let* d := ncall (ReaderNarrow reader) in
  upd_reader self (set_dyn_reader d);;
  if negb (bool_decide (is_Some d)) then ret false else
  let* p := ncall RequestPoolNew in
  upd_reader self (set_pool_requests p);;
  if negb (bool_decide (is_Some p)) then ret false else
  let* m := ncall MutexNew in
  upd_reader self (set_sem_requests m);;
  ret (bool_decide (is_Some m)).

(** What the finalizer of an identifier frees. *)
Definition free_string (f : freed) : ndds unit :=
  match f with
  | FreedString (Some s) => ncall (StringFree s);; ret tt
  | FreedConfused => undefined
  | _ => ret tt
  end.

Definition NDDSA_Reader_finalize (self : Z) : ndds bool :=
  let* r := areader_of self in
  match rd_requests r with
  | _ :: _ => ret false
  | [] =>
      let* reader := ncall (ReaderAsDataReader (dyn_reader r)) in
      let* rc := ncall (ReaderSetListener reader ListenNothing) in
      if negb (dds_ok rc) then ret false else
      ncall (MutexDelete (sem_requests r));;
      (if bool_decide (is_Some (pool_requests r)) then
         ncall (RequestPoolDelete (pool_requests r));;
         upd_reader self (set_pool_requests None)
       else ret tt);;
      let '(f, id) := D2S2_ResourceId_finalize (rd_resource_id r) in
      free_string f;;
      upd_reader self (set_reader_id id);;
      ret true
  end.

(** ** Requests *)

(** The first request of a read; the walk goes one node further than it needs. *)
Fixpoint find_request_loop (read : Z) (requests : list Z) : ndds (option Z) :=
  match requests with
  | [] => ret None
  | req :: requests =>
      let* q := rrequest_of req in
      if bool_decide (rrq_read q = Some read) then ret (Some req)
      else find_request_loop read requests
  end.

Definition NDDSA_Reader_find_request_by_read (self read : Z) : ndds (option Z) :=
  let* r := areader_of self in
  find_request_loop read (rd_requests r).

(** The condition of a request is deleted again and again until that is granted:
    the failure branch jumps back to the label it is under. *)
Fixpoint delete_condition_loop (fuel : nat) (dds_reader req : Z) : ndds unit :=
  match fuel with
  | O => unfinished
  | S fuel =>
      let* q := rrequest_of req in
      match query_condition q with
      | None => ret tt
      | Some c =>
          let* rc := ncall (QueryConditionDelete dds_reader c) in
          if dds_ok rc then ret tt else delete_condition_loop fuel dds_reader req
      end
  end.

(** The code at [done] after a failure, when there is a request. *)
Definition new_request_failed (fuel : nat) (self dds_reader req : Z) (first_request : bool)
    : ndds bool :=
  delete_condition_loop fuel dds_reader req;;
  let* r := areader_of self in
  ncall (RequestPoolReturn (pool_requests r) req);;
  (if first_request then
     ncall (ReaderSetListener (Some dds_reader) (ListenDataAvailable self));; ret tt
   else ret tt);;
  ret false.

Definition add_request (fuel : nat) (self dds_reader req : Z) : ndds bool :=
  let* r := areader_of self in
  ncall (MutexTake (sem_requests r));;
  let* r := areader_of self in
  let first_request := bool_decide (rd_requests r = []) in
  modify (put_areader self (set_requests (rd_requests r ++ [req]) r));;
  ncall (MutexGive (sem_requests r));;
  if first_request then
    let* rc := ncall (ReaderSetListener (Some dds_reader) (ListenDataAvailable self)) in
    if dds_ok rc then ret true
    else new_request_failed fuel self dds_reader req true
  else ret true.

Definition NDDSA_Reader_new_request (fuel : nat) (self read : Z) : ndds bool :=
  let* r := areader_of self in
  let? dds_reader := ncall (ReaderAsDataReader (dyn_reader r)) else ret false in
  ncall (MutexTake (sem_requests r));;
  let* found := NDDSA_Reader_find_request_by_read self read in
  ncall (MutexGive (sem_requests r));;
  match found with
  | Some req => new_request_failed fuel self dds_reader req false
  | None =>
      let? req := ncall (RequestPoolGet (pool_requests r)) else ret false in
      modify (put_rrequest req {| rrq_read := Some read; query_condition := None |});;
      let* rd := read_of read in
      match rq_content_filter_expr rd with
      | Some expr =>
          let* c := ncall (QueryConditionNew dds_reader expr) in
          modify (put_rrequest req {| rrq_read := Some read; query_condition := c |});;
          if bool_decide (c = None)
          then new_request_failed fuel self dds_reader req false
          else add_request fuel self dds_reader req
      | None => add_request fuel self dds_reader req
      end
  end.

(** The first of the equal elements of a list of nodes is unlinked. *)
Fixpoint unlink (p : Z) (l : list Z) : list Z :=
  match l with
  | [] => []
  | q :: l => if (q =? p)%Z then l else q :: unlink p l
  end.

Definition NDDSA_Reader_request_complete (self read : Z) : ndds bool :=
  let* r := areader_of self in
  let? dds_reader := ncall (ReaderAsDataReader (dyn_reader r)) else ret false in
  ncall (MutexTake (sem_requests r));;
  NDDSA_Reader_find_request_by_read self read;;
  let* found := NDDSA_Reader_find_request_by_read self read in
  match found with
  | None => ncall (MutexGive (sem_requests r));; ret false
  | Some req =>
      let* r := areader_of self in
      let requests := unlink req (rd_requests r) in
      modify (put_areader self (set_requests requests r));;
      ncall (MutexGive (sem_requests r));;
      let* q := rrequest_of req in
      let* rc := match query_condition q with
                 | Some c => ncall (QueryConditionDelete dds_reader c)
                 | None => ret DDS_RETCODE_OK
                 end in
      if negb (dds_ok rc) then ret false else
      ncall (RequestPoolReturn (pool_requests r) req);;
      match requests with
      | [] => let* rc := ncall (ReaderSetListener (Some dds_reader) ListenNothing) in
              ret (dds_ok rc)
      | _ => ret true
      end
  end.
(** ** Samples no read wants any more *)

(** The least of the last samples of the reads, as far as [dismiss_sn] and the rest of
    the requests say. *)
Fixpoint dismiss_loop_sn (requests : list Z) (first : bool) (dismiss : SequenceNumber)
    : ndds SequenceNumber :=
  match requests with
  | [] => ret dismiss
  | req :: requests =>
      let* q := rrequest_of req in
      let* read := not_null (rrq_read q) in
      let* rd := read_of read in
      if first || (0 <=? SequenceNumber_compare dismiss (last_sample rd))%Z
      then dismiss_loop_sn requests false (last_sample rd)
      else dismiss_loop_sn requests first dismiss
  end.

(** Whether the next sample of DDS is to be left there; [None] when the call is to
    fail. *)
Definition peek_sample (self : Z) (dismiss : SequenceNumber) : ndds (option bool) :=
  let* r := areader_of self in
  let* d := ncall (ReaderRead (dyn_reader r)) in
  let '(rc, sn, valid) := d in
  if bool_decide (rc = DDS_RETCODE_NO_DATA) then ret (Some true) else
  if negb (dds_ok rc) then ret None else
  let* rc := ncall (ReaderReturnLoan (dyn_reader r)) in
  if negb (dds_ok rc) then ret None else
  ret (Some (valid && (0 <? SequenceNumber_compare sn dismiss)%Z)).

(** The next sample is taken and given back; the answer is whether the call goes on. *)
Definition dismiss_sample (self : Z) : ndds bool :=
  let* r := areader_of self in
  let* d := ncall (ReaderTake (dyn_reader r)) in
  let '(rc, sn, valid) := d in
  if negb (dds_ok rc) then ret false else
  upd_reader self (set_dismiss_sn sn);;
  let* rc := ncall (ReaderReturnLoan (dyn_reader r)) in
  ret (dds_ok rc).

Fixpoint dismiss_samples_loop (fuel : nat) (self : Z) (dismiss : SequenceNumber) : ndds bool :=
  match fuel with
  | O => unfinished
  | S fuel =>
      let? stop := peek_sample self dismiss else ret false in
      if (stop : bool) then ret true else
      unless dismiss_sample self then ret false else
      let* r := areader_of self in
      if (0 <=? SequenceNumber_compare (dismiss_sn r) dismiss)%Z then ret true
      else dismiss_samples_loop fuel self dismiss
  end.

Definition NDDSA_Reader_requests_updated (fuel : nat) (self : Z) : ndds bool :=
  let* r := areader_of self in
  let* dismiss := dismiss_loop_sn (rd_requests r) true SEQUENCENUMBER_DEFAULT in
  if (SequenceNumber_compare dismiss (dismiss_sn r) <=? 0)%Z then ret true else
  dismiss_samples_loop fuel self dismiss.
End readers.

(** ** The samples DDS has for a reader

    The samples in order, each with its sequence number and whether it has data, and
    whether one of them is on loan.  DDS answers a read with the first sample and a
    take removes it, or the call fails; a sample can be on loan only once.  Samples may
    arrive at any call: they are newer than [bound]. *)

Section cache.
Context {N : NddsApi} {NOk : NddsApiOk N}.

Record Cache := { samples : list (SequenceNumber * bool); lent : bool }.

Context (reader : Z) (bound : SequenceNumber).

Definition newer (x : SequenceNumber * bool) : Prop := (0 < SequenceNumber_compare (fst x) bound)%Z.

Definition cache_allowed (h : Cache) (c : NCall) : Prop :=
  match c with
  | ReaderRead d | ReaderTake d => d = Some reader /\ lent h = false
  | ReaderReturnLoan d => d = Some reader /\ lent h = true
  | _ => False
  end.

Definition cache_answers (h : Cache) (e : nevent) (h' : Cache) : Prop :=
  exists arrived, Forall newer arrived /\
  let l := samples h ++ arrived in
  match e with
  | existT c r =>
      match c return NResp c -> Prop with
      | ReaderRead _ => fun r =>
          match r with
          | (DDS_RETCODE_OK, sn, valid) =>
              exists rest, l = (sn, valid) :: rest /\ h' = {| samples := l; lent := true |}
          | (rc, _, _) =>
              (rc = DDS_RETCODE_NO_DATA -> l = []) /\ h' = {| samples := l; lent := false |}
          end
      | ReaderTake _ => fun r =>
          match r with
          | (DDS_RETCODE_OK, sn, valid) =>
              exists rest, l = (sn, valid) :: rest /\ h' = {| samples := rest; lent := true |}
          | _ => h' = {| samples := l; lent := false |}
          end
      | ReaderReturnLoan _ => fun r => h' = {| samples := l; lent := negb (dds_ok r) |}
      | _ => fun _ => False
      end r
  end.

(** A sample no later than [bound], and how many of the samples are earlier. *)
Definition dismissible (x : SequenceNumber * bool) : Prop := snd x = true -> ~ newer x.

Definition earlier (l : list (SequenceNumber * bool)) : nat :=
  length (List.filter (fun x => SequenceNumber_compare (fst x) bound <? 0)%Z l).

Lemma newer_not_earlier l : Forall newer l -> earlier l = 0%nat.
Proof.
  unfold earlier. induction 1 as [|x l Hx Hl IH]; [done |]. cbn.
  destruct (Z.ltb_spec (SequenceNumber_compare (fst x) bound) 0); unfold newer in Hx; [lia | done].
Qed.

Lemma earlier_app l1 l2 : earlier (l1 ++ l2) = (earlier l1 + earlier l2)%nat.
Proof. unfold earlier. by rewrite List.filter_app, length_app. Qed.

Lemma earlier_cons x l :
  earlier (x :: l) =
    ((if (SequenceNumber_compare (fst x) bound <? 0)%Z then 1 else 0) + earlier l)%nat.
Proof. unfold earlier; cbn. by case_match. Qed.

(** Which samples are taken when the loop is done: a first part of them, those with data
    no later than [bound], and as many as there are. *)
Definition dismisses (l : list (SequenceNumber * bool)) (h' : Cache) (r r' : NDDSA_Reader)
    (done : bool) : Prop :=
  exists taken arrived, l ++ arrived = taken ++ samples h'
    /\ Forall newer arrived /\ Forall dismissible taken
    /\ r' = set_dismiss_sn (List.last (map fst taken) (dismiss_sn r)) r
    /\ (done = true -> lent h' = false /\
          match samples h' with
          | [] => True
          | x :: _ => (snd x = true /\ newer x)
                      \/ (taken <> [] /\ 0 <= SequenceNumber_compare (dismiss_sn r') bound)%Z
                end).

Definition reader_at (self : Z) (r : NDDSA_Reader) (s : Ndds) : Prop :=
  areader_at s !! self = Some r /\ dyn_reader r = Some reader.

Lemma peek_triple self r s l :
  reader_at self r s ->
  triple cache_allowed cache_answers {| samples := l; lent := false |} (peek_sample self bound) s
    (fun h' o s' => s' = s /\ exists arrived, Forall newer arrived /\ samples h' = l ++ arrived
       /\ match o with
          | Some stop => lent h' = false /\
              match samples h' with
              | [] => stop = true
              | x :: _ => stop = true <-> snd x = true /\ newer x
              end
          | None => True
          end).
Proof.
  intros [Hr Hd]. apply triple_bind. eapply triple_reads; [exact Hr |]. pstep. pstep; [by rewrite Hd |].
  destruct r0 as [[rc sn] valid]; cbn [fst snd]. cbn beta iota. destruct H as (arrived & Hnew & H).
  destruct (bool_decide_reflect (rc = DDS_RETCODE_NO_DATA)) as [Hrc|Hrc].
  { cbn beta iota. pstep. split; [done |]. exists arrived. pose proof no_data_not_ok.
    destruct rc; [by destruct H0 |..]; destruct H as [Hl ->]; cbn in *;
      by rewrite (Hl Hrc). }
  destruct rc; cbn [dds_ok negb]; [| by pstep; destruct H as [_ ->]; eauto ..].
  destruct H as (rest & Hl & ->). pstep. pstep; [by rewrite Hd |].
  destruct H as (arrived2 & Hnew2 & ->). destruct (dds_ok r0) eqn:Hok; cbn [negb]; pstep.
  - split; [done |]. exists (arrived ++ arrived2). cbn. rewrite <- app_assoc.
    split_and!; [by apply Forall_app | done | done |].
    cbn [samples] in Hl. rewrite app_assoc, Hl. cbn. unfold newer; cbn.
    rewrite andb_true_iff, Z.ltb_lt. tauto.
  - split; [done |]. exists (arrived ++ arrived2). cbn. rewrite <- app_assoc.
    split_and!; [by apply Forall_app | done | done].
Qed.

Lemma dismiss_triple self r s l :
  reader_at self r s -> l <> [] ->
  triple cache_allowed cache_answers {| samples := l; lent := false |} (dismiss_sample self) s
    (fun h' b s' => exists arrived, Forall newer arrived /\
       ((b = false /\ s' = s /\ samples h' = l ++ arrived)
        \/ exists x rest, l = x :: rest /\ samples h' = rest ++ arrived
             /\ lent h' = negb b
             /\ s' = put_areader self (set_dismiss_sn (fst x) r) s)).
Proof.
  intros [Hr Hd] Hl. apply triple_bind. eapply triple_reads; [exact Hr |]. pstep. pstep; [by rewrite Hd |].
  destruct r0 as [[rc sn] valid]; cbn [fst snd]. cbn beta iota. destruct H as (arrived & Hnew & H).
  destruct rc; cbn [dds_ok negb]; [| pstep; exists arrived; rewrite H; by eauto ..].
  destruct H as (rest & He & ->). pstep. apply triple_bind.
  eapply triple_reads; [exact Hr |]. pstep. pstep. pstep; [by rewrite Hd |]. destruct H as (arrived2 & Hnew2 & ->). pstep.
  exists (arrived ++ arrived2). split; [by apply Forall_app |]. right.
  destruct l as [|x l]; [done |]. cbn in He. injection He as -> <-.
  exists (sn, valid), l. cbn. by rewrite app_assoc.
Qed.
Lemma put_areader_id self r s : areader_at s !! self = Some r -> put_areader self r s = s.
Proof. intros H. destruct s; cbn in *. unfold put_areader; cbn. by rewrite insert_id. Qed.

Lemma put_areader_twice self r1 r2 s :
  put_areader self r1 (put_areader self r2 s) = put_areader self r1 s.
Proof. unfold put_areader; cbn. by rewrite insert_insert_eq. Qed.

Lemma set_dismiss_id r : set_dismiss_sn (dismiss_sn r) r = r.
Proof. by destruct r. Qed.

(** Nothing was taken. *)
Lemma dismisses_none l h' r done :
  (exists arrived, Forall newer arrived /\ samples h' = l ++ arrived) ->
  (done = true -> lent h' = false /\ match samples h' with
                                    | [] => True
                                    | x :: _ => snd x = true /\ newer x
                                    end) ->
  dismisses l h' r r done.
Proof.
  intros (arrived & Hnew & Hs) Hdone. exists [], arrived. cbn. rewrite set_dismiss_id.
  split_and!; try done; try by apply List.Forall_nil.
  intros Hd. specialize (Hdone Hd) as [Hl Hm]. split; [done |]. destruct (samples h'); auto.
Qed.

(** One sample was taken, and what follows was. *)
Lemma dismisses_cons x rest arrived l h' r r' done :
  dismissible x -> l ++ arrived = x :: rest -> Forall newer arrived ->
  dismisses rest h' (set_dismiss_sn (fst x) r) r' done -> dismisses l h' r r' done.
Proof.
  intros Hx Hl Hnew (taken & arrived2 & Happ & Hnew2 & Htaken & -> & Hd).
  exists (x :: taken), (arrived ++ arrived2). split_and!.
  - rewrite app_assoc, Hl. cbn. by rewrite Happ.
  - by apply Forall_app.
  - by apply Forall_cons.
  - cbn. destruct taken as [|y taken]; [done |].
    change (List.last (fst x :: map fst (y :: taken)) (dismiss_sn r))
      with (List.last (map fst (y :: taken)) (dismiss_sn r)).
    unfold set_dismiss_sn; cbn. f_equal. clear. revert y; induction taken; cbn; [done | auto].
  - intros E. destruct (Hd E) as [Hlent Hm]. split; [done |]. destruct (samples h'); [done |].
    destruct Hm as [|[_ Hm]]; [by auto | right]. split; [done | exact Hm].
Qed.

Lemma loop_triple fuel self r s l :
  reader_at self r s -> (earlier l < fuel)%nat ->
  triple cache_allowed cache_answers {| samples := l; lent := false |}
    (dismiss_samples_loop fuel self bound) s
    (fun h' b s' => exists r', s' = put_areader self r' s /\ dismisses l h' r r' b).
Proof.
  revert r s l; induction fuel as [|fuel IH]; intros r s l Hr Hf; [lia |].
  assert (Hsame : s = put_areader self r s) by (symmetry; by apply put_areader_id, Hr).
  apply triple_bind. eapply triple_mono; [by eapply peek_triple |].
  intros [l1 b1] o s1 (-> & a1 & Ha1 & Hl1 & Ho); cbn [samples lent] in *. destruct o as [stop|].
  2: { pstep. exists r. split; [done |]. apply dismisses_none; [by exists a1 | done]. }
  destruct Ho as [-> Ho]. destruct stop.
  { pstep. exists r. split; [done |]. apply dismisses_none; [by exists a1 | intros _; cbn].
    split; [done |]. destruct l1; [done | by apply Ho]. }
  destruct l1 as [|x l1]; [done |].
  assert (Hx : dismissible x). { intros Hv Hn. destruct Ho as [_ Ho]. discriminate (Ho (conj Hv Hn)). }
  apply triple_bind. eapply triple_mono; [by eapply dismiss_triple |].
  intros h2 b s2 (a2 & Ha2 & [(-> & -> & Hs2) | (y & rest & [= <- <-] & Hs2 & Hlent & ->)]).
  { pstep. exists r. split; [done |]. apply dismisses_none; [| done]. exists (a1 ++ a2).
    split; [by apply Forall_app |]. by rewrite Hs2, Hl1, app_assoc. }
  destruct b; cycle 1.
  { pstep. eexists. split; [done |]. eapply (dismisses_cons x l1 a1); [done | done | done |].
    apply dismisses_none; [by eauto | done]. }
  apply triple_bind. eapply triple_reads; [cbn; by rewrite lookup_insert_eq |]. cbn [dismiss_sn set_dismiss_sn].
  destruct (Z.leb_spec 0 (SequenceNumber_compare (fst x) bound)) as [Hle|Hlt].
  - pstep. eexists. split; [done |].
    exists [x], (a1 ++ a2). cbn. split_and!; try done.
    + by rewrite app_assoc, <- Hl1, Hs2.
    + by apply Forall_app.
    + apply Forall_cons. split; [done | by apply List.Forall_nil].
    + intros _. split; [done |]. destruct (samples h2); [done | right]. split; [done | exact Hle].
  - destruct h2 as [l2 b2]; cbn in Hs2, Hlent; subst.
    eapply triple_mono; [apply (IH (set_dismiss_sn (fst x) r)) |].
    + destruct Hr. split; [cbn; by rewrite lookup_insert_eq | done].
    + assert (Hc : earlier (l ++ a1) = earlier (x :: l1)) by (by rewrite Hl1).
      rewrite earlier_app, (newer_not_earlier a1), earlier_cons in Hc by done.
      rewrite earlier_app, (newer_not_earlier a2) by done.
      destruct (Z.ltb_spec (SequenceNumber_compare (fst x) bound) 0); lia.
    + intros h' b s' (r' & -> & Hd). exists r'. split; [by rewrite put_areader_twice |].
      destruct Hd as (taken & arrived & Happ & Hnew & Ht & -> & Hdone).
      eapply (dismisses_cons x (l1 ++ a2) (a1 ++ a2)); [done | | by apply Forall_app |].
      * by rewrite app_assoc, <- Hl1.
      * by exists taken, arrived.
Qed.
End cache.

(** ** What the requests want *)

Section dismissing.
Context {N : NddsApi} {NOk : NddsApiOk N}.

Fixpoint least (first : bool) (d : SequenceNumber) (lasts : list SequenceNumber) : SequenceNumber :=
  match lasts with
  | [] => d
  | l :: lasts =>
      if first || (0 <=? SequenceNumber_compare d l)%Z then least false l lasts
      else least first d lasts
  end.

(** The last samples of the reads of a list of requests. *)
Definition served (s : Ndds) : list Z -> list SequenceNumber -> Prop :=
  Forall2 (fun q l => exists rr rd r, rrequest_at s !! q = Some rr /\ rrq_read rr = Some rd
                        /\ read_at s !! rd = Some r /\ last_sample r = l).

Lemma sn_refl a : SequenceNumber_compare a a = 0%Z.
Proof. by apply (cmp_zero sn_order a a I I). Qed.

Lemma sn_flip a b :
  (SequenceNumber_compare a b <= 0 <-> 0 <= SequenceNumber_compare b a)%Z.
Proof. pose proof (cmp_flip sn_order a b I I) as H. unfold sign_flip in H. lia. Qed.

Lemma least_spec lasts first d :
  (first = false -> SequenceNumber_compare (least first d lasts) d <= 0)%Z
  /\ forall l, l ∈ lasts -> (SequenceNumber_compare (least first d lasts) l <= 0)%Z.
Proof.
  revert first d; induction lasts as [|l lasts IH]; intros first d; cbn.
  - split; [by rewrite sn_refl | intros l Hl; by apply not_elem_of_nil in Hl].
  - destruct first; cbn [orb].
    + destruct (IH false l) as [H1 H2]. split; [done |].
      intros l' [->|Hl]%elem_of_cons; [by apply H1 | by apply H2].
    + destruct (Z.leb_spec 0 (SequenceNumber_compare d l)) as [Hd|Hd].
      * destruct (IH false l) as [H1 H2]. apply sn_flip in Hd. split.
        -- intros _. eapply sn_trans; [by apply H1 | done].
        -- intros l' [->|Hl]%elem_of_cons; [by apply H1 | by apply H2].
      * destruct (IH false d) as [H1 H2]. split; [by apply H1 |].
        intros l' [->|Hl]%elem_of_cons; [| by apply H2].
        eapply sn_trans; [by apply H1 | lia].
Qed.

Lemma dismiss_sn_triple {H} al (an : H -> nevent -> H -> Prop) h s reqs lasts first d :
  served s reqs lasts ->
  triple al an h (dismiss_loop_sn reqs first d) s
    (fun h' v s' => h' = h /\ s' = s /\ v = least first d lasts).
Proof.
  intros Hs. revert first d; induction Hs as [|q l reqs lasts (rr & rd & r & Hq & Hrd & Hr & <-) Hs IH];
    intros first d; [by apply triple_ret |].
  cbn [dismiss_loop_sn least]. pstep. eapply triple_reads; [exact Hq |]. pstep.
  eapply triple_reads; [exact Hrd |]. pstep. eapply triple_reads; [exact Hr |].
  destruct (_ || _); apply IH.
Qed.

(** C16: the samples taken from DDS are those that every read of the reader has had.
    Whatever arrives in the meantime and whatever fails, the samples taken are the first
    that DDS had, and one with data is no later than the last sample of any request; the
    call ends, having taken nothing or remembered the last sample taken; and when it
    succeeds nothing is on loan and either it had been here before or no sample is left,
    or the first one left is later than the last sample of some request, or the last one
    taken was not earlier. *)
Theorem requests_updated_dismisses fuel reader self (r : NDDSA_Reader) s l lasts :
  reader_at reader self r s -> served s (rd_requests r) lasts ->
  let bound := least true SEQUENCENUMBER_DEFAULT lasts in
  (length l < fuel)%nat ->
  triple (cache_allowed reader) (cache_answers bound) {| samples := l; lent := false |}
    (NDDSA_Reader_requests_updated fuel self) s
    (fun h' done s' => exists taken arrived r',
       l ++ arrived = taken ++ samples h'
       /\ (forall x, x ∈ taken -> snd x = true ->
             forall last, last ∈ lasts -> (SequenceNumber_compare (fst x) last <= 0)%Z)
       /\ s' = put_areader self r' s
       /\ r' = set_dismiss_sn (List.last (map fst taken) (dismiss_sn r)) r
       /\ (done = true -> lent h' = false /\
             match samples h' with
             | [] => True
             | x :: _ => (snd x = true /\ newer bound x)
                         \/ (0 <= SequenceNumber_compare (dismiss_sn r') bound)%Z
             end)).
Proof.
  intros [Hr Hd] Hs bound Hf. apply triple_bind. eapply triple_reads; [exact Hr |]. pstep.
  eapply triple_mono; [by apply (dismiss_sn_triple _ _ _ s _ lasts) |].
  intros h' v s' (-> & -> & ->). fold bound.
  destruct (Z.leb_spec (SequenceNumber_compare bound (dismiss_sn r)) 0) as [Hle|Hgt].
  - pstep. exists [], [], r. cbn. rewrite set_dismiss_id, app_nil_r, put_areader_id by done.
    split_and!; try done; [by intros x Hx%not_elem_of_nil |]. intros _. split; [done |].
    destruct l; [done | right]. by apply sn_flip.
  - eapply triple_mono; [apply loop_triple; [done |] |].
    { unfold earlier. pose proof (List.filter_length_le
        (fun x => SequenceNumber_compare (fst x) bound <? 0)%Z l). lia. }
    intros h' b s' (r' & -> & taken & arrived & Happ & Hnew & Ht & Hr' & Hdone).
    exists taken, arrived, r'. split_and!; try done.
    + intros x Hx Hv last Hlast. rewrite Forall_forall in Ht. specialize (Ht x Hx Hv).
      unfold newer in Ht. eapply (sn_trans _ bound); [lia |].
      by apply (proj2 (least_spec lasts true SEQUENCENUMBER_DEFAULT)).
    + intros E. destruct (Hdone E) as [H1 H2]. split; [done |]. destruct (samples h'); [done |].
      destruct H2 as [|[_ H2]]; auto.
Qed.
End dismissing.

(** ** The requests and the listener

    Which buffers of the pool of requests are out, whether DDS was told to call the
    listener, whether it refused to be told, and how often it will still refuse to delete a
    condition.  A new request that fails asks for this until it is granted: it never
    returns while DDS refuses ([delete_condition_stuck]). *)

Section requests.
Context {N : NddsApi} {C : ConnextCore}.

Record Requests := { out : list Z; listening : bool; refused : bool; refusals : nat }.

Context (dds_reader : Z) (pool dyn sem : option Z).

Definition requests_allowed (h : Requests) (c : NCall) : Prop :=
  match c with
  | ReaderAsDataReader d => d = dyn
  | MutexTake m | MutexGive m => m = sem
  | RequestPoolGet p => p = pool
  | RequestPoolReturn p q => p = pool /\ q ∈ out h
  | QueryConditionNew d _ | QueryConditionDelete d _ => d = dds_reader
  | ReaderSetListener d _ => d = Some dds_reader
  | _ => False
  end.

Definition with_refusals (n : nat) (h : Requests) : Requests :=
  {| out := out h; listening := listening h; refused := refused h; refusals := n |}.

Definition requests_answers (h : Requests) (e : nevent) (h' : Requests) : Prop :=
  match e with
  | existT c r =>
      match c return NResp c -> Prop with
      | ReaderAsDataReader _ => fun r => (r = None \/ r = Some dds_reader) /\ h' = h
      | RequestPoolGet _ => fun r =>
          match r with
          | Some q => ~ q ∈ out h
              /\ h' = {| out := q :: out h; listening := listening h; refused := refused h;
                         refusals := refusals h |}
          | None => h' = h
          end
      | RequestPoolReturn _ q => fun _ =>
          h' = {| out := unlink q (out h); listening := listening h; refused := refused h;
                  refusals := refusals h |}
      | ReaderSetListener _ m => fun r =>
          h' = {| out := out h;
                  listening := if dds_ok r
                               then match m with ListenNothing => false | _ => true end
                               else listening h;
                  refused := refused h || negb (dds_ok r);
                  refusals := refusals h |}
      | QueryConditionDelete _ _ => fun r =>
          if dds_ok r then h' = h
          else exists n, refusals h = S n /\ h' = with_refusals n h
      | _ => fun _ => h' = h
      end r
  end.

(** The requests of a reader are the buffers that are out, and the reader listens
    exactly while it has some. *)
Definition requests_match (h : Requests) (r : NDDSA_Reader) : Prop :=
  out h ≡ₚ rd_requests r /\ listening h = negb (bool_decide (rd_requests r = [])).

Definition a_dds_reader (self : Z) (r : NDDSA_Reader) (s : Ndds) : Prop :=
  areader_at s !! self = Some r /\ dyn_reader r = dyn /\ sem_requests r = sem
  /\ pool_requests r = pool.

(** The requests of a reader, with the reads they are for. *)
Definition requests_for (s : Ndds) : list Z -> list Z -> Prop :=
  Forall2 (fun q read => exists rr, rrequest_at s !! q = Some rr /\ rrq_read rr = Some read).

Fixpoint request_of_read (read : Z) (requests reads : list Z) : option Z :=
  match requests, reads with
  | q :: requests, rd :: reads =>
      if (rd =? read)%Z then Some q else request_of_read read requests reads
  | _, _ => None
  end.

Lemma unlink_perm q l : q ∈ l -> q :: unlink q l ≡ₚ l.
Proof.
  induction l as [|p l IH]; intros Hq; [by apply not_elem_of_nil in Hq |]. cbn.
  destruct (Z.eqb_spec p q) as [->|Hne]; [done |].
  apply elem_of_cons in Hq as [->|Hq]; [done |]. by rewrite Permutation_swap, IH.
Qed.

Lemma request_of_read_in read requests reads q :
  request_of_read read requests reads = Some q -> q ∈ requests.
Proof.
  revert reads; induction requests as [|p l IH]; intros [|rd reads]; cbn; try done.
  destruct (Z.eqb_spec rd read); [intros [= ->]; by apply elem_of_cons; left |].
  intros H. apply elem_of_cons. right. by eapply IH.
Qed.

Lemma find_request_triple {H} al (an : H -> nevent -> H -> Prop) h s read requests reads :
  requests_for s requests reads ->
  triple al an h (find_request_loop read requests) s
    (fun h' o s' => h' = h /\ s' = s /\ o = request_of_read read requests reads).
Proof.
  induction 1 as [|q rd requests reads (rr & Hq & Hrd) Hs IH]; [by apply triple_ret |].
  cbn [find_request_loop request_of_read]. pstep. eapply triple_reads; [exact Hq |].
  rewrite Hrd. destruct (Z.eqb_spec rd read) as [->|Hne].
  - rewrite bool_decide_true by done. by pstep.
  - rewrite bool_decide_false by congruence. apply IH.
Qed.

Lemma find_triple {H} al (an : H -> nevent -> H -> Prop) h s self r read reads :
  areader_at s !! self = Some r -> requests_for s (rd_requests r) reads ->
  triple al an h (NDDSA_Reader_find_request_by_read self read) s
    (fun h' o s' => h' = h /\ s' = s /\ o = request_of_read read (rd_requests r) reads).
Proof.
  intros Hr Hq. apply triple_bind. eapply triple_reads; [exact Hr |]. by apply find_request_triple.
Qed.

(** The loop ends when the refusals do. *)
Lemma delete_condition_triple fuel h s q rr :
  rrequest_at s !! q = Some rr -> (refusals h <= fuel)%nat ->
  triple requests_allowed requests_answers h (delete_condition_loop (S fuel) dds_reader q) s
    (fun h' _ s' => s' = s /\ exists n, h' = with_refusals n h).
Proof.
  intros Hq. revert h; induction fuel as [|fuel IH]; intros h Hf; cbn [delete_condition_loop].
  all: apply triple_bind; eapply triple_reads; [exact Hq |].
  all: destruct (query_condition rr) as [c|];
    [| pstep; split; [done |]; exists (refusals h); by destruct h].
  all: pstep; pcall; [done |]; intros rc h' Ha; cbn in Ha; destruct (dds_ok rc).
  all: try (subst h'; pstep; split; [done |]; exists (refusals h); by destruct h).
  all: destruct Ha as (n & Hn & ->).
  1: lia.
  eapply triple_mono; [apply IH; cbn; lia |]. intros h' [] s' (-> & m & ->). split; [done |]. by exists m.
Qed.

Lemma failed_triple fuel h s self r q rr first :
  a_dds_reader self r s -> rrequest_at s !! q = Some rr -> q ∈ out h -> (refusals h <= fuel)%nat ->
  triple requests_allowed requests_answers h
    (new_request_failed (S fuel) self dds_reader q first) s
    (fun h' b s' => b = false /\ s' = s /\ out h' = unlink q (out h)
       /\ (refused h = true -> refused h' = true)
       /\ (first = false -> refused h' = refused h /\ listening h' = listening h)).
Proof.
  intros (Hr & Hdyn & Hsem & Hpool) Hq Hout Hf. apply triple_bind.
  eapply triple_mono; [by eapply delete_condition_triple |]. intros h1 [] s1 (-> & n & ->). pstep.
  eapply triple_reads; [exact Hr |]. pstep. pstep; [done |]. cbn in H. subst h'. pstep.
  destruct first.
  - pstep. pstep; [done |]. cbn in H. subst h'. pstep. pstep. cbn. split_and!; try done.
    intros ->. done.
  - pstep. pstep. cbn. done.
Qed.

Lemma add_triple fuel h s self r q rr :
  a_dds_reader self r s -> rrequest_at s !! q = Some rr ->
  (exists l, out h = q :: l /\ l ≡ₚ rd_requests r) ->
  listening h = negb (bool_decide (rd_requests r = [])) -> refused h = false ->
  (refusals h <= fuel)%nat ->
  triple requests_allowed requests_answers h (add_request (S fuel) self dds_reader q) s
    (fun h' b s' => let r' := set_requests (rd_requests r ++ [q]) r in
       s' = put_areader self r' s /\
       if b then requests_match h' r' /\ refused h' = false
       else refused h' = true /\ out h' = unlink q (out h)).
Proof.
  intros Hr Hq Hout Hlis Href Hf. pose proof Hr as (Hr1 & Hdyn & Hsem & Hpool).
  assert (Hperm : out h ≡ₚ rd_requests r ++ [q]).
  { rewrite (Permutation_app_comm _ [q]). cbn. destruct Hout as (l & -> & Hl). by rewrite Hl. }
  assert (Hin : q ∈ out h) by (rewrite Hperm; apply elem_of_app; right; by apply elem_of_cons; left).
  apply triple_bind. eapply triple_reads; [exact Hr1 |]. pstep. pstep; [done |]. cbn in H. subst h'.
  pstep. eapply triple_reads; [exact Hr1 |]. cbv zeta. pstep. pstep. pstep. pstep; [done |].
  cbn in H. subst h'.
  destruct (bool_decide_reflect (rd_requests r = [])) as [He|He].
  - pstep. pstep; [done |]. cbn in H. subst h'. destruct (dds_ok r2) eqn:Hok.
    + pstep. split; [done |]. split; [| cbn; by rewrite Href]. split; [exact Hperm |]. cbn.
      by rewrite He.
    + eapply triple_mono; [eapply (failed_triple _ _ _ _ (set_requests (rd_requests r ++ [q]) r) q) |].
      * split_and!; try done. cbn. by rewrite lookup_insert_eq.
      * exact Hq.
      * exact Hin.
      * exact Hf.
      * intros h' b s' (-> & -> & Ho & Hre & _). split; [done |]. split; [apply Hre; cbn | exact Ho].
        by rewrite orb_true_r.
  - pstep. split; [done |]. split; [| done]. split; [exact Hperm |]. cbn. rewrite Hlis.
    rewrite bool_decide_false by (by destruct (rd_requests r)). done.
Qed.
(** What a new request promises. *)
Definition new_request_done (r : NDDSA_Reader) (read : Z) (reads : list Z) (self : Z)
    (h' : Requests) (b : bool) (s' : Ndds) : Prop :=
  exists r', a_dds_reader self r' s' /\
  if b then
    request_of_read read (rd_requests r) reads = None
    /\ (exists q, rd_requests r' = rd_requests r ++ [q]
          /\ requests_for s' (rd_requests r') (reads ++ [read]))
    /\ requests_match h' r'
  else
    (r' = r /\ requests_match h' r /\ requests_for s' (rd_requests r) reads)
    \/ exists q, q ∈ rd_requests r' /\ ~ q ∈ out h'
         /\ (request_of_read read (rd_requests r) reads = Some q \/ refused h' = true).

Lemma requests_for_put s l reads q rr :
  ~ q ∈ l -> requests_for s l reads -> requests_for (put_rrequest q rr s) l reads.
Proof.
  intros Hq Hl. revert Hq. induction Hl as [|p rd l reads (rr' & Hp & Hrd) Hl IH]; intros Hq.
  - by apply List.Forall2_nil.
  - rewrite not_elem_of_cons in Hq. destruct Hq as [Hne Hq].
    apply List.Forall2_cons; [| by apply IH]. exists rr'. cbn.
    by rewrite lookup_insert_ne by done.
Qed.

Lemma requests_for_state s s' l reads :
  rrequest_at s' = rrequest_at s -> requests_for s l reads -> requests_for s' l reads.
Proof. unfold requests_for. by intros ->. Qed.

(** The part of [new_request] after the request is made: [h] is the state with its
    buffer out. *)
Lemma added_triple fuel h s self r q rr read reads :
  a_dds_reader self r s -> rrequest_at s !! q = Some rr -> rrq_read rr = Some read ->
  request_of_read read (rd_requests r) reads = None ->
  requests_for s (rd_requests r) reads -> ~ q ∈ rd_requests r ->
  (exists l, out h = q :: l /\ l ≡ₚ rd_requests r) ->
  listening h = negb (bool_decide (rd_requests r = [])) -> refused h = false ->
  (refusals h <= fuel)%nat ->
  triple requests_allowed requests_answers h (add_request (S fuel) self dds_reader q) s
    (new_request_done r read reads self).
Proof.
  intros Hr Hq Hread Hnone Hfor Hnew Hout Hlis Href Hf.
  eapply triple_mono; [by eapply add_triple |]. intros h' b s' [-> Hb].
  exists (set_requests (rd_requests r ++ [q]) r).
  split. { destruct Hr as (Hr & ? & ? & ?). split_and!; try done. cbn. by rewrite lookup_insert_eq. }
  destruct b.
  - split_and!; [done | | by apply Hb]. exists q. split; [done |].
    apply Forall2_app; [by eapply requests_for_state; [| exact Hfor] |].
    apply List.Forall2_cons; [by exists rr | by apply List.Forall2_nil].
  - destruct Hb as [Hre Ho]. right. exists q. split_and!; [| | by right].
    + cbn. apply elem_of_app. right. by apply elem_of_cons; left.
    + rewrite Ho. destruct Hout as (l & -> & Hl). cbn. rewrite Z.eqb_refl. by rewrite Hl.
Qed.

Lemma new_request_triple fuel h s self r read reads rd :
  a_dds_reader self r s -> requests_match h r -> refused h = false ->
  requests_for s (rd_requests r) reads -> NoDup (rd_requests r) -> read_at s !! read = Some rd ->
  (refusals h <= fuel)%nat ->
  triple requests_allowed requests_answers h (NDDSA_Reader_new_request (S fuel) self read) s
    (new_request_done r read reads self).
Proof.
  intros Hr Hbal Href Hfor Hnd Hread Hf. pose proof Hr as (Hr1 & Hdyn & Hsem & Hpool).
  pose proof Hbal as [Hperm Hlis].
  assert (Hkeep : new_request_done r read reads self h false s) by (exists r; split; [done | by left]).
  apply triple_bind. eapply triple_reads; [exact Hr1 |]. pstep. pstep; [done |].
  destruct H as [[-> | ->] ->]; [by pstep |]. pstep. pstep; [done |]. cbn in H. subst h'.
  pstep. eapply triple_mono; [by eapply find_triple |]. intros h1 o s1 (-> & -> & ->).
  pstep. pstep; [done |]. cbn in H. subst h'.
  destruct (request_of_read read (rd_requests r) reads) as [q|] eqn:Hfind.
  - pose proof (request_of_read_in _ _ _ _ Hfind) as Hin.
    assert (Hrr : exists rr, rrequest_at s !! q = Some rr).
    { clear -Hfor Hin. induction Hfor as [|p x l reads (rr & Hp & _) Hl IH].
      - by apply not_elem_of_nil in Hin.
      - apply elem_of_cons in Hin as [->|Hin]; [by exists rr | by apply IH]. }
    destruct Hrr as [rr Hrr]. eapply triple_mono; [eapply failed_triple; [done | done | | done] |].
    { by rewrite Hperm. }
    intros h' b s' (-> & -> & Ho & _). exists r. split; [done |]. right. exists q.
    split_and!; [done | | by left]. rewrite Ho.
    assert (Hnd' : NoDup (out h)) by (by rewrite Hperm).
    assert (Hin' : q ∈ out h) by (by rewrite Hperm).
    rewrite <- (unlink_perm q (out h)) in Hnd' by done. by apply NoDup_cons in Hnd' as [].
  - pstep. pcall; [done |]. intros got h' H. destruct got as [q|]; cbn in H; [| by subst; pstep].
    destruct H as [Hnew ->]. rewrite Hperm in Hnew. pstep. pstep. pstep.
    eapply triple_reads; [exact Hread |].
    set (h1 := {| out := q :: out h; listening := listening h; refused := refused h;
                  refusals := refusals h |}).
    assert (Hout1 : exists l, out h1 = q :: l /\ l ≡ₚ rd_requests r) by (by exists (out h)).
    assert (Hadd : forall s1 rr, areader_at s1 = areader_at s -> rrequest_at s1 !! q = Some rr ->
              rrq_read rr = Some read -> requests_for s1 (rd_requests r) reads ->
              triple requests_allowed requests_answers h1 (add_request (S fuel) self dds_reader q) s1
                (new_request_done r read reads self)).
    { intros s1 rr Hs1 Hq Hrd Hfo. eapply added_triple; try done.
      split_and!; [by rewrite Hs1 | done ..]. }
    destruct (rq_content_filter_expr rd) as [expr|].
    + pstep. pcall; [done |]. intros cond h' H. cbn in H. subst h'. pstep. pstep.
      assert (Hfor' : requests_for (put_rrequest q {| rrq_read := Some read; query_condition := cond |}
                (put_rrequest q {| rrq_read := Some read; query_condition := None |} s))
                (rd_requests r) reads)
        by (apply requests_for_put; [done |]; by apply requests_for_put).
      destruct (bool_decide_reflect (cond = None)) as [He|He].
      * eapply triple_mono; [eapply (failed_triple _ _ _ _ r); [done | | by apply elem_of_cons; left | done] |].
        { cbn. by rewrite lookup_insert_eq. }
        intros h' b s' (-> & -> & Ho & _ & Hk). destruct Hk as [Hk1 Hk2]; [done |].
        exists r. split; [done |]. left. split_and!; [done | | done].
        split; [| by rewrite Hk2]. rewrite Ho. cbn. by rewrite Z.eqb_refl.
      * eapply Hadd; [done | cbn; by rewrite lookup_insert_eq | done | done].
    + eapply Hadd; [done | cbn; by rewrite lookup_insert_eq | done | by apply requests_for_put].
Qed.
Definition request_complete_done (r : NDDSA_Reader) (read : Z) (reads : list Z) (self : Z)
    (h h' : Requests) (b : bool) (s' : Ndds) : Prop :=
  exists r', a_dds_reader self r' s' /\
  if b then
    exists q, request_of_read read (rd_requests r) reads = Some q
      /\ rd_requests r' = unlink q (rd_requests r) /\ requests_match h' r'
  else (r' = r /\ h' = h) \/ (rd_requests r' = [] /\ out h' = [] /\ refused h' = true)
    \/ exists q n, request_of_read read (rd_requests r) reads = Some q
         /\ rd_requests r' = unlink q (rd_requests r) /\ q ∈ out h'
         /\ refusals h = S n /\ h' = with_refusals n h.

Lemma request_complete_triple h s self r read reads :
  a_dds_reader self r s -> requests_match h r -> refused h = false ->
  requests_for s (rd_requests r) reads ->
  triple requests_allowed requests_answers h (NDDSA_Reader_request_complete self read) s
    (request_complete_done r read reads self h).
Proof.
  intros Hr Hbal Href Hfor. pose proof Hr as (Hr1 & Hdyn & Hsem & Hpool).
  pose proof Hbal as [Hperm Hlis].
  assert (Hkeep : request_complete_done r read reads self h h false s)
    by (exists r; split; [done | by left]).
  apply triple_bind. eapply triple_reads; [exact Hr1 |]. pstep. pstep; [done |].
  destruct H as [[-> | ->] ->]; [by pstep |]. pstep. pstep; [done |]. cbn in H. subst h'.
  pstep. eapply triple_mono; [by eapply find_triple |]. intros h1 o0 s1 (-> & -> & _).
  pstep. eapply triple_mono; [by eapply find_triple |]. intros h1 o s1 (-> & -> & ->).
  destruct (request_of_read read (rd_requests r) reads) as [q|] eqn:Hfind; cycle 1.
  { pstep. pstep; [done |]. cbn in H. subst h'. by pstep. }
  pose proof (request_of_read_in _ _ _ _ Hfind) as Hin.
  assert (Hrr : exists rr, rrequest_at s !! q = Some rr).
  { clear -Hfor Hin. induction Hfor as [|p x l reads (rr & Hp & _) Hl IH].
    - by apply not_elem_of_nil in Hin.
    - apply elem_of_cons in Hin as [->|Hin]; [by exists rr | by apply IH]. }
  destruct Hrr as [rr Hrr]. assert (Hout : q ∈ out h) by (by rewrite Hperm).
  assert (Hout' : unlink q (out h) ≡ₚ unlink q (rd_requests r)).
  { apply (Permutation_cons_inv (a := q)). by rewrite !unlink_perm. }
  pstep. eapply triple_reads; [exact Hr1 |]. cbv zeta. pstep. pstep. pstep. pstep; [done |].
  cbn in H. subst h'. pstep. eapply triple_reads; [exact Hrr |].
  set (r' := set_requests (unlink q (rd_requests r)) r).
  assert (Hr' : a_dds_reader self r' (put_areader self r' s)).
  { split_and!; try done. cbn. by rewrite lookup_insert_eq. }
  apply triple_bind. eapply (triple_mono _ _ _ _ _ (fun h' rc s' => s' = put_areader self r' s
    /\ if dds_ok rc then h' = h else exists n, refusals h = S n /\ h' = with_refusals n h)).
  { destruct (query_condition rr) as [c|]; [pcall; [done |] | by pstep].
    intros rc h' Ha. done. }
  intros h1 rcd s1 (-> & Hrc). destruct (dds_ok rcd); cbn [negb]; cycle 1.
  { destruct Hrc as (n & Hn & ->). pstep. exists r'. split; [done |]. right. right. by exists q, n. }
  subst h1. pstep. pstep; [done |]. cbn in H. subst h'.
  destruct (unlink q (rd_requests r)) as [|p l] eqn:Hl.
  - pstep. pcall; [done |]. intros rc h' H. cbn in H. subst h'. pstep. exists r'. split; [done |].
    symmetry in Hout'. apply Permutation_nil_l in Hout'.
    destruct (dds_ok rc); cbn.
    + exists q. split; [done |]. split; [by rewrite ?Hl |].
      split; unfold r'; cbn; by rewrite ?Hout'.
    + right. left. by rewrite Hout', orb_true_r.
  - pstep. exists r'. split; [done |]. exists q. split; [done |]. split; [by rewrite ?Hl |].
    split; unfold r'; cbn; rewrite ?Hl; [exact Hout' |]. rewrite Hlis.
    rewrite bool_decide_false; [done |]. intros E. rewrite E in Hin.
    by apply not_elem_of_nil in Hin.
Qed.

(** C25: the requests of a reader are the buffers taken from its pool, and DDS calls its
    listener exactly while it has some.  A new request keeps that and is the last one;
    one that fails changes nothing, or leaves in the list a request whose buffer was
    returned, and only where the read had a request already or DDS refused the listener.
    A request that is complete is unlinked and returned, and one that is not found
    changes nothing; the reader goes on listening without requests only where DDS
    refused to stop, and a request stays out without being in the list only where DDS refused to
    delete its condition.  Both end once DDS grants the deletion of a condition. *)
Theorem requests_balanced fuel h s self (r : NDDSA_Reader) read reads rd :
  a_dds_reader self r s -> requests_match h r -> refused h = false ->
  requests_for s (rd_requests r) reads -> NoDup (rd_requests r) -> read_at s !! read = Some rd ->
  (refusals h <= fuel)%nat ->
  triple requests_allowed requests_answers h (NDDSA_Reader_new_request (S fuel) self read) s
    (new_request_done r read reads self)
  /\ triple requests_allowed requests_answers h (NDDSA_Reader_request_complete self read) s
    (request_complete_done r read reads self h).
Proof.
  intros. split; [by eapply new_request_triple | by eapply request_complete_triple].
Qed.

(** While the deletion of a condition is refused the loop after a failure goes on. *)
Lemma delete_condition_stuck (env : environment NResp) fuel past self q rr c s :
  rrequest_at s !! q = Some rr -> query_condition rr = Some c ->
  (forall past, dds_ok (env past (QueryConditionDelete self c)) = false) ->
  snd (exec env past (delete_condition_loop fuel self q s)) = Unfinished.
Proof.
  intros Hq Hc Henv. revert past; induction fuel as [|fuel IH]; intros past; [done |].
  cbn [delete_condition_loop]. unfold bind at 1, rrequest_of, reads. rewrite Hq. cbn [tbind].
  rewrite Hc. unfold bind, call. cbn [tbind exec]. rewrite (Henv past). cbn.
  specialize (IH (past ++ [existT (QueryConditionDelete self c) (env past (QueryConditionDelete self c))])).
  by destruct (exec env _ _).
Qed.
End requests.

(** ** An example: a reader with one request, of a read that has had sample 4 *)

Definition served_reader : NDDSA_Reader :=
  {| rd_resource_id := D2S2_RESOURCEID_INITIALIZER; rd_agent := Some 1%Z;
     dyn_reader := Some 701%Z; sem_requests := Some 702%Z; rd_requests := [800%Z];
     pool_requests := Some 703%Z; dismiss_sn := 1%Z; rd_deleted := false |}.

Definition read_at_4 : NDDSA_Read :=
  {| rq_agent := Some 1%Z; rq_session_key := D2S2_CLIENTSESSIONKEY_INITIALIZER;
     rq_reader_id := 0; samples_rcvd := 0; samples_max := 0; rq_max_bytes := 0; rq_samples := [];
     last_sample := 4%Z; start_ts := 0%Z; last_sample_ts := 0%Z; sample_pace := 0%Z;
     max_elapsed_ts := 0%Z; rq_content_filter_expr := None; delayed := false; rq_status := 0;
     sem_event := None; ev_live := true |}%Z.

Definition served_state : Ndds :=
  put_areader 700 served_reader
    (put_rrequest 800 {| rrq_read := Some 300%Z; query_condition := None |}
       (put_read 300 read_at_4 (put_read 301 read_at_4 sample_ndds))).

(** Samples 2 and 4 are taken, 5 is left. *)
Lemma requests_updated_dismisses_witness :
  triple (cache_allowed 701) (cache_answers 4%Z)
    {| samples := [(2, true); (4, true); (5, true)]%Z; lent := false |}
    (NDDSA_Reader_requests_updated 4 700) served_state
    (fun h' done s' => exists taken arrived,
       [(2, true); (4, true); (5, true)]%Z ++ arrived = taken ++ samples h'
       /\ forall x : Z * bool, x ∈ taken -> snd x = true -> (fst x <= 4)%Z).
Proof.
  eapply triple_mono;
    [apply (requests_updated_dismisses 4 701 700 served_reader served_state
              [(2, true); (4, true); (5, true)]%Z [4%Z]) |].
  - split; vm_compute; reflexivity.
  - apply List.Forall2_cons; [| apply List.Forall2_nil].
    exists {| rrq_read := Some 300%Z; query_condition := None |}, 300%Z, read_at_4.
    split_and!; vm_compute; reflexivity.
  - cbn. lia.
  - intros h' b s' (taken & arrived & r' & H1 & H2 & _). exists taken, arrived.
    split; [exact H1 |]. intros x Hx Hv. specialize (H2 x Hx Hv 4%Z ltac:(by apply elem_of_cons; left)).
    cbn in H2. unfold zcmp in H2. lia.
Defined.

Lemma requests_balanced_witness :
  triple (requests_allowed 705 (Some 703%Z) (Some 701%Z) (Some 702%Z)) (requests_answers 705)
    {| out := [800%Z]; listening := true; refused := false; refusals := 1 |}
    (NDDSA_Reader_new_request 2 700 301) served_state
    (new_request_done (Some 703%Z) (Some 701%Z) (Some 702%Z) served_reader 301 [300%Z] 700).
Proof.
  refine (proj1 (requests_balanced 705 (Some 703%Z) (Some 701%Z) (Some 702%Z) 1
                   {| out := [800%Z]; listening := true; refused := false; refusals := 1 |} served_state 700
                   served_reader 301 [300%Z] read_at_4 _ _ _ _ _ _ _)).
  - split_and!; vm_compute; reflexivity.
  - split; [done | vm_compute; reflexivity].
  - reflexivity.
  - apply List.Forall2_cons; [| apply List.Forall2_nil].
    exists {| rrq_read := Some 300%Z; query_condition := None |}.
    split; vm_compute; reflexivity.
  - apply NoDup_singleton.
  - vm_compute; reflexivity.
  - reflexivity || (cbn; lia).
Defined.
