(* ===== verification/NddsWriters.v ===== *)
(** * DDS agent: writers

    [NddsWriter.c].  A writer of the agent has a dynamic data writer, and a sample and
    a type support made from the type of its topic. *)

From Stdlib Require Import ZArith Lia Ascii String.
From stdpp Require Import base tactics list gmap.
From S2P Require Import Prelude.
From S2P Require Import CString.
From S2P Require Import Infrastructure.
From S2P Require Import Interaction.
From S2P Require Import ServiceData.
From S2P Require Import NddsData.
From S2P Require Import NddsReaders.

Local Open Scope nano_scope.

Section writers.
Context {N : NddsApi}.

(** ** Updates *)

Definition set_wr_start (res : Z) (w : NDDSA_Writer) : NDDSA_Writer :=
  {| wr_res := Some res; wr_agent := wr_agent w; dyn_writer := dyn_writer w;
     dyn_sample := dyn_sample w; dyn_support := dyn_support w;
     wr_pool_samples := wr_pool_samples w; wr_cond_status := wr_cond_status w;
     wr_handler_set := wr_handler_set w; data_buffer := None; data_buffer_len := 0;
     data_buffer_max := 0 |}.
Definition set_wr_pool (p : option Z) (w : NDDSA_Writer) : NDDSA_Writer :=
  {| wr_res := wr_res w; wr_agent := wr_agent w; dyn_writer := dyn_writer w;
     dyn_sample := dyn_sample w; dyn_support := dyn_support w;
     wr_pool_samples := p; wr_cond_status := wr_cond_status w;
     wr_handler_set := wr_handler_set w; data_buffer := data_buffer w;
     data_buffer_len := data_buffer_len w; data_buffer_max := data_buffer_max w |}.
Definition set_wr_condition (c : option Z) (w : NDDSA_Writer) : NDDSA_Writer :=
  {| wr_res := wr_res w; wr_agent := wr_agent w; dyn_writer := dyn_writer w;
     dyn_sample := dyn_sample w; dyn_support := dyn_support w;
     wr_pool_samples := wr_pool_samples w; wr_cond_status := c;
     wr_handler_set := true; data_buffer := data_buffer w;
     data_buffer_len := data_buffer_len w; data_buffer_max := data_buffer_max w |}.
Definition set_wr_dyn (d p q : option Z) (w : NDDSA_Writer) : NDDSA_Writer :=
  {| wr_res := wr_res w; wr_agent := wr_agent w; dyn_writer := d;
     dyn_sample := q; dyn_support := p;
     wr_pool_samples := wr_pool_samples w; wr_cond_status := wr_cond_status w;
     wr_handler_set := wr_handler_set w; data_buffer := data_buffer w;
     data_buffer_len := data_buffer_len w; data_buffer_max := data_buffer_max w |}.
Definition set_wr_buffer (b : option Z) (len max : Z) (w : NDDSA_Writer) : NDDSA_Writer :=
  {| wr_res := wr_res w; wr_agent := wr_agent w; dyn_writer := dyn_writer w;
     dyn_sample := dyn_sample w; dyn_support := dyn_support w;
     wr_pool_samples := wr_pool_samples w; wr_cond_status := wr_cond_status w;
     wr_handler_set := wr_handler_set w; data_buffer := b; data_buffer_len := len;
     data_buffer_max := max |}.

Definition upd_writer (self : Z) (f : NDDSA_Writer -> NDDSA_Writer) : ndds unit :=
  let* w := awriter_of self in modify (put_awriter self (f w)).

(** ** Operations *)

(** The handler of the status condition does nothing. *)
Definition NDDSA_Writer_on_condition_triggered (handler_data : Z) : ndds unit := ret tt.

(** The type of the topic of a writer. *)
Definition writer_typecode (dw : Z) : ndds (option Z) :=
  let? topic := ncall (WriterGetTopic dw) else ret None in
  let? type_name := ncall (TopicTypeName topic) else ret None in
  let? participant := ncall (TopicParticipant topic) else ret None in
  ncall (ParticipantTypecode participant type_name).

(** What is used to write samples: the writer, its type support and a sample. *)
Definition writer_dynamic (self dw type_code : Z) : ndds bool :=
  let* d := ncall (WriterNarrow dw) in
  upd_writer self (fun w => set_wr_dyn d (dyn_support w) (dyn_sample w) w);;
  if bool_decide (d = None) then ret false else
  let* p := ncall (TypeSupportNew type_code) in
  upd_writer self (fun w => set_wr_dyn (dyn_writer w) p (dyn_sample w) w);;
  match p with
  | None => ret false
  | Some support =>
      let* q := ncall (TypeSupportCreateData support) in
      upd_writer self (fun w => set_wr_dyn (dyn_writer w) (dyn_support w) q w);;
      ret (bool_decide (is_Some q))
  end.

Definition NDDSA_Writer_initialize (self resource : Z) : ndds bool :=
  let* rr := resource_rec_of resource in
  let? dw := native_entity RESOURCEKIND_DATAWRITER (rr_resource rr) else ret false in
  upd_writer self (set_wr_start resource);;
  let* p := ncall WriterPoolNew in
  upd_writer self (set_wr_pool p);;
  if bool_decide (p = None) then ret false else
  let* c := ncall (EntityStatusCondition dw) in
  upd_writer self (set_wr_condition c);;
  let* rc := ncall (ConditionSetHandler c self) in
  if negb (dds_ok rc) then ret false else
  let? type_code := writer_typecode dw else ret false in
  writer_dynamic self dw type_code.

(** Nothing is tested but the buffer: a writer that failed to be initialized is not
    to be finalized. *)
Definition NDDSA_Writer_finalize (self : Z) : ndds unit :=
  let* w := awriter_of self in
  (match data_buffer w with
   | Some b => ncall (BufferFree b);; upd_writer self (set_wr_buffer None 0 0)
   | None => ret tt
   end);;
  let* w := awriter_of self in
  ncall (TypeSupportDeleteData (dyn_support w) (dyn_sample w));;
  ncall (TypeSupportDelete (dyn_support w));;
  ncall (WriterPoolDelete (wr_pool_samples w));;
  ret tt.

(** ** What a writer has *)

(** The pools, supports and samples made and deleted along a trace, in order. *)
Inductive WriterThing := ThingPool (p : Z) | ThingSupport (p : Z) | ThingSample (support p : Z).

Definition made_of (e : nevent) : list WriterThing :=
  match e with
  | existT c r =>
      match c return NResp c -> list WriterThing with
      | WriterPoolNew => fun r => from_option (fun p => [ThingPool p]) [] r
      | TypeSupportNew _ => fun r => from_option (fun p => [ThingSupport p]) [] r
      | TypeSupportCreateData s => fun r => from_option (fun p => [ThingSample s p]) [] r
      | _ => fun _ => []
      end r
  end.

Definition deleted_of (e : nevent) : list WriterThing :=
  match projT1 e with
  | WriterPoolDelete (Some p) => [ThingPool p]
  | TypeSupportDelete (Some p) => [ThingSupport p]
  | TypeSupportDeleteData (Some s) (Some p) => [ThingSample s p]
  | _ => []
  end.

Definition things_made (t : list nevent) : list WriterThing := flat_map made_of t.
Definition things_deleted (t : list nevent) : list WriterThing := flat_map deleted_of t.

Definition a_writer_resource (rr : NDDSA_ResourceRecord) (dw : Z) : Prop :=
  res_kind (resource_base (rr_resource rr)) = RESOURCEKIND_DATAWRITER
  /\ native_kind (native (rr_resource rr)) = RESOURCENATIVEKIND_ENTITY
  /\ native_value (native (rr_resource rr)) = NativeEntity (Some dw).

Lemma upd_writer_spec E self f w s (Q : list nevent -> unit -> Ndds -> Prop) :
  awriter_at s !! self = Some w -> Q [] tt (put_awriter self (f w) s) ->
  spec E (upd_writer self f) s Q.
Proof. intros Hw HQ. apply spec_bind. eapply spec_reads; [exact Hw |]. nstep. exact HQ. Qed.

End writers.

Ltac wstep :=
  lazymatch goal with
  | |- spec _ (upd_writer _ _) _ _ =>
      eapply upd_writer_spec; [first [eassumption | cbn; rewrite lookup_insert_eq; reflexivity] |]
  | |- spec _ (awriter_of _) _ _ =>
      eapply spec_reads; [first [eassumption | cbn; rewrite lookup_insert_eq; reflexivity] |]
  | |- _ => nstep
  end; cbn beta iota.

Section life.
Context {N : NddsApi}.

Lemma typecode_spec E dw s :
  spec E (writer_typecode dw) s (fun t _ s' => s' = s /\ things_made t = [] /\ things_deleted t = []).
Proof. unfold writer_typecode. repeat nstep; done. Qed.

Lemma things_made_app (t1 t2 : list (event NResp)) :
  things_made (t1 ++ t2) = things_made t1 ++ things_made t2.
Proof. apply flat_map_app. Qed.
Lemma things_deleted_app (t1 t2 : list (event NResp)) :
  things_deleted (t1 ++ t2) = things_deleted t1 ++ things_deleted t2.
Proof. apply flat_map_app. Qed.

(** The type support and the sample are the writer's, or it failed. *)
Lemma dynamic_spec E self dw tc w s :
  awriter_at s !! self = Some w ->
  spec E (writer_dynamic self dw tc) s (fun t b s' =>
    things_deleted t = [] /\
    (b = true -> exists w' sup smp, awriter_at s' !! self = Some w' /\ data_buffer w' = data_buffer w
       /\ wr_pool_samples w' = wr_pool_samples w /\ dyn_support w' = Some sup
       /\ dyn_sample w' = Some smp /\ things_made t = [ThingSupport sup; ThingSample sup smp])).
Proof.
  intros Hw. apply spec_bind. wstep. wstep. wstep. case_bool_decide; [by wstep |].
  wstep. wstep. wstep. wstep. destruct r0 as [sup|]; [| by wstep].
  wstep. wstep. wstep. wstep. wstep. split; [done |]. intros Hb.
  apply bool_decide_eq_true in Hb as [smp ->].
  eexists _, sup, smp. cbn. rewrite lookup_insert_eq. done.
Qed.

Lemma writer_finalize_spec E self w p sup smp s :
  awriter_at s !! self = Some w -> data_buffer w = None -> wr_pool_samples w = Some p ->
  dyn_support w = Some sup -> dyn_sample w = Some smp ->
  spec E (NDDSA_Writer_finalize self) s (fun t _ _ =>
    things_deleted t = [ThingSample sup smp; ThingSupport sup; ThingPool p]).
Proof.
  intros Hw Hb Hp Hs Hm. apply spec_bind. eapply spec_reads; [exact Hw |]. rewrite Hb.
  wstep. wstep. wstep. eapply spec_reads; [exact Hw |]. rewrite Hp, Hs, Hm. by repeat wstep.
Qed.

(** a writer that is initialized has made a pool, a type support and a sample, in
    this order, and finalizing it deletes these three in the opposite order; nothing
    is deleted when the initialization fails.  A resource that is no writer of DDS is
    refused before anything is done. *)
Theorem writer_life E self resource (w : NDDSA_Writer) rr s :
  awriter_at s !! self = Some w -> resource_at s !! resource = Some rr ->
  (forall dw, a_writer_resource rr dw ->
     spec E (NDDSA_Writer_initialize self resource) s (fun t b s' =>
       things_deleted t = [] /\
       (b = true ->
          (exists p sup smp, things_made t = [ThingPool p; ThingSupport sup; ThingSample sup smp])
          /\ spec E (NDDSA_Writer_finalize self) s' (fun t' _ _ =>
               things_deleted t' = rev (things_made t)))))
  /\ (res_kind (resource_base (rr_resource rr)) <> RESOURCEKIND_DATAWRITER ->
     spec E (NDDSA_Writer_initialize self resource) s (fun t b s' => t = [] /\ b = false /\ s' = s)).
Proof.
  intros Hw Hrr. split.
  - intros dw (Hk & Hn & Hv). apply spec_bind. eapply spec_reads; [exact Hrr |].
    unfold native_entity. rewrite bool_decide_true by done. rewrite Hn, Hv. cbn [negb].
    wstep. wstep. wstep. wstep. wstep. wstep. wstep. wstep. case_bool_decide; [by wstep |].
    wstep. wstep. wstep. wstep. wstep. wstep. wstep; [by wstep |]. wstep.
    eapply spec_mono; [apply typecode_spec |]. intros t tc s1 (-> & Hm & Hd).
    destruct tc as [tc|]; [| wstep; split; [| done]].
    + eapply spec_mono; [eapply dynamic_spec; cbn; by rewrite lookup_insert_eq |].
      intros t2 b s2 (Hd2 & Hb). destruct r as [p|]; [| done].
      split. { rewrite !things_deleted_app, Hd, Hd2. done. }
      intros ->. destruct Hb as (w' & sup & smp & Hw' & Hbuf & Hpool & Hsup & Hsmp & Hm2); [done |].
      match goal with |- context [things_made ?t'] =>
        assert (Hmade : things_made t' = [ThingPool p; ThingSupport sup; ThingSample sup smp])
          by (by rewrite !things_made_app, Hm, Hm2)
      end.
      rewrite Hmade. split; [by exists p, sup, smp |]. cbn [rev app].
      by eapply writer_finalize_spec.
    + rewrite !things_deleted_app, Hd. done.
  - intros Hk. apply spec_bind. eapply spec_reads; [exact Hrr |]. unfold native_entity.
    rewrite bool_decide_false by done. by repeat wstep.
Qed.
End life.

Definition writer_record : NDDSA_ResourceRecord :=
  {| rr_ea := None;
     rr_resource :=
       {| resource_base := {| res_kind := RESOURCEKIND_DATAWRITER;
                              res_id := D2S2_RESOURCEID_INITIALIZER |};
          native := {| native_kind := RESOURCENATIVEKIND_ENTITY;
                       native_value := NativeEntity (Some 40%Z);
                       create_repr := D2S2_RESOURCEREPRESENTATION_INITIALIZER |};
          attached_count := 0; resource_agent := None; resource_user_data := None;
          loaded := false; native_deleted := false; pending_delete := false |} |}.

Definition blank_writer : NDDSA_Writer :=
  {| wr_res := None; wr_agent := None; dyn_writer := None; dyn_sample := None;
     dyn_support := None; wr_pool_samples := None; wr_cond_status := None;
     wr_handler_set := false; data_buffer := None; data_buffer_len := 0;
     data_buffer_max := 0 |}%Z.

Lemma writer_life_witness :
  spec (fun _ => True) (NDDSA_Writer_initialize 50 60)
    (put_awriter 50 blank_writer (put_resource 60 writer_record sample_ndds))
    (fun t b s' => b = true -> spec (fun _ => True) (NDDSA_Writer_finalize 50) s'
       (fun t' _ _ => things_deleted t' = rev (things_made t))).
Proof.
  eapply spec_mono.
  - refine (proj1 (writer_life (fun _ => True) 50 60 blank_writer writer_record
                     (put_awriter 50 blank_writer (put_resource 60 writer_record sample_ndds)) _ _)
              40%Z _); [vm_compute; reflexivity .. | split_and!; reflexivity].
  - cbn. intros t b s' [_ H] Hb. by apply H.
Defined.
