(* ===== verification/NddsReads.v ===== *)
(** * DDS agent: reads

    The functions of [NddsAgent.c] and [NddsAgentIntf.c] that serve a read: from the
    request of a client to the samples DDS has for it, and back when a loan is returned
    or the read is cancelled.

    A thread that waits for a semaphore gives back the records it holds, and what the
    others did to the memory in the meantime is a parameter ([others]).  The last
    argument of a callback of the code is left out where the code passes a constant.
    A [goto done] that jumps back to its own label is a loop, with fuel. *)

From Stdlib Require Import ZArith Lia Ascii String Sorted.
From stdpp Require Import base tactics list gmap.
From S2P Require Import Prelude.
From S2P Require Import CString.
From S2P Require Import Infrastructure.
From S2P Require Import Interaction.
From S2P Require Import ServiceData.
From S2P Require Import NddsData.
From S2P Require Import AgentDb.
From S2P Require Import NddsSamples.
From S2P Require Import NddsReaders.

Local Open Scope nano_scope.

Section reads.
Context {N : NddsApi} {C : ConnextCore}.

(** ** Records of the database *)

(** The resource of an attached resource, locked for [body], which is given its record.
    A resource that is unknown, or whose entity of DDS was deleted, is refused; [done] is
    what the code does at its label, and [failed] what it makes of the result when the
    record cannot be released. *)
Definition with_resource {A} (attached : Z) (refused : A) (done : A -> ndds A)
    (failed : A -> A) (body : Z -> ndds A) : ndds A :=
  let* a := attached_of attached in
  let* l := NDDSA_AgentDb_lookup_resource (att_resource (at_base a)) in
  match l with
  | (true, Some (Some resource_rec)) =>
      let* rr := resource_rec_of resource_rec in
      let* r := (if native_deleted (rr_resource rr) then ret refused else body resource_rec) in
      let* r := done r in
      let* ok := NDDSA_AgentDb_release_resource in
      ret (if ok then r else failed r)
  | _ => done refused
  end.

(** The reader of a resource. *)
Definition reader_data (resource_rec : Z) : ndds Z :=
  let* rr := resource_rec_of resource_rec in
  not_null (resource_user_data (rr_resource rr)).

(** AGENT_LOOKUP_SESSION_OR_DONE: the record, when there is one, and whether the code
    goes on; it goes to [done] with the record of an inactive session. *)
Definition lookup_active (key : D2S2_ClientSessionKey) : ndds (option Z * bool) :=
  let* l := NDDSA_AgentDb_lookup_session key in
  match l with
  | Some (Some session_rec) =>
      let* rec := session_rec_of session_rec in
      ret (Some session_rec, NDDSA_ClientSession_active (sr_session rec))
  | _ => ret (None, false)
  end.

Definition release_session_rec (session_rec : option Z) : ndds unit :=
  match session_rec with
  | Some _ => NDDSA_AgentDb_release_session;; ret tt
  | None => ret tt
  end.

(** ** Waiting *)

(** The part before the semaphore is taken: the records and tables are given back, the
    session last. *)
Definition give_back (locked_sessions locked_resources : bool) (resource_rec : option Z)
    : ndds bool :=
  unless (match resource_rec with
          | Some _ => NDDSA_AgentDb_release_resourceEA
          | None => ret true
          end) then ret false else
  unless (if locked_resources then NDDSA_AgentDb_unlock_resources false else ret true)
  then ret false else
  unless NDDSA_AgentDb_release_sessionEA then ret false else
  if locked_sessions then NDDSA_AgentDb_unlock_sessions false else ret true.

(** The part after it: they are locked again, and have to be the same records. *)
Definition take_back (locked_sessions : bool) (key : D2S2_ClientSessionKey) (session_rec : Z)
    (locked_resources : bool) (resource_rec : option (D2S2_ResourceId * Z)) : ndds bool :=
  unless (if locked_sessions then NDDSA_AgentDb_lock_sessions false false else ret true)
  then ret false else
  let* s := NDDSA_AgentDb_lookup_sessionEA key in
  if negb (fst s) then ret false else
  if negb (bool_decide (snd s = Some session_rec)) then ret false else
  unless (if locked_resources then NDDSA_AgentDb_lock_resources false false else ret true)
  then ret false else
  match resource_rec with
  | Some (rid, rec) =>
      let* r := NDDSA_AgentDb_lookup_resourceEA rid in
      if negb (fst r) then ret false else ret (bool_decide (snd r = Some rec))
  | None => ret true
  end.

(** The copy of the identifier is finalized only when nothing is to be locked again or
    everything was. *)
Definition NDDSA_Agent_wait_for_semaphoreEA (others : Ndds -> Ndds) (locked_sessions : bool)
    (session_rec : Z) (locked_resources : bool) (resource_rec : option Z) (sem_event : option Z)
    : ndds bool :=
  let* rec := session_rec_of session_rec in
  let sid := cs_key (sr_session rec) in
  let* copied :=
    match resource_rec with
    | Some r =>
        let* rr := resource_rec_of r in
        ret (D2S2_ResourceId_copy D2S2_RESOURCEID_INITIALIZER (res_id (resource_base (rr_resource rr))))
    | None => ret (true, D2S2_RESOURCEID_INITIALIZER)
    end in
  let rid := snd copied in
  let finalized := free_string (fst (D2S2_ResourceId_finalize rid)) in
  if negb (fst copied) then finalized;; ret false else
  unless give_back locked_sessions locked_resources resource_rec then finalized;; ret false else
  ncall (EventSemaphoreTake sem_event);;
  modify others;;
  unless take_back locked_sessions sid session_rec locked_resources
           (match resource_rec with Some r => Some (rid, r) | None => None end)
  then ret false else
  finalized;;
  ret true.

(** ** Cancelling a read *)

Definition set_ev_live (b : bool) (r : NDDSA_Read) : NDDSA_Read :=
  {| rq_agent := rq_agent r; rq_session_key := rq_session_key r;
     rq_reader_id := rq_reader_id r; samples_rcvd := samples_rcvd r;
     samples_max := samples_max r; rq_max_bytes := rq_max_bytes r; rq_samples := rq_samples r;
     last_sample := last_sample r; start_ts := start_ts r; last_sample_ts := last_sample_ts r;
     sample_pace := sample_pace r; max_elapsed_ts := max_elapsed_ts r;
     rq_content_filter_expr := rq_content_filter_expr r; delayed := delayed r;
     rq_status := rq_status r; sem_event := sem_event r; ev_live := b |}.

Definition set_read_req (r : option Z) (a : NDDSA_AttachedResource) : NDDSA_AttachedResource :=
  {| at_base := at_base a; at_resource := at_resource a; at_session := at_session a;
     at_user_data := at_user_data a; read_req := r;
     last_sample_forwarded := last_sample_forwarded a;
     last_sample_returned := last_sample_returned a |}.

Definition upd_read (read : Z) (f : NDDSA_Read -> NDDSA_Read) : ndds unit :=
  let* r := read_of read in modify (put_read read (f r)).

Definition upd_attached (attached : Z) (f : NDDSA_AttachedResource -> NDDSA_AttachedResource)
    : ndds unit :=
  let* a := attached_of attached in modify (put_attached attached (f a)).

(** The part that frees the read, once its last event has come. *)
Definition free_read (attached : Z) : ndds unit :=
  let* a := attached_of attached in
  let* read := not_null (read_req a) in
  let* r := read_of read in
  (match rq_content_filter_expr r with
   | Some expr => ncall (StringFree expr);; ret tt
   | None => ret tt
   end);;
  ncall (EventSemaphoreDelete (sem_event r));;
  let* ag := the_nd_agent in
  ncall (ReadPoolReturn (pool_reads ag) read);;
  upd_attached attached (set_read_req None).

Definition NDDSA_Agent_cancel_readEA (others : Ndds -> Ndds) (session_rec attached : Z)
    (locked_resources : bool) (resource_rec : Z) : ndds DDS_ReturnCode_t :=
  let* rr := resource_rec_of resource_rec in
  let* a := attached_of attached in
  match read_req a with
  | None => ret DDS_RETCODE_OK
  | Some read =>
      let* r := read_of read in
      if NDDSA_Read_has_pending_samples r then ret DDS_RETCODE_ERROR else
      let* reader := not_null (resource_user_data (rr_resource rr)) in
      unless NDDSA_Reader_request_complete reader read then ret DDS_RETCODE_ERROR else
      upd_read read (set_ev_live false);;
      unless NDDSA_Agent_post_event (ReadEvent read false) NTP_TIME_ZERO
      then ret DDS_RETCODE_ERROR else
      let* r := read_of read in
      unless NDDSA_Agent_wait_for_semaphoreEA others false session_rec locked_resources
               (Some resource_rec) (sem_event r)
      then ret DDS_RETCODE_ERROR else
      free_read attached;;
      ret DDS_RETCODE_OK
  end.

(** A failure to release the record is only logged. *)
Definition NDDSA_Agent_cancel_readI (others : Ndds -> Ndds) (session_rec attached : Z)
    : ndds DDS_ReturnCode_t :=
  with_resource attached DDS_RETCODE_ERROR ret id
    (fun resource_rec => NDDSA_Agent_cancel_readEA others session_rec attached false resource_rec).
(** ** Starting a read *)

(** [NDDSA_READ_INITIALIZER] with the fields that are set before anything can fail. *)
Definition new_read (self : Z) (session_rec : NDDSA_ClientSessionRecord)
    (attached : NDDSA_AttachedResource) : NDDSA_Read :=
  {| rq_agent := Some self; rq_session_key := cs_key (sr_session session_rec);
     rq_reader_id := att_id (at_base attached); samples_rcvd := 0; samples_max := 0;
     rq_max_bytes := 0; rq_samples := []; last_sample := SEQUENCENUMBER_DEFAULT;
     start_ts := NTP_TIME_ZERO; last_sample_ts := NTP_TIME_ZERO; sample_pace := NTP_TIME_ZERO;
     max_elapsed_ts := NTP_TIME_ZERO; rq_content_filter_expr := None; delayed := false;
     rq_status := READSTATUS_DEFAULT; sem_event := None; ev_live := true |}.

Definition set_sem_event (e : option Z) (r : NDDSA_Read) : NDDSA_Read :=
  {| rq_agent := rq_agent r; rq_session_key := rq_session_key r;
     rq_reader_id := rq_reader_id r; samples_rcvd := samples_rcvd r;
     samples_max := samples_max r; rq_max_bytes := rq_max_bytes r; rq_samples := rq_samples r;
     last_sample := last_sample r; start_ts := start_ts r; last_sample_ts := last_sample_ts r;
     sample_pace := sample_pace r; max_elapsed_ts := max_elapsed_ts r;
     rq_content_filter_expr := rq_content_filter_expr r; delayed := delayed r;
     rq_status := rq_status r; sem_event := e; ev_live := ev_live r |}.

Definition set_start_ts (ts : NtpTime) (r : NDDSA_Read) : NDDSA_Read :=
  {| rq_agent := rq_agent r; rq_session_key := rq_session_key r;
     rq_reader_id := rq_reader_id r; samples_rcvd := samples_rcvd r;
     samples_max := samples_max r; rq_max_bytes := rq_max_bytes r; rq_samples := rq_samples r;
     last_sample := last_sample r; start_ts := ts; last_sample_ts := last_sample_ts r;
     sample_pace := sample_pace r; max_elapsed_ts := max_elapsed_ts r;
     rq_content_filter_expr := rq_content_filter_expr r; delayed := delayed r;
     rq_status := rq_status r; sem_event := sem_event r; ev_live := ev_live r |}.

(** The specification of a read is written field by field. *)
Definition set_limits (pace elapsed : NtpTime) (filter : option cstr) (smax : Z)
    (r : NDDSA_Read) : NDDSA_Read :=
  {| rq_agent := rq_agent r; rq_session_key := rq_session_key r;
     rq_reader_id := rq_reader_id r; samples_rcvd := samples_rcvd r;
     samples_max := smax; rq_max_bytes := rq_max_bytes r; rq_samples := rq_samples r;
     last_sample := last_sample r; start_ts := start_ts r; last_sample_ts := last_sample_ts r;
     sample_pace := pace; max_elapsed_ts := elapsed;
     rq_content_filter_expr := filter; delayed := delayed r;
     rq_status := rq_status r; sem_event := sem_event r; ev_live := ev_live r |}.

(** The sample a read starts after. *)
Definition start_after (p : NDDSA_ReadStartPoint) (a : NDDSA_AttachedResource) : SequenceNumber :=
  match p with
  | READSTARTPOINT_LAST_RETURNED => last_sample_returned a
  | READSTARTPOINT_LAST_FORWARDED => last_sample_forwarded a
  | READSTARTPOINT_FIRST_CACHED | READSTARTPOINT_OTHER _ => SEQUENCENUMBER_DEFAULT
  end.

(** A period in milliseconds; zero is none. *)
Definition period (ms : Z) : NtpTime :=
  if (0 <? ms)%Z then
    let s := (ms / 1000)%Z in NtpTime_packFromMillisec s (ms - 1000 * s)%Z
  else NTP_TIME_ZERO.

(** The fields of a specification that are copied: [max_bytes_per_second] is not. *)
Definition apply_spec (read : Z) (read_spec : option D2S2_ReadSpecification) : ndds bool :=
  match read_spec with
  | None => ret true
  | Some sp =>
      let pace := period (min_pace_period sp) in
      let elapsed := period (max_elapsed_time sp) in
      upd_read read (set_limits pace elapsed None 0);;
      match content_filter_expr sp with
      | Some expr =>
          unless ncall StringAllocation then ret false else
          upd_read read (set_limits pace elapsed (Some expr) (max_samples sp));;
          ret true
      | None =>
          upd_read read (set_limits pace elapsed None (max_samples sp));;
          ret true
      end
  end.

(** The part that runs with the buffer of the new read. *)
Definition start_new_read (fuel : nat) (self session_rec attached : Z) (reader_data : option Z)
    (read_spec : option D2S2_ReadSpecification) (read : Z) : ndds DDS_ReturnCode_t :=
  let* rec := session_rec_of session_rec in
  let* a := attached_of attached in
  modify (put_read read (new_read self rec a));;
  let* sem := ncall EventSemaphoreNew in
  upd_read read (set_sem_event sem);;
  if bool_decide (sem = None) then ret DDS_RETCODE_ERROR else
  let* ag := the_nd_agent in
  upd_read read (fun r => set_last (start_after (read_start_point ag) a) (last_sample_ts r) r);;
  unless apply_spec read read_spec then ret DDS_RETCODE_ERROR else
  let* now := ncall ClockGetTime in
  if negb (fst now) then ret DDS_RETCODE_ERROR else
  upd_read read (set_start_ts (snd now));;
  let* reader := not_null reader_data in
  unless NDDSA_Reader_new_request fuel reader read then ret DDS_RETCODE_ERROR else
  unless NDDSA_Agent_post_event (ReadEvent read true) NTP_TIME_ZERO
  then ret DDS_RETCODE_ERROR else
  ret DDS_RETCODE_OK.

(** A failure gives the buffer of the read back, wherever it comes from, and leaves the
    read with its reader. *)
Definition read_failed (attached : Z) (r : DDS_ReturnCode_t * option Z)
    : ndds (DDS_ReturnCode_t * option Z) :=
  (if dds_ok (fst r) then ret tt else
   let* a := attached_of attached in
   match read_req a with
   | Some read => let* ag := the_nd_agent in ncall (ReadPoolReturn (pool_reads ag) read);; ret tt
   | None => ret tt
   end);;
  ret r.

(** The return code and what was written to [resource_data_out]. *)
Definition NDDSA_Agent_readEA (others : Ndds -> Ndds) (fuel : nat) (self session_rec attached : Z)
    (read_spec : option D2S2_ReadSpecification) : ndds (DDS_ReturnCode_t * option Z) :=
  let failed := (DDS_RETCODE_ERROR, None) in
  with_resource attached failed (read_failed attached)
    (fun r => (DDS_RETCODE_ERROR, snd r)) (fun resource_rec =>
  let* rr := resource_rec_of resource_rec in
  let* a := attached_of attached in
  let* rc := match read_req a with
             | Some _ => NDDSA_Agent_cancel_readEA others session_rec attached false resource_rec
             | None => ret DDS_RETCODE_OK
             end in
  if negb (dds_ok rc) then ret failed else
  let* ag := the_nd_agent in
  let* read := ncall (ReadPoolGet (pool_reads ag)) in
  upd_attached attached (set_read_req read);;
  match read with
  | None => ret failed
  | Some read =>
      let* rc := start_new_read fuel self session_rec attached
                   (resource_user_data (rr_resource rr)) read_spec read in
      if negb (dds_ok rc) then ret failed else
      let* a := attached_of attached in
      ret (DDS_RETCODE_OK, at_user_data a)
  end).
(** ** Reading samples *)

(** The return code, and the samples DDS lent: [None] when it lent none. *)
Definition NDDSA_Agent_read_from_reader_ddsEA (attached : Z)
    : ndds (bool * option (list (Z * SequenceNumber * bool))) :=
  with_resource attached (false, None) ret (fun r => (false, snd r)) (fun resource_rec =>
  let* reader := reader_data resource_rec in
  let* a := attached_of attached in
  let* read := not_null (read_req a) in
  let? req := NDDSA_Reader_find_request_by_read reader read else ret (false, None) in
  let* q := rrequest_of req in
  let* r := areader_of reader in
  let* d := ncall (ReaderReadAll (dyn_reader r) (query_condition q)) in
  if dds_ok (fst d) then ret (true, Some (snd d))
  else ret (bool_decide (fst d = DDS_RETCODE_NO_DATA), None)).

Definition NDDSA_Agent_return_loan_to_reader_ddsEA (fuel : nat) (attached : Z) (updated : bool)
    : ndds bool :=
  with_resource attached false ret (fun _ => false) (fun resource_rec =>
  let* reader := reader_data resource_rec in
  let* a := attached_of attached in
  let* read := not_null (read_req a) in
  let? req := NDDSA_Reader_find_request_by_read reader read else ret false in
  let* r := areader_of reader in
  let* rc := ncall (ReaderReturnLoan (dyn_reader r)) in
  if negb (dds_ok rc) then ret false else
  if updated then NDDSA_Reader_requests_updated fuel reader else ret true).

(** How the loop over the samples ends: a sample that fails or has to wait stops it. *)
Inductive LoopEnd := LoopDone | LoopFailed | LoopAgain (delay : NtpTime).

Fixpoint samples_loop (session_rec attached : Z) (ts_now : NtpTime) (go_on : bool)
    (samples : list (Z * SequenceNumber * bool)) (updated : bool) : ndds (LoopEnd * bool) :=
  match samples with
  | [] => ret (LoopDone, updated)
  | (sample, sn, valid_data) :: samples =>
      if negb go_on then ret (LoopDone, updated) else
      if (valid_data : bool) then
        let* p := NDDSA_Read_process_sampleEA session_rec attached sn sample ts_now in
        if negb (processed p) then ret (LoopFailed, updated) else
        if old_sample p then samples_loop session_rec attached ts_now go_on samples updated else
        match try_again p, min_delay p with
        | true, Some delay => ret (LoopAgain delay, updated)
        | true, None => undefined
        | false, _ => samples_loop session_rec attached ts_now go_on samples true
        end
      else samples_loop session_rec attached ts_now go_on samples updated
  end.

(** The local variables of [NDDSA_Agent_read_from_readerEA] at [done]. *)
Record Reading := {
  rg_retcode : bool;
  rg_again : option NtpTime;
  rg_updated : bool;
  rg_complete : bool;
  rg_loan : bool
}.

Definition upd_read_req (attached : Z) (f : NDDSA_Read -> NDDSA_Read) : ndds unit :=
  let* a := attached_of attached in
  let* read := not_null (read_req a) in
  upd_read read f.

(** The part before [done].  [rg_complete] is that both flags are set. *)
Definition read_samples (session_rec attached : Z) : ndds Reading :=
  let stop rc complete loan := {| rg_retcode := rc; rg_again := None; rg_updated := false;
                                  rg_complete := complete; rg_loan := loan |} in
  let* now := ncall ClockGetTime in
  if negb (fst now) then ret (stop false false false) else
  let* a := attached_of attached in
  let* read := not_null (read_req a) in
  let* r := read_of read in
  let '(finite_request, read_complete) := NDDSA_Read_is_complete r (snd now) in
  if finite_request && read_complete then ret (stop true true false) else
  let* d := NDDSA_Agent_read_from_reader_ddsEA attached in
  let has_loan := bool_decide (is_Some (snd d)) in
  if negb (fst d) then ret (stop false false has_loan) else
  let* l := samples_loop session_rec attached (snd now) (negb finite_request || negb read_complete)
              (default [] (snd d)) false in
  let ended rc again complete :=
    {| rg_retcode := rc; rg_again := again; rg_updated := snd l; rg_complete := complete;
       rg_loan := has_loan |} in
  match fst l with
  | LoopFailed => ret (ended false None false)
  | LoopAgain delay => ret (ended true (Some delay) false)
  | LoopDone =>
      if finite_request then
        let* now := ncall ClockGetTime in
        if negb (fst now) then ret (ended false None false) else
        let* a := attached_of attached in
        let* read := not_null (read_req a) in
        let* r := read_of read in
        let '(finite_request, read_complete) := NDDSA_Read_is_complete r (snd now) in
        ret (ended true None (finite_request && read_complete))
      else ret (ended true None false)
  end.

Definition set_delayed (b : bool) (r : NDDSA_Read) : NDDSA_Read :=
  {| rq_agent := rq_agent r; rq_session_key := rq_session_key r;
     rq_reader_id := rq_reader_id r; samples_rcvd := samples_rcvd r;
     samples_max := samples_max r; rq_max_bytes := rq_max_bytes r; rq_samples := rq_samples r;
     last_sample := last_sample r; start_ts := start_ts r; last_sample_ts := last_sample_ts r;
     sample_pace := sample_pace r; max_elapsed_ts := max_elapsed_ts r;
     rq_content_filter_expr := rq_content_filter_expr r; delayed := b;
     rq_status := rq_status r; sem_event := sem_event r; ev_live := ev_live r |}.

(** The part under [done]. *)
Definition reading_done (fuel : nat) (attached : Z) (g : Reading) : ndds bool :=
  let* rc1 :=
    match rg_again g with
    | None => upd_read_req attached (NDDSA_Read_clear_status READSTATUS_DATA_AVAILABLE);;
              ret (rg_retcode g)
    | Some delay =>
        upd_read_req attached (set_delayed true);;
        let* a := attached_of attached in
        let* read := not_null (read_req a) in
        let* r := read_of read in
        let* ok := NDDSA_Agent_post_event (ReadEvent read (ev_live r)) delay in
        ret (ok && rg_retcode g)
    end in
  let* rc2 := (if rg_loan g then
                 let* ok := NDDSA_Agent_return_loan_to_reader_ddsEA fuel attached (rg_updated g) in
                 ret (ok && rc1)
               else ret rc1) in
  (if rg_complete g then upd_read_req attached (NDDSA_Read_set_status READSTATUS_COMPLETE)
   else ret tt);;
  ret rc2.

Definition NDDSA_Agent_read_from_readerEA (fuel : nat) (session_rec attached : Z) : ndds bool :=
  let* g := read_samples session_rec attached in
  reading_done fuel attached g.

(** The part of the event before [done]: whether the read is complete. *)
Definition data_on_reader (fuel : nat) (session_rec read : Z) : ndds bool :=
  let* r := read_of read in
  let? attached := NDDSA_ClientSession_find_attached_resource session_rec (rq_reader_id r)
  else ret false in
  let* a := attached_of attached in
  if negb (bool_decide (att_kind (at_base a) = RESOURCEKIND_DATAREADER)) then ret false else
  match read_req a with
  | None => ret false
  | Some req =>
      let* rq := read_of req in
      if NDDSA_Read_check_status READSTATUS_COMPLETE rq then ret true else
      (if delayed r then ret tt
       else upd_read req (NDDSA_Read_set_status READSTATUS_DATA_AVAILABLE));;
      upd_read read (set_delayed false);;
      unless NDDSA_Agent_read_from_readerEA fuel session_rec attached then ret false else
      let* a := attached_of attached in
      let* req := not_null (read_req a) in
      let* rq := read_of req in
      ret (NDDSA_Read_check_status READSTATUS_COMPLETE rq)
  end.

(** A trigger that is refused is tried again: the failure branch jumps back to the label
    it is under. *)
Fixpoint trigger_loop (fuel : nat) (condition : option Z) : ndds unit :=
  match fuel with
  | O => unfinished
  | S fuel =>
      let* rc := ncall (GuardTrigger condition true) in
      if dds_ok rc then ret tt else trigger_loop fuel condition
  end.

(** [live]: whether the second field of the storage of the event is set. *)
Definition NDDSA_Agent_on_data_on_reader (fuel : nat) (read : Z) (live : bool) : ndds bool :=
  let* r := read_of read in
  if negb live then ncall (EventSemaphoreGive (sem_event r));; ret false else
  let* s := lookup_active (rq_session_key r) in
  let* complete :=
    match s with
    | (Some session_rec, true) => data_on_reader fuel session_rec read
    | _ => ret false
    end in
  let* ag := the_nd_agent in
  (if complete then trigger_loop fuel (cond_cleanup_reads ag) else ret tt);;
  release_session_rec (fst s);;
  ret false.
(** ** Entry points

    The interface that calls is [src], the session its record.  The agent itself is the
    receiver of the calls and is left out where it is only passed on. *)

(** The return code, whether the resource exists, and its data. *)
Definition NDDSA_Agent_lookup_resource (session_rec resource_id : Z)
    : ndds (DDS_ReturnCode_t * bool * option Z) :=
  let* attached := NDDSA_ClientSession_find_attached_resource session_rec resource_id in
  match attached with
  | Some attached =>
      let* a := attached_of attached in
      ret (DDS_RETCODE_OK, true, at_user_data a)
  | None => ret (DDS_RETCODE_OK, false, None)
  end.

(** The data reader of a session with an identifier. *)
Definition attached_reader {A} (session_rec reader_id : Z) (refused : A) (body : Z -> ndds A)
    : ndds A :=
  let? attached := NDDSA_ClientSession_find_attached_resource session_rec reader_id
  else ret refused in
  let* a := attached_of attached in
  if negb (bool_decide (att_kind (at_base a) = RESOURCEKIND_DATAREADER)) then ret refused
  else body attached.

Definition NDDSA_Agent_read (others : Ndds -> Ndds) (fuel : nat) (self : Z) (src : option Z)
    (session_rec reader_id : Z) (read_spec : option D2S2_ReadSpecification)
    (request_param : option Z) : ndds DDS_ReturnCode_t :=
  attached_reader session_rec reader_id DDS_RETCODE_ERROR (fun attached =>
  let* r := NDDSA_Agent_readEA others fuel self session_rec attached read_spec in
  if negb (dds_ok (fst r)) then ret DDS_RETCODE_ERROR else
  let* rec := session_rec_of session_rec in
  let* rc := ncall (OnReadCreated src session_rec (cs_user_data (sr_session rec)) reader_id
                      (snd r) read_spec request_param) in
  if dds_ok rc then ret DDS_RETCODE_OK
  else NDDSA_Agent_cancel_readI others session_rec attached;; ret DDS_RETCODE_ERROR).

Definition NDDSA_Agent_cancel_read (others : Ndds -> Ndds) (src : option Z)
    (session_rec reader_id : Z) : ndds DDS_ReturnCode_t :=
  attached_reader session_rec reader_id DDS_RETCODE_ERROR (fun attached =>
  let* rc := NDDSA_Agent_cancel_readI others session_rec attached in
  if negb (dds_ok rc) then ret DDS_RETCODE_ERROR else
  let* rec := session_rec_of session_rec in
  let* a := attached_of attached in
  ncall (OnReadComplete src session_rec (cs_user_data (sr_session rec)) reader_id
           (at_user_data a));;
  ret DDS_RETCODE_OK).

(** *** Returning a loan *)

(** The received data goes from its read to its session; [false] when the read does not
    have it. *)
Definition take_back_data (session_rec attached read rcvd_data : Z) : ndds bool :=
  let* r := read_of read in
  if negb (bool_decide (rcvd_data ∈ rq_samples r)) then ret false else
  upd_read read (set_samples (unlink rcvd_data (rq_samples r)));;
  pool_rcvd_data session_rec rcvd_data;;
  let* a := attached_of attached in
  let* d := rcvd_of rcvd_data in
  (if (SequenceNumber_compare (last_sample_returned a) (rcv_dds_sn d) <? 0)%Z
   then upd_attached attached (set_returned (rcv_dds_sn d)) else ret tt);;
  ret true.

(** The part with the record of the resource: the return code and whether the read was
    cancelled because it is complete. *)
Definition count_returned (others : Ndds -> Ndds) (session_rec attached : Z) (ts_now : NtpTime)
    (resource_rec : Z) : ndds (DDS_ReturnCode_t * bool) :=
  upd_read_req attached (fun r => set_samples_rcvd ((samples_rcvd r + 1) mod 2 ^ 32)%Z r);;
  let* a := attached_of attached in
  let* read := not_null (read_req a) in
  let* r := read_of read in
  let '(finite_request, read_complete) := NDDSA_Read_is_complete r ts_now in
  if finite_request && read_complete then
    upd_read read (NDDSA_Read_set_status READSTATUS_COMPLETE);;
    let* r := read_of read in
    if NDDSA_Read_has_pending_samples r then ret (DDS_RETCODE_OK, false) else
    let* rc := NDDSA_Agent_cancel_readEA others session_rec attached false resource_rec in
    ret (if dds_ok rc then (DDS_RETCODE_OK, true) else (DDS_RETCODE_ERROR, false))
  else ret (DDS_RETCODE_OK, false).

(** The part with the reader the data was received from. *)
Definition return_to_reader (others : Ndds -> Ndds) (src : option Z)
    (session_rec rcvd_data attached : Z) : ndds DDS_ReturnCode_t :=
  let* a := attached_of attached in
  let? read := ret (read_req a) else ret DDS_RETCODE_ERROR in
  unless take_back_data session_rec attached read rcvd_data then ret DDS_RETCODE_ERROR else
  let* now := ncall ClockGetTime in
  if negb (fst now) then ret DDS_RETCODE_ERROR else
  let* r := with_resource attached (DDS_RETCODE_ERROR, false) ret (fun _ => (DDS_RETCODE_ERROR, false))
              (count_returned others session_rec attached (snd now)) in
  (if snd r then
     let* rec := session_rec_of session_rec in
     let* a := attached_of attached in
     ncall (OnReadComplete src session_rec (cs_user_data (sr_session rec)) (att_id (at_base a))
              (at_user_data a));;
     ret tt
   else ret tt);;
  ret (fst r).

Definition NDDSA_Agent_return_loan (others : Ndds -> Ndds) (src : option Z)
    (session_rec rcvd_data : Z) : ndds DDS_ReturnCode_t :=
  let* d := rcvd_of rcvd_data in
  if negb (bool_decide (rcv_session d = Some session_rec)) then ret DDS_RETCODE_ERROR else
  let* rec := session_rec_of session_rec in
  if negb (bool_decide (cs_intf (sr_session rec) = src)) then ret DDS_RETCODE_ERROR else
  attached_reader session_rec (rcv_reader_id d) DDS_RETCODE_ERROR
    (return_to_reader others src session_rec rcvd_data).
End reads.

(** ** The samples of one reading *)

Section reading.
Context {N : NddsApi}.

(** The samples of a list that have data and are newer than the ones before, after
    sample [last]. *)
Fixpoint fresh (last : SequenceNumber) (l : list (Z * SequenceNumber * bool))
    : list (Z * SequenceNumber) :=
  match l with
  | [] => []
  | (sample, sn, valid) :: l =>
      if valid && negb (0 <=? SequenceNumber_compare last sn)%Z then (sample, sn) :: fresh sn l
      else fresh last l
  end.

Definition earlier (a b : SequenceNumber) : Prop := (SequenceNumber_compare a b < 0)%Z.

Lemma earlier_trans {NOk : NddsApiOk N} a b c : earlier a b -> earlier b c -> earlier a c.
Proof.
  unfold earlier. intros Hab Hbc. destruct sn_order as [Hz Hf].
  pose proof (sn_trans a b c ltac:(lia) ltac:(lia)). destruct (Z.eq_dec (SequenceNumber_compare a c) 0%Z) as [E|]; [| lia].
  apply Hz in E as ->; [| done ..]. specialize (Hf b c I I). unfold sign_flip in Hf. lia.
Qed.

(** They are in order, so no sample is there twice. *)
Lemma fresh_increasing {NOk : NddsApiOk N} last l :
  StronglySorted earlier (last :: map snd (fresh last l)).
Proof.
  revert last. induction l as [|[[sample sn] valid] l IH]; intros last; cbn [fresh].
  { by repeat constructor. }
  destruct (valid && _) eqn:E; [| apply IH]. apply andb_true_iff in E as [_ E].
  assert (Hlt : earlier last sn) by (unfold earlier; lia).
  specialize (IH sn). cbn [map snd]. constructor; [exact IH |].
  inversion IH as [|? ? Hs Hall]; subst. apply Forall_cons. split; [exact Hlt |].
  eapply Forall_impl; [exact Hall |]. intros x Hx. by eapply earlier_trans.
Qed.

(** The samples that were serialized, and how many of them the service took. *)
Definition handed_of (e : nevent) : list Z :=
  match projT1 e with SampleToCdr sample _ _ => [sample] | _ => [] end.
Definition handed (t : list nevent) : list Z := flat_map handed_of t.
Definition accepted (t : list nevent) : nat :=
  length (List.filter (fun d => let '(_, (rc, _, again)) := d in dds_ok rc && negb again) (deliveries t)).

Lemma handed_app (t1 t2 : list (event NResp)) : handed (t1 ++ t2) = handed t1 ++ handed t2.
Proof. apply flat_map_app. Qed.
Lemma accepted_app (t1 t2 : list (event NResp)) : accepted (t1 ++ t2) = (accepted t1 + accepted t2)%nat.
Proof. unfold accepted. by rewrite deliveries_app, List.filter_app, length_app. Qed.
Context (sess att rq : Z) (rec : NDDSA_ClientSessionRecord).

Abbreviation sview := (view sess att rq rec).

(** Only the sample at hand is serialized. *)
Definition handles (sample : Z) (c : NCall) : bool :=
  match c with SampleToCdr x _ _ => (x =? sample)%Z | _ => true end.

Lemma process_handles sn sample now :
  makes (handles sample) (NDDSA_Read_process_sampleEA sess att sn sample now).
Proof.
  unfold NDDSA_Read_process_sampleEA, NDDSA_Read_convert_sampleEA, deliver_sample, sample_delivered,
    take_rcvd_data, fill_rcvd_data, allocate_rcvd_data, pool_rcvd_data, attached_of, not_null,
    read_of, session_rec_of, rcvd_of, the_nd_agent.
  repeat (makes_step || (apply makes_call; cbn; lia)).
Qed.

Lemma handles_handed sample (t : list (event NResp)) :
  Forall (fun c => handles sample c = true) (calls t) -> Forall (fun x => x = sample) (handed t).
Proof.
  induction t as [|[c r] t IH]; cbn; [intros _; apply List.Forall_nil |].
  intros [Hc Ht]%Forall_cons. specialize (IH Ht).
  destruct c; cbn in *; try done. apply Forall_cons. split; [lia | done].
Qed.

Lemma handed_serialized (t : list (event NResp)) : length (handed t) = length (serialized t).
Proof.
  induction t as [|[c r] t IH]; [done |].
  change (handed (existT c r :: t)) with (handed_of (existT c r) ++ handed t).
  change (serialized (existT c r :: t)) with (serialized_of (existT c r) ++ serialized t).
  rewrite !length_app, IH. by destruct c.
Qed.

(** One sample, as the loop sees it. *)
Definition step_taken (s : Ndds) (r : NDDSA_Read) (sample : Z) (sn : SequenceNumber)
    (t : list nevent) (p : Processed) (s' : Ndds) : Prop :=
  p = processed_new /\ accepted t = 1%nat /\ handed t = [sample]
  /\ exists pool' a' r', sview s' pool' a' r' /\ read_req a' = Some rq /\ known s' pool'
       /\ last_sample r' = sn.

Definition step_stopped (a : NDDSA_AttachedResource) (r : NDDSA_Read) (sample : Z)
    (t : list nevent) (p : Processed) (s' : Ndds) : Prop :=
  (p = process_failed \/ exists delay, p = processed_later delay) /\ accepted t = 0%nat
  /\ Forall (fun x => x = sample) (handed t) /\ exists pool', sview s' pool' a r /\ known s' pool'.

Lemma known_perm s (l l' : list Z) : l ≡ₚ l' -> known s l -> known s l'.
Proof. unfold known. by intros <-. Qed.

Lemma process_step s pool a r sn sample now :
  sview s pool a r -> read_req a = Some rq -> known s pool ->
  spec header_written (NDDSA_Read_process_sampleEA sess att sn sample now) s (fun t p s' =>
    if (0 <=? SequenceNumber_compare (last_sample r) sn)%Z
    then p = processed_old /\ t = [] /\ s' = s
    else step_taken s r sample sn t p s' \/ step_stopped a r sample t p s').
Proof.
  intros Hv Hreq Hk.
  eapply spec_mono; [apply spec_makes; [by apply (process_spec sess att rq rec s pool a r) |
    apply (process_handles sn sample now)] |].
  intros t p s' [[Hpost Hk'] Hmk]. apply handles_handed in Hmk.
  unfold sample_post in Hpost. cbv zeta in Hpost.
  assert (Hacc : forall n, deliveries t = n -> accepted t = length (List.filter
    (fun d => let '(_, (rc, _, again)) := d in dds_ok rc && negb again) n)) by (by intros n <-).
  destruct (deliveries t) as [|[d [[rc retained] again]] [|]] eqn:Hd; [| | done].
  - destruct Hpost as (Hres & Hsame & pool' & Hv' & Hperm). specialize (Hacc [] eq_refl).
    destruct (0 <=? _)%Z.
    + subst p. destruct Hsame as [-> ->]; done.
    + right. split_and!; [| done | done |].
      * destruct (pace_delay r now); [right; by eexists | by left].
      * exists pool'. split; [done |]. by eapply known_perm.
  - destruct Hpost as (-> & _ & pool' & dd & w & Heq & Hw & Hd' & _ & Hres).
    specialize (Hacc _ eq_refl). cbn in Hacc. rewrite Heq in Hk'.
    pose proof (Forall_cons_1 _ _ _ Hk') as [Hkd Hkp].
    destruct (dds_ok rc && negb again) eqn:Hok; cbn in Hacc; destruct Hres as [-> Hv'].
    + left. split_and!; [done | done | |].
      * pose proof (handed_serialized t) as Hlen. rewrite Hw in Hlen.
        destruct (handed t) as [|x [|]]; try done. apply Forall_cons in Hmk as [-> _]. done.
      * exists pool', (delivered_attached a sn retained), (delivered_read r d sn now retained).
        split_and!; try done; by destruct retained.
    + right. split_and!; [| done | done |].
      * destruct (dds_ok rc); [right; by eexists | by left].
      * exists (pool' ++ [d]). split; [done |]. eapply known_perm; [| exact Hk'].
        by rewrite (Permutation_app_comm pool' [d]).
Qed.
(** What a batch of samples does: a prefix of the fresh ones is serialized, in order, and
    taken by the service. *)
Definition batch_post (s : Ndds) (r : NDDSA_Read) (samples : list (Z * SequenceNumber * bool))
    (updated : bool) (t : list nevent) (res : LoopEnd * bool) (s' : Ndds) : Prop :=
  let l := fresh (last_sample r) samples in
  exists n rest pool' a' r', (n <= length l)%nat
    /\ sview s' pool' a' r' /\ read_req a' = Some rq /\ known s' pool'
    /\ handed t = map fst (take n l) ++ rest /\ accepted t = n
    /\ last_sample r' = default (last_sample r) (last (map snd (take n l)))
    /\ snd res = updated || negb (n =? 0)%nat
    /\ match fst res with
       | LoopDone => n = length l /\ rest = []
       | _ => exists x, l !! n = Some x /\ Forall (fun y => y = fst x) rest
       end.

Lemma batch_none s pool a r samples updated :
  sview s pool a r -> read_req a = Some rq -> known s pool -> fresh (last_sample r) samples = [] ->
  batch_post s r samples updated [] (LoopDone, updated) s.
Proof.
  intros Hv Hreq Hk Hf. unfold batch_post. rewrite Hf. exists 0%nat, [], pool, a, r. cbn.
  by rewrite orb_false_r.
Qed.

Lemma batch_stopped s (a : NDDSA_AttachedResource) r sample sn samples updated t p s' e :
  (0 <=? SequenceNumber_compare (last_sample r) sn)%Z = false -> read_req a = Some rq ->
  step_stopped a r sample t p s' -> e <> LoopDone ->
  batch_post s r ((sample, sn, true) :: samples) updated t (e, updated) s'.
Proof.
  intros Hsn Hreq (_ & Hacc & Hh & pool' & Hv & Hk) He. unfold batch_post. cbn [fresh].
  rewrite Hsn. cbn [andb negb]. exists 0%nat, (handed t), pool', a, r. cbn.
  rewrite orb_false_r. split_and!; try done; [lia |]. destruct e; [done | |]; by eexists.
Qed.

Lemma last_cons_default {A} (d x : A) (l : list A) : default d (last (x :: l)) = default x (last l).
Proof. rewrite last_cons. by destruct (last l). Qed.

Lemma batch_taken s r sample sn samples updated t1 s1 r1 t2 res s2 :
  (0 <=? SequenceNumber_compare (last_sample r) sn)%Z = false ->
  accepted t1 = 1%nat -> handed t1 = [sample] -> last_sample r1 = sn ->
  batch_post s1 r1 samples true t2 res s2 ->
  batch_post s r ((sample, sn, true) :: samples) updated (t1 ++ t2) res s2.
Proof.
  intros Hsn Hacc Hh Hlast (n & rest & pool' & a' & r' & Hn & Hv & Hreq & Hk & Hhand & Hac & Hl & Hu & He).
  unfold batch_post. cbn [fresh]. rewrite Hsn. cbn [andb negb]. subst sn.
  exists (S n), rest, pool', a', r'. cbn [take map fst snd length].
  split_and!; try done; [lia | by rewrite handed_app, Hh, Hhand | by rewrite accepted_app, Hacc, Hac
                        | by rewrite last_cons_default | by rewrite Hu, orb_true_r |].
  destruct (fst res); cbn; [by destruct He as [-> ->] | done | done].
Qed.
Lemma sorted_take {A} (R : A -> A -> Prop) n l : StronglySorted R l -> StronglySorted R (take n l).
Proof.
  intros H. revert n. induction H as [|x l H IH Hx]; intros [|n]; cbn; constructor; [apply IH |].
  by apply Forall_take.
Qed.

Lemma map_take {A B} (f : A -> B) n l : map f (take n l) = take n (map f l).
Proof. revert n. induction l; intros [|n]; cbn; [done .. |]. by f_equal. Qed.

Lemma loop_spec now samples : forall s pool a r updated,
  sview s pool a r -> read_req a = Some rq -> known s pool ->
  spec header_written (samples_loop sess att now true samples updated) s
    (batch_post s r samples updated).
Proof.
  induction samples as [|[[sample sn] valid] samples IH]; intros s pool a r updated Hv Hreq Hk;
    cbn [samples_loop].
  { apply spec_ret. by eapply batch_none. }
  cbn [negb]. destruct valid; cycle 1.
  { eapply spec_mono; [by eapply IH |]. done. }
  apply spec_bind. eapply spec_mono; [by eapply process_step |]. intros t p s1 H.
  destruct (0 <=? SequenceNumber_compare (last_sample r) sn)%Z eqn:Hsn.
  { destruct H as (-> & -> & ->). cbn [processed old_sample negb].
    eapply spec_mono; [by eapply IH |]. intros t res s2 H. unfold batch_post in *.
    cbn [fresh]. by rewrite Hsn. }
  destruct H as [(-> & Hacc & Hh & pool1 & a1 & r1 & Hv1 & Hreq1 & Hk1 & Hl1)|H].
  - cbn [processed old_sample try_again negb processed_new]. eapply spec_mono; [by eapply IH |].
    intros t2 res s2 Hpost. by eapply batch_taken.
  - pose proof H as ([-> | [delay ->]] & _); cbn; apply spec_ret; rewrite app_nil_r;
      by eapply batch_stopped.
Qed.

(** C23: one reading goes through the samples DDS lent in their order.  What it serializes
    is a prefix of the samples that have data and are newer than the last one of the read
    and than each other, and the service takes exactly the samples of this prefix: a
    sample is never taken twice, and the read ends at the last one taken.  The prefix is
    everything when the reading goes through, and a reading stopped by a failure or a
    delay stops at the next fresh sample. *)
Theorem samples_loop_takes_fresh {NOk : NddsApiOk N} now samples s pool a r updated :
  sview s pool a r -> read_req a = Some rq -> known s pool ->
  let l := fresh (last_sample r) samples in
  spec header_written (samples_loop sess att now true samples updated) s
    (fun t res s' => exists n rest pool' a' r',
       sview s' pool' a' r' /\ handed t = map fst (take n l) ++ rest /\ accepted t = n
       /\ StronglySorted earlier (last_sample r :: map snd (take n l))
       /\ last_sample r' = default (last_sample r) (last (map snd (take n l)))
       /\ snd res = updated || negb (n =? 0)%nat
       /\ match fst res with
          | LoopDone => n = length l /\ rest = []
          | _ => exists x, l !! n = Some x /\ Forall (fun y => y = fst x) rest
          end).
Proof.
  intros Hv Hreq Hk l. eapply spec_mono; [by eapply loop_spec |].
  intros t res s' (n & rest & pool' & a' & r' & Hn & Hv' & _ & _ & Hh & Hacc & Hl & Hu & He).
  exists n, rest, pool', a', r'. split_and!; try done.
  pose proof (fresh_increasing (last_sample r) samples) as Hs. fold l in Hs.
  apply (sorted_take _ (S n)) in Hs. cbn [take] in Hs. by rewrite <- map_take in Hs.
Qed.
End reading.

(** Samples 3, 5 and 6 for a read that has had sample 4. *)
Definition example_samples : list (Z * SequenceNumber * bool) :=
  [(1, 3, true); (2, 5, true); (3, 6, false)]%Z.

Example fresh_samples : fresh 4%Z example_samples = [(2, 5)]%Z.
Proof. reflexivity. Qed.

Lemma samples_loop_takes_fresh_witness :
  spec header_written (samples_loop 100 200 2%Z true example_samples false) example_state
    (fun t res s' => (accepted t <= 1)%nat /\ (fst res = LoopDone -> handed t = [2%Z])).
Proof.
  eapply spec_mono;
    [apply (samples_loop_takes_fresh 100 200 300 sample_session 2%Z example_samples example_state []
              example_attached example_read false)|].
  - unfold view. split_and!; vm_compute; reflexivity.
  - reflexivity.
  - by apply List.Forall_nil.
  - cbv zeta. intros t res s' (n & rest & pool' & a' & r' & _ & Hh & Hacc & _ & _ & _ & He).
    change (fresh (last_sample example_read) example_samples) with [(2, 5)%Z] in *.
    destruct (fst res) eqn:E.
    + destruct He as [-> ->]. split; [rewrite Hacc; cbn; lia | intros _; exact Hh].
    + destruct He as (x & Hx & _). apply lookup_lt_Some in Hx. cbn in Hx. split; [lia | done].
    + destruct He as (x & Hx & _). apply lookup_lt_Some in Hx. cbn in Hx. split; [lia | done].
Defined.

(** ** The record of a resource *)

Section with_record.
Context {N : NddsApi} {C : ConnextCore}.

(** The calls to cursors of the database. *)
Definition cursor_call (c : NCall) : bool :=
  match c with
  | GetWorker _ | CursorAssert _ _ | CursorAssertAndStart _ _ | CursorStart _ | CursorFinish _
  | CursorFinishSafe _ | CursorLockTable _ | CursorUnlockTable _ | CursorGotoKeyEqual _ _
  | CursorGotoTop _ | CursorGotoNext _ | CursorModify _ | CursorFinishReadWriteArea _ => true
  | _ => false
  end.

Definition cursors_only (t : list (event NResp)) : Prop := only cursor_call t.

(** The only record the database finds is at [rp]. *)
Definition finds (rp : Z) (e : nevent) : Prop :=
  match e with
  | existT c r =>
      match c return NResp c -> Prop with
      | CursorModify _ => fun r => r = None \/ r = Some rp
      | _ => fun _ => True
      end r
  end.

Lemma release_resource_quiet E s :
  spec E NDDSA_AgentDb_release_resource s (fun t _ s' => cursors_only t /\ s' = s).
Proof.
  unfold NDDSA_AgentDb_release_resource, NDDSA_AgentDb_release_record, worker_cursor,
    NDDSA_AgentDb_get_worker. repeat nstep; (split; [| done]); by repeat constructor.
Qed.

(** The database does not give a record: no worker, no cursor, no row, or the area of the row. *)
Definition record_refused (e : nevent) : Prop :=
  match e with
  | existT c r =>
      match c return NResp c -> Prop with
      | GetWorker _ => fun r => r = None
      | CursorAssertAndStart _ _ => fun r => fst (fst r) = false \/ snd (fst r) = None
      | CursorGotoKeyEqual _ _ => fun r => r = false
      | CursorModify _ => fun r => r = None
      | _ => fun _ => False
      end r
  end.

Lemma lookup_resource_finds rp id sid s :
  NDDSA_StaticResourceId_from_id id = Some sid ->
  spec (finds rp) (NDDSA_AgentDb_lookup_resource id) s (fun t l s' =>
    cursors_only t /\ s' = s
    /\ ((exists p, l = (true, Some (Some p)) /\ p = rp)
        \/ (forall p, l <> (true, Some (Some p)))
           /\ (fst sid = false \/ List.Exists record_refused t))).
Proof.
  intros Hsid. unfold NDDSA_AgentDb_lookup_resource, with_static_id.
  apply spec_bind. eapply spec_reads; [exact Hsid |]. destruct (fst sid); cycle 1.
  { nstep. split_and!; [apply List.Forall_nil | done | right]. split; [done | by left]. }
  unfold NDDSA_AgentDb_lookup_record, started_cursor, finish_safe, NDDSA_AgentDb_get_worker.
  repeat nstep; try (split_and!; [by repeat constructor | done |]); try done.
  all: cbn in *; first
    [ left; eexists; split; [reflexivity |]; by destruct H2 as [|[= ->]]
    | right; split; [done | right]; cbn; rewrite ?List.Exists_cons; cbn; tauto ].
Qed.

(** The result of [with_resource] by cases: without a record, and with it, when the
    answer depends on whether the record can be released. *)
Lemma with_resource_spec {A} (E : nevent -> Prop) rp attached a rr sid
    (refused : A) done failed body s (Q : list nevent -> A -> Ndds -> Prop) :
  (forall e, E e -> finds rp e) ->
  attached_at s !! attached = Some a -> resource_at s !! rp = Some rr ->
  NDDSA_StaticResourceId_from_id (att_resource (at_base a)) = Some sid ->
  (forall t, cursors_only t -> fst sid = false \/ List.Exists record_refused t ->
     spec E (done refused) s (fun t' r s' => Q (t ++ t') r s')) ->
  (forall t, cursors_only t ->
     spec E (if native_deleted (rr_resource rr) then ret refused else body rp) s
       (fun t1 r s1 => spec E (done r) s1 (fun t2 r s' => forall t3 (ok : bool), cursors_only t3 ->
          Q (t ++ t1 ++ t2 ++ t3) (if ok then r else failed r) s'))) ->
  spec E (with_resource attached refused done failed body) s Q.
Proof.
  intros HE Ha Hrr Hsid Hno Hyes. unfold with_resource. apply spec_bind.
  eapply spec_reads; [exact Ha |]. apply spec_bind.
  eapply spec_mono; [eapply spec_strengthen; [exact HE | by eapply lookup_resource_finds] |].
  intros t l s1 (Ht & -> & [(p & -> & ->) | [Hl Hr]]); cycle 1.
  { destruct l as [[] [[p|]|]]; [by destruct (Hl p) | ..];
      (eapply spec_mono; [by apply (Hno t) | done]). }
  nstep. eapply spec_reads; [exact Hrr |].
  apply spec_bind. eapply spec_mono; [by apply (Hyes t) |]. intros t1 r s1 H1.
  apply spec_bind. eapply spec_mono; [exact H1 |]. intros t2 r2 s2 H2.
  apply spec_bind. eapply spec_mono; [apply release_resource_quiet |]. intros t3 b s3 [Ht3 ->].
  nstep. rewrite !app_nil_r. by apply H2.
Qed.

(** ** A second read of a reader *)

Definition freed_read_of (e : nevent) : list Z :=
  match projT1 e with ReadPoolReturn _ read => [read] | _ => [] end.

(** The reads whose buffers were given back. *)
Definition freed_reads (t : list nevent) : list Z := flat_map freed_read_of t.

Lemma freed_reads_app (t1 t2 : list (event NResp)) :
  freed_reads (t1 ++ t2) = freed_reads t1 ++ freed_reads t2.
Proof. apply flat_map_app. Qed.

Lemma freed_reads_cursors t : cursors_only t -> freed_reads t = [].
Proof.
  unfold cursors_only, only, freed_reads.
  induction t as [|[c r] t IH]; [done |]. cbn. intros [Hc Ht]%Forall_cons.
  rewrite IH by done. by destruct c.
Qed.

Lemma cancel_pending E others session_rec att a rr rp rq r s :
  attached_at s !! att = Some a -> resource_at s !! rp = Some rr -> read_req a = Some rq ->
  read_at s !! rq = Some r -> rq_samples r <> [] ->
  spec E (NDDSA_Agent_cancel_readEA others session_rec att false rp) s (fun t rc s' =>
    t = [] /\ rc = DDS_RETCODE_ERROR /\ s' = s).
Proof.
  intros Ha Hrr Hreq Hr Hp. unfold NDDSA_Agent_cancel_readEA.
  nstep. eapply spec_reads; [exact Hrr |]. nstep. eapply spec_reads; [exact Ha |].
  rewrite Hreq. nstep. eapply spec_reads; [exact Hr |].
  unfold NDDSA_Read_has_pending_samples. destruct (rq_samples r); [done |]. by nstep.
Qed.

Lemma read_failed_returns E att a rq s x :
  attached_at s !! att = Some a -> read_req a = Some rq ->
  spec E (read_failed att (DDS_RETCODE_ERROR, x)) s (fun t res s' =>
    freed_reads t = [rq] /\ res = (DDS_RETCODE_ERROR, x) /\ s' = s).
Proof.
  intros Ha Hreq. unfold read_failed. cbn [fst dds_ok]. nstep. nstep.
  eapply spec_reads; [exact Ha |]. rewrite Hreq. nstep. nstep. nstep. nstep. nstep. nstep. done.
Qed.

(** a reader that has a read whose samples were not all returned refuses another one,
    and gives back the buffer of the read it has: the reader and its list of requests go
    on using it.  A record that cannot be found or released does not change this. *)
Theorem read_again_frees_active_read others fuel self session_rec att read_spec a rr rp sid rq r s :
  attached_at s !! att = Some a -> resource_at s !! rp = Some rr ->
  NDDSA_StaticResourceId_from_id (att_resource (at_base a)) = Some sid ->
  read_req a = Some rq -> read_at s !! rq = Some r -> rq_samples r <> [] ->
  spec (finds rp) (NDDSA_Agent_readEA others fuel self session_rec att read_spec) s
    (fun t res s' => res = (DDS_RETCODE_ERROR, None) /\ s' = s /\ freed_reads t = [rq]).
Proof.
  intros Ha Hrr Hsid Hreq Hr Hp. unfold NDDSA_Agent_readEA. cbv zeta.
  assert (Hfail : forall E, spec E (read_failed att (DDS_RETCODE_ERROR, None)) s (fun t res s' =>
    freed_reads t = [rq] /\ res = (DDS_RETCODE_ERROR, None) /\ s' = s))
    by (intros E; by eapply read_failed_returns).
  eapply with_resource_spec; try done.
  - intros t Ht _. eapply spec_mono; [apply Hfail |]. intros t' res s' (Hf & -> & ->).
    by rewrite freed_reads_app, Hf, freed_reads_cursors.
  - intros t Ht.
    assert (Hend : forall t1, freed_reads t1 = [] ->
      spec (finds rp) (read_failed att (DDS_RETCODE_ERROR, None)) s (fun t2 res s' =>
        forall t3 (ok : bool), cursors_only t3 ->
          (if ok then res else (DDS_RETCODE_ERROR, snd res)) = (DDS_RETCODE_ERROR, None)
          /\ s' = s /\ freed_reads (t ++ t1 ++ t2 ++ t3) = [rq])).
    { intros t1 H1. eapply spec_mono; [apply Hfail |]. intros t2 res s' (Hf & -> & ->) t3 ok Ht3.
      rewrite !freed_reads_app, H1, Hf, !freed_reads_cursors by done. by destruct ok. }
    destruct (native_deleted _); [nstep; by apply Hend |].
    nstep. eapply spec_reads; [exact Hrr |]. nstep. eapply spec_reads; [exact Ha |].
    rewrite Hreq. nstep. eapply spec_mono; [by eapply cancel_pending |].
    intros t1 rc s1 (-> & -> & ->). cbn [dds_ok negb]. nstep. by apply Hend.
Qed.
(** ** Returning a loan *)

Definition returned_read (r : NDDSA_Read) (p : Z) (counted complete : bool) : NDDSA_Read :=
  let r := set_samples (unlink p (rq_samples r)) r in
  let r := if counted then set_samples_rcvd ((samples_rcvd r + 1) mod 2 ^ 32)%Z r else r in
  if complete then NDDSA_Read_set_status READSTATUS_COMPLETE r else r.

Definition returned_attached (a : NDDSA_AttachedResource) (d : NDDSA_ReceivedData)
    : NDDSA_AttachedResource :=
  if (SequenceNumber_compare (last_sample_returned a) (rcv_dds_sn d) <? 0)%Z
  then set_returned (rcv_dds_sn d) a else a.

(** The read is finite and complete at a time. *)
Definition completes (r : NDDSA_Read) (now : NtpTime) : bool :=
  let '(finite, complete) := NDDSA_Read_is_complete r now in finite && complete.

(** A read that no time completes. *)
Definition stays_open (r : NDDSA_Read) : Prop := forall now, completes r now = false.

Context (sess att rq : Z) (rec : NDDSA_ClientSessionRecord).

Lemma take_back_spec E s pool a r p d :
  view sess att rq rec s pool a r -> rcvd_at s !! p = Some d -> p ∈ rq_samples r ->
  spec E (take_back_data sess att rq p) s (fun t b s' =>
    t = [] /\ b = true /\ resource_at s' = resource_at s
    /\ view sess att rq rec s' (pool ++ [p]) (returned_attached a d) (returned_read r p false false)).
Proof.
  intros (Hs & Ha & Hr) Hd Hp. unfold take_back_data. nstep. eapply spec_reads; [exact Hr |].
  rewrite bool_decide_true by done. cbn [negb]. nstep. unfold upd_read. nstep.
  eapply spec_reads; [exact Hr |]. nstep. unfold pool_rcvd_data. nstep. nstep.
  eapply spec_reads; [exact Hs |]. nstep. nstep. eapply spec_reads; [exact Ha |]. nstep.
  eapply spec_reads; [exact Hd |]. nstep. unfold returned_attached.
  destruct (_ <? 0)%Z.
  - unfold upd_attached. nstep. eapply spec_reads; [exact Ha |]. nstep. nstep. split_and!; try done.
    unfold view; cbn. by rewrite !lookup_insert_eq.
  - nstep. nstep. split_and!; try done. unfold view; cbn. by rewrite !lookup_insert_eq.
Qed.

Lemma count_returned_spec E others s pool a r p rp now :
  view sess att rq rec s pool a (returned_read r p false false) -> read_req a = Some rq ->
  (unlink p (rq_samples r) <> [] \/ stays_open (returned_read r p true false)) ->
  spec E (count_returned others sess att now rp) s (fun t res s' =>
    t = [] /\ res = (DDS_RETCODE_OK, false)
    /\ view sess att rq rec s' pool a
         (returned_read r p true (completes (returned_read r p true false) now))).
Proof.
  intros (Hs & Ha & Hr) Hreq Hopen. unfold completes. unfold stays_open, completes in Hopen.
  unfold count_returned, upd_read_req, upd_read.
  nstep. nstep. eapply spec_reads; [exact Ha |]. nstep. eapply spec_reads; [exact Hreq |].
  nstep. eapply spec_reads; [exact Hr |]. nstep.
  change (set_samples_rcvd ((samples_rcvd (returned_read r p false false) + 1) mod 2 ^ 32)%Z
            (returned_read r p false false)) with (returned_read r p true false).
  nstep. eapply spec_reads; [exact Ha |]. nstep. eapply spec_reads; [exact Hreq |].
  nstep. eapply spec_reads; [cbn; by rewrite lookup_insert_eq |].
  set (r1 := returned_read r p true false).
  repeat match goal with |- context [NDDSA_Read_is_complete ?x now] =>
    lazymatch x with r1 => fail | _ => change x with r1 end end.
  destruct (NDDSA_Read_is_complete r1 now) as [f c] eqn:Hc. destruct (f && c) eqn:Hfc.
  - assert (Hpend : NDDSA_Read_has_pending_samples (NDDSA_Read_set_status READSTATUS_COMPLETE r1) = true).
    { change (match unlink p (rq_samples r) with [] => false | _ => true end = true).
      destruct (unlink p (rq_samples r)); [| done]. destruct Hopen as [|Ho]; [done |].
      specialize (Ho now). fold r1 in Ho. by rewrite Hc, Hfc in Ho. }
    apply spec_bind, spec_bind. eapply spec_reads; [cbn; by rewrite lookup_insert_eq |].
    apply spec_modify. apply spec_bind.
    eapply spec_reads; [cbn; by rewrite lookup_insert_eq |].
    match goal with |- context [NDDSA_Read_has_pending_samples ?x] =>
      change x with (NDDSA_Read_set_status READSTATUS_COMPLETE r1) end.
    rewrite Hpend. apply spec_ret. split_and!; try done.
    split_and!; [exact Hs | exact Ha |]. cbn. by rewrite lookup_insert_eq.
  - apply spec_ret. split_and!; try done.
    split_and!; [exact Hs | exact Ha |]. cbn. by rewrite lookup_insert_eq.
Qed.

Definition clock_refused (e : nevent) : Prop :=
  match e with
  | existT c r =>
      match c return NResp c -> Prop with
      | ClockGetTime => fun r => fst r = false
      | _ => fun _ => False
      end r
  end.

End with_record.

(** ** The trigger of a read that is complete *)

Section trigger.
Context {N : NddsApi} {C : ConnextCore}.

Definition is_trigger (c : NCall) : bool := match c with GuardTrigger _ _ => true | _ => false end.

Definition trigger_refused (e : nevent) : Prop :=
  match e with
  | existT c r =>
      match c return NResp c -> Prop with
      | GuardTrigger _ _ => fun rc => rc <> DDS_RETCODE_OK
      | _ => fun _ => True
      end r
  end.

Lemma trigger_loop_refused fuel cond s t o :
  runs (trigger_loop fuel cond s) t o -> Forall trigger_refused t ->
  o = Unfinished /\ length t = fuel /\ only is_trigger t.
Proof.
  revert t; induction fuel as [|fuel IH]; intros t Hr Ht; cbn in Hr.
  { destruct Hr as [-> ->]. split_and!; [done .. | apply only_nil]. }
  destruct Hr as (rc & t' & -> & Hr). apply Forall_cons in Ht as [Hrc Ht]. cbn in Hrc.
  destruct rc; [done | destruct (IH t' Hr Ht) as (-> & <- & Ho) ..];
    (split_and!; [done .. | by apply only_cons]).
Qed.

(** Nothing else sets the trigger. *)
Definition not_trigger (c : NCall) : bool := negb (is_trigger c).

#[local] Ltac mk := repeat (makes_step || (apply (makes_call (R := NResp)); reflexivity)).

Lemma find_attached_not_trigger id l : makes not_trigger (find_attached_loop l id).
Proof. induction l; cbn; unfold attached_of; mk. Qed.
Lemma find_request_not_trigger read l : makes not_trigger (find_request_loop read l).
Proof. induction l; cbn; unfold rrequest_of; mk. Qed.
Lemma process_not_trigger session_rec attached sn sample now :
  makes not_trigger (NDDSA_Read_process_sampleEA session_rec attached sn sample now).
Proof.
  unfold NDDSA_Read_process_sampleEA, NDDSA_Read_convert_sampleEA, deliver_sample, sample_delivered,
    take_rcvd_data, fill_rcvd_data, allocate_rcvd_data, pool_rcvd_data, attached_of, not_null,
    read_of, session_rec_of, rcvd_of, the_nd_agent. mk.
Qed.
Lemma dismiss_sn_not_trigger l first sn : makes not_trigger (dismiss_loop_sn l first sn).
Proof.
  revert first sn; induction l; intros first sn; cbn; unfold rrequest_of, not_null, read_of; mk.
Qed.
Lemma dismiss_not_trigger fuel self sn : makes not_trigger (dismiss_samples_loop fuel self sn).
Proof.
  induction fuel; cbn; unfold peek_sample, dismiss_sample, upd_reader, areader_of; mk.
Qed.
#[local] Hint Resolve find_attached_not_trigger find_request_not_trigger process_not_trigger
  dismiss_sn_not_trigger dismiss_not_trigger : makes.

Lemma loop_not_trigger session_rec attached now go samples updated :
  makes not_trigger (samples_loop session_rec attached now go samples updated).
Proof.
  revert updated; induction samples as [|[[sample sn] valid] samples IH]; intros updated; cbn; mk.
Qed.
Lemma post_not_trigger l d : makes not_trigger (NDDSA_Agent_post_event l d).
Proof. unfold NDDSA_Agent_post_event. mk. Qed.
Lemma with_resource_not_trigger {A} attached (refused : A) done failed body :
  (forall a, makes not_trigger (done a)) -> (forall r, makes not_trigger (body r)) ->
  makes not_trigger (with_resource attached refused done failed body).
Proof.
  intros Hd Hb. unfold with_resource, NDDSA_AgentDb_lookup_resource, with_static_id,
    NDDSA_AgentDb_lookup_record, started_cursor, NDDSA_AgentDb_release_resource,
    NDDSA_AgentDb_release_record, worker_cursor, NDDSA_AgentDb_get_worker, finish_safe,
    attached_of, resource_rec_of, the_db. mk.
Qed.
#[local] Hint Resolve loop_not_trigger post_not_trigger : makes.

Lemma data_not_trigger fuel session_rec read :
  makes not_trigger (data_on_reader fuel session_rec read).
Proof.
  unfold data_on_reader, NDDSA_ClientSession_find_attached_resource, NDDSA_Agent_read_from_readerEA,
    read_samples, reading_done, NDDSA_Agent_read_from_reader_ddsEA,
    NDDSA_Agent_return_loan_to_reader_ddsEA, NDDSA_Reader_find_request_by_read,
    NDDSA_Reader_requests_updated, reader_data, upd_read_req, upd_read, attached_of, not_null,
    read_of, session_rec_of, rrequest_of, areader_of, resource_rec_of.
  repeat (apply with_resource_not_trigger || makes_step || intros).
Qed.

Lemma quiet_runs {A} (m : ndds A) s t o :
  makes not_trigger m -> runs (m s) t o -> count is_trigger t = 0%nat.
Proof.
  intros Hm. specialize (Hm s). revert t Hm. generalize (m s).
  intros p. induction p as [x | c k IH | |]; intros t' Hm Hr'; cbn in *;
    [by destruct Hr' as [-> _] | | by destruct Hr' as [-> _] ..].
  destruct Hm as [Hc' Hk], Hr' as (r & t'' & -> & Hr'). rewrite count_cons, (IH r t'') by done.
  unfold not_trigger in Hc'. by destruct (is_trigger c).
Qed.

(** A quiet first part leaves the triggers to the second. *)
Lemma runs_after_quiet {A B} (m : ndds A) (f : A -> ndds B) s t o :
  makes not_trigger m -> runs (bind m f s) t o -> (0 < count is_trigger t)%nat ->
  exists t1 t2 x s1, t = t1 ++ t2 /\ count is_trigger t1 = 0%nat /\ runs (f x s1) t2 o.
Proof.
  intros Hm Hr Hc.
  destruct (tbind_split _ _ _ _ Hr) as [(t1 & t2 & [x s1] & -> & H1 & H2) | (o' & _ & H1 & _)].
  - exists t1, t2, x, s1. split_and!; [done | by eapply quiet_runs | done].
  - rewrite (quiet_runs _ _ _ _ Hm H1) in Hc. lia.
Qed.

(** once a read is complete its event tells the clean-up of reads, and while the
    trigger is refused it tries again without an end, with the record of the session
    locked. *)
Theorem on_data_on_reader_stuck fuel read live s t o :
  runs (NDDSA_Agent_on_data_on_reader fuel read live s) t o ->
  Forall trigger_refused t -> (0 < count is_trigger t)%nat ->
  o = Unfinished /\ exists t1 t2, t = t1 ++ t2 /\ count is_trigger t1 = 0%nat
    /\ length t2 = fuel /\ only is_trigger t2.
Proof.
  intros Hr Ht Hc. unfold NDDSA_Agent_on_data_on_reader in Hr.
  apply runs_after_quiet in Hr as (t0 & t1 & r & s1 & -> & H0 & Hr);
    [| unfold read_of; mk | done].
  rewrite count_app, H0 in Hc. destruct live; cbn [negb] in Hr; cycle 1.
  { apply runs_after_quiet in Hr as (t2 & t3 & ? & s2 & -> & H2 & Hr); [| mk | done].
    cbn in Hr. destruct Hr as [-> _]. rewrite count_app, H2 in Hc. cbn in Hc. lia. }
  apply runs_after_quiet in Hr as (t2 & t3 & sr & s2 & -> & H2 & Hr);
    [| unfold lookup_active, NDDSA_AgentDb_lookup_session, NDDSA_AgentDb_lookup_record,
         started_cursor, NDDSA_AgentDb_get_worker, finish_safe, session_rec_of, the_db; mk | done].
  rewrite count_app, H2 in Hc.
  apply runs_after_quiet in Hr as (t4 & t5 & complete & s3 & -> & H4 & Hr);
    [| destruct sr as [[?|] []]; [apply data_not_trigger | mk ..] | done].
  rewrite count_app, H4 in Hc.
  apply runs_after_quiet in Hr as (t6 & t7 & ag & s4 & -> & H6 & Hr);
    [| unfold the_nd_agent; mk | done].
  rewrite count_app, H6 in Hc. destruct complete; cycle 1.
  { apply quiet_runs in Hr; [lia |].
    unfold release_session_rec, NDDSA_AgentDb_release_session, NDDSA_AgentDb_release_record,
      worker_cursor, NDDSA_AgentDb_get_worker, the_db. mk. }
  assert (Ht7 : Forall trigger_refused t7) by (by rewrite !Forall_app in Ht; naive_solver).
  assert (Hend : forall o', runs (trigger_loop fuel (cond_cleanup_reads ag) s4) t7 o' ->
    o' = Unfinished /\ length t7 = fuel /\ only is_trigger t7)
    by (intros o' Ho; by eapply trigger_loop_refused).
  destruct (tbind_split _ _ _ _ Hr) as [(ta & tb & x & -> & Ha & _) | (o' & _ & Ha & Ho)].
  { apply trigger_loop_refused in Ha; [by destruct Ha | by apply Forall_app in Ht7 as []]. }
  destruct (Hend _ Ha) as (-> & Hl & Hon). split; [exact Ho |].
  exists (t0 ++ t2 ++ t4 ++ t6), t7.
  split; [by rewrite <- !app_assoc |]. rewrite !count_app, H0, H2, H4, H6. done.
Qed.
End trigger.

(** ** An example: a reader with one read, of the session of [sample_key] *)

Definition reads_key : D2S2_ClientSessionKey := {| csk_client := 7; csk_id := 129 |}.

Definition reads_attached (read : option Z) : NDDSA_AttachedResource :=
  {| at_base := {| att_kind := RESOURCEKIND_DATAREADER; att_resource := D2S2_RESOURCEID_INITIALIZER;
                   att_client := 7; att_session := 129; att_id := 22 |}%Z;
     at_resource := Some 400%Z; at_session := Some 100%Z; at_user_data := None; read_req := read;
     last_sample_forwarded := 0%Z; last_sample_returned := 0%Z |}.

Definition reads_session : NDDSA_ClientSessionRecord :=
  {| sr_session :=
       {| cs_key := reads_key; cs_agent := Some 1; cs_intf := Some 2; cs_resources := [200];
          cs_timeout := 0; cs_user_data := None; deleted := false; timedout := false;
          resetting := false; rcvd_data_pool := []; sem_timeout := None; sem_cleanup := None;
          ts_live := true |}%Z;
     sr_ea := Some 900%Z |}.

(** A read with two samples at the service, and its status. *)
Definition reads_read (status : Z) : NDDSA_Read :=
  set_status status (set_samples [500; 501]%Z (new_read 1 reads_session (reads_attached None))).

Definition reads_rcvd : NDDSA_ReceivedData :=
  {| rcv_session_key := reads_key; rcv_reader_id := 22; rcv_data := D2S2_DATAREPRESENTATION_INITIALIZER;
     rcv_read := Some 300; rcv_session := Some 100; rcv_dds_sn := 0 |}%Z.

Definition reads_state (status : Z) : Ndds :=
  put_session 100 reads_session (put_attached 200 (reads_attached (Some 300%Z))
    (put_read 300 (reads_read status) (put_rcvd 500 reads_rcvd
      (put_resource 400 NDDSA_RESOURCERECORD_INITIALIZER sample_ndds)))).


Lemma read_again_frees_active_read_witness :
  spec (finds 400)
    (NDDSA_Agent_readEA id 9 1 100 200 (Some D2S2_READSPECIFICATION_INITIALIZER)) (reads_state 0)
    (fun t res s' => res = (DDS_RETCODE_ERROR, None) /\ s' = reads_state 0 /\ freed_reads t = [300%Z]).
Proof.
  apply (read_again_frees_active_read id 9 1 100 200 (Some D2S2_READSPECIFICATION_INITIALIZER)
           (reads_attached (Some 300%Z)) NDDSA_RESOURCERECORD_INITIALIZER 400
           (true, {| sid_base := D2S2_RESOURCEID_INITIALIZER; ref_buffer := [] |})
           300 (reads_read 0) (reads_state 0)); try (vm_compute; reflexivity).
  discriminate.
Defined.


(** The database has the session, and the trigger is refused. *)
Definition stuck_service : environment NResp := fun _ c =>
  match c return NResp c -> NResp c with
  | GetWorker _ => fun _ => Some 800%Z
  | CursorAssertAndStart _ _ => fun _ => (true, Some 801%Z, [801%Z])
  | CursorGotoKeyEqual _ _ => fun _ => true
  | CursorModify _ => fun _ => Some 100%Z
  | GuardTrigger _ _ => fun _ => DDS_RETCODE_ERROR
  | _ => fun d => d
  end (quiet_ndds c).

Definition stuck_run :=
  exec stuck_service [] (NDDSA_Agent_on_data_on_reader 5 300 true (reads_state READSTATUS_COMPLETE)).

Lemma on_data_on_reader_stuck_witness :
  exists t, runs (NDDSA_Agent_on_data_on_reader 5 300 true (reads_state READSTATUS_COMPLETE)) t Unfinished
    /\ exists t1 t2, t = t1 ++ t2 /\ count is_trigger t1 = 0%nat /\ length t2 = 5%nat.
Proof.
  exists (fst stuck_run).
  assert (Hr : runs (NDDSA_Agent_on_data_on_reader 5 300 true (reads_state READSTATUS_COMPLETE))
                 (fst stuck_run) Unfinished).
  { pose proof (exec_runs stuck_service
      (NDDSA_Agent_on_data_on_reader 5 300 true (reads_state READSTATUS_COMPLETE)) []) as H.
    change (snd (exec stuck_service [] _)) with (snd stuck_run) in H.
    replace (snd stuck_run) with (@Unfinished (bool * Ndds)) in H by (vm_compute; reflexivity).
    exact H. }
  split; [exact Hr |].
  destruct (on_data_on_reader_stuck 5 300 true (reads_state READSTATUS_COMPLETE) (fst stuck_run)
              Unfinished Hr) as (_ & t1 & t2 & Ht & Hc & Hl & _).
  - assert (H : Forall trigger_refused (fst stuck_run)); [| exact H]. vm_compute.
    repeat constructor; discriminate.
  - vm_compute. lia.
  - exists t1, t2. split_and!; assumption.
Defined.
