(* ===== verification/NddsFrames.v ===== *)
(** * DDS agent: what the operations of the database change

    Nothing of the memory: an operation of the database only talks to it, except that it
    initializes a record it makes.  So it preserves every preorder on memories, and
    [nframe] proves that a program does whose own updates do: the lemmas are in the
    database [frames]. *)

From Stdlib Require Import ZArith Lia Ascii String.
From stdpp Require Import base tactics list gmap.
From S2P Require Import Prelude.
From S2P Require Import CString.
From S2P Require Import Infrastructure.
From S2P Require Import Interaction.
From S2P Require Import ServiceData.
From S2P Require Import NddsData.
From S2P Require Import AgentDb.
From S2P Require Import NddsReads.

Local Open Scope nano_scope.

(** [frame_step] for programs of the DDS agent. *)
Ltac nframe_step :=
  lazymatch goal with
  | |- preserves ?Rl (call ?c) => exact (preserves_call (R := NResp) Rl c)
  | |- _ => frame_step
  end.
Ltac nframe := repeat nframe_step.

#[export] Hint Extern 0 (PreOrder _) => exact _ : frames.

Section frames.
Context {N : NddsApi} {C : ConnextCore}.
Context (Rl : Ndds -> Ndds -> Prop) `{!PreOrder Rl}.

Lemma frame_the_db : preserves Rl the_db.
Proof. unfold the_db. nframe. Qed.
Lemma frame_the_agent : preserves Rl the_nd_agent.
Proof. unfold the_nd_agent. nframe. Qed.
Lemma frame_session_rec p : preserves Rl (session_rec_of p).
Proof. unfold session_rec_of. nframe. Qed.
Lemma frame_resource_rec p : preserves Rl (resource_rec_of p).
Proof. unfold resource_rec_of. nframe. Qed.
Lemma frame_attached_of p : preserves Rl (attached_of p).
Proof. unfold attached_of. nframe. Qed.
Lemma frame_read_of p : preserves Rl (read_of p).
Proof. unfold read_of. nframe. Qed.
Lemma frame_rcvd_of p : preserves Rl (rcvd_of p).
Proof. unfold rcvd_of. nframe. Qed.
Lemma frame_areader_of p : preserves Rl (areader_of p).
Proof. unfold areader_of. nframe. Qed.
Lemma frame_rrequest_of p : preserves Rl (rrequest_of p).
Proof. unfold rrequest_of. nframe. Qed.
Lemma frame_awriter_of p : preserves Rl (awriter_of p).
Proof. unfold awriter_of. nframe. Qed.
Lemma frame_event_of p : preserves Rl (event_of p).
Proof. unfold event_of. nframe. Qed.
Lemma frame_not_null p : preserves Rl (not_null p).
Proof. unfold not_null. nframe. Qed.

#[local] Hint Resolve frame_the_db frame_the_agent frame_session_rec frame_resource_rec
  frame_attached_of frame_read_of frame_rcvd_of frame_areader_of frame_rrequest_of
  frame_awriter_of frame_event_of frame_not_null : frames.

Lemma frame_get_worker : preserves Rl NDDSA_AgentDb_get_worker.
Proof. unfold NDDSA_AgentDb_get_worker. nframe. Qed.
#[local] Hint Resolve frame_get_worker : frames.
Lemma frame_worker_cursor t : preserves Rl (worker_cursor t).
Proof. unfold worker_cursor. nframe. Qed.
#[local] Hint Resolve frame_worker_cursor : frames.

Lemma frame_each {A} (f : A -> ndds unit) l :
  (forall a, preserves Rl (f a)) -> preserves Rl (each f l).
Proof. intros H. induction l; [nframe | rewrite each_cons; nframe]. Qed.

Lemma frame_remove_record t c : preserves Rl (remove_record t c).
Proof.
  unfold remove_record. nframe. apply frame_each. intros p.
  destruct t; unfold finalize_record, NDDSA_AgentDb_finalize_session_record,
    NDDSA_AgentDb_finalize_resource_record; nframe.
Qed.
Lemma frame_finish_safe l : preserves Rl (finish_safe l).
Proof. unfold finish_safe. nframe. Qed.
#[local] Hint Resolve frame_remove_record frame_finish_safe : frames.

Lemma frame_started {A} c (fail : A) f :
  (forall cursor stack, preserves Rl (f cursor stack)) -> preserves Rl (started_cursor c fail f).
Proof. intros H. unfold started_cursor. nframe. Qed.

Lemma frame_lock_table t b c : preserves Rl (lock_table t b c).
Proof.
  unfold lock_table, lock_at. nframe. apply frame_started. intros. nframe.
Qed.
Lemma frame_unlock_table t b : preserves Rl (unlock_table t b).
Proof. unfold unlock_table. nframe. Qed.
Lemma frame_lookup_at t k : preserves Rl (lookup_at t k).
Proof. unfold lookup_at. nframe. Qed.
Lemma frame_release_at t : preserves Rl (release_at t).
Proof. unfold release_at. nframe. Qed.
Lemma frame_delete_at t k : preserves Rl (delete_at t k).
Proof. unfold delete_at. nframe. Qed.
Lemma frame_lookup_record c k : preserves Rl (NDDSA_AgentDb_lookup_record c k).
Proof. unfold NDDSA_AgentDb_lookup_record. apply frame_started. intros. nframe. Qed.
Lemma frame_release_record t : preserves Rl (NDDSA_AgentDb_release_record t).
Proof. unfold NDDSA_AgentDb_release_record. nframe. Qed.
Lemma frame_find_next_resource_loop n c f :
  (forall g, f = Some g -> forall p, preserves Rl (g p)) ->
  preserves Rl (find_next_resource_loop n c f).
Proof.
  intros H. induction n as [|n IH]; cbn [find_next_resource_loop]; [nframe |].
  destruct f as [g|]; nframe; by eapply H.
Qed.
Lemma frame_find_next_loop n c f :
  (forall g, f = Some g -> forall p, preserves Rl (g p)) -> preserves Rl (find_next_loop n c f).
Proof.
  intros H. induction n as [|n IH]; cbn [find_next_loop]; [nframe |].
  destruct f as [g|]; nframe; by eapply H.
Qed.
Lemma frame_find_next_resource n f :
  (forall g, f = Some g -> forall p, preserves Rl (g p)) ->
  preserves Rl (NDDSA_AgentDb_find_next_resourceEA n f).
Proof. intros H. unfold NDDSA_AgentDb_find_next_resourceEA. nframe. by apply frame_find_next_resource_loop. Qed.
Lemma frame_find_next_session n f prev :
  (forall g, f = Some g -> forall p, preserves Rl (g p)) ->
  preserves Rl (NDDSA_AgentDb_find_next_session n f prev).
Proof.
  intros H. unfold NDDSA_AgentDb_find_next_session, NDDSA_AgentDb_find_next_record. nframe.
  all: by apply frame_find_next_loop.
Qed.
#[local] Hint Resolve frame_lock_table frame_unlock_table frame_lookup_at frame_release_at
  frame_delete_at frame_lookup_record frame_release_record : frames.

Lemma frame_with_static {A} id (no : A) f :
  (forall sid, preserves Rl (f sid)) -> preserves Rl (with_static_id id no f).
Proof. intros H. unfold with_static_id. nframe. Qed.
Lemma frame_lookup_resourceEA id : preserves Rl (NDDSA_AgentDb_lookup_resourceEA id).
Proof. apply frame_with_static. intros. apply frame_lookup_at. Qed.
Lemma frame_delete_resourceEA id : preserves Rl (NDDSA_AgentDb_delete_resourceEA id).
Proof. apply frame_with_static. intros. apply frame_delete_at. Qed.
Lemma frame_lookup_resource id : preserves Rl (NDDSA_AgentDb_lookup_resource id).
Proof. apply frame_with_static. intros. nframe. Qed.
Lemma frame_iterate_resources : preserves Rl NDDSA_AgentDb_iterate_resourcesEA.
Proof. unfold NDDSA_AgentDb_iterate_resourcesEA. nframe. Qed.
Lemma frame_iterate_sessions : preserves Rl NDDSA_AgentDb_iterate_sessions.
Proof. unfold NDDSA_AgentDb_iterate_sessions. nframe. apply frame_started. intros. nframe. Qed.
Lemma frame_finish_iterate t : preserves Rl (finish_iterate t).
Proof. unfold finish_iterate. nframe. Qed.
Lemma frame_lookup_session k : preserves Rl (NDDSA_AgentDb_lookup_session k).
Proof. unfold NDDSA_AgentDb_lookup_session. nframe. Qed.
Lemma frame_delete_session : preserves Rl NDDSA_AgentDb_delete_session.
Proof. unfold NDDSA_AgentDb_delete_session. nframe. Qed.
Lemma frame_assert_record c k n b : preserves Rl (NDDSA_AgentDb_assert_record c k n b).
Proof.
  unfold NDDSA_AgentDb_assert_record, assert_return, assert_failed. apply frame_started.
  intros. nframe.
Qed.
End frames.

#[export] Hint Resolve frame_the_db frame_the_agent frame_session_rec frame_resource_rec
  frame_attached_of frame_read_of frame_rcvd_of frame_areader_of frame_rrequest_of
  frame_awriter_of frame_event_of frame_not_null frame_get_worker frame_worker_cursor
  frame_remove_record frame_finish_safe frame_lock_table frame_unlock_table frame_lookup_at
  frame_release_at frame_delete_at frame_lookup_record frame_release_record
  frame_lookup_resourceEA frame_delete_resourceEA frame_lookup_resource frame_iterate_resources
  frame_iterate_sessions frame_finish_iterate frame_lookup_session frame_delete_session
  frame_assert_record : frames.
#[export] Hint Extern 1 (preserves _ (NDDSA_AgentDb_lock_resources _ _)) => apply frame_lock_table : frames.
#[export] Hint Extern 1 (preserves _ (NDDSA_AgentDb_lock_sessions _ _)) => apply frame_lock_table : frames.
#[export] Hint Extern 1 (preserves _ (NDDSA_AgentDb_unlock_resources _)) => apply frame_unlock_table : frames.
#[export] Hint Extern 1 (preserves _ (NDDSA_AgentDb_unlock_sessions _)) => apply frame_unlock_table : frames.
#[export] Hint Extern 1 (preserves _ NDDSA_AgentDb_release_resourceEA) => apply frame_release_at : frames.
#[export] Hint Extern 1 (preserves _ NDDSA_AgentDb_release_sessionEA) => apply frame_release_at : frames.
#[export] Hint Extern 1 (preserves _ NDDSA_AgentDb_release_resource) => apply frame_release_record : frames.
#[export] Hint Extern 1 (preserves _ NDDSA_AgentDb_release_session) => apply frame_release_record : frames.
#[export] Hint Extern 1 (preserves _ (NDDSA_AgentDb_lookup_sessionEA _)) => apply frame_lookup_at : frames.
#[export] Hint Extern 1 (preserves _ (NDDSA_AgentDb_delete_sessionEA _)) => apply frame_delete_at : frames.
#[export] Hint Extern 1 (preserves _ NDDSA_AgentDb_finish_iterate_sessions) => apply frame_finish_iterate : frames.

(** ** Operations that only talk to the database *)

Section quiet.
Context {N : NddsApi} {C : ConnextCore}.

(** Whatever is answered, [m] ends with the memory as it was, after calls to cursors
    only, and with a result that satisfies [P]. *)
Definition quiet {A} (E : nevent -> Prop) (m : ndds A) (s : Ndds) (P : A -> Prop) : Prop :=
  spec E m s (fun t r s' => cursors_only t /\ s' = s /\ P r).

Lemma quiet_bind {A B} E (m : ndds A) (f : A -> ndds B) s P Q :
  quiet E m s P ->
  (forall t a, cursors_only t -> P a ->
     spec E (f a) s (fun t' r s' => Q (t ++ t') r s')) ->
  spec E (bind m f) s Q.
Proof.
  intros Hm Hf. apply spec_bind. eapply spec_mono; [exact Hm |].
  intros t a s' (Ht & -> & Ha). by apply Hf.
Qed.

Ltac quiet := unfold quiet, worker_cursor, lock_at, started_cursor, finish_safe,
  NDDSA_AgentDb_get_worker; repeat nstep; (split_and!; [by repeat constructor | done | done]).

Lemma quiet_lock E t b c s : quiet E (lock_table t b c) s (fun _ => True).
Proof. unfold lock_table. quiet. Qed.
Lemma quiet_unlock E t b s : quiet E (unlock_table t b) s (fun _ => True).
Proof. unfold unlock_table. quiet. Qed.
Lemma quiet_release E t s : quiet E (release_at t) s (fun _ => True).
Proof. unfold release_at. quiet. Qed.
Lemma quiet_release_record E t s : quiet E (NDDSA_AgentDb_release_record t) s (fun _ => True).
Proof. unfold NDDSA_AgentDb_release_record. quiet. Qed.

Lemma quiet_lookup rp t k s :
  quiet (finds rp) (lookup_at t k) s (fun r => forall p, snd r = Some p -> r = (true, Some rp)).
Proof.
  unfold quiet, lookup_at, worker_cursor, NDDSA_AgentDb_get_worker.
  repeat nstep; (split_and!; [by repeat constructor | done |]); try done.
  all: cbn in *; intros p ->; by destruct H2 as [|[= ->]].
Qed.

Lemma quiet_lookup_resourceEA rp id sid s :
  NDDSA_StaticResourceId_from_id id = Some sid ->
  quiet (finds rp) (NDDSA_AgentDb_lookup_resourceEA id) s
    (fun r => forall p, snd r = Some p -> r = (true, Some rp)).
Proof.
  intros Hsid. unfold quiet, NDDSA_AgentDb_lookup_resourceEA, with_static_id.
  apply spec_bind. eapply spec_reads; [exact Hsid |]. destruct (fst sid).
  - apply quiet_lookup.
  - nstep. split_and!; [apply only_nil | done | done].
Qed.

(** A session is looked up at its record, if at all. *)
Lemma quiet_lookup_session rp k s :
  quiet (finds rp) (NDDSA_AgentDb_lookup_session k) s
    (fun r => forall p, r = Some (Some p) -> p = rp).
Proof.
  unfold quiet, NDDSA_AgentDb_lookup_session, NDDSA_AgentDb_lookup_record, started_cursor,
    finish_safe, NDDSA_AgentDb_get_worker.
  repeat nstep; (split_and!; [by repeat constructor | done |]); try done.
  all: cbn in *; intros q [= ->]; by destruct H2 as [|[= ->]].
Qed.
End quiet.
