(* ===== verification/NddsDelete.v ===== *)
(** * DDS agent: deleting resources

    The functions of [NddsAgent.c] that delete the DDS entity of a resource and what it
    contains, and those of [NddsResourceFactory.c] and [NddsXmlResource.c] they call:
    finding an entity by its name and unloading its XML element.

    The entities of a participant, publisher or subscriber are deleted first.  Each may
    have a resource of its own; then that resource is deleted, which finds its entity
    again by name.  The three functions call each other: they share one fuel, and a
    kind of entity contains only kinds of less rank.  [rows] is the fuel of the loops
    over the table of resources and the requests of a reader.  What every run deletes, and in which
    order, is the grammar [entity_deleted] of its steps. *)

From Stdlib Require Import ZArith Lia Ascii String.
From stdpp Require Import base tactics list gmap.
From S2P Require Import Prelude.
From S2P Require Import CString.
From S2P Require Import Infrastructure.
From S2P Require Import EntityName.
From S2P Require Import Interaction.
From S2P Require Import ServiceData.
From S2P Require Import NddsData.
From S2P Require Import AgentDb.
From S2P Require Import NddsResources.
From S2P Require Import NddsReaders.
From S2P Require Import NddsWriters.
From S2P Require Import NddsFrames.

Local Open Scope nano_scope.

#[export] Instance D2S2_ResourceKind_eq_dec : EqDecision D2S2_ResourceKind.
Proof. solve_decision. Defined.

Section delete.
Context {N : NddsApi} {C : ConnextCore}.

(** ** The factory of resources *)

(** Whether it succeeded, whether the entity exists, and the entity. *)
Definition NDDSA_ResourceFactory_lookup_entity_resourceEA (kind : D2S2_ResourceKind)
    (id : D2S2_ResourceId) (entity : option Z) : ndds (bool * bool * option Z) :=
  let existing (r : bool * option Z) : bool * bool * option Z :=
    if fst r then (true, bool_decide (is_Some (snd r)), snd r) else (false, false, snd r) in
  match kind with
  | RESOURCEKIND_APPLICATION =>
      let* r := NDDSA_RefResource_lookup_application id in
      ret (bool_decide (is_Some r), default false r, entity)
  | RESOURCEKIND_DOMAINPARTICIPANT =>
      let* r := NDDSA_RefResource_lookup_participant id in
      ret (match r with Some e => existing (true, e) | None => (false, false, entity) end)
  | RESOURCEKIND_TOPIC => let* r := NDDSA_RefResource_lookup_topic id in ret (existing r)
  | RESOURCEKIND_PUBLISHER => let* r := NDDSA_RefResource_lookup_publisher id in ret (existing r)
  | RESOURCEKIND_SUBSCRIBER => let* r := NDDSA_RefResource_lookup_subscriber id in ret (existing r)
  | RESOURCEKIND_DATAWRITER => let* r := NDDSA_RefResource_lookup_datawriter id in ret (existing r)
  | RESOURCEKIND_DATAREADER => let* r := NDDSA_RefResource_lookup_datareader id in ret (existing r)
  | RESOURCEKIND_DOMAIN => ret (NDDSA_RefResource_lookup_domain id false, entity)
  | RESOURCEKIND_QOSPROFILE => ret (NDDSA_RefResource_lookup_qosprofile id false, entity)
  | RESOURCEKIND_TYPE => ret (NDDSA_RefResource_lookup_type id false, entity)
  | RESOURCEKIND_UNKNOWN => ret (false, false, entity)
  end.

(** The macros that enter and leave the exclusive area of the factory are empty. *)
Definition NDDSA_ResourceFactory_lookup_entity_resource (kind : D2S2_ResourceKind)
    (id : D2S2_ResourceId) (entity : option Z) : ndds (bool * bool * option Z) :=
  NDDSA_ResourceFactory_lookup_entity_resourceEA kind id entity.

Definition DEPTH_LIBRARY : Z := 1.

(** The element of a resource: that of its library, its own, or none. *)
Inductive XmlElement := ElementLibrary | ElementResource | ElementNone.

Definition xml_element (kind : D2S2_ResourceKind) : XmlElement :=
  match kind with
  | RESOURCEKIND_DOMAINPARTICIPANT | RESOURCEKIND_DOMAIN | RESOURCEKIND_QOSPROFILE
  | RESOURCEKIND_APPLICATION => ElementLibrary
  | RESOURCEKIND_TOPIC | RESOURCEKIND_PUBLISHER | RESOURCEKIND_SUBSCRIBER
  | RESOURCEKIND_DATAWRITER | RESOURCEKIND_DATAREADER | RESOURCEKIND_TYPE => ElementResource
  | RESOURCEKIND_UNKNOWN => ElementNone
  end.

(** Failures are only logged. *)
Definition NDDSA_ResourceFactory_unload_resource_xml (kind : D2S2_ResourceKind)
    (id : D2S2_ResourceId) : ndds unit :=
  if negb (bool_decide (id_kind id = RESOURCEIDKIND_REF)) then ret tt else
  let? factory := ncall FactoryGetInstance else ret tt in
  let* n := entity_name id in
  if negb (fst n) then ret tt else
  match xml_element kind with
  | ElementLibrary =>
      let? own := name_ref (snd n) DEPTH_LIBRARY else ret tt in
      ncall (UnloadXmlElement factory (Some own));;
      ncall (StringFree own);;
      ret tt
  | ElementResource =>
      ncall (UnloadXmlElement factory (default None (id_ref id)));;
      ret tt
  | ElementNone => ret tt
  end.

(** ** Finding the resource of an entity *)

(** [entity] read from the union. *)
Definition entity_of (r : NDDSA_Resource) : option (option Z) :=
  match native_value (native r) with NativeEntity e => Some e | NativeGeneric _ => None end.

Definition has_entity (kind : D2S2_ResourceKind) : bool :=
  match kind with
  | RESOURCEKIND_DATAREADER | RESOURCEKIND_DATAWRITER | RESOURCEKIND_SUBSCRIBER
  | RESOURCEKIND_PUBLISHER | RESOURCEKIND_TOPIC | RESOURCEKIND_DOMAINPARTICIPANT => true
  | _ => false
  end.

(** The parameter is the kind and the entity that are looked for.  The union is read
    whatever member it has: a generic one has no entity to compare, and is undefined. *)
Definition NDDSA_Agent_find_resource_by_native_resource (kind : D2S2_ResourceKind)
    (entity : option Z) (resource_rec : Z) : ndds (bool * bool) :=
  let* rr := resource_rec_of resource_rec in
  if negb (bool_decide (kind = res_kind (resource_base (rr_resource rr)))) then ret (true, false)
  else if has_entity kind then
    let* e := reads (fun _ => entity_of (rr_resource rr)) in
    ret (true, bool_decide (e = entity))
  else ret (true, false).

(** ** Deleting *)

Definition upd_resource (resource_rec : Z) (f : NDDSA_Resource -> NDDSA_Resource) : ndds unit :=
  let* rr := resource_rec_of resource_rec in
  modify (put_resource resource_rec {| rr_ea := rr_ea rr; rr_resource := f (rr_resource rr) |}).

Definition set_native_deleted (r : NDDSA_Resource) : NDDSA_Resource :=
  {| resource_base := resource_base r; native := native r; attached_count := attached_count r;
     resource_agent := resource_agent r; resource_user_data := resource_user_data r;
     loaded := loaded r; native_deleted := true; pending_delete := pending_delete r |}.

Definition set_resource_user_data (p : option Z) (r : NDDSA_Resource) : NDDSA_Resource :=
  {| resource_base := resource_base r; native := native r; attached_count := attached_count r;
     resource_agent := resource_agent r; resource_user_data := p;
     loaded := loaded r; native_deleted := native_deleted r; pending_delete := pending_delete r |}.

(** [NDDSA_Resource_finalize] of the resource of a record. *)
Definition finalize_resource (resource_rec : Z) : ndds unit :=
  let* rr := resource_rec_of resource_rec in
  let '(f, _) := NDDSA_Resource_finalize (rr_resource rr) in
  each free_string f;;
  upd_resource resource_rec (fun r => snd (NDDSA_Resource_finalize r)).

(** What the label [done] does with a record that is still held. *)
Definition release_resource_or_error (rc : DDS_ReturnCode_t) : ndds DDS_ReturnCode_t :=
  let* ok := NDDSA_AgentDb_release_resourceEA in
  ret (if ok then rc else DDS_RETCODE_ERROR).

(** The calls the recursion makes: with a resource, with the entity of one or of none,
    and with an entity that may have one. *)
Inductive DeleteTarget :=
  | TargetResource (id : D2S2_ResourceId)
  | TargetEntity (id : option D2S2_ResourceId) (kind : D2S2_ResourceKind) (entity : option Z)
  | TargetContained (kind : D2S2_ResourceKind) (entity : option Z).

Section steps.
Context (rows : nat) (delete : DeleteTarget -> ndds DDS_ReturnCode_t).

Definition delete_contained (kind : D2S2_ResourceKind) (entity : option Z) : ndds DDS_ReturnCode_t :=
  unless NDDSA_AgentDb_iterate_resourcesEA then ret DDS_RETCODE_ERROR else
  let* r := NDDSA_AgentDb_find_next_resourceEA rows
              (Some (NDDSA_Agent_find_resource_by_native_resource kind entity)) in
  match r with
  | (false, _) => ret DDS_RETCODE_ERROR
  | (true, None) =>
      let* rc := delete (TargetEntity None kind entity) in
      ret (if dds_ok rc then DDS_RETCODE_OK else DDS_RETCODE_ERROR)
  | (true, Some resource_rec) =>
      let* rr := resource_rec_of resource_rec in
      let '(ok, id) := D2S2_ResourceId_copy D2S2_RESOURCEID_INITIALIZER
                         (res_id (resource_base (rr_resource rr))) in
      let finalized := free_string (fst (D2S2_ResourceId_finalize id)) in
      if negb ok then finalized;; release_resource_or_error DDS_RETCODE_ERROR else
      unless NDDSA_AgentDb_release_resourceEA then finalized;; ret DDS_RETCODE_ERROR else
      let* rc := delete (TargetResource id) in
      finalized;;
      ret (if dds_ok rc then DDS_RETCODE_OK else DDS_RETCODE_ERROR)
  end.

Fixpoint contained_loop (kind : D2S2_ResourceKind) (entities : list (option Z)) : ndds bool :=
  match entities with
  | [] => ret true
  | e :: entities =>
      let* rc := delete (TargetContained kind e) in
      if dds_ok rc then contained_loop kind entities else ret false
  end.

(** The entities of a kind inside another. *)
Definition delete_entities_of (kind : D2S2_ResourceKind) (parent : option Z) : ndds bool :=
  unless ncall (EntitiesRoom kind) then ret false else
  let* r := ncall (EntitiesOf kind parent) in
  if negb (dds_ok (fst r)) then ret false else
  contained_loop kind (snd r).

(** The entity itself: whether it was deleted. *)
Definition delete_itself (kind : D2S2_ResourceKind) (entity : option Z) : ndds bool :=
  let* parent := ncall (EntityParent kind entity) in
  let* rc := ncall (EntityDelete kind parent entity) in
  ret (dds_ok rc).

(** A reader or a writer, and then its topic. *)
Definition delete_with_topic (kind : D2S2_ResourceKind) (topic entity : option Z) : ndds bool :=
  unless delete_itself kind entity then ret false else
  let* rc := delete (TargetEntity None RESOURCEKIND_TOPIC topic) in
  ret (dds_ok rc).

(** The switch on the kind. *)
Definition delete_entity_kind (kind : D2S2_ResourceKind) (entity : option Z) : ndds bool :=
  match kind with
  | RESOURCEKIND_DOMAINPARTICIPANT =>
      unless delete_entities_of RESOURCEKIND_SUBSCRIBER entity then ret false else
      unless delete_entities_of RESOURCEKIND_PUBLISHER entity then ret false else
      let* d := the_db in
      let* rc := ncall (EntityDelete RESOURCEKIND_DOMAINPARTICIPANT (db_factory d) entity) in
      ret (dds_ok rc)
  | RESOURCEKIND_PUBLISHER =>
      unless delete_entities_of RESOURCEKIND_DATAWRITER entity then ret false else
      delete_itself RESOURCEKIND_PUBLISHER entity
  | RESOURCEKIND_SUBSCRIBER =>
      unless delete_entities_of RESOURCEKIND_DATAREADER entity then ret false else
      delete_itself RESOURCEKIND_SUBSCRIBER entity
  | RESOURCEKIND_DATAREADER =>
      let? topic_desc := ncall (EntityTopic RESOURCEKIND_DATAREADER entity) else ret false in
      let* topic := ncall (TopicNarrow topic_desc) in
      delete_with_topic RESOURCEKIND_DATAREADER topic entity
  | RESOURCEKIND_DATAWRITER =>
      let? topic := ncall (EntityTopic RESOURCEKIND_DATAWRITER entity) else ret false in
      delete_with_topic RESOURCEKIND_DATAWRITER (Some topic) entity
  | RESOURCEKIND_TOPIC => delete_itself RESOURCEKIND_TOPIC entity;; ret true
  | _ => ret true
  end.

Definition delete_entity (id : option D2S2_ResourceId) (kind : D2S2_ResourceKind)
    (entity : option Z) : ndds DDS_ReturnCode_t :=
  unless delete_entity_kind kind entity then ret DDS_RETCODE_ERROR else
  (match id with
   | Some id => NDDSA_ResourceFactory_unload_resource_xml kind id
   | None => ret tt
   end);;
  ret DDS_RETCODE_OK.

(** The requests of a reader, until it has none. *)
Fixpoint complete_requests_loop (fuel : nat) (reader : Z) : ndds bool :=
  match fuel with
  | O => unfinished
  | S fuel =>
      let* r := areader_of reader in
      match rd_requests r with
      | [] => ret true
      | request :: _ =>
          let* q := rrequest_of request in
          let* read := not_null (rrq_read q) in
          unless NDDSA_Reader_request_complete reader read then ret false else
          complete_requests_loop fuel reader
      end
  end.

(** The state the agent keeps for a reader or a writer. *)
Definition delete_state (kind : D2S2_ResourceKind) (user_data : option Z) : ndds bool :=
  match kind with
  | RESOURCEKIND_DATAREADER =>
      let* reader := not_null user_data in
      unless complete_requests_loop rows reader then ret false else
      unless NDDSA_Reader_finalize reader then ret false else
      let* ag := the_nd_agent in
      ncall (ReaderStatePoolReturn (pool_readers ag) reader);;
      ret true
  | RESOURCEKIND_DATAWRITER =>
      let* writer := not_null user_data in
      NDDSA_Writer_finalize writer;;
      let* ag := the_nd_agent in
      ncall (WriterStatePoolReturn (pool_writers ag) writer);;
      ret true
  | _ => ret true
  end.

(** A resource that has an entity.  The record is released before the entity is deleted,
    since others are looked up. *)
Definition delete_resource_entity (id : D2S2_ResourceId) (resource_rec : Z)
    : ndds DDS_ReturnCode_t :=
  let* rr := resource_rec_of resource_rec in
  let base := resource_base (rr_resource rr) in
  let* l := NDDSA_ResourceFactory_lookup_entity_resource (res_kind base) (res_id base) None in
  let '(ok, native_entity_exists, native_entity) := l in
  if negb ok then release_resource_or_error DDS_RETCODE_ERROR else
  unless delete_state (res_kind base) (resource_user_data (rr_resource rr))
  then release_resource_or_error DDS_RETCODE_ERROR else
  upd_resource resource_rec (set_resource_user_data None);;
  finalize_resource resource_rec;;
  unless NDDSA_AgentDb_release_resourceEA then ret DDS_RETCODE_ERROR else
  if native_entity_exists then
    let* rc := delete (TargetEntity (Some id) (res_kind base) native_entity) in
    ret (if dds_ok rc then DDS_RETCODE_OK else DDS_RETCODE_ERROR)
  else ret DDS_RETCODE_OK.

Definition delete_resource_record (id : D2S2_ResourceId) : ndds DDS_ReturnCode_t :=
  let* l := NDDSA_AgentDb_lookup_resourceEA id in
  match l with
  | (false, _) => ret DDS_RETCODE_ERROR
  | (true, None) => ret DDS_RETCODE_OK
  | (true, Some resource_rec) =>
      let* rr := resource_rec_of resource_rec in
      if native_deleted (rr_resource rr) then release_resource_or_error DDS_RETCODE_OK else
      upd_resource resource_rec set_native_deleted;;
      let base := resource_base (rr_resource rr) in
      if has_entity (res_kind base) then delete_resource_entity id resource_rec else
      match res_kind base with
      | RESOURCEKIND_UNKNOWN => release_resource_or_error DDS_RETCODE_ERROR
      | kind =>
          NDDSA_ResourceFactory_unload_resource_xml kind (res_id base);;
          finalize_resource resource_rec;;
          release_resource_or_error DDS_RETCODE_OK
      end
  end.
End steps.

Fixpoint delete_target (rows fuel : nat) (target : DeleteTarget) : ndds DDS_ReturnCode_t :=
  match fuel with
  | O => unfinished
  | S fuel =>
      match target with
      | TargetResource id => delete_resource_record rows (delete_target rows fuel) id
      | TargetEntity id kind entity => delete_entity (delete_target rows fuel) id kind entity
      | TargetContained kind entity => delete_contained rows (delete_target rows fuel) kind entity
      end
  end.

Definition NDDSA_Agent_find_contained_resource_and_deleteEA (rows fuel : nat)
    (kind : D2S2_ResourceKind) (entity : option Z) : ndds DDS_ReturnCode_t :=
  delete_target rows fuel (TargetContained kind entity).

Definition NDDSA_Agent_delete_native_resource_entityEA (rows fuel : nat)
    (id : option D2S2_ResourceId) (kind : D2S2_ResourceKind) (entity : option Z)
    : ndds DDS_ReturnCode_t :=
  delete_target rows fuel (TargetEntity id kind entity).

Definition NDDSA_Agent_delete_native_resourceEA (rows fuel : nat) (id : D2S2_ResourceId)
    : ndds DDS_ReturnCode_t :=
  delete_target rows fuel (TargetResource id).
End delete.

(** ** What a deletion does not call *)

Section calls.
Context {N : NddsApi} {C : ConnextCore}.

(** Only a detached resource goes back to the pool of attached resources, and the parts of the
    agent are made and deleted with it. *)
Definition not_given_back (c : NCall) : bool :=
  match c with
  | AttachedPoolReturn _ _ | PartNew _ | PartDelete _ _ | WaitSetDelete _ => false
  | _ => true
  end.

(** Calls that delete nothing, and those that do not look at a record either. *)
Definition deletes_nothing (c : NCall) : bool :=
  match c with EntitiesOf _ _ | EntityDelete _ _ _ => false | _ => not_given_back c end.
Definition looks_nothing_up (c : NCall) : bool :=
  match c with CursorModify _ | CursorGotoNext _ => false | _ => deletes_nothing c end.

Lemma looks_nothing_up_deletes c : looks_nothing_up c = true -> deletes_nothing c = true.
Proof. by destruct c. Qed.
Lemma deletes_nothing_given_back c : deletes_nothing c = true -> not_given_back c = true.
Proof. by destruct c. Qed.

Ltac mk := repeat (first [ makes_step | apply (makes_call (R := NResp)); reflexivity ]; cbn beta iota).
Ltac mkdb := unfold NDDSA_AgentDb_lookup_resourceEA, NDDSA_AgentDb_delete_resourceEA,
  NDDSA_AgentDb_find_next_resourceEA, NDDSA_AgentDb_iterate_resourcesEA,
  NDDSA_AgentDb_release_resourceEA, with_static_id, lookup_at, delete_at, release_at,
  remove_record, finalize_record, NDDSA_AgentDb_finalize_resource_record, worker_cursor,
  NDDSA_AgentDb_get_worker, resource_rec_of, the_db; mk.

Lemma find_request_calls read l : makes looks_nothing_up (find_request_loop read l).
Proof. induction l; cbn [find_request_loop]; unfold rrequest_of; mk. Qed.
#[local] Hint Resolve find_request_calls : makes.
Lemma request_complete_calls reader read :
  makes looks_nothing_up (NDDSA_Reader_request_complete reader read).
Proof.
  unfold NDDSA_Reader_request_complete, NDDSA_Reader_find_request_by_read, areader_of, rrequest_of.
  mk.
Qed.
#[local] Hint Resolve request_complete_calls : makes.
Lemma complete_requests_calls fuel reader : makes looks_nothing_up (complete_requests_loop fuel reader).
Proof.
  induction fuel as [|fuel IH]; cbn [complete_requests_loop]; unfold areader_of, rrequest_of, not_null; mk.
Qed.
Lemma delete_state_calls rows kind d : makes looks_nothing_up (delete_state rows kind d).
Proof.
  pose proof complete_requests_calls.
  unfold delete_state, NDDSA_Reader_finalize, NDDSA_Writer_finalize, upd_reader, upd_writer,
    free_string, areader_of, awriter_of, not_null, the_nd_agent. mk.
Qed.
Lemma entity_name_calls id : makes looks_nothing_up (entity_name id).
Proof. unfold entity_name. mk. Qed.
Lemma name_ref_calls n d : makes looks_nothing_up (name_ref n d).
Proof. unfold name_ref. mk. Qed.
Lemma name_component_calls n d : makes looks_nothing_up (name_component n d).
Proof. unfold name_component. mk. Qed.
#[local] Hint Resolve delete_state_calls entity_name_calls name_ref_calls name_component_calls : makes.
Lemma participant_calls id : makes looks_nothing_up (NDDSA_RefResource_lookup_participant id).
Proof. unfold NDDSA_RefResource_lookup_participant. mk. Qed.
Lemma inside_calls id d1 d2 f g :
  (forall i, makes looks_nothing_up (f i)) -> (forall p c, makes looks_nothing_up (g p c)) ->
  makes looks_nothing_up (lookup_inside id d1 d2 f g).
Proof. intros Hf Hg. unfold lookup_inside. mk. Qed.
#[local] Hint Resolve participant_calls : makes.
Lemma lookup_entity_calls kind id e :
  makes looks_nothing_up (NDDSA_ResourceFactory_lookup_entity_resource kind id e).
Proof.
  unfold NDDSA_ResourceFactory_lookup_entity_resource,
    NDDSA_ResourceFactory_lookup_entity_resourceEA, NDDSA_RefResource_lookup_application,
    NDDSA_RefResource_lookup_datawriter, NDDSA_RefResource_lookup_datareader, lookup_written,
    NDDSA_RefResource_lookup_topic, NDDSA_RefResource_lookup_publisher,
    NDDSA_RefResource_lookup_subscriber.
  destruct kind; repeat (apply inside_calls; intros) || mk.
Qed.
Lemma unload_calls kind id : makes looks_nothing_up (NDDSA_ResourceFactory_unload_resource_xml kind id).
Proof. unfold NDDSA_ResourceFactory_unload_resource_xml. mk. Qed.
Lemma finalize_resource_calls p : makes looks_nothing_up (finalize_resource p).
Proof. unfold finalize_resource, upd_resource, resource_rec_of, free_string. mk. Qed.
Lemma find_next_calls n c kind e :
  makes deletes_nothing (find_next_resource_loop n c
    (Some (NDDSA_Agent_find_resource_by_native_resource kind e))).
Proof.
  induction n; cbn [find_next_resource_loop]; unfold NDDSA_Agent_find_resource_by_native_resource,
    resource_rec_of; mk.
Qed.
#[local] Hint Resolve lookup_entity_calls unload_calls finalize_resource_calls find_next_calls : makes.
#[local] Hint Extern 2 (makes deletes_nothing _) =>
  apply (makes_weaken looks_nothing_up); [exact looks_nothing_up_deletes |] : makes.
#[local] Hint Extern 2 (makes not_given_back _) =>
  apply (makes_weaken deletes_nothing); [exact deletes_nothing_given_back |] : makes.

Lemma contained_loop_calls (delete : DeleteTarget -> ndds DDS_ReturnCode_t) kind l :
  (forall target, makes not_given_back (delete target)) ->
  makes not_given_back (contained_loop delete kind l).
Proof. intros H. induction l; cbn [contained_loop]; mk. Qed.
#[local] Hint Resolve contained_loop_calls : makes.

Lemma delete_target_calls rows fuel target : makes not_given_back (delete_target rows fuel target).
Proof.
  revert target. induction fuel as [|fuel IH]; intros [id | id kind e | kind e];
    cbn [delete_target]; [mk .. | | |].
  - unfold delete_resource_record, delete_resource_entity, upd_resource, release_resource_or_error.
    mkdb.
  - unfold delete_entity, delete_entity_kind, delete_with_topic, delete_itself, delete_entities_of.
    mkdb.
  - unfold delete_contained, release_resource_or_error, free_string. mkdb.
Qed.

(** A row is removed when [delete_resourceEA] says so, and its finalizer finds the record. *)
Lemma delete_resource_calls id : makes not_given_back (NDDSA_AgentDb_delete_resourceEA id).
Proof. mkdb. Qed.
End calls.

(** ** What any deletion does *)

Section any_deletion.
Context {N : NddsApi} {C : ConnextCore}.

(** What a run shows of a deletion: a listing of the entities inside another, a deletion
    that was asked for and whether it was granted, a record of the table of resources that was read,
    and the end of that table. *)
Inductive DeletionStep :=
  | Listed (kind : D2S2_ResourceKind) (parent : option Z) (entities : list (option Z))
  | Deleted (kind : D2S2_ResourceKind) (entity : option Z) (granted : bool)
  | RecordRead (resource_rec : Z)
  | NoRecordLeft.

Definition step_of (e : nevent) : list DeletionStep :=
  match e with
  | existT c r =>
      match c return NResp c -> list DeletionStep with
      | EntitiesOf k p => fun r => if dds_ok (fst r) then [Listed k p (snd r)] else []
      | EntityDelete k _ e => fun rc => [Deleted k e (dds_ok rc)]
      | CursorModify _ => fun r => match r with Some p => [RecordRead p] | None => [] end
      | CursorGotoNext _ => fun next => if next : bool then [] else [NoRecordLeft]
      | _ => fun _ => []
      end r
  end.
Definition deletion_steps (t : list nevent) : list DeletionStep := flat_map step_of t.

Definition record_read (d : DeletionStep) : Prop := match d with RecordRead _ => True | _ => False end.

(** One after the other: the second only when the first succeeds. *)
Definition and_then (P Q : bool -> list DeletionStep -> Prop) (ok : bool) (l : list DeletionStep) : Prop :=
  (ok = false /\ P false l) \/ exists l1 l2, l = l1 ++ l2 /\ P true l1 /\ Q ok l2.

(** A deletion that decides the answer, and that of a topic, which does not. *)
Definition deletes (k : D2S2_ResourceKind) (e : option Z) (ok : bool) (l : list DeletionStep) : Prop :=
  l = [Deleted k e ok].
Definition deletes_topic (e : option Z) (ok : bool) (l : list DeletionStep) : Prop :=
  ok = true /\ exists granted, l = [Deleted RESOURCEKIND_TOPIC e granted].

(** The steps of a deletion that succeeds or not: of an entity, of the entities of a kind inside
    another, of those of a list, and of one of these. *)
Inductive entity_deleted : D2S2_ResourceKind -> option Z -> bool -> list DeletionStep -> Prop :=
  | participant_deleted e ok l :
      and_then (members_deleted RESOURCEKIND_SUBSCRIBER e)
        (and_then (members_deleted RESOURCEKIND_PUBLISHER e) (deletes RESOURCEKIND_DOMAINPARTICIPANT e)) ok l ->
      entity_deleted RESOURCEKIND_DOMAINPARTICIPANT e ok l
  | publisher_deleted e ok l :
      and_then (members_deleted RESOURCEKIND_DATAWRITER e) (deletes RESOURCEKIND_PUBLISHER e) ok l ->
      entity_deleted RESOURCEKIND_PUBLISHER e ok l
  | subscriber_deleted e ok l :
      and_then (members_deleted RESOURCEKIND_DATAREADER e) (deletes RESOURCEKIND_SUBSCRIBER e) ok l ->
      entity_deleted RESOURCEKIND_SUBSCRIBER e ok l
  | endpoint_deleted k e topic ok l :
      k = RESOURCEKIND_DATAREADER \/ k = RESOURCEKIND_DATAWRITER ->
      and_then (deletes k e) (deletes_topic topic) ok l -> entity_deleted k e ok l
  | endpoint_without_topic k e :
      k = RESOURCEKIND_DATAREADER \/ k = RESOURCEKIND_DATAWRITER -> entity_deleted k e false []
  | topic_deleted e ok l : deletes_topic e ok l -> entity_deleted RESOURCEKIND_TOPIC e ok l
  | no_entity k e : has_entity k = false -> entity_deleted k e true []
with members_deleted : D2S2_ResourceKind -> option Z -> bool -> list DeletionStep -> Prop :=
  | members_refused k parent : members_deleted k parent false []
  | members_listed k parent entities ok l :
      contained_deleted k entities ok l -> members_deleted k parent ok (Listed k parent entities :: l)
with contained_deleted : D2S2_ResourceKind -> list (option Z) -> bool -> list DeletionStep -> Prop :=
  | none_contained k : contained_deleted k [] true []
  | one_contained k e entities ok l :
      and_then (one_deleted k e) (contained_deleted k entities) ok l ->
      contained_deleted k (e :: entities) ok l
with one_deleted : D2S2_ResourceKind -> option Z -> bool -> list DeletionStep -> Prop :=
  | search_failed k e l : Forall record_read l -> one_deleted k e false l
  | without_resource k e records ok l :
      Forall record_read records -> entity_deleted k e ok l ->
      one_deleted k e ok (records ++ NoRecordLeft :: l)
  | with_its_resource k e records p ok l :
      Forall record_read records -> resource_deleted ok l ->
      one_deleted k e ok (records ++ RecordRead p :: l)
with resource_deleted : bool -> list DeletionStep -> Prop :=
  | resource_only ok l : Forall record_read l -> resource_deleted ok l
  | resource_and_entity k e ok records l :
      Forall record_read records -> entity_deleted k e ok l -> resource_deleted ok (records ++ l).

Lemma deletion_steps_app t1 t2 : deletion_steps (t1 ++ t2) = deletion_steps t1 ++ deletion_steps t2.
Proof. apply flat_map_app. Qed.

Lemma quiet_no_step (t : list nevent) : only looks_nothing_up t -> deletion_steps t = [].
Proof.
  unfold only, deletion_steps. induction t as [|[c r] t IH]; [done |].
  cbn. intros [Hc Ht]%Forall_cons. rewrite IH by done. by destruct c.
Qed.
Lemma quiet_records (t : list nevent) :
  only (fun c => looks_nothing_up c || match c with CursorModify _ => true | _ => false end) t ->
  Forall record_read (deletion_steps t).
Proof.
  unfold only, deletion_steps. induction t as [|[c r] t IH]; [done |].
  cbn. intros [Hc Ht]%Forall_cons. apply Forall_app; split; [| by apply IH].
  destruct c; try done. destruct r; repeat constructor.
Qed.

(** [delivers m ok P]: every run of [m] that returns [a] makes the steps that [P] allows for [ok a]. *)
Definition delivers {A} (m : ndds A) (ok : A -> bool) (P : bool -> list DeletionStep -> Prop) : Prop :=
  forall s, when_ends m s (fun t a _ => P (ok a) (deletion_steps t)).

Lemma ends_makes {A} P (m : ndds A) s : makes P m -> when_ends m s (fun t _ _ => only P t).
Proof.
  intros Hm. eapply when_ends_mono; [apply (when_ends_frame P (fun _ _ => True) m s Hm) | by intros ???[]].
  intros s0. induction (m s0); cbn; auto.
Qed.

Lemma delivers_quiet {A B} (m : ndds A) (f : A -> ndds B) ok P :
  makes looks_nothing_up m -> (forall a, delivers (f a) ok P) -> delivers (bind m f) ok P.
Proof.
  intros Hm Hf s. apply when_ends_bind. eapply when_ends_mono; [by apply ends_makes |].
  intros t a s1 Ht. eapply when_ends_mono; [apply Hf |]. intros t2 b s2 HP.
  by rewrite deletion_steps_app, quiet_no_step.
Qed.

Lemma delivers_ret {A} (a : A) ok (P : bool -> list DeletionStep -> Prop) :
  P (ok a) [] -> delivers (ret a) ok P.
Proof. intros HP s. by apply when_ends_ret. Qed.

(** A program whose refusal is an answer of its own. *)
Lemma delivers_then {A B} (m : ndds A) (f : A -> ndds B) ok ok' P Q :
  delivers m ok P -> (forall a, ok a = true -> delivers (f a) ok' Q) ->
  (forall a, ok a = false -> exists b, f a = ret b /\ ok' b = false) ->
  delivers (bind m f) ok' (and_then P Q).
Proof.
  intros Hm Hf Hno s. apply when_ends_bind. eapply when_ends_mono; [apply Hm |].
  intros t a s1 HP. cbn beta in HP. destruct (ok a) eqn:Ha.
  - eapply when_ends_mono; [by apply Hf |]. intros t2 b s2 HQ. right.
    rewrite deletion_steps_app. eauto.
  - destruct (Hno a Ha) as (b & -> & Hb). apply when_ends_ret. left. by rewrite app_nil_r.
Qed.

Lemma delivers_map {A B} (m : ndds A) (f : A -> B) ok ok' P :
  delivers m ok P -> (forall a, ok' (f a) = ok a) -> delivers (let* a := m in ret (f a)) ok' P.
Proof.
  intros Hm Hf s. apply when_ends_bind. eapply when_ends_mono; [apply Hm |]. intros t a s1 HP.
  apply when_ends_ret. by rewrite app_nil_r, Hf.
Qed.

Lemma delivers_mono {A} (m : ndds A) ok (P Q : bool -> list DeletionStep -> Prop) :
  delivers m ok P -> (forall b l, P b l -> Q b l) -> delivers m ok Q.
Proof. intros Hm H s. eapply when_ends_mono; [apply Hm |]. auto. Qed.

Definition searched (r : bool * option Z) (l : list DeletionStep) : Prop :=
  match r with
  | (false, _) => Forall record_read l
  | (true, None) => exists records, Forall record_read records /\ l = records ++ [NoRecordLeft]
  | (true, Some p) => exists records, Forall record_read records /\ l = records ++ [RecordRead p]
  end.

Lemma searched_cons p r l : searched r l -> searched r (RecordRead p :: l).
Proof.
  destruct r as [[] [q|]]; cbn; [intros (rs & Hr & ->).. | by constructor | by constructor];
    exists (RecordRead p :: rs); (split; [by constructor | done]).
Qed.

Lemma native_filter_quiet kind e p :
  makes looks_nothing_up (NDDSA_Agent_find_resource_by_native_resource kind e p).
Proof. unfold NDDSA_Agent_find_resource_by_native_resource, resource_rec_of. makes_auto. Qed.

Lemma find_loop_searched n c kind e s :
  when_ends (find_next_resource_loop n c (Some (NDDSA_Agent_find_resource_by_native_resource kind e)))
    s (fun t r _ => searched r (deletion_steps t)).
Proof.
  revert s; induction n as [|n IH]; intros s; cbn [find_next_resource_loop].
  { by intros t r s' []. }
  do 2 ends_step. destruct r; cycle 1.
  { ends_step. cbn. by exists []. }
  do 2 ends_step. destruct r as [p|]; cycle 1.
  { ends_step. cbn. constructor. }
  ends_step. eapply when_ends_mono; [apply ends_makes, native_filter_quiet |].
  intros t [[] []] s1 Ht; cbn [fst snd negb].
  - ends_step. rewrite app_nil_r, !deletion_steps_app, (quiet_no_step t) by done. cbn. by exists [].
  - do 2 ends_step. eapply when_ends_mono; [apply IH |]. intros t2 r2 s2 H2.
    rewrite !deletion_steps_app, (quiet_no_step t) by done. cbn. by apply searched_cons.
  - do 3 ends_step. rewrite !deletion_steps_app, (quiet_no_step t) by done. cbn. by repeat constructor.
  - do 3 ends_step. rewrite !deletion_steps_app, (quiet_no_step t) by done. cbn. by repeat constructor.
Qed.

Section one_level.
Context (rows : nat) (delete : DeleteTarget -> ndds DDS_ReturnCode_t).
Context (Hresource : forall id, delivers (delete (TargetResource id)) dds_ok resource_deleted).
Context (Hentity : forall id k e, delivers (delete (TargetEntity id k e)) dds_ok (entity_deleted k e)).
Context (Hone : forall k e, delivers (delete (TargetContained k e)) dds_ok (one_deleted k e)).

Ltac mk := repeat (first [ makes_step | apply (makes_call (R := NResp)); reflexivity ]; cbn beta iota).

Lemma delete_itself_delivers k e : delivers (delete_itself k e) id (deletes k e).
Proof. intros s. unfold delete_itself. do 5 ends_step. done. Qed.

Lemma contained_loop_delivers k l :
  delivers (contained_loop delete k l) id (contained_deleted k l).
Proof.
  induction l as [|e l IH]; cbn [contained_loop]; [apply delivers_ret; constructor |].
  eapply delivers_mono; [| intros b t H; constructor; exact H].
  eapply delivers_then; [apply Hone | |]; intros rc Hrc; cbn beta; rewrite Hrc; [done | by exists false].
Qed.

Lemma entities_of_delivers k parent :
  delivers (delete_entities_of delete k parent) id (members_deleted k parent).
Proof.
  unfold delete_entities_of. apply delivers_quiet; [mk |]. intros [].
  2: { apply delivers_ret. constructor. }
  intros s. do 2 ends_step. destruct (dds_ok (fst r)) eqn:Hr; cbn [negb].
  - eapply when_ends_mono; [apply contained_loop_delivers |]. intros t b s1 H. cbn. rewrite Hr.
    by constructor.
  - ends_step. cbn. rewrite Hr. constructor.
Qed.

Lemma delete_topic_delivers e : delivers (delete_itself RESOURCEKIND_TOPIC e;; ret true) id (deletes_topic e).
Proof.
  intros s. ends_step. eapply when_ends_mono; [apply delete_itself_delivers |]. intros t b s1 H.
  ends_step. rewrite app_nil_r. split; [done |]. by exists b.
Qed.

Lemma topic_only e ok l : entity_deleted RESOURCEKIND_TOPIC e ok l -> deletes_topic e ok l.
Proof.
  inversion 1; subst; try done;
    match goal with H : _ \/ _ |- _ => by destruct H end.
Qed.

Lemma with_topic_delivers k topic e :
  delivers (delete_with_topic delete k topic e) id (and_then (deletes k e) (deletes_topic topic)).
Proof.
  unfold delete_with_topic. eapply delivers_then; [apply delete_itself_delivers | |]; intros b Hb;
    cbn in Hb; subst b; [| by exists false].
  apply (delivers_map _ dds_ok dds_ok); [| done].
  eapply delivers_mono; [apply Hentity | intros; by apply topic_only].
Qed.

Lemma members_then k e (m : ndds bool) P :
  delivers m id P ->
  delivers (unless delete_entities_of delete k e then ret false else m) id
    (and_then (members_deleted k e) P).
Proof.
  intros Hm. eapply delivers_then; [apply entities_of_delivers | |]; intros b Hb; cbn in Hb;
    subst b; [done | by exists false].
Qed.

Lemma entity_kind_delivers k e : delivers (delete_entity_kind delete k e) id (entity_deleted k e).
Proof.
  assert (Hp : delivers (let* d := the_db in
                 let* rc := ncall (EntityDelete RESOURCEKIND_DOMAINPARTICIPANT (db_factory d) e) in
                 ret (dds_ok rc)) id (deletes RESOURCEKIND_DOMAINPARTICIPANT e)).
  { unfold the_db. apply delivers_quiet; [mk |]. intros d s. do 3 ends_step. done. }
  destruct k; cbn [delete_entity_kind]; try (apply delivers_ret; by constructor).
  - eapply delivers_mono; [apply members_then, members_then, Hp | by constructor].
  - eapply delivers_mono; [apply delete_topic_delivers | by constructor].
  - eapply delivers_mono; [apply members_then, delete_itself_delivers | by constructor].
  - eapply delivers_mono; [apply members_then, delete_itself_delivers | by constructor].
  - apply delivers_quiet; [mk |]. intros [topic|].
    2: { apply delivers_ret. constructor. by right. }
    eapply delivers_mono; [apply with_topic_delivers | intros; eapply endpoint_deleted; [by right | done]].
  - apply delivers_quiet; [mk |]. intros [topic|].
    2: { apply delivers_ret. constructor. by left. }
    apply delivers_quiet; [mk |]. intros t2.
    eapply delivers_mono; [apply with_topic_delivers | intros; eapply endpoint_deleted; [by left | done]].
Qed.

Lemma delivers_after {A B} (m : ndds A) (f : A -> ndds B) ok ok' P :
  delivers m ok P ->
  (forall a, makes looks_nothing_up (f a)) ->
  (forall a s, when_ends (f a) s (fun _ b _ => ok' b = ok a)) ->
  delivers (bind m f) ok' P.
Proof.
  intros Hm Hq Hf s. apply when_ends_bind. eapply when_ends_mono; [apply Hm |]. intros t a s1 HP.
  intros t2 b s2 Hr. rewrite deletion_steps_app, (quiet_no_step t2), app_nil_r.
  - rewrite (Hf a s1 t2 b s2 Hr). exact HP.
  - exact (ends_makes _ _ s1 (Hq a) t2 b s2 Hr).
Qed.

Lemma delete_entity_delivers i k e : delivers (delete_entity delete i k e) dds_ok (entity_deleted k e).
Proof.
  unfold delete_entity. eapply (delivers_after _ _ id).
  - apply entity_kind_delivers.
  - intros []; [| mk]. destruct i; mk. apply unload_calls.
  - intros [] s; [| by ends_step]. ends_step. intros t [] s1 _. by ends_step.
Qed.

Lemma delivers_none {A} (m : ndds A) ok (P : bool -> list DeletionStep -> Prop) :
  makes looks_nothing_up m -> (forall b, P b []) -> delivers m ok P.
Proof.
  intros Hm HP s. eapply when_ends_mono; [by apply ends_makes |]. intros t a s1 Ht.
  by rewrite quiet_no_step.
Qed.

Lemma release_quiet rc : makes looks_nothing_up (release_resource_or_error rc).
Proof.
  unfold release_resource_or_error, NDDSA_AgentDb_release_resourceEA, release_at, worker_cursor,
    NDDSA_AgentDb_get_worker, the_db. mk.
Qed.
Lemma release_ea_quiet : makes looks_nothing_up NDDSA_AgentDb_release_resourceEA.
Proof.
  unfold NDDSA_AgentDb_release_resourceEA, release_at, worker_cursor, NDDSA_AgentDb_get_worker,
    the_db. mk.
Qed.

Lemma resource_none b : resource_deleted b [].
Proof. apply resource_only. constructor. Qed.
#[local] Hint Resolve resource_none : core.

Lemma as_resource (m : ndds DDS_ReturnCode_t) k e :
  delivers m dds_ok (entity_deleted k e) ->
  delivers (let* rc := m in ret (if dds_ok rc then DDS_RETCODE_OK else DDS_RETCODE_ERROR)) dds_ok
    resource_deleted.
Proof.
  intros Hm. apply (delivers_map m (fun rc => if dds_ok rc then DDS_RETCODE_OK else DDS_RETCODE_ERROR)
    dds_ok dds_ok); [| by intros []].
  eapply delivers_mono; [exact Hm |]. intros b l H. by apply (resource_and_entity k e b []).
Qed.

Lemma resource_entity_delivers i p : delivers (delete_resource_entity rows delete i p) dds_ok resource_deleted.
Proof.
  unfold delete_resource_entity, upd_resource, resource_rec_of. apply delivers_quiet; [mk |]. intros rr.
  apply delivers_quiet; [apply lookup_entity_calls |]. intros [[[] exists_] e]; cbn [negb].
  2: { apply delivers_none; [apply release_quiet | done]. }
  apply delivers_quiet; [apply delete_state_calls |]. intros [].
  2: { apply delivers_none; [apply release_quiet | done]. }
  apply delivers_quiet; [mk |]. intros [].
  apply delivers_quiet; [apply finalize_resource_calls |]. intros [].
  apply delivers_quiet; [apply release_ea_quiet |]. intros []; [| by apply delivers_ret].
  destruct exists_; [| by apply delivers_ret]. eapply as_resource, Hentity.
Qed.

Lemma resource_deleted_app records ok l :
  Forall record_read records -> resource_deleted ok l -> resource_deleted ok (records ++ l).
Proof.
  intros Hr H. destruct H as [ok l H | k e ok rs l H He].
  - apply resource_only. by apply Forall_app.
  - rewrite app_assoc. econstructor; [by apply Forall_app | exact He].
Qed.

Lemma lookup_records i :
  makes (fun c => looks_nothing_up c || match c with CursorModify _ => true | _ => false end)
    (NDDSA_AgentDb_lookup_resourceEA i).
Proof.
  unfold NDDSA_AgentDb_lookup_resourceEA, with_static_id, lookup_at, worker_cursor,
    NDDSA_AgentDb_get_worker, the_db. mk.
Qed.

Lemma resource_record_delivers i : delivers (delete_resource_record rows delete i) dds_ok resource_deleted.
Proof.
  intros s. unfold delete_resource_record. ends_step.
  eapply when_ends_mono; [apply ends_makes, lookup_records |]. intros t l s1 Ht.
  assert (H : forall m : ndds DDS_ReturnCode_t, delivers m dds_ok resource_deleted ->
    when_ends m s1 (fun t' b _ => resource_deleted (dds_ok b) (deletion_steps (t ++ t')))).
  { intros m Hm. eapply when_ends_mono; [apply Hm |]. intros t2 b s2 Hb.
    rewrite deletion_steps_app. apply resource_deleted_app; [by apply quiet_records | done]. }
  apply H. clear H. destruct l as [[] [p|]]; try (by apply delivers_ret).
  unfold upd_resource, resource_rec_of. apply delivers_quiet; [mk |]. intros rr.
  destruct (native_deleted _); [apply delivers_none; [apply release_quiet | done] |].
  apply delivers_quiet; [mk |]. intros [].
  destruct (has_entity _); [apply resource_entity_delivers |].
  destruct (res_kind _) eqn:Hk; try (apply delivers_none; [apply release_quiet | done]);
    (apply delivers_quiet; [apply unload_calls |]; intros [];
     apply delivers_quiet; [apply finalize_resource_calls |]; intros [];
     apply delivers_none; [apply release_quiet | done]).
Qed.

(** The rest of a deletion that found the resource of the entity. *)
Lemma contained_delivers k e : delivers (delete_contained rows delete k e) dds_ok (one_deleted k e).
Proof.
  unfold delete_contained. apply delivers_quiet.
  { unfold NDDSA_AgentDb_iterate_resourcesEA, worker_cursor, NDDSA_AgentDb_get_worker, the_db. mk. }
  intros []; [| apply delivers_ret; repeat constructor].
  assert (Hs : forall s, when_ends (NDDSA_AgentDb_find_next_resourceEA rows
      (Some (NDDSA_Agent_find_resource_by_native_resource k e))) s
      (fun t r _ => searched r (deletion_steps t))).
  { intros s. unfold NDDSA_AgentDb_find_next_resourceEA. ends_step.
    eapply when_ends_mono; [apply (ends_makes looks_nothing_up) |].
    { unfold worker_cursor, NDDSA_AgentDb_get_worker, the_db. mk. }
    intros t [c|] s1 Ht.
    - eapply when_ends_mono; [apply find_loop_searched |]. intros t2 r s2 H.
      by rewrite deletion_steps_app, (quiet_no_step t).
    - ends_step. rewrite app_nil_r, quiet_no_step by done. constructor. }
  intros s. ends_step. eapply when_ends_mono; [apply Hs |]. intros t [[] [p|]] s1 H; cbn in H.
  - destruct H as (rs & Hr & Ht).
    assert (Hm : forall m : ndds DDS_ReturnCode_t, delivers m dds_ok resource_deleted ->
      when_ends m s1 (fun t' b _ => one_deleted k e (dds_ok b) (deletion_steps (t ++ t')))).
    { intros m Hm. eapply when_ends_mono; [apply Hm |]. intros t2 b s2 Hb.
      rewrite deletion_steps_app, Ht, <- app_assoc. by apply with_its_resource. }
    apply Hm. unfold resource_rec_of. apply delivers_quiet; [mk |]. intros rr.
    destruct (D2S2_ResourceId_copy _ _) as [ok i].
    assert (Hfree : forall f, makes looks_nothing_up (free_string f)) by (intros f; unfold free_string; mk).
    destruct ok; cbn [negb].
    2: { apply delivers_quiet; [apply Hfree |]. intros []. apply delivers_none; [apply release_quiet | done]. }
    apply delivers_quiet; [apply release_ea_quiet |]. intros [].
    2: { apply delivers_quiet; [apply Hfree |]. intros []. by apply delivers_ret. }
    eapply (delivers_after _ _ dds_ok); [apply Hresource | |].
    + intros rc. apply makes_bind; [apply Hfree | intros []; mk].
    + intros rc s2. ends_step. intros t2 [] s3 _. ends_step. by destruct rc.
  - destruct H as (rs & Hr & Ht). ends_step. eapply when_ends_mono; [apply Hentity |].
    intros t2 rc s2 H. ends_step. rewrite app_nil_r, deletion_steps_app, Ht, <- app_assoc.
    cbn [app]. replace (dds_ok _) with (dds_ok rc) by (by destruct rc). by apply without_resource.
  - ends_step. rewrite app_nil_r. by apply search_failed.
  - ends_step. rewrite app_nil_r. by apply search_failed.
Qed.
End one_level.

(** What the deletion of a target shows. *)
Definition target_deleted (target : DeleteTarget) : bool -> list DeletionStep -> Prop :=
  match target with
  | TargetResource _ => resource_deleted
  | TargetEntity _ k e => entity_deleted k e
  | TargetContained k e => one_deleted k e
  end.

Lemma delete_target_delivers rows fuel target :
  delivers (delete_target rows fuel target) dds_ok (target_deleted target).
Proof.
  revert target. induction fuel as [|fuel IH]; intros target; [by intros s t a s' [] |].
  destruct target; cbn [delete_target target_deleted].
  - apply resource_record_delivers. intros i k e. apply (IH (TargetEntity i k e)).
  - apply delete_entity_delivers.
    + intros i k e. apply (IH (TargetEntity i k e)).
    + intros k e. apply (IH (TargetContained k e)).
  - apply contained_delivers.
    + intros i. apply (IH (TargetResource i)).
    + intros i k e. apply (IH (TargetEntity i k e)).
Qed.
End any_deletion.

(** ** The order of deletions *)

Section order.
Context {N : NddsApi} {C : ConnextCore}.

(** The entities of each kind inside another, and the topic of a reader or writer. *)
Context (inside : D2S2_ResourceKind -> option Z -> list (option Z)).
Context (topic : D2S2_ResourceKind -> option Z -> Z).

Definition entities_known (e : nevent) : Prop :=
  match e with
  | existT c r =>
      match c return NResp c -> Prop with
      | GetWorker _ | CursorAssert _ _ => fun r => is_Some r
      | CursorGotoNext _ => fun r => r = false
      | EntitiesRoom _ => fun r => r = true
      | EntitiesOf k p => fun r => r = (DDS_RETCODE_OK, inside k p)
      | EntityTopic k e => fun r => r = Some (topic k e)
      | TopicNarrow d => fun r => r = Some d
      | EntityDelete k _ _ => fun r => k = RESOURCEKIND_TOPIC \/ r = DDS_RETCODE_OK
      | _ => fun _ => True
      end r
  end.

Definition deletion_of (e : nevent) : list (D2S2_ResourceKind * option Z) :=
  match e with
  | existT (EntityDelete k _ e) _ => [(k, e)]
  | _ => []
  end.
Definition deletions (t : list nevent) : list (D2S2_ResourceKind * option Z) :=
  flat_map deletion_of t.

Lemma deletions_app t1 t2 : deletions (t1 ++ t2) = deletions t1 ++ deletions t2.
Proof. apply flat_map_app. Qed.

Definition endpoint_order (kind : D2S2_ResourceKind) (e : option Z) :=
  [(kind, e); (RESOURCEKIND_TOPIC, Some (topic kind e))].
Definition group_order (kind member : D2S2_ResourceKind) (e : option Z) :=
  flat_map (endpoint_order member) (inside member e) ++ [(kind, e)].
Definition deletion_order (kind : D2S2_ResourceKind) (e : option Z)
    : list (D2S2_ResourceKind * option Z) :=
  match kind with
  | RESOURCEKIND_DOMAINPARTICIPANT =>
      flat_map (group_order RESOURCEKIND_SUBSCRIBER RESOURCEKIND_DATAREADER)
        (inside RESOURCEKIND_SUBSCRIBER e)
      ++ flat_map (group_order RESOURCEKIND_PUBLISHER RESOURCEKIND_DATAWRITER)
           (inside RESOURCEKIND_PUBLISHER e)
      ++ [(kind, e)]
  | RESOURCEKIND_SUBSCRIBER => group_order kind RESOURCEKIND_DATAREADER e
  | RESOURCEKIND_PUBLISHER => group_order kind RESOURCEKIND_DATAWRITER e
  | RESOURCEKIND_DATAREADER | RESOURCEKIND_DATAWRITER => endpoint_order kind e
  | RESOURCEKIND_TOPIC => [(kind, e)]
  | _ => []
  end.

(** How deep the recursion goes. *)
Definition levels (kind : D2S2_ResourceKind) : nat :=
  match kind with
  | RESOURCEKIND_DOMAINPARTICIPANT => 6
  | RESOURCEKIND_SUBSCRIBER | RESOURCEKIND_PUBLISHER => 4
  | RESOURCEKIND_DATAREADER | RESOURCEKIND_DATAWRITER => 2
  | _ => 1
  end.

Definition does {A} (m : ndds A) (s : Ndds) (r : A) (l : list (D2S2_ResourceKind * option Z)) : Prop :=
  spec entities_known m s (fun t r' s' => r' = r /\ s' = s /\ deletions t = l).

Lemma does_bind {A B} (m : ndds A) (f : A -> ndds B) s a b l1 l2 :
  does m s a l1 -> does (f a) s b l2 -> does (bind m f) s b (l1 ++ l2).
Proof.
  intros Hm Hf. apply spec_bind. eapply spec_mono; [exact Hm |]. intros t1 r s1 (-> & -> & <-).
  eapply spec_mono; [exact Hf |]. intros t2 r s2 (-> & -> & <-). by rewrite deletions_app.
Qed.

Lemma does_ret {A} (a : A) s : does (ret a) s a [].
Proof. by apply spec_ret. Qed.

Lemma does_delete_itself k e s :
  k <> RESOURCEKIND_TOPIC -> does (delete_itself k e) s true [(k, e)].
Proof.
  intros Hk. unfold does, delete_itself. nstep. nstep. nstep. nstep. destruct H0 as [?|H0]; [done |].
  cbn in H0. subst. nstep. done.
Qed.

Lemma does_loop delete k f l s :
  (forall e, does (delete (TargetContained k e)) s DDS_RETCODE_OK (f e)) ->
  does (contained_loop delete k l) s true (flat_map f l).
Proof.
  intros H. induction l as [|e l IH]; cbn [contained_loop flat_map]; [apply does_ret |].
  eapply does_bind; [apply H | exact IH].
Qed.

Lemma does_entities delete k p f s :
  (forall e, does (delete (TargetContained k e)) s DDS_RETCODE_OK (f e)) ->
  does (delete_entities_of delete k p) s true (flat_map f (inside k p)).
Proof.
  intros H. unfold does, delete_entities_of. nstep. nstep. cbn in H0. subst. nstep. nstep.
  cbn in H0. subst. cbn [fst snd dds_ok negb]. by apply does_loop.
Qed.

Lemma does_topic delete k t e s :
  k <> RESOURCEKIND_TOPIC ->
  (forall e', does (delete (TargetEntity None RESOURCEKIND_TOPIC e')) s DDS_RETCODE_OK
                [(RESOURCEKIND_TOPIC, e')]) ->
  does (delete_with_topic delete k t e) s true [(k, e); (RESOURCEKIND_TOPIC, t)].
Proof.
  intros Hk H. unfold delete_with_topic. change [(k, e); (RESOURCEKIND_TOPIC, t)]
    with ([(k, e)] ++ ([(RESOURCEKIND_TOPIC, t)] ++ [])).
  eapply does_bind; [by apply does_delete_itself |]. cbn iota.
  eapply does_bind; [apply H | apply does_ret].
Qed.

Lemma does_contained rows delete k e s l :
  (0 < rows)%nat -> does (delete (TargetEntity None k e)) s DDS_RETCODE_OK l ->
  does (delete_contained rows delete k e) s DDS_RETCODE_OK l.
Proof.
  intros Hr H. unfold does, delete_contained, NDDSA_AgentDb_iterate_resourcesEA,
    NDDSA_AgentDb_find_next_resourceEA, worker_cursor, NDDSA_AgentDb_get_worker.
  destruct rows as [|rows]; [lia |]. cbn [find_next_resource_loop].
  repeat nstep.
  1: { eapply spec_mono; [exact H |]. intros t rc s' (-> & -> & <-). cbn [dds_ok]. nstep.
       split_and!; try done. rewrite !deletions_app. cbn. by rewrite app_nil_r. }
  all: exfalso; match goal with H : entities_known _ |- _ => by destruct H || discriminate H end.
Qed.

Lemma does_entity rows fuel k e s l :
  does (delete_entity_kind (delete_target rows fuel) k e) s true l ->
  does (delete_target rows (S fuel) (TargetEntity None k e)) s DDS_RETCODE_OK l.
Proof.
  intros H. cbn [delete_target]. unfold delete_entity. rewrite <- (app_nil_r l).
  eapply does_bind; [exact H |]. cbn iota. change [] with (([] ++ []) : list (D2S2_ResourceKind * option Z)).
  eapply does_bind; [apply does_ret | apply does_ret].
Qed.

Lemma does_topic_itself rows fuel e s :
  does (delete_target rows (S fuel) (TargetEntity None RESOURCEKIND_TOPIC e)) s DDS_RETCODE_OK
    [(RESOURCEKIND_TOPIC, e)].
Proof.
  apply does_entity. cbn [delete_entity_kind]. unfold does, delete_itself. do 4 nstep. nstep. nstep.
  done.
Qed.

Lemma does_endpoint rows fuel k e s :
  k = RESOURCEKIND_DATAREADER \/ k = RESOURCEKIND_DATAWRITER -> (2 <= fuel)%nat ->
  does (delete_target rows fuel (TargetEntity None k e)) s DDS_RETCODE_OK (endpoint_order k e).
Proof.
  intros Hk Hf. destruct fuel as [|[|fuel]]; [lia.. |].
  apply does_entity. destruct Hk as [-> | ->]; cbn [delete_entity_kind]; unfold does.
  - nstep. nstep. cbn in H. subst. nstep. nstep. cbn in H. subst.
    by apply does_topic; [| intros; apply does_topic_itself].
  - nstep. nstep. cbn in H. subst.
    by apply does_topic; [| intros; apply does_topic_itself].
Qed.

Lemma does_target rows fuel k e s l :
  (0 < rows)%nat -> does (delete_target rows fuel (TargetEntity None k e)) s DDS_RETCODE_OK l ->
  does (delete_target rows (S fuel) (TargetContained k e)) s DDS_RETCODE_OK l.
Proof. apply does_contained. Qed.

Lemma does_itself delete k member e s :
  k <> RESOURCEKIND_TOPIC ->
  (forall w, does (delete (TargetContained member w)) s DDS_RETCODE_OK (endpoint_order member w)) ->
  does (unless delete_entities_of delete member e then ret false else delete_itself k e) s true
    (group_order k member e).
Proof.
  intros Hk H. eapply does_bind; [by apply does_entities |]. by apply does_delete_itself.
Qed.

Lemma does_group rows fuel k member e s :
  k = RESOURCEKIND_SUBSCRIBER /\ member = RESOURCEKIND_DATAREADER
  \/ k = RESOURCEKIND_PUBLISHER /\ member = RESOURCEKIND_DATAWRITER ->
  (0 < rows)%nat -> (4 <= fuel)%nat ->
  does (delete_target rows fuel (TargetEntity None k e)) s DDS_RETCODE_OK (group_order k member e).
Proof.
  intros Hk Hr Hf. destruct fuel as [|[|fuel]]; [lia.. |]. apply does_entity.
  assert (Hw : forall w, does (delete_target rows (S fuel) (TargetContained member w)) s
                           DDS_RETCODE_OK (endpoint_order member w)).
  { intros w. apply does_target; [done |]. apply does_endpoint; [naive_solver | lia]. }
  destruct Hk as [[-> ->] | [-> ->]]; cbn [delete_entity_kind];
    by apply does_itself.
Qed.

End order.

(** A participant with a subscriber that has two readers and a publisher that has a
    writer. *)
Definition example_inside (kind : D2S2_ResourceKind) (e : option Z) : list (option Z) :=
  match kind, e with
  | RESOURCEKIND_SUBSCRIBER, Some 1%Z => [Some 2%Z]
  | RESOURCEKIND_DATAREADER, Some 2%Z => [Some 3%Z; Some 4%Z]
  | RESOURCEKIND_PUBLISHER, Some 1%Z => [Some 5%Z]
  | RESOURCEKIND_DATAWRITER, Some 5%Z => [Some 6%Z]
  | _, _ => []
  end.

Definition example_topic (kind : D2S2_ResourceKind) (e : option Z) : Z := (100 + default 0 e)%Z.


(** ** What a deletion leaves alone *)

Section frame.
Context {N : NddsApi} {C : ConnextCore}.

Definition same_counts (r r' : NDDSA_Resource) : Prop :=
  attached_count r' = attached_count r /\ pending_delete r' = pending_delete r
  /\ (native_deleted r = true -> native_deleted r' = true).

Definition deletes_only (s s' : Ndds) : Prop :=
  session_at s' = session_at s /\ attached_at s' = attached_at s /\ read_at s' = read_at s
  /\ nd_agent s' = nd_agent s
  /\ forall p rr, resource_at s !! p = Some rr ->
       exists rr', resource_at s' !! p = Some rr' /\ same_counts (rr_resource rr) (rr_resource rr').

#[export] Instance deletes_only_preorder : PreOrder deletes_only.
Proof.
  split.
  - intros s. unfold deletes_only. split_and!; try done. intros p rr H. by exists rr.
  - intros s1 s2 s3 (H1 & H2 & H3 & H4 & H5) (K1 & K2 & K3 & K4 & K5). unfold deletes_only.
    split_and!; try congruence. intros p rr H. destruct (H5 p rr H) as (r2 & Hr2 & A1 & A2 & A3).
    destruct (K5 p r2 Hr2) as (r3 & Hr3 & B1 & B2 & B3). exists r3. split; [done |].
    unfold same_counts. split_and!; [congruence | congruence | auto].
Qed.

Lemma upd_resource_deletes p f :
  (forall r, same_counts r (f r)) -> preserves deletes_only (upd_resource p f).
Proof.
  intros Hf. apply preserves_reads_bind. intros rr s Hs. cbn. unfold deletes_only; cbn.
  split_and!; try done. intros q rq Hq. destruct (decide (p = q)) as [<-|].
  - rewrite lookup_insert_eq. eexists. split; [done |]. cbn. rewrite Hs in Hq. injection Hq as <-.
    apply Hf.
  - rewrite lookup_insert_ne by done. by exists rq.
Qed.

(** An update of an object that is none of those. *)
Lemma elsewhere_deletes s s' :
  session_at s' = session_at s -> attached_at s' = attached_at s -> read_at s' = read_at s ->
  nd_agent s' = nd_agent s -> resource_at s' = resource_at s -> deletes_only s s'.
Proof. intros ? ? ? ? Hr. unfold deletes_only. rewrite Hr. unfold same_counts. split_and!; eauto 10. Qed.

Ltac deletes := nframe; try (by apply elsewhere_deletes).

Lemma free_string_deletes f : preserves deletes_only (free_string f).
Proof. unfold free_string. deletes. Qed.
Lemma find_request_deletes reader read :
  preserves deletes_only (NDDSA_Reader_find_request_by_read reader read).
Proof.
  assert (Hl : forall l, preserves deletes_only (find_request_loop read l))
    by (induction l; cbn [find_request_loop]; deletes).
  unfold NDDSA_Reader_find_request_by_read. deletes.
Qed.
#[local] Hint Resolve free_string_deletes find_request_deletes : frames.

Lemma complete_requests_deletes fuel reader :
  preserves deletes_only (complete_requests_loop fuel reader).
Proof.
  induction fuel as [|fuel IH]; cbn [complete_requests_loop]; [deletes |].
  unfold NDDSA_Reader_request_complete. deletes.
Qed.
Lemma reader_finalize_deletes reader : preserves deletes_only (NDDSA_Reader_finalize reader).
Proof. unfold NDDSA_Reader_finalize, upd_reader. deletes. Qed.
Lemma writer_finalize_deletes writer : preserves deletes_only (NDDSA_Writer_finalize writer).
Proof. unfold NDDSA_Writer_finalize, upd_writer. deletes. Qed.
Lemma entity_name_deletes id : preserves deletes_only (entity_name id).
Proof. unfold entity_name. deletes. Qed.
Lemma name_ref_deletes n d : preserves deletes_only (name_ref n d).
Proof. unfold name_ref. deletes. Qed.
Lemma name_component_deletes n d : preserves deletes_only (name_component n d).
Proof. unfold name_component. deletes. Qed.
#[local] Hint Resolve complete_requests_deletes reader_finalize_deletes writer_finalize_deletes
  entity_name_deletes name_ref_deletes name_component_deletes : frames.

Lemma lookup_inside_deletes id d1 d2 f g :
  (forall i, preserves deletes_only (f i)) -> (forall p c, preserves deletes_only (g p c)) ->
  preserves deletes_only (lookup_inside id d1 d2 f g).
Proof. intros Hf Hg. unfold lookup_inside. deletes. Qed.
Lemma lookup_participant_deletes id :
  preserves deletes_only (NDDSA_RefResource_lookup_participant id).
Proof. unfold NDDSA_RefResource_lookup_participant. deletes. Qed.

Ltac inside := apply lookup_inside_deletes; intros; deletes.
Lemma lookup_topic_deletes id : preserves deletes_only (NDDSA_RefResource_lookup_topic id).
Proof. unfold NDDSA_RefResource_lookup_topic. inside. apply lookup_participant_deletes. Qed.
Lemma lookup_publisher_deletes id : preserves deletes_only (NDDSA_RefResource_lookup_publisher id).
Proof. unfold NDDSA_RefResource_lookup_publisher. inside. apply lookup_participant_deletes. Qed.
Lemma lookup_subscriber_deletes id : preserves deletes_only (NDDSA_RefResource_lookup_subscriber id).
Proof. unfold NDDSA_RefResource_lookup_subscriber. inside. apply lookup_participant_deletes. Qed.
#[local] Hint Resolve lookup_participant_deletes lookup_topic_deletes lookup_publisher_deletes
  lookup_subscriber_deletes : frames.
Lemma lookup_datawriter_deletes id : preserves deletes_only (NDDSA_RefResource_lookup_datawriter id).
Proof. unfold NDDSA_RefResource_lookup_datawriter, lookup_written. inside. Qed.
Lemma lookup_datareader_deletes id : preserves deletes_only (NDDSA_RefResource_lookup_datareader id).
Proof. unfold NDDSA_RefResource_lookup_datareader, lookup_written. inside. Qed.
#[local] Hint Resolve lookup_datawriter_deletes lookup_datareader_deletes : frames.

Lemma lookup_entity_deletes kind id e :
  preserves deletes_only (NDDSA_ResourceFactory_lookup_entity_resource kind id e).
Proof.
  unfold NDDSA_ResourceFactory_lookup_entity_resource,
    NDDSA_ResourceFactory_lookup_entity_resourceEA, NDDSA_RefResource_lookup_application.
  destruct kind; deletes.
Qed.
Lemma unload_deletes kind id :
  preserves deletes_only (NDDSA_ResourceFactory_unload_resource_xml kind id).
Proof. unfold NDDSA_ResourceFactory_unload_resource_xml. deletes. Qed.
Lemma finalize_resource_deletes p : preserves deletes_only (finalize_resource p).
Proof.
  assert (Hf : forall r : NDDSA_Resource, same_counts r (snd (NDDSA_Resource_finalize r))).
  { intros r. unfold NDDSA_Resource_finalize. destruct (D2S2_Resource_finalize _).
    by destruct (NDDSA_ResourceNative_finalize _) as [[? ?] ?]. }
  unfold finalize_resource. deletes; [apply frame_each; [exact _ |]; intros; deletes |].
  by apply upd_resource_deletes.
Qed.
Lemma release_or_error_deletes rc : preserves deletes_only (release_resource_or_error rc).
Proof. unfold release_resource_or_error. deletes. Qed.
#[local] Hint Resolve lookup_entity_deletes unload_deletes finalize_resource_deletes
  release_or_error_deletes : frames.


Lemma contained_loop_deletes (delete : DeleteTarget -> ndds DDS_ReturnCode_t) kind l :
  (forall target, preserves deletes_only (delete target)) ->
  preserves deletes_only (contained_loop delete kind l).
Proof. intros H. induction l; cbn [contained_loop]; deletes. Qed.
Lemma delete_contained_deletes rows (delete : DeleteTarget -> ndds DDS_ReturnCode_t) kind e :
  (forall target, preserves deletes_only (delete target)) ->
  preserves deletes_only (delete_contained rows delete kind e).
Proof.
  intros H. unfold delete_contained. deletes. apply frame_find_next_resource; [exact _ |].
  intros g [= <-] p. unfold NDDSA_Agent_find_resource_by_native_resource. deletes.
Qed.
#[local] Hint Resolve contained_loop_deletes delete_contained_deletes : frames.

Lemma delete_target_deletes rows fuel target : preserves deletes_only (delete_target rows fuel target).
Proof.
  revert target. induction fuel as [|fuel IH]; intros [id | id kind e | kind e];
    cbn [delete_target]; [deletes .. | | | deletes].
  - unfold delete_resource_record, delete_resource_entity, delete_state. deletes;
      by apply upd_resource_deletes.
  - unfold delete_entity, delete_entity_kind, delete_with_topic, delete_itself, delete_entities_of.
    deletes.
Qed.
End frame.
