(* ===== verification/NddsAttach.v ===== *)
(** * DDS agent: resources of a session

    The functions of [NddsAgent.c] that attach a resource to a session, enable its
    entity and detach it again, and [NDDSA_Agent_generate_attached_resource_id] of
    [NddsAgentIntf.c].

    A resource is shared: [attached_count] counts the sessions it is attached to.  One
    fuel serves every loop: it is to be greater than the rows of the table of
    resources, the requests of a reader and the levels of [NddsDelete]. *)

From Stdlib Require Import ZArith Lia Ascii String.
From stdpp Require Import base tactics list gmap.
From S2P Require Import Prelude.
From S2P Require Import CString.
From S2P Require Import Infrastructure.
From S2P Require Import Interaction.
From S2P Require Import ServiceData.
From S2P Require Import NddsData.
From S2P Require Import AgentDb.
From S2P Require Import NddsResources.
From S2P Require Import NddsSamples.
From S2P Require Import NddsReaders.
From S2P Require Import NddsReads.
From S2P Require Import NddsFrames.
From S2P Require Import NddsDelete.

Local Open Scope nano_scope.

Section attach.
Context {N : NddsApi} {C : ConnextCore}.

(** ** Identifiers *)

Definition object_kind (kind : D2S2_ResourceKind) : option Z :=
  match kind with
  | RESOURCEKIND_DOMAINPARTICIPANT => Some 1%Z
  | RESOURCEKIND_TOPIC => Some 2%Z
  | RESOURCEKIND_PUBLISHER => Some 3%Z
  | RESOURCEKIND_SUBSCRIBER => Some 4%Z
  | RESOURCEKIND_DATAWRITER => Some 5%Z
  | RESOURCEKIND_DATAREADER => Some 6%Z
  | _ => None
  end.

(** The bytes of the identifier: the first of the digest, and the upper half of the second
    with the kind.  They are put together in the order of the machine, so that the value
    is the same on both. *)
Definition attached_id (kind : Z) (digest : list Z) : option Z :=
  match digest with
  | d0 :: d1 :: _ => Some (256 * d0 + (Z.land d1 240 + kind) mod 256)%Z
  | _ => None
  end.

(** [DDS_AGENT_FEAT_STDAUTOID] is 0: the digest is that of the reference, whatever member
    the union of the identifier has.  [None] is an error. *)
Definition NDDSA_Agent_generate_attached_resource_id (id : D2S2_ResourceId)
    (kind : D2S2_ResourceKind) : ndds (option Z) :=
  match object_kind kind with
  | None => ret None
  | Some obj_kind =>
      let* resource_ref := reads (fun _ => match id_ref id with Some (Some s) => Some s | _ => None end) in
      let* v := reads (fun _ => attached_id obj_kind (MD5 resource_ref)) in
      ret (Some v)
  end.

(** ** Attaching *)

(** [NDDSA_ATTACHEDRESOURCE_INITIALIZER] with the fields of the new resource, whose
    identifier is still to be copied: its own is the one it was asked for, even when another
    was generated. *)
Definition new_attached (resource_id : Z) (session_rec : Z) (rec : NDDSA_ClientSessionRecord)
    (rr : NDDSA_ResourceRecord) : NDDSA_AttachedResource :=
  {| at_base := {| att_kind := res_kind (resource_base (rr_resource rr));
                   att_resource := D2S2_RESOURCEID_INITIALIZER;
                   att_client := csk_client (cs_key (sr_session rec));
                   att_session := csk_id (cs_key (sr_session rec));
                   att_id := resource_id |};
     at_resource := None; at_session := Some session_rec; at_user_data := None;
     read_req := None; last_sample_forwarded := SEQUENCENUMBER_DEFAULT;
     last_sample_returned := SEQUENCENUMBER_DEFAULT |}.

Definition set_att_resource (id : D2S2_ResourceId) (a : NDDSA_AttachedResource)
    : NDDSA_AttachedResource :=
  {| at_base := {| att_kind := att_kind (at_base a); att_resource := id;
                   att_client := att_client (at_base a); att_session := att_session (at_base a);
                   att_id := att_id (at_base a) |};
     at_resource := at_resource a; at_session := at_session a; at_user_data := at_user_data a;
     read_req := read_req a; last_sample_forwarded := last_sample_forwarded a;
     last_sample_returned := last_sample_returned a |}.

Definition set_at_user_data (p : option Z) (a : NDDSA_AttachedResource) : NDDSA_AttachedResource :=
  {| at_base := at_base a; at_resource := at_resource a; at_session := at_session a;
     at_user_data := p; read_req := read_req a;
     last_sample_forwarded := last_sample_forwarded a;
     last_sample_returned := last_sample_returned a |}.

Definition set_cs_resources (l : list Z) (r : NDDSA_ClientSessionRecord) : NDDSA_ClientSessionRecord :=
  {| sr_session := {| cs_key := cs_key (sr_session r); cs_agent := cs_agent (sr_session r);
       cs_intf := cs_intf (sr_session r); cs_resources := l; cs_timeout := cs_timeout (sr_session r);
       cs_user_data := cs_user_data (sr_session r); deleted := deleted (sr_session r);
       timedout := timedout (sr_session r); resetting := resetting (sr_session r);
       rcvd_data_pool := rcvd_data_pool (sr_session r); sem_timeout := sem_timeout (sr_session r);
       sem_cleanup := sem_cleanup (sr_session r); ts_live := ts_live (sr_session r) |};
     sr_ea := sr_ea r |}.

Definition upd_session_rec (p : Z) (f : NDDSA_ClientSessionRecord -> NDDSA_ClientSessionRecord)
    : ndds unit :=
  let* rec := session_rec_of p in modify (put_session p (f rec)).

(** [attached_count] is an unsigned integer of 32 bits. *)
Definition set_attached (count : Z) (pending : bool) (r : NDDSA_Resource) : NDDSA_Resource :=
  {| resource_base := resource_base r; native := native r; attached_count := (count mod 2 ^ 32)%Z;
     resource_agent := resource_agent r; resource_user_data := resource_user_data r;
     loaded := loaded r; native_deleted := native_deleted r; pending_delete := pending |}.

(** [None] is an error.  When the identifier is not copied the buffer is lost. *)
Definition NDDSA_Agent_attach_resource_to_sessionEA (session_rec resource_id resource_rec : Z)
    : ndds (option Z) :=
  let* rr := resource_rec_of resource_rec in
  let base := resource_base (rr_resource rr) in
  let* generated :=
    if (resource_id =? ATTACHEDRESOURCEID_INVALID)%Z
    then let* g := NDDSA_Agent_generate_attached_resource_id (res_id base) (res_kind base) in
         ret (bool_decide (is_Some g))
    else ret true in
  if negb generated then ret None else
  let* ag := the_nd_agent in
  let? attached := ncall (AttachedPoolGet (pool_resources ag)) else ret None in
  let* rec := session_rec_of session_rec in
  modify (put_attached attached (new_attached resource_id session_rec rec rr));;
  let '(ok, id) := D2S2_ResourceId_copy D2S2_RESOURCEID_INITIALIZER (res_id base) in
  upd_attached attached (set_att_resource id);;
  if negb ok then ret None else
  upd_session_rec session_rec (fun r => set_cs_resources (cs_resources (sr_session r) ++ [attached]) r);;
  upd_resource resource_rec (fun r => set_attached (attached_count r + 1) (pending_delete r) r);;
  ret (Some attached).

(** ** Enabling *)

(** The chain of entities from a participant down to the one of a resource. *)
Fixpoint enable_loop (chain : list (D2S2_ResourceKind * option Z)) : ndds DDS_ReturnCode_t :=
  match chain with
  | [] => ret DDS_RETCODE_OK
  | (kind, entity) :: chain =>
      let* rc := ncall (EntityEnable kind entity) in
      if dds_ok rc then enable_loop chain else ret DDS_RETCODE_ERROR
  end.

Definition NDDSA_Agent_enable_resourceEA (resource_rec : Z) : ndds DDS_ReturnCode_t :=
  let* rr := resource_rec_of resource_rec in
  let res := rr_resource rr in
  let kind := res_kind (resource_base res) in
  if negb (has_entity kind) then ret DDS_RETCODE_OK else
  let* e := reads (fun _ => entity_of res) in
  let parent k p := ncall (EntityParent k p) in
  match kind with
  | RESOURCEKIND_DOMAINPARTICIPANT => enable_loop [(kind, e)]
  | RESOURCEKIND_DATAWRITER =>
      let* publisher := parent kind e in
      let* participant := parent RESOURCEKIND_PUBLISHER publisher in
      enable_loop [(RESOURCEKIND_DOMAINPARTICIPANT, participant);
                   (RESOURCEKIND_PUBLISHER, publisher); (kind, e)]
  | RESOURCEKIND_DATAREADER =>
      let* subscriber := parent kind e in
      let* participant := parent RESOURCEKIND_SUBSCRIBER subscriber in
      enable_loop [(RESOURCEKIND_DOMAINPARTICIPANT, participant);
                   (RESOURCEKIND_SUBSCRIBER, subscriber); (kind, e)]
  | _ =>
      let* participant := parent kind e in
      enable_loop [(RESOURCEKIND_DOMAINPARTICIPANT, participant); (kind, e)]
  end.

(** ** Detaching *)

(** What is written through the last three parameters, when they are not NULL. *)
Record Detached := {
  det_kind : D2S2_ResourceKind;
  det_id : D2S2_ResourceId;
  det_data : option Z
}.

Definition DETACHED_INITIALIZER : Detached :=
  {| det_kind := RESOURCEKIND_UNKNOWN; det_id := D2S2_RESOURCEID_INITIALIZER; det_data := None |}.

(** The end of [detach_resourceEA]: what is returned is written, and the buffer goes back to
    its pool.  It is not unlinked from the session. *)
Definition detach_done (attached : Z) (out : option Detached)
    : ndds (DDS_ReturnCode_t * option Detached) :=
  let* a := attached_of attached in
  let base := at_base a in
  let copied :=
    match out with
    | None => (true, None)
    | Some o =>
        let '(ok, id) := D2S2_ResourceId_copy (det_id o) (att_resource base) in
        (ok, Some {| det_kind := if ok then att_kind base else det_kind o; det_id := id;
                     det_data := if ok then at_user_data a else det_data o |})
    end in
  if negb (fst copied) then ret (DDS_RETCODE_ERROR, snd copied) else
  let '(f, id) := D2S2_ResourceId_finalize (att_resource base) in
  free_string f;;
  upd_attached attached (set_att_resource id);;
  let* ag := the_nd_agent in
  ncall (AttachedPoolReturn (pool_resources ag) attached);;
  ret (DDS_RETCODE_OK, snd copied).

(** The record of the resource is held.  [Some]: the resource is counted once less, and whether
    it is to be deleted and a read was cancelled. *)
Definition detach_count (others : Ndds -> Ndds) (session_rec attached resource_rec : Z)
    (delete_request : bool) : ndds (option (bool * bool)) :=
  let* rr := resource_rec_of resource_rec in
  if (attached_count (rr_resource rr) =? 0)%Z then ret None else
  let* a := attached_of attached in
  let reading := bool_decide (att_kind (at_base a) = RESOURCEKIND_DATAREADER)
                 && bool_decide (is_Some (read_req a)) in
  let* rc := if reading
             then NDDSA_Agent_cancel_readEA others session_rec attached true resource_rec
             else ret DDS_RETCODE_OK in
  if negb (dds_ok rc) then ret None else
  upd_resource resource_rec
    (fun r => set_attached (attached_count r - 1) (pending_delete r || delete_request) r);;
  let* rr := resource_rec_of resource_rec in
  ret (Some (pending_delete (rr_resource rr) && (attached_count (rr_resource rr) =? 0)%Z, reading)).

(** The deletion of a resource nobody has: its entity, and its record. *)
Definition delete_last (fuel : nat) (id : D2S2_ResourceId) : ndds bool :=
  let* rc := NDDSA_Agent_delete_native_resourceEA fuel fuel id in
  if negb (dds_ok rc) then ret false else NDDSA_AgentDb_delete_resourceEA id.

(** The part that runs with the table locked. *)
Definition detach_locked (others : Ndds -> Ndds) (fuel : nat) (src : option Z)
    (session_rec attached : Z) (delete_request : bool) (out : option Detached)
    : ndds (DDS_ReturnCode_t * option Detached) :=
  let* a := attached_of attached in
  let* l := NDDSA_AgentDb_lookup_resourceEA (att_resource (at_base a)) in
  match l with
  | (true, Some resource_rec) =>
      let* d := detach_count others session_rec attached resource_rec delete_request in
      match d with
      | None => let* rc := release_resource_or_error DDS_RETCODE_ERROR in ret (rc, out)
      | Some (delete_resource, cancelled_read) =>
          unless NDDSA_AgentDb_release_resourceEA then ret (DDS_RETCODE_ERROR, out) else
          (if cancelled_read then
             let* rec := session_rec_of session_rec in
             let* a := attached_of attached in
             ncall (OnReadComplete src session_rec (cs_user_data (sr_session rec))
                      (att_id (at_base a)) (at_user_data a))
           else ret tt);;
          let* a := attached_of attached in
          unless (if delete_resource then delete_last fuel (att_resource (at_base a)) else ret true)
          then ret (DDS_RETCODE_ERROR, out) else
          detach_done attached out
      end
  | _ => ret (DDS_RETCODE_ERROR, out)
  end.

Definition unlock_resources_or_error {A} (r : DDS_ReturnCode_t * A) : ndds (DDS_ReturnCode_t * A) :=
  let* ok := NDDSA_AgentDb_unlock_resources true in
  ret (if ok then r else (DDS_RETCODE_ERROR, snd r)).

Definition NDDSA_Agent_detach_resourceEA (others : Ndds -> Ndds) (fuel : nat) (src : option Z)
    (session_rec attached : Z) (delete_request : bool) (out : option Detached)
    : ndds (DDS_ReturnCode_t * option Detached) :=
  unless NDDSA_AgentDb_lock_resources true false then ret (DDS_RETCODE_ERROR, out) else
  let* r := detach_locked others fuel src session_rec attached delete_request out in
  unlock_resources_or_error r.

(** ** All resources *)

(** One resource of the table: attached, enabled and announced, unless it already is.  [false]
    is a failure. *)
Definition attach_one (others : Ndds -> Ndds) (fuel : nat) (session_rec resource_rec : Z)
    : ndds bool :=
  let* rr := resource_rec_of resource_rec in
  let base := resource_base (rr_resource rr) in
  let? attach_id := NDDSA_Agent_generate_attached_resource_id (res_id base) (res_kind base)
    else ret false in
  let* found := NDDSA_ClientSession_find_attached_resource session_rec attach_id in
  match found with
  | Some _ => ret true
  | None =>
      let? attached := NDDSA_Agent_attach_resource_to_sessionEA session_rec attach_id resource_rec
        else ret false in
      let* rc := NDDSA_Agent_enable_resourceEA resource_rec in
      if negb (dds_ok rc) then ret false else
      let* rec := session_rec_of session_rec in
      let* a := attached_of attached in
      let intf := cs_intf (sr_session rec) in
      let* r := ncall (OnResourceCreated intf session_rec (cs_user_data (sr_session rec))
                         (att_kind (at_base a)) (att_resource (at_base a)) (att_id (at_base a)) None) in
      if negb (dds_ok (fst r)) then
        NDDSA_Agent_detach_resourceEA others fuel intf session_rec attached false None;;
        ret false
      else
        upd_attached attached (set_at_user_data (snd r));;
        ret true
  end.

Fixpoint attach_all_loop (others : Ndds -> Ndds) (fuel rows : nat) (session_rec : Z)
    (resource_rec : option Z) : ndds DDS_ReturnCode_t :=
  match rows with
  | O => unfinished
  | S rows =>
      unless (if bool_decide (is_Some resource_rec) then NDDSA_AgentDb_release_resourceEA
              else ret true) then ret DDS_RETCODE_ERROR else
      let* f := NDDSA_AgentDb_find_next_resourceEA fuel None in
      match f with
      | (false, _) => ret DDS_RETCODE_ERROR
      | (true, None) => ret DDS_RETCODE_OK
      | (true, Some resource_rec) =>
          let* rr := resource_rec_of resource_rec in
          let* ag := the_nd_agent in
          unless (if negb (native_deleted (rr_resource rr)) && auto_attach_resources ag
                  then attach_one others fuel session_rec resource_rec else ret true)
          then NDDSA_AgentDb_release_resourceEA;; ret DDS_RETCODE_ERROR else
          attach_all_loop others fuel rows session_rec (Some resource_rec)
      end
  end.

(** The table is locked also while a resource is detached again, which locks it too; a failure
    to unlock it is not reported. *)
Definition NDDSA_Agent_attach_all_resources_to_sessionEA (others : Ndds -> Ndds) (fuel : nat)
    (session_rec : Z) : ndds DDS_ReturnCode_t :=
  unless NDDSA_AgentDb_lock_resources true true then ret DDS_RETCODE_ERROR else
  let* rc := attach_all_loop others fuel fuel session_rec None in
  NDDSA_AgentDb_unlock_resources true;;
  ret rc.
End attach.
(** ** Identifiers *)

Section ids.
Context {N : NddsApi} {Nok : NddsApiOk N} {C : ConnextCore}.

Lemma high_nibble d : (0 <= d < 256)%Z -> Z.land d 240 = (16 * (d / 16))%Z.
Proof.
  intros Hd.
  assert (H : forallb (fun n => Z.eqb (Z.land (Z.of_nat n) 240) (16 * (Z.of_nat n / 16)))
                (List.seq 0 256) = true) by reflexivity.
  rewrite forallb_forall in H. specialize (H (Z.to_nat d)). rewrite Z2Nat.id in H by lia.
  apply Z.eqb_eq, H, List.in_seq. lia.
Qed.

Lemma attached_id_spec k digest :
  length digest = 16%nat -> Forall (fun b => 0 <= b < 256)%Z digest -> (0 < k < 16)%Z ->
  exists v, attached_id k digest = Some v /\ (0 < v < 2 ^ 16)%Z /\ (v mod 16 = k)%Z.
Proof.
  intros Hl Hd Hk. destruct digest as [|d0 [|d1 digest]]; [done.. |].
  apply Forall_cons in Hd as [H0 [H1 _]%Forall_cons]. eexists. split; [done |].
  rewrite high_nibble by done. assert ((0 <= d1 / 16 < 16)%Z) by (split; [apply Z.div_pos | apply Z.div_lt_upper_bound]; lia).
  rewrite (Z.mod_small (_ + k)) by lia. split; [lia |].
  replace (256 * d0 + (16 * (d1 / 16) + k))%Z with (k + (16 * d0 + d1 / 16) * 16)%Z by lia.
  rewrite Z.mod_add by lia. apply Z.mod_small. lia.
Qed.

Definition reference (id : D2S2_ResourceId) : option cstr :=
  match id_ref id with Some (Some s) => Some s | _ => None end.

(** C22: The identifier generated for a resource that has one fits the 16 bits of an object
    identifier, is not the invalid one, and has the kind of the resource in its low four bits, so
    that resources of different kinds never get the same.  A resource of another kind gets none,
    and the one of a resource depends on its name and kind alone. *)
Theorem generated_id_bounds id kind s name :
  reference id = Some name ->
  spec (fun _ => True) (NDDSA_Agent_generate_attached_resource_id id kind) s (fun t r s' =>
    t = [] /\ s' = s /\
    match r with
    | Some v => exists k, object_kind kind = Some k /\ (0 < v < 2 ^ 16)%Z
                  /\ v <> ATTACHEDRESOURCEID_INVALID /\ (v mod 16 = k)%Z
                  /\ attached_id k (MD5 name) = Some v
    | None => has_entity kind = false
    end).
Proof.
  intros Hname. unfold NDDSA_Agent_generate_attached_resource_id.
  destruct (object_kind kind) as [k|] eqn:Hkind; [| nstep; by destruct kind].
  assert (Hk : (0 < k < 16)%Z) by (destruct kind; try done; cbn in Hkind; injection Hkind as <-; lia).
  destruct (md5_digest name) as [Hl Hd]. destruct (attached_id_spec k _ Hl Hd Hk) as (v & Hv & Hb & Hm).
  nstep. eapply spec_reads; [exact Hname |]. nstep. eapply spec_reads; [exact Hv |]. nstep.
  split_and!; [done.. |]. exists k. split_and!; try done; try lia.
  unfold ATTACHEDRESOURCEID_INVALID. lia.
Qed.
End ids.

Lemma generated_id_bounds_witness :
  spec (fun _ => True)
    (NDDSA_Agent_generate_attached_resource_id (ref_id ["F"%char]) RESOURCEKIND_DATAWRITER) sample_ndds
    (fun t r s' => t = [] /\ s' = sample_ndds /\
       match r with
       | Some v => exists k, object_kind RESOURCEKIND_DATAWRITER = Some k /\ (0 < v < 2 ^ 16)%Z
                     /\ v <> ATTACHEDRESOURCEID_INVALID /\ (v mod 16 = k)%Z
                     /\ attached_id k (MD5 ["F"%char]) = Some v
       | None => has_entity RESOURCEKIND_DATAWRITER = false
       end)
  /\ attached_id 5 (MD5 ["F"%char]) = Some 261%Z.
Proof.
  split; [| reflexivity].
  apply (generated_id_bounds (ref_id ["F"%char]) RESOURCEKIND_DATAWRITER sample_ndds ["F"%char]).
  reflexivity.
Defined.


(** ** Counting *)

Section counting.
Context {N : NddsApi} {C : ConnextCore}.
Context (others : Ndds -> Ndds) (fuel : nat) (src : option Z) (sess att rp : Z).

(** The attached resources given back to their pool. *)
Definition given_back_of (e : nevent) : list Z :=
  match e with existT (AttachedPoolReturn _ p) _ => [p] | _ => [] end.
Definition given_back (t : list nevent) : list Z := flat_map given_back_of t.

Lemma given_back_app t1 t2 : given_back (t1 ++ t2) = given_back t1 ++ given_back t2.
Proof. apply flat_map_app. Qed.

(** A call that neither deletes an entity nor removes a record. *)
Definition keeps_resource (c : NCall) : bool :=
  match c with
  | EntityDelete _ _ _ | UnloadXmlElement _ _ | CursorRemoveRecord _ => false
  | _ => true
  end.

Definition removed_record (e : nevent) : Prop :=
  match e with
  | existT c r =>
      match c return NResp c -> Prop with
      | CursorRemoveRecord _ => fun r => fst r = true
      | _ => fun _ => False
      end r
  end.

Context (a : NDDSA_AttachedResource) (rr : NDDSA_ResourceRecord).
Context (sid : bool * NDDSA_StaticResourceId).
Hypothesis Hsid : NDDSA_StaticResourceId_from_id (att_resource (at_base a)) = Some sid.

Definition last_detach (delete_request : bool) : bool :=
  (pending_delete (rr_resource rr) || delete_request)
  && (attached_count (rr_resource rr) =? 1)%Z.

Lemma finalize_attached_id :
  exists f, fst (D2S2_ResourceId_finalize (att_resource (at_base a))) = f /\ f <> FreedConfused.
Proof.
  eexists. split; [done |]. revert Hsid. unfold NDDSA_StaticResourceId_from_id, D2S2_ResourceId_finalize.
  destruct (id_kind _); cbn; try done. by destruct (id_ref _) as [[?|]|].
Qed.

Lemma detach_done_spec E out s :
  attached_at s !! att = Some a ->
  spec E (detach_done att out) s (fun t r s' =>
    session_at s' = session_at s /\ resource_at s' = resource_at s
    /\ only keeps_resource t
    /\ (given_back t = [att] /\ fst r = DDS_RETCODE_OK
        \/ given_back t = [] /\ fst r = DDS_RETCODE_ERROR)).
Proof.
  intros Ha. unfold detach_done. nstep. eapply spec_reads; [exact Ha |]. cbv zeta.
  destruct (match out with Some _ => _ | None => _ end) as [ok o]. cbn [fst snd].
  destruct ok; cbn [negb]; cycle 1.
  { apply spec_ret. split_and!; try done; [repeat constructor | by right]. }
  destruct finalize_attached_id as (f & Hf & Hc).
  destruct (D2S2_ResourceId_finalize _) as [f' id']. cbn [fst] in Hf. subst f'.
  assert (Hend : forall t1, only keeps_resource t1 -> given_back t1 = [] ->
    spec E (upd_attached att (set_att_resource id');;
            let* ag := the_nd_agent in
            ncall (AttachedPoolReturn (pool_resources ag) att);;
            ret (DDS_RETCODE_OK, o)) s (fun t r s' =>
      session_at s' = session_at s /\ resource_at s' = resource_at s
      /\ only keeps_resource (t1 ++ t)
      /\ (given_back (t1 ++ t) = [att] /\ fst r = DDS_RETCODE_OK
          \/ given_back (t1 ++ t) = [] /\ fst r = DDS_RETCODE_ERROR))).
  { intros t1 H1 H2. nstep. unfold upd_attached. nstep. eapply spec_reads; [exact Ha |]. nstep.
    nstep. nstep. nstep. nstep. nstep. split_and!; try done.
    - apply only_app; [done | by repeat constructor].
    - left. by rewrite given_back_app, H2. }
  unfold free_string. destruct f as [|[str|]|x|]; try done.
  - nstep. nstep. apply Hend; [by apply only_nil | done].
  - nstep. nstep. nstep. nstep. apply Hend; [by repeat constructor | done].
  - nstep. nstep. apply Hend; [by apply only_nil | done].
  - nstep. nstep. apply Hend; [by apply only_nil | done].
Qed.

Lemma cursors_keep t : cursors_only t -> only keeps_resource t.
Proof. apply only_weaken. by intros []. Qed.

Lemma given_back_cursors t : cursors_only t -> given_back t = [].
Proof.
  unfold cursors_only, only. induction t as [|[c r] t IH]; [done |].
  intros [Hc Ht]%Forall_cons. change (given_back_of (existT c r) ++ given_back t = []).
  rewrite IH by done. by destruct c.
Qed.


Hypothesis Hquiet : att_kind (at_base a) <> RESOURCEKIND_DATAREADER \/ read_req a = None.
Hypothesis Hcount : (0 < attached_count (rr_resource rr) < 2 ^ 32)%Z.

Definition counted (delete_request : bool) : NDDSA_ResourceRecord :=
  {| rr_ea := rr_ea rr;
     rr_resource := set_attached (attached_count (rr_resource rr) - 1)
                      (pending_delete (rr_resource rr) || delete_request) (rr_resource rr) |}.

Lemma detach_count_spec E s delete_request :
  attached_at s !! att = Some a -> resource_at s !! rp = Some rr ->
  spec E (detach_count others sess att rp delete_request) s (fun t r s' =>
    t = [] /\ r = Some (last_detach delete_request, false)
    /\ s' = put_resource rp (counted delete_request) s).
Proof.
  intros Ha Hrr. unfold detach_count. nstep. eapply spec_reads; [exact Hrr |].
  assert (Hnz : (attached_count (rr_resource rr) =? 0)%Z = false) by lia. rewrite Hnz. nstep.
  eapply spec_reads; [exact Ha |]. cbv zeta.
  assert (Hr : bool_decide (att_kind (at_base a) = RESOURCEKIND_DATAREADER)
               && bool_decide (is_Some (read_req a)) = false).
  { destruct Hquiet as [H | ->]; [by rewrite bool_decide_false | by rewrite andb_false_r]. }
  rewrite Hr. nstep. nstep. nstep. unfold upd_resource. nstep. nstep. eapply spec_reads; [exact Hrr |].
  nstep. nstep. eapply spec_reads; [by cbn; rewrite lookup_insert_eq |]. nstep. cbn.
  split_and!; try done. unfold last_detach. do 2 f_equal. f_equal.
  rewrite Z.mod_small by lia. lia.
Qed.

(** The database finds no other record, and removes no other. *)
Definition finds_and_removes (e : nevent) : Prop :=
  finds rp e /\
  match e with
  | existT c r =>
      match c return NResp c -> Prop with
      | CursorRemoveRecord _ => fun r => Forall (eq rp) (snd r)
      | _ => fun _ => True
      end r
  end.

Lemma delete_resource_spec s :
  is_Some (resource_at s !! rp) ->
  spec finds_and_removes (NDDSA_AgentDb_delete_resourceEA (att_resource (at_base a))) s
    (fun t b s' => s' = s /\ given_back t = [] /\ (b = true -> List.Exists removed_record t)).
Proof.
  intros [r Hr]. unfold NDDSA_AgentDb_delete_resourceEA, with_static_id, delete_at, remove_record,
    worker_cursor, NDDSA_AgentDb_get_worker.
  nstep. eapply spec_reads; [exact Hsid |]. destruct (fst sid); [| by nstep].
  repeat nstep; try done.
  destruct r3 as [ok l]. destruct H2 as [_ Hl]. cbn [fst snd] in *.
  assert (He : spec finds_and_removes (each (finalize_record TableResources) l) s
                 (fun t _ s' => s' = s /\ given_back t = [])).
  { induction Hl as [|p l <- Hl IH]; [by apply spec_ret |]. rewrite each_cons. nstep.
    unfold finalize_record, NDDSA_AgentDb_finalize_resource_record. nstep.
    eapply spec_reads; [exact Hr |]. nstep. nstep. nstep. eapply spec_mono; [exact IH |].
    intros t [] s' [-> Ht]. done. }
  eapply spec_mono; [exact He |]. intros t [] s' [-> Ht]. nstep. split_and!; [done | |].
  - by rewrite !given_back_app, Ht.
  - intros ->. rewrite !List.Exists_app, !List.Exists_cons. cbn. tauto.
Qed.

Lemma frame_delete_last : preserves deletes_only (delete_last fuel (att_resource (at_base a))).
Proof.
  unfold delete_last, NDDSA_Agent_delete_native_resourceEA. nframe. apply delete_target_deletes.
Qed.

Lemma makes_given_back {A} E (m : ndds A) s Q :
  makes not_given_back m -> spec E m s Q -> spec E m s (fun t r s' => Q t r s' /\ given_back t = []).
Proof.
  intros Hm H. eapply spec_mono; [by apply spec_makes |]. intros t r s' [HQ Ht]. split; [done |].
  clear HQ. induction t as [|[c x] t IH]; [done |]. apply Forall_cons in Ht as [Hc Ht].
  change (given_back_of (existT c x) ++ given_back t = []). rewrite IH by done. by destruct c.
Qed.

(** A run in which the resource is deleted with its entity, and then its record is removed. *)
Definition deleted_and_removed (s1 : Ndds) (t : list nevent) : Prop :=
  exists t1 t2 t3 s2, t = t1 ++ t2 ++ t3
    /\ runs (NDDSA_Agent_delete_native_resourceEA fuel fuel (att_resource (at_base a)) s1) t2
         (Returned (DDS_RETCODE_OK, s2))
    /\ List.Exists removed_record t3.

Lemma deleted_and_removed_app s1 t0 t t3 :
  deleted_and_removed s1 t -> deleted_and_removed s1 (t0 ++ t ++ t3).
Proof.
  intros (u1 & u2 & u3 & s2 & -> & Hr & He). exists (t0 ++ u1), u2, (u3 ++ t3), s2.
  rewrite List.Exists_app, <- !app_assoc. auto.
Qed.

(** The deletion of the last attached one, once it is known to end. *)
Lemma delete_last_spec s1 :
  is_Some (resource_at s1 !! rp) ->
  spec finds_and_removes
    (NDDSA_Agent_delete_native_resourceEA fuel fuel (att_resource (at_base a))) s1
    (fun _ _ _ => True) ->
  spec finds_and_removes (delete_last fuel (att_resource (at_base a))) s1
    (fun t b s' => deletes_only s1 s' /\ given_back t = []
       /\ (b = true -> deleted_and_removed s1 t)).
Proof.
  intros [r1 Hr] H. unfold delete_last. nstep.
  eapply spec_mono; [apply spec_run, spec_preserves;
    [apply makes_given_back; [apply delete_target_calls | exact H] | apply delete_target_deletes] |].
  intros t rc s2 [[[_ Hg] Hd] Hrun]. destruct (dds_ok rc) eqn:Hrc; cbn [negb]; [| nstep; by rewrite app_nil_r].
  assert (rc = DDS_RETCODE_OK) as -> by (by destruct rc).
  destruct Hd as (D1 & D2 & D3 & D4 & D5). destruct (D5 _ _ Hr) as (r2 & Hr2 & _).
  eapply spec_mono; [by apply delete_resource_spec |]. intros t2 b s3 (-> & Hg2 & Hb).
  split_and!; [done | by rewrite given_back_app, Hg, Hg2 |].
  intros H'. exists [], t, t2, s2. auto.
Qed.

(** What detaching does: nothing, or it counts the resource once less and deals with it. *)
Definition detached (delete_request : bool) (s : Ndds) (t : list nevent) (rc : DDS_ReturnCode_t)
    (s' : Ndds) : Prop :=
  session_at s' = session_at s /\
  (s' = s /\ given_back t = [] /\ rc = DDS_RETCODE_ERROR /\ only keeps_resource t
   \/ exists rr', resource_at s' !! rp = Some rr'
        /\ attached_count (rr_resource rr') = (attached_count (rr_resource rr) - 1)%Z
        /\ pending_delete (rr_resource rr') = pending_delete (rr_resource rr) || delete_request
        /\ (given_back t = [att] \/ given_back t = [] /\ rc = DDS_RETCODE_ERROR)
        /\ (rc = DDS_RETCODE_OK -> given_back t = [att])
        /\ (if last_detach delete_request
            then rc = DDS_RETCODE_OK ->
                 deleted_and_removed (put_resource rp (counted delete_request) s) t
            else rr' = counted delete_request /\ only keeps_resource t)).

Lemma detach_rest_spec delete_request out s :
  attached_at s !! att = Some a -> resource_at s !! rp = Some rr ->
  let s1 := put_resource rp (counted delete_request) s in
  (last_detach delete_request = true ->
     spec finds_and_removes
       (NDDSA_Agent_delete_native_resourceEA fuel fuel (att_resource (at_base a))) s1
       (fun _ _ _ => True)) ->
  spec finds_and_removes
    (let* a := attached_of att in
     unless (if last_detach delete_request then delete_last fuel (att_resource (at_base a))
             else ret true)
     then ret (DDS_RETCODE_ERROR, out)
     else detach_done att out) s1
    (fun t r s' => forall t0 t3 (ok : bool), cursors_only t0 -> cursors_only t3 ->
       detached delete_request s (t0 ++ t ++ t3) (if ok then fst r else DDS_RETCODE_ERROR) s').
Proof.
  intros Ha Hrr s1 Hdel.
  assert (Hc : forall t0 t t3, cursors_only t0 -> cursors_only t3 ->
    given_back (t0 ++ t ++ t3) = given_back t)
    by (intros t0 t t3 H0 H3; rewrite !given_back_app, (given_back_cursors t0), (given_back_cursors t3)
      by done; apply app_nil_r).
  assert (Hk : forall t0 t t3, cursors_only t0 -> cursors_only t3 -> only keeps_resource t ->
    only keeps_resource (t0 ++ t ++ t3))
    by (intros; repeat apply only_app; auto using cursors_keep).
  assert (Hs1 : resource_at s1 !! rp = Some (counted delete_request))
    by (cbn; by rewrite lookup_insert_eq).
  nstep. eapply spec_reads; [exact Ha |]. nstep.
  destruct (last_detach delete_request) eqn:Hlast.
  - eapply spec_mono; [apply delete_last_spec; [by rewrite Hs1 | by apply Hdel] |].
    intros t b s2 ((D1 & D2 & _ & _ & D5) & Hg & Hb).
    destruct (D5 _ _ Hs1) as (r2 & Hr2 & C1 & C2 & _). cbn in C1, C2.
    assert (Hcount' : attached_count (rr_resource r2) = (attached_count (rr_resource rr) - 1)%Z)
      by (rewrite C1; apply Z.mod_small; lia).
    destruct b; cycle 1.
    + apply spec_ret. intros t0 t3 ok Ht0 Ht3. cbn [fst].
      replace (if ok then DDS_RETCODE_ERROR else _) with DDS_RETCODE_ERROR by (by destruct ok).
      split; [done |]. right. exists r2. rewrite Hc by done. rewrite Hlast, !app_nil_r.
      split_and!; try done. by right.
    + eapply spec_mono; [apply detach_done_spec; by rewrite D2 |].
      intros t' r s3 (E1 & E2 & _ & E4) t0 t3 ok Ht0 Ht3. split; [by rewrite E1, D1 |]. right.
      exists r2. rewrite Hc by done. rewrite !given_back_app, Hg, Hlast. cbn. rewrite E2.
      split_and!; try done.
      * destruct E4 as [[-> _] | [-> ->]]; [by left | right]. by destruct ok.
      * destruct E4 as [[-> _] | [-> ->]]; [done |]. by destruct ok.
      * intros _. rewrite <- app_assoc, app_assoc, <- app_assoc.
        apply deleted_and_removed_app. by apply Hb.
  - apply spec_ret. eapply spec_mono; [by apply detach_done_spec |].
    intros t r s3 (E1 & E2 & E3 & E4) t0 t3 ok Ht0 Ht3. split; [done |]. right.
    exists (counted delete_request). rewrite Hc by done. rewrite Hlast, E2, Hs1.
    cbn [app counted rr_resource set_attached attached_count pending_delete].
    split_and!; try done.
    + apply Z.mod_small; lia.
    + destruct E4 as [[-> _] | [-> ->]]; [by left | right]. by destruct ok.
    + destruct E4 as [[-> _] | [-> ->]]; [done |]. by destruct ok.
    + by apply Hk.
Qed.
Lemma cursors_app t1 t2 : cursors_only t1 -> cursors_only t2 -> cursors_only (t1 ++ t2).
Proof. apply only_app. Qed.

(** Nothing is done, or the resource is counted and no more. *)
Lemma detached_nothing delete_request s t (b : bool) :
  cursors_only t ->
  detached delete_request s t (if b then DDS_RETCODE_ERROR else DDS_RETCODE_ERROR) s.
Proof.
  intros Ht. split; [done |]. left.
  split_and!; [done | by apply given_back_cursors | by destruct b | by apply cursors_keep].
Qed.

Lemma detached_counted delete_request s t :
  cursors_only t ->
  detached delete_request s t DDS_RETCODE_ERROR (put_resource rp (counted delete_request) s).
Proof.
  intros Ht. split; [done |]. right. exists (counted delete_request).
  rewrite given_back_cursors by done.
  cbn [counted rr_resource set_attached attached_count pending_delete put_resource resource_at].
  rewrite lookup_insert_eq. split_and!; try done; [apply Z.mod_small; lia | by right |].
  destruct (last_detach delete_request); [done |]. split; [done | by apply cursors_keep].
Qed.

(** The part that runs with the table locked, up to the cursor calls before and after it. *)
Lemma detach_locked_spec delete_request out s :
  attached_at s !! att = Some a -> resource_at s !! rp = Some rr ->
  (last_detach delete_request = true ->
     spec finds_and_removes
       (NDDSA_Agent_delete_native_resourceEA fuel fuel (att_resource (at_base a)))
       (put_resource rp (counted delete_request) s) (fun _ _ _ => True)) ->
  spec finds_and_removes (detach_locked others fuel src sess att delete_request out) s
    (fun t r s' => forall t0 t3 (ok : bool), cursors_only t0 -> cursors_only t3 ->
       detached delete_request s (t0 ++ t ++ t3) (if ok then fst r else DDS_RETCODE_ERROR) s').
Proof.
  intros Ha Hrr Hdel. unfold detach_locked. nstep. eapply spec_reads; [exact Ha |].
  eapply quiet_bind.
  { eapply spec_strengthen; [| by eapply quiet_lookup_resourceEA]. by intros e [H _]. }
  intros t1 [ok [p|]] Ht1 Hp; cycle 1.
  { replace (if ok then _ else _)
      with (ret (DDS_RETCODE_ERROR, out) : ndds (DDS_ReturnCode_t * option Detached)) by (by destruct ok).
    nstep. intros t0 t3 b Ht0 Ht3. apply detached_nothing. rewrite app_nil_r. auto using cursors_app. }
  specialize (Hp p eq_refl) as [= -> ->]. nstep.
  eapply spec_mono; [by apply detach_count_spec |]. intros t2 d s1 (-> & -> & ->).
  eapply quiet_bind; [apply quiet_release |]. intros t released Ht _. destruct released; cycle 1.
  { nstep. intros t0 t3 b Ht0 Ht3. cbn [fst snd app]. rewrite app_nil_r.
    replace (if b then _ else _) with DDS_RETCODE_ERROR by (by destruct b).
    apply detached_counted. auto using cursors_app. }
  nstep. nstep. eapply spec_mono; [by apply (detach_rest_spec delete_request out s) |].
  intros t2 r s' H t0 t3 b Ht0 Ht3.
  specialize (H (t0 ++ t1 ++ t) t3 b (ltac:(auto using cursors_app)) Ht3).
  cbn [app]. by rewrite <- !app_assoc in *.
Qed.

End counting.

(** A type two sessions have, or only one, that some client wants deleted and whose
    definition was unloaded already. *)
Definition example_type : D2S2_Resource :=
  {| res_kind := RESOURCEKIND_TYPE;
     res_id := {| id_kind := RESOURCEIDKIND_REF; id_value := IdValue_ref (Some ["F"%char]) |} |}.

Definition example_type_rec (count : Z) : NDDSA_ResourceRecord :=
  {| rr_ea := Some 901%Z;
     rr_resource := {| resource_base := example_type; native := NDDSA_RESOURCENATIVE_INITIALIZER;
       attached_count := count; resource_agent := None; resource_user_data := None; loaded := false;
       native_deleted := true; pending_delete := true |} |}.

Definition example_attached_type : NDDSA_AttachedResource (N := ndds_model) :=
  {| at_base := {| att_kind := RESOURCEKIND_TYPE; att_resource := res_id example_type;
                   att_client := 0; att_session := 0; att_id := 7 |};
     at_resource := Some 300%Z; at_session := Some 100%Z; at_user_data := None; read_req := None;
     last_sample_forwarded := SEQUENCENUMBER_DEFAULT;
     last_sample_returned := SEQUENCENUMBER_DEFAULT |}.

Definition example_type_state (count : Z) : Ndds :=
  put_attached 200%Z example_attached_type (put_resource 300%Z (example_type_rec count) sample_ndds).

Definition example_sid : NDDSA_StaticResourceId :=
  {| sid_base := res_id example_type; ref_buffer := ["F"%char] |}.

