(* ===== verification/NddsSessions.v ===== *)
(** * DDS agent: sessions

    Opening, resetting, closing and timing out the sessions of the clients, and the three
    functions that clean up behind them: [NDDSA_Agent_on_cleanup_sessions],
    [NDDSA_Agent_on_cleanup_reads] and [NDDSA_Agent_on_cleanup_resources] of [NddsAgent.c],
    and the operations on a session of [NddsAgentIntf.c].

    A session is disposed by a flag and a trigger; the thread of the wait set finalizes it and
    gives the semaphore its closer waits for.  A session that timed out is removed by that
    thread.

    The resources of a session are walked by the links of their nodes: the next one is
    looked up in the list as it is when a node is left, since a wait lets [others] change it.
    One fuel serves every loop: it is to be greater than the resources of a session, the
    received data it keeps, and the rows of either table. *)

From Stdlib Require Import ZArith Lia Ascii String.
From stdpp Require Import base tactics list gmap.
From S2P Require Import Prelude.
From S2P Require Import CString.
From S2P Require Import Infrastructure.
From S2P Require Import Interaction.
From S2P Require Import ServiceData.
From S2P Require Import NddsData.
From S2P Require Import AgentDb.
From S2P Require Import NddsResources.
From S2P Require Import NddsSamples.
From S2P Require Import NddsReaders.
From S2P Require Import NddsReads.
From S2P Require Import NddsFrames.
From S2P Require Import NddsDelete.
From S2P Require Import NddsAttach.

Local Open Scope nano_scope.

Section sessions.
Context {N : NddsApi} {C : ConnextCore}.

(** ** Updates *)

Definition with_flags (d t r : bool) (s : NDDSA_ClientSession) : NDDSA_ClientSession :=
  {| cs_key := cs_key s; cs_agent := cs_agent s; cs_intf := cs_intf s;
     cs_resources := cs_resources s; cs_timeout := cs_timeout s; cs_user_data := cs_user_data s;
     deleted := d; timedout := t; resetting := r; rcvd_data_pool := rcvd_data_pool s;
     sem_timeout := sem_timeout s; sem_cleanup := sem_cleanup s; ts_live := ts_live s |}.

Definition set_deleted (s : NDDSA_ClientSession) := with_flags true (timedout s) (resetting s) s.
Definition set_timedout (s : NDDSA_ClientSession) := with_flags (deleted s) true (resetting s) s.
Definition set_resetting (b : bool) (s : NDDSA_ClientSession) :=
  with_flags (deleted s) (timedout s) b s.

Definition with_sync (st sc : option Z) (live : bool) (s : NDDSA_ClientSession)
    : NDDSA_ClientSession :=
  {| cs_key := cs_key s; cs_agent := cs_agent s; cs_intf := cs_intf s;
     cs_resources := cs_resources s; cs_timeout := cs_timeout s; cs_user_data := cs_user_data s;
     deleted := deleted s; timedout := timedout s; resetting := resetting s;
     rcvd_data_pool := rcvd_data_pool s; sem_timeout := st; sem_cleanup := sc; ts_live := live |}.

Definition set_sem_timeout (p : option Z) (s : NDDSA_ClientSession) :=
  with_sync p (sem_cleanup s) (ts_live s) s.
Definition set_sem_cleanup (p : option Z) (s : NDDSA_ClientSession) :=
  with_sync (sem_timeout s) p (ts_live s) s.
Definition set_ts_live (b : bool) (s : NDDSA_ClientSession) :=
  with_sync (sem_timeout s) (sem_cleanup s) b s.

Definition set_cs_user_data (p : option Z) (s : NDDSA_ClientSession) : NDDSA_ClientSession :=
  {| cs_key := cs_key s; cs_agent := cs_agent s; cs_intf := cs_intf s;
     cs_resources := cs_resources s; cs_timeout := cs_timeout s; cs_user_data := p;
     deleted := deleted s; timedout := timedout s; resetting := resetting s;
     rcvd_data_pool := rcvd_data_pool s; sem_timeout := sem_timeout s;
     sem_cleanup := sem_cleanup s; ts_live := ts_live s |}.

Definition upd_cs (session_rec : Z) (f : NDDSA_ClientSession -> NDDSA_ClientSession) : ndds unit :=
  upd_session_rec session_rec (fun r => {| sr_session := f (sr_session r); sr_ea := sr_ea r |}).

(** ** Walks *)

(** The one after [p]; [None] when [p] is not there. *)
Fixpoint after (p : Z) (l : list Z) : option (option Z) :=
  match l with
  | [] => None
  | q :: l => if (q =? p)%Z then Some (head l) else after p l
  end.

Definition first_attached (session_rec : Z) : ndds (option Z) :=
  let* rec := session_rec_of session_rec in ret (head (cs_resources (sr_session rec))).

Definition next_attached (session_rec attached : Z) : ndds (option Z) :=
  let* rec := session_rec_of session_rec in
  reads (fun _ => after attached (cs_resources (sr_session rec))).

(** [body] answers whether the walk goes on. *)
Fixpoint walk (fuel : nat) (session_rec : Z) (body : Z -> ndds bool) (node : option Z) : ndds bool :=
  match fuel with
  | O => unfinished
  | S fuel =>
      match node with
      | None => ret true
      | Some attached =>
          let* next := next_attached session_rec attached in
          unless body attached then ret false else walk fuel session_rec body next
      end
  end.

Definition walk_resources (fuel : nat) (session_rec : Z) (body : Z -> ndds bool) : ndds bool :=
  let* node := first_attached session_rec in walk fuel session_rec body node.

(** ** Activity and time *)

Definition has_timeout (s : NDDSA_ClientSession) : bool :=
  negb (Duration_is_infinite (cs_timeout s)) && negb (Duration_is_zero (cs_timeout s)).

Definition ok_or_error (b : bool) : DDS_ReturnCode_t :=
  if b then DDS_RETCODE_OK else DDS_RETCODE_ERROR.

Definition NDDSA_Agent_on_session_activityI (session_rec : Z) : ndds DDS_ReturnCode_t :=
  let* rec := session_rec_of session_rec in
  let s := sr_session rec in
  if has_timeout s then
    let* posted := NDDSA_Agent_post_event (SessionTimeout session_rec (ts_live s))
                     (Duration_to_ntp_time (cs_timeout s)) in
    ret (ok_or_error posted)
  else ret DDS_RETCODE_OK.

Definition NDDSA_Agent_dispose_sessionEA (session_rec : Z) : ndds DDS_ReturnCode_t :=
  let* rec := session_rec_of session_rec in
  if deleted (sr_session rec) then ret DDS_RETCODE_OK else
  upd_cs session_rec set_deleted;;
  let* ag := the_nd_agent in
  let* rc := ncall (GuardTrigger (cond_cleanup_sessions ag) true) in
  ret (ok_or_error (dds_ok rc)).

(** The event of a timeout, with the two fields of its storage. *)
Definition NDDSA_Agent_on_session_timeout (session : Z) (live : bool) : ndds unit :=
  let* rec := session_rec_of session in
  if negb live then ncall (EventSemaphoreGive (sem_timeout (sr_session rec)));; ret tt else
  let src := cs_intf (sr_session rec) in
  let* l := lookup_active (cs_key (sr_session rec)) in
  match l with
  | (Some session_rec, true) =>
      upd_cs session_rec set_timedout;;
      let* rec := session_rec_of session_rec in
      ncall (OnSessionTimedOut src session_rec (cs_user_data (sr_session rec)));;
      let* _ := NDDSA_Agent_dispose_sessionEA session_rec in
      NDDSA_AgentDb_release_session;;
      ret tt
  | (session_rec, _) => release_session_rec session_rec
  end.
(** ** Finalizing a session *)

Definition reading (a : NDDSA_AttachedResource) : bool :=
  bool_decide (att_kind (at_base a) = RESOURCEKIND_DATAREADER) && bool_decide (is_Some (read_req a)).

(** The read of one resource, if it has one.  The record is not released when the read is not
    cancelled. *)
Definition finalize_read (others : Ndds -> Ndds) (src : option Z) (session_rec attached : Z)
    : ndds bool :=
  let* a := attached_of attached in
  if negb (reading a) then ret true else
  let* l := NDDSA_AgentDb_lookup_resource (att_resource (at_base a)) in
  match l with
  | (false, _) => ret false
  | (true, Some (Some resource_rec)) =>
      let* rr := resource_rec_of resource_rec in
      if native_deleted (rr_resource rr) then NDDSA_AgentDb_release_resource else
      let* rc := NDDSA_Agent_cancel_readEA others session_rec attached false resource_rec in
      if negb (dds_ok rc) then ret false else
      unless NDDSA_AgentDb_release_resource then ret false else
      let* rec := session_rec_of session_rec in
      let* a := attached_of attached in
      ncall (OnReadComplete src session_rec (cs_user_data (sr_session rec))
               (att_id (at_base a)) (at_user_data a));;
      ret true
  | (true, _) => ret true
  end.

(** A resource that is detached and announced as deleted. *)
Definition detach_announced (others : Ndds -> Ndds) (fuel : nat) (src : option Z)
    (session_rec attached : Z) (delete_request : bool) (request : option Z)
    : ndds (bool * D2S2_ResourceId) :=
  let* a := attached_of attached in
  let resource_id := att_id (at_base a) in
  let* d := NDDSA_Agent_detach_resourceEA others fuel src session_rec attached delete_request
              (Some DETACHED_INITIALIZER) in
  let out := default DETACHED_INITIALIZER (snd d) in
  if negb (dds_ok (fst d)) then ret (false, det_id out) else
  let* rec := session_rec_of session_rec in
  ncall (OnResourceDeleted src session_rec (cs_user_data (sr_session rec)) (det_kind out)
           (det_id out) resource_id (det_data out) request);;
  ret (true, det_id out).

(** The identifier is freed unless the resource was not detached. *)
Definition finalize_attached (others : Ndds -> Ndds) (fuel : nat) (src : option Z)
    (session_rec attached : Z) : ndds bool :=
  let* d := detach_announced others fuel src session_rec attached false None in
  if fst d then free_string (fst (D2S2_ResourceId_finalize (snd d)));; ret true else ret false.

(** The received data the session keeps. *)
Fixpoint drain_loop (fuel : nat) (session_rec : Z) : ndds unit :=
  match fuel with
  | O => unfinished
  | S fuel =>
      let* rec := session_rec_of session_rec in
      match rcvd_data_pool (sr_session rec) with
      | [] => ret tt
      | rcvd_data :: pool =>
          modify (put_session session_rec (set_rcvd_pool pool rec));;
          let* d := rcvd_of rcvd_data in
          ncall (BufferFree (data_addr (rcvd_buffer d)));;
          let* ag := the_nd_agent in
          ncall (SamplePoolReturn (pool_samples ag) rcvd_data);;
          drain_loop fuel session_rec
      end
  end.

(** The event of the timeout is cancelled by another, and waited for. *)
Definition finalize_timeout (others : Ndds -> Ndds) (session_rec : Z) : ndds bool :=
  let* rec := session_rec_of session_rec in
  if has_timeout (sr_session rec) && negb (timedout (sr_session rec)) then
    upd_cs session_rec (set_ts_live false);;
    unless NDDSA_Agent_post_event (SessionTimeout session_rec false) NTP_TIME_ZERO
    then ret false else
    NDDSA_Agent_wait_for_semaphoreEA others true session_rec false None (sem_timeout (sr_session rec))
  else ret true.

Definition NDDSA_Agent_finalize_sessionEA (others : Ndds -> Ndds) (fuel : nat) (src : option Z)
    (session_rec : Z) : ndds DDS_ReturnCode_t :=
  let* rec := session_rec_of session_rec in
  if negb (deleted (sr_session rec)) then ret DDS_RETCODE_ERROR else
  unless walk_resources fuel session_rec (finalize_read others src session_rec)
  then ret DDS_RETCODE_ERROR else
  unless walk_resources fuel session_rec (finalize_attached others fuel src session_rec)
  then ret DDS_RETCODE_ERROR else
  drain_loop fuel session_rec;;
  unless finalize_timeout others session_rec then ret DDS_RETCODE_ERROR else
  let* rec := session_rec_of session_rec in
  ncall (EventSemaphoreDelete (sem_timeout (sr_session rec)));;
  ret DDS_RETCODE_OK.

(** ** Cleaning up *)

Definition NDDSA_Agent_find_next_disposed_session (session_rec : Z) : ndds bool :=
  let* rec := session_rec_of session_rec in ret (deleted (sr_session rec)).

(** Whether the walk of the table goes on, and whether the record is still held. *)
Definition cleanup_session (others : Ndds -> Ndds) (fuel : nat) (session_rec : Z)
    : ndds (bool * bool) :=
  let* rec := session_rec_of session_rec in
  let s := sr_session rec in
  let* rc := NDDSA_Agent_finalize_sessionEA others fuel (cs_intf s) session_rec in
  if negb (dds_ok rc) then ret (false, true) else
  let* rec := session_rec_of session_rec in
  if timedout (sr_session rec) then
    ncall (EventSemaphoreDelete (sem_cleanup (sr_session rec)));;
    upd_cs session_rec (set_sem_cleanup None);;
    unless NDDSA_AgentDb_release_sessionEA then ret (false, false) else
    unless NDDSA_AgentDb_delete_sessionEA (cs_key s) then ret (false, false) else
    ncall (OnSessionClosed (cs_intf s) (cs_key s) (cs_user_data s));;
    ret (true, false)
  else
    ncall (EventSemaphoreGive (sem_cleanup (sr_session rec)));;
    unless NDDSA_AgentDb_release_sessionEA then ret (false, false) else
    ret (true, false).

(** The record that is held in the end. *)
Fixpoint cleanup_sessions_loop (others : Ndds -> Ndds) (fuel rows : nat) (session_rec : option Z)
    : ndds (option Z) :=
  match rows with
  | O => unfinished
  | S rows =>
      match session_rec with
      | None => ret None
      | Some r =>
          let* c := cleanup_session others fuel r in
          if fst c then
            let? next := NDDSA_AgentDb_find_next_session fuel
                           (Some NDDSA_Agent_find_next_disposed_session) None else ret None in
            cleanup_sessions_loop others fuel rows next
          else ret (if snd c then Some r else None)
      end
  end.

(** The label [done] of the two functions that lock the sessions. *)
Definition cleanup_done (held : option Z) : ndds unit :=
  (match held with
   | Some _ => NDDSA_AgentDb_release_sessionEA;; ret tt
   | None => ret tt
   end);;
  NDDSA_AgentDb_unlock_sessions true;;
  ret tt.

Definition NDDSA_Agent_on_cleanup_sessions (others : Ndds -> Ndds) (fuel : nat) : ndds unit :=
  unless NDDSA_AgentDb_lock_sessions true true then ret tt else
  let* ag := the_nd_agent in
  let* rc := ncall (GuardTrigger (cond_cleanup_sessions ag) false) in
  if negb (dds_ok rc) then cleanup_done None else
  let* first := NDDSA_AgentDb_find_next_session fuel
                  (Some NDDSA_Agent_find_next_disposed_session) None in
  let* held := cleanup_sessions_loop others fuel fuel (default None first) in
  cleanup_done held.

Fixpoint completed_read_loop (resources : list Z) : ndds bool :=
  match resources with
  | [] => ret false
  | attached :: resources =>
      let* a := attached_of attached in
      match read_req a with
      | None => completed_read_loop resources
      | Some read =>
          let* r := read_of read in
          if NDDSA_Read_check_status READSTATUS_COMPLETE r then ret true
          else completed_read_loop resources
      end
  end.

Definition NDDSA_Agent_find_next_session_w_completed_read (session_rec : Z) : ndds bool :=
  let* rec := session_rec_of session_rec in
  completed_read_loop (cs_resources (sr_session rec)).

(** A completed read is cancelled, or, while the service still has samples of it, the service
    is asked to give them back: it calls the agent meanwhile, and [others] is what this and
    other threads do to the memory. *)
Definition cleanup_read (others : Ndds -> Ndds) (session_rec attached : Z) : ndds bool :=
  let* a := attached_of attached in
  match read_req a with
  | None => ret true
  | Some read =>
      let* r := read_of read in
      if negb (NDDSA_Read_check_status READSTATUS_COMPLETE r) then ret true
      else if NDDSA_Read_has_pending_samples r then
        let* rec := session_rec_of session_rec in
        ncall (OnReleaseReadSamples (cs_intf (sr_session rec)) session_rec
                 (cs_user_data (sr_session rec)) (att_id (at_base a)) (at_user_data a));;
        modify others;;
        ret true
      else
        let* l := NDDSA_AgentDb_lookup_resource (att_resource (at_base a)) in
        match l with
        | (true, Some (Some resource_rec)) =>
            let* rc := NDDSA_Agent_cancel_readEA others session_rec attached false resource_rec in
            let* released := NDDSA_AgentDb_release_resource in
            ret (dds_ok rc && released)
        | _ => ret false
        end
  end.

Fixpoint cleanup_reads_loop (others : Ndds -> Ndds) (fuel rows : nat) (session_rec : option Z)
    : ndds unit :=
  match rows with
  | O => unfinished
  | S rows =>
      match session_rec with
      | None => NDDSA_AgentDb_finish_iterate_sessions;; ret tt
      | Some r =>
          let failed := (NDDSA_AgentDb_release_session;; ret tt) in
          unless walk_resources fuel r (cleanup_read others r) then failed else
          let? next := NDDSA_AgentDb_find_next_session fuel
                         (Some NDDSA_Agent_find_next_session_w_completed_read) (Some r)
            else failed in
          cleanup_reads_loop others fuel rows next
      end
  end.

Definition NDDSA_Agent_on_cleanup_reads (others : Ndds -> Ndds) (fuel : nat) : ndds unit :=
  let* ag := the_nd_agent in
  let* rc := ncall (GuardTrigger (cond_cleanup_reads ag) false) in
  if negb (dds_ok rc) then ret tt else
  unless NDDSA_AgentDb_iterate_sessions then ret tt else
  let? first := NDDSA_AgentDb_find_next_session fuel
                  (Some NDDSA_Agent_find_next_session_w_completed_read) None else ret tt in
  cleanup_reads_loop others fuel fuel first.

(** A resource whose entity was deleted, or that is to be deleted, is detached.  The identifier
    that is returned is never freed. *)
Definition cleanup_resource (others : Ndds -> Ndds) (fuel : nat) (session_rec attached : Z)
    : ndds bool :=
  let* a := attached_of attached in
  let* l := NDDSA_AgentDb_lookup_resource (att_resource (at_base a)) in
  match l with
  | (true, Some (Some resource_rec)) =>
      let* rr := resource_rec_of resource_rec in
      let res := rr_resource rr in
      let delete_resource :=
        native_deleted res || (pending_delete res && (attached_count res =? 0)%Z) in
      unless NDDSA_AgentDb_release_resource then ret false else
      if delete_resource then
        let* rec := session_rec_of session_rec in
        let* d := detach_announced others fuel (cs_intf (sr_session rec)) session_rec attached
                    true None in
        ret (fst d)
      else ret true
  | _ => ret false
  end.

(** The record that is held in the end. *)
Fixpoint cleanup_resources_loop (others : Ndds -> Ndds) (fuel rows : nat) (session_rec : option Z)
    : ndds (option Z) :=
  match rows with
  | O => unfinished
  | S rows =>
      match session_rec with
      | None => ret None
      | Some r =>
          unless walk_resources fuel r (cleanup_resource others fuel r) then ret (Some r) else
          let* rc := NDDSA_Agent_attach_all_resources_to_sessionEA others fuel r in
          if negb (dds_ok rc) then ret (Some r) else
          let? next := NDDSA_AgentDb_find_next_session fuel None (Some r) else ret None in
          cleanup_resources_loop others fuel rows next
      end
  end.

Definition NDDSA_Agent_on_cleanup_resources (others : Ndds -> Ndds) (fuel : nat) : ndds unit :=
  let* ag := the_nd_agent in
  let* rc := ncall (GuardTrigger (cond_cleanup_resources ag) false) in
  if negb (dds_ok rc) then ret tt else
  unless NDDSA_AgentDb_lock_sessions true true then ret tt else
  let* first := NDDSA_AgentDb_find_next_session fuel None None in
  let* held := cleanup_resources_loop others fuel fuel (default None first) in
  cleanup_done held.
(** ** Opening *)

Definition reset_read (others : Ndds -> Ndds) (session_rec attached : Z) : ndds bool :=
  let* a := attached_of attached in
  match read_req a with
  | None => ret true
  | Some _ => let* rc := NDDSA_Agent_cancel_readI others session_rec attached in ret (dds_ok rc)
  end.

(** A session that exists is reset.  [resetting] stays set when anything fails. *)
Definition reset_session (others : Ndds -> Ndds) (fuel : nat) (src : option Z)
    (session_data : option Z) (session_rec : Z) : ndds bool :=
  let* rec := session_rec_of session_rec in
  if negb (NDDSA_ClientSession_active (sr_session rec)) then ret false else
  upd_cs session_rec (set_resetting true);;
  if negb (bool_decide (cs_intf (sr_session rec) = src)) then ret false else
  upd_cs session_rec (set_resetting true);;
  let* r := ncall (OnSessionReset src session_rec (cs_user_data (sr_session rec)) session_data) in
  if negb (dds_ok (fst r)) then ret false else
  (match snd r with
   | Some new_session_data => upd_cs session_rec (set_cs_user_data (Some new_session_data))
   | None => ret tt
   end);;
  unless walk_resources fuel session_rec (reset_read others session_rec) then ret false else
  upd_cs session_rec (set_resetting false);;
  ret true.

(** The fields of a new session.  [timedout] and [resetting] are as they were. *)
Definition opened_session (self : Z) (src : option Z) (key : D2S2_ClientSessionKey)
    (timeout : Duration) (session_data : option Z) (s : NDDSA_ClientSession)
    : NDDSA_ClientSession :=
  {| cs_key := key; cs_agent := Some self; cs_intf := src; cs_resources := cs_resources s;
     cs_timeout := timeout; cs_user_data := session_data; deleted := false;
     timedout := timedout s; resetting := resetting s; rcvd_data_pool := rcvd_data_pool s;
     sem_timeout := sem_timeout s; sem_cleanup := sem_cleanup s; ts_live := true |}.

Definition start_session (others : Ndds -> Ndds) (fuel : nat) (self : Z) (src : option Z)
    (key : D2S2_ClientSessionKey) (timeout : Duration) (session_data : option Z)
    (session_rec : Z) : ndds bool :=
  upd_cs session_rec (opened_session self src key timeout session_data);;
  let* sem := ncall EventSemaphoreNew in
  upd_cs session_rec (set_sem_timeout sem);;
  if bool_decide (sem = None) then ret false else
  let* sem := ncall EventSemaphoreNew in
  upd_cs session_rec (set_sem_cleanup sem);;
  if bool_decide (sem = None) then ret false else
  let* rc := NDDSA_Agent_attach_all_resources_to_sessionEA others fuel session_rec in
  if negb (dds_ok rc) then ret false else
  let* rec := session_rec_of session_rec in
  let* rc := ncall (OnSessionOpened src session_rec (cs_user_data (sr_session rec))) in
  ret (dds_ok rc).

(** [user_properties] is the timeout, when there are any. *)
Definition NDDSA_Agent_open_session (others : Ndds -> Ndds) (fuel : nat) (self : Z)
    (src : option Z) (session_key : D2S2_ClientSessionKey) (user_properties : option Duration)
    (session_data : option Z) : ndds DDS_ReturnCode_t :=
  let properties := default DURATION_INFINITE user_properties in
  let* i := NDDSA_AgentDb_insert_session session_key in
  match i with
  | (None, _) => ret DDS_RETCODE_ERROR
  | (Some record, new_session) =>
      let* session_rec := not_null record in
      let* ok := (if (new_session : bool)
                  then start_session others fuel self src session_key properties session_data session_rec
                  else reset_session others fuel src session_data session_rec) in
      if negb ok && new_session then NDDSA_AgentDb_delete_session;; ret DDS_RETCODE_ERROR else
      let* rc := (if ok then NDDSA_Agent_on_session_activityI session_rec
                  else ret DDS_RETCODE_ERROR) in
      let* released := NDDSA_AgentDb_release_session in
      ret (ok_or_error (dds_ok rc && released))
  end.

(** ** Closing *)

(** What the label [done] does: a failure makes the answer OK. *)
Definition close_done (rc : DDS_ReturnCode_t) (held locked : bool) : ndds DDS_ReturnCode_t :=
  let* released := if held then NDDSA_AgentDb_release_sessionEA else ret true in
  let* unlocked := if locked then NDDSA_AgentDb_unlock_sessions true else ret true in
  ret (if released && unlocked then rc else DDS_RETCODE_OK).

(** The session is disposed, and waited for; then its record is removed. *)
Definition close_locked (others : Ndds -> Ndds) (src : option Z)
    (session_key : D2S2_ClientSessionKey) (session_rec : Z) : ndds DDS_ReturnCode_t :=
  let* rc := NDDSA_Agent_dispose_sessionEA session_rec in
  if negb (dds_ok rc) then close_done DDS_RETCODE_ERROR true true else
  let* rec := session_rec_of session_rec in
  unless NDDSA_Agent_wait_for_semaphoreEA others true session_rec false None
           (sem_cleanup (sr_session rec))
  then close_done DDS_RETCODE_ERROR true true else
  let* rec := session_rec_of session_rec in
  ncall (EventSemaphoreDelete (sem_cleanup (sr_session rec)));;
  upd_cs session_rec (set_sem_cleanup None);;
  let session_data := cs_user_data (sr_session rec) in
  unless NDDSA_AgentDb_release_sessionEA then close_done DDS_RETCODE_ERROR false true else
  unless NDDSA_AgentDb_delete_sessionEA session_key then close_done DDS_RETCODE_ERROR false true else
  unless NDDSA_AgentDb_unlock_sessions true then close_done DDS_RETCODE_ERROR false false else
  ncall (OnSessionClosed src session_key session_data);;
  close_done DDS_RETCODE_OK false false.

Definition NDDSA_Agent_close_session (others : Ndds -> Ndds) (src : option Z)
    (session_key : D2S2_ClientSessionKey) : ndds DDS_ReturnCode_t :=
  unless NDDSA_AgentDb_lock_sessions true false then ret DDS_RETCODE_ERROR else
  let* l := NDDSA_AgentDb_lookup_sessionEA session_key in
  match l with
  | (true, Some session_rec) =>
      let* rec := session_rec_of session_rec in
      if NDDSA_ClientSession_active (sr_session rec)
         && bool_decide (cs_intf (sr_session rec) = src)
      then close_locked others src session_key session_rec
      else close_done DDS_RETCODE_ERROR true true
  | _ => close_done DDS_RETCODE_ERROR false true
  end.

(** ** Messages and resources *)

(** [on_message_received] is the callback of the service, with the session and the message: it
    answers whether the session is to be disposed.  A failure to release the record is not
    reported, and a session that is unknown is none. *)
Definition NDDSA_Agent_receive_message (others : Ndds -> Ndds) (src : option Z)
    (on_message_received : Z -> ndds bool) (session_key : D2S2_ClientSessionKey)
    : ndds DDS_ReturnCode_t :=
  let* l := NDDSA_AgentDb_lookup_session session_key in
  match l with
  | None => ret DDS_RETCODE_ERROR
  | Some None => ret DDS_RETCODE_OK
  | Some (Some session_rec) =>
      let failed := (NDDSA_AgentDb_release_session;; ret DDS_RETCODE_ERROR) in
      let* rec := session_rec_of session_rec in
      if negb (NDDSA_ClientSession_active (sr_session rec)) then failed else
      if negb (bool_decide (cs_intf (sr_session rec) = src)) then failed else
      let* rc := NDDSA_Agent_on_session_activityI session_rec in
      if negb (dds_ok rc) then failed else
      let* dispose := on_message_received session_rec in
      let* released := NDDSA_AgentDb_release_session in
      if (dispose : bool) then
        if (released : bool) then
          let* rc := NDDSA_Agent_close_session others src session_key in
          ret (ok_or_error (dds_ok rc))
        else ret DDS_RETCODE_ERROR
      else ret DDS_RETCODE_OK
  end.

(** The record of the session is the caller's, and is released too. *)
Definition NDDSA_Agent_delete_resource (others : Ndds -> Ndds) (fuel : nat) (src : option Z)
    (session_rec resource_id : Z) (request : option Z) : ndds DDS_ReturnCode_t :=
  let* found := NDDSA_ClientSession_find_attached_resource session_rec resource_id in
  match found with
  | None => ret DDS_RETCODE_OK
  | Some attached =>
      let* a := attached_of attached in
      let* cancelled :=
        if reading a then
          let* rc := NDDSA_Agent_cancel_readI others session_rec attached in
          if negb (dds_ok rc) then ret false else
          let* rec := session_rec_of session_rec in
          let* a := attached_of attached in
          ncall (OnReadComplete src session_rec (cs_user_data (sr_session rec)) resource_id
                   (at_user_data a));;
          ret true
        else ret true in
      if negb cancelled then ret DDS_RETCODE_ERROR else
      let* d := detach_announced others fuel src session_rec attached true request in
      let* released := if fst d then NDDSA_AgentDb_release_session else ret false in
      free_string (fst (D2S2_ResourceId_finalize (snd d)));;
      ret (ok_or_error released)
  end.
End sessions.

(** ** A session that is not active *)

Section stuck.
Context {N : NddsApi} {C : ConnextCore}.
Context (rp : Z).

(** The database has the session, and finds no other record. *)
Definition known_session (e : nevent) : Prop :=
  finds rp e /\
  match e with
  | existT c r =>
      match c return NResp c -> Prop with
      | CursorGotoKeyEqual _ (SessionKey _) => fun r => r = true
      | _ => fun _ => True
      end r
  end.

Lemma quiet_weaken {A} (E E' : nevent -> Prop) (m : ndds A) s P :
  (forall e, E' e -> E e) -> quiet E m s P -> quiet E' m s P.
Proof. apply spec_strengthen. Qed.

Lemma quiet_mono {A} E (m : ndds A) s (P P' : A -> Prop) :
  (forall r, P r -> P' r) -> quiet E m s P -> quiet E m s P'.
Proof. intros H Hm. eapply spec_mono; [exact Hm |]. intros t a s' (? & ? & ?). auto. Qed.

Lemma quiet_ret {A} E (a : A) s (P : A -> Prop) : P a -> quiet E (ret a) s P.
Proof. intros H. apply spec_ret. split_and!; [apply only_nil | done | done]. Qed.

Lemma quiet_reads {A B} E (f : Ndds -> option A) a s (k : A -> ndds B) P :
  f s = Some a -> quiet E (k a) s P -> quiet E (bind (reads f) k) s P.
Proof. intros Ha Hk. apply spec_bind. by eapply spec_reads. Qed.

(** A sequence of two. *)
Lemma quiet_seq {A B} E (m : ndds A) (f : A -> ndds B) s P Q :
  quiet E m s P -> (forall a, P a -> quiet E (f a) s Q) -> quiet E (bind m f) s Q.
Proof.
  intros Hm Hf. eapply quiet_bind; [exact Hm |]. intros t a Ht Ha.
  eapply spec_mono; [by apply Hf |]. intros t' b s' (Ht' & -> & Hb).
  split_and!; [by apply only_app | done | done].
Qed.

(** The record of a session is not had: its table is not locked, or refuses. *)
Definition session_refused (e : nevent) : Prop :=
  record_refused e
  \/ match e with
     | existT c r =>
         match c return NResp c -> Prop with
         | CursorLockTable _ => fun r => r = false
         | _ => fun _ => False
         end r
     end.

Lemma insert_finds key s :
  spec known_session (NDDSA_AgentDb_insert_session key) s (fun t r s' =>
    cursors_only t /\ s' = s /\ snd r = false
    /\ (fst r = None /\ List.Exists session_refused t \/ fst r = Some (Some rp))).
Proof.
  unfold NDDSA_AgentDb_insert_session, NDDSA_AgentDb_assert_record, started_cursor,
    NDDSA_AgentDb_get_worker, assert_return, assert_failed, finish_safe.
  repeat nstep.
  all: repeat match goal with H : known_session _ |- _ => destruct H as [? ?] end.
  all: try (cbn in *; discriminate).
  all: split_and!; [by repeat constructor | done | done |].
  all: cbn in *; rewrite ?List.Exists_cons; unfold session_refused, record_refused; cbn; naive_solver.
Qed.

Lemma quiet_insert key s :
  quiet known_session (NDDSA_AgentDb_insert_session key) s
    (fun r => snd r = false /\ (fst r = None \/ fst r = Some (Some rp))).
Proof.
  eapply spec_mono; [apply insert_finds |]. intros t r s' (Ht & -> & Hn & Hr).
  split_and!; [done.. |]. naive_solver.
Qed.

(** The operations on a session, with the interface they come from. *)
Inductive SessionCall :=
  | CallOpen (self : Z) (key : D2S2_ClientSessionKey) (properties : option Duration)
      (session_data : option Z)
  | CallClose (key : D2S2_ClientSessionKey)
  | CallReceive (key : D2S2_ClientSessionKey) (on_message_received : Z -> ndds bool)
  | CallTimeout.

(** [true] is the answer OK. *)
Definition session_call (others : Ndds -> Ndds) (fuel : nat) (src : option Z) (c : SessionCall)
    : ndds unit :=
  match c with
  | CallOpen self key properties session_data =>
      NDDSA_Agent_open_session others fuel self src key properties session_data;; ret tt
  | CallClose key => NDDSA_Agent_close_session others src key;; ret tt
  | CallReceive key on_message_received =>
      NDDSA_Agent_receive_message others src on_message_received key;; ret tt
  | CallTimeout => NDDSA_Agent_on_session_timeout rp true
  end.

Section inactive.
Context (others : Ndds -> Ndds) (fuel : nat) (src : option Z) (s : Ndds).
Context (rec : NDDSA_ClientSessionRecord).
Hypothesis Hrec : session_at s !! rp = Some rec.
Hypothesis Hinactive : NDDSA_ClientSession_active (sr_session rec) = false.

Lemma quiet_release_session E : quiet E NDDSA_AgentDb_release_session s (fun _ => True).
Proof. apply quiet_release_record. Qed.

Lemma quiet_inactive_open self key props data :
  quiet known_session (NDDSA_Agent_open_session others fuel self src key props data) s
    (fun rc => rc = DDS_RETCODE_ERROR).
Proof.
  unfold NDDSA_Agent_open_session. eapply quiet_seq; [apply quiet_insert |].
  intros [r new] [Hn Hr]. cbn in Hn, Hr. subst new.
  destruct Hr as [-> | ->]; [by apply quiet_ret |].
  eapply quiet_reads; [done |]. unfold reset_session.
  eapply (quiet_seq _ _ _ _ (fun ok => ok = false)).
  { eapply quiet_reads; [exact Hrec |]. rewrite Hinactive. by apply quiet_ret. }
  intros ok ->. cbn [negb andb].
  eapply (quiet_seq _ _ _ _ (eq DDS_RETCODE_ERROR)); [by apply quiet_ret |]. intros rc <-.
  eapply quiet_seq; [apply quiet_release_session |]. intros b _. by apply quiet_ret.
Qed.

Lemma quiet_close_done E rc held locked :
  quiet E (close_done rc held locked) s (fun _ => True).
Proof.
  unfold close_done.
  eapply (quiet_seq _ _ _ _ (fun _ => True));
    [destruct held; [apply quiet_release | by apply quiet_ret] |]. intros b _.
  eapply (quiet_seq _ _ _ _ (fun _ => True));
    [destruct locked; [apply quiet_unlock | by apply quiet_ret] |]. intros b' _.
  by apply quiet_ret.
Qed.

Lemma quiet_inactive_close key :
  quiet known_session (NDDSA_Agent_close_session others src key) s (fun _ => True).
Proof.
  unfold NDDSA_Agent_close_session. eapply quiet_seq; [apply quiet_lock |].
  intros [|] _; [| by apply quiet_ret].
  eapply quiet_seq.
  { eapply quiet_weaken; [| apply quiet_lookup]. by intros e [H _]. }
  intros [[|] [p|]] Hp; try apply quiet_close_done.
  specialize (Hp p eq_refl) as [= ->]. eapply quiet_reads; [exact Hrec |].
  rewrite Hinactive. apply quiet_close_done.
Qed.

Lemma quiet_known_lookup key :
  quiet known_session (NDDSA_AgentDb_lookup_session key) s
    (fun r => forall p, r = Some (Some p) -> p = rp).
Proof. eapply quiet_weaken; [| apply quiet_lookup_session]. by intros e [H _]. Qed.

Lemma quiet_inactive_receive key on_message_received :
  quiet known_session (NDDSA_Agent_receive_message others src on_message_received key) s
    (fun _ => True).
Proof.
  unfold NDDSA_Agent_receive_message. eapply quiet_seq; [apply quiet_known_lookup |].
  intros [[p|]|] Hp; [| by apply quiet_ret ..]. rewrite (Hp p eq_refl).
  eapply quiet_reads; [exact Hrec |]. rewrite Hinactive. cbn [negb].
  eapply quiet_seq; [apply quiet_release_session |]. intros b _. by apply quiet_ret.
Qed.

Lemma quiet_inactive_timeout :
  quiet known_session (NDDSA_Agent_on_session_timeout rp true) s (fun _ => True).
Proof.
  unfold NDDSA_Agent_on_session_timeout. eapply quiet_reads; [exact Hrec |]. cbn [negb].
  eapply (quiet_seq _ _ _ _ (fun l => snd l = false)).
  { unfold lookup_active. eapply quiet_seq; [apply quiet_known_lookup |].
    intros [[p|]|] Hp; [| by apply quiet_ret ..]. rewrite (Hp p eq_refl).
    eapply quiet_reads; [exact Hrec |]. rewrite Hinactive. by apply quiet_ret. }
  intros [[p|] []] H; try done; unfold release_session_rec.
  - eapply quiet_seq; [apply quiet_release_session |]. intros b _. by apply quiet_ret.
  - by apply quiet_ret.
Qed.

(** Whatever is asked of an inactive session, the agent tells nobody and changes nothing. *)
Lemma quiet_inactive c :
  quiet known_session (session_call others fuel src c) s (fun _ => True).
Proof.
  destruct c; cbn [session_call]; [| | | apply quiet_inactive_timeout];
    (eapply quiet_seq; [first [apply quiet_inactive_open | apply quiet_inactive_close
       | apply quiet_inactive_receive] | intros; by apply quiet_ret]).
Qed.
End inactive.

(** The service refuses to reset a session. *)
Definition reset_refused (e : nevent) : Prop :=
  known_session e /\
  match e with
  | existT c r =>
      match c return NResp c -> Prop with
      | OnSessionReset _ _ _ _ => fun r => fst r <> DDS_RETCODE_OK
      | _ => fun _ => True
      end r
  end.

Definition cursor_or_reset (c : NCall) : bool :=
  match c with OnSessionReset _ _ _ _ => true | _ => cursor_call c end.

Definition resetting_rec (rec : NDDSA_ClientSessionRecord) : NDDSA_ClientSessionRecord :=
  {| sr_session := set_resetting true (sr_session rec); sr_ea := sr_ea rec |}.

Lemma resetting_inactive rec : NDDSA_ClientSession_active (sr_session (resetting_rec rec)) = false.
Proof.
  unfold NDDSA_ClientSession_active. cbn. by rewrite !orb_true_r.
Qed.

Lemma spec_upd_cs E p f s rec (Q : list nevent -> unit -> Ndds -> Prop) :
  session_at s !! p = Some rec ->
  Q [] tt (put_session p {| sr_session := f (sr_session rec); sr_ea := sr_ea rec |} s) ->
  spec E (upd_cs p f) s Q.
Proof.
  intros Hrec HQ. unfold upd_cs, upd_session_rec. nstep. eapply spec_reads; [exact Hrec |].
  by nstep.
Qed.

Lemma session_at_put p r s : session_at (put_session p r s) !! p = Some r.
Proof. apply lookup_insert_eq. Qed.

Lemma put_session_twice p r r' s : put_session p r (put_session p r' s) = put_session p r s.
Proof. unfold put_session; cbn. by rewrite insert_insert_eq. Qed.

Lemma refused_reset_spec others fuel src data s rec :
  session_at s !! rp = Some rec -> NDDSA_ClientSession_active (sr_session rec) = true ->
  spec reset_refused (reset_session others fuel src data rp) s (fun t ok s' =>
    ok = false /\ only cursor_or_reset t /\ s' = put_session rp (resetting_rec rec) s
    /\ (cs_intf (sr_session rec) <> src -> cursors_only t)).
Proof.
  intros Hrec Hact. unfold reset_session.
  nstep. eapply spec_reads; [exact Hrec |]. rewrite Hact. cbn [negb].
  nstep. eapply spec_upd_cs; [exact Hrec |].
  case_bool_decide as Hsrc; cbn [negb]; cycle 1.
  { nstep. split_and!; [done | apply only_nil | done |]. intros _. apply only_nil. }
  nstep. eapply spec_upd_cs; [apply session_at_put |]. rewrite put_session_twice.
  nstep. nstep. destruct H as [_ Hno]. cbn in Hno. destruct r as [rc o]. cbn [fst] in *.
  destruct rc; [done | ..]; cbn [dds_ok negb]; nstep; split_and!; try done; by repeat constructor.
Qed.

(** C32: A session whose reset is refused, because the request comes from another interface or
    because the service refuses it, is marked as resetting and stays so, and nothing else changes,
    unless its record is not had.  From
    then on it is refused everything, by any interface and forever: opening and closing it, its
    messages and its timeout only look the record up. *)
Theorem refused_reset_is_forever others fuel self src key properties data s rec :
  session_at s !! rp = Some rec -> NDDSA_ClientSession_active (sr_session rec) = true ->
  spec reset_refused
    (NDDSA_Agent_open_session others fuel self src key properties data) s (fun t rc s' =>
    rc = DDS_RETCODE_ERROR /\ only cursor_or_reset t
    /\ (cs_intf (sr_session rec) <> src -> cursors_only t)
    /\ (s' = s /\ List.Exists session_refused t
        \/ s' = put_session rp (resetting_rec rec) s
          /\ forall others fuel src c,
               quiet known_session (session_call others fuel src c) s' (fun _ => True))).
Proof.
  intros Hrec Hact. unfold NDDSA_Agent_open_session. apply spec_bind.
  eapply spec_mono; [eapply spec_strengthen; [| apply insert_finds]; by intros e [H _] |].
  intros t [r new] s0 (Ht & -> & Hn & Hr). cbn in Hn, Hr. subst new.
  assert (Hweak : forall t, cursors_only t -> only cursor_or_reset t)
    by (intros ?; apply only_weaken; by intros []).
  destruct Hr as [[-> Href] | ->].
  { nstep. rewrite app_nil_r. split_and!; auto. }
  nstep. eapply spec_reads; [done |]. nstep.
  eapply spec_mono; [by apply refused_reset_spec |].
  intros t1 ok s1 (-> & Ht1 & -> & Hsrc). cbn [negb andb]. nstep. nstep.
  eapply quiet_bind; [apply quiet_release_session |]. intros t2 b Ht2 _. nstep.
  rewrite app_nil_r. cbn [app]. split_and!; [done | | | right; split; [done |]].
  - auto using only_app.
  - intros Hne. unfold cursors_only in *. auto using only_app.
  - intros. eapply quiet_inactive; [apply session_at_put | apply resetting_inactive].
Qed.
End stuck.

Lemma refused_reset_is_forever_witness :
  spec (reset_refused 100%Z)
    (NDDSA_Agent_open_session (fun s => s) 3 1%Z (Some 50%Z) D2S2_CLIENTSESSIONKEY_INITIALIZER None None)
    sample_ndds (fun t rc s' =>
      rc = DDS_RETCODE_ERROR /\ only cursor_or_reset t
      /\ (cs_intf (sr_session sample_session) <> Some 50%Z -> cursors_only t)
      /\ (s' = sample_ndds /\ List.Exists session_refused t
          \/ s' = put_session 100%Z (resetting_rec sample_session) sample_ndds
          /\ forall others fuel src c,
               quiet (known_session 100%Z) (session_call 100%Z others fuel src c) s' (fun _ => True)))
  /\ cs_intf (sr_session sample_session) <> Some 50%Z.
Proof.
  split; [| discriminate].
  apply (refused_reset_is_forever 100%Z (fun s => s) 3 1%Z (Some 50%Z)
    D2S2_CLIENTSESSIONKEY_INITIALIZER None None sample_ndds sample_session); reflexivity.
Defined.

(** ** A session that lists a resource it no longer has *)

Section stale.
Context {N : NddsApi} {C : ConnextCore}.
Context (rp : Z).

(** No resource has the identifier that names nothing. *)
Definition unnamed_unknown (e : nevent) : Prop :=
  finds rp e /\
  match e with
  | existT c r =>
      match c return NResp c -> Prop with
      | CursorGotoKeyEqual _ (ResourceKey sid) =>
          fun r => id_kind (sid_base sid) = RESOURCEIDKIND_NONE -> r = false
      | _ => fun _ => True
      end r
  end.

Lemma quiet_lookup_unnamed s :
  quiet unnamed_unknown (NDDSA_AgentDb_lookup_resourceEA D2S2_RESOURCEID_INITIALIZER) s
    (fun r => snd r = None).
Proof.
  unfold quiet, NDDSA_AgentDb_lookup_resourceEA, with_static_id, lookup_at, worker_cursor,
    NDDSA_AgentDb_get_worker.
  nstep. eapply spec_reads; [reflexivity |]. cbn [fst snd]. repeat nstep.
  all: try (split_and!; [by repeat constructor | done | done]).
  all: repeat match goal with H : unnamed_unknown _ |- _ => destruct H as [? ?] end.
  all: cbn in *; naive_solver.
Qed.

Lemma after_app p l1 l : p ∉ l1 -> after p (l1 ++ p :: l) = Some (head l).
Proof.
  induction l1 as [|q l1 IH]; cbn; intros H.
  - by rewrite Z.eqb_refl.
  - apply not_elem_of_cons in H as [Hq H]. rewrite (proj2 (Z.eqb_neq q p)) by congruence. auto.
Qed.

Lemma quiet_reads_last {A} E (f : Ndds -> option A) a s (P : A -> Prop) :
  f s = Some a -> P a -> quiet E (reads f) s P.
Proof.
  intros Hf Ha. unfold quiet. eapply spec_reads; [exact Hf |]. split_and!; [apply only_nil | done | done].
Qed.

(** Walking the rest of the list while nothing changes. *)
Lemma quiet_walk E body s rec fuel l1 l :
  session_at s !! rp = Some rec -> cs_resources (sr_session rec) = l1 ++ l -> NoDup (l1 ++ l) ->
  (length l < fuel)%nat -> (forall p, p ∈ l -> quiet E (body p) s (eq true)) ->
  quiet E (walk fuel rp body (head l)) s (eq true).
Proof.
  intros Hrec. revert fuel l1. induction l as [|p l IH]; intros [|fuel] l1 Hl Hnd Hf Hb;
    [cbn in Hf; lia | by apply quiet_ret | cbn in Hf; lia |].
  cbn [walk head]. unfold next_attached.
  eapply (quiet_seq _ _ _ _ (eq (head l))).
  { eapply quiet_reads; [exact Hrec |]. eapply quiet_reads_last; [| done].
    rewrite Hl. apply after_app. apply NoDup_app in Hnd as (_ & Hd & _).
    intros Hp. by apply (Hd p Hp), list_elem_of_here. }
  intros next <-. eapply quiet_seq; [apply Hb, list_elem_of_here |]. intros b <-.
  apply (IH fuel (l1 ++ [p])); [by rewrite <- app_assoc | by rewrite <- app_assoc | cbn in Hf; lia |].
  intros q Hq. by apply Hb, list_elem_of_further.
Qed.

Lemma quiet_walk_all E body s rec fuel :
  session_at s !! rp = Some rec -> NoDup (cs_resources (sr_session rec)) ->
  (length (cs_resources (sr_session rec)) < fuel)%nat ->
  (forall p, p ∈ cs_resources (sr_session rec) -> quiet E (body p) s (eq true)) ->
  quiet E (walk_resources fuel rp body) s (eq true).
Proof.
  intros Hrec Hnd Hf Hb. unfold walk_resources, first_attached.
  eapply (quiet_seq _ _ _ _ (eq (head (cs_resources (sr_session rec))))).
  { eapply quiet_reads; [exact Hrec |]. by apply quiet_ret. }
  intros node <-. by apply (quiet_walk E body s rec fuel []).
Qed.

(** A resource that was detached: its identifier was finalized, so no record is found. *)
Lemma quiet_stale_detach others fuel src p a s :
  attached_at s !! p = Some a -> att_resource (at_base a) = D2S2_RESOURCEID_INITIALIZER ->
  quiet unnamed_unknown (finalize_attached others fuel src rp p) s (eq false).
Proof.
  intros Ha Hid. unfold finalize_attached, detach_announced, NDDSA_Agent_detach_resourceEA,
    detach_locked, unlock_resources_or_error.
  eapply (quiet_seq _ _ _ _ (fun d => fst d = false)); cycle 1.
  { intros [b id] [= ->]. by apply quiet_ret. }
  eapply quiet_reads; [exact Ha |].
  eapply (quiet_seq _ _ _ _ (fun d => fst d = DDS_RETCODE_ERROR)); cycle 1.
  { intros [rc o] [= ->]. by apply quiet_ret. }
  eapply quiet_seq; [apply quiet_lock |]. intros [|] _; [| by apply quiet_ret].
  eapply (quiet_seq _ _ _ _ (fun d => fst d = DDS_RETCODE_ERROR)).
  { eapply quiet_reads; [exact Ha |]. rewrite Hid.
    eapply quiet_seq; [apply quiet_lookup_unnamed |]. intros [[|] [q|]] Hq; try done; by apply quiet_ret. }
  intros [rc o] [= ->]. eapply quiet_seq; [apply quiet_unlock |]. intros [|] _; by apply quiet_ret.
Qed.

Definition cursor_or_trigger (c : NCall) : bool :=
  match c with GuardTrigger _ _ => true | _ => cursor_call c end.

Section closing.
Context (others : Ndds -> Ndds) (fuel : nat) (s : Ndds).
Context (rec : NDDSA_ClientSessionRecord) (att : Z) (a : NDDSA_AttachedResource) (l : list Z).
Hypothesis Hrec : session_at s !! rp = Some rec.
Hypothesis Hdeleted : deleted (sr_session rec) = true.
Hypothesis Hlist : cs_resources (sr_session rec) = att :: l.
Hypothesis Hnodup : NoDup (att :: l).
Hypothesis Hfuel : (length (att :: l) < fuel)%nat.
Hypothesis Hatt : attached_at s !! att = Some a.
Hypothesis Hstale : att_resource (at_base a) = D2S2_RESOURCEID_INITIALIZER.
Hypothesis Hidle : forall p, p ∈ att :: l -> exists b, attached_at s !! p = Some b /\ reading b = false.

Lemma quiet_stale_finalize src :
  quiet unnamed_unknown (NDDSA_Agent_finalize_sessionEA others fuel src rp) s (eq DDS_RETCODE_ERROR).
Proof.
  unfold NDDSA_Agent_finalize_sessionEA. eapply quiet_reads; [exact Hrec |].
  rewrite Hdeleted. cbn [negb]. eapply quiet_seq.
  { apply (quiet_walk_all _ _ _ rec); rewrite ?Hlist; try done.
    intros p Hp. destruct (Hidle p Hp) as (b & Hb & Hr). unfold finalize_read.
    eapply quiet_reads; [exact Hb |]. rewrite Hr. by apply quiet_ret. }
  intros ok <-. unfold walk_resources, first_attached.
  eapply (quiet_seq _ _ _ _ (eq false)); [| intros ok <-; by apply quiet_ret].
  eapply (quiet_seq _ _ _ _ (eq (Some att))).
  { eapply quiet_reads; [exact Hrec |]. rewrite Hlist. by apply quiet_ret. }
  intros node <-. destruct fuel as [|n]; [cbn in Hfuel; lia |]. cbn [walk]. unfold next_attached.
  eapply (quiet_seq _ _ _ _ (eq (head l))).
  { eapply quiet_reads; [exact Hrec |]. eapply quiet_reads_last; [| done]. rewrite Hlist. cbn.
    by rewrite Z.eqb_refl. }
  intros next <-. eapply quiet_seq; [by eapply quiet_stale_detach |]. intros b <-. by apply quiet_ret.
Qed.

Lemma quiet_find_disposed :
  quiet unnamed_unknown
    (NDDSA_AgentDb_find_next_session fuel (Some NDDSA_Agent_find_next_disposed_session) None) s
    (fun r => forall p, r = Some (Some p) -> p = rp).
Proof.
  unfold NDDSA_AgentDb_find_next_session, NDDSA_AgentDb_find_next_record.
  eapply (quiet_seq _ _ _ _ (fun _ => True)).
  { unfold quiet, worker_cursor, NDDSA_AgentDb_get_worker.
    repeat nstep; (split_and!; [by repeat constructor | done | done]). }
  intros [c|] _; [| by apply quiet_ret]. rewrite bool_decide_false by by intros [].
  eapply (quiet_seq _ _ _ _ (fun _ => True)); [by apply quiet_ret |]. intros _ _.
  destruct fuel as [|n]; [cbn in Hfuel; lia |]. cbn [find_next_loop].
  unfold quiet, NDDSA_Agent_find_next_disposed_session. nstep. nstep. destruct r; cycle 1.
  { nstep. split_and!; [by repeat constructor | done | done]. }
  nstep. nstep. destruct H0 as [[-> | ->] _]; cycle 1.
  - nstep. nstep. eapply spec_reads; [exact Hrec |]. nstep. rewrite Hdeleted. nstep.
    split_and!; [by repeat constructor | done |]. by intros p [= ->].
  - nstep. split_and!; [by repeat constructor | done | done].
Qed.

Lemma quiet_cleanup_done h : quiet unnamed_unknown (cleanup_done h) s (fun _ => True).
Proof.
  unfold cleanup_done. eapply (quiet_seq _ _ _ _ (fun _ => True)).
  { destruct h; [| by apply quiet_ret]. eapply quiet_seq; [apply quiet_release |].
    intros b _. by apply quiet_ret. }
  intros _ _. eapply quiet_seq; [apply quiet_unlock |]. intros b _. by apply quiet_ret.
Qed.

Lemma quiet_cleanup_session :
  quiet unnamed_unknown (cleanup_session others fuel rp) s (eq (false, true)).
Proof.
  unfold cleanup_session. eapply quiet_reads; [exact Hrec |].
  eapply quiet_seq; [apply quiet_stale_finalize |]. intros rc <-. by apply quiet_ret.
Qed.

(** What follows once the trigger is reset. *)
Lemma quiet_cleanup_rest :
  quiet unnamed_unknown
    (let* first := NDDSA_AgentDb_find_next_session fuel
                     (Some NDDSA_Agent_find_next_disposed_session) None in
     let* held := cleanup_sessions_loop others fuel fuel (default None first) in
     cleanup_done held) s (fun _ => True).
Proof.
  eapply quiet_seq; [apply quiet_find_disposed |]. intros first Hfirst.
  eapply (quiet_seq _ _ _ _ (fun _ => True)); [| intros; apply quiet_cleanup_done].
  assert (Hf : exists n, fuel = S n) by (destruct fuel; [cbn in Hfuel; lia | eauto]).
  destruct Hf as [n Hn]. rewrite Hn at 2. cbn [cleanup_sessions_loop].
  destruct first as [[p|]|]; cbn [default]; try by apply quiet_ret.
  rewrite (Hfirst p eq_refl). eapply quiet_seq; [apply quiet_cleanup_session |].
  intros c <-. by apply quiet_ret.
Qed.

(** C33: A session that still lists a resource that was deleted, as the first one, cannot be closed:
    detaching gave the resource back and finalized its identifier, but left it in the list, and the
    clean-up of the session, which detaches it again, finds no record for it.  When no
    resource of the session is being read and it is the disposed session that is found first, the
    clean-up stops there: it gives nobody a semaphore, announces nothing, keeps every record, and
    does not come to the sessions after this one.  So it is each time, and the one who
    closes the session waits forever. *)
Theorem deleted_resource_blocks_closing :
  spec unnamed_unknown (NDDSA_Agent_on_cleanup_sessions others fuel) s
    (fun t _ s' => s' = s /\ only cursor_or_trigger t).
Proof.
  assert (Hc : forall t, cursors_only t -> only cursor_or_trigger t)
    by (intros t; apply only_weaken; by intros []).
  unfold NDDSA_Agent_on_cleanup_sessions. eapply quiet_bind; [apply quiet_lock |].
  intros t [|] Ht _; [| nstep; rewrite app_nil_r; auto].
  nstep. nstep. nstep. nstep. destruct (dds_ok r); cbn [negb].
  - eapply spec_mono; [apply quiet_cleanup_rest |]. intros t' [] s' (Ht' & -> & _).
    split; [done |]. apply only_app; [auto |]. apply only_cons; auto.
  - eapply spec_mono; [apply quiet_cleanup_done |]. intros t' [] s' (Ht' & -> & _).
    split; [done |]. apply only_app; [auto |]. apply only_cons; auto.
Qed.
End closing.
End stale.

(** A session with a type it has, which two sessions have: it deletes the type, and is disposed. *)
Definition found_type (_ : list nevent) (c : NCall (N := ndds_model)) : NResp c :=
  match c return NResp c with
  | GetWorker _ => Some 1%Z
  | CursorAssert _ _ => Some 10%Z
  | CursorAssertAndStart _ _ => (true, Some 10%Z, [])
  | CursorLockTable _ => true
  | CursorGotoKeyEqual _ _ => true
  | CursorModify _ => Some 300%Z
  | c => quiet_ndds c
  end.

Definition deletes_type : ndds DDS_ReturnCode_t :=
  let* rc := NDDSA_Agent_delete_resource (fun s => s) 5 None 100%Z 7%Z None in
  NDDSA_Agent_dispose_sessionEA 100%Z;;
  ret rc.

Definition deleted_type : list nevent * outcome (DDS_ReturnCode_t * Ndds) :=
  exec found_type []
    (deletes_type (put_session 100%Z (set_cs_resources [200%Z] sample_session) (example_type_state 2))).

Definition deleted_type_state : Ndds :=
  match snd deleted_type with Returned (_, s) => s | _ => sample_ndds end.

Example deleted_type_ok :
  match snd deleted_type with Returned (rc, _) => rc = DDS_RETCODE_OK | _ => False end.
Proof. vm_compute. reflexivity. Qed.

Definition deleted_type_session : NDDSA_ClientSessionRecord :=
  default sample_session (session_at deleted_type_state !! 100%Z).
Definition deleted_type_attached : NDDSA_AttachedResource :=
  default NDDSA_ATTACHEDRESOURCE_INITIALIZER (attached_at deleted_type_state !! 200%Z).

Lemma deleted_resource_blocks_closing_witness :
  spec (unnamed_unknown 100%Z) (NDDSA_Agent_on_cleanup_sessions (fun s => s) 2) deleted_type_state
    (fun t _ s' => s' = deleted_type_state /\ only cursor_or_trigger t).
Proof.
  apply (deleted_resource_blocks_closing 100%Z (fun s => s) 2 deleted_type_state
    deleted_type_session 200%Z deleted_type_attached []);
    try (vm_compute; reflexivity).
  - repeat constructor. by apply not_elem_of_nil.
  - intros p Hp. apply list_elem_of_singleton in Hp as ->.
    exists deleted_type_attached. split; vm_compute; reflexivity.
Defined.
