(* ===== verification/NddsWrites.v ===== *)
(** * DDS agent: writes

    [NDDSA_Agent_write], [NDDSA_Agent_writeEA] and [NDDSA_Agent_buffer_to_dyndata]: the data of
    a client is put behind a header of four bytes, in a buffer the writer keeps, and given to
    DDS. *)

From Stdlib Require Import ZArith Lia Ascii String.
From stdpp Require Import base tactics list gmap.
From S2P Require Import Prelude.
From S2P Require Import CString.
From S2P Require Import Infrastructure.
From S2P Require Import Interaction.
From S2P Require Import ServiceData.
From S2P Require Import NddsData.
From S2P Require Import AgentDb.
From S2P Require Import NddsSamples.
From S2P Require Import NddsReaders.
From S2P Require Import NddsWriters.
From S2P Require Import NddsReads.

Local Open Scope nano_scope.

Section writes.
Context {N : NddsApi} {C : ConnextCore}.

(** ** The buffer of a writer *)

Definition set_data_buffer (p : option Z) (len max : Z) (w : NDDSA_Writer) : NDDSA_Writer :=
  {| wr_res := wr_res w; wr_agent := wr_agent w; dyn_writer := dyn_writer w;
     dyn_sample := dyn_sample w; dyn_support := dyn_support w; wr_pool_samples := wr_pool_samples w;
     wr_cond_status := wr_cond_status w; wr_handler_set := wr_handler_set w; data_buffer := p;
     data_buffer_len := len; data_buffer_max := max |}.

Definition SIZE_OF_HEADER : Z := 4.

(** Room for [data_len] bytes: [false] when there is none. *)
Definition reserve_buffer (writer data_len : Z) : ndds bool :=
  let* w := awriter_of writer in
  if (data_buffer_max w <? data_len)%Z then
    let* p := ncall (BufferReallocate (data_buffer w) data_len) in
    match p with
    | None => upd_writer writer (set_data_buffer None 0 0);; ret false
    | Some _ => upd_writer writer (set_data_buffer p (data_buffer_len w) data_len);; ret true
    end
  else ret true.

(** What [memcpy] copies behind the header: undefined when that leaves the buffer or the data. *)
Definition copied_bytes (data_buffer_max : Z) (b : D2S2_Buffer) : option (list Z) :=
  if (SIZE_OF_HEADER + data_len b <=? data_buffer_max)%Z
     && (data_len b <=? Z.of_nat (length (data_bytes b)))%Z
  then Some (take (Z.to_nat (data_len b)) (data_bytes b)) else None.

(** The first two bytes of the header, whose other two are 0. *)
Definition xcdr_header (e : D2S2_XcdrEncodingKind) (le : bool) : option (Z * Z) :=
  let b1 version := ((if le : bool then 1 else 0) + version)%Z in
  match e with
  | XCDRENCODINGKIND_1 => Some (0, b1 0)%Z
  | XCDRENCODINGKIND_2 => Some (0, b1 16)%Z
  | XCDRENCODINGKIND_1_PL => Some (1, b1 0)%Z
  | XCDRENCODINGKIND_2_PL => Some (1, b1 16)%Z
  | XCDRENCODINGKIND_UNKNOWN => None
  end.

(** The length is an unsigned integer of 32 bits, and nothing tests that it has room for the
    header. *)
Definition NDDSA_Agent_buffer_to_dyndata (writer_data : Z) (data : D2S2_DataRepresentation)
    (sample_out : option Z) : ndds DDS_ReturnCode_t :=
  let x := dr_xcdr data in
  let data_len := ((data_len (buffer x) + SIZE_OF_HEADER) mod 2 ^ 32)%Z in
  unless reserve_buffer writer_data data_len then ret DDS_RETCODE_ERROR else
  upd_writer writer_data (fun w => set_data_buffer (data_buffer w) data_len (data_buffer_max w) w);;
  let* w := awriter_of writer_data in
  let* _ := not_null (data_buffer w) in
  let* bytes := reads (fun _ => copied_bytes (data_buffer_max w) (buffer x)) in
  match xcdr_header (encoding x) (little_endian x) with
  | None => ret DDS_RETCODE_ERROR
  | Some (b0, b1) =>
      let* rc := ncall (SampleFromCdr sample_out ([b0; b1; 0; 0]%Z ++ bytes)) in
      if dds_ok rc then ret DDS_RETCODE_OK else ret DDS_RETCODE_ERROR
  end.

(** ** Writing *)

Definition NDDSA_Agent_writeEA (attached : Z) (data : D2S2_DataRepresentation)
    : ndds DDS_ReturnCode_t :=
  match dr_fmt data with
  | DATAREPRESENTATIONFORMAT_XCDR =>
      with_resource attached DDS_RETCODE_ERROR ret (fun _ => DDS_RETCODE_ERROR) (fun resource_rec =>
        let* writer_data := reader_data resource_rec in
        let* w := awriter_of writer_data in
        let* rc := NDDSA_Agent_buffer_to_dyndata writer_data data (dyn_sample w) in
        if negb (dds_ok rc) then ret DDS_RETCODE_ERROR else
        let* w := awriter_of writer_data in
        let* rc := ncall (WriterWrite (dyn_writer w) (dyn_sample w)) in
        if dds_ok rc then ret DDS_RETCODE_OK else ret DDS_RETCODE_ERROR)
  | _ => ret DDS_RETCODE_ERROR
  end.

Definition NDDSA_Agent_write (src : option Z) (session_rec writer_id : Z)
    (data : D2S2_DataRepresentation) (request : option Z) : ndds DDS_ReturnCode_t :=
  let* found := NDDSA_ClientSession_find_attached_resource session_rec writer_id in
  match found with
  | None => ret DDS_RETCODE_ERROR
  | Some attached =>
      let* a := attached_of attached in
      if negb (bool_decide (att_kind (at_base a) = RESOURCEKIND_DATAWRITER))
      then ret DDS_RETCODE_ERROR else
      let* rc := NDDSA_Agent_writeEA attached data in
      if negb (dds_ok rc) then ret DDS_RETCODE_ERROR else
      let* rec := session_rec_of session_rec in
      let* a := attached_of attached in
      ncall (OnDataWritten src session_rec (cs_user_data (sr_session rec)) writer_id
               (at_user_data a) data request);;
      ret DDS_RETCODE_OK
  end.
End writes.

(** ** The header read back *)

Section roundtrip.
Context {N : NddsApi} {C : ConnextCore}.

Definition converted_of (e : nevent) : list (list Z) :=
  match e with existT (SampleFromCdr _ bytes) _ => [bytes] | _ => [] end.
Definition converted (t : list nevent) : list (list Z) := flat_map converted_of t.

Lemma converted_app t1 t2 : converted (t1 ++ t2) = converted t1 ++ converted t2.
Proof. apply flat_map_app. Qed.

(** A buffer of 32 bits that is there when it has room. *)
Definition buffer_ok (w : NDDSA_Writer) : Prop :=
  (0 <= data_buffer_len w <= data_buffer_max w)%Z /\ (data_buffer_max w < 2 ^ 32)%Z
  /\ ((0 < data_buffer_max w)%Z -> is_Some (data_buffer w)).

(** What [NDDSA_Read_convert_sampleEA] reads is what [buffer_to_dyndata] wrote. *)
Lemma header_roundtrip e le b0 b1 :
  xcdr_header e le = Some (b0, b1) -> cdr_header b0 b1 = Some (e, le).
Proof. destruct e, le; cbn; intros [= <- <-]; reflexivity. Qed.

(** The calls that make room for [n] bytes: none when there is room, and whether there is then. *)
Definition makes_room (w : NDDSA_Writer) (n : Z) (t : list nevent) (ok : bool) : Prop :=
  ((n <= data_buffer_max w)%Z /\ t = [] /\ ok = true)
  \/ ((data_buffer_max w < n)%Z
      /\ exists q, t = [existT (BufferReallocate (data_buffer w) n) q] /\ ok = bool_decide (is_Some q)).

Lemma makes_room_converts w n t ok : makes_room w n t ok -> converted t = [].
Proof. by intros [(_ & -> & _) | (_ & q & -> & _)]. Qed.

Lemma reserve_spec E s p w n :
  awriter_at s !! p = Some w -> buffer_ok w -> (0 < n < 2 ^ 32)%Z ->
  spec E (reserve_buffer p n) s (fun t ok s' =>
    makes_room w n t ok /\ exists w', s' = put_awriter p w' s /\ buffer_ok w'
    /\ (ok = true -> (n <= data_buffer_max w')%Z)).
Proof.
  intros Hw (Hb1 & Hb2 & Hb3) Hn. unfold reserve_buffer. nstep. eapply spec_reads; [exact Hw |].
  destruct (Z.ltb_spec (data_buffer_max w) n) as [Hm|Hm].
  - nstep. nstep. destruct r as [q|]; unfold upd_writer; nstep; nstep;
      (eapply spec_reads; [exact Hw |]); nstep; nstep;
      (split; [right; split; [done | by eexists] |]); eexists;
      (split; [reflexivity |]); unfold buffer_ok; cbn; split_and!; try done; try lia.
  - nstep. split; [by left |]. exists w. split_and!; try done. destruct s. unfold put_awriter; cbn in *.
    by rewrite insert_id.
Qed.

(** C34: The data of a client is given to DDS once, behind a header that tells its encoding and
    byte order: the part of the agent that reads samples from DDS would read exactly these from
    it, and the answer is that of DDS.  Memory is asked for only when the buffer of the writer is
    too small, and only when it is refused no data is given and the answer is an
    error; the writer keeps a buffer that has room for what it says. *)
Theorem write_header_roundtrip s p w data sample :
  awriter_at s !! p = Some w -> buffer_ok w ->
  let x := dr_xcdr data in
  let n := (data_len (buffer x) + SIZE_OF_HEADER)%Z in
  encoding x <> XCDRENCODINGKIND_UNKNOWN -> (0 <= data_len (buffer x) < 2 ^ 32 - 4)%Z ->
  (data_len (buffer x) <= Z.of_nat (length (data_bytes (buffer x))))%Z ->
  spec (fun _ => True) (NDDSA_Agent_buffer_to_dyndata p data sample) s (fun t rc s' =>
    (makes_room w n t false /\ rc = DDS_RETCODE_ERROR
     \/ exists t1 b0 b1 given,
          t = t1 ++ [existT (SampleFromCdr sample
                (b0 :: b1 :: 0 :: 0 :: take (Z.to_nat (data_len (buffer x))) (data_bytes (buffer x)))%Z)
                given]
          /\ makes_room w n t1 true
          /\ cdr_header b0 b1 = Some (encoding x, little_endian x)
          /\ rc = (if dds_ok given then DDS_RETCODE_OK else DDS_RETCODE_ERROR))
    /\ exists w', s' = put_awriter p w' s /\ buffer_ok w').
Proof.
  intros Hw Hok x n He Hl Hb. unfold NDDSA_Agent_buffer_to_dyndata. fold x. cbv zeta.
  fold n. assert (Hn : (n = data_len (buffer x) + 4)%Z) by done.
  rewrite Z.mod_small by lia. nstep.
  eapply spec_mono; [apply (reserve_spec _ _ _ w); [done | done | lia] |].
  intros t ok s1 (Ht & w1 & -> & (H1 & H2 & H3) & Hroom).
  destruct ok; [| nstep; rewrite app_nil_r; split; [by left | by exists w1]].
  specialize (Hroom eq_refl). unfold upd_writer. nstep. nstep.
  eapply spec_reads; [cbn; apply lookup_insert_eq |]. nstep. nstep.
  eapply spec_reads; [cbn; apply lookup_insert_eq |]. nstep.
  destruct (H3 ltac:(lia)) as [q Hq]. unfold not_null. eapply spec_reads; [exact Hq |].
  nstep. eapply spec_reads.
  { unfold copied_bytes. cbn [set_data_buffer data_buffer_max]. unfold SIZE_OF_HEADER.
    rewrite !(proj2 (Z.leb_le _ _)) by lia. reflexivity. }
  set (w2 := set_data_buffer _ _ _ _). set (s2 := put_awriter p w2 _).
  assert (Hs2 : exists w', s2 = put_awriter p w' s /\ buffer_ok w').
  { exists w2. split.
    - unfold s2, put_awriter; cbn. by rewrite insert_insert_eq.
    - unfold buffer_ok, w2; cbn. split_and!; try done; lia. }
  destruct (xcdr_header _ _) as [[b0 b1]|] eqn:Hh; [| by destruct (encoding x)].
  apply header_roundtrip in Hh. nstep. nstep.
  destruct (dds_ok r) eqn:Hr; nstep; (split; [| done]); right; exists t, b0, b1, r; by rewrite Hr.
Qed.

End roundtrip.

Definition example_writer : NDDSA_Writer :=
  {| wr_res := None; wr_agent := None; dyn_writer := Some 400; dyn_sample := Some 401;
     dyn_support := Some 402; wr_pool_samples := None; wr_cond_status := None;
     wr_handler_set := false; data_buffer := None; data_buffer_len := 0; data_buffer_max := 0 |}%Z.

Definition example_data : D2S2_DataRepresentation :=
  {| dr_fmt := DATAREPRESENTATIONFORMAT_XCDR;
     dr_xcdr := {| encoding := XCDRENCODINGKIND_2_PL; little_endian := true;
       buffer := {| data_addr := 500; data_bytes := [1; 2; 3]; data_len := 3 |} |} |}%Z.

(** Memory is granted and DDS takes the sample. *)
Definition takes_sample (_ : list nevent) (c : NCall (N := ndds_model)) : NResp c :=
  match c return NResp c with
  | BufferReallocate _ _ => Some 600%Z
  | c => quiet_ndds c
  end.

Definition written_sample : list nevent * outcome (DDS_ReturnCode_t * Ndds) :=
  exec takes_sample [] (NDDSA_Agent_buffer_to_dyndata 300%Z example_data (Some 401%Z)
                          (put_awriter 300%Z example_writer sample_ndds)).

Example written_sample_trace :
  fst written_sample
  = [existT (BufferReallocate None 7%Z) (Some 600%Z);
     existT (SampleFromCdr (Some 401%Z) [1; 17; 0; 0; 1; 2; 3]%Z) DDS_RETCODE_OK].
Proof. vm_compute. reflexivity. Qed.

Example written_sample_ok :
  match snd written_sample with Returned (rc, _) => rc = DDS_RETCODE_OK | _ => False end.
Proof. vm_compute. reflexivity. Qed.

Lemma write_header_roundtrip_witness :
  exists b0 b1 s', snd written_sample = Returned (DDS_RETCODE_OK, s')
    /\ converted (fst written_sample) = [[b0; b1; 0; 0; 1; 2; 3]]%Z
    /\ cdr_header b0 b1 = Some (XCDRENCODINGKIND_2_PL, true).
Proof.
  assert (Hr : runs (NDDSA_Agent_buffer_to_dyndata 300%Z example_data (Some 401%Z)
    (put_awriter 300%Z example_writer sample_ndds)) (fst written_sample) (snd written_sample))
    by apply exec_runs.
  assert (Hok : buffer_ok example_writer) by (unfold buffer_ok; cbn; split_and!; lia).
  pose proof (write_header_roundtrip (put_awriter 300%Z example_writer sample_ndds) 300%Z
    example_writer example_data (Some 401%Z) ltac:(reflexivity) Hok ltac:(discriminate)
    ltac:(cbn; lia) ltac:(cbn; lia)) as Hspec.
  destruct (spec_runs _ _ _ _ _ _ Hspec Hr) as (rc & s' & Ho & H & _).
  { by apply List.Forall_forall. }
  rewrite written_sample_trace in H |- *.
  destruct H as [[[(H & _) | (_ & q & [=] & _)] _] | (t1 & b0 & b1 & given & Ht & Hm & Hc & ->)];
    [by cbn in H |].
  pose proof (eq_trans (f_equal converted Ht) (converted_app _ _)) as Hcv.
  rewrite (makes_room_converts _ _ _ _ Hm) in Hcv. injection Hcv as <- <-. exists 1%Z, 17%Z, s'. split; [| split; [reflexivity | exact Hc]].
  pose proof written_sample_ok as Hrc. rewrite Ho in Hrc |- *. by rewrite Hrc.
Defined.
