(* ===== verification/NddsAgentLife.v ===== *)
(** * DDS agent: its life

    How the agent is initialized, started, stopped and finalized, with the interfaces that
    register on it, the events of sessions, and the end of its database: the rest of [NddsAgent.c]
    and of [NddsAgentIntf.c] but for the creation of resources, and the initialization of the
    resource factory.

    The parts of an agent, [AgentPart], are made by one call and deleted by another; [set_part]
    is the assignment of the field of one.  [fuel] is to be greater than the rows of the
    tables and the levels of [NddsDelete]. *)

From Stdlib Require Import ZArith Lia Ascii String.
From stdpp Require Import base tactics list gmap.
From S2P Require Import Prelude.
From S2P Require Import CString.
From S2P Require Import Infrastructure.
From S2P Require Import Interaction.
From S2P Require Import ServiceData.
From S2P Require Import NddsData.
From S2P Require Import AgentDb.
From S2P Require Import NddsResources.
From S2P Require Import NddsSamples.
From S2P Require Import NddsReaders.
From S2P Require Import NddsReads.
From S2P Require Import NddsFrames.
From S2P Require Import NddsDelete.
From S2P Require Import NddsAttach.
From S2P Require Import NddsSessions.

Local Open Scope nano_scope.

#[export] Instance AgentPart_eq_dec : EqDecision AgentPart.
Proof. solve_decision. Defined.

Section life.
Context {N : NddsApi} {C : ConnextCore}.

(** ** Parts *)

Definition NDDSA_AGENT_INITIALIZER : NDDSA_Agent :=
  {| res_factory := NDDSA_RESOURCEFACTORY_INITIALIZER;
     pool_readers := None; pool_writers := None; pool_resources := None; pool_reads := None;
     pool_samples := None; pool_events_session := None; clock := None; interfaces := [];
     timer := None; generator := None; sem_start := None; sem_stop := None;
     cond_cleanup_sessions := None; cond_cleanup_resources := None; cond_cleanup_reads := None;
     waitset := None; NddsData.started := false; disposed := false;
     auto_attach_resources := false; read_start_point := READSTARTPOINT_FIRST_CACHED |}.

Definition part (k : AgentPart) (a : NDDSA_Agent) : option Z :=
  match k with
  | PartPoolReaders => pool_readers a | PartPoolWriters => pool_writers a
  | PartPoolResources => pool_resources a | PartPoolReads => pool_reads a
  | PartPoolSamples => pool_samples a | PartPoolEvents => pool_events_session a
  | PartClock => clock a | PartTimer => timer a
  | PartSemStop => sem_stop a | PartSemStart => sem_start a
  | PartCondSessions => cond_cleanup_sessions a | PartCondReads => cond_cleanup_reads a
  | PartCondResources => cond_cleanup_resources a | PartWaitSet => waitset a
  | PartGenerator => generator a | PartFactoryMutex => factory_mutex (res_factory a)
  end.

Definition set_part (k : AgentPart) (p : option Z) (a : NDDSA_Agent) : NDDSA_Agent :=
  let field k' := if decide (k = k') then p else part k' a in
  {| res_factory := {| xml_parser := xml_parser (res_factory a);
                       factory_mutex := field PartFactoryMutex |};
     pool_readers := field PartPoolReaders; pool_writers := field PartPoolWriters;
     pool_resources := field PartPoolResources; pool_reads := field PartPoolReads;
     pool_samples := field PartPoolSamples; pool_events_session := field PartPoolEvents;
     clock := field PartClock; interfaces := interfaces a; timer := field PartTimer;
     generator := field PartGenerator; sem_start := field PartSemStart;
     sem_stop := field PartSemStop; cond_cleanup_sessions := field PartCondSessions;
     cond_cleanup_resources := field PartCondResources; cond_cleanup_reads := field PartCondReads;
     waitset := field PartWaitSet; NddsData.started := NddsData.started a; disposed := disposed a;
     auto_attach_resources := auto_attach_resources a; read_start_point := read_start_point a |}.

Definition upd_agent (f : NDDSA_Agent -> NDDSA_Agent) : ndds unit :=
  modify (fun s => set_nd_agent (f (nd_agent s)) s).

Definition with_life (parser : option Z) (intfs : list Z) (st d : bool) (a : NDDSA_Agent)
    : NDDSA_Agent :=
  {| res_factory := {| xml_parser := parser; factory_mutex := factory_mutex (res_factory a) |};
     pool_readers := pool_readers a; pool_writers := pool_writers a;
     pool_resources := pool_resources a; pool_reads := pool_reads a;
     pool_samples := pool_samples a; pool_events_session := pool_events_session a;
     clock := clock a; interfaces := intfs; timer := timer a; generator := generator a;
     sem_start := sem_start a; sem_stop := sem_stop a;
     cond_cleanup_sessions := cond_cleanup_sessions a;
     cond_cleanup_resources := cond_cleanup_resources a;
     cond_cleanup_reads := cond_cleanup_reads a; waitset := waitset a; NddsData.started := st;
     disposed := d; auto_attach_resources := auto_attach_resources a;
     read_start_point := read_start_point a |}.

Definition set_xml_parser (p : option Z) (a : NDDSA_Agent) :=
  with_life p (interfaces a) (NddsData.started a) (disposed a) a.
Definition set_interfaces (l : list Z) (a : NDDSA_Agent) :=
  with_life (xml_parser (res_factory a)) l (NddsData.started a) (disposed a) a.
Definition set_started (b : bool) (a : NDDSA_Agent) :=
  with_life (xml_parser (res_factory a)) (interfaces a) b (disposed a) a.
Definition set_disposed (a : NDDSA_Agent) :=
  with_life (xml_parser (res_factory a)) (interfaces a) (NddsData.started a) true a.

(** Whether the part was made; its field is assigned anyway. *)
Definition make_part (k : AgentPart) : ndds bool :=
  let* p := ncall (PartNew k) in
  upd_agent (set_part k p);;
  ret (bool_decide (is_Some p)).

Fixpoint make_parts (l : list AgentPart) : ndds bool :=
  match l with
  | [] => ret true
  | k :: l => unless make_part k then ret false else make_parts l
  end.

Definition the_part (k : AgentPart) : ndds (option Z) :=
  let* ag := the_nd_agent in ret (part k ag).

(** A part is deleted, and its field left as it is. *)
Definition delete_kept (k : AgentPart) : ndds unit :=
  let* p := the_part k in
  ncall (PartDelete k p).

(** ** The resource factory *)

(** The sequence of strings of the QoS is finalized on every path.  The extension is made and
    registered by one call. *)
Definition initialize_xml_parser : ndds bool :=
  let? factory := ncall FactoryGetInstance else ret false in
  let* rc := ncall (FactoryGetQos factory) in
  if negb (dds_ok rc) then ret false else
  let* rc := ncall (FactorySetQosDtd factory) in
  if negb (dds_ok rc) then ret false else
  let? qos_provider := ncall (FactoryQosProvider factory) else ret false in
  let* parser := ncall (QosProviderXmlParser qos_provider) in
  upd_agent (set_xml_parser parser);;
  match parser with
  | None => ret false
  | Some parser => ncall (XmlRegisterExtension parser)
  end.

Definition NDDSA_ResourceFactory_initialize_xml_parser : ndds bool :=
  let* ok := initialize_xml_parser in
  ncall FactoryQosFinalize;;
  ret ok.

Definition NDDSA_ResourceFactory_initialize : ndds bool :=
  unless NDDSA_ResourceFactory_initialize_xml_parser then ret false else
  make_part PartFactoryMutex.

Definition NDDSA_ResourceFactory_finalize : ndds unit :=
  let* ag := the_nd_agent in
  ncall (XmlUnregisterExtension (xml_parser (res_factory ag)));;
  delete_kept PartFactoryMutex.

(** ** Initialization *)

(** A condition with the function it triggers. *)
Definition make_condition (k : AgentPart) : ndds bool :=
  unless make_part k then ret false else
  let* condition := the_part k in
  let* rc := ncall (CondSetHandler k condition) in
  ret (dds_ok rc).

Definition attach_condition (k : AgentPart) : ndds bool :=
  let* ws := the_part PartWaitSet in
  let* condition := the_part k in
  let* rc := ncall (WaitSetAttach ws condition) in
  ret (dds_ok rc).

Fixpoint while_ok (l : list (ndds bool)) : ndds bool :=
  match l with
  | [] => ret true
  | m :: l => unless m then ret false else while_ok l
  end.

(** The agent waits for the thread of the generator to start. *)
Definition start_threads : ndds bool :=
  unless make_part PartGenerator then ret false else
  let* sem := the_part PartSemStart in
  ncall (EventSemaphoreTake sem);;
  let* ws := the_part PartWaitSet in
  let* rc := ncall (WaitSetStart ws) in
  ret (dds_ok rc).

Definition initial_agent (user_properties : option (bool * NDDSA_ReadStartPoint)) : NDDSA_Agent :=
  let a := NDDSA_AGENT_INITIALIZER in
  match user_properties with
  | None => a
  | Some (auto, point) =>
      {| res_factory := res_factory a;
         pool_readers := None; pool_writers := None; pool_resources := None; pool_reads := None;
         pool_samples := None; pool_events_session := None; clock := None; interfaces := [];
         timer := None; generator := None; sem_start := None; sem_stop := None;
         cond_cleanup_sessions := None; cond_cleanup_resources := None; cond_cleanup_reads := None;
         waitset := None; NddsData.started := false; disposed := false;
         auto_attach_resources := auto; read_start_point := point |}
  end.

(** Nothing is released when it fails. *)
Definition NDDSA_Agent_initialize (self : Z)
    (user_properties : option (bool * NDDSA_ReadStartPoint)) : ndds bool :=
  upd_agent (fun _ => initial_agent user_properties);;
  modify (set_db NDDSA_AGENTDB_INITIALIZER);;
  while_ok [
    NDDSA_ResourceFactory_initialize;
    NDDSA_AgentDb_initialize self;
    make_parts [PartPoolReaders; PartPoolWriters; PartPoolResources; PartPoolReads;
                PartPoolSamples; PartPoolEvents; PartClock; PartTimer; PartSemStop; PartSemStart];
    make_condition PartCondSessions;
    make_condition PartCondReads;
    make_condition PartCondResources;
    make_part PartWaitSet;
    attach_condition PartCondSessions;
    attach_condition PartCondResources;
    attach_condition PartCondReads;
    start_threads ].

(** The functions the thread of the generator calls. *)
Definition NDDSA_Agent_on_start_generator : ndds unit :=
  let* sem := the_part PartSemStart in ncall (EventSemaphoreGive sem);; ret tt.
Definition NDDSA_Agent_on_stop_generator : ndds unit :=
  let* sem := the_part PartSemStop in ncall (EventSemaphoreGive sem);; ret tt.

(** ** Interfaces *)

(** [agent] is the agent the interface is registered on, and comes back as it is then. *)
Definition NDDSA_Agent_register_interface (self intf : Z) (agent : option Z)
    : ndds (DDS_ReturnCode_t * option Z) :=
  match agent with
  | Some _ => ret (DDS_RETCODE_ERROR, agent)
  | None =>
      ncall (OnInterfaceRegistered intf);;
      upd_agent (fun a => set_interfaces (interfaces a ++ [intf]) a);;
      ret (DDS_RETCODE_OK, Some self)
  end.

(** The interfaces told, until one refuses. *)
Fixpoint tell_loop (tell : Z -> ndds DDS_ReturnCode_t) (l : list Z) : ndds bool :=
  match l with
  | [] => ret true
  | intf :: l => let* rc := tell intf in if dds_ok rc then tell_loop tell l else ret false
  end.

Definition NDDSA_Agent_start : ndds DDS_ReturnCode_t :=
  let* ag := the_nd_agent in
  if NddsData.started ag then ret DDS_RETCODE_OK else
  unless tell_loop (fun intf => ncall (OnAgentStarted intf)) (interfaces ag)
  then ret DDS_RETCODE_ERROR else
  upd_agent (set_started true);;
  ret DDS_RETCODE_OK.

Definition NDDSA_Agent_stop : ndds DDS_ReturnCode_t :=
  let* ag := the_nd_agent in
  if negb (NddsData.started ag) then ret DDS_RETCODE_OK else
  unless tell_loop (fun intf => ncall (OnAgentStopped intf)) (interfaces ag)
  then ret DDS_RETCODE_ERROR else
  upd_agent (set_started false);;
  ret DDS_RETCODE_OK.

(** ** The events of sessions *)

(** Only as many bytes as a pointer has are zeroed: the rest of the buffer is as the pool
    gave it. *)
Definition NDDSA_Agent_create_session_event (self : Z) (src : option Z) (session_rec : Z)
    (event_listener on_event : option Z) : ndds (option Z) :=
  let* rec := session_rec_of session_rec in
  if negb (bool_decide (cs_intf (sr_session rec) = src)) then ret None else
  let* ag := the_nd_agent in
  let? buffer := ncall (EventPoolGet (pool_events_session ag)) else ret None in
  modify (put_event (fst buffer)
    {| se_intf := src; se_session_key := cs_key (sr_session rec); se_listener := event_listener;
       se_on_event := on_event; delay_ts := delay_ts (snd buffer);
       se_storage := (Some self, src, Some (fst buffer)); se_live := false;
       sem_cancelled := sem_cancelled (snd buffer) |});;
  ret (Some (fst buffer)).

Definition set_event_live (b : bool) (e : NDDSA_ClientSessionEvent) : NDDSA_ClientSessionEvent :=
  {| se_intf := se_intf e; se_session_key := se_session_key e; se_listener := se_listener e;
     se_on_event := se_on_event e; delay_ts := delay_ts e; se_storage := se_storage e;
     se_live := b; sem_cancelled := sem_cancelled e |}.

Definition set_delay_ts (delay : NtpTime) (e : NDDSA_ClientSessionEvent) : NDDSA_ClientSessionEvent :=
  {| se_intf := se_intf e; se_session_key := se_session_key e; se_listener := se_listener e;
     se_on_event := se_on_event e; delay_ts := delay; se_storage := se_storage e;
     se_live := se_live e; sem_cancelled := sem_cancelled e |}.

Definition NDDSA_Agent_fire_session_event (event : Z) (delay : NtpTime) : ndds DDS_ReturnCode_t :=
  let* e := event_of event in
  modify (put_event event (set_event_live true (set_delay_ts delay e)));;
  let* posted := NDDSA_Agent_post_event (SessionEvent event true) delay in
  ret (ok_or_error posted).

(** The event goes back to its pool while the one that was posted refers to it. *)
Definition NDDSA_Agent_delete_session_event (event : Z) : ndds DDS_ReturnCode_t :=
  let* e := event_of event in
  modify (put_event event (set_event_live false e));;
  unless NDDSA_Agent_post_event (SessionEvent event false) NTP_TIME_ZERO
  then ret DDS_RETCODE_ERROR else
  let* ag := the_nd_agent in
  ncall (EventPoolReturn (pool_events_session ag) event);;
  ret DDS_RETCODE_OK.

(** The session's event is due: its record is held while the service is told. *)
Definition NDDSA_Agent_on_session_event (src : option Z) (event : Z) (live : bool) : ndds unit :=
  let* e := event_of event in
  let* l := lookup_active (se_session_key e) in
  match l with
  | (Some session_rec, true) =>
      let* rec := session_rec_of session_rec in
      (if bool_decide (cs_intf (sr_session rec) = src) && live then
         let* reschedule := ncall (OnSessionEvent (se_on_event e) session_rec event) in
         if (reschedule : bool) then
           let* e := event_of event in
           NDDSA_Agent_fire_session_event event (delay_ts e);; ret tt
         else ret tt
       else ret tt);;
      release_session_rec (Some session_rec)
  | (session_rec, _) => release_session_rec session_rec
  end.

(** ** The end of the database *)

(** The thread of the wait set finalizes each session; its record is removed when the cursor
    leaves it. *)
Fixpoint finalize_sessions_loop (others : Ndds -> Ndds) (fuel rows : nat) (session_rec : option Z)
    : ndds bool :=
  match rows with
  | O => unfinished
  | S rows =>
      match session_rec with
      | None => ret true
      | Some r =>
          let* rec := session_rec_of r in
          let session_data := cs_user_data (sr_session rec) in
          let src := cs_intf (sr_session rec) in
          let session_key := cs_key (sr_session rec) in
          ncall (OnSessionTimedOut src r session_data);;
          let* rc := NDDSA_Agent_dispose_sessionEA r in
          if negb (dds_ok rc) then ret false else
          let* rec := session_rec_of r in
          unless NDDSA_Agent_wait_for_semaphoreEA others true r false None
                   (sem_cleanup (sr_session rec))
          then ret false else
          let* rec := session_rec_of r in
          ncall (EventSemaphoreDelete (sem_cleanup (sr_session rec)));;
          upd_cs r (set_sem_cleanup None);;
          let* next := NDDSA_AgentDb_find_next_session_and_delete_previous fuel None (Some r) in
          if negb (fst next) then ret false else
          ncall (OnSessionClosed src session_key session_data);;
          finalize_sessions_loop others fuel rows (snd next)
      end
  end.

Definition NDDSA_Agent_finalize_database_sessions (others : Ndds -> Ndds) (fuel : nat)
    : ndds bool :=
  unless NDDSA_AgentDb_lock_sessions true true then ret false else
  let* first := NDDSA_AgentDb_find_next_session_and_delete_previous fuel None None in
  let* ok := (if fst first then finalize_sessions_loop others fuel fuel (snd first)
              else ret false) in
  let* unlocked := NDDSA_AgentDb_unlock_sessions true in
  ret (ok && unlocked).

(** Whether the records were all deleted, the record that is held, and the copy of the
    identifier, which is used again. *)
Fixpoint finalize_resources_loop (fuel rows : nat) (resource_id : D2S2_ResourceId)
    (resource_rec : option Z) : ndds (bool * option Z * D2S2_ResourceId) :=
  match rows with
  | O => unfinished
  | S rows =>
      match resource_rec with
      | None => ret (true, None, resource_id)
      | Some r =>
          let* rec := resource_rec_of r in
          let res := rr_resource rec in
          if (0 <? attached_count res)%Z then ret (false, Some r, resource_id) else
          let '(copied, id) := D2S2_ResourceId_copy resource_id (res_id (resource_base res)) in
          if negb copied then ret (false, Some r, id) else
          unless NDDSA_AgentDb_release_resourceEA then ret (false, None, id) else
          let* rc := NDDSA_Agent_delete_native_resourceEA fuel fuel id in
          if negb (dds_ok rc) then ret (false, None, id) else
          unless NDDSA_AgentDb_delete_resourceEA id then ret (false, None, id) else
          unless NDDSA_AgentDb_iterate_resourcesEA then ret (false, None, id) else
          let* next := NDDSA_AgentDb_find_next_resourceEA fuel None in
          if negb (fst next) then ret (false, snd next, id) else
          finalize_resources_loop fuel rows id (snd next)
      end
  end.

(** The label [done]: DDS_RETCODE_ERROR is not zero, and so TRUE. *)
Definition finalize_resources_done (ok : bool) (held : option Z) (locked : bool)
    (resource_id : D2S2_ResourceId) : ndds bool :=
  let* ok := match held with
             | Some _ => let* released := NDDSA_AgentDb_release_resourceEA in ret (released || ok)
             | None => ret ok
             end in
  let* ok := if locked then let* unlocked := NDDSA_AgentDb_unlock_resources true in
                            ret (negb unlocked || ok)
             else ret ok in
  free_string (fst (D2S2_ResourceId_finalize resource_id));;
  ret ok.

Definition NDDSA_Agent_finalize_database_resources (fuel : nat) : ndds bool :=
  let id := D2S2_RESOURCEID_INITIALIZER in
  unless NDDSA_AgentDb_lock_resources true true then finalize_resources_done false None false id else
  let* first := NDDSA_AgentDb_find_next_resourceEA fuel None in
  if negb (fst first) then finalize_resources_done false (snd first) true id else
  let* r := finalize_resources_loop fuel fuel id (snd first) in
  finalize_resources_done (fst (fst r)) (snd (fst r)) true (snd r).

Definition NDDSA_Agent_finalize_database (others : Ndds -> Ndds) (fuel : nat) : ndds bool :=
  unless NDDSA_Agent_finalize_database_sessions others fuel then ret false else
  NDDSA_Agent_finalize_database_resources fuel.

(** ** Finalization *)

Definition detach_condition (k : AgentPart) : ndds bool :=
  let* ws := the_part PartWaitSet in
  let* condition := the_part k in
  let* rc := ncall (WaitSetDetach ws condition) in
  ret (dds_ok rc).

Definition stop_threads : ndds bool :=
  let* ws := the_part PartWaitSet in
  let* rc := ncall (WaitSetStop ws) in
  if negb (dds_ok rc) then ret false else
  let* generator := the_part PartGenerator in
  ncall (GeneratorShutdown generator);;
  let* sem := the_part PartSemStop in
  ncall (EventSemaphoreTake sem);;
  ret true.

(** An interface is told, and then unlinked. *)
Fixpoint dispose_interfaces (l : list Z) : ndds unit :=
  match l with
  | [] => ret tt
  | intf :: l =>
      ncall (OnInterfaceDisposed intf);;
      upd_agent (set_interfaces l);;
      dispose_interfaces l
  end.

Definition delete_waitset : ndds bool :=
  let* ws := the_part PartWaitSet in
  let* rc := ncall (WaitSetDelete ws) in
  if negb (dds_ok rc) then ret false else
  upd_agent (set_part PartWaitSet None);;
  ret true.

Definition delete_part (k : AgentPart) : ndds unit :=
  delete_kept k;;
  upd_agent (set_part k None).

(** The pointer to the clock stays. *)
Definition delete_parts : ndds unit :=
  each delete_part [PartGenerator; PartTimer];;
  delete_kept PartClock;;
  each delete_part [PartSemStop; PartSemStart; PartCondSessions; PartCondResources; PartCondReads;
    PartPoolReaders; PartPoolWriters; PartPoolReads; PartPoolSamples; PartPoolResources;
    PartPoolEvents].

(** The condition of the sessions is detached twice, that of the resources never. *)
Definition NDDSA_Agent_finalize (others : Ndds -> Ndds) (fuel : nat) : ndds bool :=
  let* ag := the_nd_agent in
  unless (if NddsData.started ag then let* rc := NDDSA_Agent_stop in ret (dds_ok rc) else ret true)
  then ret false else
  each (fun intf => ncall (OnBeforeInterfaceDisposed intf)) (interfaces ag);;
  upd_agent set_disposed;;
  unless while_ok [
      NDDSA_Agent_finalize_database others fuel;
      stop_threads;
      detach_condition PartCondSessions;
      detach_condition PartCondSessions;
      detach_condition PartCondReads ] then ret false else
  let* ag := the_nd_agent in
  dispose_interfaces (interfaces ag);;
  unless while_ok [ NDDSA_AgentDb_finalize; delete_waitset ] then ret false else
  delete_parts;;
  NDDSA_ResourceFactory_finalize;;
  ncall FactoryFinalizeInstance;;
  ret true.

(** The agent that is allocated, [self], is freed when it is not initialized.  What the
    result is then is the address of a field of NULL, which is the first. *)
Definition NDDSA_Agent_create (self : option Z)
    (user_properties : option (bool * NDDSA_ReadStartPoint)) : ndds (option Z) :=
  match self with
  | None => ret None
  | Some self =>
      unless NDDSA_Agent_initialize self user_properties then ret None else ret (Some self)
  end.

(** Whether the agent was finalized does not matter to its deletion. *)
Definition NDDSA_Agent_delete (others : Ndds -> Ndds) (fuel : nat) : ndds unit :=
  let* _ := NDDSA_Agent_finalize others fuel in
  ret tt.
End life.
(** ** The parts of an agent are given back *)

Section parts.
Context {N : NddsApi} {C : ConnextCore}.

Definition is_part_call (c : NCall) : bool :=
  match c with PartNew _ | PartDelete _ _ | WaitSetDelete _ => true | _ => false end.

(** The parts a run made, with their addresses, and those it deleted. *)
Definition part_made (e : nevent) : list (AgentPart * Z) :=
  match e with
  | existT c r =>
      match c return NResp c -> list (AgentPart * Z) with
      | PartNew k => fun r => match r with Some p => [(k, p)] | None => [] end
      | _ => fun _ => []
      end r
  end.
Definition part_deleted (e : nevent) : list (AgentPart * option Z) :=
  match e with
  | existT c r =>
      match c return NResp c -> list (AgentPart * option Z) with
      | PartDelete k p => fun _ => [(k, p)]
      | WaitSetDelete p => fun rc => if dds_ok rc then [(PartWaitSet, p)] else []
      | _ => fun _ => []
      end r
  end.
Definition made (t : list nevent) := mjoin (map part_made t).
Definition given_up (t : list nevent) := mjoin (map part_deleted t).

Lemma made_app t1 t2 : made (t1 ++ t2) = made t1 ++ made t2.
Proof. unfold made. by rewrite map_app, join_app. Qed.
Lemma given_up_app t1 t2 : given_up (t1 ++ t2) = given_up t1 ++ given_up t2.
Proof. unfold given_up. by rewrite map_app, join_app. Qed.

Definition no_part (c : NCall) : bool := negb (is_part_call c).

Lemma made_cons e t : made (e :: t) = part_made e ++ made t.
Proof. done. Qed.
Lemma given_up_cons e t : given_up (e :: t) = part_deleted e ++ given_up t.
Proof. done. Qed.

Lemma no_part_nothing t : only no_part t -> made t = [] /\ given_up t = [].
Proof.
  unfold only. induction t as [|[c r] t IH]; [done |]. cbn [calls map]. intros H.
  apply Forall_cons in H as [Hc Ht]. destruct (IH Ht) as [H1 H2].
  rewrite made_cons, given_up_cons, H1, H2. by destruct c.
Qed.

(** Every part stays where it is. *)
Definition same_parts (s s' : Ndds) : Prop :=
  forall k, part k (nd_agent s') = part k (nd_agent s).
#[local] Instance same_parts_preorder : PreOrder same_parts.
Proof. split; [done |]. intros s1 s2 s3 H1 H2 k. by rewrite H2. Qed.

Lemma part_set_part k k' p a : part k (set_part k' p a) = if decide (k' = k) then p else part k a.
Proof. by destruct k, k'. Qed.
Lemma part_with_life k parser l b d a : part k (with_life parser l b d a) = part k a.
Proof. by destruct k. Qed.

Lemma upd_agent_parts f :
  (forall k a, part k (f a) = part k a) -> preserves same_parts (upd_agent f).
Proof. intros H. unfold upd_agent. nframe. intros k. apply H. Qed.

#[local] Ltac mk := repeat (first [ makes_step | apply (makes_call (R := NResp)); reflexivity ]; cbn beta iota).

(** ** Making them *)

(** The parts [l] were made, and are where the agent says; none was deleted. *)
Definition has_made (l : list AgentPart) (t : list nevent) (s : Ndds) : Prop :=
  map fst (made t) = l /\ given_up t = []
  /\ forall k p, (k, p) ∈ made t -> part k (nd_agent s) = Some p.

Lemma has_made_frame l t s t1 s1 :
  has_made l t s -> only no_part t1 -> same_parts s s1 -> has_made l (t ++ t1) s1.
Proof.
  intros (H1 & H2 & H3) Ht Hs. destruct (no_part_nothing t1 Ht) as [Hm Hg]. unfold has_made.
  rewrite made_app, given_up_app, Hm, Hg, !app_nil_r. split_and!; [done | done |].
  intros k p Hk. rewrite Hs. auto.
Qed.

Lemma has_made_part l k p t s :
  has_made l t s -> k ∉ l ->
  has_made (l ++ [k]) (t ++ [existT (PartNew k) (Some p)])
    (set_nd_agent (set_part k (Some p) (nd_agent s)) s).
Proof.
  intros (H1 & H2 & H3) Hk. unfold has_made. rewrite made_app, given_up_app, made_cons. cbn.
  rewrite app_nil_r, map_app, H1, H2. split_and!; [done | done |].
  intros k' p' H. rewrite part_set_part. apply elem_of_app in H as [H | H].
  - rewrite decide_False; [auto |]. intros ->. apply Hk. rewrite <- H1.
    by apply (list_elem_of_fmap_2 fst) in H.
  - apply list_elem_of_singleton in H as [= -> ->]. by rewrite decide_True.
Qed.

(** A program that makes the parts [l], unless it fails. *)
Definition adds (l : list AgentPart) (m : ndds bool) : Prop :=
  forall l0 t s, has_made l0 t s -> NoDup (l0 ++ l) ->
  when_ends m s (fun t1 ok s1 =>
    if ok then has_made (l0 ++ l) (t ++ t1) s1 else given_up (t ++ t1) = []).

Lemma adds_make_part k : adds [k] (make_part k).
Proof.
  intros l0 t s H Hnd. unfold make_part, upd_agent. repeat ends_step. cbn [app].
  destruct r as [p|]; cbn.
  - apply has_made_part; [done |]. apply NoDup_app in Hnd as (_ & Hd & _).
    intros Hk. by apply (Hd k Hk), list_elem_of_here.
  - destruct H as (_ & H & _). by rewrite given_up_app, H.
Qed.

Lemma adds_ret : adds [] (ret true).
Proof. intros l0 t s H _. ends_step. by rewrite !app_nil_r. Qed.

Lemma adds_seq l1 l2 m1 m2 :
  adds l1 m1 -> adds l2 m2 -> adds (l1 ++ l2) (unless m1 then ret false else m2).
Proof.
  intros H1 H2 l0 t s H Hnd. rewrite app_assoc in *. ends_step.
  eapply when_ends_mono; [apply (H1 l0 t s H); by apply NoDup_app in Hnd as (? & _) |].
  intros t1 [|] s1 Hs1; cbn beta iota in *.
  - eapply when_ends_mono; [by apply (H2 _ _ _ Hs1) |]. intros t2 ok s2. by rewrite !app_assoc.
  - ends_step. by rewrite app_nil_r.
Qed.

Lemma adds_frame (m : ndds bool) : makes no_part m -> preserves same_parts m -> adds [] m.
Proof.
  intros Hm Hp l0 t s H _. eapply when_ends_mono; [by apply when_ends_frame |].
  intros t1 ok s1 [Ht Hs]. rewrite app_nil_r. destruct ok; [by eapply has_made_frame |].
  destruct H as (_ & H & _). destruct (no_part_nothing t1 Ht) as [_ Hg]. by rewrite given_up_app, H, Hg.
Qed.

Lemma adds_while_ok ls ms : Forall2 adds ls ms -> adds (mjoin ls) (while_ok ms).
Proof. induction 1; cbn [while_ok]; [apply adds_ret | by apply adds_seq]. Qed.

Lemma adds_make_parts l : adds l (make_parts l).
Proof.
  induction l as [|k l IH]; cbn [make_parts]; [apply adds_ret |].
  apply (adds_seq [k] l); [apply adds_make_part | done].
Qed.

(** What makes no part. *)
Lemma the_part_calls k : makes no_part (the_part k).
Proof. unfold the_part, the_nd_agent. mk. Qed.
Lemma the_part_frame k : preserves same_parts (the_part k).
Proof. unfold the_part. nframe. Qed.
Lemma the_agent_calls : makes no_part the_nd_agent.
Proof. unfold the_nd_agent. mk. Qed.
#[local] Hint Resolve the_part_calls the_agent_calls : makes.
#[local] Hint Resolve the_part_frame : frames.

Lemma adds_xml_parser : adds [] NDDSA_ResourceFactory_initialize_xml_parser.
Proof.
  unfold NDDSA_ResourceFactory_initialize_xml_parser, initialize_xml_parser.
  apply adds_frame; [unfold upd_agent; mk |]. nframe.
  apply upd_agent_parts. intros. apply part_with_life.
Qed.
Lemma adds_factory : adds [PartFactoryMutex] NDDSA_ResourceFactory_initialize.
Proof. apply (adds_seq []); [apply adds_xml_parser | apply adds_make_part]. Qed.

Lemma upd_db_parts f : preserves same_parts (upd_db f).
Proof. unfold upd_db. nframe. done. Qed.
#[local] Hint Resolve upd_db_parts : frames.
Lemma create_table_parts t ea : preserves same_parts (NDDSA_AgentDb_create_table t ea).
Proof. unfold NDDSA_AgentDb_create_table. nframe. Qed.
Lemma finalize_record_parts t p : preserves same_parts (finalize_record t p).
Proof.
  destruct t; unfold finalize_record, NDDSA_AgentDb_finalize_session_record,
    NDDSA_AgentDb_finalize_resource_record; nframe.
Qed.
Lemma delete_table_parts t : preserves same_parts (NDDSA_AgentDb_delete_table t).
Proof.
  unfold NDDSA_AgentDb_delete_table, remove_table. nframe.
  apply frame_each; [exact _ |]. apply finalize_record_parts.
Qed.
#[local] Hint Resolve create_table_parts delete_table_parts : frames.

Lemma finalize_record_calls t p : makes no_part (finalize_record t p).
Proof.
  destruct t; unfold finalize_record, NDDSA_AgentDb_finalize_session_record,
    NDDSA_AgentDb_finalize_resource_record, session_rec_of, resource_rec_of, the_db; mk.
Qed.
#[local] Hint Resolve finalize_record_calls : makes.
Lemma create_table_calls t ea : makes no_part (NDDSA_AgentDb_create_table t ea).
Proof. unfold NDDSA_AgentDb_create_table, NDDSA_AgentDb_get_worker, upd_db, the_db. mk. Qed.
Lemma delete_table_calls t : makes no_part (NDDSA_AgentDb_delete_table t).
Proof. unfold NDDSA_AgentDb_delete_table, NDDSA_AgentDb_get_worker, remove_table, upd_db, the_db. mk. Qed.
#[local] Hint Resolve create_table_calls delete_table_calls : makes.

Lemma db_initialize_calls self : makes no_part (NDDSA_AgentDb_initialize self).
Proof.
  unfold NDDSA_AgentDb_initialize, initialize_undo, initialize_body, initialize_tables, undo_table,
    NDDSA_AgentDb_get_worker, upd_db, the_db. mk.
Qed.
Lemma db_initialize_parts self : preserves same_parts (NDDSA_AgentDb_initialize self).
Proof.
  unfold NDDSA_AgentDb_initialize, initialize_undo, initialize_body, initialize_tables, undo_table.
  nframe.
Qed.
Lemma db_finalize_calls : makes no_part NDDSA_AgentDb_finalize.
Proof. unfold NDDSA_AgentDb_finalize, NDDSA_AgentDb_get_worker, upd_db, the_db. mk. Qed.
Lemma db_finalize_parts : preserves same_parts NDDSA_AgentDb_finalize.
Proof. unfold NDDSA_AgentDb_finalize. nframe. Qed.

(** In this order. *)
Definition agent_parts : list AgentPart :=
  [PartFactoryMutex; PartPoolReaders; PartPoolWriters; PartPoolResources; PartPoolReads;
   PartPoolSamples; PartPoolEvents; PartClock; PartTimer; PartSemStop; PartSemStart;
   PartCondSessions; PartCondReads; PartCondResources; PartWaitSet; PartGenerator].

Lemma adds_condition k : adds [k] (make_condition k).
Proof.
  apply (adds_seq [k] []); [apply adds_make_part |]. apply adds_frame; [mk | nframe].
Qed.
Lemma adds_attach k : adds [] (attach_condition k).
Proof. apply adds_frame; unfold attach_condition; [mk | nframe]. Qed.
Lemma adds_start : adds [PartGenerator] start_threads.
Proof. apply (adds_seq [PartGenerator] []); [apply adds_make_part |]. apply adds_frame; [mk | nframe]. Qed.

Lemma initialize_makes self props s :
  when_ends (NDDSA_Agent_initialize self props) s (fun t ok s1 =>
    if ok then has_made agent_parts t s1 else given_up t = []).
Proof.
  unfold NDDSA_Agent_initialize, upd_agent. do 4 ends_step.
  set (s0 := set_db _ _). set (ms := [NDDSA_ResourceFactory_initialize; _; _; _; _; _; _; _; _; _; _]).
  assert (H : adds agent_parts (while_ok ms)).
  { apply (adds_while_ok [[PartFactoryMutex]; []; [PartPoolReaders; PartPoolWriters;
      PartPoolResources; PartPoolReads; PartPoolSamples; PartPoolEvents; PartClock; PartTimer;
      PartSemStop; PartSemStart]; [PartCondSessions]; [PartCondReads]; [PartCondResources];
      [PartWaitSet]; []; []; []; [PartGenerator]]).
    repeat apply Forall2_cons_2; try apply Forall2_nil_2; try apply adds_condition;
      try apply adds_attach.
    - apply adds_factory.
    - apply adds_frame; [apply db_initialize_calls | apply db_initialize_parts].
    - apply adds_make_parts.
    - apply adds_make_part.
    - apply adds_start. }
  apply (H [] [] s0); [| by apply (bool_decide_unpack _)].
  split_and!; [done | done |]. intros k p Hk. by apply not_elem_of_nil in Hk.
Qed.

(** ** Deleting them *)

(** From an agent with the fields [a], the parts [l] were deleted; the others are there. *)
Definition has_given (a : NDDSA_Agent) (l : list AgentPart) (t : list nevent) (s : Ndds) : Prop :=
  made t = [] /\ given_up t = map (fun k => (k, part k a)) l
  /\ forall k, k ∉ l -> part k (nd_agent s) = part k a.

Lemma given_frame a l t s t1 s1 :
  has_given a l t s -> only no_part t1 -> same_parts s s1 -> has_given a l (t ++ t1) s1.
Proof.
  intros (H1 & H2 & H3) Ht Hs. destruct (no_part_nothing t1 Ht) as [Hm Hg]. unfold has_given.
  rewrite made_app, given_up_app, Hm, Hg, !app_nil_r. split_and!; [done | done |].
  intros k Hk. rewrite Hs. auto.
Qed.

Lemma given_part a l k t s c r s1 :
  has_given a l t s -> k ∉ l -> part_made (existT c r) = [] ->
  part_deleted (existT c r) = [(k, part k (nd_agent s))] ->
  (forall k', k' <> k -> part k' (nd_agent s1) = part k' (nd_agent s)) ->
  has_given a (l ++ [k]) (t ++ [existT c r]) s1.
Proof.
  intros (H1 & H2 & H3) Hk Hm Hg Hs. unfold has_given.
  rewrite made_app, given_up_app, made_cons, given_up_cons, Hm, Hg, map_app, H1, H2, H3 by done.
  split_and!; [done | by rewrite app_nil_r |].
  intros k' Hk'. apply not_elem_of_app in Hk' as [Hl Hn]. rewrite Hs; [auto |].
  intros ->. by apply Hn, list_elem_of_here.
Qed.

(** A program that deletes the parts [l]. *)
Definition deletes_parts {A} (l : list AgentPart) (m : ndds A) : Prop :=
  forall a l0 t s, has_given a l0 t s -> NoDup (l0 ++ l) ->
  when_ends m s (fun t1 _ s1 => has_given a (l0 ++ l) (t ++ t1) s1).

Lemma deletes_seq {A} l1 l2 (m1 : ndds unit) (m2 : ndds A) :
  deletes_parts l1 m1 -> deletes_parts l2 m2 -> deletes_parts (l1 ++ l2) (m1;; m2).
Proof.
  intros H1 H2 a l0 t s H Hnd. rewrite app_assoc in *. ends_step.
  eapply when_ends_mono; [apply (H1 a l0 t s H); by apply NoDup_app in Hnd as (? & _) |].
  intros t1 u s1 Hs1. eapply when_ends_mono; [by apply (H2 a _ _ _ Hs1) |].
  intros t2 b s2. by rewrite !app_assoc.
Qed.

Lemma deletes_frame {A} (m : ndds A) : makes no_part m -> preserves same_parts m -> deletes_parts [] m.
Proof.
  intros Hm Hp a l0 t s H _. eapply when_ends_mono; [by apply when_ends_frame |].
  intros t1 b s1 [Ht Hs]. rewrite app_nil_r. by eapply given_frame.
Qed.

Lemma deletes_bind {A B} l (m : ndds A) (f : A -> ndds B) :
  makes no_part m -> preserves same_parts m -> (forall r, deletes_parts l (f r)) ->
  deletes_parts l (bind m f).
Proof.
  intros Hm Hp Hf a l0 t s H Hnd. ends_step. eapply when_ends_mono; [by apply when_ends_frame |].
  intros t1 r s1 [Ht Hs]. eapply when_ends_mono; [by eapply (Hf r), Hnd; eapply given_frame |].
  intros t2 b s2. by rewrite app_assoc.
Qed.

Lemma not_twice {A} (l : list A) k : NoDup (l ++ [k]) -> k ∉ l.
Proof. intros Hnd Hk. apply NoDup_app in Hnd as (_ & Hd & _). by apply (Hd k Hk), list_elem_of_here. Qed.

Lemma deletes_part k : deletes_parts [k] (delete_part k).
Proof.
  intros a l0 t s H Hnd. unfold delete_part, delete_kept, the_part, the_nd_agent, upd_agent. repeat ends_step.
  cbn [app]. eapply given_part; [exact H | by apply not_twice | done | done |].
  intros k' Hk. cbn. rewrite part_set_part. by rewrite decide_False.
Qed.

Lemma deletes_each l : deletes_parts l (each delete_part l).
Proof.
  induction l as [|k l IH]; [apply (deletes_frame (ret tt)); [mk | nframe] |].
  change (deletes_parts ([k] ++ l) (bind (delete_part k) (fun _ => each delete_part l))).
  apply deletes_seq; [apply deletes_part | done].
Qed.

(** A call that deletes a part whose field is left. *)
Lemma deletes_kept k : deletes_parts [k] (delete_kept k).
Proof.
  intros a l0 t s H Hnd. unfold delete_kept, the_part, the_nd_agent. repeat ends_step.
  cbn [app]. eapply given_part; [exact H | by apply not_twice | done | done | done].
Qed.

(** ** The end *)

Section finalize.
Context (others : Ndds -> Ndds) (fuel : nat).
Hypothesis Hothers : forall s, same_parts s (others s).

Lemma delete_native_calls rows n target : makes no_part (delete_target rows n target).
Proof.
  eapply makes_weaken; [| apply delete_target_calls]. by intros [].
Qed.
Lemma delete_native_parts rows n target : preserves same_parts (delete_target rows n target).
Proof.
  intros s. eapply tree_ends_mono; [| apply delete_target_deletes].
  intros [r s'] (_ & _ & _ & H & _) k. cbn in *. by rewrite H.
Qed.
#[local] Hint Resolve delete_native_calls delete_native_parts : makes frames.

(** What the database, an exclusive area and a wait do. *)
#[local] Ltac mkdb := unfold NDDSA_AgentDb_lock_sessions, NDDSA_AgentDb_unlock_sessions,
  NDDSA_AgentDb_lock_resources, NDDSA_AgentDb_unlock_resources,
  NDDSA_AgentDb_find_next_session_and_delete_previous,
  NDDSA_AgentDb_find_next_resourceEA, NDDSA_AgentDb_delete_resourceEA,
  NDDSA_AgentDb_iterate_resourcesEA, NDDSA_AgentDb_release_resourceEA,
  NDDSA_AgentDb_release_sessionEA, NDDSA_AgentDb_lookup_sessionEA,
  NDDSA_AgentDb_lookup_resourceEA, with_static_id, lookup_at, delete_at, release_at, lock_table,
  unlock_table, lock_at, started_cursor, finish_safe, remove_record, worker_cursor, free_string,
  NDDSA_AgentDb_get_worker, resource_rec_of, session_rec_of, upd_db, the_db, the_nd_agent; mk.

Lemma find_next_loop_calls n c : makes no_part (find_next_loop n c None).
Proof. induction n; cbn [find_next_loop]; mk. Qed.
Lemma find_next_resource_calls n c : makes no_part (find_next_resource_loop n c None).
Proof. induction n; cbn [find_next_resource_loop]; mk. Qed.
#[local] Hint Resolve find_next_loop_calls find_next_resource_calls : makes.

Lemma wait_calls sem b1 r b2 rr : makes no_part (NDDSA_Agent_wait_for_semaphoreEA others b1 r b2 rr sem).
Proof. unfold NDDSA_Agent_wait_for_semaphoreEA, give_back, take_back. mkdb. Qed.
Lemma wait_parts sem b1 r b2 rr :
  preserves same_parts (NDDSA_Agent_wait_for_semaphoreEA others b1 r b2 rr sem).
Proof.
  unfold NDDSA_Agent_wait_for_semaphoreEA, give_back, take_back, free_string. nframe.
Qed.
#[local] Hint Resolve wait_calls : makes.
#[local] Hint Resolve wait_parts : frames.

Lemma upd_cs_parts p f : preserves same_parts (upd_cs p f).
Proof. unfold upd_cs, upd_session_rec. nframe. done. Qed.
#[local] Hint Resolve upd_cs_parts : frames.

Lemma sessions_loop_calls rows r : makes no_part (finalize_sessions_loop others fuel rows r).
Proof.
  revert r. induction rows as [|rows IH]; intros r; cbn [finalize_sessions_loop]; [mk |].
  unfold NDDSA_Agent_dispose_sessionEA, upd_cs, upd_session_rec. mkdb.
Qed.
Lemma find_delete_parts r :
  preserves same_parts (NDDSA_AgentDb_find_next_session_and_delete_previous fuel None r).
Proof.
  unfold NDDSA_AgentDb_find_next_session_and_delete_previous. nframe.
  apply frame_find_next_loop; [exact _ | done].
Qed.
Lemma find_resource_parts : preserves same_parts (NDDSA_AgentDb_find_next_resourceEA fuel None).
Proof. apply frame_find_next_resource; [exact _ | done]. Qed.
#[local] Hint Resolve sessions_loop_calls : makes.
#[local] Hint Resolve find_delete_parts find_resource_parts : frames.
Lemma sessions_loop_parts rows r :
  preserves same_parts (finalize_sessions_loop others fuel rows r).
Proof.
  revert r. induction rows as [|rows IH]; intros r; cbn [finalize_sessions_loop]; [nframe |].
  unfold NDDSA_Agent_dispose_sessionEA. nframe.
Qed.
Lemma resources_loop_calls rows id r : makes no_part (finalize_resources_loop fuel rows id r).
Proof.
  revert id r. induction rows as [|rows IH]; intros id r; cbn [finalize_resources_loop]; [mk |].
  unfold NDDSA_Agent_delete_native_resourceEA. mkdb.
Qed.
Lemma resources_loop_parts rows id r :
  preserves same_parts (finalize_resources_loop fuel rows id r).
Proof.
  revert id r. induction rows as [|rows IH]; intros id r; cbn [finalize_resources_loop]; [nframe |].
  unfold NDDSA_Agent_delete_native_resourceEA. nframe.
Qed.
#[local] Hint Resolve resources_loop_calls : makes.
#[local] Hint Resolve sessions_loop_parts resources_loop_parts : frames.

Lemma finalize_database_calls : makes no_part (NDDSA_Agent_finalize_database others fuel).
Proof.
  unfold NDDSA_Agent_finalize_database, NDDSA_Agent_finalize_database_sessions,
    NDDSA_Agent_finalize_database_resources, finalize_resources_done. mkdb.
Qed.
Lemma finalize_database_parts : preserves same_parts (NDDSA_Agent_finalize_database others fuel).
Proof.
  unfold NDDSA_Agent_finalize_database, NDDSA_Agent_finalize_database_sessions,
    NDDSA_Agent_finalize_database_resources, finalize_resources_done, free_string. nframe.
Qed.

(** A program that deletes the parts [l] or, when it fails, none. *)
Definition drops (l : list AgentPart) (m : ndds bool) : Prop :=
  forall a l0 t s, has_given a l0 t s -> NoDup (l0 ++ l) ->
  when_ends m s (fun t1 ok s1 => made t1 = [] /\
    if ok then has_given a (l0 ++ l) (t ++ t1) s1 else given_up t1 = []).

(** One that deletes them and does not fail. *)
Definition surely (l : list AgentPart) (m : ndds bool) : Prop :=
  forall a l0 t s, has_given a l0 t s -> NoDup (l0 ++ l) ->
  when_ends m s (fun t1 ok s1 => ok = true /\ has_given a (l0 ++ l) (t ++ t1) s1).

Lemma surely_ret : surely [] (ret true).
Proof. intros a l0 t s H _. ends_step. by rewrite !app_nil_r. Qed.

Lemma surely_seq l1 l2 (m1 : ndds unit) (m2 : ndds bool) :
  deletes_parts l1 m1 -> surely l2 m2 -> surely (l1 ++ l2) (m1;; m2).
Proof.
  intros H1 H2 a l0 t s H Hnd. rewrite app_assoc in *. ends_step.
  eapply when_ends_mono; [apply (H1 a l0 t s H); by apply NoDup_app in Hnd as (? & _) |].
  intros t1 u s1 Hs1. eapply when_ends_mono; [by apply (H2 a _ _ _ Hs1) |].
  intros t2 b s2. by rewrite app_assoc.
Qed.

Lemma drops_false l : drops l (ret false).
Proof. intros a l0 t s H _. by ends_step. Qed.

Lemma drops_bind {A} l (m : ndds A) f :
  makes no_part m -> preserves same_parts m -> (forall r, drops l (f r)) -> drops l (bind m f).
Proof.
  intros Hm Hp Hf a l0 t s H Hnd. ends_step. eapply when_ends_mono; [by apply when_ends_frame |].
  intros t1 r s1 [Ht Hs]. destruct (no_part_nothing t1 Ht) as [Hm1 Hg1].
  eapply when_ends_mono; [by eapply (Hf r), Hnd; eapply given_frame |].
  intros t2 ok s2. by rewrite made_app, given_up_app, Hm1, Hg1, app_assoc.
Qed.

Lemma drops_test l (m : ndds bool) m2 :
  makes no_part m -> preserves same_parts m -> drops l m2 ->
  drops l (unless m then ret false else m2).
Proof. intros Hm Hp H. apply drops_bind; [done | done |]. intros [|]; [done | apply drops_false]. Qed.

Lemma given_made a l t s : has_given a l t s -> made t = [].
Proof. by intros (H & _). Qed.

Lemma drops_surely l1 l2 m1 m2 :
  drops l1 m1 -> surely l2 m2 -> drops (l1 ++ l2) (unless m1 then ret false else m2).
Proof.
  intros H1 H2 a l0 t s H Hnd. rewrite app_assoc in *. ends_step.
  eapply when_ends_mono; [apply (H1 a l0 t s H); by apply NoDup_app in Hnd as (? & _) |].
  intros t1 [|] s1 [Hm Hs1]; cbn beta iota in *; [| ends_step; by rewrite app_nil_r].
  eapply when_ends_mono; [by apply (H2 a _ _ _ Hs1) |].
  intros t2 ok s2 [-> Hg]. rewrite <- (app_assoc t) in Hg. split; [| done].
  apply given_made in Hg. rewrite made_app in Hg. by apply app_eq_nil in Hg as [_ Hg].
Qed.

Lemma drops_waitset : drops [PartWaitSet] delete_waitset.
Proof.
  intros a l0 t s H Hnd. unfold delete_waitset, the_part, the_nd_agent, upd_agent.
  repeat ends_step. cbn [app]. destruct (dds_ok r) eqn:Hr; cbn [negb]; repeat ends_step; cbn [app].
  - split; [done |]. eapply given_part; [exact H | by apply not_twice | done | |].
    + cbn. by rewrite Hr.
    + intros k' Hk. cbn. rewrite part_set_part. by rewrite decide_False.
  - split; [done |]. unfold given_up. cbn. by rewrite Hr.
Qed.

Definition parts_given : list AgentPart :=
  [PartWaitSet; PartGenerator; PartTimer; PartClock; PartSemStop; PartSemStart; PartCondSessions;
   PartCondResources; PartCondReads; PartPoolReaders; PartPoolWriters; PartPoolReads;
   PartPoolSamples; PartPoolResources; PartPoolEvents; PartFactoryMutex].

Lemma deletes_factory : deletes_parts [PartFactoryMutex] NDDSA_ResourceFactory_finalize.
Proof.
  apply (deletes_bind [PartFactoryMutex]); [mk | nframe |]. intros ag.
  apply (deletes_seq []); [apply deletes_frame; [mk | nframe] | apply deletes_kept].
Qed.
Lemma deletes_kept_each l : deletes_parts (PartClock :: l) (delete_kept PartClock;; each delete_part l).
Proof. apply (deletes_seq [PartClock] l); [apply deletes_kept | apply deletes_each]. Qed.

Lemma surely_parts :
  surely (drop 1 parts_given)
    (delete_parts;; NDDSA_ResourceFactory_finalize;; ncall FactoryFinalizeInstance;; ret true).
Proof.
  apply (surely_seq [PartGenerator; PartTimer; PartClock; PartSemStop; PartSemStart;
    PartCondSessions; PartCondResources; PartCondReads; PartPoolReaders; PartPoolWriters;
    PartPoolReads; PartPoolSamples; PartPoolResources; PartPoolEvents] [PartFactoryMutex]).
  - apply (deletes_seq [PartGenerator; PartTimer]); [apply deletes_each | apply deletes_kept_each].
  - apply (surely_seq [PartFactoryMutex] []); [apply deletes_factory |].
    apply (surely_seq [] []); [apply deletes_frame; [mk | nframe] | apply surely_ret].
Qed.

Lemma tell_loop_calls tell l : (forall i, makes no_part (tell i)) -> makes no_part (tell_loop tell l).
Proof. intros H. induction l; cbn [tell_loop]; mk. Qed.
Lemma tell_loop_parts tell l :
  (forall i, preserves same_parts (tell i)) -> preserves same_parts (tell_loop tell l).
Proof. intros H. induction l; cbn [tell_loop]; nframe. Qed.
Lemma stop_calls : makes no_part NDDSA_Agent_stop.
Proof. unfold NDDSA_Agent_stop, upd_agent. mk; apply tell_loop_calls; intros; mk. Qed.
Lemma life_parts f : (forall a, exists p l b d, f a = with_life p l b d a) ->
  preserves same_parts (upd_agent f).
Proof.
  intros H. apply upd_agent_parts. intros k a. destruct (H a) as (? & ? & ? & ? & ->).
  apply part_with_life.
Qed.
Lemma stop_parts : preserves same_parts NDDSA_Agent_stop.
Proof.
  unfold NDDSA_Agent_stop. nframe; [apply tell_loop_parts; intros; nframe |].
  apply life_parts. intros. by repeat eexists.
Qed.
Lemma dispose_calls l : makes no_part (dispose_interfaces l).
Proof. induction l; cbn [dispose_interfaces]; unfold upd_agent; mk. Qed.
Lemma dispose_parts l : preserves same_parts (dispose_interfaces l).
Proof.
  induction l; cbn [dispose_interfaces]; nframe. apply life_parts. intros. by repeat eexists.
Qed.
Lemma set_disposed_parts : preserves same_parts (upd_agent set_disposed).
Proof. apply life_parts. intros. by repeat eexists. Qed.

Lemma before_parts : preserves same_parts (while_ok [
  NDDSA_Agent_finalize_database others fuel; stop_threads;
  detach_condition PartCondSessions; detach_condition PartCondSessions;
  detach_condition PartCondReads ]).
Proof.
  pose proof finalize_database_parts. cbn [while_ok]. unfold stop_threads, detach_condition. nframe.
Qed.
Lemma before_calls : makes no_part (while_ok [
  NDDSA_Agent_finalize_database others fuel; stop_threads;
  detach_condition PartCondSessions; detach_condition PartCondSessions;
  detach_condition PartCondReads ]).
Proof.
  pose proof finalize_database_calls. cbn [while_ok]. unfold stop_threads, detach_condition. mk.
Qed.

Lemma drops_finalize : drops parts_given (NDDSA_Agent_finalize others fuel).
Proof.
  pose proof stop_calls; pose proof stop_parts; pose proof dispose_calls; pose proof dispose_parts.
  unfold NDDSA_Agent_finalize. apply drops_bind; [mk | nframe |]. intros ag.
  apply drops_test; [mk | nframe |].
  apply drops_bind; [mk | apply frame_each; [exact _ | intros; nframe] |]. intros _.
  apply drops_bind; [unfold upd_agent; mk | apply set_disposed_parts |]. intros _.
  apply drops_test; [apply before_calls | apply before_parts |].
  apply drops_bind; [mk | nframe |]. intros ag2. apply drops_bind; [done | done |]. intros _.
  apply (drops_surely [PartWaitSet] (drop 1 parts_given)); [| apply surely_parts].
  cbn [while_ok]. apply drops_test; [apply db_finalize_calls | apply db_finalize_parts |].
  apply (drops_surely [PartWaitSet] []); [apply drops_waitset | apply surely_ret].
Qed.

(** ** The whole life *)

Lemma parts_given_all : parts_given ≡ₚ agent_parts.
Proof. by apply (bool_decide_unpack _). Qed.

(** What a run makes of an agent: created, used, finalized.  [None]: it was not created. *)
Definition agent_life (self : Z) (props : option (bool * NDDSA_ReadStartPoint))
    (use : Ndds -> Ndds) : ndds (option bool) :=
  let* agent := NDDSA_Agent_create (Some self) props in
  match agent with
  | None => ret None
  | Some _ =>
      modify use;;
      let* ok := NDDSA_Agent_finalize others fuel in
      ret (Some ok)
  end.

(** C31: An agent is deleted wholly or not at all.  One that is created and then finalized
    successfully has made each of its sixteen parts once, and each is deleted once, with the
    address it was made at.  When it is not created, or when its finalization fails at any
    point, no part is deleted: those that were made stay. *)
Theorem agent_parts_given_back self props use s :
  (forall s, same_parts s (use s)) ->
  when_ends (agent_life self props use) s (fun t r _ =>
    match r with
    | Some true => map fst (made t) = agent_parts
                   /\ given_up t ≡ₚ map (fun '(k, p) => (k, Some p)) (made t)
    | Some false => map fst (made t) = agent_parts /\ given_up t = []
    | None => given_up t = []
    end).
Proof.
  intros Huse. unfold agent_life, NDDSA_Agent_create. do 2 ends_step.
  eapply when_ends_mono; [apply initialize_makes |]. intros t1 [|] s1 Ht1; cbn beta iota in *; cycle 1.
  { repeat ends_step. by rewrite !app_nil_r. }
  do 4 ends_step. eapply when_ends_mono.
  { apply (drops_finalize (nd_agent (use s1)) [] [] (use s1)); [done |].
    by apply (bool_decide_unpack _). }
  intros t2 ok s2 [Hm2 Ht2]. ends_step. rewrite !app_nil_r. cbn [app]. rewrite made_app, given_up_app, Hm2, app_nil_r.
  destruct Ht1 as (Hm1 & -> & Hp). destruct ok; cbn [app] in *; [| done].
  split; [done |]. destruct Ht2 as (_ & Hg & _). cbn [app] in Hg. rewrite Hg, parts_given_all, <- Hm1, map_map.
  match goal with |- ?l ≡ₚ ?l' => replace l with l'; [done |] end.
  apply map_ext_in. intros [k p] Hk%list_elem_of_In. cbn. f_equal. rewrite Huse. symmetry. auto.
Qed.
End finalize.
End parts.

(** An environment that gives and accepts everything, with an empty database. *)
Definition willing_ndds (past : list nevent) (c : NCall) : NResp c :=
  match c as c return NResp c with
  | PartNew _ => Some (Z.of_nat (length past))
  | FactoryGetInstance => Some 1
  | FactoryQosProvider _ => Some 2
  | QosProviderXmlParser _ => Some 3
  | XmlRegisterExtension _ => true
  | FactoryGetWorkerFactory _ => Some 4
  | GetWorker _ => Some 5
  | ExclusiveAreaNew _ _ => Some 6
  | DatabaseNew _ _ _ => Some 7
  | DatabaseCreateTable _ _ _ _ => true
  | DatabaseCreateCursorPerWorker _ _ => Some 8
  | DatabaseCleanup _ _ => (true, true)
  | DatabaseDelete _ _ => true
  | CursorAssert _ _ => Some 9
  | CursorAssertAndStart _ _ => (true, Some 9, [9])
  | CursorStart _ => true
  | CursorLockTable _ => true
  | CursorRemoveTable _ => (true, [])
  | c => quiet_ndds c
  end%Z.

Definition willing_life : option bool * nat :=
  let '(t, o) := exec willing_ndds [] (agent_life (fun s => s) 5 1%Z None (fun s => s) sample_ndds) in
  (match o with Returned (r, _) => r | _ => None end, length (given_up t)).

Lemma agent_parts_given_back_witness :
  willing_life = (Some true, 16)
  /\ when_ends (agent_life (fun s => s) 5 1%Z None (fun s => s)) sample_ndds (fun t r _ =>
       match r with
       | Some true => map fst (made t) = agent_parts
                      /\ given_up t ≡ₚ map (fun '(k, p) => (k, Some p)) (made t)
       | Some false => map fst (made t) = agent_parts /\ given_up t = []
       | None => given_up t = []
       end).
Proof.
  split; [by vm_compute |].
  by apply (agent_parts_given_back (fun s => s) 5).
Defined.
(** ** Records that are left *)

Section leftover.
Context {N : NddsApi} {C : ConnextCore}.
Context (rp : Z).

(** The database does what it is asked, and its first resource is [rp]. *)
Definition obliging (e : nevent) : Prop :=
  match e with
  | existT c r =>
      match c return NResp c -> Prop with
      | GetWorker _ | CursorAssert _ _ => fun r => is_Some r
      | CursorAssertAndStart _ _ => fun r => fst (fst r) = true /\ is_Some (snd (fst r))
      | CursorLockTable _ | CursorGotoNext _ => fun r => r = true
      | CursorModify _ => fun r => r = Some rp
      | _ => fun _ => True
      end r
  end.

Lemma quiet_oblige_cursor t s : quiet obliging (worker_cursor t) s is_Some.
Proof.
  unfold quiet, worker_cursor, NDDSA_AgentDb_get_worker. do 4 nstep. destruct H as [w ->].
  do 3 nstep. split_and!; [by repeat constructor | done | done].
Qed.
Lemma quiet_oblige_lock t s : quiet obliging (lock_table t true true) s (eq true).
Proof.
  unfold quiet, lock_table, started_cursor, lock_at, NDDSA_AgentDb_get_worker.
  do 6 nstep. destruct H as [w ->]. do 2 nstep. destruct r as [[b o] l], H as [Hb [c Hc]].
  cbn in Hb, Hc. subst b o. do 2 nstep. cbn in H. subst r. repeat nstep. split_and!; [by repeat constructor | done | done].
Qed.
Lemma quiet_oblige_release t s : quiet obliging (release_at t) s (eq true).
Proof.
  unfold release_at. eapply quiet_seq; [apply quiet_oblige_cursor |]. intros o [c ->].
  unfold quiet. repeat nstep. split_and!; [by repeat constructor | done | done].
Qed.
Lemma quiet_oblige_unlock t s : quiet obliging (unlock_table t true) s (eq true).
Proof.
  unfold unlock_table. eapply quiet_seq; [apply quiet_oblige_cursor |]. intros o [c ->].
  unfold quiet, finish_safe. repeat nstep. split_and!; [by repeat constructor | done | done].
Qed.
Lemma quiet_oblige_find fuel s :
  quiet obliging (NDDSA_AgentDb_find_next_resourceEA (S fuel) None) s (eq (true, Some rp)).
Proof.
  unfold NDDSA_AgentDb_find_next_resourceEA. eapply quiet_seq; [apply quiet_oblige_cursor |].
  intros o [c ->]. cbn [find_next_resource_loop]. unfold quiet. do 2 nstep. cbn in H. subst r.
  do 2 nstep. cbn in H. subst r. repeat nstep. split_and!; [by repeat constructor | done | done].
Qed.

Lemma quiet_leftover n fuel s rec id :
  resource_at s !! rp = Some rec ->
  (0 < attached_count (rr_resource rec))%Z
    \/ id_kind (res_id (resource_base (rr_resource rec))) = RESOURCEIDKIND_NONE ->
  id_kind id = RESOURCEIDKIND_NONE ->
  quiet obliging (finalize_resources_loop n (S fuel) id (Some rp)) s (fun r =>
    fst r = (false, Some rp) /\ id_kind (snd r) = RESOURCEIDKIND_NONE).
Proof.
  intros Hrec Hleft Hid. cbn [finalize_resources_loop]. eapply quiet_reads; [exact Hrec |].
  case_match eqn:Hc; [by apply quiet_ret |].
  destruct Hleft as [Hl | Hl]; [apply Z.ltb_ge in Hc; lia |].
  unfold D2S2_ResourceId_copy. rewrite Hl, Hid. by apply quiet_ret.
Qed.

(** The end of the database answers that it succeeded although it deleted nothing: when the
    first resource still has a session, or was deleted before, so that its identifier names
    nothing, it is released, and the failure is reported as [DDS_RETCODE_ERROR], which is TRUE. *)
Theorem leftover_resource_is_success fuel s rec :
  resource_at s !! rp = Some rec ->
  (0 < attached_count (rr_resource rec))%Z
    \/ id_kind (res_id (resource_base (rr_resource rec))) = RESOURCEIDKIND_NONE ->
  spec obliging (NDDSA_Agent_finalize_database_resources (S fuel)) s (fun t ok s' =>
    ok = true /\ cursors_only t /\ s' = s).
Proof.
  intros Hrec Hleft. eapply spec_mono with (Q := fun t ok s' => cursors_only t /\ s' = s /\ ok = true);
    [| naive_solver].
  change (quiet obliging (NDDSA_Agent_finalize_database_resources (S fuel)) s (fun ok => ok = true)).
  unfold NDDSA_Agent_finalize_database_resources.
  eapply quiet_seq; [apply quiet_oblige_lock |]. intros b <-.
  eapply quiet_seq; [apply quiet_oblige_find |]. intros f <-. cbn [fst snd negb].
  eapply quiet_seq; [by eapply quiet_leftover |]. intros [[b h] id] [[= -> ->] Hid].
  cbn [fst snd] in *. unfold finalize_resources_done.
  eapply (quiet_seq _ _ _ _ (eq true)).
  { eapply quiet_seq; [apply quiet_oblige_release |]. intros b <-. by apply quiet_ret. }
  intros b <-. eapply (quiet_seq _ _ _ _ (eq true)).
  { eapply quiet_seq; [apply quiet_oblige_unlock |]. intros b <-. by apply quiet_ret. }
  intros b <-. eapply (quiet_seq _ _ _ _ (fun _ => True)); [| intros; by apply quiet_ret].
  unfold D2S2_ResourceId_finalize. rewrite Hid. by apply quiet_ret.
Qed.
End leftover.

(** A resource whose identifier was finalized. *)
Definition leftover_state : Ndds := put_resource 200%Z (new_resource_record None None) sample_ndds.

Lemma leftover_resource_is_success_witness :
  spec (obliging 200%Z) (NDDSA_Agent_finalize_database_resources 3) leftover_state (fun t ok s' =>
    ok = true /\ cursors_only t /\ s' = leftover_state).
Proof.
  apply (leftover_resource_is_success 200%Z 2 leftover_state (new_resource_record None None));
    [reflexivity | right; reflexivity].
Defined.

(** ** Events of a session *)

Section session_event.
Context {N : NddsApi} {C : ConnextCore}.

(** What the service is told of events, with its answer, and what is to be posted, with its time. *)
Definition told (e : nevent) : list (option Z * Z * Z * bool) :=
  match e with
  | existT c r =>
      match c return NResp c -> list (option Z * Z * Z * bool) with
      | OnSessionEvent f session event => fun r => [(f, session, event, r)]
      | _ => fun _ => []
      end r
  end.
Definition posted (e : nevent) : list (NtpTime * EventListener) :=
  match e with existT c _ => match c with PostEvent ts l => [(ts, l)] | _ => [] end end.

Definition all_told (t : list nevent) := mjoin (map told t).
Definition all_posted (t : list nevent) := mjoin (map posted t).

Lemma all_told_app t1 t2 : all_told (t1 ++ t2) = all_told t1 ++ all_told t2.
Proof. unfold all_told. by rewrite map_app, join_app. Qed.
Lemma all_posted_app t1 t2 : all_posted (t1 ++ t2) = all_posted t1 ++ all_posted t2.
Proof. unfold all_posted. by rewrite map_app, join_app. Qed.

Lemma cursors_silent t : cursors_only t -> all_told t = [] /\ all_posted t = [].
Proof.
  unfold cursors_only, only. induction t as [|[c r] t IH]; [done |]. cbn [calls map]. intros H.
  apply Forall_cons in H as [Hc Ht]. destruct (IH Ht) as [H1 H2].
  change (told (existT c r) ++ all_told t = [] /\ posted (existT c r) ++ all_posted t = []).
  rewrite H1, H2. by destruct c.
Qed.

Context (rp : Z) (src : option Z) (event : Z) (live : bool) (s : Ndds).
Context (e : NDDSA_ClientSessionEvent) (rec : NDDSA_ClientSessionRecord).
Hypothesis He : event_at s !! event = Some e.
Hypothesis Hrec : session_at s !! rp = Some rec.

(** The event of a session that is open, that comes from the interface of the session and was
    not deleted. *)
Definition due : bool :=
  live && NDDSA_ClientSession_active (sr_session rec) && bool_decide (cs_intf (sr_session rec) = src).

Definition event_again : NDDSA_ClientSessionEvent := set_event_live true (set_delay_ts (delay_ts e) e).

(** The event is to be posted once more, for the time when its delay is over, unless there is no
    time. *)
Definition posted_again (t : list nevent) : Prop :=
  exists ok now, In (existT ClockGetTime (ok, now)) t
    /\ all_posted t = if ok : bool then [(NtpTime_add now (delay_ts e), SessionEvent event true)] else [].

Lemma fire_spec E :
  spec E (NDDSA_Agent_fire_session_event event (delay_ts e)) s (fun t _ s' =>
    all_told t = [] /\ s' = put_event event event_again s /\ posted_again t).
Proof.
  unfold NDDSA_Agent_fire_session_event, NDDSA_Agent_post_event. nstep.
  eapply spec_reads; [exact He |]. repeat nstep.
  all: destruct r as [[] now]; cbn [fst snd negb] in *; try discriminate.
  all: split_and!; [done | done |]; eexists _, now; (split; [by left | done]).
Qed.

Lemma posted_again_app t0 t t3 :
  all_posted t0 = [] -> all_posted t3 = [] -> posted_again t -> posted_again (t0 ++ t ++ t3).
Proof.
  intros H0 H3 (ok & now & Hin & Hp). exists ok, now. split.
  - apply in_or_app. right. apply in_or_app. by left.
  - by rewrite !all_posted_app, H0, H3, Hp, app_nil_r.
Qed.

(** The session of a key is had, or the database refuses. *)
Lemma lookup_session_finds key :
  spec (finds rp) (NDDSA_AgentDb_lookup_session key) s (fun t r s' =>
    cursors_only t /\ s' = s
    /\ (r = Some (Some rp) \/ (forall p, r <> Some (Some p)) /\ List.Exists record_refused t)).
Proof.
  unfold NDDSA_AgentDb_lookup_session, NDDSA_AgentDb_lookup_record, started_cursor, finish_safe,
    NDDSA_AgentDb_get_worker.
  repeat nstep; try (split_and!; [by repeat constructor | done |]); try done.
  all: cbn in *; first
    [ left; by destruct H2 as [|[= ->]]
    | right; split; [done |]; rewrite ?List.Exists_cons; cbn; tauto ].
Qed.

Lemma quiet_release_rec E p s' : quiet E (release_session_rec p) s' (fun _ => True).
Proof.
  unfold release_session_rec. destruct p; [| by apply quiet_ret].
  eapply quiet_seq; [apply quiet_release_record |]. intros b _. by apply quiet_ret.
Qed.

(** C40: The service is told of an event of a session at most once, with the session whose key the
    event has: exactly when that session is open, the event comes from the interface that opened
    it and was not deleted, unless the database refuses the record.  It is posted again, once and
    for the time when its delay is over, exactly if the service asks for it, unless the clock
    refuses; and nothing else changes. *)
Theorem session_event_guarded :
  spec (finds rp) (NDDSA_Agent_on_session_event src event live) s (fun t _ s' =>
    (all_told t = [] /\ all_posted t = [] /\ s' = s
       /\ (due = false \/ List.Exists record_refused t)
     \/ exists again, due = true /\ all_told t = [(se_on_event e, rp, event, again)]
        /\ (if again then posted_again t /\ s' = put_event event event_again s
            else all_posted t = [] /\ s' = s))).
Proof.
  unfold NDDSA_Agent_on_session_event. nstep. eapply spec_reads; [exact He |].
  unfold lookup_active. nstep. nstep. eapply spec_mono; [apply lookup_session_finds |].
  intros t r s1 (Ht & -> & Hr). destruct (cursors_silent t Ht) as [Htold Hposted].
  assert (Hleft : forall t0 p, cursors_only t0 -> due = false \/ List.Exists record_refused t0 ->
    spec (finds rp) (release_session_rec p) s (fun t' _ s' =>
      all_told (t0 ++ t') = [] /\ all_posted (t0 ++ t') = [] /\ s' = s
      /\ (due = false \/ List.Exists record_refused (t0 ++ t')))).
  { intros t0 p Ht0 Hno. destruct (cursors_silent t0 Ht0) as [H1 H2].
    eapply spec_mono; [apply quiet_release_rec |]. intros t' [] s' (Ht' & -> & _).
    destruct (cursors_silent t' Ht') as [H3 H4].
    rewrite all_told_app, all_posted_app, List.Exists_app, H1, H2, H3, H4. naive_solver. }
  destruct Hr as [-> | [Hno Href]]; cycle 1.
  { destruct r as [[p|]|]; [by destruct (Hno p) | ..]; nstep; rewrite app_nil_r;
      (eapply spec_mono; [apply (Hleft t None); auto | intros; by left]). }
  nstep. eapply spec_reads; [exact Hrec |]. nstep. cbn [app]. rewrite app_nil_r.
  assert (Hnot : due = false -> spec (finds rp) (release_session_rec (Some rp)) s (fun t' _ s' =>
    all_told (t ++ t') = [] /\ all_posted (t ++ t') = [] /\ s' = s
      /\ (due = false \/ List.Exists record_refused (t ++ t'))
    \/ exists again, due = true /\ all_told (t ++ t') = [(se_on_event e, rp, event, again)]
       /\ (if again then posted_again (t ++ t') /\ s' = put_event event event_again s
           else all_posted (t ++ t') = [] /\ s' = s))).
  { intros Hd. eapply spec_mono; [apply (Hleft t (Some rp)); auto | intros; by left]. }
  destruct (NDDSA_ClientSession_active (sr_session rec)) eqn:Hact;
    [| apply Hnot; unfold due; by rewrite Hact, andb_false_r].
  nstep. eapply spec_reads; [exact Hrec |]. destruct (bool_decide _) eqn:Hsrc; cycle 1.
  { cbn [andb]. nstep. nstep. apply Hnot. unfold due. by rewrite Hsrc, andb_false_r. }
  destruct live eqn:Hlive; cycle 1. { cbn [andb]. nstep. nstep. apply Hnot. unfold due. by rewrite Hlive. }
  assert (Hdue : due = true) by (unfold due; by rewrite Hact, Hsrc, Hlive).
  cbn [andb]. nstep. nstep. nstep. destruct r.
  - nstep. eapply spec_reads; [exact He |]. nstep. eapply spec_mono; [apply fire_spec |].
    intros t1 rc s1 (H1 & -> & H2). nstep. eapply spec_mono; [apply quiet_release_rec |].
    intros t' [] s' (Ht' & -> & _). destruct (cursors_silent t' Ht') as [H4 H5]. right. exists true.
    split; [done |]. split.
    + repeat (rewrite ?all_told_app; cbn [app]). rewrite Htold, H1, H4. cbn. by rewrite ?app_nil_r.
    + split; [| done].
      pose proof (posted_again_app (t ++ [existT (OnSessionEvent (se_on_event e) rp event) true]) t1 t') as Hpa.
      cbn [app] in *. rewrite ?app_nil_r, <- ?app_assoc in *. cbn [app] in *. apply Hpa; [| done | done].
      rewrite all_posted_app, Hposted. done.
  - nstep. eapply spec_mono; [apply quiet_release_rec |].
    intros t' [] s' (Ht' & -> & _). destruct (cursors_silent t' Ht') as [H4 H5]. right. exists false.
    repeat (rewrite ?all_told_app, ?all_posted_app; cbn [app]).
    rewrite Htold, Hposted, H4, H5. by split_and!.
Qed.
End session_event.

(** The event of an open session, and the session. *)
Definition due_event : NDDSA_ClientSessionEvent :=
  {| se_intf := Some 50; se_session_key := D2S2_CLIENTSESSIONKEY_INITIALIZER; se_listener := None;
     se_on_event := Some 60; delay_ts := 5; se_storage := (Some 1, Some 50, Some 70);
     se_live := true; sem_cancelled := None |}%Z.
Definition due_session : NDDSA_ClientSessionRecord :=
  {| sr_session := opened_session 1%Z (Some 50%Z) D2S2_CLIENTSESSIONKEY_INITIALIZER (-1)%Z None
                     NDDSA_CLIENTSESSION_INITIALIZER; sr_ea := None |}.
Definition due_state : Ndds := put_event 70%Z due_event (put_session 100%Z due_session sample_ndds).

Lemma session_event_guarded_witness :
  due (Some 50%Z) true due_session = true
  /\ spec (finds 100%Z) (NDDSA_Agent_on_session_event (Some 50%Z) 70%Z true) due_state (fun t _ s' =>
    (all_told t = [] /\ all_posted t = [] /\ s' = due_state
       /\ (due (Some 50%Z) true due_session = false \/ List.Exists record_refused t)
     \/ exists again, due (Some 50%Z) true due_session = true
        /\ all_told t = [(se_on_event due_event, 100%Z, 70%Z, again)]
        /\ (if again then posted_again 70%Z due_event t
                          /\ s' = put_event 70%Z (event_again due_event) due_state
            else all_posted t = [] /\ s' = due_state))).
Proof.
  split; [reflexivity |].
  apply (session_event_guarded 100%Z (Some 50%Z) 70%Z true due_state due_event due_session);
    reflexivity.
Defined.
