(* ===== verification/NddsXml.v ===== *)
(** * DDS agent: resources created from XML

    Models [NddsXmlResource.c].  The text of a resource is searched for an element and
    its name, without a parser of XML; the element is loaded into the factory of Connext
    and the entities it describes are created from the configuration that was loaded.

    - A pointer into the text is the suffix it points at.  A pointer that ends the text to
      look at is the number of characters after it: [a >= b] is [strlen a <= strlen b].
    - A sequence of created resources is the list of its elements.  An element that is
      added is initialized.
    - The loops over the elements of a library take fuel: more than the characters of the
      text.  Every element that is found ends after its start, [element_shorter]. *)

From Stdlib Require Import ZArith Lia Ascii String.
From stdpp Require Import base tactics list gmap.
From S2P Require Import Prelude.
From S2P Require Import CString.
From S2P Require Import Infrastructure.
From S2P Require Import EntityName.
From S2P Require Import Interaction.
From S2P Require Import ServiceData.
From S2P Require Import NddsData.
From S2P Require Import NddsResources.

Local Open Scope nano_scope.

Record NDDSA_CreatedResourceLog := { log_id : D2S2_ResourceId; log_kind : D2S2_ResourceKind }.

Definition NDDSA_CREATEDRESOURCELOG_INITIALIZER : NDDSA_CreatedResourceLog :=
  {| log_id := D2S2_RESOURCEID_INITIALIZER; log_kind := RESOURCEKIND_UNKNOWN |}.

Abbreviation LogSeq := (list NDDSA_CreatedResourceLog).

(** ** Elements *)

Definition QUOTE : ascii := "034"%char.
Definition NAME_PFX : cstr := of_string "name=" ++ [QUOTE].
Definition REF_SEPARATOR : cstr := of_string "::".

(** The element of a tag and what follows it.  Only the first occurrence of the tag is
    looked at: one that starts a longer tag hides the elements after it. *)
Definition NDDSA_XmlResource_find_first_xml_element (xml_str open_tag close_tag : cstr)
    : option (cstr * cstr) :=
  match strstr xml_str open_tag with
  | None => None
  | Some k =>
      let xml_el_start := drop k xml_str in
      match drop (strlen open_tag) xml_el_start with
      | next_ch :: _ =>
          if Ascii.eqb next_ch " " || Ascii.eqb next_ch ">" then
            match strstr xml_el_start close_tag with
            | None => None
            | Some j => Some (xml_el_start, drop (j + strlen close_tag) xml_el_start)
            end
          else None
      | [] => None
      end
  end.

Section create.
Context {N : NddsApi} {C : ConnextCore}.

(** What is after the opening tag and the name, which is allocated. *)
Definition NDDSA_XmlResource_parse_xml_element_name (el_xml open_tag : cstr)
    : ndds (option (cstr * cstr)) :=
  match strstr el_xml open_tag with
  | None => ret None
  | Some k =>
      let el_start := drop (k + strlen open_tag) el_xml in
      match strstr el_start NAME_PFX with
      | None => ret None
      | Some k =>
          let el_start := drop (k + strlen NAME_PFX) el_start in
          match strstr el_start [QUOTE] with
          | None => ret None
          | Some el_end =>
              let el_name := take (Z.to_nat (u32 (Z.of_nat el_end))) el_start in
              unless ncall StringAllocation then ret None else
              match strstr el_start (of_string ">") with
              | None => ncall (StringFree el_name);; ret None
              | Some k => ret (Some (drop (k + 1) el_start, el_name))
              end
          end
      end
  end.

(** ** Logs of what was created *)

Definition NDDSA_CreatedResourceLog_finalize_w_params (self : NDDSA_CreatedResourceLog)
    : freed * NDDSA_CreatedResourceLog :=
  let '(f, id) := D2S2_ResourceId_finalize (log_id self) in
  (f, {| log_id := id; log_kind := log_kind self |}).

Definition NDDSA_CreatedResourceLog_copy (dst src : NDDSA_CreatedResourceLog)
    : bool * NDDSA_CreatedResourceLog :=
  let '(ok, id) := D2S2_ResourceId_copy (log_id dst) (log_id src) in
  (ok, {| log_id := id; log_kind := log_kind src |}).

Definition ensure_length (logs : LogSeq) (n : nat) : ndds (option LogSeq) :=
  let* ok := ncall (SequenceRoom n) in
  ret (if ok : bool then Some (resize n NDDSA_CREATEDRESOURCELOG_INITIALIZER logs) else None).

Definition get_reference (logs : LogSeq) (i : nat) : ndds NDDSA_CreatedResourceLog :=
  reads (fun _ => logs !! i).

Definition string_append (s1 sep s2 : cstr) : ndds (option cstr) :=
  let* ok := ncall StringAllocation in
  ret (NDDSA_StringUtil_append (fun _ => ok) s1 sep s2).

Definition free_name (name : option cstr) : ndds unit :=
  match name with Some s => ncall (StringFree s) | None => ret tt end.

(** What is written to the log of a resource. *)
Definition logged (kind : D2S2_ResourceKind) (name : cstr) (log : NDDSA_CreatedResourceLog)
    : bool * NDDSA_CreatedResourceLog :=
  let '(ok, id) := D2S2_ResourceId_initialize_ref (log_id log) (Some name) in
  (ok, {| log_id := id; log_kind := kind |}).

(** ** The elements of a library *)

(** The variables of a loop: the last name and full name, which are allocated, what was
    created, and how many. *)
Record XmlLoop := {
  xml_name : option cstr;
  xml_full_name : option cstr;
  xml_logs : LogSeq;
  xml_count : nat
}.

Definition set_logs (logs : LogSeq) (st : XmlLoop) : XmlLoop :=
  {| xml_name := xml_name st; xml_full_name := xml_full_name st; xml_logs := logs;
     xml_count := xml_count st |}.

Definition set_names (name full : option cstr) (st : XmlLoop) : XmlLoop :=
  {| xml_name := name; xml_full_name := full; xml_logs := xml_logs st; xml_count := xml_count st |}.

Definition log_added (logs : LogSeq) (st : XmlLoop) : XmlLoop :=
  {| xml_name := xml_name st; xml_full_name := xml_full_name st; xml_logs := logs;
     xml_count := S (xml_count st) |}.

(** Each loop: [element] has the start of an element and what follows it.  No element is
    looked at that starts at [bound] or later. *)
Fixpoint elements_loop {X} (fuel : nat) (open_tag close_tag : cstr) (bound : option nat)
    (element : cstr -> cstr -> X -> ndds (bool * X)) (head : cstr) (x : X) : ndds (bool * X) :=
  match fuel with
  | O => unfinished
  | S fuel =>
      match head with
      | [] => ret (true, x)
      | _ =>
          match NDDSA_XmlResource_find_first_xml_element head open_tag close_tag with
          | None => ret (true, x)
          | Some (xml_start, xml_end) =>
              if (match bound with Some b => strlen xml_start <=? b | None => false end)%nat
              then ret (true, x) else
              let* r := element xml_start xml_end x in
              if fst r then elements_loop fuel open_tag close_tag bound element xml_end (snd r)
              else ret r
          end
      end
  end.

(** The names of an element replace those of the last; the answer is the content and the
    full name. *)
Definition element_names (lib_name open_tag xml_start : cstr) (st : XmlLoop)
    : ndds (option (cstr * cstr) * XmlLoop) :=
  free_name (xml_name st);;
  let* p := NDDSA_XmlResource_parse_xml_element_name xml_start open_tag in
  match p with
  | None => ret (None, set_names None (xml_full_name st) st)
  | Some (content, name) =>
      free_name (xml_full_name st);;
      let* full := string_append lib_name REF_SEPARATOR name in
      let st := set_names (Some name) full st in
      ret (match full with Some full => (Some (content, full), st) | None => (None, st) end)
  end.

(** The log at the count is that of the resource, in a sequence that has room for it. *)
Definition log_element (kind : D2S2_ResourceKind) (full : cstr) (st : XmlLoop)
    : ndds (bool * XmlLoop) :=
  let* log := get_reference (xml_logs st) (xml_count st) in
  let '(ok, log) := logged kind full log in
  let logs := <[xml_count st := log]> (xml_logs st) in
  ret (ok, if ok then log_added logs st else set_logs logs st).

Definition DP_OPEN : cstr := of_string "<domain_participant".
Definition DP_CLOSE : cstr := of_string "</domain_participant>".

Definition participant_element (factory : Z) (lib_name dp_xml_start : cstr) (st : XmlLoop)
    : ndds (bool * XmlLoop) :=
  let* n := element_names lib_name DP_OPEN dp_xml_start st in
  match n with
  | (None, st) => ret (false, st)
  | (Some (_, dp_full_name), st) =>
      let? logs := ensure_length (xml_logs st) (xml_count st + 1) else ret (false, st) in
      let st := set_logs logs st in
      let? dp := ncall (CreateParticipant factory dp_full_name) else ret (false, st) in
      let* r := log_element RESOURCEKIND_DOMAINPARTICIPANT dp_full_name st in
      if fst r then ret r else ncall (DeleteParticipant factory dp);; ret r
  end.

(** The participants created so far are found again by name, and deleted. *)
Fixpoint delete_participants_loop (factory : Z) (logs : LogSeq) (i n : nat) : ndds unit :=
  match n with
  | O => ret tt
  | S n =>
      let* dp_id := get_reference logs i in
      let* dp := NDDSA_RefResource_lookup_participant (log_id dp_id) in
      (match dp with
       | Some (Some dp) => ncall (DeleteParticipant factory dp)
       | _ => ret tt
       end);;
      delete_participants_loop factory logs (S i) n
  end.

Definition NDDSA_ResourceFactory_create_participants_xml (fuel : nat) (factory : Z)
    (lib_name content_start : cstr) (content_end : nat) (participants_out : LogSeq)
    : ndds (bool * LogSeq) :=
  let dp_i_start := length participants_out in
  let* r := elements_loop fuel DP_OPEN DP_CLOSE (Some content_end)
              (fun xml_start _ => participant_element factory lib_name xml_start) content_start
              {| xml_name := None; xml_full_name := None; xml_logs := participants_out;
                 xml_count := dp_i_start |} in
  free_name (xml_name (snd r));;
  free_name (xml_full_name (snd r));;
  if fst r then ret (true, xml_logs (snd r)) else
  delete_participants_loop factory (xml_logs (snd r)) dp_i_start
    (xml_count (snd r) - dp_i_start);;
  ret (false, []).

Definition QOS_OPEN : cstr := of_string "<qos_profile".
Definition QOS_CLOSE : cstr := of_string "</qos_profile>".

Definition qosprofile_element (lib_name el_xml_start : cstr) (st : XmlLoop)
    : ndds (bool * XmlLoop) :=
  let* n := element_names lib_name QOS_OPEN el_xml_start st in
  match n with
  | (None, st) => ret (false, st)
  | (Some (_, el_full_name), st) =>
      let? logs := ensure_length (xml_logs st) (xml_count st + 1) else ret (false, st) in
      log_element RESOURCEKIND_QOSPROFILE el_full_name (set_logs logs st)
  end.

Definition NDDSA_ResourceFactory_create_qosprofile_xml (fuel : nat)
    (lib_name content_start : cstr) (content_end : nat) (profiles_out : LogSeq)
    : ndds (bool * LogSeq) :=
  let* r := elements_loop fuel QOS_OPEN QOS_CLOSE (Some content_end)
              (fun xml_start _ => qosprofile_element lib_name xml_start) content_start
              {| xml_name := None; xml_full_name := None; xml_logs := profiles_out;
                 xml_count := length profiles_out |} in
  free_name (xml_name (snd r));;
  free_name (xml_full_name (snd r));;
  ret (if fst r then (true, xml_logs (snd r)) else (false, [])).

(** ** Libraries *)

Definition APPLIB_OPEN : cstr := of_string "<application_library".
Definition APPLIB_CLOSE : cstr := of_string "</application_library>".
Definition APP_OPEN : cstr := of_string "<application".
Definition APP_CLOSE : cstr := of_string "</application>".

(** The state has the applications and the participants. *)
Definition application_element (fuel : nat) (factory : Z)
    (app_lib_full_name app_xml_start app_xml_end : cstr) (st : XmlLoop * LogSeq)
    : ndds (bool * (XmlLoop * LogSeq)) :=
  let '(st, participants) := st in
  let* n := element_names app_lib_full_name APP_OPEN app_xml_start st in
  match n with
  | (None, st) => ret (false, (st, participants))
  | (Some (content, app_full_name), st) =>
      let? logs := ensure_length (xml_logs st) (xml_count st + 1)
      else ret (false, (st, participants)) in
      let* r := log_element RESOURCEKIND_APPLICATION app_full_name (set_logs logs st) in
      if negb (fst r) then ret (false, (snd r, participants)) else
      let* p := NDDSA_ResourceFactory_create_participants_xml fuel factory app_full_name
                  content (strlen app_xml_end + strlen APP_CLOSE) participants in
      ret (fst p, (snd r, snd p))
  end.

Definition unload_if (initd : bool) (factory : Z) (name : cstr) : ndds unit :=
  if initd then ncall (UnloadXmlElement factory (Some name));; ret tt else ret tt.

(** The applications, the participants and the name that is written out.  The library's name
    is freed on every path, and the name of the last application on none. *)
Definition NDDSA_ResourceFactory_create_application_library_xml (fuel : nat) (app_lib_xml : cstr)
    (applications_out participants_out : LogSeq)
    : ndds (bool * LogSeq * LogSeq * option cstr) :=
  let failed participants := ret (false, [], participants, None) in
  let? factory := ncall FactoryGetInstance else failed participants_out in
  match NDDSA_XmlResource_find_first_xml_element app_lib_xml APPLIB_OPEN APPLIB_CLOSE with
  | None => failed participants_out
  | Some (app_lib_xml_start, _) =>
      let* l := ncall (LoadXmlElement factory [] app_lib_xml_start) in
      if negb (dds_ok (fst l)) then failed participants_out else
      let app_lib_full_name := snd l in
      let* p := NDDSA_XmlResource_parse_xml_element_name app_lib_xml APPLIB_OPEN in
      match p with
      | None => unload_if true factory app_lib_full_name;; failed participants_out
      | Some (head, app_lib_name) =>
          let* r := elements_loop fuel APP_OPEN APP_CLOSE None
                      (application_element fuel factory app_lib_full_name) head
                      ({| xml_name := None; xml_full_name := None; xml_logs := [];
                          xml_count := 0 |}, participants_out) in
          let '(ok, (st, participants)) := r in
          ncall (StringFree app_lib_name);;
          free_name (xml_full_name st);;
          if ok then ret (true, xml_logs st, participants, Some app_lib_name) else
          unload_if true factory app_lib_full_name;;
          failed participants
      end
  end.

Definition DPLIB_OPEN : cstr := of_string "<domain_participant_library".
Definition DPLIB_CLOSE : cstr := of_string "</domain_participant_library>".

(** The participants and the name that is written out.  [initd_lib] is never set. *)
Definition NDDSA_ResourceFactory_create_participant_library_xml (fuel : nat) (dp_lib_xml : cstr)
    (participants_out : LogSeq) : ndds (bool * LogSeq * option cstr) :=
  let failed := ret (false, [], None) in
  let? factory := ncall FactoryGetInstance else failed in
  match NDDSA_XmlResource_find_first_xml_element dp_lib_xml DPLIB_OPEN DPLIB_CLOSE with
  | None => failed
  | Some (dp_lib_xml_start, dp_lib_xml_end) =>
      let* l := ncall (LoadXmlElement factory [] dp_lib_xml_start) in
      if negb (dds_ok (fst l)) then failed else
      let* p := NDDSA_XmlResource_parse_xml_element_name dp_lib_xml DPLIB_OPEN in
      match p with
      | None => unload_if false factory (snd l);; failed
      | Some (head, dp_lib_name) =>
          let* r := NDDSA_ResourceFactory_create_participants_xml fuel factory dp_lib_name head
                      (strlen dp_lib_xml_end + strlen DPLIB_CLOSE) [] in
          if fst r then ret (true, snd r, Some dp_lib_name) else
          ncall (StringFree dp_lib_name);;
          unload_if false factory (snd l);;
          failed
      end
  end.

Definition TYPES_OPEN : cstr := of_string "<types".
Definition TYPES_CLOSE : cstr := of_string "</types>".

(** What was loaded is not unloaded when its log fails. *)
Definition NDDSA_ResourceFactory_create_types_xml (types_xml : cstr) (types_out : LogSeq)
    : ndds (bool * LogSeq) :=
  let failed := ret (false, types_out) in
  let? factory := ncall FactoryGetInstance else failed in
  match NDDSA_XmlResource_find_first_xml_element types_xml TYPES_OPEN TYPES_CLOSE with
  | None => failed
  | Some (types_xml_start, _) =>
      let* l := ncall (LoadXmlElement factory [] types_xml_start) in
      if negb (dds_ok (fst l)) then failed else
      let types_seq_len := length types_out in
      let? logs := ensure_length types_out (types_seq_len + 1) else failed in
      let* r := log_element RESOURCEKIND_TYPE (snd l)
                  {| xml_name := None; xml_full_name := None; xml_logs := logs;
                     xml_count := types_seq_len |} in
      ret (fst r, xml_logs (snd r))
  end.

Definition DOMLIB_OPEN : cstr := of_string "<domain_library".
Definition DOMLIB_CLOSE : cstr := of_string "</domain_library>".
Definition DOM_OPEN : cstr := of_string "<domain".
Definition DOM_CLOSE : cstr := of_string "</domain>".

Definition domain_element (lib_full_name xml_start : cstr) (st : XmlLoop) : ndds (bool * XmlLoop) :=
  let* n := element_names lib_full_name DOM_OPEN xml_start st in
  match n with
  | (None, st) => ret (false, st)
  | (Some (_, full_name), st) =>
      free_name (xml_name st);;
      let st := set_names None (xml_full_name st) st in
      let? logs := ensure_length (xml_logs st) (xml_count st + 1) else ret (false, st) in
      log_element RESOURCEKIND_DOMAIN full_name (set_logs logs st)
  end.

(** A name is not freed when its full name is not made. *)
Definition NDDSA_ResourceFactory_create_domain_library_xml (fuel : nat) (lib_xml : cstr)
    (domains_out : LogSeq) : ndds (bool * LogSeq) :=
  let failed := ret (false, []) in
  let? factory := ncall FactoryGetInstance else failed in
  match NDDSA_XmlResource_find_first_xml_element lib_xml DOMLIB_OPEN DOMLIB_CLOSE with
  | None => failed
  | Some (lib_xml_start, _) =>
      let* l := ncall (LoadXmlElement factory [] lib_xml_start) in
      if negb (dds_ok (fst l)) then failed else
      let lib_full_name := snd l in
      let* p := NDDSA_XmlResource_parse_xml_element_name lib_xml DOMLIB_OPEN in
      match p with
      | None => unload_if true factory lib_full_name;; failed
      | Some (head, lib_name) =>
          let* r := elements_loop fuel DOM_OPEN DOM_CLOSE None
                      (fun xml_start _ => domain_element lib_full_name xml_start) head
                      {| xml_name := None; xml_full_name := None; xml_logs := [];
                         xml_count := 0 |} in
          ncall (StringFree lib_name);;
          free_name (xml_full_name (snd r));;
          if fst r then ret (true, xml_logs (snd r)) else
          unload_if true factory lib_full_name;;
          failed
      end
  end.

Definition QOSLIB_OPEN : cstr := of_string "<qos_library".
Definition QOSLIB_CLOSE : cstr := of_string "</qos_library>".

(** What was loaded is not unloaded when its profiles fail. *)
Definition NDDSA_ResourceFactory_create_qos_library_xml (fuel : nat) (qos_lib_xml : cstr)
    (qos_profiles_out : LogSeq) : ndds (bool * LogSeq) :=
  let failed := ret (false, qos_profiles_out) in
  let? factory := ncall FactoryGetInstance else failed in
  match NDDSA_XmlResource_find_first_xml_element qos_lib_xml QOSLIB_OPEN QOSLIB_CLOSE with
  | None => failed
  | Some (el_xml_start, el_xml_end) =>
      let* l := ncall (LoadXmlElement factory [] el_xml_start) in
      if negb (dds_ok (fst l)) then failed else
      let* p := NDDSA_XmlResource_parse_xml_element_name qos_lib_xml QOSLIB_OPEN in
      match p with
      | None => failed
      | Some (content, lib_name) =>
          let* r := NDDSA_ResourceFactory_create_qosprofile_xml fuel lib_name content
                      (strlen el_xml_end + strlen QOSLIB_CLOSE) qos_profiles_out in
          ncall (StringFree lib_name);;
          ret r
      end
  end.

(** ** Single entities *)

(** The reference of an identifier; it is used as a string and not NULL there. *)
Definition id_as_ref (id : D2S2_ResourceId) : ndds (bool * option cstr) :=
  reads (fun _ => D2S2_ResourceId_as_ref id).

Definition ref_string (ref : option cstr) : ndds cstr := reads (fun _ => ref).

Definition TOPIC_OPEN : cstr := of_string "<topic".
Definition TOPIC_CLOSE : cstr := of_string "</topic>".

Definition NDDSA_ResourceFactory_create_topic_xml (topic_xml : cstr)
    (participant_id : D2S2_ResourceId) (topic_out : NDDSA_CreatedResourceLog)
    : ndds (bool * NDDSA_CreatedResourceLog) :=
  let failed := ret (false, topic_out) in
  let? factory := ncall FactoryGetInstance else failed in
  match NDDSA_XmlResource_find_first_xml_element topic_xml TOPIC_OPEN TOPIC_CLOSE with
  | None => failed
  | Some (topic_xml_start, _) =>
      let* r := id_as_ref participant_id in
      if negb (fst r) then failed else
      let* p := NDDSA_RefResource_lookup_participant participant_id in
      match p with
      | Some (Some participant) =>
          let* participant_ref := ref_string (snd r) in
          let* l := ncall (LoadXmlElement factory participant_ref topic_xml_start) in
          if negb (dds_ok (fst l)) then failed else
          let? topic := ncall (CreateTopic participant (snd l))
          else (unload_if true factory (snd l);; failed) in
          let '(ok, topic_out) := logged RESOURCEKIND_TOPIC (snd l) topic_out in
          unload_if (negb ok) factory (snd l);;
          ret (ok, topic_out)
      | _ => failed
      end
  end.

(** A publisher or a subscriber.  [loads] is whether [loaded_xml] is set. *)
Definition create_group_xml (kind : D2S2_ResourceKind) (open_tag close_tag : cstr) (loads : bool)
    (xml : cstr) (participant : D2S2_ResourceId) (out : NDDSA_CreatedResourceLog)
    : ndds (bool * NDDSA_CreatedResourceLog) :=
  let failed := ret (false, out) in
  let? factory := ncall FactoryGetInstance else failed in
  let* p := NDDSA_RefResource_lookup_participant participant in
  match p with
  | Some (Some dp) =>
      let* r := id_as_ref participant in
      if negb (fst r) then failed else
      match NDDSA_XmlResource_find_first_xml_element xml open_tag close_tag with
      | None => failed
      | Some (xml_start, _) =>
          let* dp_full_name := ref_string (snd r) in
          let* l := ncall (LoadXmlElement factory dp_full_name xml_start) in
          if negb (dds_ok (fst l)) then failed else
          let* rc := ncall (CreateEntities kind dp (snd l)) in
          if negb (dds_ok rc) then unload_if loads factory (snd l);; failed else
          let '(ok, out) := logged kind (snd l) out in
          unload_if (negb ok && loads) factory (snd l);;
          ret (ok, out)
      end
  | _ => failed
  end.

Definition PUB_OPEN : cstr := of_string "<publisher".
Definition PUB_CLOSE : cstr := of_string "</publisher>".
Definition SUB_OPEN : cstr := of_string "<subscriber".
Definition SUB_CLOSE : cstr := of_string "</subscriber>".

Definition NDDSA_ResourceFactory_create_publisher_xml :=
  create_group_xml RESOURCEKIND_PUBLISHER PUB_OPEN PUB_CLOSE true.

Definition NDDSA_ResourceFactory_create_subscriber_xml :=
  create_group_xml RESOURCEKIND_SUBSCRIBER SUB_OPEN SUB_CLOSE false.

(** A writer or a reader.  The variable that is answered is assigned the codes of Connext,
    and a code of an error is TRUE. *)
Definition create_endpoint_xml (kind : D2S2_ResourceKind) (parent_depth : Z)
    (lookup_parent : Z -> cstr -> EntityLookup) (open_tag close_tag : cstr)
    (xml : cstr) (parent_id : D2S2_ResourceId) (out : NDDSA_CreatedResourceLog)
    : ndds (bool * NDDSA_CreatedResourceLog) :=
  let failed := ret (false, out) in
  let? factory := ncall FactoryGetInstance else failed in
  let* n := entity_name parent_id in
  if negb (fst n) then failed else
  let parent_name := snd n in
  if negb (depth parent_name =? parent_depth)%Z then failed else
  let? participant_ref := name_ref parent_name DEPTH_PARTICIPANT else failed in
  let stopped := ret (false, out, None) in
  let* r :=
    let* p := NDDSA_RefResource_lookup_participant (ref_id participant_ref) in
    match p with
    | Some (Some participant) =>
        let* leaf := reads (fun _ => D2S2_EntityName_leaf parent_name) in
        let? parent := ncall (Lookup (lookup_parent participant leaf)) else stopped in
        match NDDSA_XmlResource_find_first_xml_element xml open_tag close_tag with
        | None => stopped
        | Some (xml_start, _) =>
            let* r := id_as_ref parent_id in
            if negb (fst r) then stopped else
            let* parent_ref := ref_string (snd r) in
            let* l := ncall (LoadXmlElement factory parent_ref xml_start) in
            if negb (dds_ok (fst l)) then ret (true, out, None) else
            let* rc := ncall (CreateEntities kind parent (snd l)) in
            if negb (dds_ok rc) then ret (true, out, Some (snd l)) else
            let '(ok, out) := logged kind (snd l) out in
            ret (ok, out, Some (snd l))
        end
    | _ => stopped
    end in
  let '(retcode, out, loaded) := r in
  ncall (StringFree participant_ref);;
  (match loaded with
   | Some full_name => unload_if (negb retcode) factory full_name
   | None => ret tt
   end);;
  ret (retcode, out).

Definition DW_OPEN : cstr := of_string "<data_writer".
Definition DW_CLOSE : cstr := of_string "</data_writer>".
Definition DR_OPEN : cstr := of_string "<data_reader".
Definition DR_CLOSE : cstr := of_string "</data_reader>".

Definition NDDSA_ResourceFactory_create_datawriter_xml :=
  create_endpoint_xml RESOURCEKIND_DATAWRITER DEPTH_PUBLISHER LookupPublisher DW_OPEN DW_CLOSE.

Definition NDDSA_ResourceFactory_create_datareader_xml :=
  create_endpoint_xml RESOURCEKIND_DATAREADER DEPTH_SUBSCRIBER LookupSubscriber DR_OPEN DR_CLOSE.
End create.

(** ** Searching *)

Section search.
Context (c : ascii) (nd : cstr).

Lemma strstr_skip (a w : cstr) :
  c ∉ a -> strstr (a ++ w) (c :: nd) = Nat.add (length a) <$> strstr w (c :: nd).
Proof.
  induction a as [|x a IH]; intros Ha; [cbn [app]; by destruct (strstr w (c :: nd)) |].
  apply not_elem_of_cons in Ha as [Hx Ha]. cbn [app strstr is_prefix length].
  rewrite (proj2 (Ascii.eqb_neq c x) Hx). cbn [andb]. rewrite (IH Ha). by destruct (strstr w _).
Qed.

Lemma is_prefix_cons_absent (a w : cstr) (n : cstr) :
  c ∉ n -> is_prefix n (a ++ c :: w) = true -> is_prefix n a = true.
Proof.
  revert a; induction n as [|x n IH]; intros a Hn; [done |].
  apply not_elem_of_cons in Hn as [Hx Hn]. destruct a as [|y a]; cbn.
  - by rewrite (proj2 (Ascii.eqb_neq x c) (not_eq_sym Hx)).
  - destruct (Ascii.eqb x y); [by apply IH | done].
Qed.

(** A word that starts like the needle, after a text without it, is where it may be. *)
Lemma strstr_over (a w : cstr) :
  c ∉ nd -> strstr a (c :: nd) = None ->
  strstr (a ++ c :: w) (c :: nd) = Nat.add (length a) <$> strstr (c :: w) (c :: nd).
Proof.
  intros Hnd. induction a as [|x a IH]; intros Ha; [cbn [app]; by destruct (strstr (c :: w) (c :: nd)) |].
  generalize dependent (strstr (c :: w) (c :: nd)); intros r IH.
  cbn [strstr] in Ha. destruct (is_prefix (c :: nd) (x :: a)) eqn:Hp; [done |].
  destruct (strstr a (c :: nd)) eqn:Ha'; [done |].
  change ((x :: a) ++ c :: w) with (x :: (a ++ c :: w)). cbn [strstr].
  assert (is_prefix (c :: nd) (x :: (a ++ c :: w)) = false) as ->.
  { cbn [is_prefix] in *. destruct (Ascii.eqb c x); [| done]. cbn [andb] in *.
    destruct (is_prefix nd (a ++ c :: w)) eqn:Hq; [| done].
    by rewrite (is_prefix_cons_absent _ _ _ Hnd Hq) in Hp. }
  rewrite IH by done. by destruct r.
Qed.

Lemma strstr_here (z : cstr) : strstr ((c :: nd) ++ z) (c :: nd) = Some 0%nat.
Proof. apply strstr_zero, is_prefix_app. Qed.

Lemma strstr_absent (a : cstr) : c ∉ a -> strstr a (c :: nd) = None.
Proof.
  intros Ha. rewrite <- (app_nil_r a). rewrite strstr_skip by done. done.
Qed.
End search.

(** What is found after an element is shorter than the text it was found in. *)
Lemma element_shorter xml open_tag close_tag start stop :
  close_tag <> [] ->
  NDDSA_XmlResource_find_first_xml_element xml open_tag close_tag = Some (start, stop) ->
  (strlen stop < strlen start <= strlen xml)%nat.
Proof.
  intros Hc. unfold NDDSA_XmlResource_find_first_xml_element, strlen.
  destruct (strstr xml open_tag) as [k|]; [| done].
  destruct (drop (length open_tag) (drop k xml)) as [|ch l]; [done |].
  destruct (_ || _); [| done].
  destruct (strstr (drop k xml) close_tag) as [j|] eqn:Hj; [| done]. intros [= <- <-].
  pose proof (strstr_split _ _ _ Hj) as [_ Hle]. rewrite !length_drop in *.
  destruct close_tag; [done |]. cbn [length] in *. lia.
Qed.

(** ** Elements as they are written *)

(** A character is not in a text that is written out. *)
Ltac absent := apply (bool_decide_unpack _); vm_compute; exact I.

Section written.
Context (o cl : cstr).
Let open_tag : cstr := "<"%char :: o.
Let close_tag : cstr := "<"%char :: cl.
Context (Ho : "<"%char ∉ o) (Hcl : "<"%char ∉ cl)
        (Hdiffer : forall z, is_prefix close_tag (open_tag ++ z) = false).

(** An opening tag with a name. *)
Definition opening (name : cstr) : cstr :=
  "<"%char :: o ++ of_string " name=" ++ [QUOTE] ++ name ++ [QUOTE] ++ of_string ">".

Definition wf_name (name : cstr) : Prop :=
  ("<"%char ∉ name) /\ (">"%char ∉ name) /\ (QUOTE ∉ name) /\ (Z.of_nat (length name) < 4294967296)%Z.

Definition wf_body (body : cstr) : Prop := strstr body close_tag = None.

Lemma opening_app name z :
  opening name ++ z = open_tag ++ of_string " name=" ++ [QUOTE] ++ name ++ [QUOTE] ++ of_string ">" ++ z.
Proof.
  unfold opening, open_tag.
  change (("<"%char :: ?x) ++ z) with ("<"%char :: (x ++ z)).
  rewrite <- !app_assoc. reflexivity.
Qed.

Lemma find_written gap name body z :
  "<"%char ∉ gap -> wf_name name -> wf_body body ->
  NDDSA_XmlResource_find_first_xml_element (gap ++ opening name ++ body ++ close_tag ++ z)
    open_tag close_tag
  = Some (opening name ++ body ++ close_tag ++ z, z).
Proof.
  intros Hgap (Hlt & _) Hbody. unfold NDDSA_XmlResource_find_first_xml_element.
  unfold open_tag at 1. rewrite strstr_skip by done.
  rewrite opening_app. unfold open_tag at 1. rewrite strstr_here. cbn [fmap option_fmap option_map].
  rewrite Nat.add_0_r, drop_app_length. unfold strlen. rewrite drop_app_length.
  cbn [of_string String.list_ascii_of_string app]. cbn -[open_tag close_tag strstr drop].
  set (mid := " "%char :: _).
  assert (strstr (open_tag ++ mid) close_tag = Some (length (opening name ++ body))) as ->.
  { replace (open_tag ++ mid) with ((opening name ++ body) ++ close_tag ++ z)
      by (rewrite <- app_assoc, opening_app; done).
    unfold close_tag at 1. cbn [app]. unfold close_tag. rewrite strstr_over; [| done |].
    - change ("<"%char :: (cl ++ z)) with (("<"%char :: cl) ++ z).
      rewrite strstr_here. cbn. by rewrite Nat.add_0_r.
    - rewrite opening_app. change ("<"%char :: cl) with close_tag. unfold open_tag. cbn [app strstr].
      change ("<"%char :: o ++ ?w) with (open_tag ++ w). rewrite Hdiffer.
      unfold close_tag.
      match goal with |- context [strstr ?w] =>
        replace w with ((o ++ of_string " name=" ++ [QUOTE] ++ name ++ [QUOTE] ++ of_string ">") ++ body)
          by (by rewrite <- !app_assoc) end.
      rewrite strstr_skip.
      + unfold wf_body, close_tag in Hbody. by rewrite Hbody.
      + repeat (apply not_elem_of_app; split); try done;
          absent. }
  f_equal. f_equal. 
  replace (open_tag ++ mid) with ((opening name ++ body) ++ close_tag ++ z)
      by (rewrite <- app_assoc, opening_app; done).
  rewrite drop_app_ge by lia.
  replace (length (opening name ++ body) + length close_tag - length (opening name ++ body))%nat
    with (length close_tag) by lia. by rewrite drop_app_length.
Qed.

Lemma parse_written `{N : NddsApi} name z s E (Q : list nevent -> option (cstr * cstr) -> Ndds -> Prop) :
  wf_name name -> (forall r, E (existT StringAllocation r) -> r = true) ->
  Q [existT StringAllocation true] (Some (z, name)) s ->
  spec E (NDDSA_XmlResource_parse_xml_element_name (opening name ++ z) open_tag) s Q.
Proof.
  intros (_ & Hgt & Hq & Hlen) HE HQ. unfold NDDSA_XmlResource_parse_xml_element_name.
  rewrite opening_app. unfold open_tag at 1. rewrite strstr_here. unfold strlen.
  rewrite Nat.add_0_l, drop_app_length.
  change (of_string " name=" ++ [QUOTE] ++ ?w) with (" "%char :: (NAME_PFX ++ w)).
  assert (strstr (" "%char :: (NAME_PFX ++ name ++ [QUOTE] ++ of_string ">" ++ z)) NAME_PFX = Some 1%nat)
    as -> by done.
  change (drop (1 + length NAME_PFX) (" "%char :: (NAME_PFX ++ ?w))) with (drop (length NAME_PFX) (NAME_PFX ++ w)).
  rewrite drop_app_length.
  rewrite (strstr_skip QUOTE [] name) by done.
  change (strstr ([QUOTE] ++ ?w) [QUOTE]) with (Some 0%nat).
  cbn [fmap option_fmap option_map]. rewrite Nat.add_0_r, u32_small, Nat2Z.id by lia.
  rewrite take_app_length.
  change (of_string ">") with [">"%char].
  assert (strstr (name ++ [QUOTE] ++ [">"%char] ++ z) [">"%char] = Some (length name + 1)%nat) as ->.
  { rewrite (strstr_skip ">"%char [] name) by done. done. }
  apply spec_bind. refine (spec_call _ _ _ _ _). intros r Hr. rewrite (HE r Hr).
  apply spec_ret. replace (length name + 1 + 1)%nat with (length (name ++ [QUOTE; ">"%char]))
    by (rewrite length_app; cbn; lia).
  rewrite (app_assoc name [QUOTE]), (app_assoc _ [">"%char]), <- (app_assoc name [QUOTE]).
  change ([QUOTE] ++ [">"%char]) with [QUOTE; ">"%char]. rewrite drop_app_length.
  by rewrite app_nil_r.
Qed.
End written.

(** ** Reading a library

    Under answers that grant memory and entities, the participants of a library are created
    in the order they are written, whatever the text between them. *)

Record WrittenParticipant := { wp_gap : cstr; wp_name : cstr; wp_body : cstr }.

Record WrittenLibrary := {
  wl_name : cstr;
  wl_participants : list WrittenParticipant;
  wl_gap : cstr;
  wl_rest : cstr
}.

Definition dp_tag : cstr := of_string "domain_participant".
Definition dp_end : cstr := of_string "/domain_participant>".
Definition dplib_tag : cstr := of_string "domain_participant_library".
Definition dplib_end : cstr := of_string "/domain_participant_library>".

Definition print_participant (p : WrittenParticipant) (z : cstr) : cstr :=
  wp_gap p ++ opening dp_tag (wp_name p) ++ wp_body p ++ DP_CLOSE ++ z.

Definition print_participants (l : list WrittenParticipant) (z : cstr) : cstr :=
  foldr print_participant z l.

Definition print_library (l : WrittenLibrary) : cstr :=
  opening dplib_tag (wl_name l)
  ++ print_participants (wl_participants l) (wl_gap l ++ DPLIB_CLOSE ++ wl_rest l).

Definition wf_participant (p : WrittenParticipant) : Prop :=
  ("<"%char ∉ wp_gap p) /\ wf_name (wp_name p) /\ strstr (wp_body p) (of_string "</domain_participant") = None.

Definition wf_library (l : WrittenLibrary) : Prop :=
  wf_name (wl_name l) /\ ("<"%char ∉ wl_gap l) /\ Forall wf_participant (wl_participants l).

Definition full_name (lib : cstr) (p : WrittenParticipant) : cstr :=
  lib ++ REF_SEPARATOR ++ wp_name p.

Section reading.
Context {N : NddsApi} {C : ConnextCore}.

Definition generous (e : nevent) : Prop :=
  match e with
  | existT c r =>
      match c return NResp c -> Prop with
      | StringAllocation | SequenceRoom _ => fun r => r = true
      | FactoryGetInstance | CreateParticipant _ _ => fun r => is_Some r
      | LoadXmlElement _ _ _ => fun r => fst r = DDS_RETCODE_OK
      | _ => fun _ => True
      end r
  end.

(** The participants that are created, and the strings that are allocated and not freed. *)
Definition created (t : list nevent) : list cstr :=
  omap (fun c => match c with CreateParticipant _ name => Some name | _ => None end) (calls t).

Definition strings (t : list nevent) : Z :=
  Z.of_nat (count (fun c => match c with StringAllocation => true | _ => false end) t)
  - Z.of_nat (count (fun c => match c with StringFree _ => true | _ => false end) t).

Definition held (st : XmlLoop) : Z :=
  (if xml_name st is Some _ then 1 else 0) + (if xml_full_name st is Some _ then 1 else 0).

Lemma created_app (t1 t2 : list (event NResp)) : created (t1 ++ t2) = created t1 ++ created t2.
Proof. unfold created. by rewrite calls_app, omap_app. Qed.

Lemma strings_app (t1 t2 : list (event NResp)) : strings (t1 ++ t2) = (strings t1 + strings t2)%Z.
Proof. unfold strings. rewrite !count_app. lia. Qed.

Definition participant_log (full : cstr) : NDDSA_CreatedResourceLog :=
  snd (logged RESOURCEKIND_DOMAINPARTICIPANT full NDDSA_CREATEDRESOURCELOG_INITIALIZER).

Lemma free_name_spec name s (Q : list nevent -> unit -> Ndds -> Prop) :
  (forall t, created t = [] -> strings t = (- (if name is Some _ then 1 else 0))%Z -> Q t tt s) ->
  spec generous (free_name name) s Q.
Proof.
  intros HQ. destruct name as [n|]; cbn [free_name].
  - refine (spec_call _ _ _ _ _). intros [] _. by apply HQ.
  - apply spec_ret. by apply HQ.
Qed.

(** One element of the loop. *)
Lemma participant_element_spec factory lib name z st s :
  wf_name name -> xml_count st = length (xml_logs st) ->
  spec generous (participant_element factory lib (opening dp_tag name ++ z) st) s
    (fun t r s' => s' = s /\ fst r = true
       /\ xml_logs (snd r) = xml_logs st ++ [participant_log (lib ++ REF_SEPARATOR ++ name)]
       /\ xml_count (snd r) = length (xml_logs (snd r))
       /\ created t = [lib ++ REF_SEPARATOR ++ name]
       /\ strings t = (held (snd r) - held st)%Z).
Proof.
  intros Hname Hcount. destruct st as [nm fl logs n]. cbn [xml_count xml_logs] in Hcount. subst n.
  apply spec_bind, spec_bind, free_name_spec. intros t1 Hc1 Hs1.
  apply spec_bind, parse_written; [done | done |].
  apply spec_bind, free_name_spec. intros t2 Hc2 Hs2.
  apply spec_bind, spec_bind. refine (spec_call _ _ _ _ _). intros r ->.
  apply spec_ret. apply spec_ret.
  unfold NDDSA_StringUtil_append, strlen. rewrite !firstn_all.
  rewrite take_ge by (rewrite !length_app; cbn; lia).
  unfold set_names, set_logs. cbn [xml_logs xml_count xml_name xml_full_name] in *.
  apply spec_bind, spec_bind. refine (spec_call _ _ _ _ _). intros r' ->. apply spec_ret.
  apply spec_bind. refine (spec_call _ _ _ _ _). intros dp [p ->].
  apply spec_bind, spec_bind. cbn [xml_logs xml_count]. rewrite resize_ge by lia.
  replace (length logs + 1 - length logs)%nat with 1%nat by lia. cbn [replicate].
  eapply spec_reads; [by apply list_lookup_middle |]. cbn [logged D2S2_ResourceId_initialize_ref].
  apply spec_ret. cbn [fst]. apply spec_ret. unfold log_added. cbn [fst snd xml_logs xml_count].
  rewrite insert_app_r_alt by lia. rewrite Nat.sub_diag.
  split_and!; [done | done | done | | |].
  - rewrite length_app. cbn. lia.
  - rewrite !created_app, Hc1, Hc2. done.
  - rewrite !strings_app, Hs1, Hs2. unfold held. cbn. unfold strings. cbn.
    destruct nm, fl; cbn; lia.
Qed.

Lemma print_participants_length l z : (length z <= length (print_participants l z))%nat.
Proof.
  induction l as [|p l IH]; [done |].
  change (print_participants (p :: l) z) with (print_participant p (print_participants l z)).
  unfold print_participant. rewrite !length_app. lia.
Qed.

(** After the last participant nothing is found before the end of the library. *)
Lemma library_ends gap rest start stop :
  "<"%char ∉ gap ->
  NDDSA_XmlResource_find_first_xml_element (gap ++ DPLIB_CLOSE ++ rest) DP_OPEN DP_CLOSE
    = Some (start, stop) ->
  (strlen start <= strlen rest + strlen DPLIB_CLOSE)%nat.
Proof.
  intros Hgap. unfold NDDSA_XmlResource_find_first_xml_element.
  unfold DP_OPEN at 1. change (of_string "<domain_participant") with ("<"%char :: dp_tag).
  rewrite strstr_skip by done. destruct (strstr (DPLIB_CLOSE ++ rest) _) as [j|]; [| done].
  cbn [fmap option_fmap option_map]. rewrite <- drop_drop, drop_app_length.
  destruct (drop (strlen DP_OPEN) _) as [|ch l]; [done |]. destruct (_ || _); [| done].
  destruct (strstr _ DP_CLOSE); [| done]. intros [= <- _]. unfold strlen.
  rewrite length_drop. cbn [length]. change (length DPLIB_CLOSE) with 29%nat. lia.
Qed.

Lemma wf_body_longer body nd :
  strstr body (of_string "</domain_participant") = None ->
  strstr body (of_string "</domain_participant" ++ nd) = None.
Proof.
  intros Hb. destruct (strstr body (of_string "</domain_participant" ++ nd)) as [k|] eqn:Hk; [| done].
  apply strstr_split in Hk as [Hs _]. revert Hb. rewrite Hs. clear Hs.
  generalize (take k body) as a; intros a.
  generalize (drop (k + length (of_string "</domain_participant" ++ nd)) body) as z; intros z Hb.
  exfalso. pose proof (strstr_none _ _ Hb (length a)) as Hn.
  rewrite length_app, drop_app_length, <- app_assoc, is_prefix_app in Hn.
  discriminate Hn. lia.
Qed.

Lemma wf_body_dp body : strstr body (of_string "</domain_participant") = None -> wf_body dp_end body.
Proof. exact (wf_body_longer body (of_string ">")). Qed.

Lemma participants_loop_spec factory lib gap rest l s :
  "<"%char ∉ gap -> Forall wf_participant l ->
  forall fuel st, (length l < fuel)%nat -> xml_count st = length (xml_logs st) ->
  spec generous
    (elements_loop fuel DP_OPEN DP_CLOSE (Some (strlen rest + strlen DPLIB_CLOSE)%nat)
       (fun xml_start _ => participant_element factory lib xml_start)
       (print_participants l (gap ++ DPLIB_CLOSE ++ rest)) st) s
    (fun t r s' => s' = s /\ fst r = true
       /\ xml_logs (snd r) = xml_logs st ++ map participant_log (map (full_name lib) l)
       /\ created t = map (full_name lib) l
       /\ strings t = (held (snd r) - held st)%Z).
Proof.
  intros Hgap Hl. induction Hl as [|p l (Hpg & Hpn & Hpb) Hl IH]; intros [|fuel] st Hf Hc;
    try (cbn in Hf; lia).
  - assert (Hend : spec generous (ret (true, st)) s (fun t r s' => s' = s /\ fst r = true
       /\ xml_logs (snd r) = xml_logs st ++ map participant_log (map (full_name lib) [])
       /\ created t = map (full_name lib) [] /\ strings t = (held (snd r) - held st)%Z)).
    { apply spec_ret. split_and!; [done | done | by rewrite app_nil_r | done |].
      cbn [snd]. change (strings []) with 0%Z. lia. }
    cbn [print_participants foldr elements_loop].
    destruct (gap ++ DPLIB_CLOSE ++ rest) as [|ch z] eqn:Ez; [done |]. rewrite <- Ez.
    destruct (NDDSA_XmlResource_find_first_xml_element _ _ _) as [[start stop]|] eqn:Hfind; [| done].
    apply library_ends in Hfind; [| done]. apply Nat.leb_le in Hfind. by rewrite Hfind.
  - cbn [elements_loop]. set (z := print_participants l (gap ++ DPLIB_CLOSE ++ rest)).
    change (print_participants (p :: l) _) with
      (wp_gap p ++ opening dp_tag (wp_name p) ++ wp_body p ++ ("<"%char :: dp_end) ++ z).
    change DP_OPEN with ("<"%char :: dp_tag). change DP_CLOSE with ("<"%char :: dp_end).
    destruct (wp_gap p ++ opening dp_tag (wp_name p) ++ wp_body p ++ ("<"%char :: dp_end) ++ z)
      as [|ch w] eqn:Ez.
    { destruct (wp_gap p); [by unfold opening in Ez | done]. }
    rewrite <- Ez. rewrite find_written;
      [| absent | absent
       | done | done | done | by apply wf_body_dp].
    assert ((strlen (opening dp_tag (wp_name p) ++ wp_body p ++ ("<"%char :: dp_end) ++ z)
             <=? strlen rest + strlen DPLIB_CLOSE) = false)%nat as ->.
    { apply Nat.leb_gt. unfold strlen. rewrite !length_app.
      pose proof (print_participants_length l (gap ++ DPLIB_CLOSE ++ rest)) as Hz. fold z in Hz.
      rewrite !length_app in Hz. unfold opening. cbn [length]. lia. }
    apply spec_bind. eapply spec_mono; [by apply participant_element_spec |].
    intros t [ok st'] s' (-> & -> & Hlogs & Hcount & Hcr & Hst). cbn [fst snd] in *.
    eapply spec_mono; [apply (IH fuel st'); [cbn in Hf; lia | done] |].
    intros t' r s' (-> & Hok & Hlogs' & Hcr' & Hst'). split_and!; [done | done | | |].
    + rewrite Hlogs', Hlogs, <- app_assoc. done.
    + rewrite created_app, Hcr, Hcr'. done.
    + rewrite strings_app. lia.
Qed.

(** The end of the library is not inside it. *)
Lemma library_body_closed l gap :
  ("<"%char ∉ gap) -> Forall wf_participant l -> wf_body dplib_end (print_participants l gap).
Proof.
  intros Hgap Hl. unfold wf_body. induction Hl as [|p l (Hpg & (Hlt & _) & Hpb) Hl IH];
    [by apply strstr_absent |].
  change (print_participants (p :: l) gap)
    with (print_participant p (print_participants l gap)). unfold print_participant.
  rewrite strstr_skip by done.
  change (opening dp_tag (wp_name p) ++ ?w) with
    ("<"%char :: ((dp_tag ++ of_string " name=" ++ [QUOTE] ++ wp_name p ++ [QUOTE] ++ of_string ">") ++ w)).
  cbn [strstr]. change (is_prefix ("<"%char :: dplib_end) ("<"%char :: _)) with false.
  rewrite strstr_skip.
  - change (DP_CLOSE ++ ?w) with ("<"%char :: (dp_end ++ w)).
    rewrite strstr_over; [| absent |].
    + cbn [strstr]. change (is_prefix ("<"%char :: dplib_end) ("<"%char :: _)) with false.
      rewrite strstr_skip by absent. by rewrite IH.
    + exact (wf_body_longer (wp_body p) (of_string "_library>") Hpb).
  - repeat (apply not_elem_of_app; split); try done;
      absent.
Qed.

Lemma print_participants_app l z w :
  print_participants l (z ++ w) = print_participants l z ++ w.
Proof.
  induction l as [|p l IH]; [done |].
  change (print_participants (p :: l) ?z) with (print_participant p (print_participants l z)).
  rewrite IH. unfold print_participant. by rewrite !app_assoc.
Qed.

(** C20: A library of participants that is written as XML is read back: with memory and the
    entities granted, [create_participant_library_xml] creates every participant of the library
    once, in order, under its full name, logs them, gives out the name of the library, and has
    freed every string but that one, whatever text is between the elements and after the library. *)
Theorem create_participant_library_reads (l : WrittenLibrary) (fuel : nat) (out : LogSeq) (s : Ndds)
    (Hl : wf_library l) (Hfuel : (length (wl_participants l) < fuel)%nat) :
  spec generous (NDDSA_ResourceFactory_create_participant_library_xml fuel (print_library l) out) s
    (fun t r s' => s' = s
       /\ r = (true, map participant_log (map (full_name (wl_name l)) (wl_participants l)),
               Some (wl_name l))
       /\ created t = map (full_name (wl_name l)) (wl_participants l)
       /\ strings t = 1%Z).
Proof.
  destruct Hl as (Hn & Hgap & Hps).
  apply spec_bind. refine (spec_call _ _ _ _ _). intros f [factory ->].
  change DPLIB_OPEN with ("<"%char :: dplib_tag). change DPLIB_CLOSE with ("<"%char :: dplib_end).
  unfold print_library at 1. rewrite print_participants_app.
  change (opening dplib_tag (wl_name l) ++ ?w) with ([] ++ opening dplib_tag (wl_name l) ++ w).
  change DPLIB_CLOSE with ("<"%char :: dplib_end).
  rewrite find_written;
    [| absent | absent
     | done | by apply not_elem_of_nil | done | by apply library_body_closed].
  apply spec_bind. refine (spec_call _ _ _ _ _). intros [rc load] Hrc. cbn in Hrc. subst rc.
  cbn [fst dds_ok negb]. apply spec_bind. unfold print_library. apply parse_written; [done | done |].
  apply spec_bind, spec_bind. eapply spec_mono; [by apply participants_loop_spec |].
  intros t [ok st] s' (-> & -> & Hlogs & Hcr & Hst). cbn [fst snd] in *.
  apply spec_bind, free_name_spec. intros t1 Hc1 Hs1.
  apply spec_bind, free_name_spec. intros t2 Hc2 Hs2.
  apply spec_ret. apply spec_ret. cbn [fst snd]. split_and!; [done | | |].
  - by rewrite Hlogs.
  - rewrite !created_app, Hcr, Hc1, Hc2. cbn. by rewrite !app_nil_r.
  - rewrite !strings_app, Hst, Hs1, Hs2. unfold held. cbn. unfold strings. cbn.
    destruct (xml_name st), (xml_full_name st); cbn; lia.
Qed.
End reading.

(** ** What the loads leave behind *)

Section loads.
Context {N : NddsApi} {C : ConnextCore}.

Definition is_load (c : NCall) : bool := match c with LoadXmlElement _ _ _ => true | _ => false end.
Definition is_unload (c : NCall) : bool := match c with UnloadXmlElement _ _ => true | _ => false end.

(** Calls that neither load nor unload an element. *)
Definition not_xml (c : NCall) : bool := negb (is_load c) && negb (is_unload c).

Lemma not_xml_counts (t : list (event NResp)) : only not_xml t -> count is_load t = 0%nat /\ count is_unload t = 0%nat.
Proof.
  intros H. split; eapply only_count; try exact H; intros c; unfold not_xml;
    destruct (is_load c), (is_unload c); done.
Qed.

Lemma entity_name_not_xml id : makes not_xml (entity_name id).
Proof. unfold entity_name. makes_auto. Qed.
Lemma name_ref_not_xml n d : makes not_xml (name_ref n d).
Proof. unfold name_ref. makes_auto. Qed.
Lemma name_component_not_xml n d : makes not_xml (name_component n d).
Proof. unfold name_component. makes_auto. Qed.
#[local] Hint Resolve entity_name_not_xml name_ref_not_xml name_component_not_xml : makes.
Lemma participant_not_xml id : makes not_xml (NDDSA_RefResource_lookup_participant id).
Proof. unfold NDDSA_RefResource_lookup_participant. makes_auto. Qed.

(** A step that does not load: its calls add nothing to the counts. *)
Lemma when_ends_not_xml {A} (m : ndds A) s (Q : list nevent -> A -> Ndds -> Prop) :
  makes not_xml m ->
  (forall (t : list (event NResp)) a s', count is_load t = 0%nat -> count is_unload t = 0%nat -> Q t a s') ->
  when_ends m s Q.
Proof.
  intros Hm HQ. eapply when_ends_mono.
  - apply (when_ends_frame not_xml (fun _ _ => True)); [done |].
    intros s0. induction (m s0); cbn; auto.
  - intros t a s' [Ht _]. apply not_xml_counts in Ht as [H1 H2]. by apply HQ.
Qed.

(** A program that gives up before it loads. *)
Ltac gives_up := repeat first [ends_step | progress cbn [unload_if negb] | apply when_ends_reads; intros ? ?];
  split_and!; first [done | rewrite ?count_app; cbn; lia].

(** C36: A writer or a reader is reported as created exactly when its element was given to the
    factory to load, whatever the factory answers to that and to the creation, because the
    variable that is answered holds the code of Connext; and nothing that was loaded is unloaded. *)
Theorem endpoint_created_when_loaded kind depth lookup open_tag close_tag xml id out s :
  when_ends (create_endpoint_xml kind depth lookup open_tag close_tag xml id out) s (fun t r _ =>
    count is_load t = (if fst r then 1 else 0)%nat /\ count is_unload t = 0%nat).
Proof.
  unfold create_endpoint_xml. ends_step. ends_step. destruct r as [factory|]; [| gives_up].
  ends_step. apply when_ends_not_xml; [apply entity_name_not_xml |]. intros t1 n s1 Hl1 Hu1.
  destruct (negb (fst n)); [gives_up |]. destruct (negb _); [gives_up |].
  ends_step. apply when_ends_not_xml; [apply name_ref_not_xml |]. intros t2 ref s2 Hl2 Hu2.
  destruct ref as [ref|]; [| gives_up]. do 2 ends_step.
  apply when_ends_not_xml; [apply participant_not_xml |]. intros t3 p s3 Hl3 Hu3.
  destruct p as [[p|]|]; [| gives_up ..].
  ends_step. apply when_ends_reads. intros leaf _. do 2 ends_step.
  destruct r as [parent|]; [| gives_up].
  destruct (NDDSA_XmlResource_find_first_xml_element _ _ _) as [[start stop]|]; [| gives_up].
  ends_step. apply when_ends_reads. intros r _. destruct (negb (fst r)); [gives_up |].
  ends_step. apply when_ends_reads. intros pref _. do 2 ends_step.
  destruct (negb _); [gives_up |]. do 2 ends_step. destruct (negb _); [gives_up |].
  cbn [logged D2S2_ResourceId_initialize_ref]. gives_up.
Qed.
End loads.

(** ** The name of an application library *)

Section names_given.
Context {N : NddsApi} {C : ConnextCore}.

Lemma when_ends_any {A} (m : ndds A) s (Q : list nevent -> A -> Ndds -> Prop) :
  (forall (t : list (event NResp)) a s', Q t a s') -> when_ends m s Q.
Proof. intros HQ t a s' _. apply HQ. Qed.

(** The name of an application library that is given out was freed before: it is freed
    whether the applications were created or not, so who frees it again frees it twice. *)
Theorem application_name_given_freed fuel xml apps dps s :
  when_ends (NDDSA_ResourceFactory_create_application_library_xml fuel xml apps dps) s
    (fun t r _ => forall name, snd r = Some name -> StringFree name ∈ calls t).
Proof.
  unfold NDDSA_ResourceFactory_create_application_library_xml. do 2 ends_step.
  destruct r as [factory|]; [| by ends_step].
  destruct (NDDSA_XmlResource_find_first_xml_element _ _ _) as [[start stop]|]; [| by ends_step].
  do 2 ends_step. destruct (negb _); [by ends_step |].
  ends_step. apply when_ends_any. intros t1 p s1. destruct p as [[head lib]|]; [| by repeat first [ends_step | progress cbn [unload_if]]].
  ends_step. apply when_ends_any. intros t2 [ok [st dps']] s2. do 3 ends_step. apply when_ends_any.
  intros t3 [] s3. destruct ok; [| by repeat first [ends_step | progress cbn [unload_if]]].
  ends_step. intros name [= <-]. rewrite !calls_app, !elem_of_app. cbn. set_solver.
Qed.
End names_given.

(** ** Witnesses *)

Definition sample_library : WrittenLibrary :=
  {| wl_name := of_string "Lib";
     wl_participants :=
       [{| wp_gap := of_string " "; wp_name := of_string "A"; wp_body := of_string "<topic/>" |};
        {| wp_gap := []; wp_name := of_string "B"; wp_body := [] |}];
     wl_gap := of_string "  "; wl_rest := of_string "<domain_participant name" |}.

Lemma create_participant_library_reads_witness :
  wf_library sample_library
  /\ spec generous
       (NDDSA_ResourceFactory_create_participant_library_xml 3 (print_library sample_library) [])
       sample_ndds (fun t r s' => s' = sample_ndds
         /\ r = (true, map participant_log [of_string "Lib::A"; of_string "Lib::B"],
                 Some (of_string "Lib"))
         /\ created t = [of_string "Lib::A"; of_string "Lib::B"] /\ strings t = 1%Z).
Proof.
  assert (Hl : wf_library sample_library).
  { unfold wf_library, wf_participant, wf_name. cbn [sample_library wl_name wl_participants wl_gap].
    split_and!; [.. | repeat constructor]; cbn [wp_gap wp_name wp_body];
      first [lia | reflexivity | absent]. }
  split; [exact Hl |].
  apply (create_participant_library_reads sample_library 3 [] sample_ndds Hl). cbn; lia.
Defined.

(** An environment that grants everything: entities are 1, the name of what is loaded is that
    of its parent and "E". *)
Definition granting (c : NCall) : NResp c :=
  match c return NResp c with
  | FactoryGetInstance => Some 1%Z
  | StringAllocation => true
  | SequenceRoom _ => true
  | CreateParticipant _ _ => Some 1%Z
  | CreateTopic _ _ => Some 1%Z
  | LoadXmlElement _ parent _ => (DDS_RETCODE_OK, parent ++ of_string "E")
  | c => quiet_ndds c
  end.

Definition answer {A} (m : ndds A) : option A :=
  match snd (exec (fun _ => granting) [] (m sample_ndds)) with
  | Returned (a, _) => Some a
  | _ => None
  end.

Example library_read :
  answer (NDDSA_ResourceFactory_create_participant_library_xml 3 (print_library sample_library) [])
  = Some (true, map participant_log [of_string "Lib::A"; of_string "Lib::B"], Some (of_string "Lib")).
Proof. by vm_compute. Qed.

(** A longer tag before an element hides it. *)
Example longer_tag_hides :
  NDDSA_XmlResource_find_first_xml_element
    (of_string "<topic_filter/><topic name=x></topic>") TOPIC_OPEN TOPIC_CLOSE = None
  /\ NDDSA_XmlResource_find_first_xml_element
       (of_string " <topic name=x></topic>!") TOPIC_OPEN TOPIC_CLOSE
     = Some (of_string "<topic name=x></topic>!", of_string "!").
Proof. done. Qed.
