(* ===== verification/NddsVisitors.v ===== *)
(** * DDS agent: visitors

    Models [NddsDcpsVisitor.c], which walks the entities of DDS, and [NddsXmlVisitor.c], which
    walks the elements of the XML that is loaded.  A visitor is a record of callbacks: they are
    programs, on a state of their own; the walks have none.

    [visited] is what a walk amounts to: the list of the visits in order, each with the number
    of walks it is inside of, until the visitor refuses one.  Then each of these walks reports
    an error to the visitor, which the walk that made the visit does not. *)

From Stdlib Require Import ZArith Lia Ascii String.
From stdpp Require Import base tactics list.
From S2P Require Import Prelude.
From S2P Require Import CString.
From S2P Require Import Infrastructure.
From S2P Require Import Interaction.
From S2P Require Import ServiceData.
From S2P Require Import NddsData.

Local Open Scope nano_scope.

Section visitors.
Context {N : NddsApi} {St : Type}.

Abbreviation visit := (prog NResp St bool).

(** ** Entities *)

(** The boolean is [end]: whether what is inside was visited. *)
Record NDDSA_DcpsVisitor := {
  on_participant_factory : Z -> bool -> visit;
  on_participant : option Z -> bool -> visit;
  on_publisher : option Z -> bool -> visit;
  on_subscriber : option Z -> bool -> visit;
  on_topic : option Z -> visit;
  on_datawriter : option Z -> visit;
  on_datareader : option Z -> visit;
  on_error : prog NResp St unit
}.

Section dcps.
Context (visitor : NDDSA_DcpsVisitor).

(** What follows [done] when no callback was refused here. *)
Definition visit_failed : visit := on_error visitor;; ret false.

Definition NDDSA_Agent_visit_datareader (reader : option Z) : visit :=
  let? topic_desc := ncall (EntityTopic RESOURCEKIND_DATAREADER reader) else visit_failed in
  let? topic := ncall (TopicNarrow topic_desc) else visit_failed in
  unless on_datareader visitor reader then ret false else
  unless on_topic visitor (Some topic) then ret false else
  ret true.

Definition NDDSA_Agent_visit_datawriter (writer : option Z) : visit :=
  let? topic := ncall (EntityTopic RESOURCEKIND_DATAWRITER writer) else visit_failed in
  unless on_datawriter visitor writer then ret false else
  unless on_topic visitor (Some topic) then ret false else
  ret true.

Fixpoint visit_loop (visit_one : option Z -> visit) (l : list (option Z)) : visit :=
  match l with
  | [] => ret true
  | e :: l => unless visit_one e then ret false else visit_loop visit_one l
  end.

Definition visit_entities (kind : D2S2_ResourceKind) (parent : option Z)
    (visit_one : option Z -> visit) : visit :=
  let* r := ncall (EntitiesOf kind parent) in
  if negb (dds_ok (fst r)) then ret false else visit_loop visit_one (snd r).

Definition NDDSA_Agent_visit_subscriber (subscriber : option Z) : visit :=
  unless on_subscriber visitor subscriber false then ret false else
  unless visit_entities RESOURCEKIND_DATAREADER subscriber NDDSA_Agent_visit_datareader
  then visit_failed else
  unless on_subscriber visitor subscriber true then ret false else
  ret true.

Definition NDDSA_Agent_visit_publisher (publisher : option Z) : visit :=
  unless on_publisher visitor publisher false then ret false else
  unless visit_entities RESOURCEKIND_DATAWRITER publisher NDDSA_Agent_visit_datawriter
  then visit_failed else
  unless on_publisher visitor publisher true then ret false else
  ret true.

Definition NDDSA_Agent_visit_domain_participant (participant : option Z) : visit :=
  unless on_participant visitor participant false then ret false else
  unless visit_entities RESOURCEKIND_PUBLISHER participant NDDSA_Agent_visit_publisher
  then visit_failed else
  unless visit_entities RESOURCEKIND_SUBSCRIBER participant NDDSA_Agent_visit_subscriber
  then visit_failed else
  unless on_participant visitor participant true then ret false else
  ret true.

Definition NDDSA_Agent_visit_domain_participant_factory (factory : Z) : visit :=
  unless on_participant_factory visitor factory false then ret false else
  unless visit_entities RESOURCEKIND_DOMAINPARTICIPANT (Some factory)
           NDDSA_Agent_visit_domain_participant
  then visit_failed else
  unless on_participant_factory visitor factory true then ret false else
  ret true.

Definition NDDSA_Agent_visit_dcps : visit :=
  let? factory := ncall FactoryGetInstance else ret false in
  unless NDDSA_Agent_visit_domain_participant_factory factory then ret false else
  ret true.
End dcps.

(** ** XML elements *)

(** The callbacks for the factory and for errors are never called. *)
Record NDDSA_XmlVisitor := {
  xml_on_participant : Z -> visit;
  xml_on_publisher : Z -> visit;
  xml_on_subscriber : Z -> visit;
  xml_on_topic : Z -> visit;
  xml_on_datawriter : Z -> visit;
  xml_on_datareader : Z -> visit
}.

Section xml.
Context (fuel : nat) (visitor : NDDSA_XmlVisitor).

Fixpoint children_loop (n : nat) (tag_name : cstr) (recur_visit : Z -> visit) (child : option Z)
    : visit :=
  match n with
  | O => unfinished
  | S n =>
      match child with
      | None => ret true
      | Some child =>
          unless recur_visit child then ret false else
          let* next := ncall (XmlNextSibling child tag_name) in
          children_loop n tag_name recur_visit next
      end
  end.

Definition NDDSA_Agent_visit_xml_children (parent : Z) (tag_name : cstr)
    (recur_visit : Z -> visit) : visit :=
  let* child := ncall (XmlFirstChild parent tag_name) in
  children_loop fuel tag_name recur_visit child.

Definition TAG_LIBRARY : cstr := of_string "domain_participant_library".
Definition TAG_PARTICIPANT : cstr := of_string "domain_participant".
Definition TAG_PUBLISHER : cstr := of_string "publisher".
Definition TAG_SUBSCRIBER : cstr := of_string "subscriber".
Definition TAG_TOPIC : cstr := of_string "topic".
Definition TAG_WRITER : cstr := of_string "data_writer".
Definition TAG_READER : cstr := of_string "data_reader".

Definition NDDSA_Agent_visit_xml_topic (topic : Z) : visit :=
  unless xml_on_topic visitor topic then ret false else ret true.

Definition NDDSA_Agent_visit_xml_datareader (reader : Z) : visit :=
  unless xml_on_datareader visitor reader then ret false else ret true.

Definition NDDSA_Agent_visit_xml_datawriter (writer : Z) : visit :=
  unless xml_on_datawriter visitor writer then ret false else ret true.

Definition NDDSA_Agent_visit_xml_subscriber (subscriber : Z) : visit :=
  unless xml_on_subscriber visitor subscriber then ret false else
  unless NDDSA_Agent_visit_xml_children subscriber TAG_READER NDDSA_Agent_visit_xml_datareader
  then ret false else
  ret true.

Definition NDDSA_Agent_visit_xml_publisher (publisher : Z) : visit :=
  unless xml_on_publisher visitor publisher then ret false else
  unless NDDSA_Agent_visit_xml_children publisher TAG_WRITER NDDSA_Agent_visit_xml_datawriter
  then ret false else
  ret true.

Definition NDDSA_Agent_visit_xml_domain_participant (participant : Z) : visit :=
  unless xml_on_participant visitor participant then ret false else
  unless NDDSA_Agent_visit_xml_children participant TAG_PUBLISHER NDDSA_Agent_visit_xml_publisher
  then ret false else
  unless NDDSA_Agent_visit_xml_children participant TAG_SUBSCRIBER NDDSA_Agent_visit_xml_subscriber
  then ret false else
  unless NDDSA_Agent_visit_xml_children participant TAG_TOPIC NDDSA_Agent_visit_xml_topic
  then ret false else
  ret true.

Definition NDDSA_Agent_visit_xml_domain_participant_library (lib : Z) : visit :=
  unless NDDSA_Agent_visit_xml_children lib TAG_PARTICIPANT NDDSA_Agent_visit_xml_domain_participant
  then ret false else
  ret true.

Definition NDDSA_Agent_visit_xml : visit :=
  let? factory := ncall FactoryGetInstance else ret false in
  let? xml_root := ncall (FactoryXmlRoot factory) else ret false in
  unless NDDSA_Agent_visit_xml_children xml_root TAG_LIBRARY
           NDDSA_Agent_visit_xml_domain_participant_library
  then ret false else
  ret true.
End xml.
End visitors.

Arguments NDDSA_DcpsVisitor {N} St.
Arguments NDDSA_XmlVisitor {N} St.

(** ** What a walk amounts to *)

Inductive VisitEvent :=
  | VisitFactory (factory : Z) (finished : bool)
  | VisitParticipant (participant : option Z) (finished : bool)
  | VisitPublisher (publisher : option Z) (finished : bool)
  | VisitSubscriber (subscriber : option Z) (finished : bool)
  | VisitTopic (topic : option Z)
  | VisitWriter (writer : option Z)
  | VisitReader (reader : option Z)
  | VisitError.

(** A visit, or a failure of Connext; and how many walks report an error when it is refused. *)
Definition VisitStep : Type := nat * option VisitEvent.

Section visited.
Context (accept : VisitEvent -> bool).

Fixpoint visited (l : list VisitStep) : bool * list VisitEvent :=
  match l with
  | [] => (true, [])
  | (d, Some e) :: l =>
      if accept e then (fst (visited l), e :: snd (visited l)) else (false, e :: repeat VisitError d)
  | (d, None) :: _ => (false, repeat VisitError d)
  end.

(** The steps of a walk inside another. *)
Definition deeper (l : list VisitStep) : list VisitStep := map (fun '(d, e) => (S d, e)) l.

Lemma visited_app l1 l2 :
  visited (l1 ++ l2) =
  if fst (visited l1) then (fst (visited l2), snd (visited l1) ++ snd (visited l2)) else visited l1.
Proof.
  induction l1 as [|[d [e|]] l1 IH]; cbn [app visited fst snd]; [by destruct (visited l2) | | done].
  destruct (accept e); [| done]. rewrite IH. cbn [fst snd].
  by destruct (visited l1) as [[] ?].
Qed.

Lemma visited_deeper l :
  visited (deeper l) =
  if fst (visited l) then visited l else (false, snd (visited l) ++ [VisitError]).
Proof.
  induction l as [|[d [e|]] l IH]; cbn [deeper map visited fst snd]; [done | |].
  - destruct (accept e); cbn [fst snd].
    + fold (deeper l). rewrite IH. by destruct (visited l) as [[] ?].
    + cbn [app repeat]. f_equal. f_equal. by rewrite repeat_cons.
  - cbn [repeat]. f_equal. by rewrite repeat_cons.
Qed.

(** [walks m l]: the program [m], whose state is the visits so far, makes the steps [l]. *)
Context {N : NddsApi} (E : event NResp -> Prop).

Abbreviation walk := (prog NResp (list VisitEvent) bool).

Definition walks (m : walk) (l : list VisitStep) : Prop :=
  forall s, spec E m s (fun _ ok s' => ok = fst (visited l) /\ s' = s ++ snd (visited l)).

Lemma walks_ret : walks (ret true) [].
Proof. intros s. apply spec_ret. by rewrite app_nil_r. Qed.

Lemma walks_seq m1 m2 l1 l2 :
  walks m1 l1 -> walks m2 l2 ->
  walks (unless m1 then ret false else m2) (l1 ++ l2).
Proof.
  intros H1 H2 s. apply spec_bind. eapply spec_mono; [apply H1 |].
  intros t ok s1 [-> ->]. rewrite visited_app. destruct (fst (visited l1)) eqn:Hok.
  - eapply spec_mono; [apply H2 |]. intros t' ok s' [-> ->]. cbn [fst snd].
    by rewrite app_assoc.
  - apply spec_ret. by rewrite Hok.
Qed.

Lemma walks_last m l : walks m l -> walks (unless m then ret false else ret true) l.
Proof. intros H. rewrite <- (app_nil_r l). apply walks_seq; [done | apply walks_ret]. Qed.

Definition record (e : VisitEvent) : walk := modify (fun s => s ++ [e]);; ret (accept e).

Lemma walks_record e : walks (record e) [(0%nat, Some e)].
Proof.
  intros s. apply spec_bind, spec_modify, spec_ret. cbn. by destruct (accept e).
Qed.

Definition recording : NDDSA_DcpsVisitor (list VisitEvent) :=
  {| on_participant_factory := fun f e => record (VisitFactory f e);
     on_participant := fun p e => record (VisitParticipant p e);
     on_publisher := fun p e => record (VisitPublisher p e);
     on_subscriber := fun p e => record (VisitSubscriber p e);
     on_topic := fun p => record (VisitTopic p);
     on_datawriter := fun p => record (VisitWriter p);
     on_datareader := fun p => record (VisitReader p);
     on_error := modify (fun s => s ++ [VisitError]) |}.

(** A walk that reports the errors of what it is made of. *)
Lemma walks_inside m1 m2 l1 l2 :
  walks m1 l1 -> walks m2 l2 ->
  walks (unless m1 then visit_failed recording else m2) (deeper l1 ++ l2).
Proof.
  intros H1 H2 s. apply spec_bind. eapply spec_mono; [apply H1 |].
  intros t ok s1 [-> ->]. rewrite visited_app, visited_deeper.
  destruct (fst (visited l1)) eqn:Hok.
  - rewrite Hok. eapply spec_mono; [apply H2 |]. intros t' ok s' [-> ->]. cbn [fst snd].
    by rewrite app_assoc.
  - apply spec_bind, spec_modify, spec_ret. cbn [fst snd]. by rewrite app_assoc.
Qed.

Lemma walks_failed : walks (visit_failed recording) [(1%nat, None)].
Proof. intros s. apply spec_bind, spec_modify, spec_ret. done. Qed.

Lemma walks_loop {A} (m : A -> walk) (loop : list A -> walk) f l :
  loop [] = ret true ->
  (forall a l, loop (a :: l) = (unless m a then ret false else loop l)) ->
  (forall a, walks (m a) (f a)) -> walks (loop l) (mjoin (map f l)).
Proof.
  intros Hn Hc Hm. induction l as [|a l IH]; cbn; [rewrite Hn; apply walks_ret |].
  rewrite Hc. by apply walks_seq.
Qed.
End visited.

(** ** The walk of the entities *)

Section dcps_walk.
Context {N : NddsApi} (accept : VisitEvent -> bool).

(** What Connext answers: the entities of a kind inside another, or an error; and topics. *)
Context (factory : Z) (inside : D2S2_ResourceKind -> option Z -> option (list (option Z)))
        (topic : D2S2_ResourceKind -> option Z -> option Z) (narrow : Z -> option Z).

Definition dcps_answers (e : event NResp) : Prop :=
  match e with
  | existT c r =>
      match c return NResp c -> Prop with
      | FactoryGetInstance => fun r => r = Some factory
      | EntitiesOf kind parent => fun r =>
          match inside kind parent with
          | Some l => r = (DDS_RETCODE_OK, l)
          | None => dds_ok (fst r) = false
          end
      | EntityTopic kind entity => fun r => r = topic kind entity
      | TopicNarrow d => fun r => r = narrow d
      | _ => fun _ => True
      end r
  end.

Abbreviation dcps_walks := (walks accept dcps_answers).

(** The steps of each walk. *)
Definition reader_steps (r : option Z) : list VisitStep :=
  match topic RESOURCEKIND_DATAREADER r ≫= narrow with
  | Some t => [(0%nat, Some (VisitReader r)); (0%nat, Some (VisitTopic (Some t)))]
  | None => [(1%nat, None)]
  end.
Definition writer_steps (w : option Z) : list VisitStep :=
  match topic RESOURCEKIND_DATAWRITER w with
  | Some t => [(0%nat, Some (VisitWriter w)); (0%nat, Some (VisitTopic (Some t)))]
  | None => [(1%nat, None)]
  end.
Definition inside_steps (kind : D2S2_ResourceKind) (parent : option Z)
    (steps : option Z -> list VisitStep) : list VisitStep :=
  deeper (match inside kind parent with Some l => mjoin (map steps l) | None => [(0%nat, None)] end).
Definition around (v : bool -> VisitEvent) (l : list VisitStep) : list VisitStep :=
  [(0%nat, Some (v false))] ++ l ++ [(0%nat, Some (v true))].
Definition subscriber_steps (s : option Z) : list VisitStep :=
  around (VisitSubscriber s) (inside_steps RESOURCEKIND_DATAREADER s reader_steps).
Definition publisher_steps (p : option Z) : list VisitStep :=
  around (VisitPublisher p) (inside_steps RESOURCEKIND_DATAWRITER p writer_steps).
Definition participant_steps (p : option Z) : list VisitStep :=
  around (VisitParticipant p)
    (inside_steps RESOURCEKIND_PUBLISHER p publisher_steps
     ++ inside_steps RESOURCEKIND_SUBSCRIBER p subscriber_steps).
Definition factory_steps : list VisitStep :=
  around (VisitFactory factory)
    (inside_steps RESOURCEKIND_DOMAINPARTICIPANT (Some factory) participant_steps).

Lemma walks_entities kind parent m m2 steps l2 :
  (forall e, dcps_walks (m e) (steps e)) -> dcps_walks m2 l2 ->
  dcps_walks (unless visit_entities kind parent m then visit_failed (recording accept) else m2)
    (inside_steps kind parent steps ++ l2).
Proof.
  intros Hm H2. apply walks_inside; [| done]. intros s. apply spec_bind.
  refine (spec_call _ _ _ _ _). intros [rc l] Hr. cbn in Hr.
  destruct (inside kind parent) as [l'|].
  - injection Hr as -> ->. cbn [fst snd dds_ok negb].
    eapply spec_mono; [apply (walks_loop accept _ m (visit_loop m) steps l'); [done | done | done] |].
    done.
  - cbn [fst]. rewrite Hr. apply spec_ret. cbn. by rewrite app_nil_r.
Qed.

Lemma walks_reader r : dcps_walks (NDDSA_Agent_visit_datareader (recording accept) r) (reader_steps r).
Proof.
  intros s. apply spec_bind. refine (spec_call _ _ _ _ _). intros d ->. unfold reader_steps.
  destruct (topic RESOURCEKIND_DATAREADER r) as [d|]; [| apply walks_failed].
  apply spec_bind. refine (spec_call _ _ _ _ _). intros t ->. cbn [mbind option_bind].
  destruct (narrow d) as [t|]; [| apply walks_failed].
  apply (walks_seq _ _ _ _ [_] [_]); [apply walks_record | apply walks_last, walks_record].
Qed.

Lemma walks_writer w : dcps_walks (NDDSA_Agent_visit_datawriter (recording accept) w) (writer_steps w).
Proof.
  intros s. apply spec_bind. refine (spec_call _ _ _ _ _). intros d ->. unfold writer_steps.
  destruct (topic RESOURCEKIND_DATAWRITER w) as [t|]; [| apply walks_failed].
  apply (walks_seq _ _ _ _ [_] [_]); [apply walks_record | apply walks_last, walks_record].
Qed.

(** The start and the end of what has entities inside. *)
Ltac around := apply (walks_seq _ _ _ _ [_]); [apply walks_record |].
Ltac at_end := apply walks_last, walks_record.

Lemma walks_subscriber s :
  dcps_walks (NDDSA_Agent_visit_subscriber (recording accept) s) (subscriber_steps s).
Proof. around. apply walks_entities; [apply walks_reader | at_end]. Qed.

Lemma walks_publisher p :
  dcps_walks (NDDSA_Agent_visit_publisher (recording accept) p) (publisher_steps p).
Proof. around. apply walks_entities; [apply walks_writer | at_end]. Qed.

Lemma walks_participant p :
  dcps_walks (NDDSA_Agent_visit_domain_participant (recording accept) p) (participant_steps p).
Proof.
  around. rewrite <- app_assoc.
  apply walks_entities; [apply walks_publisher | apply walks_entities; [apply walks_subscriber | at_end]].
Qed.

(** [visit_dcps] implements the walk of the entities: it makes the visits of the factory,
    its participants, their publishers with their writers and topics, then their subscribers,
    each before and after what is inside, until one is refused or Connext fails; then the walks
    around it each report one error, and it fails. *)
Theorem visit_dcps_walks (s : list VisitEvent) :
  spec dcps_answers (NDDSA_Agent_visit_dcps (recording accept)) s (fun _ ok s' =>
    ok = fst (visited accept factory_steps) /\ s' = s ++ snd (visited accept factory_steps)).
Proof.
  apply spec_bind. refine (spec_call _ _ _ _ _). intros f ->.
  revert s. apply walks_last. around. apply walks_entities; [apply walks_participant | at_end].
Qed.
End dcps_walk.

(** ** The walk of the elements *)

Section xml_walk.
Context {N : NddsApi} (accept : VisitEvent -> bool).

(** The elements of a tag inside another, in order. *)
Context (factory root : Z) (elements : Z -> cstr -> list Z) (next : Z -> cstr -> option Z).
Context (Hnext : forall parent tag i child, elements parent tag !! i = Some child ->
                   next child tag = elements parent tag !! S i).

Definition xml_answers (e : event NResp) : Prop :=
  match e with
  | existT c r =>
      match c return NResp c -> Prop with
      | FactoryGetInstance => fun r => r = Some factory
      | FactoryXmlRoot _ => fun r => r = Some root
      | XmlFirstChild parent tag => fun r => r = elements parent tag !! 0%nat
      | XmlNextSibling child tag => fun r => r = next child tag
      | _ => fun _ => True
      end r
  end.

Definition xml_recording : NDDSA_XmlVisitor (list VisitEvent) :=
  {| xml_on_participant := fun p => record accept (VisitParticipant (Some p) false);
     xml_on_publisher := fun p => record accept (VisitPublisher (Some p) false);
     xml_on_subscriber := fun p => record accept (VisitSubscriber (Some p) false);
     xml_on_topic := fun p => record accept (VisitTopic (Some p));
     xml_on_datawriter := fun p => record accept (VisitWriter (Some p));
     xml_on_datareader := fun p => record accept (VisitReader (Some p)) |}.

Definition xml_step (e : VisitEvent) : list VisitStep := [(0%nat, Some e)].
Definition xml_inside (parent : Z) (tag : cstr) (steps : Z -> list VisitStep) : list VisitStep :=
  mjoin (map steps (elements parent tag)).
Definition xml_subscriber_steps (s : Z) : list VisitStep :=
  xml_step (VisitSubscriber (Some s) false)
  ++ xml_inside s TAG_READER (fun r => xml_step (VisitReader (Some r))).
Definition xml_publisher_steps (p : Z) : list VisitStep :=
  xml_step (VisitPublisher (Some p) false)
  ++ xml_inside p TAG_WRITER (fun w => xml_step (VisitWriter (Some w))).
Definition xml_participant_steps (p : Z) : list VisitStep :=
  xml_step (VisitParticipant (Some p) false)
  ++ xml_inside p TAG_PUBLISHER xml_publisher_steps
  ++ xml_inside p TAG_SUBSCRIBER xml_subscriber_steps
  ++ xml_inside p TAG_TOPIC (fun t => xml_step (VisitTopic (Some t))).
Definition xml_steps : list VisitStep :=
  xml_inside root TAG_LIBRARY (fun lib => xml_inside lib TAG_PARTICIPANT xml_participant_steps).

Context (fuel : nat) (Hfuel : forall parent tag, (length (elements parent tag) < fuel)%nat).
Abbreviation xml_walks := (walks accept xml_answers).

Lemma walks_children parent tag m steps :
  (forall c, xml_walks (m c) (steps c)) ->
  xml_walks (NDDSA_Agent_visit_xml_children fuel parent tag m) (xml_inside parent tag steps).
Proof.
  intros Hm s. apply spec_bind. refine (spec_call _ _ _ _ _). intros c ->. unfold xml_inside.
  specialize (Hfuel parent tag). revert s Hfuel. generalize fuel as n.
  assert (Hloop : forall l i n, drop i (elements parent tag) = l -> (length l < n)%nat ->
    xml_walks (children_loop n tag m (elements parent tag !! i)) (mjoin (map steps l))).
  { induction l as [|c l IH]; intros i [|n] Hd Hn; try (cbn in Hn; lia); cbn [children_loop].
    - rewrite (proj2 (lookup_ge_None _ _)); [apply walks_ret |].
      apply (f_equal length) in Hd. rewrite length_drop in Hd. cbn in Hd. lia.
    - assert (Hi : elements parent tag !! i = Some c).
      { rewrite <- (Nat.add_0_r i), <- lookup_drop, Hd. done. }
      rewrite Hi. apply walks_seq; [apply Hm |]. intros s. apply spec_bind.
      refine (spec_call _ _ _ _ _). intros o ->. rewrite (Hnext _ _ _ _ Hi).
      eapply spec_mono; [apply IH; [| cbn in Hn; lia] | done].
      by rewrite (drop_S _ _ _ Hi) in Hd; injection Hd. }
  intros n s Hn. eapply spec_mono; [by apply (Hloop (elements parent tag) 0%nat n) | done].
Qed.

Ltac leaf := intros; apply walks_last, walks_record.
Ltac into := apply (walks_seq _ _ _ _ [_]); [apply walks_record |].

Lemma walks_xml_publisher p :
  xml_walks (NDDSA_Agent_visit_xml_publisher fuel xml_recording p) (xml_publisher_steps p).
Proof. into. apply walks_last, walks_children. leaf. Qed.

Lemma walks_xml_subscriber s :
  xml_walks (NDDSA_Agent_visit_xml_subscriber fuel xml_recording s) (xml_subscriber_steps s).
Proof. into. apply walks_last, walks_children. leaf. Qed.

Lemma walks_xml_participant p :
  xml_walks (NDDSA_Agent_visit_xml_domain_participant fuel xml_recording p)
    (xml_participant_steps p).
Proof.
  into. apply walks_seq; [apply walks_children, walks_xml_publisher |].
  apply walks_seq; [apply walks_children, walks_xml_subscriber |].
  apply walks_last, walks_children. leaf.
Qed.

(** C35: [visit_xml] visits, in the order of the elements, the participants of every library,
    each with its publishers, its subscribers and its topics, and stops at the first the visitor
    refuses. *)
Theorem visit_xml_walks (s : list VisitEvent) :
  spec xml_answers (NDDSA_Agent_visit_xml fuel xml_recording) s (fun _ ok s' =>
    ok = fst (visited accept xml_steps) /\ s' = s ++ snd (visited accept xml_steps)).
Proof.
  apply spec_bind. refine (spec_call _ _ _ _ _). intros f ->.
  apply spec_bind. refine (spec_call _ _ _ _ _). intros r ->.
  revert s. apply walks_last, walks_children. intros lib.
  apply walks_last, walks_children, walks_xml_participant.
Qed.
End xml_walk.

(** ** Examples *)

Definition sample_inside (kind : D2S2_ResourceKind) (parent : option Z) : option (list (option Z)) :=
  match kind, parent with
  | RESOURCEKIND_DOMAINPARTICIPANT, _ => Some [Some 1%Z]
  | RESOURCEKIND_SUBSCRIBER, _ => Some [Some 2%Z]
  | RESOURCEKIND_DATAREADER, _ => Some [Some 3%Z; Some 4%Z]
  | _, _ => Some []
  end.

(** A topic that is refused: the three walks around its reader report an error each. *)
Example refused_topic :
  visited (fun e => match e with VisitTopic _ => false | _ => true end)
    (factory_steps 0%Z sample_inside (fun _ e => e) (fun d => Some (10 + d)%Z))
  = (false, [VisitFactory 0%Z false; VisitParticipant (Some 1%Z) false;
             VisitSubscriber (Some 2%Z) false; VisitReader (Some 3%Z); VisitTopic (Some 13%Z);
             VisitError; VisitError; VisitError]).
Proof. done. Qed.

Definition sample_elements (parent : Z) (tag : cstr) : list Z :=
  if decide (tag = TAG_LIBRARY) then [1%Z]
  else if decide (tag = TAG_PARTICIPANT) then [2%Z; 3%Z] else [].

Definition sample_next (child : Z) (tag : cstr) : option Z :=
  if decide (tag = TAG_PARTICIPANT) then if decide (child = 2%Z) then Some 3%Z else None else None.

Lemma visit_xml_walks_witness :
  spec (xml_answers 5%Z 6%Z sample_elements sample_next)
    (NDDSA_Agent_visit_xml 4 (xml_recording (fun _ => true))) [] (fun _ ok s' =>
      ok = true /\ s' = [VisitParticipant (Some 2%Z) false; VisitParticipant (Some 3%Z) false]).
Proof.
  apply (visit_xml_walks (fun _ => true) 5%Z 6%Z sample_elements sample_next).
  - intros parent tag i child. unfold sample_elements, sample_next.
    destruct (decide (tag = TAG_LIBRARY)) as [-> |].
    + destruct (decide (TAG_LIBRARY = TAG_PARTICIPANT)); [done |].
      by destruct i as [|[|i]].
    + destruct (decide (tag = TAG_PARTICIPANT)) as [-> |].
      * destruct i as [|[|[|i]]]; [| | done ..].
        -- intros [= <-]. done.
        -- intros [= <-]. done.
      * done.
  - intros parent tag. unfold sample_elements. repeat case_decide; cbn; lia.
Defined.
