(* ===== verification/NddsCreate.v ===== *)
(** * DDS agent: creating resources

    How a resource is made: by the factory, from XML or by a reference to an entity that exists
    ([NddsResourceFactory.c], which calls [NddsXml]), as a record of the database
    ([insert_resource_recordEA]), for a session ([create_resourceEA]), and for the entities of
    the XML that is loaded, by a visitor ([create_implicit_resources]).  Models these functions
    of [NddsResourceFactory.c], [NddsAgent.c] and [NddsAgentIntf.c], and those that delete an
    entity in the factory and attach a resource to every session, which are never called.

    The properties of a request are handed down to functions that do not read them; where they
    are read they are a parameter.  The sequence of what was created is finalized as its
    elements; those that were cut off it are not followed.  [fuel] is to be more than the
    characters of the XML, the rows of the tables and the siblings of an element. *)

From Stdlib Require Import ZArith Lia Ascii String.
From stdpp Require Import base tactics list gmap.
From S2P Require Import Prelude.
From S2P Require Import CString.
From S2P Require Import Infrastructure.
From S2P Require Import EntityName.
From S2P Require Import Interaction.
From S2P Require Import ServiceData.
From S2P Require Import NddsData.
From S2P Require Import AgentDb.
From S2P Require Import NddsResources.
From S2P Require Import NddsSamples.
From S2P Require Import NddsReaders.
From S2P Require Import NddsWriters.
From S2P Require Import NddsReads.
From S2P Require Import NddsFrames.
From S2P Require Import NddsDelete.
From S2P Require Import NddsAttach.
From S2P Require Import NddsSessions.
From S2P Require Import NddsXml.
From S2P Require Import NddsVisitors.

Local Open Scope nano_scope.

Section create.
Context {N : NddsApi} {C : ConnextCore}.

(** ** The factory of resources *)

(** A single entity: its log is the only one. *)
Definition single_entity (created_out : LogSeq) (parent : option D2S2_ResourceId)
    (create : D2S2_ResourceId -> NDDSA_CreatedResourceLog -> ndds (bool * NDDSA_CreatedResourceLog))
    : ndds (bool * LogSeq * option cstr) :=
  match parent with
  | None => ret (false, created_out, None)
  | Some parent =>
      let? logs := ensure_length created_out 1 else ret (false, created_out, None) in
      let* created_id := get_reference logs 0 in
      let* r := create parent created_id in
      ret (fst r, [snd r], None)
  end.

(** An element that has no parent. *)
Definition without_parent (created_out : LogSeq) (parent : option D2S2_ResourceId)
    (create : ndds (bool * LogSeq * option cstr)) : ndds (bool * LogSeq * option cstr) :=
  if bool_decide (is_Some parent) then ret (false, created_out, None) else create.

Definition no_name (m : ndds (bool * LogSeq)) : ndds (bool * LogSeq * option cstr) :=
  let* r := m in ret (fst r, snd r, None).

(** Whether it succeeded, what was created, and [lib_name].  A text that is NULL is
    undefined: every function searches it. *)
Definition create_kind_xml (fuel : nat) (kind : D2S2_ResourceKind) (xml_repr : option cstr)
    (parent : option D2S2_ResourceId) (created_out : LogSeq)
    : ndds (bool * LogSeq * option cstr) :=
  let* xml := ref_string xml_repr in
  match kind with
  | RESOURCEKIND_APPLICATION =>
      without_parent created_out parent
        (let* r := NDDSA_ResourceFactory_create_application_library_xml fuel xml created_out [] in
         let '(ok, applications, inner_entities, lib_name) := r in
         each (fun log => free_string (fst (NDDSA_CreatedResourceLog_finalize_w_params log)))
           inner_entities;;
         ret (ok, applications, lib_name))
  | RESOURCEKIND_DOMAINPARTICIPANT =>
      without_parent created_out parent
        (NDDSA_ResourceFactory_create_participant_library_xml fuel xml created_out)
  | RESOURCEKIND_TOPIC =>
      single_entity created_out parent (NDDSA_ResourceFactory_create_topic_xml xml)
  | RESOURCEKIND_PUBLISHER =>
      single_entity created_out parent (NDDSA_ResourceFactory_create_publisher_xml xml)
  | RESOURCEKIND_SUBSCRIBER =>
      single_entity created_out parent (NDDSA_ResourceFactory_create_subscriber_xml xml)
  | RESOURCEKIND_DATAWRITER =>
      single_entity created_out parent (NDDSA_ResourceFactory_create_datawriter_xml xml)
  | RESOURCEKIND_DATAREADER =>
      single_entity created_out parent (NDDSA_ResourceFactory_create_datareader_xml xml)
  | RESOURCEKIND_DOMAIN =>
      without_parent created_out parent
        (no_name (NDDSA_ResourceFactory_create_domain_library_xml fuel xml created_out))
  | RESOURCEKIND_QOSPROFILE =>
      without_parent created_out parent
        (no_name (NDDSA_ResourceFactory_create_qos_library_xml fuel xml created_out))
  | RESOURCEKIND_TYPE =>
      without_parent created_out parent
        (no_name (NDDSA_ResourceFactory_create_types_xml xml created_out))
  | RESOURCEKIND_UNKNOWN => ret (false, created_out, None)
  end.

Definition NDDSA_ResourceFactory_create_resource_native_xml (fuel : nat)
    (kind : D2S2_ResourceKind) (xml_repr : option cstr) (parent : option D2S2_ResourceId)
    (created_out : LogSeq) : ndds (bool * LogSeq) :=
  let* r := create_kind_xml fuel kind xml_repr parent created_out in
  let '(retcode, created, lib_name) := r in
  free_name lib_name;;
  ret (if retcode : bool then (true, created) else (false, [])).

(** The identifier of a reference that may be NULL. *)
Definition reference_id (ref : option cstr) : D2S2_ResourceId :=
  {| id_kind := RESOURCEIDKIND_REF; id_value := IdValue_ref ref |}.

(** What a reference that was resolved is logged as.  The switch is the one of
    [lookup_entity_resourceEA]. *)
Definition existing_entity (kind : D2S2_ResourceKind) (ref : option cstr) (created_out : LogSeq)
    : ndds (bool * LogSeq) :=
  let* l := NDDSA_ResourceFactory_lookup_entity_resourceEA kind (reference_id ref) None in
  let '(ok, resource_exists, _) := l in
  if negb (ok && resource_exists) then ret (false, []) else
  let? logs := ensure_length created_out 1 else ret (false, []) in
  let* created_id := get_reference logs 0 in
  let '(ok, id) := D2S2_ResourceId_initialize_ref (log_id created_id) ref in
  ret (if ok : bool then (true, [{| log_id := id; log_kind := kind |}]) else (false, [])).

Definition NDDSA_ResourceFactory_create_resource_native_ref (kind : D2S2_ResourceKind)
    (ref_repr : option cstr) (parent : option D2S2_ResourceId) (created_out : LogSeq)
    : ndds (bool * LogSeq) :=
  match parent with
  | None => existing_entity kind ref_repr created_out
  | Some parent =>
      let* parent_ref := ref_string (default None (id_ref parent)) in
      let* ref := ref_string ref_repr in
      let? full_ref := string_append parent_ref REF_SEPARATOR ref else ret (false, []) in
      let* r := existing_entity kind (Some full_ref) created_out in
      ncall (StringFree full_ref);;
      ret r
  end.

Definition NDDSA_ResourceFactory_create_resource_native (fuel : nat) (kind : D2S2_ResourceKind)
    (repr : D2S2_ResourceRepresentation) (parent : option D2S2_ResourceId) (created_out : LogSeq)
    : ndds (bool * LogSeq) :=
  match fmt repr with
  | FORMAT_XML =>
      NDDSA_ResourceFactory_create_resource_native_xml fuel kind (repr_str repr) parent created_out
  | FORMAT_REF =>
      NDDSA_ResourceFactory_create_resource_native_ref kind (repr_str repr) parent created_out
  | _ => ret (false, created_out)
  end.

(** ** Deleting an entity in the factory *)

(** The kind and the depth of what an entity is inside of; a participant is inside none. *)
Definition parent_of_kind (kind : D2S2_ResourceKind) : option (option (D2S2_ResourceKind * Z)) :=
  match kind with
  | RESOURCEKIND_DOMAINPARTICIPANT => Some None
  | RESOURCEKIND_TOPIC | RESOURCEKIND_PUBLISHER | RESOURCEKIND_SUBSCRIBER =>
      Some (Some (RESOURCEKIND_DOMAINPARTICIPANT, DEPTH_PARTICIPANT))
  | RESOURCEKIND_DATAWRITER => Some (Some (RESOURCEKIND_PUBLISHER, DEPTH_PUBLISHER))
  | RESOURCEKIND_DATAREADER => Some (Some (RESOURCEKIND_SUBSCRIBER, DEPTH_SUBSCRIBER))
  | _ => None
  end.

Definition has_contained (kind : D2S2_ResourceKind) : bool :=
  match kind with
  | RESOURCEKIND_DOMAINPARTICIPANT | RESOURCEKIND_PUBLISHER | RESOURCEKIND_SUBSCRIBER => true
  | _ => false
  end.

(** What is inside the entity, and then the entity. *)
Definition delete_native (kind : D2S2_ResourceKind) (parent entity : option Z) : ndds bool :=
  unless (if has_contained kind then
            let* rc := ncall (EntityDeleteContained kind entity) in ret (dds_ok rc)
          else ret true)
  then ret false else
  let* rc := ncall (EntityDelete kind parent entity) in
  ret (dds_ok rc).

Definition NDDSA_ResourceFactory_delete_entity_resource (kind : D2S2_ResourceKind)
    (id : D2S2_ResourceId) : ndds bool :=
  let* n := entity_name id in
  if negb (fst n) then ret false else
  let? factory := ncall FactoryGetInstance else ret false in
  let* l := NDDSA_ResourceFactory_lookup_entity_resourceEA kind id None in
  let '(ok, present, entity) := l in
  if negb ok then ret false else
  if negb present then ret true else
  match parent_of_kind kind with
  | None => ret false
  | Some None => delete_native kind (Some factory) entity
  | Some (Some (parent_kind, depth)) =>
      let? parent_name := name_ref (snd n) depth else ret false in
      let* l := NDDSA_ResourceFactory_lookup_entity_resourceEA parent_kind (ref_id parent_name) None in
      let '(ok, parent_exists, parent) := l in
      let* r := if ok && parent_exists then delete_native kind parent entity else ret false in
      ncall (StringFree parent_name);;
      ret r
  end.

(** ** The record of a resource *)

Definition set_rd_agent (agent : Z) (r : NDDSA_Reader) : NDDSA_Reader :=
  {| rd_resource_id := rd_resource_id r; rd_agent := Some agent; dyn_reader := dyn_reader r;
     sem_requests := sem_requests r; rd_requests := rd_requests r;
     pool_requests := pool_requests r; dismiss_sn := dismiss_sn r; rd_deleted := rd_deleted r |}.

Definition set_wr_agent (agent : Z) (w : NDDSA_Writer) : NDDSA_Writer :=
  {| wr_res := wr_res w; wr_agent := Some agent; dyn_writer := dyn_writer w;
     dyn_sample := dyn_sample w; dyn_support := dyn_support w; wr_pool_samples := wr_pool_samples w;
     wr_cond_status := wr_cond_status w; wr_handler_set := wr_handler_set w;
     data_buffer := data_buffer w; data_buffer_len := data_buffer_len w;
     data_buffer_max := data_buffer_max w |}.

(** The native resource that is stored. *)
Definition native_of (kind : D2S2_ResourceKind) (id : D2S2_ResourceId)
    (repr : D2S2_ResourceRepresentation) : ndds (option NDDSA_ResourceNative) :=
  let ok (r : bool * NDDSA_ResourceNative) := if fst r then Some (snd r) else None in
  match kind with
  | RESOURCEKIND_APPLICATION | RESOURCEKIND_DOMAIN | RESOURCEKIND_QOSPROFILE
  | RESOURCEKIND_TYPE =>
      let* r := reads (fun _ => NDDSA_ResourceNative_initialize_generic
                                  NDDSA_RESOURCENATIVE_INITIALIZER {| generic_id := id |} repr) in
      ret (ok r)
  | RESOURCEKIND_UNKNOWN => ret None
  | _ =>
      let* l := NDDSA_ResourceFactory_lookup_entity_resource kind id None in
      let '(found, present, entity) := l in
      ret (if found && present
           then ok (NDDSA_ResourceNative_initialize_entity NDDSA_RESOURCENATIVE_INITIALIZER
                      entity repr)
           else None)
  end.

(** The state of a reader.  When its QoS cannot be read the buffer is returned, not finalized,
    and still is the state of the resource.  What is read from the QoS is stored in
    [dismiss_samples], which nothing reads. *)
Definition record_reader (self resource_rec : Z) : ndds bool :=
  let* ag := the_nd_agent in
  let? reader_data := ncall (ReaderStatePoolGet (pool_readers ag)) else ret false in
  unless NDDSA_Reader_initialize reader_data resource_rec
  then ncall (ReaderStatePoolReturn (pool_readers ag) reader_data);; ret false else
  upd_reader reader_data (set_rd_agent self);;
  upd_resource resource_rec (set_resource_user_data (Some reader_data));;
  let* r := areader_of reader_data in
  let* reader := ncall (ReaderAsDataReader (dyn_reader r)) in
  let* qos := ncall (ReaderQos reader) in
  if negb (dds_ok (fst qos))
  then ncall (ReaderStatePoolReturn (pool_readers ag) reader_data);; ret false
  else ret true.

Definition record_writer (self resource_rec : Z) : ndds bool :=
  let* ag := the_nd_agent in
  let* b := ncall (WriterStatePoolGet (pool_writers ag)) in
  match b with
  | None => ret false
  | Some (writer_data, content) =>
      modify (put_awriter writer_data content);;
      unless NDDSA_Writer_initialize writer_data resource_rec
      then ncall (WriterStatePoolReturn (pool_writers ag) writer_data);; ret false else
      upd_writer writer_data (set_wr_agent self);;
      upd_resource resource_rec (set_resource_user_data (Some writer_data));;
      ret true
  end.

(** A record that was just inserted. *)
Definition fill_new_record (self resource_rec : Z) (kind : D2S2_ResourceKind) (id : D2S2_ResourceId)
    (repr : D2S2_ResourceRepresentation) : ndds bool :=
  let? native_resource := native_of kind id repr else ret false in
  let '(ok, res) := NDDSA_Resource_initialize id kind native_resource in
  upd_resource resource_rec (fun _ => res);;
  if negb ok then ret false else
  match kind with
  | RESOURCEKIND_DATAREADER => record_reader self resource_rec
  | RESOURCEKIND_DATAWRITER => record_writer self resource_rec
  | _ => ret true
  end.

Definition is_reference (repr : D2S2_ResourceRepresentation) : bool :=
  match fmt repr with FORMAT_REF => true | _ => false end.

(** With the logs of what was created.  Nothing that was done is undone on failure: the record
    stays in the database, and is not released. *)
Definition insert_created (self : Z) (kind : D2S2_ResourceKind) (repr : D2S2_ResourceRepresentation)
    (created : LogSeq) : ndds (DDS_ReturnCode_t * option Z) :=
  let failed := ret (DDS_RETCODE_ERROR, None) in
  match created with
  | [] => failed
  | created_id :: _ =>
      if negb (bool_decide (log_kind created_id = kind)) then failed else
      let* i := NDDSA_AgentDb_insert_resourceEA (log_id created_id) in
      match i with
      | (None, _) => failed
      | (Some resource_rec, already_exists) =>
          if already_exists && negb (is_reference repr) then failed else
          unless (if already_exists then ret true
                  else fill_new_record self resource_rec kind (log_id created_id) repr)
          then failed else
          let* ag := the_nd_agent in
          let* rc := ncall (GuardTrigger (cond_cleanup_resources ag) true) in
          if negb (dds_ok rc) then failed else
          let* rr := resource_rec_of resource_rec in
          ret (DDS_RETCODE_OK,
               if pending_delete (rr_resource rr) || native_deleted (rr_resource rr)
               then None else Some resource_rec)
      end
  end.

Definition finalize_logs (logs : LogSeq) : ndds unit :=
  each (fun log => free_string (fst (NDDSA_CreatedResourceLog_finalize_w_params log))) logs.

Definition NDDSA_Agent_insert_resource_recordEA (fuel : nat) (self : Z) (kind : D2S2_ResourceKind)
    (repr : D2S2_ResourceRepresentation) (parent : option D2S2_ResourceId)
    : ndds (DDS_ReturnCode_t * option Z) :=
  let* n := NDDSA_ResourceFactory_create_resource_native fuel kind repr parent [] in
  let '(ok, created) := n in
  let* r := if ok : bool then insert_created self kind repr created
            else ret (DDS_RETCODE_ERROR, None) in
  finalize_logs created;;
  ret r.
End create.

(** ** A resource for a session *)

Section session.
Context {N : NddsApi} {C : ConnextCore} (others : Ndds -> Ndds) (fuel : nat).

(** Kinds that are inside nothing. *)
Definition stands_alone (kind : D2S2_ResourceKind) : bool :=
  match kind with
  | RESOURCEKIND_APPLICATION | RESOURCEKIND_QOSPROFILE | RESOURCEKIND_DOMAIN | RESOURCEKIND_TYPE
  | RESOURCEKIND_DOMAINPARTICIPANT => true
  | _ => false
  end.

Definition parent_kind (kind : D2S2_ResourceKind) : option D2S2_ResourceKind :=
  match kind with
  | RESOURCEKIND_TOPIC | RESOURCEKIND_PUBLISHER | RESOURCEKIND_SUBSCRIBER =>
      Some RESOURCEKIND_DOMAINPARTICIPANT
  | RESOURCEKIND_DATAWRITER => Some RESOURCEKIND_PUBLISHER
  | RESOURCEKIND_DATAREADER => Some RESOURCEKIND_SUBSCRIBER
  | _ => None
  end.

(** A kind of parent that is allowed, before the parent is looked up. *)
Definition valid_request (kind : D2S2_ResourceKind) (repr : D2S2_ResourceRepresentation)
    (parent_id : Z) : bool :=
  match fmt repr with
  | FORMAT_XML | FORMAT_REF =>
      match kind with
      | RESOURCEKIND_UNKNOWN => false
      | _ => negb (stands_alone kind) || (parent_id =? ATTACHEDRESOURCEID_INVALID)%Z
      end
  | _ => false
  end.

(** The identifier of the parent, which is attached and of the kind to be; [None] fails. *)
Definition find_parent (session_rec : Z) (kind : D2S2_ResourceKind) (parent_id : Z)
    : ndds (option (option D2S2_ResourceId)) :=
  if (parent_id =? ATTACHEDRESOURCEID_INVALID)%Z then ret (Some None) else
  let? attached_parent := NDDSA_ClientSession_find_attached_resource session_rec parent_id
  else ret None in
  let* a := attached_of attached_parent in
  ret (if bool_decide (parent_kind kind = Some (att_kind (at_base a)))
       then Some (Some (att_resource (at_base a))) else None).

(** The resource that is already attached; [None] fails. *)
Definition find_existing (session_rec resource_id : Z) (kind : D2S2_ResourceKind)
    (properties : D2S2_ResourceProperties) : ndds (option (option Z)) :=
  if (resource_id =? ATTACHEDRESOURCEID_INVALID)%Z then ret (Some None) else
  let* found := NDDSA_ClientSession_find_attached_resource session_rec resource_id in
  match found with
  | None => ret (Some None)
  | Some attached =>
      let* a := attached_of attached in
      ret (if negb (bool_decide (att_kind (at_base a) = kind)) then None
           else if negb (reuse properties || replace properties) then None
           else Some (Some attached))
  end.

(** What the label [done] is to give back: the record that is held, whether the table is
    locked, and the representation that was converted. *)
Record Creating := {
  cr_rec : option Z;
  cr_locked : bool;
  cr_repr : D2S2_ResourceRepresentation
}.

(** While the table is locked the record is released by the function that takes the worker's
    cursor and finishes it, not by the one for a cursor that is started. *)
Definition create_done (c : Creating) (r : DDS_ReturnCode_t * option Z)
    : ndds (DDS_ReturnCode_t * option Z) :=
  free_string (fst (D2S2_ResourceRepresentation_finalize (cr_repr c)));;
  let* released :=
    match cr_rec c with
    | None => ret true
    | Some _ => if cr_locked c then NDDSA_AgentDb_release_resource
                else NDDSA_AgentDb_release_resourceEA
    end in
  let* unlocked := if cr_locked c then NDDSA_AgentDb_unlock_resources true else ret true in
  ret (if released && unlocked then r else (DDS_RETCODE_ERROR, snd r)).

(** Whether the representations are compatible, with the one that was converted: [None] fails. *)
Definition compare_representations (rr : NDDSA_ResourceRecord) (repr : D2S2_ResourceRepresentation)
    : ndds (option bool * D2S2_ResourceRepresentation) :=
  let '(ok, existing) := NDDSA_Resource_convert_representation
                           (create_repr (native (rr_resource rr)))
                           D2S2_RESOURCEREPRESENTATION_INITIALIZER (fmt repr) in
  if negb ok then ret (None, existing) else
  let* a := ref_string (repr_str repr) in
  let* b := ref_string (repr_str existing) in
  ret (Some (bool_decide (a = b)), existing).

(** A resource that is attached is used as it is or not at all: replacing it is not
    implemented.  The answer is whether it is used, and whether a read was cancelled. *)
Definition reuse_resource (session_rec attached : Z) (repr : D2S2_ResourceRepresentation)
    (properties : D2S2_ResourceProperties) : ndds (option bool * Creating) :=
  let at_work rec existing := {| cr_rec := rec; cr_locked := true; cr_repr := existing |} in
  let* a := attached_of attached in
  let* l := NDDSA_AgentDb_lookup_resourceEA (att_resource (at_base a)) in
  match l with
  | (true, Some resource_rec) =>
      let* rr := resource_rec_of resource_rec in
      let* cmp := if reuse properties then compare_representations rr repr
                  else ret (Some false, D2S2_RESOURCEREPRESENTATION_INITIALIZER) in
      let c := at_work (Some resource_rec) (snd cmp) in
      match fst cmp with
      | Some true =>
          if bool_decide (is_Some (read_req a)) then
            let* rc := NDDSA_Agent_cancel_readEA others session_rec attached true resource_rec in
            ret (if dds_ok rc then Some true else None, c)
          else ret (Some false, c)
      | _ => ret (None, c)
      end
  | _ => ret (None, at_work None D2S2_RESOURCEREPRESENTATION_INITIALIZER)
  end.

(** The record is held and the table locked: the resource is attached and enabled, both are
    given back, and the service is told of a read that was cancelled.  What was attached stays
    attached when it is not enabled. *)
Definition attach_created (src : option Z) (session_rec resource_id resource_rec : Z)
    (attached : option Z) (cancelled_read : bool) (existing : D2S2_ResourceRepresentation)
    : ndds (DDS_ReturnCode_t * option Z) :=
  let holding rec locked := {| cr_rec := rec; cr_locked := locked; cr_repr := existing |} in
  let failed := (DDS_RETCODE_ERROR, None) in
  let? attached :=
    match attached with
    | Some a => ret (Some a)
    | None => NDDSA_Agent_attach_resource_to_sessionEA session_rec resource_id resource_rec
    end
  else create_done (holding (Some resource_rec) true) failed in
  let* rc := NDDSA_Agent_enable_resourceEA resource_rec in
  if negb (dds_ok rc) then create_done (holding (Some resource_rec) true) failed else
  unless NDDSA_AgentDb_release_resourceEA then create_done (holding None true) failed else
  unless NDDSA_AgentDb_unlock_resources true then create_done (holding None false) failed else
  (if cancelled_read then
     let* rec := session_rec_of session_rec in
     let* a := attached_of attached in
     ncall (OnReadComplete src session_rec (cs_user_data (sr_session rec)) (att_id (at_base a))
              (at_user_data a))
   else ret tt);;
  create_done (holding None false) (DDS_RETCODE_OK, Some attached).

Definition NDDSA_Agent_create_resourceEA (self : Z) (src : option Z) (session_rec resource_id : Z)
    (kind : D2S2_ResourceKind) (repr : D2S2_ResourceRepresentation) (parent_id : Z)
    (properties : D2S2_ResourceProperties) : ndds (DDS_ReturnCode_t * option Z) :=
  let failed := (DDS_RETCODE_ERROR, None) in
  if negb (valid_request kind repr parent_id) then ret failed else
  let? parent := find_parent session_rec kind parent_id else ret failed in
  let? attached := find_existing session_rec resource_id kind properties else ret failed in
  unless NDDSA_AgentDb_lock_resources true false then ret failed else
  let* used :=
    match attached with
    | Some attached => reuse_resource session_rec attached repr properties
    | None => ret (Some false, {| cr_rec := None; cr_locked := true;
                                  cr_repr := D2S2_RESOURCEREPRESENTATION_INITIALIZER |})
    end in
  match used with
  | (None, c) => create_done c failed
  | (Some cancelled_read, c) =>
      let? resource_rec :=
        match cr_rec c with
        | Some rec => ret (Some rec)
        | None =>
            let* i := NDDSA_Agent_insert_resource_recordEA fuel self kind repr parent in
            ret (if dds_ok (fst i) then snd i else None)
        end
      else create_done c failed in
      attach_created src session_rec resource_id resource_rec attached cancelled_read (cr_repr c)
  end.

Definition NDDSA_Agent_create_resource (self : Z) (src : option Z) (session_rec resource_id : Z)
    (kind : D2S2_ResourceKind) (repr : D2S2_ResourceRepresentation) (parent_id : Z)
    (properties : D2S2_ResourceProperties) (request_param : option Z) : ndds DDS_ReturnCode_t :=
  let* c := NDDSA_Agent_create_resourceEA self src session_rec resource_id kind repr parent_id
              properties in
  if negb (dds_ok (fst c)) then ret DDS_RETCODE_ERROR else
  let* attached := not_null (snd c) in
  let* rec := session_rec_of session_rec in
  let* a := attached_of attached in
  let* r := ncall (OnResourceCreated src session_rec (cs_user_data (sr_session rec)) kind
                     (att_resource (at_base a)) (att_id (at_base a)) request_param) in
  if negb (dds_ok (fst r)) then
    NDDSA_Agent_detach_resourceEA others fuel src session_rec attached false None;;
    ret DDS_RETCODE_ERROR
  else
    upd_attached attached (set_at_user_data (snd r));;
    ret DDS_RETCODE_OK.

(** ** A resource for every session *)

(** One session: [Some] with the record that is still held when it failed.  The test of what
    [attach_resource_to_sessionEA] answers is the wrong way round: it goes on when it failed,
    and [attached] is NULL. *)
Definition attach_to_session (session_rec resource_rec : Z) : ndds (option (option Z)) :=
  let* rr := resource_rec_of resource_rec in
  let base := resource_base (rr_resource rr) in
  let? attach_id := NDDSA_Agent_generate_attached_resource_id (res_id base) (res_kind base)
  else ret (Some (Some resource_rec)) in
  let* found := NDDSA_ClientSession_find_attached_resource session_rec attach_id in
  let* notify :=
    match found with
    | Some _ => ret (Some false)
    | None =>
        let* a := NDDSA_Agent_attach_resource_to_sessionEA session_rec attach_id resource_rec in
        ret (if bool_decide (is_Some a) then None else Some true)
    end in
  match notify with
  | None => ret (Some (Some resource_rec))
  | Some notify =>
      unless NDDSA_AgentDb_release_resource then ret (Some None) else
      if notify : bool then undefined else ret None
  end.

Fixpoint all_sessions_loop (rows : nat) (id : D2S2_ResourceId) (prev : option Z)
    : ndds (bool * option Z * option Z) :=
  match rows with
  | O => unfinished
  | S rows =>
      let* f := NDDSA_AgentDb_find_next_session fuel None prev in
      match f with
      | None => ret (false, None, None)
      | Some None => ret (true, None, None)
      | Some (Some session_rec) =>
          let* l := NDDSA_AgentDb_lookup_resource id in
          if negb (fst l) then ret (false, None, Some session_rec) else
          let* resource_rec := reads (fun _ => mjoin (snd l)) in
          let* a := attach_to_session session_rec resource_rec in
          match a with
          | Some held => ret (false, held, Some session_rec)
          | None => all_sessions_loop rows id (Some session_rec)
          end
      end
  end.

Definition NDDSA_Agent_attach_resource_to_all_sessionsEA (id : D2S2_ResourceId)
    : ndds DDS_ReturnCode_t :=
  unless NDDSA_AgentDb_lock_sessions true true then ret DDS_RETCODE_ERROR else
  let* r := all_sessions_loop fuel id None in
  let '(ok, resource_rec, session_rec) := r in
  let* released := if bool_decide (is_Some resource_rec) then NDDSA_AgentDb_release_resource
                   else ret true in
  let* released' := if bool_decide (is_Some session_rec) then NDDSA_AgentDb_release_sessionEA
                    else ret true in
  let* unlocked := NDDSA_AgentDb_unlock_sessions true in
  ret (ok_or_error (ok && released && released' && unlocked)).
End session.

(** ** The entities of the XML that is loaded *)

Section implicit.
Context {N : NddsApi} {C : ConnextCore} (fuel : nat).

(** The state of the visitor is what was created so far. *)
Definition visiting : Type := Ndds * LogSeq.

Definition lift {A} (m : ndds A) : prog NResp visiting A :=
  fun '(s, l) => tbind (m s) (fun '(a, s') => Ret (a, (s', l))).

Definition visitor_run {A} (m : prog NResp visiting A) : ndds (A * LogSeq) :=
  fun s => tbind (m (s, [])) (fun '(a, (s', l)) => Ret ((a, l), s')).

Definition NDDSA_XmlResourceVisitor_append_created_resource (ref : option cstr)
    (ref_kind : D2S2_ResourceKind) : prog NResp visiting bool :=
  let* result_seq := gets snd in
  let seq_len := length result_seq in
  let? logs := lift (ensure_length result_seq (seq_len + 1)) else ret false in
  let* id_ref := lift (get_reference logs seq_len) in
  let '(ok, id) := D2S2_ResourceId_initialize_ref (log_id id_ref) ref in
  modify (fun '(s, _) =>
    (s, if ok : bool then <[seq_len := {| log_id := id; log_kind := ref_kind |}]> logs
        else take seq_len logs));;
  ret ok.

(** The fully qualified name of an element, without the separator it starts with. *)
Definition NDDSA_XmlResourceVisitor_get_resource_id (xml_obj : Z) : ndds (option cstr) :=
  let? el_fqn := ncall (XmlObjectName xml_obj) else ret None in
  match el_fqn with
  | [] => ret None
  | _ => ret (Some (match strstr el_fqn REF_SEPARATOR with
                    | Some O => drop 2 el_fqn
                    | _ => el_fqn
                    end))
  end.

(** The reference a resource is created by, and the name of its parent, which is allocated:
    [None] fails. *)
Definition visited_reference (factory : option Z) (kind : D2S2_ResourceKind) (el_fqn : cstr)
    (name : D2S2_EntityName) : ndds (option (option cstr * option cstr)) :=
  let inside depth :=
    let? parent := name_ref name depth else ret None in
    ret (Some (D2S2_EntityName_leaf name, Some parent)) in
  match kind with
  | RESOURCEKIND_DOMAINPARTICIPANT =>
      let* f := not_null factory in
      let? dp := ncall (CreateParticipant f el_fqn) else ret None in
      ret (Some (Some el_fqn, None))
  | RESOURCEKIND_PUBLISHER | RESOURCEKIND_SUBSCRIBER | RESOURCEKIND_TOPIC =>
      inside DEPTH_PARTICIPANT
  | RESOURCEKIND_DATAREADER => inside DEPTH_SUBSCRIBER
  | RESOURCEKIND_DATAWRITER => inside DEPTH_PUBLISHER
  | _ => ret None
  end.

(** An element that has no record: the record it gets, if any ([None] fails), and the name
    of its parent. *)
Definition visited_resource (self : Z) (factory : option Z) (kind : D2S2_ResourceKind)
    (el_fqn : cstr) : ndds (option (option Z) * option cstr) :=
  let* n := entity_name (ref_id el_fqn) in
  if negb (fst n) then ret (None, None) else
  let* v := visited_reference factory kind el_fqn (snd n) in
  match v with
  | None => ret (None, None)
  | Some (ref, parent) =>
      let* i := NDDSA_Agent_insert_resource_recordEA fuel self kind
                  {| fmt := FORMAT_REF; repr_value := ReprValue_str ref |}
                  (ref_id <$> parent) in
      ret (if dds_ok (fst i) then Some (snd i) else None, parent)
  end.

Definition NDDSA_XmlResourceVisitor_on_resource (self : Z) (factory : option Z)
    (res_kind : D2S2_ResourceKind) (xml_obj : Z) : prog NResp visiting bool :=
  let? el_fqn := lift (NDDSA_XmlResourceVisitor_get_resource_id xml_obj) else ret false in
  let* l := lift (NDDSA_AgentDb_lookup_resourceEA (ref_id el_fqn)) in
  let* v :=
    match l with
    | (false, _) => ret (None, None)
    | (true, Some rec) => ret (Some (Some rec), None)
    | (true, None) => lift (visited_resource self factory res_kind el_fqn)
    end in
  let* appended :=
    match fst v with
    | Some _ => NDDSA_XmlResourceVisitor_append_created_resource (Some el_fqn) res_kind
    | None => ret false
    end in
  let* released :=
    match fst v with
    | Some (Some _) => lift NDDSA_AgentDb_release_resourceEA
    | _ => ret true
    end in
  lift (free_name (snd v));;
  ret (appended && released).

Definition NDDSA_XmlResourceVisitor_on_participant (self : Z) (factory : option Z) :=
  NDDSA_XmlResourceVisitor_on_resource self factory RESOURCEKIND_DOMAINPARTICIPANT.
Definition NDDSA_XmlResourceVisitor_on_publisher (self : Z) (factory : option Z) :=
  NDDSA_XmlResourceVisitor_on_resource self factory RESOURCEKIND_PUBLISHER.
Definition NDDSA_XmlResourceVisitor_on_subscriber (self : Z) (factory : option Z) :=
  NDDSA_XmlResourceVisitor_on_resource self factory RESOURCEKIND_SUBSCRIBER.
Definition NDDSA_XmlResourceVisitor_on_datawriter (self : Z) (factory : option Z) :=
  NDDSA_XmlResourceVisitor_on_resource self factory RESOURCEKIND_DATAWRITER.
Definition NDDSA_XmlResourceVisitor_on_datareader (self : Z) (factory : option Z) :=
  NDDSA_XmlResourceVisitor_on_resource self factory RESOURCEKIND_DATAREADER.
Definition NDDSA_XmlResourceVisitor_on_topic (self : Z) (factory : option Z) :=
  NDDSA_XmlResourceVisitor_on_resource self factory RESOURCEKIND_TOPIC.

Definition NDDSA_XmlResourceVisitor_initialize (self : Z) (factory : option Z)
    : NDDSA_XmlVisitor visiting :=
  {| xml_on_participant := NDDSA_XmlResourceVisitor_on_participant self factory;
     xml_on_publisher := NDDSA_XmlResourceVisitor_on_publisher self factory;
     xml_on_subscriber := NDDSA_XmlResourceVisitor_on_subscriber self factory;
     xml_on_topic := NDDSA_XmlResourceVisitor_on_topic self factory;
     xml_on_datawriter := NDDSA_XmlResourceVisitor_on_datawriter self factory;
     xml_on_datareader := NDDSA_XmlResourceVisitor_on_datareader self factory |}.

Fixpoint implicit_ids_loop (logs : LogSeq) : ndds bool :=
  match logs with
  | [] => ret true
  | log :: logs =>
      let? id := NDDSA_Agent_generate_attached_resource_id (log_id log) (log_kind log)
      else ret false in
      implicit_ids_loop logs
  end.

(** A failure to unlock the table makes the answer OK. *)
Definition NDDSA_Agent_create_implicit_resources (self : Z) : ndds DDS_ReturnCode_t :=
  let* factory := ncall FactoryGetInstance in
  unless NDDSA_AgentDb_lock_resources true false then ret DDS_RETCODE_ERROR else
  let* v := visitor_run (NDDSA_Agent_visit_xml fuel (NDDSA_XmlResourceVisitor_initialize self factory)) in
  let '(ok, created_resources) := v in
  let* ok := if ok : bool then implicit_ids_loop created_resources else ret false in
  let* unlocked := NDDSA_AgentDb_unlock_resources true in
  finalize_logs created_resources;;
  ret (if unlocked then ok_or_error ok else DDS_RETCODE_OK).

(** The two kinds of address; the rest of the text is for Connext. *)
Definition FILE_PREFIX : cstr := of_string "file://".
Definition STR_PREFIX : cstr := of_string "str://".

Definition NDDSA_Agent_load_resources_from_xml (self : Z) (xml_url : cstr)
    : ndds DDS_ReturnCode_t :=
  let? factory := ncall FactoryGetInstance else ret DDS_RETCODE_ERROR in
  let finish rc := (ncall FactoryQosFinalize;; ret rc) in
  let* rc := ncall (FactoryGetQos factory) in
  if negb (dds_ok rc) then finish DDS_RETCODE_ERROR else
  if (strlen xml_url <=? 7)%nat then finish DDS_RETCODE_ERROR else
  let file_url := is_prefix FILE_PREFIX xml_url in
  let str_url := is_prefix STR_PREFIX xml_url in
  if negb file_url && negb str_url then finish DDS_RETCODE_ERROR else
  unless ncall (FactoryProfileRoom factory file_url) then finish DDS_RETCODE_ERROR else
  let* rc := ncall (FactorySetQosProfile factory file_url (DDS_String_dup (Some xml_url))) in
  if negb (dds_ok rc) then finish DDS_RETCODE_ERROR else
  let* rc := NDDSA_Agent_create_implicit_resources self in
  finish (ok_or_error (dds_ok rc)).
End implicit.

(** ** The lock of the table *)

Section lock_free.
Context {N : NddsApi} {C : ConnextCore}.

(** Calls that neither lock nor unlock a table. *)
Definition lock_free (c : NCall) : bool :=
  match c with CursorLockTable _ | CursorUnlockTable _ => false | _ => true end.

Ltac lf_step := first [ makes_step | apply (makes_call (R := NResp)); reflexivity ]; cbn beta iota.
Ltac lf := repeat lf_step.

Lemma lf_entity_name id : makes lock_free (entity_name id).
Proof. unfold entity_name. lf. Qed.
Lemma lf_name_ref n d : makes lock_free (name_ref n d).
Proof. unfold name_ref. lf. Qed.
Lemma lf_name_component n d : makes lock_free (name_component n d).
Proof. unfold name_component. lf. Qed.
#[local] Hint Resolve lf_entity_name lf_name_ref lf_name_component : makes.
Lemma lf_participant id : makes lock_free (NDDSA_RefResource_lookup_participant id).
Proof. unfold NDDSA_RefResource_lookup_participant. lf. Qed.
#[local] Hint Resolve lf_participant : makes.
Lemma lf_inside id d1 d2 f g :
  (forall i, makes lock_free (f i)) -> (forall p c, makes lock_free (g p c)) ->
  makes lock_free (lookup_inside id d1 d2 f g).
Proof. intros Hf Hg. unfold lookup_inside. lf. Qed.
Lemma lf_lookupEA kind id e :
  makes lock_free (NDDSA_ResourceFactory_lookup_entity_resourceEA kind id e).
Proof.
  unfold NDDSA_ResourceFactory_lookup_entity_resourceEA, NDDSA_RefResource_lookup_application,
    NDDSA_RefResource_lookup_datawriter, NDDSA_RefResource_lookup_datareader, lookup_written,
    NDDSA_RefResource_lookup_topic, NDDSA_RefResource_lookup_publisher,
    NDDSA_RefResource_lookup_subscriber.
  destruct kind; repeat first [apply lf_inside; intros | lf_step].
Qed.
Lemma lf_lookup kind id e : makes lock_free (NDDSA_ResourceFactory_lookup_entity_resource kind id e).
Proof. pose proof lf_lookupEA. unfold NDDSA_ResourceFactory_lookup_entity_resource. lf. Qed.
#[local] Hint Resolve lf_lookupEA lf_lookup : makes.

(** *** XML *)

Lemma lf_parse xml tag : makes lock_free (NDDSA_XmlResource_parse_xml_element_name xml tag).
Proof. unfold NDDSA_XmlResource_parse_xml_element_name. lf. Qed.
Lemma lf_free_name n : makes lock_free (free_name n).
Proof. unfold free_name. lf. Qed.
Lemma lf_append a b c : makes lock_free (string_append a b c).
Proof. unfold string_append. lf. Qed.
Lemma lf_room logs n : makes lock_free (ensure_length logs n).
Proof. unfold ensure_length. lf. Qed.
Lemma lf_get logs n : makes lock_free (get_reference logs n).
Proof. unfold get_reference. lf. Qed.
Lemma lf_unload b f n : makes lock_free (unload_if b f n).
Proof. unfold unload_if. lf. Qed.
Lemma lf_as_ref id : makes lock_free (id_as_ref id).
Proof. unfold id_as_ref. lf. Qed.
Lemma lf_ref_string r : makes lock_free (ref_string r).
Proof. unfold ref_string. lf. Qed.
#[local] Hint Resolve lf_parse lf_free_name lf_append lf_room lf_get lf_unload lf_as_ref lf_ref_string : makes.

Lemma lf_elements {X} fuel o c b (element : cstr -> cstr -> X -> ndds (bool * X)) head x :
  (forall s e x, makes lock_free (element s e x)) ->
  makes lock_free (elements_loop fuel o c b element head x).
Proof. intros H. revert head x. induction fuel; intros; cbn [elements_loop]; lf. Qed.
Lemma lf_names lib tag xml st : makes lock_free (element_names lib tag xml st).
Proof. unfold element_names. lf. Qed.
Lemma lf_log kind full st : makes lock_free (log_element kind full st).
Proof. unfold log_element. lf. Qed.
#[local] Hint Resolve lf_elements lf_names lf_log : makes.

Lemma lf_delete_participants f logs i n : makes lock_free (delete_participants_loop f logs i n).
Proof. revert i. induction n; intros; cbn [delete_participants_loop]; lf. Qed.
#[local] Hint Resolve lf_delete_participants : makes.
Lemma lf_participants fuel f lib s e out :
  makes lock_free (NDDSA_ResourceFactory_create_participants_xml fuel f lib s e out).
Proof.
  unfold NDDSA_ResourceFactory_create_participants_xml.
  apply makes_bind; [apply lf_elements; intros; unfold participant_element; lf | intros; lf].
Qed.
#[local] Hint Resolve lf_participants : makes.
Lemma lf_profiles fuel lib s e out :
  makes lock_free (NDDSA_ResourceFactory_create_qosprofile_xml fuel lib s e out).
Proof.
  unfold NDDSA_ResourceFactory_create_qosprofile_xml.
  apply makes_bind; [apply lf_elements; intros; unfold qosprofile_element; lf | intros; lf].
Qed.
#[local] Hint Resolve lf_profiles : makes.
Lemma lf_application fuel f lib s e st : makes lock_free (application_element fuel f lib s e st).
Proof. unfold application_element. lf. Qed.
Lemma lf_domain lib s st : makes lock_free (domain_element lib s st).
Proof. unfold domain_element. lf. Qed.
#[local] Hint Resolve lf_application lf_domain : makes.

Lemma lf_create_xml fuel kind xml parent out :
  makes lock_free (create_kind_xml fuel kind xml parent out).
Proof.
  unfold create_kind_xml, without_parent, single_entity, no_name,
    NDDSA_ResourceFactory_create_application_library_xml,
    NDDSA_ResourceFactory_create_participant_library_xml, NDDSA_ResourceFactory_create_types_xml,
    NDDSA_ResourceFactory_create_domain_library_xml, NDDSA_ResourceFactory_create_qos_library_xml,
    NDDSA_ResourceFactory_create_topic_xml, NDDSA_ResourceFactory_create_publisher_xml,
    NDDSA_ResourceFactory_create_subscriber_xml, create_group_xml,
    NDDSA_ResourceFactory_create_datawriter_xml, NDDSA_ResourceFactory_create_datareader_xml,
    create_endpoint_xml, free_string.
  destruct kind; lf.
Qed.
#[local] Hint Resolve lf_create_xml : makes.

(** *** The database *)

Lemma lf_worker t : makes lock_free (worker_cursor t).
Proof. unfold worker_cursor, NDDSA_AgentDb_get_worker, the_db. lf. Qed.
#[local] Hint Resolve lf_worker : makes.
Lemma lf_lookup_record id : makes lock_free (NDDSA_AgentDb_lookup_resourceEA id).
Proof. unfold NDDSA_AgentDb_lookup_resourceEA, with_static_id, lookup_at. lf. Qed.
Lemma lf_insert_record id : makes lock_free (NDDSA_AgentDb_insert_resourceEA id).
Proof. unfold NDDSA_AgentDb_insert_resourceEA, with_static_id, the_db. lf. Qed.
Lemma lf_release t : makes lock_free (release_at t).
Proof. unfold release_at. lf. Qed.
Lemma lf_release_record t : makes lock_free (NDDSA_AgentDb_release_record t).
Proof. unfold NDDSA_AgentDb_release_record. lf. Qed.
Lemma lf_resource_rec p : makes lock_free (resource_rec_of p).
Proof. unfold resource_rec_of. lf. Qed.
Lemma lf_upd_resource p f : makes lock_free (upd_resource p f).
Proof. unfold upd_resource, resource_rec_of. lf. Qed.
Lemma lf_upd_reader p f : makes lock_free (upd_reader p f).
Proof. unfold upd_reader, areader_of. lf. Qed.
Lemma lf_upd_writer p f : makes lock_free (upd_writer p f).
Proof. unfold upd_writer, awriter_of. lf. Qed.
#[local] Hint Resolve lf_lookup_record lf_insert_record lf_release lf_release_record lf_resource_rec
  lf_upd_resource lf_upd_reader lf_upd_writer : makes.

Lemma lf_reader self rec : makes lock_free (record_reader self rec).
Proof. unfold record_reader, NDDSA_Reader_initialize, native_entity, the_nd_agent, areader_of. lf. Qed.
Lemma lf_writer self rec : makes lock_free (record_writer self rec).
Proof.
  unfold record_writer, NDDSA_Writer_initialize, writer_typecode, writer_dynamic, native_entity,
    the_nd_agent, awriter_of. lf.
Qed.
#[local] Hint Resolve lf_reader lf_writer : makes.
Lemma lf_fill_new_record self rec kind id repr : makes lock_free (fill_new_record self rec kind id repr).
Proof. unfold fill_new_record, native_of. lf. Qed.
#[local] Hint Resolve lf_fill_new_record : makes.
Lemma lf_insert fuel self kind repr parent :
  makes lock_free (NDDSA_Agent_insert_resource_recordEA fuel self kind repr parent).
Proof.
  unfold NDDSA_Agent_insert_resource_recordEA, insert_created, finalize_logs, free_string,
    NDDSA_ResourceFactory_create_resource_native, NDDSA_ResourceFactory_create_resource_native_xml,
    NDDSA_ResourceFactory_create_resource_native_ref, existing_entity, the_nd_agent. lf.
Qed.

Lemma lf_enable_loop l : makes lock_free (enable_loop l).
Proof. induction l as [| [k e] l IH]; cbn [enable_loop]; lf. Qed.
#[local] Hint Resolve lf_enable_loop : makes.
Lemma lf_enable rec : makes lock_free (NDDSA_Agent_enable_resourceEA rec).
Proof. unfold NDDSA_Agent_enable_resourceEA. lf. Qed.
Lemma lf_attach session_rec id rec :
  makes lock_free (NDDSA_Agent_attach_resource_to_sessionEA session_rec id rec).
Proof.
  unfold NDDSA_Agent_attach_resource_to_sessionEA, NDDSA_Agent_generate_attached_resource_id,
    the_nd_agent, upd_attached, attached_of, upd_session_rec, session_rec_of. lf.
Qed.
Lemma lf_find_attached session_rec id :
  makes lock_free (NDDSA_ClientSession_find_attached_resource session_rec id).
Proof.
  unfold NDDSA_ClientSession_find_attached_resource, session_rec_of. apply makes_bind; [lf |].
  intros rec. induction (cs_resources _); cbn [find_attached_loop]; unfold attached_of; lf.
Qed.

(** How many locks a run leaves taken: those granted without those given back. *)
Definition lock_change (e : nevent) : Z :=
  let '(existT c r) := e in
  match c return NResp c -> Z with
  | CursorLockTable _ => fun r => if r : bool then 1%Z else 0%Z
  | CursorUnlockTable _ => fun _ => (-1)%Z
  | _ => fun _ => 0%Z
  end r.

Definition locks (t : list nevent) : Z := foldr (fun e n => (lock_change e + n)%Z) 0%Z t.

Lemma locks_app t1 t2 : locks (t1 ++ t2) = (locks t1 + locks t2)%Z.
Proof. unfold locks. induction t1; cbn [app foldr]; lia. Qed.

Lemma lock_free_locks t : only lock_free t -> locks t = 0%Z.
Proof.
  induction t as [| [c r] t IH]; [done |]. intros H. apply Forall_cons in H as [Hc Ht].
  change (lock_change (existT c r) + locks t = 0)%Z. rewrite IH by done. by destruct c.
Qed.

(** The worker of a thread that locked a table still has its cursor. *)
Definition cursor_kept (e : nevent) : Prop :=
  let '(existT c r) := e in
  match c return NResp c -> Prop with
  | GetWorker _ | CursorAssert _ _ => fun r => is_Some r
  | _ => fun _ => True
  end r.

(** [Q] of the change and the answer of the runs that return and keep their cursors. *)
Definition lock_ends {A} (m : ndds A) (s : Ndds) (Q : Z -> A -> Prop) : Prop :=
  when_ends m s (fun t a _ => Forall cursor_kept t -> Q (locks t) a).

Lemma lock_ends_bind {A B} (m : ndds A) (f : A -> ndds B) s (Q : Z -> B -> Prop) :
  lock_ends m s (fun n a => forall s', lock_ends (f a) s' (fun n' b => Q (n + n')%Z b)) ->
  lock_ends (bind m f) s Q.
Proof.
  intros Hm. apply when_ends_bind. intros t a s1 Hr t' b s2 Hr' Hk. apply Forall_app in Hk as [Hk Hk'].
  rewrite locks_app. exact (Hm t a s1 Hr Hk s1 t' b s2 Hr' Hk').
Qed.

Lemma lock_ends_free {A} (m : ndds A) s (Q : Z -> A -> Prop) :
  makes lock_free m -> (forall a, Q 0%Z a) -> lock_ends m s Q.
Proof.
  intros H HQ. eapply when_ends_mono.
  - apply (when_ends_frame lock_free (fun _ _ => True)); [done |]. intros s0. induction (m s0); cbn; auto.
  - intros t a s' [Ho _] _. by rewrite (lock_free_locks t Ho).
Qed.

(** A step that leaves the locks alone. *)
Lemma lock_ends_skip {A B} (m : ndds A) (f : A -> ndds B) s (Q : Z -> B -> Prop) :
  makes lock_free m -> (forall a s', lock_ends (f a) s' Q) -> lock_ends (bind m f) s Q.
Proof. intros Hm Hf. apply lock_ends_bind, lock_ends_free; [done |]. intros a s'. apply Hf. Qed.

Lemma lock_ends_look {A B} (m : ndds A) (f : A -> ndds B) s (Q : Z -> B -> Prop) :
  makes lock_free m -> preserves eq m -> (forall a, lock_ends (f a) s Q) -> lock_ends (bind m f) s Q.
Proof.
  intros Hm Hp Hf. apply when_ends_bind. eapply when_ends_mono; [by apply (when_ends_frame lock_free eq) |].
  intros t a s1 [Ho <-]. eapply when_ends_mono; [apply Hf |]. intros t' b s2 HQ Hk.
  apply Forall_app in Hk as [_ Hk]. rewrite locks_app, (lock_free_locks t Ho). auto.
Qed.

Lemma lock_ends_ret {A} (a : A) s (Q : Z -> A -> Prop) : Q 0%Z a -> lock_ends (ret a) s Q.
Proof. intros H. apply when_ends_ret. by intros _. Qed.

(** A lock is taken when it is answered so. *)
Lemma lock_ends_lock t top s (Q : Z -> bool -> Prop) :
  Q 1%Z true -> Q 0%Z false -> lock_ends (lock_table t true top) s Q.
Proof.
  intros Ht Hf. unfold lock_table, started_cursor. apply lock_ends_skip; [unfold the_db; lf |]. intros d s1.
  apply lock_ends_skip; [unfold NDDSA_AgentDb_get_worker, the_db; lf |].
  intros [worker|] s2; [| by apply lock_ends_ret].
  apply lock_ends_skip; [lf |]. intros [[[|] [cursor|]] stack] s3.
  all: try (apply lock_ends_skip; [unfold finish_safe; lf |]; intros; by apply lock_ends_ret).
  apply lock_ends_bind. unfold lock_ends at 1. ends_step. intros _ s4. destruct r.
  all: apply lock_ends_skip; [unfold finish_safe; lf |]; intros; by apply lock_ends_ret.
Qed.

(** It is given back by a worker that has its cursor, which answers so. *)
Lemma unlock_ends t s (Q : Z -> bool -> Prop) :
  Q (-1)%Z true -> lock_ends (unlock_table t true) s Q.
Proof.
  intros HQ. unfold lock_ends.
  unfold unlock_table, worker_cursor, NDDSA_AgentDb_get_worker, the_db.
  do 5 ends_step. destruct r as [worker|].
  2: { repeat ends_step. intros H. by apply Forall_cons in H as [[? [=]] _]. }
  do 3 ends_step. destruct r as [cursor|].
  2: { repeat ends_step. intros H. by apply Forall_cons in H as [_ [[? [=]] _]%Forall_cons]. }
  by repeat ends_step.
Qed.

(** The label [done] gives the lock back, if there is one to give back. *)
Lemma create_done_ends c r s (Q : Z -> DDS_ReturnCode_t * option Z -> Prop) :
  let n := (if cr_locked c then -1 else 0)%Z in
  Q n r -> Q n (DDS_RETCODE_ERROR, snd r) -> lock_ends (create_done c r) s Q.
Proof.
  cbv zeta.
  intros HQ HE. unfold create_done. apply lock_ends_skip; [unfold free_string; lf |]. intros [] s1.
  apply lock_ends_skip.
  { unfold NDDSA_AgentDb_release_resource, NDDSA_AgentDb_release_resourceEA. lf. }
  intros released s2. destruct (cr_locked c).
  - apply lock_ends_bind. apply unlock_ends. intros s3. apply lock_ends_ret. destruct released; cbn; auto.
  - apply lock_ends_skip; [lf |]. intros [|] s3; apply lock_ends_ret; destruct released; cbn; auto.
Qed.

(** The table was locked once, and the answer is OK only with what was attached. *)
Definition unlocked_once (n : Z) (r : DDS_ReturnCode_t * option Z) : Prop :=
  n = (-1)%Z /\ (fst r = DDS_RETCODE_OK -> is_Some (snd r)).

Lemma attach_created_ends src session_rec id rec attached cancelled existing s :
  lock_ends (attach_created src session_rec id rec attached cancelled existing) s unlocked_once.
Proof.
  unfold attach_created.
  assert (forall s, lock_ends (create_done {| cr_rec := Some rec; cr_locked := true; cr_repr := existing |}
    (DDS_RETCODE_ERROR, None)) s unlocked_once) as Hdone by (intros; by apply create_done_ends).
  apply lock_ends_skip; [pose proof lf_attach; lf |]. intros [a|] s1; [| apply Hdone].
  apply lock_ends_skip; [apply lf_enable |]. intros rc s2. destruct (negb (dds_ok rc)); [apply Hdone |].
  apply lock_ends_skip; [unfold NDDSA_AgentDb_release_resourceEA; lf |].
  intros [|] s3; [| by apply create_done_ends].
  apply lock_ends_bind, unlock_ends. intros s4. cbn beta.
  apply lock_ends_skip.
  { unfold session_rec_of, attached_of. lf. }
  intros [] s5. apply create_done_ends; split; cbn; eauto; done.
Qed.

Lemma lf_find_parent session_rec kind parent_id :
  makes lock_free (find_parent session_rec kind parent_id).
Proof. pose proof lf_find_attached. unfold find_parent, attached_of. lf. Qed.

(** Looking at what is attached changes nothing. *)
Lemma find_attached_same session_rec id :
  preserves eq (NDDSA_ClientSession_find_attached_resource session_rec id).
Proof.
  unfold NDDSA_ClientSession_find_attached_resource, session_rec_of.
  apply preserves_bind; [exact _ | nframe |]. intros rec.
  induction (cs_resources _); cbn [find_attached_loop]; unfold attached_of; nframe.
Qed.
Lemma find_parent_same session_rec kind parent_id :
  preserves eq (find_parent session_rec kind parent_id).
Proof. pose proof find_attached_same. unfold find_parent, attached_of. nframe. Qed.

Lemma lf_find_existing session_rec id kind properties :
  makes lock_free (find_existing session_rec id kind properties).
Proof. pose proof lf_find_attached. unfold find_existing, attached_of. lf. Qed.

(** ** The lock while a read is cancelled *)

(** A wait for the last event of a read. *)
Definition waited (e : nevent) : Prop :=
  match e with existT (EventSemaphoreTake _) _ => True | _ => False end.

(** The locks are as before, or it waited, was refused, and one was given back that it did not get
    again. *)
Definition lock_lost {A} (refused : A -> Prop) (t : list nevent) (a : A) : Prop :=
  locks t = 0%Z \/ (locks t = (-1)%Z /\ List.Exists waited t /\ refused a).

(** [lock_lost] of the runs that return and keep their cursors. *)
Definition may_lose {A} (m : ndds A) (refused : A -> Prop) : Prop :=
  forall s, when_ends m s (fun t a _ => Forall cursor_kept t -> lock_lost refused t a).

Lemma may_lose_free {A} (m : ndds A) refused : makes lock_free m -> may_lose m refused.
Proof.
  intros H s. eapply when_ends_mono; [by apply (lock_ends_free m s (fun n _ => n = 0%Z)) |].
  intros t a s1 Ht Hk. left. auto.
Qed.

Lemma may_lose_skip {A B} (m : ndds A) (f : A -> ndds B) refused :
  makes lock_free m -> (forall a, may_lose (f a) refused) -> may_lose (bind m f) refused.
Proof.
  intros Hm Hf s. apply when_ends_bind.
  eapply when_ends_mono; [by apply (lock_ends_free m s (fun n _ => n = 0%Z)) |].
  intros t a s1 Ht. eapply when_ends_mono; [apply Hf |]. intros t2 b s2 Hb Hk.
  apply Forall_app in Hk as [Hk1 Hk2]. unfold lock_lost. rewrite locks_app, (Ht Hk1), Exists_app.
  destruct (Hb Hk2) as [? | (? & ? & ?)]; [by left | right; auto].
Qed.

(** A step that may lose the lock, after which nothing is locked again. *)
Lemma may_lose_then {A B} (m : ndds A) (f : A -> ndds B) (refused : A -> Prop) (refused' : B -> Prop) :
  may_lose m refused -> (forall a, makes lock_free (f a)) ->
  (forall a s, refused a -> when_ends (f a) s (fun _ b _ => refused' b)) ->
  may_lose (bind m f) refused'.
Proof.
  intros Hm Hf Hr s. apply when_ends_bind. eapply when_ends_mono; [apply Hm |].
  intros t a s1 Ha t2 b s2 Hrun Hk. apply Forall_app in Hk as [Hk1 Hk2].
  assert (H2 : locks t2 = 0%Z).
  { exact (lock_ends_free (f a) s1 (fun n _ => n = 0%Z) (Hf a) (fun _ => eq_refl) t2 b s2 Hrun Hk2). }
  unfold lock_lost. rewrite locks_app, H2, Z.add_0_r, Exists_app.
  destruct (Ha Hk1) as [? | (? & ? & ?)]; [by left |]. right. split_and!; [done | by left |].
  by eapply (Hr a s1).
Qed.

(** A worker that has its cursor releases what it holds. *)
Lemma release_ends t s (Q : Z -> bool -> Prop) : Q 0%Z true -> lock_ends (release_at t) s Q.
Proof.
  intros HQ. unfold lock_ends. unfold release_at, worker_cursor, NDDSA_AgentDb_get_worker, the_db.
  do 5 ends_step. destruct r as [worker|].
  2: { repeat ends_step. intros H. by apply Forall_cons in H as [[? [=]] _]. }
  do 3 ends_step. destruct r as [cursor|].
  2: { repeat ends_step. intros H. by apply Forall_cons in H as [_ [[? [=]] _]%Forall_cons]. }
  by repeat ends_step.
Qed.

Lemma unlock_kept_ends t s (Q : Z -> bool -> Prop) :
  Q (-1)%Z true -> lock_ends (unlock_table t false) s Q.
Proof.
  intros HQ. unfold lock_ends.
  unfold unlock_table, worker_cursor, NDDSA_AgentDb_get_worker, the_db.
  do 5 ends_step. destruct r as [worker|].
  2: { repeat ends_step. intros H. by apply Forall_cons in H as [[? [=]] _]. }
  do 3 ends_step. destruct r as [cursor|].
  2: { repeat ends_step. intros H. by apply Forall_cons in H as [_ [[? [=]] _]%Forall_cons]. }
  by repeat ends_step.
Qed.

Lemma relock_ends t top s (Q : Z -> bool -> Prop) :
  Q 1%Z true -> Q 0%Z false -> lock_ends (lock_table t false top) s Q.
Proof.
  intros Ht Hf. unfold lock_table. apply lock_ends_skip; [unfold the_db; lf |]. intros d s1.
  apply lock_ends_skip; [apply lf_worker |]. intros [cursor|] s2; [| by apply lock_ends_ret].
  unfold lock_at. apply lock_ends_bind. unfold lock_ends at 1. ends_step. intros _ s3. destruct r.
  - apply lock_ends_skip; [lf |]. intros; by apply lock_ends_ret.
  - apply lock_ends_skip; [unfold finish_safe; lf |]; intros; by apply lock_ends_ret.
Qed.

Lemma give_back_ends rec s :
  lock_ends (give_back false true (Some rec)) s (fun n b => n = (-1)%Z /\ b = true).
Proof.
  unfold give_back, NDDSA_AgentDb_release_resourceEA, NDDSA_AgentDb_release_sessionEA.
  apply lock_ends_bind, release_ends. intros s1. apply lock_ends_bind, unlock_kept_ends. intros s2.
  apply lock_ends_bind, release_ends. intros s3. by apply lock_ends_ret.
Qed.

Lemma take_back_ends key session_rec rec s :
  lock_ends (take_back false key session_rec true rec) s
    (fun n b => n = 1%Z \/ n = 0%Z /\ b = false).
Proof.
  unfold take_back, NDDSA_AgentDb_lookup_sessionEA, lookup_at. apply lock_ends_skip; [lf |].
  intros [] s1; [| apply lock_ends_ret; by right].
  apply lock_ends_skip; [pose proof lf_worker; lf |]. intros found s2.
  destruct (negb (fst found)); [apply lock_ends_ret; by right |].
  destruct (negb (bool_decide _)); [apply lock_ends_ret; by right |].
  apply lock_ends_bind, relock_ends; intros s3; [| apply lock_ends_ret; by right].
  apply lock_ends_free; [destruct rec as [[rid r] |]; lf | by left].
Qed.

Lemma wait_may_lose others session_rec rec sem :
  may_lose (NDDSA_Agent_wait_for_semaphoreEA others false session_rec true (Some rec) sem)
    (fun b => b = false).
Proof.
  unfold NDDSA_Agent_wait_for_semaphoreEA, session_rec_of, resource_rec_of. cbv zeta.
  apply may_lose_skip; [lf |]. intros srec. apply may_lose_skip; [lf |]. intros [copied rid].
  set (finalized := free_string _).
  assert (Hfin : makes lock_free finalized) by (unfold finalized, free_string; lf).
  cbn [fst snd]. destruct (negb copied); [apply may_lose_free; apply makes_bind; [done | intros; lf] |].
  intros s. apply when_ends_bind. eapply when_ends_mono; [apply give_back_ends |]. intros t b s1 Hb.
  assert (Hrest : when_ends (ncall (EventSemaphoreTake sem);; modify others;;
      unless take_back false (cs_key (sr_session srec)) session_rec true (Some (rid, rec))
      then ret false else finalized;; ret true) s1 (fun t a _ => Forall cursor_kept t ->
        List.Exists waited t /\ (locks t = 1%Z \/ locks t = 0%Z /\ a = false))).
  { do 5 ends_step. eapply when_ends_mono; [apply take_back_ends |]. intros t1 b1 s2 Hb1.
    assert (Hw : forall l, List.Exists waited ([existT (EventSemaphoreTake sem) r] ++ l))
      by (intros l; by left).
    destruct b1.
    - ends_step. eapply when_ends_mono; [by apply (lock_ends_free finalized s2 (fun n _ => n = 0%Z)) |].
      intros t2 [] s3 H2. ends_step. intros Hk. split; [apply Hw |].
      rewrite !Forall_app in Hk. destruct Hk as (_ & _ & Hk1 & Hk2 & _).
      rewrite !locks_app, (H2 Hk2). destruct (Hb1 Hk1) as [-> | [_ [=]]]. by left.
    - ends_step. intros Hk. split; [apply Hw |]. rewrite !Forall_app in Hk. destruct Hk as (_ & _ & Hk1 & _).
      rewrite !locks_app. destruct (Hb1 Hk1) as [-> | [-> _]]; [by left | by right]. }
  destruct b.
  - eapply when_ends_mono; [exact Hrest |]. intros t2 a s2 Ha Hk. apply Forall_app in Hk as [Hk1 Hk2].
    unfold lock_lost. rewrite locks_app, Exists_app. destruct (Hb Hk1) as [-> _].
    destruct (Ha Hk2) as [Hw [-> | [-> ->]]]; [by left | right; auto].
  - ends_step. intros t2 [] s2 _. ends_step. intros Hk. apply Forall_app in Hk as [Hk _].
    by destruct (Hb Hk) as [_ [=]].
Qed.

Lemma lf_request_complete reader read : makes lock_free (NDDSA_Reader_request_complete reader read).
Proof.
  assert (forall l, makes lock_free (find_request_loop read l))
    by (intros l; induction l; cbn [find_request_loop]; unfold rrequest_of; lf).
  unfold NDDSA_Reader_request_complete, NDDSA_Reader_find_request_by_read, areader_of, rrequest_of. lf.
Qed.

Lemma lf_free_read attached : makes lock_free (free_read attached).
Proof. unfold free_read, attached_of, not_null, read_of, the_nd_agent, upd_attached, attached_of. lf. Qed.

Lemma cancel_may_lose others session_rec attached rec :
  may_lose (NDDSA_Agent_cancel_readEA others session_rec attached true rec)
    (fun rc => dds_ok rc = false).
Proof.
  unfold NDDSA_Agent_cancel_readEA, resource_rec_of, attached_of.
  apply may_lose_skip; [lf |]. intros rr. apply may_lose_skip; [lf |]. intros a.
  destruct (read_req a) as [read|]; [| apply may_lose_free; lf].
  unfold read_of, not_null, upd_read. apply may_lose_skip; [lf |]. intros r.
  destruct (NDDSA_Read_has_pending_samples r); [apply may_lose_free; lf |].
  apply may_lose_skip; [lf |]. intros reader.
  apply may_lose_skip; [apply lf_request_complete |]. intros []; [| apply may_lose_free; lf].
  apply may_lose_skip; [unfold read_of; lf |]. intros [].
  apply may_lose_skip; [unfold NDDSA_Agent_post_event; lf |]. intros []; [| apply may_lose_free; lf].
  apply may_lose_skip; [lf |]. intros r'.
  eapply may_lose_then; [apply wait_may_lose | |].
  - intros []; pose proof lf_free_read; lf.
  - intros b s ->. by ends_step.
Qed.

Lemma reuse_may_lose others session_rec attached repr properties :
  may_lose (reuse_resource others session_rec attached repr properties)
    (fun used => fst used = None).
Proof.
  unfold reuse_resource, attached_of, resource_rec_of. cbv zeta.
  apply may_lose_skip; [lf |]. intros a. apply may_lose_skip; [apply lf_lookup_record |].
  intros [[] [rec|]]; try solve [apply may_lose_free; lf].
  apply may_lose_skip; [lf |]. intros rr.
  apply may_lose_skip; [unfold compare_representations, ref_string; lf |].
  intros [[[]|] existing]; cbn [fst snd]; try solve [apply may_lose_free; lf].
  destruct (bool_decide _); [| apply may_lose_free; lf].
  eapply may_lose_then; [apply cancel_may_lose | intros; lf |].
  intros rc s Hrc. ends_step. by rewrite Hrc.
Qed.

(** Whatever is reused, the table counts as locked. *)
Lemma reuse_locked others session_rec attached repr properties s :
  when_ends (reuse_resource others session_rec attached repr properties) s
    (fun _ used _ => cr_locked (snd used) = true).
Proof.
  unfold reuse_resource, attached_of, resource_rec_of. ends_step. apply when_ends_reads. intros a _.
  ends_step. intros t [[] [rec|]] s1 _; try by ends_step.
  ends_step. apply when_ends_reads. intros rr _. ends_step. intros t2 [[[]|] existing] s2 _;
    cbn [fst snd]; try by ends_step.
  destruct (bool_decide _); [| by ends_step]. ends_step. intros t3 rc s3 _. by ends_step.
Qed.

End lock_free.

(** ** Witnesses *)

(** An environment that also grants the table, its records and a buffer. *)
Definition granting_records (c : NCall) : NResp c :=
  match c return NResp c with
  | GetWorker _ => Some 1%Z
  | CursorAssert _ _ => Some 10%Z
  | CursorAssertAndStart _ _ => (true, Some 10%Z, [])
  | CursorLockTable _ => true
  | ExclusiveAreaNew _ _ => Some 901%Z
  | CursorAssertAndModify _ _ _ => Some 300%Z
  | AttachedPoolGet _ => Some 200%Z
  | c => granting c
  end.

(** A session makes a type, whose identifier it gives. *)
Definition sample_types : cstr := of_string "<types><struct/></types>".

Definition makes_type : ndds (DDS_ReturnCode_t * option Z) :=
  NDDSA_Agent_create_resourceEA (fun s => s) 5 1%Z None 100%Z 7%Z RESOURCEKIND_TYPE
    {| fmt := FORMAT_XML; repr_value := ReprValue_str (Some sample_types) |}
    ATTACHEDRESOURCEID_INVALID D2S2_RESOURCEPROPERTIES_INITIALIZER.

Definition made_type : list nevent * outcome (DDS_ReturnCode_t * option Z * Ndds) :=
  exec (fun _ => granting_records) [] (makes_type sample_ndds).

Example made_type_ok :
  match snd made_type with Returned (r, _) => r = (DDS_RETCODE_OK, Some 200%Z) | _ => False end.
Proof. vm_compute. reflexivity. Qed.


(** The table is locked, and the cursor is lost after it: nothing was created for the XML,
    which has no root, and the answer is OK. *)
Definition losing_cursor (past : list nevent) (c : NCall) : NResp c :=
  match c return NResp c with
  | GetWorker _ => match past with _ :: _ :: _ :: _ => None | _ => Some 1%Z end
  | c => granting_records c
  end.

Example implicit_failure_is_ok :
  match snd (exec losing_cursor [] (NDDSA_Agent_create_implicit_resources 5 1%Z sample_ndds)) with
  | Returned (rc, _) => rc = DDS_RETCODE_OK
  | _ => False
  end
  /\ match snd (exec (fun _ => granting_records) []
                  (NDDSA_Agent_create_implicit_resources 5 1%Z sample_ndds)) with
     | Returned (rc, _) => rc = DDS_RETCODE_ERROR
     | _ => False
     end.
Proof. vm_compute. split; reflexivity. Qed.
