(* ===== verification/AppLibrary.v ===== *)
(** * DDS agent: application libraries in XML

    Models [ApplicationLibraryXml.c], the extension of the XML parser of Connext for the element
    [<application_library>]: what the parser calls when such an element is new, ends and is
    deleted.  At its end the names of the applications and of their participants are to be
    recorded, which they never are ([end_tag_records_nothing]).

    A sequence of strings is the list of its elements; one that was added and not written is
    [None].  [fuel] is to be more than the children of an element. *)

From Stdlib Require Import ZArith Lia Ascii String.
From stdpp Require Import base tactics list gmap.
From S2P Require Import Prelude.
From S2P Require Import CString.
From S2P Require Import Infrastructure.
From S2P Require Import Interaction.
From S2P Require Import ServiceData.
From S2P Require Import NddsData.

Local Open Scope nano_scope.

(** The field [name] is never set. *)
Record NDDSA_ApplicationLibraryXml := {
  applications : list (option cstr);
  participants : list (option cstr)
}.

Definition StringList := list (option cstr).

(** [SeqRoom] is [DDS_StringSeq_ensure_length], [NameMemory] the allocation of a name. *)
Inductive LCall :=
  | LibraryAllocate
  | LibraryFree (library : Z)
  | AttributeValue (attr : Z) (name : cstr)
  | ObjectInitialize (library : Z) (extension_class parent : option Z) (name : option cstr)
  | ObjectFinalize (library : Z)
  | SeqFinalize (elements : StringList)
  | ObjectName (object : Z)
  | FirstChild (object : Z) (tag : cstr)
  | NextSibling (object : Z) (tag : cstr)
  | NameMemory (size : nat)
  | NameFree (name : cstr)
  | SeqRoom (length max : nat)
  | ExtensionNew (tag : cstr)
  | ExtensionRegister (parser : Z) (extension_class : Z)
  | ExtensionUnregister (parser : Z) (tag : cstr)
  | ExtensionDelete (extension_class : Z).

Definition LResp (c : LCall) : Type :=
  match c with
  | LibraryAllocate | FirstChild _ _ | NextSibling _ _ | ExtensionNew _
  | ExtensionUnregister _ _ => option Z
  | AttributeValue _ _ | ObjectName _ => option cstr
  | ObjectInitialize _ _ _ _ | NameMemory _ | SeqRoom _ _ | ExtensionRegister _ _ => bool
  | _ => unit
  end.

(** The libraries by their address. *)
Definition Libraries : Type := gmap Z NDDSA_ApplicationLibraryXml.
Definition libs (A : Type) : Type := prog LResp Libraries A.
Abbreviation lcall := (call (R := LResp)).

Definition library_of (p : Z) : libs NDDSA_ApplicationLibraryXml := reads (fun s => s !! p).

(** ** Making and deleting *)

Definition NDDSA_ApplicationLibraryXml_on_new (extension_class parent_object : option Z) (attr : Z)
    : libs (option Z) :=
  let? config := lcall LibraryAllocate else ret None in
  modify (<[config := {| applications := []; participants := [] |}]>);;
  let* name := lcall (AttributeValue attr (of_string "name")) in
  unless lcall (ObjectInitialize config extension_class parent_object name)
  then lcall (LibraryFree config);; modify (delete config);; ret None else
  ret (Some config).

Definition NDDSA_ApplicationLibraryXml_on_delete (self : option Z) : libs unit :=
  match self with
  | None => ret tt
  | Some config =>
      let* lib := library_of config in
      lcall (ObjectFinalize config);;
      lcall (SeqFinalize (participants lib));;
      lcall (SeqFinalize (applications lib));;
      lcall (LibraryFree config);;
      modify (delete config)
  end.

Definition NDDSA_ApplicationLibraryXml_on_start_tag : libs unit := ret tt.

(** ** The end of an element *)

Inductive Names := Applications | Participants.

Definition names_of (n : Names) (lib : NDDSA_ApplicationLibraryXml) : StringList :=
  match n with Applications => applications lib | Participants => participants lib end.

Definition set_names_of (n : Names) (l : StringList) (lib : NDDSA_ApplicationLibraryXml)
    : NDDSA_ApplicationLibraryXml :=
  match n with
  | Applications => {| applications := l; participants := participants lib |}
  | Participants => {| applications := applications lib; participants := l |}
  end.

(** [DDS_StringSeq_ensure_length] on a sequence of the library. *)
Definition ensure_names (self : Z) (n : Names) (length max : nat) : libs bool :=
  unless lcall (SeqRoom length max) then ret false else
  let* lib := library_of self in
  modify (<[self := set_names_of n (resize length None (names_of n lib)) lib]>);;
  ret true.

(** [*get_reference(i) = name]: there is no reference past the end. *)
Definition write_name (self : Z) (n : Names) (i : nat) (name : cstr) : libs unit :=
  let* lib := library_of self in
  let* _ := reads (fun _ => names_of n lib !! i) in
  modify (<[self := set_names_of n (<[i := Some name]> (names_of n lib)) lib]>).

(** A string that is not NULL. *)
Definition object_name (object : Z) : libs cstr :=
  let* name := lcall (ObjectName object) in
  reads (fun _ => name).

Definition qualified (prefix name : cstr) : libs (option cstr) :=
  let sep := of_string "::" in
  let* ok := lcall (NameMemory (strlen prefix + strlen sep + strlen name)) in
  ret (NDDSA_StringUtil_append (fun _ => ok) prefix sep name).

(** The variables of the function: the two names, which are allocated, and how many names were
    recorded. *)
Record EndTag := {
  app_qname : option cstr;
  dp_qname : option cstr;
  apps_count : nat;
  participants_count : nat
}.

Definition APPLICATION : cstr := of_string "application".
Definition PARTICIPANT : cstr := of_string "domain_participant".

(** The test of [ensure_length] is the wrong way round, and the element that is written is the
    one after the last. *)
Fixpoint participants_loop (fuel : nat) (self : Z) (app_name : cstr) (participant : option Z)
    (st : EndTag) : libs (bool * EndTag) :=
  match fuel with
  | O => unfinished
  | S fuel =>
      match participant with
      | None => ret (true, st)
      | Some p =>
          let named name := {| app_qname := app_qname st; dp_qname := name;
                               apps_count := apps_count st;
                               participants_count := participants_count st |} in
          let* dp_name := object_name p in
          let? name := qualified app_name dp_name else ret (false, named None) in
          let* grown := ensure_names self Participants (participants_count st + 1)
                          (participants_count st + 1) in
          if grown then ret (false, named (Some name)) else
          let count := participants_count st + 1 in
          write_name self Participants count name;;
          let* next := lcall (NextSibling p PARTICIPANT) in
          participants_loop fuel self app_name next
            {| app_qname := app_qname st; dp_qname := None; apps_count := apps_count st;
               participants_count := count |}
      end
  end.

Fixpoint applications_loop (fuel : nat) (self : Z) (app_lib_name : option cstr)
    (application : option Z) (st : EndTag) : libs (bool * EndTag) :=
  match fuel with
  | O => unfinished
  | S n =>
      match application with
      | None => ret (true, st)
      | Some app =>
          let named name := {| app_qname := name; dp_qname := dp_qname st;
                               apps_count := apps_count st;
                               participants_count := participants_count st |} in
          let* app_name := lcall (ObjectName app) in
          let* lib_name := reads (fun _ => app_lib_name) in
          let* app_name := reads (fun _ => app_name) in
          let? name := qualified lib_name app_name else ret (false, named None) in
          let* grown := ensure_names self Applications (apps_count st + 1) (apps_count st + 1) in
          if grown then ret (false, named (Some name)) else
          let count := apps_count st + 1 in
          write_name self Applications count name;;
          let* first := lcall (FirstChild app PARTICIPANT) in
          let* r := participants_loop n self app_name first
                      {| app_qname := None; dp_qname := dp_qname st; apps_count := count;
                         participants_count := participants_count st |} in
          if fst r then
            let* next := lcall (NextSibling app APPLICATION) in
            applications_loop n self app_lib_name next (snd r)
          else ret r
      end
  end.

Definition free_qname (name : option cstr) : libs unit :=
  match name with Some s => lcall (NameFree s) | None => ret tt end.

Definition NDDSA_ApplicationLibraryXml_on_end_tag (fuel : nat) (xml_obj : option Z) : libs unit :=
  match xml_obj with
  | None => ret tt
  | Some self =>
      let* app_lib_name := lcall (ObjectName self) in
      let* application := lcall (FirstChild self APPLICATION) in
      let* r := applications_loop fuel self app_lib_name application
                  {| app_qname := None; dp_qname := None; apps_count := 0; participants_count := 0 |} in
      let '(res, st) := r in
      if res : bool then ret tt else
      free_qname (app_qname st);;
      free_qname (dp_qname st);;
      (if (0 <? apps_count st)%nat
       then ensure_names self Applications 0 (apps_count st);; ret tt else ret tt);;
      (if (0 <? participants_count st)%nat
       then ensure_names self Participants 0 (participants_count st);; ret tt else ret tt)
  end.

(** ** The extension *)

Definition LIBRARY_TAG : cstr := of_string "application_library".

(** The class is not deleted when it is not registered. *)
Definition NDDSA_ApplicationLibraryXml_register_extension (xml_parser : Z) : libs bool :=
  let? extension_class := lcall (ExtensionNew LIBRARY_TAG) else ret false in
  unless lcall (ExtensionRegister xml_parser extension_class) then ret false else
  ret true.

Definition NDDSA_ApplicationLibraryXml_unregister_extension (xml_parser : Z) : libs bool :=
  let? extension_class := lcall (ExtensionUnregister xml_parser LIBRARY_TAG) else ret false in
  lcall (ExtensionDelete extension_class);;
  ret true.

(** ** What is recorded *)

(** Names that are allocated, and freed. *)
Definition names_kept (t : list (event LResp)) : Z :=
  foldr (fun e n =>
    match e with
    | existT (NameMemory _) r => if r : bool then n + 1 else n
    | existT (NameFree _) _ => n - 1
    | _ => n
    end)%Z 0%Z t.

(** How the end of an element goes, by the answers: there is no application; a name is NULL; there
    is no memory for the qualified name of the first application; the sequence grows for it, and
    it is freed; or the sequence does not grow. *)
Inductive ended (self : Z) (s : Libraries)
    : list (event LResp) -> outcome (unit * Libraries) -> Prop :=
  | ended_empty lib_name :
      ended self s [existT (ObjectName self) lib_name; existT (FirstChild self APPLICATION) None]
        (Returned (tt, s))
  | ended_nameless lib_name app app_name :
      lib_name = None \/ app_name = None ->
      ended self s [existT (ObjectName self) lib_name; existT (FirstChild self APPLICATION) (Some app);
                    existT (ObjectName app) app_name] Undefined
  | ended_memory lib_name app app_name n :
      ended self s [existT (ObjectName self) (Some lib_name);
                    existT (FirstChild self APPLICATION) (Some app);
                    existT (ObjectName app) (Some app_name); existT (NameMemory n) false]
        (Returned (tt, s))
  | ended_grown lib_name app app_name n :
      ended self s [existT (ObjectName self) (Some lib_name);
                    existT (FirstChild self APPLICATION) (Some app);
                    existT (ObjectName app) (Some app_name); existT (NameMemory n) true;
                    existT (SeqRoom 1 1) true;
                    existT (NameFree (lib_name ++ of_string "::" ++ app_name)) tt]
        (Returned (tt, <[self := {| applications := [None]; participants := [] |}]> s))
  | ended_not_grown lib_name app app_name n :
      ended self s [existT (ObjectName self) (Some lib_name);
                    existT (FirstChild self APPLICATION) (Some app);
                    existT (ObjectName app) (Some app_name); existT (NameMemory n) true;
                    existT (SeqRoom 1 1) false] Undefined.

Lemma joined (s1 s2 : cstr) :
  take (strlen s1 + 2 + strlen s2)
    (take (strlen s1) s1 ++ ":"%char :: ":"%char :: take (strlen s2) s2)
  = s1 ++ of_string "::" ++ s2.
Proof.
  unfold strlen. rewrite !firstn_all. apply take_ge. rewrite length_app. cbn. lia.
Qed.

(** C37: the end of an application library records no name.  With no application there is none;
    with one, a sequence that grows for its name counts as a failure, after which the name is
    freed and the element stays unwritten, and exactly a sequence that does not grow is written past
    its end, which is undefined as a name that is NULL is.  It never comes to a second
    application, nor to a participant. *)
Theorem end_tag_records_nothing fuel self (s : Libraries) t o
    (Hfuel : 0 < fuel)
    (Hnew : s !! self = Some {| applications := []; participants := [] |})
    (Hrun : runs (NDDSA_ApplicationLibraryXml_on_end_tag fuel (Some self) s) t o) :
  ended self s t o
  /\ (o = Undefined
      \/ exists apps, o = Returned (tt, <[self := {| applications := apps; participants := [] |}]> s)
           /\ Forall (eq None) apps /\ names_kept t = 0%Z).
Proof.
  assert (Hsame : <[self := {| applications := []; participants := [] |}]> s = s) by by apply insert_id.
  assert (Hend : ended self s t o); cycle 1.
  { split; [exact Hend |]. destruct Hend; [right | by left | right | right | by left].
    1,2: exists []; by rewrite Hsame.
    exists [None]. cbn. auto. }
  destruct fuel as [|fuel]; [lia |].
  unfold NDDSA_ApplicationLibraryXml_on_end_tag in Hrun. cbn [applications_loop] in Hrun.
  unfold qualified, ensure_names, library_of, bind, call, ret, reads in Hrun. cbn in Hrun.
  destruct Hrun as (lib_name & t1 & -> & first & t2 & -> & Hrun).
  destruct first as [app|]; cbn in Hrun; [| destruct Hrun as [-> ->]; constructor].
  destruct Hrun as (app_name & t3 & -> & Hrun).
  destruct lib_name as [lib_name|]; [| destruct Hrun as [-> ->]; constructor; by left].
  destruct app_name as [app_name|]; [| destruct Hrun as [-> ->]; constructor; by right].
  cbn in Hrun. destruct Hrun as ([|] & t4 & -> & Hrun); cbn in Hrun.
  2: { destruct Hrun as [-> ->]. constructor. }
  destruct Hrun as ([|] & t5 & -> & Hrun); cbn in Hrun.
  - rewrite Hnew in Hrun. cbn in Hrun. destruct Hrun as ([] & t6 & -> & -> & ->).
    rewrite joined. constructor.
  - unfold write_name, library_of, bind, reads in Hrun. rewrite Hnew in Hrun.
    destruct Hrun as [-> ->]. constructor.
Qed.

(** A library with one application, whose sequence grows. *)
Definition one_application (c : LCall) : LResp c :=
  match c return LResp c with
  | ObjectName _ => Some (of_string "A")
  | FirstChild 7 _ => Some 8%Z
  | NameMemory _ | SeqRoom _ _ => true
  | LibraryAllocate => Some 7%Z
  | AttributeValue _ _ => Some (of_string "A")
  | ObjectInitialize _ _ _ _ | ExtensionRegister _ _ => true
  | ExtensionNew _ | ExtensionUnregister _ _ | FirstChild _ _ | NextSibling _ _ => None
  | LibraryFree _ | ObjectFinalize _ | SeqFinalize _ | NameFree _ | ExtensionDelete _ => tt
  end.

Definition new_library : Libraries := {[7%Z := {| applications := []; participants := [] |}]}.

Definition ended_library : list (event LResp) * outcome (unit * Libraries) :=
  exec (fun _ => one_application) [] (NDDSA_ApplicationLibraryXml_on_end_tag 2 (Some 7%Z) new_library).

Lemma end_tag_records_nothing_witness :
  snd ended_library
  = Returned (tt, {[7%Z := {| applications := [None]; participants := [] |}]})
  /\ exists apps, snd ended_library
       = Returned (tt, <[7%Z := {| applications := apps; participants := [] |}]> new_library)
       /\ Forall (eq None) apps /\ names_kept (fst ended_library) = 0%Z.
Proof.
  split; [vm_compute; reflexivity |].
  destruct (end_tag_records_nothing 2 7 new_library (fst ended_library) (snd ended_library)
    ltac:(lia) eq_refl (exec_runs _ _ [])) as [_ [H | H]]; [by vm_compute in H | exact H].
Defined.
