(* ===== verification/DaemonArgs.v ===== *)
(** * The daemon: its command line

    Models [parse_args] of [AgentDaemon.c] and [AgentDaemonArgs.h], with [strtoul] of the C
    library, where an [unsigned long] has 64 bits.  A number is stored in a variable of 32 bits
    before anything tests it. *)

From Stdlib Require Import ZArith Lia Ascii String.
From stdpp Require Import base tactics list.
From S2P Require Import Prelude.
From S2P Require Import CString.
From S2P Require Import Infrastructure.
From S2P Require Import Interaction.
From S2P Require Import ServiceData.
From S2P Require Import NddsData.

Local Open Scope nano_scope.

(** ** Numbers *)

(** [isspace]: a space and the characters 9 to 13. *)
Definition isspace (c : ascii) : bool :=
  let n := Z.of_nat (nat_of_ascii c) in (n =? 32)%Z || ((9 <=? n) && (n <=? 13))%Z.

Definition digit_value (c : ascii) : option Z :=
  let n := Z.of_nat (nat_of_ascii c) in
  if ((48 <=? n) && (n <=? 57))%Z then Some (n - 48)%Z
  else if ((97 <=? n) && (n <=? 122))%Z then Some (n - 87)%Z
  else if ((65 <=? n) && (n <=? 90))%Z then Some (n - 55)%Z
  else None.

Definition is_digit (base : Z) (c : ascii) : bool :=
  match digit_value c with Some d => (d <? base)%Z | None => false end.

Fixpoint skip_spaces (s : cstr) : cstr :=
  match s with
  | c :: s' => if isspace c then skip_spaces s' else s
  | [] => []
  end.

(** The digits at the start: their value, and what follows. *)
Fixpoint digits (base acc : Z) (s : cstr) : Z * cstr :=
  match s with
  | c :: s' =>
      match digit_value c with
      | Some d => if (d <? base)%Z then digits base (acc * base + d) s' else (acc, s)
      | None => (acc, s)
      end
  | [] => (acc, [])
  end.

Definition ULONG_MAX : Z := 18446744073709551615.

(** The base and the digits of a number that is written as in C. *)
Definition number_base (s : cstr) : Z * cstr :=
  match s with
  | "0"%char :: x :: d :: s' =>
      if (Ascii.eqb x "x" || Ascii.eqb x "X") && is_digit 16 d then (16%Z, d :: s') else (8%Z, s)
  | "0"%char :: _ => (8%Z, s)
  | _ => (10%Z, s)
  end.

(** [strtoul(s, &end, 0)]: the value and [end]. *)
Definition strtoul (s : cstr) : Z * cstr :=
  let t := skip_spaces s in
  let '(negative, u) :=
    match t with
    | "-"%char :: u => (true, u)
    | "+"%char :: u => (false, u)
    | _ => (false, t)
    end in
  let '(base, w) := number_base u in
  if match w with c :: _ => is_digit base c | [] => false end then
    let '(v, rest) := digits base 0 w in
    ((if (ULONG_MAX <? v)%Z then ULONG_MAX else if negative then u64 (- v) else v), rest)
  else (0%Z, s).

(** ** Arguments *)

(** What the daemon takes from the client library: two constants, and what the macro
    [NANO_CHECK_RC] leaves in the status of [main], which is -1 before it, when the daemon was not
    initialized. *)
Class DaemonApi := {
  TIMEOUT_INFINITE : Z;
  SERIAL_ADDRESS_DEFAULT : Z;
  main_failed : Z
}.

Section args.
Context {N : NanoClient} {D : DaemonApi}.

(** [auto_attach_resources] and [read_start] are named after the structure: the agent has fields
    of these names. *)
Record NANO_AgentDaemonArgs := {
  config_file_path : option cstr;
  session_timeout : NANO_Time;
  arg_auto_attach : bool;
  show_help : bool;
  gen_resource_id : option cstr;
  gen_resource_kind : D2S2_ResourceKind;
  verbosity : Z;
  xrce_udp_port : Z;
  xrce_udp_enable : bool;
  xrce_serial_enable : bool;
  xrce_serial_dev : option cstr;
  xrce_serial_dev_1 : option cstr;
  xrce_serial_dev_2 : option cstr;
  xrce_serial_speed : Z;
  xrce_serial_speed_1 : Z;
  xrce_serial_speed_2 : Z;
  xrce_serial_timeout : Z;
  xrce_serial_address : Z;
  acknack_period : Z;
  heartbeat_period : Z;
  arg_read_start : NDDSA_ReadStartPoint
}.

Definition NANO_AGENTDAEMONARGS_INITIALIZER : NANO_AgentDaemonArgs :=
  {| config_file_path := None; session_timeout := NANO_TIME_INITIALIZER_INFINITE;
     arg_auto_attach := false; show_help := false; gen_resource_id := None;
     gen_resource_kind := RESOURCEKIND_UNKNOWN; verbosity := 0; xrce_udp_port := 0;
     xrce_udp_enable := false; xrce_serial_enable := false; xrce_serial_dev := None;
     xrce_serial_dev_1 := None; xrce_serial_dev_2 := None; xrce_serial_speed := 0;
     xrce_serial_speed_1 := 0; xrce_serial_speed_2 := 0; xrce_serial_timeout := -2;
     xrce_serial_address := SERIAL_ADDRESS_DEFAULT; acknack_period := 0; heartbeat_period := 0;
     arg_read_start := READSTARTPOINT_FIRST_CACHED |}%Z.

(** The record with one field replaced: the constructor applied to the fields, abstracted over
    the field. *)
Ltac set_field getter v a :=
  pose (c := a); pose (g := getter a); destruct a;
  let c' := eval unfold c in c in
  let g' := eval cbn in g in
  clear c g;
  match eval pattern g' in c' with ?mk _ => exact (mk v) end.

Definition set_config_file_path (v : option cstr) (a : NANO_AgentDaemonArgs) : NANO_AgentDaemonArgs :=
  ltac:(set_field config_file_path v a).
Definition set_session_timeout (v : NANO_Time) (a : NANO_AgentDaemonArgs) : NANO_AgentDaemonArgs :=
  ltac:(set_field session_timeout v a).
Definition set_arg_auto_attach (v : bool) (a : NANO_AgentDaemonArgs) : NANO_AgentDaemonArgs :=
  ltac:(set_field arg_auto_attach v a).
Definition set_show_help (v : bool) (a : NANO_AgentDaemonArgs) : NANO_AgentDaemonArgs :=
  ltac:(set_field show_help v a).
Definition set_gen_resource_id (v : option cstr) (a : NANO_AgentDaemonArgs) : NANO_AgentDaemonArgs :=
  ltac:(set_field gen_resource_id v a).
Definition set_gen_resource_kind (v : D2S2_ResourceKind) (a : NANO_AgentDaemonArgs) : NANO_AgentDaemonArgs :=
  ltac:(set_field gen_resource_kind v a).
Definition set_verbosity (v : Z) (a : NANO_AgentDaemonArgs) : NANO_AgentDaemonArgs :=
  ltac:(set_field verbosity v a).
Definition set_xrce_udp_port (v : Z) (a : NANO_AgentDaemonArgs) : NANO_AgentDaemonArgs :=
  ltac:(set_field xrce_udp_port v a).
Definition set_xrce_udp_enable (v : bool) (a : NANO_AgentDaemonArgs) : NANO_AgentDaemonArgs :=
  ltac:(set_field xrce_udp_enable v a).
Definition set_xrce_serial_enable (v : bool) (a : NANO_AgentDaemonArgs) : NANO_AgentDaemonArgs :=
  ltac:(set_field xrce_serial_enable v a).
Definition set_xrce_serial_dev (v : option cstr) (a : NANO_AgentDaemonArgs) : NANO_AgentDaemonArgs :=
  ltac:(set_field xrce_serial_dev v a).
Definition set_xrce_serial_dev_1 (v : option cstr) (a : NANO_AgentDaemonArgs) : NANO_AgentDaemonArgs :=
  ltac:(set_field xrce_serial_dev_1 v a).
Definition set_xrce_serial_dev_2 (v : option cstr) (a : NANO_AgentDaemonArgs) : NANO_AgentDaemonArgs :=
  ltac:(set_field xrce_serial_dev_2 v a).
Definition set_xrce_serial_speed (v : Z) (a : NANO_AgentDaemonArgs) : NANO_AgentDaemonArgs :=
  ltac:(set_field xrce_serial_speed v a).
Definition set_xrce_serial_speed_1 (v : Z) (a : NANO_AgentDaemonArgs) : NANO_AgentDaemonArgs :=
  ltac:(set_field xrce_serial_speed_1 v a).
Definition set_xrce_serial_speed_2 (v : Z) (a : NANO_AgentDaemonArgs) : NANO_AgentDaemonArgs :=
  ltac:(set_field xrce_serial_speed_2 v a).
Definition set_xrce_serial_timeout (v : Z) (a : NANO_AgentDaemonArgs) : NANO_AgentDaemonArgs :=
  ltac:(set_field xrce_serial_timeout v a).
Definition set_xrce_serial_address (v : Z) (a : NANO_AgentDaemonArgs) : NANO_AgentDaemonArgs :=
  ltac:(set_field xrce_serial_address v a).
Definition set_acknack_period (v : Z) (a : NANO_AgentDaemonArgs) : NANO_AgentDaemonArgs :=
  ltac:(set_field acknack_period v a).
Definition set_heartbeat_period (v : Z) (a : NANO_AgentDaemonArgs) : NANO_AgentDaemonArgs :=
  ltac:(set_field heartbeat_period v a).
Definition set_arg_read_start (v : NDDSA_ReadStartPoint) (a : NANO_AgentDaemonArgs) : NANO_AgentDaemonArgs :=
  ltac:(set_field arg_read_start v a).

(** ** Options *)

(** The second and third serial device have the numbers 1 and 2. *)
Inductive SerialPort := SerialPort0 | SerialPort1 | SerialPort2.

Inductive DaemonOption :=
  | CONFIG | TIMEOUT | AUTOATTACH | VERBOSITY | UDP | UDP_PORT | GENERATEID | KIND | READSTART
  | SERIAL | SERIAL_DEV (port : SerialPort) | SERIAL_SPEED (port : SerialPort)
  | SERIAL_ADDRESS | SERIAL_TIMEOUT | ACKNACKPERIOD | HEARTBEATPERIOD | HELP.

(** In the order of the tests. *)
Definition all_options : list DaemonOption :=
  [CONFIG; TIMEOUT; AUTOATTACH; VERBOSITY; UDP; UDP_PORT; GENERATEID; KIND; READSTART; SERIAL;
   SERIAL_DEV SerialPort0; SERIAL_SPEED SerialPort0; SERIAL_DEV SerialPort1;
   SERIAL_SPEED SerialPort1; SERIAL_DEV SerialPort2; SERIAL_SPEED SerialPort2;
   SERIAL_ADDRESS; SERIAL_TIMEOUT; ACKNACKPERIOD; HEARTBEATPERIOD; HELP].

(** The long and the short name. *)
Definition option_names (o : DaemonOption) : string * string :=
  (match o with
   | CONFIG => ("--config", "-c")
   | TIMEOUT => ("--timeout", "-t")
   | AUTOATTACH => ("--auto-attach", "-a")
   | VERBOSITY => ("--verbosity", "-v")
   | UDP => ("--udp", "-U")
   | UDP_PORT => ("--udp-port", "-Up")
   | GENERATEID => ("--generate-id", "-g")
   | KIND => ("--kind", "-k")
   | READSTART => ("--read-start", "-rs")
   | SERIAL => ("--serial", "-S")
   | SERIAL_DEV SerialPort0 => ("--serial-dev", "-Sd")
   | SERIAL_DEV SerialPort1 => ("--serial-dev-1", "-Sd1")
   | SERIAL_DEV SerialPort2 => ("--serial-dev-2", "-Sd2")
   | SERIAL_SPEED SerialPort0 => ("--serial-speed", "-Ss")
   | SERIAL_SPEED SerialPort1 => ("--serial-speed-1", "-Ss1")
   | SERIAL_SPEED SerialPort2 => ("--serial-speed-2", "-Ss2")
   | SERIAL_ADDRESS => ("--serial-address", "-Sa")
   | SERIAL_TIMEOUT => ("--serial-timeout", "-St")
   | ACKNACKPERIOD => ("--acknack-period", "-ack")
   | HEARTBEATPERIOD => ("--heartbeat-period", "-hb")
   | HELP => ("--help", "-h")
   end)%string.

Definition NANO_AGENT_MATCH_ARG (str_ : cstr) (o : DaemonOption) : bool :=
  bool_decide (of_string (fst (option_names o)) = str_)
  || bool_decide (of_string (snd (option_names o)) = str_).

Definition match_option (arg : cstr) : option DaemonOption :=
  List.find (NANO_AGENT_MATCH_ARG arg) all_options.

(** Options without a value. *)
Definition flag_effect (o : DaemonOption) : option (NANO_AgentDaemonArgs -> NANO_AgentDaemonArgs) :=
  match o with
  | AUTOATTACH => Some (set_arg_auto_attach true)
  | UDP => Some (set_xrce_udp_enable true)
  | SERIAL => Some (set_xrce_serial_enable true)
  | HELP => Some (set_show_help true)
  | _ => None
  end.

(** A number, in 32 bits; [None] when something follows it. *)
Definition parse_number (value : cstr) : option Z :=
  match strtoul value with
  | (v, []) => Some (u32 v)
  | _ => None
  end.

(** A variable of 32 bits assigned to a signed one. *)
Definition i32 (v : Z) : Z := if (v <? 2147483648)%Z then v else (v - 4294967296)%Z.

(** A time of so many milliseconds; the product is taken in 32 bits. *)
Definition millis_time (v : Z) : NANO_Time :=
  {| time_sec := v / 1000; time_nanosec := u32 ((v - v / 1000 * 1000) * 1000000) |}%Z.

Definition is_one_of (l : list string) (value : cstr) : bool :=
  existsb (fun s => bool_decide (of_string s = value)) l.

Definition parse_kind (value : cstr) : option D2S2_ResourceKind :=
  (if is_one_of ["dp"; "domainparticipant"] value then Some RESOURCEKIND_DOMAINPARTICIPANT
   else if is_one_of ["t"; "topic"] value then Some RESOURCEKIND_TOPIC
   else if is_one_of ["p"; "publisher"] value then Some RESOURCEKIND_PUBLISHER
   else if is_one_of ["s"; "subscriber"] value then Some RESOURCEKIND_SUBSCRIBER
   else if is_one_of ["dw"; "datawriter"] value then Some RESOURCEKIND_DATAWRITER
   else if is_one_of ["dr"; "datareader"] value then Some RESOURCEKIND_DATAREADER
   else None)%string.

Definition parse_read_start (value : cstr) : option NDDSA_ReadStartPoint :=
  (if is_one_of ["first-cached"] value then Some READSTARTPOINT_FIRST_CACHED
   else if is_one_of ["last-acked"] value then Some READSTARTPOINT_LAST_RETURNED
   else if is_one_of ["last-read"] value then Some READSTARTPOINT_LAST_FORWARDED
   else None)%string.

Definition parse_timeout (value : cstr) : option Z :=
  if is_one_of ["inf"; "INF"; "infinite"; "INFINITE"]%string value then Some TIMEOUT_INFINITE
  else i32 <$> parse_number value.

Definition set_serial_dev (port : SerialPort) (v : option cstr)
    : NANO_AgentDaemonArgs -> NANO_AgentDaemonArgs :=
  match port with
  | SerialPort0 => set_xrce_serial_dev v
  | SerialPort1 => set_xrce_serial_dev_1 v
  | SerialPort2 => set_xrce_serial_dev_2 v
  end.

Definition set_serial_speed (port : SerialPort) (v : Z)
    : NANO_AgentDaemonArgs -> NANO_AgentDaemonArgs :=
  match port with
  | SerialPort0 => set_xrce_serial_speed v
  | SerialPort1 => set_xrce_serial_speed_1 v
  | SerialPort2 => set_xrce_serial_speed_2 v
  end.

(** Options with a value, which is not empty: [None] fails.  Two of them copy it, when there is
    memory. *)
Definition value_effect (o : DaemonOption) (memory : bool) (value : cstr)
    : option (NANO_AgentDaemonArgs -> NANO_AgentDaemonArgs) :=
  let number f := f <$> parse_number value in
  match o with
  | CONFIG =>
      if memory then Some (set_config_file_path (Some (of_string "file://" ++ value))) else None
  | TIMEOUT => number (fun v => set_session_timeout (millis_time v))
  | VERBOSITY => number (fun v => set_verbosity (u8 v))
  | UDP_PORT =>
      v ← parse_number value; if (65535 <? v)%Z then None else Some (set_xrce_udp_port v)
  | GENERATEID => if memory then Some (set_gen_resource_id (Some value)) else None
  | KIND => set_gen_resource_kind <$> parse_kind value
  | READSTART => set_arg_read_start <$> parse_read_start value
  | SERIAL_DEV port => Some (set_serial_dev port (Some value))
  | SERIAL_SPEED port => number (set_serial_speed port)
  | SERIAL_ADDRESS =>
      v ← parse_number value; if (255 <? v)%Z then None else Some (set_xrce_serial_address v)
  | SERIAL_TIMEOUT => set_xrce_serial_timeout <$> parse_timeout value
  | ACKNACKPERIOD => number (fun v => set_acknack_period (i32 v))
  | HEARTBEATPERIOD => number (fun v => set_heartbeat_period (i32 v))
  | AUTOATTACH | UDP | SERIAL | HELP => None
  end.

(** Whether memory is asked for: for the path with its prefix, and for the identifier. *)
Definition allocates (o : DaemonOption) : bool :=
  match o with CONFIG | GENERATEID => true | _ => false end.

(** ** Parsing *)

Section parse.
(** The answers of the allocations, in order, is [memory]. *)
Fixpoint parse_args_loop (argv : list cstr) (memory : list bool) (a : NANO_AgentDaemonArgs)
    : bool * NANO_AgentDaemonArgs :=
  match argv with
  | [] => (true, a)
  | arg :: argv =>
      match match_option arg with
      | None => (false, a)
      | Some o =>
          match flag_effect o with
          | Some f => parse_args_loop argv memory (f a)
          | None =>
              match argv with
              | [] | [] :: _ => (false, a)
              | value :: argv =>
                  let granted := match memory with m :: _ => m | [] => false end in
                  let memory := if allocates o then List.tl memory else memory in
                  match value_effect o granted value with
                  | Some f => parse_args_loop argv memory (f a)
                  | None => (false, a)
                  end
              end
          end
      end
  end.
End parse.
End args.

(** ** Numbers as they are written *)

Definition digit_char (d : Z) : ascii := ascii_of_nat (48 + Z.to_nat d).

(** Decimal, without leading zeros; [fuel] is to be at least the number of digits. *)
Fixpoint print_number (fuel : nat) (n : Z) : cstr :=
  match fuel with
  | O => []
  | S fuel =>
      if (n <? 10)%Z then [digit_char n]
      else print_number fuel (n / 10) ++ [digit_char (n mod 10)]
  end.

Lemma digit_value_char d : (0 <= d < 10)%Z -> digit_value (digit_char d) = Some d.
Proof.
  intros H. assert (d = 0 \/ d = 1 \/ d = 2 \/ d = 3 \/ d = 4 \/ d = 5 \/ d = 6 \/ d = 7
    \/ d = 8 \/ d = 9)%Z as Hd by lia. naive_solver.
Qed.

Lemma digits_snoc base l acc d c :
  digits base acc l = (d, []) -> digits base acc (l ++ [c]) = digits base d [c].
Proof.
  revert acc; induction l as [|x l IH]; intros acc; cbn [digits app]; [by intros [= ->] |].
  destruct (digit_value x); [| done]. destruct (_ <? base)%Z; [apply IH | done].
Qed.

Lemma digits_print fuel n :
  (0 <= n < 10 ^ Z.of_nat fuel)%Z -> digits 10 0 (print_number fuel n) = (n, []).
Proof.
  revert n; induction fuel as [|fuel IH]; intros n Hn.
  - change (10 ^ Z.of_nat 0)%Z with 1%Z in Hn. assert (n = 0%Z) as -> by lia. done.
  - rewrite Nat2Z.inj_succ, Z.pow_succ_r in Hn by lia. cbn [print_number].
    destruct (Z.ltb_spec n 10) as [Hlt | Hge].
    + cbn [digits]. rewrite digit_value_char by lia.
      destruct (Z.ltb_spec n 10); [done | lia].
    + pose proof (Z.div_mod n 10 ltac:(lia)). pose proof (Z.mod_pos_bound n 10 ltac:(lia)).
      erewrite digits_snoc by (apply IH; split; [apply Z.div_pos; lia | apply Z.div_lt_upper_bound; lia]).
      cbn [digits]. rewrite digit_value_char by lia.
      destruct (Z.ltb_spec (n mod 10) 10); [| lia]. f_equal. lia.
Qed.

(** It starts with a digit, which is zero only for zero. *)
Lemma print_head fuel n :
  (0 <= n)%Z -> (0 < fuel)%nat -> (n < 10 ^ Z.of_nat fuel)%Z ->
  exists d l, print_number fuel n = digit_char d :: l /\ (0 <= d < 10)%Z /\ (d = 0%Z -> l = []).
Proof.
  revert n; induction fuel as [|fuel IH]; intros n H0 Hf Hn; [lia |]. cbn [print_number].
  destruct (Z.ltb_spec n 10) as [Hlt | Hge]; [by exists n, [] |].
  rewrite Nat2Z.inj_succ, Z.pow_succ_r in Hn by lia.
  destruct fuel as [|fuel]; [change (10 ^ Z.of_nat 0)%Z with 1%Z in Hn; lia |].
  assert (Hd : (1 <= n / 10)%Z) by (apply Z.div_le_lower_bound; lia).
  destruct (IH (n / 10)%Z) as (d & l & Heq & Hdd & Hz); [lia | lia | apply Z.div_lt_upper_bound; lia |].
  exists d, (l ++ [digit_char (n mod 10)]). rewrite Heq. split_and!; [done | lia | lia |].
  intros ->. specialize (Hz eq_refl). subst l. exfalso.
  assert (Hp : digits 10 0 (print_number (S fuel) (n / 10)) = (n / 10, [])%Z)
    by (apply digits_print; split; [lia | apply Z.div_lt_upper_bound; lia]).
  rewrite Heq in Hp. change (digits 10 0 [digit_char 0]) with (0%Z, @nil ascii) in Hp.
  apply (f_equal fst) in Hp. cbn [fst] in Hp. lia.
Qed.

(** [strtoul] reads a decimal number. *)
Lemma strtoul_print n :
  (0 <= n <= ULONG_MAX)%Z -> strtoul (print_number 20 n) = (n, []).
Proof.
  intros Hn. unfold ULONG_MAX in *.
  assert (H20 : (0 <= n < 10 ^ Z.of_nat 20)%Z)
    by (change (10 ^ Z.of_nat 20)%Z with 100000000000000000000%Z; lia).
  pose proof (digits_print 20 n H20) as Hdig.
  destruct (print_head 20 n (proj1 H20) ltac:(lia) (proj2 H20)) as (d & l & Heq & Hd & Hz).
  rewrite Heq in *. clear Heq H20.
  assert (Hcase : (d = 0 \/ d = 1 \/ d = 2 \/ d = 3 \/ d = 4 \/ d = 5 \/ d = 6 \/ d = 7
    \/ d = 8 \/ d = 9)%Z) by lia.
  destruct (Z.ltb_spec ULONG_MAX n) as [Hu | Hu]; [unfold ULONG_MAX in Hu; lia |].
  destruct Hcase as [-> | Hcase].
  - rewrite (Hz eq_refl) in *. cbn in Hdig. injection Hdig as <-. done.
  - assert (Hs : strtoul (digit_char d :: l) = let '(v, rest) := digits 10 0 (digit_char d :: l) in
                   (if (ULONG_MAX <? v)%Z then ULONG_MAX else v, rest)).
    { by destruct Hcase as [->|[->|[->|[->|[->|[->|[->|[->| ->]]]]]]]]. }
    rewrite Hs, Hdig. by apply Z.ltb_ge in Hu as ->.
Qed.

(** ** What a command line is to mean

    A request of the user, the words it is written with, and the arguments a list of requests
    stands for, field by field: the last request for a field says what it is. *)

Inductive Request :=
  | AskConfig (path : cstr)
  | AskTimeout (milliseconds : Z)
  | AskAutoAttach
  | AskVerbosity (n : Z)
  | AskUdp
  | AskUdpPort (n : Z)
  | AskGenerateId (name : cstr)
  | AskKind (kind : D2S2_ResourceKind)
  | AskStart (start : NDDSA_ReadStartPoint)
  | AskSerial
  | AskSerialDev (port : SerialPort) (device : cstr)
  | AskSerialSpeed (port : SerialPort) (n : Z)
  | AskSerialAddress (n : Z)
  | AskSerialTimeout (n : option Z)
  | AskAcknackPeriod (n : Z)
  | AskHeartbeatPeriod (n : Z)
  | AskHelp.

#[export] Instance SerialPort_eq_dec : EqDecision SerialPort.
Proof. solve_decision. Defined.

Section requests.
Context {N : NanoClient} {D : DaemonApi}.

(** The long and the short word for it. *)
Definition request_names (r : Request) : string * string :=
  (match r with
   | AskConfig _ => ("--config", "-c")
   | AskTimeout _ => ("--timeout", "-t")
   | AskAutoAttach => ("--auto-attach", "-a")
   | AskVerbosity _ => ("--verbosity", "-v")
   | AskUdp => ("--udp", "-U")
   | AskUdpPort _ => ("--udp-port", "-Up")
   | AskGenerateId _ => ("--generate-id", "-g")
   | AskKind _ => ("--kind", "-k")
   | AskStart _ => ("--read-start", "-rs")
   | AskSerial => ("--serial", "-S")
   | AskSerialDev SerialPort0 _ => ("--serial-dev", "-Sd")
   | AskSerialDev SerialPort1 _ => ("--serial-dev-1", "-Sd1")
   | AskSerialDev SerialPort2 _ => ("--serial-dev-2", "-Sd2")
   | AskSerialSpeed SerialPort0 _ => ("--serial-speed", "-Ss")
   | AskSerialSpeed SerialPort1 _ => ("--serial-speed-1", "-Ss1")
   | AskSerialSpeed SerialPort2 _ => ("--serial-speed-2", "-Ss2")
   | AskSerialAddress _ => ("--serial-address", "-Sa")
   | AskSerialTimeout _ => ("--serial-timeout", "-St")
   | AskAcknackPeriod _ => ("--acknack-period", "-ack")
   | AskHeartbeatPeriod _ => ("--heartbeat-period", "-hb")
   | AskHelp => ("--help", "-h")
   end)%string.

Definition kind_word (k : D2S2_ResourceKind) : string :=
  (match k with
   | RESOURCEKIND_DOMAINPARTICIPANT => "domainparticipant" | RESOURCEKIND_TOPIC => "topic"
   | RESOURCEKIND_PUBLISHER => "publisher" | RESOURCEKIND_SUBSCRIBER => "subscriber"
   | RESOURCEKIND_DATAWRITER => "datawriter" | _ => "datareader"
   end)%string.

Definition start_word (p : NDDSA_ReadStartPoint) : string :=
  (match p with
   | READSTARTPOINT_LAST_RETURNED => "last-acked" | READSTARTPOINT_LAST_FORWARDED => "last-read"
   | _ => "first-cached"
   end)%string.

Definition value_word (r : Request) : list cstr :=
  match r with
  | AskAutoAttach | AskUdp | AskSerial | AskHelp => []
  | AskConfig text | AskGenerateId text | AskSerialDev _ text => [text]
  | AskTimeout n | AskVerbosity n | AskUdpPort n | AskSerialSpeed _ n | AskSerialAddress n
  | AskSerialTimeout (Some n) | AskAcknackPeriod n | AskHeartbeatPeriod n => [print_number 20 n]
  | AskSerialTimeout None => [of_string "infinite"]
  | AskKind k => [of_string (kind_word k)]
  | AskStart p => [of_string (start_word p)]
  end.

(** With the long or the short name. *)
Definition print_request (r : bool * Request) : list cstr :=
  of_string (if fst r then fst (request_names (snd r)) else snd (request_names (snd r)))
  :: value_word (snd r).

(** The texts are not empty and the numbers those a field takes as they are. *)
Definition wf_request (r : Request) : Prop :=
  match r with
  | AskAutoAttach | AskUdp | AskSerial | AskHelp | AskSerialTimeout None => True
  | AskConfig text | AskGenerateId text | AskSerialDev _ text => text <> []
  | AskTimeout n | AskSerialSpeed _ n => (0 <= n < 4294967296)%Z
  | AskVerbosity n | AskSerialAddress n => (0 <= n < 256)%Z
  | AskUdpPort n => (0 <= n < 65536)%Z
  | AskSerialTimeout (Some n) | AskAcknackPeriod n | AskHeartbeatPeriod n => (0 <= n < 2147483648)%Z
  | AskKind k => In k [RESOURCEKIND_DOMAINPARTICIPANT; RESOURCEKIND_TOPIC; RESOURCEKIND_PUBLISHER;
                       RESOURCEKIND_SUBSCRIBER; RESOURCEKIND_DATAWRITER; RESOURCEKIND_DATAREADER]
  | AskStart p => match p with READSTARTPOINT_OTHER _ => False | _ => True end
  end.

(** The requests that need memory, for a copy of their text. *)
Definition copies (r : Request) : bool :=
  match r with AskConfig _ | AskGenerateId _ => true | _ => false end.

(** The last of the requests that [f] knows, or what it is without one. *)
Definition last_of {A} (f : Request -> option A) (requests : list Request) (d : A) : A :=
  fold_left (fun d r => default d (f r)) requests d.

(** The arguments that are asked for, where [a] are those without a request. *)
Definition asked (requests : list Request) (a : NANO_AgentDaemonArgs) : NANO_AgentDaemonArgs :=
  let speed port r :=
    match r with AskSerialSpeed p n => if decide (p = port) then Some n else None | _ => None end in
  let device port r :=
    match r with AskSerialDev p d => if decide (p = port) then Some (Some d) else None | _ => None end in
  {| config_file_path := last_of (fun r => match r with
       AskConfig path => Some (Some (of_string "file://" ++ path)) | _ => None end) requests
       (config_file_path a);
     session_timeout := last_of (fun r => match r with
       AskTimeout n => Some {| time_sec := n / 1000; time_nanosec := n mod 1000 * 1000000 |}%Z
       | _ => None end) requests (session_timeout a);
     arg_auto_attach := arg_auto_attach a
       || existsb (fun r => match r with AskAutoAttach => true | _ => false end) requests;
     show_help := show_help a
       || existsb (fun r => match r with AskHelp => true | _ => false end) requests;
     gen_resource_id := last_of (fun r => match r with
       AskGenerateId name => Some (Some name) | _ => None end) requests (gen_resource_id a);
     gen_resource_kind := last_of (fun r => match r with
       AskKind k => Some k | _ => None end) requests (gen_resource_kind a);
     verbosity := last_of (fun r => match r with
       AskVerbosity n => Some n | _ => None end) requests (verbosity a);
     xrce_udp_port := last_of (fun r => match r with
       AskUdpPort n => Some n | _ => None end) requests (xrce_udp_port a);
     xrce_udp_enable := xrce_udp_enable a
       || existsb (fun r => match r with AskUdp => true | _ => false end) requests;
     xrce_serial_enable := xrce_serial_enable a
       || existsb (fun r => match r with AskSerial => true | _ => false end) requests;
     xrce_serial_dev := last_of (device SerialPort0) requests (xrce_serial_dev a);
     xrce_serial_dev_1 := last_of (device SerialPort1) requests (xrce_serial_dev_1 a);
     xrce_serial_dev_2 := last_of (device SerialPort2) requests (xrce_serial_dev_2 a);
     xrce_serial_speed := last_of (speed SerialPort0) requests (xrce_serial_speed a);
     xrce_serial_speed_1 := last_of (speed SerialPort1) requests (xrce_serial_speed_1 a);
     xrce_serial_speed_2 := last_of (speed SerialPort2) requests (xrce_serial_speed_2 a);
     xrce_serial_timeout := last_of (fun r => match r with
       AskSerialTimeout n => Some (default TIMEOUT_INFINITE n) | _ => None end) requests
       (xrce_serial_timeout a);
     xrce_serial_address := last_of (fun r => match r with
       AskSerialAddress n => Some n | _ => None end) requests (xrce_serial_address a);
     acknack_period := last_of (fun r => match r with
       AskAcknackPeriod n => Some n | _ => None end) requests (acknack_period a);
     heartbeat_period := last_of (fun r => match r with
       AskHeartbeatPeriod n => Some n | _ => None end) requests (heartbeat_period a);
     arg_read_start := last_of (fun r => match r with
       AskStart p => Some p | _ => None end) requests (arg_read_start a) |}.

(** The option of a request. *)
Definition option_of (r : Request) : DaemonOption :=
  match r with
  | AskConfig _ => CONFIG | AskTimeout _ => TIMEOUT | AskAutoAttach => AUTOATTACH
  | AskVerbosity _ => VERBOSITY | AskUdp => UDP | AskUdpPort _ => UDP_PORT
  | AskGenerateId _ => GENERATEID | AskKind _ => KIND | AskStart _ => READSTART
  | AskSerial => SERIAL | AskSerialDev p _ => SERIAL_DEV p | AskSerialSpeed p _ => SERIAL_SPEED p
  | AskSerialAddress _ => SERIAL_ADDRESS | AskSerialTimeout _ => SERIAL_TIMEOUT
  | AskAcknackPeriod _ => ACKNACKPERIOD | AskHeartbeatPeriod _ => HEARTBEATPERIOD | AskHelp => HELP
  end.

(** Every name is that of its option: no option is hidden by one that is tested before. *)
Lemma match_name r (b : bool) :
  match_option (of_string (if b then fst (request_names r) else snd (request_names r)))
  = Some (option_of r).
Proof.
  destruct b, r; repeat match goal with q : SerialPort |- _ => destruct q end; reflexivity.
Qed.

Lemma parse_number_print n :
  (0 <= n < 4294967296)%Z -> parse_number (print_number 20 n) = Some n.
Proof.
  intros H. unfold parse_number. rewrite strtoul_print by (unfold ULONG_MAX; lia).
  by rewrite u32_small.
Qed.

Lemma print_number_nonempty n : print_number 20 n <> [].
Proof.
  change (print_number 20 n) with (if (n <? 10)%Z then [digit_char n] else print_number 19 (n / 10) ++ [digit_char (n mod 10)]).
  destruct (n <? 10)%Z; [done |]. by destruct (print_number 19 (n / 10)).
Qed.

(** A decimal number is none of the words for a timeout that never ends. *)
Lemma number_not_forever n :
  (0 <= n < 4294967296)%Z ->
  is_one_of ["inf"; "INF"; "infinite"; "INFINITE"]%string (print_number 20 n) = false.
Proof.
  intros Hn. destruct (print_head 20 n) as (d & l & -> & Hd & _); [lia | lia | |].
  - change (10 ^ Z.of_nat 20)%Z with 100000000000000000000%Z. lia.
  - assert (d = 0 \/ d = 1 \/ d = 2 \/ d = 3 \/ d = 4 \/ d = 5 \/ d = 6 \/ d = 7 \/ d = 8
      \/ d = 9)%Z as Hcase by lia.
    by destruct Hcase as [->|[->|[->|[->|[->|[->|[->|[->|[->| ->]]]]]]]]].
Qed.

Lemma millis_small n :
  (0 <= n < 4294967296)%Z ->
  millis_time n = {| time_sec := n / 1000; time_nanosec := n mod 1000 * 1000000 |}%Z.
Proof.
  intros Hn. unfold millis_time. f_equal.
  assert (n - n / 1000 * 1000 = n mod 1000)%Z as -> by (rewrite Z.mod_eq; lia).
  apply u32_small. pose proof (Z.mod_pos_bound n 1000). lia.
Qed.

Lemma i32_small n : (0 <= n < 2147483648)%Z -> i32 n = n.
Proof. intros Hn. unfold i32. destruct (Z.ltb_spec n 2147483648); [done | lia]. Qed.

Lemma asked_cons r l a : asked (r :: l) a = asked l (asked [r] a).
Proof.
  unfold asked. cbn [existsb last_of fold_left config_file_path session_timeout arg_auto_attach
    show_help gen_resource_id gen_resource_kind verbosity xrce_udp_port xrce_udp_enable
    xrce_serial_enable]. rewrite !orb_false_r, !orb_assoc. reflexivity.
Qed.

(** A request without a value. *)
Lemma flag_asked r a :
  value_word r = [] -> exists f, flag_effect (option_of r) = Some f /\ f a = asked [r] a.
Proof.
  intros H. destruct a; destruct r as [| | | | | | | | | | | | | [] | | |]; try discriminate H;
    (eexists; split; [reflexivity |]); unfold asked; cbn; by rewrite ?orb_false_r, ?orb_true_r.
Qed.

#[local] Opaque print_number.

(** A request with one. *)
Lemma value_asked r w a :
  wf_request r -> value_word r = [w] ->
  w <> [] /\ flag_effect (option_of r) = None /\ allocates (option_of r) = copies r
  /\ exists f, value_effect (option_of r) true w = Some f /\ f a = asked [r] a.
Proof.
  intros Hwf Hw. destruct a.
  assert (Hn : forall n, (0 <= n < 4294967296)%Z -> parse_number (print_number 20 n) = Some n)
    by apply parse_number_print.
  pose proof print_number_nonempty as Hne.
  destruct r as [| | | | | | | k | p | | port ? | port ? | | [n|] | | |]; try discriminate Hw;
    injection Hw as <-; cbn [wf_request] in Hwf;
    (split; [first [apply Hne | exact Hwf | by destruct k | by destruct p | done] |]);
    (split; [done |]; split; [done |]); cbn [option_of value_effect];
    unfold parse_timeout; rewrite ?number_not_forever, ?Hn by lia;
    cbn [fmap option_fmap option_map mbind option_bind].
  all: rewrite ?millis_small, ?i32_small by lia.
  all: try match goal with |- context [u8 ?n] => change (u8 n) with (n mod 256)%Z; rewrite Z.mod_small by lia end.
  all: try match goal with |- context [(?m <? ?n)%Z] => destruct (Z.ltb_spec m n); [lia |] end.
  all: try match goal with port : SerialPort |- _ => destruct port end.
  all: try match goal with |- context [kind_word ?k] =>
         cbn in Hwf; destruct k; try (exfalso; naive_solver) end.
  all: try match goal with |- context [start_word ?p] => destruct p; try done end.
  all: (eexists; split; [reflexivity |]); unfold asked; cbn; by rewrite ?orb_false_r.
Qed.

(** C38: The command line means what it says: requests for options written with the long or the
    short name, with numbers in decimal within the range of the option, are parsed to the
    arguments they ask for, field by field the last one, when there is memory for the two that
    are copied. *)
Theorem parse_args_printed (requests : list (bool * Request)) (memory : list bool)
    (a : NANO_AgentDaemonArgs)
    (Hwf : Forall (fun r => wf_request (snd r)) requests)
    (Hmem : memory = repeat true (length (List.filter (fun r => copies (snd r)) requests))) :
  parse_args_loop (flat_map print_request requests) memory a = (true, asked (map snd requests) a).
Proof.
  subst memory. revert a; induction Hwf as [|[b r] l Hr Hl IH]; intros a.
  { unfold asked. cbn. rewrite !orb_false_r. by destruct a. }
  cbn [flat_map map snd] in *. rewrite asked_cons. unfold print_request at 1. cbn [app fst snd].
  cbn [parse_args_loop]. rewrite match_name.
  destruct (value_word r) as [|w ws] eqn:Hw.
  - destruct (flag_asked r a Hw) as (f & -> & Hf). rewrite <- Hf.
    cbn [List.filter snd]. assert (copies r = false) as -> by (by destruct r as [| | | | | | | | | | | | |[]| | |]).
    apply IH.
  - assert (ws = []) as -> by (by destruct r as [| | | | | | | | | | | | |[]| | |]; inversion Hw).
    destruct (value_asked r w a Hr Hw) as (Hne & -> & Ha & f & Hv & Hf). cbn [app].
    destruct w as [|c w]; [done |]. cbv zeta. rewrite <- Hf, Ha. cbn [List.filter snd].
    destruct (copies r) eqn:Hc; cbn [length repeat List.tl]; [rewrite Hv; apply IH |].
    assert (value_effect (option_of r)
       (match repeat true (length (List.filter (fun r => copies (snd r)) l)) with
        | m :: _ => m | [] => false end) (c :: w) = Some f) as ->; [| apply IH].
    rewrite <- Hv. by destruct r as [| | | | | | | | | | | | |[]| | |].
Qed.

#[local] Transparent print_number.

(** A number that does not fit is cut before it is tested: the port 2^32 + 1 is the port 1, and
    the verbosity 256 is the least. *)
Example port_wraps :
  parse_args_loop (map of_string ["-Up"; "4294967297"; "-v"; "256"]%string) [] 
    NANO_AGENTDAEMONARGS_INITIALIZER
  = (true, set_verbosity 0 (set_xrce_udp_port 1 NANO_AGENTDAEMONARGS_INITIALIZER)).
Proof. done. Qed.

(** A negative timeout of -2 is the value that says that none was given. *)
Example timeout_unset v :
  parse_args_loop (map of_string ["-St"; "-2"]%string) [] (set_xrce_serial_timeout v NANO_AGENTDAEMONARGS_INITIALIZER)
  = (true, NANO_AGENTDAEMONARGS_INITIALIZER).
Proof. done. Qed.
End requests.

Definition sample_requests : list (bool * Request) :=
  [(true, AskUdp); (false, AskUdpPort 2018); (true, AskConfig (of_string "a.xml"));
   (false, AskTimeout 1500); (true, AskSerialTimeout None); (false, AskKind RESOURCEKIND_TOPIC);
   (false, AskSerialDev SerialPort1 (of_string "/dev/ttyS1")); (true, AskSerialSpeed SerialPort2 9600);
   (false, AskUdpPort 2019)].

#[export] Instance daemon_model : DaemonApi := 
  {| TIMEOUT_INFINITE := -1; SERIAL_ADDRESS_DEFAULT := 0; main_failed := -1 |}.

(** The second port is the one asked for last. *)
Lemma parse_args_printed_witness :
  parse_args_loop (flat_map print_request sample_requests) [true] NANO_AGENTDAEMONARGS_INITIALIZER
  = (true, asked (map snd sample_requests) NANO_AGENTDAEMONARGS_INITIALIZER)
  /\ (let a := asked (map snd sample_requests) NANO_AGENTDAEMONARGS_INITIALIZER in
     xrce_udp_enable a = true /\ xrce_serial_enable a = false /\ xrce_udp_port a = 2019%Z
     /\ xrce_serial_dev_1 a = Some (of_string "/dev/ttyS1") /\ xrce_serial_speed_2 a = 9600%Z).
Proof.
  split; [| by split_and!].
  apply (parse_args_printed sample_requests [true]); [| reflexivity].
  repeat first [apply List.Forall_nil | apply List.Forall_cons]; cbn;
    first [lia | discriminate | tauto | auto 10].
Defined.
