(* ===== verification/Daemon.v ===== *)
(** * The daemon

    Models [AgentDaemon.c] and [AgentDaemonMain.c] on a POSIX system (with [_XOPEN_SOURCE], which
    is what masks the signals): the program parses its command line ([DaemonArgs]), creates the
    DDS agent (the server) and the XRCE agent, registers the transports, and waits for a signal.
    At the end, what a run makes and deletes ([main_balanced]).

    The calls, [DCall], are those to the agents ([NddsAgentLife], [NddsCreate], [Lifecycle]), to
    the transports, to signals and to semaphores.  Of the properties a call is given, those the
    daemon does not set are left to their initializers, and are [None]. *)

From Stdlib Require Import ZArith Lia Ascii String.
From stdpp Require Import base tactics list.
From S2P Require Import Prelude.
From S2P Require Import CString.
From S2P Require Import Infrastructure.
From S2P Require Import Interaction.
From S2P Require Import ServiceData.
From S2P Require Import NddsData.
From S2P Require Import DaemonArgs.

Local Open Scope nano_scope.

Inductive Signal := SIGTERM | SIGHUP | SIGINT | SIGABRT | SIGPIPE.

Inductive LogLevel :=
  | LEVEL_ERROR | LEVEL_WARNING | LEVEL_INFO | LEVEL_DEBUG | LEVEL_TRACE | LEVEL_TRACE_FN.

(** [ArgMemory] answers the allocations of the parser. *)
Inductive DCall :=
  | ArgMemory
  | PrintHelp (arg0 : option cstr)
  | ExitProcess (status : Z)
  | SetLogLevel (level : LogLevel)
  | SemaphoreNew
  | SemaphoreGive (sem : Z)
  | SemaphoreTake (sem : Z)
  | SemaphoreDelete (sem : option Z)
  | SigFillSet
  | SigMaskAll
  | SigGetHandler (sig : Signal)
  | SigSetHandler (sig : Signal)
  | ServerCreate (auto_attach : bool) (read_start : NDDSA_ReadStartPoint)
  | ServerGenerateId (server : Z) (ref : cstr) (kind : D2S2_ResourceKind)
  | PrintId (kind : D2S2_ResourceKind) (ref : cstr) (id : Z)
  | ServerLoadXml (server : Z) (url : cstr)
  | ServerRegister (server agent : Z)
  | ServerStart (server : Z)
  | ServerDelete (server : option Z)
  | AgentNew (session_timeout : NANO_Time) (heartbeat_millis : option Z)
  | AgentRegisterUdp (agent : Z) (port : option Z)
  | AgentRegisterSerial (agent : Z) (port : SerialPort) (device : cstr) (speed : option Z)
      (recv_timeout : option Z) (address : Z)
  | AgentDelete (agent : Z)
  | StringFreeD (s : cstr).

(** A handler that is set is answered by whether it ignores the signal. *)
Definition DResp (c : DCall) : Type :=
  match c with
  | ArgMemory => list bool
  | SemaphoreNew | ServerCreate _ _ | AgentNew _ _ => option Z
  | SigFillSet | SigMaskAll | SigSetHandler _ => bool
  | SigGetHandler _ => option bool
  | ServerGenerateId _ _ _ => DDS_ReturnCode_t * Z
  | ServerLoadXml _ _ | ServerRegister _ _ | ServerStart _ => DDS_ReturnCode_t
  | AgentRegisterUdp _ _ | AgentRegisterSerial _ _ _ _ _ _ => NANO_RetCode
  | _ => unit
  end.

Record NANO_AgentDaemon := {
  d_agent : option Z;
  d_server : option Z;
  sem_exit : option Z;
  args : NANO_AgentDaemonArgs
}.

Section daemon.
Context {N : NanoClient} {D : DaemonApi}.

Definition daemon (A : Type) : Type := prog DResp NANO_AgentDaemon A.
Abbreviation dcall := (call (R := DResp)).

Definition NANO_AGENTDAEMON_INITIALIZER : NANO_AgentDaemon :=
  {| d_agent := None; d_server := None; sem_exit := None; args := NANO_AGENTDAEMONARGS_INITIALIZER |}.

Definition set_d_agent (v : option Z) (d : NANO_AgentDaemon) : NANO_AgentDaemon :=
  {| d_agent := v; d_server := d_server d; sem_exit := sem_exit d; args := args d |}.
Definition set_d_server (v : option Z) (d : NANO_AgentDaemon) : NANO_AgentDaemon :=
  {| d_agent := d_agent d; d_server := v; sem_exit := sem_exit d; args := args d |}.
Definition set_sem_exit (v : option Z) (d : NANO_AgentDaemon) : NANO_AgentDaemon :=
  {| d_agent := d_agent d; d_server := d_server d; sem_exit := v; args := args d |}.
Definition set_args (v : NANO_AgentDaemonArgs) (d : NANO_AgentDaemon) : NANO_AgentDaemon :=
  {| d_agent := d_agent d; d_server := d_server d; sem_exit := sem_exit d; args := v |}.

Definition the_args : daemon NANO_AgentDaemonArgs := gets args.

(** ** Signals *)

(** The handler gives the semaphore, if there is one. *)
Definition NANO_AgentDaemon_exit : daemon unit :=
  let* sem := gets sem_exit in
  match sem with Some s => dcall (SemaphoreGive s) | None => ret tt end.

Definition NANO_AgentDaemon_exit_on_signal : daemon unit := NANO_AgentDaemon_exit.

(** A signal that is ignored stays so. *)
Definition NANO_AgentDaemon_set_exit_on_signal (sig : Signal) : daemon bool :=
  let* old := dcall (SigGetHandler sig) in
  match old with
  | None => ret false
  | Some ignored => if ignored : bool then ret true else dcall (SigSetHandler sig)
  end.

Fixpoint signals_loop (signals : list Signal) : daemon bool :=
  match signals with
  | [] => ret true
  | sig :: signals =>
      unless NANO_AgentDaemon_set_exit_on_signal sig then ret false else signals_loop signals
  end.

(** ** Command line *)

(** [argv] without the name of the program. *)
Definition NANO_AgentDaemon_parse_args (argv : list cstr) : daemon bool :=
  let* memory := dcall ArgMemory in
  let* a := the_args in
  let '(ok, a) := parse_args_loop argv memory a in
  modify (set_args a);;
  ret ok.

Definition free_arg (s : option cstr) : daemon unit :=
  match s with Some s => dcall (StringFreeD s) | None => ret tt end.

Definition NANO_AgentDaemonArgs_finalize : daemon unit :=
  let* a := the_args in
  free_arg (config_file_path a);;
  free_arg (gen_resource_id a);;
  modify (set_args (set_gen_resource_id None (set_config_file_path None a))).

(** ** The XRCE agent *)

Definition positive (v : Z) : option Z := if (0 <? v)%Z then Some v else None.

(** The speed of the properties is kept from one device to the next. *)
Definition next_speed (speed : option Z) (arg : Z) : option Z :=
  if (0 <? arg)%Z then Some arg else speed.

Definition register_serial (agent : Z) (port : SerialPort) (device : option cstr)
    (speed : option Z) : daemon bool :=
  match device with
  | None => ret true
  | Some device =>
      let* a := the_args in
      let timeout := if (xrce_serial_timeout a =? -2)%Z then None else Some (xrce_serial_timeout a) in
      let* rc := dcall (AgentRegisterSerial agent port device speed timeout (xrce_serial_address a)) in
      ret (is_ok rc)
  end.

(** The speed of a device is only looked at when there is the device, but for the first. *)
Definition register_serials (agent : Z) : daemon bool :=
  let* a := the_args in
  match xrce_serial_dev a, xrce_serial_dev_1 a with
  | None, None => ret false
  | _, _ =>
      let speed_0 := next_speed None (xrce_serial_speed a) in
      let speed_1 := if xrce_serial_dev_1 a is Some _
                     then next_speed speed_0 (xrce_serial_speed_1 a) else speed_0 in
      let speed_2 := next_speed speed_1 (xrce_serial_speed_2 a) in
      unless register_serial agent SerialPort0 (xrce_serial_dev a) speed_0 then ret false else
      unless register_serial agent SerialPort1 (xrce_serial_dev_1 a) speed_1 then ret false else
      register_serial agent SerialPort2 (xrce_serial_dev_2 a) speed_2
  end.

Definition NANO_AgentDaemon_initialize_xrce : daemon bool :=
  let* a := the_args in
  let* agent := dcall (AgentNew (session_timeout a) (positive (heartbeat_period a))) in
  modify (set_d_agent agent);;
  match agent with
  | None => ret false
  | Some agent =>
      if negb (xrce_udp_enable a || xrce_serial_enable a) then ret false else
      unless (if xrce_udp_enable a then
                let* rc := dcall (AgentRegisterUdp agent (positive (xrce_udp_port a))) in
                ret (is_ok rc)
              else ret true)
      then ret false else
      unless (if xrce_serial_enable a then register_serials agent else ret true)
      then ret false else
      let* server := reads d_server in
      let* rc := dcall (ServerRegister server agent) in
      ret (dds_ok rc)
  end.

(** ** The daemon *)

Definition log_level (verbosity : Z) : LogLevel :=
  (if verbosity =? 0 then LEVEL_ERROR else if verbosity =? 1 then LEVEL_WARNING
   else if verbosity =? 2 then LEVEL_INFO else if verbosity =? 3 then LEVEL_DEBUG
   else if verbosity =? 4 then LEVEL_TRACE else LEVEL_TRACE_FN)%Z.

Definition all_signals : list Signal := [SIGTERM; SIGHUP; SIGINT; SIGABRT; SIGPIPE].

(** The semaphore, the signals and the server.  The mask of signals is never set back. *)
Definition create_server : daemon bool :=
  let* sem := dcall SemaphoreNew in
  modify (set_sem_exit sem);;
  if bool_decide (sem = None) then ret false else
  unless dcall SigFillSet then ret false else
  unless dcall SigMaskAll then ret false else
  unless signals_loop all_signals then ret false else
  let* a := the_args in
  let* server := dcall (ServerCreate (arg_auto_attach a) (arg_read_start a)) in
  modify (set_d_server server);;
  ret (bool_decide (is_Some server)).

(** Only an identifier is printed. *)
Definition generate_id (server : Z) (ref : cstr) : daemon bool :=
  let* a := the_args in
  let* r := dcall (ServerGenerateId server ref (gen_resource_kind a)) in
  if negb (dds_ok (fst r)) then ret false else
  dcall (PrintId (gen_resource_kind a) ref (snd r));;
  let* sem := reads sem_exit in
  dcall (SemaphoreGive sem);;
  ret true.

Definition start_server (server : Z) : daemon bool :=
  let* a := the_args in
  match gen_resource_id a with
  | Some ref => generate_id server ref
  | None =>
      unless match config_file_path a with
             | Some path => let* rc := dcall (ServerLoadXml server path) in ret (dds_ok rc)
             | None => ret true
             end
      then ret false else
      unless NANO_AgentDaemon_initialize_xrce then ret false else
      let* rc := dcall (ServerStart server) in
      ret (dds_ok rc)
  end.

(** What follows [done] on failure: the agents are deleted, not the semaphore. *)
Definition undo_initialize : daemon unit :=
  let* server := gets d_server in
  (match server with
   | Some s => dcall (ServerDelete (Some s));; modify (set_d_server None)
   | None => ret tt
   end);;
  let* agent := gets d_agent in
  match agent with
  | Some a => dcall (AgentDelete a);; modify (set_d_agent None)
  | None => ret tt
  end.

(** [None]: the process ends here. *)
Definition NANO_AgentDaemon_initialize (arg0 : option cstr) (argv : list cstr)
    : daemon (option bool) :=
  let failed := (undo_initialize;; ret (Some false)) in
  unless NANO_AgentDaemon_parse_args argv then dcall (PrintHelp arg0);; failed else
  let* a := the_args in
  if show_help a then dcall (PrintHelp arg0);; dcall (ExitProcess 0);; ret None else
  dcall (SetLogLevel (log_level (verbosity a)));;
  unless create_server then failed else
  let* server := reads d_server in
  unless start_server server then failed else
  ret (Some true).

Definition NANO_AgentDaemon_finalize : daemon unit :=
  let* server := gets d_server in
  dcall (ServerDelete server);;
  modify (set_d_server None);;
  let* agent := gets d_agent in
  (match agent with
   | Some a => dcall (AgentDelete a);; modify (set_d_agent None)
   | None => ret tt
   end);;
  let* sem := gets sem_exit in
  dcall (SemaphoreDelete sem);;
  modify (set_sem_exit None);;
  NANO_AgentDaemonArgs_finalize.

Definition NANO_AgentDaemon_wait_for_exit : daemon unit :=
  let* sem := reads sem_exit in
  dcall (SemaphoreTake sem).

(** The status the process ends with. *)
Definition main (arg0 : option cstr) (argv : list cstr) : daemon Z :=
  dcall (SetLogLevel LEVEL_WARNING);;
  let* initd := NANO_AgentDaemon_initialize arg0 argv in
  match initd with
  | None => ret 0%Z
  | Some false => ret main_failed
  | Some true =>
      NANO_AgentDaemon_wait_for_exit;;
      NANO_AgentDaemon_finalize;;
      ret 0%Z
  end.
End daemon.

(** ** What is made and what is deleted *)

Inductive Step :=
  | StepSemaphore (sem : Z)
  | StepServer (server : Z)
  | StepAgent (agent : Z)
  | StepWait (sem : Z).

(** What a call makes when it succeeds. *)
Definition made (e : event DResp) : list Step :=
  let '(existT c r) := e in
  match c return DResp c -> list Step with
  | SemaphoreNew => fun r => StepSemaphore <$> option_list r
  | ServerCreate _ _ => fun r => StepServer <$> option_list r
  | AgentNew _ _ => fun r => StepAgent <$> option_list r
  | _ => fun _ => []
  end r.

(** What it deletes; waiting is a step of its own, so that its place is known. *)
Definition deleted_by (c : DCall) : list Step :=
  match c with
  | SemaphoreTake s => [StepWait s]
  | SemaphoreDelete s => StepSemaphore <$> option_list s
  | ServerDelete s => StepServer <$> option_list s
  | AgentDelete a => [StepAgent a]
  | _ => []
  end.

Definition all_made (t : list (event DResp)) : list Step := mjoin (made <$> t).
Definition all_deleted (t : list (event DResp)) : list Step := mjoin (deleted_by <$> calls t).

Lemma all_made_cons c r t : all_made (existT c r :: t) = made (existT c r) ++ all_made t.
Proof. done. Qed.
Lemma all_deleted_cons c r t : all_deleted (existT c r :: t) = deleted_by c ++ all_deleted t.
Proof. done. Qed.
#[local] Arguments all_made : simpl never.
#[local] Arguments all_deleted : simpl never.

Lemma all_made_app t1 t2 : all_made (t1 ++ t2) = all_made t1 ++ all_made t2.
Proof. unfold all_made. by rewrite fmap_app, join_app. Qed.
Lemma all_deleted_app t1 t2 : all_deleted (t1 ++ t2) = all_deleted t1 ++ all_deleted t2.
Proof. unfold all_deleted. by rewrite calls_app, fmap_app, join_app. Qed.

(** What the daemon holds, in the order it is made. *)
Definition held (d : NANO_AgentDaemon) : list Step :=
  (StepSemaphore <$> option_list (sem_exit d)) ++ (StepServer <$> option_list (d_server d))
  ++ (StepAgent <$> option_list (d_agent d)).

Definition same_held (d d' : NANO_AgentDaemon) : Prop :=
  sem_exit d' = sem_exit d /\ d_server d' = d_server d /\ d_agent d' = d_agent d.

#[export] Instance same_held_preorder : PreOrder same_held.
Proof. split; [by intros d | intros a b c (?&?&?) (?&?&?); repeat split; congruence]. Qed.

(** Calls that neither make nor delete. *)
Definition plain_call (c : DCall) : bool :=
  match c with
  | SemaphoreNew | ServerCreate _ _ | AgentNew _ _ | SemaphoreTake _ | SemaphoreDelete _
  | ServerDelete _ | AgentDelete _ => false
  | _ => true
  end.

Lemma plain_steps t : only plain_call t -> all_made t = [] /\ all_deleted t = [].
Proof.
  unfold all_made, all_deleted. induction t as [| [c r] t IH]; [done |].
  intros H. apply Forall_cons in H as [Hc Ht]. destruct (IH Ht) as [H1 H2].
  change (made (existT c r) ++ mjoin (made <$> t) = [] /\ deleted_by c ++ mjoin (deleted_by <$> calls t) = []).
  rewrite H1, H2, !app_nil_r. by destruct c.
Qed.

Section held.
Context {N : NanoClient} {D : DaemonApi}.

(** A program that neither makes nor deletes anything. *)
Lemma when_ends_plain {A} (m : daemon A) s Q :
  makes plain_call m -> preserves same_held m ->
  (forall t a s', all_made t = [] -> all_deleted t = [] -> same_held s s' -> Q t a s') ->
  when_ends m s Q.
Proof.
  intros Hm Hp HQ. eapply when_ends_mono; [by apply (when_ends_frame plain_call same_held) |].
  intros t a s' [Ho Hs]. destruct (plain_steps t Ho). by apply HQ.
Qed.
End held.

Section balanced.
Context {N : NanoClient} {D : DaemonApi}.

Ltac plain := repeat first [progress makes_step | progress frame_step
                           | progress (destruct_and?; simplify_eq/=)]; try done; auto.

Lemma parse_args_plain argv :
  makes plain_call (NANO_AgentDaemon_parse_args argv)
  /\ preserves same_held (NANO_AgentDaemon_parse_args argv).
Proof. split; unfold NANO_AgentDaemon_parse_args, the_args; plain. Qed.

Lemma signals_plain l : makes plain_call (signals_loop l) /\ preserves same_held (signals_loop l).
Proof.
  induction l as [| sig l [IH1 IH2]]; cbn [signals_loop]; unfold NANO_AgentDaemon_set_exit_on_signal;
    split; plain.
Qed.

Lemma register_serials_plain agent :
  makes plain_call (register_serials agent) /\ preserves same_held (register_serials agent).
Proof. split; unfold register_serials, register_serial, the_args; plain. Qed.

Lemma generate_id_plain server ref :
  makes plain_call (generate_id server ref) /\ preserves same_held (generate_id server ref).
Proof. split; unfold generate_id, the_args; plain. Qed.

Lemma args_finalize_plain :
  makes plain_call NANO_AgentDaemonArgs_finalize /\ preserves same_held NANO_AgentDaemonArgs_finalize.
Proof. split; unfold NANO_AgentDaemonArgs_finalize, the_args, free_arg; plain. Qed.


Lemma undo_initialize_ends (d : NANO_AgentDaemon) :
  when_ends undo_initialize d (fun t _ d' =>
    all_made t = []
    /\ all_deleted t = (StepServer <$> option_list (d_server d)) ++ (StepAgent <$> option_list (d_agent d))
    /\ sem_exit d' = sem_exit d /\ d_server d' = None /\ d_agent d' = None).
Proof.
  unfold undo_initialize. destruct d as [[a|] [s|] sem ar]; repeat (ends_step; cbn [d_agent d_server set_d_server]);
    done.
Qed.

(** Computes what a trace that was walked through made and deleted. *)
Ltac fields := cbn [made deleted_by option_list fmap list_fmap map app sem_exit d_server d_agent args
  set_sem_exit set_d_server set_d_agent set_args] in *.
Ltac traces :=
  cbn beta iota; rewrite ?all_made_app, ?all_deleted_app, ?all_made_cons, ?all_deleted_cons;
  fields;
  repeat match goal with
  | H : all_made _ = _ |- _ => rewrite H
  | H : all_deleted _ = _ |- _ => rewrite H
  end;
  repeat match goal with
  | |- context [all_made (@nil ?T)] => change (all_made (@nil T)) with (@nil Step)
  | |- context [all_deleted (@nil ?T)] => change (all_deleted (@nil T)) with (@nil Step)
  end; fields; rewrite ?app_nil_r.
Ltac settle :=
  traces; unfold held; fields;
  repeat match goal with
  | H : sem_exit _ = _ |- _ => rewrite H
  | H : d_server _ = _ |- _ => rewrite H
  | H : d_agent _ = _ |- _ => rewrite H
  end; fields; rewrite ?app_nil_r; split_and?; intros; try discriminate; split_and?; eauto.

(** [create_server] from nothing: on success the semaphore and the server are there. *)
Lemma create_server_ends (d : NANO_AgentDaemon) :
  held d = [] ->
  when_ends create_server d (fun t ok d' =>
    all_made t = held d' /\ all_deleted t = [] /\ d_agent d' = None
    /\ (ok = true -> is_Some (sem_exit d') /\ is_Some (d_server d'))).
Proof.
  destruct d as [[|] [|] [|] ar]; try done. intros _. unfold create_server, the_args.
  ends_step. ends_step. ends_step. ends_step. case_bool_decide as Hs; [subst; ends_step; by settle |].
  destruct r as [sem|]; [| done]. clear Hs.
  ends_step. ends_step. destruct r; [| ends_step; by settle].
  ends_step. ends_step. destruct r; [| ends_step; by settle].
  ends_step. apply when_ends_plain; [apply signals_plain .. |].
  intros t ok d' Hm Hd (H1 & H2 & H3). cbn in H1, H2, H3. destruct ok; [| ends_step; by settle].
  do 5 ends_step. destruct r as [server|]; repeat ends_step; settle.
Qed.

(** The XRCE agent is made first; what it is created for may fail. *)
Lemma initialize_xrce_ends (d : NANO_AgentDaemon) :
  d_agent d = None ->
  when_ends NANO_AgentDaemon_initialize_xrce d (fun t _ d' =>
    all_made t = (StepAgent <$> option_list (d_agent d')) /\ all_deleted t = []
    /\ sem_exit d' = sem_exit d /\ d_server d' = d_server d).
Proof.
  intros Hd. unfold NANO_AgentDaemon_initialize_xrce, the_args.
  do 6 ends_step. destruct r as [agent|]; [| ends_step; settle].
  apply when_ends_plain.
  1, 2: pose proof (register_serials_plain agent) as [? ?]; plain.
  intros t ok d' Hm Hd' (H1 & H2 & H3). settle.
Qed.

Lemma start_server_ends server (d : NANO_AgentDaemon) :
  d_agent d = None ->
  when_ends (start_server server) d (fun t _ d' =>
    all_made t = (StepAgent <$> option_list (d_agent d')) /\ all_deleted t = []
    /\ sem_exit d' = sem_exit d /\ d_server d' = d_server d).
Proof.
  intros Hd. unfold start_server, the_args. do 2 ends_step.
  destruct (gen_resource_id (args d)) as [ref|].
  { apply when_ends_plain; [apply generate_id_plain .. |]. intros t ok d' Hm Hg (H1 & H2 & H3).
    cbn [app]. rewrite H3, Hd. settle. }
  ends_step. apply when_ends_plain; [plain .. |].
  intros t ok d1 Hm Hg (H1 & H2 & H3). destruct ok; [| ends_step; settle].
  ends_step. eapply when_ends_mono; [apply initialize_xrce_ends; congruence |].
  intros t' ok d2 (Hm' & Hg' & H1' & H2'). destruct ok; [| ends_step; settle].
  repeat ends_step. settle.
Qed.

(** A failure deletes all but the semaphore. *)
Definition all_but_semaphore (made deleted : list Step) (d : NANO_AgentDaemon) : Prop :=
  exists sems agents, made = sems ++ agents /\ (length sems <= 1)%nat /\ deleted = agents
                      /\ held d = sems.

Lemma failed_ends (d : NANO_AgentDaemon) :
  when_ends (bind undo_initialize (fun _ => ret (Some false))) d (fun t r d' =>
    r = Some false /\ all_made t = [] /\ all_but_semaphore (held d) (all_deleted t) d').
Proof.
  ends_step. eapply when_ends_mono; [apply undo_initialize_ends |].
  intros t [] d' (Hm & Hd & H1 & H2 & H3). ends_step. rewrite !app_nil_r. split; [done |]. split; [done |].
  exists (StepSemaphore <$> option_list (sem_exit d)).
  eexists. split; [reflexivity |]. split; [by destruct (sem_exit d); cbn; lia |]. split; [done |].
  unfold held. by rewrite H1, H2, H3, !app_nil_r.
Qed.

(** How the initialization ends. *)
Lemma initialize_ends arg0 argv :
  when_ends (NANO_AgentDaemon_initialize arg0 argv) NANO_AGENTDAEMON_INITIALIZER (fun t r d' =>
    match r with
    | None => all_made t = [] /\ all_deleted t = []
    | Some true => all_made t = held d' /\ all_deleted t = []
                   /\ is_Some (sem_exit d') /\ is_Some (d_server d')
    | Some false => all_but_semaphore (all_made t) (all_deleted t) d'
    end).
Proof.
  unfold NANO_AgentDaemon_initialize, the_args.
  ends_step. apply when_ends_plain; [apply parse_args_plain .. |]. intros t ok d Hm Hd Hs.
  assert (held d = []) as Hh by (destruct Hs as (H1 & H2 & H3); unfold held; by rewrite H1, H2, H3).
  destruct ok.
  2: { ends_step. ends_step. eapply when_ends_mono; [apply failed_ends |].
       rewrite Hh. intros t' r' d' (-> & Hm' & H). traces. done. }
  do 2 ends_step. destruct (show_help _); [repeat ends_step; settle |].
  do 3 ends_step. eapply when_ends_mono; [by apply create_server_ends |].
  intros t1 ok d1 (Hm1 & Hd1 & Ha1 & Hok). destruct ok.
  2: { eapply when_ends_mono; [apply failed_ends |].
       intros t' r' d' (-> & Hm' & H). traces. done. }
  ends_step. apply when_ends_reads. intros server Hsv. ends_step.
  eapply when_ends_mono; [by apply start_server_ends |].
  intros t2 ok d2 (Hm2 & Hd2 & H2 & H3).
  assert (held d1 ++ (StepAgent <$> option_list (d_agent d2)) = held d2) as Hall.
  { unfold held. by rewrite H2, H3, Ha1, app_nil_r, app_assoc. }
  destruct ok.
  - ends_step. rewrite H2, H3. traces. by destruct (Hok eq_refl).
  - eapply when_ends_mono; [apply failed_ends |].
    intros t' r' d' (-> & Hm' & H). rewrite <- Hall in H. traces. done.
Qed.

(** C39: whatever the system and the agents answer, the daemon deletes what it made.  A run
    that prints the help makes nothing.  One that starts waits for the semaphore it made, and
    then deletes the server, the XRCE agent and the semaphore, in this order and once each.
    One that fails deletes the server and the agent it has made so far, and ends with the
    semaphore as the only thing left and with the status the macro of the client library leaves. *)
Theorem main_balanced arg0 argv :
  when_ends (main arg0 argv) NANO_AGENTDAEMON_INITIALIZER (fun t rc d' =>
    (rc = 0%Z /\ all_made t = [] /\ all_deleted t = [])
    \/ (rc = 0%Z /\ held d' = [] /\ exists sem server agents,
          all_made t = StepSemaphore sem :: StepServer server :: agents
          /\ all_deleted t = StepWait sem :: StepServer server :: agents ++ [StepSemaphore sem])
    \/ (rc = main_failed /\ all_but_semaphore (all_made t) (all_deleted t) d')).
Proof.
  unfold main. do 3 ends_step. eapply when_ends_mono; [apply initialize_ends |].
  intros t [[|] |] d H.
  - destruct d as [agent server_ sem_ ar], H as (Hm & Hd & [sem Hsem] & [server Hsv]).
    cbn in Hsem, Hsv. subst. unfold held in Hm. fields.
    unfold NANO_AgentDaemon_wait_for_exit, NANO_AgentDaemon_finalize.
    do 2 ends_step. apply when_ends_reads. intros ? [= <-]. ends_step.
    set (agents := StepAgent <$> option_list agent) in Hm.
    destruct agent as [agent|]; repeat (ends_step; fields);
      (apply when_ends_plain; [apply args_finalize_plain .. |]; intros tf [] sf Hmf Hdf (H1 & H2 & H3);
       ends_step; right; left; split; [done |]; split; [settle |]; exists sem, server, agents; subst agents;
       fields; traces; settle).
  - ends_step. right. right. traces. done.
  - ends_step. left. destruct H. settle.
Qed.
End balanced.
